(* ===== verification/_CoqProject ===== *)
-Q . S2P
Prelude.v
Memory.v
Config.v
VirtioRing.v
Virtqueue.v
RingQueue.v
VirtqueueSpec.v
Concrete.v
ChannelRefinement.v
Layout.v
Publication.v
Link.v
World.v
Lpc55s69.v
BareMetal.v
FreeRTOS.v
Llist.v
Endpoint.v
Transport.v
RpmsgLite.v
Sending.v
Receiving.v
RpmsgQueue.v
RpmsgNs.v
Services.v
Lane.v
Side.v
Conversation.v
RingInit.v
Init.v
Startup.v
MasterInit.v
Boot.v
BootConversation.v
FreeRTOSBoot.v
Platform.v
MessagePlatforms.v
FlagPlatforms.v
ZephyrPlatforms.v
PlatformMemory.v
PlatformServices.v
PlatformHeaders.v
PlatformBounds.v
PlatformMasking.v
PlatformNotify.v
ShmemConfig.v
Kernel.v
FreeRTOSCalls.v
BareMetalCalls.v
FreeRTOSExt.v
ThreadX.v
Xos.v
Zephyr.v
Qnx.v
EnvPorts.v
EnvObjects.v
PortLife.v
Aarch64.v
QnxPlatform.v
