(* ===== verification/Prelude.v ===== *)
(** * RPMsg-Lite: a verification library

    RPMsg-Lite is a message-passing library for the cores of a heterogeneous
    chip.  Two cores share a region of memory with two rings ([virtio_ring.h]),
    each with a descriptor table, an available ring and a used ring.  The master
    owns the buffers: it is the driver of both rings, the remote the device.
    On top of the rings ([virtqueue.c]) lies the core of the library
    ([rpmsg_lite.c]): endpoints with 32-bit addresses, sending (with and without
    a copy), the receive callback that runs in the notification interrupt,
    initialisation and release.  Below lies an environment layer
    ([rpmsg_env_*.c]) and a platform ([rpmsg_platform.c]).

    ** How the program is modelled

    A C function is a program in the monad [M] of this file: it returns, hangs
    (an assertion), is undefined (a bad pointer), or runs out of fuel; the
    theorems show that it returns.  Machine integers are [Z] with every
    truncation written out ([u16], [u32], [i32], [uptr]).  The shared memory is
    byte-addressed and little-endian ([Memory]); the control blocks, instances,
    endpoints and list nodes are objects on a heap of the core ([World]).  Every
    store, barrier, cache operation, notification and callback is an event of a
    trace, in order.  Each configuration macro is a field of the class [Config],
    so that an [#if] of the source is a test on a field and the theorems hold
    for all configurations.  The address translation of the port ([AddrMap]),
    the services of its operating system ([EnvLayer], with the laws [EnvLaws]
    and [LifeLaws]), the application's callbacks ([Application]) and what the
    rest of the system does while a task sleeps ([Outside]) are parameters.

    ** The files

    - [Prelude], [Memory], [Config]: integers, the monad and its [wp] rules,
      memory, configuration.
    - [VirtioRing]: [virtio_ring.h]; the layout theorems.  [Virtqueue]: every
      function of [virtqueue.c] on a control block, memory and trace.
      [RingQueue]: the two rings in memory read as queues.  [VirtqueueSpec]:
      well-formed control blocks, the exact effect of every operation, the
      abstract [Channel].  [ChannelRefinement]: each operation refines its
      channel operation on every branch.
    - [Publication]: what the other core can see while a store sequence is in
      flight; [Link]: the step relation of a driver and a device on one ring,
      its invariant (no buffer is lost or duplicated), in-order delivery and
      totality.
    - [Layout]: the sizes and places of the tables of a ring, what the
      constructor of a virtqueue checks, and the suppression of notifications.
    - [World]: heap, allocator, the interfaces of an environment: [EnvLayer]
      with [EnvLaws], and [EnvQueue] with [QueueLaws] for message queues.
      [Lpc55s69]: the platform, above the interface [Port] that it calls back.
      [BareMetal] and [FreeRTOS]: two environments ([rpmsg_env_bm.c],
      [rpmsg_env_freertos.c]) that implement the interfaces.
    - [Llist], [Endpoint]: [llist.c] and the endpoint table of [rpmsg_lite.c].
    - [Transport]: messages and the two [struct virtqueue_ops] tables, with one
      account of both roles.  [RpmsgLite]: sending and receiving of
      [rpmsg_lite.c].  [Sending], [Receiving]: their theorems.
    - [RpmsgQueue], [RpmsgNs]: [rpmsg_queue.c] and [rpmsg_ns.c], which the
      library calls through the receive callback of an endpoint.  [Services]:
      that call, and what arrives in the queues.
    - [Lane], [Side], [Conversation]: two instances of the library on one
      memory.  [Lane]: one direction, the sender's and the receiver's control
      block with the buffers on their way and the kept ones; [Side]: what one
      call of an application does to both lanes; [Conversation]: the system of
      two cores that take turns in any order, and its invariant.
    - [RingInit], [Init], [Startup], [MasterInit], [Boot]:
      [rpmsg_lite_master_init], [rpmsg_lite_remote_init], [rpmsg_lite_deinit];
      first the rings, then the steps both roles share, then filling the rings,
      then the theorems.  [BootConversation]: two cores booted on one memory
      are a system of [Conversation].  [FreeRTOSBoot]: starting and stopping the FreeRTOS
      environment, and waiting for the link on it, with the interrupt of the other
      core and the timer task between the statements of the wait.
    - [Platform], [MessagePlatforms], [FlagPlatforms], [ZephyrPlatforms],
      [PlatformMemory], [PlatformHeaders]: the other platforms, each with all its
      functions and its header.  [Platform] has the calls, the static variables
      and the shapes that recur; a chip's drivers answer through the class
      [Board] and every call is recorded in a log.  A definition of one platform
      bears the platform's name, as in [imxrt1170_platform_notify].
      [PlatformBounds]: the headers as configurations of the library, with the
      vectors and the layout they give.  [PlatformMasking]: the interface [Nests]
      of nested critical sections, the platforms that implement it and those
      that do not.  [PlatformNotify]: what is sent for a vector and which vector
      arrives.  [PlatformServices]: global masking, and the services for memory
      map and caches, most of them empty.  [ShmemConfig]: the configuration one
      core publishes for the other with a checksum, and which damage it detects.
    - [Kernel], [ThreadX], [Xos], [Zephyr], [Qnx]: the environment ports to four
      operating systems ([rpmsg_env_threadx.c] and so on), each with all its
      functions.  Kernel calls are recorded with their answers, which the class
      [Os] leaves open; [Kernel] reads off a record which blocks and objects
      exist and how far a semaphore has counted.  [EnvPorts]: nested starting and
      stopping on the first three, through one interface for any kernel
      ([RunningInit]) and one for kernels that grant what they are asked
      ([CountedInit]);
      [EnvObjects]: their locks, queues and waits.  [PortLife]: these three as
      implementations of [EnvLayer], with its laws, so that the theorems on the
      library hold on them.  [FreeRTOSCalls], [BareMetalCalls]: the functions of
      the other two ports that only pass their arguments on; [FreeRTOSExt]:
      [rpmsg_env_freertos_ext.c], a second copy of four functions.
    - [Aarch64], [QnxPlatform]: the platforms of application cores; the software
      mailbox of two cores, with sends from tasks and from interrupt handlers, and
      the handshake of two threads as step relations.
    - [Concrete]: a configuration and a ring on which the hypotheses of the
      theorems are seen to hold.

    ** Bounds and fuel

    Loops over counters are [Fixpoint]s on the exact number of turns.  Only the
    loops that wait or drain a queue take fuel; the theorems give the number
    that suffices: [polls] for waiting, one more than the entries of the queue
    for the receive callback, the size of the heap for a walk over a list.

    ** Not modelled

    The tests and examples, and the attributes and trace macros of
    [rpmsg_compiler.h].  The drivers, kernels and C libraries below the ports are
    not in the repository and are parameters.  The kernel objects of ThreadX, XOS,
    Zephyr and QNX are known by the calls made for them only: no theorem says that
    two tasks are scheduled fairly, and the contents of their message queues are
    not followed, so that [QueueLaws] is shown for FreeRTOS alone.  QNX, whose
    services are reached through a context of each instance, is not shown to
    satisfy [EnvLaws]. *)

From stdpp Require Export base tactics numbers list gmap.
From Stdlib Require Export ZArith Lia.

#[global] Open Scope Z_scope.

(** ** Fixed-width integers

    A C integer of width [w] is a [Z] together with its wrap-around, written
    out where the source truncates (an assignment to a narrower type, a cast,
    an unsigned addition). *)

Definition u8 (z : Z) : Z := z mod 256.
Definition u16 (z : Z) : Z := z mod 65536.
Definition u32 (z : Z) : Z := z mod 4294967296.
Definition u64 (z : Z) : Z := z mod 18446744073709551616.

(** Conversion of an unsigned 32-bit value to [int32_t] (two's complement). *)
Definition i32 (z : Z) : Z :=
  let r := u32 z in if r <? 2147483648 then r else r - 4294967296.

Definition INT32_MAX : Z := 2147483647.

Arguments u8 : simpl never.
Arguments u16 : simpl never.
Arguments u32 : simpl never.
Arguments u64 : simpl never.
Arguments i32 : simpl never.

(** C truth values of [int32_t]-returning predicates. *)
Definition Z_of_bool (b : bool) : Z := if b then 1 else 0.

(** A power of two, by its exponent. *)
Definition pow2 (n : Z) : Prop := ∃ k, 0 ≤ k ∧ n = 2 ^ k.

(** ** Results of a C call

    [Ok]: the call returned.  [Hang]: it reached [RL_HANG] or the endless loop
    of [VQASSERT].  [Undef]: it dereferenced a pointer that is NULL or does not
    point to a live object of the expected type.  [Fuel]: a bounded unrolling
    of a loop was too short; the totality theorems show it is not reached. *)
Inductive outcome (S A : Type) : Type :=
| Ok (a : A) (s : S)
| Hang (s : S)
| Undef
| Fuel.
Arguments Ok {S A} a s.
Arguments Hang {S A} s.
Arguments Undef {S A}.
Arguments Fuel {S A}.

(** The state-and-outcome monad in which the C functions are written. *)
Definition M (S A : Type) : Type := S → outcome S A.

#[global] Instance M_ret S : MRet (M S) := λ A a s, Ok a s.

#[global] Instance M_bind S : MBind (M S) := λ A B k m s,
  match m s with
  | Ok a s' => k a s'
  | Hang s' => Hang s'
  | Undef => Undef
  | Fuel => Fuel
  end.

Definition get_state {S} : M S S := λ s, Ok s s.
Definition modify {S} (f : S → S) : M S unit := λ s, Ok tt (f s).
Definition hang {S A} : M S A := λ s, Hang s.
Definition undef {S A} : M S A := λ s, Undef.
Definition no_fuel {S A} : M S A := λ s, Fuel.

(** Run a computation on a component [T] of the state, given how to read it
    and how to put it back. *)
Definition zoom {S T A} (get : S → option T) (put : T → S → S) (m : M T A) : M S A := λ s,
  match get s with
  | None => Undef
  | Some t =>
      match m t with
      | Ok a t' => Ok a (put t' s)
      | Hang t' => Hang (put t' s)
      | Undef => Undef
      | Fuel => Fuel
      end
  end.

(** [wp m Q s]: started in [s], [m] returns (it neither hangs, nor is
    undefined, nor runs out of fuel) with a value and a state satisfying [Q]. *)
Definition wp {S A} (m : M S A) (Q : A → S → Prop) (s : S) : Prop :=
  match m s with
  | Ok a s' => Q a s'
  | _ => False
  end.

(** Reflexive and transitive closure of a step relation. *)
Inductive star {A : Type} (R : A → A → Prop) : A → A → Prop :=
| star_refl a : star R a a
| star_step a b c : star R a b → R b c → star R a c.

(** ** Rules of [wp] *)

Create HintDb wp discriminated.

Section wp.
Context {S : Type}.

Lemma wp_unfold {A} (m : M S A) Q s :
  wp m Q s ↔ ∃ a s', m s = Ok a s' ∧ Q a s'.
Proof.
  unfold wp. destruct (m s) as [a s'|s'| |]; split; try done.
  - intros HQ. by exists a, s'.
  - intros (a' & s'' & Heq & HQ). by injection Heq as -> ->.
  - by intros (? & ? & ? & _).
  - by intros (? & ? & ? & _).
  - by intros (? & ? & ? & _).
Qed.

Lemma wp_ok {A} (m : M S A) Q s a s' : m s = Ok a s' → Q a s' → wp m Q s.
Proof. intros Hm HQ. unfold wp. by rewrite Hm. Qed.

Lemma wp_elim {A} (m : M S A) Q s a s' : wp m Q s → m s = Ok a s' → Q a s'.
Proof. unfold wp. intros HQ Hm. by rewrite Hm in HQ. Qed.

Lemma wp_ret {A} (a : A) (Q : A → S → Prop) s : wp (mret a) Q s = Q a s.
Proof. done. Qed.

Lemma wp_bind {A B} (m : M S A) (k : A → M S B) Q s :
  wp (m ≫= k) Q s = wp m (λ a, wp (k a) Q) s.
Proof. unfold wp, mbind, M_bind. by destruct (m s). Qed.

Lemma wp_get_state (Q : S → S → Prop) (s : S) : wp get_state Q s = Q s s.
Proof. done. Qed.

Lemma wp_modify (f : S → S) (Q : unit → S → Prop) s : wp (modify f) Q s = Q tt (f s).
Proof. done. Qed.

Lemma wp_mono {A} (m : M S A) (Q Q' : A → S → Prop) s :
  (∀ a s', Q a s' → Q' a s') → wp m Q s → wp m Q' s.
Proof. intros HQ. unfold wp. destruct (m s); naive_solver. Qed.

Lemma wp_if {A} (b : bool) (m1 m2 : M S A) Q s :
  wp (if b then m1 else m2) Q s = if b then wp m1 Q s else wp m2 Q s.
Proof. by destruct b. Qed.

Lemma bind_ok {A B} (m : M S A) (k : A → M S B) s a s' :
  m s = Ok a s' → (m ≫= k) s = k a s'.
Proof. intros Hm. unfold mbind, M_bind. by rewrite Hm. Qed.

Lemma wp_zoom {T A} (get : S → option T) (put : T → S → S) (m : M T A) Q s t :
  get s = Some t → wp m (λ a t', Q a (put t' s)) t → wp (zoom get put m) Q s.
Proof. intros Hg. unfold wp, zoom. rewrite Hg. by destruct (m t). Qed.

End wp.

(** ** Closures *)

Lemma star_one {A} (R : A → A → Prop) a b : R a b → star R a b.
Proof. intros HR. eapply star_step; [constructor|done]. Qed.

Lemma star_trans {A} (R : A → A → Prop) a b c : star R a b → star R b c → star R a c.
Proof. intros Hab Hbc. revert Hab. induction Hbc; eauto using star. Qed.

(** Rule induction packaged for invariants: a property that holds initially
    and is kept by every step holds in every reachable state. *)
Lemma star_invariant {A} (R : A → A → Prop) (I : A → Prop) a b :
  (∀ x y, I x → R x y → I y) → star R a b → I a → I b.
Proof. intros Hstep Hs Ha. induction Hs; eauto. Qed.

(** ** Automation *)

(** Unfold the width functions and hand the [mod] equations to [lia]. *)
Ltac zwrap :=
  unfold u8, u16, u32, u64, i32, INT32_MAX in *;
  Z.to_euclidean_division_equations; lia.

(** Case analysis on the boolean tests of [Z] in the goal. *)
Ltac zcases :=
  repeat match goal with
  | |- context [?a <? ?b] => destruct (Z.ltb_spec a b)
  | |- context [?a <=? ?b] => destruct (Z.leb_spec a b)
  | |- context [?a >? ?b] => rewrite (Z.gtb_ltb a b)
  | |- context [?a >=? ?b] => rewrite (Z.geb_leb a b)
  | |- context [?a =? ?b] => destruct (Z.eqb_spec a b)
  end.

(** One step of the symbolic execution of a monadic program under [wp]. *)
Ltac wp_step :=
  first [ rewrite wp_bind | rewrite wp_ret | rewrite wp_get_state | rewrite wp_modify ].
Ltac wp_steps := repeat (wp_step; cbn beta).

(** ** Integer lemmas *)

Lemma u8_range z : 0 ≤ u8 z < 256.
Proof. zwrap. Qed.
Lemma u16_range z : 0 ≤ u16 z < 65536.
Proof. zwrap. Qed.
Lemma u32_range z : 0 ≤ u32 z < 4294967296.
Proof. zwrap. Qed.
Lemma u64_range z : 0 ≤ u64 z < 18446744073709551616.
Proof. zwrap. Qed.

Lemma u16_small z : 0 ≤ z < 65536 → u16 z = z.
Proof. apply Z.mod_small. Qed.
Lemma u32_small z : 0 ≤ z < 4294967296 → u32 z = z.
Proof. apply Z.mod_small. Qed.
Lemma u64_small z : 0 ≤ z < 18446744073709551616 → u64 z = z.
Proof. apply Z.mod_small. Qed.
Lemma i32_small z : 0 ≤ z < 2147483648 → i32 z = z.
Proof. intros. unfold i32. rewrite u32_small by lia. zcases; lia. Qed.

Lemma u16_u16 z : u16 (u16 z) = u16 z.
Proof. apply Z.mod_mod. lia. Qed.
Lemma u32_u32 z : u32 (u32 z) = u32 z.
Proof. apply Z.mod_mod. lia. Qed.

Lemma u16_add_l x y : u16 (u16 x + y) = u16 (x + y).
Proof. apply Zplus_mod_idemp_l. Qed.
Lemma u16_add_r x y : u16 (x + u16 y) = u16 (x + y).
Proof. apply Zplus_mod_idemp_r. Qed.
Lemma u16_sub_l x y : u16 (u16 x - y) = u16 (x - y).
Proof. apply Zminus_mod_idemp_l. Qed.
Lemma u16_sub_r x y : u16 (x - u16 y) = u16 (x - y).
Proof. apply Zminus_mod_idemp_r. Qed.

Create HintDb width discriminated.
#[export] Hint Resolve u8_range u16_range u32_range u64_range : width.
Create Rewrite HintDb widths.
#[export] Hint Rewrite u16_u16 u32_u32 u16_add_l u16_add_r u16_sub_l u16_sub_r : widths.

(** *** Powers of two *)

Lemma pow2_pos n : pow2 n → 0 < n.
Proof. intros (k & ? & ->). apply Z.pow_pos_nonneg; lia. Qed.

(** Masking with [n - 1] is the remainder by [n]. *)
Lemma land_pow2_mask x n : pow2 n → Z.land x (n - 1) = x mod n.
Proof.
  intros (k & Hk & ->). rewrite <- Z.land_ones by done.
  f_equal. rewrite Z.ones_equiv. lia.
Qed.

(** Clearing the low bits rounds down to a multiple of [n]. *)
Lemma ldiff_pow2_mask x n : pow2 n → Z.ldiff x (n - 1) = x - x mod n.
Proof.
  intros (k & Hk & ->).
  replace (2 ^ k - 1) with (Z.ones k) by (rewrite Z.ones_equiv; lia).
  rewrite Z.ldiff_ones_r by done.
  rewrite Z.shiftl_mul_pow2, Z.shiftr_div_pow2 by done.
  pose proof (Z.div_mod x (2 ^ k) ltac:(apply Z.pow_nonzero; lia)). lia.
Qed.

Lemma pow2_bound n : pow2 n → n ≤ 32768 → ∃ k, 0 ≤ k ≤ 15 ∧ n = 2 ^ k.
Proof.
  intros (k & Hk & ->) Hn. exists k. split; [|done]. split; [done|].
  destruct (Z.le_gt_cases k 15); [done|].
  assert (2 ^ 16 ≤ 2 ^ k) by (apply Z.pow_le_mono_r; lia). lia.
Qed.

(** A free-running 16-bit counter is consistent modulo a ring size that is a
    power of two: the wrap at 2^16 does not move the slot. *)
Lemma u16_mod_pow2 x n : pow2 n → n ≤ 32768 → u16 x mod n = x mod n.
Proof.
  intros Hp Hn. destruct (pow2_bound n Hp Hn) as (k & Hk & ->).
  unfold u16. change 65536 with (2 ^ 16).
  replace (2 ^ 16) with (2 ^ k * 2 ^ (16 - k)) by (rewrite <- Z.pow_add_r by lia; f_equal; lia).
  rewrite Z.rem_mul_r by (try apply Z.pow_pos_nonneg; try apply Z.pow_nonzero; lia).
  rewrite Z.mul_comm, Z.mod_add by (apply Z.pow_nonzero; lia).
  apply Z.mod_mod. apply Z.pow_nonzero; lia.
Qed.

(** [n & (n - 1)] tests for a power of two. *)
Lemma land_pred_zero_pow2 n : 0 < n → Z.land n (n - 1) = 0 → pow2 n.
Proof.
  intros Hn Hl. set (k := Z.log2 n).
  destruct (Z.log2_spec n Hn) as [Hlo Hhi]. fold k in Hlo, Hhi.
  assert (0 ≤ k) as Hk by apply Z.log2_nonneg.
  exists k. split; [done|].
  destruct (Z.eq_dec n (2 ^ k)) as [|Hne]; [done|exfalso].
  assert (Z.log2 (n - 1) = k) as Hk1.
  { apply Z.log2_unique; lia. }
  assert (Z.testbit (Z.land n (n - 1)) k = true) as Hb.
  { rewrite Z.land_spec. apply andb_true_iff. split.
    - apply Z.bit_log2. lia.
    - rewrite <- Hk1. apply Z.bit_log2.
      assert (0 < 2 ^ k) by (apply Z.pow_pos_nonneg; lia). lia. }
  rewrite Hl, Z.bits_0 in Hb. done.
Qed.

Lemma pow2_land_pred_zero n : pow2 n → Z.land n (n - 1) = 0.
Proof. intros Hp. rewrite land_pow2_mask by done. apply Z.mod_same. pose proof (pow2_pos n Hp). lia. Qed.

(** The power-of-two test of the source, 0 included. *)
Lemma pow2_test n : 0 ≤ n < 4294967296 →
  (Z.land n (u32 (n - 1)) =? 0) = true ∧ (n = 0 ∨ pow2 n) ∨
  (Z.land n (u32 (n - 1)) =? 0) = false ∧ (0 < n ∧ ¬ pow2 n).
Proof.
  intros Hn. destruct (Z.eqb_spec (Z.land n (u32 (n - 1))) 0) as [Ht|Ht]; [left|right]; (split; [done|]).
  - destruct (Z.eq_dec n 0) as [|Hz]; [by left|right]. rewrite u32_small in Ht by lia.
    apply land_pred_zero_pow2; [lia|done].
  - destruct (Z.eq_dec n 0) as [->|Hz]; [by destruct Ht|]. split; [lia|]. intros Hp. apply Ht.
    rewrite u32_small by lia. by apply pow2_land_pred_zero.
Qed.

(** ** List lemmas *)

Lemma seqZ_snoc m n : 0 ≤ n → seqZ m (n + 1) = seqZ m n ++ [m + n].
Proof.
  intros Hn. rewrite seqZ_app by lia. reflexivity.
Qed.

Lemma seqZ_shift_map {A} (f : Z → A) m n : f <$> seqZ m n = (λ k, f (m + k)) <$> seqZ 0 n.
Proof.
  replace m with (m + 0) at 1 by lia. by rewrite <- fmap_add_seqZ, <- list_fmap_compose.
Qed.

Lemma length_seqZ_Z m n : 0 ≤ n → Z.of_nat (length (seqZ m n)) = n.
Proof. intros. rewrite length_seqZ. lia. Qed.
