(* ===== verification/Memory.v ===== *)
(** * Byte-addressed memory

    The memory both cores see, as a finite map from addresses to bytes, with
    the little-endian accesses of the C types ([uint16_t], [uint32_t],
    [uint64_t]), [memset], [memcpy] and byte strings.  An address that was
    never written reads as 0.  Two memories that read the same at every
    address are equivalent ([≡]); loads respect the equivalence. *)

From S2P Require Import Prelude.

(** The address space: one byte per cell.  A cell is read modulo 256, so
    [byte_at] is a byte whatever is stored. *)
Definition mem : Type := gmap Z Z.

Definition byte_at (m : mem) (a : Z) : Z := u8 (default 0 (m !! a)).

Definition put_byte (m : mem) (a v : Z) : mem := <[a := u8 v]> (m : gmap Z Z).

(** Little-endian load and store of [n] bytes. *)
Fixpoint load (n : nat) (m : mem) (a : Z) : Z :=
  match n with
  | O => 0
  | S k => byte_at m a + 256 * load k m (a + 1)
  end.

Fixpoint store (n : nat) (m : mem) (a v : Z) : mem :=
  match n with
  | O => m
  | S k => store k (put_byte m a v) (a + 1) (v / 256)
  end.

(** Byte strings. *)
Fixpoint load_bytes (m : mem) (a : Z) (n : nat) : list Z :=
  match n with
  | O => []
  | S k => byte_at m a :: load_bytes m (a + 1) k
  end.

Fixpoint store_bytes (m : mem) (a : Z) (bs : list Z) : mem :=
  match bs with
  | [] => m
  | b :: bs' => store_bytes (put_byte m a b) (a + 1) bs'
  end.

(** [memset(a, c, n)] and [memcpy(dst, src, n)] (the source is read first: the
    regions do not overlap in any call of the program). *)
Definition mem_set (m : mem) (a c n : Z) : mem := store_bytes m a (replicate (Z.to_nat n) c).
Definition mem_cpy (m : mem) (dst src n : Z) : mem :=
  store_bytes m dst (load_bytes m src (Z.to_nat n)).

(** [strncpy(dest, s, n)]: the bytes of [s] up to its NUL, padded with NULs to
    [n] bytes; no terminating NUL when [s] has [n] bytes or more. *)
Fixpoint c_string (s : list Z) : list Z :=
  match s with
  | [] => []
  | b :: s' => if u8 b =? 0 then [] else b :: c_string s'
  end.
Definition strncpy_bytes (s : list Z) (n : Z) : list Z :=
  let t := take (Z.to_nat n) (c_string s) in
  t ++ replicate (Z.to_nat n - length t) 0.

(** Extensional equivalence, and agreement on a region. *)
#[global] Instance mem_equiv : Equiv mem := λ m1 m2, ∀ a, byte_at m1 a = byte_at m2 a.
Definition agree_on (lo hi : Z) (m1 m2 : mem) : Prop :=
  ∀ a, lo ≤ a < hi → byte_at m1 a = byte_at m2 a.

(** Everything outside [lo, hi) is unchanged. *)
Definition frames (lo hi : Z) (m1 m2 : mem) : Prop :=
  ∀ a, a < lo ∨ hi ≤ a → byte_at m2 a = byte_at m1 a.

(** ** Single bytes *)

#[global] Arguments load : simpl never.
#[global] Arguments store : simpl never.
#[global] Arguments byte_at : simpl never.
#[global] Arguments put_byte : simpl never.

Lemma byte_at_range m a : 0 ≤ byte_at m a < 256.
Proof. apply u8_range. Qed.

Lemma byte_at_put m a v b :
  byte_at (put_byte m a v) b = if decide (a = b) then u8 v else byte_at m b.
Proof.
  unfold byte_at, put_byte, mem in *. rewrite lookup_insert. case_decide; [|done].
  apply Z.mod_mod. lia.
Qed.

(** ** Stores, byte by byte *)

Lemma byte_at_store n m a v b :
  byte_at (store n m a v) b =
    if decide (a ≤ b < a + Z.of_nat n) then u8 (v / 256 ^ (b - a)) else byte_at m b.
Proof.
  revert m a v. induction n as [|n IH]; intros m a v.
  - rewrite decide_False by lia. done.
  - change (store (S n) m a v) with (store n (put_byte m a v) (a + 1) (v / 256)).
    rewrite IH, byte_at_put. destruct (decide (a = b)) as [->|Hab].
    { rewrite decide_False, decide_True, Z.sub_diag, Z.pow_0_r, Z.div_1_r by lia. done. }
    repeat case_decide; try lia; try done.
    f_equal. rewrite Z.div_div by (try apply Z.pow_pos_nonneg; lia).
    replace (b - a) with (Z.succ (b - (a + 1))) by lia.
    by rewrite Z.pow_succ_r by lia.
Qed.

Lemma byte_at_store_bytes m a bs b :
  byte_at (store_bytes m a bs) b =
    if decide (a ≤ b) then
      match bs !! Z.to_nat (b - a) with Some v => u8 v | None => byte_at m b end
    else byte_at m b.
Proof.
  revert m a. induction bs as [|v bs IH]; intros m a; simpl.
  - by case_decide.
  - rewrite IH, byte_at_put. destruct (decide (a = b)) as [->|Hab].
    { by rewrite decide_False, decide_True, Z.sub_diag by lia. }
    repeat case_decide; try lia; try done.
    by replace (Z.to_nat (b - a)) with (S (Z.to_nat (b - (a + 1)))) by lia.
Qed.

(** ** Loads *)

Lemma load_S n m a : load (S n) m a = byte_at m a + 256 * load n m (a + 1).
Proof. done. Qed.

Lemma load_range n m a : 0 ≤ load n m a < 256 ^ Z.of_nat n.
Proof.
  revert a. induction n as [|n IH]; intros a; [unfold load; lia|].
  rewrite Nat2Z.inj_succ, Z.pow_succ_r by lia. rewrite load_S.
  pose proof (byte_at_range m a). specialize (IH (a + 1)). lia.
Qed.

Lemma load_ext n m1 m2 a :
  agree_on a (a + Z.of_nat n) m1 m2 → load n m1 a = load n m2 a.
Proof.
  revert a. induction n as [|n IH]; intros a Hag; [done|]. rewrite !load_S.
  rewrite (Hag a) by lia. by rewrite (IH (a + 1)) by (intros ??; apply Hag; lia).
Qed.

Lemma load_bytes_ext n m1 m2 a :
  agree_on a (a + Z.of_nat n) m1 m2 → load_bytes m1 a n = load_bytes m2 a n.
Proof.
  revert a. induction n as [|n IH]; intros a Hag; [done|]. simpl.
  rewrite (Hag a) by lia. by rewrite (IH (a + 1)) by (intros ??; apply Hag; lia).
Qed.

(** The same bytes elsewhere. *)
Lemma load_shift n m1 m2 a b :
  (∀ j, 0 ≤ j < Z.of_nat n → byte_at m1 (a + j) = byte_at m2 (b + j)) → load n m1 a = load n m2 b.
Proof.
  revert a b. induction n as [|n IH]; intros a b Hj; [done|]. rewrite !load_S.
  f_equal; [specialize (Hj 0); rewrite !Z.add_0_r in Hj; apply Hj; lia|]. f_equal. apply IH. intros j Hj'.
  rewrite <- !Z.add_assoc. apply Hj. lia.
Qed.

Lemma load_bytes_shift n m1 m2 a b :
  load_bytes m1 a n = load_bytes m2 b n ↔ ∀ j, 0 ≤ j < Z.of_nat n → byte_at m1 (a + j) = byte_at m2 (b + j).
Proof.
  revert a b. induction n as [|n IH]; intros a b; cbn [load_bytes]; [split; [lia|done]|]. split.
  - intros [= H0 H1] j Hj. destruct (decide (j = 0)) as [->|]; [by rewrite !Z.add_0_r|].
    replace (a + j) with (a + 1 + (j - 1)) by lia. replace (b + j) with (b + 1 + (j - 1)) by lia.
    apply (proj1 (IH _ _)); [done|lia].
  - intros Hj. f_equal.
    + specialize (Hj 0). rewrite !Z.add_0_r in Hj. apply Hj. lia.
    + apply IH. intros j Hj'. rewrite <- !Z.add_assoc. apply Hj. lia.
Qed.

Lemma length_load_bytes m a n : length (load_bytes m a n) = n.
Proof. revert a. induction n; intros; simpl; auto. Qed.

Lemma load_bytes_lookup m a n i :
  (i < n)%nat → load_bytes m a n !! i = Some (byte_at m (a + Z.of_nat i)).
Proof.
  revert a i. induction n as [|n IH]; intros a i Hi; [lia|].
  destruct i as [|i]; simpl; [by rewrite Z.add_0_r|].
  rewrite IH by lia. do 2 f_equal. lia.
Qed.

(** A store followed by a load of the same width at the same address. *)
Lemma take_load_bytes m a n k : (k ≤ n)%nat → take k (load_bytes m a n) = load_bytes m a k.
Proof.
  intros Hk. apply list_eq. intros i. destruct (Nat.lt_ge_cases i k).
  - by rewrite lookup_take_lt, !load_bytes_lookup by lia.
  - rewrite lookup_take_ge by done. symmetry. apply lookup_ge_None. rewrite length_load_bytes. lia.
Qed.

Lemma load_store_same n m a v : load n (store n m a v) a = v mod 256 ^ Z.of_nat n.
Proof.
  revert m a v. induction n as [|n IH]; intros m a v; [by rewrite Z.mod_1_r|].
  change (load (S n) (store (S n) m a v) a)
    with (byte_at (store (S n) m a v) a + 256 * load n (store n (put_byte m a v) (a + 1) (v / 256)) (a + 1)).
  rewrite IH, byte_at_store, decide_True by lia.
  rewrite Z.sub_diag, Z.pow_0_r, Z.div_1_r.
  rewrite Nat2Z.inj_succ, Z.pow_succ_r by lia. unfold u8.
  rewrite Z.rem_mul_r by (try apply Z.pow_pos_nonneg; lia). done.
Qed.

(** ** Frame lemmas *)

Lemma agree_on_sub lo hi lo' hi' m1 m2 :
  agree_on lo hi m1 m2 → lo ≤ lo' → hi' ≤ hi → agree_on lo' hi' m1 m2.
Proof. intros Hag ?? a Ha. apply Hag. lia. Qed.

Lemma agree_on_sym lo hi m1 m2 : agree_on lo hi m1 m2 → agree_on lo hi m2 m1.
Proof. intros Hag a Ha. symmetry. by apply Hag. Qed.

Lemma agree_on_trans lo hi m1 m2 m3 :
  agree_on lo hi m1 m2 → agree_on lo hi m2 m3 → agree_on lo hi m1 m3.
Proof. intros H1 H2 a Ha. rewrite H1 by done. by apply H2. Qed.

Lemma frames_refl lo hi m : frames lo hi m m.
Proof. done. Qed.

Lemma frames_trans lo hi m1 m2 m3 : frames lo hi m1 m2 → frames lo hi m2 m3 → frames lo hi m1 m3.
Proof. intros H1 H2 a Ha. rewrite H2 by done. by apply H1. Qed.

Lemma frames_weaken lo hi lo' hi' m1 m2 :
  frames lo hi m1 m2 → lo' ≤ lo → hi ≤ hi' → frames lo' hi' m1 m2.
Proof. intros Hf ?? a Ha. apply Hf. lia. Qed.

Lemma frames_agree lo hi lo' hi' m1 m2 :
  frames lo hi m1 m2 → hi' ≤ lo ∨ hi ≤ lo' → agree_on lo' hi' m2 m1.
Proof. intros Hf ? a Ha. apply Hf. lia. Qed.

Lemma store_frames n m a v : frames a (a + Z.of_nat n) m (store n m a v).
Proof. intros b Hb. rewrite byte_at_store. by rewrite decide_False by lia. Qed.

Lemma store_bytes_frames m a bs : frames a (a + Z.of_nat (length bs)) m (store_bytes m a bs).
Proof.
  intros b Hb. rewrite byte_at_store_bytes. case_decide; [|done].
  by rewrite lookup_ge_None_2 by lia.
Qed.

Lemma mem_set_frames m a c n : 0 ≤ n → frames a (a + n) m (mem_set m a c n).
Proof.
  intros Hn. eapply frames_weaken; [apply store_bytes_frames|lia|].
  rewrite length_replicate. lia.
Qed.

Lemma mem_cpy_frames m dst src n : 0 ≤ n → frames dst (dst + n) m (mem_cpy m dst src n).
Proof.
  intros Hn. eapply frames_weaken; [apply store_bytes_frames|lia|].
  rewrite length_load_bytes. lia.
Qed.

Lemma load_frames n lo hi m1 m2 a :
  frames lo hi m1 m2 → a + Z.of_nat n ≤ lo ∨ hi ≤ a → load n m2 a = load n m1 a.
Proof. intros Hf Ha. apply load_ext. eapply frames_agree; [done|lia]. Qed.

Lemma load_bytes_frames n lo hi m1 m2 a :
  frames lo hi m1 m2 → a + Z.of_nat n ≤ lo ∨ hi ≤ a → load_bytes m2 a n = load_bytes m1 a n.
Proof. intros Hf Ha. apply load_bytes_ext. eapply frames_agree; [done|lia]. Qed.

(** The frame of a chain of stores, store by store. *)
Ltac frame_stores :=
  repeat (eapply frames_trans; [|eapply frames_weaken; [apply store_frames|lia|lia]]);
  apply frames_refl.

(** A store does not change a load at a disjoint address. *)
Lemma load_store_ne n k m a b v :
  a + Z.of_nat n ≤ b ∨ b + Z.of_nat k ≤ a → load k (store n m a v) b = load k m b.
Proof. intros Hd. eapply load_frames; [apply store_frames|lia]. Qed.

(** ** Byte strings *)

Lemma load_store_bytes m a bs :
  Forall (λ b, 0 ≤ b < 256) bs → load_bytes (store_bytes m a bs) a (length bs) = bs.
Proof.
  intros Hb. apply list_eq_same_length with (length bs); [done|by rewrite length_load_bytes|].
  intros i x y Hi Hx Hy.
  rewrite load_bytes_lookup in Hx by done. injection Hx as <-.
  rewrite byte_at_store_bytes, decide_True by lia.
  replace (Z.to_nat (a + Z.of_nat i - a)) with i by lia. rewrite Hy.
  rewrite Forall_lookup in Hb. apply Z.mod_small. by apply (Hb i).
Qed.

Lemma load_bytes_range m a n : Forall (λ b, 0 ≤ b < 256) (load_bytes m a n).
Proof. revert a. induction n; intros; simpl; constructor; auto using byte_at_range. Qed.

(** [memcpy] moves the bytes (from a region the copy does not overwrite). *)
Lemma load_bytes_mem_cpy m dst src n :
  load_bytes (mem_cpy m dst src n) dst (Z.to_nat n) = load_bytes m src (Z.to_nat n).
Proof.
  unfold mem_cpy. rewrite <- (length_load_bytes m src (Z.to_nat n)) at 2.
  apply load_store_bytes, load_bytes_range.
Qed.

Lemma byte_at_mem_set m a c n b :
  byte_at (mem_set m a c n) b = if decide (a ≤ b < a + n) then u8 c else byte_at m b.
Proof.
  unfold mem_set. rewrite byte_at_store_bytes. repeat case_decide; try lia; try done.
  - by rewrite lookup_replicate_2 by lia.
  - by rewrite lookup_ge_None_2 by (rewrite length_replicate; lia).
Qed.

(** Zeroed memory loads as zero. *)
Lemma load_zero k m a : (∀ b, a ≤ b < a + Z.of_nat k → byte_at m b = 0) → load k m a = 0.
Proof.
  revert a. induction k as [|k IH]; intros a Hz; [done|]. rewrite load_S.
  rewrite Hz, IH by (intros; try apply Hz; lia). done.
Qed.

Lemma load_mem_set_zero k m a n b :
  a ≤ b → b + Z.of_nat k ≤ a + n → load k (mem_set m a 0 n) b = 0.
Proof.
  intros. apply load_zero. intros c Hc. rewrite byte_at_mem_set. by rewrite decide_True by lia.
Qed.

(** ** Loads respect the equivalence *)

#[global] Instance mem_equiv_equivalence : Equivalence (≡@{mem}).
Proof.
  split.
  - intros m a. done.
  - intros m1 m2 H a. by rewrite (H a).
  - intros m1 m2 m3 H1 H2 a. by rewrite (H1 a).
Qed.

#[global] Instance byte_at_proper : Proper ((≡) ==> (=) ==> (=)) byte_at.
Proof. intros m1 m2 H a ? <-. apply H. Qed.

#[global] Instance load_proper n : Proper ((≡) ==> (=) ==> (=)) (load n).
Proof. intros m1 m2 H a ? <-. apply load_ext. intros b _. apply H. Qed.

#[global] Instance store_proper n : Proper ((≡) ==> (=) ==> (=) ==> (≡)) (store n).
Proof. intros m1 m2 H a ? <- v ? <- b. rewrite !byte_at_store. by rewrite (H b). Qed.

#[global] Instance store_bytes_proper : Proper ((≡) ==> (=) ==> (=) ==> (≡)) store_bytes.
Proof.
  intros m1 m2 H a ? <- bs ? <- b. rewrite !byte_at_store_bytes.
  case_decide; [|done]. by destruct (bs !! _).
Qed.

(** Stores to disjoint places commute up to equivalence. *)
Lemma store_store_comm n k m a b v w :
  a + Z.of_nat n ≤ b ∨ b + Z.of_nat k ≤ a →
  store n (store k m b w) a v ≡ store k (store n m a v) b w.
Proof. intros Hd c. rewrite !byte_at_store. repeat case_decide; try lia; done. Qed.

(** ** C strings *)

Lemma length_strncpy_bytes s n : 0 ≤ n → Z.of_nat (length (strncpy_bytes s n)) = n.
Proof.
  intros Hn. unfold strncpy_bytes. rewrite length_app, length_replicate, length_take. lia.
Qed.

Lemma c_string_no_nul s : Forall (λ b, u8 b ≠ 0) (c_string s).
Proof.
  induction s as [|b s IH]; simpl; [constructor|].
  destruct (Z.eqb_spec (u8 b) 0); constructor; done.
Qed.

Lemma c_string_app_nul s t : Forall (λ b, u8 b ≠ 0) s → c_string (s ++ 0 :: t) = s.
Proof.
  induction 1 as [|b s Hb Hs IH]; simpl; [done|].
  destruct (Z.eqb_spec (u8 b) 0); [done|]. by rewrite IH.
Qed.

(** A name shorter than the field survives the copy: reading the field back as
    a C string gives it. *)
Lemma c_string_strncpy s n :
  Z.of_nat (length (c_string s)) < n → c_string (strncpy_bytes s n) = c_string s.
Proof.
  intros Hl. unfold strncpy_bytes. rewrite take_ge by lia.
  destruct (Z.to_nat n - length (c_string s))%nat as [|k] eqn:Hk; [lia|]. simpl.
  apply c_string_app_nul, c_string_no_nul.
Qed.

#[export] Hint Resolve byte_at_range : width.
