(* ===== verification/Config.v ===== *)
(** * Compile-time configuration, constants and size macros

    The options of [rpmsg_config.h] / [rpmsg_default_config.h] and of a
    platform's [rpmsg_platform.h] as the fields of a class, so that every
    [#if] of the source is a test on a field and the theorems hold for every
    configuration; the status codes; the alignment and buffer-count macros of
    [rpmsg_lite.h] and [rpmsg_lite.c]; the virtqueue-id macros. *)

From S2P Require Import Prelude.

(** Shared-memory configuration of one instance
    ([rpmsg_platform_shmem_config_t] of the platforms that support
    [RL_ALLOW_CUSTOM_SHMEM_CONFIG]). *)
Record rpmsg_platform_shmem_config : Type := {
  buffer_payload_size : Z;
  buffer_count : Z;
  vring_size_cfg : Z;
  vring_align_cfg : Z;
}.

(** One field per configuration macro; [uintptr_bits] is the width of
    [uintptr_t] and [size_t] on the target. *)
Class Config : Type := {
  RL_MS_PER_INTERVAL : Z;
  RL_ALLOW_CUSTOM_SHMEM_CONFIG : bool;
  RL_BUFFER_PAYLOAD_SIZE : Z;
  RL_BUFFER_COUNT : Z;
  RL_USE_STATIC_API : bool;
  RL_CLEAR_USED_BUFFERS : bool;
  RL_USE_DCACHE : bool;
  RL_USE_ENVIRONMENT_CONTEXT : bool;
  RL_DEBUG_CHECK_BUFFERS : bool;
  RL_ALLOW_CONSUMED_BUFFERS_NOTIFICATION : bool;
  VQUEUE_DEBUG : bool;
  VRING_SIZE : Z;
  VRING_ALIGN : Z;
  RL_VRING_OVERHEAD : Z;
  RL_PLATFORM_HIGHEST_LINK_ID : Z;
  RL_PLATFORM_MAX_ISR_COUNT : Z;
  uintptr_bits : Z;
}.

(** A sane build: what the preprocessor checks of [rpmsg_lite.c] (lines 85-127)
    enforce (count, maximal alignment, link id), and what they leave to the
    integrator: a positive polling interval and alignment, and a payload size
    that does not wrap when the header is added. *)
Class ConfigOk (cfg : Config) : Prop := {
  cfg_interval : 0 < RL_MS_PER_INTERVAL < 4294967296;
  cfg_count_pow2 : pow2 RL_BUFFER_COUNT;
  cfg_count_max : RL_BUFFER_COUNT ≤ 32768;
  cfg_payload : 0 < RL_BUFFER_PAYLOAD_SIZE < 4294967276;
  cfg_align_max : 0 < VRING_ALIGN ≤ 65536;
  cfg_link_max : 0 ≤ RL_PLATFORM_HIGHEST_LINK_ID ≤ 32767;
  cfg_isr_max : 0 ≤ RL_PLATFORM_MAX_ISR_COUNT < 4294967296;
  cfg_width : uintptr_bits = 32 ∨ uintptr_bits = 64;
}.

(** ** Status codes and constants *)

Definition NULL : Z := 0.

Definition RL_SUCCESS : Z := 0.
Definition RL_TRUE : Z := 1.
Definition RL_FALSE : Z := 0.
Definition RL_ADDR_ANY : Z := 4294967295.
Definition RL_RELEASE : Z := 0.
Definition RL_HOLD : Z := 1.
Definition RL_DONT_BLOCK : Z := 0.
Definition RL_ERRORS_BASE : Z := -5000.
Definition RL_ERR_NO_MEM : Z := RL_ERRORS_BASE - 1.
Definition RL_ERR_BUFF_SIZE : Z := RL_ERRORS_BASE - 2.
Definition RL_ERR_PARAM : Z := RL_ERRORS_BASE - 3.
Definition RL_ERR_DEV_ID : Z := RL_ERRORS_BASE - 4.
Definition RL_ERR_MAX_VQ : Z := RL_ERRORS_BASE - 5.
Definition RL_ERR_NO_BUFF : Z := RL_ERRORS_BASE - 6.
Definition RL_NOT_READY : Z := RL_ERRORS_BASE - 7.
Definition RL_ALREADY_DONE : Z := RL_ERRORS_BASE - 8.
Definition RL_NO_FLAGS : Z := 0.

Definition VQ_ERROR_BASE : Z := -3000.
Definition ERROR_VRING_FULL : Z := VQ_ERROR_BASE - 1.
Definition ERROR_INVLD_DESC_IDX : Z := VQ_ERROR_BASE - 2.
Definition ERROR_EMPTY_RING : Z := VQ_ERROR_BASE - 3.
Definition ERROR_NO_MEM : Z := VQ_ERROR_BASE - 4.
Definition ERROR_VRING_MAX_DESC : Z := VQ_ERROR_BASE - 5.
Definition ERROR_VRING_ALIGN : Z := VQ_ERROR_BASE - 6.
Definition ERROR_VRING_NO_BUFF : Z := VQ_ERROR_BASE - 7.
Definition ERROR_VQUEUE_INVLD_PARAM : Z := VQ_ERROR_BASE - 8.
Definition VQUEUE_SUCCESS : Z := 0.

Definition VQ_RING_DESC_CHAIN_END : Z := 32768.
Definition VIRTQUEUE_FLAG_INDIRECT : Z := 1.
Definition VIRTQUEUE_FLAG_EVENT_IDX : Z := 2.
Definition VIRTQUEUE_MAX_NAME_SZ : Z := 32.
Definition RL_MAX_BUFFER_COUNT : Z := 32768.
Definition RL_MAX_VRING_ALIGN : Z := 65536.

Section config.
Context {cfg : Config}.

(** ** Pointer-sized arithmetic *)

Definition uptr (z : Z) : Z := z mod 2 ^ uintptr_bits.

(** [RL_BLOCK] is [~0UL]. *)
Definition RL_BLOCK : Z := 2 ^ uintptr_bits - 1.

Definition RL_WORD_SIZE : Z := 4.

Definition RL_WORD_ALIGN_UP (a : Z) : Z :=
  Z.ldiff (uptr (uptr a + (RL_WORD_SIZE - 1))) (RL_WORD_SIZE - 1).

Definition RL_WORD_ALIGN_DOWN (a : Z) : Z := Z.ldiff (uptr a) (RL_WORD_SIZE - 1).

(** [RL_BUFFER_SIZE]: payload and 16-byte header, word aligned. *)
Definition RL_BUFFER_SIZE_RAW : Z := uptr (RL_BUFFER_PAYLOAD_SIZE + 16).
Definition RL_BUFFER_SIZE : Z := RL_WORD_ALIGN_UP RL_BUFFER_SIZE_RAW.

(** [None] is a division by zero. *)
Definition RL_CALCULATE_BUFFER_COUNT_DOWN_SAFE (length overhead buff_size : Z) : option Z :=
  if length <? overhead then Some 0
  else if buff_size =? 0 then None
  else Some (RL_WORD_ALIGN_DOWN (length - overhead) / buff_size).

(** ** Virtqueue identifiers of a link *)

Definition RL_GET_VQ_ID (link_id queue_id : Z) : Z :=
  Z.lor (Z.land queue_id 1) (Z.land (u32 (Z.shiftl link_id 1)) 4294967294).
Definition RL_GET_LINK_ID (id : Z) : Z := Z.shiftr (Z.land id 4294967294) 1.
Definition RL_GET_Q_ID (id : Z) : Z := Z.land id 1.

(** ** Lemmas *)

Context {ok : ConfigOk cfg}.

Lemma uptr_range z : 0 ≤ uptr z < 2 ^ uintptr_bits.
Proof. apply Z.mod_pos_bound, Z.pow_pos_nonneg; [lia|]. destruct cfg_width as [-> | ->]; lia. Qed.

Lemma uptr_bits_ge : 4294967296 ≤ 2 ^ uintptr_bits.
Proof. destruct cfg_width as [-> | ->]; lia. Qed.

Lemma uptr_small z : 0 ≤ z < 2 ^ uintptr_bits → uptr z = z.
Proof. apply Z.mod_small. Qed.

Lemma uptr_small32 z : 0 ≤ z < 4294967296 → uptr z = z.
Proof. intros. apply uptr_small. pose proof uptr_bits_ge. lia. Qed.

Lemma word_mask_pow2 : pow2 4.
Proof. by exists 2. Qed.

(** Aligning up: the least multiple of 4 not below [a] (no wrap). *)
Lemma RL_WORD_ALIGN_UP_spec a :
  0 ≤ a → a + 3 < 2 ^ uintptr_bits →
  a ≤ RL_WORD_ALIGN_UP a < a + 4 ∧ RL_WORD_ALIGN_UP a mod 4 = 0.
Proof.
  intros Ha Hlt. unfold RL_WORD_ALIGN_UP, RL_WORD_SIZE.
  rewrite (ldiff_pow2_mask _ 4) by apply word_mask_pow2.
  rewrite !uptr_small by (rewrite ?uptr_small; lia). zwrap.
Qed.

Lemma RL_WORD_ALIGN_UP_id a :
  0 ≤ a → a + 3 < 2 ^ uintptr_bits → a mod 4 = 0 → RL_WORD_ALIGN_UP a = a.
Proof. intros Ha Hlt Hm. destruct (RL_WORD_ALIGN_UP_spec a Ha Hlt). zwrap. Qed.

Lemma RL_WORD_ALIGN_DOWN_spec a :
  0 ≤ a < 2 ^ uintptr_bits →
  a - 4 < RL_WORD_ALIGN_DOWN a ≤ a ∧ RL_WORD_ALIGN_DOWN a mod 4 = 0 ∧ 0 ≤ RL_WORD_ALIGN_DOWN a.
Proof.
  intros Ha. unfold RL_WORD_ALIGN_DOWN, RL_WORD_SIZE.
  rewrite (ldiff_pow2_mask _ 4) by apply word_mask_pow2.
  rewrite uptr_small by lia. zwrap.
Qed.

(** The buffer size fits a [uint32_t], is a multiple of 4, and has room for the
    header and the payload. *)
Lemma RL_BUFFER_SIZE_bounds :
  RL_BUFFER_PAYLOAD_SIZE + 16 ≤ RL_BUFFER_SIZE < RL_BUFFER_PAYLOAD_SIZE + 20 ∧
  RL_BUFFER_SIZE mod 4 = 0 ∧ RL_BUFFER_SIZE < 4294967296.
Proof.
  pose proof cfg_payload. pose proof uptr_bits_ge.
  unfold RL_BUFFER_SIZE, RL_BUFFER_SIZE_RAW. rewrite uptr_small by lia.
  destruct (RL_WORD_ALIGN_UP_spec (RL_BUFFER_PAYLOAD_SIZE + 16)); lia.
Qed.

(** The computed number of buffers really fits behind the overhead. *)
Lemma buffer_count_fits length overhead buff_size n :
  0 ≤ length < 2 ^ uintptr_bits → 0 ≤ overhead → 0 < buff_size →
  RL_CALCULATE_BUFFER_COUNT_DOWN_SAFE length overhead buff_size = Some n →
  0 ≤ n ∧ (n = 0 ∨ overhead + n * buff_size ≤ length).
Proof.
  intros Hl Ho Hb. unfold RL_CALCULATE_BUFFER_COUNT_DOWN_SAFE.
  destruct (Z.ltb_spec length overhead); [intros [= <-]; lia|].
  destruct (Z.eqb_spec buff_size 0); [lia|]. intros [= <-].
  destruct (RL_WORD_ALIGN_DOWN_spec (length - overhead)) as (Hd & _ & Hd0); [lia|].
  pose proof (Z.div_pos _ _ Hd0 Hb).
  pose proof (Z.mul_div_le (RL_WORD_ALIGN_DOWN (length - overhead)) buff_size Hb). lia.
Qed.

Lemma buffer_count_some length overhead buff_size :
  0 < buff_size → ∃ n, RL_CALCULATE_BUFFER_COUNT_DOWN_SAFE length overhead buff_size = Some n.
Proof.
  intros Hb. unfold RL_CALCULATE_BUFFER_COUNT_DOWN_SAFE. case_match; [eauto|].
  destruct (Z.eqb_spec buff_size 0); [lia|eauto].
Qed.

(** *** Virtqueue identifiers *)

Lemma RL_GET_VQ_ID_eq link_id q :
  0 ≤ link_id ≤ 32767 → 0 ≤ q < 2 → RL_GET_VQ_ID link_id q = 2 * link_id + q.
Proof.
  intros Hl Hq. unfold RL_GET_VQ_ID.
  assert (Z.land q 1 = q) as -> by (assert (q = 0 ∨ q = 1) as [-> | ->] by lia; done).
  rewrite Z.shiftl_mul_pow2, u32_small by lia.
  replace 4294967294 with (Z.shiftl (Z.ones 31) 1) by done.
  replace (link_id * 2 ^ 1) with (Z.shiftl link_id 1) by (rewrite Z.shiftl_mul_pow2; lia).
  rewrite <- Z.shiftl_land, Z.land_ones, Z.mod_small by lia.
  rewrite <- Z.add_nocarry_lor; [rewrite Z.shiftl_mul_pow2; lia|].
  assert (q = 0 ∨ q = 1) as [-> | ->] by lia; [done|].
  rewrite Z.shiftl_mul_pow2 by lia. change 1 with (Z.ones 1) at 1.
  rewrite Z.land_comm, Z.land_ones by lia. zwrap.
Qed.

Lemma RL_GET_Q_ID_VQ_ID link_id q :
  0 ≤ link_id ≤ 32767 → 0 ≤ q < 2 → RL_GET_Q_ID (RL_GET_VQ_ID link_id q) = q.
Proof.
  intros. rewrite RL_GET_VQ_ID_eq by done. unfold RL_GET_Q_ID.
  change 1 with (Z.ones 1). rewrite Z.land_ones by lia. zwrap.
Qed.

Lemma RL_GET_LINK_ID_VQ_ID link_id q :
  0 ≤ link_id ≤ 32767 → 0 ≤ q < 2 → RL_GET_LINK_ID (RL_GET_VQ_ID link_id q) = link_id.
Proof.
  intros. rewrite RL_GET_VQ_ID_eq by done. unfold RL_GET_LINK_ID.
  rewrite Z.shiftr_land. change (Z.shiftr 4294967294 1) with (Z.ones 31).
  rewrite Z.land_ones, Z.shiftr_div_pow2 by lia. zwrap.
Qed.

End config.
