(* ===== verification/VirtioRing.v ===== *)
(** * The shared rings: layout of [virtio_ring.h]

    The memory layout of a vring (descriptor table, available ring, used ring),
    its size ([vring_size]) and the pointers into it ([vring_init]), the event
    index test ([vring_need_event]); and the theorems that the three parts are
    disjoint and stay inside the computed size. *)

From S2P Require Import Prelude Memory Config.

(** ** Constants and sizes of the structures *)

Definition VRING_DESC_F_NEXT : Z := 1.
Definition VRING_DESC_F_WRITE : Z := 2.
Definition VRING_DESC_F_INDIRECT : Z := 4.
Definition VRING_USED_F_NO_NOTIFY : Z := 1.
Definition VRING_AVAIL_F_NO_INTERRUPT : Z := 1.

(** [struct vring_desc]: addr 0 (8), len 8 (4), flags 12 (2), next 14 (2). *)
Definition sizeof_vring_desc : Z := 16.
(** [struct vring_avail]: flags 0, idx 2, ring[1] at 4. *)
Definition sizeof_vring_avail : Z := 6.
(** [struct vring_used_elem]: id 0 (4), len 4 (4). *)
Definition sizeof_vring_used_elem : Z := 8.
(** [struct vring_used]: flags 0, idx 2, ring[1] at 4. *)
Definition sizeof_vring_used : Z := 12.

(** [struct vring]: the number of entries and the three base addresses. *)
Record vring : Type := { num : Z; desc : Z; avail : Z; used : Z }.

(** Addresses of the fields, as the C expressions [&vr->desc[i].addr],
    [&vr->avail->idx], [&vr->used->ring[i].id], ... *)
Definition a_desc (vr : vring) (i : Z) : Z := desc vr + 16 * i.
Definition a_desc_addr (vr : vring) (i : Z) : Z := a_desc vr i.
Definition a_desc_len (vr : vring) (i : Z) : Z := a_desc vr i + 8.
Definition a_desc_flags (vr : vring) (i : Z) : Z := a_desc vr i + 12.
Definition a_desc_next (vr : vring) (i : Z) : Z := a_desc vr i + 14.
Definition a_avail_flags (vr : vring) : Z := avail vr.
Definition a_avail_idx (vr : vring) : Z := avail vr + 2.
Definition a_avail_ring (vr : vring) (i : Z) : Z := avail vr + 4 + 2 * i.
Definition a_used_flags (vr : vring) : Z := used vr.
Definition a_used_idx (vr : vring) : Z := used vr + 2.
Definition a_used_ring (vr : vring) (i : Z) : Z := used vr + 4 + 8 * i.

(** [vring_used_event(vr)] and [vring_avail_event(vr)]. *)
Definition a_vring_used_event (vr : vring) : Z := a_avail_ring vr (num vr).
Definition a_vring_avail_event (vr : vring) : Z := a_used_ring vr (num vr).

Section ring.
Context {cfg : Config}.

(** [(x + align - 1UL) & ~(align - 1UL)] at the width of [unsigned long]. *)
Definition align_up (x align : Z) : Z := Z.ldiff (uptr (x + align - 1)) (uptr (align - 1)).

Definition vring_size (n align : Z) : Z :=
  let size := u32 (n * sizeof_vring_desc) in
  let size := u32 (size + (sizeof_vring_avail + n * 2 + 2)) in
  let size := u32 (align_up size align) in
  let size := u32 (size + (sizeof_vring_used + n * sizeof_vring_used_elem + 2)) in
  i32 size.

Definition vring_init (n p align : Z) : vring :=
  let av := uptr (p + n * sizeof_vring_desc) in
  {| num := n; desc := p; avail := av; used := align_up (uptr (av + 4 + 2 * n)) align |}.

(** The operands are promoted to [int]: the differences are not reduced to 16
    bits before the comparison. *)
Definition vring_need_event (event_idx new_idx old : Z) : Z :=
  if (new_idx - event_idx - 1) <? (new_idx - old) then 1 else 0.

(** The test of the VirtIO specification the comment refers to: the same
    comparison between 16-bit differences. *)
Definition need_event_spec (event_idx new_idx old : Z) : bool :=
  u16 (new_idx - event_idx - 1) <? u16 (new_idx - old).

(** A well-formed ring: a power of two of entries, the three parts in order,
    not overlapping, inside the address space. *)
Record vring_ok (vr : vring) : Prop := {
  ok_pow2 : pow2 (num vr);
  ok_max : num vr ≤ 32768;
  ok_desc : 0 ≤ desc vr;
  ok_avail : desc vr + 16 * num vr ≤ avail vr;
  ok_used : avail vr + 4 + 2 * num vr ≤ used vr;
}.

(** First address behind the ring. *)
Definition vring_end (vr : vring) : Z := used vr + 4 + 8 * num vr.

(** ** The layout theorems *)

Context {ok : ConfigOk cfg}.

Lemma pow2_range n : pow2 n → n ≤ 65536 → 0 < n < 4294967296.
Proof. intros Hp ?. pose proof (pow2_pos n Hp). lia. Qed.

(** [align_up] without wrap: the least multiple of [align] not below [x]. *)
Lemma align_up_eq x al :
  pow2 al → al ≤ 65536 → 0 ≤ x → x + al ≤ 2 ^ uintptr_bits →
  align_up x al = x + al - 1 - (x + al - 1) mod al.
Proof.
  intros Hp Hal Hx Hlt. pose proof (pow2_range al Hp Hal). pose proof uptr_bits_ge.
  unfold align_up. rewrite !uptr_small by lia. by apply ldiff_pow2_mask.
Qed.

Lemma align_up_bounds x al :
  pow2 al → al ≤ 65536 → 0 ≤ x → x + al ≤ 2 ^ uintptr_bits →
  x ≤ align_up x al < x + al ∧ align_up x al mod al = 0.
Proof.
  intros Hp Hal Hx Hlt. rewrite align_up_eq by done.
  pose proof (pow2_pos al Hp).
  pose proof (Z.mod_pos_bound (x + al - 1) al). split; [lia|].
  rewrite Zminus_mod_idemp_r, Z.sub_diag, Zmod_0_l. done.
Qed.

Lemma align_up_mono x y al :
  pow2 al → al ≤ 65536 → 0 ≤ x ≤ y → y + al ≤ 2 ^ uintptr_bits →
  align_up x al ≤ align_up y al.
Proof.
  intros Hp Hal Hxy Hlt. rewrite !align_up_eq by (try done; lia).
  pose proof (pow2_pos al Hp) as Hpos.
  pose proof (Z.div_le_mono (x + al - 1) (y + al - 1) al Hpos ltac:(lia)).
  pose proof (Z.div_mod (x + al - 1) al ltac:(lia)).
  pose proof (Z.div_mod (y + al - 1) al ltac:(lia)). nia.
Qed.

(** Adding an already aligned base shifts the result. *)
Lemma align_up_shift p x al :
  pow2 al → al ≤ 65536 → 0 ≤ x → 0 ≤ p → p mod al = 0 → p + x + al ≤ 2 ^ uintptr_bits →
  align_up (p + x) al = p + align_up x al.
Proof.
  intros Hp Hal Hx Hp0 Hm Hlt. rewrite !align_up_eq by (try done; lia).
  pose proof (pow2_pos al Hp).
  replace (p + x + al - 1) with ((x + al - 1) + (p / al) * al).
  - rewrite Z.mod_add by lia. pose proof (Z.div_mod p al ltac:(lia)). lia.
  - pose proof (Z.div_mod p al ltac:(lia)). lia.
Qed.

(** Closed form of [vring_size]: no step wraps for a legal ring. *)
Lemma vring_size_eq n al :
  pow2 n → n ≤ 32768 → pow2 al → al ≤ 65536 →
  vring_size n al = align_up (18 * n + 8) al + 14 + 8 * n ∧
  0 < vring_size n al < 2147483648.
Proof.
  intros Hn Hn1 Ha Ha1. pose proof (pow2_pos n Hn). pose proof (pow2_pos al Ha).
  pose proof uptr_bits_ge.
  unfold vring_size, sizeof_vring_desc, sizeof_vring_avail, sizeof_vring_used, sizeof_vring_used_elem.
  rewrite (u32_small (n * 16)) by lia.
  replace (n * 16 + (6 + n * 2 + 2)) with (18 * n + 8) by lia.
  rewrite (u32_small (18 * n + 8)) by lia.
  destruct (align_up_bounds (18 * n + 8) al) as [Hb _]; [done|done|lia|lia|].
  rewrite (u32_small (align_up _ _)) by lia.
  rewrite u32_small by lia. rewrite i32_small by lia. lia.
Qed.

(** [vring_init] at an address aligned like the ring: the three parts follow
    each other without overlap and end inside [vring_size]. *)
Lemma vring_init_ok n p al :
  pow2 n → n ≤ 32768 → pow2 al → al ≤ 65536 → 0 ≤ p → p mod al = 0 →
  p + vring_size n al + al ≤ 2 ^ uintptr_bits →
  vring_ok (vring_init n p al) ∧ vring_end (vring_init n p al) ≤ p + vring_size n al.
Proof.
  intros Hn Hn1 Ha Ha1 Hp Hpa Hlt.
  destruct (vring_size_eq n al) as [Hs Hs0]; try done.
  pose proof (pow2_pos n Hn). pose proof (pow2_pos al Ha). pose proof uptr_bits_ge.
  destruct (align_up_bounds (18 * n + 8) al) as [Hb _]; [done|done|lia|lia|].
  assert (uptr (p + n * sizeof_vring_desc) = p + 16 * n) as Eav.
  { unfold sizeof_vring_desc. rewrite uptr_small by lia. lia. }
  assert (uptr (p + 16 * n + 4 + 2 * n) = p + (18 * n + 4)) as Eus.
  { rewrite uptr_small by lia. lia. }
  pose proof (align_up_mono (18 * n + 4) (18 * n + 8) al Ha Ha1 ltac:(lia) ltac:(lia)).
  destruct (align_up_bounds (18 * n + 4) al) as [Hb' _]; [done|done|lia|lia|].
  assert (used (vring_init n p al) = p + align_up (18 * n + 4) al) as Eused.
  { unfold vring_init. cbn [used]. rewrite Eav, Eus. apply align_up_shift; try done; lia. }
  split; [constructor|unfold vring_end]; rewrite ?Eused; unfold vring_init; cbn [num desc avail];
    rewrite ?Eav; try done; lia.
Qed.

(** The number of entries and the descriptor table of [vring_init]. *)
Lemma vring_init_num n p al : num (vring_init n p al) = n.
Proof. done. Qed.
Lemma vring_init_desc n p al : desc (vring_init n p al) = p.
Proof. done. Qed.

End ring.

#[export] Hint Resolve ok_pow2 ok_max : width.

Lemma vring_ok_num_pos vr : vring_ok vr → 0 < num vr.
Proof. intros Hv. apply pow2_pos, Hv. Qed.
#[export] Hint Resolve vring_ok_num_pos : width.

(** ** The event-index test *)

(** What the promoted arithmetic computes: an unwrapped comparison of the old
    index with the event index. *)
Lemma vring_need_event_eq e n o : vring_need_event e n o = if o <=? e then 1 else 0.
Proof. unfold vring_need_event. zcases; lia. Qed.

Lemma vring_need_event_agrees e n o :
  0 ≤ e < 65536 → 0 ≤ n < 65536 → 0 ≤ o < 65536 → o ≤ n → e < n →
  vring_need_event e n o = Z_of_bool (need_event_spec e n o).
Proof.
  intros. rewrite vring_need_event_eq. unfold need_event_spec.
  rewrite !u16_small by lia. unfold Z_of_bool. zcases; lia.
Qed.
