(* ===== verification/Virtqueue.v ===== *)
(** * Virtqueues: [virtqueue.c] and [virtqueue.h]

    The local control block of a virtqueue ([struct virtqueue]) and every
    operation of [virtqueue.c] on it, as programs over the control block, the
    shared memory and the trace of visible effects (stores, cache maintenance,
    barriers, notifications).  The control block holds addresses into the
    shared memory; every access to a ring is a load or a store there. *)

From S2P Require Import Prelude Memory Config VirtioRing.

(** ** Visible effects *)

Inductive event : Type :=
| EvStore (n : nat) (a v : Z)           (** a store to the shared memory *)
| EvFlush (a len : Z)                   (** [env_cache_flush] with [RL_USE_DCACHE] *)
| EvInvalidate (a len : Z)              (** [env_cache_invalidate] *)
| EvMb | EvRmb | EvWmb                  (** [env_mb], [env_rmb], [env_wmb] *)
| EvPrint (args : list Z)               (** [env_print] *)
| EvNotify (vector_id : Z)              (** [platform_notify] *)
| EvLock (l : Z) | EvUnlock (l : Z)     (** [env_lock_mutex], [env_unlock_mutex] *)
| EvSleep (ms : Z)                      (** [env_sleep_msec] *)
| EvTxCallback (link_id : Z)            (** [env_tx_callback] *)
| EvInitIrq (vector_id data : Z)        (** [platform_init_interrupt] *)
| EvDeinitIrq (vector_id : Z)           (** [platform_deinit_interrupt] *)
| EvIrqEnable (vector_id : Z)           (** [env_enable_interrupt] *)
| EvIrqDisable (vector_id : Z)          (** [env_disable_interrupt] *)
| EvRxCb (addr payload len src data : Z) (** the receive callback of endpoint [addr] *)
| EvNsCb (cb addr name flags data : Z). (** an application name-service callback *)

(** The functions the library installs in a virtqueue. *)
Inductive vq_callback : Type := rpmsg_lite_rx_callback_fc | rpmsg_lite_tx_callback_fc.
Inductive vq_notify : Type := virtqueue_notify_fc.

#[global] Instance event_eq_dec : EqDecision event.
Proof. solve_decision. Defined.
#[global] Instance vq_callback_eq_dec : EqDecision vq_callback.
Proof. solve_decision. Defined.
#[global] Instance vq_notify_eq_dec : EqDecision vq_notify.
Proof. solve_decision. Defined.

(** ** The control block *)

Record virtqueue : Type := {
  vq_name : list Z;
  vq_flags : Z;
  vq_alignment : Z;
  vq_ring_size : Z;
  vq_ring_mem : Z;
  callback_fc : option vq_callback;
  notify_fc : option vq_notify;
  vq_max_indirect_size : Z;
  vq_indirect_mem_size : Z;
  vq_ring : vring;
  vq_queue_index : Z;
  vq_nentries : Z;
  vq_free_cnt : Z;
  vq_queued_cnt : Z;
  vq_desc_head_idx : Z;
  vq_used_cons_idx : Z;
  vq_available_idx : Z;
  avail_read : bool;
  avail_write : bool;
  used_read : bool;
  used_write : bool;
  priv : Z;
}.

(** Assignments to its fields. *)
Definition set_vq_ring_size (q : virtqueue) x : virtqueue :=
  Build_virtqueue (vq_name q) (vq_flags q) (vq_alignment q) x (vq_ring_mem q)
    (callback_fc q) (notify_fc q) (vq_max_indirect_size q) (vq_indirect_mem_size q)
    (vq_ring q) (vq_queue_index q) (vq_nentries q) (vq_free_cnt q) (vq_queued_cnt q)
    (vq_desc_head_idx q) (vq_used_cons_idx q) (vq_available_idx q) (avail_read q)
    (avail_write q) (used_read q) (used_write q) (priv q).
Definition set_vq_ring_mem (q : virtqueue) x : virtqueue :=
  Build_virtqueue (vq_name q) (vq_flags q) (vq_alignment q) (vq_ring_size q) x
    (callback_fc q) (notify_fc q) (vq_max_indirect_size q) (vq_indirect_mem_size q)
    (vq_ring q) (vq_queue_index q) (vq_nentries q) (vq_free_cnt q) (vq_queued_cnt q)
    (vq_desc_head_idx q) (vq_used_cons_idx q) (vq_available_idx q) (avail_read q)
    (avail_write q) (used_read q) (used_write q) (priv q).
Definition set_vq_queued_cnt (q : virtqueue) x : virtqueue :=
  Build_virtqueue (vq_name q) (vq_flags q) (vq_alignment q) (vq_ring_size q) (vq_ring_mem q)
    (callback_fc q) (notify_fc q) (vq_max_indirect_size q) (vq_indirect_mem_size q)
    (vq_ring q) (vq_queue_index q) (vq_nentries q) (vq_free_cnt q) x (vq_desc_head_idx q)
    (vq_used_cons_idx q) (vq_available_idx q) (avail_read q) (avail_write q) (used_read q)
    (used_write q) (priv q).
Definition set_vq_desc_head_idx (q : virtqueue) x : virtqueue :=
  Build_virtqueue (vq_name q) (vq_flags q) (vq_alignment q) (vq_ring_size q) (vq_ring_mem q)
    (callback_fc q) (notify_fc q) (vq_max_indirect_size q) (vq_indirect_mem_size q)
    (vq_ring q) (vq_queue_index q) (vq_nentries q) (vq_free_cnt q) (vq_queued_cnt q) x
    (vq_used_cons_idx q) (vq_available_idx q) (avail_read q) (avail_write q) (used_read q)
    (used_write q) (priv q).
Definition set_vq_used_cons_idx (q : virtqueue) x : virtqueue :=
  Build_virtqueue (vq_name q) (vq_flags q) (vq_alignment q) (vq_ring_size q) (vq_ring_mem q)
    (callback_fc q) (notify_fc q) (vq_max_indirect_size q) (vq_indirect_mem_size q)
    (vq_ring q) (vq_queue_index q) (vq_nentries q) (vq_free_cnt q) (vq_queued_cnt q)
    (vq_desc_head_idx q) x (vq_available_idx q) (avail_read q) (avail_write q) (used_read q)
    (used_write q) (priv q).
Definition set_vq_available_idx (q : virtqueue) x : virtqueue :=
  Build_virtqueue (vq_name q) (vq_flags q) (vq_alignment q) (vq_ring_size q) (vq_ring_mem q)
    (callback_fc q) (notify_fc q) (vq_max_indirect_size q) (vq_indirect_mem_size q)
    (vq_ring q) (vq_queue_index q) (vq_nentries q) (vq_free_cnt q) (vq_queued_cnt q)
    (vq_desc_head_idx q) (vq_used_cons_idx q) x (avail_read q) (avail_write q) (used_read q)
    (used_write q) (priv q).
Definition set_avail_read (q : virtqueue) x : virtqueue :=
  Build_virtqueue (vq_name q) (vq_flags q) (vq_alignment q) (vq_ring_size q) (vq_ring_mem q)
    (callback_fc q) (notify_fc q) (vq_max_indirect_size q) (vq_indirect_mem_size q)
    (vq_ring q) (vq_queue_index q) (vq_nentries q) (vq_free_cnt q) (vq_queued_cnt q)
    (vq_desc_head_idx q) (vq_used_cons_idx q) (vq_available_idx q) x (avail_write q)
    (used_read q) (used_write q) (priv q).
Definition set_avail_write (q : virtqueue) x : virtqueue :=
  Build_virtqueue (vq_name q) (vq_flags q) (vq_alignment q) (vq_ring_size q) (vq_ring_mem q)
    (callback_fc q) (notify_fc q) (vq_max_indirect_size q) (vq_indirect_mem_size q)
    (vq_ring q) (vq_queue_index q) (vq_nentries q) (vq_free_cnt q) (vq_queued_cnt q)
    (vq_desc_head_idx q) (vq_used_cons_idx q) (vq_available_idx q) (avail_read q) x
    (used_read q) (used_write q) (priv q).
Definition set_used_read (q : virtqueue) x : virtqueue :=
  Build_virtqueue (vq_name q) (vq_flags q) (vq_alignment q) (vq_ring_size q) (vq_ring_mem q)
    (callback_fc q) (notify_fc q) (vq_max_indirect_size q) (vq_indirect_mem_size q)
    (vq_ring q) (vq_queue_index q) (vq_nentries q) (vq_free_cnt q) (vq_queued_cnt q)
    (vq_desc_head_idx q) (vq_used_cons_idx q) (vq_available_idx q) (avail_read q)
    (avail_write q) x (used_write q) (priv q).
Definition set_used_write (q : virtqueue) x : virtqueue :=
  Build_virtqueue (vq_name q) (vq_flags q) (vq_alignment q) (vq_ring_size q) (vq_ring_mem q)
    (callback_fc q) (notify_fc q) (vq_max_indirect_size q) (vq_indirect_mem_size q)
    (vq_ring q) (vq_queue_index q) (vq_nentries q) (vq_free_cnt q) (vq_queued_cnt q)
    (vq_desc_head_idx q) (vq_used_cons_idx q) (vq_available_idx q) (avail_read q)
    (avail_write q) (used_read q) x (priv q).
Definition set_priv (q : virtqueue) x : virtqueue :=
  Build_virtqueue (vq_name q) (vq_flags q) (vq_alignment q) (vq_ring_size q) (vq_ring_mem q)
    (callback_fc q) (notify_fc q) (vq_max_indirect_size q) (vq_indirect_mem_size q)
    (vq_ring q) (vq_queue_index q) (vq_nentries q) (vq_free_cnt q) (vq_queued_cnt q)
    (vq_desc_head_idx q) (vq_used_cons_idx q) (vq_available_idx q) (avail_read q)
    (avail_write q) (used_read q) (used_write q) x.

(** The argument block of the constructors. *)
Record vring_alloc_info : Type := { phy_addr : Z; align : Z; num_descs : Z }.

(** ** The state of a virtqueue operation *)

Record vst : Type := { v_vq : virtqueue; v_mem : mem; v_trace : list event }.
Abbreviation V := (M vst).

(** The trace is kept newest first. *)
Definition emit (e : event) : V unit :=
  modify (λ s, {| v_vq := v_vq s; v_mem := v_mem s; v_trace := e :: v_trace s |}).
Definition getvq : V virtqueue := λ s, Ok (v_vq s) s.
Definition updvq (f : virtqueue → virtqueue) : V unit :=
  modify (λ s, {| v_vq := f (v_vq s); v_mem := v_mem s; v_trace := v_trace s |}).
Definition ldv (n : nat) (a : Z) : V Z := λ s, Ok (load n (v_mem s) a) s.
Definition stv (n : nat) (a v : Z) : V unit :=
  modify (λ s, {| v_vq := v_vq s; v_mem := store n (v_mem s) a v;
                  v_trace := EvStore n a v :: v_trace s |}).

(** The address translation of the environment layer
    ([env_map_vatopa] returns a [uint32_t], [env_map_patova] takes one). *)
Class AddrMap : Type := {
  env_map_vatopa : Z → Z;
  env_map_patova : Z → Z;
}.

(** The four busy flags, selected by the second argument of [VQUEUE_BUSY]. *)
Inductive direction : Type := AvailRead | AvailWrite | UsedRead | UsedWrite.
Definition get_dir (d : direction) (q : virtqueue) : bool :=
  match d with
  | AvailRead => avail_read q | AvailWrite => avail_write q
  | UsedRead => used_read q | UsedWrite => used_write q
  end.
Definition set_dir (d : direction) (b : bool) (q : virtqueue) : virtqueue :=
  match d with
  | AvailRead => set_avail_read q b | AvailWrite => set_avail_write q b
  | UsedRead => set_used_read q b | UsedWrite => set_used_write q b
  end.

Section virtqueue.
Context {cfg : Config} {am : AddrMap}.

(** *** The macros of [virtqueue.h] *)

(** Cache maintenance is compiled in with [RL_USE_DCACHE] only. *)
Definition flush_ev (x s : Z) (tr : list event) : list event :=
  if RL_USE_DCACHE then EvFlush x s :: tr else tr.
Definition inval_ev (x s : Z) (tr : list event) : list event :=
  if RL_USE_DCACHE then EvInvalidate x s :: tr else tr.

Definition VQUEUE_FLUSH (x s : Z) : V unit :=
  modify (λ st, {| v_vq := v_vq st; v_mem := v_mem st; v_trace := flush_ev x s (v_trace st) |}).
Definition VQUEUE_INVALIDATE (x s : Z) : V unit :=
  modify (λ st, {| v_vq := v_vq st; v_mem := v_mem st; v_trace := inval_ev x s (v_trace st) |}).

Definition VQASSERT (exp : bool) : V unit :=
  if VQUEUE_DEBUG then if exp then mret tt else hang else mret tt.

Definition VQ_RING_ASSERT_VALID_IDX (idx : Z) : V unit :=
  q ← getvq; VQASSERT (idx <? vq_nentries q).

(** [VQ_PARAM_CHK(condition, status_var, status_err)]: the new status. *)
Definition VQ_PARAM_CHK (condition : bool) (status status_err : Z) : Z :=
  if VQUEUE_DEBUG then if (status =? 0) && condition then status_err else status else status.

Definition VQUEUE_BUSY (d : direction) : V unit :=
  if VQUEUE_DEBUG then
    q ← getvq;
    if get_dir d q then hang else updvq (set_dir d true)
  else mret tt.

Definition VQUEUE_IDLE (d : direction) : V unit :=
  if VQUEUE_DEBUG then updvq (set_dir d false) else mret tt.

(** *** Creation and release *)

(** The control block is zeroed and filled in, common to [virtqueue_create]
    and [virtqueue_create_static]. *)
Definition virtqueue_setup (id : Z) (name : list Z) (ring : vring_alloc_info)
    (cb : option vq_callback) (nf : option vq_notify) : virtqueue := {|
  vq_name := strncpy_bytes name VIRTQUEUE_MAX_NAME_SZ;
  vq_flags := 0;
  vq_alignment := i32 (align ring);
  vq_ring_size := vring_size (num_descs ring) (align ring);
  vq_ring_mem := phy_addr ring;
  callback_fc := cb;
  notify_fc := nf;
  vq_max_indirect_size := 0;
  vq_indirect_mem_size := 0;
  vq_ring := vring_init (num_descs ring) (phy_addr ring) (u32 (i32 (align ring)));
  vq_queue_index := id;
  vq_nentries := num_descs ring;
  vq_free_cnt := 0;
  vq_queued_cnt := 0;
  vq_desc_head_idx := 0;
  vq_used_cons_idx := 0;
  vq_available_idx := 0;
  avail_read := false;
  avail_write := false;
  used_read := false;
  used_write := false;
  priv := NULL;
|}.

(** The parameter checks: the status after them ([None]: a NULL [ring] was
    dereferenced, which the debug build catches first). *)
Definition virtqueue_create_status (ring : option vring_alloc_info) : option Z :=
  match ring with
  | None =>
      (* the later VQ_PARAM_CHKs are not evaluated once the status is set *)
      if VQUEUE_DEBUG then Some ERROR_VQUEUE_INVLD_PARAM else None
  | Some r =>
      let status := VQUEUE_SUCCESS in
      let status := VQ_PARAM_CHK (num_descs r =? 0) status ERROR_VQUEUE_INVLD_PARAM in
      let status := VQ_PARAM_CHK (negb (Z.land (num_descs r) (u32 (num_descs r - 1)) =? 0))
                      status ERROR_VRING_ALIGN in
      let status := VQ_PARAM_CHK (INT32_MAX <? align r) status ERROR_VQUEUE_INVLD_PARAM in
      let status := if (status =? VQUEUE_SUCCESS) && (INT32_MAX <? align r)
                    then ERROR_VQUEUE_INVLD_PARAM else status in
      Some status
  end.

(** The flushes at the end of the creation. *)
Definition virtqueue_create_flush (q : virtqueue) : V unit :=
  VQUEUE_FLUSH (avail (vq_ring q)) sizeof_vring_avail;;
  VQUEUE_FLUSH (used (vq_ring q)) sizeof_vring_used.

(** What [virtqueue_free] does to the block before it is released. *)
Definition virtqueue_free_static : V unit :=
  q ← getvq;
  if vq_ring_mem q =? NULL then mret tt
  else updvq (λ q, set_vq_ring_size q 0);; updvq (λ q, set_vq_ring_mem q NULL).

(** *** Ring updates *)

Definition vq_ring_update_avail (desc_idx : Z) : V unit :=
  q ← getvq;
  let vr := vq_ring q in
  VQUEUE_INVALIDATE (a_avail_idx vr) 2;;
  idx ← ldv 2 (a_avail_idx vr);
  let avail_idx := u16 (Z.land idx (u16 (vq_nentries q - 1))) in
  stv 2 (a_avail_ring vr avail_idx) desc_idx;;
  VQUEUE_FLUSH (a_avail_ring vr avail_idx) 2;;
  emit EvWmb;;
  idx' ← ldv 2 (a_avail_idx vr);
  stv 2 (a_avail_idx vr) (u16 (idx' + 1));;
  VQUEUE_FLUSH (a_avail_idx vr) 2;;
  updvq (λ q, set_vq_queued_cnt q (u16 (vq_queued_cnt q + 1))).

Definition vq_ring_update_used (head_idx len : Z) : V unit :=
  q ← getvq;
  let vr := vq_ring q in
  VQUEUE_INVALIDATE (a_used_idx vr) 2;;
  idx ← ldv 2 (a_used_idx vr);
  let used_idx := u16 (Z.land idx (u32 (vq_nentries q - 1))) in
  stv 4 (a_used_ring vr used_idx) head_idx;;
  stv 4 (a_used_ring vr used_idx + 4) len;;
  VQUEUE_FLUSH (a_used_ring vr used_idx) sizeof_vring_used_elem;;
  emit EvWmb;;
  idx' ← ldv 2 (a_used_idx vr);
  stv 2 (a_used_idx vr) (u16 (idx' + 1));;
  VQUEUE_FLUSH (a_used_idx vr) 2.

Definition vq_ring_add_buffer (dsc head_idx buffer length : Z) : V Z :=
  if buffer =? NULL then mret head_idx
  else
    VQASSERT (negb (head_idx =? VQ_RING_DESC_CHAIN_END));;
    let dp := dsc + sizeof_vring_desc * head_idx in
    stv 8 dp (env_map_vatopa buffer);;
    stv 4 (dp + 8) length;;
    stv 2 (dp + 12) VRING_DESC_F_WRITE;;
    VQUEUE_FLUSH dp sizeof_vring_desc;;
    mret (u16 (head_idx + 1)).

(** *** The driver side: fill, give, take back *)

Definition virtqueue_add_buffer (head_idx : Z) : V Z :=
  VQUEUE_BUSY AvailWrite;;
  VQ_RING_ASSERT_VALID_IDX head_idx;;
  vq_ring_update_avail head_idx;;
  VQUEUE_IDLE AvailWrite;;
  mret VQUEUE_SUCCESS.

Definition virtqueue_fill_avail_buffers (buffer len : Z) : V Z :=
  VQUEUE_BUSY AvailWrite;;
  q ← getvq;
  let head_idx := vq_desc_head_idx q in
  let dp := a_desc (vq_ring q) head_idx in
  stv 8 dp (env_map_vatopa buffer);;
  stv 4 (dp + 8) len;;
  stv 2 (dp + 12) VRING_DESC_F_WRITE;;
  VQUEUE_FLUSH dp sizeof_vring_desc;;
  updvq (λ q, set_vq_desc_head_idx q (u16 (vq_desc_head_idx q + 1)));;
  vq_ring_update_avail head_idx;;
  VQUEUE_IDLE AvailWrite;;
  mret VQUEUE_SUCCESS.

Definition virtqueue_fill_used_buffers (buffer len : Z) : V Z :=
  VQUEUE_BUSY UsedWrite;;
  q ← getvq;
  let head_idx := vq_desc_head_idx q in
  VQ_RING_ASSERT_VALID_IDX head_idx;;
  idx ← vq_ring_add_buffer (desc (vq_ring q)) head_idx buffer len;
  updvq (λ q, set_vq_desc_head_idx q idx);;
  vq_ring_update_used head_idx len;;
  VQUEUE_IDLE UsedWrite;;
  mret VQUEUE_SUCCESS.

(** [len] and [idx] are the values the out-parameters hold before the call;
    the result is the returned pointer with the values they hold after it. *)
Definition virtqueue_get_buffer (len idx : Z) : V (Z * Z * Z) :=
  q ← getvq;
  let vr := vq_ring q in
  VQUEUE_INVALIDATE (a_used_idx vr) 2;;
  uidx ← ldv 2 (a_used_idx vr);
  if vq_used_cons_idx q =? uidx then mret (NULL, len, idx)
  else
    VQUEUE_BUSY UsedRead;;
    let used_idx := u16 (Z.land (vq_used_cons_idx q) (u16 (vq_nentries q - 1))) in
    let uep := a_used_ring vr used_idx in
    emit EvRmb;;
    VQUEUE_INVALIDATE uep sizeof_vring_used_elem;;
    id ← ldv 4 uep;
    let desc_idx := u16 id in
    len' ← ldv 4 (uep + 4);
    updvq (λ q, set_vq_used_cons_idx q (u16 (vq_used_cons_idx q + 1)));;
    VQUEUE_IDLE UsedRead;;
    addr ← ldv 8 (a_desc_addr vr desc_idx);
    mret (env_map_patova (u32 addr), len', desc_idx).

Definition virtqueue_get_buffer_length (idx : Z) : V Z :=
  q ← getvq;
  VQUEUE_INVALIDATE (a_desc_len (vq_ring q) idx) 4;;
  ldv 4 (a_desc_len (vq_ring q) idx).

(** *** The device side: take, give back *)

Definition virtqueue_get_available_buffer (avail_idx len : Z) : V (Z * Z * Z) :=
  q ← getvq;
  let vr := vq_ring q in
  VQUEUE_INVALIDATE (a_avail_idx vr) 2;;
  aidx ← ldv 2 (a_avail_idx vr);
  if vq_available_idx q =? aidx then mret (NULL, avail_idx, len)
  else
    VQUEUE_BUSY AvailRead;;
    let head_idx := u16 (Z.land (vq_available_idx q) (u16 (vq_nentries q - 1))) in
    updvq (λ q, set_vq_available_idx q (u16 (vq_available_idx q + 1)));;
    VQUEUE_INVALIDATE (a_avail_ring vr head_idx) 2;;
    avail_idx' ← ldv 2 (a_avail_ring vr head_idx);
    emit EvRmb;;
    addr ← ldv 8 (a_desc_addr vr avail_idx');
    len' ← ldv 4 (a_desc_len vr avail_idx');
    VQUEUE_IDLE AvailRead;;
    mret (env_map_patova (u32 addr), avail_idx', len').

Definition virtqueue_add_consumed_buffer (head_idx len : Z) : V Z :=
  q ← getvq;
  if vq_nentries q <? head_idx then mret ERROR_VRING_NO_BUFF
  else
    VQUEUE_BUSY UsedWrite;;
    vq_ring_update_used head_idx len;;
    VQUEUE_IDLE UsedWrite;;
    mret VQUEUE_SUCCESS.

Definition virtqueue_get_desc_size : V Z :=
  q ← getvq;
  let vr := vq_ring q in
  VQUEUE_INVALIDATE (a_avail_idx vr) 2;;
  aidx ← ldv 2 (a_avail_idx vr);
  if vq_available_idx q =? aidx then mret 0
  else
    let head_idx := u16 (Z.land (vq_available_idx q) (u16 (vq_nentries q - 1))) in
    VQUEUE_INVALIDATE (a_avail_ring vr head_idx) 2;;
    avail_idx ← ldv 2 (a_avail_ring vr head_idx);
    VQUEUE_INVALIDATE (a_desc_len vr avail_idx) 4;;
    ldv 4 (a_desc_len vr avail_idx).

(** *** Notification *)

(** [virtqueue_nused]. *)
Definition virtqueue_nused : V Z :=
  q ← getvq;
  VQUEUE_INVALIDATE (a_used_idx (vq_ring q)) 2;;
  used_idx ← ldv 2 (a_used_idx (vq_ring q));
  let nused := u16 (used_idx - vq_used_cons_idx q) in
  VQASSERT (nused <=? vq_nentries q);;
  mret nused.

Definition vq_ring_enable_interrupt (ndesc : Z) : V Z :=
  q ← getvq;
  let vr := vq_ring q in
  (if negb (Z.land (vq_flags q) VIRTQUEUE_FLAG_EVENT_IDX =? 0) then
     stv 2 (a_vring_used_event vr) (u16 (vq_used_cons_idx q + ndesc));;
     VQUEUE_FLUSH (a_vring_used_event vr) 2
   else
     fl ← ldv 2 (a_avail_flags vr);
     stv 2 (a_avail_flags vr) (Z.ldiff fl VRING_AVAIL_F_NO_INTERRUPT);;
     VQUEUE_FLUSH (a_avail_flags vr) 2);;
  emit EvMb;;
  nused ← virtqueue_nused;
  mret (Z_of_bool (ndesc <? nused)).

Definition virtqueue_enable_cb : V Z := vq_ring_enable_interrupt 0.

Definition virtqueue_disable_cb : V unit :=
  VQUEUE_BUSY AvailWrite;;
  q ← getvq;
  let vr := vq_ring q in
  (if negb (Z.land (vq_flags q) VIRTQUEUE_FLAG_EVENT_IDX =? 0) then
     stv 2 (a_vring_used_event vr) (u16 (vq_used_cons_idx q - vq_nentries q - 1));;
     VQUEUE_FLUSH (a_vring_used_event vr) 2
   else
     fl ← ldv 2 (a_avail_flags vr);
     stv 2 (a_avail_flags vr) (Z.lor fl VRING_AVAIL_F_NO_INTERRUPT);;
     VQUEUE_FLUSH (a_avail_flags vr) 2);;
  VQUEUE_IDLE AvailWrite.

Definition vq_ring_must_notify_host : V Z :=
  q ← getvq;
  let vr := vq_ring q in
  if negb (Z.land (vq_flags q) VIRTQUEUE_FLAG_EVENT_IDX =? 0) then
    VQUEUE_INVALIDATE (a_avail_idx vr) 2;;
    new_idx ← ldv 2 (a_avail_idx vr);
    let prev_idx := u16 (new_idx - vq_queued_cnt q) in
    VQUEUE_INVALIDATE (a_vring_avail_event vr) 4;;
    ev ← ldv 4 (a_vring_avail_event vr);
    mret (Z_of_bool (negb (vring_need_event (u16 ev) new_idx prev_idx =? 0)))
  else
    VQUEUE_INVALIDATE (a_used_flags vr) 2;;
    fl ← ldv 2 (a_used_flags vr);
    mret (Z_of_bool (Z.land fl VRING_USED_F_NO_NOTIFY =? 0)).

(** [virtqueue_notify] of [rpmsg_lite.c], the only function installed as
    [notify_fc]. *)
Definition virtqueue_notify : V unit :=
  q ← getvq; emit (EvNotify (vq_queue_index q)).

Definition vq_ring_notify_host : V unit :=
  q ← getvq;
  match notify_fc q with
  | Some virtqueue_notify_fc => virtqueue_notify
  | None => mret tt
  end.

Definition virtqueue_kick : V unit :=
  VQUEUE_BUSY AvailWrite;;
  emit EvMb;;
  must ← vq_ring_must_notify_host;
  (if negb (must =? 0) then vq_ring_notify_host else mret tt);;
  updvq (λ q, set_vq_queued_cnt q 0);;
  VQUEUE_IDLE AvailWrite.

Definition virtqueue_dump : V unit :=
  q ← getvq;
  let vr := vq_ring q in
  VQUEUE_INVALIDATE (avail vr) sizeof_vring_avail;;
  VQUEUE_INVALIDATE (used vr) sizeof_vring_used;;
  nused ← virtqueue_nused;
  aidx ← ldv 2 (a_avail_idx vr);
  uidx ← ldv 2 (a_used_idx vr);
  afl ← ldv 2 (a_avail_flags vr);
  ufl ← ldv 2 (a_used_flags vr);
  emit (EvPrint [vq_nentries q; nused; vq_queued_cnt q; vq_desc_head_idx q;
                 aidx; vq_used_cons_idx q; uidx; afl; ufl]).

(** *** Initialisation of the descriptor chain *)

(** [vq_ring_init]: the loop body runs [size - 1] times (as a [uint32_t]), then
    the last descriptor gets the end marker. *)
Fixpoint vq_ring_init_loop (vr : vring) (k : nat) (i : Z) : V Z :=
  match k with
  | O => mret i
  | S k' => stv 2 (a_desc_next vr i) (u16 (i + 1));; vq_ring_init_loop vr k' (i + 1)
  end.

Definition vq_ring_init : V unit :=
  q ← getvq;
  let size := vq_nentries q in
  i ← vq_ring_init_loop (vq_ring q) (Z.to_nat (u32 (size - 1))) 0;
  stv 2 (a_desc_next (vq_ring q) i) (u16 VQ_RING_DESC_CHAIN_END).

End virtqueue.
