(* ===== verification/RingQueue.v ===== *)
(** * Ring buffers with free-running 16-bit indices

    The queue a ring denotes: the entries between a consumer index [c] and a
    producer index [p], both free-running modulo 2^16, in slots modulo the
    ring size.  Pushing and popping are proved once here for any slot reader;
    the available and the used ring of a virtqueue are the two instances. *)

From S2P Require Import Prelude Memory VirtioRing Virtqueue.

(** The queue denoted by slots [rd], size [n], consumer [c] and producer [p]. *)
Definition ring_queue {A} (rd : Z → A) (n c p : Z) : list A :=
  (λ k, rd ((c + k) mod n)) <$> seqZ 0 (u16 (p - c)).

(** The slots of the two rings, read from memory. *)
Definition r_avail_idx (vr : vring) (m : mem) : Z := load 2 m (a_avail_idx vr).
Definition r_avail_ring (vr : vring) (m : mem) (i : Z) : Z := load 2 m (a_avail_ring vr i).
Definition r_used_idx (vr : vring) (m : mem) : Z := load 2 m (a_used_idx vr).
Definition r_used_ring (vr : vring) (m : mem) (i : Z) : Z * Z :=
  (load 4 m (a_used_ring vr i), load 4 m (a_used_ring vr i + 4)).
Definition r_desc_addr (vr : vring) (m : mem) (i : Z) : Z := load 8 m (a_desc_addr vr i).
Definition r_desc_len (vr : vring) (m : mem) (i : Z) : Z := load 4 m (a_desc_len vr i).

(** What a consumer with index [c] still has to read from each ring. *)
Definition avail_queue (c : Z) (vr : vring) (m : mem) : list Z :=
  ring_queue (r_avail_ring vr m) (num vr) c (r_avail_idx vr m).
Definition used_queue (c : Z) (vr : vring) (m : mem) : list (Z * Z) :=
  ring_queue (r_used_ring vr m) (num vr) c (r_used_idx vr m).

(** The effect of publishing one entry on each ring. *)
Definition push_avail (vr : vring) (i : Z) (m : mem) : mem :=
  store 2 (store 2 m (a_avail_ring vr (r_avail_idx vr m mod num vr)) i)
    (a_avail_idx vr) (u16 (r_avail_idx vr m + 1)).
Definition push_used (vr : vring) (i len : Z) (m : mem) : mem :=
  let slot := a_used_ring vr (r_used_idx vr m mod num vr) in
  store 2 (store 4 (store 4 m slot i) (slot + 4) len)
    (a_used_idx vr) (u16 (r_used_idx vr m + 1)).

(** The effect of filling a descriptor. *)
Definition fill_desc (vr : vring) (i addr len : Z) (m : mem) : mem :=
  store 2 (store 4 (store 8 m (a_desc vr i) addr) (a_desc vr i + 8) len)
    (a_desc vr i + 12) VRING_DESC_F_WRITE.

(** The parts of a ring an update leaves alone. *)
Definition same_desc (vr : vring) (m m' : mem) : Prop := agree_on (desc vr) (avail vr) m' m.
Definition same_avail (vr : vring) (m m' : mem) : Prop :=
  agree_on (avail vr) (avail vr + 4 + 2 * num vr) m' m.
Definition same_used (vr : vring) (m m' : mem) : Prop :=
  agree_on (used vr) (vring_end vr) m' m.

(** ** The generic queue *)

Section ring_queue.
Context {A : Type}.
Implicit Types rd : Z → A.

Lemma length_ring_queue rd n c p : Z.of_nat (length (ring_queue rd n c p)) = u16 (p - c).
Proof.
  unfold ring_queue. rewrite length_fmap. apply length_seqZ_Z. apply u16_range.
Qed.

Lemma ring_queue_nil rd n c p :
  0 ≤ c < 65536 → 0 ≤ p < 65536 → ring_queue rd n c p = [] ↔ c = p.
Proof.
  intros Hc Hp. rewrite <- length_zero_iff_nil.
  pose proof (length_ring_queue rd n c p). split; intros; zwrap.
Qed.

Lemma ring_queue_ext rd rd' n c p :
  0 < n → (∀ i, 0 ≤ i < n → rd i = rd' i) → ring_queue rd n c p = ring_queue rd' n c p.
Proof.
  intros Hn Hrd. apply list_fmap_ext. intros i k _. apply Hrd. by apply Z.mod_pos_bound.
Qed.

(** Distances below the size do not meet modulo the size. *)
Lemma mod_distinct c k d n : 0 < n → 0 ≤ k → k < d → d < n → (c + k) mod n ≠ (c + d) mod n.
Proof.
  intros Hn Hk Hkd Hd Heq.
  assert ((c + d - (c + k)) mod n = 0) as Hz.
  { rewrite Zminus_mod, Heq, Z.sub_diag. by apply Zmod_0_l. }
  replace (c + d - (c + k)) with (d - k) in Hz by lia.
  rewrite Z.mod_small in Hz by lia. lia.
Qed.

(** The producer's slot in terms of the consumer's index and the count. *)
Lemma producer_slot c p n : pow2 n → n ≤ 32768 → p mod n = (c + u16 (p - c)) mod n.
Proof.
  intros Hp Hn. rewrite <- (u16_mod_pow2 (c + u16 (p - c))) by done.
  rewrite u16_add_r. rewrite u16_mod_pow2 by done. f_equal. lia.
Qed.

(** Pushing into a ring that is not full appends. *)
Lemma ring_queue_push rd rd' n c p x :
  pow2 n → n ≤ 32768 → u16 (p - c) < n →
  rd' (p mod n) = x →
  (∀ i, 0 ≤ i < n → i ≠ p mod n → rd' i = rd i) →
  ring_queue rd' n c (u16 (p + 1)) = ring_queue rd n c p ++ [x].
Proof.
  intros Hp Hn Hroom Hx Hrd. pose proof (pow2_pos n Hp). pose proof (u16_range (p - c)).
  unfold ring_queue. rewrite u16_sub_l.
  replace (u16 (p + 1 - c)) with (u16 (p - c) + 1).
  2:{ replace (p + 1 - c) with (p - c + 1) by lia. rewrite <- u16_add_l.
      symmetry. apply u16_small. lia. }
  rewrite seqZ_snoc by lia. rewrite fmap_app. f_equal.
  - apply list_fmap_ext. intros i k Hk. apply lookup_seqZ in Hk as [-> Hk].
    apply Hrd; [by apply Z.mod_pos_bound|].
    rewrite (producer_slot c p n) by done. apply mod_distinct; lia.
  - cbn. rewrite Z.add_0_l. by rewrite <- producer_slot, Hx.
Qed.

(** Writing the free slot behind the last entry changes nothing yet. *)
Lemma ring_queue_free_slot rd rd' n c p :
  pow2 n → n ≤ 32768 → u16 (p - c) < n →
  (∀ i, 0 ≤ i < n → i ≠ p mod n → rd' i = rd i) →
  ring_queue rd' n c p = ring_queue rd n c p.
Proof.
  intros Hp Hn Hroom Hrd. pose proof (pow2_pos n Hp).
  apply list_fmap_ext. intros i k Hk. apply lookup_seqZ in Hk as [-> Hk].
  apply Hrd; [by apply Z.mod_pos_bound|].
  rewrite (producer_slot c p n) by done. apply mod_distinct; lia.
Qed.

(** Popping from a ring that is not empty. *)
Lemma ring_queue_pop rd n c p :
  pow2 n → n ≤ 32768 → 0 ≤ c < 65536 → 0 ≤ p < 65536 → c ≠ p →
  ring_queue rd n c p = rd (c mod n) :: ring_queue rd n (u16 (c + 1)) p.
Proof.
  intros Hp Hn Hc Hpr Hne. pose proof (pow2_pos n Hp).
  assert (0 < u16 (p - c)) as Hpos by zwrap.
  unfold ring_queue. rewrite u16_sub_r.
  replace (u16 (p - (c + 1))) with (u16 (p - c) - 1).
  2:{ replace (p - (c + 1)) with (p - c + -1) by lia. rewrite <- u16_add_l.
      symmetry. apply u16_small. pose proof (u16_range (p - c)). lia. }
  rewrite seqZ_cons by done. rewrite fmap_cons, Z.add_0_r. f_equal.
  rewrite seqZ_shift_map. replace (Z.pred (u16 (p - c))) with (u16 (p - c) - 1) by lia.
  apply list_fmap_ext. intros i k _. f_equal.
  replace (c + (Z.succ 0 + k)) with (c + 1 + k) by lia.
  rewrite <- (u16_mod_pow2 (c + 1 + k)) by done.
  rewrite <- u16_add_l, u16_mod_pow2 by done. done.
Qed.

End ring_queue.

(** ** Memory footprints of the updates *)

Section footprints.
Context (vr : vring) (ok : vring_ok vr).

Lemma slot_range idx : 0 ≤ idx mod num vr < num vr.
Proof. apply Z.mod_pos_bound. auto with width. Qed.

Lemma r_avail_idx_range m : 0 ≤ r_avail_idx vr m < 65536.
Proof. apply (load_range 2). Qed.
Lemma r_used_idx_range m : 0 ≤ r_used_idx vr m < 65536.
Proof. apply (load_range 2). Qed.

Lemma push_avail_frames i m :
  frames (avail vr + 2) (avail vr + 4 + 2 * num vr) m (push_avail vr i m).
Proof.
  pose proof (slot_range (r_avail_idx vr m)).
  unfold push_avail, a_avail_ring, a_avail_idx.
  frame_stores.
Qed.

Lemma push_used_frames i len m :
  frames (used vr + 2) (vring_end vr) m (push_used vr i len m).
Proof.
  pose proof (slot_range (r_used_idx vr m)).
  unfold push_used, a_used_ring, a_used_idx, vring_end.
  frame_stores.
Qed.

Lemma fill_desc_frames i addr len m :
  frames (desc vr + 16 * i) (desc vr + 16 * i + 16) m (fill_desc vr i addr len m).
Proof.
  unfold fill_desc, a_desc.
  frame_stores.
Qed.

(** *** Reads that depend on one part only *)

Lemma avail_queue_ext c m m' : same_avail vr m m' → avail_queue c vr m' = avail_queue c vr m.
Proof.
  intros Hs. pose proof (vring_ok_num_pos vr ok).
  assert (r_avail_idx vr m' = r_avail_idx vr m) as E.
  { apply load_ext. eapply agree_on_sub; [apply Hs|unfold a_avail_idx; lia..]. }
  unfold avail_queue. rewrite E. apply ring_queue_ext; [done|].
  intros i Hi. apply load_ext. eapply agree_on_sub; [apply Hs|unfold a_avail_ring; lia..].
Qed.

Lemma used_queue_ext c m m' : same_used vr m m' → used_queue c vr m' = used_queue c vr m.
Proof.
  intros Hs. pose proof (vring_ok_num_pos vr ok).
  assert (r_used_idx vr m' = r_used_idx vr m) as E.
  { apply load_ext. eapply agree_on_sub; [apply Hs|unfold a_used_idx, vring_end; lia..]. }
  unfold used_queue. rewrite E. apply ring_queue_ext; [done|].
  intros i Hi. unfold r_used_ring.
  f_equal; apply load_ext; (eapply agree_on_sub; [apply Hs|unfold a_used_ring, vring_end; lia..]).
Qed.

Lemma r_desc_ext m m' i :
  same_desc vr m m' → 0 ≤ i < num vr →
  r_desc_addr vr m' i = r_desc_addr vr m i ∧ r_desc_len vr m' i = r_desc_len vr m i.
Proof.
  intros Hs Hi. pose proof (ok_avail vr ok).
  split; apply load_ext; (eapply agree_on_sub; [apply Hs|..]);
    unfold a_desc_addr, a_desc_len, a_desc; lia.
Qed.

(** A change outside the ring changes none of its parts. *)
Lemma frames_outside lo hi m m' :
  frames lo hi m m' → hi ≤ desc vr ∨ vring_end vr ≤ lo →
  same_desc vr m m' ∧ same_avail vr m m' ∧ same_used vr m m'.
Proof.
  intros Hf Ho. pose proof (ok_avail vr ok). pose proof (ok_used vr ok).
  pose proof (vring_ok_num_pos vr ok). unfold vring_end in *.
  split_and!; (eapply frames_agree; [apply Hf|unfold vring_end; lia]).
Qed.

(** *** Publishing on the available ring *)

Lemma push_avail_idx i m : r_avail_idx vr (push_avail vr i m) = u16 (r_avail_idx vr m + 1).
Proof.
  unfold r_avail_idx at 1, push_avail. rewrite load_store_same.
  apply u16_u16.
Qed.

Lemma push_avail_slot i m :
  r_avail_ring vr (push_avail vr i m) (r_avail_idx vr m mod num vr) = u16 i.
Proof.
  pose proof (slot_range (r_avail_idx vr m)).
  unfold r_avail_ring, push_avail.
  rewrite load_store_ne by (unfold a_avail_ring, a_avail_idx; lia).
  apply load_store_same.
Qed.

Lemma push_avail_slot_ne i m k :
  0 ≤ k < num vr → k ≠ r_avail_idx vr m mod num vr →
  r_avail_ring vr (push_avail vr i m) k = r_avail_ring vr m k.
Proof.
  intros Hk Hne. pose proof (slot_range (r_avail_idx vr m)).
  unfold r_avail_ring, push_avail.
  rewrite !load_store_ne by (unfold a_avail_ring, a_avail_idx; lia). done.
Qed.

Lemma avail_queue_push c i m :
  Z.of_nat (length (avail_queue c vr m)) < num vr →
  avail_queue c vr (push_avail vr i m) = avail_queue c vr m ++ [u16 i].
Proof.
  unfold avail_queue. rewrite length_ring_queue, push_avail_idx. intros Hroom.
  apply ring_queue_push; auto using push_avail_slot, push_avail_slot_ne, ok_pow2, ok_max.
Qed.

Lemma push_avail_same i m :
  same_desc vr m (push_avail vr i m) ∧ same_used vr m (push_avail vr i m).
Proof.
  pose proof (push_avail_frames i m) as Hf. pose proof (ok_used vr ok). pose proof (ok_avail vr ok).
  split; (eapply frames_agree; [apply Hf|unfold vring_end; lia]).
Qed.

(** *** Publishing on the used ring *)

Lemma push_used_idx i len m : r_used_idx vr (push_used vr i len m) = u16 (r_used_idx vr m + 1).
Proof. unfold r_used_idx at 1, push_used. rewrite load_store_same. apply u16_u16. Qed.

Lemma push_used_slot i len m :
  r_used_ring vr (push_used vr i len m) (r_used_idx vr m mod num vr) = (u32 i, u32 len).
Proof.
  pose proof (slot_range (r_used_idx vr m)).
  unfold r_used_ring, push_used. cbv zeta.
  rewrite !(load_store_ne 2) by (unfold a_used_ring, a_used_idx; lia).
  rewrite load_store_ne by lia. by rewrite !load_store_same.
Qed.

Lemma push_used_slot_ne i len m k :
  0 ≤ k < num vr → k ≠ r_used_idx vr m mod num vr →
  r_used_ring vr (push_used vr i len m) k = r_used_ring vr m k.
Proof.
  intros Hk Hne. pose proof (slot_range (r_used_idx vr m)).
  unfold r_used_ring, push_used. cbv zeta.
  rewrite !load_store_ne by (unfold a_used_ring, a_used_idx; lia). done.
Qed.

Lemma used_queue_push c i len m :
  Z.of_nat (length (used_queue c vr m)) < num vr →
  used_queue c vr (push_used vr i len m) = used_queue c vr m ++ [(u32 i, u32 len)].
Proof.
  unfold used_queue. rewrite length_ring_queue, push_used_idx. intros Hroom.
  apply ring_queue_push; auto using push_used_slot, push_used_slot_ne, ok_pow2, ok_max.
Qed.

Lemma push_used_same i len m :
  same_desc vr m (push_used vr i len m) ∧ same_avail vr m (push_used vr i len m).
Proof.
  pose proof (push_used_frames i len m) as Hf.
  pose proof (ok_used vr ok). pose proof (ok_avail vr ok). pose proof (vring_ok_num_pos vr ok).
  split; (eapply frames_agree; [apply Hf|lia]).
Qed.

(** *** Filling a descriptor *)

Lemma fill_desc_reads i addr len m :
  0 ≤ i →
  r_desc_addr vr (fill_desc vr i addr len m) i = u64 addr ∧
  r_desc_len vr (fill_desc vr i addr len m) i = u32 len.
Proof.
  intros Hi. unfold r_desc_addr, r_desc_len, fill_desc, a_desc_addr, a_desc_len.
  rewrite !(load_store_ne 2) by lia. rewrite (load_store_ne 4) by lia.
  by rewrite !load_store_same.
Qed.

Lemma fill_desc_reads_ne i j addr len m :
  0 ≤ i → 0 ≤ j → i ≠ j →
  r_desc_addr vr (fill_desc vr i addr len m) j = r_desc_addr vr m j ∧
  r_desc_len vr (fill_desc vr i addr len m) j = r_desc_len vr m j.
Proof.
  intros Hi Hj Hij. pose proof (fill_desc_frames i addr len m) as Hf.
  split; (eapply load_frames; [apply Hf|unfold a_desc_addr, a_desc_len, a_desc; lia]).
Qed.

Lemma fill_desc_same i addr len m :
  0 ≤ i < num vr →
  same_avail vr m (fill_desc vr i addr len m) ∧ same_used vr m (fill_desc vr i addr len m).
Proof.
  intros Hi. pose proof (fill_desc_frames i addr len m) as Hf.
  pose proof (ok_used vr ok). pose proof (ok_avail vr ok).
  split; (eapply frames_agree; [apply Hf|unfold vring_end; lia]).
Qed.

End footprints.

Lemma same_desc_trans vr m1 m2 m3 : same_desc vr m1 m2 → same_desc vr m2 m3 → same_desc vr m1 m3.
Proof. intros H1 H2 a Ha. rewrite (H2 a Ha). by apply H1. Qed.

#[export] Hint Resolve r_avail_idx_range r_used_idx_range : width.
