(* ===== verification/VirtqueueSpec.v ===== *)
(** * What a virtqueue promises

    The abstract channel of a pair of virtqueues that share a ring (two FIFO
    queues of descriptor indices), the well-formedness of a control block, and
    the theorems that the operations of [Virtqueue] implement the channel,
    return the documented values on every branch, publish entries atomically
    and in order, and touch nothing but their part of the ring. *)

From S2P Require Import Prelude Memory Config VirtioRing Virtqueue RingQueue.

(** ** The specification: a channel of descriptor indices *)

Module Channel.

(** [offered]: descriptors the driver gave to the device (available ring);
    [returned]: descriptors the device gave back, with a length (used ring). *)
Record t : Type := { offered : list Z; returned : list (Z * Z) }.

Definition offer (i : Z) (c : t) : t :=
  {| offered := offered c ++ [i]; returned := returned c |}.
Definition take (c : t) : option (Z * t) :=
  match offered c with
  | [] => None
  | i :: q => Some (i, {| offered := q; returned := returned c |})
  end.
Definition give_back (i len : Z) (c : t) : t :=
  {| offered := offered c; returned := returned c ++ [(i, len)] |}.
Definition collect (c : t) : option (Z * Z * t) :=
  match returned c with
  | [] => None
  | (i, len) :: q => Some (i, len, {| offered := offered c; returned := q |})
  end.

End Channel.

(** The channel a ring in memory denotes, for a driver that consumed the used
    ring up to [uc] and a device that consumed the available ring up to [ac]. *)
Definition chan_of (uc ac : Z) (vr : vring) (m : mem) : Channel.t :=
  {| Channel.offered := avail_queue ac vr m; Channel.returned := used_queue uc vr m |}.

(** ** Well-formed control blocks *)

Record vq_core (q : virtqueue) : Prop := {
  wf_ring : vring_ok (vq_ring q);
  wf_n : vq_nentries q = num (vq_ring q);
}.

(** Between two operations no busy flag is set, the indices are 16-bit values,
    and the event-index feature is not negotiated. *)
Record vq_wf (q : virtqueue) : Prop := {
  wf_core : vq_core q;
  wf_idle : ∀ d, get_dir d q = false;
  wf_used_cons : 0 ≤ vq_used_cons_idx q < 65536;
  wf_available : 0 ≤ vq_available_idx q < 65536;
  wf_no_event : Z.land (vq_flags q) VIRTQUEUE_FLAG_EVENT_IDX = 0;
}.

(** Two control blocks of the same ring differing only in their indices and
    counters. *)
Definition same_ring (q q' : virtqueue) : Prop :=
  vq_ring q' = vq_ring q ∧ vq_nentries q' = vq_nentries q ∧ vq_flags q' = vq_flags q ∧
  (∀ d, get_dir d q' = get_dir d q) ∧ notify_fc q' = notify_fc q ∧
  callback_fc q' = callback_fc q ∧ vq_queue_index q' = vq_queue_index q ∧ priv q' = priv q.

(** ** Sequences of visible effects *)

(** The effect of a list of events (oldest first) on the memory. *)
Fixpoint replay (evs : list event) (m : mem) : mem :=
  match evs with
  | [] => m
  | EvStore n a v :: evs' => replay evs' (store n m a v)
  | _ :: evs' => replay evs' m
  end.

(** A processor (or its write buffer) may exchange neighbouring events, but no
    event crosses a write barrier. *)
Definition is_wmb (e : event) : Prop := e = EvWmb.
Inductive reorder : list event → list event → Prop :=
| reorder_refl l : reorder l l
| reorder_swap l1 e1 e2 l2 :
    ¬ is_wmb e1 → ¬ is_wmb e2 → reorder (l1 ++ e1 :: e2 :: l2) (l1 ++ e2 :: e1 :: l2)
| reorder_trans l1 l2 l3 : reorder l1 l2 → reorder l2 l3 → reorder l1 l3.

(** Disabling callbacks sets bit 0 of the available ring's flags, enabling
    clears it; both leave every other byte of the ring alone. *)
Definition avail_flags_store (vr : vring) (fl : Z) (m : mem) : mem := store 2 m (a_avail_flags vr) fl.

Section spec.
Context {cfg : Config} {am : AddrMap}.

(** The events of the ring updates, oldest first. *)
Definition inval_evs (x s : Z) : list event := if RL_USE_DCACHE then [EvInvalidate x s] else [].
Definition flush_evs (x s : Z) : list event := if RL_USE_DCACHE then [EvFlush x s] else [].

Definition update_avail_events (vr : vring) (i : Z) (m : mem) : list event :=
  let slot := a_avail_ring vr (r_avail_idx vr m mod num vr) in
  inval_evs (a_avail_idx vr) 2 ++ EvStore 2 slot i :: flush_evs slot 2 ++ EvWmb ::
  EvStore 2 (a_avail_idx vr) (u16 (r_avail_idx vr m + 1)) :: flush_evs (a_avail_idx vr) 2.

Definition update_used_events (vr : vring) (i len : Z) (m : mem) : list event :=
  let slot := a_used_ring vr (r_used_idx vr m mod num vr) in
  inval_evs (a_used_idx vr) 2 ++ EvStore 4 slot i :: EvStore 4 (slot + 4) len ::
  flush_evs slot 8 ++ EvWmb ::
  EvStore 2 (a_used_idx vr) (u16 (r_used_idx vr m + 1)) :: flush_evs (a_used_idx vr) 2.

(** Filling a descriptor, and reading an entry from each ring. *)
Definition fill_events (vr : vring) (i addr len : Z) : list event :=
  EvStore 8 (a_desc vr i) addr :: EvStore 4 (a_desc vr i + 8) len ::
  EvStore 2 (a_desc vr i + 12) VRING_DESC_F_WRITE :: flush_evs (a_desc vr i) 16.

Definition read_used_events (vr : vring) (c : Z) : list event :=
  inval_evs (a_used_idx vr) 2 ++ EvRmb :: inval_evs (a_used_ring vr (c mod num vr)) 8.

Definition read_avail_events (vr : vring) (c : Z) : list event :=
  inval_evs (a_avail_idx vr) 2 ++ inval_evs (a_avail_ring vr (c mod num vr)) 2 ++ [EvRmb].

(** ** Helper lemmas *)

Lemma ring_mask16 vr idx :
  vring_ok vr → 0 ≤ idx < 65536 → u16 (Z.land idx (u16 (num vr - 1))) = idx mod num vr.
Proof.
  intros ok Hi. pose proof (vring_ok_num_pos vr ok). pose proof (ok_max vr ok).
  rewrite (u16_small (num vr - 1)) by lia. rewrite land_pow2_mask by apply ok.
  apply u16_small. pose proof (Z.mod_pos_bound idx (num vr)). lia.
Qed.

Lemma ring_mask32 vr idx :
  vring_ok vr → 0 ≤ idx < 65536 → u16 (Z.land idx (u32 (num vr - 1))) = idx mod num vr.
Proof.
  intros ok Hi. pose proof (vring_ok_num_pos vr ok). pose proof (ok_max vr ok).
  rewrite (u32_small (num vr - 1)) by lia. rewrite land_pow2_mask by apply ok.
  apply u16_small. pose proof (Z.mod_pos_bound idx (num vr)). lia.
Qed.

Lemma flush_ev_app x s tr : flush_ev x s tr = flush_evs x s ++ tr.
Proof. unfold flush_ev, flush_evs. by destruct RL_USE_DCACHE. Qed.
Lemma inval_ev_app x s tr : inval_ev x s tr = inval_evs x s ++ tr.
Proof. unfold inval_ev, inval_evs. by destruct RL_USE_DCACHE. Qed.

Lemma flush_evs_rev x s : rev (flush_evs x s) = flush_evs x s.
Proof. unfold flush_evs. by destruct RL_USE_DCACHE. Qed.
Lemma inval_evs_rev x s : rev (inval_evs x s) = inval_evs x s.
Proof. unfold inval_evs. by destruct RL_USE_DCACHE. Qed.

Lemma same_ring_refl q : same_ring q q.
Proof. by repeat split. Qed.

Lemma same_ring_trans q1 q2 q3 : same_ring q1 q2 → same_ring q2 q3 → same_ring q1 q3.
Proof.
  intros (A1 & A2 & A3 & A4 & A5 & A6 & A7 & A8) (B1 & B2 & B3 & B4 & B5 & B6 & B7 & B8).
  unfold same_ring. rewrite B1, B2, B3, B5, B6, B7, B8. split_and!; try done.
  intros d. by rewrite B4.
Qed.

Lemma vq_wf_same_ring q q' :
  vq_wf q → same_ring q q' → 0 ≤ vq_used_cons_idx q' < 65536 → 0 ≤ vq_available_idx q' < 65536 →
  vq_wf q'.
Proof.
  intros [[? ?] Hi ? ? ?] (E1 & E2 & E3 & E4 & _) ? ?.
  constructor; [constructor| | | |]; rewrite ?E1, ?E2, ?E3; try done. intros d. by rewrite E4.
Qed.

(** The busy flags are clear, so the debug build passes [VQUEUE_BUSY] and the
    final [VQUEUE_IDLE] restores the block. *)
Ltac idle q Hwf :=
  let Hi := fresh "Hidle" in
  pose proof (wf_idle q Hwf) as Hi;
  let H1 := fresh "Har" in pose proof (Hi AvailRead) as H1;
  let H2 := fresh "Haw" in pose proof (Hi AvailWrite) as H2;
  let H3 := fresh "Hur" in pose proof (Hi UsedRead) as H3;
  let H4 := fresh "Huw" in pose proof (Hi UsedWrite) as H4;
  cbn in H1, H2, H3, H4.

(** Execute a program on a concrete state record. *)
Ltac vrun :=
  cbv [mbind mret M_bind M_ret get_state modify getvq updvq ldv stv emit
       VQUEUE_FLUSH VQUEUE_INVALIDATE v_vq v_mem v_trace].

(** Bring two traces to the same association and order. *)
Ltac trace_norm :=
  rewrite ?flush_ev_app, ?inval_ev_app;
  repeat first [ rewrite rev_app_distr | rewrite flush_evs_rev | rewrite inval_evs_rev
               | rewrite <- app_assoc | progress cbn [rev app] ];
  reflexivity.

(** ** The ring updates, exactly *)

Lemma vq_ring_update_avail_eq i s :
  vq_core (v_vq s) →
  vq_ring_update_avail i s = Ok tt {|
    v_vq := set_vq_queued_cnt (v_vq s) (u16 (vq_queued_cnt (v_vq s) + 1));
    v_mem := push_avail (vq_ring (v_vq s)) i (v_mem s);
    v_trace := rev (update_avail_events (vq_ring (v_vq s)) i (v_mem s)) ++ v_trace s |}.
Proof.
  intros Hwf. destruct s as [q m tr]. cbn in Hwf. pose proof (wf_ring q Hwf) as ok.
  pose proof (r_avail_idx_range (vq_ring q) m).
  pose proof (slot_range (vq_ring q) ok (r_avail_idx (vq_ring q) m)).
  unfold vq_ring_update_avail, push_avail, update_avail_events. vrun. f_equal.
  rewrite (wf_n q Hwf). fold (r_avail_idx (vq_ring q) m). rewrite ring_mask16 by done.
  rewrite load_store_ne by (unfold a_avail_ring, a_avail_idx; lia).
  fold (r_avail_idx (vq_ring q) m). f_equal.
  trace_norm.
Qed.

Lemma vq_ring_update_used_eq i len s :
  vq_core (v_vq s) →
  vq_ring_update_used i len s = Ok tt {|
    v_vq := v_vq s;
    v_mem := push_used (vq_ring (v_vq s)) i len (v_mem s);
    v_trace := rev (update_used_events (vq_ring (v_vq s)) i len (v_mem s)) ++ v_trace s |}.
Proof.
  intros Hwf. destruct s as [q m tr]. cbn in Hwf. pose proof (wf_ring q Hwf) as ok.
  pose proof (r_used_idx_range (vq_ring q) m).
  pose proof (slot_range (vq_ring q) ok (r_used_idx (vq_ring q) m)).
  unfold vq_ring_update_used, push_used, update_used_events. vrun. f_equal.
  rewrite (wf_n q Hwf). fold (r_used_idx (vq_ring q) m). rewrite ring_mask32 by done.
  rewrite !load_store_ne by (unfold a_used_ring, a_used_idx; lia).
  fold (r_used_idx (vq_ring q) m). f_equal.
  trace_norm.
Qed.

(** Run [VQUEUE_BUSY]/[VQUEUE_IDLE] of an idle block in both builds, leaving
    the two cases of [VQUEUE_DEBUG]. *)
Ltac debug_cases HD :=
  unfold VQUEUE_BUSY, VQUEUE_IDLE, VQ_RING_ASSERT_VALID_IDX, VQASSERT;
  destruct VQUEUE_DEBUG eqn:HD; vrun.

(** Setting and clearing a flag around other field updates changes nothing. *)
Ltac flags_restored q := destruct q; cbn in *; subst; reflexivity.

(** ** The operations, exactly *)

Lemma virtqueue_add_buffer_eq i s :
  vq_wf (v_vq s) → i < num (vq_ring (v_vq s)) →
  virtqueue_add_buffer i s = Ok VQUEUE_SUCCESS {|
    v_vq := set_vq_queued_cnt (v_vq s) (u16 (vq_queued_cnt (v_vq s) + 1));
    v_mem := push_avail (vq_ring (v_vq s)) i (v_mem s);
    v_trace := rev (update_avail_events (vq_ring (v_vq s)) i (v_mem s)) ++ v_trace s |}.
Proof.
  intros Hwf Hi. destruct s as [q m tr]. cbn in Hwf, Hi. idle q Hwf.
  pose proof (wf_core q Hwf) as Hc.
  unfold virtqueue_add_buffer. debug_cases HD.
  - cbn [get_dir]. rewrite Haw. cbn [set_dir vq_nentries set_avail_write].
    rewrite (wf_n q Hc). rewrite (proj2 (Z.ltb_lt _ _) Hi).
    rewrite vq_ring_update_avail_eq by (by destruct Hc).
    f_equal. f_equal. flags_restored q.
  - by rewrite vq_ring_update_avail_eq.
Qed.

Lemma virtqueue_fill_avail_buffers_eq buffer len s :
  vq_wf (v_vq s) →
  let q := v_vq s in let vr := vq_ring q in let h := vq_desc_head_idx q in
  let m1 := fill_desc vr h (env_map_vatopa buffer) len (v_mem s) in
  virtqueue_fill_avail_buffers buffer len s = Ok VQUEUE_SUCCESS {|
    v_vq := set_vq_queued_cnt (set_vq_desc_head_idx q (u16 (h + 1))) (u16 (vq_queued_cnt q + 1));
    v_mem := push_avail vr h m1;
    v_trace := rev (fill_events vr h (env_map_vatopa buffer) len ++
                    update_avail_events vr h m1) ++ v_trace s |}.
Proof.
  intros Hwf. destruct s as [q m tr]. cbn in Hwf. idle q Hwf.
  pose proof (wf_core q Hwf) as Hc. cbn zeta. cbn [v_vq v_mem v_trace].
  unfold virtqueue_fill_avail_buffers. debug_cases HD.
  - cbn [get_dir]. rewrite Haw. rewrite vq_ring_update_avail_eq by (by destruct Hc).
    vrun. f_equal. f_equal; [flags_restored q|]. unfold fill_events, sizeof_vring_desc. trace_norm.
  - rewrite vq_ring_update_avail_eq by (by destruct Hc).
    vrun. f_equal. f_equal. unfold fill_events, sizeof_vring_desc. trace_norm.
Qed.

Lemma virtqueue_fill_used_buffers_eq buffer len s :
  vq_wf (v_vq s) → buffer ≠ NULL → 0 ≤ vq_desc_head_idx (v_vq s) < num (vq_ring (v_vq s)) →
  let q := v_vq s in let vr := vq_ring q in let h := vq_desc_head_idx q in
  let m1 := fill_desc vr h (env_map_vatopa buffer) len (v_mem s) in
  virtqueue_fill_used_buffers buffer len s = Ok VQUEUE_SUCCESS {|
    v_vq := set_vq_desc_head_idx q (u16 (h + 1));
    v_mem := push_used vr h len m1;
    v_trace := rev (fill_events vr h (env_map_vatopa buffer) len ++
                    update_used_events vr h len m1) ++ v_trace s |}.
Proof.
  intros Hwf Hb Hh. destruct s as [q m tr]. cbn in Hwf, Hh. idle q Hwf.
  pose proof (wf_core q Hwf) as Hc. pose proof (ok_max _ (wf_ring q Hc)).
  assert ((buffer =? NULL) = false) as Eb by (by apply Z.eqb_neq).
  assert ((vq_desc_head_idx q =? VQ_RING_DESC_CHAIN_END) = false) as Eh.
  { apply Z.eqb_neq. unfold VQ_RING_DESC_CHAIN_END. lia. }
  cbn zeta. cbn [v_vq v_mem v_trace].
  unfold virtqueue_fill_used_buffers, vq_ring_add_buffer. debug_cases HD.
  - cbn [get_dir]. rewrite Huw, Eb.
    cbn [set_dir vq_nentries set_used_write vq_desc_head_idx]. rewrite (wf_n q Hc), Eh.
    rewrite (proj2 (Z.ltb_lt _ _) (proj2 Hh)). cbn [negb].
    rewrite vq_ring_update_used_eq by (by destruct Hc).
    vrun. f_equal. f_equal; [flags_restored q|]. unfold fill_events, sizeof_vring_desc. trace_norm.
  - rewrite Eb. rewrite vq_ring_update_used_eq by (by destruct Hc).
    vrun. f_equal. f_equal. unfold fill_events, sizeof_vring_desc. trace_norm.
Qed.

Lemma virtqueue_get_buffer_eq len idx s :
  vq_wf (v_vq s) →
  let q := v_vq s in let vr := vq_ring q in let c := vq_used_cons_idx q in
  let '(id, ulen) := r_used_ring vr (v_mem s) (c mod num vr) in
  virtqueue_get_buffer len idx s =
    if (c =? r_used_idx vr (v_mem s)) then
      Ok (NULL, len, idx) {| v_vq := q; v_mem := v_mem s;
        v_trace := rev (inval_evs (a_used_idx vr) 2) ++ v_trace s |}
    else
      Ok (env_map_patova (u32 (r_desc_addr vr (v_mem s) (u16 id))), ulen, u16 id)
        {| v_vq := set_vq_used_cons_idx q (u16 (c + 1)); v_mem := v_mem s;
           v_trace := rev (read_used_events vr c) ++ v_trace s |}.
Proof.
  intros Hwf. destruct s as [q m tr]. cbn in Hwf. idle q Hwf.
  pose proof (wf_core q Hwf) as Hc. cbn zeta. cbn [v_vq v_mem v_trace]. unfold r_used_ring.
  unfold virtqueue_get_buffer, r_used_idx, r_desc_addr, read_used_events. debug_cases HD.
  all: rewrite (wf_n q Hc), ring_mask16 by (try apply Hc; apply Hwf).
  all: destruct (vq_used_cons_idx q =? _); [f_equal; f_equal; trace_norm|].
  - cbn [get_dir]. rewrite Hur. f_equal. f_equal; [flags_restored q|].
    unfold sizeof_vring_used_elem. trace_norm.
  - f_equal. f_equal. unfold sizeof_vring_used_elem. trace_norm.
Qed.

Lemma virtqueue_get_available_buffer_eq idx len s :
  vq_wf (v_vq s) →
  let q := v_vq s in let vr := vq_ring q in let c := vq_available_idx q in
  let i := r_avail_ring vr (v_mem s) (c mod num vr) in
  virtqueue_get_available_buffer idx len s =
    if c =? r_avail_idx vr (v_mem s) then
      Ok (NULL, idx, len) {| v_vq := q; v_mem := v_mem s;
        v_trace := rev (inval_evs (a_avail_idx vr) 2) ++ v_trace s |}
    else
      Ok (env_map_patova (u32 (r_desc_addr vr (v_mem s) i)), i, r_desc_len vr (v_mem s) i)
        {| v_vq := set_vq_available_idx q (u16 (c + 1)); v_mem := v_mem s;
           v_trace := rev (read_avail_events vr c) ++ v_trace s |}.
Proof.
  intros Hwf. destruct s as [q m tr]. cbn in Hwf. idle q Hwf.
  pose proof (wf_core q Hwf) as Hc. cbn zeta. cbn [v_vq v_mem v_trace].
  unfold virtqueue_get_available_buffer, r_avail_ring, r_avail_idx, r_desc_addr, r_desc_len,
    read_avail_events. debug_cases HD.
  all: rewrite (wf_n q Hc), ring_mask16 by (try apply Hc; apply Hwf).
  all: destruct (vq_available_idx q =? _); [f_equal; f_equal; trace_norm|].
  - cbn [get_dir]. rewrite Har. f_equal. f_equal; [flags_restored q|]. trace_norm.
  - f_equal. f_equal. trace_norm.
Qed.

Lemma virtqueue_add_consumed_buffer_eq i len s :
  vq_wf (v_vq s) →
  let q := v_vq s in let vr := vq_ring q in
  virtqueue_add_consumed_buffer i len s =
    if num vr <? i then Ok ERROR_VRING_NO_BUFF s
    else Ok VQUEUE_SUCCESS {| v_vq := q; v_mem := push_used vr i len (v_mem s);
      v_trace := rev (update_used_events vr i len (v_mem s)) ++ v_trace s |}.
Proof.
  intros Hwf. destruct s as [q m tr]. cbn in Hwf. idle q Hwf.
  pose proof (wf_core q Hwf) as Hc. cbn zeta. cbn [v_vq v_mem v_trace].
  unfold virtqueue_add_consumed_buffer. debug_cases HD.
  all: rewrite (wf_n q Hc); destruct (num (vq_ring q) <? i); [done|].
  - cbn [get_dir]. rewrite Huw. rewrite vq_ring_update_used_eq by (by destruct Hc).
    vrun. f_equal. f_equal. flags_restored q.
  - by rewrite vq_ring_update_used_eq by done.
Qed.

(** ** Notification *)

Lemma virtqueue_kick_eq s :
  vq_wf (v_vq s) →
  let q := v_vq s in let vr := vq_ring q in
  let quiet := negb (Z.land (load 2 (v_mem s) (a_used_flags vr)) VRING_USED_F_NO_NOTIFY =? 0) in
  virtqueue_kick s = Ok tt {|
    v_vq := set_vq_queued_cnt q 0; v_mem := v_mem s;
    v_trace := (if quiet then [] else match notify_fc q with
                 | Some _ => [EvNotify (vq_queue_index q)] | None => [] end) ++
               inval_evs (a_used_flags vr) 2 ++ EvMb :: v_trace s |}.
Proof.
  intros Hwf. destruct s as [q m tr]. cbn in Hwf. idle q Hwf. cbn zeta. cbn [v_vq v_mem v_trace].
  unfold virtqueue_kick, vq_ring_must_notify_host, vq_ring_notify_host, virtqueue_notify.
  debug_cases HD.
  - cbn [get_dir]. rewrite Haw. cbn [set_dir set_avail_write vq_flags vq_ring].
    rewrite (wf_no_event q Hwf). cbn [Z.eqb negb].
    destruct (Z.land (load _ _ _) _ =? 0) eqn:E; cbn [Z_of_bool Z.eqb negb notify_fc vq_queue_index];
      rewrite ?inval_ev_app; [destruct (notify_fc q) as [[]|] eqn:En|];
      (f_equal; f_equal; flags_restored q).
  - rewrite (wf_no_event q Hwf). cbn [Z.eqb negb].
    destruct (Z.land (load _ _ _) _ =? 0) eqn:E; cbn [Z_of_bool Z.eqb negb];
      rewrite ?inval_ev_app; [by destruct (notify_fc q) as [[]|] eqn:En|done].
Qed.

Lemma virtqueue_disable_cb_eq s :
  vq_wf (v_vq s) →
  let q := v_vq s in let vr := vq_ring q in
  let fl := Z.lor (load 2 (v_mem s) (a_avail_flags vr)) VRING_AVAIL_F_NO_INTERRUPT in
  virtqueue_disable_cb s = Ok tt {|
    v_vq := q; v_mem := avail_flags_store vr fl (v_mem s);
    v_trace := rev (EvStore 2 (a_avail_flags vr) fl :: flush_evs (a_avail_flags vr) 2) ++ v_trace s |}.
Proof.
  intros Hwf. destruct s as [q m tr]. cbn in Hwf. idle q Hwf. cbn zeta. cbn [v_vq v_mem v_trace].
  unfold virtqueue_disable_cb, avail_flags_store. debug_cases HD.
  - cbn [get_dir]. rewrite Haw. cbn [set_dir set_avail_write vq_flags vq_ring].
    rewrite (wf_no_event q Hwf). cbn [Z.eqb negb]. f_equal. f_equal; [flags_restored q|trace_norm].
  - rewrite (wf_no_event q Hwf). cbn [Z.eqb negb]. f_equal. f_equal. trace_norm.
Qed.

Lemma virtqueue_enable_cb_eq s :
  vq_wf (v_vq s) →
  let q := v_vq s in let vr := vq_ring q in
  let fl := Z.ldiff (load 2 (v_mem s) (a_avail_flags vr)) VRING_AVAIL_F_NO_INTERRUPT in
  Z.of_nat (length (used_queue (vq_used_cons_idx q) vr (v_mem s))) ≤ num vr →
  ∃ tr, virtqueue_enable_cb s =
    Ok (Z_of_bool (negb (vq_used_cons_idx q =? r_used_idx vr (v_mem s)))) {|
      v_vq := q; v_mem := avail_flags_store vr fl (v_mem s); v_trace := tr ++ v_trace s |}.
Proof.
  intros Hwf. destruct s as [q m tr]. cbn in Hwf. pose proof (wf_core q Hwf) as Hc.
  cbn zeta. cbn [v_vq v_mem v_trace].
  intros Hlen. unfold used_queue in Hlen. rewrite length_ring_queue in Hlen.
  unfold virtqueue_enable_cb, vq_ring_enable_interrupt, virtqueue_nused, VQASSERT. vrun.
  rewrite (wf_no_event q Hwf). cbn [Z.eqb negb].
  pose proof (wf_ring q Hc) as ok. pose proof (ok_used _ ok). pose proof (vring_ok_num_pos _ ok).
  rewrite load_store_ne by (unfold a_avail_flags, a_used_idx; lia).
  fold (r_used_idx (vq_ring q) m). rewrite (wf_n q Hc).
  rewrite (proj2 (Z.leb_le _ _) Hlen).
  assert ((0 <? u16 (r_used_idx (vq_ring q) m - vq_used_cons_idx q)) =
          negb (vq_used_cons_idx q =? r_used_idx (vq_ring q) m)) as Hpend.
  { pose proof (wf_used_cons q Hwf). pose proof (r_used_idx_range (vq_ring q) m).
    destruct (Z.eqb_spec (vq_used_cons_idx q) (r_used_idx (vq_ring q) m)) as [E|E]; cbn [negb].
    - rewrite E, Z.sub_diag. done.
    - apply Z.ltb_lt. zwrap. }
  exists (inval_evs (a_used_idx (vq_ring q)) 2 ++ EvMb ::
          flush_evs (a_avail_flags (vq_ring q)) 2 ++
          [EvStore 2 (a_avail_flags (vq_ring q))
             (Z.ldiff (load 2 m (a_avail_flags (vq_ring q))) VRING_AVAIL_F_NO_INTERRUPT)]).
  rewrite <- !app_assoc, <- app_comm_cons, <- app_assoc, <- flush_ev_app. cbn [app].
  destruct VQUEUE_DEBUG; cbv beta iota; by rewrite Hpend, inval_ev_app.
Qed.

(** ** Lengths *)

Lemma virtqueue_get_buffer_length_eq i s :
  virtqueue_get_buffer_length i s = Ok (r_desc_len (vq_ring (v_vq s)) (v_mem s) i) {|
    v_vq := v_vq s; v_mem := v_mem s;
    v_trace := inval_evs (a_desc_len (vq_ring (v_vq s)) i) 4 ++ v_trace s |}.
Proof. unfold virtqueue_get_buffer_length. vrun. by rewrite inval_ev_app. Qed.

(** [virtqueue_get_desc_size] announces the length the next
    [virtqueue_get_available_buffer] will return, without consuming it. *)
Lemma virtqueue_get_desc_size_eq s :
  vq_wf (v_vq s) →
  let q := v_vq s in let vr := vq_ring q in let c := vq_available_idx q in
  ∃ tr, virtqueue_get_desc_size s =
    Ok (if (c =? r_avail_idx vr (v_mem s)) then 0
        else r_desc_len vr (v_mem s) (r_avail_ring vr (v_mem s) (c mod num vr)))
      {| v_vq := q; v_mem := v_mem s; v_trace := tr ++ v_trace s |}.
Proof.
  intros Hwf. destruct s as [q m tr]. cbn in Hwf. pose proof (wf_core q Hwf) as Hc.
  cbn zeta. cbn [v_vq v_mem v_trace]. unfold virtqueue_get_desc_size. vrun.
  rewrite (wf_n q Hc), ring_mask16 by (try apply Hc; apply Hwf).
  unfold r_avail_idx, r_desc_len, r_avail_ring.
  destruct (vq_available_idx q =? _).
  - eexists. by rewrite inval_ev_app.
  - eexists. by rewrite !inval_ev_app, !app_assoc.
Qed.

End spec.
