(* ===== verification/Concrete.v ===== *)
(** * A concrete configuration

    The default configuration ([rpmsg_default_config.h]) on the LPC55S69
    platform header, an identity address map, and a two-entry ring set up by
    the model's own operations.  The other files instantiate the hypotheses of
    their theorems with these. *)

From S2P Require Import Prelude Memory Config VirtioRing Virtqueue RingQueue VirtqueueSpec.

(** The three parts of [VRING_SIZE] as [lpc55s69/rpmsg_platform.h] computes
    them, for a given alignment and buffer count ([unsigned long] arithmetic
    on a 32-bit target). *)
Definition VRING_DESC_SIZE (count al : Z) : Z :=
  Z.ldiff (u32 (count * sizeof_vring_desc + al - 1)) (al - 1).
Definition VRING_AVAIL_SIZE (count al : Z) : Z :=
  Z.ldiff (u32 (sizeof_vring_avail + count * 2 + 2 + al - 1)) (al - 1).
Definition VRING_USED_SIZE (count al : Z) : Z :=
  Z.ldiff (u32 (sizeof_vring_used + count * sizeof_vring_used_elem + 2 + al - 1)) (al - 1).
Definition platform_VRING_SIZE (count al : Z) : Z :=
  u32 (VRING_DESC_SIZE count al + VRING_AVAIL_SIZE count al + VRING_USED_SIZE count al).

Definition default_config : Config := {|
  RL_MS_PER_INTERVAL := 1;
  RL_ALLOW_CUSTOM_SHMEM_CONFIG := false;
  RL_BUFFER_PAYLOAD_SIZE := 496;
  RL_BUFFER_COUNT := 2;
  RL_USE_STATIC_API := false;
  RL_CLEAR_USED_BUFFERS := false;
  RL_USE_DCACHE := false;
  RL_USE_ENVIRONMENT_CONTEXT := false;
  RL_DEBUG_CHECK_BUFFERS := false;
  RL_ALLOW_CONSUMED_BUFFERS_NOTIFICATION := false;
  VQUEUE_DEBUG := false;
  VRING_SIZE := platform_VRING_SIZE 2 16;
  VRING_ALIGN := 16;
  RL_VRING_OVERHEAD := 2 * platform_VRING_SIZE 2 16;
  RL_PLATFORM_HIGHEST_LINK_ID := 0;
  RL_PLATFORM_MAX_ISR_COUNT := 32;
  uintptr_bits := 32;
|}.

(** The default build with the static API. *)
Definition static_config : Config := {|
  RL_MS_PER_INTERVAL := 1;
  RL_ALLOW_CUSTOM_SHMEM_CONFIG := false;
  RL_BUFFER_PAYLOAD_SIZE := 496;
  RL_BUFFER_COUNT := 2;
  RL_USE_STATIC_API := true;
  RL_CLEAR_USED_BUFFERS := false;
  RL_USE_DCACHE := false;
  RL_USE_ENVIRONMENT_CONTEXT := false;
  RL_DEBUG_CHECK_BUFFERS := false;
  RL_ALLOW_CONSUMED_BUFFERS_NOTIFICATION := false;
  VQUEUE_DEBUG := false;
  VRING_SIZE := platform_VRING_SIZE 2 16;
  VRING_ALIGN := 16;
  RL_VRING_OVERHEAD := 2 * platform_VRING_SIZE 2 16;
  RL_PLATFORM_HIGHEST_LINK_ID := 0;
  RL_PLATFORM_MAX_ISR_COUNT := 32;
  uintptr_bits := 32;
|}.

(** The same build with the debug assertions, the data cache and the
    consumed-buffer notification compiled in. *)
Definition debug_config : Config := {|
  RL_MS_PER_INTERVAL := 1;
  RL_ALLOW_CUSTOM_SHMEM_CONFIG := false;
  RL_BUFFER_PAYLOAD_SIZE := 496;
  RL_BUFFER_COUNT := 2;
  RL_USE_STATIC_API := false;
  RL_CLEAR_USED_BUFFERS := true;
  RL_USE_DCACHE := true;
  RL_USE_ENVIRONMENT_CONTEXT := false;
  RL_DEBUG_CHECK_BUFFERS := true;
  RL_ALLOW_CONSUMED_BUFFERS_NOTIFICATION := true;
  VQUEUE_DEBUG := true;
  VRING_SIZE := platform_VRING_SIZE 2 16;
  VRING_ALIGN := 16;
  RL_VRING_OVERHEAD := 2 * platform_VRING_SIZE 2 16;
  RL_PLATFORM_HIGHEST_LINK_ID := 0;
  RL_PLATFORM_MAX_ISR_COUNT := 32;
  uintptr_bits := 32;
|}.

(** Both cores see the shared memory at the same addresses
    ([platform_vatopa] and [platform_patova] are the identity there). *)
Definition flat_map : AddrMap := {| env_map_vatopa := λ a, u32 a; env_map_patova := λ a, a |}.

(** A two-entry ring at address 4096 and its control block. *)
Definition c_alloc : vring_alloc_info := {| phy_addr := 4096; align := 16; num_descs := 2 |}.
Definition c_vq : virtqueue :=
  @virtqueue_setup default_config 0 [] c_alloc (Some rpmsg_lite_rx_callback_fc) (Some virtqueue_notify_fc).
Definition c_ring : vring := vq_ring c_vq.
Definition c_buf (i : Z) : Z := 8192 + 512 * i.

(** The state after two buffers were made available on it, and after two were
    put on the used ring. *)
Definition c_start : vst := {| v_vq := c_vq; v_mem := ∅; v_trace := [] |}.
Definition run_or {A} (m : V A) (s : vst) : vst := match m s with Ok _ s' => s' | _ => s end.
Definition c_avail : vst :=
  run_or (@virtqueue_fill_avail_buffers default_config flat_map (c_buf 0) 512;;
          @virtqueue_fill_avail_buffers default_config flat_map (c_buf 1) 512) c_start.
Definition c_used : vst :=
  run_or (@virtqueue_fill_used_buffers default_config flat_map (c_buf 0) 512;;
          @virtqueue_fill_used_buffers default_config flat_map (c_buf 1) 512) c_start.

(** ** They satisfy the hypotheses of the theorems *)

Lemma default_ok : ConfigOk default_config.
Proof. constructor; cbn; try lia. by exists 1. Qed.

Lemma debug_ok : ConfigOk debug_config.
Proof. constructor; cbn; try lia. by exists 1. Qed.

Lemma c_ring_eq : c_ring = {| num := 2; desc := 4096; avail := 4128; used := 4144 |}.
Proof. vm_compute. done. Qed.

Lemma c_ring_ok : vring_ok c_ring.
Proof. rewrite c_ring_eq. constructor; cbn; try lia. by exists 1. Qed.

Lemma setup_wf q :
  vq_ring q = c_ring → vq_nentries q = 2 → (∀ d, get_dir d q = false) →
  0 ≤ vq_used_cons_idx q < 65536 → 0 ≤ vq_available_idx q < 65536 → vq_flags q = 0 → vq_wf q.
Proof.
  intros Hr Hn Hd Hu Ha Hf. constructor; try done; [constructor|by rewrite Hf].
  - rewrite Hr. apply c_ring_ok.
  - by rewrite Hn, Hr, c_ring_eq.
Qed.

Lemma c_vq_wf : vq_wf c_vq.
Proof. apply setup_wf; try done. by intros []. Qed.

Lemma c_avail_wf : vq_wf (v_vq c_avail).
Proof. apply setup_wf; vm_compute; try done. by intros []. Qed.

Lemma c_used_wf : vq_wf (v_vq c_used).
Proof. apply setup_wf; vm_compute; try done. by intros []. Qed.
