(* ===== verification/ChannelRefinement.v ===== *)
(** * The virtqueue operations implement the channel

    Each operation of [virtqueue.c] refines the operation of the abstract
    [Channel] it stands for: on every branch the returned value, the channel
    the ring denotes afterwards, the control block and the parts of the memory
    the call may touch. *)

From S2P Require Import Prelude Memory Config VirtioRing Virtqueue RingQueue VirtqueueSpec.

Section refinement.
Context {cfg : Config} {am : AddrMap}.

(** A call kept the control block well-formed and on the same ring, and wrote
    only inside [lo, hi). *)
Record kept (lo hi : Z) (s s' : vst) : Prop := {
  kept_wf : vq_wf (v_vq s');
  kept_ring : same_ring (v_vq s) (v_vq s');
  kept_mem : frames lo hi (v_mem s) (v_mem s');
}.

(** The channel seen by a driver and a device whose consumer indices are those
    of the control blocks [d] and [v]. *)
Definition channel_of (d v : virtqueue) (m : mem) : Channel.t :=
  chan_of (vq_used_cons_idx d) (vq_available_idx v) (vq_ring d) m.

(** Descriptor [h] holds [addr] and [len], every other one what it held. *)
Definition desc_updated (vr : vring) (h addr len : Z) (m m' : mem) : Prop :=
  (r_desc_addr vr m' h = u64 addr ∧ r_desc_len vr m' h = u32 len) ∧
  ∀ j, 0 ≤ j < num vr → j ≠ h →
    r_desc_addr vr m' j = r_desc_addr vr m j ∧ r_desc_len vr m' j = r_desc_len vr m j.

(** ** Shared lemmas *)

Lemma same_ring_queued q x : same_ring q (set_vq_queued_cnt q x).
Proof. destruct q. repeat split; by intros []. Qed.

Lemma same_ring_used_cons q x : same_ring q (set_vq_used_cons_idx q x).
Proof. destruct q. repeat split; by intros []. Qed.

Lemma same_ring_available q x : same_ring q (set_vq_available_idx q x).
Proof. destruct q. repeat split; by intros []. Qed.

Lemma same_ring_desc_head q x : same_ring q (set_vq_desc_head_idx q x).
Proof. destruct q. repeat split; by intros []. Qed.

Lemma kept_refl lo hi s : vq_wf (v_vq s) → kept lo hi s s.
Proof. intros. constructor; [done|apply same_ring_refl|apply frames_refl]. Qed.

Lemma chan_of_offer uc ac vr i m :
  vring_ok vr → 0 ≤ i < 65536 → Z.of_nat (length (avail_queue ac vr m)) < num vr →
  chan_of uc ac vr (push_avail vr i m) = Channel.offer i (chan_of uc ac vr m).
Proof.
  intros ok Hi Hroom. unfold chan_of, Channel.offer. cbn. f_equal.
  - rewrite avail_queue_push by done. by rewrite u16_small by lia.
  - apply used_queue_ext; [done|]. by apply push_avail_same.
Qed.

Lemma chan_of_give_back uc ac vr i len m :
  vring_ok vr → 0 ≤ i < 4294967296 → 0 ≤ len < 4294967296 →
  Z.of_nat (length (used_queue uc vr m)) < num vr →
  chan_of uc ac vr (push_used vr i len m) = Channel.give_back i len (chan_of uc ac vr m).
Proof.
  intros ok Hi Hl Hroom. unfold chan_of, Channel.give_back. cbn. f_equal.
  - apply avail_queue_ext; [done|]. by apply push_used_same.
  - rewrite used_queue_push by done. by rewrite !u32_small by lia.
Qed.

Lemma chan_of_ext uc ac vr m m' :
  vring_ok vr → same_avail vr m m' → same_used vr m m' → chan_of uc ac vr m' = chan_of uc ac vr m.
Proof.
  intros ok Ha Hu. unfold chan_of.
  by rewrite (avail_queue_ext vr ok ac m m' Ha), (used_queue_ext vr ok uc m m' Hu).
Qed.

Lemma avail_queue_cons c vr m :
  vring_ok vr → 0 ≤ c < 65536 →
  avail_queue c vr m = if (c =? r_avail_idx vr m) then [] else
    r_avail_ring vr m (c mod num vr) :: avail_queue (u16 (c + 1)) vr m.
Proof.
  intros ok Hc. pose proof (r_avail_idx_range vr m). unfold avail_queue.
  destruct (Z.eqb_spec c (r_avail_idx vr m)) as [E|E].
  - by apply ring_queue_nil.
  - apply ring_queue_pop; auto with width.
Qed.

Lemma used_queue_cons c vr m :
  vring_ok vr → 0 ≤ c < 65536 →
  used_queue c vr m = if (c =? r_used_idx vr m) then [] else
    r_used_ring vr m (c mod num vr) :: used_queue (u16 (c + 1)) vr m.
Proof.
  intros ok Hc. pose proof (r_used_idx_range vr m). unfold used_queue.
  destruct (Z.eqb_spec c (r_used_idx vr m)) as [E|E].
  - by apply ring_queue_nil.
  - apply ring_queue_pop; auto with width.
Qed.

(** ** The driver's operations, as [wp] rules *)

Lemma add_buffer_wp i s (uc ac : Z) :
  let vr := vq_ring (v_vq s) in
  vq_wf (v_vq s) → 0 ≤ i < num vr →
  Z.of_nat (length (avail_queue ac vr (v_mem s))) < num vr →
  wp (virtqueue_add_buffer i) (λ r s',
    r = VQUEUE_SUCCESS ∧
    chan_of uc ac vr (v_mem s') = Channel.offer i (chan_of uc ac vr (v_mem s)) ∧
    vq_used_cons_idx (v_vq s') = vq_used_cons_idx (v_vq s) ∧
    kept (avail vr + 2) (avail vr + 4 + 2 * num vr) s s') s.
Proof.
  intros vr Hwf Hi Hroom. subst vr. pose proof (wf_ring _ (wf_core _ Hwf)) as ok.
  eapply wp_ok; [apply virtqueue_add_buffer_eq; [done|lia]|]. cbn. split_and!; [done| |by destruct (v_vq s)|].
  - pose proof (ok_max _ ok). apply chan_of_offer; [done|lia|done].
  - constructor; cbn.
    + apply (vq_wf_same_ring (v_vq s)); [done|apply same_ring_queued|apply Hwf..].
    + apply same_ring_queued.
    + by apply push_avail_frames.
Qed.

Lemma get_buffer_wp len idx s (ac : Z) :
  let q := v_vq s in let vr := vq_ring q in let m := v_mem s in
  vq_wf q →
  wp (virtqueue_get_buffer len idx) (λ r s',
    v_mem s' = m ∧ kept 0 0 s s' ∧ vq_available_idx (v_vq s') = vq_available_idx q ∧
    match Channel.collect (chan_of (vq_used_cons_idx q) ac vr m) with
    | None => r = (NULL, len, idx) ∧ v_vq s' = q
    | Some (i, ulen, c') =>
        r = (env_map_patova (u32 (r_desc_addr vr m (u16 i))), ulen, u16 i) ∧
        chan_of (vq_used_cons_idx (v_vq s')) ac vr m = c'
    end) s.
Proof.
  intros q vr m Hwf. subst q vr m. pose proof (wf_ring _ (wf_core _ Hwf)) as ok.
  pose proof (virtqueue_get_buffer_eq len idx s Hwf) as Heq. cbn zeta in Heq.
  unfold chan_of, Channel.collect. cbn [Channel.returned Channel.offered].
  rewrite used_queue_cons by (try apply ok; apply Hwf).
  destruct (r_used_ring _ _ _) as [id ulen].
  destruct (_ =? _).
  - eapply wp_ok; [exact Heq|]. cbn. split_and!; try done; by apply kept_refl.
  - eapply wp_ok; [exact Heq|]. cbn. split_and!; try done.
    + constructor; cbn; [|apply same_ring_used_cons|apply frames_refl].
      apply (vq_wf_same_ring (v_vq s)); try apply same_ring_used_cons; try apply Hwf; try done.
      apply u16_range.
Qed.

(** ** The device's operations, as [wp] rules *)

Lemma get_available_wp idx len s (uc : Z) :
  let q := v_vq s in let vr := vq_ring q in let m := v_mem s in
  vq_wf q →
  wp (virtqueue_get_available_buffer idx len) (λ r s',
    v_mem s' = m ∧ kept 0 0 s s' ∧ vq_used_cons_idx (v_vq s') = vq_used_cons_idx q ∧
    match Channel.take (chan_of uc (vq_available_idx q) vr m) with
    | None => r = (NULL, idx, len) ∧ v_vq s' = q
    | Some (i, c') =>
        r = (env_map_patova (u32 (r_desc_addr vr m i)), i, r_desc_len vr m i) ∧
        chan_of uc (vq_available_idx (v_vq s')) vr m = c'
    end) s.
Proof.
  intros q vr m Hwf. subst q vr m. pose proof (wf_ring _ (wf_core _ Hwf)) as ok.
  pose proof (virtqueue_get_available_buffer_eq idx len s Hwf) as Heq. cbn zeta in Heq.
  unfold chan_of, Channel.take. cbn [Channel.returned Channel.offered].
  rewrite avail_queue_cons by (try apply ok; apply Hwf).
  destruct (_ =? _).
  - eapply wp_ok; [exact Heq|]. cbn. split_and!; try done; by apply kept_refl.
  - eapply wp_ok; [exact Heq|]. cbn. split_and!; try done.
    + constructor; cbn; [|apply same_ring_available|apply frames_refl].
      apply (vq_wf_same_ring (v_vq s)); try apply same_ring_available; try apply Hwf; try done.
      apply u16_range.
Qed.

Lemma add_consumed_wp i len s (uc ac : Z) :
  let q := v_vq s in let vr := vq_ring q in let m := v_mem s in
  vq_wf q → 0 ≤ i < 65536 → 0 ≤ len < 4294967296 →
  Z.of_nat (length (used_queue uc vr m)) < num vr →
  wp (virtqueue_add_consumed_buffer i len) (λ r s',
    v_vq s' = q ∧ kept (used vr + 2) (vring_end vr) s s' ∧
    if num vr <? i then r = ERROR_VRING_NO_BUFF ∧ s' = s
    else r = VQUEUE_SUCCESS ∧
         chan_of uc ac vr (v_mem s') = Channel.give_back i len (chan_of uc ac vr m)) s.
Proof.
  intros q vr m Hwf Hi Hl Hroom. subst q vr m. pose proof (wf_ring _ (wf_core _ Hwf)) as ok.
  pose proof (virtqueue_add_consumed_buffer_eq i len s Hwf) as Heq. cbn zeta in Heq.
  destruct (_ <? i).
  - eapply wp_ok; [exact Heq|]. split_and!; try done; by apply kept_refl.
  - eapply wp_ok; [exact Heq|]. cbn. split_and!; try done.
    + constructor; cbn; [done|apply same_ring_refl|by apply push_used_frames].
    + apply chan_of_give_back; try done. lia.
Qed.

(** ** Filling a descriptor and publishing it, as [wp] rules *)

Lemma desc_updated_fill vr h addr len m m' :
  vring_ok vr → 0 ≤ h < num vr → same_desc vr (fill_desc vr h addr len m) m' →
  desc_updated vr h addr len m m'.
Proof.
  intros ok Hh Hs. split.
  - destruct (r_desc_ext vr ok _ _ h Hs Hh) as [-> ->]. apply fill_desc_reads. lia.
  - intros j Hj Hne. destruct (r_desc_ext vr ok _ _ j Hs Hj) as [-> ->].
    apply fill_desc_reads_ne; lia.
Qed.

Lemma frames_ring vr h addr len m m' lo hi :
  vring_ok vr → 0 ≤ h < num vr → frames lo hi (fill_desc vr h addr len m) m' →
  desc vr ≤ lo → hi ≤ vring_end vr → frames (desc vr) (vring_end vr) m m'.
Proof.
  intros ok Hh Hf Hlo Hhi. pose proof (ok_avail vr ok). pose proof (ok_used vr ok).
  pose proof (vring_ok_num_pos vr ok).
  eapply frames_trans; eapply frames_weaken; [apply fill_desc_frames|..|exact Hf| |]; try done.
  - lia.
  - unfold vring_end. lia.
Qed.

Lemma fill_avail_wp buffer len s (uc ac : Z) :
  let q := v_vq s in let vr := vq_ring q in let m := v_mem s in let h := vq_desc_head_idx q in
  vq_wf q → 0 ≤ h < num vr → Z.of_nat (length (avail_queue ac vr m)) < num vr →
  wp (virtqueue_fill_avail_buffers buffer len) (λ r s',
    r = VQUEUE_SUCCESS ∧ vq_desc_head_idx (v_vq s') = h + 1 ∧
    chan_of uc ac vr (v_mem s') = Channel.offer h (chan_of uc ac vr m) ∧
    desc_updated vr h (env_map_vatopa buffer) len m (v_mem s') ∧
    kept (desc vr) (vring_end vr) s s') s.
Proof.
  intros q vr m h Hwf Hh Hroom. subst q vr m h. pose proof (wf_ring _ (wf_core _ Hwf)) as ok.
  pose proof (ok_max _ ok). pose proof (ok_avail _ ok). pose proof (ok_used _ ok).
  destruct (fill_desc_same _ ok (vq_desc_head_idx (v_vq s)) (env_map_vatopa buffer) len (v_mem s) Hh)
    as [Hsa Hsu].
  eapply wp_ok; [by apply virtqueue_fill_avail_buffers_eq|]. cbn. split_and!; [done|..].
  - apply u16_small. lia.
  - rewrite chan_of_offer by (try done; try lia; by rewrite (avail_queue_ext _ ok ac _ _ Hsa)).
    by rewrite (chan_of_ext _ _ _ (v_mem s)).
  - apply desc_updated_fill; [done..|]. by apply push_avail_same.
  - assert (same_ring (v_vq s) (set_vq_queued_cnt (set_vq_desc_head_idx (v_vq s)
      (u16 (vq_desc_head_idx (v_vq s) + 1))) (u16 (vq_queued_cnt (v_vq s) + 1)))) as Hr.
    { eapply same_ring_trans; [apply same_ring_desc_head|apply same_ring_queued]. }
    constructor; cbn; [|done|].
    + apply (vq_wf_same_ring (v_vq s)); [done..|apply Hwf|apply Hwf].
    + eapply frames_ring; [done..|by apply push_avail_frames|lia|unfold vring_end; lia].
Qed.

Lemma fill_used_wp buffer len s (uc ac : Z) :
  let q := v_vq s in let vr := vq_ring q in let m := v_mem s in let h := vq_desc_head_idx q in
  vq_wf q → buffer ≠ NULL → 0 ≤ h < num vr → 0 ≤ len < 4294967296 →
  Z.of_nat (length (used_queue uc vr m)) < num vr →
  wp (virtqueue_fill_used_buffers buffer len) (λ r s',
    r = VQUEUE_SUCCESS ∧ vq_desc_head_idx (v_vq s') = h + 1 ∧
    chan_of uc ac vr (v_mem s') = Channel.give_back h len (chan_of uc ac vr m) ∧
    desc_updated vr h (env_map_vatopa buffer) len m (v_mem s') ∧
    kept (desc vr) (vring_end vr) s s') s.
Proof.
  intros q vr m h Hwf Hb Hh Hl Hroom. subst q vr m h. pose proof (wf_ring _ (wf_core _ Hwf)) as ok.
  pose proof (ok_max _ ok). pose proof (ok_avail _ ok). pose proof (ok_used _ ok).
  destruct (fill_desc_same _ ok (vq_desc_head_idx (v_vq s)) (env_map_vatopa buffer) len (v_mem s) Hh)
    as [Hsa Hsu].
  eapply wp_ok; [by apply virtqueue_fill_used_buffers_eq|]. cbn. split_and!; [done|..].
  - apply u16_small. lia.
  - rewrite chan_of_give_back by (try done; try lia; by rewrite (used_queue_ext _ ok uc _ _ Hsu)).
    by rewrite (chan_of_ext _ _ _ (v_mem s)).
  - apply desc_updated_fill; [done..|]. by apply push_used_same.
  - constructor; cbn; [|apply same_ring_desc_head|].
    + apply (vq_wf_same_ring (v_vq s)); [done|apply same_ring_desc_head|apply Hwf|apply Hwf].
    + eapply frames_ring; [done..|by apply push_used_frames|lia|lia].
Qed.

End refinement.
