(* ===== verification/Layout.v ===== *)
(** * Layout, creation and suppression

    The theorems on the static side of the virtqueues: where [vring_init] puts
    the parts of a ring, that the sizes of the platform header cover it, which
    parameters the constructor accepts and what it makes of them, and how the
    two sides suppress each other's notifications. *)

From S2P Require Import Prelude Memory Config VirtioRing Virtqueue RingQueue VirtqueueSpec Concrete ChannelRefinement.

Section layout.
Context {cfg : Config} {am : AddrMap} {cok : ConfigOk cfg}.

(** ** Where things are *)

Lemma even_mod_pow2 x al : pow2 al → x mod 2 = 0 → x mod al = 0 ∨ 2 ≤ al - x mod al.
Proof.
  intros (k & Hk & ->) Hx. destruct (Z.eq_dec k 0) as [->|Hk0].
  { left. apply Z.mod_1_r. }
  assert (2 ^ k = 2 * 2 ^ (k - 1)) as E.
  { rewrite <- Z.pow_succ_r by lia. f_equal. lia. }
  pose proof (Z.pow_pos_nonneg 2 (k - 1) ltac:(lia) ltac:(lia)).
  rewrite E. set (h := 2 ^ (k - 1)) in *.
  pose proof (Z.mod_pos_bound x (2 * h) ltac:(lia)) as Hb. pose proof (Z.div_mod x (2 * h) ltac:(lia)) as Hd.
  pose proof (Z.div_mod x 2 ltac:(lia)) as H2. rewrite Hx in H2.
  set (r := x mod (2 * h)) in *. set (k1 := x / (2 * h)) in *. set (k2 := x / 2) in *.
  assert (r = 2 * (k2 - h * k1)) as Hr by lia. right. lia.
Qed.

Lemma add_mod_0 a b al : 0 < al → a mod al = 0 → b mod al = 0 → (a + b) mod al = 0.
Proof. intros Hal Ha Hb. by rewrite Z.add_mod, Ha, Hb by lia. Qed.

(** A multiple of [al] in [x, x + al): [x] itself, or the distance to it. *)
Lemma next_multiple x y al :
  0 < al → x ≤ y < x + al → y mod al = 0 → y = x + (if x mod al =? 0 then 0 else al - x mod al).
Proof.
  intros Hal Hxy Hy. pose proof (Z.div_mod x al ltac:(lia)) as Hx. pose proof (Z.div_mod y al ltac:(lia)) as Hy'.
  pose proof (Z.mod_pos_bound x al ltac:(lia)). rewrite Hy in Hy'.
  set (k := x / al) in *. set (j := y / al) in *. set (r := x mod al) in *.
  destruct (Z.eqb_spec r 0).
  - assert (j = k) by nia. nia.
  - assert (j = k + 1) by nia. nia.
Qed.

(** C27.  The ring [vring_init] lays out at an aligned address [p]: every
    descriptor, every slot of the available ring and every element of the used
    ring lies inside the [vring_size] bytes behind [p]; the three tables follow
    each other without overlap and the used ring is aligned.  The avail-event
    field has room of its own, the used-event field has not: it shares its bytes
    with the flags of the used ring exactly when the end of the available ring
    is already aligned. *)
Theorem vring_layout n p al :
  pow2 n → n ≤ 32768 → pow2 al → al ≤ 65536 → 0 ≤ p → p mod al = 0 →
  p + vring_size n al + al ≤ 2 ^ uintptr_bits →
  let vr := vring_init n p al in
  0 < vring_size n al < 2147483648 ∧ num vr = n ∧ desc vr = p ∧ used vr mod al = 0 ∧
  (∀ i, 0 ≤ i < n →
     p ≤ a_desc vr i ∧ a_desc vr i + sizeof_vring_desc ≤ a_avail_flags vr ∧
     a_avail_idx vr + 2 ≤ a_avail_ring vr i ∧ a_avail_ring vr i + 2 ≤ a_used_flags vr ∧
     a_used_idx vr + 2 ≤ a_used_ring vr i ∧
     a_used_ring vr i + sizeof_vring_used_elem ≤ a_vring_avail_event vr) ∧
  a_vring_avail_event vr + 2 ≤ p + vring_size n al ∧
  (a_vring_used_event vr + 2 ≤ a_used_flags vr ∨ a_vring_used_event vr = a_used_flags vr) ∧
  (a_vring_used_event vr = a_used_flags vr ↔ (18 * n + 4) mod al = 0).
Proof.
  intros Hn Hn1 Ha Ha1 Hp Hpa Hlt vr.
  destruct (vring_size_eq n al Hn Hn1 Ha Ha1) as [Hs Hs0].
  pose proof (pow2_pos n Hn). pose proof (pow2_pos al Ha). pose proof uptr_bits_ge.
  destruct (align_up_bounds (18 * n + 8) al Ha Ha1) as [Hb8 _]; [lia..|].
  destruct (align_up_bounds (18 * n + 4) al Ha Ha1) as [Hb4 Hm4]; [lia..|].
  assert (align_up (18 * n + 4) al ≤ align_up (18 * n + 8) al) by (apply align_up_mono; done || lia).
  assert (avail vr = p + 16 * n) as Ev.
  { cbn. unfold sizeof_vring_desc. rewrite uptr_small by lia. lia. }
  assert (used vr = p + align_up (18 * n + 4) al) as Eu.
  { change (used vr) with (align_up (uptr (avail vr + 4 + 2 * n)) al). rewrite Ev, uptr_small by lia.
    replace (p + 16 * n + 4 + 2 * n) with (p + (18 * n + 4)) by lia. apply align_up_shift; done || lia. }
  assert (num vr = n ∧ desc vr = p) as [En Ed] by done.
  unfold a_vring_used_event, a_vring_avail_event, a_used_ring, a_used_flags, a_used_idx, a_avail_ring,
    a_avail_flags, a_avail_idx, a_desc, sizeof_vring_desc, sizeof_vring_used_elem.
  rewrite Eu, Ev, En, Ed, Hs. set (x := 18 * n + 4) in *.
  assert (x mod 2 = 0) as Heven.
  { unfold x. replace (18 * n + 4) with ((9 * n + 2) * 2) by lia. apply Z.mod_mul. lia. }
  pose proof (next_multiple x (align_up x al) al ltac:(lia) Hb4 Hm4) as Hx.
  pose proof (even_mod_pow2 x al Ha Heven) as Hev. pose proof (Z.mod_pos_bound x al ltac:(lia)).
  set (y := align_up x al) in *. set (r := x mod al) in *.
  assert ((p + y) mod al = 0) as Hpy by (by apply add_mod_0).
  destruct (Z.eqb_spec r 0) as [Er|Er]; (split_and!; try done; try lia).
Qed.

(** ** The sizes of the platform header *)

Lemma ldiff_round x al : pow2 al → Z.ldiff (x + al - 1) (al - 1) = x + al - 1 - (x + al - 1) mod al.
Proof. apply ldiff_pow2_mask. Qed.

Lemma round_bounds x al : pow2 al →
  x ≤ Z.ldiff (x + al - 1) (al - 1) < x + al ∧ Z.ldiff (x + al - 1) (al - 1) mod al = 0.
Proof.
  intros Ha. pose proof (pow2_pos al Ha). rewrite ldiff_round by done.
  pose proof (Z.mod_pos_bound (x + al - 1) al). split; [lia|].
  by rewrite Zminus_mod_idemp_r, Z.sub_diag, Zmod_0_l.
Qed.

(** [VRING_SIZE] of [lpc55s69/rpmsg_platform.h] is large enough for the
    ring the library lays out, for every legal number of buffers and alignment,
    keeps the next ring aligned, and does not overflow. *)
Theorem platform_vring_size_covers n al :
  pow2 n → n ≤ 32768 → pow2 al → al ≤ 65536 →
  vring_size n al ≤ platform_VRING_SIZE n al ∧ platform_VRING_SIZE n al mod al = 0 ∧
  platform_VRING_SIZE n al < 2147483648.
Proof.
  intros Hn Hn1 Ha Ha1. destruct (vring_size_eq n al Hn Hn1 Ha Ha1) as [-> _].
  pose proof (pow2_pos n Hn). pose proof (pow2_pos al Ha). pose proof uptr_bits_ge.
  rewrite align_up_eq by (done || lia).
  unfold platform_VRING_SIZE, VRING_DESC_SIZE, VRING_AVAIL_SIZE, VRING_USED_SIZE, sizeof_vring_desc,
    sizeof_vring_avail, sizeof_vring_used, sizeof_vring_used_elem.
  rewrite (u32_small (n * 16 + al - 1)), (u32_small (6 + n * 2 + 2 + al - 1)), (u32_small (12 + n * 8 + 2 + al - 1))
    by lia.
  destruct (round_bounds (n * 16) al Ha) as [Hd Hdm]. destruct (round_bounds (6 + n * 2 + 2) al Ha) as [Hv Hvm].
  destruct (round_bounds (12 + n * 8 + 2) al Ha) as [Hu Hum].
  set (x := Z.ldiff (n * 16 + al - 1) _) in *. set (y := Z.ldiff (6 + n * 2 + 2 + al - 1) _) in *.
  set (z := Z.ldiff (12 + n * 8 + 2 + al - 1) _) in *.
  rewrite u32_small by lia. split_and!; [|by repeat apply add_mod_0|lia].
  rewrite <- (ldiff_round (18 * n + 8) al Ha).
  destruct (round_bounds (18 * n + 8) al Ha) as [Ht Htm]. set (t := Z.ldiff (18 * n + 8 + al - 1) _) in *.
  assert (t ≤ x + y); [|lia]. destruct (Z.lt_ge_cases (x + y) (18 * n + 8 + al)); [|lia].
  rewrite (next_multiple (18 * n + 8) t al) by (done || lia).
  rewrite (next_multiple (18 * n + 8) (x + y) al) by (try apply add_mod_0; done || lia). lia.
Qed.

(** ** Creation *)

(** A queue area: sizes and the address of a ring that the constructors accept
    and that lies inside the address space. *)
Record area_ok (a n al size : Z) : Prop := {
  ar_n : pow2 n; ar_max : n ≤ 32768;
  ar_al : pow2 al; ar_al_max : al ≤ 65536;
  ar_pos : 0 < a; ar_mod : a mod al = 0;
  ar_size : vring_size n al ≤ size;
  ar_fits : a + size + al ≤ 2 ^ uintptr_bits;
}.

Definition ring_at (a n al : Z) : vring := vring_init n a al.

Lemma setup_ring id name ring cb nf n al size :
  area_ok (phy_addr ring) n al size → num_descs ring = n → align ring = al →
  vq_ring (virtqueue_setup id name ring cb nf) = ring_at (phy_addr ring) n al ∧
  vq_wf (virtqueue_setup id name ring cb nf) ∧
  vring_end (ring_at (phy_addr ring) n al) ≤ phy_addr ring + size.
Proof.
  intros [Hn Hn1 Ha Ha1 Hp Hm Hs Hf] En Ea. pose proof (pow2_pos _ Ha).
  destruct (vring_init_ok n (phy_addr ring) al) as [Hok Hend]; try done; try lia.
  assert (vq_ring (virtqueue_setup id name ring cb nf) = ring_at (phy_addr ring) n al) as Er.
  { unfold virtqueue_setup, ring_at. cbn [vq_ring]. rewrite En, Ea.
    by rewrite i32_small, u32_small by lia. }
  split_and!; [done| |unfold ring_at; lia].
  constructor; [constructor| | | |]; rewrite ?Er; try done. by intros [].
Qed.

Lemma create_status_ok ring n al size :
  area_ok (phy_addr ring) n al size → num_descs ring = n → align ring = al →
  virtqueue_create_status (Some ring) = Some VQUEUE_SUCCESS.
Proof.
  intros [Hn Hn1 Ha Ha1 _ _ _ _] En Ea. pose proof (pow2_pos _ Hn). pose proof (pow2_pos _ Ha).
  unfold virtqueue_create_status, VQ_PARAM_CHK. rewrite En, Ea.
  rewrite u32_small by lia. rewrite pow2_land_pred_zero by done.
  rewrite (proj2 (Z.eqb_neq n 0)) by lia. rewrite (proj2 (Z.ltb_ge INT32_MAX al)) by (unfold INT32_MAX; lia).
  by destruct VQUEUE_DEBUG.
Qed.

(** C39.  The constructors of a virtqueue.  In the debug build the status says
    which parameter is wrong: no ring, no entries, a number of entries that is
    not a power of two, an alignment beyond [INT32_MAX]; otherwise only the last
    is checked (and a NULL ring is dereferenced).  A ring that fits gives a
    well-formed, idle control block on that ring, with the callbacks it was given
    and both indices at 0. *)
Theorem virtqueue_create_checks id name ring cb nf :
  0 ≤ num_descs ring < 65536 → 0 ≤ align ring →
  virtqueue_create_status None = (if VQUEUE_DEBUG then Some ERROR_VQUEUE_INVLD_PARAM else None) ∧
  (∃ s, virtqueue_create_status (Some ring) = Some s ∧
     (s = VQUEUE_SUCCESS ↔ align ring ≤ INT32_MAX ∧ (VQUEUE_DEBUG = true → pow2 (num_descs ring))) ∧
     (s = ERROR_VRING_ALIGN ↔ VQUEUE_DEBUG = true ∧ 0 < num_descs ring ∧ ¬ pow2 (num_descs ring)) ∧
     (s = VQUEUE_SUCCESS ∨ s = ERROR_VRING_ALIGN ∨ s = ERROR_VQUEUE_INVLD_PARAM)) ∧
  (∀ size, area_ok (phy_addr ring) (num_descs ring) (align ring) size →
     virtqueue_create_status (Some ring) = Some VQUEUE_SUCCESS ∧
     let q := virtqueue_setup id name ring cb nf in
     vq_wf q ∧ vq_ring q = ring_at (phy_addr ring) (num_descs ring) (align ring) ∧
     vring_end (vq_ring q) ≤ phy_addr ring + size ∧
     callback_fc q = cb ∧ notify_fc q = nf ∧ vq_queue_index q = id ∧
     vq_used_cons_idx q = 0 ∧ vq_available_idx q = 0 ∧ vq_desc_head_idx q = 0).
Proof.
  intros Hn Ha. split; [done|]. split.
  - unfold virtqueue_create_status, VQ_PARAM_CHK.
    assert (pow2 (num_descs ring) → 0 < num_descs ring) as Hpos by apply pow2_pos.
    destruct (pow2_test (num_descs ring) ltac:(lia)) as [[-> Hp]|[-> Hp]];
      destruct VQUEUE_DEBUG; destruct (Z.ltb_spec INT32_MAX (align ring));
      destruct (Z.eqb_spec (num_descs ring) 0) as [Ez|Ez]; cbn [negb andb];
      (eexists; split; [reflexivity|]); naive_solver lia.
  - intros size Har. split; [by eapply create_status_ok|]. cbv zeta.
    destruct (setup_ring id name ring cb nf _ _ size Har eq_refl eq_refl) as (Hr & Hwf & He).
    by rewrite Hr.
Qed.

(** ** The event-index test *)

(** [vring_need_event] compares the promoted differences: it answers 1
    exactly when the event index is not below the old index.  For 16-bit
    indices it gives the answer of the VirtIO specification exactly when the new
    index is at least the old one and above the event index, or neither; in the
    other cases, among them every wrap of the indices past an event, it differs. *)
Theorem vring_need_event_wraps event_idx new_idx old :
  vring_need_event event_idx new_idx old = (if old <=? event_idx then 1 else 0) ∧
  (0 ≤ event_idx < 65536 → 0 ≤ new_idx < 65536 → 0 ≤ old < 65536 →
   vring_need_event event_idx new_idx old = Z_of_bool (need_event_spec event_idx new_idx old) ↔
   (old ≤ new_idx ↔ event_idx < new_idx)).
Proof.
  split; [apply vring_need_event_eq|]. intros He Hn Ho. rewrite vring_need_event_eq. unfold need_event_spec.
  assert (∀ z, -65536 ≤ z < 65536 → u16 z = if z <? 0 then z + 65536 else z) as Hu.
  { intros z Hz. destruct (Z.ltb_spec z 0); [|apply u16_small; lia]. unfold u16.
    rewrite <- (Z.mod_add z 1) by lia. apply Z.mod_small. lia. }
  rewrite !Hu by lia. unfold Z_of_bool.
  destruct (Z.ltb_spec (new_idx - event_idx - 1) 0), (Z.ltb_spec (new_idx - old) 0); zcases; lia.
Qed.

(** ** Suppressing notifications *)

(** The events by which this side notifies the other one. *)
Definition is_notify (e : event) : Prop := match e with EvNotify _ => True | _ => False end.
#[global] Instance is_notify_dec e : Decision (is_notify e).
Proof. destruct e; cbn; apply _. Defined.

Lemma land_1_bit x : negb (Z.land x VRING_USED_F_NO_NOTIFY =? 0) = Z.testbit x 0.
Proof.
  change VRING_USED_F_NO_NOTIFY with (Z.ones 1). rewrite Z.land_ones by lia.
  change (2 ^ 1) with 2. by rewrite Z.bit0_odd, Zmod_odd; destruct (Z.odd x).
Qed.

Lemma avail_flags_kept (vr : vring) fl m uc ac :
  vring_ok vr → chan_of uc ac vr (avail_flags_store vr fl m) = chan_of uc ac vr m ∧
    frames (a_avail_flags vr) (a_avail_flags vr + 2) m (avail_flags_store vr fl m).
Proof.
  intros ok. pose proof (store_frames 2 m (a_avail_flags vr) fl) as Hf. split; [|exact Hf].
  pose proof (ok_used _ ok). pose proof (vring_ok_num_pos _ ok).
  assert (∀ k a, avail vr + 2 ≤ a → load k (avail_flags_store vr fl m) a = load k m a) as Hld.
  { intros k a Ha. eapply load_frames; [exact Hf|]. unfold a_avail_flags. lia. }
  unfold chan_of, avail_queue, used_queue, r_avail_idx, r_used_idx. f_equal.
  - rewrite Hld by (unfold a_avail_idx; lia). apply ring_queue_ext; [lia|]. intros k Hk. apply Hld.
    unfold a_avail_ring. lia.
  - rewrite Hld by (unfold a_used_idx; lia). apply ring_queue_ext; [lia|]. intros k Hk. unfold r_used_ring.
    by rewrite !Hld by (unfold a_used_ring; lia).
Qed.

(** Suppression of notifications.  [virtqueue_disable_cb] sets, and
    [virtqueue_enable_cb] clears, the flag by which the driver asks the device
    not to interrupt; both write these two bytes only and leave the channel as
    it was; enabling reports whether entries arrived in the meantime.
    [virtqueue_kick] writes nothing, resets the counter of queued entries and
    notifies the other side, with this queue's vector, exactly when the flag the
    other side keeps in the used ring allows it. *)
Theorem notification_suppression s uc ac :
  vq_wf (v_vq s) →
  let q := v_vq s in let vr := vq_ring q in let fl := a_avail_flags vr in
  Z.of_nat (length (used_queue (vq_used_cons_idx q) vr (v_mem s))) ≤ num vr →
  (∃ s', virtqueue_disable_cb s = Ok tt s' ∧ v_vq s' = q ∧ Z.testbit (load 2 (v_mem s') fl) 0 = true ∧
     chan_of uc ac vr (v_mem s') = chan_of uc ac vr (v_mem s) ∧ frames fl (fl + 2) (v_mem s) (v_mem s')) ∧
  (∃ s', virtqueue_enable_cb s =
       Ok (Z_of_bool (bool_decide (used_queue (vq_used_cons_idx q) vr (v_mem s) ≠ []))) s' ∧
     v_vq s' = q ∧ Z.testbit (load 2 (v_mem s') fl) 0 = false ∧
     chan_of uc ac vr (v_mem s') = chan_of uc ac vr (v_mem s) ∧ frames fl (fl + 2) (v_mem s) (v_mem s')) ∧
  (∃ s', virtqueue_kick s = Ok tt s' ∧ v_vq s' = set_vq_queued_cnt q 0 ∧ v_mem s' = v_mem s ∧
     filter is_notify (v_trace s') =
       (if Z.testbit (load 2 (v_mem s) (a_used_flags vr)) 0 then []
        else match notify_fc q with Some _ => [EvNotify (vq_queue_index q)] | None => [] end) ++
       filter is_notify (v_trace s)).
Proof.
  intros Hwf q vr fl Hlen. pose proof (wf_ring _ (wf_core _ Hwf)) as ok. fold q vr in ok.
  pose proof (load_range 2 (v_mem s) fl) as Hr. change (256 ^ Z.of_nat 2) with (2 ^ 16) in Hr.
  set (x := load 2 (v_mem s) fl) in *.
  assert (∀ y, Z.testbit (load 2 (avail_flags_store vr y (v_mem s)) fl) 0 = Z.testbit y 0) as Hbit.
  { intros y. unfold avail_flags_store, fl. rewrite load_store_same. change (256 ^ Z.of_nat 2) with (2 ^ 16).
    by rewrite Z.mod_pow2_bits_low by lia. }
  split_and!.
  - pose proof (virtqueue_disable_cb_eq s Hwf) as Heq. cbn zeta in Heq. fold q vr fl x in Heq.
    eexists. split; [exact Heq|]. cbn [v_vq v_mem]. rewrite Hbit, Z.lor_spec.
    destruct (avail_flags_kept vr (Z.lor x VRING_AVAIL_F_NO_INTERRUPT) (v_mem s) uc ac ok) as [Hc Hf].
    split_and!; [done|by rewrite orb_true_r|exact Hc|exact Hf].
  - destruct (virtqueue_enable_cb_eq s Hwf Hlen) as [tr Heq]. fold q vr fl x in Heq.
    assert (negb (vq_used_cons_idx q =? r_used_idx vr (v_mem s)) =
      bool_decide (used_queue (vq_used_cons_idx q) vr (v_mem s) ≠ [])) as Hpend.
    { rewrite (used_queue_cons _ vr) by (try apply Hwf; apply ok).
      destruct (_ =? _); [by rewrite bool_decide_eq_false_2 by auto|by rewrite bool_decide_eq_true_2]. }
    rewrite Hpend in Heq. eexists. split; [exact Heq|]. cbn [v_vq v_mem]. rewrite Hbit, Z.ldiff_spec.
    destruct (avail_flags_kept vr (Z.ldiff x VRING_AVAIL_F_NO_INTERRUPT) (v_mem s) uc ac ok) as [Hc Hf].
    split_and!; [done|by rewrite andb_false_r|exact Hc|exact Hf].
  - pose proof (virtqueue_kick_eq s Hwf) as Heq. cbn zeta in Heq. fold q vr in Heq.
    eexists. split; [exact Heq|]. cbn [v_vq v_mem v_trace]. split_and!; [done|done|].
    rewrite filter_app.
    assert (filter is_notify (inval_evs (a_used_flags vr) 2 ++ EvMb :: v_trace s) = filter is_notify (v_trace s)) as ->.
    { unfold inval_evs. by destruct RL_USE_DCACHE. }
    rewrite land_1_bit. by destruct (Z.testbit _ 0), (notify_fc q).
Qed.

End layout.

(** ** The theorems on a concrete ring *)

Lemma vring_layout_witness :
  (18 * 2 + 4) mod 4 = 0 ∧
  a_vring_used_event (@vring_init default_config 2 4096 4) = a_used_flags (@vring_init default_config 2 4096 4).
Proof.
  split; [done|]. destruct (@vring_layout default_config default_ok 2 4096 4) as (_ & _ & _ & _ & _ & _ & _ & He);
    [by exists 1|lia|by exists 2|lia..| |vm_compute; done|]; [done|].
  by apply He.
Defined.

Lemma platform_vring_size_covers_witness : @vring_size default_config 2 16 ≤ platform_VRING_SIZE 2 16.
Proof. apply (@platform_vring_size_covers default_config default_ok 2 16); [by exists 1|lia|by exists 4|lia]. Defined.

Lemma vring_need_event_wraps_witness :
  vring_need_event 0 1 65535 = 0 ∧ need_event_spec 0 1 65535 = true ∧
  vring_need_event 0 1 65535 ≠ Z_of_bool (need_event_spec 0 1 65535).
Proof.
  split_and!; [done|done|]. intros He.
  destruct (vring_need_event_wraps 0 1 65535) as [_ Hiff]. apply Hiff in He; lia.
Defined.

Lemma c_alloc_area : @area_ok default_config 4096 2 16 80.
Proof. constructor; [by exists 1|lia|by exists 4|lia|lia|done|vm_compute; done|cbn; lia]. Qed.

Lemma virtqueue_create_checks_witness :
  vq_wf c_vq ∧ @virtqueue_create_status default_config (Some c_alloc) = Some VQUEUE_SUCCESS.
Proof.
  destruct (@virtqueue_create_checks default_config default_ok 0 [] c_alloc (Some rpmsg_lite_rx_callback_fc)
    (Some virtqueue_notify_fc)) as (_ & _ & Hok); [cbn; lia|cbn; lia|].
  destruct (Hok 80 c_alloc_area) as (Hs & Hwf & _). split; [exact Hwf|exact Hs].
Defined.

Lemma notification_suppression_witness :
  ∃ s', @virtqueue_enable_cb default_config c_used = Ok 1 s'.
Proof.
  destruct (@notification_suppression default_config c_used 0 0 c_used_wf) as (_ & (s' & Hrun & _) & _).
  - vm_compute. done.
  - exists s'. exact Hrun.
Defined.
