(* ===== verification/Publication.v ===== *)
(** * Publication order

    The other core sees the stores of a ring update one at a time, and a
    processor may reorder those that no write barrier separates.  The theorems
    here say that at every moment, and under every reordering the barrier
    [env_wmb] allows, the consumer sees the queue either as it was or with the
    complete new entry: a half-written entry is never visible.  With
    [RL_USE_DCACHE] the same holds of what reaches memory through explicit
    cache flushes. *)

From S2P Require Import Prelude Memory Config VirtioRing Virtqueue RingQueue VirtqueueSpec Concrete ChannelRefinement.

(** The stores of a sequence of events. *)
Fixpoint stores (evs : list event) : list (nat * Z * Z) :=
  match evs with
  | [] => []
  | EvStore n a v :: evs' => (n, a, v) :: stores evs'
  | _ :: evs' => stores evs'
  end.

Fixpoint apply_stores (l : list (nat * Z * Z)) (m : mem) : mem :=
  match l with
  | [] => m
  | (n, a, v) :: l' => apply_stores l' (store n m a v)
  end.

(** A core with a write-back cache that is not coherent with the other core:
    stores go to the cache, a flush copies the flushed bytes to memory. *)
Record cached : Type := { cache : mem; visible : mem }.

Definition copy_range (src dst : mem) (a len : Z) : mem :=
  store_bytes dst a (load_bytes src a (Z.to_nat len)).

Definition cached_step (c : cached) (e : event) : cached :=
  match e with
  | EvStore n a v => {| cache := store n (cache c) a v; visible := visible c |}
  | EvFlush a len => {| cache := cache c; visible := copy_range (cache c) (visible c) a len |}
  | _ => c
  end.

Definition is_flush (e : event) : Prop := match e with EvFlush _ _ => True | _ => False end.

Definition cached_run (evs : list event) (m : mem) : cached :=
  fold_left cached_step evs {| cache := m; visible := m |}.

Section halves.
Context {cfg : Config} (vr : vring).

(** The two halves of an update's events. *)
Definition before_wmb_avail (i : Z) (m : mem) : list event :=
  let slot := a_avail_ring vr (r_avail_idx vr m mod num vr) in
  inval_evs (a_avail_idx vr) 2 ++ EvStore 2 slot i :: flush_evs slot 2.
Definition after_wmb_avail (m : mem) : list event :=
  EvStore 2 (a_avail_idx vr) (u16 (r_avail_idx vr m + 1)) :: flush_evs (a_avail_idx vr) 2.
Definition before_wmb_used (i len : Z) (m : mem) : list event :=
  let slot := a_used_ring vr (r_used_idx vr m mod num vr) in
  inval_evs (a_used_idx vr) 2 ++ EvStore 4 slot i :: EvStore 4 (slot + 4) len :: flush_evs slot 8.
Definition after_wmb_used (m : mem) : list event :=
  EvStore 2 (a_used_idx vr) (u16 (r_used_idx vr m + 1)) :: flush_evs (a_used_idx vr) 2.

End halves.

(** ** Stores and replay *)

Lemma replay_stores evs m : replay evs m = apply_stores (stores evs) m.
Proof. revert m. induction evs as [|e evs IH]; intros m; [done|]. destruct e; cbn; auto. Qed.

Lemma stores_app l1 l2 : stores (l1 ++ l2) = stores l1 ++ stores l2.
Proof. induction l1 as [|e l1 IH]; [done|]. destruct e; cbn; by rewrite ?IH. Qed.

Lemma apply_stores_app l1 l2 m : apply_stores (l1 ++ l2) m = apply_stores l2 (apply_stores l1 m).
Proof. revert m. induction l1 as [|[[n a] v] l1 IH]; intros m; cbn; auto. Qed.

Lemma stores_perm l1 l2 : l1 ≡ₚ l2 → stores l1 ≡ₚ stores l2.
Proof.
  induction 1 as [|e l1 l2 _ IH|e1 e2 l|l1 l2 l3 _ IH1 _ IH2].
  - done.
  - destruct e; cbn; by rewrite ?IH.
  - destruct e1, e2; cbn; try done. apply Permutation_swap.
  - by rewrite IH1.
Qed.

(** ** What a reordering can do around one barrier *)

Lemma no_wmb_unique A B l1 l2 :
  ¬ EvWmb ∈ A → ¬ EvWmb ∈ l1 → A ++ EvWmb :: B = l1 ++ EvWmb :: l2 → A = l1 ∧ B = l2.
Proof.
  revert l1. induction A as [|a A IH]; intros l1 HA Hl1 Heq; destruct l1 as [|x l1]; cbn in Heq.
  - by injection Heq.
  - injection Heq as <- _. exfalso. apply Hl1. left.
  - injection Heq as -> _. exfalso. apply HA. left.
  - injection Heq as <- Heq. destruct (IH l1) as [-> ->]; try done.
    + intros H. apply HA. by right.
    + intros H. apply Hl1. by right.
Qed.

Lemma reorder_around_wmb l l' A B :
  reorder l l' → l = A ++ EvWmb :: B → ¬ EvWmb ∈ A → ¬ EvWmb ∈ B →
  ∃ A' B', l' = A' ++ EvWmb :: B' ∧ A ≡ₚ A' ∧ B ≡ₚ B'.
Proof.
  intros Hr. revert A B.
  induction Hr as [l|l1 e1 e2 l2 He1 He2|l1 l2 l3 _ IH1 _ IH2]; intros A B Heq HA HB.
  - by exists A, B.
  - assert (EvWmb ∈ l1 ++ e1 :: e2 :: l2) as Hin by (rewrite Heq; set_solver).
    apply elem_of_app in Hin as [Hin|Hin].
    + apply list_elem_of_split_l in Hin as (k1 & k2 & -> & Hk1).
      rewrite <- app_assoc in Heq. cbn in Heq. symmetry in Heq.
      apply no_wmb_unique in Heq as [-> ->]; try done.
      exists k1, (k2 ++ e2 :: e1 :: l2). rewrite <- app_assoc. split_and!; try done.
      f_equiv. apply Permutation_swap.
    + rewrite !elem_of_cons in Hin. destruct Hin as [Hin|[Hin|Hin]]; [by destruct He1|by destruct He2|].
      apply list_elem_of_split_l in Hin as (k1 & k2 & -> & Hk1).
      destruct (decide (EvWmb ∈ l1)) as [Hl1|Hl1].
      { apply list_elem_of_split_l in Hl1 as (k3 & k4 & -> & Hk3).
        rewrite <- app_assoc in Heq. cbn in Heq. symmetry in Heq.
        apply no_wmb_unique in Heq as [-> ->]; try done. exfalso. apply HB. set_solver. }
      change (l1 ++ e1 :: e2 :: k1 ++ EvWmb :: k2)
        with (l1 ++ ([e1; e2] ++ k1) ++ EvWmb :: k2) in Heq.
      rewrite app_assoc in Heq. symmetry in Heq. apply no_wmb_unique in Heq as [-> ->]; try done.
      2:{ unfold is_wmb in *. set_solver. }
      exists (l1 ++ e2 :: e1 :: k1), k2. split_and!; try done.
      * by rewrite <- app_assoc.
      * f_equiv. apply Permutation_swap.
  - destruct (IH1 A B Heq HA HB) as (A1 & B1 & -> & PA1 & PB1).
    destruct (IH2 A1 B1) as (A2 & B2 & -> & PA2 & PB2); [done| | |].
    + by rewrite <- PA1.
    + by rewrite <- PB1.
    + exists A2, B2. split_and!; [done|by etrans..].
Qed.

(** ** Prefixes *)

Lemma stores_prefix l1 l2 : l1 `prefix_of` l2 → stores l1 `prefix_of` stores l2.
Proof. intros [k ->]. exists (stores k). apply stores_app. Qed.

Lemma prefix_app_cases {A} (p l1 l2 : list A) :
  p `prefix_of` l1 ++ l2 → p `prefix_of` l1 ∨ ∃ q, p = l1 ++ q ∧ q `prefix_of` l2.
Proof.
  revert p. induction l1 as [|x l1 IH]; intros p Hp; cbn in Hp.
  - right. by exists p.
  - destruct p as [|y p].
    + left. apply prefix_nil.
    + pose proof (prefix_cons_inv_1 _ _ _ _ Hp) as Hxy. apply prefix_cons_inv_2 in Hp. subst y.
      destruct (IH p Hp) as [H|(q & -> & Hq)].
      * left. by apply prefix_cons.
      * right. by exists q.
Qed.

Lemma prefix_singleton {A} (p : list A) x : p `prefix_of` [x] → p = [] ∨ p = [x].
Proof.
  destruct p as [|y p]; [by left|]. intros Hp. right.
  pose proof (prefix_cons_inv_1 _ _ _ _ Hp) as Hxy. apply prefix_cons_inv_2 in Hp.
  apply prefix_nil_inv in Hp. by subst.
Qed.

(** Stores inside a region change only the region. *)
Lemma apply_stores_frames lo hi l m :
  Forall (λ '(n, a, v), lo ≤ a ∧ a + Z.of_nat n ≤ hi) l → frames lo hi m (apply_stores l m).
Proof.
  revert m. induction l as [|[[n a] v] l IH]; intros m Hl; [apply frames_refl|].
  apply Forall_cons in Hl as [Ha Hl]. cbn. eapply frames_trans; [|by apply IH].
  eapply frames_weaken; [apply store_frames|lia|lia].
Qed.

(** The schema: the stores before the barrier only write [lo, hi), which the
    consumer does not look at; the single store after it publishes. *)
Lemma publication_schema (old new : mem → Prop) A B lo hi st m evs' pre :
  ¬ EvWmb ∈ A → ¬ EvWmb ∈ B → stores B = [st] →
  Forall (λ '(n, a, v), lo ≤ a ∧ a + Z.of_nat n ≤ hi) (stores A) →
  (∀ m', frames lo hi m m' → old m') →
  (∀ l, stores A ≡ₚ l → new (apply_stores (l ++ [st]) m)) →
  reorder (A ++ EvWmb :: B) evs' → pre `prefix_of` evs' →
  (old (replay pre m) ∨ new (replay pre m)) ∧ (pre = evs' → new (replay pre m)).
Proof.
  intros HA HB HsB HF Hold Hnew Hr Hpre.
  destruct (reorder_around_wmb _ _ A B Hr eq_refl HA HB) as (A' & B' & -> & PA & PB).
  apply stores_perm in PA, PB. rewrite HsB in PB. apply Permutation_singleton_l in PB.
  rewrite replay_stores. split.
  - apply prefix_app_cases in Hpre as [Hpre|(q & -> & Hq)].
    + left. apply Hold, apply_stores_frames.
      apply stores_prefix in Hpre as [k Hk]. rewrite PA, Hk in HF. by apply Forall_app in HF as [? _].
    + rewrite stores_app. apply (prefix_app_cases q [EvWmb] B') in Hq as [Hq|(q' & -> & Hq)].
      * left. apply Hold, apply_stores_frames.
        apply prefix_singleton in Hq as [-> | ->]; cbn; rewrite app_nil_r; by rewrite <- PA.
      * cbn. apply stores_prefix in Hq. rewrite <- PB in Hq.
        apply prefix_singleton in Hq as [-> | ->]; [left|right].
        -- rewrite app_nil_r. apply Hold, apply_stores_frames. by rewrite <- PA.
        -- by apply Hnew.
  - intros ->. rewrite stores_app. cbn. rewrite <- PB. by apply Hnew.
Qed.

(** ** The consumer's view while an entry is being published *)

Section publish.
Context {cfg : Config} {am : AddrMap} (vr : vring) (ok : vring_ok vr).

Lemma avail_free_slot uc ac m m' :
  let slot := a_avail_ring vr (r_avail_idx vr m mod num vr) in
  Z.of_nat (length (avail_queue ac vr m)) < num vr →
  frames slot (slot + 2) m m' → chan_of uc ac vr m' = chan_of uc ac vr m.
Proof.
  intros slot Hroom Hf. subst slot. unfold avail_queue in Hroom. rewrite length_ring_queue in Hroom.
  pose proof (slot_range vr ok (r_avail_idx vr m)) as Hs. pose proof (ok_used vr ok).
  assert (r_avail_idx vr m' = r_avail_idx vr m) as Ei.
  { eapply load_frames; [exact Hf|]. unfold a_avail_idx, a_avail_ring. lia. }
  unfold chan_of. f_equal.
  - unfold avail_queue. rewrite Ei. apply ring_queue_free_slot; auto using ok_pow2, ok_max.
    intros i Hi Hne. eapply load_frames; [exact Hf|]. unfold a_avail_ring. lia.
  - apply used_queue_ext; [done|]. eapply frames_agree; [exact Hf|].
    unfold a_avail_ring. lia.
Qed.

Lemma used_free_slot uc ac m m' :
  let slot := a_used_ring vr (r_used_idx vr m mod num vr) in
  Z.of_nat (length (used_queue uc vr m)) < num vr →
  frames slot (slot + 8) m m' → chan_of uc ac vr m' = chan_of uc ac vr m.
Proof.
  intros slot Hroom Hf. subst slot. unfold used_queue in Hroom. rewrite length_ring_queue in Hroom.
  pose proof (slot_range vr ok (r_used_idx vr m)) as Hs. pose proof (ok_used vr ok).
  assert (r_used_idx vr m' = r_used_idx vr m) as Ei.
  { eapply load_frames; [exact Hf|]. unfold a_used_idx, a_used_ring. lia. }
  unfold chan_of. f_equal.
  - apply avail_queue_ext; [done|]. eapply frames_agree; [exact Hf|].
    unfold a_used_ring. lia.
  - unfold used_queue. rewrite Ei. apply ring_queue_free_slot; auto using ok_pow2, ok_max.
    intros i Hi Hne. unfold r_used_ring.
    f_equal; (eapply load_frames; [exact Hf|]; unfold a_used_ring; lia).
Qed.

(** The view depends on the bytes only. *)
Lemma chan_of_equiv uc ac m m' : m ≡ m' → chan_of uc ac vr m = chan_of uc ac vr m'.
Proof. intros He. apply chan_of_ext; [done|..]; intros a _; apply He. Qed.

Ltac halves :=
  unfold before_wmb_avail, after_wmb_avail, before_wmb_used, after_wmb_used,
    update_avail_events, update_used_events, inval_evs, flush_evs; destruct RL_USE_DCACHE.

Lemma update_avail_halves i m :
  update_avail_events vr i m = before_wmb_avail vr i m ++ EvWmb :: after_wmb_avail vr m ∧
  (¬ EvWmb ∈ before_wmb_avail vr i m) ∧ (¬ EvWmb ∈ after_wmb_avail vr m).
Proof. halves; (split_and!; [reflexivity|cbn; set_solver..]). Qed.

Lemma update_used_halves i len m :
  update_used_events vr i len m = before_wmb_used vr i len m ++ EvWmb :: after_wmb_used vr m ∧
  (¬ EvWmb ∈ before_wmb_used vr i len m) ∧ (¬ EvWmb ∈ after_wmb_used vr m).
Proof. halves; (split_and!; [reflexivity|cbn; set_solver..]). Qed.

Lemma update_avail_atomic uc ac i m evs' pre :
  0 ≤ i < 65536 → Z.of_nat (length (avail_queue ac vr m)) < num vr →
  reorder (update_avail_events vr i m) evs' → pre `prefix_of` evs' →
  let old := chan_of uc ac vr m in
  let seen := chan_of uc ac vr (replay pre m) in
  (seen = old ∨ seen = Channel.offer i old) ∧ (pre = evs' → seen = Channel.offer i old).
Proof.
  intros Hi Hroom Hr Hpre old seen. subst old seen.
  destruct (update_avail_halves i m) as (E & HA & HB). rewrite E in Hr.
  set (slot := a_avail_ring vr (r_avail_idx vr m mod num vr)).
  apply (publication_schema (λ m', chan_of uc ac vr m' = chan_of uc ac vr m)
    (λ m', chan_of uc ac vr m' = Channel.offer i (chan_of uc ac vr m))
    (before_wmb_avail vr i m) (after_wmb_avail vr m) slot (slot + 2)
    (2%nat, a_avail_idx vr, u16 (r_avail_idx vr m + 1)) m evs' pre); try done.
  - by halves.
  - halves; cbn; (constructor; [fold slot; lia|constructor]).
  - intros m' Hf. by eapply avail_free_slot.
  - intros l Hl. assert (stores (before_wmb_avail vr i m) = [(2%nat, slot, i)]) as Es by (by halves).
    rewrite Es in Hl. apply Permutation_singleton_l in Hl. subst l. by apply chan_of_offer.
Qed.

Lemma update_used_atomic uc ac i len m evs' pre :
  0 ≤ i < 65536 → 0 ≤ len < 4294967296 → Z.of_nat (length (used_queue uc vr m)) < num vr →
  reorder (update_used_events vr i len m) evs' → pre `prefix_of` evs' →
  let old := chan_of uc ac vr m in
  let seen := chan_of uc ac vr (replay pre m) in
  (seen = old ∨ seen = Channel.give_back i len old) ∧
  (pre = evs' → seen = Channel.give_back i len old).
Proof.
  intros Hi Hl Hroom Hr Hpre old seen. subst old seen.
  destruct (update_used_halves i len m) as (E & HA & HB). rewrite E in Hr.
  set (slot := a_used_ring vr (r_used_idx vr m mod num vr)).
  apply (publication_schema (λ m', chan_of uc ac vr m' = chan_of uc ac vr m)
    (λ m', chan_of uc ac vr m' = Channel.give_back i len (chan_of uc ac vr m))
    (before_wmb_used vr i len m) (after_wmb_used vr m) slot (slot + 8)
    (2%nat, a_used_idx vr, u16 (r_used_idx vr m + 1)) m evs' pre); try done.
  - by halves.
  - halves; cbn; (constructor; [fold slot; lia|constructor; [fold slot; lia|constructor]]).
  - intros m' Hf. by eapply used_free_slot.
  - intros l Hp.
    assert (stores (before_wmb_used vr i len m) = [(4%nat, slot, i); (4%nat, slot + 4, len)]) as Es
      by (by halves).
    rewrite Es in Hp. rewrite <- (chan_of_give_back uc ac vr i len m) by (try done; lia).
    apply Permutation_length_2_inv in Hp as [-> | ->]; [done|].
    apply chan_of_equiv. cbn. unfold push_used. fold slot. f_equiv.
    apply store_store_comm. lia.
Qed.

(** *** Through the cache *)

(** Flushing the range a core wrote since memory and cache last agreed makes
    them agree again. *)
Lemma copy_range_coherent v c c' a n :
  0 ≤ n → v ≡ c → frames a (a + n) c c' → copy_range c' v a n ≡ c'.
Proof.
  intros Hn Hv Hf b. unfold copy_range. rewrite byte_at_store_bytes.
  case_decide as Hb; [|by rewrite (Hv b), Hf by lia].
  destruct (decide (b < a + n)).
  - rewrite load_bytes_lookup by lia.
    replace (a + Z.of_nat (Z.to_nat (b - a))) with b by lia.
    apply Z.mod_small, byte_at_range.
  - rewrite lookup_ge_None_2 by (rewrite length_load_bytes; lia). by rewrite (Hv b), Hf by lia.
Qed.

(** Without a flush nothing reaches memory. *)
Lemma cached_run_no_flush evs m :
  Forall (λ e, ¬ is_flush e) evs → cached_run evs m = {| cache := replay evs m; visible := m |}.
Proof.
  unfold cached_run. assert (∀ c v, Forall (λ e, ¬ is_flush e) evs →
    fold_left cached_step evs {| cache := c; visible := v |} = {| cache := replay evs c; visible := v |})
    as H; [|by apply H].
  induction evs as [|e evs IH]; intros c v Hf; [done|]. apply Forall_cons in Hf as [He Hf].
  destruct e; cbn in *; auto; done.
Qed.

(** Stores inside a range, the flush of that range, the barrier, the store of
    an index and its flush: memory only ever shows the start, the state after
    the first flush, or the final state. *)
Lemma cached_publication evs lo n a v m pre :
  let tail := [EvFlush lo n; EvWmb; EvStore 2 a v; EvFlush a 2] in
  let m1 := replay evs m in
  let seen := visible (cached_run pre m) in
  Forall (λ e, ¬ is_flush e) evs → 0 ≤ n → frames lo (lo + n) m m1 →
  pre `prefix_of` evs ++ tail →
  (seen = m ∨ seen ≡ m1 ∨ seen ≡ store 2 m1 a v) ∧ (pre = evs ++ tail → seen ≡ store 2 m1 a v).
Proof.
  intros tail m1 seen Hevs Hn Hf Hpre. subst tail seen.
  pose proof (cached_run_no_flush evs m Hevs) as Hrun. fold m1 in Hrun.
  assert (copy_range m1 m lo n ≡ m1) as Hc1 by (by apply (copy_range_coherent m m)).
  assert (copy_range (store 2 m1 a v) (copy_range m1 m lo n) a 2 ≡ store 2 m1 a v) as Hc2.
  { apply (copy_range_coherent _ m1); [lia|done|]. apply (store_frames 2). }
  split.
  - apply prefix_app_cases in Hpre as [[k ->]|(q & -> & Hq)].
    { left. apply Forall_app in Hevs as [Hevs _]. by rewrite cached_run_no_flush. }
    unfold cached_run in *. rewrite fold_left_app, Hrun.
    destruct q as [|e1 q]; [by left|]. pose proof (prefix_cons_inv_1 _ _ _ _ Hq) as ->.
    apply prefix_cons_inv_2 in Hq.
    destruct q as [|e2 q]; [by right; left|]. pose proof (prefix_cons_inv_1 _ _ _ _ Hq) as ->.
    apply prefix_cons_inv_2 in Hq.
    destruct q as [|e3 q]; [by right; left|]. pose proof (prefix_cons_inv_1 _ _ _ _ Hq) as ->.
    apply prefix_cons_inv_2 in Hq.
    apply prefix_singleton in Hq as [-> | ->]; right; [by left|by right].
  - intros ->. unfold cached_run in *. by rewrite fold_left_app, Hrun.
Qed.

Lemma update_avail_cached uc ac i m pre :
  RL_USE_DCACHE = true →
  0 ≤ i < 65536 → Z.of_nat (length (avail_queue ac vr m)) < num vr →
  pre `prefix_of` update_avail_events vr i m →
  let old := chan_of uc ac vr m in
  let seen := chan_of uc ac vr (visible (cached_run pre m)) in
  (seen = old ∨ seen = Channel.offer i old) ∧
  (pre = update_avail_events vr i m → seen = Channel.offer i old).
Proof.
  intros HD Hi Hroom Hpre old seen. subst old seen.
  set (slot := a_avail_ring vr (r_avail_idx vr m mod num vr)).
  pose proof (cached_publication [EvInvalidate (a_avail_idx vr) 2; EvStore 2 slot i] slot 2
    (a_avail_idx vr) (u16 (r_avail_idx vr m + 1)) m pre) as H.
  unfold update_avail_events, inval_evs, flush_evs in *. rewrite HD in *.
  destruct H as [Hseen Hfin]; [repeat constructor; auto|lia|cbn; apply (store_frames 2)|done|].
  rewrite <- (chan_of_offer uc ac vr i m) by done.
  split.
  - destruct Hseen as [-> |[E|E]]; [by left|left|right]; rewrite (chan_of_equiv _ _ _ _ E); [|done].
    eapply avail_free_slot; [done|]. apply (store_frames 2).
  - intros Heq. by rewrite (chan_of_equiv _ _ _ _ (Hfin Heq)).
Qed.

Lemma update_used_cached uc ac i len m pre :
  RL_USE_DCACHE = true →
  0 ≤ i < 65536 → 0 ≤ len < 4294967296 → Z.of_nat (length (used_queue uc vr m)) < num vr →
  pre `prefix_of` update_used_events vr i len m →
  let old := chan_of uc ac vr m in
  let seen := chan_of uc ac vr (visible (cached_run pre m)) in
  (seen = old ∨ seen = Channel.give_back i len old) ∧
  (pre = update_used_events vr i len m → seen = Channel.give_back i len old).
Proof.
  intros HD Hi Hl Hroom Hpre old seen. subst old seen.
  set (slot := a_used_ring vr (r_used_idx vr m mod num vr)).
  pose proof (cached_publication [EvInvalidate (a_used_idx vr) 2; EvStore 4 slot i; EvStore 4 (slot + 4) len]
    slot 8 (a_used_idx vr) (u16 (r_used_idx vr m + 1)) m pre) as H.
  unfold update_used_events, inval_evs, flush_evs in *. rewrite HD in *.
  assert (frames slot (slot + 8) m (store 4 (store 4 m slot i) (slot + 4) len)) as Hf by frame_stores.
  destruct H as [Hseen Hfin]; [repeat constructor; auto|lia|exact Hf|done|].
  rewrite <- (chan_of_give_back uc ac vr i len m) by (try done; lia).
  split.
  - destruct Hseen as [-> |[E|E]]; [by left|left|right]; rewrite (chan_of_equiv _ _ _ _ E); [|done].
    by eapply used_free_slot.
  - intros Heq. by rewrite (chan_of_equiv _ _ _ _ (Hfin Heq)).
Qed.

(** ** The theorems *)

(** C11.  [virtqueue_add_buffer] publishes atomically.  The call returns, and its
    stores and barriers are such that under every reordering [env_wmb] permits,
    a consumer looking at any moment sees the channel as it was or with the
    whole new entry, and the new entry once everything is performed. *)
Theorem add_buffer_publishes_atomically i s uc ac :
  vq_wf (v_vq s) → vq_ring (v_vq s) = vr → 0 ≤ i < num vr →
  Z.of_nat (length (avail_queue ac vr (v_mem s))) < num vr →
  ∃ evs s', virtqueue_add_buffer i s = Ok VQUEUE_SUCCESS s' ∧
    v_trace s' = rev evs ++ v_trace s ∧
    ∀ evs' pre, reorder evs evs' → pre `prefix_of` evs' →
      let old := chan_of uc ac vr (v_mem s) in
      let seen := chan_of uc ac vr (replay pre (v_mem s)) in
      (seen = old ∨ seen = Channel.offer i old) ∧ (pre = evs' → seen = Channel.offer i old).
Proof.
  intros Hwf Hvr Hi Hroom. pose proof (ok_max vr ok).
  eexists _, _. split; [apply virtqueue_add_buffer_eq; [done|rewrite Hvr; lia]|]. cbn.
  rewrite Hvr. split; [done|]. intros evs' pre Hr Hp. eapply update_avail_atomic; eauto. lia.
Qed.

(** [virtqueue_add_consumed_buffer] publishes atomically: index and length
    of the used element become visible together, whatever the order in which
    the two words are written before the barrier. *)
Theorem add_consumed_publishes_atomically i len s uc ac :
  vq_wf (v_vq s) → vq_ring (v_vq s) = vr → 0 ≤ i < num vr → 0 ≤ len < 4294967296 →
  Z.of_nat (length (used_queue uc vr (v_mem s))) < num vr →
  ∃ evs s', virtqueue_add_consumed_buffer i len s = Ok VQUEUE_SUCCESS s' ∧
    v_trace s' = rev evs ++ v_trace s ∧
    ∀ evs' pre, reorder evs evs' → pre `prefix_of` evs' →
      let old := chan_of uc ac vr (v_mem s) in
      let seen := chan_of uc ac vr (replay pre (v_mem s)) in
      (seen = old ∨ seen = Channel.give_back i len old) ∧
      (pre = evs' → seen = Channel.give_back i len old).
Proof.
  intros Hwf Hvr Hi Hl Hroom. pose proof (ok_max vr ok).
  pose proof (virtqueue_add_consumed_buffer_eq i len s Hwf) as Heq. cbn zeta in Heq.
  rewrite Hvr, (proj2 (Z.ltb_ge (num vr) i)) in Heq by lia.
  eexists _, _. split; [exact Heq|]. cbn. split; [done|].
  intros evs' pre Hr Hp. eapply update_used_atomic; eauto. lia.
Qed.

(** C22.  With [RL_USE_DCACHE] both operations flush what they wrote before the
    index that announces it: what has reached memory at any moment is the old
    channel or the complete new one, and at the end it is the new one. *)
Theorem cache_maintenance_publishes i len s uc ac :
  RL_USE_DCACHE = true →
  vq_wf (v_vq s) → vq_ring (v_vq s) = vr → 0 ≤ i < num vr → 0 ≤ len < 4294967296 →
  Z.of_nat (length (avail_queue ac vr (v_mem s))) < num vr →
  Z.of_nat (length (used_queue uc vr (v_mem s))) < num vr →
  let old := chan_of uc ac vr (v_mem s) in
  let seen pre := chan_of uc ac vr (visible (cached_run pre (v_mem s))) in
  (∃ evs s', virtqueue_add_buffer i s = Ok VQUEUE_SUCCESS s' ∧ v_trace s' = rev evs ++ v_trace s ∧
     (∀ pre, pre `prefix_of` evs → seen pre = old ∨ seen pre = Channel.offer i old) ∧
     seen evs = Channel.offer i old) ∧
  (∃ evs s', virtqueue_add_consumed_buffer i len s = Ok VQUEUE_SUCCESS s' ∧
     v_trace s' = rev evs ++ v_trace s ∧
     (∀ pre, pre `prefix_of` evs → seen pre = old ∨ seen pre = Channel.give_back i len old) ∧
     seen evs = Channel.give_back i len old).
Proof.
  intros HD Hwf Hvr Hi Hl Hra Hru old seen. subst old seen. pose proof (ok_max vr ok).
  split.
  - eexists _, _. split; [apply virtqueue_add_buffer_eq; [done|rewrite Hvr; lia]|]. cbn.
    rewrite Hvr. split; [done|]. split; [intros pre Hp|].
    + eapply update_avail_cached; eauto; lia.
    + eapply update_avail_cached; eauto; lia.
  - pose proof (virtqueue_add_consumed_buffer_eq i len s Hwf) as Heq. cbn zeta in Heq.
    rewrite Hvr, (proj2 (Z.ltb_ge (num vr) i)) in Heq by lia.
    eexists _, _. split; [exact Heq|]. cbn. split; [done|]. split; [intros pre Hp|].
    + eapply update_used_cached; eauto; lia.
    + eapply update_used_cached; eauto; lia.
Qed.

End publish.

(** ** The theorems on the concrete ring *)

Lemma add_buffer_publishes_atomically_witness :
  ∃ evs s', @virtqueue_add_buffer default_config 1 c_start = Ok VQUEUE_SUCCESS s' ∧
    v_trace s' = rev evs ++ v_trace c_start.
Proof.
  destruct (@add_buffer_publishes_atomically default_config c_ring c_ring_ok 1 c_start 0 0)
    as (evs & s' & H1 & H2 & _).
  - apply c_vq_wf.
  - reflexivity.
  - vm_compute. split; [discriminate|reflexivity].
  - vm_compute. reflexivity.
  - exists evs, s'. split; [exact H1|exact H2].
Defined.

Lemma add_consumed_publishes_atomically_witness :
  ∃ evs s', @virtqueue_add_consumed_buffer default_config 1 40 c_start = Ok VQUEUE_SUCCESS s' ∧
    v_trace s' = rev evs ++ v_trace c_start.
Proof.
  destruct (@add_consumed_publishes_atomically default_config c_ring c_ring_ok 1 40 c_start 0 0)
    as (evs & s' & H1 & H2 & _).
  - apply c_vq_wf.
  - reflexivity.
  - vm_compute. split; [discriminate|reflexivity].
  - lia.
  - vm_compute. reflexivity.
  - exists evs, s'. split; [exact H1|exact H2].
Defined.

Lemma cache_maintenance_publishes_witness :
  ∃ evs s', @virtqueue_add_buffer debug_config 1 c_start = Ok VQUEUE_SUCCESS s' ∧
    chan_of 0 0 c_ring (visible (cached_run evs ∅)) = Channel.offer 1 (chan_of 0 0 c_ring ∅).
Proof.
  destruct (@cache_maintenance_publishes debug_config c_ring c_ring_ok 1 40 c_start 0 0)
    as [(evs & s' & H1 & _ & _ & H2) _].
  - reflexivity.
  - apply c_vq_wf.
  - reflexivity.
  - vm_compute. split; [discriminate|reflexivity].
  - lia.
  - vm_compute. reflexivity.
  - vm_compute. reflexivity.
  - exists evs, s'. split; [exact H1|exact H2].
Defined.
