(* ===== verification/Link.v ===== *)
(** * Two cores on one virtqueue

    One core (the driver side of the ring) offers buffers and collects them
    back, the other (the device side) takes them and gives them back; each has
    its own control block, both share the ring and the buffers in memory.  The
    step relation interleaves the operations of [virtqueue.c] and writes to the
    buffers a core holds, in any order.  Ghost logs record what was handed
    over; the invariant shows that buffers are conserved, owned by one party at
    a time, and delivered in order with the contents they were sent with. *)

From S2P Require Import Prelude Memory Config VirtioRing Virtqueue RingQueue VirtqueueSpec ChannelRefinement Concrete.

Section link.
Context {cfg : Config} {am : AddrMap}.

(** The buffers behind the descriptors: [buf i] is the address of buffer [i],
    every buffer has [bufsz] bytes. *)
Variable vr : vring.
Variable buf : Z → Z.
Variable bufsz : nat.

Record link : Type := {
  drv : virtqueue;              (** the driver's control block *)
  dev : virtqueue;              (** the device's control block *)
  lmem : mem;                   (** shared memory *)
  drv_held : list Z;            (** buffers the driver may write *)
  dev_held : list Z;            (** buffers the device may write *)
  log_given : list (Z * list Z);         (** handed to the device, with contents *)
  log_taken : list (Z * list Z);         (** received by the device *)
  log_back : list (Z * Z * list Z);      (** handed back, with length and contents *)
  log_collected : list (Z * Z * list Z); (** received by the driver *)
}.

Definition content (m : mem) (i : Z) : list Z := load_bytes m (buf i) bufsz.
Definition with_content (m : mem) (i : Z) : Z * list Z := (i, content m i).
Definition with_content_len (m : mem) (e : Z * Z) : Z * Z * list Z := (e, content m e.1).

Definition on (q : virtqueue) (m : mem) (tr : list event) : vst :=
  {| v_vq := q; v_mem := m; v_trace := tr |}.

(** The interleaved steps.  Each operation runs to completion on its own
    control block and the shared memory; the other core may have run any number
    of steps before it. *)
Inductive link_step (l : link) : link → Prop :=
| step_drv_give i tr r s' h1 h2 :
    drv_held l = h1 ++ i :: h2 →
    virtqueue_add_buffer i (on (drv l) (lmem l) tr) = Ok r s' →
    link_step l {| drv := v_vq s'; dev := dev l; lmem := v_mem s';
      drv_held := h1 ++ h2; dev_held := dev_held l;
      log_given := log_given l ++ [with_content (lmem l) i]; log_taken := log_taken l;
      log_back := log_back l; log_collected := log_collected l |}
| step_dev_take idx len tr p i len' s' :
    virtqueue_get_available_buffer idx len (on (dev l) (lmem l) tr) = Ok (p, i, len') s' →
    p ≠ NULL →
    link_step l {| drv := drv l; dev := v_vq s'; lmem := v_mem s';
      drv_held := drv_held l; dev_held := i :: dev_held l;
      log_given := log_given l; log_taken := log_taken l ++ [(i, load_bytes (v_mem s') p bufsz)];
      log_back := log_back l; log_collected := log_collected l |}
| step_dev_give i len tr r s' h1 h2 :
    dev_held l = h1 ++ i :: h2 → 0 ≤ len < 4294967296 →
    virtqueue_add_consumed_buffer i len (on (dev l) (lmem l) tr) = Ok r s' →
    link_step l {| drv := drv l; dev := v_vq s'; lmem := v_mem s';
      drv_held := drv_held l; dev_held := h1 ++ h2;
      log_given := log_given l; log_taken := log_taken l;
      log_back := log_back l ++ [with_content_len (lmem l) (i, len)];
      log_collected := log_collected l |}
| step_drv_take len idx tr p len' i s' :
    virtqueue_get_buffer len idx (on (drv l) (lmem l) tr) = Ok (p, len', i) s' →
    p ≠ NULL →
    link_step l {| drv := v_vq s'; dev := dev l; lmem := v_mem s';
      drv_held := i :: drv_held l; dev_held := dev_held l;
      log_given := log_given l; log_taken := log_taken l;
      log_back := log_back l;
      log_collected := log_collected l ++ [(i, len', load_bytes (v_mem s') p bufsz)] |}
| step_write i m' :
    i ∈ drv_held l ++ dev_held l → frames (buf i) (buf i + Z.of_nat bufsz) (lmem l) m' →
    link_step l {| drv := drv l; dev := dev l; lmem := m';
      drv_held := drv_held l; dev_held := dev_held l;
      log_given := log_given l; log_taken := log_taken l;
      log_back := log_back l; log_collected := log_collected l |}.

(** The channel both cores are connected by. *)
Definition link_chan (l : link) : Channel.t :=
  chan_of (vq_used_cons_idx (drv l)) (vq_available_idx (dev l)) vr (lmem l).

Record link_inv (l : link) : Prop := {
  inv_drv : vq_wf (drv l);
  inv_dev : vq_wf (dev l);
  inv_drv_ring : vq_ring (drv l) = vr;
  inv_dev_ring : vq_ring (dev l) = vr;
  inv_desc : ∀ i, 0 ≤ i < num vr → env_map_patova (u32 (r_desc_addr vr (lmem l) i)) = buf i;
  inv_buffers :
    drv_held l ++ Channel.offered (link_chan l) ++ dev_held l ++
      (Channel.returned (link_chan l)).*1 ≡ₚ seqZ 0 (num vr);
  inv_given :
    log_given l = log_taken l ++ (with_content (lmem l) <$> Channel.offered (link_chan l));
  inv_back :
    log_back l = log_collected l ++
      (with_content_len (lmem l) <$> Channel.returned (link_chan l));
}.

(** The buffers are disjoint from each other and from the ring. *)
Record layout_ok : Prop := {
  buf_not_null : ∀ i, 0 ≤ i < num vr → buf i ≠ NULL;
  buf_disjoint : ∀ i j, 0 ≤ i < num vr → 0 ≤ j < num vr → i ≠ j →
    buf i + Z.of_nat bufsz ≤ buf j ∨ buf j + Z.of_nat bufsz ≤ buf i;
  buf_outside : ∀ i, 0 ≤ i < num vr →
    buf i + Z.of_nat bufsz ≤ desc vr ∨ vring_end vr ≤ buf i;
}.

Hypothesis ok : vring_ok vr.
Hypothesis lay : layout_ok.

(** ** Helper lemmas *)

Lemma content_ring lo hi m m' i :
  frames lo hi m m' → desc vr ≤ lo → hi ≤ vring_end vr → 0 ≤ i < num vr →
  content m' i = content m i.
Proof.
  intros Hf Hlo Hhi Hi. pose proof (buf_outside lay i Hi).
  eapply load_bytes_frames; [exact Hf|lia].
Qed.

Lemma content_buffer j m m' i :
  frames (buf j) (buf j + Z.of_nat bufsz) m m' → 0 ≤ i < num vr → 0 ≤ j < num vr → i ≠ j →
  content m' i = content m i.
Proof.
  intros Hf Hi Hj Hne. pose proof (buf_disjoint lay i j Hi Hj Hne).
  eapply load_bytes_frames; [exact Hf|lia].
Qed.

Lemma with_content_ext m m' (l : list Z) :
  (∀ i, i ∈ l → content m' i = content m i) → with_content m' <$> l = with_content m <$> l.
Proof.
  intros H. apply list_fmap_ext. intros k i Hk. unfold with_content.
  rewrite H; [done|]. by eapply list_elem_of_lookup_2.
Qed.

Lemma with_content_len_ext m m' (l : list (Z * Z)) :
  (∀ i, i ∈ (l.*1 : list Z) → content m' i = content m i) → with_content_len m' <$> l = with_content_len m <$> l.
Proof.
  intros H. apply list_fmap_ext. intros k e Hk. unfold with_content_len.
  rewrite H; [done|]. apply list_elem_of_fmap_2. by eapply list_elem_of_lookup_2.
Qed.

(** Membership and counting in a permutation of [seqZ 0 n]. *)
Lemma perm_in (l : list Z) i n : l ≡ₚ seqZ 0 n → i ∈ l → 0 ≤ i < n.
Proof. intros Hp Hi. rewrite Hp in Hi. apply elem_of_seqZ in Hi. lia. Qed.

Lemma perm_length (l : list Z) n : 0 ≤ n → l ≡ₚ seqZ 0 n → Z.of_nat (length l) = n.
Proof. intros Hn Hp. rewrite Hp. by apply length_seqZ_Z. Qed.

Lemma perm_NoDup (l : list Z) n : l ≡ₚ seqZ 0 n → NoDup l.
Proof. intros Hp. rewrite Hp. apply NoDup_seqZ. Qed.

Lemma NoDup_four (a b c d : list Z) i :
  NoDup (a ++ b ++ c ++ d) → i ∈ a ++ c → (i ∉ b) ∧ (i ∉ d).
Proof.
  intros (_ & Ha & (_ & Hb & (_ & Hc & _)%NoDup_app)%NoDup_app)%NoDup_app Hi.
  apply elem_of_app in Hi as [Hi|Hi]; split; intros Hx.
  - apply (Ha i Hi). by apply elem_of_app; left.
  - apply (Ha i Hi). apply elem_of_app; right. by apply elem_of_app; right.
  - apply (Hb i Hx). by apply elem_of_app; left.
  - by apply (Hc i Hi).
Qed.

Section facts.
Variable l : link.
Hypothesis inv : link_inv l.

Lemma inv_range i :
  i ∈ drv_held l ++ Channel.offered (link_chan l) ++ dev_held l ++ (Channel.returned (link_chan l)).*1 →
  0 ≤ i < num vr.
Proof. apply perm_in, inv. Qed.

Lemma inv_range_drv i : i ∈ drv_held l → 0 ≤ i < num vr.
Proof. intros Hi. apply inv_range. rewrite !elem_of_app. by left. Qed.
Lemma inv_range_offered i : i ∈ Channel.offered (link_chan l) → 0 ≤ i < num vr.
Proof. intros Hi. apply inv_range. rewrite !elem_of_app. by right; left. Qed.
Lemma inv_range_dev i : i ∈ dev_held l → 0 ≤ i < num vr.
Proof. intros Hi. apply inv_range. rewrite !elem_of_app. by right; right; left. Qed.
Lemma inv_range_returned i : i ∈ (Channel.returned (link_chan l)).*1 → 0 ≤ i < num vr.
Proof. intros Hi. apply inv_range. rewrite !elem_of_app. by right; right; right. Qed.

Lemma inv_count :
  Z.of_nat (length (drv_held l)) + Z.of_nat (length (Channel.offered (link_chan l))) +
  Z.of_nat (length (dev_held l)) + Z.of_nat (length (Channel.returned (link_chan l))) = num vr.
Proof.
  pose proof (vring_ok_num_pos vr ok).
  pose proof (perm_length _ (num vr) ltac:(lia) (inv_buffers l inv)) as Hl.
  rewrite !length_app, length_fmap in Hl. lia.
Qed.

(** A party that holds a buffer finds room for it. *)
Lemma inv_room_offered h1 i h2 :
  drv_held l = h1 ++ i :: h2 →
  0 ≤ i < num vr ∧ Z.of_nat (length (Channel.offered (link_chan l))) < num vr.
Proof.
  intros Hh. split.
  - apply inv_range_drv. rewrite Hh. set_solver.
  - pose proof inv_count as Hc. rewrite Hh, length_app, length_cons in Hc. lia.
Qed.

Lemma inv_room_returned h1 i h2 :
  dev_held l = h1 ++ i :: h2 →
  0 ≤ i < num vr ∧ Z.of_nat (length (Channel.returned (link_chan l))) < num vr.
Proof.
  intros Hh. split.
  - apply inv_range_dev. rewrite Hh. set_solver.
  - pose proof inv_count as Hc. rewrite Hh, length_app, length_cons in Hc. lia.
Qed.

(** A buffer one side holds is in neither queue. *)
Lemma inv_held_not_queued i :
  i ∈ drv_held l ++ dev_held l →
  (i ∉ Channel.offered (link_chan l)) ∧ (i ∉ (Channel.returned (link_chan l)).*1).
Proof. intros Hi. eapply NoDup_four; [|done]. eapply perm_NoDup, inv. Qed.

End facts.

(** ** Every step keeps the invariant *)

Lemma same_desc_outside lo hi m m' :
  frames lo hi m m' → avail vr ≤ lo → same_desc vr m m'.
Proof. intros Hf Hlo. eapply frames_agree; [exact Hf|lia]. Qed.

(** A ring update moves no buffer content and no descriptor. *)
Lemma ring_update_keeps l lo hi m' :
  link_inv l → frames lo hi (lmem l) m' → avail vr ≤ lo → hi ≤ vring_end vr →
  (∀ j, 0 ≤ j < num vr → content m' j = content (lmem l) j) ∧
  (∀ j, 0 ≤ j < num vr → env_map_patova (u32 (r_desc_addr vr m' j)) = buf j) ∧
  (with_content m' <$> Channel.offered (link_chan l)) =
    (with_content (lmem l) <$> Channel.offered (link_chan l)) ∧
  (with_content_len m' <$> Channel.returned (link_chan l)) =
    (with_content_len (lmem l) <$> Channel.returned (link_chan l)).
Proof.
  intros inv Hf Hlo Hhi. pose proof (ok_avail vr ok). pose proof (vring_ok_num_pos vr ok).
  assert (∀ j, 0 ≤ j < num vr → content m' j = content (lmem l) j) as Hc.
  { intros j Hj. eapply content_ring; [exact Hf|lia|done|done]. }
  split_and!; [done|..].
  - intros j Hj. destruct (r_desc_ext vr ok (lmem l) m' j) as [-> _]; [|done|by apply inv].
    by eapply same_desc_outside.
  - apply with_content_ext. intros j Hj. by apply Hc, (inv_range_offered l inv).
  - apply with_content_len_ext. intros j Hj. by apply Hc, (inv_range_returned l inv).
Qed.

(** The fields of a state written out by a step. *)
Ltac link_cbn :=
  cbn [drv dev lmem drv_held dev_held log_given log_taken log_back log_collected
       Channel.offer Channel.give_back Channel.offered Channel.returned on v_vq v_mem] in *.

Lemma give_inv l i tr r s' h1 h2 :
  link_inv l → drv_held l = h1 ++ i :: h2 →
  virtqueue_add_buffer i (on (drv l) (lmem l) tr) = Ok r s' →
  r = VQUEUE_SUCCESS ∧
  link_inv {| drv := v_vq s'; dev := dev l; lmem := v_mem s';
      drv_held := h1 ++ h2; dev_held := dev_held l;
      log_given := log_given l ++ [with_content (lmem l) i]; log_taken := log_taken l;
      log_back := log_back l; log_collected := log_collected l |}.
Proof.
  intros inv Hh Hrun. destruct (inv_room_offered l inv h1 i h2 Hh) as [Hi Hroom].
  pose proof (add_buffer_wp i (on (drv l) (lmem l) tr) (vq_used_cons_idx (drv l))
    (vq_available_idx (dev l))) as Hwp.
  link_cbn. rewrite (inv_drv_ring l inv) in Hwp.
  pose proof (wp_elim _ _ _ _ _ (Hwp (inv_drv l inv) Hi Hroom) Hrun) as (-> & Hch & Huc & Hk).
  destruct Hk as [Hwf Hsame Hfr]. link_cbn. split; [done|].
  pose proof (ok_avail vr ok). pose proof (ok_used vr ok). pose proof (vring_ok_num_pos vr ok).
  destruct (ring_update_keeps l _ _ _ inv Hfr) as (Hc & Hd & Ho & Hr);
    [lia|unfold vring_end; lia|].
  assert (∀ h g t b c, link_chan {| drv := v_vq s'; dev := dev l; lmem := v_mem s';
      drv_held := h; dev_held := dev_held l; log_given := g; log_taken := t;
      log_back := b; log_collected := c |} = Channel.offer i (link_chan l)) as Hch'.
  { intros. unfold link_chan. link_cbn. by rewrite Huc. }
  constructor; rewrite ?Hch'; link_cbn; try apply inv; try done.
  - destruct Hsame as [-> _]. apply inv.
  - pose proof (inv_buffers l inv) as Hp. rewrite Hh in Hp. rewrite <- Hp. solve_Permutation.
  - rewrite fmap_app, Ho, (inv_given l inv). cbn. unfold with_content at 2 4.
    by rewrite Hc, app_assoc.
  - by rewrite Hr, (inv_back l inv).
Qed.

Lemma give_back_inv l i len tr r s' h1 h2 :
  link_inv l → dev_held l = h1 ++ i :: h2 → 0 ≤ len < 4294967296 →
  virtqueue_add_consumed_buffer i len (on (dev l) (lmem l) tr) = Ok r s' →
  r = VQUEUE_SUCCESS ∧
  link_inv {| drv := drv l; dev := v_vq s'; lmem := v_mem s';
      drv_held := drv_held l; dev_held := h1 ++ h2;
      log_given := log_given l; log_taken := log_taken l;
      log_back := log_back l ++ [with_content_len (lmem l) (i, len)];
      log_collected := log_collected l |}.
Proof.
  intros inv Hh Hl Hrun. destruct (inv_room_returned l inv h1 i h2 Hh) as [Hi Hroom].
  pose proof (ok_max vr ok).
  pose proof (add_consumed_wp i len (on (dev l) (lmem l) tr) (vq_used_cons_idx (drv l))
    (vq_available_idx (dev l))) as Hwp.
  link_cbn. rewrite (inv_dev_ring l inv) in Hwp.
  pose proof (wp_elim _ _ _ _ _ (Hwp (inv_dev l inv) ltac:(lia) Hl Hroom) Hrun) as (Hq & Hk & Hch).
  rewrite (proj2 (Z.ltb_ge (num vr) i)) in Hch by lia. destruct Hch as [-> Hch].
  destruct Hk as [Hwf Hsame Hfr]. link_cbn. split; [done|].
  pose proof (ok_used vr ok). pose proof (vring_ok_num_pos vr ok).
  destruct (ring_update_keeps l _ _ _ inv Hfr) as (Hc & Hd & Ho & Hr); [lia|lia|].
  assert (∀ h g t b c, link_chan {| drv := drv l; dev := v_vq s'; lmem := v_mem s';
      drv_held := drv_held l; dev_held := h; log_given := g; log_taken := t;
      log_back := b; log_collected := c |} = Channel.give_back i len (link_chan l)) as Hch'.
  { intros. unfold link_chan. link_cbn. by rewrite Hq. }
  constructor; rewrite ?Hch'; link_cbn; try apply inv; try done.
  - by rewrite Hq; apply inv.
  - pose proof (inv_buffers l inv) as Hp. rewrite Hh in Hp. rewrite <- Hp, fmap_app. cbn.
    solve_Permutation.
  - by rewrite Ho, (inv_given l inv).
  - rewrite fmap_app, Hr, (inv_back l inv). cbn. unfold with_content_len at 2 4. cbn.
    by rewrite Hc, app_assoc.
Qed.

Lemma take_inv l idx len tr p i len' s' :
  link_inv l →
  virtqueue_get_available_buffer idx len (on (dev l) (lmem l) tr) = Ok (p, i, len') s' →
  if decide (Channel.offered (link_chan l) = []) then
    p = NULL ∧ i = idx ∧ len' = len ∧ v_vq s' = dev l ∧ v_mem s' = lmem l
  else
    0 ≤ i < num vr ∧ p = buf i ∧ p ≠ NULL ∧
    link_inv {| drv := drv l; dev := v_vq s'; lmem := v_mem s';
      drv_held := drv_held l; dev_held := i :: dev_held l;
      log_given := log_given l; log_taken := log_taken l ++ [(i, load_bytes (v_mem s') p bufsz)];
      log_back := log_back l; log_collected := log_collected l |}.
Proof.
  intros inv Hrun.
  pose proof (get_available_wp idx len (on (dev l) (lmem l) tr) (vq_used_cons_idx (drv l))) as Hwp.
  link_cbn. rewrite (inv_dev_ring l inv) in Hwp.
  pose proof (wp_elim _ _ _ _ _ (Hwp (inv_dev l inv)) Hrun) as (Hm & Hk & Huc & Hch).
  destruct Hk as [Hwf Hsame _]. link_cbn. fold (link_chan l) in Hch.
  unfold Channel.take in Hch. destruct (Channel.offered (link_chan l)) as [|j q] eqn:Hoff.
  - destruct Hch as [Hch Hq]. injection Hch as -> -> ->. done.
  - rewrite decide_False by done. destruct Hch as [Hch Hq]. injection Hch as -> -> ->.
    pose proof (inv_range_offered l inv j) as Hj. rewrite Hoff in Hj. specialize (Hj ltac:(left)).
    rewrite (inv_desc l inv j Hj). split_and!; [lia|lia|done|by apply lay|].
    assert (∀ h g t b c, link_chan {| drv := drv l; dev := v_vq s'; lmem := v_mem s';
      drv_held := drv_held l; dev_held := h; log_given := g; log_taken := t;
      log_back := b; log_collected := c |} =
      {| Channel.offered := q; Channel.returned := Channel.returned (link_chan l) |}) as Hch'.
    { intros. unfold link_chan at 1. link_cbn. by rewrite Hm. }
    constructor; rewrite ?Hch'; link_cbn; rewrite ?Hm; try apply inv; try done.
    + destruct Hsame as [-> _]. apply inv.
    + pose proof (inv_buffers l inv) as Hp. rewrite Hoff in Hp. rewrite <- Hp. solve_Permutation.
    + rewrite (inv_given l inv), Hoff, <- app_assoc. done.
Qed.

Lemma collect_inv l len idx tr p len' i s' :
  link_inv l →
  virtqueue_get_buffer len idx (on (drv l) (lmem l) tr) = Ok (p, len', i) s' →
  if decide (Channel.returned (link_chan l) = []) then
    p = NULL ∧ i = idx ∧ len' = len ∧ v_vq s' = drv l ∧ v_mem s' = lmem l
  else
    0 ≤ i < num vr ∧ p = buf i ∧ p ≠ NULL ∧
    link_inv {| drv := v_vq s'; dev := dev l; lmem := v_mem s';
      drv_held := i :: drv_held l; dev_held := dev_held l;
      log_given := log_given l; log_taken := log_taken l;
      log_back := log_back l;
      log_collected := log_collected l ++ [(i, len', load_bytes (v_mem s') p bufsz)] |}.
Proof.
  intros inv Hrun. pose proof (ok_max vr ok).
  pose proof (get_buffer_wp len idx (on (drv l) (lmem l) tr) (vq_available_idx (dev l))) as Hwp.
  link_cbn. rewrite (inv_drv_ring l inv) in Hwp.
  pose proof (wp_elim _ _ _ _ _ (Hwp (inv_drv l inv)) Hrun) as (Hm & Hk & Huc & Hch).
  destruct Hk as [Hwf Hsame _]. link_cbn. fold (link_chan l) in Hch.
  unfold Channel.collect in Hch. destruct (Channel.returned (link_chan l)) as [|[j ul] q] eqn:Hret.
  - destruct Hch as [Hch Hq]. injection Hch as -> -> ->. done.
  - rewrite decide_False by done. destruct Hch as [Hch Hq].
    pose proof (inv_range_returned l inv j) as Hj. rewrite Hret in Hj. specialize (Hj ltac:(left)).
    rewrite (u16_small j) in Hch by lia. injection Hch as -> -> ->.
    rewrite (inv_desc l inv j Hj). split_and!; [lia|lia|done|by apply lay|].
    assert (∀ h g t b c, link_chan {| drv := v_vq s'; dev := dev l; lmem := v_mem s';
      drv_held := h; dev_held := dev_held l; log_given := g; log_taken := t;
      log_back := b; log_collected := c |} =
      {| Channel.offered := Channel.offered (link_chan l); Channel.returned := q |}) as Hch'.
    { intros. unfold link_chan at 1. link_cbn. by rewrite Hm. }
    constructor; rewrite ?Hch'; link_cbn; rewrite ?Hm; try apply inv; try done.
    + destruct Hsame as [-> _]. apply inv.
    + pose proof (inv_buffers l inv) as Hp. rewrite Hret in Hp. rewrite <- Hp. cbn. solve_Permutation.
    + rewrite (inv_back l inv), Hret, <- app_assoc. done.
Qed.

Lemma write_inv l i m' :
  link_inv l → i ∈ drv_held l ++ dev_held l →
  frames (buf i) (buf i + Z.of_nat bufsz) (lmem l) m' →
  link_inv {| drv := drv l; dev := dev l; lmem := m';
      drv_held := drv_held l; dev_held := dev_held l;
      log_given := log_given l; log_taken := log_taken l;
      log_back := log_back l; log_collected := log_collected l |}.
Proof.
  intros inv Hi Hf. destruct (inv_held_not_queued l inv i Hi) as [Hno Hnr].
  assert (0 ≤ i < num vr) as Hri.
  { apply elem_of_app in Hi as [Hi|Hi]; [by apply (inv_range_drv l inv)|by apply (inv_range_dev l inv)]. }
  destruct (frames_outside vr ok _ _ _ _ Hf (buf_outside lay i Hri)) as (Hd & Ha & Hu).
  assert (∀ h k g t b c, link_chan {| drv := drv l; dev := dev l; lmem := m';
      drv_held := h; dev_held := k; log_given := g; log_taken := t;
      log_back := b; log_collected := c |} = link_chan l) as Hch'.
  { intros. unfold link_chan. link_cbn. by apply chan_of_ext. }
  constructor; rewrite ?Hch'; link_cbn; try apply inv.
  - intros j Hj. destruct (r_desc_ext vr ok (lmem l) m' j) as [-> _]; [done..|by apply inv].
  - rewrite (inv_given l inv). f_equal. symmetry. apply with_content_ext. intros j Hj.
    apply (content_buffer i); try done; [by apply (inv_range_offered l inv)|]. by intros ->.
  - rewrite (inv_back l inv). f_equal. symmetry. apply with_content_len_ext. intros j Hj.
    apply (content_buffer i); try done; [by apply (inv_range_returned l inv)|]. by intros ->.
Qed.

Lemma link_step_inv l l' : link_inv l → link_step l l' → link_inv l'.
Proof.
  intros inv Hs. destruct Hs as [i tr r s' h1 h2 Hh Hrun|idx len tr p i len' s' Hrun Hp
    |i len tr r s' h1 h2 Hh Hl Hrun|len idx tr p len' i s' Hrun Hp|i m' Hi Hf].
  - by destruct (give_inv _ _ _ _ _ _ _ inv Hh Hrun).
  - pose proof (take_inv _ _ _ _ _ _ _ _ inv Hrun) as H. case_decide; naive_solver.
  - by destruct (give_back_inv _ _ _ _ _ _ _ _ inv Hh Hl Hrun).
  - pose proof (collect_inv _ _ _ _ _ _ _ _ inv Hrun) as H. case_decide; naive_solver.
  - by eapply write_inv.
Qed.

Lemma link_reachable_inv l0 l : link_inv l0 → star link_step l0 l → link_inv l.
Proof. intros H0 Hs. by eapply (star_invariant link_step link_inv); eauto using link_step_inv. Qed.

(** ** Every operation completes *)

Lemma give_completes l i tr :
  link_inv l → i ∈ drv_held l →
  ∃ s', virtqueue_add_buffer i (on (drv l) (lmem l) tr) = Ok VQUEUE_SUCCESS s' ∧
    frames (desc vr) (vring_end vr) (lmem l) (v_mem s').
Proof.
  intros inv Hi. apply list_elem_of_split in Hi as (h1 & h2 & Hh).
  destruct (inv_room_offered l inv h1 i h2 Hh) as [Hr Hroom].
  pose proof (add_buffer_wp i (on (drv l) (lmem l) tr) (vq_used_cons_idx (drv l))
    (vq_available_idx (dev l))) as Hwp.
  link_cbn. rewrite (inv_drv_ring l inv) in Hwp. specialize (Hwp (inv_drv l inv) Hr Hroom).
  apply wp_unfold in Hwp as (r & s' & Hrun & -> & _ & _ & [_ _ Hf]). exists s'. split; [done|].
  pose proof (ok_avail vr ok). pose proof (ok_used vr ok). pose proof (vring_ok_num_pos vr ok).
  eapply frames_weaken; [exact Hf|lia|unfold vring_end; lia].
Qed.

Lemma give_back_completes l i len tr :
  link_inv l → i ∈ dev_held l → 0 ≤ len < 4294967296 →
  ∃ s', virtqueue_add_consumed_buffer i len (on (dev l) (lmem l) tr) = Ok VQUEUE_SUCCESS s' ∧
    frames (desc vr) (vring_end vr) (lmem l) (v_mem s').
Proof.
  intros inv Hi Hl. apply list_elem_of_split in Hi as (h1 & h2 & Hh).
  destruct (inv_room_returned l inv h1 i h2 Hh) as [Hr Hroom]. pose proof (ok_max vr ok).
  pose proof (add_consumed_wp i len (on (dev l) (lmem l) tr) (vq_used_cons_idx (drv l))
    (vq_available_idx (dev l))) as Hwp.
  link_cbn. rewrite (inv_dev_ring l inv) in Hwp.
  specialize (Hwp (inv_dev l inv) ltac:(lia) Hl Hroom).
  apply wp_unfold in Hwp as (r & s' & Hrun & _ & [_ _ Hf] & Hch).
  rewrite (proj2 (Z.ltb_ge (num vr) i)) in Hch by lia. destruct Hch as [-> _].
  exists s'. split; [done|].
  pose proof (ok_avail vr ok). pose proof (ok_used vr ok). pose proof (vring_ok_num_pos vr ok).
  eapply frames_weaken; [exact Hf|lia|done].
Qed.

Lemma take_completes l idx len tr :
  link_inv l →
  ∃ p i n s', virtqueue_get_available_buffer idx len (on (dev l) (lmem l) tr) = Ok (p, i, n) s' ∧
     match Channel.offered (link_chan l) with
     | [] => p = NULL ∧ i = idx ∧ n = len
     | j :: _ => i = j ∧ p = buf j ∧ p ≠ NULL
     end.
Proof.
  intros inv.
  pose proof (get_available_wp idx len (on (dev l) (lmem l) tr) (vq_used_cons_idx (drv l))) as Hwp.
  link_cbn. rewrite (inv_dev_ring l inv) in Hwp. specialize (Hwp (inv_dev l inv)).
  fold (link_chan l) in Hwp. apply wp_unfold in Hwp as ([[p i] n] & s' & Hrun & _ & _ & _ & Hch).
  exists p, i, n, s'. split; [exact Hrun|]. unfold Channel.take in Hch.
  destruct (Channel.offered (link_chan l)) as [|j q] eqn:Hoff.
  - by destruct Hch as [[= -> -> ->] _].
  - destruct Hch as [[= -> -> ->] _].
    pose proof (inv_range_offered l inv j) as Hj. rewrite Hoff in Hj. specialize (Hj ltac:(left)).
    rewrite (inv_desc l inv j Hj). split_and!; [done..|by apply lay].
Qed.

Lemma collect_completes l len idx tr :
  link_inv l →
  ∃ p n i s', virtqueue_get_buffer len idx (on (drv l) (lmem l) tr) = Ok (p, n, i) s' ∧
     match Channel.returned (link_chan l) with
     | [] => p = NULL ∧ i = idx ∧ n = len
     | (j, ulen) :: _ => i = j ∧ n = ulen ∧ p = buf j ∧ p ≠ NULL
     end.
Proof.
  intros inv. pose proof (ok_max vr ok).
  pose proof (get_buffer_wp len idx (on (drv l) (lmem l) tr) (vq_available_idx (dev l))) as Hwp.
  link_cbn. rewrite (inv_drv_ring l inv) in Hwp. specialize (Hwp (inv_drv l inv)).
  fold (link_chan l) in Hwp. apply wp_unfold in Hwp as ([[p n] i] & s' & Hrun & _ & _ & _ & Hch).
  exists p, n, i, s'. split; [exact Hrun|]. unfold Channel.collect in Hch.
  destruct (Channel.returned (link_chan l)) as [|[j ul] q] eqn:Hret.
  - by destruct Hch as [[= -> -> ->] _].
  - destruct Hch as [[= -> -> ->] _].
    pose proof (inv_range_returned l inv j) as Hj. rewrite Hret in Hj. specialize (Hj ltac:(left)).
    rewrite (u16_small j) by lia. rewrite (inv_desc l inv j Hj). split_and!; [done..|by apply lay].
Qed.

(** ** The theorems *)

(** C6.  Conservation and exclusive ownership.  Whatever the two cores do, in
    every reachable state each of the ring's buffers is in exactly one of four
    places: held by the driver, waiting in the available ring, held by the
    device, or waiting in the used ring.  No queue ever holds more entries than
    the ring has slots, so no index overruns the other. *)
Theorem buffers_conserved l0 l :
  link_inv l0 → star link_step l0 l →
  drv_held l ++ Channel.offered (link_chan l) ++ dev_held l ++
    (Channel.returned (link_chan l)).*1 ≡ₚ seqZ 0 (num vr) ∧
  NoDup (drv_held l ++ dev_held l) ∧
  u16 (r_avail_idx vr (lmem l) - vq_available_idx (dev l)) ≤ num vr ∧
  u16 (r_used_idx vr (lmem l) - vq_used_cons_idx (drv l)) ≤ num vr.
Proof.
  intros H0 Hs. pose proof (link_reachable_inv l0 l H0 Hs) as inv.
  pose proof (inv_count l inv) as Hc. pose proof (perm_NoDup _ _ (inv_buffers l inv)) as Hn.
  split_and!; [apply inv|..].
  - eapply sublist_NoDup; [exact Hn|]. apply sublist_app; [done|].
    apply sublist_inserts_l, sublist_inserts_r. done.
  - rewrite <- (length_ring_queue (r_avail_ring vr (lmem l)) (num vr)).
    change (Z.of_nat (length (Channel.offered (link_chan l))) ≤ num vr). lia.
  - rewrite <- (length_ring_queue (r_used_ring vr (lmem l)) (num vr)).
    change (Z.of_nat (length (Channel.returned (link_chan l))) ≤ num vr). lia.
Qed.

(** C7.  In-order delivery of contents, both ways.  What the device received
    (index and the bytes it reads through the returned pointer) is exactly the
    first part of what the driver handed over, in order, with the contents at
    the time of the hand-over; what is missing is still queued.  The same for
    the buffers, lengths and contents handed back.  Nothing is lost, repeated,
    reordered or overwritten in transit. *)
Theorem delivered_in_order l0 l :
  link_inv l0 → star link_step l0 l →
  log_given l = log_taken l ++ (with_content (lmem l) <$> Channel.offered (link_chan l)) ∧
  log_back l = log_collected l ++ (with_content_len (lmem l) <$> Channel.returned (link_chan l)).
Proof. intros H0 Hs. pose proof (link_reachable_inv l0 l H0 Hs) as inv. split; apply inv. Qed.

(** C21.  Progress.  In every reachable state each core can complete each of
    its operations: giving a held buffer succeeds, and taking returns the
    oldest entry (its buffer's address) or NULL exactly when the queue is empty.
    No call hangs on an assertion or touches memory outside the ring. *)
Theorem operations_complete l0 l tr :
  link_inv l0 → star link_step l0 l →
  (∀ i, i ∈ drv_held l → ∃ s', virtqueue_add_buffer i (on (drv l) (lmem l) tr) = Ok VQUEUE_SUCCESS s' ∧
     frames (desc vr) (vring_end vr) (lmem l) (v_mem s')) ∧
  (∀ i len, i ∈ dev_held l → 0 ≤ len < 4294967296 → ∃ s',
     virtqueue_add_consumed_buffer i len (on (dev l) (lmem l) tr) = Ok VQUEUE_SUCCESS s' ∧
     frames (desc vr) (vring_end vr) (lmem l) (v_mem s')) ∧
  (∀ idx len, ∃ p i n s',
     virtqueue_get_available_buffer idx len (on (dev l) (lmem l) tr) = Ok (p, i, n) s' ∧
     match Channel.offered (link_chan l) with
     | [] => p = NULL ∧ i = idx ∧ n = len
     | j :: _ => i = j ∧ p = buf j ∧ p ≠ NULL
     end) ∧
  (∀ len idx, ∃ p n i s',
     virtqueue_get_buffer len idx (on (drv l) (lmem l) tr) = Ok (p, n, i) s' ∧
     match Channel.returned (link_chan l) with
     | [] => p = NULL ∧ i = idx ∧ n = len
     | (j, ulen) :: _ => i = j ∧ n = ulen ∧ p = buf j ∧ p ≠ NULL
     end).
Proof.
  intros H0 Hs. pose proof (link_reachable_inv l0 l H0 Hs) as inv.
  split_and!; eauto using give_completes, give_back_completes, take_completes, collect_completes.
Qed.

End link.

(** ** A concrete link *)

(** The driver made two buffers available; the device has taken none. *)
Definition c_link : link := {|
  drv := v_vq c_avail; dev := c_vq; lmem := v_mem c_avail; drv_held := []; dev_held := [];
  log_given := with_content c_buf 512 (v_mem c_avail) <$> [0; 1]; log_taken := [];
  log_back := []; log_collected := [] |}.

Lemma c_layout : layout_ok c_ring c_buf 512.
Proof. rewrite c_ring_eq. constructor; unfold c_buf, NULL, vring_end; cbn [num desc used];
    change (Z.of_nat 512) with 512; intros; lia.
Qed.

Lemma c_link_chan :
  link_chan c_ring c_link = {| Channel.offered := [0; 1]; Channel.returned := [] |}.
Proof. vm_compute. done. Qed.

Lemma c_link_inv : @link_inv flat_map c_ring c_buf 512 c_link.
Proof.
  constructor; rewrite ?c_link_chan.
  - apply c_avail_wf.
  - apply c_vq_wf.
  - by vm_compute.
  - by vm_compute.
  - intros i Hi. rewrite c_ring_eq in Hi. cbn in Hi.
    assert (i = 0 ∨ i = 1) as [-> | ->] by lia; by vm_compute.
  - apply Permutation_refl'. by vm_compute.
  - unfold c_link. cbn [log_given log_taken lmem Channel.offered app]. reflexivity.
  - reflexivity.
Qed.

Lemma buffers_conserved_witness :
  star (@link_step default_config flat_map c_buf 512) c_link c_link ∧ NoDup (drv_held c_link ++ dev_held c_link).
Proof.
  split; [constructor|].
  apply (@buffers_conserved default_config flat_map c_ring c_buf 512 c_ring_ok c_layout c_link c_link
    c_link_inv). constructor.
Defined.

Lemma delivered_in_order_witness :
  ∃ rest, log_given c_link = log_taken c_link ++ rest.
Proof.
  eexists. apply (@delivered_in_order default_config flat_map c_ring c_buf 512 c_ring_ok c_layout c_link c_link
    c_link_inv). constructor.
Defined.

Lemma operations_complete_witness :
  ∃ p i n s', @virtqueue_get_available_buffer default_config flat_map 0 0
    (on (dev c_link) (lmem c_link) []) = Ok (p, i, n) s' ∧ i = 0 ∧ p = c_buf 0.
Proof.
  destruct (@operations_complete default_config flat_map c_ring c_buf 512 c_ring_ok c_layout c_link
    c_link [] c_link_inv (star_refl _ _)) as (_ & _ & Htake & _).
  destruct (Htake 0 0) as (p & i & n & s' & Hrun & Hres).
  rewrite c_link_chan in Hres. destruct Hres as (Hi & Hp & _).
  exists p, i, n, s'. split; [exact Hrun|]. subst i. split; [reflexivity|exact Hp].
Defined.
