(* ===== verification/World.v ===== *)
(** * The state of one core

    What the RPMsg-Lite layers above the virtqueues work on: the shared memory,
    the heap of C objects (control blocks, instances, endpoints, list nodes,
    name-service contexts), the allocator, the environment layer's own state
    and the trace; with the lifting of the virtqueue operations to pointers,
    the interface of the environment layer ([rpmsg_env.h]) and its laws. *)

From S2P Require Import Prelude Memory Config VirtioRing Virtqueue.

(** ** The C objects *)

(** [struct virtqueue_ops]: there are two tables, [master_vq_ops] and
    [remote_vq_ops]. *)
Inductive virtqueue_ops : Type := master_vq_ops | remote_vq_ops.

(** [struct rpmsg_lite_instance]. *)
Record rpmsg_lite_instance : Type := {
  rvq : Z; tvq : Z; rl_endpoints : Z; lock : Z; link_state : Z;
  sh_mem_base : Z; sh_mem_remaining : Z; sh_mem_total : Z;
  vq_ops : option virtqueue_ops; link_id : Z;
}.

(** The functions that can be installed as [rx_cb] of an endpoint. *)
Inductive rl_ept_rx_cb_t : Type :=
| rpmsg_queue_rx_cb_fc | rpmsg_ns_rx_cb_fc | application_rx_cb (cb : Z).

(** [struct rpmsg_lite_endpoint], [struct llist]. *)
Record rpmsg_lite_endpoint : Type := { ept_addr : Z; rx_cb : rl_ept_rx_cb_t; rx_cb_data : Z }.
Record llist : Type := { data : Z; attr : Z; next : Z; prev : Z }.

(** [struct rpmsg_ns_callback_data] and [struct rpmsg_ns_context]. *)
Record rpmsg_ns_callback_data : Type := { ns_cb : Z; ns_user_data : Z }.
Record rpmsg_ns_context : Type := { ns_ept : Z; ns_cb_ctxt : Z }.

(** An element of a receive queue ([rpmsg_queue_rx_cb_data_t]). *)
Record rpmsg_queue_rx_cb_data_t : Type := { q_src : Z; q_data : Z; q_len : Z }.

Inductive obj : Type :=
| Raw
| OVq (q : virtqueue)
| OInst (i : rpmsg_lite_instance)
| OEpt (e : rpmsg_lite_endpoint)
| ONode (n : llist)
| ONsCb (d : rpmsg_ns_callback_data)
| ONsCtx (c : rpmsg_ns_context).

#[global] Instance virtqueue_ops_eq_dec : EqDecision virtqueue_ops.
Proof. solve_decision. Defined.
#[global] Instance rl_ept_rx_cb_t_eq_dec : EqDecision rl_ept_rx_cb_t.
Proof. solve_decision. Defined.

(** ** The state *)

(** [w_oom]: for each coming allocation, whether it fails (all succeed once the
    list is used up); [w_next]: the next address the allocator hands out;
    [w_stack]: where the automatic variables whose address is taken live. *)
Record world (E : Type) : Type := {
  w_mem : mem;
  w_heap : gmap Z obj;
  w_next : Z;
  w_oom : list bool;
  w_stack : Z;
  w_env : E;
  w_trace : list event;
}.
Arguments w_mem {E}. Arguments w_heap {E}. Arguments w_next {E}. Arguments w_oom {E}.
Arguments w_stack {E}. Arguments w_env {E}. Arguments w_trace {E}. Arguments Build_world {E}.

(** ** The environment layer *)

(** The services of [rpmsg_env.h] a port implements ([rpmsg_env_bm.c],
    [rpmsg_env_freertos.c], ...), over the port's own state [E].
    [el_create_mutex p count] and [el_create_queue len size] return the status
    and the handle, [el_get_queue q timeout] the element taken, if any. *)
Class EnvLayer (E : Type) : Type := {
  el_lock : Z → M E unit;
  el_unlock : Z → M E unit;
  el_create_mutex : Z → Z → M E (Z * Z);
  el_delete_mutex : Z → M E unit;
  el_init : M E Z;
  el_deinit : M E Z;
  el_init_interrupt : Z → Z → M E unit;
  el_deinit_interrupt : Z → M E unit;
  el_enable_interrupt : Z → M E unit;
  el_disable_interrupt : Z → M E unit;
  el_tx_callback : Z → M E unit;
}.

(** The queue services, which the bare-metal port does not have. *)
Class EnvQueue (E : Type) : Type := {
  el_create_queue : Z → Z → M E (Z * Z);
  el_delete_queue : Z → M E unit;
  el_put_queue : Z → rpmsg_queue_rx_cb_data_t → Z → M E Z;
  el_get_queue : Z → Z → M E (option rpmsg_queue_rx_cb_data_t);
  el_queue_size : Z → M E Z;
}.

(** The rest of the system: what the other core, the interrupt handlers and the
    other tasks do to the state while this task sleeps. *)
Class Outside (E : Type) : Type := { while_sleeping : Z → world E → world E }.

(** The receive and name-service callbacks of the application, and the
    per-link shared-memory configuration of the platform
    ([platform_get_custom_shmem_config]). *)
Class Application (E : Type) : Type := {
  app_rx_cb : Z → Z → Z → Z → Z → M (world E) Z;
  app_ns_cb : Z → Z → Z → Z → Z → M (world E) unit;
  platform_get_custom_shmem_config : Z → option rpmsg_platform_shmem_config;
}.

Section world.
Context {E : Type}.
Abbreviation W := (M (world E)).

(** *** Components of the state *)

Definition set_mem (f : mem → mem) (w : world E) : world E :=
  Build_world (f (w_mem w)) (w_heap w) (w_next w) (w_oom w) (w_stack w) (w_env w) (w_trace w).
Definition set_heap (f : gmap Z obj → gmap Z obj) (w : world E) : world E :=
  Build_world (w_mem w) (f (w_heap w)) (w_next w) (w_oom w) (w_stack w) (w_env w) (w_trace w).
Definition set_env (e : E) (w : world E) : world E :=
  Build_world (w_mem w) (w_heap w) (w_next w) (w_oom w) (w_stack w) e (w_trace w).
Definition set_trace (f : list event → list event) (w : world E) : world E :=
  Build_world (w_mem w) (w_heap w) (w_next w) (w_oom w) (w_stack w) (w_env w) (f (w_trace w)).

Definition temit (e : event) : W unit := modify (set_trace (cons e)).
Definition ldm (n : nat) (a : Z) : W Z := λ w, Ok (load n (w_mem w) a) w.
Definition stm (n : nat) (a v : Z) : W unit :=
  modify (λ w, set_trace (cons (EvStore n a v)) (set_mem (λ m, store n m a v) w)).

(** *** Objects *)

Definition get_obj {A} (f : obj → option A) (p : Z) : W A := λ w,
  match w_heap w !! p ≫= f with Some a => Ok a w | None => Undef end.
Definition put_obj (p : Z) (o : obj) : W unit := modify (set_heap <[p := o]>).

Definition as_vq (o : obj) : option virtqueue := match o with OVq q => Some q | _ => None end.
Definition as_inst (o : obj) : option rpmsg_lite_instance := match o with OInst i => Some i | _ => None end.
Definition as_ept (o : obj) : option rpmsg_lite_endpoint := match o with OEpt e => Some e | _ => None end.
Definition as_node (o : obj) : option llist := match o with ONode n => Some n | _ => None end.
Definition as_nscb (o : obj) : option rpmsg_ns_callback_data := match o with ONsCb d => Some d | _ => None end.
Definition as_nsctx (o : obj) : option rpmsg_ns_context := match o with ONsCtx c => Some c | _ => None end.

Definition get_vq : Z → W virtqueue := get_obj as_vq.
Definition get_inst : Z → W rpmsg_lite_instance := get_obj as_inst.
Definition get_ept : Z → W rpmsg_lite_endpoint := get_obj as_ept.
Definition get_node : Z → W llist := get_obj as_node.
Definition get_nscb : Z → W rpmsg_ns_callback_data := get_obj as_nscb.
Definition get_nsctx : Z → W rpmsg_ns_context := get_obj as_nsctx.

Definition upd_inst (p : Z) (f : rpmsg_lite_instance → rpmsg_lite_instance) : W unit :=
  i ← get_inst p; put_obj p (OInst (f i)).
Definition upd_node (p : Z) (f : llist → llist) : W unit :=
  n ← get_node p; put_obj p (ONode (f n)).
Definition upd_vq (p : Z) (f : virtqueue → virtqueue) : W unit :=
  q ← get_vq p; put_obj p (OVq (f q)).

(** *** Allocation *)

(** [env_allocate_memory]: NULL, or a fresh block. *)
Definition env_allocate_memory : W Z := λ w,
  match w_oom w with
  | true :: o => Ok NULL (Build_world (w_mem w) (w_heap w) (w_next w) o (w_stack w) (w_env w) (w_trace w))
  | _ => Ok (w_next w) (Build_world (w_mem w) (<[w_next w := Raw]> (w_heap w)) (w_next w + 1)
                          (tl (w_oom w)) (w_stack w) (w_env w) (w_trace w))
  end.

(** [env_free_memory]: releasing a block twice, or one that was never
    allocated, is undefined. *)
Definition env_free_memory (p : Z) : W unit := λ w,
  if p =? NULL then Ok tt w
  else match w_heap w !! p with
       | Some _ => Ok tt (set_heap (delete p) w)
       | None => Undef
       end.

(** *** Virtqueue operations through a pointer *)

Definition vq_view (p : Z) (w : world E) : option vst :=
  q ← w_heap w !! p ≫= as_vq;
  Some {| v_vq := q; v_mem := w_mem w; v_trace := w_trace w |}.
Definition vq_back (p : Z) (s : vst) (w : world E) : world E :=
  Build_world (v_mem s) (<[p := OVq (v_vq s)]> (w_heap w)) (w_next w) (w_oom w) (w_stack w)
    (w_env w) (v_trace s).

Definition with_vq {A} (p : Z) (m : V A) : W A := zoom (vq_view p) (vq_back p) m.

(** *** Environment services *)

Definition with_env {A} (m : M E A) : W A := zoom (λ w, Some (w_env w)) set_env m.

Context {el : EnvLayer E} {out : Outside E} {cfg : Config}.

Definition env_lock_mutex (l : Z) : W unit := with_env (el_lock l);; temit (EvLock l).
Definition env_unlock_mutex (l : Z) : W unit := with_env (el_unlock l);; temit (EvUnlock l).
Definition env_sleep_msec (ms : Z) : W unit := temit (EvSleep ms);; modify (while_sleeping ms).

(** [env_memset], [env_memcpy] on the shared memory, and the cache services
    (nothing without [RL_USE_DCACHE]). *)
Definition env_memset (a c n : Z) : W unit := modify (set_mem (λ m, mem_set m a c n)).
Definition env_memcpy (dst src n : Z) : W unit := modify (set_mem (λ m, mem_cpy m dst src n)).
Definition env_cache_flush (a n : Z) : W unit := modify (set_trace (flush_ev a n)).
Definition env_cache_invalidate (a n : Z) : W unit := modify (set_trace (inval_ev a n)).

(** [RL_ASSERT]: hang unless the condition holds. *)
Definition RL_ASSERT (b : bool) : W unit := if b then mret tt else hang.

End world.

Abbreviation W E := (M (world E)).

(** ** Laws of the environment layer *)

(** What the library relies on: a free lock can be taken, a lock one holds can
    be released, and neither touches the queues ([same_queues]). *)
Class EnvLaws (E : Type) {el : EnvLayer E} : Type := {
  lock_free : E → Z → Prop;
  lock_mine : E → Z → Prop;
  same_queues : E → E → Prop;
  same_queues_preorder :: PreOrder same_queues;
  law_lock e l : lock_free e l →
    ∃ e', el_lock l e = Ok tt e' ∧ lock_mine e' l ∧ same_queues e e';
  law_unlock e l : lock_mine e l →
    ∃ e', el_unlock l e = Ok tt e' ∧ lock_free e' l ∧ same_queues e e';
}.

(** Queues are seen as bounded FIFOs (capacity and elements); [in_task]: the
    call does not come from an interrupt handler. *)
Class QueueView (E : Type) {el : EnvLayer E} {laws : EnvLaws E} : Type := {
  queue_view : E → Z → option (nat * list rpmsg_queue_rx_cb_data_t);
  in_task : E → Prop;
  law_same e e' q : same_queues e e' → queue_view e' q = queue_view e q;
  law_same_task e e' : same_queues e e' → in_task e → in_task e';
}.

(** A call after which queue [q] is [v] and all else is as before. *)
Record queue_step {E} {el : EnvLayer E} {laws : EnvLaws E} {qv : QueueView E} (q : Z)
    (v : option (nat * list rpmsg_queue_rx_cb_data_t)) (e e' : E) : Prop := {
  qs_view : queue_view e' q = v;
  qs_others : ∀ q', q' ≠ q → queue_view e' q' = queue_view e q';
  qs_free : ∀ l, lock_free e l → lock_free e' l;
  qs_mine : ∀ l, lock_mine e l → lock_mine e' l;
  qs_task : in_task e → in_task e';
}.

(** A queue refuses an element (timeout 0) exactly when it is full, and gives
    its oldest one; tasks create and delete queues. *)
Class QueueLaws (E : Type) {el : EnvLayer E} {laws : EnvLaws E} {eq : EnvQueue E} {qv : QueueView E} : Prop := {
  law_create_queue e len sz : in_task e → 0 < len < 2147483648 → 0 ≤ sz < 2147483648 →
    ∃ s q e', el_create_queue len sz e = Ok (s, q) e' ∧
      if s =? 0 then q ≠ NULL ∧ queue_view e q = None ∧ queue_step q (Some (Z.to_nat len, [])) e e'
      else ∀ q', queue_step q' (queue_view e q') e e';
  law_delete_queue e q : in_task e → is_Some (queue_view e q) →
    ∃ e', el_delete_queue q e = Ok tt e' ∧ queue_step q None e e';
  law_put e q x cap l : queue_view e q = Some (cap, l) →
    ∃ e', el_put_queue q x 0 e = Ok (Z_of_bool (bool_decide (length l < cap)%nat)) e' ∧
      queue_step q (Some (cap, if decide (length l < cap)%nat then l ++ [x] else l)) e e';
  law_get e q cap x l t : queue_view e q = Some (cap, x :: l) →
    ∃ e', el_get_queue q t e = Ok (Some x) e' ∧ queue_step q (Some (cap, l)) e e';
  law_get_empty e q cap : queue_view e q = Some (cap, []) →
    ∃ e', el_get_queue q 0 e = Ok None e' ∧ queue_step q (Some (cap, [])) e e';
  law_queue_size e q cap l : queue_view e q = Some (cap, l) → Z.of_nat (length l) < 2147483648 →
    ∃ e', el_queue_size q e = Ok (Z.of_nat (length l)) e' ∧ queue_step q (Some (cap, l)) e e';
}.

(** Blocks from [w_next] on are free, and nothing lives at NULL. *)
Record alloc_ok {E} (w : world E) : Prop := {
  alloc_pos : 0 < w_next w;
  alloc_fresh : ∀ x, w_next w ≤ x → w_heap w !! x = None;
  alloc_null : w_heap w !! NULL = None;
}.

(** Between the call and its return the lock was taken and released once,
    around nothing else that the trace shows; memory and queues are as before. *)
Record locked_call {E} {el : EnvLayer E} {laws : EnvLaws E} (l : Z) (w w' : world E) : Prop := {
  lc_free : lock_free (w_env w') l;
  lc_mem : w_mem w' = w_mem w;
  lc_trace : w_trace w' = EvUnlock l :: EvLock l :: w_trace w;
  lc_queues : same_queues (w_env w) (w_env w');
}.

(** A history of initialisations and deinitialisations of several instances. *)
Inductive env_call : Type := CInit | CDeinit.

Fixpoint run_calls {E} {el : EnvLayer E} (cs : list env_call) : M E (list Z) :=
  match cs with
  | [] => mret []
  | CInit :: cs' => r ← el_init; rs ← run_calls cs'; mret (r :: rs)
  | CDeinit :: cs' => r ← el_deinit; rs ← run_calls cs'; mret (r :: rs)
  end.

(** The depth a history ends at; [None] when a deinitialisation has no matching
    initialisation. *)
Fixpoint call_depth (c : Z) (cs : list env_call) : option Z :=
  match cs with
  | [] => Some c
  | CInit :: cs' => call_depth (c + 1) cs'
  | CDeinit :: cs' => if 0 <? c then call_depth (c - 1) cs' else None
  end.

(** ** Lemmas *)

Section lemmas.
Context {E : Type} {el : EnvLayer E} {laws : EnvLaws E}.
Implicit Types w : world E.

Lemma env_lock_ok l w :
  lock_free (w_env w) l →
  ∃ e, env_lock_mutex l w = Ok tt (set_trace (cons (EvLock l)) (set_env e w)) ∧
    lock_mine e l ∧ same_queues (w_env w) e.
Proof.
  intros Hl. destruct (law_lock _ _ Hl) as (e & He & Hm & Hq). exists e. split_and!; try done.
  unfold env_lock_mutex, with_env, zoom. cbv [mbind M_bind]. by rewrite He.
Qed.

Lemma env_unlock_ok l w :
  lock_mine (w_env w) l →
  ∃ e, env_unlock_mutex l w = Ok tt (set_trace (cons (EvUnlock l)) (set_env e w)) ∧
    lock_free e l ∧ same_queues (w_env w) e.
Proof.
  intros Hl. destruct (law_unlock _ _ Hl) as (e & He & Hm & Hq). exists e. split_and!; try done.
  unfold env_unlock_mutex, with_env, zoom. cbv [mbind M_bind]. by rewrite He.
Qed.

(** The allocator either fails, changing nothing the program can see, or hands
    out a block that was free. *)
Lemma env_allocate_memory_ok w :
  alloc_ok w →
  ∃ w', alloc_ok w' ∧ w_mem w' = w_mem w ∧ w_env w' = w_env w ∧ w_trace w' = w_trace w ∧
    w_stack w' = w_stack w ∧ w_oom w' = tl (w_oom w) ∧
    if default false (head (w_oom w)) then
      env_allocate_memory w = Ok NULL w' ∧ w_heap w' = w_heap w ∧ w_next w' = w_next w
    else
      env_allocate_memory w = Ok (w_next w) w' ∧ w_heap w' = <[w_next w := Raw]> (w_heap w) ∧
      w_next w' = w_next w + 1.
Proof.
  intros [Hpos Hfresh Hnull]. unfold env_allocate_memory.
  exists (if default false (head (w_oom w)) then
    Build_world (w_mem w) (w_heap w) (w_next w) (tl (w_oom w)) (w_stack w) (w_env w) (w_trace w)
  else Build_world (w_mem w) (<[w_next w := Raw]> (w_heap w)) (w_next w + 1) (tl (w_oom w))
    (w_stack w) (w_env w) (w_trace w)).
  destruct (w_oom w) as [|[] o] eqn:Ho; cbn; (split; [|split_and!; reflexivity]);
    constructor; cbn; try done; try lia; try (intros x Hx; rewrite lookup_insert_ne by lia; apply Hfresh; lia).
  all: unfold NULL in *; by rewrite lookup_insert_ne by lia.
Qed.

Lemma env_free_memory_ok p o w :
  p ≠ NULL → w_heap w !! p = Some o → env_free_memory p w = Ok tt (set_heap (delete p) w).
Proof.
  intros Hp Ho. unfold env_free_memory. rewrite (proj2 (Z.eqb_neq p NULL) Hp). by rewrite Ho.
Qed.

End lemmas.
