(* ===== verification/Lpc55s69.v ===== *)
(** * The LPC55S69 platform

    [lpc55s69/rpmsg_platform.c]: installing, masking and counting interrupts,
    notification through the mailbox, address translation, the delay loop.  The
    platform calls the environment layer above it (mutexes, the table of
    handlers), which differs from port to port: it is an interface, [Port].  The
    peripheral drivers ([fsl_mailbox.h], the interrupt controller) are not part
    of the repository: they are a parameter with their documented effects as
    laws. *)

From S2P Require Import Prelude Memory Config Virtqueue.

(** ** The peripherals *)

Class Peripherals (H : Type) : Type := {
  NVIC_EnableIRQ : H → H;
  NVIC_DisableIRQ : H → H;
  NVIC_SetPriority : H → H;
  MAILBOX_Init : H → H;
  MAILBOX_Deinit : H → H;
  (** Bits set for the other core, and the bits this core finds set. *)
  MAILBOX_SetValueBits : Z → H → H;
  MAILBOX_ClearValueBits : Z → H → H;
  MAILBOX_GetValue : H → Z;
  (** Whether the other core has consumed all bits set for it. *)
  mailbox_drained : H → bool;
}.

(** Documented behaviour: the interrupt enable bit follows the last call. *)
Class PeripheralLaws (H : Type) {per : Peripherals H} : Type := {
  irq_enabled : H → bool;
  law_enable h : irq_enabled (NVIC_EnableIRQ h) = true;
  law_disable h : irq_enabled (NVIC_DisableIRQ h) = false;
}.

(** ** State *)

(** The static variables of the file, and the peripherals. *)
Record lpc (H : Type) : Type := {
  lpc_isr_counter : Z; lpc_disable_counter : Z; lpc_lock : Z; lpc_hw : H;
}.
Arguments lpc_isr_counter {H}. Arguments lpc_disable_counter {H}. Arguments lpc_lock {H}.
Arguments lpc_hw {H}. Arguments Build_lpc {H}.

Definition set_isr_counter {H} (x : Z) (p : lpc H) : lpc H :=
  Build_lpc x (lpc_disable_counter p) (lpc_lock p) (lpc_hw p).
Definition set_disable_counter {H} (x : Z) (p : lpc H) : lpc H :=
  Build_lpc (lpc_isr_counter p) x (lpc_lock p) (lpc_hw p).
Definition set_platform_lock {H} (x : Z) (p : lpc H) : lpc H :=
  Build_lpc (lpc_isr_counter p) (lpc_disable_counter p) x (lpc_hw p).
Definition set_hw {H} (f : H → H) (p : lpc H) : lpc H :=
  Build_lpc (lpc_isr_counter p) (lpc_disable_counter p) (lpc_lock p) (f (lpc_hw p)).

(** What the platform needs of the environment layer of a port with state [S]:
    where its own variables are, mutexes, and the table of handlers. *)
Class Port (H S : Type) : Type := {
  the_lpc : S → lpc H;
  put_lpc : lpc H → S → S;
  port_create_mutex : Z → Z → M S (Z * Z);
  port_delete_mutex : Z → M S unit;
  port_lock_mutex : Z → M S unit;
  port_unlock_mutex : Z → M S unit;
  port_register_isr : Z → Z → M S unit;
  port_unregister_isr : Z → M S unit;
}.

Section platform.
Context {H S : Type} {per : Peripherals H} {port : Port H S}.

Definition get_lpc : M S (lpc H) := λ s, Ok (the_lpc s) s.
Definition upd_lpc (f : lpc H → lpc H) : M S unit := modify (λ s, put_lpc (f (the_lpc s)) s).

(** [RL_ASSERT] in this state. *)
Definition port_assert (b : bool) : M S unit := if b then mret tt else hang.

(** The address of the static variable [platform_lock]. *)
Definition platform_init (platform_lock_addr : Z) : M S Z :=
  upd_lpc (set_hw MAILBOX_Init);;
  r ← port_create_mutex platform_lock_addr 1;
  upd_lpc (set_platform_lock r.2);;
  if negb (r.1 =? 0) then mret (-1) else mret 0.

(** The loop waits until the other core has taken every notification; it does
    not end while the mailbox is not drained. *)
Definition platform_deinit : M S Z :=
  p ← get_lpc;
  if negb (mailbox_drained (lpc_hw p)) then hang
  else
    upd_lpc (set_hw MAILBOX_Deinit);;
    port_delete_mutex (lpc_lock p);;
    upd_lpc (set_platform_lock NULL);;
    mret 0.

Definition platform_init_interrupt (vector_id isr_data : Z) : M S Z :=
  p ← get_lpc;
  if negb (lpc_lock p =? NULL) then
    port_register_isr vector_id isr_data;;
    port_lock_mutex (lpc_lock p);;
    p ← get_lpc;
    port_assert (0 <=? lpc_isr_counter p);;
    (if lpc_isr_counter p =? 0 then upd_lpc (set_hw NVIC_SetPriority) else mret tt);;
    upd_lpc (set_isr_counter (lpc_isr_counter p + 1));;
    port_unlock_mutex (lpc_lock p);;
    mret 0
  else mret (-1).

Definition platform_deinit_interrupt (vector_id : Z) : M S Z :=
  p ← get_lpc;
  if negb (lpc_lock p =? NULL) then
    port_lock_mutex (lpc_lock p);;
    p ← get_lpc;
    port_assert (0 <? lpc_isr_counter p);;
    upd_lpc (set_isr_counter (lpc_isr_counter p - 1));;
    (if lpc_isr_counter p - 1 =? 0 then upd_lpc (set_hw NVIC_DisableIRQ) else mret tt);;
    port_unregister_isr vector_id;;
    port_unlock_mutex (lpc_lock p);;
    mret 0
  else mret (-1).

Definition platform_interrupt_enable (vector_id : Z) : M S Z :=
  p ← get_lpc;
  port_assert (0 <? lpc_disable_counter p);;
  upd_lpc (set_disable_counter (lpc_disable_counter p - 1));;
  (if lpc_disable_counter p - 1 =? 0 then upd_lpc (set_hw NVIC_EnableIRQ) else mret tt);;
  mret 0.

Definition platform_interrupt_disable (vector_id : Z) : M S Z :=
  p ← get_lpc;
  port_assert (0 <=? lpc_disable_counter p);;
  (if lpc_disable_counter p =? 0 then upd_lpc (set_hw NVIC_DisableIRQ) else mret tt);;
  upd_lpc (set_disable_counter (lpc_disable_counter p + 1));;
  mret 0.

(** One instance (link 0) exists on this device; the vector's queue id selects
    the mailbox bit. *)
Definition platform_notify (vector_id : Z) : M S unit :=
  if RL_GET_LINK_ID vector_id =? 0 then
    p ← get_lpc;
    port_lock_mutex (lpc_lock p);;
    upd_lpc (set_hw (MAILBOX_SetValueBits (Z.shiftl 1 (RL_GET_Q_ID vector_id))));;
    port_unlock_mutex (lpc_lock p)
  else mret tt.

(** [MAILBOX_IRQHandler]: the vectors for which [env_isr] is called, in order. *)
Definition MAILBOX_IRQHandler : M S (list Z) :=
  p ← get_lpc;
  let value := MAILBOX_GetValue (lpc_hw p) in
  v0 ← (if negb (Z.land value 1 =? 0) then upd_lpc (set_hw (MAILBOX_ClearValueBits 1));; mret [0] else mret []);
  v1 ← (if negb (Z.land value 2 =? 0) then upd_lpc (set_hw (MAILBOX_ClearValueBits 2));; mret [1] else mret []);
  mret (v0 ++ v1).

End platform.

(** [platform_vatopa], [platform_patova]: both cores see the same addresses. *)
Definition platform_vatopa (a : Z) : Z := a.
Definition platform_patova (a : Z) : Z := a.

(** [platform_time_delay]: the number of loops of three cycles, computed in
    [uint32_t] arithmetic from the core clock. *)
Definition delay_loops (SystemCoreClock num_msec : Z) : Z :=
  u32 (SystemCoreClock / 3 / 1000 * num_msec).

(** ** A simulation of the peripherals *)

(** An interrupt enable bit and the mailbox bits set so far. *)
Record sim : Type := { sim_irq : bool; sim_bits : Z }.

#[global] Instance sim_peripherals : Peripherals sim := {|
  NVIC_EnableIRQ h := {| sim_irq := true; sim_bits := sim_bits h |};
  NVIC_DisableIRQ h := {| sim_irq := false; sim_bits := sim_bits h |};
  NVIC_SetPriority h := h;
  MAILBOX_Init h := {| sim_irq := sim_irq h; sim_bits := 0 |};
  MAILBOX_Deinit h := h;
  MAILBOX_SetValueBits b h := {| sim_irq := sim_irq h; sim_bits := Z.lor (sim_bits h) b |};
  MAILBOX_ClearValueBits b h := {| sim_irq := sim_irq h; sim_bits := Z.ldiff (sim_bits h) b |};
  MAILBOX_GetValue h := sim_bits h;
  mailbox_drained h := true;
|}.

#[global] Instance sim_laws : PeripheralLaws sim :=
  {| irq_enabled := sim_irq; law_enable h := eq_refl; law_disable h := eq_refl |}.
