(* ===== verification/BareMetal.v ===== *)
(** * The bare-metal environment

    [rpmsg_env_bm.c]: initialisation counting, the table of interrupt handlers,
    waiting for the link, and the instance of the environment interface it gives
    together with the LPC55S69 platform of [Lpc55s69], whose interface [Port] it
    implements. *)

From S2P Require Import Prelude Memory Config Virtqueue Concrete World Lpc55s69.

(** ** State *)

(** The static variables of the two files; a missing entry of [isr_table] is a
    NULL [data]. *)
Record bm (H : Type) : Type := {
  env_init_counter : Z;
  isr_table : gmap Z Z;
  bm_lpc : lpc H;
}.
Arguments env_init_counter {H}. Arguments isr_table {H}. Arguments bm_lpc {H}. Arguments Build_bm {H}.

Definition isr_counter {H} (s : bm H) : Z := lpc_isr_counter (bm_lpc s).
Definition disable_counter {H} (s : bm H) : Z := lpc_disable_counter (bm_lpc s).
Definition platform_lock {H} (s : bm H) : Z := lpc_lock (bm_lpc s).
Definition hw {H} (s : bm H) : H := lpc_hw (bm_lpc s).

Section bm.
Context {H : Type} {per : Peripherals H} {cfg : Config}.
Abbreviation B := (M (bm H)).

Definition getb : B (bm H) := get_state.
Definition set_init_counter (x : Z) (s : bm H) : bm H := Build_bm x (isr_table s) (bm_lpc s).
Definition set_isr_table (f : gmap Z Z → gmap Z Z) (s : bm H) : bm H :=
  Build_bm (env_init_counter s) (f (isr_table s)) (bm_lpc s).
Definition set_bm_lpc (p : lpc H) (s : bm H) : bm H := Build_bm (env_init_counter s) (isr_table s) p.

(** [RL_ASSERT] in this state. *)
Definition bm_assert (b : bool) : B unit := if b then mret tt else hang.

(** *** Locks: nothing to do without an operating system *)

Definition bm_create_mutex (p count : Z) : B (Z * Z) := mret (0, p).
Definition bm_delete_mutex (l : Z) : B unit := mret tt.
Definition bm_lock_mutex (l : Z) : B unit := mret tt.
Definition bm_unlock_mutex (l : Z) : B unit := mret tt.

(** *** The table of handlers *)

Definition env_register_isr (vector_id d : Z) : B unit :=
  (if vector_id <? RL_PLATFORM_MAX_ISR_COUNT then modify (set_isr_table <[vector_id := d]>)
   else mret tt);;
  bm_assert (vector_id <? RL_PLATFORM_MAX_ISR_COUNT).

Definition env_unregister_isr (vector_id : Z) : B unit :=
  (if vector_id <? RL_PLATFORM_MAX_ISR_COUNT then modify (set_isr_table <[vector_id := NULL]>)
   else mret tt);;
  bm_assert (vector_id <? RL_PLATFORM_MAX_ISR_COUNT).

#[global] Instance bm_port : Port H (bm H) := {|
  the_lpc := bm_lpc;
  put_lpc := set_bm_lpc;
  port_create_mutex := bm_create_mutex;
  port_delete_mutex := bm_delete_mutex;
  port_lock_mutex := bm_lock_mutex;
  port_unlock_mutex := bm_unlock_mutex;
  port_register_isr := env_register_isr;
  port_unregister_isr := env_unregister_isr;
|}.

(** The address of the platform's static variable [platform_lock]. *)
Variable platform_lock_addr : Z.

(** *** [rpmsg_env_bm.c] *)

(** The counter is an [int32_t]. *)
Definition env_init : B Z :=
  s ← getb;
  bm_assert (0 <=? env_init_counter s);;
  if env_init_counter s <? 0 then mret (-1)
  else
    modify (set_init_counter (env_init_counter s + 1));;
    if 1 <? env_init_counter s + 1 then mret 0
    else
      modify (set_isr_table (λ _, ∅));;
      platform_init platform_lock_addr.

Definition env_deinit : B Z :=
  s ← getb;
  bm_assert (0 <? env_init_counter s);;
  if env_init_counter s <=? 0 then mret (-1)
  else
    modify (set_init_counter (env_init_counter s - 1));;
    if 0 <? env_init_counter s - 1 then mret 0
    else platform_deinit.

(** [env_isr]: the virtqueue to notify; [None]: no handler slot (the assertion
    hangs). *)
Definition env_isr_data (vector : Z) : B (option Z) :=
  s ← getb;
  if vector <? RL_PLATFORM_MAX_ISR_COUNT then mret (Some (default NULL (isr_table s !! vector)))
  else mret None.

(** *** Interrupts *)

Definition env_enable_interrupt (vector_id : Z) : B unit := _ ← platform_interrupt_enable vector_id; mret tt.
Definition env_disable_interrupt (vector_id : Z) : B unit := _ ← platform_interrupt_disable vector_id; mret tt.

(** [env_map_vatopa] returns a [uint32_t]. *)
Definition bm_addr_map : AddrMap :=
  {| env_map_vatopa := λ a, u32 (platform_vatopa a); env_map_patova := platform_patova |}.

(** *** The instance of the environment interface *)

Definition bm_env : EnvLayer (bm H) := {|
  el_lock := bm_lock_mutex;
  el_unlock := bm_unlock_mutex;
  el_create_mutex := bm_create_mutex;
  el_delete_mutex := bm_delete_mutex;
  el_init := env_init;
  el_deinit := env_deinit;
  el_init_interrupt v d := _ ← platform_init_interrupt v d; mret tt;
  el_deinit_interrupt v := _ ← platform_deinit_interrupt v; mret tt;
  el_enable_interrupt := env_enable_interrupt;
  el_disable_interrupt := env_disable_interrupt;
  el_tx_callback _ := mret tt;
|}.

End bm.

(** ** Waiting for the link *)

Section wait.
Context {E : Type} {out : Outside E} {cfg : Config}.

(** The busy loop of [env_wait_for_link_up]; [timeout_ms] is a [uint32_t],
    [RL_BLOCK] has the width of [unsigned long]. *)
Fixpoint wait_for_link_loop (fuel : nat) (dev tick_count timeout_ms : Z) : W E Z :=
  i ← get_inst dev;
  if link_state i =? 1 then mret 1
  else match fuel with
       | O => no_fuel
       | S k =>
           env_sleep_msec RL_MS_PER_INTERVAL;;
           if negb (RL_BLOCK =? timeout_ms) then
             let tick_temp := u32 (tick_count + u32 RL_MS_PER_INTERVAL) in
             if (tick_temp <? tick_count) || (timeout_ms <=? tick_temp) then mret 0
             else wait_for_link_loop k dev tick_temp timeout_ms
           else wait_for_link_loop k dev tick_count timeout_ms
       end.

Definition env_wait_for_link_up (fuel : nat) (dev timeout_ms : Z) : W E Z :=
  wait_for_link_loop fuel dev 0 timeout_ms.

Definition rpmsg_lite_wait_for_link_up (fuel : nat) (dev timeout : Z) : W E Z :=
  if dev =? NULL then mret 0
  else env_wait_for_link_up fuel dev (u32 timeout).

(** The state after [k] sleeps. *)
Fixpoint after_sleeps (k : nat) (w : world E) : world E :=
  match k with
  | O => w
  | S k' =>
      after_sleeps k' (while_sleeping RL_MS_PER_INTERVAL
        (set_trace (cons (EvSleep RL_MS_PER_INTERVAL)) w))
  end.

(** The number of polls a finite timeout allows. *)
Definition polls (timeout : Z) : Z :=
  Z.max 1 ((timeout + RL_MS_PER_INTERVAL - 1) / RL_MS_PER_INTERVAL).

Definition link_is_up (dev : Z) (w : world E) : Prop :=
  ∃ i, w_heap w !! dev = Some (OInst i) ∧ link_state i = 1.
Definition link_is_down (dev : Z) (w : world E) : Prop :=
  ∃ i, w_heap w !! dev = Some (OInst i) ∧ link_state i ≠ 1.

End wait.

(** A list of disable ([true]) and enable ([false]) calls. *)
Fixpoint run_irq {H} {per : Peripherals H} {cfg : Config} (cs : list bool) : M (bm H) unit :=
  match cs with
  | [] => mret tt
  | true :: cs' => env_disable_interrupt 0;; run_irq cs'
  | false :: cs' => env_enable_interrupt 0;; run_irq cs'
  end.
Fixpoint irq_depth (c : Z) (cs : list bool) : option Z :=
  match cs with
  | [] => Some c
  | true :: cs' => irq_depth (c + 1) cs'
  | false :: cs' => if 0 <? c then irq_depth (c - 1) cs' else None
  end.

(** Locks are free at all times: there is nothing to take. *)
#[global] Program Instance bm_laws {H} {per : Peripherals H} {cfg : Config} (a : Z) :
    @EnvLaws (bm H) (bm_env a) := {|
  lock_free _ _ := True;
  lock_mine _ _ := True;
  same_queues e e' := e = e';
|}.
Next Obligation. intros. by eexists. Qed.
Next Obligation. intros. by eexists. Qed.

Definition sim_start : bm sim :=
  {| env_init_counter := 0; isr_table := ∅;
     bm_lpc := {| lpc_isr_counter := 0; lpc_disable_counter := 0; lpc_lock := NULL;
                  lpc_hw := {| sim_irq := false; sim_bits := 0 |} |} |}.

(** ** Lemmas on the environment *)

(** Execute a program of the environment on a concrete state record. *)
Ltac vrun_bm := cbv [getb mbind mret M_bind M_ret get_state modify set_init_counter set_isr_table
  set_isr_counter set_disable_counter set_platform_lock set_hw env_init_counter isr_table bm_lpc set_bm_lpc
  env_register_isr env_unregister_isr bm_assert get_lpc upd_lpc port_assert the_lpc put_lpc port_create_mutex port_delete_mutex port_lock_mutex
  port_unlock_mutex port_register_isr port_unregister_isr bm_port bm_create_mutex bm_delete_mutex
  bm_lock_mutex bm_unlock_mutex lpc_isr_counter lpc_disable_counter lpc_lock lpc_hw
  isr_counter disable_counter platform_lock hw fst snd].

Section lemmas.
Context {H : Type} {per : Peripherals H} {plaws : PeripheralLaws H} {cfg : Config}.
Context (lock_addr : Z) (lock_addr_ok : lock_addr ≠ NULL).
Implicit Types s : bm H.

(** The counter counts, and the platform lock exists while it is positive. *)
Record bm_inv (s : bm H) : Prop := {
  inv_counter : 0 ≤ env_init_counter s;
  inv_lock : platform_lock s = NULL ↔ env_init_counter s = 0;
}.

Lemma env_init_ok s :
  bm_inv s → ∃ s', env_init lock_addr s = Ok 0 s' ∧ bm_inv s' ∧
    env_init_counter s' = env_init_counter s + 1 ∧
    isr_table s' = (if env_init_counter s =? 0 then ∅ else isr_table s) ∧
    disable_counter s' = disable_counter s ∧ isr_counter s' = isr_counter s.
Proof.
  intros [Hc Hl]. destruct s as [c tab [ic dc pl h]]. cbn in *.
  unfold env_init, getb, bm_assert, platform_init, bm_create_mutex. vrun_bm.
  rewrite (proj2 (Z.leb_le 0 c)), (proj2 (Z.ltb_ge c 0)) by lia.
  destruct (Z.ltb_spec 1 (c + 1)); destruct (Z.eqb_spec c 0); try lia;
    eexists; (split; [reflexivity|]); cbn; (split_and!; try done; constructor; cbn; [lia|]).
  - rewrite Hl. lia.
  - split; [done|lia].
Qed.

Lemma env_deinit_ok s :
  bm_inv s → 0 < env_init_counter s → mailbox_drained (hw s) = true →
  ∃ s', env_deinit s = Ok 0 s' ∧ bm_inv s' ∧ env_init_counter s' = env_init_counter s - 1.
Proof.
  intros [Hc Hl] Hpos Hdr. destruct s as [c tab [ic dc pl h]]. cbn in *.
  unfold env_deinit, getb, bm_assert, platform_deinit, bm_delete_mutex. vrun_bm.
  rewrite (proj2 (Z.ltb_lt 0 c)), (proj2 (Z.leb_gt c 0)) by lia.
  destruct (Z.ltb_spec 0 (c - 1)); rewrite ?Hdr; cbn [negb];
    eexists; (split; [reflexivity|]); cbn; (split_and!; try done; constructor; cbn; [lia|]).
  - rewrite Hl. lia.
  - split; [lia|done].
Qed.

Lemma run_calls_ok cs : ∀ s c,
  bm_inv s → (∀ h : H, mailbox_drained h = true) → call_depth (env_init_counter s) cs = Some c →
  ∃ s', run_calls (el := bm_env lock_addr) cs s = Ok (replicate (length cs) 0) s' ∧ bm_inv s' ∧ env_init_counter s' = c.
Proof.
  induction cs as [|[] cs IH]; intros s c Hinv Hdr Hc; cbn in Hc.
  - injection Hc as <-. by exists s.
  - destruct (env_init_ok s Hinv) as (s1 & Hrun & Hinv1 & Hc1 & _). cbn [run_calls el_init el_deinit bm_env].
    rewrite (bind_ok _ _ _ _ _ Hrun). rewrite <- Hc1 in Hc.
    destruct (IH s1 c Hinv1 Hdr Hc) as (s' & Hrun' & ? & ?). rewrite (bind_ok _ _ _ _ _ Hrun').
    by exists s'.
  - destruct (Z.ltb_spec 0 (env_init_counter s)) as [Hpos|]; [|done].
    destruct (env_deinit_ok s Hinv Hpos (Hdr _)) as (s1 & Hrun & Hinv1 & Hc1). cbn [run_calls el_init el_deinit bm_env].
    rewrite (bind_ok _ _ _ _ _ Hrun). rewrite <- Hc1 in Hc.
    destruct (IH s1 c Hinv1 Hdr Hc) as (s' & Hrun' & ? & ?). rewrite (bind_ok _ _ _ _ _ Hrun').
    by exists s'.
Qed.

(** Interrupts are enabled exactly while the nesting counter is zero. *)
Definition irq_inv (s : bm H) : Prop :=
  0 ≤ disable_counter s ∧ irq_enabled (hw s) = (disable_counter s =? 0).

Lemma interrupt_disable_ok v s :
  0 ≤ disable_counter s → (disable_counter s = 0 ∨ irq_inv s) →
  ∃ s', platform_interrupt_disable v s = Ok 0 s' ∧ irq_inv s' ∧
    disable_counter s' = disable_counter s + 1.
Proof.
  intros Hd Hi. destruct s as [c tab [ic dc pl h]]. unfold irq_inv in *. cbn in *.
  unfold platform_interrupt_disable, getb, bm_assert. vrun_bm.
  rewrite (proj2 (Z.leb_le 0 dc)) by lia.
  destruct (Z.eqb_spec dc 0); eexists; (split; [reflexivity|]); cbn; split_and!; try lia.
  - rewrite law_disable. symmetry. apply Z.eqb_neq. lia.
  - destruct Hi as [?|[_ ->]]; [done|]. symmetry. apply Z.eqb_neq. lia.
Qed.

Lemma interrupt_enable_ok v s :
  irq_inv s → 0 < disable_counter s →
  ∃ s', platform_interrupt_enable v s = Ok 0 s' ∧ irq_inv s' ∧
    disable_counter s' = disable_counter s - 1.
Proof.
  intros [Hd Hi] Hpos. destruct s as [c tab [ic dc pl h]]. unfold irq_inv in *. cbn in *.
  unfold platform_interrupt_enable, getb, bm_assert. vrun_bm.
  rewrite (proj2 (Z.ltb_lt 0 dc)) by lia.
  destruct (Z.eqb_spec (dc - 1) 0); eexists; (split; [reflexivity|]); cbn; split_and!; try lia.
  - rewrite law_enable. symmetry. apply Z.eqb_eq. lia.
  - rewrite Hi. rewrite (proj2 (Z.eqb_neq dc 0)) by lia. symmetry. by apply Z.eqb_neq.
Qed.

End lemmas.

(** ** The polling loop *)

Section poll.
Context {E : Type} {out : Outside E} {cfg : Config} {cok : ConfigOk cfg}.
Implicit Types w : world E.

Lemma wait_get_inst dev i w : w_heap w !! dev = Some (OInst i) → get_inst dev w = Ok i w.
Proof. intros Hi. unfold get_inst, get_obj. by rewrite Hi. Qed.

Lemma after_sleeps_S k w :
  after_sleeps (S k) w = after_sleeps k (while_sleeping RL_MS_PER_INTERVAL
    (set_trace (cons (EvSleep RL_MS_PER_INTERVAL)) w)).
Proof. done. Qed.

(** One iteration that does not end the loop, from tick [t]. *)
Lemma wait_loop_step fuel dev t timeout w :
  link_is_down dev w → RL_BLOCK ≠ timeout → 0 ≤ t →
  t + RL_MS_PER_INTERVAL < timeout → timeout < 4294967296 →
  wait_for_link_loop (S fuel) dev t timeout w =
    wait_for_link_loop fuel dev (t + RL_MS_PER_INTERVAL) timeout (after_sleeps 1 w).
Proof.
  intros (i & Hi & Hl) Hb Ht Hlt Hto. pose proof cfg_interval.
  cbn [wait_for_link_loop]. rewrite (bind_ok _ _ _ _ _ (wait_get_inst dev i w Hi)).
  rewrite (proj2 (Z.eqb_neq _ 1) Hl), (proj2 (Z.eqb_neq RL_BLOCK timeout) Hb).
  cbv [mbind M_bind env_sleep_msec temit modify negb].
  rewrite (u32_small RL_MS_PER_INTERVAL), u32_small by lia.
  rewrite (proj2 (Z.ltb_ge (t + RL_MS_PER_INTERVAL) t)) by lia.
  rewrite (proj2 (Z.leb_gt timeout (t + RL_MS_PER_INTERVAL))) by lia. done.
Qed.

Lemma after_sleeps_add j k w : after_sleeps (j + k) w = after_sleeps k (after_sleeps j w).
Proof. revert w. induction j as [|j IH]; intros w; cbn; auto. Qed.

(** [j] iterations without an answer. *)
Lemma wait_loop_steps j fuel dev t timeout w :
  (∀ m, (m < j)%nat → link_is_down dev (after_sleeps m w)) → RL_BLOCK ≠ timeout → 0 ≤ t →
  j = 0%nat ∨ t + Z.of_nat j * RL_MS_PER_INTERVAL < timeout → timeout < 4294967296 →
  wait_for_link_loop (j + fuel) dev t timeout w =
    wait_for_link_loop fuel dev (t + Z.of_nat j * RL_MS_PER_INTERVAL) timeout (after_sleeps j w).
Proof.
  pose proof cfg_interval. revert t w. induction j as [|j IH]; intros t w Hd Hb Ht Hlt Hto.
  - cbn. f_equal. lia.
  - change (S j + fuel)%nat with (S (j + fuel)).
    rewrite wait_loop_step; [|apply (Hd 0%nat); lia|done|done|lia|done].
    rewrite IH; [|intros m Hm; apply (Hd (S m)); lia|done|lia|lia|done].
    cbn [after_sleeps]. f_equal. lia.
Qed.

Lemma wait_loop_up fuel dev t timeout w :
  link_is_up dev w → wait_for_link_loop fuel dev t timeout w = Ok 1 w.
Proof.
  intros (i & Hi & Hl). destruct fuel; cbn [wait_for_link_loop];
    rewrite (bind_ok _ _ _ _ _ (wait_get_inst dev i w Hi)), Hl; done.
Qed.

(** The last iteration: the timeout is reached or the tick wraps. *)
Lemma wait_loop_expire fuel dev t timeout w :
  link_is_down dev w → RL_BLOCK ≠ timeout → 0 ≤ t < 4294967296 →
  timeout ≤ t + RL_MS_PER_INTERVAL → timeout < 4294967296 →
  wait_for_link_loop (S fuel) dev t timeout w = Ok 0 (after_sleeps 1 w).
Proof.
  intros (i & Hi & Hl) Hb Ht Hle Hto. pose proof cfg_interval.
  cbn [wait_for_link_loop]. rewrite (bind_ok _ _ _ _ _ (wait_get_inst dev i w Hi)).
  rewrite (proj2 (Z.eqb_neq _ 1) Hl), (proj2 (Z.eqb_neq RL_BLOCK timeout) Hb).
  cbv [mbind M_bind env_sleep_msec temit modify negb].
  rewrite (u32_small RL_MS_PER_INTERVAL) by lia.
  destruct (Z.ltb_spec (u32 (t + RL_MS_PER_INTERVAL)) t); [done|].
  destruct (Z.leb_spec timeout (u32 (t + RL_MS_PER_INTERVAL))); [done|]. exfalso. zwrap.
Qed.

Lemma wait_loop_block fuel j dev w t :
  (∀ m, (m < j)%nat → link_is_down dev (after_sleeps m w)) →
  wait_for_link_loop (j + fuel) dev t RL_BLOCK w =
    wait_for_link_loop fuel dev t RL_BLOCK (after_sleeps j w).
Proof.
  revert w. induction j as [|j IH]; intros w Hd; [done|].
  destruct (Hd 0%nat ltac:(lia)) as (i & Hi & Hl). cbn [after_sleeps] in Hi.
  change (S j + fuel)%nat with (S (j + fuel)). cbn [wait_for_link_loop].
  rewrite (bind_ok _ _ _ _ _ (wait_get_inst dev i w Hi)).
  rewrite (proj2 (Z.eqb_neq _ 1) Hl), Z.eqb_refl.
  cbv [mbind M_bind env_sleep_msec temit modify negb].
  apply IH. intros m Hm. apply (Hd (S m)). lia.
Qed.

Lemma polls_spec timeout :
  0 ≤ timeout →
  1 ≤ polls timeout ∧ (polls timeout - 1) * RL_MS_PER_INTERVAL < Z.max 1 timeout ∧
  timeout ≤ polls timeout * RL_MS_PER_INTERVAL.
Proof.
  intros Ht. pose proof cfg_interval. unfold polls.
  set (I := RL_MS_PER_INTERVAL) in *.
  pose proof (Z.div_mod (timeout + I - 1) I ltac:(lia)) as Hdm.
  pose proof (Z.mod_pos_bound (timeout + I - 1) I ltac:(lia)).
  set (k := (timeout + I - 1) / I) in *.
  destruct (Z.max_spec 1 k) as [[? ->]|[? ->]]; nia.
Qed.

(** A link that is down at every poll. *)
Lemma wait_loop_all_down dev timeout w :
  0 ≤ timeout < 4294967296 →
  (∀ m, (m < Z.to_nat (polls timeout))%nat → link_is_down dev (after_sleeps m w)) →
  RL_BLOCK ≠ timeout →
  wait_for_link_loop (Z.to_nat (polls timeout)) dev 0 timeout w =
    Ok 0 (after_sleeps (Z.to_nat (polls timeout)) w).
Proof.
  intros Ht Hd Hb. destruct (polls_spec timeout ltac:(lia)) as (Hp1 & Hp2 & Hp3).
  pose proof cfg_interval. set (n := Z.to_nat (polls timeout)) in *.
  replace n with ((n - 1) + 1)%nat at 1 by lia.
  rewrite wait_loop_steps; [|intros; apply Hd; lia|done|lia| |lia].
  - rewrite wait_loop_expire; [|apply Hd; lia|done| |nia|lia].
    + rewrite <- after_sleeps_add. do 2 f_equal. lia.
    + nia.
  - assert (Z.of_nat (n - 1) = polls timeout - 1) as -> by lia.
    destruct (decide (polls timeout = 1)); [left; lia|right]. nia.
Qed.

(** C26.  [rpmsg_lite_wait_for_link_up] in bare metal.  With a finite timeout the
    call always returns, after at most [polls timeout] sleeps: 1 if the link was
    seen up at the [k]-th poll, for [k] below that bound, and 0, in the state
    after exactly [polls timeout] sleeps, if it was down at all of them. *)
Theorem wait_for_link_up_result dev timeout w :
  dev ≠ NULL → 0 ≤ timeout < 4294967296 → RL_BLOCK ≠ timeout →
  let n := Z.to_nat (polls timeout) in
  (∀ k, (k < n)%nat → (∀ m, (m < k)%nat → link_is_down dev (after_sleeps m w)) →
     link_is_up dev (after_sleeps k w) →
     rpmsg_lite_wait_for_link_up n dev timeout w = Ok 1 (after_sleeps k w)) ∧
  ((∀ m, (m < n)%nat → link_is_down dev (after_sleeps m w)) →
     rpmsg_lite_wait_for_link_up n dev timeout w = Ok 0 (after_sleeps n w)).
Proof.
  intros Hdev Ht Hb n. destruct (polls_spec timeout ltac:(lia)) as (Hp1 & Hp2 & Hp3).
  pose proof cfg_interval.
  unfold rpmsg_lite_wait_for_link_up, env_wait_for_link_up.
  rewrite (proj2 (Z.eqb_neq dev NULL) Hdev), u32_small by lia. split.
  - intros k Hk Hd Hup. destruct k as [|k]; [by apply wait_loop_up|].
    replace n with (S k + (n - S k))%nat by lia.
    rewrite wait_loop_steps; [by apply wait_loop_up|done|done|lia| |lia].
    right. assert (Z.of_nat (S k) ≤ polls timeout - 1) by lia. nia.
  - intros Hd. by apply wait_loop_all_down.
Qed.

(** [RL_BLOCK] blocks exactly on targets where [unsigned long] has 32
    bits: there the call returns only when the link is up, however late.  With
    64 bits the [uint32_t] parameter cannot hold [RL_BLOCK], and a caller that
    passes it gets the answer 0 once the link has been down for the finite
    number of polls of the largest [uint32_t]. *)
Theorem wait_for_link_up_block dev w :
  dev ≠ NULL →
  if decide (uintptr_bits = 32) then
    ∀ k, (∀ m, (m < k)%nat → link_is_down dev (after_sleeps m w)) →
      link_is_up dev (after_sleeps k w) →
      rpmsg_lite_wait_for_link_up k dev RL_BLOCK w = Ok 1 (after_sleeps k w)
  else
    let n := Z.to_nat (polls 4294967295) in
    (∀ m, (m < n)%nat → link_is_down dev (after_sleeps m w)) →
    rpmsg_lite_wait_for_link_up n dev RL_BLOCK w = Ok 0 (after_sleeps n w).
Proof.
  intros Hdev. unfold rpmsg_lite_wait_for_link_up, env_wait_for_link_up.
  rewrite (proj2 (Z.eqb_neq dev NULL) Hdev). case_decide as Hbits.
  - intros k Hd Hup. assert (RL_BLOCK = 4294967295) as Hrl by (unfold RL_BLOCK; by rewrite Hbits).
    replace (u32 RL_BLOCK) with RL_BLOCK by (by rewrite Hrl).
    replace k with (k + 0)%nat at 1 by lia. rewrite wait_loop_block by done. by apply wait_loop_up.
  - intros Hd.
    assert (uintptr_bits = 64) as H64 by (destruct cfg_width; done).
    assert (u32 RL_BLOCK = 4294967295) as -> by (unfold RL_BLOCK; by rewrite H64).
    apply wait_loop_all_down; [|done..|unfold RL_BLOCK; by rewrite H64]. lia.
Qed.

End poll.

(** Testing one bit with a mask. *)
Lemma land_bit x i : 0 ≤ i → negb (Z.land x (2 ^ i) =? 0) = Z.testbit x i.
Proof.
  intros Hi. destruct (Z.testbit x i) eqn:Hb.
  - apply negb_true_iff, Z.eqb_neq. intros H0.
    assert (Z.testbit (Z.land x (2 ^ i)) i = true) as H1.
    { rewrite Z.land_spec, Hb, Z.pow2_bits_true by done. done. }
    by rewrite H0, Z.bits_0 in H1.
  - apply negb_false_iff, Z.eqb_eq. apply Z.bits_inj'. intros j Hj.
    rewrite Z.land_spec, Z.bits_0. destruct (decide (j = i)) as [->|Hne]; [by rewrite Hb|].
    rewrite Z.pow2_bits_false by done. apply andb_false_r.
Qed.

(** ** The theorems on initialisation and interrupts *)

Section theorems.
Context {H : Type} {per : Peripherals H} {plaws : PeripheralLaws H} {cfg : Config} {cok : ConfigOk cfg}.
Context (lock_addr : Z) (lock_addr_ok : lock_addr ≠ NULL).
Implicit Types s : bm H.

(** The environment is initialised once for all instances: in every
    history in which no deinitialisation lacks its initialisation, every call
    returns 0, the counter is the nesting depth, and the platform lock exists
    exactly while the depth is positive.  A deinitialisation too many hangs on
    its assertion. *)
Theorem env_init_nests s cs c :
  bm_inv s → (∀ h : H, mailbox_drained h = true) → call_depth (env_init_counter s) cs = Some c →
  (∃ s', run_calls (el := bm_env lock_addr) cs s = Ok (replicate (length cs) 0) s' ∧
     env_init_counter s' = c ∧ (platform_lock s' = NULL ↔ c = 0)) ∧
  (env_init_counter s = 0 → env_deinit s = Hang s).
Proof.
  intros Hinv Hdr Hc. split.
  - destruct (run_calls_ok lock_addr lock_addr_ok cs s c Hinv Hdr Hc) as (s' & Hrun & [_ Hl] & <-).
    by exists s'.
  - intros H0. destruct s. cbn in H0. subst. reflexivity.
Qed.

(** Disabling and enabling interrupts nest: in every history in which no
    enable lacks its disable, the peripheral interrupt is on at the end exactly
    if every disable was undone (from the first disable on). *)
Theorem interrupt_masking_nests s cs c :
  irq_inv s ∨ (disable_counter s = 0 ∧ head cs = Some true) →
  irq_depth (disable_counter s) cs = Some c →
  ∃ s', run_irq cs s = Ok tt s' ∧ disable_counter s' = c ∧
    irq_enabled (hw s') = bool_decide (c = 0).
Proof.
  assert (∀ cs s c, irq_inv s → irq_depth (disable_counter s) cs = Some c →
    ∃ s', run_irq cs s = Ok tt s' ∧ irq_inv s' ∧ disable_counter s' = c) as Hrun.
  { clear s cs c. induction cs as [|b cs IH]; intros s c Hi Hc; cbn in Hc.
    - injection Hc as <-. by exists s.
    - destruct b; cbn [run_irq]; unfold env_disable_interrupt, env_enable_interrupt.
      + destruct (interrupt_disable_ok 0 s) as (s1 & Hr & Hi1 & Hc1); [apply Hi|by right|].
        rewrite <- Hc1 in Hc. destruct (IH s1 c Hi1 Hc) as (s' & Hr' & ?).
        exists s'. cbv [mbind M_bind mret M_ret]. rewrite Hr. done.
      + destruct (Z.ltb_spec 0 (disable_counter s)) as [Hpos|]; [|done].
        destruct (interrupt_enable_ok 0 s Hi Hpos) as (s1 & Hr & Hi1 & Hc1).
        rewrite <- Hc1 in Hc. destruct (IH s1 c Hi1 Hc) as (s' & Hr' & ?).
        exists s'. cbv [mbind M_bind mret M_ret]. rewrite Hr. done. }
  intros Hstart Hc.
  assert (∃ s', run_irq cs s = Ok tt s' ∧ irq_inv s' ∧ disable_counter s' = c) as (s' & Hr & [_ Hi] & Hd).
  { destruct Hstart as [Hi|[H0 Hh]]; [by apply Hrun|]. destruct cs as [|[] cs]; try done.
    destruct (interrupt_disable_ok 0 s) as (s1 & Hr & Hi1 & Hc1); [lia|by left|].
    cbn in Hc. rewrite <- Hc1 in Hc. destruct (Hrun cs s1 c Hi1 Hc) as (s' & Hr' & ?).
    exists s'. cbn [run_irq]. unfold env_disable_interrupt. cbv [mbind M_bind mret M_ret]. by rewrite Hr. }
  exists s'. split_and!; try done. rewrite Hi, Hd.
  destruct (Z.eqb_spec c 0); symmetry; [by apply bool_decide_eq_true_2|by apply bool_decide_eq_false_2].
Qed.

(** Notifications are routed to the queue they are for.  Notifying vector
    [RL_GET_VQ_ID link q] sets mailbox bit [q] for link 0 and nothing for any
    other link; the interrupt handler calls [env_isr] for exactly the bits
    found set; and [env_isr] finds the data registered for its vector. *)
Theorem notification_routing s link q v d :
  0 ≤ link ≤ 32767 → q = 0 ∨ q = 1 → 0 ≤ v < RL_PLATFORM_MAX_ISR_COUNT →
  (∃ s', platform_notify (RL_GET_VQ_ID link q) s = Ok tt s' ∧
     hw s' = (if link =? 0 then MAILBOX_SetValueBits (2 ^ q) (hw s) else hw s)) ∧
  (∃ s', MAILBOX_IRQHandler s =
     Ok (filter (λ i, Z.testbit (MAILBOX_GetValue (hw s)) i = true) [0; 1]) s' ∧
     isr_table s' = isr_table s) ∧
  (∃ s', env_register_isr v d s = Ok tt s' ∧ env_isr_data v s' = Ok (Some d) s' ∧
     ∀ v', v' ≠ v → isr_table s' !! v' = isr_table s !! v').
Proof.
  intros Hlink Hq Hv. destruct s as [c tab [ic dc pl h]]. split_and!.
  - unfold platform_notify. rewrite RL_GET_LINK_ID_VQ_ID by lia. rewrite RL_GET_Q_ID_VQ_ID by lia.
    destruct (Z.eqb_spec link 0); eexists; (split; [vrun_bm; reflexivity|]); cbn; [|done].
    by destruct Hq as [-> | ->].
  - unfold MAILBOX_IRQHandler. vrun_bm. set (x := MAILBOX_GetValue h).
    assert (∀ i, 0 ≤ i → negb (Z.land x (2 ^ i) =? 0) = Z.testbit x i) as Hbit.
    { intros i Hi. apply land_bit. done. }
    pose proof (Hbit 0 ltac:(lia)) as H0. pose proof (Hbit 1 ltac:(lia)) as H1.
    change (2 ^ 0) with 1 in H0. change (2 ^ 1) with 2 in H1. rewrite H0, H1.
    rewrite !filter_cons, filter_nil.
    destruct (Z.testbit x 0), (Z.testbit x 1); eexists; split; reflexivity.
  - unfold env_register_isr, env_isr_data, bm_assert. rewrite (proj2 (Z.ltb_lt v _)) by lia.
    eexists. split; [vrun_bm; reflexivity|]. split.
    + vrun_bm. by rewrite lookup_insert_eq.
    + intros v' Hv'. cbn. by rewrite lookup_insert_ne.
Qed.

End theorems.

(** ** The theorems on a concrete state *)

(** An instance whose link comes up during the first sleep. *)
Definition c_inst (up : Z) : rpmsg_lite_instance :=
  {| rvq := NULL; tvq := NULL; rl_endpoints := NULL; lock := 4; link_state := up;
     sh_mem_base := 0; sh_mem_remaining := 0; sh_mem_total := 0; vq_ops := None; link_id := 0 |}.
Definition c_waiting : world (bm sim) :=
  Build_world ∅ {[ 1 := OInst (c_inst 0) ]} 10 [] 0 sim_start [].
Definition c_peer_starts : Outside (bm sim) :=
  {| while_sleeping _ := set_heap <[1 := OInst (c_inst 1)]> |}.
Definition c_peer_silent : Outside (bm sim) := {| while_sleeping _ := id |}.

Lemma wait_for_link_up_result_witness :
  ∃ w', @rpmsg_lite_wait_for_link_up _ c_peer_starts default_config 100 1 100 c_waiting = Ok 1 w'.
Proof.
  destruct (@wait_for_link_up_result _ c_peer_starts default_config default_ok 1 100 c_waiting)
    as [Hup _]; [done|lia|vm_compute; done|].
  eexists. apply (Hup 1%nat).
  - vm_compute. lia.
  - intros m Hm. assert (m = 0%nat) as -> by lia. exists (c_inst 0). done.
  - exists (c_inst 1). done.
Defined.

Lemma wait_for_link_up_block_witness :
  ∃ w', @rpmsg_lite_wait_for_link_up _ c_peer_starts default_config 1 1
    (@RL_BLOCK default_config) c_waiting = Ok 1 w'.
Proof.
  eexists. apply (@wait_for_link_up_block _ c_peer_starts default_config default_ok 1 c_waiting
    ltac:(done) 1%nat).
  - intros m Hm. assert (m = 0%nat) as -> by lia. exists (c_inst 0). done.
  - exists (c_inst 1). done.
Defined.

Lemma env_init_nests_witness :
  ∃ s', @run_calls _ (@bm_env sim _ default_config 4) [CInit; CInit; CDeinit; CDeinit] sim_start = Ok [0; 0; 0; 0] s' ∧
    env_init_counter s' = 0.
Proof.
  destruct (@env_init_nests sim _ default_config 4 ltac:(done) sim_start [CInit; CInit; CDeinit; CDeinit] 0)
    as [(s' & Hrun & Hc & _) _]; [by constructor|done|done|by exists s'].
Defined.

Lemma interrupt_masking_nests_witness :
  ∃ s', @run_irq sim _ default_config [true; true; false; false] sim_start = Ok tt s' ∧ irq_enabled (hw s') = true.
Proof.
  destruct (@interrupt_masking_nests sim _ _ default_config sim_start [true; true; false; false] 0)
    as (s' & Hrun & _ & Hi); [by right|done|by exists s'].
Defined.

Lemma notification_routing_witness :
  ∃ s', @platform_notify sim _ _ (@bm_port sim default_config) (RL_GET_VQ_ID 0 1) sim_start = Ok tt s' ∧ sim_bits (hw s') = 2.
Proof.
  destruct (@notification_routing sim _ default_config sim_start 0 1 1 77)
    as [(s' & Hrun & Hhw) _]; [lia|by right|vm_compute; done|].
  exists s'. split; [exact Hrun|]. rewrite Hhw. done.
Defined.
