(* ===== verification/FreeRTOS.v ===== *)
(** * The FreeRTOS environment

    [rpmsg_env_freertos.c]: the second port of the environment interface, with
    semaphores as mutexes, an event group to wait for the link, and the message
    queues that [rpmsg_queue.c] is built on.  The kernel is not part of the
    repository: its functions are a parameter ([FreeRTOS]) with their documented
    effects as laws over the objects it manages ([FreeRTOSLaws]); [sim_kernel]
    shows that the laws can hold.  The platform is that of [Lpc55s69], whose
    interface [Port] this file implements. *)

From S2P Require Import Prelude Memory Config Virtqueue Concrete World Lpc55s69.

(** ** The kernel *)

(** A handle is an address, NULL when an object could not be created;
    [xQueueReceive] also returns the element taken. *)
Class FreeRTOS (K : Type) : Type := {
  portMAX_DELAY : Z;
  portTICK_PERIOD_MS : Z;
  platform_in_isr : K → bool;
  vTaskSuspendAll : M K unit;
  xTaskResumeAll : M K unit;
  xSemaphoreCreateBinary : M K Z;
  xSemaphoreCreateCounting : Z → Z → M K Z;
  vSemaphoreDelete : Z → M K unit;
  xSemaphoreTake : Z → Z → M K Z;
  xSemaphoreGive : Z → M K Z;
  xEventGroupCreate : M K Z;
  vEventGroupDelete : Z → M K unit;
  xEventGroupClearBits : Z → Z → M K Z;
  xEventGroupSetBits : Z → Z → M K Z;
  xEventGroupSetBitsFromISR : Z → Z → M K Z;
  xEventGroupWaitBits : Z → Z → Z → M K Z;
  xQueueCreate : Z → Z → M K Z;
  vQueueDelete : Z → M K unit;
  xQueueSend : Z → rpmsg_queue_rx_cb_data_t → Z → M K Z;
  xQueueSendFromISR : Z → rpmsg_queue_rx_cb_data_t → M K Z;
  xQueueReceive : Z → Z → M K (option rpmsg_queue_rx_cb_data_t);
  xQueueReceiveFromISR : Z → M K (option rpmsg_queue_rx_cb_data_t);
  uxQueueMessagesWaiting : Z → M K Z;
  uxQueueMessagesWaitingFromISR : Z → M K Z;
  xTaskGetTickCount : M K Z;
  xTaskGetTickCountFromISR : M K Z;
}.

Definition pdPASS : Z := 1.
Definition pdFAIL : Z := 0.

(** The objects of a kernel: semaphores with their maximal and current count,
    event groups with their bits, queues with their capacity and elements;
    whether an interrupt is being served; and the bits that interrupts have asked
    the timer task to set, with the room left in its queue of commands. *)
Record kobjs : Type := {
  k_sems : gmap Z (Z * Z);
  k_groups : gmap Z Z;
  k_queues : gmap Z (nat * list rpmsg_queue_rx_cb_data_t);
  k_isr : bool;
  k_pending : list (Z * Z);
  k_timer_room : nat;
}.
Definition set_sems f (v : kobjs) : kobjs :=
  Build_kobjs (f (k_sems v)) (k_groups v) (k_queues v) (k_isr v) (k_pending v) (k_timer_room v).
Definition set_groups f (v : kobjs) : kobjs :=
  Build_kobjs (k_sems v) (f (k_groups v)) (k_queues v) (k_isr v) (k_pending v) (k_timer_room v).
Definition set_queues f (v : kobjs) : kobjs :=
  Build_kobjs (k_sems v) (k_groups v) (f (k_queues v)) (k_isr v) (k_pending v) (k_timer_room v).
Definition set_isr x (v : kobjs) : kobjs :=
  Build_kobjs (k_sems v) (k_groups v) (k_queues v) x (k_pending v) (k_timer_room v).

(** An interrupt asks for [x] to be set in [h]; the timer task carries out what
    it was asked for. *)
Definition pend_bits (h x : Z) (v : kobjs) : kobjs :=
  match k_timer_room v with
  | O => v
  | S n => Build_kobjs (k_sems v) (k_groups v) (k_queues v) (k_isr v) (k_pending v ++ [(h, x)]) n
  end.
Definition set_pended (g : gmap Z Z) (p : Z * Z) : gmap Z Z := alter (λ b, Z.lor b (p.2)) (p.1) g.
Definition run_pending (v : kobjs) : kobjs :=
  Build_kobjs (k_sems v) (foldl set_pended (k_groups v) (k_pending v)) (k_queues v) (k_isr v) []
    (k_timer_room v + length (k_pending v)).

(** Creating an object: NULL only when there may be no room, else a fresh
    handle, and at most one unit of room is used. *)
Definition created {K} (view : K → kobjs) (room : K → nat) (fresh : Z → Prop) (make : Z → kobjs → kobjs)
    (m : M K Z) (k : K) : Prop :=
  ∃ h k', m k = Ok h k' ∧
    (h = NULL ∧ view k' = view k ∧ room k = O ∨
     h ≠ NULL ∧ fresh h ∧ view k' = make h (view k) ∧ (pred (room k) ≤ room k')%nat).

(** The functions without [FromISR] are for tasks only.  [kroom]: how many
    semaphores and event groups can surely be created. *)
Class FreeRTOSLaws (K : Type) {fr : FreeRTOS K} : Type := {
  kview : K → kobjs;
  kroom : K → nat;
  task k := k_isr (kview k) = false;
  law_max_delay : 0 < portMAX_DELAY;
  law_tick_period : 0 < portTICK_PERIOD_MS;
  law_isr k : platform_in_isr k = k_isr (kview k);
  law_suspend k : task k → ∃ k', vTaskSuspendAll k = Ok tt k' ∧ kview k' = kview k ∧ kroom k' = kroom k;
  law_resume k : task k → ∃ k', xTaskResumeAll k = Ok tt k' ∧ kview k' = kview k ∧ kroom k' = kroom k;
  law_binary k : task k → created kview kroom (λ h, k_sems (kview k) !! h = None)
    (λ h, set_sems <[h := (1, 0)]>) xSemaphoreCreateBinary k;
  law_counting k max init : task k → created kview kroom (λ h, k_sems (kview k) !! h = None)
    (λ h, set_sems <[h := (max, init)]>) (xSemaphoreCreateCounting max init) k;
  law_sem_delete k h : task k → is_Some (k_sems (kview k) !! h) →
    ∃ k', vSemaphoreDelete h k = Ok tt k' ∧ kview k' = set_sems (delete h) (kview k);
  law_take k h m c t : task k → k_sems (kview k) !! h = Some (m, c) → 0 < c →
    ∃ k', xSemaphoreTake h t k = Ok pdPASS k' ∧ kview k' = set_sems <[h := (m, c - 1)]> (kview k);
  law_give k h m c : task k → k_sems (kview k) !! h = Some (m, c) → c < m →
    ∃ k', xSemaphoreGive h k = Ok pdPASS k' ∧ kview k' = set_sems <[h := (m, c + 1)]> (kview k);
  law_group k : task k → created kview kroom (λ h, k_groups (kview k) !! h = None)
    (λ h, set_groups <[h := 0]>) xEventGroupCreate k;
  law_group_delete k h : task k → is_Some (k_groups (kview k) !! h) →
    ∃ k', vEventGroupDelete h k = Ok tt k' ∧ kview k' = set_groups (delete h) (kview k);
  law_clear k h b x : task k → k_groups (kview k) !! h = Some b →
    ∃ k', xEventGroupClearBits h x k = Ok b k' ∧ kview k' = set_groups <[h := Z.ldiff b x]> (kview k) ∧
      kroom k' = kroom k;
  law_set k h b x : task k → k_groups (kview k) !! h = Some b →
    ∃ r k', xEventGroupSetBits h x k = Ok r k' ∧ kview k' = set_groups <[h := Z.lor b x]> (kview k);
  (** From an interrupt the bits are set later, by the timer task, unless its
      queue is full. *)
  law_set_isr k h b x : k_groups (kview k) !! h = Some b →
    ∃ r k', xEventGroupSetBitsFromISR h x k = Ok r k' ∧ kview k' = pend_bits h x (kview k);
  (** Waiting ends with the bits at that moment: at once when they are set;
      otherwise they were set meanwhile, or the time has run out.  Without a limit
      it may not end. *)
  law_wait k h b x t : task k → k_groups (kview k) !! h = Some b → t ≠ portMAX_DELAY ∨ Z.land b x = x →
    ∃ b' k', xEventGroupWaitBits h x t k = Ok b' k' ∧ k_groups (kview k') !! h = Some b' ∧
      k_isr (kview k') = false ∧ (Z.land b x = x → b' = b ∧ kview k' = kview k);
  law_queue k n sz : task k → 0 < n → created kview (λ _, O) (λ h, k_queues (kview k) !! h = None)
    (λ h, set_queues <[h := (Z.to_nat n, [])]>) (xQueueCreate n sz) k;
  law_queue_delete k h : task k → is_Some (k_queues (kview k) !! h) →
    ∃ k', vQueueDelete h k = Ok tt k' ∧ kview k' = set_queues (delete h) (kview k);
  law_send k h cap l x t : task k → k_queues (kview k) !! h = Some (cap, l) → (length l < cap)%nat →
    ∃ k', xQueueSend h x t k = Ok pdPASS k' ∧ kview k' = set_queues <[h := (cap, l ++ [x])]> (kview k);
  law_send_full k h cap l x : task k → k_queues (kview k) !! h = Some (cap, l) → (cap ≤ length l)%nat →
    ∃ k', xQueueSend h x 0 k = Ok pdFAIL k' ∧ kview k' = kview k;
  law_send_isr k h cap l x : k_queues (kview k) !! h = Some (cap, l) →
    ∃ k', xQueueSendFromISR h x k = Ok (Z_of_bool (bool_decide (length l < cap)%nat)) k' ∧
      kview k' = if decide (length l < cap)%nat then set_queues <[h := (cap, l ++ [x])]> (kview k) else kview k;
  law_receive k h cap x l t : task k → k_queues (kview k) !! h = Some (cap, x :: l) →
    ∃ k', xQueueReceive h t k = Ok (Some x) k' ∧ kview k' = set_queues <[h := (cap, l)]> (kview k);
  law_receive_empty k h cap : task k → k_queues (kview k) !! h = Some (cap, []) →
    ∃ k', xQueueReceive h 0 k = Ok None k' ∧ kview k' = kview k;
  law_receive_isr k h cap l : k_queues (kview k) !! h = Some (cap, l) →
    ∃ k', xQueueReceiveFromISR h k = Ok (head l) k' ∧
      kview k' = match l with [] => kview k | _ :: l' => set_queues <[h := (cap, l')]> (kview k) end;
  law_waiting k h cap l : task k → k_queues (kview k) !! h = Some (cap, l) →
    ∃ k', uxQueueMessagesWaiting h k = Ok (Z.of_nat (length l)) k' ∧ kview k' = kview k;
  law_waiting_isr k h cap l : k_queues (kview k) !! h = Some (cap, l) →
    ∃ k', uxQueueMessagesWaitingFromISR h k = Ok (Z.of_nat (length l)) k' ∧ kview k' = kview k;
}.

(** *** A simulated kernel *)

(** Its objects, how many more it can create, and the bits that other tasks set
    while this one waits ([sk_coming], one element per wait). *)
Record sim_kernel : Type := { sk_objs : kobjs; sk_room : nat; sk_coming : list Z }.
Definition sk_upd (f : kobjs → kobjs) (k : sim_kernel) : sim_kernel :=
  {| sk_objs := f (sk_objs k); sk_room := sk_room k; sk_coming := sk_coming k |}.

(** A call on an object that exists. *)
Definition sk_on {A B} (f : kobjs → gmap Z A) (h : Z) (m : A → M sim_kernel B) : M sim_kernel B := λ k,
  match f (sk_objs k) !! h with Some x => m x k | None => Undef end.
Definition sk_do {A} (a : A) (f : kobjs → kobjs) : M sim_kernel A := λ k, Ok a (sk_upd f k).
Definition sk_make (make : Z → kobjs → kobjs) : M sim_kernel Z := λ k,
  let o := sk_objs k in
  let h := fresh ({[ NULL ]} ∪ dom (k_sems o) ∪ dom (k_groups o) ∪ dom (k_queues o) : gset Z) in
  match sk_room k with
  | O => Ok NULL k
  | S n => Ok h {| sk_objs := make h o; sk_room := n; sk_coming := sk_coming k |}
  end.
Definition sk_send (h : Z) (x : rpmsg_queue_rx_cb_data_t) : M sim_kernel Z :=
  sk_on k_queues h (λ '(cap, l),
    if decide (length l < cap)%nat then sk_do pdPASS (set_queues <[h := (cap, l ++ [x])]>) else sk_do pdFAIL id).
Definition sk_receive (h : Z) : M sim_kernel (option rpmsg_queue_rx_cb_data_t) :=
  sk_on k_queues h (λ '(cap, l),
    match l with [] => sk_do None id | x :: l' => sk_do (Some x) (set_queues <[h := (cap, l')]>) end).
Definition sk_waiting (h : Z) : M sim_kernel Z :=
  sk_on k_queues h (λ '(cap, l), sk_do (Z.of_nat (length l)) id).

(** A call that would block for ever hangs. *)
#[global] Instance sim_rtos : FreeRTOS sim_kernel := {|
  portMAX_DELAY := 4294967295;
  portTICK_PERIOD_MS := 1;
  platform_in_isr k := k_isr (sk_objs k);
  vTaskSuspendAll := mret tt;
  xTaskResumeAll := mret tt;
  xSemaphoreCreateBinary := sk_make (λ h, set_sems <[h := (1, 0)]>);
  xSemaphoreCreateCounting max init := sk_make (λ h, set_sems <[h := (max, init)]>);
  vSemaphoreDelete h := sk_on k_sems h (λ _, sk_do tt (set_sems (delete h)));
  xSemaphoreTake h t := sk_on k_sems h (λ '(m, c),
    if 0 <? c then sk_do pdPASS (set_sems <[h := (m, c - 1)]>)
    else if t =? 4294967295 then hang else sk_do pdFAIL id);
  xSemaphoreGive h := sk_on k_sems h (λ '(m, c),
    if c <? m then sk_do pdPASS (set_sems <[h := (m, c + 1)]>) else sk_do pdFAIL id);
  xEventGroupCreate := sk_make (λ h, set_groups <[h := 0]>);
  vEventGroupDelete h := sk_on k_groups h (λ _, sk_do tt (set_groups (delete h)));
  xEventGroupClearBits h x := sk_on k_groups h (λ b, sk_do b (set_groups <[h := Z.ldiff b x]>));
  xEventGroupSetBits h x := sk_on k_groups h (λ b, sk_do (Z.lor b x) (set_groups <[h := Z.lor b x]>));
  xEventGroupSetBitsFromISR h x := sk_on k_groups h (λ b k,
    sk_do (if k_timer_room (sk_objs k) is O then pdFAIL else pdPASS) (pend_bits h x) k);
  xEventGroupWaitBits h x t := sk_on k_groups h (λ b k,
    if Z.land b x =? x then Ok b k
    else let b' := Z.lor b (default 0 (head (sk_coming k))) in
         if (t =? 4294967295) && negb (Z.land b' x =? x) then Hang k
         else Ok b' {| sk_objs := set_groups <[h := b']> (sk_objs k); sk_room := sk_room k; sk_coming := tl (sk_coming k) |});
  xQueueCreate n sz := sk_make (λ h, set_queues <[h := (Z.to_nat n, [])]>);
  vQueueDelete h := sk_on k_queues h (λ _, sk_do tt (set_queues (delete h)));
  xQueueSend h x t := sk_send h x;
  xQueueSendFromISR h x := sk_send h x;
  xQueueReceive h t := sk_receive h;
  xQueueReceiveFromISR h := sk_receive h;
  uxQueueMessagesWaiting h := sk_waiting h;
  uxQueueMessagesWaitingFromISR h := sk_waiting h;
  xTaskGetTickCount := mret 0;
  xTaskGetTickCountFromISR := mret 0;
|}.

Lemma sk_created {A} room (f : kobjs → gmap Z A) make k :
  (room = sk_room ∨ room = λ _, O) →
  (∀ o, dom (f o) ⊆ {[ NULL ]} ∪ dom (k_sems o) ∪ dom (k_groups o) ∪ dom (k_queues o)) →
  created sk_objs room (λ h, f (sk_objs k) !! h = None) make (sk_make make) k.
Proof.
  intros Hroom HD.
  set (X := {[ NULL ]} ∪ dom (k_sems (sk_objs k)) ∪ dom (k_groups (sk_objs k)) ∪ dom (k_queues (sk_objs k)) : gset Z).
  pose proof (is_fresh X) as Hf. unfold created, sk_make. fold X. destruct (sk_room k) as [|n] eqn:Hn.
  - exists NULL, k. split; [done|]. left. by destruct Hroom as [-> | ->].
  - eexists _, _. split; [reflexivity|]. right. split_and!; [| |done|].
    + intros E. apply Hf. rewrite E. unfold X. set_solver.
    + apply not_elem_of_dom. intros ?. by apply Hf, HD.
    + destruct Hroom as [-> | ->]; cbn; lia.
Qed.

(** Run a call on an object whose presence is a hypothesis. *)
Ltac sk_run := cbn in *; unfold sk_send, sk_receive, sk_waiting, sk_on, sk_do in *;
  repeat match goal with H : _ !! _ = Some _ |- _ => rewrite H end.

#[global] Program Instance sim_rtos_laws : FreeRTOSLaws sim_kernel := {|
  kview := sk_objs; kroom := sk_room
|}.
Solve Obligations with (try done; intros; try (by eexists); try (apply sk_created; [auto|set_solver]);
  try (match goal with H : is_Some _ |- _ => destruct H as [? ?] end); sk_run; try (by eexists);
  try (by eexists _, _)).
Next Obligation. intros k h m c t _ Hh Hc. sk_run. rewrite (proj2 (Z.ltb_lt 0 c) Hc). by eexists. Qed.
Next Obligation. intros k h m c _ Hh Hc. sk_run. rewrite (proj2 (Z.ltb_lt c m) Hc). by eexists. Qed.
Next Obligation.
  intros k h b x t Ht Hh Hend. sk_run. destruct (Z.eqb_spec (Z.land b x) x).
  - eexists _, _. split; [reflexivity|]. by split_and!.
  - destruct Hend as [Hend%Z.eqb_neq|]; [|done]. rewrite Hend. eexists _, _. split; [reflexivity|].
    cbn. rewrite lookup_insert_eq. by split_and!.
Qed.
Next Obligation. intros k h cap l x t _ Hh Hl. sk_run. rewrite decide_True by done. by eexists. Qed.
Next Obligation. intros k h cap l x _ Hh Hl. sk_run. rewrite decide_False by lia. by exists k; destruct k as [[]]. Qed.
Next Obligation.
  intros k h cap l x Hh. sk_run. case_decide as E; [rewrite bool_decide_eq_true_2 by done|rewrite bool_decide_eq_false_2 by done];
    eexists; (split; [reflexivity|]); [done|by destruct k as [[]]].
Qed.
Next Obligation. intros k h cap l Hh. sk_run. destruct l; by eexists. Qed.

(** ** Interrupts and the timer task

    The state of the kernel when an interrupt is entered and left, and after the
    timer task has run. *)
Class Interrupts (K : Type) {fr : FreeRTOS K} {frl : FreeRTOSLaws K} : Type := {
  irq_enter : K → K;
  irq_leave : K → K;
  law_enter k : kview (irq_enter k) = set_isr true (kview k);
  law_leave k : kview (irq_leave k) = set_isr false (kview k);
  timer_task : M K unit;
  law_timer k : task k → ∃ k', timer_task k = Ok tt k' ∧ kview k' = run_pending (kview k);
}.
#[global] Program Instance sim_interrupts : Interrupts sim_kernel := {|
  irq_enter := sk_upd (set_isr true); irq_leave := sk_upd (set_isr false); timer_task := sk_do tt run_pending;
|}.
Next Obligation. done. Qed.
Next Obligation. done. Qed.
Next Obligation. intros k _. by eexists. Qed.

(** ** State *)

(** The static variables of the file, those of the platform, and the kernel. *)
Record rtos (H K : Type) : Type := {
  env_init_counter : Z;
  env_sema : Z;
  event_group : Z;
  isr_table : gmap Z Z;
  fr_lpc : lpc H;
  kernel : K;
}.
Arguments env_init_counter {H K}. Arguments env_sema {H K}. Arguments event_group {H K}.
Arguments isr_table {H K}. Arguments fr_lpc {H K}. Arguments kernel {H K}. Arguments Build_rtos {H K}.

(** Between which statements of [env_wait_for_link_up] something happens. *)
Inductive moment : Type := BeforeClear | BeforeCheck | BeforeWait.
#[global] Instance moment_eq_dec : EqDecision moment.
Proof. solve_decision. Defined.

(** [RL_ENV_MAX_MUTEX_COUNT]. *)
Definition RL_ENV_MAX_MUTEX_COUNT : Z := 10.

Section rtos.
Context {H K : Type} {per : Peripherals H} {fr : FreeRTOS K} {cfg : Config}.
Abbreviation R := (M (rtos H K)).

Definition set_init_counter (x : Z) (s : rtos H K) : rtos H K :=
  Build_rtos x (env_sema s) (event_group s) (isr_table s) (fr_lpc s) (kernel s).
Definition set_env_sema (x : Z) (s : rtos H K) : rtos H K :=
  Build_rtos (env_init_counter s) x (event_group s) (isr_table s) (fr_lpc s) (kernel s).
Definition set_event_group (x : Z) (s : rtos H K) : rtos H K :=
  Build_rtos (env_init_counter s) (env_sema s) x (isr_table s) (fr_lpc s) (kernel s).
Definition set_isr_table (f : gmap Z Z → gmap Z Z) (s : rtos H K) : rtos H K :=
  Build_rtos (env_init_counter s) (env_sema s) (event_group s) (f (isr_table s)) (fr_lpc s) (kernel s).
Definition set_fr_lpc (p : lpc H) (s : rtos H K) : rtos H K :=
  Build_rtos (env_init_counter s) (env_sema s) (event_group s) (isr_table s) p (kernel s).
Definition set_kernel (k : K) (s : rtos H K) : rtos H K :=
  Build_rtos (env_init_counter s) (env_sema s) (event_group s) (isr_table s) (fr_lpc s) k.

Definition getr : R (rtos H K) := get_state.

(** A call of the kernel. *)
Definition kcall {A} (m : M K A) : R A := zoom (λ s, Some (kernel s)) set_kernel m.
Definition env_in_isr : R bool := s ← getr; mret (platform_in_isr (kernel s)).
Definition fr_assert (b : bool) : R unit := if b then mret tt else hang.

(** *** Mutexes *)

(** With a count that is too large the handle is not assigned. *)
Definition env_create_mutex (count : Z) : R (Z * Z) :=
  if RL_ENV_MAX_MUTEX_COUNT <? count then mret (-1, NULL)
  else
    lock ← kcall (xSemaphoreCreateCounting RL_ENV_MAX_MUTEX_COUNT count);
    if negb (lock =? NULL) then mret (0, lock) else mret (-1, lock).
Definition env_delete_mutex (lock : Z) : R unit := kcall (vSemaphoreDelete lock).
Definition env_lock_mutex (lock : Z) : R unit :=
  isr ← env_in_isr;
  if (isr : bool) then mret tt else _ ← kcall (xSemaphoreTake lock portMAX_DELAY); mret tt.
Definition env_unlock_mutex (lock : Z) : R unit :=
  isr ← env_in_isr;
  if (isr : bool) then mret tt else _ ← kcall (xSemaphoreGive lock); mret tt.

Definition env_create_sync_lock (state : Z) : R (Z * Z) := env_create_mutex state.
Definition env_delete_sync_lock (lock : Z) : R unit :=
  if negb (lock =? NULL) then env_delete_mutex lock else mret tt.

(** *** The table of handlers *)

Definition env_register_isr (vector_id d : Z) : R unit :=
  (if vector_id <? RL_PLATFORM_MAX_ISR_COUNT then modify (set_isr_table <[vector_id := d]>)
   else mret tt);;
  fr_assert (vector_id <? RL_PLATFORM_MAX_ISR_COUNT).
Definition env_unregister_isr (vector_id : Z) : R unit :=
  (if vector_id <? RL_PLATFORM_MAX_ISR_COUNT then modify (set_isr_table <[vector_id := NULL]>)
   else mret tt);;
  fr_assert (vector_id <? RL_PLATFORM_MAX_ISR_COUNT).

(** [env_isr]: the virtqueue to notify; [None]: no handler slot (the assertion
    hangs). *)
Definition env_isr_data (vector : Z) : R (option Z) :=
  s ← getr;
  if vector <? RL_PLATFORM_MAX_ISR_COUNT then mret (Some (default NULL (isr_table s !! vector)))
  else mret None.

(** The platform on this port. *)
#[global] Instance fr_port : Port H (rtos H K) := {|
  the_lpc := fr_lpc;
  put_lpc := set_fr_lpc;
  port_create_mutex _ := env_create_mutex;
  port_delete_mutex := env_delete_mutex;
  port_lock_mutex := env_lock_mutex;
  port_unlock_mutex := env_unlock_mutex;
  port_register_isr := env_register_isr;
  port_unregister_isr := env_unregister_isr;
|}.

Definition env_enable_interrupt (vector_id : Z) : R unit := _ ← platform_interrupt_enable vector_id; mret tt.
Definition env_disable_interrupt (vector_id : Z) : R unit := _ ← platform_interrupt_disable vector_id; mret tt.

(** *** Initialisation *)

(** The address of the platform's static variable [platform_lock], which this
    port does not use: a handle is returned instead. *)
Definition env_init : R Z :=
  kcall vTaskSuspendAll;;
  s ← getr;
  fr_assert (0 <=? env_init_counter s);;
  if env_init_counter s <? 0 then kcall xTaskResumeAll;; mret (-1)
  else
    modify (set_init_counter (env_init_counter s + 1));;
    if env_init_counter s + 1 =? 1 then
      sema ← kcall xSemaphoreCreateBinary;
      modify (set_env_sema sema);;
      group ← kcall xEventGroupCreate;
      modify (set_event_group group);;
      _ ← kcall (xEventGroupClearBits group 16777215);
      modify (set_isr_table (λ _, ∅));;
      kcall xTaskResumeAll;;
      retval ← platform_init NULL;
      s ← getr;
      _ ← kcall (xSemaphoreGive (env_sema s));
      mret retval
    else
      kcall xTaskResumeAll;;
      s ← getr;
      _ ← kcall (xSemaphoreTake (env_sema s) portMAX_DELAY);
      _ ← kcall (xSemaphoreGive (env_sema s));
      mret 0.

Definition env_deinit : R Z :=
  kcall vTaskSuspendAll;;
  s ← getr;
  fr_assert (0 <? env_init_counter s);;
  if env_init_counter s <=? 0 then kcall xTaskResumeAll;; mret (-1)
  else
    modify (set_init_counter (env_init_counter s - 1));;
    if env_init_counter s - 1 <=? 0 then
      modify (set_isr_table (λ _, ∅));;
      retval ← platform_deinit;
      s ← getr;
      kcall (vEventGroupDelete (event_group s));;
      modify (set_event_group NULL);;
      s ← getr;
      kcall (vSemaphoreDelete (env_sema s));;
      modify (set_env_sema NULL);;
      kcall xTaskResumeAll;;
      mret retval
    else kcall xTaskResumeAll;; mret 0.

(** *** Events and time *)

(** The bit of a link in the event group. *)
Definition link_bit (link_id : Z) : Z := u32 (Z.shiftl 1 link_id).

Definition env_tx_callback (link_id : Z) : R unit :=
  s ← getr;
  isr ← env_in_isr;
  if (isr : bool) then _ ← kcall (xEventGroupSetBitsFromISR (event_group s) (link_bit link_id)); mret tt
  else _ ← kcall (xEventGroupSetBits (event_group s) (link_bit link_id)); mret tt.

(** The ticks of a timeout in milliseconds. *)
Definition ticks (timeout_ms : Z) : Z :=
  if portMAX_DELAY =? timeout_ms then portMAX_DELAY else timeout_ms / portTICK_PERIOD_MS.

(** The two halves of [env_wait_for_link_up], around its test of the link state. *)
Definition clear_link_event (link_id : Z) : R unit :=
  s ← getr;
  _ ← kcall (xEventGroupClearBits (event_group s) (link_bit link_id));
  mret tt.
Definition wait_for_link_event (link_id timeout_ms : Z) : R Z :=
  s ← getr;
  uxBits ← kcall (xEventGroupWaitBits (event_group s) (link_bit link_id) (ticks timeout_ms));
  if uxBits =? link_bit link_id then mret 1 else mret 0.

Definition env_get_timestamp : R Z :=
  isr ← env_in_isr;
  if (isr : bool) then kcall xTaskGetTickCountFromISR else kcall xTaskGetTickCount.

(** *** Message queues *)

Definition env_create_queue (length element_size : Z) : R (Z * Z) :=
  if (length <? 0) || (element_size <? 0) then mret (-1, NULL)
  else
    queue ← kcall (xQueueCreate (u32 length) (u32 element_size));
    if negb (queue =? NULL) then mret (0, queue) else mret (-1, queue).
Definition env_delete_queue (queue : Z) : R unit := kcall (vQueueDelete queue).

Definition env_put_queue (queue : Z) (msg : rpmsg_queue_rx_cb_data_t) (timeout_ms : Z) : R Z :=
  isr ← env_in_isr;
  r ← (if (isr : bool) then kcall (xQueueSendFromISR queue msg) else kcall (xQueueSend queue msg (ticks timeout_ms)));
  if r =? pdPASS then mret 1 else mret 0.

Definition env_get_queue (queue timeout_ms : Z) : R (option rpmsg_queue_rx_cb_data_t) :=
  isr ← env_in_isr;
  if (isr : bool) then kcall (xQueueReceiveFromISR queue) else kcall (xQueueReceive queue (ticks timeout_ms)).

(** [UBaseType_t] is 32 bits wide, the result an [int32_t]. *)
Definition env_get_current_queue_size (queue : Z) : R Z :=
  isr ← env_in_isr;
  messages ← (if (isr : bool) then kcall (uxQueueMessagesWaitingFromISR queue) else kcall (uxQueueMessagesWaiting queue));
  mret (if INT32_MAX <? messages then INT32_MAX else i32 messages).

(** *** The instances of the environment interface *)

#[global] Instance fr_env : EnvLayer (rtos H K) := {|
  el_lock := env_lock_mutex;
  el_unlock := env_unlock_mutex;
  el_create_mutex _ := env_create_mutex;
  el_delete_mutex := env_delete_mutex;
  el_init := env_init;
  el_deinit := env_deinit;
  el_init_interrupt v d := _ ← platform_init_interrupt v d; mret tt;
  el_deinit_interrupt v := _ ← platform_deinit_interrupt v; mret tt;
  el_enable_interrupt := env_enable_interrupt;
  el_disable_interrupt := env_disable_interrupt;
  el_tx_callback := env_tx_callback;
|}.

#[global] Instance fr_queue : EnvQueue (rtos H K) := {|
  el_create_queue := env_create_queue;
  el_delete_queue := env_delete_queue;
  el_put_queue := env_put_queue;
  el_get_queue := env_get_queue;
  el_queue_size := env_get_current_queue_size;
|}.

(** [env_wait_for_link_up], on the state of a core: [link_state] and [link_id]
    are those of the instance.  [gap]: what happens before the bit is cleared,
    before the link state is read, and before the wait starts. *)
Definition wait_during (gap : moment → W (rtos H K) unit) (dev timeout_ms : Z) : W (rtos H K) Z :=
  gap BeforeClear;;
  i ← get_inst dev;
  with_env (clear_link_event (link_id i));;
  gap BeforeCheck;;
  i ← get_inst dev;
  gap BeforeWait;;
  if negb (link_state i =? 1) then with_env (wait_for_link_event (link_id i) timeout_ms)
  else mret 1.
Definition env_wait_for_link_up : Z → Z → W (rtos H K) Z := wait_during (λ _, mret tt).

Definition rpmsg_lite_wait_for_link_up (dev timeout : Z) : W (rtos H K) Z :=
  if dev =? NULL then mret 0 else env_wait_for_link_up dev (u32 timeout).

End rtos.

(** ** The locks and the queues keep their promises *)

Section laws.
Context {H K : Type} {per : Peripherals H} {fr : FreeRTOS K} {frl : FreeRTOSLaws K} {cfg : Config}.
Implicit Types s : rtos H K.

Definition objs (s : rtos H K) : kobjs := kview (kernel s).

Lemma kcall_ok {A} (m : M K A) s a k' : m (kernel s) = Ok a k' → kcall m s = Ok a (set_kernel k' s).
Proof. intros Hm. unfold kcall, zoom. by rewrite Hm. Qed.

Lemma env_in_isr_ok s : env_in_isr s = Ok (k_isr (objs s)) s.
Proof. unfold env_in_isr, getr. cbv [mbind M_bind get_state]. by rewrite law_isr. Qed.

(** A semaphore with tokens left, or with tokens taken.  In an interrupt handler
    locks are not used. *)
Definition sem_at (P : Z → Z → Prop) (l : Z) (v : kobjs) : Prop :=
  k_isr v = true ∨ ∃ m c, k_sems v !! l = Some (m, c) ∧ P m c.
Definition sem_free : Z → kobjs → Prop := sem_at (λ m c, 0 < c ≤ m).
Definition sem_mine : Z → kobjs → Prop := sem_at (λ m c, 0 ≤ c < m).

(** Nothing but one semaphore changed. *)
Record sem_step (l : Z) (v v' : kobjs) : Prop := {
  ss_isr : k_isr v' = k_isr v;
  ss_groups : k_groups v' = k_groups v;
  ss_queues : k_queues v' = k_queues v;
  ss_sems : ∀ l', l' ≠ l → k_sems v' !! l' = k_sems v !! l';
}.

Lemma sem_step_set l x v : sem_step l v (set_sems <[l := x]> v).
Proof. constructor; try done. intros l' Hl. cbn. by rewrite lookup_insert_ne. Qed.

Lemma sem_step_trans l v1 v2 v3 : sem_step l v1 v2 → sem_step l v2 v3 → sem_step l v1 v3.
Proof.
  intros [I1 G1 Q1 S1] [I2 G2 Q2 S2]. constructor; try congruence. intros l' Hl. by rewrite S2, S1.
Qed.

Lemma sem_step_at P l l' v v' : sem_step l v v' → l' ≠ l → sem_at P l' v → sem_at P l' v'.
Proof.
  intros [I _ _ S] Hl [Hi|(m & c & Hs & HP)]; [left; congruence|right]. exists m, c. by rewrite S.
Qed.

Lemma set_kernel_same s : set_kernel (kernel s) s = s.
Proof. by destruct s. Qed.

Lemma lock_ok l k :
  sem_free l (kview k) →
  ∃ k', (∀ s, kernel s = k → env_lock_mutex l s = Ok tt (set_kernel k' s)) ∧ sem_step l (kview k) (kview k') ∧ sem_mine l (kview k').
Proof.
  intros Hf. destruct (k_isr (kview k)) eqn:Hi.
  - exists k. split_and!; [|done|by left]. intros s <-. unfold env_lock_mutex. rewrite (bind_ok _ _ _ _ _ (env_in_isr_ok s)).
    unfold objs. by rewrite Hi, set_kernel_same.
  - destruct Hf as [?|(m & c & Hl & Hc)]; [congruence|].
    destruct (law_take k l m c portMAX_DELAY Hi Hl ltac:(lia)) as (k' & Hop & Hk). exists k'. rewrite Hk. split_and!.
    + intros s <-. unfold env_lock_mutex. rewrite (bind_ok _ _ _ _ _ (env_in_isr_ok s)). unfold objs.
      by rewrite Hi, (bind_ok _ _ _ _ _ (kcall_ok _ _ _ _ Hop)).
    + apply sem_step_set.
    + right. exists m, (c - 1). cbn. rewrite lookup_insert_eq. split; [done|lia].
Qed.

Lemma unlock_ok l k :
  sem_mine l (kview k) →
  ∃ k', (∀ s, kernel s = k → env_unlock_mutex l s = Ok tt (set_kernel k' s)) ∧ sem_step l (kview k) (kview k') ∧ sem_free l (kview k').
Proof.
  intros Hf. destruct (k_isr (kview k)) eqn:Hi.
  - exists k. split_and!; [|done|by left]. intros s <-. unfold env_unlock_mutex. rewrite (bind_ok _ _ _ _ _ (env_in_isr_ok s)).
    unfold objs. by rewrite Hi, set_kernel_same.
  - destruct Hf as [?|(m & c & Hl & Hc)]; [congruence|].
    destruct (law_give k l m c Hi Hl ltac:(lia)) as (k' & Hop & Hk). exists k'. rewrite Hk. split_and!.
    + intros s <-. unfold env_unlock_mutex. rewrite (bind_ok _ _ _ _ _ (env_in_isr_ok s)). unfold objs.
      by rewrite Hi, (bind_ok _ _ _ _ _ (kcall_ok _ _ _ _ Hop)).
    + apply sem_step_set.
    + right. exists m, (c + 1). cbn. rewrite lookup_insert_eq. split; [done|lia].
Qed.

(** The locks the library creates are not the port's own two. *)
Definition foreign (l : Z) (s : rtos H K) : Prop := l ≠ env_sema s ∧ l ≠ lpc_lock (fr_lpc s).

#[global] Program Instance fr_laws : EnvLaws (rtos H K) := {|
  lock_free s l := foreign l s ∧ sem_free l (objs s);
  lock_mine s l := foreign l s ∧ sem_mine l (objs s);
  same_queues s s' := k_queues (objs s') = k_queues (objs s) ∧ k_isr (objs s') = k_isr (objs s);
|}.
Next Obligation. split; [by intros s|intros s1 s2 s3 [? ?] [? ?]; split; congruence]. Qed.
Next Obligation.
  intros s l [Hf Hs]. destruct (lock_ok l _ Hs) as (k' & Hrun & Hst & Hm). eexists.
  split_and!; [by apply Hrun|exact Hf|exact Hm|apply Hst|apply Hst].
Qed.
Next Obligation.
  intros s l [Hf Hs]. destruct (unlock_ok l _ Hs) as (k' & Hrun & Hst & Hm). eexists.
  split_and!; [by apply Hrun|exact Hf|exact Hm|apply Hst|apply Hst].
Qed.

#[global] Program Instance fr_queue_view : QueueView (rtos H K) := {|
  queue_view s q := k_queues (objs s) !! q;
  in_task s := k_isr (objs s) = false;
|}.
Next Obligation. by intros s s' q [-> _]. Qed.
Next Obligation. intros s s' [_ ->]. done. Qed.

(** A kernel call that changed the queues only. *)
Lemma queue_step_set q f v k' s :
  kview k' = set_queues f (objs s) → f (k_queues (objs s)) !! q = v →
  (∀ q', q' ≠ q → f (k_queues (objs s)) !! q' = k_queues (objs s) !! q') →
  queue_step q v s (set_kernel k' s).
Proof.
  intros Hk Hv Ho. constructor; cbn; unfold foreign, sem_free, sem_mine, sem_at, objs in *; cbn; by rewrite Hk.
Qed.

Lemma queue_step_put q x k' s :
  kview k' = set_queues <[q := x]> (objs s) → queue_step q (Some x) s (set_kernel k' s).
Proof.
  intros Hk. eapply queue_step_set; [exact Hk|apply lookup_insert_eq|]. intros q' Hq'. by rewrite lookup_insert_ne.
Qed.

Lemma queue_step_same q k' s :
  kview k' = objs s → queue_step q (k_queues (objs s) !! q) s (set_kernel k' s).
Proof. intros Hk. apply (queue_step_set q id); [|done|done]. rewrite Hk. by destruct (objs s). Qed.

Lemma ticks_zero : ticks 0 = 0.
Proof.
  unfold ticks. pose proof law_max_delay. rewrite (proj2 (Z.eqb_neq _ _)) by lia. apply Z.div_0_l.
  pose proof law_tick_period. lia.
Qed.

Lemma put_ok s q x cap l :
  k_queues (objs s) !! q = Some (cap, l) →
  ∃ s', env_put_queue q x 0 s = Ok (Z_of_bool (bool_decide (length l < cap)%nat)) s' ∧
    queue_step q (Some (cap, if decide (length l < cap)%nat then l ++ [x] else l)) s s'.
Proof.
  intros Hq. unfold env_put_queue. rewrite (bind_ok _ _ _ _ _ (env_in_isr_ok s)).
  assert (∃ k', (if k_isr (objs s) then kcall (xQueueSendFromISR q x) else kcall (xQueueSend q x (ticks 0))) s =
      Ok (Z_of_bool (bool_decide (length l < cap)%nat)) (set_kernel k' s) ∧
    kview k' = if decide (length l < cap)%nat then set_queues <[q := (cap, l ++ [x])]> (objs s) else objs s)
    as (k' & Hop & Hk).
  { destruct (k_isr (objs s)) eqn:Hi.
    - destruct (law_send_isr (kernel s) q cap l x Hq) as (k' & Hop & Hk). exists k'. by rewrite (kcall_ok _ _ _ _ Hop).
    - rewrite ticks_zero. case_decide as Hc.
      + destruct (law_send (kernel s) q cap l x 0 Hi Hq Hc) as (k' & Hop & Hk). exists k'.
        rewrite (kcall_ok _ _ _ _ Hop), bool_decide_eq_true_2 by done. by split.
      + destruct (law_send_full (kernel s) q cap l x Hi Hq ltac:(lia)) as (k' & Hop & Hk). exists k'.
        rewrite (kcall_ok _ _ _ _ Hop), bool_decide_eq_false_2 by done. by split. }
  rewrite (bind_ok _ _ _ _ _ Hop). exists (set_kernel k' s).
  split; [by case_bool_decide|]. case_decide.
  - by apply (queue_step_put q (cap, l ++ [x])).
  - rewrite <- Hq. by apply queue_step_same.
Qed.

Lemma get_ok s q cap l t :
  k_queues (objs s) !! q = Some (cap, l) → l ≠ [] ∨ t = 0 →
  ∃ s', env_get_queue q t s = Ok (head l) s' ∧ queue_step q (Some (cap, tl l)) s s'.
Proof.
  intros Hq Hl. unfold env_get_queue. rewrite (bind_ok _ _ _ _ _ (env_in_isr_ok s)).
  assert (∃ k', (if k_isr (objs s) then kcall (xQueueReceiveFromISR q) else kcall (xQueueReceive q (ticks t))) s =
      Ok (head l) (set_kernel k' s) ∧
    kview k' = match l with [] => objs s | _ :: l' => set_queues <[q := (cap, l')]> (objs s) end)
    as (k' & Hop & Hk).
  { destruct (k_isr (objs s)) eqn:Hi.
    - destruct (law_receive_isr (kernel s) q cap l Hq) as (k' & Hop & Hk). exists k'. by rewrite (kcall_ok _ _ _ _ Hop).
    - destruct l as [|x l].
      + destruct Hl as [?| ->]; [done|]. rewrite ticks_zero.
        destruct (law_receive_empty (kernel s) q cap Hi Hq) as (k' & Hop & Hk). exists k'. by rewrite (kcall_ok _ _ _ _ Hop).
      + destruct (law_receive (kernel s) q cap x l (ticks t) Hi Hq) as (k' & Hop & Hk). exists k'.
        by rewrite (kcall_ok _ _ _ _ Hop). }
  exists (set_kernel k' s). split; [exact Hop|]. destruct l as [|x l].
  - cbn. rewrite <- Hq. by apply queue_step_same.
  - by apply (queue_step_put q (cap, l)).
Qed.

Lemma size_ok s q cap l :
  k_queues (objs s) !! q = Some (cap, l) → Z.of_nat (length l) < 2147483648 →
  ∃ s', env_get_current_queue_size q s = Ok (Z.of_nat (length l)) s' ∧ queue_step q (Some (cap, l)) s s'.
Proof.
  intros Hq Hl. unfold env_get_current_queue_size. rewrite (bind_ok _ _ _ _ _ (env_in_isr_ok s)).
  assert (∃ k', (if k_isr (objs s) then kcall (uxQueueMessagesWaitingFromISR q) else kcall (uxQueueMessagesWaiting q)) s =
      Ok (Z.of_nat (length l)) (set_kernel k' s) ∧ kview k' = objs s) as (k' & Hop & Hk).
  { destruct (k_isr (objs s)) eqn:Hi;
      [destruct (law_waiting_isr (kernel s) q cap l Hq) as (k' & Hop & Hk)
      |destruct (law_waiting (kernel s) q cap l Hi Hq) as (k' & Hop & Hk)];
      exists k'; by rewrite (kcall_ok _ _ _ _ Hop). }
  rewrite (bind_ok _ _ _ _ _ Hop). exists (set_kernel k' s). split; [|rewrite <- Hq; by apply queue_step_same].
  unfold INT32_MAX. rewrite (proj2 (Z.ltb_ge _ _)) by lia. cbv [mret M_ret]. f_equal. apply i32_small. lia.
Qed.

#[global] Instance fr_queue_laws : QueueLaws (rtos H K).
Proof.
  constructor; cbn; [| |exact put_ok| | |exact size_ok].
  - intros s len sz Hi Hl Hs. unfold env_create_queue.
    rewrite (proj2 (Z.ltb_ge len 0)), (proj2 (Z.ltb_ge sz 0)) by lia. cbn [orb]. rewrite !u32_small by lia.
    destruct (law_queue (kernel s) len sz Hi ltac:(lia)) as (h & k' & Hop & Hr).
    rewrite (bind_ok _ _ _ _ _ (kcall_ok _ _ _ _ Hop)). destruct (Z.eqb_spec h NULL) as [->|Hh]; cbn [negb].
    + eexists _, _, _. split; [done|]. intros q'. apply queue_step_same. by destruct Hr as [(_ & Hk & _)|[? _]].
    + destruct Hr as [[? _]|(_ & Hn & Hk & _)]; [done|]. eexists _, _, _. split; [done|]. cbn.
      split_and!; [done|done|]. by apply queue_step_put.
  - intros s q Hi Hq. destruct (law_queue_delete (kernel s) q Hi Hq) as (k' & Hop & Hk).
    eexists. split; [by apply kcall_ok|]. eapply queue_step_set; [exact Hk|apply lookup_delete_eq|].
    intros q' Hq'. by rewrite lookup_delete_ne.
  - intros s q cap x l t Hq. by apply (get_ok s q cap (x :: l)); [|left].
  - intros s q cap Hq. by apply (get_ok s q cap []); [|right].
Qed.

End laws.
