(* ===== verification/Llist.v ===== *)
(** * The doubly-linked list: [llist.c]

    [add_to_list] and [remove_from_list] on heap nodes, and the proof that they
    implement insertion at the front and deletion of a list.  The [prev] field
    of the first node is never read and is left arbitrary, as the code does
    after it removed the head. *)

From S2P Require Import Prelude Memory Config Virtqueue World Lpc55s69.

(** Assignments to the fields of a node. *)
Definition set_next (x : Z) (n : llist) : llist :=
  {| data := data n; attr := attr n; next := x; prev := prev n |}.
Definition set_prev (x : Z) (n : llist) : llist :=
  {| data := data n; attr := attr n; next := next n; prev := x |}.

Section llist.
Context {E : Type}.

(** [head] is the value of the list head before the call, the result its value
    after it. *)
Definition add_to_list (head node : Z) : W E Z :=
  if node =? NULL then mret head
  else if negb (head =? NULL) then
    upd_node node (set_next head);;
    upd_node node (set_prev NULL);;
    upd_node head (set_prev node);;
    mret node
  else
    upd_node node (set_next NULL);;
    upd_node node (set_prev NULL);;
    mret node.

Definition remove_from_list (head node : Z) : W E Z :=
  if (head =? NULL) || (node =? NULL) then mret head
  else if node =? head then
    h ← get_node head; mret (next h)
  else
    n ← get_node node;
    if next n =? NULL then
      upd_node (prev n) (set_next (next n));; mret head
    else
      upd_node (prev n) (set_next (next n));;
      n' ← get_node node;
      upd_node (next n') (set_prev (prev n'));; mret head.

(** ** Lists in the heap *)

(** A chain of nodes (address and payload) from [p] to [e]; every node but
    possibly the first points back to its predecessor. *)
Fixpoint seg (heap : gmap Z obj) (p : Z) (prv : option Z) (l : list (Z * Z)) (e : Z) : Prop :=
  match l with
  | [] => p = e
  | (a, d) :: l' =>
      p = a ∧ a ≠ NULL ∧ ∃ n, heap !! a = Some (ONode n) ∧ data n = d ∧
        match prv with Some q => prev n = q | None => True end ∧ seg heap (next n) (Some a) l' e
  end.

Definition is_list (heap : gmap Z obj) (h : Z) (l : list (Z * Z)) : Prop :=
  seg heap h None l NULL ∧ NoDup l.*1.

(** The heap changed at most at the nodes [s], which are still nodes. *)
Definition only_nodes (s : list Z) (heap heap' : gmap Z obj) : Prop :=
  (∀ x, x ∉ s → heap' !! x = heap !! x) ∧
  (∀ x, x ∈ s → ∃ n, heap' !! x = Some (ONode n)).

End llist.

Lemma seg_frame heap heap' p prv l e :
  (∀ a, a ∈ l.*1 → heap' !! a = heap !! a) → seg heap p prv l e → seg heap' p prv l e.
Proof.
  revert p prv. induction l as [|[a d] l IH]; intros p prv Hf; [done|].
  cbn in Hf |- *. intros (-> & Ha & n & Hn & Hd & Hp & Hs). split_and!; try done.
  exists n. rewrite Hf by left. split_and!; try done. apply IH; [|done].
  intros b Hb. apply Hf. by right.
Qed.

Lemma is_list_frame heap heap' h l :
  (∀ a, a ∈ l.*1 → heap' !! a = heap !! a) → is_list heap h l → is_list heap' h l.
Proof. intros Hf [Hs Hn]. split; [by eapply seg_frame|done]. Qed.

Lemma seg_weaken heap p prv l e : seg heap p prv l e → seg heap p None l e.
Proof. destruct l as [|[a d] l]; [done|]. cbn. naive_solver. Qed.

Lemma seg_app heap p prv l1 a d l2 e :
  seg heap p prv (l1 ++ (a, d) :: l2) e ↔
  seg heap p prv l1 a ∧ seg heap a (match last l1 with Some (q, _) => Some q | None => prv end) ((a, d) :: l2) e.
Proof.
  revert p prv. induction l1 as [|[b c] l1 IH]; intros p prv.
  - cbn. naive_solver.
  - rewrite <- app_comm_cons. cbn [seg]. setoid_rewrite IH.
    assert (match last ((b, c) :: l1) with Some (q, _) => Some q | None => prv end =
            match last l1 with Some (q, _) => Some q | None => Some b end) as ->.
    { destruct l1 as [|x l1]; [done|]. rewrite last_cons_cons. destruct (last (x :: l1)) eqn:El; [done|].
      by apply last_None in El. }
    naive_solver.
Qed.

(** The head pointer decides whether the list is empty. *)
Lemma seg_null heap p prv l : seg heap p prv l NULL → p = NULL ↔ l = [].
Proof. destruct l as [|[a d] l]; cbn; [naive_solver|]. intros (-> & Ha & _). naive_solver. Qed.

(** Every member of a chain is a node. *)
Lemma seg_nodes heap p prv l e x :
  seg heap p prv l e → x ∈ l.*1 → ∃ n, heap !! x = Some (ONode n).
Proof.
  revert p prv. induction l as [|[a d] l IH]; intros p prv; [intros _ []%not_elem_of_nil|].
  cbn. intros (-> & _ & n & Hn & _ & _ & Hs) [->|Hx]%elem_of_cons; eauto.
Qed.

(** Redirecting the end of a non-empty chain. *)
Lemma seg_set_end heap p prv l q dq e n e' :
  seg heap p prv (l ++ [(q, dq)]) e → q ∉ l.*1 → heap !! q = Some (ONode n) →
  seg (<[q := ONode (set_next e' n)]> heap) p prv (l ++ [(q, dq)]) e'.
Proof.
  revert p prv. induction l as [|[a d] l IH]; intros p prv Hs Hq Hn.
  - destruct Hs as (-> & Hq0 & n' & Hn' & Hd & Hp & _). rewrite Hn in Hn'. injection Hn' as <-.
    cbn. split_and!; try done. exists (set_next e' n). rewrite lookup_insert_eq. done.
  - rewrite <- app_comm_cons in *. cbn [seg] in *. destruct Hs as (-> & Ha & m & Hm & Hd & Hp & Hs).
    cbn in Hq. apply not_elem_of_cons in Hq as [Hqa Hq].
    split_and!; try done. exists m. rewrite lookup_insert_ne by done. split_and!; try done.
    by apply IH.
Qed.

(** Redirecting the back pointer of the first node of a chain. *)
Lemma seg_set_prev heap a prv q d l e n :
  seg heap a prv ((a, d) :: l) e → a ∉ l.*1 → heap !! a = Some (ONode n) →
  seg (<[a := ONode (set_prev q n)]> heap) a (Some q) ((a, d) :: l) e.
Proof.
  cbn. intros (_ & Ha & n' & Hn' & Hd & _ & Hs) Hna Hn. rewrite Hn in Hn'. injection Hn' as <-.
  split_and!; try done. exists (set_prev q n). rewrite lookup_insert_eq. split_and!; try done.
  cbn. eapply seg_frame; [|done]. intros b Hb. apply lookup_insert_ne. by intros ->.
Qed.

Section specs.
Context {E : Type}.

Lemma get_obj_ok {A} (f : obj → option A) p o a (w : world E) :
  w_heap w !! p = Some o → f o = Some a → get_obj f p w = Ok a w.
Proof. intros Ho Hf. unfold get_obj. rewrite Ho. cbn. by rewrite Hf. Qed.

Lemma upd_node_ok p f n (w : world E) :
  w_heap w !! p = Some (ONode n) → upd_node p f w = Ok tt (set_heap <[p := ONode (f n)]> w).
Proof.
  intros Hn. unfold upd_node, get_node. by rewrite (bind_ok _ _ _ _ _ (get_obj_ok as_node p (ONode n) n w Hn eq_refl)).
Qed.

(** One heap update after another. *)
Ltac node_step H := rewrite (bind_ok _ _ _ _ _ H).

Lemma add_to_list_ok h a l n (w : world E) :
  is_list (w_heap w) h l → w_heap w !! a = Some (ONode n) → a ≠ NULL → a ∉ l.*1 →
  ∃ heap', add_to_list h a w = Ok a (set_heap (λ _, heap') w) ∧
    is_list heap' a ((a, data n) :: l) ∧ only_nodes (a :: l.*1) (w_heap w) heap'.
Proof.
  intros [Hs Hnd] Hn Ha Hnot. unfold add_to_list.
  rewrite (proj2 (Z.eqb_neq a NULL) Ha).
  pose proof (seg_null _ _ _ _ Hs) as Hnull.
  destruct l as [|[b d] l].
  - rewrite (proj2 Hnull eq_refl). cbn [Z.eqb negb NULL].
    node_step (upd_node_ok a (set_next NULL) n w Hn).
    set (w1 := set_heap _ w).
    assert (w_heap w1 !! a = Some (ONode (set_next NULL n))) as H1 by apply lookup_insert_eq.
    node_step (upd_node_ok a (set_prev NULL) _ w1 H1).
    eexists. split; [reflexivity|]. split; [split|].
    + cbn. split_and!; try done. eexists. rewrite lookup_insert_eq. done.
    + cbn. apply NoDup_singleton.
    + split.
      * intros x Hx. cbn. rewrite !lookup_insert_ne; [done| |]; intros <-; apply Hx; left.
      * intros x Hx. apply list_elem_of_singleton in Hx as ->. cbn. rewrite lookup_insert_eq. eauto.
  - destruct (Z.eqb_spec h NULL) as [E0|Hh]; [by apply Hnull in E0|]. cbn [negb].
    cbn in Hnot. apply not_elem_of_cons in Hnot as [Hab Hal].
    node_step (upd_node_ok a (set_next h) n w Hn).
    set (w1 := set_heap _ w).
    assert (w_heap w1 !! a = Some (ONode (set_next h n))) as H1 by apply lookup_insert_eq.
    node_step (upd_node_ok a (set_prev NULL) _ w1 H1).
    set (w2 := set_heap _ w1). set (n2 := set_prev NULL (set_next h n)).
    assert (w_heap w2 = <[a := ONode n2]> (w_heap w)) as E2 by apply insert_insert_eq.
    pose proof Hs as (-> & _ & m & Hm & Hd & _ & Hs').
    assert (w_heap w2 !! b = Some (ONode m)) as H2 by (rewrite E2, lookup_insert_ne; done).
    node_step (upd_node_ok b (set_prev a) m w2 H2).
    exists (<[b := ONode (set_prev a m)]> (<[a := ONode n2]> (w_heap w))).
    split; [unfold w2, w1, set_heap; cbn; by rewrite insert_insert_eq|]. split; [split|].
    + cbn [seg]. split_and!; try done. exists n2. rewrite lookup_insert_ne, lookup_insert_eq by done.
      split_and!; try done. cbn [n2 set_prev set_next next].
      eapply seg_set_prev; [|by apply NoDup_cons in Hnd as [? _]|by rewrite lookup_insert_ne].
      eapply seg_frame; [|exact Hs]. intros x Hx. apply lookup_insert_ne. intros <-.
      cbn in Hx. apply elem_of_cons in Hx as [->|Hx]; done.
    + cbn. apply NoDup_cons. split; [|done]. apply not_elem_of_cons. done.
    + split.
      * intros x Hx. cbn in Hx. rewrite !not_elem_of_cons in Hx. destruct Hx as (? & ? & ?).
        rewrite !lookup_insert_ne; done.
      * intros x Hx. destruct (decide (x = b)) as [->|Hxb]; [rewrite lookup_insert_eq; eauto|].
        rewrite lookup_insert_ne by done.
        destruct (decide (x = a)) as [->|Hxa]; [rewrite lookup_insert_eq; eauto|].
        rewrite lookup_insert_ne by done. cbn in Hx. rewrite !elem_of_cons in Hx.
        destruct Hx as [?|[?|Hx]]; [done..|].
        by eapply seg_nodes.
Qed.

Lemma only_nodes_refl s heap :
  (∀ x, x ∈ s → ∃ n, heap !! x = Some (ONode n)) → only_nodes s heap heap.
Proof. by split. Qed.

Lemma only_nodes_insert s heap heap' p n :
  only_nodes s heap heap' → p ∈ s → only_nodes s heap (<[p := ONode n]> heap').
Proof.
  intros [H1 H2] Hp. split; intros x Hx; (destruct (decide (x = p)) as [->|Hne];
    [|rewrite lookup_insert_ne by done; auto]).
  - done.
  - rewrite lookup_insert_eq. eauto.
Qed.

(** What distinct addresses give around the removed node. *)
Lemma NoDup_around (k1 k2 : list Z) q a :
  NoDup ((k1 ++ [q]) ++ a :: k2) →
  (a ∉ k1) ∧ a ≠ q ∧ (a ∉ k2) ∧ (q ∉ k1) ∧ (q ∉ k2) ∧ (∀ x, x ∈ k1 → x ∉ k2) ∧
  NoDup ((k1 ++ [q]) ++ k2).
Proof.
  intros Hn. assert (NoDup ((k1 ++ [q]) ++ k2)) as Hn'.
  { eapply sublist_NoDup; [exact Hn|]. apply sublist_app; [done|]. by apply sublist_cons. }
  apply NoDup_app in Hn as (Hn1 & Hd & Hn2). apply NoDup_app in Hn1 as (Hk1 & Hd1 & _).
  apply NoDup_cons in Hn2 as [Ha Hk2].
  split_and!; try done.
  - intros Hx. apply (Hd a); [apply elem_of_app; by left|left].
  - intros ->. apply (Hd q); [apply elem_of_app; right; left|left].
  - intros Hx. apply (Hd1 q Hx). left.
  - intros Hx. apply (Hd q); [apply elem_of_app; right; left|by right].
  - intros x Hx Hx'. apply (Hd x); [apply elem_of_app; by left|by right].
Qed.

Lemma seg_head_in heap p prv l e : seg heap p prv l e → l ≠ [] → p ∈ l.*1.
Proof. destruct l as [|[a d] l]; [done|]. intros [-> _] _. left. Qed.

(** Removing a node that is not the first. *)
Lemma remove_middle_ok h l1 q dq a d l2 (w : world E) :
  is_list (w_heap w) h ((l1 ++ [(q, dq)]) ++ (a, d) :: l2) →
  ∃ heap', remove_from_list h a w = Ok h (set_heap (λ _, heap') w) ∧
    is_list heap' h ((l1 ++ [(q, dq)]) ++ l2) ∧
    only_nodes ((l1 ++ [(q, dq)]) ++ l2).*1 (w_heap w) heap'.
Proof.
  intros [Hs Hnd]. rewrite !fmap_app in Hnd. cbn in Hnd.
  destruct (NoDup_around _ _ _ _ Hnd) as (Ha1 & Haq & Ha2 & Hq1 & Hq2 & Hd12 & Hnd').
  pose proof (proj1 (seg_app _ _ _ _ _ _ _ _) Hs) as [Hs1 Hs2]. rewrite last_snoc in Hs2.
  assert (h ∈ (l1 ++ [(q, dq)]).*1) as Hh.
  { eapply seg_head_in; [exact Hs1|]. by destruct l1. }
  assert (h ≠ a) as Hha.
  { intros ->. rewrite fmap_app in Hh. apply elem_of_app in Hh as [Hh|Hh]; [done|].
    apply list_elem_of_singleton in Hh. done. }
  assert (h ≠ NULL) as Hh0.
  { intros ->. assert ((l1 ++ [(q, dq)]) ++ (a, d) :: l2 = []) as E0 by (by eapply seg_null).
    by destruct l1. }
  destruct Hs2 as (_ & Ha & n & Hn & Hd & Hp & Hs2).
  assert (∀ x, x ∈ ((l1 ++ [(q, dq)]) ++ l2).*1 → ∃ m, w_heap w !! x = Some (ONode m)) as Hnodes.
  { intros x Hx. rewrite fmap_app in Hx. apply elem_of_app in Hx as [Hx|Hx];
      [exact (seg_nodes _ _ _ _ _ _ Hs1 Hx)|exact (seg_nodes _ _ _ _ _ _ Hs2 Hx)]. }
  destruct (Hnodes q) as [m Hm]; [rewrite !fmap_app, !elem_of_app; left; right; left|].
  assert (q ∈ ((l1 ++ [(q, dq)]) ++ l2).*1) as Hqin by (rewrite !fmap_app, !elem_of_app; left; right; left).
  pose proof (seg_set_end _ _ _ _ _ _ _ _ (next n) Hs1 Hq1 Hm) as Hend.
  pose proof (only_nodes_insert _ _ _ q (set_next (next n) m)
    (only_nodes_refl _ _ Hnodes) Hqin) as Honly.
  unfold remove_from_list.
  rewrite (proj2 (Z.eqb_neq h NULL) Hh0), (proj2 (Z.eqb_neq a NULL) Ha).
  rewrite (proj2 (Z.eqb_neq a h)) by done. cbn [orb].
  node_step (get_obj_ok as_node a (ONode n) n w Hn eq_refl). rewrite Hp.
  destruct l2 as [|[b db] l2].
  - cbn in Hs2. rewrite Hs2 in Hend, Honly |- *. rewrite Z.eqb_refl.
    node_step (upd_node_ok q (set_next NULL) m w Hm). eexists. split; [reflexivity|].
    split; [split|exact Honly]; rewrite app_nil_r.
    + exact Hend.
    + rewrite fmap_app. cbn in Hnd'. by rewrite app_nil_r in Hnd'.
  - pose proof Hs2 as (Eb & Hb0 & nb & Hnb & _). rewrite Eb.
    rewrite (proj2 (Z.eqb_neq b NULL) Hb0). cbn in Ha2, Hq2.
    node_step (upd_node_ok q (set_next b) m w Hm).
    apply not_elem_of_cons in Ha2 as [Hab Ha2]. apply not_elem_of_cons in Hq2 as [Hqb Hq2].
    set (w1 := set_heap <[q := ONode (set_next b m)]> w).
    assert (w_heap w1 !! a = Some (ONode n)) as Hn1 by (cbn; by rewrite lookup_insert_ne).
    assert (w_heap w1 !! b = Some (ONode nb)) as Hnb1 by (cbn; by rewrite lookup_insert_ne).
    node_step (get_obj_ok as_node a (ONode n) n w1 Hn1 eq_refl). rewrite Eb, Hp.
    node_step (upd_node_ok b (set_prev q) nb w1 Hnb1).
    eexists. split; [reflexivity|]. split; [split|].
    + rewrite Eb in Hend, Hs2. apply seg_app. rewrite last_snoc. split.
      * eapply seg_frame; [|exact Hend]. intros x Hx. apply lookup_insert_ne. intros <-.
        rewrite fmap_app in Hx. apply elem_of_app in Hx as [Hx|Hx]; [|by apply list_elem_of_singleton in Hx].
        apply (Hd12 b Hx). left.
      * eapply (seg_set_prev _ _ (Some a)).
        -- eapply seg_frame; [|exact Hs2]. intros x Hx. apply lookup_insert_ne. intros <-.
           cbn in Hx. apply elem_of_cons in Hx as [?|?]; done.
        -- apply NoDup_app in Hnd' as (_ & _ & Hx). cbn in Hx. by apply NoDup_cons in Hx as [? _].
        -- exact Hnb1.
    + rewrite !fmap_app. exact Hnd'.
    + apply only_nodes_insert; [rewrite Eb in Honly; exact Honly|].
      rewrite fmap_app, elem_of_app. right. left.
Qed.

Lemma remove_from_list_ok h l1 a d l2 (w : world E) :
  is_list (w_heap w) h (l1 ++ (a, d) :: l2) →
  ∃ h' heap', remove_from_list h a w = Ok h' (set_heap (λ _, heap') w) ∧
    is_list heap' h' (l1 ++ l2) ∧ only_nodes (l1 ++ l2).*1 (w_heap w) heap'.
Proof.
  intros Hl. destruct l1 as [|[q dq] l1 _] using rev_ind.
  2:{ destruct (remove_middle_ok _ _ _ _ _ _ _ _ Hl) as (heap' & ?). by exists h, heap'. }
  destruct Hl as [(-> & Ha & n & Hn & Hd & _ & Hs) Hnd]. cbn in Hnd. apply NoDup_cons in Hnd as [_ Hnd].
  unfold remove_from_list. rewrite (proj2 (Z.eqb_neq a NULL) Ha), Z.eqb_refl. cbn [orb].
  node_step (get_obj_ok as_node a (ONode n) n w Hn eq_refl).
  exists (next n), (w_heap w). split; [by destruct w|]. split.
  - split; [|done]. by eapply seg_weaken.
  - apply only_nodes_refl. intros x Hx. by eapply seg_nodes.
Qed.

End specs.
