(* ===== verification/Endpoint.v ===== *)
(** * Endpoints: the endpoint table of [rpmsg_lite.c]

    [rpmsg_lite_get_endpoint_from_addr], [rpmsg_lite_create_ept] and
    [rpmsg_lite_destroy_ept] on the linked list of endpoints of an instance,
    with the invariant of the table (a well-formed list of live endpoints with
    pairwise different addresses) and the theorems that the operations keep it,
    find the right endpoint, choose the lowest free address, release what they
    allocated on every error path and leave the instance lock free. *)

From S2P Require Import Prelude Memory Config Virtqueue Concrete World Lpc55s69 BareMetal Llist.

(** Assignments to the fields of an instance. *)
Definition set_rvq (x : Z) (i : rpmsg_lite_instance) : rpmsg_lite_instance :=
  {| rvq := x; tvq := tvq i; rl_endpoints := rl_endpoints i; lock := lock i;
     link_state := link_state i; sh_mem_base := sh_mem_base i;
     sh_mem_remaining := sh_mem_remaining i; sh_mem_total := sh_mem_total i;
     vq_ops := vq_ops i; link_id := link_id i |}.
Definition set_tvq (x : Z) (i : rpmsg_lite_instance) : rpmsg_lite_instance :=
  {| rvq := rvq i; tvq := x; rl_endpoints := rl_endpoints i; lock := lock i;
     link_state := link_state i; sh_mem_base := sh_mem_base i;
     sh_mem_remaining := sh_mem_remaining i; sh_mem_total := sh_mem_total i;
     vq_ops := vq_ops i; link_id := link_id i |}.
Definition set_rl_endpoints (x : Z) (i : rpmsg_lite_instance) : rpmsg_lite_instance :=
  {| rvq := rvq i; tvq := tvq i; rl_endpoints := x; lock := lock i;
     link_state := link_state i; sh_mem_base := sh_mem_base i;
     sh_mem_remaining := sh_mem_remaining i; sh_mem_total := sh_mem_total i;
     vq_ops := vq_ops i; link_id := link_id i |}.
Definition set_lock (x : Z) (i : rpmsg_lite_instance) : rpmsg_lite_instance :=
  {| rvq := rvq i; tvq := tvq i; rl_endpoints := rl_endpoints i; lock := x;
     link_state := link_state i; sh_mem_base := sh_mem_base i;
     sh_mem_remaining := sh_mem_remaining i; sh_mem_total := sh_mem_total i;
     vq_ops := vq_ops i; link_id := link_id i |}.
Definition set_link_state (x : Z) (i : rpmsg_lite_instance) : rpmsg_lite_instance :=
  {| rvq := rvq i; tvq := tvq i; rl_endpoints := rl_endpoints i; lock := lock i;
     link_state := x; sh_mem_base := sh_mem_base i;
     sh_mem_remaining := sh_mem_remaining i; sh_mem_total := sh_mem_total i;
     vq_ops := vq_ops i; link_id := link_id i |}.
Definition set_sh_mem (base remaining total : Z) (i : rpmsg_lite_instance) : rpmsg_lite_instance :=
  {| rvq := rvq i; tvq := tvq i; rl_endpoints := rl_endpoints i; lock := lock i;
     link_state := link_state i; sh_mem_base := base;
     sh_mem_remaining := remaining; sh_mem_total := total;
     vq_ops := vq_ops i; link_id := link_id i |}.
Definition set_vq_ops (o : option virtqueue_ops) (i : rpmsg_lite_instance) : rpmsg_lite_instance :=
  {| rvq := rvq i; tvq := tvq i; rl_endpoints := rl_endpoints i; lock := lock i;
     link_state := link_state i; sh_mem_base := sh_mem_base i;
     sh_mem_remaining := sh_mem_remaining i; sh_mem_total := sh_mem_total i;
     vq_ops := o; link_id := link_id i |}.
Definition set_link_id (x : Z) (i : rpmsg_lite_instance) : rpmsg_lite_instance :=
  {| rvq := rvq i; tvq := tvq i; rl_endpoints := rl_endpoints i; lock := lock i;
     link_state := link_state i; sh_mem_base := sh_mem_base i;
     sh_mem_remaining := sh_mem_remaining i; sh_mem_total := sh_mem_total i;
     vq_ops := vq_ops i; link_id := x |}.

Section endpoint.
Context {E : Type} {el : EnvLayer E} {cfg : Config}.

(** The list has at most as many nodes as the heap has objects, which bounds
    the walk. *)
Fixpoint get_endpoint_loop (fuel : nat) (p addr : Z) : W E Z :=
  if p =? NULL then mret NULL
  else match fuel with
       | O => no_fuel
       | S k =>
           n ← get_node p;
           rl_ept ← get_ept (data n);
           if ept_addr rl_ept =? addr then mret p else get_endpoint_loop k (next n) addr
       end.

Definition rpmsg_lite_get_endpoint_from_addr (dev addr : Z) : W E Z :=
  i ← get_inst dev;
  w ← get_state;
  get_endpoint_loop (S (size (w_heap w))) (rl_endpoints i) addr.

(** The search for the lowest free address, from [i]. *)
Fixpoint find_free_addr (fuel : nat) (dev i : Z) : W E (option Z) :=
  if i <? 4294967295 then
    match fuel with
    | O => no_fuel
    | S k =>
        node ← rpmsg_lite_get_endpoint_from_addr dev i;
        if node =? NULL then mret (Some i) else find_free_addr k dev (i + 1)
    end
  else mret None.

(** The address of the new endpoint; [None]: the call failed and the lock was
    released. *)
Definition choose_addr (dev lk addr : Z) : W E (option Z) :=
  if addr =? RL_ADDR_ANY then
    w ← get_state;
    r ← find_free_addr (S (size (w_heap w))) dev 1;
    match r with
    | Some a => mret (Some a)
    | None => env_unlock_mutex lk;; mret None
    end
  else
    node ← rpmsg_lite_get_endpoint_from_addr dev addr;
    if negb (node =? NULL) then env_unlock_mutex lk;; mret None
    else mret (Some addr).

(** The blocks for the endpoint and its node: [ept_context] with the static
    API, fresh ones otherwise; [None]: the call failed, the lock was released. *)
Definition ept_storage (lk : Z) (ept_context : option (Z * Z)) : W E (option (Z * Z)) :=
  if RL_USE_STATIC_API then
    match ept_context with
    | None => env_unlock_mutex lk;; mret None
    | Some c => mret (Some c)
    end
  else
    rl_ept ← env_allocate_memory;
    if rl_ept =? NULL then env_unlock_mutex lk;; mret None
    else
      node ← env_allocate_memory;
      if node =? NULL then
        env_free_memory rl_ept;; env_unlock_mutex lk;; mret None
      else mret (Some (rl_ept, node)).

(** Filling in the endpoint and linking it; the fields of the node that are not
    assigned here are assigned by [add_to_list], except [attr], which nothing
    reads. *)
Definition link_endpoint (dev rl_ept node addr : Z) (cb : rl_ept_rx_cb_t) (cb_data : Z) : W E unit :=
  put_obj rl_ept (OEpt {| ept_addr := addr; rx_cb := cb; rx_cb_data := cb_data |});;
  put_obj node (ONode {| data := rl_ept; attr := 0; next := NULL; prev := NULL |});;
  i ← get_inst dev;
  head ← add_to_list (rl_endpoints i) node;
  upd_inst dev (set_rl_endpoints head).

Definition rpmsg_lite_create_ept (dev addr : Z) (cb : rl_ept_rx_cb_t) (cb_data : Z)
    (ept_context : option (Z * Z)) : W E Z :=
  if dev =? NULL then mret NULL
  else
    i ← get_inst dev;
    env_lock_mutex (lock i);;
    a ← choose_addr dev (lock i) addr;
    match a with
    | None => mret NULL
    | Some addr =>
        s ← ept_storage (lock i) ept_context;
        match s with
        | None => mret NULL
        | Some (rl_ept, node) =>
            link_endpoint dev rl_ept node addr cb cb_data;;
            env_unlock_mutex (lock i);;
            mret rl_ept
        end
    end.

(** The part of [rpmsg_lite_destroy_ept] under the lock, up to the return. *)
Definition destroy_locked (dev rl_ept lk : Z) : W E Z :=
  e ← get_ept rl_ept;
  node ← rpmsg_lite_get_endpoint_from_addr dev (ept_addr e);
  if negb (node =? NULL) then
    i ← get_inst dev;
    head ← remove_from_list (rl_endpoints i) node;
    upd_inst dev (set_rl_endpoints head);;
    env_unlock_mutex lk;;
    (if RL_USE_STATIC_API then mret tt else env_free_memory node;; env_free_memory rl_ept);;
    mret RL_SUCCESS
  else
    env_unlock_mutex lk;;
    mret RL_ERR_PARAM.

Definition rpmsg_lite_destroy_ept (dev rl_ept : Z) : W E Z :=
  if dev =? NULL then mret RL_ERR_PARAM
  else if rl_ept =? NULL then mret RL_ERR_PARAM
  else
    i ← get_inst dev;
    env_lock_mutex (lock i);;
    destroy_locked dev rl_ept (lock i).

Definition rpmsg_lite_is_link_up (dev : Z) : W E Z :=
  if dev =? NULL then mret 0
  else i ← get_inst dev; mret (if RL_TRUE =? link_state i then RL_TRUE else RL_FALSE).

End endpoint.

(** ** The invariant of the table *)

(** An entry: node address, endpoint address (pointer), endpoint. *)
Abbreviation entry := (Z * (Z * rpmsg_lite_endpoint))%type.
Definition e_node (x : entry) : Z := x.1.
Definition e_ptr (x : entry) : Z := x.2.1.
Definition e_addr (x : entry) : Z := ept_addr x.2.2.
Definition e_link (x : entry) : Z * Z := (x.1, x.2.1).

Record ept_table (heap : gmap Z obj) (dev : Z) (i : rpmsg_lite_instance) (t : list entry) : Prop := {
  tab_inst : heap !! dev = Some (OInst i);
  tab_list : is_list heap (rl_endpoints i) (e_link <$> t);
  tab_epts : Forall (λ x, heap !! e_ptr x = Some (OEpt x.2.2)) t;
  tab_addrs : NoDup (e_addr <$> t);
  tab_ptrs : NoDup (e_ptr <$> t);
}.

(** The object at [p] is neither the instance nor of the table. *)
Definition unused (dev : Z) (t : list entry) (p : Z) : Prop :=
  p ≠ dev ∧ (p ∉ e_ptr <$> t) ∧ (p ∉ (e_link <$> t).*1).

(** The context given with the static API: two objects of the application that
    no endpoint of the table uses. *)
Definition context_free (heap : gmap Z obj) (dev : Z) (t : list entry) (c : option (Z * Z)) : Prop :=
  match c with
  | None => True
  | Some (p, n) => p ≠ n ∧ p ≠ NULL ∧ n ≠ NULL ∧ is_Some (heap !! p) ∧ is_Some (heap !! n) ∧
      unused dev t p ∧ unused dev t n
  end.

(** What the table answers for an address. *)
Definition lookup_node (t : list entry) (a : Z) : Z :=
  match list_find (λ x, e_addr x = a) t with Some (_, x) => e_node x | None => NULL end.

(** No endpoint, instance or node lives at [p]. *)
Definition node_not_in (heap : gmap Z obj) (p : Z) : Prop :=
  match heap !! p with Some (OEpt _ | OInst _ | ONode _) => False | _ => True end.

Definition lowest_free (addrs : list Z) (a : Z) : Prop :=
  1 ≤ a ∧ (a ∉ addrs) ∧ ∀ b, 1 ≤ b < a → b ∈ addrs.

(** An address that was asked for and is taken. *)
Definition addr_taken (t : list entry) (addr : Z) : Prop := addr ≠ RL_ADDR_ANY ∧ addr ∈ (e_addr <$> t).
#[global] Instance addr_taken_dec t addr : Decision (addr_taken t addr).
Proof. unfold addr_taken. apply _. Defined.

(** The address the new endpoint gets. *)
Definition addr_chosen (t : list entry) (addr a : Z) : Prop :=
  (a ∉ (e_addr <$> t)) ∧ if decide (addr = RL_ADDR_ANY) then lowest_free (e_addr <$> t) a else a = addr.

(** ** Lemmas *)

Lemma size_bound {A} (heap : gmap Z A) (l : list Z) :
  NoDup l → (∀ x, x ∈ l → is_Some (heap !! x)) → (length l ≤ size heap)%nat.
Proof.
  intros Hn Hl. rewrite <- size_dom. rewrite <- (size_list_to_set (C := gset Z) l Hn).
  apply subseteq_size. intros x Hx. apply elem_of_list_to_set in Hx. by apply elem_of_dom, Hl.
Qed.

Lemma ept_table_size heap dev i t : ept_table heap dev i t → (length t ≤ size heap)%nat.
Proof.
  intros Ht. destruct (tab_list _ _ _ _ Ht) as [Hs Hn].
  rewrite <- (length_fmap e_link), <- (length_fmap fst). apply size_bound; [done|].
  intros x Hx. destruct (seg_nodes _ _ _ _ _ _ Hs Hx) as [n ->]. eauto.
Qed.

Lemma lookup_node_in t a : a ∈ (e_addr <$> t) → ∃ x, x ∈ t ∧ e_addr x = a ∧ lookup_node t a = e_node x.
Proof.
  intros Ha. apply list_elem_of_fmap in Ha as (x & -> & Hx). unfold lookup_node.
  destruct (list_find_elem_of (λ y, e_addr y = e_addr x) t x Hx eq_refl) as [[k y] Hk].
  rewrite Hk. apply list_find_Some in Hk as (Hy & Hya & _).
  exists y. split_and!; [by eapply list_elem_of_lookup_2|done|done].
Qed.

Lemma lookup_node_out t a : a ∉ (e_addr <$> t) → lookup_node t a = NULL.
Proof.
  intros Ha. unfold lookup_node. destruct (list_find _ t) as [[k y]|] eqn:Hk; [|done].
  apply list_find_Some in Hk as (Hy & Hya & _). exfalso. apply Ha. rewrite <- Hya.
  apply list_elem_of_fmap_2. by eapply list_elem_of_lookup_2.
Qed.

Lemma lookup_node_cons x t a :
  lookup_node (x :: t) a = if decide (e_addr x = a) then e_node x else lookup_node t a.
Proof.
  unfold lookup_node. cbn. case_decide; [done|]. by destruct (list_find _ t) as [[k y]|].
Qed.

Section lemmas.
Context {E : Type} {el : EnvLayer E} {cfg : Config}.
Implicit Types w : world E.

Lemma get_inst_ok p i w : w_heap w !! p = Some (OInst i) → get_inst p w = Ok i w.
Proof. intros H. by apply (get_obj_ok as_inst p (OInst i)). Qed.
Lemma get_ept_ok p e w : w_heap w !! p = Some (OEpt e) → get_ept p w = Ok e w.
Proof. intros H. by apply (get_obj_ok as_ept p (OEpt e)). Qed.
Lemma get_node_ok p n w : w_heap w !! p = Some (ONode n) → get_node p w = Ok n w.
Proof. intros H. by apply (get_obj_ok as_node p (ONode n)). Qed.
Lemma get_vq_ok p q w : w_heap w !! p = Some (OVq q) → get_vq p w = Ok q w.
Proof. intros H. by apply (get_obj_ok as_vq p (OVq q)). Qed.

Lemma upd_inst_ok p f i w :
  w_heap w !! p = Some (OInst i) → upd_inst p f w = Ok tt (set_heap <[p := OInst (f i)]> w).
Proof. intros Hi. unfold upd_inst. by rewrite (bind_ok _ _ _ _ _ (get_inst_ok _ _ _ Hi)). Qed.

Lemma get_endpoint_loop_ok a fuel t p prv w :
  seg (w_heap w) p prv (e_link <$> t) NULL →
  Forall (λ x, w_heap w !! e_ptr x = Some (OEpt x.2.2)) t → (length t ≤ fuel)%nat →
  get_endpoint_loop fuel p a w = Ok (lookup_node t a) w.
Proof.
  revert fuel p prv. induction t as [|x t IH]; intros fuel p prv Hs He Hf.
  - cbn in Hs. subst p. by destruct fuel.
  - cbn in Hs. destruct Hs as (-> & Hx & n & Hn & Hd & _ & Hs).
    apply Forall_cons in He as [Hex He].
    destruct fuel as [|fuel]; cbn in Hf; [lia|]. cbn [get_endpoint_loop].
    rewrite (proj2 (Z.eqb_neq x.1 NULL) Hx).
    rewrite (bind_ok _ _ _ _ _ (get_node_ok _ _ _ Hn)), Hd.
    rewrite (bind_ok _ _ _ _ _ (get_ept_ok _ _ _ Hex)), lookup_node_cons.
    fold (e_addr x). destruct (Z.eqb_spec (e_addr x) a); case_decide; try done.
    eapply IH; [exact Hs|done|lia].
Qed.

Lemma get_endpoint_ok dev i t a w :
  ept_table (w_heap w) dev i t →
  rpmsg_lite_get_endpoint_from_addr dev a w = Ok (lookup_node t a) w.
Proof.
  intros Ht. unfold rpmsg_lite_get_endpoint_from_addr.
  rewrite (bind_ok _ _ _ _ _ (get_inst_ok _ _ _ (tab_inst _ _ _ _ Ht))).
  rewrite (bind_ok _ _ _ _ _ (eq_refl : get_state w = Ok w w)).
  pose proof (ept_table_size _ _ _ _ Ht). eapply get_endpoint_loop_ok; [apply Ht..|lia].
Qed.

(** A node of the table is not NULL, so the answer NULL means "not there". *)
Lemma lookup_node_null heap dev i t a :
  ept_table heap dev i t → (lookup_node t a =? NULL) = bool_decide (a ∉ (e_addr <$> t)).
Proof.
  intros Ht. destruct (decide (a ∈ (e_addr <$> t))) as [Ha|Ha].
  - destruct (lookup_node_in _ _ Ha) as (x & Hx & _ & ->).
    rewrite bool_decide_eq_false_2 by (intros H; done). apply Z.eqb_neq. intros H0.
    destruct (tab_list _ _ _ _ Ht) as [Hs _].
    assert (∀ p prv, seg heap p prv (e_link <$> t) NULL → e_node x ≠ NULL) as Hnn; [|by eapply Hnn].
    clear -Hx. induction t as [|y t IH]; intros p prv; [by apply not_elem_of_nil in Hx|].
    cbn. intros (-> & Hy & n & _ & _ & _ & Hs). apply elem_of_cons in Hx as [->|Hx]; [done|].
    by eapply IH.
  - rewrite lookup_node_out by done. by rewrite bool_decide_eq_true_2.
Qed.

(** Consecutive used addresses are bounded by the number of endpoints. *)
Lemma used_addresses (l : list Z) k : 1 ≤ k → (∀ b, 1 ≤ b < k → b ∈ l) → k - 1 ≤ Z.of_nat (length l).
Proof.
  intros Hk Hl. assert (seqZ 1 (k - 1) ⊆+ l) as Hsub.
  { apply NoDup_submseteq; [apply NoDup_seqZ|]. intros b Hb%elem_of_seqZ. apply Hl. lia. }
  apply submseteq_length in Hsub. rewrite length_seqZ in Hsub. lia.
Qed.

Lemma find_free_addr_ok dev i t w fuel k :
  ept_table (w_heap w) dev i t → Z.of_nat (length t) < 4294967294 → 1 ≤ k →
  (∀ b, 1 ≤ b < k → b ∈ (e_addr <$> t)) → Z.of_nat (length t) < Z.of_nat fuel + (k - 1) →
  ∃ a, find_free_addr fuel dev k w = Ok (Some a) w ∧ lowest_free (e_addr <$> t) a.
Proof.
  intros Ht Hlen. revert k. induction fuel as [|fuel IH]; intros k Hk Hused Hf;
    pose proof (used_addresses _ _ Hk Hused) as Hpig; rewrite length_fmap in Hpig; [lia|].
  cbn [find_free_addr]. rewrite (proj2 (Z.ltb_lt k 4294967295)) by lia.
  rewrite (bind_ok _ _ _ _ _ (get_endpoint_ok dev i t k w Ht)).
  rewrite (lookup_node_null _ _ _ _ _ Ht). case_bool_decide as Hin.
  - exists k. split; [done|]. split_and!; done.
  - apply IH; [lia| |lia]. intros b Hb. destruct (decide (b = k)) as [->|Hne].
    + exact Hin.
    + apply Hused. lia.
Qed.

(** *** Linking a new endpoint *)

Lemma table_fresh heap dev i t p : ept_table heap dev i t → node_not_in heap p → unused dev t p.
Proof.
  intros Ht Hp. unfold node_not_in in Hp. split_and!.
  - intros ->. by rewrite (tab_inst _ _ _ _ Ht) in Hp.
  - intros Hin. apply list_elem_of_fmap in Hin as (x & -> & Hx).
    pose proof (tab_epts _ _ _ _ Ht) as He. rewrite Forall_forall in He.
    by rewrite (He x Hx) in Hp.
  - intros Hin. destruct (tab_list _ _ _ _ Ht) as [Hs _].
    destruct (seg_nodes _ _ _ _ _ _ Hs Hin) as [n Hn]. by rewrite Hn in Hp.
Qed.

(** Endpoints survive updates of other objects. *)
Lemma epts_kept (heap heap' : gmap Z obj) dev i (t t' : list entry) (s : list Z) :
  ept_table heap dev i t → (∀ x, x ∈ t' → x ∈ t) → (∀ x, x ∈ s → x ∉ (e_ptr <$> t')) →
  (∀ x, x ≠ dev → x ∉ (e_link <$> t).*1 → x ∉ s → heap' !! x = heap !! x) →
  Forall (λ x, heap' !! e_ptr x = Some (OEpt x.2.2)) t'.
Proof.
  intros Ht Hsub Hs Hh. pose proof (tab_epts _ _ _ _ Ht) as He. rewrite Forall_forall in He |- *.
  intros x Hx. pose proof (He x (Hsub x Hx)) as Hex. rewrite Hh; [done|..].
  - intros E0. rewrite E0, (tab_inst _ _ _ _ Ht) in Hex. done.
  - intros Hin. destruct (tab_list _ _ _ _ Ht) as [Hseg _].
    destruct (seg_nodes _ _ _ _ _ _ Hseg Hin) as [m Hm]. by rewrite Hm in Hex.
  - intros Hin. apply (Hs _ Hin). by apply list_elem_of_fmap_2.
Qed.

Lemma link_endpoint_ok dev i t p n a cb d w :
  ept_table (w_heap w) dev i t → unused dev t p → unused dev t n →
  p ≠ n → n ≠ NULL → a ∉ (e_addr <$> t) →
  let e := {| ept_addr := a; rx_cb := cb; rx_cb_data := d |} in
  ∃ heap', link_endpoint dev p n a cb d w = Ok tt (set_heap (λ _, heap') w) ∧
    ept_table heap' dev (set_rl_endpoints n i) ((n, (p, e)) :: t) ∧
    (∀ x, x ∉ p :: n :: dev :: (e_link <$> t).*1 → heap' !! x = w_heap w !! x).
Proof.
  intros Ht (Hpd & Hpe & Hpl) (Hnd & Hne & Hnl) Hpn Hn0 Ha e.
  set (n0 := {| data := p; attr := 0; next := NULL; prev := NULL |}).
  set (w2 := set_heap <[n := ONode n0]> (set_heap <[p := OEpt e]> w)).
  assert (∀ x, x ≠ p → x ≠ n → w_heap w2 !! x = w_heap w !! x) as Hw2.
  { intros x Hxp Hxn. cbn. by rewrite !lookup_insert_ne by done. }
  assert (w_heap w2 !! dev = Some (OInst i)) as Hdev by (rewrite Hw2 by done; apply Ht).
  assert (is_list (w_heap w2) (rl_endpoints i) (e_link <$> t)) as Hl.
  { eapply is_list_frame; [|apply Ht]. intros x Hx. apply Hw2; by intros ->. }
  assert (w_heap w2 !! n = Some (ONode n0)) as Hn2 by apply lookup_insert_eq.
  destruct (add_to_list_ok (rl_endpoints i) n (e_link <$> t) n0 w2 Hl Hn2 Hn0 Hnl)
    as (heap3 & Hrun & Hl3 & Hout & Hnodes).
  set (w3 := set_heap (λ _, heap3) w2) in *.
  assert (∀ x, x ∉ n :: (e_link <$> t).*1 → heap3 !! x = w_heap w2 !! x) as Hh3 by exact Hout.
  assert (dev ∉ (e_link <$> t).*1) as Hdl.
  { intros Hin. destruct (tab_list _ _ _ _ Ht) as [Hs _].
    destruct (seg_nodes _ _ _ _ _ _ Hs Hin) as [m Hm]. by rewrite (tab_inst _ _ _ _ Ht) in Hm. }
  assert (w_heap w3 !! dev = Some (OInst i)) as Hdev3.
  { cbn. rewrite Hh3; [done|]. by apply not_elem_of_cons. }
  exists (<[dev := OInst (set_rl_endpoints n i)]> heap3). split_and!.
  - unfold link_endpoint. unfold put_obj.
    rewrite (bind_ok _ _ _ _ _ (eq_refl : modify _ w = Ok tt _)).
    rewrite (bind_ok _ _ _ _ _ (eq_refl : modify _ _ = Ok tt w2)).
    rewrite (bind_ok _ _ _ _ _ (get_inst_ok _ _ _ Hdev)), (bind_ok _ _ _ _ _ Hrun).
    by rewrite (upd_inst_ok _ _ _ _ Hdev3).
  - constructor.
    + apply lookup_insert_eq.
    + eapply is_list_frame; [|exact Hl3]. intros x Hx. apply lookup_insert_ne. intros <-.
      apply elem_of_cons in Hx as [Hx|Hx]; done.
    + apply Forall_cons. split.
      * cbn. rewrite lookup_insert_ne, Hh3; [|by apply not_elem_of_cons|done].
        cbn. rewrite lookup_insert_ne by done. apply lookup_insert_eq.
      * eapply (epts_kept (w_heap w) _ dev i t t [p; n]); [exact Ht|done| |].
        -- intros x [->|[->|[]%not_elem_of_nil]%elem_of_cons]%elem_of_cons; done.
        -- intros x Hxd Hxl Hxpn. rewrite !not_elem_of_cons in Hxpn. destruct Hxpn as (? & ? & _).
           rewrite lookup_insert_ne by done. rewrite Hh3; [by apply Hw2|]. by apply not_elem_of_cons.
    + cbn. apply NoDup_cons. split; [done|apply Ht].
    + cbn. apply NoDup_cons. split; [done|apply Ht].
  - intros x Hx. rewrite !not_elem_of_cons in Hx. destruct Hx as (? & ? & ? & ?).
    rewrite lookup_insert_ne, Hh3; [by apply Hw2|by apply not_elem_of_cons|done].
Qed.

(** A table survives new objects elsewhere. *)
Lemma ept_table_mono heap heap' dev i t : ept_table heap dev i t → heap ⊆ heap' → ept_table heap' dev i t.
Proof.
  intros [Hi [Hs Hn] He Ha Hp] Hsub. constructor; try done.
  - by eapply lookup_weaken.
  - split; [|done]. eapply seg_frame; [|exact Hs]. intros a Hin.
    destruct (seg_nodes _ _ _ _ _ _ Hs Hin) as [n Hnode]. rewrite Hnode. by eapply lookup_weaken.
  - eapply Forall_impl; [exact He|]. intros x Hx. exact (lookup_weaken _ _ _ _ Hx Hsub).
Qed.

Lemma ept_table_frame heap heap' dev i t :
  (∀ x, x ∈ dev :: (e_link <$> t).*1 ++ (e_ptr <$> t) → heap' !! x = heap !! x) →
  ept_table heap dev i t → ept_table heap' dev i t.
Proof.
  intros Hx [Hi Hl He Ha Hp]. constructor; try done.
  - rewrite Hx; [done|left].
  - eapply is_list_frame; [|exact Hl]. intros x Hin. apply Hx. right. apply elem_of_app. by left.
  - rewrite Forall_forall in He |- *. intros x Hin. rewrite Hx; [by apply He|].
    right. apply elem_of_app. right. by apply list_elem_of_fmap_2.
Qed.

Context {laws : EnvLaws E}.

Lemma choose_addr_ok dev i t lk addr w :
  ept_table (w_heap w) dev i t → Z.of_nat (length t) < 4294967294 → lock_mine (w_env w) lk →
  if decide (addr_taken t addr) then
    ∃ e, choose_addr dev lk addr w = Ok None (set_trace (cons (EvUnlock lk)) (set_env e w)) ∧
      lock_free e lk ∧ same_queues (w_env w) e
  else ∃ a, choose_addr dev lk addr w = Ok (Some a) w ∧ addr_chosen t addr a.
Proof.
  intros Ht Hlen Hl. unfold choose_addr, addr_taken, addr_chosen.
  destruct (Z.eqb_spec addr RL_ADDR_ANY) as [->|Hany].
  - rewrite decide_False by naive_solver. destruct (decide (RL_ADDR_ANY = RL_ADDR_ANY)); [|done].
    rewrite (bind_ok _ _ _ _ _ (eq_refl : get_state w = Ok w w)).
    destruct (find_free_addr_ok dev i t w (S (size (w_heap w))) 1 Ht Hlen) as (a & Hrun & Ha).
    { lia. } { intros; lia. } { pose proof (ept_table_size _ _ _ _ Ht). lia. }
    rewrite (bind_ok _ _ _ _ _ Hrun). exists a. split_and!; [done|apply Ha|done].
  - destruct (decide (addr = RL_ADDR_ANY)); [done|].
    rewrite (bind_ok _ _ _ _ _ (get_endpoint_ok _ _ _ addr w Ht)), (lookup_node_null _ _ _ _ addr Ht).
    case_bool_decide as Hin; cbn [negb].
    + rewrite decide_False by naive_solver. by exists addr.
    + rewrite decide_True by done.
      destruct (env_unlock_ok lk w Hl) as (e & He & Hf & Hq).
      exists e. by rewrite (bind_ok _ _ _ _ _ He).
Qed.

(** Releasing the lock on an error path. *)
Lemma unlock_return lk w {A} (a : A) :
  lock_mine (w_env w) lk →
  ∃ w', (env_unlock_mutex lk;; mret a) w = Ok a w' ∧ w_heap w' = w_heap w ∧ w_mem w' = w_mem w ∧
    w_trace w' = EvUnlock lk :: w_trace w ∧ lock_free (w_env w') lk ∧
    same_queues (w_env w) (w_env w') ∧ (alloc_ok w → alloc_ok w').
Proof.
  intros Hl. destruct (env_unlock_ok lk w Hl) as (e & He & Hf & Hq).
  eexists. rewrite (bind_ok _ _ _ _ _ He). split; [reflexivity|]. cbn. split_and!; try done.
  intros [? ? ?]. constructor; done.
Qed.

Lemma alloc_ok_delete p w : alloc_ok w → alloc_ok (set_heap (delete p) w).
Proof.
  intros [? Hf Hn]. constructor; cbn; [done|intros x Hx|];
    apply lookup_delete_None; right; auto.
Qed.

(** The allocator's invariant depends on which blocks are live only. *)
Lemma alloc_ok_same_dom w w' :
  alloc_ok w → w_next w' = w_next w →
  (∀ x, w_heap w !! x = None → w_heap w' !! x = None) → alloc_ok w'.
Proof. intros [? Hf Hn] Hx Hd. constructor; rewrite ?Hx; auto. Qed.

(** An address where nothing lives is none of the objects of a table. *)
Lemma not_in_live heap dev i t (s : list Z) x :
  ept_table heap dev i t → (∀ y, y ∈ s → is_Some (heap !! y)) → heap !! x = None →
  x ∉ s ++ dev :: (e_link <$> t).*1.
Proof.
  intros Ht Hs Hx Hin. apply elem_of_app in Hin as [Hin|Hin].
  - destruct (Hs x Hin) as [o Ho]. by rewrite Hx in Ho.
  - apply elem_of_cons in Hin as [->|Hin]; [by rewrite (tab_inst _ _ _ _ Ht) in Hx|].
    destruct (tab_list _ _ _ _ Ht) as [Hseg _].
    destruct (seg_nodes _ _ _ _ _ _ Hseg Hin) as [m Hm]. by rewrite Hx in Hm.
Qed.

Lemma ept_storage_dynamic_ok lk c w :
  RL_USE_STATIC_API = false → alloc_ok w → lock_mine (w_env w) lk →
  (∃ w', ept_storage lk c w = Ok None w' ∧ w_heap w' = w_heap w ∧
     w_mem w' = w_mem w ∧ w_trace w' = EvUnlock lk :: w_trace w ∧ lock_free (w_env w') lk ∧
     same_queues (w_env w) (w_env w') ∧ alloc_ok w' ∧
     true ∈ take 2 (w_oom w)) ∨
  (∃ p n w', ept_storage lk c w = Ok (Some (p, n)) w' ∧ alloc_ok w' ∧
     p ≠ n ∧ p ≠ NULL ∧ n ≠ NULL ∧ w_heap w !! p = None ∧ w_heap w !! n = None ∧
     w_heap w' = <[n := Raw]> (<[p := Raw]> (w_heap w)) ∧
     w_mem w' = w_mem w ∧ w_trace w' = w_trace w ∧ w_env w' = w_env w ∧
     true ∉ take 2 (w_oom w)).
Proof.
  intros HS Hok Hl. unfold ept_storage. rewrite HS. clear HS. pose proof (alloc_pos w Hok).
  destruct (env_allocate_memory_ok w Hok) as (w1 & Hok1 & Hm1 & He1 & Ht1 & _ & Ho1 & Hr1).
  destruct (default false (head (w_oom w))) eqn:Hb1; destruct Hr1 as (Hrun1 & Hh1 & Hx1);
    rewrite (bind_ok _ _ _ _ _ Hrun1).
  { left. rewrite Z.eqb_refl. destruct (unlock_return lk w1 (@None (Z * Z))) as (w' & -> & Hw');
      [by rewrite He1|].
    rewrite Hh1, Hm1, Ht1, He1 in Hw'. exists w'. split; [done|]. destruct Hw' as (?&?&?&?&?&?).
    split_and!; auto. destruct (w_oom w); [done|]. cbn in *. subst. left. }
  rewrite (proj2 (Z.eqb_neq (w_next w) NULL)) by (unfold NULL; lia).
  destruct (env_allocate_memory_ok w1 Hok1) as (w2 & Hok2 & Hm2 & He2 & Ht2 & _ & Ho2 & Hr2).
  destruct (default false (head (w_oom w1))) eqn:Hb2; destruct Hr2 as (Hrun2 & Hh2 & Hx2);
    rewrite (bind_ok _ _ _ _ _ Hrun2).
  - left. rewrite Z.eqb_refl.
    assert (w_heap w2 !! w_next w = Some Raw) as Hraw by (rewrite Hh2, Hh1; apply lookup_insert_eq).
    rewrite (bind_ok _ _ _ _ _ (env_free_memory_ok (w_next w) Raw w2 ltac:(unfold NULL; lia) Hraw)).
    destruct (unlock_return lk (set_heap (delete (w_next w)) w2) (@None (Z * Z))) as (w' & -> & Hw');
      [cbn; by rewrite He2, He1|].
    cbn in Hw'. rewrite Hh2, Hh1, Hm2, Hm1, Ht2, Ht1, He2, He1 in Hw'.
    rewrite delete_insert_id in Hw' by (apply Hok; lia).
    exists w'. split; [done|]. destruct Hw' as (?&?&?&?&?&Ha). split_and!; auto.
    + by apply Ha, alloc_ok_delete.
    + rewrite Ho1 in Hb2. destruct (w_oom w) as [|b1 [|b2 o]]; cbn in *; try done. subst. right. left.
  - right. rewrite Hx1 in *. rewrite (proj2 (Z.eqb_neq (w_next w + 1) NULL)) by (unfold NULL; lia).
    exists (w_next w), (w_next w + 1), w2. rewrite Hh2, Hh1, Hm2, Hm1, Ht2, Ht1, He2, He1.
    split_and!; try done; try (unfold NULL; lia); try (apply Hok; lia).
    rewrite Ho1 in Hb2. destruct (w_oom w) as [|b1 [|b2 o]]; cbn in *; subst; set_solver.
Qed.

(** No blocks for the endpoint: no context with the static API, no memory
    otherwise. *)
Definition storage_fails (w : world E) (c : option (Z * Z)) : Prop :=
  if RL_USE_STATIC_API then c = None else true ∈ take 2 (w_oom w).
#[global] Instance storage_fails_dec w c : Decision (storage_fails w c).
Proof. unfold storage_fails. destruct RL_USE_STATIC_API; apply _. Defined.

(** Where the endpoint and its node are: in the context with the static API, in
    fresh blocks otherwise. *)
Definition stored_at (w : world E) (c : option (Z * Z)) (p n : Z) : Prop :=
  if RL_USE_STATIC_API then c = Some (p, n) else w_heap w !! p = None ∧ w_heap w !! n = None.

Lemma ept_storage_ok dev i t lk c w :
  alloc_ok w → lock_mine (w_env w) lk → ept_table (w_heap w) dev i t →
  (RL_USE_STATIC_API = true → context_free (w_heap w) dev t c) →
  (∃ w', ept_storage lk c w = Ok None w' ∧ w_heap w' = w_heap w ∧
     w_mem w' = w_mem w ∧ w_trace w' = EvUnlock lk :: w_trace w ∧ lock_free (w_env w') lk ∧
     same_queues (w_env w) (w_env w') ∧ alloc_ok w' ∧ storage_fails w c) ∨
  (∃ p n w', ept_storage lk c w = Ok (Some (p, n)) w' ∧ alloc_ok w' ∧
     p ≠ n ∧ p ≠ NULL ∧ n ≠ NULL ∧ unused dev t p ∧ unused dev t n ∧ stored_at w c p n ∧
     is_Some (w_heap w' !! p) ∧ is_Some (w_heap w' !! n) ∧ ept_table (w_heap w') dev i t ∧
     (∀ y, y ≠ p → y ≠ n → w_heap w' !! y = w_heap w !! y) ∧
     w_mem w' = w_mem w ∧ w_trace w' = w_trace w ∧ w_env w' = w_env w ∧ ¬ storage_fails w c).
Proof.
  intros Hok Hl Ht Hc. unfold storage_fails, stored_at. destruct RL_USE_STATIC_API eqn:HS.
  - specialize (Hc eq_refl). unfold ept_storage. rewrite HS. destruct c as [[p n]|].
    + destruct Hc as (? & ? & ? & ? & ? & ? & ?). right. exists p, n, w. by split_and!.
    + left. destruct (unlock_return lk w (@None (Z * Z)) Hl) as (w' & -> & ? & ? & ? & ? & ? & ?).
      exists w'. split_and!; auto.
  - destruct (ept_storage_dynamic_ok lk c w HS Hok Hl) as
      [(w' & R & Hw')|(p & n & w' & R & Hok' & Hpn & Hp0 & Hn0 & Hp & Hn & Hh & Hm & Htr & He & Ho)].
    { left. exists w'. by split. }
    right. exists p, n, w'. rewrite Hh, lookup_insert_eq, lookup_insert_ne, lookup_insert_eq by done.
    assert (∀ y, w_heap w !! y = None → unused dev t y) as Hun.
    { intros y Hy. apply (table_fresh (w_heap w) dev i); [done|]. unfold node_not_in. by rewrite Hy. }
    split_and!; auto; try by eexists.
    + eapply ept_table_mono; [exact Ht|]. etrans; [apply (insert_subseteq _ p Raw Hp)|].
      apply insert_subseteq. by rewrite lookup_insert_ne.
    + intros y Hyp Hyn. by rewrite !lookup_insert_ne.
Qed.

(** Live objects that are neither of the table nor of the new endpoint are as
    before. *)
Definition keeps_others (dev : Z) (t : list entry) (p n : Z) (heap heap' : gmap Z obj) : Prop :=
  ∀ y, is_Some (heap !! y) → y ∉ p :: n :: dev :: (e_link <$> t).*1 → heap' !! y = heap !! y.

Lemma create_ept_ok dev i t addr cb d c w :
  alloc_ok w → dev ≠ NULL → lock_free (w_env w) (lock i) →
  ept_table (w_heap w) dev i t → Z.of_nat (length t) < 4294967294 →
  (RL_USE_STATIC_API = true → context_free (w_heap w) dev t c) →
  ∃ r w', rpmsg_lite_create_ept dev addr cb d c w = Ok r w' ∧
    locked_call (lock i) w w' ∧ alloc_ok w' ∧
    if decide (addr_taken t addr ∨ storage_fails w c) then
      r = NULL ∧ w_heap w' = w_heap w
    else ∃ n a, addr_chosen t addr a ∧ r ≠ NULL ∧ n ≠ NULL ∧
      ept_table (w_heap w') dev (set_rl_endpoints n i)
        ((n, (r, {| ept_addr := a; rx_cb := cb; rx_cb_data := d |})) :: t) ∧
      stored_at w c r n ∧ keeps_others dev t r n (w_heap w) (w_heap w').
Proof.
  intros Hok Hdev Hl Ht Hlen Hc. unfold rpmsg_lite_create_ept.
  rewrite (proj2 (Z.eqb_neq dev NULL) Hdev).
  rewrite (bind_ok _ _ _ _ _ (get_inst_ok _ _ _ (tab_inst _ _ _ _ Ht))).
  destruct (env_lock_ok _ _ Hl) as (e1 & He1 & Hmine & Hq1). rewrite (bind_ok _ _ _ _ _ He1).
  set (w1 := set_trace _ _).
  assert (alloc_ok w1) as Hok1 by (destruct Hok; constructor; done).
  pose proof (choose_addr_ok dev i t (lock i) addr w1 Ht Hlen Hmine) as Hch.
  set (fails := addr_taken t addr ∨ storage_fails w c).
  assert (∀ P Q : Prop, fails → P → if decide fails then P else Q) as Hthen
    by (intros P Q Hfs HP; by rewrite decide_True).
  assert (∀ P Q : Prop, ¬ fails → Q → if decide fails then P else Q) as Helse
    by (intros P Q Hfs HQ; by rewrite decide_False).
  destruct (decide (addr_taken t addr)) as [Htaken|Hfree].
  { destruct Hch as (e2 & He2 & Hf & Hq2).
    rewrite (bind_ok _ _ _ _ _ He2). eexists NULL, _. split; [reflexivity|].
    split; [|split; [destruct Hok1; by constructor|apply Hthen; [by left|done]]].
    constructor; cbn; try done. by etrans; [exact Hq1|]. }
  destruct Hch as (a & Ha & Hchosen). rewrite (bind_ok _ _ _ _ _ Ha).
  destruct (ept_storage_ok dev i t (lock i) c w1 Hok1 Hmine Ht Hc) as
    [(w2 & Hrun & Hh & Hm & Htr & Hf & Hq2 & Hok2 & Hoom)
    |(p & n & w2 & Hrun & Hok2 & Hpn & Hp0 & Hn0 & Hup & Hun & Hat & Hp2 & Hn2 & Ht2 & Hk2 & Hm & Htr & He & Hoom)];
    rewrite (bind_ok _ _ _ _ _ Hrun).
  { exists NULL, w2. split; [done|].
    split; [|split; [done|apply Hthen; [by right|by rewrite Hh]]].
    constructor; [done|by rewrite Hm|by rewrite Htr|]. by etrans; [exact Hq1|]. }
  destruct (link_endpoint_ok dev i t p n a cb d w2 Ht2 Hup Hun Hpn Hn0 (proj1 Hchosen))
    as (heap3 & Hlink & Htab & Hout). rewrite (bind_ok _ _ _ _ _ Hlink).
  destruct (unlock_return (lock i) (set_heap (λ _, heap3) w2) p) as (w4 & -> & Hh4 & Hm4 & Htr4 & Hf4 & Hq4 & Hok4);
    [cbn; by rewrite He|]. cbn in Hh4, Hm4, Htr4, Hq4.
  exists p, w4. split; [done|]. split; [|split].
  - constructor; [done|by rewrite Hm4, Hm|by rewrite Htr4, Htr|]. rewrite He in Hq4. by etrans; [exact Hq1|].
  - apply Hok4. eapply alloc_ok_same_dom; [exact Hok2|done|]. intros x Hx. cbn. rewrite Hout; [done|].
    eapply (not_in_live _ _ _ _ [p; n]); [exact Ht2| |exact Hx]. intros y Hy.
    by apply elem_of_cons in Hy as [->|[->|[]%not_elem_of_nil]%elem_of_cons].
  - apply Helse; [by intros [?|?]|]. exists n, a. rewrite Hh4. do 5 (split; [done|]).
    intros y _ Hyt. rewrite Hout by done. rewrite !not_elem_of_cons in Hyt. apply Hk2; tauto.
Qed.

(** With the dynamic API. *)
Lemma create_ept_dynamic_ok dev i t addr cb d w :
  RL_USE_STATIC_API = false → alloc_ok w → dev ≠ NULL → lock_free (w_env w) (lock i) →
  ept_table (w_heap w) dev i t → Z.of_nat (length t) < 4294967294 →
  ∃ r w', rpmsg_lite_create_ept dev addr cb d None w = Ok r w' ∧
    locked_call (lock i) w w' ∧ alloc_ok w' ∧
    if decide (addr_taken t addr ∨ true ∈ take 2 (w_oom w)) then
      r = NULL ∧ w_heap w' = w_heap w
    else ∃ n a, addr_chosen t addr a ∧ r ≠ NULL ∧
      ept_table (w_heap w') dev (set_rl_endpoints n i)
        ((n, (r, {| ept_addr := a; rx_cb := cb; rx_cb_data := d |})) :: t) ∧
      (w_heap w !! r = None ∧ w_heap w !! n = None) ∧
      ∀ y, is_Some (w_heap w !! y) → y ∉ dev :: (e_link <$> t).*1 → w_heap w' !! y = w_heap w !! y.
Proof.
  intros HS Hok Hdev Hl Ht Hlen.
  destruct (create_ept_ok dev i t addr cb d None w Hok Hdev Hl Ht Hlen ltac:(by rewrite HS)) as (r & w' & R & Hlc & Hok' & Hres).
  exists r, w'. do 3 (split; [done|]). unfold stored_at in Hres. rewrite HS in Hres.
  assert (storage_fails w None ↔ true ∈ take 2 (w_oom w)) as Hsf by (unfold storage_fails; by rewrite HS).
  case_decide; case_decide; [done|tauto|tauto|]. destruct Hres as (n & a & ? & ? & _ & ? & [Fr Fn] & Hk). exists n, a. split_and!; try done.
  intros y [oy Hy] Hyt. apply Hk; [by eexists|]. rewrite !not_elem_of_cons in *. split_and!; try apply Hyt; congruence.
Qed.

Lemma e_nodes t : (e_link <$> t).*1 = e_node <$> t.
Proof. by rewrite <- list_fmap_compose. Qed.

(** The node found for an entry of the table is the entry's. *)
Lemma lookup_node_mid t1 x t2 :
  NoDup (e_addr <$> t1 ++ x :: t2) → lookup_node (t1 ++ x :: t2) (e_addr x) = e_node x.
Proof.
  intros Hn. induction t1 as [|y t1 IH]; cbn in *; apply NoDup_cons in Hn as [Hy Hn];
    rewrite lookup_node_cons.
  - by rewrite decide_True.
  - rewrite decide_False; [by apply IH|]. intros E0. apply Hy. rewrite E0.
    rewrite fmap_app. apply elem_of_app. right. left.
Qed.

(** Pairwise different, so the removed one is not among the others. *)
Lemma NoDup_removed {A} (f : entry → A) t1 x t2 :
  NoDup (f <$> t1 ++ x :: t2) → (f x ∉ (f <$> t1 ++ t2)) ∧ NoDup (f <$> t1 ++ t2).
Proof.
  rewrite !fmap_app, fmap_cons. intros Hn. apply NoDup_app in Hn as (H1 & H2 & H3).
  apply NoDup_cons in H3 as [H3 H4]. split.
  - intros [Hin|Hin]%elem_of_app; [|done]. apply (H2 _ Hin). left.
  - apply NoDup_app. split_and!; try done. intros y Hy Hy'. apply (H2 y Hy). by right.
Qed.

(** Unlinking an endpoint and releasing its two blocks. *)
Lemma ept_table_unlink heap heap3 dev i t1 x t2 h' :
  ept_table heap dev i (t1 ++ x :: t2) →
  is_list heap3 h' ((e_link <$> t1) ++ (e_link <$> t2)) →
  only_nodes ((e_link <$> t1) ++ (e_link <$> t2)).*1 heap heap3 →
  ept_table (delete (e_ptr x) (delete (e_node x) (<[dev := OInst (set_rl_endpoints h' i)]> heap3)))
    dev (set_rl_endpoints h' i) (t1 ++ t2).
Proof.
  intros Ht Hl [Hout Hnodes]. rewrite <- fmap_app in Hl, Hout, Hnodes.
  set (t := t1 ++ x :: t2) in *. assert (x ∈ t) as Hxt by (apply elem_of_app; right; left).
  destruct (tab_list _ _ _ _ Ht) as [Hs Hnd]. rewrite e_nodes in Hnd.
  destruct (NoDup_removed e_node _ _ _ Hnd) as [Hxn Hn'].
  destruct (NoDup_removed e_ptr _ _ _ (tab_ptrs _ _ _ _ Ht)) as [Hxp Hp'].
  destruct (NoDup_removed e_addr _ _ _ (tab_addrs _ _ _ _ Ht)) as [_ Ha'].
  assert (heap !! e_ptr x = Some (OEpt x.2.2)) as Hpx.
  { pose proof (tab_epts _ _ _ _ Ht) as He. rewrite Forall_forall in He. by apply He. }
  assert (∀ a, a ∈ (e_node <$> t) → ∃ m, heap !! a = Some (ONode m)) as Hnode.
  { intros a Ha. rewrite <- e_nodes in Ha. exact (seg_nodes _ _ _ _ _ _ Hs Ha). }
  assert (∀ a, a ∈ (e_node <$> t1 ++ t2) → a ∈ (e_node <$> t)) as Hsub.
  { intros a. unfold t. rewrite !fmap_app, fmap_cons, !elem_of_app, elem_of_cons. tauto. }
  destruct (Hnode (e_node x)) as [mx Hmx]; [by apply list_elem_of_fmap_2|].
  pose proof (tab_inst _ _ _ _ Ht) as Hdev.
  assert (e_ptr x ≠ dev) by (intros E0; rewrite E0, Hdev in Hpx; done).
  assert (e_node x ≠ dev) by (intros E0; rewrite E0, Hdev in Hmx; done).
  constructor; try done.
  - rewrite !lookup_delete_ne by done. apply lookup_insert_eq.
  - eapply is_list_frame; [|exact Hl]. intros a Ha. rewrite e_nodes in Ha.
    destruct (Hnode a (Hsub a Ha)) as [m Hm].
    rewrite !lookup_delete_ne, lookup_insert_ne; [done|..].
    + intros <-. by rewrite Hdev in Hm.
    + by intros <-.
    + intros <-. by rewrite Hpx in Hm.
  - eapply (epts_kept heap _ dev i t _ [e_node x; e_ptr x]); [exact Ht|..].
    + intros y. unfold t. rewrite !elem_of_app, elem_of_cons. tauto.
    + intros a [->|[->|[]%not_elem_of_nil]%elem_of_cons]%elem_of_cons; [|done].
      intros Hin. apply list_elem_of_fmap in Hin as (y & Hy & Hyin).
      pose proof (tab_epts _ _ _ _ Ht) as He. rewrite Forall_forall in He.
      specialize (He y). rewrite <- Hy, Hmx in He. discriminate He.
      unfold t. rewrite elem_of_app in Hyin |- *. rewrite elem_of_cons. tauto.
    + intros a Had Hal Has. rewrite !not_elem_of_cons in Has. destruct Has as (? & ? & _).
      rewrite !lookup_delete_ne, lookup_insert_ne by done. apply Hout.
      rewrite e_nodes in Hal |- *. intros Hin. by apply Hal, Hsub.
Qed.

Lemma fmap_removed {A} (f : entry → A) t1 x t2 a :
  a ∈ (f <$> t1 ++ t2) → a ∈ (f <$> t1 ++ x :: t2).
Proof. rewrite !fmap_app, fmap_cons, !elem_of_app, elem_of_cons. tauto. Qed.

(** The instance, the removed node and its endpoint are not rewritten by the
    unlinking. *)
Lemma removed_untouched heap heap3 dev i t1 x t2 :
  ept_table heap dev i (t1 ++ x :: t2) →
  only_nodes ((e_link <$> t1) ++ (e_link <$> t2)).*1 heap heap3 →
  heap3 !! dev = Some (OInst i) ∧ heap3 !! e_node x = heap !! e_node x ∧
  heap3 !! e_ptr x = heap !! e_ptr x.
Proof.
  intros Ht [Hout _]. rewrite <- fmap_app, e_nodes in Hout.
  destruct (tab_list _ _ _ _ Ht) as [Hs Hnd]. rewrite e_nodes in Hnd.
  destruct (NoDup_removed e_node _ _ _ Hnd) as [Hxn _].
  assert (∀ a, a ∈ (e_node <$> t1 ++ t2) → ∃ m, heap !! a = Some (ONode m)) as Hnode.
  { intros a Ha. apply (seg_nodes _ _ _ _ _ _ Hs). rewrite e_nodes. by apply fmap_removed. }
  pose proof (tab_epts _ _ _ _ Ht) as He. rewrite Forall_forall in He. specialize (He x).
  split_and!; [rewrite Hout; [apply Ht|]|by apply Hout|apply Hout].
  - intros Hin. destruct (Hnode _ Hin) as [m Hm]. by rewrite (tab_inst _ _ _ _ Ht) in Hm.
  - intros Hin. destruct (Hnode _ Hin) as [m Hm]. rewrite He in Hm; [done|].
    apply elem_of_app. right. left.
Qed.

(** Freeing the node and the endpoint behind the released lock. *)
Lemma free_two n p o1 o2 (w : world E) :
  n ≠ NULL → p ≠ NULL → n ≠ p → w_heap w !! n = Some o1 → w_heap w !! p = Some o2 →
  ((env_free_memory n;; env_free_memory p);; mret RL_SUCCESS) w =
    Ok RL_SUCCESS (set_heap (λ h, delete p (delete n h)) w).
Proof.
  intros Hn Hp Hnp Ho1 Ho2.
  pose proof (env_free_memory_ok n o1 w Hn Ho1) as H1.
  assert (w_heap (set_heap (delete n) w) !! p = Some o2) as Ho2' by (cbn; by rewrite lookup_delete_ne).
  pose proof (env_free_memory_ok p o2 _ Hp Ho2') as H2.
  cbv [mbind M_bind]. by rewrite H1, H2.
Qed.

(** With the dynamic API the blocks of a destroyed endpoint are free; those of a
    static context stay as they are. *)
Definition blocks_released (ps : list Z) (heap heap' : gmap Z obj) : Prop :=
  ∀ y, y ∈ ps → heap' !! y = if RL_USE_STATIC_API then heap !! y else None.

Lemma destroy_locked_ok dev i t1 x t2 w :
  alloc_ok w → e_ptr x ≠ NULL →
  lock_mine (w_env w) (lock i) → ept_table (w_heap w) dev i (t1 ++ x :: t2) →
  ∃ h' heap' e, destroy_locked dev (e_ptr x) (lock i) w =
      Ok RL_SUCCESS (set_heap (λ _, heap') (set_trace (cons (EvUnlock (lock i))) (set_env e w))) ∧
    lock_free e (lock i) ∧ same_queues (w_env w) e ∧
    ept_table heap' dev (set_rl_endpoints h' i) (t1 ++ t2) ∧
    (∀ a, w_heap w !! a = None → heap' !! a = None) ∧
    blocks_released [e_node x; e_ptr x] (w_heap w) heap' ∧
    (∀ y, y ≠ e_ptr x → y ∉ dev :: (e_link <$> t1 ++ x :: t2).*1 → heap' !! y = w_heap w !! y).
Proof.
  intros Hok Hp0 Hl Ht. unfold destroy_locked. set (t := t1 ++ x :: t2) in *.
  assert (x ∈ t) as Hxt by (apply elem_of_app; right; left).
  assert (w_heap w !! e_ptr x = Some (OEpt x.2.2)) as Hpx.
  { pose proof (tab_epts _ _ _ _ Ht) as He. rewrite Forall_forall in He. by apply He. }
  rewrite (bind_ok _ _ _ _ _ (get_ept_ok _ _ _ Hpx)).
  rewrite (bind_ok _ _ _ _ _ (get_endpoint_ok _ _ _ _ _ Ht)).
  fold (e_addr x). unfold t. rewrite lookup_node_mid by apply Ht.
  destruct (tab_list _ _ _ _ Ht) as [Hs Hnd].
  assert (e_node x ∈ (e_link <$> t).*1) as Hxn by (rewrite e_nodes; by apply list_elem_of_fmap_2).
  destruct (seg_nodes _ _ _ _ _ _ Hs Hxn) as [mx Hmx].
  assert (e_node x ≠ NULL) as Hn0.
  { intros E0. rewrite E0 in Hmx. by rewrite (alloc_null _ Hok) in Hmx. }
  rewrite (proj2 (Z.eqb_neq _ NULL) Hn0). cbn [negb].
  rewrite (bind_ok _ _ _ _ _ (get_inst_ok _ _ _ (tab_inst _ _ _ _ Ht))).
  pose proof (tab_list _ _ _ _ Ht) as Hl0. unfold t in Hl0. rewrite fmap_app, fmap_cons in Hl0.
  destruct (remove_from_list_ok _ _ _ _ _ _ Hl0) as (h' & heap3 & Hrun & Hl3 & Honly).
  rewrite (bind_ok _ _ _ _ _ Hrun).
  pose proof (ept_table_unlink _ _ _ _ _ _ _ _ Ht Hl3 Honly) as Htab.
  destruct (removed_untouched _ _ _ _ _ _ _ Ht Honly) as (Hd3 & Hn3 & Hp3).
  set (w3 := set_heap (λ _, heap3) w).
  rewrite (bind_ok _ _ _ _ _ (upd_inst_ok dev _ i w3 Hd3)).
  set (w4 := set_heap _ w3). assert (lock_mine (w_env w4) (lock i)) as Hl4 by exact Hl.
  destruct (env_unlock_ok _ _ Hl4) as (e & He & Hf & Hq). rewrite (bind_ok _ _ _ _ _ He).
  assert (e_ptr x ≠ dev) by (intros E0; rewrite E0, (tab_inst _ _ _ _ Ht) in Hpx; done).
  assert (e_node x ≠ dev) by (intros E0; rewrite E0, (tab_inst _ _ _ _ Ht) in Hmx; done).
  assert (e_node x ≠ e_ptr x) by (intros E0; rewrite E0, Hpx in Hmx; done).
  assert (∀ y, y ∉ dev :: (e_link <$> t).*1 → <[dev := OInst (set_rl_endpoints h' i)]> heap3 !! y = w_heap w !! y) as Hout.
  { intros y Hy. rewrite not_elem_of_cons in Hy. destruct Hy as [Hyd Hy]. rewrite lookup_insert_ne by done.
    apply (proj1 Honly). intros Hin. apply Hy. rewrite <- fmap_app, e_nodes in Hin. rewrite e_nodes. by apply fmap_removed. }
  assert (∀ a, w_heap w !! a = None → <[dev := OInst (set_rl_endpoints h' i)]> heap3 !! a = None) as Hnone.
  { intros a Ha. rewrite Hout; [done|]. by apply (not_in_live _ _ _ _ [] _ Ht ltac:(intros ? []%not_elem_of_nil)). }
  unfold blocks_released. destruct RL_USE_STATIC_API.
  - exists h', (<[dev := OInst (set_rl_endpoints h' i)]> heap3), e. split_and!; [reflexivity|done|exact Hq| |done| |auto].
    + eapply ept_table_mono; [exact Htab|]. etrans; apply delete_subseteq.
    + intros y [->|[->|[]%not_elem_of_nil]%elem_of_cons]%elem_of_cons; by rewrite lookup_insert_ne.
  - rewrite (free_two _ _ (ONode mx) (OEpt x.2.2)); try done.
    2,3: cbn; rewrite lookup_insert_ne by done; by rewrite ?Hn3, ?Hp3.
    exists h', (delete (e_ptr x) (delete (e_node x) (<[dev := OInst (set_rl_endpoints h' i)]> heap3))), e.
    split_and!; [reflexivity|done|exact Hq|exact Htab| | |].
    + intros a Ha. rewrite !lookup_delete_None. auto.
    + intros y [->|[->|[]%not_elem_of_nil]%elem_of_cons]%elem_of_cons; [rewrite lookup_delete_ne by done|]; apply lookup_delete_eq.
    + intros y Hyp Hy. rewrite !lookup_delete_ne; [by apply Hout| |by intros <-].
      intros <-. apply Hy. by right.
Qed.

Lemma destroy_ept_ok dev i t1 x t2 w :
  alloc_ok w → dev ≠ NULL → e_ptr x ≠ NULL →
  lock_free (w_env w) (lock i) → ept_table (w_heap w) dev i (t1 ++ x :: t2) →
  ∃ h' w', rpmsg_lite_destroy_ept dev (e_ptr x) w = Ok RL_SUCCESS w' ∧
    locked_call (lock i) w w' ∧ alloc_ok w' ∧
    ept_table (w_heap w') dev (set_rl_endpoints h' i) (t1 ++ t2) ∧
    blocks_released [e_node x; e_ptr x] (w_heap w) (w_heap w') ∧
    (∀ y, y ≠ e_ptr x → y ∉ dev :: (e_link <$> t1 ++ x :: t2).*1 → w_heap w' !! y = w_heap w !! y).
Proof.
  intros Hok Hdev Hp0 Hl Ht. unfold rpmsg_lite_destroy_ept.
  rewrite (proj2 (Z.eqb_neq dev NULL) Hdev), (proj2 (Z.eqb_neq _ NULL) Hp0).
  rewrite (bind_ok _ _ _ _ _ (get_inst_ok _ _ _ (tab_inst _ _ _ _ Ht))).
  destruct (env_lock_ok _ _ Hl) as (e1 & He1 & Hmine & Hq1). rewrite (bind_ok _ _ _ _ _ He1).
  set (w1 := set_trace _ _).
  assert (alloc_ok w1) as Hok1 by (destruct Hok; by constructor).
  destruct (destroy_locked_ok dev i t1 x t2 w1 Hok1 Hp0 Hmine Ht)
    as (h' & heap' & e & Hrun & Hf & Hq & Htab & Hfree & Hrel & Hoth).
  exists h'. eexists. split; [exact Hrun|]. split; [|split].
  - constructor; cbn; try done. by etrans; [exact Hq1|].
  - destruct Hok as [? Hfr ?]. constructor; cbn; [done|intros a Ha; apply Hfree, Hfr, Ha|by apply Hfree].
  - done.
Qed.

End lemmas.

(** ** The theorems *)

Section theorems.
Context {E : Type} {el : EnvLayer E} {cfg : Config} {laws : EnvLaws E}.
Implicit Types w : world E.

(** The linked list implements a list: [add_to_list] puts a node in front,
    [remove_from_list] takes out exactly the given node, whichever position it
    has, and both write no object but nodes of that list. *)
Theorem llist_operations h l1 a d l2 n x w :
  is_list (w_heap w) h (l1 ++ (a, d) :: l2) →
  w_heap w !! x = Some (ONode n) → x ≠ NULL → x ∉ (l1 ++ (a, d) :: l2).*1 →
  (∃ heap', add_to_list h x w = Ok x (set_heap (λ _, heap') w) ∧
     is_list heap' x ((x, data n) :: l1 ++ (a, d) :: l2) ∧
     only_nodes (x :: (l1 ++ (a, d) :: l2).*1) (w_heap w) heap') ∧
  (∃ h' heap', remove_from_list h a w = Ok h' (set_heap (λ _, heap') w) ∧
     is_list heap' h' (l1 ++ l2) ∧ only_nodes (l1 ++ l2).*1 (w_heap w) heap').
Proof. intros Hl Hn Hx Hnot. split; [by apply add_to_list_ok|by eapply remove_from_list_ok]. Qed.

(** C15.  [rpmsg_lite_create_ept], with either API.  Without an instance the
    answer is NULL and nothing happens.  Otherwise the call returns with the lock
    of the instance taken and released once.  If the address is taken, or there
    is no storage (an allocation fails; with the static API, no context was
    given), it returns NULL and the heap is as before, so that nothing leaks.
    Otherwise the result is a live endpoint, in fresh blocks or in the context
    given, with the requested address (for [RL_ADDR_ANY] the lowest free one),
    callback and data; it is what lookups of that address now find, every other
    lookup answers as before, the table is again well formed and no other object
    was changed. *)
Theorem create_ept_correct dev i t addr cb d c w :
  alloc_ok w → dev ≠ NULL → lock_free (w_env w) (lock i) →
  ept_table (w_heap w) dev i t → Z.of_nat (length t) < 4294967294 →
  (RL_USE_STATIC_API = true → context_free (w_heap w) dev t c) →
  rpmsg_lite_create_ept NULL addr cb d c w = Ok NULL w ∧
  ∃ r w', rpmsg_lite_create_ept dev addr cb d c w = Ok r w' ∧
    locked_call (lock i) w w' ∧ alloc_ok w' ∧
    if decide (addr_taken t addr ∨ storage_fails w c) then
      r = NULL ∧ w_heap w' = w_heap w
    else ∃ n a, addr_chosen t addr a ∧ r ≠ NULL ∧ stored_at w c r n ∧
      get_ept r w' = Ok {| ept_addr := a; rx_cb := cb; rx_cb_data := d |} w' ∧
      (∀ b, rpmsg_lite_get_endpoint_from_addr dev b w' =
         Ok (if decide (a = b) then n else lookup_node t b) w') ∧
      ept_table (w_heap w') dev (set_rl_endpoints n i)
        ((n, (r, {| ept_addr := a; rx_cb := cb; rx_cb_data := d |})) :: t) ∧
      keeps_others dev t r n (w_heap w) (w_heap w').
Proof.
  intros Hok Hdev Hl Ht Hlen Hc. split; [done|].
  destruct (create_ept_ok dev i t addr cb d c w Hok Hdev Hl Ht Hlen Hc) as (r & w' & Hrun & Hlc & Hok' & Hres).
  exists r, w'. do 3 (split; [done|]). case_decide; [done|].
  destruct Hres as (n & a & Hch & Hr & _ & Htab & Hat & Hk). exists n, a. do 3 (split; [done|]).
  split; [|split; [|done]].
  - apply get_ept_ok. pose proof (tab_epts _ _ _ _ Htab) as He. by apply Forall_cons in He as [He _].
  - intros b. rewrite (get_endpoint_ok _ _ _ _ _ Htab), lookup_node_cons. done.
Qed.

(** C23.  [rpmsg_lite_destroy_ept], with either API.  For an endpoint of the
    table the call returns [RL_SUCCESS], its two blocks are released (with the
    static API they are the application's and stay as they are), its address is
    found no more, every other endpoint is found as before and no other object is
    changed; for an endpoint whose address is not in the table, and for NULL
    arguments, it returns [RL_ERR_PARAM] and the heap is unchanged.  The lock is
    released in every case. *)
Theorem destroy_ept_correct dev i t1 x t2 w :
  alloc_ok w → dev ≠ NULL → e_ptr x ≠ NULL →
  lock_free (w_env w) (lock i) → ept_table (w_heap w) dev i (t1 ++ x :: t2) →
  (∃ h' w', rpmsg_lite_destroy_ept dev (e_ptr x) w = Ok RL_SUCCESS w' ∧
     locked_call (lock i) w w' ∧ alloc_ok w' ∧
     blocks_released [e_node x; e_ptr x] (w_heap w) (w_heap w') ∧
     rpmsg_lite_get_endpoint_from_addr dev (e_addr x) w' = Ok NULL w' ∧
     (∀ b, rpmsg_lite_get_endpoint_from_addr dev b w' = Ok (lookup_node (t1 ++ t2) b) w') ∧
     ept_table (w_heap w') dev (set_rl_endpoints h' i) (t1 ++ t2) ∧
     (∀ y, y ≠ e_ptr x → y ∉ dev :: (e_link <$> t1 ++ x :: t2).*1 → w_heap w' !! y = w_heap w !! y)) ∧
  (∀ p e, p ≠ NULL → w_heap w !! p = Some (OEpt e) → ept_addr e ∉ (e_addr <$> t1 ++ x :: t2) →
     ∃ w', rpmsg_lite_destroy_ept dev p w = Ok RL_ERR_PARAM w' ∧
       locked_call (lock i) w w' ∧ w_heap w' = w_heap w) ∧
  (∀ p, rpmsg_lite_destroy_ept NULL p w = Ok RL_ERR_PARAM w ∧
        rpmsg_lite_destroy_ept dev NULL w = Ok RL_ERR_PARAM w).
Proof.
  intros Hok Hdev Hp0 Hl Ht. split_and!.
  - destruct (destroy_ept_ok dev i t1 x t2 w Hok Hdev Hp0 Hl Ht)
      as (h' & w' & Hrun & Hlc & Hok' & Htab & Hrel & Hoth).
    exists h', w'. split_and!; try done.
    + rewrite (get_endpoint_ok _ _ _ _ _ Htab), lookup_node_out; [done|].
      by destruct (NoDup_removed e_addr _ _ _ (tab_addrs _ _ _ _ Ht)).
    + intros b. by rewrite (get_endpoint_ok _ _ _ _ _ Htab).
  - intros p e Hp He Hnot. unfold rpmsg_lite_destroy_ept, destroy_locked.
    rewrite (proj2 (Z.eqb_neq dev NULL) Hdev), (proj2 (Z.eqb_neq p NULL) Hp).
    rewrite (bind_ok _ _ _ _ _ (get_inst_ok _ _ _ (tab_inst _ _ _ _ Ht))).
    destruct (env_lock_ok _ _ Hl) as (e1 & He1 & Hmine & Hq1). rewrite (bind_ok _ _ _ _ _ He1).
    set (w1 := set_trace _ _). rewrite (bind_ok _ _ _ _ _ (get_ept_ok p e w1 He)).
    rewrite (bind_ok _ _ _ _ _ (get_endpoint_ok dev i _ _ w1 Ht)), lookup_node_out by done.
    rewrite Z.eqb_refl. cbn [negb].
    destruct (unlock_return (lock i) w1 RL_ERR_PARAM Hmine) as (w' & Hrun & Hh & Hm & Htr & Hf & Hq & _).
    exists w'. split; [exact Hrun|]. split; [|by rewrite Hh]. constructor; [done|by rewrite Hm|by rewrite Htr|].
    by etrans; [exact Hq1|].
  - intros p. unfold rpmsg_lite_destroy_ept. rewrite !Z.eqb_refl.
    by rewrite (proj2 (Z.eqb_neq dev NULL) Hdev).
Qed.

End theorems.

(** ** The theorems on a concrete state *)

(** An instance with one endpoint, of address 1. *)
Definition c_ept : rpmsg_lite_endpoint :=
  {| ept_addr := 1; rx_cb := application_rx_cb 0; rx_cb_data := 0 |}.
Definition c_node : llist := {| data := 3; attr := 0; next := NULL; prev := NULL |}.
Definition c_inst1 : rpmsg_lite_instance := set_rl_endpoints 2 (c_inst 1).
Definition c_node2 : llist := {| data := 5; attr := 0; next := NULL; prev := NULL |}.
Definition c_one : world (bm sim) :=
  Build_world ∅ {[ 1 := OInst c_inst1; 2 := ONode c_node; 3 := OEpt c_ept; 6 := ONode c_node2 ]}
    10 [] 0 sim_start [].
Definition c_entry : entry := (2, (3, c_ept)).

Definition c_env : EnvLayer (bm sim) := @bm_env sim _ default_config 4.
Definition c_laws : @EnvLaws (bm sim) c_env := @bm_laws sim _ default_config 4.

Lemma c_one_table : ept_table (w_heap c_one) 1 c_inst1 [c_entry].
Proof.
  constructor; [done| |by repeat constructor|apply NoDup_singleton|apply NoDup_singleton].
  split; [|apply NoDup_singleton]. cbn. split_and!; [done|done|]. by exists c_node.
Qed.

Lemma c_one_alloc : alloc_ok c_one.
Proof.
  constructor; [done| |done]. intros x Hx. cbn in Hx. cbn.
  rewrite !lookup_insert_ne by lia. rewrite lookup_singleton_ne by lia. done.
Qed.

Lemma llist_operations_witness :
  ∃ heap', @add_to_list (bm sim) 2 6 c_one = Ok 6 (set_heap (λ _, heap') c_one).
Proof.
  destruct (@llist_operations (bm sim) 2 [] 2 3 [] c_node2 6 c_one) as [(heap' & Hrun & _) _].
  - apply c_one_table.
  - done.
  - done.
  - cbn. rewrite not_elem_of_cons. split; [done|apply not_elem_of_nil].
  - by exists heap'.
Defined.

(** With the dynamic API, and with the static one in the objects 4 and 5. *)
Definition c_static_env : EnvLayer (bm sim) := @bm_env sim _ static_config 4.
Definition c_static_laws : @EnvLaws (bm sim) c_static_env := @bm_laws sim _ static_config 4.
Definition c_static : world (bm sim) := set_heap (λ h, <[4 := Raw]> (<[5 := Raw]> h)) c_one.

Lemma c_static_heap y : y ∉ [4; 5] → w_heap c_static !! y = w_heap c_one !! y.
Proof. rewrite !not_elem_of_cons. intros (? & ? & _). unfold c_static. cbn [w_heap set_heap]. by rewrite !lookup_insert_ne. Qed.

Lemma c_static_table : ept_table (w_heap c_static) 1 c_inst1 [c_entry].
Proof. eapply ept_table_frame; [|exact c_one_table]. intros y Hy. apply c_static_heap. cbn in Hy. set_solver by lia. Qed.

Lemma c_static_alloc : alloc_ok c_static.
Proof.
  constructor; [done| |done]. intros y Hy. cbn in Hy. rewrite c_static_heap; [by apply c_one_alloc|].
  rewrite !not_elem_of_cons. split_and!; [lia|lia|apply not_elem_of_nil].
Qed.

Lemma c_static_context : context_free (w_heap c_static) 1 [c_entry] (Some (4, 5)).
Proof. cbn. split_and!; try done; try (by eexists); unfold unused; cbn; rewrite !list_elem_of_singleton; by split_and!. Qed.

Lemma create_ept_correct_witness :
  (∃ r w', @rpmsg_lite_create_ept _ c_env default_config 1 RL_ADDR_ANY (application_rx_cb 7) 8 None
     c_one = Ok r w' ∧ r ≠ NULL) ∧
  ∃ w', @rpmsg_lite_create_ept _ c_static_env static_config 1 RL_ADDR_ANY (application_rx_cb 7) 8 (Some (4, 5))
    c_static = Ok 4 w'.
Proof.
  split.
  - destruct (@create_ept_correct _ c_env default_config c_laws 1 c_inst1 [c_entry]
      RL_ADDR_ANY (application_rx_cb 7) 8 None c_one c_one_alloc ltac:(done) I c_one_table
      ltac:(done) ltac:(done)) as (_ & r & w' & Hrun & _ & _ & Hres).
    exists r, w'. split; [exact Hrun|]. revert Hres. case_decide as Hf.
    + destruct Hf as [[Hf _]|Hf]; [done|]. cbn in Hf. by apply not_elem_of_nil in Hf.
    + by intros (n & a & _ & Hr & _).
  - destruct (@create_ept_correct _ c_static_env static_config c_static_laws 1 c_inst1 [c_entry]
      RL_ADDR_ANY (application_rx_cb 7) 8 (Some (4, 5)) c_static c_static_alloc ltac:(done) I c_static_table
      ltac:(done) (λ _, c_static_context)) as (_ & r & w' & Hrun & _ & _ & Hres).
    exists w'. revert Hres. case_decide as Hf.
    + destruct Hf as [[Hf _]|Hf]; done.
    + intros (n & a & _ & _ & Hat & _). injection Hat as <- <-. exact Hrun.
Defined.

Lemma destroy_ept_correct_witness :
  ∃ w', @rpmsg_lite_destroy_ept _ c_env default_config 1 3 c_one = Ok RL_SUCCESS w' ∧
    w_heap w' !! 3 = None.
Proof.
  destruct (@destroy_ept_correct _ c_env default_config c_laws 1 c_inst1 [] c_entry [] c_one
    c_one_alloc ltac:(done) ltac:(done) I c_one_table) as [(h' & w' & Hrun & _ & _ & Hp & _) _].
  exists w'. split; [exact Hrun|]. apply (Hp 3). right. left.
Defined.
