(* ===== verification/Transport.v ===== *)
(** * Messages and the queue operations of a role

    The layout of a message ([struct rpmsg_std_hdr], [struct rpmsg_std_msg])
    and the four functions each role installs in its [struct virtqueue_ops]
    ([rpmsg_lite.c]).  The master is the driver of both queues and the remote
    the device; what the layers above need of them is stated once for both: a
    queue of incoming entries, a queue of outgoing entries, and the theorems
    that the operations take from the one and append to the other. *)

From S2P Require Import Prelude Memory Config VirtioRing Virtqueue RingQueue VirtqueueSpec ChannelRefinement World Lpc55s69 Llist.

(** ** Messages *)

(** Byte offsets of [src], [dst], [reserved.rfu], [reserved.idx], [len] and
    [flags] in the header, and of the payload behind it. *)
Definition sizeof_rpmsg_std_hdr : Z := 16.
Definition a_hdr_src (p : Z) : Z := p.
Definition a_hdr_dst (p : Z) : Z := p + 4.
Definition a_hdr_idx (p : Z) : Z := p + 10.
Definition a_hdr_len (p : Z) : Z := p + 12.
Definition a_hdr_flags (p : Z) : Z := p + 14.
Definition a_msg_data (p : Z) : Z := p + sizeof_rpmsg_std_hdr.

(** [RPMSG_STD_MSG_FROM_BUF]. *)
Definition RPMSG_STD_MSG_FROM_BUF (buf : Z) : Z := buf - sizeof_rpmsg_std_hdr.

(** What a message in memory says. *)
Record rpmsg_std_msg : Type := {
  msg_src : Z; msg_dst : Z; msg_len : Z; msg_flags : Z; msg_payload : list Z;
}.
Definition read_msg (m : mem) (p : Z) : rpmsg_std_msg := {|
  msg_src := load 4 m (a_hdr_src p);
  msg_dst := load 4 m (a_hdr_dst p);
  msg_len := load 2 m (a_hdr_len p);
  msg_flags := load 2 m (a_hdr_flags p);
  msg_payload := load_bytes m (a_msg_data p) (Z.to_nat (load 2 m (a_hdr_len p)));
|}.

Section ops.
Context {E : Type} {cfg : Config} {am : AddrMap}.

(** ** The operations of the remote *)

Definition vq_tx_remote (tvq buffer len idx : Z) : W E unit :=
  env_cache_flush buffer len;;
  status ← with_vq tvq (virtqueue_add_consumed_buffer idx len);
  RL_ASSERT (status =? VQUEUE_SUCCESS).

Definition vq_tx_alloc_remote (tvq len idx : Z) : W E (Z * Z * Z) :=
  r ← with_vq tvq (virtqueue_get_available_buffer idx len);
  let '(data, idx, len) := r in
  if negb (data =? NULL) then env_cache_invalidate data len;; mret (data, len, idx)
  else mret (data, len, idx).

Definition vq_rx_remote (rvq len idx : Z) : W E (Z * Z * Z) :=
  r ← with_vq rvq (virtqueue_get_available_buffer idx len);
  let '(data, idx, len) := r in
  if negb (data =? NULL) then env_cache_invalidate data len;; mret (data, len, idx)
  else mret (data, len, idx).

Definition vq_rx_free_remote (rvq buffer len idx : Z) : W E unit :=
  (if RL_CLEAR_USED_BUFFERS then env_memset buffer 0 len;; env_cache_flush buffer len
   else mret tt);;
  status ← with_vq rvq (virtqueue_add_consumed_buffer idx len);
  RL_ASSERT (status =? VQUEUE_SUCCESS).

(** ** The operations of the master *)

Definition vq_tx_master (tvq buffer len idx : Z) : W E unit :=
  env_cache_flush buffer len;;
  status ← with_vq tvq (virtqueue_add_buffer idx);
  RL_ASSERT (status =? VQUEUE_SUCCESS).

Definition vq_tx_alloc_master (tvq len idx : Z) : W E (Z * Z * Z) :=
  r ← with_vq tvq (virtqueue_get_buffer len idx);
  let '(data, len, idx) := r in
  if negb (data =? NULL) then env_cache_invalidate data len;; mret (data, len, idx)
  else mret (data, len, idx).

Definition vq_rx_master (rvq len idx : Z) : W E (Z * Z * Z) :=
  r ← with_vq rvq (virtqueue_get_buffer len idx);
  let '(data, len, idx) := r in
  if negb (data =? NULL) then env_cache_invalidate data len;; mret (data, len, idx)
  else mret (data, len, idx).

Definition vq_rx_free_master (rvq buffer len idx : Z) : W E unit :=
  (if RL_CLEAR_USED_BUFFERS then env_memset buffer 0 len;; env_cache_flush buffer len
   else mret tt);;
  status ← with_vq rvq (virtqueue_add_buffer idx);
  RL_ASSERT (status =? VQUEUE_SUCCESS).

(** ** Calls through the table of an instance *)

Definition vq_tx (o : virtqueue_ops) : Z → Z → Z → Z → W E unit :=
  match o with master_vq_ops => vq_tx_master | remote_vq_ops => vq_tx_remote end.
Definition vq_tx_alloc (o : virtqueue_ops) : Z → Z → Z → W E (Z * Z * Z) :=
  match o with master_vq_ops => vq_tx_alloc_master | remote_vq_ops => vq_tx_alloc_remote end.
Definition vq_rx (o : virtqueue_ops) : Z → Z → Z → W E (Z * Z * Z) :=
  match o with master_vq_ops => vq_rx_master | remote_vq_ops => vq_rx_remote end.
Definition vq_rx_free (o : virtqueue_ops) : Z → Z → Z → Z → W E unit :=
  match o with master_vq_ops => vq_rx_free_master | remote_vq_ops => vq_rx_free_remote end.

(** [rpmsg_lite_dev->vq_ops]: NULL until the initialisation sets it. *)
Definition get_ops (i : rpmsg_lite_instance) : W E virtqueue_ops :=
  match vq_ops i with Some o => mret o | None => undef end.

End ops.

(** ** The two queues of a role *)

Section queues.
Context {am : AddrMap}.

(** The buffer of descriptor [i]. *)
Definition buf_at (vr : vring) (m : mem) (i : Z) : Z := env_map_patova (u32 (r_desc_addr vr m i)).

(** The entries the role can take from a queue, as (descriptor, length). *)
Definition incoming (o : virtqueue_ops) (q : virtqueue) (m : mem) : list (Z * Z) :=
  match o with
  | master_vq_ops => (λ x : Z * Z, (u16 x.1, x.2)) <$> used_queue (vq_used_cons_idx q) (vq_ring q) m
  | remote_vq_ops =>
      (λ i, (i, r_desc_len (vq_ring q) m i)) <$> avail_queue (vq_available_idx q) (vq_ring q) m
  end.

(** The entries the role has put for a peer whose consumer index is [c]; only
    the remote's carry a length. *)
Definition outgoing (o : virtqueue_ops) (c : Z) (q : virtqueue) (m : mem) : list (Z * option Z) :=
  match o with
  | master_vq_ops => (λ i, (i, None)) <$> avail_queue c (vq_ring q) m
  | remote_vq_ops => (λ x : Z * Z, (x.1, Some x.2)) <$> used_queue c (vq_ring q) m
  end.
Definition out_entry (o : virtqueue_ops) (i len : Z) : Z * option Z :=
  match o with master_vq_ops => (i, None) | remote_vq_ops => (i, Some len) end.

(** The index from which a role reads its rings. *)
Definition read_idx (o : virtqueue_ops) (q : virtqueue) : Z :=
  match o with master_vq_ops => vq_used_cons_idx q | remote_vq_ops => vq_available_idx q end.

(** The queue after one entry was taken. *)
Definition taken (o : virtqueue_ops) (q : virtqueue) : virtqueue :=
  match o with
  | master_vq_ops => set_vq_used_cons_idx q (u16 (vq_used_cons_idx q + 1))
  | remote_vq_ops => set_vq_available_idx q (u16 (vq_available_idx q + 1))
  end.

(** The buffers of a queue: not NULL, [bsz] bytes each, outside the ring and
    not overlapping. *)
Record buffers_ok (vr : vring) (bsz : Z) (m : mem) : Prop := {
  bo_null : ∀ i, 0 ≤ i < num vr → buf_at vr m i ≠ NULL;
  bo_ring : ∀ i, 0 ≤ i < num vr →
    buf_at vr m i + bsz ≤ desc vr ∨ vring_end vr ≤ buf_at vr m i;
  bo_disjoint : ∀ i j, 0 ≤ i < num vr → 0 ≤ j < num vr → i ≠ j →
    buf_at vr m i + bsz ≤ buf_at vr m j ∨ buf_at vr m j + bsz ≤ buf_at vr m i;
}.

(** Addresses of the ring and of the buffers. *)
Definition shared (vr : vring) (bsz : Z) (m : mem) (x : Z) : Prop :=
  desc vr ≤ x < vring_end vr ∨ ∃ j, 0 ≤ j < num vr ∧ buf_at vr m j ≤ x < buf_at vr m j + bsz.

(** The parts of a ring a role does not write: the descriptors and the queue it
    takes from. *)
Definition same_incoming (o : virtqueue_ops) (vr : vring) (m m' : mem) : Prop :=
  same_desc vr m m' ∧
  match o with master_vq_ops => same_used vr m m' | remote_vq_ops => same_avail vr m m' end.

End queues.

(** The effect of giving one entry away, on the control block and in memory. *)
Definition put_vq (o : virtqueue_ops) (q : virtqueue) : virtqueue :=
  match o with
  | master_vq_ops => set_vq_queued_cnt q (u16 (vq_queued_cnt q + 1))
  | remote_vq_ops => q
  end.
Definition put_mem (o : virtqueue_ops) (vr : vring) (i len : Z) (m : mem) : mem :=
  match o with
  | master_vq_ops => push_avail vr i m
  | remote_vq_ops => push_used vr i len m
  end.
Definition clear_mem {cfg : Config} (buffer len : Z) (m : mem) : mem :=
  if RL_CLEAR_USED_BUFFERS then mem_set m buffer 0 len else m.

(** Effects on memory and caches, as opposed to calls of other parts. *)
Definition internal (e : event) : Prop :=
  match e with
  | EvStore _ _ _ | EvFlush _ _ | EvInvalidate _ _ | EvMb | EvRmb | EvWmb => True
  | _ => False
  end.
#[global] Instance internal_dec e : Decision (internal e).
Proof. destruct e; cbn; apply _. Defined.

(** The world after an operation on the queue at [p]. *)
Definition after_vq {E} (p : Z) (q : virtqueue) (m : mem) (tr : list event) (w : world E) : world E :=
  vq_back p {| v_vq := q; v_mem := m; v_trace := tr ++ w_trace w |} w.

(** ** Lemmas *)

Section lemmas.
Context {E : Type} {cfg : Config} {am : AddrMap}.
Implicit Types w : world E.

Lemma with_vq_ok {A} p q (op : V A) w a s :
  w_heap w !! p = Some (OVq q) →
  op {| v_vq := q; v_mem := w_mem w; v_trace := w_trace w |} = Ok a s →
  with_vq p op w = Ok a (vq_back p s w).
Proof. intros Hq Hop. unfold with_vq, zoom, vq_view. rewrite Hq. cbn. by rewrite Hop. Qed.

Lemma internal_flush x s : Forall internal (flush_evs x s).
Proof. unfold flush_evs. destruct RL_USE_DCACHE; repeat constructor. Qed.
Lemma internal_inval x s : Forall internal (inval_evs x s).
Proof. unfold inval_evs. destruct RL_USE_DCACHE; repeat constructor. Qed.

Lemma internal_update_avail vr i m : Forall internal (update_avail_events vr i m).
Proof.
  unfold update_avail_events.
  repeat first [apply Forall_app_2 | apply Forall_cons_2 | apply internal_flush | apply internal_inval | exact I].
Qed.
Lemma internal_update_used vr i len m : Forall internal (update_used_events vr i len m).
Proof.
  unfold update_used_events.
  repeat first [apply Forall_app_2 | apply Forall_cons_2 | apply internal_flush | apply internal_inval | exact I].
Qed.
Lemma internal_rev l : Forall internal l → Forall internal (rev l).
Proof. rewrite rev_alt. apply Forall_reverse. Qed.
Hint Resolve internal_flush internal_inval internal_update_avail internal_update_used internal_rev : core.

Ltac internal_tac :=
  repeat first [apply Forall_app_2 | apply Forall_cons_2 | apply Forall_nil_2 | exact I | by auto ].

(** A queue operation that returned, as a change of the world. *)
Lemma get_available_world p q idx len w :
  w_heap w !! p = Some (OVq q) → vq_wf q →
  ∃ tr, Forall internal tr ∧
    with_vq p (virtqueue_get_available_buffer idx len) w =
      match incoming remote_vq_ops q (w_mem w) with
      | [] => Ok (NULL, idx, len) (after_vq p q (w_mem w) tr w)
      | (i, l) :: _ => Ok (buf_at (vq_ring q) (w_mem w) i, i, l)
                         (after_vq p (taken remote_vq_ops q) (w_mem w) tr w)
      end.
Proof.
  intros Hp Hwf. set (s := {| v_vq := q; v_mem := w_mem w; v_trace := w_trace w |}).
  pose proof (virtqueue_get_available_buffer_eq idx len s Hwf) as Heq. cbn zeta in Heq.
  unfold incoming. rewrite avail_queue_cons by (try apply Hwf; apply (wf_ring _ (wf_core _ Hwf))).
  cbn [v_vq v_mem s] in Heq. destruct (_ =? _).
  - eexists. split; [|cbn [fmap list_fmap]; erewrite with_vq_ok; [reflexivity|exact Hp|exact Heq]].
    internal_tac.
  - eexists. split; [|cbn [fmap list_fmap]; erewrite with_vq_ok; [reflexivity|exact Hp|exact Heq]].
    unfold read_avail_events. apply internal_rev. internal_tac.
Qed.

Lemma get_buffer_world p q len idx w :
  w_heap w !! p = Some (OVq q) → vq_wf q →
  ∃ tr, Forall internal tr ∧
    with_vq p (virtqueue_get_buffer len idx) w =
      match incoming master_vq_ops q (w_mem w) with
      | [] => Ok (NULL, len, idx) (after_vq p q (w_mem w) tr w)
      | (i, l) :: _ => Ok (buf_at (vq_ring q) (w_mem w) i, l, i)
                         (after_vq p (taken master_vq_ops q) (w_mem w) tr w)
      end.
Proof.
  intros Hp Hwf. set (s := {| v_vq := q; v_mem := w_mem w; v_trace := w_trace w |}).
  pose proof (virtqueue_get_buffer_eq len idx s Hwf) as Heq. cbn zeta in Heq.
  unfold incoming. rewrite used_queue_cons by (try apply Hwf; apply (wf_ring _ (wf_core _ Hwf))).
  cbn [v_vq v_mem s] in Heq. destruct (r_used_ring _ _ _) as [id ulen]. destruct (_ =? _).
  - eexists. split; [|cbn [fmap list_fmap]; erewrite with_vq_ok; [reflexivity|exact Hp|exact Heq]].
    internal_tac.
  - eexists. split; [|cbn [fmap list_fmap fst snd]; erewrite with_vq_ok; [reflexivity|exact Hp|exact Heq]].
    unfold read_used_events. apply internal_rev. internal_tac.
Qed.

Lemma after_vq_trace p q m tr1 tr2 w :
  set_trace (λ t, tr2 ++ t) (after_vq p q m tr1 w) = after_vq p q m (tr2 ++ tr1) w.
Proof. unfold after_vq, vq_back, set_trace. cbn. by rewrite app_assoc. Qed.

Lemma env_cache_invalidate_ok a n w :
  env_cache_invalidate a n w = Ok tt (set_trace (λ t, inval_evs a n ++ t) w).
Proof.
  unfold env_cache_invalidate, modify, set_trace. by rewrite inval_ev_app.
Qed.
Lemma env_cache_flush_ok a n w :
  env_cache_flush a n w = Ok tt (set_trace (λ t, flush_evs a n ++ t) w).
Proof.
  unfold env_cache_flush, modify, set_trace. by rewrite flush_ev_app.
Qed.

(** Taking an entry: nothing is there, or the first entry with its buffer. *)
Lemma vq_get_ok (get : Z → Z → Z → W E (Z * Z * Z)) o p q len idx w :
  get = vq_rx o ∨ get = vq_tx_alloc o →
  w_heap w !! p = Some (OVq q) → vq_wf q →
  (∀ i l, (i, l) ∈ incoming o q (w_mem w) → buf_at (vq_ring q) (w_mem w) i ≠ NULL) →
  ∃ tr, Forall internal tr ∧
    get p len idx w =
      match incoming o q (w_mem w) with
      | [] => Ok (NULL, len, idx) (after_vq p q (w_mem w) tr w)
      | (i, l) :: _ => Ok (buf_at (vq_ring q) (w_mem w) i, l, i)
                         (after_vq p (taken o q) (w_mem w) tr w)
      end.
Proof.
  intros Hget Hp Hwf Hnull.
  assert (get = vq_rx o) as -> by (destruct Hget as [-> | ->]; by destruct o).
  destruct o; cbn [vq_rx]; unfold vq_rx_master, vq_rx_remote.
  - destruct (get_buffer_world p q len idx w Hp Hwf) as (tr & Htr & Hrun).
    destruct (incoming _ _ _) as [|[i l] rest] eqn:Hin.
    + exists tr. split; [done|]. by rewrite (bind_ok _ _ _ _ _ Hrun).
    + exists (inval_evs (buf_at (vq_ring q) (w_mem w) i) l ++ tr). split; [internal_tac|].
      rewrite (bind_ok _ _ _ _ _ Hrun). rewrite (proj2 (Z.eqb_neq _ NULL)) by (apply (Hnull i l); left).
      cbn [negb]. rewrite (bind_ok _ _ _ _ _ (env_cache_invalidate_ok _ _ _)), after_vq_trace. done.
  - destruct (get_available_world p q idx len w Hp Hwf) as (tr & Htr & Hrun).
    destruct (incoming _ _ _) as [|[i l] rest] eqn:Hin.
    + exists tr. split; [done|]. by rewrite (bind_ok _ _ _ _ _ Hrun).
    + exists (inval_evs (buf_at (vq_ring q) (w_mem w) i) l ++ tr). split; [internal_tac|].
      rewrite (bind_ok _ _ _ _ _ Hrun). rewrite (proj2 (Z.eqb_neq _ NULL)) by (apply (Hnull i l); left).
      cbn [negb]. rewrite (bind_ok _ _ _ _ _ (env_cache_invalidate_ok _ _ _)), after_vq_trace. done.
Qed.

(** Giving an entry away, as the two roles do it. *)
Definition put_op (o : virtqueue_ops) (p len idx : Z) : W E Z :=
  match o with
  | master_vq_ops => with_vq p (virtqueue_add_buffer idx)
  | remote_vq_ops => with_vq p (virtqueue_add_consumed_buffer idx len)
  end.

Lemma put_op_ok o p q len idx w :
  w_heap w !! p = Some (OVq q) → vq_wf q → 0 ≤ idx < num (vq_ring q) →
  ∃ tr, Forall internal tr ∧
    put_op o p len idx w = Ok VQUEUE_SUCCESS
      (after_vq p (put_vq o q) (put_mem o (vq_ring q) idx len (w_mem w)) tr w).
Proof.
  intros Hp Hwf Hi. set (s := {| v_vq := q; v_mem := w_mem w; v_trace := w_trace w |}).
  destruct o; cbn [put_op put_vq put_mem].
  - pose proof (virtqueue_add_buffer_eq idx s Hwf (proj2 Hi)) as Heq.
    eexists. split; [|erewrite with_vq_ok; [reflexivity|exact Hp|exact Heq]]. auto.
  - pose proof (virtqueue_add_consumed_buffer_eq idx len s Hwf) as Heq. cbn zeta in Heq.
    cbn [v_vq v_mem s] in Heq. rewrite (proj2 (Z.ltb_ge (num (vq_ring q)) idx)) in Heq by lia.
    eexists. split; [|erewrite with_vq_ok; [reflexivity|exact Hp|exact Heq]]. auto.
Qed.

Lemma after_vq_after p q m tr1 f w :
  after_vq p q m tr1 (set_trace (λ t, f ++ t) w) = after_vq p q m (tr1 ++ f) w.
Proof. unfold after_vq, vq_back, set_trace. cbn. by rewrite app_assoc. Qed.

Lemma vq_tx_eq o p buf len idx :
  vq_tx (E := E) o p buf len idx = (env_cache_flush buf len;;
    status ← put_op o p len idx; RL_ASSERT (status =? VQUEUE_SUCCESS)).
Proof. by destruct o. Qed.

Lemma vq_rx_free_eq o p buf len idx :
  vq_rx_free (E := E) o p buf len idx =
    ((if RL_CLEAR_USED_BUFFERS then env_memset buf 0 len;; env_cache_flush buf len else mret tt);;
     status ← put_op o p len idx; RL_ASSERT (status =? VQUEUE_SUCCESS)).
Proof. by destruct o. Qed.

Lemma vq_tx_ok o p q buf len idx w :
  w_heap w !! p = Some (OVq q) → vq_wf q → 0 ≤ idx < num (vq_ring q) →
  ∃ tr, Forall internal tr ∧ vq_tx o p buf len idx w =
    Ok tt (after_vq p (put_vq o q) (put_mem o (vq_ring q) idx len (w_mem w)) tr w).
Proof.
  intros Hp Hwf Hi. rewrite vq_tx_eq.
  rewrite (bind_ok _ _ _ _ _ (env_cache_flush_ok buf len w)).
  set (w1 := set_trace _ w). destruct (put_op_ok o p q len idx w1 Hp Hwf Hi) as (tr & Htr & Hrun).
  rewrite (bind_ok _ _ _ _ _ Hrun). exists (tr ++ flush_evs buf len). split; [internal_tac|].
  unfold w1. by rewrite after_vq_after.
Qed.

Lemma vq_rx_free_ok o p q buf len idx w :
  w_heap w !! p = Some (OVq q) → vq_wf q → 0 ≤ idx < num (vq_ring q) →
  ∃ tr, Forall internal tr ∧ vq_rx_free o p buf len idx w =
    Ok tt (after_vq p (put_vq o q)
      (put_mem o (vq_ring q) idx len (clear_mem buf len (w_mem w))) tr w).
Proof.
  intros Hp Hwf Hi. rewrite vq_rx_free_eq. unfold clear_mem. destruct RL_CLEAR_USED_BUFFERS.
  - set (w1 := set_trace (λ t, flush_evs buf len ++ t) (set_mem (λ m, mem_set m buf 0 len) w)).
    assert ((env_memset buf 0 len;; env_cache_flush buf len) w = Ok tt w1) as H1.
    { unfold env_memset. rewrite (bind_ok _ _ _ _ _ (eq_refl : modify _ w = Ok tt _)).
      apply env_cache_flush_ok. }
    rewrite (bind_ok _ _ _ _ _ H1).
    destruct (put_op_ok o p q len idx w1 Hp Hwf Hi) as (tr & Htr & Hrun).
    rewrite (bind_ok _ _ _ _ _ Hrun). exists (tr ++ flush_evs buf len). split; [internal_tac|].
    unfold w1. by rewrite after_vq_after.
  - rewrite (bind_ok _ _ _ _ _ (eq_refl : (mret tt : W E unit) w = Ok tt w)).
    destruct (put_op_ok o p q len idx w Hp Hwf Hi) as (tr & Htr & Hrun).
    rewrite (bind_ok _ _ _ _ _ Hrun). by exists tr.
Qed.

(** Notifying the other side. *)
Definition notified (q : virtqueue) (m : mem) : list event :=
  if negb (Z.land (load 2 m (a_used_flags (vq_ring q))) VRING_USED_F_NO_NOTIFY =? 0) then []
  else match notify_fc q with Some _ => [EvNotify (vq_queue_index q)] | None => [] end.

Lemma kick_ok p q w :
  w_heap w !! p = Some (OVq q) → vq_wf q →
  ∃ tr, Forall internal tr ∧ with_vq p virtqueue_kick w =
    Ok tt (after_vq p (set_vq_queued_cnt q 0) (w_mem w) (notified q (w_mem w) ++ tr) w).
Proof.
  intros Hp Hwf. set (s := {| v_vq := q; v_mem := w_mem w; v_trace := w_trace w |}).
  pose proof (virtqueue_kick_eq s Hwf) as Heq. cbn zeta in Heq.
  erewrite with_vq_ok; [|exact Hp|exact Heq]. unfold after_vq, notified. cbn [v_vq v_mem v_trace s].
  exists (inval_evs (a_used_flags (vq_ring q)) 2 ++ [EvMb]). split; [internal_tac|].
  by rewrite <- !app_assoc.
Qed.

Lemma get_buffer_length_ok p q idx w :
  w_heap w !! p = Some (OVq q) →
  with_vq p (virtqueue_get_buffer_length idx) w = Ok (r_desc_len (vq_ring q) (w_mem w) idx)
    (after_vq p q (w_mem w) (inval_evs (a_desc_len (vq_ring q) idx) 4) w).
Proof.
  intros Hp. erewrite with_vq_ok; [reflexivity|exact Hp|].
  by rewrite virtqueue_get_buffer_length_eq.
Qed.

(** *** The queues afterwards *)

Lemma incoming_taken o q m x rest :
  vq_wf q → incoming o q m = x :: rest → incoming o (taken o q) m = rest.
Proof.
  intros Hwf. pose proof (wf_ring _ (wf_core _ Hwf)) as ok.
  destruct o; unfold incoming; [rewrite used_queue_cons|rewrite avail_queue_cons];
    try done; try apply Hwf; (destruct (_ =? _); [done|]); rewrite fmap_cons; by intros [= _ <-].
Qed.

Lemma taken_same_ring o q : same_ring q (taken o q).
Proof. destruct o; [apply same_ring_used_cons|apply same_ring_available]. Qed.

Lemma taken_wf o q : vq_wf q → vq_wf (taken o q).
Proof.
  intros Hwf. eapply vq_wf_same_ring; [done|apply taken_same_ring|..];
    destruct o, q; cbn; try apply u16_range; apply Hwf.
Qed.

Lemma put_same_ring o q : same_ring q (put_vq o q).
Proof. destruct o; [apply same_ring_queued|apply same_ring_refl]. Qed.

Lemma put_wf o q : vq_wf q → vq_wf (put_vq o q).
Proof.
  intros Hwf. eapply vq_wf_same_ring; [done|apply put_same_ring|..]; destruct o, q; cbn; apply Hwf.
Qed.

Lemma incoming_put_vq o q m : incoming o (put_vq o q) m = incoming o q m.
Proof. by destruct o, q. Qed.

Lemma incoming_queued o q n m : incoming o (set_vq_queued_cnt q n) m = incoming o q m.
Proof. by destruct o, q. Qed.

Lemma outgoing_ring o c q q' m : vq_ring q' = vq_ring q → outgoing o c q' m = outgoing o c q m.
Proof. intros Hr. destruct o; cbn; by rewrite Hr. Qed.

Lemma incoming_range o q m i l :
  (i, l) ∈ incoming o q m → 0 ≤ i < 65536 ∧ 0 ≤ l < 4294967296.
Proof.
  destruct o; cbn; intros ([a b] & Heq & Hin)%list_elem_of_fmap || intros (a & Heq & Hin)%list_elem_of_fmap.
  - injection Heq as -> ->. split; [apply u16_range|]. unfold used_queue, ring_queue in Hin.
    apply list_elem_of_fmap in Hin as (k & [= _ ->] & _). apply (load_range 4).
  - injection Heq as -> ->. split; [|apply (load_range 4)]. unfold avail_queue, ring_queue in Hin.
    apply list_elem_of_fmap in Hin as (k & -> & _). apply (load_range 2).
Qed.

Lemma incoming_ext o q m m' :
  vq_wf q → same_incoming o (vq_ring q) m m' →
  (∀ i l, (i, l) ∈ incoming o q m → i < num (vq_ring q)) →
  incoming o q m' = incoming o q m.
Proof.
  intros Hwf [Hd Hs] Hlt. pose proof (wf_ring _ (wf_core _ Hwf)) as ok.
  destruct o; cbn in *.
  - by rewrite (used_queue_ext _ ok _ _ _ Hs).
  - rewrite (avail_queue_ext _ ok _ _ _ Hs). apply list_fmap_ext. intros k i Hi. f_equal.
    apply (r_desc_ext _ ok); [done|].
    apply list_elem_of_lookup_2, (list_elem_of_fmap_2 (λ i, (i, r_desc_len (vq_ring q) m i))) in Hi.
    pose proof (incoming_range remote_vq_ops q m i _ Hi). specialize (Hlt _ _ Hi). lia.
Qed.

Lemma buf_at_ext vr m m' i :
  vring_ok vr → same_desc vr m m' → 0 ≤ i < num vr → buf_at vr m' i = buf_at vr m i.
Proof. intros ok Hd Hi. unfold buf_at. by destruct (r_desc_ext vr ok m m' i Hd Hi) as [-> _]. Qed.

Lemma buffers_ok_ext vr bsz m m' :
  vring_ok vr → same_desc vr m m' → buffers_ok vr bsz m → buffers_ok vr bsz m'.
Proof.
  intros ok Hd [Hn Hr Hj]. pose proof (λ i, buf_at_ext vr m m' i ok Hd) as Hb.
  constructor; intros; rewrite !Hb by done; auto.
Qed.

Lemma put_mem_frames o vr i len m :
  vring_ok vr → frames (desc vr) (vring_end vr) m (put_mem o vr i len m).
Proof.
  intros ok. pose proof (ok_avail vr ok). pose proof (ok_used vr ok).
  pose proof (vring_ok_num_pos vr ok). destruct o; cbn [put_mem].
  - eapply frames_weaken; [by apply push_avail_frames|lia|unfold vring_end; lia].
  - eapply frames_weaken; [by apply push_used_frames|lia|lia].
Qed.

Lemma put_mem_same o vr i len m : vring_ok vr → same_incoming o vr m (put_mem o vr i len m).
Proof.
  intros ok. destruct o; cbn.
  - by apply push_avail_same.
  - by apply push_used_same.
Qed.

Lemma outgoing_put o c q i len m :
  vq_wf q → 0 ≤ i < num (vq_ring q) → 0 ≤ len < 4294967296 →
  Z.of_nat (length (outgoing o c q m)) < num (vq_ring q) →
  outgoing o c q (put_mem o (vq_ring q) i len m) = outgoing o c q m ++ [out_entry o i len].
Proof.
  intros Hwf Hi Hl Hroom. pose proof (wf_ring _ (wf_core _ Hwf)) as ok.
  pose proof (ok_max _ ok). destruct o; cbn in *; rewrite length_fmap in Hroom.
  - rewrite avail_queue_push by done. rewrite fmap_app, u16_small by lia. done.
  - rewrite used_queue_push by done. rewrite fmap_app, !u32_small by lia. done.
Qed.

(** Changes outside the ring. *)
Lemma outside_ring o vr lo hi m m' :
  vring_ok vr → frames lo hi m m' → hi ≤ desc vr ∨ vring_end vr ≤ lo →
  same_incoming o vr m m' ∧ ∀ c q, vq_ring q = vr → outgoing o c q m' = outgoing o c q m.
Proof.
  intros ok Hf Ho. destruct (frames_outside vr ok _ _ _ _ Hf Ho) as (Hd & Ha & Hu).
  split; [by destruct o|]. intros c q <-.
  destruct o; cbn; [by rewrite (avail_queue_ext _ ok c _ _ Ha)|by rewrite (used_queue_ext _ ok c _ _ Hu)].
Qed.

Lemma same_incoming_trans o vr m1 m2 m3 :
  same_incoming o vr m1 m2 → same_incoming o vr m2 m3 → same_incoming o vr m1 m3.
Proof.
  intros [D1 S1] [D2 S2]. split; [by eapply same_desc_trans|].
  destruct o; intros a Ha; rewrite (S2 a Ha); by apply S1.
Qed.

End lemmas.

(** *** Messages *)

Section messages.

(** A header with its four assigned fields, and a payload. *)
Definition put_msg (p src dst len flags : Z) (payload : list Z) (m : mem) : mem :=
  store_bytes (store 2 (store 2 (store 4 (store 4 m (a_hdr_dst p) dst) (a_hdr_src p) src)
    (a_hdr_len p) len) (a_hdr_flags p) flags) (a_msg_data p) payload.

Lemma put_msg_frames p src dst len flags payload m :
  frames p (p + 16 + Z.of_nat (length payload)) m (put_msg p src dst len flags payload m).
Proof.
  unfold put_msg, a_hdr_dst, a_hdr_src, a_hdr_len, a_hdr_flags, a_msg_data, sizeof_rpmsg_std_hdr.
  eapply frames_trans; [|eapply frames_weaken; [apply store_bytes_frames|lia|lia]].
  frame_stores.
Qed.

(** The header round trip: the receiver reads what was written, each field at
    its width, and as much of the payload as the length field says. *)
Lemma read_put_msg_gen p src dst len flags payload m :
  u16 len ≤ Z.of_nat (length payload) → Forall (λ b, 0 ≤ b < 256) payload →
  read_msg (put_msg p src dst len flags payload m) p =
    {| msg_src := u32 src; msg_dst := u32 dst; msg_len := u16 len; msg_flags := u16 flags;
       msg_payload := take (Z.to_nat (u16 len)) payload |}.
Proof.
  intros Hlen Hb.
  assert (∀ k a m, p ≤ a → a + Z.of_nat k ≤ p + 16 →
    load k (store_bytes m (a_msg_data p) payload) a = load k m a) as Hdata.
  { intros k a m' ? ?. eapply load_frames; [apply store_bytes_frames|].
    unfold a_msg_data, sizeof_rpmsg_std_hdr. lia. }
  unfold read_msg.
  assert (load 2 (put_msg p src dst len flags payload m) (a_hdr_len p) = u16 len) as Elen.
  { unfold put_msg, a_hdr_len. rewrite Hdata by lia.
    rewrite load_store_ne by (unfold a_hdr_flags; lia). by rewrite load_store_same. }
  rewrite Elen. f_equal.
  - unfold put_msg, a_hdr_src. rewrite Hdata by lia.
    rewrite !(load_store_ne 2) by (unfold a_hdr_flags, a_hdr_len; lia). by rewrite load_store_same.
  - unfold put_msg, a_hdr_dst. rewrite Hdata by lia.
    rewrite !(load_store_ne 2) by (unfold a_hdr_flags, a_hdr_len; lia).
    rewrite load_store_ne by (unfold a_hdr_src; lia). by rewrite load_store_same.
  - unfold put_msg, a_hdr_flags. rewrite Hdata by lia. by rewrite load_store_same.
  - unfold put_msg. set (m0 := store 2 _ _ flags). pose proof (u16_range len).
    apply list_eq_same_length with (Z.to_nat (u16 len)).
    + by rewrite length_take, Nat.min_l by lia.
    + by rewrite length_load_bytes.
    + intros i x y Hi Hx Hy. rewrite load_bytes_lookup in Hx by done. injection Hx as <-.
      rewrite lookup_take_lt in Hy by done.
      rewrite byte_at_store_bytes, decide_True by lia.
      replace (Z.to_nat (a_msg_data p + Z.of_nat i - a_msg_data p)) with i by lia. rewrite Hy.
      rewrite Forall_lookup in Hb. apply Z.mod_small. by apply (Hb i).
Qed.

Lemma read_put_msg p src dst len flags payload m :
  0 ≤ src < 4294967296 → 0 ≤ dst < 4294967296 → 0 ≤ flags < 65536 →
  0 ≤ len < 65536 → len ≤ Z.of_nat (length payload) → Forall (λ b, 0 ≤ b < 256) payload →
  read_msg (put_msg p src dst len flags payload m) p =
    {| msg_src := src; msg_dst := dst; msg_len := len; msg_flags := flags;
       msg_payload := take (Z.to_nat len) payload |}.
Proof.
  intros Hs Hd Hf Hl Hlen Hb. rewrite read_put_msg_gen by (rewrite ?u16_small by lia; done || lia).
  by rewrite !u16_small, !u32_small by lia.
Qed.

(** A message depends on its own bytes only. *)
Lemma read_msg_ext p m m' n :
  agree_on p (p + 16 + n) m' m → msg_len (read_msg m p) ≤ n → read_msg m' p = read_msg m p.
Proof.
  intros Hag Hn. cbn in Hn. pose proof (load_range 2 m (a_hdr_len p)) as Hr.
  assert (∀ k a, p ≤ a → a + Z.of_nat k ≤ p + 16 → load k m' a = load k m a) as Hld.
  { intros k a ? ?. apply load_ext. eapply agree_on_sub; [exact Hag|lia|lia]. }
  unfold read_msg. rewrite !Hld by (unfold a_hdr_src, a_hdr_dst, a_hdr_len, a_hdr_flags; lia).
  f_equal. apply load_bytes_ext. eapply agree_on_sub; [exact Hag|..];
    unfold a_msg_data, sizeof_rpmsg_std_hdr; lia.
Qed.

End messages.
