(* ===== verification/RpmsgLite.v ===== *)
(** * Sending and receiving: [rpmsg_lite.c]

    [rpmsg_lite_send], the zero-copy calls ([rpmsg_lite_alloc_tx_buffer],
    [rpmsg_lite_send_nocopy], [rpmsg_lite_release_rx_buffer]) and the callbacks
    of the two virtqueues, on the state of one core.  The receive callbacks of
    the endpoints are reached through an interface ([RxDispatch]), which the
    queue and name-service components and the application implement. *)

From S2P Require Import Prelude Memory Config VirtioRing Virtqueue RingQueue VirtqueueSpec ChannelRefinement World Lpc55s69 Llist Endpoint Transport.

(** The call through the function pointer [ept->rx_cb]. *)
Class RxDispatch (E : Type) : Type := {
  call_rx_cb : rl_ept_rx_cb_t → Z → Z → Z → Z → W E Z;
}.

Section rpmsg_lite.
Context {E : Type} {el : EnvLayer E} {out : Outside E} {app : Application E} {rxd : RxDispatch E}.
Context {cfg : Config} {am : AddrMap}.

(** ** Sending *)

(** [vq_tx_alloc] under the instance's lock. *)
Definition tx_alloc_locked (dev len idx : Z) : W E (Z * Z * Z) :=
  i ← get_inst dev;
  env_lock_mutex (lock i);;
  o ← get_ops i;
  r ← vq_tx_alloc o (tvq i) len idx;
  env_unlock_mutex (lock i);;
  mret r.

(** The loop that waits for a free buffer, common to
    [rpmsg_lite_format_message] and [rpmsg_lite_alloc_tx_buffer]; [None]: the
    timeout expired. *)
Fixpoint tx_wait_loop (fuel : nat) (dev timeout tick_count len idx : Z) : W E (option (Z * Z * Z)) :=
  match fuel with
  | O => no_fuel
  | S k =>
      env_sleep_msec RL_MS_PER_INTERVAL;;
      r ← tx_alloc_locked dev len idx;
      let '(buffer, len', idx') := r in
      let tick := u32 (tick_count + u32 RL_MS_PER_INTERVAL) in
      if (timeout <=? tick) && (buffer =? NULL) then mret None
      else if buffer =? NULL then tx_wait_loop k dev timeout tick len' idx'
      else mret (Some (buffer, len', idx'))
  end.

(** A buffer at once, or after waiting. *)
Definition tx_get_buffer (fuel : nat) (dev timeout len : Z) : W E (option (Z * Z * Z)) :=
  r ← tx_alloc_locked dev len 0;
  let '(buffer, len', idx') := r in
  if (buffer =? NULL) && (timeout =? RL_FALSE) then mret None
  else if buffer =? NULL then tx_wait_loop fuel dev timeout 0 len' idx'
  else mret (Some (buffer, len', idx')).

(** The four assignments to [rpmsg_msg->hdr]. *)
Definition write_header (msg dst src size flags : Z) : W E unit :=
  stm 4 (a_hdr_dst msg) dst;;
  stm 4 (a_hdr_src msg) src;;
  stm 2 (a_hdr_len msg) (u16 (Z.land size 65535));;
  stm 2 (a_hdr_flags msg) (u16 (Z.land flags 65535)).

(** Enqueue a buffer and notify the other side, under the lock. *)
Definition enqueue_locked (dev buffer buff_len idx : Z) : W E unit :=
  i ← get_inst dev;
  env_lock_mutex (lock i);;
  o ← get_ops i;
  vq_tx o (tvq i) buffer buff_len idx;;
  with_vq (tvq i) virtqueue_kick;;
  env_unlock_mutex (lock i).

Definition rpmsg_lite_format_message (fuel : nat) (dev src dst data size flags timeout : Z) : W E Z :=
  if data =? NULL then mret RL_ERR_PARAM
  else
    i ← get_inst dev;
    if negb (link_state i =? RL_TRUE) then mret RL_NOT_READY
    else
      r ← tx_get_buffer fuel dev timeout 0;
      match r with
      | None => mret RL_ERR_NO_MEM
      | Some (buffer, buff_len, idx) =>
          write_header buffer dst src size flags;;
          env_memcpy (a_msg_data buffer) data size;;
          enqueue_locked dev buffer buff_len idx;;
          mret RL_SUCCESS
      end.

(** The largest payload of an instance. *)
Definition payload_limit (dev : Z) : W E Z :=
  if RL_ALLOW_CUSTOM_SHMEM_CONFIG then
    i ← get_inst dev;
    match platform_get_custom_shmem_config (link_id i) with
    | Some c => mret (u32 (buffer_payload_size c))
    | None => undef
    end
  else mret (u32 RL_BUFFER_PAYLOAD_SIZE).

(** [timeout] is a [uintptr_t] here and a [uint32_t] in the callee. *)
Definition rpmsg_lite_send (fuel : nat) (dev ept dst data size timeout : Z) : W E Z :=
  if ept =? NULL then mret RL_ERR_PARAM
  else if dev =? NULL then mret RL_ERR_PARAM
  else
    limit ← payload_limit dev;
    if limit <? size then mret RL_ERR_BUFF_SIZE
    else
      e ← get_ept ept;
      rpmsg_lite_format_message fuel dev (ept_addr e) dst data size RL_NO_FLAGS (u32 timeout).

(** ** Zero copy *)

(** [size]: [None] is a NULL pointer, [Some s] one that points to [s]; the
    result is the returned pointer and what [size] points to afterwards. *)
Definition rpmsg_lite_alloc_tx_buffer (fuel : nat) (dev : Z) (size : option Z) (timeout : Z)
    : W E (Z * option Z) :=
  match size with
  | None => mret (NULL, None)
  | Some size =>
      i ← get_inst dev;
      if negb (link_state i =? RL_TRUE) then mret (NULL, Some 0)
      else
        r ← tx_get_buffer fuel dev timeout size;
        match r with
        | None => mret (NULL, Some 0)
        | Some (buffer, size, idx) =>
            stm 2 (a_hdr_idx buffer) idx;;
            mret (a_msg_data buffer,
                  Some (if sizeof_rpmsg_std_hdr <=? size then size - sizeof_rpmsg_std_hdr else 0))
        end
  end.

(** The search of [RL_DEBUG_CHECK_BUFFERS], from the last of [k] descriptors
    down: the index found, or -1. *)
Fixpoint find_desc (vr : vring) (m : mem) (k : nat) (addr : Z) : Z :=
  match k with
  | O => -1
  | S j =>
      if load 8 m (a_desc_addr vr (Z.of_nat j)) =? addr then Z.of_nat j else find_desc vr m j addr
  end.

Definition check_buffer (vq msg : Z) : W E unit :=
  if RL_DEBUG_CHECK_BUFFERS then
    q ← get_vq vq;
    w ← get_state;
    RL_ASSERT (0 <=? find_desc (vq_ring q) (w_mem w) (Z.to_nat (vq_nentries q)) msg)
  else mret tt.

Definition rpmsg_lite_send_nocopy (dev ept dst data size : Z) : W E Z :=
  if (ept =? NULL) || (data =? NULL) then mret RL_ERR_PARAM
  else
    limit ← payload_limit dev;
    if limit <? size then mret RL_ERR_BUFF_SIZE
    else
      i ← get_inst dev;
      if negb (link_state i =? RL_TRUE) then mret RL_NOT_READY
      else
        e ← get_ept ept;
        let msg := RPMSG_STD_MSG_FROM_BUF data in
        check_buffer (tvq i) msg;;
        write_header msg dst (ept_addr e) size RL_NO_FLAGS;;
        env_lock_mutex (lock i);;
        o ← get_ops i;
        idx ← ldm 2 (a_hdr_idx msg);
        len ← with_vq (tvq i) (virtqueue_get_buffer_length idx);
        vq_tx o (tvq i) msg len idx;;
        with_vq (tvq i) virtqueue_kick;;
        env_unlock_mutex (lock i);;
        mret RL_SUCCESS.

Definition rpmsg_lite_release_rx_buffer (dev rxbuf : Z) : W E Z :=
  if dev =? NULL then mret RL_ERR_PARAM
  else if rxbuf =? NULL then mret RL_ERR_PARAM
  else
    let msg := RPMSG_STD_MSG_FROM_BUF rxbuf in
    i ← get_inst dev;
    check_buffer (rvq i) msg;;
    env_lock_mutex (lock i);;
    o ← get_ops i;
    idx ← ldm 2 (a_hdr_idx msg);
    len ← with_vq (rvq i) (virtqueue_get_buffer_length idx);
    vq_rx_free o (rvq i) msg len idx;;
    (if RL_ALLOW_CONSUMED_BUFFERS_NOTIFICATION then with_vq (rvq i) virtqueue_kick else mret tt);;
    env_unlock_mutex (lock i);;
    mret RL_SUCCESS.

(** ** Receiving *)

(** Handing the message at [msg] to the endpoint it is addressed to. *)
Definition rx_deliver (dev msg : Z) : W E Z :=
  dst ← ldm 4 (a_hdr_dst msg);
  node ← rpmsg_lite_get_endpoint_from_addr dev dst;
  if negb (node =? NULL) then
    n ← get_node node;
    e ← get_ept (data n);
    len ← ldm 2 (a_hdr_len msg);
    src ← ldm 4 (a_hdr_src msg);
    temit (EvRxCb (ept_addr e) (a_msg_data msg) len src (rx_cb_data e));;
    call_rx_cb (rx_cb e) (a_msg_data msg) len src (rx_cb_data e)
  else mret RL_RELEASE.

(** The [while] loop of the receive callback. *)
Fixpoint rx_loop (fuel : nat) (dev msg len idx : Z) (rx_freed : bool) : W E unit :=
  if msg =? NULL then mret tt
  else match fuel with
  | O => no_fuel
  | S k =>
      cb_ret ← rx_deliver dev msg;
      i ← get_inst dev;
      o ← get_ops i;
      (if cb_ret =? RL_HOLD then stm 2 (a_hdr_idx msg) idx
       else vq_rx_free o (rvq i) msg len idx);;
      let freed := rx_freed || negb (cb_ret =? RL_HOLD) in
      r ← vq_rx o (rvq i) len idx;
      let '(msg', len', idx') := r in
      (if RL_ALLOW_CONSUMED_BUFFERS_NOTIFICATION && (msg' =? NULL) && freed
       then with_vq (rvq i) virtqueue_kick else mret tt);;
      rx_loop k dev msg' len' idx' freed
  end.

Definition rpmsg_lite_rx_callback (fuel : nat) (vq : Z) : W E unit :=
  q ← get_vq vq;
  let dev := priv q in
  RL_ASSERT (negb (dev =? NULL));;
  i ← get_inst dev;
  (if RL_USE_ENVIRONMENT_CONTEXT then env_lock_mutex (lock i) else mret tt);;
  o ← get_ops i;
  r ← vq_rx o (rvq i) 0 0;
  let '(msg, len, idx) := r in
  rx_loop fuel dev msg len idx false;;
  (if RL_USE_ENVIRONMENT_CONTEXT then env_unlock_mutex (lock i) else mret tt).

Definition env_tx_callback (link : Z) : W E unit :=
  with_env (el_tx_callback link);; temit (EvTxCallback link).

Definition rpmsg_lite_tx_callback (vq : Z) : W E unit :=
  q ← get_vq vq;
  let dev := priv q in
  RL_ASSERT (negb (dev =? NULL));;
  upd_inst dev (set_link_state 1);;
  i ← get_inst dev;
  env_tx_callback (link_id i).

(** [virtqueue_notification] of [virtqueue.c]: the call through [callback_fc]. *)
Definition virtqueue_notification (fuel : nat) (vq : Z) : W E unit :=
  if vq =? NULL then mret tt
  else
    q ← get_vq vq;
    match callback_fc q with
    | Some rpmsg_lite_rx_callback_fc => rpmsg_lite_rx_callback fuel vq
    | Some rpmsg_lite_tx_callback_fc => rpmsg_lite_tx_callback vq
    | None => mret tt
    end.

(** ** The notification that brings the link up *)

Lemma tx_notification_ok fuel p q dev i e w :
  w_heap w !! p = Some (OVq q) → p ≠ NULL → callback_fc q = Some rpmsg_lite_tx_callback_fc →
  priv q = dev → dev ≠ NULL → w_heap w !! dev = Some (OInst i) →
  el_tx_callback (link_id i) (w_env w) = Ok tt e →
  virtqueue_notification fuel p w = Ok tt (set_trace (cons (EvTxCallback (link_id i)))
    (set_env e (set_heap <[dev := OInst (set_link_state 1 i)]> w))).
Proof.
  intros Hp Hp0 Hcb Hpriv Hdev Hi He.
  set (w1 := set_heap <[dev := OInst (set_link_state 1 i)]> w).
  assert (get_inst dev w1 = Ok (set_link_state 1 i) w1) as Hget by (apply get_inst_ok, lookup_insert_eq).
  unfold virtqueue_notification. rewrite (proj2 (Z.eqb_neq p NULL) Hp0).
  rewrite (bind_ok _ _ _ _ _ (get_vq_ok _ _ _ Hp)), Hcb. unfold rpmsg_lite_tx_callback.
  rewrite (bind_ok _ _ _ _ _ (get_vq_ok _ _ _ Hp)), Hpriv. cbv zeta.
  rewrite (proj2 (Z.eqb_neq dev NULL) Hdev). cbn [negb RL_ASSERT].
  rewrite (bind_ok _ _ _ _ _ (eq_refl : (mret tt : W E unit) w = Ok tt w)).
  rewrite (bind_ok _ _ _ _ _ (upd_inst_ok dev (set_link_state 1) i w Hi)). fold w1.
  rewrite (bind_ok _ _ _ _ _ Hget). unfold env_tx_callback, with_env, zoom. cbv [mbind M_bind].
  change (link_id (set_link_state 1 i)) with (link_id i). change (w_env w1) with (w_env w). by rewrite He.
Qed.

End rpmsg_lite.
