(* ===== verification/Sending.v ===== *)
(** * Sending is correct

    The state of an instance between calls, and the theorems about
    [rpmsg_lite_send] and the zero-copy calls of [RpmsgLite]: what the other
    side finds in the buffer, what moves between the queues, what is left
    alone, every error branch, and the bound on waiting. *)

From S2P Require Import Prelude Memory Config VirtioRing Virtqueue RingQueue VirtqueueSpec Concrete ChannelRefinement World Lpc55s69 BareMetal Llist Endpoint Transport RpmsgLite.

(** ** The state an instance is in between calls *)

(** A live instance [i] at [dev], of the role [o], with its two queues and its
    lock free. *)
Record lite_ok {E} {el : EnvLayer E} {laws : EnvLaws E} (dev : Z) (i : rpmsg_lite_instance)
    (o : virtqueue_ops) (qt qr : virtqueue) (w : world E) : Prop := {
  lo_dev : dev ≠ NULL;
  lo_inst : w_heap w !! dev = Some (OInst i);
  lo_ops : vq_ops i = Some o;
  lo_tvq : w_heap w !! tvq i = Some (OVq qt);
  lo_rvq : w_heap w !! rvq i = Some (OVq qr);
  lo_two : tvq i ≠ rvq i;
  lo_twf : vq_wf qt;
  lo_rwf : vq_wf qr;
  lo_lock : lock_free (w_env w) (lock i);
}.

(** Everything but the queue at [p] (now [q']), the memory, the trace and the
    lock is as before. *)
Record only_queue {E} {el : EnvLayer E} {laws : EnvLaws E} (p : Z) (q' : virtqueue)
    (w w' : world E) : Prop := {
  oq_heap : w_heap w' = <[p := OVq q']> (w_heap w);
  oq_next : w_next w' = w_next w;
  oq_oom : w_oom w' = w_oom w;
  oq_env : same_queues (w_env w) (w_env w');
}.

(** Memory, cache and lock events. *)
Definition quiet (e : event) : Prop :=
  internal e ∨ match e with EvLock _ | EvUnlock _ => True | _ => False end.

Lemma internal_quiet l : Forall internal l → Forall quiet l.
Proof. intros Hl. eapply Forall_impl; [exact Hl|]. by left. Qed.

Section send.
Context {E : Type} {el : EnvLayer E} {laws : EnvLaws E} {out : Outside E} {app : Application E}.
Context {cfg : Config} {am : AddrMap}.
Implicit Types w : world E.

Lemma get_ops_ok i o w : vq_ops i = Some o → get_ops i w = Ok o w.
Proof. intros Ho. unfold get_ops. by rewrite Ho. Qed.

Lemma ldm_ok n a w : ldm n a w = Ok (load n (w_mem w) a) w.
Proof. done. Qed.

(** The first entry that can be taken, as the answer of an allocation. *)
Definition tx_answer (o : virtqueue_ops) (q : virtqueue) (m : mem) (len idx : Z) : Z * Z * Z :=
  match incoming o q m with
  | [] => (NULL, len, idx)
  | (k, l) :: _ => (buf_at (vq_ring q) m k, l, k)
  end.
Definition tx_taken (o : virtqueue_ops) (q : virtqueue) (m : mem) : virtqueue :=
  match incoming o q m with [] => q | _ => taken o q end.

Lemma tx_alloc_locked_ok dev i o qt qr len idx w :
  lite_ok dev i o qt qr w →
  (∀ k l, (k, l) ∈ incoming o qt (w_mem w) → buf_at (vq_ring qt) (w_mem w) k ≠ NULL) →
  ∃ w', tx_alloc_locked dev len idx w = Ok (tx_answer o qt (w_mem w) len idx) w' ∧
    only_queue (tvq i) (tx_taken o qt (w_mem w)) w w' ∧ w_mem w' = w_mem w ∧
    lock_free (w_env w') (lock i) ∧ ∃ tr, w_trace w' = tr ++ w_trace w ∧ Forall quiet tr.
Proof.
  intros Hlo Hnull. unfold tx_alloc_locked, tx_answer, tx_taken.
  rewrite (bind_ok _ _ _ _ _ (get_inst_ok _ _ _ (lo_inst _ _ _ _ _ _ Hlo))).
  destruct (env_lock_ok _ _ (lo_lock _ _ _ _ _ _ Hlo)) as (e1 & He1 & Hm1 & Hq1).
  rewrite (bind_ok _ _ _ _ _ He1). set (w1 := set_trace _ _).
  rewrite (bind_ok _ _ _ _ _ (get_ops_ok _ _ w1 (lo_ops _ _ _ _ _ _ Hlo))).
  destruct (vq_get_ok (vq_tx_alloc o) o (tvq i) qt len idx w1 (or_intror eq_refl)
    (lo_tvq _ _ _ _ _ _ Hlo) (lo_twf _ _ _ _ _ _ Hlo) Hnull) as (tr & Htr & Hrun).
  change (w_mem w1) with (w_mem w) in Hrun.
  assert (∀ a q', vq_tx_alloc o (tvq i) len idx w1 = Ok a (after_vq (tvq i) q' (w_mem w) tr w1) →
    ∃ w', (vq_tx_alloc o (tvq i) len idx ≫= λ r, env_unlock_mutex (lock i);; mret r) w1 = Ok a w' ∧
      only_queue (tvq i) q' w w' ∧ w_mem w' = w_mem w ∧
      lock_free (w_env w') (lock i) ∧ ∃ tr, w_trace w' = tr ++ w_trace w ∧ Forall quiet tr) as Hfin.
  { intros a q' Hr. rewrite (bind_ok _ _ _ _ _ Hr).
    destruct (unlock_return (lock i) (after_vq (tvq i) q' (w_mem w) tr w1) a)
      as (w' & Hu & Hh & Hm & Htr' & Hf & Hq & Hal); [done|].
    rewrite Hu. eexists. split; [done|].
    pose proof Hu as Hu'. unfold env_unlock_mutex, with_env, zoom in Hu'.
    cbv [mbind M_bind mret M_ret temit modify] in Hu'. destruct (el_unlock _ _); try done.
    injection Hu' as <-. split_and!.
    - constructor; try done. by etrans; [exact Hq1|].
    - done.
    - done.
    - exists (EvUnlock (lock i) :: tr ++ [EvLock (lock i)]). split; [cbn; by rewrite <- app_assoc|].
      apply Forall_cons_2; [by right|]. apply Forall_app_2; [by apply internal_quiet|].
      apply Forall_singleton. by right. }
  destruct (incoming o qt (w_mem w)) as [|[k l] rest]; by apply Hfin.
Qed.

Lemma after_vq_twice p q1 m1 tr1 q2 m2 tr2 w :
  after_vq p q2 m2 tr2 (after_vq p q1 m1 tr1 w) = after_vq p q2 m2 (tr2 ++ tr1) w.
Proof. unfold after_vq, vq_back. cbn. by rewrite insert_insert_eq, app_assoc. Qed.

Lemma after_vq_heap p q m tr w : w_heap (after_vq p q m tr w) !! p = Some (OVq q).
Proof. apply lookup_insert_eq. Qed.

Lemma notified_same_ring q q' m : same_ring q q' → notified q' m = notified q m.
Proof. intros (E1 & _ & _ & _ & E5 & _ & E7 & _). unfold notified. by rewrite E1, E5, E7. Qed.

(** Giving a buffer to the other side and notifying it. *)
Lemma tx_kick_ok o p q buf len idx w :
  w_heap w !! p = Some (OVq q) → vq_wf q → 0 ≤ idx < num (vq_ring q) →
  let m' := put_mem o (vq_ring q) idx len (w_mem w) in
  ∃ tr w1, Forall internal tr ∧ vq_tx o p buf len idx w = Ok tt w1 ∧
    with_vq p virtqueue_kick w1 = Ok tt
      (after_vq p (set_vq_queued_cnt (put_vq o q) 0) m' (notified q m' ++ tr) w).
Proof.
  intros Hp Hwf Hi m'. destruct (vq_tx_ok o p q buf len idx w Hp Hwf Hi) as (tr1 & Htr1 & Hrun1).
  set (w1 := after_vq p (put_vq o q) m' tr1 w).
  destruct (kick_ok p (put_vq o q) w1 (after_vq_heap _ _ _ _ _) (put_wf o q Hwf)) as (tr2 & Htr2 & Hrun2).
  exists (tr2 ++ tr1), w1. split; [by apply Forall_app_2|]. split; [exact Hrun1|].
  rewrite Hrun2. unfold w1. rewrite after_vq_twice.
  rewrite (notified_same_ring _ _ _ (put_same_ring o q)).
  by rewrite app_assoc.
Qed.

(** The header stores. *)
Definition header_mem (msg dst src size flags : Z) (m : mem) : mem :=
  store 2 (store 2 (store 4 (store 4 m (a_hdr_dst msg) dst) (a_hdr_src msg) src)
    (a_hdr_len msg) (u16 (Z.land size 65535))) (a_hdr_flags msg) (u16 (Z.land flags 65535)).

Lemma write_header_ok msg dst src size flags w :
  ∃ tr, Forall internal tr ∧ write_header msg dst src size flags w =
    Ok tt (set_trace (λ t, tr ++ t) (set_mem (header_mem msg dst src size flags) w)).
Proof.
  exists [EvStore 2 (a_hdr_flags msg) (u16 (Z.land flags 65535));
    EvStore 2 (a_hdr_len msg) (u16 (Z.land size 65535)); EvStore 4 (a_hdr_src msg) src;
    EvStore 4 (a_hdr_dst msg) dst]. split; [by repeat constructor|done].
Qed.

Lemma header_mem_frames msg dst src size flags m :
  frames msg (msg + 16) m (header_mem msg dst src size flags m).
Proof.
  unfold header_mem, a_hdr_dst, a_hdr_src, a_hdr_len, a_hdr_flags. frame_stores.
Qed.

(** The header is complete before the payload is read, which lies elsewhere. *)
Lemma header_payload_gen msg dst src size flags data m :
  0 ≤ size → data + size ≤ msg ∨ msg + 16 + size ≤ data →
  mem_cpy (header_mem msg dst src size flags m) (a_msg_data msg) data size =
    put_msg msg src dst (u16 size) (u16 flags) (load_bytes m data (Z.to_nat size)) m.
Proof.
  intros Hs Hd. unfold mem_cpy, put_msg.
  rewrite (load_bytes_frames _ _ _ _ _ _ (header_mem_frames msg dst src size flags m)) by lia.
  unfold header_mem. change 65535 with (Z.ones 16). rewrite !Z.land_ones by lia.
  change (size mod 2 ^ 16) with (u16 size). change (flags mod 2 ^ 16) with (u16 flags). by rewrite !u16_u16.
Qed.

Lemma header_payload msg dst src size flags data m :
  0 ≤ size < 65536 → 0 ≤ flags < 65536 →
  data + size ≤ msg ∨ msg + 16 + size ≤ data →
  mem_cpy (header_mem msg dst src size flags m) (a_msg_data msg) data size =
    put_msg msg src dst size flags (load_bytes m data (Z.to_nat size)) m.
Proof. intros Hs Hf Hd. rewrite header_payload_gen by (done || lia). by rewrite !u16_small. Qed.

(** The largest payload, as a value. *)
Definition payload_max (i : rpmsg_lite_instance) : option Z :=
  if RL_ALLOW_CUSTOM_SHMEM_CONFIG then
    (λ c, u32 (buffer_payload_size c)) <$> platform_get_custom_shmem_config (link_id i)
  else Some (u32 RL_BUFFER_PAYLOAD_SIZE).

Lemma payload_limit_ok dev i n w :
  w_heap w !! dev = Some (OInst i) → payload_max i = Some n → payload_limit dev w = Ok n w.
Proof.
  intros Hi. unfold payload_max, payload_limit. destruct RL_ALLOW_CUSTOM_SHMEM_CONFIG.
  - rewrite (bind_ok _ _ _ _ _ (get_inst_ok _ _ _ Hi)).
    destruct (platform_get_custom_shmem_config _); cbn; [|done]. by intros [= <-].
  - by intros [= <-].
Qed.

(** A message was sent in buffer [b] (descriptor [k], length [l]) of the queue
    that was [q]: what the other side finds, and what else changed. *)
Record sent (i : rpmsg_lite_instance) (o : virtqueue_ops) (c : Z) (q q' : virtqueue)
    (b bsz k l : Z) (msg : rpmsg_std_msg) (w w' : world E) : Prop := {
  se_msg : read_msg (w_mem w') b = msg;
  se_out : outgoing o c q' (w_mem w') = outgoing o c q (w_mem w) ++ [out_entry o k l];
  se_in : incoming o q' (w_mem w') = incoming o q (w_mem w);
  se_desc : same_desc (vq_ring q) (w_mem w) (w_mem w');
  se_mem : ∀ a, (a < desc (vq_ring q) ∨ vring_end (vq_ring q) ≤ a) → (a < b ∨ b + bsz ≤ a) →
    byte_at (w_mem w') a = byte_at (w_mem w) a;
  se_queue : only_queue (tvq i) q' w w';
  se_ring : same_ring q q';
  se_wf : vq_wf q';
  se_lock : lock_free (w_env w') (lock i);
  se_trace : ∃ tr, w_trace w' = EvUnlock (lock i) :: notified q (w_mem w') ++ tr ++ w_trace w ∧
    Forall quiet tr;
}.

(** What a buffer must satisfy to be sent: its place in the queue. *)
Record sendable (o : virtqueue_ops) (c : Z) (q : virtqueue) (bsz k l : Z) (m : mem) : Prop := {
  sa_bufs : buffers_ok (vq_ring q) bsz m;
  sa_idx : 0 ≤ k < num (vq_ring q);
  sa_len : 0 ≤ l < 4294967296;
  sa_in : ∀ j n, (j, n) ∈ incoming o q m → j < num (vq_ring q);
  sa_room : Z.of_nat (length (outgoing o c q m)) < num (vq_ring q);
}.

(** Writing elsewhere does not matter. *)
Lemma sendable_frames o c q bsz k l m m' lo hi :
  vq_wf q → frames lo hi m m' → hi ≤ desc (vq_ring q) ∨ vring_end (vq_ring q) ≤ lo →
  sendable o c q bsz k l m →
  sendable o c q bsz k l m' ∧ incoming o q m' = incoming o q m ∧ outgoing o c q m' = outgoing o c q m ∧
  buf_at (vq_ring q) m' k = buf_at (vq_ring q) m k ∧ same_desc (vq_ring q) m m'.
Proof.
  intros Hwf Hf Hr [Hb Hk Hl Hin Hroom]. pose proof (wf_ring _ (wf_core _ Hwf)) as ok.
  destruct (outside_ring o (vq_ring q) lo hi m m' ok Hf Hr) as [Hs Ho].
  assert (incoming o q m' = incoming o q m) as Ein by (by apply incoming_ext).
  split_and!; [|done|by apply Ho|by apply buf_at_ext; [|apply Hs|]|apply Hs].
  constructor; rewrite ?Ein, ?Ho by done; try done. eapply buffers_ok_ext; [done|apply Hs|done].
Qed.

(** The memory after a message was written ([m1]) and queued. *)
Lemma message_queued o c q bsz k l msg m m1 :
  vq_wf q → sendable o c q bsz k l m →
  let b := buf_at (vq_ring q) m k in
  frames b (b + bsz) m m1 → read_msg m1 b = msg → 16 + msg_len msg ≤ bsz →
  let m' := put_mem o (vq_ring q) k l m1 in
  let q' := set_vq_queued_cnt (put_vq o q) 0 in
  read_msg m' b = msg ∧
  outgoing o c q' m' = outgoing o c q m ++ [out_entry o k l] ∧
  incoming o q' m' = incoming o q m ∧
  same_desc (vq_ring q) m m' ∧
  (∀ a, (a < desc (vq_ring q) ∨ vring_end (vq_ring q) ≤ a) → (a < b ∨ b + bsz ≤ a) →
    byte_at m' a = byte_at m a).
Proof.
  intros Hwf Hsa b Hf1 Hmsg Hbsz m' q'.
  pose proof (wf_ring _ (wf_core _ Hwf)) as ok. pose proof (sa_idx _ _ _ _ _ _ _ Hsa) as Hk.
  pose proof (bo_ring _ _ _ (sa_bufs _ _ _ _ _ _ _ Hsa) k Hk) as Hring. fold b in Hring.
  destruct (outside_ring o (vq_ring q) _ _ m m1 ok Hf1 Hring) as [Hs1 Ho1].
  pose proof (put_mem_same o (vq_ring q) k l m1 ok) as Hs2.
  pose proof (put_mem_frames o (vq_ring q) k l m1 ok) as Hf2.
  assert (∀ r, outgoing o c q' r = outgoing o c q r) as Hq' by (intros r; by destruct o, q).
  assert (∀ r, incoming o q' r = incoming o q r) as Hq'' by (intros r; by destruct o, q).
  split_and!.
  - rewrite (read_msg_ext b m1 m' (msg_len msg)); [done| |by rewrite Hmsg].
    eapply frames_agree; [exact Hf2|lia].
  - rewrite Hq'. unfold m'. rewrite outgoing_put; [by rewrite Ho1|done|done|apply Hsa|].
    rewrite Ho1 by done. apply Hsa.
  - rewrite Hq''. apply incoming_ext; [done| |apply Hsa]. by eapply same_incoming_trans.
  - eapply same_desc_trans; [apply Hs1|apply Hs2].
  - intros a Ha1 Ha2. unfold m'. rewrite Hf2 by lia. apply Hf1. lia.
Qed.

Lemma set_queued_same_ring o q : same_ring q (set_vq_queued_cnt (put_vq o q) 0).
Proof. eapply same_ring_trans; [apply put_same_ring|apply same_ring_queued]. Qed.

Lemma set_queued_wf o q : vq_wf q → vq_wf (set_vq_queued_cnt (put_vq o q) 0).
Proof.
  intros Hwf. eapply vq_wf_same_ring; [exact Hwf|apply set_queued_same_ring|..];
    destruct o, q; cbn; apply Hwf.
Qed.

(** Queueing under a lock that is already held, and releasing it. *)
Lemma unlock_only_queue p q m tr lk w0 w :
  same_queues (w_env w0) (w_env w) → w_heap w = w_heap w0 → w_next w = w_next w0 → w_oom w = w_oom w0 →
  lock_mine (w_env w) lk →
  ∃ w', env_unlock_mutex lk (after_vq p q m tr w) = Ok tt w' ∧ only_queue p q w0 w' ∧
    w_mem w' = m ∧ lock_free (w_env w') lk ∧ w_trace w' = EvUnlock lk :: tr ++ w_trace w.
Proof.
  intros Hq0 Hh Hn Ho Hl.
  destruct (env_unlock_ok lk (after_vq p q m tr w) Hl) as (e & He & Hf & Hq).
  eexists. split; [exact He|]. split_and!; try done. constructor; cbn; rewrite ?Hh; try done.
  by etrans; [exact Hq0|].
Qed.

Lemma fill_enqueue_ok dev i o c q qr bsz k l src dst data size flags w :
  lite_ok dev i o q qr w → sendable o c q bsz k l (w_mem w) → 16 + size ≤ bsz →
  0 ≤ src < 4294967296 → 0 ≤ dst < 4294967296 → 0 ≤ flags < 65536 → 0 ≤ size < 65536 →
  let b := buf_at (vq_ring q) (w_mem w) k in
  data + size ≤ b ∨ b + 16 + size ≤ data →
  ∃ w' q', (write_header b dst src size flags;; env_memcpy (a_msg_data b) data size;;
      enqueue_locked dev b l k;; mret RL_SUCCESS) w = Ok RL_SUCCESS w' ∧
    sent i o c q q' b bsz k l {| msg_src := src; msg_dst := dst; msg_len := size; msg_flags := flags;
      msg_payload := load_bytes (w_mem w) data (Z.to_nat size) |} w w'.
Proof.
  intros Hlo Hsa Hbsz Hsrc Hdst Hfl Hsz b Hdata.
  destruct (write_header_ok b dst src size flags w) as (tr1 & Htr1 & Hrun1).
  rewrite (bind_ok _ _ _ _ _ Hrun1). set (w1 := set_trace _ _).
  set (payload := load_bytes (w_mem w) data (Z.to_nat size)).
  set (m1 := put_msg b src dst size flags payload (w_mem w)).
  set (w2 := set_mem (λ m, mem_cpy m (a_msg_data b) data size) w1).
  assert (w_mem w2 = m1) as Hm2 by (by apply header_payload).
  rewrite (bind_ok _ _ _ _ _ (eq_refl : env_memcpy _ _ _ w1 = Ok tt w2)).
  unfold enqueue_locked.
  assert (∀ A (f : unit → W E A) (g : rpmsg_lite_instance → W E unit),
    ((get_inst dev ≫= g) ≫= f) w2 = (g i ≫= f) w2) as Hget.
  { intros A f g. cbv [mbind M_bind]. by rewrite (get_inst_ok dev i w2 (lo_inst _ _ _ _ _ _ Hlo)). }
  rewrite Hget.
  destruct (env_lock_ok _ w2 (lo_lock _ _ _ _ _ _ Hlo)) as (e1 & He1 & Hmine & Hq1).
  set (w3 := set_trace (cons (EvLock (lock i))) (set_env e1 w2)).
  pose proof (lo_twf _ _ _ _ _ _ Hlo) as Hwf. pose proof (sa_idx _ _ _ _ _ _ _ Hsa) as Hk.
  destruct (tx_kick_ok o (tvq i) q b l k w3 (lo_tvq _ _ _ _ _ _ Hlo) Hwf Hk)
    as (tr3 & w4 & Htr3 & Htx & Hkick). cbn zeta in Hkick.
  change (w_mem w3) with (w_mem w2) in Hkick. rewrite Hm2 in Hkick.
  set (m' := put_mem o (vq_ring q) k l m1) in *.
  destruct (unlock_only_queue (tvq i) (set_vq_queued_cnt (put_vq o q) 0) m'
    (notified q m' ++ tr3) (lock i) w w3 Hq1 eq_refl eq_refl eq_refl Hmine)
    as (w5 & Hun & Hoq & Hm5 & Hf5 & Htr5).
  exists w5, (set_vq_queued_cnt (put_vq o q) 0). split.
  { cbv [mbind M_bind] in *. rewrite He1. fold w3.
    rewrite (get_ops_ok i o w3 (lo_ops _ _ _ _ _ _ Hlo)), Htx, Hkick, Hun. done. }
  assert (size = Z.of_nat (length payload)) as Hlen by (unfold payload; rewrite length_load_bytes; lia).
  pose proof (put_msg_frames b src dst size flags payload (w_mem w)) as Hf1. rewrite <- Hlen in Hf1.
  destruct (message_queued o c q bsz k l {| msg_src := src; msg_dst := dst; msg_len := size;
    msg_flags := flags; msg_payload := payload |} (w_mem w) m1 Hwf Hsa) as (R1 & R2 & R3 & R4 & R5).
  { eapply frames_weaken; [exact Hf1|fold b; lia..]. }
  { unfold m1. fold b. rewrite read_put_msg by (try apply load_bytes_range; lia). by rewrite take_ge by lia. }
  { done. }
  fold b m' in R1, R2, R3, R4, R5.
  constructor; rewrite ?Hm5; try done.
  - apply set_queued_same_ring.
  - by apply set_queued_wf.
  - exists (tr3 ++ EvLock (lock i) :: tr1). split.
    + rewrite Htr5. cbn. by rewrite <- !app_assoc.
    + apply Forall_app_2; [by apply internal_quiet|]. apply Forall_cons_2; [by right|by apply internal_quiet].
Qed.

(** The instance after one of its transmit-queue operations. *)
Lemma lite_ok_tvq dev i o qt qr q' w w' :
  lite_ok dev i o qt qr w → only_queue (tvq i) q' w w' → vq_wf q' → lock_free (w_env w') (lock i) →
  lite_ok dev i o q' qr w'.
Proof.
  intros [? Hi ? Ht Hr Hne ? ? ?] [Hh _ _ _] Hwf Hl.
  assert (tvq i ≠ dev) by (intros E0; rewrite E0, Hi in Ht; done).
  constructor; try done; rewrite Hh.
  - by rewrite lookup_insert_ne.
  - apply lookup_insert_eq.
  - by rewrite lookup_insert_ne.
Qed.

Lemma only_queue_trans p q1 q2 w1 w2 w3 :
  only_queue p q1 w1 w2 → only_queue p q2 w2 w3 → only_queue p q2 w1 w3.
Proof.
  intros [H1 N1 O1 E1] [H2 N2 O2 E2]. constructor.
  - by rewrite H2, H1, insert_insert_eq.
  - by rewrite N2.
  - by rewrite O2.
  - by etrans.
Qed.

Lemma tx_taken_wf o q m : vq_wf q → vq_wf (tx_taken o q m).
Proof. intros. unfold tx_taken. destruct (incoming o q m); [done|by apply taken_wf]. Qed.

Lemma notified_ring o q m : notified (taken o q) m = notified q m.
Proof. apply notified_same_ring, taken_same_ring. Qed.

(** Sending with a buffer at hand, up to the queueing. *)
Lemma format_message_ok fuel dev i o c qt qr bsz k l rest src dst data size flags timeout w :
  lite_ok dev i o qt qr w → link_state i = RL_TRUE → data ≠ NULL →
  incoming o qt (w_mem w) = (k, l) :: rest → sendable o c qt bsz k l (w_mem w) → 16 + size ≤ bsz →
  0 ≤ src < 4294967296 → 0 ≤ dst < 4294967296 → 0 ≤ flags < 65536 → 0 ≤ size < 65536 →
  let b := buf_at (vq_ring qt) (w_mem w) k in
  data + size ≤ b ∨ b + 16 + size ≤ data →
  ∃ w' q', rpmsg_lite_format_message fuel dev src dst data size flags timeout w = Ok RL_SUCCESS w' ∧
    incoming o q' (w_mem w') = rest ∧
    sent i o c (taken o qt) q' b bsz k l {| msg_src := src; msg_dst := dst; msg_len := size;
      msg_flags := flags; msg_payload := load_bytes (w_mem w) data (Z.to_nat size) |} w w'.
Proof.
  intros Hlo Hup Hd0 Hin Hsa Hbsz Hsrc Hdst Hfl Hsz b Hdata.
  unfold rpmsg_lite_format_message. rewrite (proj2 (Z.eqb_neq data NULL) Hd0).
  rewrite (bind_ok _ _ _ _ _ (get_inst_ok _ _ _ (lo_inst _ _ _ _ _ _ Hlo))).
  rewrite Hup. cbn [Z.eqb negb RL_TRUE Pos.eqb].
  assert (∀ j n, (j, n) ∈ incoming o qt (w_mem w) → buf_at (vq_ring qt) (w_mem w) j ≠ NULL) as Hnull.
  { intros j n Hj. apply (bo_null _ _ _ (sa_bufs _ _ _ _ _ _ _ Hsa)).
    pose proof (incoming_range _ _ _ _ _ Hj). pose proof (sa_in _ _ _ _ _ _ _ Hsa _ _ Hj). lia. }
  destruct (tx_alloc_locked_ok dev i o qt qr 0 0 w Hlo Hnull) as (w1 & Hrun & Hoq & Hm & Hl & tr & Htr & Hq).
  unfold tx_answer, tx_taken in Hrun, Hoq. rewrite Hin in Hrun, Hoq.
  assert (tx_get_buffer fuel dev timeout 0 w = Ok (Some (b, l, k)) w1) as Hget.
  { unfold tx_get_buffer. rewrite (bind_ok _ _ _ _ _ Hrun). fold b.
    rewrite (proj2 (Z.eqb_neq b NULL)); [done|]. apply (Hnull k l). rewrite Hin. left. }
  rewrite (bind_ok _ _ _ _ _ Hget).
  pose proof (lo_twf _ _ _ _ _ _ Hlo) as Hwf. pose proof (taken_wf o qt Hwf) as Hwf'.
  pose proof (lite_ok_tvq _ _ _ _ _ _ _ _ Hlo Hoq Hwf' Hl) as Hlo1.
  destruct (taken_same_ring o qt) as (Er & _).
  assert (sendable o c (taken o qt) bsz k l (w_mem w1)) as Hsa1.
  { destruct Hsa as [H1 H2 H3 H4 H5]. rewrite Hm. constructor; rewrite ?Er; try done.
    - rewrite (incoming_taken _ _ _ _ _ Hwf Hin). intros j n Hj. apply (H4 j n). rewrite Hin. by right.
    - by rewrite (outgoing_ring o c qt). }
  destruct (fill_enqueue_ok dev i o c (taken o qt) qr bsz k l src dst data size flags w1 Hlo1 Hsa1
    Hbsz Hsrc Hdst Hfl Hsz) as (w' & q' & Hfin & [S1 S2 S3 S4 S5 S6 S7 S8 S9 (tr' & S10 & S11)]);
    rewrite Er, Hm in *; [done|].
  exists w', q'. fold b in Hfin, S1, S5. split; [exact Hfin|]. split.
  { rewrite S3. by eapply incoming_taken. }
  constructor; rewrite ?Er; try done.
  - by eapply only_queue_trans.
  - exists (tr' ++ tr). rewrite S10, Htr. split; [by rewrite <- !app_assoc|]. by apply Forall_app_2.
Qed.

End send.

(** ** Waiting for a buffer *)

Section waiting.
Context {E : Type} {el : EnvLayer E} {out : Outside E} {cfg : Config} {am : AddrMap}.

(** The state after one sleep. *)
Definition slept (w : world E) : world E :=
  while_sleeping RL_MS_PER_INTERVAL (set_trace (cons (EvSleep RL_MS_PER_INTERVAL)) w).

(** [polled dev n w len idx r w']: the [n]-th poll of a waiting sender, each one
    after a sleep, answers [r] in state [w'], and the ones before found
    nothing. *)
Inductive polled (dev : Z) : nat → world E → Z → Z → Z * Z * Z → world E → Prop :=
| polled_first w len idx r w' :
    tx_alloc_locked dev len idx (slept w) = Ok r w' → polled dev 1 w len idx r w'
| polled_next n w len idx len1 idx1 w1 r w' :
    tx_alloc_locked dev len idx (slept w) = Ok (NULL, len1, idx1) w1 →
    polled dev n w1 len1 idx1 r w' → polled dev (S n) w len idx r w'.

(** A state from which a sender of [size] bytes at [data] can go on: the
    instance is intact, and whatever buffer is offered can be filled. *)
Record tx_ready {laws : EnvLaws E} (dev : Z) (i : rpmsg_lite_instance) (o : virtqueue_ops)
    (c data size bsz : Z) (w : world E) : Prop := {
  tr_state : ∃ qt qr, lite_ok dev i o qt qr w ∧ buffers_ok (vq_ring qt) bsz (w_mem w) ∧
    (∀ j n, (j, n) ∈ incoming o qt (w_mem w) → j < num (vq_ring qt) ∧
       (data + size ≤ buf_at (vq_ring qt) (w_mem w) j ∨
        buf_at (vq_ring qt) (w_mem w) j + 16 + size ≤ data)) ∧
    (incoming o qt (w_mem w) ≠ [] → Z.of_nat (length (outgoing o c qt (w_mem w))) < num (vq_ring qt));
}.

(** The sender has buffer [b] and can fill and send it. *)
Record holding {laws : EnvLaws E} (dev : Z) (i : rpmsg_lite_instance) (o : virtqueue_ops)
    (c data size bsz b k l : Z) (q qr : virtqueue) (w : world E) : Prop := {
  ho_lite : lite_ok dev i o q qr w;
  ho_sendable : sendable o c q bsz k l (w_mem w);
  ho_buf : b = buf_at (vq_ring q) (w_mem w) k;
  ho_data : data + size ≤ b ∨ b + 16 + size ≤ data;
}.

End waiting.

Section waiting_lemmas.
Context {E : Type} {el : EnvLayer E} {laws : EnvLaws E} {out : Outside E} {app : Application E}.
Context {cfg : Config} {cok : ConfigOk cfg} {am : AddrMap}.
Context (dev : Z) (i : rpmsg_lite_instance) (o : virtqueue_ops) (c data size bsz : Z).
Implicit Types w : world E.

(** While this core sleeps, the others keep the instance usable. *)
Hypothesis sleeping_keeps : ∀ w, tx_ready dev i o c data size bsz w →
  tx_ready dev i o c data size bsz (slept w).

Lemma ready_alloc len idx w :
  tx_ready dev i o c data size bsz w →
  ∃ b l k w', tx_alloc_locked dev len idx w = Ok (b, l, k) w' ∧
    if b =? NULL then tx_ready dev i o c data size bsz w'
    else ∃ q qr, holding dev i o c data size bsz b k l q qr w'.
Proof.
  intros [(qt & qr & Hlo & Hb & Hin & Hroom)].
  assert (∀ k l, (k, l) ∈ incoming o qt (w_mem w) → buf_at (vq_ring qt) (w_mem w) k ≠ NULL) as Hnull.
  { intros k l Hk. apply (bo_null _ _ _ Hb). pose proof (incoming_range _ _ _ _ _ Hk).
    pose proof (Hin _ _ Hk). lia. }
  destruct (tx_alloc_locked_ok dev i o qt qr len idx w Hlo Hnull) as (w' & Hrun & Hoq & Hm & Hl & _).
  pose proof (lo_twf _ _ _ _ _ _ Hlo) as Hwf.
  pose proof (lite_ok_tvq _ _ _ _ _ _ _ _ Hlo Hoq (tx_taken_wf _ _ _ Hwf) Hl) as Hlo'.
  unfold tx_answer, tx_taken in *. destruct (incoming o qt (w_mem w)) as [|[k l] rest] eqn:Hi.
  - exists NULL, len, idx, w'. split; [done|]. constructor. exists qt, qr. rewrite Hm, Hi. by split_and!.
  - exists (buf_at (vq_ring qt) (w_mem w) k), l, k, w'. split; [done|].
    assert ((k, l) ∈ incoming o qt (w_mem w)) as Hk by (rewrite Hi; left).
    rewrite (proj2 (Z.eqb_neq _ NULL)) by (apply (Hnull k l); left).
    exists (taken o qt), qr. destruct (taken_same_ring o qt) as (Er & _).
    pose proof (incoming_range _ _ _ _ _ Hk). pose proof (Hin k l ltac:(left)) as [Hkn Hdat].
    constructor; rewrite ?Er, ?Hm; try done.
    constructor; rewrite ?Er; try done; try lia.
    + rewrite (incoming_taken _ _ _ _ _ Hwf Hi). intros j n Hj. apply (Hin j n). by right.
    + rewrite (outgoing_ring o c qt) by done. by apply Hroom.
Qed.

(** The wait ends within the number of polls the timeout allows, and gives up
    only at the last. *)
Lemma tx_wait_loop_ok fuel t timeout len idx w :
  tx_ready dev i o c data size bsz w → 0 ≤ t < timeout →
  timeout + RL_MS_PER_INTERVAL < 4294967296 →
  timeout ≤ t + Z.of_nat fuel * RL_MS_PER_INTERVAL →
  ∃ n b l k w', polled dev n w len idx (b, l, k) w' ∧
    tx_wait_loop fuel dev timeout t len idx w =
      Ok (if b =? NULL then None else Some (b, l, k)) w' ∧
    t + (Z.of_nat n - 1) * RL_MS_PER_INTERVAL < timeout ∧
    if b =? NULL then timeout ≤ t + Z.of_nat n * RL_MS_PER_INTERVAL
    else ∃ q qr, holding dev i o c data size bsz b k l q qr w'.
Proof.
  pose proof cfg_interval. revert t len idx w.
  induction fuel as [|fuel IH]; intros t len idx w Hr Ht Hwrap Hf; [lia|].
  rewrite Nat2Z.inj_succ, Z.mul_succ_l in Hf. cbn [tx_wait_loop].
  rewrite (bind_ok _ _ _ _ _ (eq_refl : env_sleep_msec RL_MS_PER_INTERVAL w = Ok tt (slept w))).
  destruct (ready_alloc len idx (slept w) (sleeping_keeps _ Hr)) as (b1 & l1 & k1 & w1 & Hrun & Hres).
  rewrite (bind_ok _ _ _ _ _ Hrun).
  rewrite (u32_small RL_MS_PER_INTERVAL), u32_small by lia.
  destruct (Z.eqb_spec b1 NULL) as [->|Hb1].
  - destruct (Z.leb_spec timeout (t + RL_MS_PER_INTERVAL)) as [Hle|Hgt]; cbn [andb].
    + exists 1%nat, NULL, l1, k1, w1. rewrite Z.eqb_refl. split_and!; [by constructor|done|lia..].
    + assert (0 ≤ t + RL_MS_PER_INTERVAL < timeout) as Ht1 by lia.
      assert (timeout ≤ t + RL_MS_PER_INTERVAL + Z.of_nat fuel * RL_MS_PER_INTERVAL) as Hf1 by lia.
      destruct (IH _ l1 k1 w1 Hres Ht1 Hwrap Hf1) as (n & b & l & k & w' & Hp & Hrun' & Hb & Hlast).
      exists (S n), b, l, k, w'. split_and!; [by eapply polled_next|done|nia|].
      destruct (b =? NULL); [nia|done].
  - exists 1%nat, b1, l1, k1, w1. rewrite andb_false_r, (proj2 (Z.eqb_neq b1 NULL) Hb1).
    split_and!; [by constructor|done|lia|done].
Qed.

End waiting_lemmas.

(** ** Zero copy *)

Section nocopy.
Context {E : Type} {el : EnvLayer E} {laws : EnvLaws E} {out : Outside E} {app : Application E}.
Context {cfg : Config} {am : AddrMap}.
Implicit Types w : world E.

Lemma find_desc_found vr m n k addr :
  (k < n)%nat → load 8 m (a_desc_addr vr (Z.of_nat k)) = addr → 0 ≤ find_desc vr m n addr.
Proof.
  intros Hk Ha. induction n as [|n IH]; [lia|]. cbn [find_desc].
  destruct (Z.eqb_spec (load 8 m (a_desc_addr vr (Z.of_nat n))) addr); [lia|].
  destruct (decide (k = n)) as [->|]; [done|]. apply IH. lia.
Qed.

(** The debug check passes for a buffer of the queue whose descriptor holds the
    untranslated pointer. *)
Lemma check_buffer_ok p q k w :
  w_heap w !! p = Some (OVq q) → vq_wf q → 0 ≤ k < num (vq_ring q) →
  (RL_DEBUG_CHECK_BUFFERS = true →
     r_desc_addr (vq_ring q) (w_mem w) k = buf_at (vq_ring q) (w_mem w) k) →
  check_buffer p (buf_at (vq_ring q) (w_mem w) k) w = Ok tt w.
Proof.
  intros Hp Hwf Hk Hd. unfold check_buffer. destruct RL_DEBUG_CHECK_BUFFERS; [|done].
  rewrite (bind_ok _ _ _ _ _ (get_vq_ok _ _ _ Hp)).
  rewrite (bind_ok _ _ _ _ _ (eq_refl : get_state w = Ok w w)).
  rewrite (proj2 (Z.leb_le 0 _)); [done|].
  apply (find_desc_found _ _ _ (Z.to_nat k)).
  - rewrite (wf_n _ (wf_core _ Hwf)). lia.
  - rewrite Z2Nat.id by lia. by apply Hd.
Qed.

Lemma alloc_tx_buffer_ok fuel dev i o c qt qr bsz k l rest s0 timeout w :
  lite_ok dev i o qt qr w → link_state i = RL_TRUE →
  incoming o qt (w_mem w) = (k, l) :: rest → sendable o c qt bsz k l (w_mem w) → 16 ≤ l →
  let b := buf_at (vq_ring qt) (w_mem w) k in
  ∃ w', rpmsg_lite_alloc_tx_buffer fuel dev (Some s0) timeout w =
      Ok (a_msg_data b, Some (l - 16)) w' ∧
    only_queue (tvq i) (taken o qt) w w' ∧ w_mem w' = store 2 (w_mem w) (a_hdr_idx b) k ∧
    lock_free (w_env w') (lock i) ∧ ∃ tr, w_trace w' = tr ++ w_trace w ∧ Forall quiet tr.
Proof.
  intros Hlo Hup Hin Hsa Hl16 b. unfold rpmsg_lite_alloc_tx_buffer.
  rewrite (bind_ok _ _ _ _ _ (get_inst_ok _ _ _ (lo_inst _ _ _ _ _ _ Hlo))).
  rewrite Hup. cbn [Z.eqb negb RL_TRUE Pos.eqb].
  assert (∀ j n, (j, n) ∈ incoming o qt (w_mem w) → buf_at (vq_ring qt) (w_mem w) j ≠ NULL) as Hnull.
  { intros j n Hj. apply (bo_null _ _ _ (sa_bufs _ _ _ _ _ _ _ Hsa)).
    pose proof (incoming_range _ _ _ _ _ Hj). pose proof (sa_in _ _ _ _ _ _ _ Hsa _ _ Hj). lia. }
  destruct (tx_alloc_locked_ok dev i o qt qr s0 0 w Hlo Hnull) as (w1 & Hrun & [H1 H2 H3 H4] & Hm & Hl & tr & Htr & Hq).
  unfold tx_answer, tx_taken in Hrun, H1. rewrite Hin in Hrun, H1.
  assert (tx_get_buffer fuel dev timeout s0 w = Ok (Some (b, l, k)) w1) as Hget.
  { unfold tx_get_buffer. rewrite (bind_ok _ _ _ _ _ Hrun). fold b.
    rewrite (proj2 (Z.eqb_neq b NULL)); [done|]. apply (Hnull k l). rewrite Hin. left. }
  rewrite (bind_ok _ _ _ _ _ Hget). unfold stm.
  rewrite (bind_ok _ _ _ _ _ (eq_refl : modify _ w1 = Ok tt _)).
  unfold sizeof_rpmsg_std_hdr. rewrite (proj2 (Z.leb_le 16 l)) by lia.
  eexists. split; [reflexivity|]. cbn. split_and!; [by constructor|by rewrite Hm|done|].
  exists (EvStore 2 (a_hdr_idx b) k :: tr). split; [by rewrite Htr|]. apply Forall_cons_2; [by left|done].
Qed.

Lemma send_nocopy_ok dev i o c q qr bsz k l ept e dst size lim w :
  lite_ok dev i o q qr w → link_state i = RL_TRUE →
  ept ≠ NULL → w_heap w !! ept = Some (OEpt e) → 0 ≤ ept_addr e < 4294967296 → 0 ≤ dst < 4294967296 →
  payload_max i = Some lim → 0 ≤ size ≤ lim → size < 65536 → 16 + size ≤ bsz →
  sendable o c q bsz k l (w_mem w) →
  let b := buf_at (vq_ring q) (w_mem w) k in
  load 2 (w_mem w) (a_hdr_idx b) = k → r_desc_len (vq_ring q) (w_mem w) k = l → a_msg_data b ≠ NULL →
  (RL_DEBUG_CHECK_BUFFERS = true → r_desc_addr (vq_ring q) (w_mem w) k = b) →
  ∃ w' q', rpmsg_lite_send_nocopy dev ept dst (a_msg_data b) size w = Ok RL_SUCCESS w' ∧
    sent i o c q q' b bsz k l {| msg_src := ept_addr e; msg_dst := dst; msg_len := size;
      msg_flags := 0; msg_payload := load_bytes (w_mem w) (a_msg_data b) (Z.to_nat size) |} w w'.
Proof.
  intros Hlo Hup Hept He Hsrc Hdst Hlim Hsz Hsz2 Hbsz Hsa b Hidx Hdl Hdata Hdbg.
  pose proof (lo_twf _ _ _ _ _ _ Hlo) as Hwf. pose proof (sa_idx _ _ _ _ _ _ _ Hsa) as Hk.
  pose proof (wf_ring _ (wf_core _ Hwf)) as ok.
  pose proof (bo_ring _ _ _ (sa_bufs _ _ _ _ _ _ _ Hsa) k Hk) as Hring. fold b in Hring.
  unfold rpmsg_lite_send_nocopy.
  rewrite (proj2 (Z.eqb_neq ept NULL) Hept), (proj2 (Z.eqb_neq _ NULL) Hdata). cbn [orb].
  pose proof (lo_inst _ _ _ _ _ _ Hlo) as Hi.
  rewrite (bind_ok _ _ _ _ _ (payload_limit_ok _ _ _ _ Hi Hlim)).
  rewrite (proj2 (Z.ltb_ge lim size)) by lia.
  rewrite (bind_ok _ _ _ _ _ (get_inst_ok _ _ _ Hi)), Hup. cbn [Z.eqb negb RL_TRUE Pos.eqb].
  rewrite (bind_ok _ _ _ _ _ (get_ept_ok _ _ _ He)). cbv zeta.
  assert (RPMSG_STD_MSG_FROM_BUF (a_msg_data b) = b) as ->.
  { unfold RPMSG_STD_MSG_FROM_BUF, a_msg_data, sizeof_rpmsg_std_hdr. lia. }
  rewrite (bind_ok _ _ _ _ _ (check_buffer_ok (tvq i) q k w (lo_tvq _ _ _ _ _ _ Hlo) Hwf Hk Hdbg)).
  destruct (write_header_ok b dst (ept_addr e) size RL_NO_FLAGS w) as (tr1 & Htr1 & Hrun1).
  rewrite (bind_ok _ _ _ _ _ Hrun1). set (w1 := set_trace _ _).
  set (m1 := header_mem b dst (ept_addr e) size RL_NO_FLAGS (w_mem w)).
  pose proof (header_mem_frames b dst (ept_addr e) size RL_NO_FLAGS (w_mem w)) as Hf1. fold m1 in Hf1.
  destruct (env_lock_ok _ w1 (lo_lock _ _ _ _ _ _ Hlo)) as (e1 & He1 & Hmine & Hq1).
  rewrite (bind_ok _ _ _ _ _ He1).
  set (w2 := set_trace (cons (EvLock (lock i))) (set_env e1 w1)).
  rewrite (bind_ok _ _ _ _ _ (get_ops_ok i o w2 (lo_ops _ _ _ _ _ _ Hlo))).
  rewrite (bind_ok _ _ _ _ _ (ldm_ok 2 (a_hdr_idx b) w2)). change (w_mem w2) with m1.
  assert (load 2 m1 (a_hdr_idx b) = k) as ->.
  { unfold m1, header_mem. unfold a_hdr_idx in *.
    rewrite !load_store_ne by (unfold a_hdr_flags, a_hdr_len, a_hdr_src, a_hdr_dst; lia). done. }
  pose proof (lo_tvq _ _ _ _ _ _ Hlo) as Htv.
  rewrite (bind_ok _ _ _ _ _ (get_buffer_length_ok (tvq i) q k w2 Htv)). change (w_mem w2) with m1.
  set (w3 := after_vq (tvq i) q m1 _ w2).
  assert (same_desc (vq_ring q) (w_mem w) m1) as Hsd.
  { apply (outside_ring o (vq_ring q) _ _ _ m1 ok Hf1). lia. }
  destruct (r_desc_ext _ ok (w_mem w) m1 k Hsd Hk) as [_ ->]. rewrite Hdl.
  destruct (tx_kick_ok o (tvq i) q b l k w3 (after_vq_heap _ _ _ _ _) Hwf Hk)
    as (tr3 & w4 & Htr3 & Htx & Hkick). cbn zeta in Hkick.
  rewrite (bind_ok _ _ _ _ _ Htx), (bind_ok _ _ _ _ _ Hkick).
  unfold w3. rewrite after_vq_twice. change (w_mem (after_vq (tvq i) q m1 _ w2)) with m1.
  set (m' := put_mem o (vq_ring q) k l m1).
  set (tr4 := (notified q m' ++ tr3) ++ _).
  destruct (unlock_only_queue (tvq i) (set_vq_queued_cnt (put_vq o q) 0) m' tr4 (lock i) w w2
    Hq1 eq_refl eq_refl eq_refl Hmine) as (w5 & Hun & Hoq & Hm5 & Hf5 & Htr5).
  rewrite (bind_ok _ _ _ _ _ Hun).
  exists w5, (set_vq_queued_cnt (put_vq o q) 0). split; [done|].
  destruct (message_queued o c q bsz k l {| msg_src := ept_addr e; msg_dst := dst; msg_len := size;
    msg_flags := 0; msg_payload := load_bytes (w_mem w) (a_msg_data b) (Z.to_nat size) |} (w_mem w) m1 Hwf Hsa)
    as (R1 & R2 & R3 & R4 & R5).
  { eapply frames_weaken; [exact Hf1|fold b; lia..]. }
  { fold b. unfold read_msg.
    assert (m1 = put_msg b (ept_addr e) dst size 0 [] (w_mem w)) as Eput.
    { unfold m1, header_mem, put_msg. cbn [store_bytes]. change 65535 with (Z.ones 16).
      rewrite !Z.land_ones by lia. change (RL_NO_FLAGS mod 2 ^ 16) with 0.
      rewrite (Z.mod_small size) by lia. by rewrite !u16_small by lia. }
    assert (load 2 m1 (a_hdr_len b) = size) as ->.
    { rewrite Eput. unfold put_msg. cbn [store_bytes].
      rewrite load_store_ne by (unfold a_hdr_flags, a_hdr_len; lia).
      rewrite load_store_same. change (256 ^ Z.of_nat 2) with 65536. apply Z.mod_small. lia. }
    assert (load_bytes m1 (a_msg_data b) (Z.to_nat size) = load_bytes (w_mem w) (a_msg_data b) (Z.to_nat size)) as ->.
    { eapply load_bytes_frames; [exact Hf1|]. unfold a_msg_data, sizeof_rpmsg_std_hdr. lia. }
    pose proof (read_put_msg b (ept_addr e) dst 0 0 [] (w_mem w) Hsrc Hdst ltac:(lia) ltac:(lia)
      ltac:(cbn; lia) ltac:(constructor)) as Hr0.
    assert (∀ a k, (a = a_hdr_src b ∨ a = a_hdr_dst b) → k = 4%nat →
      load k m1 a = load k (put_msg b (ept_addr e) dst 0 0 [] (w_mem w)) a) as Hld.
    { intros a j Ha ->. rewrite Eput. unfold put_msg. cbn [store_bytes].
      by rewrite !(load_store_ne 2) by (unfold a_hdr_flags, a_hdr_len, a_hdr_src, a_hdr_dst in *; lia). }
    rewrite (Hld (a_hdr_src b) 4%nat), (Hld (a_hdr_dst b) 4%nat) by auto.
    rewrite (f_equal msg_src Hr0 : load 4 _ (a_hdr_src b) = ept_addr e).
    rewrite (f_equal msg_dst Hr0 : load 4 _ (a_hdr_dst b) = dst).
    assert (load 2 m1 (a_hdr_flags b) = 0) as ->; [|done].
    unfold m1, header_mem. by rewrite load_store_same. }
  { cbn. lia. }
  fold b m' in R1, R2, R3, R4, R5.
  constructor; rewrite ?Hm5; try done.
  - apply set_queued_same_ring.
  - by apply set_queued_wf.
  - exists (tr3 ++ inval_evs (a_desc_len (vq_ring q) k) 4 ++ EvLock (lock i) :: tr1). split.
    + rewrite Htr5. unfold tr4. cbn. by rewrite <- !app_assoc.
    + apply Forall_app_2; [by apply internal_quiet|]. apply Forall_app_2; [apply internal_quiet, internal_inval|].
      apply Forall_cons_2; [by right|by apply internal_quiet].
Qed.

End nocopy.

(** ** The theorems *)

Section theorems.
Context {E : Type} {el : EnvLayer E} {laws : EnvLaws E} {out : Outside E} {app : Application E}.
Context {cfg : Config} {cok : ConfigOk cfg} {am : AddrMap}.
Implicit Types w : world E.

(** Past its checks [rpmsg_lite_send] formats the message. *)
Lemma send_formats fuel dev i o qt qr ept e dst data size timeout lim w :
  lite_ok dev i o qt qr w → ept ≠ NULL → w_heap w !! ept = Some (OEpt e) →
  payload_max i = Some lim → size ≤ lim →
  rpmsg_lite_send fuel dev ept dst data size timeout w =
    rpmsg_lite_format_message fuel dev (ept_addr e) dst data size RL_NO_FLAGS (u32 timeout) w.
Proof.
  intros Hlo Hept He Hlim Hsz. unfold rpmsg_lite_send.
  rewrite (proj2 (Z.eqb_neq ept NULL) Hept), (proj2 (Z.eqb_neq dev NULL) (lo_dev _ _ _ _ _ _ Hlo)).
  rewrite (bind_ok _ _ _ _ _ (payload_limit_ok _ _ _ _ (lo_inst _ _ _ _ _ _ Hlo) Hlim)).
  by rewrite (proj2 (Z.ltb_ge lim size)), (bind_ok _ _ _ _ _ (get_ept_ok _ _ _ He)) by lia.
Qed.

(** No free buffer, and no time to wait for one. *)
Lemma send_full_ok fuel dev i o qt qr ept e dst data size timeout lim w :
  lite_ok dev i o qt qr w → ept ≠ NULL → w_heap w !! ept = Some (OEpt e) → payload_max i = Some lim → size ≤ lim →
  data ≠ NULL → link_state i = RL_TRUE → incoming o qt (w_mem w) = [] → u32 timeout = 0 →
  ∃ w', rpmsg_lite_send fuel dev ept dst data size timeout w = Ok RL_ERR_NO_MEM w' ∧
    only_queue (tvq i) qt w w' ∧ w_mem w' = w_mem w ∧ lite_ok dev i o qt qr w' ∧
    ∃ tr, w_trace w' = tr ++ w_trace w ∧ Forall quiet tr.
Proof.
  intros Hlo Hept He Hlim Hs Hd Hup Hnil Ht. pose proof (lo_inst _ _ _ _ _ _ Hlo) as Hi.
  rewrite (send_formats _ _ _ _ _ _ _ _ _ _ _ _ _ _ Hlo Hept He Hlim Hs). unfold rpmsg_lite_format_message.
  rewrite (proj2 (Z.eqb_neq data NULL) Hd), (bind_ok _ _ _ _ _ (get_inst_ok _ _ _ Hi)), Hup, Ht.
  cbn [Z.eqb negb RL_TRUE Pos.eqb].
  destruct (tx_alloc_locked_ok dev i o qt qr 0 0 w Hlo) as (w' & Hrun & Hoq & Hm & Hl & Htr).
  { rewrite Hnil. intros k l Hk. by apply not_elem_of_nil in Hk. }
  unfold tx_answer, tx_taken in Hrun, Hoq. rewrite Hnil in Hrun, Hoq.
  assert (tx_get_buffer fuel dev 0 0 w = Ok None w') as Hget.
  { unfold tx_get_buffer. by rewrite (bind_ok _ _ _ _ _ Hrun). }
  rewrite (bind_ok _ _ _ _ _ Hget). exists w'. split_and!; try done.
  eapply lite_ok_tvq; [exact Hlo|done|apply Hlo|done].
Qed.

(** C1.  [rpmsg_lite_send] with a free buffer.  Whichever role the instance
    has, the call returns [RL_SUCCESS]; the buffer taken is the first free one;
    it then holds the sender's and the receiver's address, the payload size and
    the payload bytes; it is the new last entry of the queue the other side
    reads, the entries before it and the remaining free buffers are as before;
    no byte outside that buffer and the ring has changed; the lock is free; and
    the last thing the call did, under the lock, was to notify the other side,
    unless that side asked not to be. *)
Theorem send_delivers fuel dev i o c qt qr bsz k l rest ept e dst data size timeout lim w :
  lite_ok dev i o qt qr w → link_state i = RL_TRUE →
  ept ≠ NULL → w_heap w !! ept = Some (OEpt e) → 0 ≤ ept_addr e < 4294967296 → 0 ≤ dst < 4294967296 →
  data ≠ NULL → payload_max i = Some lim → 0 ≤ size ≤ lim → size < 65536 → 16 + size ≤ bsz →
  incoming o qt (w_mem w) = (k, l) :: rest → sendable o c qt bsz k l (w_mem w) →
  let b := buf_at (vq_ring qt) (w_mem w) k in
  data + size ≤ b ∨ b + 16 + size ≤ data →
  ∃ w' q', rpmsg_lite_send fuel dev ept dst data size timeout w = Ok RL_SUCCESS w' ∧
    incoming o q' (w_mem w') = rest ∧
    sent i o c (taken o qt) q' b bsz k l {| msg_src := ept_addr e; msg_dst := dst; msg_len := size;
      msg_flags := 0; msg_payload := load_bytes (w_mem w) data (Z.to_nat size) |} w w'.
Proof.
  intros Hlo Hup Hept He Hsrc Hdst Hd Hlim Hsz Hsz2 Hbsz Hin Hsa b Hdata.
  rewrite (send_formats _ _ _ _ _ _ _ _ _ _ _ _ _ _ Hlo Hept He Hlim) by lia.
  eapply format_message_ok; try done; lia.
Qed.


(** C17.  Waiting for a buffer is bounded and loses nothing.  Provided the rest
    of the system keeps the instance usable while this core sleeps, a send with
    a finite timeout always returns: it polls at most [polls timeout] times; if
    a poll finds a buffer, the message is sent in it at once; otherwise it
    returns [RL_ERR_NO_MEM] after exactly [polls timeout] polls and changes
    nothing more. *)
Theorem send_waits fuel dev i o c data size bsz ept e dst timeout lim l0 k0 w w0 :
  (∀ w, tx_ready dev i o c data size bsz w → tx_ready dev i o c data size bsz (slept w)) →
  tx_ready dev i o c data size bsz w0 → w_heap w !! dev = Some (OInst i) → dev ≠ NULL →
  tx_alloc_locked dev 0 0 w = Ok (NULL, l0, k0) w0 →
  link_state i = RL_TRUE → ept ≠ NULL → w_heap w !! ept = Some (OEpt e) →
  0 ≤ ept_addr e < 4294967296 → 0 ≤ dst < 4294967296 → data ≠ NULL →
  payload_max i = Some lim → 0 ≤ size ≤ lim → size < 65536 → 16 + size ≤ bsz →
  0 < timeout → timeout + RL_MS_PER_INTERVAL < 4294967296 → polls timeout ≤ Z.of_nat fuel →
  ∃ n b l k w1 r w', polled dev n w0 l0 k0 (b, l, k) w1 ∧ Z.of_nat n ≤ polls timeout ∧
    rpmsg_lite_send fuel dev ept dst data size timeout w = Ok r w' ∧
    if b =? NULL then r = RL_ERR_NO_MEM ∧ w' = w1 ∧ Z.of_nat n = polls timeout
    else r = RL_SUCCESS ∧ ∃ q qr q', holding dev i o c data size bsz b k l q qr w1 ∧
      sent i o c q q' b bsz k l {| msg_src := ept_addr e; msg_dst := dst; msg_len := size;
        msg_flags := 0; msg_payload := load_bytes (w_mem w1) data (Z.to_nat size) |} w1 w'.
Proof.
  intros Hkeep Hr Hi Hdev Halloc Hup Hept He Hsrc Hdst Hd Hlim Hsz Hsz2 Hbsz Ht Hwrap Hfuel.
  destruct (polls_spec timeout ltac:(lia)) as (Hp1 & Hp2 & Hp3). pose proof cfg_interval.
  assert (timeout ≤ 0 + Z.of_nat fuel * RL_MS_PER_INTERVAL) as Hf by nia.
  destruct (tx_wait_loop_ok dev i o c data size bsz Hkeep fuel 0 timeout l0 k0 w0 Hr ltac:(lia) Hwrap Hf)
    as (n & b & l & k & w1 & Hpoll & Hloop & Hn & Hend).
  assert (rpmsg_lite_send fuel dev ept dst data size timeout w =
    ((match (if b =? NULL then None else Some (b, l, k)) with
      | None => mret RL_ERR_NO_MEM
      | Some (buffer, buff_len, idx) =>
          write_header buffer dst (ept_addr e) size RL_NO_FLAGS;;
          env_memcpy (a_msg_data buffer) data size;;
          enqueue_locked dev buffer buff_len idx;; mret RL_SUCCESS
      end) : W E Z) w1) as Hsend.
  { unfold rpmsg_lite_send. rewrite (proj2 (Z.eqb_neq ept NULL) Hept), (proj2 (Z.eqb_neq dev NULL) Hdev).
    rewrite (bind_ok _ _ _ _ _ (payload_limit_ok _ _ _ _ Hi Hlim)).
    rewrite (proj2 (Z.ltb_ge lim size)), (bind_ok _ _ _ _ _ (get_ept_ok _ _ _ He)) by lia.
    unfold rpmsg_lite_format_message. rewrite (proj2 (Z.eqb_neq data NULL) Hd).
    rewrite (bind_ok _ _ _ _ _ (get_inst_ok _ _ _ Hi)), Hup. cbn [Z.eqb negb RL_TRUE Pos.eqb].
    assert (tx_get_buffer fuel dev (u32 timeout) 0 w = Ok (if b =? NULL then None else Some (b, l, k)) w1) as Hget.
    { unfold tx_get_buffer. rewrite (bind_ok _ _ _ _ _ Halloc), u32_small by lia.
      rewrite (proj2 (Z.eqb_neq timeout RL_FALSE)) by (unfold RL_FALSE; lia). exact Hloop. }
    by rewrite (bind_ok _ _ _ _ _ Hget). }
  exists n, b, l, k, w1. rewrite Hsend. destruct (Z.eqb_spec b NULL) as [->|Hb].
  - exists RL_ERR_NO_MEM, w1. split_and!; [done|nia|done..|]. nia.
  - destruct Hend as (q & qr & Hho). pose proof Hho as [Hlo Hsa -> Hdata].
    destruct (fill_enqueue_ok dev i o c q qr bsz k l (ept_addr e) dst data size RL_NO_FLAGS w1 Hlo Hsa Hbsz
      Hsrc Hdst ltac:(done) ltac:(lia) Hdata) as (w' & q' & Hfin & Hsent).
    exists RL_SUCCESS, w'. split_and!; [done|nia|exact Hfin|done|]. by exists q, qr, q'.
Qed.

(** C12.  Zero copy sends the same message.  [rpmsg_lite_alloc_tx_buffer] hands
    out the payload area of the first free buffer with its size (the buffer
    less the header), and records the descriptor in the header; after the
    application has written its payload there, [rpmsg_lite_send_nocopy] leaves
    the same message in the same place of the queue as [rpmsg_lite_send] of
    those bytes would. *)
Theorem zero_copy_send fuel dev i o c qt qr bsz k l rest s0 timeout ept e dst payload lim w :
  lite_ok dev i o qt qr w → link_state i = RL_TRUE →
  ept ≠ NULL → w_heap w !! ept = Some (OEpt e) → 0 ≤ ept_addr e < 4294967296 → 0 ≤ dst < 4294967296 →
  payload_max i = Some lim → Z.of_nat (length payload) ≤ lim → Z.of_nat (length payload) < 65536 →
  16 + Z.of_nat (length payload) ≤ bsz → Forall (λ b, 0 ≤ b < 256) payload →
  incoming o qt (w_mem w) = (k, l) :: rest → sendable o c qt bsz k l (w_mem w) → 16 ≤ l →
  r_desc_len (vq_ring qt) (w_mem w) k = l →
  let b := buf_at (vq_ring qt) (w_mem w) k in
  a_msg_data b ≠ NULL → (RL_DEBUG_CHECK_BUFFERS = true → r_desc_addr (vq_ring qt) (w_mem w) k = b) →
  ∃ w1, rpmsg_lite_alloc_tx_buffer fuel dev (Some s0) timeout w = Ok (a_msg_data b, Some (l - 16)) w1 ∧
    let w2 := set_mem (λ m, store_bytes m (a_msg_data b) payload) w1 in
    ∃ w3 q', rpmsg_lite_send_nocopy dev ept dst (a_msg_data b) (Z.of_nat (length payload)) w2 =
        Ok RL_SUCCESS w3 ∧
      incoming o q' (w_mem w3) = rest ∧
      sent i o c (taken o qt) q' b bsz k l {| msg_src := ept_addr e; msg_dst := dst;
        msg_len := Z.of_nat (length payload); msg_flags := 0; msg_payload := payload |} w2 w3.
Proof.
  intros Hlo Hup Hept He Hsrc Hdst Hlim Hsz Hsz2 Hbsz Hbytes Hin Hsa Hl16 Hdl b Hb Hdbg.
  pose proof (lo_twf _ _ _ _ _ _ Hlo) as Hwf. pose proof (wf_ring _ (wf_core _ Hwf)) as ok.
  pose proof (sa_idx _ _ _ _ _ _ _ Hsa) as Hk. pose proof (ok_max _ ok).
  pose proof (bo_ring _ _ _ (sa_bufs _ _ _ _ _ _ _ Hsa) k Hk) as Hring. fold b in Hring.
  destruct (alloc_tx_buffer_ok fuel dev i o c qt qr bsz k l rest s0 timeout w Hlo Hup Hin Hsa Hl16)
    as (w1 & Hrun & Hoq & Hm & Hlk & _). fold b in Hrun, Hm.
  exists w1. split; [exact Hrun|]. intros w2.
  destruct (taken_same_ring o qt) as (Er & _).
  assert (frames b (b + bsz) (w_mem w) (w_mem w2)) as Hf.
  { cbn. rewrite Hm. eapply frames_trans; eapply frames_weaken;
      [apply store_frames| | |apply store_bytes_frames| |];
      unfold a_hdr_idx, a_msg_data, sizeof_rpmsg_std_hdr; lia. }
  destruct (outside_ring o (vq_ring qt) _ _ _ (w_mem w2) ok Hf Hring) as [Hs Ho].
  assert (lite_ok dev i o (taken o qt) qr w2) as Hlo2.
  { destruct (lite_ok_tvq _ _ _ _ _ _ _ _ Hlo Hoq (taken_wf _ _ Hwf) Hlk). by constructor. }
  assert (buf_at (vq_ring qt) (w_mem w2) k = b) as Hb2 by (apply buf_at_ext; [done|apply Hs|done]).
  destruct (r_desc_ext _ ok (w_mem w) (w_mem w2) k (proj1 Hs) Hk) as [Ea El].
  assert (incoming o (taken o qt) (w_mem w2) = rest) as Hin2.
  { rewrite incoming_ext with (m := w_mem w); [by eapply incoming_taken|by apply taken_wf|by rewrite Er|].
    rewrite (incoming_taken _ _ _ _ _ Hwf Hin), Er. intros j n Hj.
    apply (sa_in _ _ _ _ _ _ _ Hsa j n). rewrite Hin. by right. }
  assert (sendable o c (taken o qt) bsz k l (w_mem w2)) as Hsa2.
  { destruct Hsa as [H1 H2 H3 H4 H5]. constructor; rewrite ?Er; try done.
    - eapply buffers_ok_ext; [done|apply Hs|done].
    - rewrite Hin2. intros j n Hj. apply (H4 j n). rewrite Hin. by right.
    - rewrite (outgoing_ring o c qt) by done. by rewrite Ho. }
  assert (w_heap w2 !! ept = Some (OEpt e)) as He2.
  { cbn. rewrite (oq_heap _ _ _ _ Hoq), lookup_insert_ne; [done|]. intros E0. rewrite <- E0 in He.
    rewrite (lo_tvq _ _ _ _ _ _ Hlo) in He. done. }
  destruct (send_nocopy_ok dev i o c (taken o qt) qr bsz k l ept e dst (Z.of_nat (length payload)) lim w2)
    as (w3 & q' & Hrun3 & Hsent); rewrite ?Er, ?Hb2, ?El, ?Ea; try done; try lia.
  - cbn. rewrite Hm. unfold a_hdr_idx.
    rewrite (load_frames 2 _ _ _ _ _ (store_bytes_frames _ _ _))
      by (unfold a_msg_data, sizeof_rpmsg_std_hdr; lia).
    rewrite load_store_same. apply Z.mod_small. change (256 ^ Z.of_nat 2) with 65536. lia.
  - rewrite Er, Hb2 in Hrun3, Hsent. exists w3, q'. split; [exact Hrun3|].
    assert (load_bytes (w_mem w2) (a_msg_data b) (Z.to_nat (Z.of_nat (length payload))) = payload) as Epl.
    { rewrite Nat2Z.id. by apply load_store_bytes. }
    rewrite Epl in Hsent. split; [|exact Hsent]. by rewrite (se_in _ _ _ _ _ _ _ _ _ _ _ _ Hsent).
Qed.

(** C38.  The header round trip.  After the four header assignments and the copy
    of the payload, a reader finds the addresses as given (32 bits), the flags
    and the length cut to 16 bits, and as many payload bytes as that length
    says: a payload of 65536 bytes or more would be delivered short.  The
    descriptor index a zero-copy sender or receiver keeps in the reserved field
    survives, nothing outside the message changes, and the pointer given to the
    application leads back to the header. *)
Theorem header_roundtrip msg dst src data size flags w :
  0 ≤ size → data + size ≤ msg ∨ msg + 16 + size ≤ data →
  ∃ w', (write_header msg dst src size flags;; env_memcpy (a_msg_data msg) data size) w = Ok tt w' ∧
    read_msg (w_mem w') msg = {| msg_src := u32 src; msg_dst := u32 dst; msg_len := u16 size;
      msg_flags := u16 flags; msg_payload := load_bytes (w_mem w) data (Z.to_nat (u16 size)) |} ∧
    load 2 (w_mem w') (a_hdr_idx msg) = load 2 (w_mem w) (a_hdr_idx msg) ∧
    frames msg (msg + 16 + size) (w_mem w) (w_mem w') ∧ w_heap w' = w_heap w ∧ w_env w' = w_env w ∧
    RPMSG_STD_MSG_FROM_BUF (a_msg_data msg) = msg.
Proof.
  intros Hs Hd. destruct (write_header_ok msg dst src size flags w) as (tr & Htr & Hrun).
  rewrite (bind_ok _ _ _ _ _ Hrun). eexists. split; [reflexivity|].
  cbn [w_mem set_mem set_trace]. rewrite header_payload_gen by done.
  set (payload := load_bytes (w_mem w) data (Z.to_nat size)).
  assert (Z.of_nat (length payload) = size) as Hl by (unfold payload; rewrite length_load_bytes; lia).
  assert (u16 size ≤ size) as Hle by (unfold u16; apply Z.mod_le; lia). pose proof (u16_range size).
  split_and!; try done.
  - rewrite read_put_msg_gen by (rewrite ?u16_u16; try apply load_bytes_range; lia).
    rewrite !u16_u16. f_equal. unfold payload. apply take_load_bytes. lia.
  - unfold put_msg, a_hdr_idx. rewrite (load_frames 2 _ _ _ _ _ (store_bytes_frames _ _ _))
      by (unfold a_msg_data, sizeof_rpmsg_std_hdr; lia).
    by rewrite !load_store_ne by (unfold a_hdr_dst, a_hdr_src, a_hdr_len, a_hdr_flags; lia).
  - rewrite <- Hl at 1. apply put_msg_frames.
  - unfold RPMSG_STD_MSG_FROM_BUF, a_msg_data. lia.
Qed.

End theorems.

(** ** The theorems on a concrete state *)

(** A master with one endpoint, two free transmit buffers on the ring of
    [Concrete], an idle receive queue, and a payload in its private memory. *)
Definition c_rvq : virtqueue :=
  @virtqueue_setup default_config 1 [] {| phy_addr := 4352; align := 16; num_descs := 2 |}
    (Some rpmsg_lite_rx_callback_fc) (Some virtqueue_notify_fc).
Definition c_master : rpmsg_lite_instance :=
  {| rvq := 21; tvq := 20; rl_endpoints := 2; lock := 4; link_state := 1; sh_mem_base := 8192;
     sh_mem_remaining := 0; sh_mem_total := 4; vq_ops := Some master_vq_ops; link_id := 0 |}.
Definition c_data : Z := 16384.
Definition c_tx_heap : gmap Z obj :=
  {[ 1 := OInst c_master; 2 := ONode c_node; 3 := OEpt c_ept; 20 := OVq c_vq; 21 := OVq c_rvq ]}.
Definition c_mem : mem := store_bytes (v_mem c_used) c_data [104; 105].
Definition c_world (heap : gmap Z obj) : world (bm sim) :=
  Build_world c_mem heap 30 [] 0 sim_start [].
Definition c_tx : world (bm sim) := c_world c_tx_heap.

(** The same master with every buffer in flight. *)
Definition c_busy_vq : virtqueue := set_vq_used_cons_idx c_vq 2.
Definition c_full_heap : gmap Z obj := <[20 := OVq c_busy_vq]> c_tx_heap.
Definition c_app : Application (bm sim) := {|
  app_rx_cb _ _ _ _ _ := mret RL_RELEASE;
  app_ns_cb _ _ _ _ _ := mret tt;
  platform_get_custom_shmem_config _ := None |}.

Lemma c_world_heap h : w_heap (c_world h) = h.
Proof. done. Qed.
Lemma c_world_mem h : w_mem (c_world h) = c_mem.
Proof. done. Qed.
Lemma c_full_inst : c_full_heap !! 1 = Some (OInst c_master).
Proof. vm_compute. done. Qed.
Lemma c_full_ept : c_full_heap !! 3 = Some (OEpt c_ept).
Proof. vm_compute. done. Qed.

Lemma c_rvq_wf : vq_wf c_rvq.
Proof.
  constructor; try (vm_compute; done); [|by intros []]. constructor; [|vm_compute; done].
  assert (vq_ring c_rvq = {| num := 2; desc := 4352; avail := 4384; used := 4400 |}) as -> by (vm_compute; done).
  constructor; cbn; try lia. by exists 1.
Qed.

Lemma c_tx_lite w : w_heap w = c_tx_heap → @lite_ok _ c_env c_laws 1 c_master master_vq_ops c_vq c_rvq w.
Proof.
  intros Hh. constructor; rewrite ?Hh; try done; try (vm_compute; done); [apply c_vq_wf|apply c_rvq_wf].
Qed.

Lemma c_tx_bufs (m : mem) :
  buf_at (am := flat_map) c_ring m 0 = c_buf 0 → buf_at (am := flat_map) c_ring m 1 = c_buf 1 →
  buffers_ok (am := flat_map) c_ring 512 m.
Proof.
  intros H0 H1. assert (∀ i, 0 ≤ i < num c_ring → buf_at (am := flat_map) c_ring m i = c_buf i) as Hb.
  { rewrite c_ring_eq. cbn. intros i Hi. assert (i = 0 ∨ i = 1) as [-> | ->] by lia; rewrite <- c_ring_eq; done. }
  constructor; intros; rewrite !Hb by done; rewrite c_ring_eq in *; cbn in *; unfold c_buf, NULL, vring_end; cbn; lia.
Qed.

Lemma c_tx_in : incoming master_vq_ops c_vq c_mem = [(0, 512); (1, 512)].
Proof. vm_compute. done. Qed.

Lemma c_tx_sendable : @sendable flat_map master_vq_ops 0 c_vq 512 0 512 c_mem.
Proof.
  constructor; fold c_ring.
  - apply c_tx_bufs; vm_compute; done.
  - rewrite c_ring_eq. cbn. lia.
  - lia.
  - rewrite c_tx_in. intros j n [[= -> ->]|[[= -> ->]|[]%not_elem_of_nil]%elem_of_cons]%elem_of_cons;
      vm_compute; done.
  - vm_compute. done.
Qed.

Lemma c_tx_apart : c_data + 2 ≤ buf_at (am := flat_map) c_ring c_mem 0 ∨
  buf_at (am := flat_map) c_ring c_mem 0 + 16 + 2 ≤ c_data.
Proof. right. vm_compute. done. Qed.

Lemma send_delivers_witness :
  ∃ w', @rpmsg_lite_send _ c_env c_peer_silent c_app default_config flat_map 0 1 3 30 c_data 2 0 c_tx =
    Ok RL_SUCCESS w'.
Proof.
  destruct (@send_delivers _ c_env c_laws c_peer_silent c_app default_config flat_map 0 1 c_master
    master_vq_ops 0 c_vq c_rvq 512 0 512 [(1, 512)] 3 c_ept 30 c_data 2 0 496 c_tx
    (c_tx_lite c_tx eq_refl) eq_refl ltac:(done) eq_refl ltac:(cbn; lia) ltac:(lia) ltac:(done) eq_refl
    ltac:(lia) ltac:(lia) ltac:(lia) c_tx_in c_tx_sendable c_tx_apart) as (w' & q' & Hrun & _).
  exists w'. exact Hrun.
Defined.


Lemma c_busy_wf : vq_wf c_busy_vq.
Proof. apply setup_wf; vm_compute; try done. by intros []. Qed.

Lemma c_full_lite w : w_heap w = c_full_heap →
  @lite_ok _ c_env c_laws 1 c_master master_vq_ops c_busy_vq c_rvq w.
Proof.
  intros Hh. constructor; rewrite ?Hh; try done; try (vm_compute; done); [apply c_busy_wf|apply c_rvq_wf].
Qed.

Lemma c_full_in : incoming master_vq_ops c_busy_vq c_mem = [].
Proof. vm_compute. done. Qed.

Lemma c_full_ready w : w_heap w = c_full_heap → w_mem w = c_mem →
  @tx_ready _ c_env flat_map c_laws 1 c_master master_vq_ops 0 c_data 2 512 w.
Proof.
  intros Hh Hm. constructor. exists c_busy_vq, c_rvq. rewrite Hm, c_full_in.
  split_and!; [by apply c_full_lite| |by intros ?? []%not_elem_of_nil|done].
  apply (c_tx_bufs c_mem); vm_compute; done.
Qed.

Lemma c_full_alloc w : w_heap w = c_full_heap → w_mem w = c_mem →
  ∃ l k w0, @tx_alloc_locked _ c_env default_config flat_map 1 0 0 w =
    Ok (NULL, l, k) w0 ∧ w_heap w0 = c_full_heap ∧ w_mem w0 = c_mem.
Proof.
  intros Hh Hm0.
  destruct (@tx_alloc_locked_ok _ c_env c_laws default_config flat_map 1 c_master master_vq_ops
    c_busy_vq c_rvq 0 0 w (c_full_lite _ Hh)) as (w0 & Hrun & Hoq & Hm & _).
  { rewrite Hm0, c_full_in. by intros ?? []%not_elem_of_nil. }
  unfold tx_answer, tx_taken in Hrun, Hoq. rewrite Hm0, c_full_in in Hrun, Hoq.
  exists 0, 0, w0. split; [exact Hrun|]. split; [|by rewrite Hm].
  rewrite (oq_heap _ _ _ _ Hoq), Hh. apply insert_id, lookup_insert_eq.
Qed.

Lemma send_waits_witness :
  ∃ r w', @rpmsg_lite_send _ c_env c_peer_silent c_app default_config flat_map 5 1 3 30 c_data 2 5
    (c_world c_full_heap) = Ok r w'.
Proof.
  destruct (c_full_alloc (c_world c_full_heap) (c_world_heap _) (c_world_mem _)) as (l0 & k0 & w0 & Halloc & Hh & Hm).
  destruct (@send_waits _ c_env c_laws c_peer_silent c_app default_config default_ok flat_map 5 1 c_master
    master_vq_ops 0 c_data 2 512 3 c_ept 30 5 496 l0 k0 (c_world c_full_heap) w0
    ltac:(intros w [(qt & qr & [? ? ? ? ? ? ? ? ?] & ?)]; constructor; exists qt, qr; split; [by constructor|done])
    (c_full_ready _ Hh Hm) c_full_inst ltac:(done) Halloc eq_refl ltac:(done) c_full_ept ltac:(cbn; lia)
    ltac:(lia) ltac:(done) eq_refl ltac:(lia) ltac:(lia) ltac:(lia) ltac:(lia) ltac:(cbn; lia)
    ltac:(vm_compute; done)) as (n & b & l & k & w1 & r & w' & _ & _ & Hrun & _).
  exists r, w'. exact Hrun.
Defined.

Lemma zero_copy_send_witness :
  ∃ w1, @rpmsg_lite_alloc_tx_buffer _ c_env c_peer_silent default_config flat_map 0 1 (Some 0) 0 c_tx =
    Ok (c_buf 0 + 16, Some 496) w1.
Proof.
  assert (buf_at (am := flat_map) c_ring (w_mem c_tx) 0 = c_buf 0) as Hb by (vm_compute; done).
  destruct (@zero_copy_send _ c_env c_laws c_peer_silent c_app default_config flat_map 0 1 c_master
    master_vq_ops 0 c_vq c_rvq 512 0 512 [(1, 512)] 0 0 3 c_ept 30 [104; 105] 496 c_tx
    (c_tx_lite c_tx eq_refl) eq_refl ltac:(done) eq_refl ltac:(cbn; lia) ltac:(lia) eq_refl
    ltac:(cbn; lia) ltac:(cbn; lia) ltac:(cbn; lia) ltac:(repeat constructor; lia) c_tx_in c_tx_sendable
    ltac:(lia) ltac:(vm_compute; done) ltac:(vm_compute; done) ltac:(done)) as (w1 & Hrun & _).
  exists w1. fold c_ring in Hrun. rewrite Hb in Hrun. exact Hrun.
Defined.

Lemma header_roundtrip_witness :
  ∃ w', (write_header (c_buf 0) 30 1 2 0;; env_memcpy (a_msg_data (c_buf 0)) c_data 2) c_tx = Ok tt w' ∧
    read_msg (w_mem w') (c_buf 0) =
      {| msg_src := 1; msg_dst := 30; msg_len := 2; msg_flags := 0; msg_payload := [104; 105] |}.
Proof.
  destruct (header_roundtrip (c_buf 0) 30 1 c_data 2 0 c_tx) as (w' & Hrun & Hm & _); [lia|vm_compute; by right|].
  exists w'. split; [exact Hrun|]. rewrite Hm. vm_compute. done.
Defined.
