(* ===== verification/Receiving.v ===== *)
(** * Receiving is correct

    The theorems about the receive side of [RpmsgLite]:
    [rpmsg_lite_rx_callback] hands every message that has arrived to the
    endpoint it is addressed to, in order, once; each buffer is then either
    given back to the other side or kept for
    [rpmsg_lite_release_rx_buffer], which gives it back later. *)

From S2P Require Import Prelude Memory Config VirtioRing Virtqueue RingQueue VirtqueueSpec Concrete ChannelRefinement World Lpc55s69 BareMetal Llist Endpoint Transport RpmsgLite Sending.

(** ** What the callback is to do *)

(** The endpoint an address belongs to. *)
Definition addressee (t : list entry) (dst : Z) : option entry :=
  snd <$> list_find (λ x, e_addr x = dst) t.

(** A call of a receive callback. *)
Definition is_rx (e : event) : Prop := match e with EvRxCb _ _ _ _ _ => True | _ => False end.
#[global] Instance is_rx_dec e : Decision (is_rx e).
Proof. destruct e; cbn; apply _. Defined.

Section spec.
Context {am : AddrMap}.

(** The call the message in the buffer of an entry asks for. *)
Definition rx_call (t : list entry) (vr : vring) (m : mem) (x : Z * Z) : list event :=
  let b := buf_at vr m x.1 in
  match addressee t (msg_dst (read_msg m b)) with
  | Some e => [EvRxCb (e_addr e) (a_msg_data b) (msg_len (read_msg m b)) (msg_src (read_msg m b))
                 (rx_cb_data e.2.2)]
  | None => []
  end.

(** The buffers given back, of entries with their answers. *)
Definition released (o : virtqueue_ops) (xs : list (Z * Z)) (vs : list Z) : list (Z * option Z) :=
  (λ x : Z * Z * Z, out_entry o x.1.1 x.1.2) <$> filter (λ x, x.2 ≠ RL_HOLD) (zip xs vs).

End spec.

Section receive.
Context {E : Type} {el : EnvLayer E} {laws : EnvLaws E} {rxd : RxDispatch E}.
Context {cfg : Config} {am : AddrMap}.

(** The receiving instance, its endpoints, the size of its buffers, and the
    other side's index into the queue of buffers given back. *)
Context (dev : Z) (i : rpmsg_lite_instance) (o : virtqueue_ops) (t : list entry) (bsz c : Z).
Implicit Types w : world E.

(** The state of the receive side, with control block [q]. *)
Record rx_inv (q : virtqueue) (w : world E) : Prop := {
  ri_table : ept_table (w_heap w) dev i t;
  ri_ops : vq_ops i = Some o;
  ri_rvq : w_heap w !! rvq i = Some (OVq q);
  ri_wf : vq_wf q;
  ri_bufs : buffers_ok (vq_ring q) bsz (w_mem w);
  ri_hdr : 16 ≤ bsz;
}.

(** Entries that can be received: of the queue, each once, not longer than a
    buffer. *)
Definition rx_entries (q : virtqueue) (xs : list (Z * Z)) : Prop :=
  NoDup xs.*1 ∧ Forall (λ x, 0 ≤ x.1 < num (vq_ring q) ∧ 0 ≤ x.2 ≤ bsz ∧ x.2 < 4294967296) xs.

(** What a receive callback must leave alone: the instance, its receive queue
    and endpoints, the ring, and the buffers. *)
Record cb_keeps (vr : vring) (w w' : world E) : Prop := {
  ck_objs : ∀ x, x ∈ dev :: rvq i :: (e_node <$> t) ++ (e_ptr <$> t) →
    w_heap w' !! x = w_heap w !! x;
  ck_ring : agree_on (desc vr) (vring_end vr) (w_mem w') (w_mem w);
  ck_bufs : ∀ k, 0 ≤ k < num vr →
    agree_on (buf_at vr (w_mem w) k) (buf_at vr (w_mem w) k + bsz) (w_mem w') (w_mem w);
  ck_free : lock_free (w_env w) (lock i) → lock_free (w_env w') (lock i);
  ck_mine : lock_mine (w_env w) (lock i) → lock_mine (w_env w') (lock i);
  ck_trace : filter is_rx (w_trace w') = filter is_rx (w_trace w);
}.

(** What the library itself does between two callbacks: it leaves the port's
    queues, the calls made so far and all objects but its receive queue alone,
    and writes to the ring and the buffers only. *)
Record lib_step (w w' : world E) : Prop := {
  ls_queues : same_queues (w_env w) (w_env w');
  ls_trace : filter is_rx (w_trace w') = filter is_rx (w_trace w);
  ls_heap : ∀ x, x ≠ rvq i → w_heap w' !! x = w_heap w !! x;
  ls_ring : ∃ q q', rx_inv q w ∧ rx_inv q' w' ∧ vq_ring q' = vq_ring q ∧
    same_desc (vq_ring q) (w_mem w) (w_mem w') ∧
    ∀ a, ¬ shared (vq_ring q) bsz (w_mem w) a → byte_at (w_mem w') a = byte_at (w_mem w) a;
}.

(** [answers e v]: the callback of [e] may answer [v].  [P hs]: what the
    callbacks maintain, with the answers [hs] given so far, and the library does
    not disturb. *)
Context (answers : rpmsg_lite_endpoint → Z → Prop) (P : list Z → world E → Prop).
Hypothesis P_stable : ∀ hs w w', lib_step w w' → P hs w → P hs w'.
Definition called (x : entry) (p len src : Z) (w : world E) : world E :=
  set_trace (cons (EvRxCb (e_addr x) p len src (rx_cb_data x.2.2))) w.
Hypothesis cb_contract : ∀ hs q w x p len src, rx_inv q (called x p len src w) → x ∈ t → P hs w →
  ∃ v w', call_rx_cb (rx_cb x.2.2) p len src (rx_cb_data x.2.2) (called x p len src w) = Ok v w' ∧
    answers x.2.2 v ∧ cb_keeps (vq_ring q) (called x p len src w) w' ∧ P (hs ++ [v]) w'.

(** The answers, of the messages [xs] answered with [vs], that a callback gave;
    a message for nobody is answered by the library itself. *)
Definition call_answer (vr : vring) (m : mem) (x : Z * Z) (v : Z) : list Z :=
  if addressee t (msg_dst (read_msg m (buf_at vr m x.1))) then [v] else [].
Definition call_answers (vr : vring) (m : mem) (xs : list (Z * Z)) (vs : list Z) : list Z :=
  mjoin (zip_with (call_answer vr m) xs vs).

(** ** Lemmas *)

Lemma seg_data heap p prv l last a d :
  seg heap p prv l last → (a, d) ∈ l → ∃ n, heap !! a = Some (ONode n) ∧ data n = d.
Proof.
  revert p prv. induction l as [|[a' d'] l IH]; intros p prv Hs Hin; [by apply not_elem_of_nil in Hin|].
  cbn in Hs. destruct Hs as (-> & _ & n & Hn & Hd & _ & Hs).
  apply elem_of_cons in Hin as [[= -> ->]|Hin]; [eauto|by eapply IH].
Qed.

Lemma agree_ring vr m m' :
  vring_ok vr → agree_on (desc vr) (vring_end vr) m' m →
  same_desc vr m m' ∧ same_avail vr m m' ∧ same_used vr m m'.
Proof.
  intros ok Hag. pose proof (ok_avail vr ok). pose proof (ok_used vr ok).
  pose proof (vring_ok_num_pos vr ok). unfold vring_end in *.
  split_and!; (eapply agree_on_sub; [exact Hag|unfold vring_end; lia..]).
Qed.

Lemma agree_outgoing q m m' :
  vq_wf q → agree_on (desc (vq_ring q)) (vring_end (vq_ring q)) m' m →
  same_incoming o (vq_ring q) m m' ∧ outgoing o c q m' = outgoing o c q m.
Proof.
  intros Hwf Hag. pose proof (wf_ring _ (wf_core _ Hwf)) as ok.
  destruct (agree_ring _ _ _ ok Hag) as (Hd & Ha & Hu). split; [by destruct o|].
  destruct o; cbn; [by rewrite (avail_queue_ext _ ok c _ _ Ha)|by rewrite (used_queue_ext _ ok c _ _ Hu)].
Qed.

Lemma rx_inv_keeps q w w' : rx_inv q w → cb_keeps (vq_ring q) w w' → rx_inv q w'.
Proof.
  intros [Ht Ho Hr Hwf Hb Hh] [Hobj Hring Hbufs _ _ _].
  pose proof (wf_ring _ (wf_core _ Hwf)) as ok.
  assert (∀ x, x ∈ (e_node <$> t) → w_heap w' !! x = w_heap w !! x) as Hnode.
  { intros x Hx. apply Hobj. do 2 right. apply elem_of_app. by left. }
  assert (∀ x, x ∈ (e_ptr <$> t) → w_heap w' !! x = w_heap w !! x) as Hptr.
  { intros x Hx. apply Hobj. do 2 right. apply elem_of_app. by right. }
  constructor; try done.
  - constructor; try apply Ht.
    + rewrite Hobj by left. apply Ht.
    + eapply is_list_frame; [|apply Ht]. intros x Hx. apply Hnode. by rewrite <- e_nodes.
    + pose proof (tab_epts _ _ _ _ Ht) as He. rewrite Forall_forall in He |- *.
      intros x Hx. rewrite Hptr by (by apply list_elem_of_fmap_2). by apply He.
  - rewrite Hobj by (right; left). done.
  - eapply buffers_ok_ext; [done|by apply (agree_ring _ _ _ ok Hring)|done].
Qed.

Lemma addressee_lookup dst x : addressee t dst = Some x → x ∈ t ∧ e_addr x = dst ∧ lookup_node t dst = e_node x.
Proof.
  unfold addressee, lookup_node. destruct (list_find _ t) as [[k y]|] eqn:Hf; [|done].
  intros [= ->]. apply list_find_Some in Hf as (Hy & Ha & _).
  split_and!; [by eapply list_elem_of_lookup_2|done|done].
Qed.

Lemma addressee_none dst : addressee t dst = None → lookup_node t dst = NULL.
Proof. unfold addressee, lookup_node. by destruct (list_find _ t) as [[k y]|]. Qed.

Lemma cb_keeps_refl vr w : cb_keeps vr w w.
Proof. by constructor. Qed.

(** Handing over one message. *)
Lemma rx_deliver_ok hs q k l w :
  rx_inv q w → P hs w →
  let b := buf_at (vq_ring q) (w_mem w) k in
  ∃ v w', rx_deliver dev b w = Ok v w' ∧ rx_inv q w' ∧
    match addressee t (msg_dst (read_msg (w_mem w) b)) with
    | Some x => answers x.2.2 v | None => v = RL_RELEASE
    end ∧
    filter is_rx (w_trace w') = rx_call t (vq_ring q) (w_mem w) (k, l) ++ filter is_rx (w_trace w) ∧
    agree_on (desc (vq_ring q)) (vring_end (vq_ring q)) (w_mem w') (w_mem w) ∧
    (∀ j, 0 ≤ j < num (vq_ring q) → agree_on (buf_at (vq_ring q) (w_mem w) j)
       (buf_at (vq_ring q) (w_mem w) j + bsz) (w_mem w') (w_mem w)) ∧
    (lock_free (w_env w) (lock i) → lock_free (w_env w') (lock i)) ∧
    (lock_mine (w_env w) (lock i) → lock_mine (w_env w') (lock i)) ∧
    P (hs ++ call_answer (vq_ring q) (w_mem w) (k, l) v) w'.
Proof.
  intros Hinv HP b. unfold rx_deliver, rx_call, call_answer. cbn [fst]. fold b.
  rewrite (bind_ok _ _ _ _ _ (ldm_ok 4 (a_hdr_dst b) w)).
  change (load 4 (w_mem w) (a_hdr_dst b)) with (msg_dst (read_msg (w_mem w) b)).
  set (dst := msg_dst (read_msg (w_mem w) b)).
  rewrite (bind_ok _ _ _ _ _ (get_endpoint_ok _ _ _ dst _ (ri_table _ _ Hinv))).
  destruct (addressee t dst) as [x|] eqn:Hx.
  - destruct (addressee_lookup _ _ Hx) as (Hin & Ha & ->).
    destruct (seg_data _ _ _ _ _ (e_node x) (e_ptr x) (proj1 (tab_list _ _ _ _ (ri_table _ _ Hinv))))
      as (n & Hnode & Hdata); [by apply (list_elem_of_fmap_2 e_link)|].
    assert (e_node x ≠ NULL) as Hnn.
    { pose proof (lookup_node_null _ _ _ _ (e_addr x) (ri_table _ _ Hinv)) as Hl.
      rewrite bool_decide_eq_false_2 in Hl; [|intros H; apply H; by apply list_elem_of_fmap_2].
      destruct (addressee_lookup _ _ Hx) as (_ & _ & E0). rewrite Ha, E0 in Hl. by apply Z.eqb_neq. }
    rewrite (proj2 (Z.eqb_neq _ NULL) Hnn). cbn [negb].
    rewrite (bind_ok _ _ _ _ _ (get_node_ok _ _ _ Hnode)), Hdata.
    assert (w_heap w !! e_ptr x = Some (OEpt x.2.2)) as He.
    { pose proof (tab_epts _ _ _ _ (ri_table _ _ Hinv)) as He. rewrite Forall_forall in He. by apply He. }
    rewrite (bind_ok _ _ _ _ _ (get_ept_ok _ _ _ He)).
    rewrite (bind_ok _ _ _ _ _ (ldm_ok 2 (a_hdr_len b) w)), (bind_ok _ _ _ _ _ (ldm_ok 4 (a_hdr_src b) w)).
    set (ev := EvRxCb _ _ _ _ _). set (w0 := set_trace (cons ev) w).
    rewrite (bind_ok _ _ _ _ _ (eq_refl : temit ev w = Ok tt w0)).
    assert (rx_inv q w0) as Hinv0 by (destruct Hinv; by constructor).
    destruct (cb_contract hs q w x (a_msg_data b) (load 2 (w_mem w) (a_hdr_len b))
      (load 4 (w_mem w) (a_hdr_src b)) Hinv0 Hin HP) as (v & w' & Hrun & Hans & Hk & HP').
    change (called x _ _ _ w) with w0 in Hrun, Hk.
    exists v, w'. pose proof (rx_inv_keeps _ _ _ Hinv0 Hk). destruct Hk as [_ Kr Kb Kf Km Kt].
    by split_and!.
  - rewrite (addressee_none _ Hx), Z.eqb_refl. cbn [negb].
    exists RL_RELEASE, w. rewrite app_nil_r. by split_and!.
Qed.

(** *** Queue operations on the receive queue *)

Lemma ept_table_insert_vq (heap : gmap Z obj) (p : Z) (q q' : virtqueue) :
  ept_table heap dev i t → heap !! p = Some (OVq q) → ept_table (<[p := OVq q']> heap) dev i t.
Proof.
  intros Ht Hp. assert (∀ x, heap !! x ≠ Some (OVq q) → <[p := OVq q']> heap !! x = heap !! x) as Hne.
  { intros x Hx. apply lookup_insert_ne. by intros ->. }
  constructor; try apply Ht.
  - rewrite Hne; [apply Ht|]. by rewrite (tab_inst _ _ _ _ Ht).
  - eapply is_list_frame; [|apply Ht]. intros x Hx. apply Hne.
    destruct (seg_nodes _ _ _ _ _ _ (proj1 (tab_list _ _ _ _ Ht)) Hx) as [n ->]. done.
  - pose proof (tab_epts _ _ _ _ Ht) as He. eapply Forall_impl; [exact He|].
    intros x Hx. cbv beta in Hx |- *. rewrite Hne; [done|]. by rewrite Hx.
Qed.

Lemma rx_inv_after_vq q q' m tr w :
  rx_inv q w → vq_wf q' → vq_ring q' = vq_ring q → same_desc (vq_ring q) (w_mem w) m →
  rx_inv q' (after_vq (rvq i) q' m tr w).
Proof.
  intros [Ht Ho Hr Hwf Hb Hh] Hwf' Er Hd. constructor; rewrite ?Er; try done.
  - by eapply ept_table_insert_vq.
  - apply lookup_insert_eq.
  - eapply buffers_ok_ext; [apply (wf_ring _ (wf_core _ Hwf))|exact Hd|done].
Qed.

Lemma filter_internal tr : Forall internal tr → filter is_rx tr = [].
Proof.
  induction 1 as [|e tr He Htr IH]; [done|]. rewrite filter_cons_False; [done|].
  destruct e; cbn in *; tauto.
Qed.

Lemma filter_after_vq p q m tr w :
  Forall internal tr → filter is_rx (w_trace (after_vq p q m tr w)) = filter is_rx (w_trace w).
Proof. intros Htr. cbn. by rewrite filter_app, (filter_internal tr Htr). Qed.

Lemma lib_step_refl q w : rx_inv q w → lib_step w w.
Proof. intros Hinv. constructor; try done. by exists q, q. Qed.

Lemma lib_step_env q w e f :
  rx_inv q w → same_queues (w_env w) e → filter is_rx (f (w_trace w)) = filter is_rx (w_trace w) →
  lib_step w (set_trace f (set_env e w)).
Proof. intros Hinv Hq Hf. constructor; try done. exists q, q. split_and!; try done. by destruct Hinv. Qed.

Lemma lib_step_after_vq q q' tr w :
  rx_inv q w → rx_inv q' (after_vq (rvq i) q' (w_mem w) tr w) → vq_ring q' = vq_ring q →
  filter is_rx tr = [] → lib_step w (after_vq (rvq i) q' (w_mem w) tr w).
Proof.
  intros Hinv Hinv' Er Htr. constructor; try done.
  - cbn. by rewrite filter_app, Htr.
  - intros x Hx. cbn. by apply lookup_insert_ne.
  - by exists q, q'.
Qed.

Lemma shared_ext vr m m' a : vring_ok vr → same_desc vr m m' → shared vr bsz m' a → shared vr bsz m a.
Proof. intros ok Hd [Ha|(j & Hj & Ha)]; [by left|]. right. exists j. by rewrite (buf_at_ext vr m m') in Ha. Qed.

Lemma lib_step_mem q w w' :
  rx_inv q w → lib_step w w' → same_desc (vq_ring q) (w_mem w) (w_mem w') ∧
    ∀ a, ¬ shared (vq_ring q) bsz (w_mem w) a → byte_at (w_mem w') a = byte_at (w_mem w) a.
Proof.
  intros Hinv [_ _ _ (q0 & q1 & I0 & _ & _ & Hd & Hm)]. pose proof (ri_rvq _ _ I0) as Hr.
  rewrite (ri_rvq _ _ Hinv) in Hr. by injection Hr as <-.
Qed.

Lemma lib_step_trans w1 w2 w3 : lib_step w1 w2 → lib_step w2 w3 → lib_step w1 w3.
Proof.
  intros [Q1 T1 H1 (q1 & q2 & I1 & I2 & E1 & D1 & M1)] [Q2 T2 H2 (q2' & q3 & I2' & I3 & E2 & D2 & M2)].
  pose proof (ri_rvq _ _ I2) as Hr. rewrite (ri_rvq _ _ I2') in Hr. injection Hr as ->.
  pose proof (wf_ring _ (wf_core _ (ri_wf _ _ I1))) as ok. rewrite E1 in *. constructor.
  - by etrans.
  - by rewrite T2.
  - intros x Hx. by rewrite H2, H1.
  - exists q1, q3. split_and!; [done|done|by rewrite E2|by eapply same_desc_trans|].
    intros a Ha. rewrite M2; [by apply M1|]. intros Hs. by apply Ha, (shared_ext _ _ (w_mem w2)).
Qed.

(** Nothing outside the ring and one buffer changed. *)
Definition untouched (vr : vring) (b : Z) (m m' : mem) : Prop :=
  ∀ a, (a < desc vr ∨ vring_end vr ≤ a) → (a < b ∨ b + bsz ≤ a) → byte_at m' a = byte_at m a.

Lemma untouched_shared q k m m' a :
  0 ≤ k < num (vq_ring q) → untouched (vq_ring q) (buf_at (vq_ring q) m k) m m' →
  ¬ shared (vq_ring q) bsz m a → byte_at m' a = byte_at m a.
Proof.
  intros Hk Hu Ha. unfold shared in Ha. apply Hu.
  - destruct (decide (desc (vq_ring q) ≤ a < vring_end (vq_ring q))); [|lia]. destruct Ha. by left.
  - destruct (decide (buf_at (vq_ring q) m k ≤ a < buf_at (vq_ring q) m k + bsz)); [|lia]. destruct Ha. right. by exists k.
Qed.

(** The end of an iteration: the buffer is kept, with its descriptor noted in
    the header, or given back. *)
Lemma settle_ok q k l v w :
  rx_inv q w → 0 ≤ k < num (vq_ring q) → 0 ≤ l ≤ bsz → l < 4294967296 →
  Z.of_nat (length (outgoing o c q (w_mem w))) < num (vq_ring q) →
  let b := buf_at (vq_ring q) (w_mem w) k in
  ∃ w' q', (if v =? RL_HOLD then stm 2 (a_hdr_idx b) k else vq_rx_free o (rvq i) b l k) w = Ok tt w' ∧
    rx_inv q' w' ∧ same_ring q q' ∧ (∀ m, incoming o q' m = incoming o q m) ∧
    outgoing o c q' (w_mem w') =
      outgoing o c q (w_mem w) ++ (if v =? RL_HOLD then [] else [out_entry o k l]) ∧
    same_incoming o (vq_ring q) (w_mem w) (w_mem w') ∧
    (∀ j, 0 ≤ j < num (vq_ring q) → j ≠ k → agree_on (buf_at (vq_ring q) (w_mem w) j)
       (buf_at (vq_ring q) (w_mem w) j + bsz) (w_mem w') (w_mem w)) ∧
    (v = RL_HOLD → load 2 (w_mem w') (a_hdr_idx b) = k ∧
       ∀ a, a < a_hdr_idx b ∨ a_hdr_idx b + 2 ≤ a → byte_at (w_mem w') a = byte_at (w_mem w) a) ∧
    w_env w' = w_env w ∧ lib_step w w'.
Proof.
  intros Hinv Hk Hl Hl2 Hroom b. pose proof (ri_wf _ _ Hinv) as Hwf.
  pose proof (wf_ring _ (wf_core _ Hwf)) as ok. pose proof (ok_max _ ok).
  pose proof (ri_bufs _ _ Hinv) as Hbufs. pose proof (bo_ring _ _ _ Hbufs k Hk) as Hring. fold b in Hring.
  pose proof (λ j Hj, bo_disjoint _ _ _ Hbufs j k Hj Hk) as Hdis. fold b in Hdis.
  pose proof (ri_hdr _ _ Hinv).
  destruct (Z.eqb_spec v RL_HOLD) as [->|Hv].
  - pose proof (store_frames 2 (w_mem w) (a_hdr_idx b) k) as Hf.
    set (m' := store 2 (w_mem w) (a_hdr_idx b) k) in *.
    destruct (outside_ring o (vq_ring q) _ _ (w_mem w) m' ok Hf ltac:(unfold a_hdr_idx in *; lia)) as [Hs Ho].
    assert (rx_inv q (set_trace (cons (EvStore 2 (a_hdr_idx b) k)) (set_mem (λ m, store 2 m (a_hdr_idx b) k) w))) as Hinv'.
    { destruct Hinv. constructor; try done. eapply buffers_ok_ext; [done|apply Hs|done]. }
    eexists _, q. split; [reflexivity|].
    cbn [w_mem set_mem set_trace w_env w_trace]. fold m'. split_and!; try done.
    + by rewrite app_nil_r, Ho.
    + intros j Hj Hjk. eapply frames_agree; [exact Hf|]. specialize (Hdis j Hj Hjk). unfold a_hdr_idx. lia.
    + intros _. split; [|intros a Ha; apply Hf; lia]. unfold m'. rewrite load_store_same.
      apply Z.mod_small. change (256 ^ Z.of_nat 2) with 65536. lia.
    + constructor; try done. exists q, q. split_and!; try done; [apply Hs|].
      intros a Ha. apply (untouched_shared q k (w_mem w)); [done| |done]. fold b.
      intros x _ Hx. apply Hf. unfold a_hdr_idx in *. lia.
  - destruct (vq_rx_free_ok o (rvq i) q b l k w (ri_rvq _ _ Hinv) Hwf Hk) as (tr & Htr & Hrun).
    set (m1 := clear_mem b l (w_mem w)) in *.
    assert (frames b (b + bsz) (w_mem w) m1) as Hf1.
    { unfold m1, clear_mem. destruct RL_CLEAR_USED_BUFFERS; [|apply frames_refl].
      eapply frames_weaken; [apply mem_set_frames|..]; lia. }
    destruct (outside_ring o (vq_ring q) _ _ (w_mem w) m1 ok Hf1 Hring) as [Hs1 Ho1].
    pose proof (put_mem_same o (vq_ring q) k l m1 ok) as Hs2.
    pose proof (put_mem_frames o (vq_ring q) k l m1 ok) as Hf2.
    destruct (put_same_ring o q) as (Er & _).
    assert (rx_inv (put_vq o q) (after_vq (rvq i) (put_vq o q) (put_mem o (vq_ring q) k l m1) tr w)) as Hinv'.
    { apply (rx_inv_after_vq q); try done; [by apply put_wf|]. eapply same_desc_trans; [apply Hs1|apply Hs2]. }
    eexists _, (put_vq o q). split; [exact Hrun|]. split_and!.
    + done.
    + apply put_same_ring.
    + intros m. apply incoming_put_vq.
    + cbn. rewrite (outgoing_ring o c q (put_vq o q)) by done.
      rewrite outgoing_put by (try done; rewrite ?Ho1 by done; lia). by rewrite Ho1.
    + cbn. by eapply same_incoming_trans.
    + intros j Hj Hjk a Ha. cbn. specialize (Hdis j Hj Hjk).
      pose proof (bo_ring _ _ _ Hbufs j Hj). rewrite Hf2 by lia. apply Hf1. lia.
    + done.
    + done.
    + constructor; [done|by apply filter_after_vq|intros x Hx; by apply lookup_insert_ne|].
      exists q, (put_vq o q). split_and!; [done|done|done|eapply same_desc_trans; [apply Hs1|apply Hs2]|].
      intros a Ha. apply (untouched_shared q k (w_mem w)); [done| |done].
      intros x Hx1 Hx2. cbn. rewrite Hf2 by lia. apply Hf1. fold b in Hx2. lia.
Qed.

(** *** The loop *)

(** The messages [xs] were received with the answers [vs]: every call was made,
    in order; the buffers answered with anything but [RL_HOLD] were given back,
    in order; the others hold their message and their descriptor. *)
Record received (q q' : virtqueue) (xs : list (Z * Z)) (vs : list Z) (w w' : world E) : Prop := {
  rc_inv : rx_inv q' w';
  rc_ring : same_ring q q';
  rc_in : incoming o q' (w_mem w') = [];
  rc_out : outgoing o c q' (w_mem w') = outgoing o c q (w_mem w) ++ released o xs vs;
  rc_answers : Forall2 (λ x v,
    match addressee t (msg_dst (read_msg (w_mem w) (buf_at (vq_ring q) (w_mem w) x.1))) with
    | Some e => answers e.2.2 v | None => v = RL_RELEASE
    end) xs vs;
  rc_calls : filter is_rx (w_trace w') =
    mjoin (reverse (rx_call t (vq_ring q) (w_mem w) <$> xs)) ++ filter is_rx (w_trace w);
  rc_held : ∀ k l, ((k, l), RL_HOLD) ∈ zip xs vs →
    let b := buf_at (vq_ring q) (w_mem w) k in
    load 2 (w_mem w') (a_hdr_idx b) = k ∧
    ∀ a, b ≤ a < b + bsz → a < a_hdr_idx b ∨ a_hdr_idx b + 2 ≤ a →
      byte_at (w_mem w') a = byte_at (w_mem w) a;
  rc_others : ∀ j, 0 ≤ j < num (vq_ring q) → j ∉ xs.*1 →
    agree_on (buf_at (vq_ring q) (w_mem w) j) (buf_at (vq_ring q) (w_mem w) j + bsz) (w_mem w') (w_mem w);
  rc_desc : same_desc (vq_ring q) (w_mem w) (w_mem w');
}.

(** The lock of the instance is as it was, whoever holds it. *)
Definition lock_kept (w w' : world E) : Prop :=
  (lock_free (w_env w) (lock i) → lock_free (w_env w') (lock i)) ∧
  (lock_mine (w_env w) (lock i) → lock_mine (w_env w') (lock i)).

(** The call a message asks for depends on its header only. *)
Lemma rx_call_ext vr m m' x :
  vring_ok vr → same_desc vr m m' → 0 ≤ x.1 < num vr → 16 ≤ bsz →
  agree_on (buf_at vr m x.1) (buf_at vr m x.1 + bsz) m' m →
  rx_call t vr m' x = rx_call t vr m x ∧
  msg_dst (read_msg m' (buf_at vr m' x.1)) = msg_dst (read_msg m (buf_at vr m x.1)).
Proof.
  intros ok Hd Hx Hb Hag. unfold rx_call. rewrite (buf_at_ext vr m m' x.1 ok Hd Hx).
  set (b := buf_at vr m x.1) in *.
  assert (∀ n a, b ≤ a → a + Z.of_nat n ≤ b + 16 → load n m' a = load n m a) as Hld.
  { intros n a ? ?. apply load_ext. eapply agree_on_sub; [exact Hag|lia|lia]. }
  unfold read_msg. cbn [msg_dst msg_len msg_src].
  by rewrite !Hld by (unfold a_hdr_dst, a_hdr_len, a_hdr_src; lia).
Qed.

Lemma released_cons x xs v vs :
  released o (x :: xs) (v :: vs) =
    (if v =? RL_HOLD then [] else [out_entry o x.1 x.2]) ++ released o xs vs.
Proof.
  unfold released. cbn [zip zip_with]. rewrite filter_cons.
  destruct (Z.eqb_spec v RL_HOLD) as [->|Hv]; case_decide; done.
Qed.

(** One iteration: a message is delivered and its buffer settled. *)
Lemma rx_iteration hs q k l w :
  rx_inv q w → P hs w → 0 ≤ k < num (vq_ring q) → 0 ≤ l ≤ bsz → l < 4294967296 →
  Z.of_nat (length (outgoing o c q (w_mem w))) < num (vq_ring q) →
  (∀ j n, (j, n) ∈ incoming o q (w_mem w) → 0 ≤ j < num (vq_ring q)) →
  let b := buf_at (vq_ring q) (w_mem w) k in
  ∃ v w' q', (∀ f : Z → rpmsg_lite_instance → virtqueue_ops → W E unit,
       (cb_ret ← rx_deliver dev b; i' ← get_inst dev; o' ← get_ops i';
        (if cb_ret =? RL_HOLD then stm 2 (a_hdr_idx b) k else vq_rx_free o' (rvq i') b l k);;
        f cb_ret i' o') w = f v i o w') ∧
    rx_inv q' w' ∧ same_ring q q' ∧ incoming o q' (w_mem w') = incoming o q (w_mem w) ∧
    outgoing o c q' (w_mem w') = outgoing o c q (w_mem w) ++ released o [(k, l)] [v] ∧
    match addressee t (msg_dst (read_msg (w_mem w) b)) with
    | Some x => answers x.2.2 v | None => v = RL_RELEASE
    end ∧
    filter is_rx (w_trace w') = rx_call t (vq_ring q) (w_mem w) (k, l) ++ filter is_rx (w_trace w) ∧
    (v = RL_HOLD → load 2 (w_mem w') (a_hdr_idx b) = k ∧
       ∀ a, b ≤ a < b + bsz → a < a_hdr_idx b ∨ a_hdr_idx b + 2 ≤ a →
         byte_at (w_mem w') a = byte_at (w_mem w) a) ∧
    (∀ j, 0 ≤ j < num (vq_ring q) → j ≠ k → agree_on (buf_at (vq_ring q) (w_mem w) j)
       (buf_at (vq_ring q) (w_mem w) j + bsz) (w_mem w') (w_mem w)) ∧
    same_desc (vq_ring q) (w_mem w) (w_mem w') ∧
    (lock_free (w_env w) (lock i) → lock_free (w_env w') (lock i)) ∧
    (lock_mine (w_env w) (lock i) → lock_mine (w_env w') (lock i)) ∧
    P (hs ++ call_answer (vq_ring q) (w_mem w) (k, l) v) w'.
Proof.
  intros Hinv HP Hk Hl Hl2 Hroom Hin b.
  pose proof (ri_wf _ _ Hinv) as Hwf. pose proof (wf_ring _ (wf_core _ Hwf)) as ok.
  destruct (rx_deliver_ok hs q k l w Hinv HP)
    as (v & w1 & Hrun1 & Hinv1 & Hans & Htr1 & Hring1 & Hbufs1 & Hf1 & Hm1 & HP1).
  fold b in Hrun1, Hans.
  destruct (agree_outgoing q _ _ Hwf Hring1) as [Hs1 Ho1].
  assert (∀ j, 0 ≤ j < num (vq_ring q) → buf_at (vq_ring q) (w_mem w1) j = buf_at (vq_ring q) (w_mem w) j) as Hb1.
  { intros j Hj. by apply buf_at_ext; [|apply Hs1|]. }
  destruct (settle_ok q k l v w1 Hinv1 Hk Hl Hl2 ltac:(by rewrite Ho1))
    as (w2 & q2 & Hrun2 & Hinv2 & Hr2 & Hin2 & Hout2 & Hs2 & Hb2 & Hheld & He2 & Hstep).
  rewrite Hb1 in Hrun2, Hheld by done. fold b in Hrun2, Hheld.
  exists v, w2, q2. split.
  { intros f. rewrite (bind_ok _ _ _ _ _ Hrun1).
    rewrite (bind_ok _ _ _ _ _ (get_inst_ok _ _ _ (tab_inst _ _ _ _ (ri_table _ _ Hinv1)))).
    rewrite (bind_ok _ _ _ _ _ (get_ops_ok i o w1 (ri_ops _ _ Hinv1))).
    by rewrite (bind_ok _ _ _ _ _ Hrun2). }
  split_and!; try done.
  - rewrite Hin2. apply incoming_ext; [done|by eapply same_incoming_trans|].
    intros j n Hj. by apply (Hin j n).
  - rewrite Hout2, Ho1, released_cons. cbn [fst snd]. by destruct (v =? RL_HOLD).
  - by rewrite (ls_trace _ _ Hstep).
  - intros Hv. destruct (Hheld Hv) as [H1 H2]. split; [done|]. intros a Ha Ha2.
    rewrite H2 by done. apply (Hbufs1 k Hk). done.
  - intros j Hj Hjk a Ha. rewrite Hb2 with (j := j); [|done|done|by rewrite Hb1].
    by apply (Hbufs1 j Hj).
  - eapply same_desc_trans; [apply Hs1|apply Hs2].
  - by rewrite He2.
  - by rewrite He2.
  - by apply (P_stable _ w1).
Qed.

Lemma Forall2_impl_in {A B} (R R' : A → B → Prop) (l : list A) (k : list B) :
  Forall2 R l k → (∀ x y, x ∈ l → R x y → R' x y) → Forall2 R' l k.
Proof.
  intros HR. induction HR as [|x y l k HR Hl IH]; intros HR'; constructor.
  - apply HR'; [left|done].
  - apply IH. intros a b Ha. apply HR'. by right.
Qed.

(** The notification after the last message, if a buffer was given back. *)
Definition any_released (freed : bool) (vs : list Z) : bool :=
  freed || existsb (λ v, negb (v =? RL_HOLD)) vs.

Lemma rx_entries_cons q x xs :
  rx_entries q (x :: xs) → x.1 ∉ xs.*1 ∧ 0 ≤ x.1 < num (vq_ring q) ∧ 0 ≤ x.2 ≤ bsz ∧ x.2 < 4294967296 ∧
    rx_entries q xs.
Proof.
  intros [Hn Hf]. rewrite fmap_cons in Hn. apply NoDup_cons in Hn as [Hx Hn].
  apply Forall_cons in Hf as [(? & ? & ?) Hf]. split_and!; lia || done.
Qed.

(** Putting one iteration in front of the rest. *)
Lemma received_cons q q1 q2 q' k l v rest vs w w1 w2 w' :
  rx_inv q w → rx_entries q ((k, l) :: rest) →
  same_ring q q1 → same_ring q1 q2 → w_mem w2 = w_mem w1 →
  filter is_rx (w_trace w2) = filter is_rx (w_trace w1) →
  outgoing o c q1 (w_mem w1) = outgoing o c q (w_mem w) ++ released o [(k, l)] [v] →
  match addressee t (msg_dst (read_msg (w_mem w) (buf_at (vq_ring q) (w_mem w) k))) with
  | Some x => answers x.2.2 v | None => v = RL_RELEASE
  end →
  filter is_rx (w_trace w1) = rx_call t (vq_ring q) (w_mem w) (k, l) ++ filter is_rx (w_trace w) →
  (v = RL_HOLD → load 2 (w_mem w1) (a_hdr_idx (buf_at (vq_ring q) (w_mem w) k)) = k ∧
     ∀ a, buf_at (vq_ring q) (w_mem w) k ≤ a < buf_at (vq_ring q) (w_mem w) k + bsz →
       a < a_hdr_idx (buf_at (vq_ring q) (w_mem w) k) ∨ a_hdr_idx (buf_at (vq_ring q) (w_mem w) k) + 2 ≤ a →
       byte_at (w_mem w1) a = byte_at (w_mem w) a) →
  (∀ j, 0 ≤ j < num (vq_ring q) → j ≠ k → agree_on (buf_at (vq_ring q) (w_mem w) j)
     (buf_at (vq_ring q) (w_mem w) j + bsz) (w_mem w1) (w_mem w)) →
  same_desc (vq_ring q) (w_mem w) (w_mem w1) →
  received q2 q' rest vs w2 w' →
  received q q' ((k, l) :: rest) (v :: vs) w w'.
Proof.
  intros Hinv Hent Hr1 Hr2 Hm2 Ht2 Hout Hans Htr Hheld Hoth Hd [R1 R2 R3 R4 R5 R6 R7 R8 R9].
  pose proof (wf_ring _ (wf_core _ (ri_wf _ _ Hinv))) as ok. pose proof (ri_hdr _ _ Hinv) as Hhdr.
  destruct (rx_entries_cons _ _ _ Hent) as (Hnk & Hk & _ & _ & _ & Hrest). cbn [fst snd] in *.
  assert (vq_ring q2 = vq_ring q) as Er.
  { destruct Hr1 as (E1 & _). destruct Hr2 as (E2 & _). by rewrite E2. }
  rewrite Hm2, Er in *.
  assert (∀ j, 0 ≤ j < num (vq_ring q) → buf_at (vq_ring q) (w_mem w1) j = buf_at (vq_ring q) (w_mem w) j) as Hb.
  { intros j Hj. by apply buf_at_ext. }
  assert (∀ x, x ∈ rest → 0 ≤ x.1 < num (vq_ring q) ∧ x.1 ≠ k) as Hxr.
  { intros x Hx. rewrite Forall_forall in Hrest. split; [by apply Hrest|].
    intros E0. apply Hnk. rewrite <- E0. by apply list_elem_of_fmap_2. }
  assert (∀ x, x ∈ rest → rx_call t (vq_ring q) (w_mem w1) x = rx_call t (vq_ring q) (w_mem w) x ∧
    msg_dst (read_msg (w_mem w1) (buf_at (vq_ring q) (w_mem w1) x.1)) =
    msg_dst (read_msg (w_mem w) (buf_at (vq_ring q) (w_mem w) x.1))) as Hcall.
  { intros x Hx. destruct (Hxr x Hx) as [H1 H2]. apply rx_call_ext; auto. }
  constructor; try done.
  - eapply same_ring_trans; [exact Hr1|]. eapply same_ring_trans; [exact Hr2|exact R2].
  - rewrite R4, released_cons. cbn [fst snd].
    rewrite (outgoing_ring o c q1 q2) by (destruct Hr2 as (E2 & _); done).
    rewrite Hout, released_cons, <- app_assoc. cbn [fst snd released zip zip_with].
    by rewrite app_nil_r.
  - constructor; [exact Hans|]. eapply Forall2_impl_in; [exact R5|]. intros x y Hx.
    cbv beta. by destruct (Hcall x Hx) as [_ ->].
  - rewrite R6, Ht2, Htr. rewrite fmap_cons, reverse_cons, join_app, <- app_assoc. f_equal.
    + do 2 f_equal. apply list_fmap_ext. intros n x Hx%list_elem_of_lookup_2. by apply Hcall.
    + cbn [mjoin list_join]. by rewrite app_nil_r.
  - intros k' l' Hz. cbn [zip zip_with] in Hz. apply elem_of_cons in Hz as [[= -> -> <-]|Hz]; intros b.
    + destruct (Hheld eq_refl) as [H1 H2]. fold b in H1, H2.
      pose proof (R8 k Hk Hnk) as Hag. rewrite (Hb k Hk) in Hag. fold b in Hag. split.
      * etrans; [|exact H1]. apply load_ext. eapply agree_on_sub; [exact Hag|unfold a_hdr_idx; lia..].
      * intros a Ha Ha2. rewrite (Hag a) by lia. by apply H2.
    + assert ((k', l') ∈ rest) as Hin by (by eapply elem_of_zip_l).
      destruct (Hxr _ Hin) as [Hk' Hne]. cbn [fst] in Hk', Hne.
      destruct (R7 k' l' Hz) as [H1 H2]. rewrite (Hb k' Hk') in H1, H2. split; [exact H1|].
      intros a Ha Ha2. rewrite H2 by done. by apply (Hoth k' Hk' Hne).
  - intros j Hj Hnj. rewrite fmap_cons, not_elem_of_cons in Hnj. destruct Hnj as [Hne Hnj].
    intros a Ha. rewrite (R8 j Hj Hnj) by (by rewrite Hb). by apply (Hoth j Hj Hne).
  - by eapply same_desc_trans.
Qed.

(** A notification changes the counter only. *)
Lemma kick_step_ok q w :
  rx_inv q w → ∃ w' q', with_vq (rvq i) virtqueue_kick w = Ok tt w' ∧ rx_inv q' w' ∧ same_ring q q' ∧
    lib_step w w' ∧ w_mem w' = w_mem w ∧ w_env w' = w_env w ∧ (∀ m, incoming o q' m = incoming o q m) ∧
    ∃ tr, w_trace w' = notified q (w_mem w') ++ tr.
Proof.
  intros Hinv. pose proof (ri_wf _ _ Hinv) as Hwf.
  destruct (kick_ok (rvq i) q w (ri_rvq _ _ Hinv) Hwf) as (tr & Htr & Hrun).
  assert (filter is_rx (notified q (w_mem w) ++ tr) = []) as Hf.
  { rewrite filter_app, (filter_internal tr Htr). unfold notified. by destruct (negb _); [|destruct (notify_fc q)]. }
  assert (rx_inv (set_vq_queued_cnt q 0)
    (after_vq (rvq i) (set_vq_queued_cnt q 0) (w_mem w) (notified q (w_mem w) ++ tr) w)) as Hinv'.
  { apply (rx_inv_after_vq q); try done. eapply vq_wf_same_ring; [exact Hwf|apply same_ring_queued|..];
      destruct q; apply Hwf. }
  eexists _, _. split; [exact Hrun|]. split_and!; try done; [by apply (lib_step_after_vq q)|].
  cbn. exists (tr ++ w_trace w). by rewrite <- app_assoc.
Qed.

(** Nothing left: the final notification changes the counter only. *)
Lemma received_nil q w (b : bool) :
  rx_inv q w → incoming o q (w_mem w) = [] →
  ∃ w' q', (if b then with_vq (rvq i) virtqueue_kick else mret tt) w = Ok tt w' ∧
    received q q' [] [] w w' ∧ lock_kept w w' ∧ (∀ hs, P hs w → P hs w') ∧ (b = true → ∃ tr, w_trace w' = notified q (w_mem w') ++ tr).
Proof.
  intros Hinv Hin. destruct b.
  - destruct (kick_step_ok q w Hinv) as (w' & q' & Hrun & Hinv' & Hr & Hst & Em & Ee & Hi & Htr).
    exists w', q'. split; [exact Hrun|]. split; [|split; [unfold lock_kept; by rewrite Ee|split; [by intros hs; apply P_stable|done]]].
    constructor; try done; rewrite ?Em; try done.
    + by rewrite Hi.
    + rewrite (outgoing_ring o c q) by apply Hr. by rewrite app_nil_r.
    + apply Hst.
    + by intros ?? ?%not_elem_of_nil.
  - exists w, q. split; [done|]. split; [|done]. constructor; try done.
    + by rewrite app_nil_r.
    + by intros ?? ?%not_elem_of_nil.
Qed.

Lemma call_answers_cons vr m x xs v vs :
  call_answers vr m (x :: xs) (v :: vs) = call_answer vr m x v ++ call_answers vr m xs vs.
Proof. done. Qed.

(** The answers that count depend on the headers only. *)
Lemma call_answers_ext vr m m' xs vs :
  vring_ok vr → 16 ≤ bsz → same_desc vr m m' →
  (∀ x, x ∈ xs → 0 ≤ x.1 < num vr ∧ agree_on (buf_at vr m x.1) (buf_at vr m x.1 + bsz) m' m) →
  call_answers vr m' xs vs = call_answers vr m xs vs.
Proof.
  intros ok Hb Hd. revert vs. induction xs as [|x xs IH]; intros vs Hx; [done|]. destruct vs as [|v vs]; [done|].
  rewrite !call_answers_cons, IH by (intros y Hy; apply Hx; by right). f_equal. unfold call_answer.
  destruct (Hx x) as [H1 H2]; [left|]. by destruct (rx_call_ext vr m m' x ok Hd H1 Hb H2) as [_ ->].
Qed.

Lemma rx_loop_null fuel l k freed w : rx_loop fuel dev NULL l k freed w = Ok tt w.
Proof. by destruct fuel. Qed.

Lemma rx_loop_ok hs fuel q k l rest freed w :
  rx_inv q w → P hs w → incoming o q (w_mem w) = rest → rx_entries q ((k, l) :: rest) →
  (length rest < fuel)%nat →
  Z.of_nat (length (outgoing o c q (w_mem w))) + Z.of_nat (length rest) < num (vq_ring q) →
  ∃ vs w' q', rx_loop fuel dev (buf_at (vq_ring q) (w_mem w) k) l k freed w = Ok tt w' ∧
    received q q' ((k, l) :: rest) vs w w' ∧ lock_kept w w' ∧
    P (hs ++ call_answers (vq_ring q) (w_mem w) ((k, l) :: rest) vs) w' ∧
    (RL_ALLOW_CONSUMED_BUFFERS_NOTIFICATION && any_released freed vs = true →
     ∃ tr, w_trace w' = notified q (w_mem w') ++ tr).
Proof.
  revert hs q k l freed w fuel. induction rest as [|[k1 l1] rest IH];
    intros hs q k l freed w fuel Hinv HP Hin Hent Hfuel Hroom;
    (destruct fuel as [|fuel]; [cbn in Hfuel; lia|]); cbn [length] in *;
    destruct (rx_entries_cons _ _ _ Hent) as (Hnk & Hk & Hl & Hl2 & Hent'); cbn [fst snd] in *;
    (destruct (rx_iteration hs q k l w Hinv HP Hk Hl Hl2) as
      (v & w1 & q1 & Hrun & Hinv1 & Hr1 & Hin1 & Hout1 & Hans & Htr1 & Hheld & Hoth & Hd1 & Hf1 & Hm1 & HP1);
      [lia|rewrite Hin; intros j n Hj; destruct Hent' as [_ Hall]; rewrite Forall_forall in Hall;
        by apply (Hall (j, n))|]);
    rewrite Hin in Hin1;
    pose proof (bo_null _ _ _ (ri_bufs _ _ Hinv) k Hk) as Hnull;
    cbn [rx_loop]; rewrite (proj2 (Z.eqb_neq _ NULL) Hnull), Hrun; cbv zeta;
    (destruct (vq_get_ok (vq_rx o) o (rvq i) q1 l k w1 (or_introl eq_refl) (ri_rvq _ _ Hinv1) (ri_wf _ _ Hinv1))
      as (tr & Htr & Hget); [|rewrite Hin1 in Hget; rewrite (bind_ok _ _ _ _ _ Hget)]).
  - rewrite Hin1. by intros ?? ?%not_elem_of_nil.
  - set (w2 := after_vq (rvq i) q1 (w_mem w1) tr w1).
    assert (rx_inv q1 w2) as Hinv2 by (by apply (rx_inv_after_vq q1); [|apply Hinv1| |]).
    rewrite Z.eqb_refl, andb_true_r.
    destruct (received_nil q1 w2 (RL_ALLOW_CONSUMED_BUFFERS_NOTIFICATION && (freed || negb (v =? RL_HOLD)))
      Hinv2 Hin1) as (w' & q' & Hfin & Hrec & [Hkf Hkm] & HPf & Hnot).
    rewrite (bind_ok _ _ _ _ _ Hfin). exists [v], w', q'. rewrite rx_loop_null. split; [done|]. split.
    + eapply (received_cons q q1 q1 q' k l v [] [] w w1 w2 w'); try done.
      by apply filter_after_vq.
    + split; [split; auto|]. split.
      { apply HPf, (P_stable _ w1); [|cbn; by rewrite app_nil_r]. apply (lib_step_after_vq q1); try done. by apply filter_internal. }
      unfold any_released. cbn [existsb]. rewrite orb_false_r. intros Hn.
      destruct (Hnot Hn) as [tr' Htr']. exists tr'. by rewrite <- (notified_same_ring q q1).
  - rewrite Hin1. intros j n Hj. apply (bo_null _ _ _ (ri_bufs _ _ Hinv1)).
    destruct Hr1 as (-> & _). destruct Hent' as [_ Hall]. rewrite Forall_forall in Hall. by apply (Hall (j, n)).
  - destruct (rx_entries_cons _ _ _ Hent') as (_ & Hk1 & _). cbn [fst] in Hk1.
    pose proof Hr1 as (Er1 & _).
    assert (buf_at (vq_ring q1) (w_mem w1) k1 ≠ NULL) as Hnull1.
    { apply (bo_null _ _ _ (ri_bufs _ _ Hinv1)). by rewrite Er1. }
    rewrite (proj2 (Z.eqb_neq _ NULL) Hnull1), andb_false_r. cbn [andb].
    set (w2 := after_vq (rvq i) (taken o q1) (w_mem w1) tr w1).
    pose proof (taken_same_ring o q1) as Ht1. pose proof Ht1 as (Et1 & _).
    assert (rx_inv (taken o q1) w2) as Hinv2.
    { apply (rx_inv_after_vq q1); [done|apply taken_wf, Hinv1|done|done]. }
    rewrite (bind_ok _ _ _ _ _ (eq_refl : (mret tt : W E unit) w2 = Ok tt w2)).
    assert (incoming o (taken o q1) (w_mem w2) = rest) as Hin2.
    { eapply incoming_taken; [apply Hinv1|exact Hin1]. }
    assert (rx_entries (taken o q1) ((k1, l1) :: rest)) as Hent2 by (unfold rx_entries; by rewrite Et1, Er1).
    assert (Z.of_nat (length (outgoing o c (taken o q1) (w_mem w2))) + Z.of_nat (length rest) <
      num (vq_ring (taken o q1))) as Hroom2.
    { rewrite Et1, (outgoing_ring o c q1) by done. change (w_mem w2) with (w_mem w1).
      rewrite Er1, Hout1, length_app, released_cons. destruct (v =? RL_HOLD); cbn; lia. }
    assert (P (hs ++ call_answer (vq_ring q) (w_mem w) (k, l) v) w2) as HP2.
    { apply (P_stable _ w1); [|done]. apply (lib_step_after_vq q1); try done. by apply filter_internal. }
    destruct (IH _ (taken o q1) k1 l1 (freed || negb (v =? RL_HOLD)) w2 fuel Hinv2 HP2 Hin2 Hent2 ltac:(lia) Hroom2)
      as (vs & w' & q' & Hloop & Hrec & [Hkf Hkm] & HP' & Hnot).
    assert (buf_at (vq_ring (taken o q1)) (w_mem w2) k1 = buf_at (vq_ring q1) (w_mem w1) k1) as Eb by (by rewrite Et1).
    rewrite Eb in Hloop. exists (v :: vs), w', q'. split; [exact Hloop|]. split.
    + eapply (received_cons q q1 (taken o q1) q' k l v _ vs w w1 w2 w'); try done.
      by apply filter_after_vq.
    + split; [split; auto|]. split.
      { rewrite call_answers_cons, app_assoc. rewrite Et1, Er1 in HP'. change (w_mem w2) with (w_mem w1) in HP'.
        rewrite (call_answers_ext (vq_ring q) (w_mem w) (w_mem w1)) in HP'; [exact HP'|apply Hinv..|exact Hd1|].
        intros x Hx. destruct Hent' as [Hnd Hall]. rewrite Forall_forall in Hall. destruct (Hall x Hx) as [Hx1 _].
        split; [done|]. apply Hoth; [done|]. intros E0. apply Hnk. rewrite <- E0. by apply list_elem_of_fmap_2. }
      unfold any_released in *. cbn [existsb]. rewrite orb_assoc. intros Hn.
      destruct (Hnot Hn) as [tr' Htr']. exists tr'. rewrite Htr'. f_equal.
      apply notified_same_ring. by eapply same_ring_trans.
Qed.

(** Taking and releasing the lock around the loop does not matter to it. *)
Lemma rx_inv_env q e f w :
  rx_inv q w → rx_inv q (set_trace f (set_env e w)).
Proof. intros []. by constructor. Qed.

Lemma received_from q q' xs vs w0 w w' :
  w_mem w = w_mem w0 → filter is_rx (w_trace w) = filter is_rx (w_trace w0) →
  received q q' xs vs w w' → received q q' xs vs w0 w'.
Proof.
  intros Hm Ht [R1 R2 R3 R4 R5 R6 R7 R8 R9]. rewrite Hm, ?Ht in *. by constructor.
Qed.

Lemma received_to q q' xs vs w e f w' :
  filter is_rx (f (w_trace w')) = filter is_rx (w_trace w') →
  received q q' xs vs w w' → received q q' xs vs w (set_trace f (set_env e w')).
Proof.
  intros Ht [R1 R2 R3 R4 R5 R6 R7 R8 R9]. constructor; try done.
  - by apply rx_inv_env.
  - cbn. by rewrite Ht.
Qed.

(** The first read and the loop. *)
Lemma rx_drain_ok hs fuel q xs w :
  rx_inv q w → P hs w → incoming o q (w_mem w) = xs → rx_entries q xs → (length xs ≤ fuel)%nat →
  Z.of_nat (length (outgoing o c q (w_mem w))) + Z.of_nat (length xs) ≤ num (vq_ring q) →
  ∃ vs w' q', (r ← vq_rx o (rvq i) 0 0; let '(msg, len, idx) := r in
      rx_loop fuel dev msg len idx false) w = Ok tt w' ∧
    received q q' xs vs w w' ∧ lock_kept w w' ∧ P (hs ++ call_answers (vq_ring q) (w_mem w) xs vs) w' ∧
    (RL_ALLOW_CONSUMED_BUFFERS_NOTIFICATION && any_released false vs = true →
     ∃ tr, w_trace w' = notified q (w_mem w') ++ tr).
Proof.
  intros Hinv HP Hin Hent Hfuel Hroom. pose proof (ri_wf _ _ Hinv) as Hwf.
  destruct (vq_get_ok (vq_rx o) o (rvq i) q 0 0 w (or_introl eq_refl) (ri_rvq _ _ Hinv) Hwf) as (tr & Htr & Hget).
  { rewrite Hin. intros j n Hj. apply (bo_null _ _ _ (ri_bufs _ _ Hinv)).
    destruct Hent as [_ Hall]. rewrite Forall_forall in Hall. by apply (Hall (j, n)). }
  rewrite Hin in Hget. destruct xs as [|[k l] rest]; rewrite (bind_ok _ _ _ _ _ Hget).
  - set (w2 := after_vq (rvq i) q (w_mem w) tr w).
    assert (rx_inv q w2) as Hinv2 by (by apply (rx_inv_after_vq q)).
    destruct (received_nil q w2 false Hinv2 Hin) as (w' & q' & [= <-] & Hrec & Hkept & _ & _).
    exists [], w2, q'. rewrite rx_loop_null. split; [done|]. split.
    + eapply received_from; [..|exact Hrec]; try done. by apply filter_after_vq.
    + split; [exact Hkept|]. split; [|cbn; by rewrite andb_false_r].
      cbn. rewrite app_nil_r.
      apply (P_stable _ w); [|done]. apply (lib_step_after_vq q); try done. by apply filter_internal.
  - set (w2 := after_vq (rvq i) (taken o q) (w_mem w) tr w).
    pose proof (taken_same_ring o q) as Ht1. pose proof Ht1 as (Et1 & _).
    assert (rx_inv (taken o q) w2) as Hinv2.
    { apply (rx_inv_after_vq q); [done|by apply taken_wf|done|done]. }
    assert (incoming o (taken o q) (w_mem w2) = rest) as Hin2 by (by eapply incoming_taken).
    assert (rx_entries (taken o q) ((k, l) :: rest)) as Hent2 by (unfold rx_entries; by rewrite Et1).
    assert (outgoing o c (taken o q) (w_mem w2) = outgoing o c q (w_mem w)) as Hout2 by (by apply outgoing_ring).
    assert (P hs w2) as HP2.
    { apply (P_stable _ w); [|done]. apply (lib_step_after_vq q); try done. by apply filter_internal. }
    destruct (rx_loop_ok hs fuel (taken o q) k l rest false w2 Hinv2 HP2 Hin2 Hent2)
      as (vs & w' & q' & Hloop & Hrec & Hkept & HP' & Hnot); [cbn in Hfuel; lia|rewrite Hout2, Et1; cbn in Hroom; lia|].
    rewrite Et1 in Hloop, HP'. exists vs, w', q'. split; [exact Hloop|].
    rewrite (notified_same_ring q (taken o q)) in Hnot by done. split; [|by split_and!].
    destruct Hrec as [R1 R2 R3 R4 R5 R6 R7 R8 R9]. rewrite Hout2, Et1 in *.
    constructor; try done.
    + by eapply same_ring_trans.
    + rewrite R6. f_equal. by apply filter_after_vq.
Qed.

(** The whole callback, with what the endpoints' callbacks maintain. *)
Lemma rx_callback_ok hs fuel q xs w :
  rx_inv q w → P hs w → dev ≠ NULL → priv q = dev → lock_free (w_env w) (lock i) →
  incoming o q (w_mem w) = xs → rx_entries q xs → (length xs ≤ fuel)%nat →
  Z.of_nat (length (outgoing o c q (w_mem w))) + Z.of_nat (length xs) ≤ num (vq_ring q) →
  ∃ vs w' q', rpmsg_lite_rx_callback fuel (rvq i) w = Ok tt w' ∧
    received q q' xs vs w w' ∧ lock_free (w_env w') (lock i) ∧
    P (hs ++ call_answers (vq_ring q) (w_mem w) xs vs) w' ∧
    (RL_ALLOW_CONSUMED_BUFFERS_NOTIFICATION && any_released false vs = true →
     ∃ tr1 tr2, w_trace w' = tr1 ++ notified q (w_mem w') ++ tr2 ∧ Forall (λ e, e = EvUnlock (lock i)) tr1).
Proof.
  intros Hinv HP Hdev Hpriv Hlock Hin Hent Hfuel Hroom. unfold rpmsg_lite_rx_callback.
  rewrite (bind_ok _ _ _ _ _ (get_vq_ok _ _ _ (ri_rvq _ _ Hinv))), Hpriv. cbv zeta.
  rewrite (proj2 (Z.eqb_neq dev NULL) Hdev). cbn [negb RL_ASSERT].
  rewrite (bind_ok _ _ _ _ _ (eq_refl : (mret tt : W E unit) w = Ok tt w)).
  rewrite (bind_ok _ _ _ _ _ (get_inst_ok _ _ _ (tab_inst _ _ _ _ (ri_table _ _ Hinv)))).
  assert (∀ w1 (g : W E unit), (o' ← get_ops i; r ← vq_rx o' (rvq i) 0 0;
      let '(msg, len, idx) := r in rx_loop fuel dev msg len idx false;; g) w1 =
    ((r ← vq_rx o (rvq i) 0 0; let '(msg, len, idx) := r in rx_loop fuel dev msg len idx false) ≫= λ _, g) w1) as Hbody.
  { intros w1 g. rewrite (bind_ok _ _ _ _ _ (get_ops_ok i o w1 (ri_ops _ _ Hinv))).
    cbv [mbind M_bind]. by destruct (vq_rx o (rvq i) 0 0 w1) as [[[? ?] ?] ?| | |]. }
  destruct RL_USE_ENVIRONMENT_CONTEXT.
  - destruct (env_lock_ok _ w Hlock) as (e1 & He1 & Hmine & Hq1). rewrite (bind_ok _ _ _ _ _ He1), Hbody.
    set (w1 := set_trace _ (set_env e1 w)).
    destruct (rx_drain_ok hs fuel q xs w1 (rx_inv_env _ _ _ _ Hinv) (P_stable hs w w1 (lib_step_env q w e1 (cons (EvLock (lock i))) Hinv Hq1 eq_refl) HP)
      Hin Hent Hfuel Hroom) as (vs & w' & q' & Hrun & Hrec & [Hkf Hkm] & HP' & Hnot).
    rewrite (bind_ok _ _ _ _ _ Hrun).
    destruct (env_unlock_ok _ w' (Hkm Hmine)) as (e2 & He2 & Hfree & Hq2).
    rewrite He2. eexists vs, _, q'. split; [done|]. split_and!; [|done| |].
    + eapply received_from; [..|eapply received_to; [..|exact Hrec]]; done.
    + apply (P_stable _ w'); [|exact HP']. by apply (lib_step_env q'); [apply Hrec|..].
    + intros Hn. destruct (Hnot Hn) as [tr Htr]. exists [EvUnlock (lock i)], tr. cbn. rewrite Htr.
      split; [done|]. by repeat constructor.
  - rewrite (bind_ok _ _ _ _ _ (eq_refl : (mret tt : W E unit) w = Ok tt w)), Hbody.
    destruct (rx_drain_ok hs fuel q xs w Hinv HP Hin Hent Hfuel Hroom)
      as (vs & w' & q' & Hrun & Hrec & [Hkf Hkm] & HP' & Hnot).
    rewrite (bind_ok _ _ _ _ _ Hrun). exists vs, w', q'. split; [done|]. split_and!; [done|by apply Hkf|done|].
    intros Hn. destruct (Hnot Hn) as [tr Htr]. exists [], tr. by split.
Qed.

End receive.

(** ** The theorems *)

Section theorems.
Context {E : Type} {el : EnvLayer E} {laws : EnvLaws E} {rxd : RxDispatch E}.
Context {cfg : Config} {am : AddrMap}.
Implicit Types w : world E.

(** C2.  [rpmsg_lite_rx_callback] delivers everything that has arrived.  For
    any endpoints whose callbacks answer [answers] and leave the instance, its
    receive queue and the buffers alone, the call returns with the receive
    queue empty.  Every message was handed once, in order of arrival, to the
    endpoint with its destination address, with the payload pointer, length and
    source address of the message; messages for nobody were handed to nobody.
    The buffers of messages that were answered with [RL_HOLD] still hold them,
    with the descriptor in the header; the others, and those for nobody, were
    given back to the other side, in order.  If it is configured and one was
    given back, the other side is notified at the end.  The lock is free. *)
Theorem rx_callback_delivers fuel dev i o t bsz c answers q xs w :
  (∀ q w x p len src, rx_inv dev i o t bsz q w → x ∈ t →
     ∃ v w', call_rx_cb (rx_cb x.2.2) p len src (rx_cb_data x.2.2) w = Ok v w' ∧
       answers x.2.2 v ∧ cb_keeps dev i t bsz (vq_ring q) w w') →
  rx_inv dev i o t bsz q w → dev ≠ NULL → priv q = dev → lock_free (w_env w) (lock i) →
  incoming o q (w_mem w) = xs → rx_entries bsz q xs → (length xs ≤ fuel)%nat →
  Z.of_nat (length (outgoing o c q (w_mem w))) + Z.of_nat (length xs) ≤ num (vq_ring q) →
  ∃ vs w' q', rpmsg_lite_rx_callback fuel (rvq i) w = Ok tt w' ∧
    received dev i o t bsz c answers q q' xs vs w w' ∧ lock_free (w_env w') (lock i) ∧
    (RL_ALLOW_CONSUMED_BUFFERS_NOTIFICATION && any_released false vs = true →
     ∃ tr1 tr2, w_trace w' = tr1 ++ notified q (w_mem w') ++ tr2 ∧ Forall (λ e, e = EvUnlock (lock i)) tr1).
Proof.
  intros Hcb Hinv Hdev Hpriv Hlock Hin Hent Hfuel Hroom.
  destruct (rx_callback_ok dev i o t bsz c answers (λ _ _, True) (λ _ _ _ _ _, I)) with (hs := @nil Z) (fuel := fuel) (q := q) (xs := xs) (w := w)
    as (vs & w' & q' & Hrun & Hrec & Hf & _ & Hn); try done; [|by exists vs, w', q'].
  intros hs q0 w0 x p len src Hi Hx _. destruct (Hcb q0 _ x p len src Hi Hx) as (v & w1 & ? & ? & ?). by exists v, w1.
Qed.

Lemma release_rx_buffer_ok dev i o t bsz c q k w :
  rx_inv dev i o t bsz q w → dev ≠ NULL → lock_free (w_env w) (lock i) →
  0 ≤ k < num (vq_ring q) → 0 ≤ r_desc_len (vq_ring q) (w_mem w) k ≤ bsz →
  Forall (λ x, x.1 < num (vq_ring q)) (incoming o q (w_mem w)) →
  Z.of_nat (length (outgoing o c q (w_mem w))) < num (vq_ring q) →
  let b := buf_at (vq_ring q) (w_mem w) k in
  load 2 (w_mem w) (a_hdr_idx b) = k → a_msg_data b ≠ NULL →
  (RL_DEBUG_CHECK_BUFFERS = true → r_desc_addr (vq_ring q) (w_mem w) k = b) →
  ∃ w' q', rpmsg_lite_release_rx_buffer dev (a_msg_data b) w = Ok RL_SUCCESS w' ∧
    rx_inv dev i o t bsz q' w' ∧ same_ring q q' ∧ lock_free (w_env w') (lock i) ∧
    outgoing o c q' (w_mem w') =
      outgoing o c q (w_mem w) ++ [out_entry o k (r_desc_len (vq_ring q) (w_mem w) k)] ∧
    incoming o q' (w_mem w') = incoming o q (w_mem w) ∧
    (∀ j, 0 ≤ j < num (vq_ring q) → j ≠ k → agree_on (buf_at (vq_ring q) (w_mem w) j)
       (buf_at (vq_ring q) (w_mem w) j + bsz) (w_mem w') (w_mem w)) ∧
    (RL_ALLOW_CONSUMED_BUFFERS_NOTIFICATION = true →
     ∃ tr, w_trace w' = EvUnlock (lock i) :: notified q (w_mem w') ++ tr) ∧
    lib_step dev i o t bsz w w'.
Proof.
  intros Hinv Hdev Hlock Hk Hl Hin Hroom b Hidx Hb0 Hdbg.
  pose proof (proj2 (Z.eqb_neq dev NULL) Hdev) as E1.
  pose proof (ri_wf _ _ _ _ _ _ _ Hinv) as Hwf. pose proof (wf_ring _ (wf_core _ Hwf)) as ok.
  pose proof (load_range 4 (w_mem w) (a_desc_len (vq_ring q) k)) as Hdl.
  change (load 4 (w_mem w) (a_desc_len (vq_ring q) k)) with (r_desc_len (vq_ring q) (w_mem w) k) in Hdl.
  set (l := r_desc_len (vq_ring q) (w_mem w) k) in *.
  unfold rpmsg_lite_release_rx_buffer. rewrite E1, (proj2 (Z.eqb_neq _ NULL) Hb0). cbv zeta.
  assert (RPMSG_STD_MSG_FROM_BUF (a_msg_data b) = b) as ->.
  { unfold RPMSG_STD_MSG_FROM_BUF, a_msg_data, sizeof_rpmsg_std_hdr. lia. }
  pose proof (ri_rvq _ _ _ _ _ _ _ Hinv) as Hr.
  rewrite (bind_ok _ _ _ _ _ (get_inst_ok _ _ _ (tab_inst _ _ _ _ (ri_table _ _ _ _ _ _ _ Hinv)))).
  rewrite (bind_ok _ _ _ _ _ (check_buffer_ok (rvq i) q k w Hr Hwf Hk Hdbg)).
  destruct (env_lock_ok _ w Hlock) as (e1 & He1 & Hmine & Hq1). rewrite (bind_ok _ _ _ _ _ He1).
  set (w1 := set_trace _ (set_env e1 w)).
  rewrite (bind_ok _ _ _ _ _ (get_ops_ok i o w1 (ri_ops _ _ _ _ _ _ _ Hinv))).
  rewrite (bind_ok _ _ _ _ _ (ldm_ok 2 (a_hdr_idx b) w1)). change (w_mem w1) with (w_mem w). rewrite Hidx.
  rewrite (bind_ok _ _ _ _ _ (get_buffer_length_ok (rvq i) q k w1 Hr)). change (w_mem w1) with (w_mem w).
  fold l. set (w2 := after_vq (rvq i) q (w_mem w) _ w1).
  assert (rx_inv dev i o t bsz q w2) as Hinv2 by (by apply (rx_inv_after_vq dev i o t bsz q); [apply rx_inv_env| | |]).
  assert (lib_step dev i o t bsz w1 w2) as Hst2.
  { apply (lib_step_after_vq dev i o t bsz q q (inval_evs (a_desc_len (vq_ring q) k) 4) w1); [by apply rx_inv_env|exact Hinv2|done|].
    apply filter_internal, internal_inval. }
  destruct (settle_ok dev i o t bsz c q k l RL_RELEASE w2 Hinv2 Hk Hl ltac:(exact (proj2 Hdl)) Hroom)
    as (w3 & q3 & Hrun3 & Hinv3 & Hr3 & Hin3 & Hout3 & Hs3 & Hb3 & _ & He3 & Hst3).
  cbn [RL_RELEASE RL_HOLD Z.eqb] in Hrun3, Hout3. change (w_mem w2) with (w_mem w) in *. fold b in Hrun3.
  rewrite (bind_ok _ _ _ _ _ Hrun3).
  assert (∃ w4 q4, (if RL_ALLOW_CONSUMED_BUFFERS_NOTIFICATION then with_vq (rvq i) virtqueue_kick else mret tt) w3
      = Ok tt w4 ∧ rx_inv dev i o t bsz q4 w4 ∧ same_ring q3 q4 ∧ w_mem w4 = w_mem w3 ∧ w_env w4 = w_env w3 ∧
      (∀ m, incoming o q4 m = incoming o q3 m) ∧ lib_step dev i o t bsz w3 w4 ∧
      (RL_ALLOW_CONSUMED_BUFFERS_NOTIFICATION = true → ∃ tr, w_trace w4 = notified q (w_mem w4) ++ tr))
    as (w4 & q4 & Hrun4 & Hinv4 & Hr4 & Hm4 & He4 & Hin4 & Hst4 & Hn4).
  { destruct RL_ALLOW_CONSUMED_BUFFERS_NOTIFICATION; [|exists w3, q3; split_and!; try done; by eapply lib_step_refl].
    destruct (kick_step_ok dev i o t bsz q3 w3 Hinv3) as (w4 & q4 & Hrun & Hinv4 & Hr0 & Hst & Em & Ee & Hi & tr & Htr).
    exists w4, q4. split_and!; try done. intros _. exists tr. by rewrite Htr, (notified_same_ring q q3). }
  rewrite (bind_ok _ _ _ _ _ Hrun4).
  destruct (env_unlock_ok (lock i) w4) as (e5 & He5 & Hf5 & Hq5); [by rewrite He4, He3|].
  rewrite (bind_ok _ _ _ _ _ He5). eexists _, q4. split; [reflexivity|].
  cbn [w_mem w_env w_trace set_trace set_env]. rewrite Hm4. split_and!.
  - by apply rx_inv_env.
  - by eapply same_ring_trans.
  - done.
  - rewrite (outgoing_ring o c q3) by apply Hr4. exact Hout3.
  - rewrite Hin4, Hin3. apply incoming_ext; [done|done|]. intros j n Hj.
    rewrite Forall_forall in Hin. by apply (Hin (j, n)).
  - exact Hb3.
  - intros Hn. destruct (Hn4 Hn) as [tr Htr]. exists tr. by rewrite Htr, Hm4.
  - eapply lib_step_trans; [by apply (lib_step_env dev i o t bsz q w e1 (cons (EvLock (lock i))))|].
    eapply lib_step_trans; [exact Hst2|].
    eapply lib_step_trans; [exact Hst3|]. eapply lib_step_trans; [exact Hst4|].
    by apply (lib_step_env dev i o t bsz q4 w4 e5 (cons (EvUnlock (lock i)))).
Qed.

(** [rpmsg_lite_release_rx_buffer] gives a kept buffer back.  NULL
    arguments are refused.  For a buffer whose header names its descriptor, as
    the receive callback left it, the call returns [RL_SUCCESS]; that
    descriptor, with the length of its buffer, is the new last entry the other
    side finds; the messages still to be received and every other buffer are as
    before; the lock is free; the other side is notified if so configured. *)
Theorem release_rx_buffer_gives_back dev i o t bsz c q k w :
  rx_inv dev i o t bsz q w → dev ≠ NULL → lock_free (w_env w) (lock i) →
  0 ≤ k < num (vq_ring q) → 0 ≤ r_desc_len (vq_ring q) (w_mem w) k ≤ bsz →
  Forall (λ x, x.1 < num (vq_ring q)) (incoming o q (w_mem w)) →
  Z.of_nat (length (outgoing o c q (w_mem w))) < num (vq_ring q) →
  let b := buf_at (vq_ring q) (w_mem w) k in
  load 2 (w_mem w) (a_hdr_idx b) = k → a_msg_data b ≠ NULL →
  (RL_DEBUG_CHECK_BUFFERS = true → r_desc_addr (vq_ring q) (w_mem w) k = b) →
  (∀ p, rpmsg_lite_release_rx_buffer NULL p w = Ok RL_ERR_PARAM w) ∧
  rpmsg_lite_release_rx_buffer dev NULL w = Ok RL_ERR_PARAM w ∧
  ∃ w' q', rpmsg_lite_release_rx_buffer dev (a_msg_data b) w = Ok RL_SUCCESS w' ∧
    rx_inv dev i o t bsz q' w' ∧ same_ring q q' ∧ lock_free (w_env w') (lock i) ∧
    outgoing o c q' (w_mem w') =
      outgoing o c q (w_mem w) ++ [out_entry o k (r_desc_len (vq_ring q) (w_mem w) k)] ∧
    incoming o q' (w_mem w') = incoming o q (w_mem w) ∧
    (∀ j, 0 ≤ j < num (vq_ring q) → j ≠ k → agree_on (buf_at (vq_ring q) (w_mem w) j)
       (buf_at (vq_ring q) (w_mem w) j + bsz) (w_mem w') (w_mem w)) ∧
    (RL_ALLOW_CONSUMED_BUFFERS_NOTIFICATION = true →
     ∃ tr, w_trace w' = EvUnlock (lock i) :: notified q (w_mem w') ++ tr).
Proof.
  intros Hinv Hdev Hlock Hk Hl Hin Hroom b Hidx Hb0 Hdbg. split; [done|]. split.
  - unfold rpmsg_lite_release_rx_buffer. by rewrite (proj2 (Z.eqb_neq dev NULL) Hdev).
  - destruct (release_rx_buffer_ok dev i o t bsz c q k w Hinv Hdev Hlock Hk Hl Hin Hroom Hidx Hb0 Hdbg)
      as (w' & q' & ? & ? & ? & ? & ? & ? & ? & ? & _). by exists w', q'.
Qed.

(** A notification on the transmit queue brings the link up.
    [virtqueue_notification] of a queue whose callback is
    [rpmsg_lite_tx_callback] sets the link state of its instance, which
    [rpmsg_lite_is_link_up] reports from then on, runs the port's hook, and
    changes neither the memory nor any other object; a NULL queue, and one
    without a callback, are ignored. *)
Theorem tx_notification_links fuel p q dev i e w :
  w_heap w !! p = Some (OVq q) → p ≠ NULL → callback_fc q = Some rpmsg_lite_tx_callback_fc →
  priv q = dev → dev ≠ NULL → w_heap w !! dev = Some (OInst i) →
  el_tx_callback (link_id i) (w_env w) = Ok tt e →
  ∃ w', virtqueue_notification fuel p w = Ok tt w' ∧
    w_heap w' = <[dev := OInst (set_link_state 1 i)]> (w_heap w) ∧
    w_mem w' = w_mem w ∧ w_env w' = e ∧ w_trace w' = EvTxCallback (link_id i) :: w_trace w ∧
    rpmsg_lite_is_link_up dev w' = Ok RL_TRUE w' ∧
    virtqueue_notification fuel NULL w = Ok tt w ∧
    (∀ p' q', p' ≠ NULL → w_heap w !! p' = Some (OVq q') → callback_fc q' = None →
       virtqueue_notification fuel p' w = Ok tt w).
Proof.
  intros Hp Hp0 Hcb Hpriv Hdev Hi He.
  eexists. split; [by eapply tx_notification_ok|].
  split_and!; try done.
  - unfold rpmsg_lite_is_link_up. rewrite (proj2 (Z.eqb_neq dev NULL) Hdev).
    erewrite bind_ok; [|apply get_inst_ok; apply lookup_insert_eq]. done.
  - intros p' q' Hp' Hq' Hc. unfold virtqueue_notification. rewrite (proj2 (Z.eqb_neq p' NULL) Hp').
    by rewrite (bind_ok _ _ _ _ _ (get_vq_ok _ _ _ Hq')), Hc.
Qed.

End theorems.

(** ** The theorems on a concrete state *)

(** A master with two messages waiting: one for its endpoint 1, one for nobody;
    and the first again, kept, with its descriptor in the header. *)
Definition c_rx_vq : virtqueue := set_priv c_vq 1.
Definition c_rx_inst : rpmsg_lite_instance :=
  {| rvq := 20; tvq := 21; rl_endpoints := 2; lock := 4; link_state := 1; sh_mem_base := 8192;
     sh_mem_remaining := 0; sh_mem_total := 4; vq_ops := Some master_vq_ops; link_id := 0 |}.
Definition c_rx_mem : mem :=
  put_msg (c_buf 1) 7 99 1 0 [42] (put_msg (c_buf 0) 30 1 2 0 [104; 105] (v_mem c_used)).
Definition c_rx_heap : gmap Z obj :=
  {[ 1 := OInst c_rx_inst; 2 := ONode c_node; 3 := OEpt c_ept; 20 := OVq c_rx_vq;
     21 := OVq (set_priv c_rvq 1) ]}.
Definition c_rx (m : mem) : world (bm sim) := Build_world m c_rx_heap 30 [] 0 sim_start [].
Definition c_dispatch : RxDispatch (bm sim) := {| call_rx_cb _ _ _ _ _ := mret RL_RELEASE |}.

Lemma c_rx_wf : vq_wf c_rx_vq.
Proof. apply setup_wf; vm_compute; try done. by intros []. Qed.

Lemma c_rx_heap_table : ept_table c_rx_heap 1 c_rx_inst [c_entry].
Proof.
  constructor; [vm_compute; done| | |apply NoDup_singleton|apply NoDup_singleton].
  - split; [|apply NoDup_singleton]. cbn [seg e_link c_entry fmap list_fmap fst snd].
    split_and!; [done|done|]. exists c_node. split_and!; [vm_compute; done|done..].
  - repeat constructor.
Qed.

Lemma c_rx_inv (m : mem) :
  buf_at (am := flat_map) c_ring m 0 = c_buf 0 → buf_at (am := flat_map) c_ring m 1 = c_buf 1 →
  @rx_inv _ flat_map 1 c_rx_inst master_vq_ops [c_entry] 512 c_rx_vq (c_rx m).
Proof.
  intros H0 H1. constructor.
  - apply c_rx_heap_table.
  - done.
  - change (w_heap (c_rx m)) with c_rx_heap. vm_compute. done.
  - apply c_rx_wf.
  - by apply (c_tx_bufs m).
  - lia.
Qed.

Lemma c_rx_inv_mem : @rx_inv _ flat_map 1 c_rx_inst master_vq_ops [c_entry] 512 c_rx_vq (c_rx c_rx_mem).
Proof. apply c_rx_inv; vm_compute; done. Qed.

Lemma c_rx_in : incoming master_vq_ops c_rx_vq c_rx_mem = [(0, 512); (1, 512)].
Proof. vm_compute. done. Qed.

Lemma c_rx_out : outgoing master_vq_ops 0 c_rx_vq c_rx_mem = [].
Proof. vm_compute. done. Qed.

Lemma c_rx_entries : rx_entries 512 c_rx_vq [(0, 512); (1, 512)].
Proof.
  assert (num (vq_ring c_rx_vq) = 2) as Hn by (vm_compute; done).
  split; [by apply (bool_decide_unpack _); vm_compute|]. rewrite Hn. repeat constructor; cbn; lia.
Qed.

Lemma c_dispatch_ok dev i t bsz vr (w : world (bm sim)) (x : entry) p len src :
  ∃ v w', @call_rx_cb _ c_dispatch (rx_cb x.2.2) p len src (rx_cb_data x.2.2) w = Ok v w' ∧
    v = RL_RELEASE ∧ @cb_keeps _ c_env c_laws flat_map dev i t bsz vr w w'.
Proof. exists RL_RELEASE, w. split_and!; [done|done|]. by constructor. Qed.

Lemma rx_callback_delivers_witness :
  ∃ w', @rpmsg_lite_rx_callback _ c_env c_dispatch default_config flat_map 2 20 (c_rx c_rx_mem) = Ok tt w' ∧
    filter is_rx (w_trace w') = [EvRxCb 1 (c_buf 0 + 16) 2 30 0].
Proof.
  destruct (@rx_callback_delivers _ c_env c_laws c_dispatch default_config flat_map 2 1 c_rx_inst
    master_vq_ops [c_entry] 512 0 (λ _ v, v = RL_RELEASE) c_rx_vq [(0, 512); (1, 512)] (c_rx c_rx_mem)
    ltac:(intros; apply c_dispatch_ok) c_rx_inv_mem ltac:(done) eq_refl I c_rx_in c_rx_entries
    ltac:(cbn; lia)) as (vs & w' & q' & Hrun & Hrec & _).
  { change (w_mem (c_rx c_rx_mem)) with c_rx_mem. rewrite c_rx_out. vm_compute. done. }
  exists w'. split; [exact Hrun|].
  etrans; [exact (rc_calls _ _ _ _ _ _ _ _ _ _ _ _ _ Hrec)|]. vm_compute. done.
Defined.

Definition c_held_mem : mem := store 2 c_rx_mem (a_hdr_idx (c_buf 0)) 0.

Lemma c_held_bufs :
  buf_at (am := flat_map) c_ring c_held_mem 0 = c_buf 0 ∧ buf_at (am := flat_map) c_ring c_held_mem 1 = c_buf 1 ∧
  r_desc_len c_ring c_held_mem 0 = 512 ∧ load 2 c_held_mem (a_hdr_idx (c_buf 0)) = 0.
Proof. split_and!; vm_compute; done. Qed.

Lemma c_held_queues :
  incoming master_vq_ops c_rx_vq c_held_mem = [(0, 512); (1, 512)] ∧
  outgoing master_vq_ops 0 c_rx_vq c_held_mem = [].
Proof. split; vm_compute; done. Qed.

Lemma c_rx_ring : vq_ring c_rx_vq = c_ring.
Proof. vm_compute. done. Qed.

Lemma release_rx_buffer_gives_back_witness :
  ∃ w', @rpmsg_lite_release_rx_buffer _ c_env default_config 1 (a_msg_data (c_buf 0)) (c_rx c_held_mem) =
    Ok RL_SUCCESS w'.
Proof.
  destruct c_held_bufs as (Hb0 & Hb1 & Hl & Hi). destruct c_held_queues as [Hin Hout].
  revert Hb0 Hb1 Hl Hi Hin Hout. generalize c_held_mem. intros m Hb0 Hb1 Hl Hi Hin Hout.
  pose proof (@release_rx_buffer_gives_back _ c_env c_laws default_config flat_map 1 c_rx_inst
    master_vq_ops [c_entry] 512 0 c_rx_vq 0 (c_rx m) (c_rx_inv m Hb0 Hb1) ltac:(done) I) as Hthm.
  rewrite c_rx_ring in Hthm. cbn [c_rx w_mem] in Hthm. rewrite Hin, Hout, Hl, Hb0, Hi, c_ring_eq in Hthm.
  destruct Hthm as (_ & _ & w' & q' & Hrun & _);
    [cbn; lia|lia|by repeat constructor|cbn; lia|done|by vm_compute|intros H; discriminate H|].
  exists w'. exact Hrun.
Defined.

Lemma tx_notification_links_witness :
  ∃ w', @virtqueue_notification _ c_env c_dispatch default_config flat_map 0 22
    (set_heap <[22 := OVq (set_priv (@virtqueue_setup default_config 1 [] c_alloc
        (Some rpmsg_lite_tx_callback_fc) None) 1)]> (c_rx ∅)) = Ok tt w'.
Proof.
  destruct (@tx_notification_links _ c_env c_dispatch default_config flat_map 0 22
    (set_priv (@virtqueue_setup default_config 1 [] c_alloc (Some rpmsg_lite_tx_callback_fc) None) 1)
    1 c_rx_inst sim_start
    (set_heap <[22 := OVq (set_priv (@virtqueue_setup default_config 1 [] c_alloc
        (Some rpmsg_lite_tx_callback_fc) None) 1)]> (c_rx ∅)))
    as (w' & Hrun & _); [apply lookup_insert_eq|done|done|done|done|vm_compute; done|done|].
  exists w'. exact Hrun.
Defined.
