(* ===== verification/RpmsgQueue.v ===== *)
(** * Message queues

    [rpmsg_queue.c]: an endpoint whose callback puts every message into a queue
    of the environment, from which tasks take them, with or without copying.
    The file is proved against the queue interface of [World] ([EnvQueue],
    [QueueLaws]), which the FreeRTOS port implements. *)

From S2P Require Import Prelude Memory Config VirtioRing Virtqueue RingQueue VirtqueueSpec Concrete ChannelRefinement World Lpc55s69 FreeRTOS Llist Endpoint Transport RpmsgLite Sending Receiving.

Section rpmsg_queue.
Context {E : Type} {el : EnvLayer E} {eq : EnvQueue E} {cfg : Config}.

(** [sizeof(rpmsg_queue_rx_cb_data_t)]: two words and a pointer. *)
Definition sizeof_rx_cb_data : Z := if uintptr_bits =? 64 then 24 else 12.

Definition rpmsg_queue_rx_cb (payload payload_len src priv : Z) : W E Z :=
  RL_ASSERT (negb (priv =? NULL));;
  r ← with_env (el_put_queue priv {| q_src := src; q_data := payload; q_len := payload_len |} 0);
  mret (if negb (r =? 0) then RL_HOLD else RL_RELEASE).

(** [static_ok]: with the static API, whether the storage and the context of
    the queue were given. *)
Definition rpmsg_queue_create (dev : Z) (static_ok : bool) : W E Z :=
  if dev =? NULL then mret NULL
  else if RL_USE_STATIC_API && negb static_ok then mret NULL
  else
    i ← get_inst dev;
    q ← get_vq (rvq i);
    r ← with_env (el_create_queue (i32 (2 * vq_nentries q)) sizeof_rx_cb_data);
    if negb (r.1 =? 0) || (r.2 =? NULL) then mret NULL else mret r.2.

Definition rpmsg_queue_destroy (dev q : Z) : W E Z :=
  if dev =? NULL then mret RL_ERR_PARAM
  else if q =? NULL then mret RL_ERR_PARAM
  else with_env (el_delete_queue q);; mret RL_SUCCESS.

(** [if (p != RL_NULL) *p = v] for a [uint32_t]. *)
Definition put_u32 (p v : Z) : W E unit :=
  if p =? NULL then mret tt else modify (set_mem (λ m, store 4 m p v)).

Definition rpmsg_queue_recv (dev q src data maxlen len timeout : Z) : W E Z :=
  if dev =? NULL then mret RL_ERR_PARAM
  else if q =? NULL then mret RL_ERR_PARAM
  else if data =? NULL then mret RL_ERR_PARAM
  else
    r ← with_env (el_get_queue q timeout);
    match r with
    | Some msg =>
        put_u32 src (q_src msg);;
        put_u32 len (q_len msg);;
        retval ← (if q_len msg <=? maxlen then env_memcpy data (q_data msg) (q_len msg);; mret RL_SUCCESS
                  else mret RL_ERR_BUFF_SIZE);
        st ← rpmsg_lite_release_rx_buffer dev (q_data msg);
        mret (if RL_SUCCESS =? st then retval else RL_ERR_PARAM)
    | None => mret RL_ERR_NO_BUFF
    end.

(** [*data = msg.data] stores a pointer. *)
Definition rpmsg_queue_recv_nocopy (dev q src data len timeout : Z) : W E Z :=
  if dev =? NULL then mret RL_ERR_PARAM
  else if data =? NULL then mret RL_ERR_PARAM
  else if q =? NULL then mret RL_ERR_PARAM
  else
    r ← with_env (el_get_queue q timeout);
    match r with
    | Some msg =>
        put_u32 src (q_src msg);;
        put_u32 len (q_len msg);;
        modify (set_mem (λ m, store (Z.to_nat (uintptr_bits / 8)) m data (q_data msg)));;
        mret RL_SUCCESS
    | None => mret RL_ERR_NO_BUFF
    end.

Definition rpmsg_queue_nocopy_free (dev data : Z) : W E Z :=
  if dev =? NULL then mret RL_ERR_PARAM
  else if data =? NULL then mret RL_ERR_PARAM
  else
    st ← rpmsg_lite_release_rx_buffer dev data;
    mret (if RL_SUCCESS =? st then RL_SUCCESS else RL_ERR_PARAM).

Definition rpmsg_queue_get_current_size (q : Z) : W E Z :=
  if q =? NULL then mret RL_ERR_PARAM else with_env (el_queue_size q).

End rpmsg_queue.

Section correct.
Context {E : Type} {el : EnvLayer E} {laws : EnvLaws E} {eq : EnvQueue E} {qv : QueueView E} {qlaws : QueueLaws E}.
Context {cfg : Config} {am : AddrMap}.
Implicit Types w : world E.

(** ** The callback *)

(** A message is kept exactly when the queue has room for it. *)
Lemma rpmsg_queue_rx_cb_ok p len src qh cap l w :
  qh ≠ NULL → queue_view (w_env w) qh = Some (cap, l) →
  ∃ e, rpmsg_queue_rx_cb p len src qh w = Ok (if decide (length l < cap)%nat then RL_HOLD else RL_RELEASE) (set_env e w) ∧
    queue_step qh (Some (cap, if decide (length l < cap)%nat
      then l ++ [{| q_src := src; q_data := p; q_len := len |}] else l)) (w_env w) e.
Proof.
  intros Hq Hv. destruct (law_put (w_env w) qh {| q_src := src; q_data := p; q_len := len |} cap l Hv) as (e & R & St).
  exists e. split; [|exact St]. unfold rpmsg_queue_rx_cb. rewrite (proj2 (Z.eqb_neq qh NULL) Hq). cbn [negb RL_ASSERT].
  unfold with_env, zoom, mbind, M_bind. cbn. rewrite R. by case_decide; [rewrite bool_decide_eq_true_2|rewrite bool_decide_eq_false_2].
Qed.

(** ** Memory of the application *)

(** Areas of the application's own memory contain no shared address. *)
Definition own_area (vr : vring) (bsz : Z) (m : mem) (a n : Z) : Prop :=
  ∀ x, a ≤ x < a + n → ¬ shared vr bsz m x.
Definition keeps_shared (vr : vring) (bsz : Z) (m m' : mem) : Prop :=
  ∀ x, shared vr bsz m x → byte_at m' x = byte_at m x.

Lemma frames_keeps_shared vr bsz m0 m m' a n :
  own_area vr bsz m0 a n → frames a (a + n) m m' → (∀ x, shared vr bsz m0 x → byte_at m x = byte_at m0 x) →
  ∀ x, shared vr bsz m0 x → byte_at m' x = byte_at m0 x.
Proof.
  intros Ho Hf Hm x Hx. rewrite <- (Hm x Hx). apply Hf.
  destruct (decide (a ≤ x < a + n)) as [Hin|]; [|lia]. by destruct (Ho x Hin).
Qed.

(** The state with the memory the application wrote to. *)
Lemma keeps_shared_cb dev i t bsz q w e m :
  (∀ l, lock_free (w_env w) l → lock_free e l) → (∀ l, lock_mine (w_env w) l → lock_mine e l) →
  keeps_shared (vq_ring q) bsz (w_mem w) m →
  cb_keeps dev i t bsz (vq_ring q) w (set_mem (λ _, m) (set_env e w)).
Proof.
  intros Hf Hm Hk. constructor; cbn; auto.
  - intros x Hx. apply Hk. left. lia.
  - intros j Hj x Hx. apply Hk. right. exists j. lia.
Qed.

Definition put_mem32 (p v : Z) (m : mem) : mem := if p =? NULL then m else store 4 m p v.
Definition area (p n : Z) : Z := if p =? NULL then 0 else n.

Lemma put_u32_ok p v w : put_u32 p v w = Ok tt (set_mem (put_mem32 p v) w).
Proof. unfold put_u32, put_mem32. destruct (p =? NULL); [by destruct w|done]. Qed.

Lemma put_mem32_frames p v m : frames p (p + area p 4) m (put_mem32 p v m).
Proof.
  unfold put_mem32, area. destruct (p =? NULL); [apply frames_refl|]. apply (store_frames 4).
Qed.

Lemma load_put_mem32 p v m : p ≠ NULL → 0 ≤ v < 4294967296 → load 4 (put_mem32 p v m) p = v.
Proof.
  intros Hp Hv. unfold put_mem32. rewrite (proj2 (Z.eqb_neq p NULL) Hp), load_store_same. by apply Z.mod_small.
Qed.

Definition apart (a n b k : Z) : Prop := a + n ≤ b ∨ b + k ≤ a.

(** Everything [rpmsg_queue_recv] writes for the application. *)
Definition delivered (src data maxlen len : Z) (msg : rpmsg_queue_rx_cb_data_t) (m : mem) : mem :=
  let m2 := put_mem32 len (q_len msg) (put_mem32 src (q_src msg) m) in
  if q_len msg <=? maxlen then mem_cpy m2 data (q_data msg) (q_len msg) else m2.

(** The areas it may write to. *)
Record recv_areas (vr : vring) (bsz : Z) (m : mem) (src data maxlen len : Z) (msg : rpmsg_queue_rx_cb_data_t) : Prop := {
  ra_src : own_area vr bsz m src (area src 4);
  ra_len : own_area vr bsz m len (area len 4);
  ra_data : own_area vr bsz m data (q_len msg);
  ra_src_len : apart src (area src 4) len (area len 4);
  ra_src_data : apart src (area src 4) data (q_len msg);
  ra_len_data : apart len (area len 4) data (q_len msg);
}.

Lemma delivered_keeps vr bsz m src data maxlen len msg :
  0 ≤ q_len msg → recv_areas vr bsz m src data maxlen len msg →
  keeps_shared vr bsz m (delivered src data maxlen len msg m).
Proof.
  intros Hl [Hs Hn Hd _ _ _]. unfold keeps_shared, delivered.
  assert (∀ x, shared vr bsz m x →
    byte_at (put_mem32 len (q_len msg) (put_mem32 src (q_src msg) m)) x = byte_at m x) as H2.
  { eapply frames_keeps_shared; [exact Hn|apply put_mem32_frames|].
    eapply frames_keeps_shared; [exact Hs|apply put_mem32_frames|done]. }
  destruct (q_len msg <=? maxlen); [|exact H2].
  eapply frames_keeps_shared; [exact Hd|by apply mem_cpy_frames|exact H2].
Qed.

(** What the application finds in memory that agrees with it outside the ring
    and the buffers. *)
Lemma delivered_reads vr bsz m m' src data maxlen len msg :
  0 ≤ q_len msg < 4294967296 → 0 ≤ q_src msg < 4294967296 → recv_areas vr bsz m src data maxlen len msg →
  (∀ x, q_data msg ≤ x < q_data msg + q_len msg → shared vr bsz m x) →
  (∀ x, ¬ shared vr bsz m x → byte_at m' x = byte_at (delivered src data maxlen len msg m) x) →
  (src ≠ NULL → load 4 m' src = q_src msg) ∧ (len ≠ NULL → load 4 m' len = q_len msg) ∧
  (q_len msg ≤ maxlen → load_bytes m' data (Z.to_nat (q_len msg)) = load_bytes m (q_data msg) (Z.to_nat (q_len msg))) ∧
  (maxlen < q_len msg → agree_on data (data + q_len msg) m' m).
Proof.
  intros Hl Hs Ha Hb Hm'. pose proof Ha as [As An Ad Asn Asd And].
  set (m1 := put_mem32 src (q_src msg) m). set (m2 := put_mem32 len (q_len msg) m1).
  pose proof (put_mem32_frames src (q_src msg) m) as F1. fold m1 in F1.
  pose proof (put_mem32_frames len (q_len msg) m1) as F2. fold m2 in F2.
  assert (frames data (data + q_len msg) m2 (delivered src data maxlen len msg m)) as F3.
  { unfold delivered. fold m1 m2. destruct (q_len msg <=? maxlen); [apply mem_cpy_frames; lia|apply frames_refl]. }
  set (m3 := delivered src data maxlen len msg m) in *.
  assert (∀ a n, own_area vr bsz m a n → agree_on a (a + n) m' m3) as Hown.
  { intros a n Hn x Hx. apply Hm', Hn. lia. }
  split_and!.
  - intros Hne. assert (area src 4 = 4) as E4 by (unfold area; by rewrite (proj2 (Z.eqb_neq src NULL) Hne)).
    rewrite E4 in *. unfold apart in *.
    rewrite (load_ext 4 m' m3) by (apply (Hown src 4); done).
    rewrite (load_ext 4 m3 m2) by (eapply frames_agree; [exact F3|lia]).
    rewrite (load_ext 4 m2 m1) by (eapply frames_agree; [exact F2|lia]). by apply load_put_mem32.
  - intros Hne. assert (area len 4 = 4) as E4 by (unfold area; by rewrite (proj2 (Z.eqb_neq len NULL) Hne)).
    rewrite E4 in *. unfold apart in *.
    rewrite (load_ext 4 m' m3) by (apply (Hown len 4); done).
    rewrite (load_ext 4 m3 m2) by (eapply frames_agree; [exact F3|lia]). by apply load_put_mem32.
  - intros Hle. assert (m3 = mem_cpy m2 data (q_data msg) (q_len msg)) as E3.
    { unfold m3, delivered. by rewrite (proj2 (Z.leb_le _ _) Hle). }
    rewrite (load_bytes_ext _ m' m3) by (rewrite Z2Nat.id by lia; by apply Hown). rewrite E3.
    rewrite load_bytes_mem_cpy. apply load_bytes_ext. rewrite Z2Nat.id by lia. intros x Hx.
    assert (keeps_shared vr bsz m m2) as Hk.
    { unfold keeps_shared. eapply frames_keeps_shared; [exact An|exact F2|]. eapply frames_keeps_shared; [exact As|exact F1|done]. }
    by apply Hk, Hb.
  - intros Hlt x Hx. rewrite (Hown data (q_len msg) Ad x Hx).
    assert (m3 = m2) as -> by (unfold m3, delivered; by rewrite (proj2 (Z.leb_gt _ _) Hlt)).
    unfold apart in *. rewrite (F2 x) by (unfold area in *; lia). apply F1. lia.
Qed.

(** The same without a copy: source, length and the pointer. *)
Record nocopy_areas (vr : vring) (bsz : Z) (m : mem) (src data len : Z) : Prop := {
  na_src : own_area vr bsz m src (area src 4);
  na_len : own_area vr bsz m len (area len 4);
  na_data : own_area vr bsz m data (uintptr_bits / 8);
  na_src_len : apart src (area src 4) len (area len 4);
  na_src_data : apart src (area src 4) data (uintptr_bits / 8);
  na_len_data : apart len (area len 4) data (uintptr_bits / 8);
}.
Definition nocopy_mem (src data len : Z) (msg : rpmsg_queue_rx_cb_data_t) (m : mem) : mem :=
  store (Z.to_nat (uintptr_bits / 8)) (put_mem32 len (q_len msg) (put_mem32 src (q_src msg) m)) data (q_data msg).

Lemma nocopy_mem_ok vr bsz m src data len msg :
  (uintptr_bits = 32 ∨ uintptr_bits = 64) → 0 ≤ q_data msg < 2 ^ uintptr_bits →
  0 ≤ q_len msg < 4294967296 → 0 ≤ q_src msg < 4294967296 → nocopy_areas vr bsz m src data len →
  let m' := nocopy_mem src data len msg m in
  keeps_shared vr bsz m m' ∧ load (Z.to_nat (uintptr_bits / 8)) m' data = q_data msg ∧
  (src ≠ NULL → load 4 m' src = q_src msg) ∧ (len ≠ NULL → load 4 m' len = q_len msg).
Proof.
  intros Hw Hd Hl Hs [As An Ad Asn Asd And] m'. set (n := Z.to_nat (uintptr_bits / 8)).
  assert (Z.of_nat n = uintptr_bits / 8) as En by (unfold n; destruct Hw as [-> | ->]; done).
  set (m1 := put_mem32 src (q_src msg) m). set (m2 := put_mem32 len (q_len msg) m1).
  pose proof (put_mem32_frames src (q_src msg) m) as F1. fold m1 in F1.
  pose proof (put_mem32_frames len (q_len msg) m1) as F2. fold m2 in F2.
  assert (frames data (data + uintptr_bits / 8) m2 m') as F3 by (rewrite <- En; apply store_frames).
  split_and!.
  - unfold keeps_shared. eapply frames_keeps_shared; [exact Ad|exact F3|].
    eapply frames_keeps_shared; [exact An|exact F2|]. by eapply frames_keeps_shared; [exact As|exact F1|].
  - unfold m', nocopy_mem. fold n. rewrite load_store_same. apply Z.mod_small. rewrite En.
    destruct Hw as [E0|E0]; rewrite E0 in *; exact Hd.
  - intros Hne. assert (area src 4 = 4) as E4 by (unfold area; by rewrite (proj2 (Z.eqb_neq src NULL) Hne)).
    rewrite E4 in *. unfold apart in *.
    rewrite (load_ext 4 m' m2) by (eapply frames_agree; [exact F3|lia]).
    rewrite (load_ext 4 m2 m1) by (eapply frames_agree; [exact F2|lia]). by apply load_put_mem32.
  - intros Hne. assert (area len 4 = 4) as E4 by (unfold area; by rewrite (proj2 (Z.eqb_neq len NULL) Hne)).
    rewrite E4 in *. unfold apart in *.
    rewrite (load_ext 4 m' m2) by (eapply frames_agree; [exact F3|lia]). by apply load_put_mem32.
Qed.

(** ** Taking a message *)

Context (dev : Z) (i : rpmsg_lite_instance) (o : virtqueue_ops) (t : list entry) (bsz c : Z).

(** The message a queue element stands for is in buffer [k], which is held. *)
Record held (q : virtqueue) (m : mem) (k : Z) (msg : rpmsg_queue_rx_cb_data_t) : Prop := {
  hd_range : 0 ≤ k < num (vq_ring q);
  hd_data : q_data msg = a_msg_data (buf_at (vq_ring q) m k);
  hd_idx : load 2 m (a_hdr_idx (buf_at (vq_ring q) m k)) = k;
  hd_desc : 0 ≤ r_desc_len (vq_ring q) m k ≤ bsz;
  hd_addr : RL_DEBUG_CHECK_BUFFERS = true → r_desc_addr (vq_ring q) m k = buf_at (vq_ring q) m k;
  hd_len : 0 ≤ q_len msg ∧ q_len msg + 16 ≤ bsz ∧ q_len msg < 4294967296;
  hd_src : 0 ≤ q_src msg < 4294967296;
  hd_null : q_data msg ≠ NULL;
}.

(** Room on the ring for the buffer to go back. *)
Definition can_release (q : virtqueue) (m : mem) : Prop :=
  Forall (λ x, x.1 < num (vq_ring q)) (incoming o q m) ∧
  Z.of_nat (length (outgoing o c q m)) < num (vq_ring q).

(** Buffer [k] was given back and nothing else changed on the receive side. *)
Record gave_back (q : virtqueue) (k : Z) (w w' : world E) : Prop := {
  gb_ring : ∃ q', same_ring q q' ∧ rx_inv dev i o t bsz q' w' ∧
    outgoing o c q' (w_mem w') =
      outgoing o c q (w_mem w) ++ [out_entry o k (r_desc_len (vq_ring q) (w_mem w) k)] ∧
    incoming o q' (w_mem w') = incoming o q (w_mem w);
  gb_lock : lock_free (w_env w') (lock i);
}.

(** Releasing, after the application has written to memory of its own. *)
Lemma release_held q k msg e m w :
  rx_inv dev i o t bsz q w → dev ≠ NULL → held q (w_mem w) k msg → can_release q (w_mem w) →
  lock_free e (lock i) → (∀ l, lock_free (w_env w) l → lock_free e l) → (∀ l, lock_mine (w_env w) l → lock_mine e l) →
  keeps_shared (vq_ring q) bsz (w_mem w) m →
  ∃ w', rpmsg_lite_release_rx_buffer dev (q_data msg) (set_mem (λ _, m) (set_env e w)) = Ok RL_SUCCESS w' ∧
    gave_back q k w w' ∧ same_queues e (w_env w') ∧
    (∀ x, ¬ shared (vq_ring q) bsz (w_mem w) x → byte_at (w_mem w') x = byte_at m x).
Proof.
  intros Hinv Hdev [Hk Hd Hi Hdl Hdb Hl Hs Hn] [Hin Hroom] Hlf Hf Hm Hks. set (w1 := set_mem _ _).
  pose proof (keeps_shared_cb dev i t bsz q w e m Hf Hm Hks) as Hcb. fold w1 in Hcb.
  pose proof (rx_inv_keeps _ _ _ _ _ q w w1 Hinv Hcb) as Hinv1.
  pose proof (ri_wf _ _ _ _ _ _ _ Hinv) as Hwf. pose proof (wf_ring _ (wf_core _ Hwf)) as ok.
  destruct (agree_outgoing o c q _ _ Hwf (ck_ring _ _ _ _ _ _ _ Hcb)) as [Hsi Hout].
  assert (same_desc (vq_ring q) (w_mem w) (w_mem w1)) as Hsd by apply Hsi.
  assert (buf_at (vq_ring q) (w_mem w1) k = buf_at (vq_ring q) (w_mem w) k) as Eb by (by apply buf_at_ext).
  assert (r_desc_len (vq_ring q) (w_mem w1) k = r_desc_len (vq_ring q) (w_mem w) k ∧
    r_desc_addr (vq_ring q) (w_mem w1) k = r_desc_addr (vq_ring q) (w_mem w) k) as [El Ea].
  { apply and_comm. by apply r_desc_ext. }
  pose proof (ck_bufs _ _ _ _ _ _ _ Hcb k Hk) as Hbk. pose proof (ri_hdr _ _ _ _ _ _ _ Hinv).
  assert (load 2 (w_mem w1) (a_hdr_idx (buf_at (vq_ring q) (w_mem w) k)) = k) as Hi1.
  { rewrite <- Hi at 2. apply load_ext. eapply agree_on_sub; [exact Hbk|unfold a_hdr_idx; lia..]. }
  assert (incoming o q (w_mem w1) = incoming o q (w_mem w)) as Ein.
  { apply incoming_ext; [done|done|]. intros j n Hj. rewrite Forall_forall in Hin. by apply (Hin (j, n)). }
  destruct (release_rx_buffer_ok dev i o t bsz c q k w1 Hinv1 Hdev Hlf Hk) as
    (w' & q' & R & Hinv' & Hr' & Hlk & Hout' & Hin' & _ & _ & Hst);
    rewrite ?El, ?Eb, ?Ein, ?Hout, ?Ea; try done; [by rewrite <- Hd|].
  rewrite El, Eb in *. rewrite Hd. exists w'. split; [exact R|]. split; [|split; [apply Hst|]].
  - constructor; [|done]. exists q'. split_and!; [done|done|by rewrite Hout', Hout|by rewrite Hin', Ein].
  - intros x Hx. destruct (lib_step_mem _ _ _ _ _ _ _ _ Hinv1 Hst) as [_ Hm']. rewrite Hm'; [done|].
    intros Hsh. by apply Hx, (shared_ext bsz _ _ (w_mem w1)).
Qed.


(** ** The theorems *)

Lemma get_queue_ok qh cap msg rest timeout w :
  queue_view (w_env w) qh = Some (cap, msg :: rest) →
  ∃ e, with_env (el_get_queue qh timeout) w = Ok (Some msg) (set_env e w) ∧
    queue_step qh (Some (cap, rest)) (w_env w) e.
Proof.
  intros Hv. destruct (law_get (w_env w) qh cap msg rest timeout Hv) as (e & R & St).
  exists e. split; [|exact St]. unfold with_env, zoom. by rewrite R.
Qed.

(** C13.  [rpmsg_queue_recv] on every branch.  NULL arguments are refused; with
    timeout 0 an empty queue answers [RL_ERR_NO_BUFF].  Otherwise the oldest
    message is taken from the queue, its source and length are stored where
    asked, and its buffer is given back to the other side.  If the application's
    buffer is large enough it holds the payload, byte for byte; if not the call
    returns [RL_ERR_BUFF_SIZE], the application's buffer is untouched, and the
    message is gone. *)
Theorem queue_recv_correct q qh cap msg rest k src data maxlen len timeout w :
  rx_inv dev i o t bsz q w → dev ≠ NULL → qh ≠ NULL → data ≠ NULL → lock_free (w_env w) (lock i) →
  queue_view (w_env w) qh = Some (cap, msg :: rest) → held q (w_mem w) k msg → can_release q (w_mem w) →
  recv_areas (vq_ring q) bsz (w_mem w) src data maxlen len msg →
  (∀ d h p, d = NULL ∨ h = NULL ∨ p = NULL → rpmsg_queue_recv d h src p maxlen len timeout w = Ok RL_ERR_PARAM w) ∧
  (∀ h cp, h ≠ NULL → queue_view (w_env w) h = Some (cp, []) →
     ∃ e, rpmsg_queue_recv dev h src data maxlen len 0 w = Ok RL_ERR_NO_BUFF (set_env e w)) ∧
  ∃ w', rpmsg_queue_recv dev qh src data maxlen len timeout w =
      Ok (if q_len msg <=? maxlen then RL_SUCCESS else RL_ERR_BUFF_SIZE) w' ∧
    queue_view (w_env w') qh = Some (cap, rest) ∧ gave_back q k w w' ∧
    (src ≠ NULL → load 4 (w_mem w') src = q_src msg) ∧ (len ≠ NULL → load 4 (w_mem w') len = q_len msg) ∧
    (q_len msg ≤ maxlen → load_bytes (w_mem w') data (Z.to_nat (q_len msg)) =
       load_bytes (w_mem w) (q_data msg) (Z.to_nat (q_len msg))) ∧
    (maxlen < q_len msg → agree_on data (data + q_len msg) (w_mem w') (w_mem w)).
Proof.
  intros Hinv Hdev Hqh Hdata Hlock Hv Hh Hrel Hareas. split_and!.
  - intros d h p Hn. unfold rpmsg_queue_recv.
    destruct (Z.eqb_spec d NULL); [done|]. destruct (Z.eqb_spec h NULL); [done|].
    destruct (Z.eqb_spec p NULL); [done|]. tauto.
  - intros h cp Hhn Hve. destruct (law_get_empty (w_env w) h cp Hve) as (e & R & _). exists e.
    unfold rpmsg_queue_recv.
    rewrite (proj2 (Z.eqb_neq dev NULL) Hdev), (proj2 (Z.eqb_neq h NULL) Hhn), (proj2 (Z.eqb_neq data NULL) Hdata).
    unfold with_env, zoom, mbind, M_bind. by rewrite R.
  - destruct (get_queue_ok qh cap msg rest timeout w Hv) as (e & Rg & [Hqv _ Hqf Hqm _]).
    destruct (hd_len _ _ _ _ Hh) as (Hl0 & Hlb & Hl32).
    pose proof (delivered_keeps _ _ _ _ _ _ _ _ Hl0 Hareas) as Hks.
    destruct (release_held q k msg e _ w Hinv Hdev Hh Hrel (Hqf _ Hlock) Hqf Hqm Hks) as (w' & Rr & Hgb & Hsq & Hun).
    exists w'. split; [|split; [|split; [exact Hgb|]]].
    + unfold rpmsg_queue_recv.
      rewrite (proj2 (Z.eqb_neq dev NULL) Hdev), (proj2 (Z.eqb_neq qh NULL) Hqh), (proj2 (Z.eqb_neq data NULL) Hdata).
      rewrite (bind_ok _ _ _ _ _ Rg), (bind_ok _ _ _ _ _ (put_u32_ok _ _ _)), (bind_ok _ _ _ _ _ (put_u32_ok _ _ _)).
      set (w2 := set_mem _ (set_mem _ (set_env e w))).
      assert ((if q_len msg <=? maxlen then env_memcpy data (q_data msg) (q_len msg);; mret RL_SUCCESS
               else mret RL_ERR_BUFF_SIZE) w2 = Ok (if q_len msg <=? maxlen then RL_SUCCESS else RL_ERR_BUFF_SIZE)
        (set_mem (λ _, delivered src data maxlen len msg (w_mem w)) (set_env e w))) as Hret.
      { unfold delivered. by destruct (q_len msg <=? maxlen). }
      by rewrite (bind_ok _ _ _ _ _ Hret), (bind_ok _ _ _ _ _ Rr).
    + rewrite (law_same _ _ _ Hsq). exact Hqv.
    + apply (delivered_reads (vq_ring q) bsz); try done; [apply (hd_src _ _ _ _ Hh)|].
      intros x Hx. right. exists k. split; [apply Hh|]. rewrite (hd_data _ _ _ _ Hh) in Hx. unfold a_msg_data, sizeof_rpmsg_std_hdr in Hx. lia.
Qed.

(** C16.  Receiving without a copy.  NULL arguments are refused and with timeout
    0 an empty queue answers [RL_ERR_NO_BUFF].  Otherwise
    [rpmsg_queue_recv_nocopy] takes the oldest message, stores its source and
    length where asked and the address of its payload, which stays in the buffer
    and belongs to the application until [rpmsg_queue_nocopy_free] gives the
    buffer back: together what [rpmsg_queue_recv] does in one step. *)
Theorem queue_nocopy_correct q qh cap msg rest k src data len timeout w :
  rx_inv dev i o t bsz q w → dev ≠ NULL → qh ≠ NULL → data ≠ NULL → lock_free (w_env w) (lock i) →
  queue_view (w_env w) qh = Some (cap, msg :: rest) → held q (w_mem w) k msg → can_release q (w_mem w) →
  0 ≤ q_data msg < 2 ^ uintptr_bits → (uintptr_bits = 32 ∨ uintptr_bits = 64) →
  nocopy_areas (vq_ring q) bsz (w_mem w) src data len →
  (∀ d h p, d = NULL ∨ h = NULL ∨ p = NULL → rpmsg_queue_recv_nocopy d h src p len timeout w = Ok RL_ERR_PARAM w) ∧
  (∀ h cp, h ≠ NULL → queue_view (w_env w) h = Some (cp, []) →
     ∃ e, rpmsg_queue_recv_nocopy dev h src data len 0 w = Ok RL_ERR_NO_BUFF (set_env e w)) ∧
  ∃ w1 w2, rpmsg_queue_recv_nocopy dev qh src data len timeout w = Ok RL_SUCCESS w1 ∧
    load (Z.to_nat (uintptr_bits / 8)) (w_mem w1) data = q_data msg ∧
    (src ≠ NULL → load 4 (w_mem w1) src = q_src msg) ∧ (len ≠ NULL → load 4 (w_mem w1) len = q_len msg) ∧
    queue_view (w_env w1) qh = Some (cap, rest) ∧ rx_inv dev i o t bsz q w1 ∧
    keeps_shared (vq_ring q) bsz (w_mem w) (w_mem w1) ∧
    rpmsg_queue_nocopy_free dev (q_data msg) w1 = Ok RL_SUCCESS w2 ∧
    gave_back q k w w2 ∧ queue_view (w_env w2) qh = Some (cap, rest) ∧
    rpmsg_queue_nocopy_free NULL (q_data msg) w1 = Ok RL_ERR_PARAM w1 ∧
    rpmsg_queue_nocopy_free dev NULL w1 = Ok RL_ERR_PARAM w1.
Proof.
  intros Hinv Hdev Hqh Hdata Hlock Hv Hh Hrel Hd Hw Hareas. split; [|split].
  { intros d h p Hn. unfold rpmsg_queue_recv_nocopy.
    destruct (Z.eqb_spec d NULL); [done|]. destruct (Z.eqb_spec p NULL); [done|].
    destruct (Z.eqb_spec h NULL); [done|]. tauto. }
  { intros h cp Hhn Hve. destruct (law_get_empty (w_env w) h cp Hve) as (e & R & _). exists e.
    unfold rpmsg_queue_recv_nocopy.
    rewrite (proj2 (Z.eqb_neq dev NULL) Hdev), (proj2 (Z.eqb_neq h NULL) Hhn), (proj2 (Z.eqb_neq data NULL) Hdata).
    unfold with_env, zoom, mbind, M_bind. by rewrite R. }
  destruct (get_queue_ok qh cap msg rest timeout w Hv) as (e & Rg & [Hqv _ Hqf Hqm _]).
  set (m3 := nocopy_mem src data len msg (w_mem w)).
  destruct (hd_len _ _ _ _ Hh) as (Hl0 & Hlb & Hl32).
  destruct (nocopy_mem_ok (vq_ring q) bsz (w_mem w) src data len msg) as (Hks & Hrd & Hrs & Hrl);
    try done; [apply (hd_src _ _ _ _ Hh)|].
  destruct (release_held q k msg e m3 w Hinv Hdev Hh Hrel (Hqf _ Hlock) Hqf Hqm Hks) as (w2 & Rr & Hgb & Hsq & _).
  pose proof (keeps_shared_cb dev i t bsz q w e m3 Hqf Hqm Hks) as Hcb.
  exists (set_mem (λ _, m3) (set_env e w)), w2. split_and!; try done.
  - unfold rpmsg_queue_recv_nocopy.
    rewrite (proj2 (Z.eqb_neq dev NULL) Hdev), (proj2 (Z.eqb_neq qh NULL) Hqh), (proj2 (Z.eqb_neq data NULL) Hdata).
    by rewrite (bind_ok _ _ _ _ _ Rg), (bind_ok _ _ _ _ _ (put_u32_ok _ _ _)), (bind_ok _ _ _ _ _ (put_u32_ok _ _ _)).
  - by apply (rx_inv_keeps _ _ _ _ _ q w).
  - unfold rpmsg_queue_nocopy_free. rewrite (proj2 (Z.eqb_neq dev NULL) Hdev).
    rewrite (proj2 (Z.eqb_neq _ NULL) (hd_null _ _ _ _ Hh)). by rewrite (bind_ok _ _ _ _ _ Rr).
  - rewrite (law_same _ _ _ Hsq). exact Hqv.
  - unfold rpmsg_queue_nocopy_free. by rewrite (proj2 (Z.eqb_neq dev NULL) Hdev).
Qed.

End correct.

(** ** The theorems on a concrete state *)

(** An instance whose endpoint 1 is a queue of four elements with handle 40;
    the message of buffer 0 is in it.  The instance's mutex is semaphore 4. *)
Definition c_q_msg : rpmsg_queue_rx_cb_data_t := {| q_src := 30; q_data := c_buf 0 + 16; q_len := 2 |}.
Definition c_q_entry : entry :=
  (2, (3, {| ept_addr := 1; rx_cb := rpmsg_queue_rx_cb_fc; rx_cb_data := 40 |})).
Definition c_q_heap : gmap Z obj :=
  {[ 1 := OInst c_rx_inst; 2 := ONode c_node; 3 := OEpt c_q_entry.2.2; 20 := OVq c_rx_vq;
     21 := OVq (set_priv c_rvq 1) ]}.
Definition c_q_env (l : list rpmsg_queue_rx_cb_data_t) : rtos sim sim_kernel :=
  {| env_init_counter := 1; env_sema := 5; event_group := 6; isr_table := ∅;
     fr_lpc := {| lpc_isr_counter := 2; lpc_disable_counter := 0; lpc_lock := 7;
                  lpc_hw := {| sim_irq := true; sim_bits := 0 |} |};
     kernel := {| sk_objs := {| k_sems := {[ 4 := (1, 1) ]}; k_groups := ∅;
                                k_queues := {[ 40 := (4%nat, l) ]}; k_isr := false; k_pending := []; k_timer_room := 10 |};
                  sk_room := 0; sk_coming := [] |} |}.
Definition c_q (m : mem) (l : list rpmsg_queue_rx_cb_data_t) : world (rtos sim sim_kernel) :=
  Build_world m c_q_heap 30 [] 0 (c_q_env l) [].

Lemma c_q_inv (m : mem) l :
  buf_at (am := flat_map) c_ring m 0 = c_buf 0 → buf_at (am := flat_map) c_ring m 1 = c_buf 1 →
  @rx_inv _ flat_map 1 c_rx_inst master_vq_ops [c_q_entry] 512 c_rx_vq (c_q m l).
Proof.
  intros H0 H1. constructor; [|done|vm_compute; done|apply c_rx_wf|by apply (c_tx_bufs m)|lia].
  constructor; [vm_compute; done| | |apply NoDup_singleton|apply NoDup_singleton].
  - split; [|apply NoDup_singleton]. cbn [seg e_link c_q_entry fmap list_fmap fst snd].
    split_and!; [done|done|]. exists c_node. split_and!; [vm_compute; done|done..].
  - repeat constructor.
Qed.

(** The mutex of the instance is free. *)
Lemma c_q_free m l : @lock_free _ _ (fr_laws (cfg := default_config)) (w_env (c_q m l)) (lock c_rx_inst).
Proof. split; [split; discriminate|]. right. exists 1, 1. split; [reflexivity|split; [reflexivity|discriminate]]. Qed.

Lemma c_q_shared (m : mem) x :
  buf_at (am := flat_map) c_ring m 0 = c_buf 0 → buf_at (am := flat_map) c_ring m 1 = c_buf 1 →
  shared (am := flat_map) (vq_ring c_rx_vq) 512 m x → 4096 ≤ x < 9216.
Proof.
  intros H0 H1. rewrite c_rx_ring. intros [Hx|(j & Hj & Hx)].
  - rewrite c_ring_eq in Hx. unfold vring_end in Hx. cbn in Hx. lia.
  - assert (num c_ring = 2) as Hn by (by rewrite c_ring_eq).
    assert (j = 0 ∨ j = 1) as [-> | ->] by lia; rewrite ?H0, ?H1 in Hx; unfold c_buf in Hx; lia.
Qed.

Lemma c_q_own (m : mem) a n :
  buf_at (am := flat_map) c_ring m 0 = c_buf 0 → buf_at (am := flat_map) c_ring m 1 = c_buf 1 →
  9216 ≤ a → own_area (am := flat_map) (vq_ring c_rx_vq) 512 m a n.
Proof. intros H0 H1 Ha x Hx Hs. pose proof (c_q_shared m x H0 H1 Hs). lia. Qed.

Lemma c_q_held (m : mem) :
  buf_at (am := flat_map) c_ring m 0 = c_buf 0 → r_desc_len c_ring m 0 = 512 → load 2 m (a_hdr_idx (c_buf 0)) = 0 →
  held (cfg := default_config) (am := flat_map) 512 c_rx_vq m 0 c_q_msg.
Proof.
  intros Hb Hl Hi. constructor; rewrite ?c_rx_ring, ?Hb, ?Hl, ?Hi; try done.
Qed.

Lemma c_q_release (m : mem) :
  incoming master_vq_ops c_rx_vq m = [(0, 512); (1, 512)] → outgoing master_vq_ops 0 c_rx_vq m = [] →
  can_release master_vq_ops 0 c_rx_vq m.
Proof. intros Hi Ho. split; rewrite ?Hi, ?Ho, c_rx_ring, c_ring_eq; cbn; [|lia]. repeat constructor. Qed.

Lemma queue_recv_correct_witness :
  ∃ w', @rpmsg_queue_recv _ (fr_env (cfg := default_config)) fr_queue default_config 1 40 20000 20100 10 20200 0 (c_q c_held_mem [c_q_msg]) =
      Ok RL_SUCCESS w' ∧ load 4 (w_mem w') 20000 = 30 ∧
    load_bytes (w_mem w') 20100 2 = load_bytes c_held_mem (c_buf 0 + 16) 2.
Proof.
  destruct c_held_bufs as (Hb0 & Hb1 & Hl & Hi). destruct c_held_queues as [Hin Hout].
  revert Hb0 Hb1 Hl Hi Hin Hout. generalize c_held_mem. intros m Hb0 Hb1 Hl Hi Hin Hout.
  destruct (@queue_recv_correct _ (fr_env (cfg := default_config)) fr_laws fr_queue fr_queue_view fr_queue_laws default_config flat_map 1 c_rx_inst
    master_vq_ops [c_q_entry] 512 0 c_rx_vq 40 4 c_q_msg [] 0 20000 20100 10 20200 0 (c_q m [c_q_msg])
    (c_q_inv m _ Hb0 Hb1)) as (_ & _ & w' & Hrun & _ & _ & Hs & _ & Hd & _).
  1-3: discriminate. 1: apply c_q_free. 1: reflexivity. 1: by apply c_q_held. 1: by apply c_q_release.
  - constructor; try (apply c_q_own; [exact Hb0|exact Hb1|discriminate]); (left; discriminate) || (right; discriminate).
  - exists w'. split; [exact Hrun|]. split; [by apply Hs|]. by apply Hd.
Defined.

Lemma queue_nocopy_correct_witness :
  ∃ w1 w2, @rpmsg_queue_recv_nocopy _ fr_queue default_config 1 40 20000 20100 20200 0 (c_q c_held_mem [c_q_msg]) =
      Ok RL_SUCCESS w1 ∧ load 4 (w_mem w1) 20100 = c_buf 0 + 16 ∧ load 4 (w_mem w1) 20000 = 30 ∧ load 4 (w_mem w1) 20200 = 2 ∧
    @rpmsg_queue_nocopy_free _ (fr_env (cfg := default_config)) default_config 1 (c_buf 0 + 16) w1 = Ok RL_SUCCESS w2.
Proof.
  destruct c_held_bufs as (Hb0 & Hb1 & Hl & Hi). destruct c_held_queues as [Hin Hout].
  revert Hb0 Hb1 Hl Hi Hin Hout. generalize c_held_mem. intros m Hb0 Hb1 Hl Hi Hin Hout.
  destruct (@queue_nocopy_correct _ (fr_env (cfg := default_config)) fr_laws fr_queue fr_queue_view fr_queue_laws default_config flat_map 1 c_rx_inst
    master_vq_ops [c_q_entry] 512 0 c_rx_vq 40 4 c_q_msg [] 0 20000 20100 20200 0 (c_q m [c_q_msg])
    (c_q_inv m _ Hb0 Hb1)) as (_ & _ & w1 & w2 & R1 & Hd & Hs & Hn & _ & _ & _ & R2 & _).
  1-3: discriminate. 1: apply c_q_free. 1: reflexivity. 1: by apply c_q_held. 1: by apply c_q_release.
  - split; [discriminate|reflexivity].
  - left. reflexivity.
  - constructor; try (apply c_q_own; [exact Hb0|exact Hb1|discriminate]); (left; discriminate) || (right; discriminate).
  - exists w1, w2. split; [exact R1|]. split; [exact Hd|]. split; [by apply Hs|]. split; [by apply Hn|exact R2].
Defined.
