(* ===== verification/RpmsgNs.v ===== *)
(** * The name service

    [rpmsg_ns.c]: an endpoint at a well-known address whose callback hands
    announcements of the other core to the application, and the call that
    announces an endpoint. *)

From S2P Require Import Prelude Memory Config VirtioRing Virtqueue RingQueue VirtqueueSpec Concrete ChannelRefinement World Lpc55s69 BareMetal Llist Endpoint Transport RpmsgLite Sending.

Definition RL_NS_EPT_ADDR : Z := 53.
Definition RL_NS_NAME_SIZE : Z := 32.

(** [struct rpmsg_ns_msg]: 32 bytes of name, address, flags. *)
Definition sizeof_rpmsg_ns_msg : Z := 40.
Definition a_ns_addr (p : Z) : Z := p + 32.
Definition a_ns_flags (p : Z) : Z := p + 36.

Section rpmsg_ns.
Context {E : Type} {el : EnvLayer E} {out : Outside E} {app : Application E}.
Context {cfg : Config} {am : AddrMap}.

Definition rpmsg_ns_rx_cb (payload payload_len src priv : Z) : W E Z :=
  RL_ASSERT (negb (priv =? NULL));;
  cb_ctxt ← get_nscb priv;
  RL_ASSERT (negb (ns_cb cb_ctxt =? NULL));;
  (if payload_len =? sizeof_rpmsg_ns_msg then
     addr ← ldm 4 (a_ns_addr payload);
     flags ← ldm 4 (a_ns_flags payload);
     temit (EvNsCb (ns_cb cb_ctxt) addr payload flags (ns_user_data cb_ctxt));;
     app_ns_cb (ns_cb cb_ctxt) addr payload flags (ns_user_data cb_ctxt)
   else mret tt);;
  mret RL_RELEASE.

(** [ns_ept_ctxt]: with the static API, the addresses of the callback data, of
    the context, and of the endpoint and its node. *)
Definition rpmsg_ns_bind (dev app_cb user_data : Z) (ns_ept_ctxt : option (Z * Z * (Z * Z))) : W E Z :=
  if app_cb =? NULL then mret NULL
  else if RL_USE_STATIC_API then
    match ns_ept_ctxt with
    | None => mret NULL
    | Some (cb_ctxt, ns_ctxt, ept_ctxt) =>
        put_obj cb_ctxt (ONsCb {| ns_cb := app_cb; ns_user_data := user_data |});;
        ept ← rpmsg_lite_create_ept dev RL_NS_EPT_ADDR rpmsg_ns_rx_cb_fc cb_ctxt (Some ept_ctxt);
        put_obj ns_ctxt (ONsCtx {| ns_ept := ept; ns_cb_ctxt := cb_ctxt |});;
        mret ns_ctxt
    end
  else
    cb_ctxt ← env_allocate_memory;
    if cb_ctxt =? NULL then mret NULL
    else
      ns_ctxt ← env_allocate_memory;
      if ns_ctxt =? NULL then env_free_memory cb_ctxt;; mret NULL
      else
        put_obj cb_ctxt (ONsCb {| ns_cb := app_cb; ns_user_data := user_data |});;
        ept ← rpmsg_lite_create_ept dev RL_NS_EPT_ADDR rpmsg_ns_rx_cb_fc cb_ctxt None;
        put_obj ns_ctxt (ONsCtx {| ns_ept := ept; ns_cb_ctxt := cb_ctxt |});;
        mret ns_ctxt.

Definition rpmsg_ns_unbind (dev handle : Z) : W E Z :=
  c ← get_nsctx handle;
  retval ← rpmsg_lite_destroy_ept dev (ns_ept c);
  if RL_USE_STATIC_API then mret retval
  else
    env_free_memory (ns_cb_ctxt c);;
    env_free_memory handle;;
    mret retval.

(** [env_strncpy] of a string in memory. *)
Definition env_strncpy (dest src len : Z) : W E unit :=
  modify (set_mem (λ m, store_bytes m dest (strncpy_bytes (load_bytes m src (Z.to_nat len)) len))).

(** The message is a local variable, at [w_stack]. *)
Definition rpmsg_ns_announce (fuel : nat) (dev new_ept ept_name flags : Z) : W E Z :=
  if ept_name =? NULL then mret RL_ERR_PARAM
  else if new_ept =? NULL then mret RL_ERR_PARAM
  else
    w ← get_state;
    let ns_msg := w_stack w in
    env_strncpy ns_msg ept_name RL_NS_NAME_SIZE;;
    modify (set_mem (λ m, store 4 m (a_ns_flags ns_msg) flags));;
    e ← get_ept new_ept;
    modify (set_mem (λ m, store 4 m (a_ns_addr ns_msg) (ept_addr e)));;
    rpmsg_lite_send fuel dev new_ept RL_NS_EPT_ADDR ns_msg sizeof_rpmsg_ns_msg RL_BLOCK.

End rpmsg_ns.

(** ** Announcing *)

(** The message in memory. *)
Definition ns_message (m : mem) (p name addr flags : Z) : mem :=
  store 4 (store 4 (store_bytes m p (strncpy_bytes (load_bytes m name 32) RL_NS_NAME_SIZE))
    (a_ns_flags p) flags) (a_ns_addr p) addr.

Lemma length_name s : length (strncpy_bytes s RL_NS_NAME_SIZE) = 32%nat.
Proof. apply Nat2Z.inj. by rewrite length_strncpy_bytes. Qed.

Lemma strncpy_range s n : Forall (λ b, 0 ≤ b < 256) s → Forall (λ b, 0 ≤ b < 256) (strncpy_bytes s n).
Proof.
  intros Hs. unfold strncpy_bytes. apply Forall_app. split; [|by apply Forall_replicate; lia].
  apply Forall_take. induction Hs as [|b s Hb Hs IH]; cbn; [constructor|]. by case_match; constructor.
Qed.

Lemma ns_message_ok m p name addr flags :
  0 ≤ addr < 4294967296 → 0 ≤ flags < 4294967296 →
  let m' := ns_message m p name addr flags in
  frames p (p + 40) m m' ∧ load 4 m' (a_ns_addr p) = addr ∧ load 4 m' (a_ns_flags p) = flags ∧
  load_bytes m' p 32 = strncpy_bytes (load_bytes m name 32) RL_NS_NAME_SIZE.
Proof.
  intros Ha Hf m'. unfold ns_message in m'. set (s := strncpy_bytes _ _) in *.
  set (m1 := store_bytes m p s) in *. set (m2 := store 4 m1 (a_ns_flags p) flags) in *.
  assert (frames p (p + 32) m m1) as F1.
  { unfold m1. replace 32 with (Z.of_nat (length s)) by (unfold s; by rewrite length_name). apply store_bytes_frames. }
  pose proof (store_frames 4 m1 (a_ns_flags p) flags) as F2. fold m2 in F2.
  pose proof (store_frames 4 m2 (a_ns_addr p) addr) as F3. fold m' in F3. unfold a_ns_flags, a_ns_addr in *.
  split_and!.
  - eapply frames_trans; [eapply frames_weaken; [exact F1|lia|lia]|].
    eapply frames_trans; [eapply frames_weaken; [exact F2|lia|lia]|]. eapply frames_weaken; [exact F3|lia|lia].
  - unfold m'. rewrite load_store_same. by apply Z.mod_small.
  - unfold m'. rewrite load_store_ne by lia. unfold m2. rewrite load_store_same. by apply Z.mod_small.
  - rewrite (load_bytes_frames 32 _ _ _ _ p F3) by lia. rewrite (load_bytes_frames 32 _ _ _ _ p F2) by lia.
    unfold m1. change 32%nat with (Z.to_nat RL_NS_NAME_SIZE).
    assert (length s = Z.to_nat RL_NS_NAME_SIZE) as <- by (unfold s; by rewrite length_name).
    apply load_store_bytes. apply strncpy_range, load_bytes_range.
Qed.

Section announce.
Context {E : Type} {el : EnvLayer E} {laws : EnvLaws E} {out : Outside E} {app : Application E}.
Context {cfg : Config} {am : AddrMap}.
Implicit Types w : world E.

Lemma modify_bind {A} f (k : unit → W E A) w : (modify f ≫= k) w = k tt (f w).
Proof. done. Qed.

(** The callback on a message that reads as the announcement [name], [addr],
    [flags]: the application is told the address and the flags. *)
Lemma ns_rx_cb_ok p src priv d addr flags w :
  priv ≠ NULL → w_heap w !! priv = Some (ONsCb d) → ns_cb d ≠ NULL →
  load 4 (w_mem w) (a_ns_addr p) = addr → load 4 (w_mem w) (a_ns_flags p) = flags →
  rpmsg_ns_rx_cb p sizeof_rpmsg_ns_msg src priv w =
    (app_ns_cb (ns_cb d) addr p flags (ns_user_data d);; mret RL_RELEASE)
      (set_trace (cons (EvNsCb (ns_cb d) addr p flags (ns_user_data d))) w).
Proof.
  intros Hp Hd Hcb Ha Hf. unfold rpmsg_ns_rx_cb. rewrite (proj2 (Z.eqb_neq priv NULL) Hp). cbn [negb RL_ASSERT].
  rewrite (bind_ok _ _ _ _ _ (eq_refl : (mret tt : W E unit) w = Ok tt w)).
  assert (get_nscb priv w = Ok d w) as Hget by (unfold get_nscb, get_obj; by rewrite Hd).
  rewrite (bind_ok _ _ _ _ _ Hget), (proj2 (Z.eqb_neq _ NULL) Hcb). cbn [negb RL_ASSERT].
  rewrite (bind_ok _ _ _ _ _ (eq_refl : (mret tt : W E unit) w = Ok tt w)). rewrite Z.eqb_refl.
  cbv [mbind M_bind mret M_ret ldm temit modify]. by rewrite Ha, Hf.
Qed.

(** A message of another length is dropped. *)
Lemma ns_rx_cb_drops p len src priv d w :
  priv ≠ NULL → w_heap w !! priv = Some (ONsCb d) → ns_cb d ≠ NULL → len ≠ sizeof_rpmsg_ns_msg →
  rpmsg_ns_rx_cb p len src priv w = Ok RL_RELEASE w.
Proof.
  intros Hp Hd Hcb Hl. unfold rpmsg_ns_rx_cb. rewrite (proj2 (Z.eqb_neq priv NULL) Hp). cbn [negb RL_ASSERT].
  rewrite (bind_ok _ _ _ _ _ (eq_refl : (mret tt : W E unit) w = Ok tt w)).
  assert (get_nscb priv w = Ok d w) as Hget by (unfold get_nscb, get_obj; by rewrite Hd).
  rewrite (bind_ok _ _ _ _ _ Hget), (proj2 (Z.eqb_neq _ NULL) Hcb). cbn [negb RL_ASSERT].
  rewrite (bind_ok _ _ _ _ _ (eq_refl : (mret tt : W E unit) w = Ok tt w)). by rewrite (proj2 (Z.eqb_neq _ _) Hl).
Qed.

(** Where the message of [rpmsg_ns_announce] may live: not in the ring, not in
    the buffer it is copied to. *)
Definition stack_apart (vr : vring) (b p : Z) : Prop :=
  (p + 40 ≤ desc vr ∨ vring_end vr ≤ p) ∧ (p + 40 ≤ b ∨ b + 56 ≤ p) ∧ p ≠ NULL.

Lemma announce_ok fuel dev i o c qt qr bsz k l rest ept e name flags lim w :
  lite_ok dev i o qt qr w → link_state i = RL_TRUE →
  ept ≠ NULL → w_heap w !! ept = Some (OEpt e) → 0 ≤ ept_addr e < 4294967296 → 0 ≤ flags < 4294967296 →
  name ≠ NULL → payload_max i = Some lim → 40 ≤ lim → 56 ≤ bsz →
  incoming o qt (w_mem w) = (k, l) :: rest → sendable o c qt bsz k l (w_mem w) →
  let b := buf_at (vq_ring qt) (w_mem w) k in
  stack_apart (vq_ring qt) b (w_stack w) →
  let w1 := set_mem (λ _, ns_message (w_mem w) (w_stack w) name (ept_addr e) flags) w in
  ∃ w' q', rpmsg_ns_announce fuel dev ept name flags w = Ok RL_SUCCESS w' ∧
    incoming o q' (w_mem w') = rest ∧
    sent i o c (taken o qt) q' b bsz k l {| msg_src := ept_addr e; msg_dst := RL_NS_EPT_ADDR; msg_len := 40;
      msg_flags := 0; msg_payload := load_bytes (w_mem w1) (w_stack w) 40 |} w1 w'.
Proof.
  intros Hlo Hup Hept He Hsrc Hfl Hname Hlim Hl Hbsz Hin Hsa b [Hs1 [Hs2 Hs0]] w1.
  destruct (ns_message_ok (w_mem w) (w_stack w) name (ept_addr e) flags Hsrc Hfl) as (Fr & _).
  destruct (sendable_frames _ _ _ _ _ _ _ _ _ _ (lo_twf _ _ _ _ _ _ Hlo) Fr Hs1 Hsa) as (Hsa1 & Hin1 & _ & Hb1 & _).
  assert (lite_ok dev i o qt qr w1) as Hlo1 by (destruct Hlo; by constructor).
  change (ns_message (w_mem w) (w_stack w) name (ept_addr e) flags) with (w_mem w1) in Hsa1, Hin1, Hb1.
  assert (rpmsg_ns_announce fuel dev ept name flags w =
    rpmsg_lite_send fuel dev ept RL_NS_EPT_ADDR (w_stack w) sizeof_rpmsg_ns_msg RL_BLOCK w1) as ->.
  { unfold rpmsg_ns_announce, env_strncpy. rewrite (proj2 (Z.eqb_neq name NULL) Hname), (proj2 (Z.eqb_neq ept NULL) Hept).
    rewrite (bind_ok _ _ _ _ _ (eq_refl : get_state w = Ok w w)). cbv zeta.
    rewrite !modify_bind. erewrite bind_ok; [|apply get_ept_ok; exact He]. by rewrite modify_bind. }
  rewrite (send_formats _ _ _ _ _ _ _ _ _ _ _ _ _ _ Hlo1 Hept He Hlim) by (unfold sizeof_rpmsg_ns_msg; lia).
  pose proof (format_message_ok fuel dev i o c qt qr bsz k l rest (ept_addr e) RL_NS_EPT_ADDR (w_stack w)
    sizeof_rpmsg_ns_msg RL_NO_FLAGS (u32 RL_BLOCK) w1 Hlo1 Hup Hs0) as Hsend.
  rewrite Hb1, Hin1 in Hsend. apply Hsend; try done; unfold sizeof_rpmsg_ns_msg; fold b; lia.
Qed.

(** C14.  An announcement arrives.  [rpmsg_ns_announce] with a free buffer
    sends a message to the name-service address of the other core; when the
    name-service callback there is handed a payload with these bytes, it calls
    the application with the address of the announced endpoint and the flags,
    and the name it passes is the announced one, as a C string, provided it is
    shorter than 32 bytes (a longer one is cut and has no terminating NUL).
    Messages of any other length are dropped.  NULL arguments are refused. *)
Theorem announcement_arrives fuel dev i o c qt qr bsz k l rest ept e name flags lim w :
  lite_ok dev i o qt qr w → link_state i = RL_TRUE →
  ept ≠ NULL → w_heap w !! ept = Some (OEpt e) → 0 ≤ ept_addr e < 4294967296 → 0 ≤ flags < 4294967296 →
  name ≠ NULL → payload_max i = Some lim → 40 ≤ lim → 56 ≤ bsz →
  incoming o qt (w_mem w) = (k, l) :: rest → sendable o c qt bsz k l (w_mem w) →
  stack_apart (vq_ring qt) (buf_at (vq_ring qt) (w_mem w) k) (w_stack w) →
  rpmsg_ns_announce fuel dev NULL name flags w = Ok RL_ERR_PARAM w ∧
  rpmsg_ns_announce fuel dev ept NULL flags w = Ok RL_ERR_PARAM w ∧
  ∃ w' q' msg, rpmsg_ns_announce fuel dev ept name flags w = Ok RL_SUCCESS w' ∧
    read_msg (w_mem w') (buf_at (vq_ring qt) (w_mem w) k) = msg ∧
    msg_dst msg = RL_NS_EPT_ADDR ∧ msg_src msg = ept_addr e ∧ msg_len msg = sizeof_rpmsg_ns_msg ∧
    outgoing o c q' (w_mem w') = outgoing o c qt (w_mem w) ++ [out_entry o k l] ∧
    ∀ (v : world E) p src priv d,
      load_bytes (w_mem v) p 40 = msg_payload msg →
      priv ≠ NULL → w_heap v !! priv = Some (ONsCb d) → ns_cb d ≠ NULL →
      rpmsg_ns_rx_cb p (msg_len msg) src priv v =
        (app_ns_cb (ns_cb d) (ept_addr e) p flags (ns_user_data d);; mret RL_RELEASE)
          (set_trace (cons (EvNsCb (ns_cb d) (ept_addr e) p flags (ns_user_data d))) v) ∧
      (∀ n, n ≠ msg_len msg → rpmsg_ns_rx_cb p n src priv v = Ok RL_RELEASE v) ∧
      load_bytes (w_mem v) p 32 = strncpy_bytes (load_bytes (w_mem w) name 32) RL_NS_NAME_SIZE ∧
      ((length (c_string (load_bytes (w_mem w) name 32)) < 32)%nat →
         c_string (load_bytes (w_mem v) p 32) = c_string (load_bytes (w_mem w) name 32)).
Proof.
  intros Hlo Hup Hept He Hsrc Hfl Hname Hlim Hl Hbsz Hin Hsa Hst.
  split; [|split]; [unfold rpmsg_ns_announce; by rewrite (proj2 (Z.eqb_neq name NULL) Hname)|done|].
  destruct (announce_ok fuel dev i o c qt qr bsz k l rest ept e name flags lim w Hlo Hup Hept He Hsrc Hfl Hname Hlim
    Hl Hbsz Hin Hsa Hst) as (w' & q' & Hrun & _ & Hsent). set (w1 := set_mem _ w) in Hsent.
  destruct (ns_message_ok (w_mem w) (w_stack w) name (ept_addr e) flags Hsrc Hfl) as (Fr & Ha & Hf & Hn).
  destruct (sendable_frames _ _ _ _ _ _ _ _ _ _ (lo_twf _ _ _ _ _ _ Hlo) Fr (proj1 Hst) Hsa) as (_ & _ & Ho & _ & _).
  eexists w', q', _. split; [exact Hrun|]. split; [exact (se_msg _ _ _ _ _ _ _ _ _ _ _ _ Hsent)|].
  do 3 (split; [done|]). split.
  { rewrite (se_out _ _ _ _ _ _ _ _ _ _ _ _ Hsent), (outgoing_ring o c qt) by (by destruct (taken_same_ring o qt)).
    by rewrite <- Ho. }
  intros v p src priv d Hbytes Hp Hd Hcb. cbn [msg_payload msg_len] in *.
  rewrite load_bytes_shift in Hbytes. cbn [w_mem w1 set_mem] in Hbytes. split_and!.
  - apply ns_rx_cb_ok; try done; [rewrite <- Ha|rewrite <- Hf]; apply load_shift; intros j Hj;
      unfold a_ns_addr, a_ns_flags; rewrite <- !Z.add_assoc; apply Hbytes; lia.
  - intros n Hne. by apply (ns_rx_cb_drops p n src priv d).
  - rewrite <- Hn. apply load_bytes_shift. intros j Hj. apply Hbytes. lia.
  - intros Hlen. assert (load_bytes (w_mem v) p 32 = strncpy_bytes (load_bytes (w_mem w) name 32) RL_NS_NAME_SIZE) as ->.
    { rewrite <- Hn. apply load_bytes_shift. intros j Hj. apply Hbytes. lia. }
    apply c_string_strncpy. unfold RL_NS_NAME_SIZE. lia.
Qed.

End announce.

(** ** Binding *)

Section bind.
Context {E : Type} {el : EnvLayer E} {laws : EnvLaws E} {cfg : Config}.
Implicit Types w : world E.

(** The instance, the nodes and the endpoints of a table. *)
Definition table_objects (dev : Z) (t : list entry) : list Z := dev :: (e_link <$> t).*1 ++ (e_ptr <$> t).

Lemma table_raw heap dev i t x :
  ept_table heap dev i t → heap !! x = Some Raw → x ∉ table_objects dev t.
Proof.
  intros Ht Hx Hin. apply elem_of_cons in Hin as [->|Hin]; [by rewrite (tab_inst _ _ _ _ Ht) in Hx|].
  apply elem_of_app in Hin as [Hin|Hin].
  - destruct (seg_nodes _ _ _ _ _ _ (proj1 (tab_list _ _ _ _ Ht)) Hin) as [n Hn]. by rewrite Hn in Hx.
  - apply list_elem_of_fmap in Hin as (y & -> & Hy). pose proof (tab_epts _ _ _ _ Ht) as He.
    rewrite Forall_forall in He. rewrite (He y Hy) in Hx. done.
Qed.

Lemma table_insert heap dev i t x o :
  ept_table heap dev i t → x ∉ table_objects dev t → ept_table (<[x := o]> heap) dev i t.
Proof.
  intros Ht Hx. eapply ept_table_frame; [|exact Ht]. intros y Hy. apply lookup_insert_ne. by intros ->.
Qed.

(** Allocating the two blocks. *)
Lemma alloc_two_ok w :
  alloc_ok w →
  if decide (true ∈ take 2 (w_oom w)) then
    ∃ w', (∀ k : Z → Z → W E Z, (c ← env_allocate_memory; if c =? NULL then mret NULL else
        n ← env_allocate_memory; if n =? NULL then env_free_memory c;; mret NULL else k c n) w = Ok NULL w') ∧
      alloc_ok w' ∧ w_heap w' = w_heap w ∧ w_mem w' = w_mem w ∧ w_env w' = w_env w
  else ∃ c n w', (∀ k : Z → Z → W E Z, (c ← env_allocate_memory; if c =? NULL then mret NULL else
        n ← env_allocate_memory; if n =? NULL then env_free_memory c;; mret NULL else k c n) w = k c n w') ∧
      alloc_ok w' ∧ c ≠ NULL ∧ n ≠ NULL ∧ c ≠ n ∧ w_heap w !! c = None ∧ w_heap w !! n = None ∧
      w_heap w' = <[n := Raw]> (<[c := Raw]> (w_heap w)) ∧ w_mem w' = w_mem w ∧ w_env w' = w_env w ∧
      w_oom w' = drop 2 (w_oom w).
Proof.
  intros Hok. pose proof (alloc_pos w Hok).
  destruct (env_allocate_memory_ok w Hok) as (w1 & Hok1 & Hm1 & He1 & _ & _ & Ho1 & Hr1).
  destruct (default false (head (w_oom w))) eqn:Hb1; destruct Hr1 as (R1 & Hh1 & Hx1).
  { rewrite decide_True by (destruct (w_oom w) as [|[] o]; cbn in *; try done; left).
    exists w1. split; [|done]. intros k. rewrite (bind_ok _ _ _ _ _ R1). done. }
  destruct (env_allocate_memory_ok w1 Hok1) as (w2 & Hok2 & Hm2 & He2 & _ & _ & Ho2 & Hr2).
  destruct (default false (head (w_oom w1))) eqn:Hb2; destruct Hr2 as (R2 & Hh2 & Hx2).
  - rewrite decide_True.
    2: { rewrite Ho1 in Hb2. destruct (w_oom w) as [|b1 [|b2 o]]; cbn in *; try done. subst. right. left. }
    assert (w_heap w2 !! w_next w = Some Raw) as Hraw by (rewrite Hh2, Hh1; apply lookup_insert_eq).
    exists (set_heap (delete (w_next w)) w2). split_and!.
    + intros k. rewrite (bind_ok _ _ _ _ _ R1), (proj2 (Z.eqb_neq (w_next w) NULL)) by (unfold NULL; lia).
      rewrite (bind_ok _ _ _ _ _ R2), Z.eqb_refl.
      by rewrite (bind_ok _ _ _ _ _ (env_free_memory_ok (w_next w) Raw w2 ltac:(unfold NULL; lia) Hraw)).
    + by apply alloc_ok_delete.
    + cbn. rewrite Hh2, Hh1. apply delete_insert_id. apply Hok. lia.
    + cbn. by rewrite Hm2.
    + cbn. by rewrite He2.
  - rewrite decide_False.
    2: { rewrite Ho1 in Hb2. destruct (w_oom w) as [|b1 [|b2 o]]; cbn in *; subst; set_solver. }
    exists (w_next w), (w_next w1), w2. rewrite Hx1 in *. split_and!; try done; try (unfold NULL; lia); try (apply Hok; lia).
    + intros k. rewrite (bind_ok _ _ _ _ _ R1), (proj2 (Z.eqb_neq (w_next w) NULL)) by (unfold NULL; lia).
      by rewrite (bind_ok _ _ _ _ _ R2), (proj2 (Z.eqb_neq (w_next w + 1) NULL)) by (unfold NULL; lia).
    + by rewrite Hh2, Hh1.
    + by rewrite Hm2.
    + by rewrite He2.
    + rewrite Ho2, Ho1. by destruct (w_oom w) as [|? [|? ?]].
Qed.

(** A bound name service: the context [r] with its callback data [d] and its
    endpoint [ept], none of them of the table [t]. *)
Record bound (dev : Z) (t : list entry) (cb ud r d ept : Z) (w : world E) : Prop := {
  bd_null : r ≠ NULL ∧ d ≠ NULL ∧ r ≠ d;
  bd_ctx : w_heap w !! r = Some (ONsCtx {| ns_ept := ept; ns_cb_ctxt := d |});
  bd_cb : w_heap w !! d = Some (ONsCb {| ns_cb := cb; ns_user_data := ud |});
  bd_apart : r ∉ table_objects dev t ∧ d ∉ table_objects dev t;
}.

(** The rest of the binding, once there are blocks [d] for the callback data and
    [r] for the context. *)
Lemma bind_rest_ok dev i t cb ud d r c w :
  alloc_ok w → dev ≠ NULL → lock_free (w_env w) (lock i) →
  ept_table (w_heap w) dev i t → Z.of_nat (length t) < 4294967294 →
  r ≠ NULL ∧ d ≠ NULL ∧ r ≠ d → is_Some (w_heap w !! d) ∧ is_Some (w_heap w !! r) →
  r ∉ table_objects dev t ∧ d ∉ table_objects dev t →
  (RL_USE_STATIC_API = true → context_free (w_heap w) dev t c ∧
     ∀ p n, c = Some (p, n) → r ≠ p ∧ r ≠ n ∧ d ≠ p ∧ d ≠ n) →
  ∃ ept w', (put_obj d (ONsCb {| ns_cb := cb; ns_user_data := ud |});;
      ept ← rpmsg_lite_create_ept dev RL_NS_EPT_ADDR rpmsg_ns_rx_cb_fc d c;
      put_obj r (ONsCtx {| ns_ept := ept; ns_cb_ctxt := d |});;
      mret r) w = Ok r w' ∧ alloc_ok w' ∧ w_mem w' = w_mem w ∧ lock_free (w_env w') (lock i) ∧
    if decide (addr_taken t RL_NS_EPT_ADDR ∨ storage_fails w c) then
      ept = NULL ∧ bound dev t cb ud r d ept w' ∧ ept_table (w_heap w') dev i t
    else ∃ n, ept ≠ NULL ∧ stored_at w c ept n ∧
      let x := (n, (ept, {| ept_addr := RL_NS_EPT_ADDR; rx_cb := rpmsg_ns_rx_cb_fc; rx_cb_data := d |})) in
      bound dev (x :: t) cb ud r d ept w' ∧ ept_table (w_heap w') dev (set_rl_endpoints n i) (x :: t).
Proof.
  intros Hok Hdev Hl Ht Hlen Hnull [[od Hd] [or Hr]] [Hrt Hdt] Hc.
  set (obd := ONsCb {| ns_cb := cb; ns_user_data := ud |}). set (w2 := set_heap <[d := obd]> w).
  rewrite (bind_ok _ _ _ _ _ (eq_refl : put_obj d obd w = Ok tt w2)).
  pose proof (table_insert _ _ _ _ _ obd Ht Hdt) as Ht2. change (<[d := obd]> (w_heap w)) with (w_heap w2) in Ht2.
  assert (w_heap w2 !! d = Some obd ∧ w_heap w2 !! r = Some or) as [Hd2 Hr2].
  { cbn. rewrite lookup_insert_eq, lookup_insert_ne by (intros ->; tauto). done. }
  assert (alloc_ok w2) as Hok2.
  { eapply alloc_ok_same_dom; [exact Hok|done|]. intros x Hx. cbn. rewrite lookup_insert_ne; [done|].
    intros ->. by rewrite Hd in Hx. }
  assert (RL_USE_STATIC_API = true → context_free (w_heap w2) dev t c) as Hc2.
  { intros HS. destruct (Hc HS) as [Hcf Hap]. destruct c as [[p n]|]; [|done].
    destruct Hcf as (? & ? & ? & ? & ? & ? & ?), (Hap p n eq_refl) as (? & ? & ? & ?). cbn.
    split_and!; try done; by rewrite lookup_insert_ne. }
  assert (storage_fails w2 c ↔ storage_fails w c) as Hsf by done.
  destruct (create_ept_ok dev i t RL_NS_EPT_ADDR rpmsg_ns_rx_cb_fc d c w2 Hok2 Hdev Hl Ht2 Hlen Hc2) as
    (ept & w3 & R3 & Hlc & Hok3 & Hres).
  rewrite (bind_ok _ _ _ _ _ R3). set (obr := ONsCtx {| ns_ept := ept; ns_cb_ctxt := d |}).
  exists ept, (set_heap <[r := obr]> w3). split; [done|].
  (* no object of the new endpoint is a block of the binding *)
  assert (∀ y n, is_Some (w_heap w2 !! y) → y ∈ [r; d] → stored_at w2 c ept n → y ≠ ept ∧ y ≠ n) as Hapart.
  { intros y n [oy Hy] Hin Hat. unfold stored_at in Hat. destruct RL_USE_STATIC_API.
    - destruct (Hc eq_refl) as [_ Hap]. destruct (Hap _ _ Hat) as (? & ? & ? & ?).
      apply elem_of_cons in Hin as [->|Hin]; [done|]. by apply list_elem_of_singleton in Hin as ->.
    - destruct Hat. split; intros ->; congruence. }
  assert (∀ y, y ∉ table_objects dev t → y ∉ dev :: (e_link <$> t).*1) as Hnt.
  { intros y Hy Hin. apply Hy. apply elem_of_cons in Hin as [->|Hin]; [left|].
    right. apply elem_of_app. by left. }
  assert (w_heap w3 !! d = Some obd ∧ w_heap w3 !! r = Some or) as [Hd3 Hr3].
  { case_decide; [destruct Hres as [_ ->]; done|].
    destruct Hres as (n & a & _ & _ & _ & _ & Hat & Hk).
    destruct (Hapart d n ltac:(by eexists) ltac:(right; left) Hat), (Hapart r n ltac:(by eexists) ltac:(left) Hat).
    split; (rewrite Hk; [done|by eexists|]); do 2 (apply not_elem_of_cons; split; [done|]); by apply Hnt. }
  split; [|split; [|split; [apply Hlc|]]].
  { eapply alloc_ok_same_dom; [exact Hok3|done|]. intros x Hx. cbn. rewrite lookup_insert_ne; [done|].
    intros ->. by rewrite Hr3 in Hx. }
  { cbn. by rewrite (lc_mem _ _ _ Hlc). }
  assert (∀ t', r ∉ table_objects dev t' → d ∉ table_objects dev t' →
    bound dev t' cb ud r d ept (set_heap <[r := obr]> w3)) as Hbound.
  { intros t' Hr' Hd'. constructor; cbn; [done|by rewrite lookup_insert_eq| |done]. rewrite lookup_insert_ne by apply Hnull. done. }
  case_decide; (case_decide; [|tauto || idtac]; try tauto).
  - destruct Hres as [-> Hh3]. split; [done|]. split; [by apply Hbound|]. cbn. rewrite Hh3. by apply table_insert.
  - destruct Hres as (n & a & [_ Ha] & Hept & Hn & Htab & Hat & _). rewrite decide_False in Ha by done. subst a.
    exists n. split; [done|]. split.
    { unfold stored_at in *. destruct RL_USE_STATIC_API; [done|]. destruct Hat as [F1 F2]. cbn in F1, F2.
      apply lookup_insert_None in F1 as [F1 _]. by apply lookup_insert_None in F2 as [F2 _]. }
    cbv zeta. set (x := (n, _)) in *.
    assert (∀ y, y ∈ [r; d] → y ∉ table_objects dev (x :: t)) as Hout.
    { intros y Hy. assert (y ∉ table_objects dev t ∧ is_Some (w_heap w2 !! y)) as [Hyt Hys].
      { apply elem_of_cons in Hy as [->|Hy]; [split; [done|by eexists]|].
        apply list_elem_of_singleton in Hy as ->. split; [done|by eexists]. }
      destruct (Hapart y n Hys Hy Hat). intros Hin. apply elem_of_cons in Hin as [->|Hin]; [apply Hyt; left|].
      apply elem_of_app in Hin as [Hin|Hin]; apply elem_of_cons in Hin as [->|Hin]; try done;
        apply Hyt; right; apply elem_of_app; auto. }
    split; [apply Hbound; apply Hout; [left|right; left]|]. cbn. apply table_insert; [exact Htab|apply Hout; left].
Qed.

(** No blocks for the context: no static context was given, or one of the two
    allocations fails. *)
Definition ns_storage_fails (w : world E) (c : option (Z * Z * (Z * Z))) : Prop :=
  if RL_USE_STATIC_API then c = None else true ∈ take 2 (w_oom w).
#[global] Instance ns_storage_fails_dec w c : Decision (ns_storage_fails w c).
Proof. unfold ns_storage_fails. destruct RL_USE_STATIC_API; apply _. Defined.

(** No endpoint for it: the address is taken, or one of the two allocations of
    the endpoint fails. *)
Definition ns_endpoint_fails (w : world E) (t : list entry) : Prop :=
  addr_taken t RL_NS_EPT_ADDR ∨ (RL_USE_STATIC_API = false ∧ true ∈ take 2 (drop 2 (w_oom w))).
#[global] Instance ns_endpoint_fails_dec w t : Decision (ns_endpoint_fails w t).
Proof. unfold ns_endpoint_fails. apply _. Defined.

(** The static context: four objects of the application that the table does not
    use. *)
Definition ns_context_free (heap : gmap Z obj) (dev : Z) (t : list entry) (c : option (Z * Z * (Z * Z))) : Prop :=
  match c with
  | None => True
  | Some (d, r, (p, n)) => (r ≠ NULL ∧ d ≠ NULL ∧ r ≠ d) ∧ (is_Some (heap !! d) ∧ is_Some (heap !! r)) ∧
      (r ∉ table_objects dev t ∧ d ∉ table_objects dev t) ∧ context_free heap dev t (Some (p, n)) ∧
      (r ≠ p ∧ r ≠ n ∧ d ≠ p ∧ d ≠ n)
  end.

(** Where the context, the callback data and the objects [ps] of the endpoint
    are. *)
Definition ns_stored (w : world E) (c : option (Z * Z * (Z * Z))) (r d : Z) (ps : list Z) : Prop :=
  if RL_USE_STATIC_API then ∃ p n, c = Some (d, r, (p, n)) ∧ (ps = [] ∨ ps = [p; n])
  else ∀ y, y ∈ r :: d :: ps → w_heap w !! y = None.

Lemma ns_bind_ok dev i t cb ud c w :
  alloc_ok w → dev ≠ NULL → cb ≠ NULL → lock_free (w_env w) (lock i) →
  ept_table (w_heap w) dev i t → Z.of_nat (length t) < 4294967294 →
  (RL_USE_STATIC_API = true → ns_context_free (w_heap w) dev t c) →
  ∃ r w', rpmsg_ns_bind dev cb ud c w = Ok r w' ∧ alloc_ok w' ∧ w_mem w' = w_mem w ∧ lock_free (w_env w') (lock i) ∧
    if decide (ns_storage_fails w c) then r = NULL ∧ w_heap w' = w_heap w
    else ∃ d ept,
      if decide (ns_endpoint_fails w t) then
        ept = NULL ∧ ns_stored w c r d [] ∧ bound dev t cb ud r d ept w' ∧ ept_table (w_heap w') dev i t
      else ∃ n, ept ≠ NULL ∧ ns_stored w c r d [ept; n] ∧
        let x := (n, (ept, {| ept_addr := RL_NS_EPT_ADDR; rx_cb := rpmsg_ns_rx_cb_fc; rx_cb_data := d |})) in
        bound dev (x :: t) cb ud r d ept w' ∧ ept_table (w_heap w') dev (set_rl_endpoints n i) (x :: t).
Proof.
  intros Hok Hdev Hcb Hl Ht Hlen Hc. unfold rpmsg_ns_bind. rewrite (proj2 (Z.eqb_neq cb NULL) Hcb).
  destruct (decide (ns_storage_fails w c)) as [Hf|Hf]; unfold ns_storage_fails, ns_stored in *;
    destruct RL_USE_STATIC_API eqn:HS.
  - subst c. by exists NULL, w.
  - pose proof (alloc_two_ok w Hok) as Ha. rewrite decide_True in Ha by done.
    destruct Ha as (w1 & R & Hok1 & Hh & Hm & He). exists NULL, w1. rewrite R, Hm, Hh, He. by split_and!.
  - destruct c as [[[d r] [p n]]|]; [|done]. destruct (Hc eq_refl) as (Hnull & Hlive & Hout & Hcf & Hap).
    destruct (bind_rest_ok dev i t cb ud d r (Some (p, n)) w Hok Hdev Hl Ht Hlen Hnull Hlive Hout) as
      (ept & w' & R & Hok' & Hm & Hl' & Hres); [intros _; split; [done|by intros ?? [= <- <-]]|].
    exists r, w'. rewrite R. do 4 (split; [done|]). exists d, ept.
    assert (addr_taken t RL_NS_EPT_ADDR ∨ storage_fails w (Some (p, n)) ↔ ns_endpoint_fails w t) as Hiff.
    { unfold storage_fails, ns_endpoint_fails. rewrite HS. naive_solver. }
    case_decide; case_decide; try tauto.
    + destruct Hres as (? & ? & ?). split_and!; try done. exists p, n. auto.
    + destruct Hres as (n' & ? & Hat & ? & ?). unfold stored_at in Hat. rewrite HS in Hat. injection Hat as <- <-.
      exists n. split_and!; try done. exists p, n. auto.
  - pose proof (alloc_two_ok w Hok) as Ha. rewrite decide_False in Ha by done.
    destruct Ha as (d & r & w1 & R & Hok1 & Hd0 & Hr0 & Hdr & Hd & Hr & Hh & Hm & He & Ho). rewrite R. clear R.
    assert (ept_table (w_heap w1) dev i t) as Ht1.
    { eapply ept_table_mono; [exact Ht|]. rewrite Hh.
      etrans; [apply (insert_subseteq _ d Raw Hd)|]. apply insert_subseteq. by rewrite lookup_insert_ne. }
    assert (w_heap w1 !! d = Some Raw ∧ w_heap w1 !! r = Some Raw) as [Hd1 Hr1].
    { rewrite Hh. rewrite lookup_insert_ne, !lookup_insert_eq by done. done. }
    destruct (bind_rest_ok dev i t cb ud d r None w1 Hok1 Hdev) as (ept & w' & R & Hok' & Hm' & Hl' & Hres);
      [by rewrite He|done|done|done|split; by eexists|split; by eapply table_raw|by rewrite HS|].
    exists r, w'. rewrite R, Hm', Hm. do 4 (split; [done|]). exists d, ept.
    assert (addr_taken t RL_NS_EPT_ADDR ∨ storage_fails w1 None ↔ ns_endpoint_fails w t) as Hiff.
    { unfold storage_fails, ns_endpoint_fails. rewrite HS, Ho. naive_solver. }
    assert (∀ y, w_heap w1 !! y = None → w_heap w !! y = None) as Hback.
    { intros y. rewrite Hh, !lookup_insert_None. tauto. }
    case_decide; case_decide; try tauto.
    + destruct Hres as (? & ? & ?). split_and!; try done.
      intros y Hy. rewrite !elem_of_cons in Hy. by destruct Hy as [->|[->|[]%not_elem_of_nil]].
    + destruct Hres as (n & ? & Hat & ? & ?). unfold stored_at in Hat. rewrite HS in Hat. destruct Hat.
      exists n. split_and!; try done. intros y Hy. rewrite !elem_of_cons in Hy.
      destruct Hy as [->|[->|[->|[->|[]%not_elem_of_nil]]]]; auto.
Qed.

(** ** Unbinding *)

Lemma get_nsctx_ok p x w : w_heap w !! p = Some (ONsCtx x) → get_nsctx p w = Ok x w.
Proof. intros Hp. unfold get_nsctx, get_obj. by rewrite Hp. Qed.

(** Releasing the two blocks. *)
Lemma free_pair d r od or v w :
  d ≠ NULL → r ≠ NULL → r ≠ d → w_heap w !! d = Some od → w_heap w !! r = Some or →
  (env_free_memory d;; env_free_memory r;; mret v) w = Ok (v : Z) (set_heap (λ h, delete r (delete d h)) w).
Proof.
  intros Hd Hr Hne Ed Er. rewrite (bind_ok _ _ _ _ _ (env_free_memory_ok d od w Hd Ed)).
  assert (w_heap (set_heap (delete d) w) !! r = Some or) as Er' by (cbn; by rewrite lookup_delete_ne).
  by rewrite (bind_ok _ _ _ _ _ (env_free_memory_ok r or _ Hr Er')).
Qed.

Lemma table_delete_pair heap dev i t d r :
  ept_table heap dev i t → d ∉ table_objects dev t → r ∉ table_objects dev t →
  ept_table (delete r (delete d heap)) dev i t.
Proof.
  intros Ht Hd Hr. eapply ept_table_frame; [|exact Ht]. intros y Hy.
  rewrite !lookup_delete_ne; [done|intros ->; done..].
Qed.

(** The two blocks of the context after unbinding. *)
Lemma free_context d r od or v w :
  d ≠ NULL → r ≠ NULL → r ≠ d → w_heap w !! d = Some od → w_heap w !! r = Some or →
  ∃ heap', (if RL_USE_STATIC_API then mret v else env_free_memory d;; env_free_memory r;; mret v) w =
      Ok (v : Z) (set_heap (λ _, heap') w) ∧
    blocks_released [r; d] (w_heap w) heap' ∧
    (∀ y, y ≠ r → y ≠ d → heap' !! y = w_heap w !! y).
Proof.
  intros Hd Hr Hne Ed Er. unfold blocks_released. destruct RL_USE_STATIC_API.
  - exists (w_heap w). split; [by destruct w|done].
  - rewrite (free_pair d r od or v w) by done. exists (delete r (delete d (w_heap w))). split; [done|]. split.
    + intros y Hy. rewrite !lookup_delete_None. rewrite !elem_of_cons in Hy.
      destruct Hy as [->|[->|[]%not_elem_of_nil]]; auto.
    + intros y ? ?. by rewrite !lookup_delete_ne.
Qed.

Lemma table_objects_cons dev x t y : y ∉ table_objects dev (x :: t) → y ∉ table_objects dev t ∧ y ≠ e_ptr x ∧ y ≠ e_node x.
Proof.
  unfold table_objects. rewrite !fmap_cons, !not_elem_of_cons, !not_elem_of_app, !not_elem_of_cons. cbn. tauto.
Qed.

Lemma ns_unbind_failed dev i t cb ud r d w :
  dev ≠ NULL → bound dev t cb ud r d NULL w → ept_table (w_heap w) dev i t →
  ∃ w', rpmsg_ns_unbind dev r w = Ok RL_ERR_PARAM w' ∧ ept_table (w_heap w') dev i t ∧
    blocks_released [r; d] (w_heap w) (w_heap w') ∧ w_env w' = w_env w ∧ w_mem w' = w_mem w.
Proof.
  intros Hdev [(Hr & Hd & Hrd) Hc Hb [Art Adt]] Ht. unfold rpmsg_ns_unbind.
  rewrite (bind_ok _ _ _ _ _ (get_nsctx_ok _ _ _ Hc)). cbn [ns_ept ns_cb_ctxt].
  assert (rpmsg_lite_destroy_ept dev NULL w = Ok RL_ERR_PARAM w) as R.
  { unfold rpmsg_lite_destroy_ept. by rewrite (proj2 (Z.eqb_neq dev NULL) Hdev). }
  rewrite (bind_ok _ _ _ _ _ R).
  destruct (free_context d r _ _ RL_ERR_PARAM w Hd Hr Hrd Hb Hc) as (heap' & -> & Hrel & Hk).
  eexists. split; [reflexivity|]. cbn. split_and!; try done.
  eapply ept_table_frame; [|exact Ht]. intros y Hy. apply Hk; by intros ->.
Qed.

Lemma ns_unbind_ok dev i t cb ud r d x w :
  alloc_ok w → dev ≠ NULL → e_ptr x ≠ NULL → lock_free (w_env w) (lock i) →
  bound dev (x :: t) cb ud r d (e_ptr x) w → ept_table (w_heap w) dev i (x :: t) →
  ∃ h' w', rpmsg_ns_unbind dev r w = Ok RL_SUCCESS w' ∧ ept_table (w_heap w') dev (set_rl_endpoints h' i) t ∧
    blocks_released [r; d; e_ptr x; e_node x] (w_heap w) (w_heap w') ∧
    lock_free (w_env w') (lock i) ∧ w_mem w' = w_mem w.
Proof.
  intros Hok Hdev Hp Hl [(Hr & Hd & Hrd) Hc Hb [Art Adt]] Ht. unfold rpmsg_ns_unbind.
  rewrite (bind_ok _ _ _ _ _ (get_nsctx_ok _ _ _ Hc)). cbn [ns_ept ns_cb_ctxt].
  destruct (destroy_ept_ok dev i [] x t w Hok Hdev Hp Hl Ht)
    as (h' & w1 & R & Hlc & Hok1 & Htab & Hrel & Hoth).
  rewrite (bind_ok _ _ _ _ _ R).
  assert (∀ y, y ∉ table_objects dev (x :: t) → w_heap w1 !! y = w_heap w !! y) as Hk.
  { intros y Hy. apply Hoth; [by apply table_objects_cons in Hy as (_ & ? & _)|].
    intros Hin. apply Hy. apply elem_of_cons in Hin as [->|Hin]; [left|]. right. apply elem_of_app. by left. }
  pose proof (Hk r Art) as Hkr. pose proof (Hk d Adt) as Hkd. rewrite <- Hkr in Hc. rewrite <- Hkd in Hb.
  destruct (free_context d r _ _ RL_SUCCESS w1 Hd Hr Hrd Hb Hc) as (heap' & -> & Hrel2 & Hk2).
  exists h'. eexists. split; [reflexivity|].
  destruct (table_objects_cons _ _ _ _ Art) as (Ar & ? & ?), (table_objects_cons _ _ _ _ Adt) as (Ad & ? & ?).
  cbn. split_and!; [| |apply Hlc|apply Hlc].
  - eapply ept_table_frame; [|exact Htab]. intros y Hy. apply Hk2; by intros ->.
  - unfold blocks_released in *. intros y Hy. rewrite !elem_of_cons in Hy.
    destruct Hy as [->|[->|[->|[->|[]%not_elem_of_nil]]]].
    + rewrite (Hrel2 r) by left. by rewrite Hkr.
    + rewrite (Hrel2 d) by (right; left). by rewrite Hkd.
    + rewrite Hk2 by done. apply Hrel. right. left.
    + rewrite Hk2 by done. apply Hrel. left.
Qed.

End bind.

Section theorems.
Context {E : Type} {el : EnvLayer E} {laws : EnvLaws E} {cfg : Config}.
Implicit Types w : world E.

(** C24.  [rpmsg_ns_bind] and [rpmsg_ns_unbind], with either API.  Without a
    callback, or without blocks for the context (an allocation fails; with the
    static API, no context was given), binding returns NULL and nothing is left
    behind.  Otherwise it returns a context, in fresh blocks or in the one given,
    with the callback and its data; its endpoint is registered at the
    name-service address, or is NULL when that address is taken or an allocation
    of the endpoint fails (the handle looks the same, and the endpoints are as
    before).  Unbinding releases every block of it, the node of the endpoint
    included; with the static API they are the application's and stay as they
    are.  The endpoints are again those from before, and the result says whether
    there was an endpoint.  The lock of the instance is free after each call. *)
Theorem ns_bind_unbind dev i t cb ud c w :
  alloc_ok w → dev ≠ NULL → cb ≠ NULL → lock_free (w_env w) (lock i) →
  ept_table (w_heap w) dev i t → Z.of_nat (length t) < 4294967294 →
  (RL_USE_STATIC_API = true → ns_context_free (w_heap w) dev t c) →
  rpmsg_ns_bind dev NULL ud c w = Ok NULL w ∧
  ∃ r w1, rpmsg_ns_bind dev cb ud c w = Ok r w1 ∧ w_mem w1 = w_mem w ∧ lock_free (w_env w1) (lock i) ∧
    if decide (ns_storage_fails w c) then r = NULL ∧ w_heap w1 = w_heap w
    else ∃ d ept n i1 w2 i2,
      let failed := bool_decide (ns_endpoint_fails w t) in
      let blocks := if failed then [] else [ept; n] in
      bound dev t cb ud r d ept w1 ∧ (ept = NULL ↔ failed = true) ∧ ns_stored w c r d blocks ∧
      ept_table (w_heap w1) dev i1 (if failed then t else
         (n, (ept, {| ept_addr := RL_NS_EPT_ADDR; rx_cb := rpmsg_ns_rx_cb_fc; rx_cb_data := d |})) :: t) ∧
      rpmsg_ns_unbind dev r w1 = Ok (if failed then RL_ERR_PARAM else RL_SUCCESS) w2 ∧
      ept_table (w_heap w2) dev i2 t ∧ lock_free (w_env w2) (lock i) ∧ w_mem w2 = w_mem w ∧
      blocks_released (r :: d :: blocks) (w_heap w1) (w_heap w2).
Proof.
  intros Hok Hdev Hcb Hl Ht Hlen Hc. split; [done|].
  destruct (ns_bind_ok dev i t cb ud c w Hok Hdev Hcb Hl Ht Hlen Hc) as (r & w1 & R & Hok1 & Hm & Hl1 & Hres).
  exists r, w1. split; [done|split; [done|split; [done|]]]. case_decide; [done|].
  destruct Hres as (d & ept & Hres). destruct (decide (ns_endpoint_fails w t)) as [Hf|Hf].
  - destruct Hres as (-> & Hat & Hb & Ht1). destruct (ns_unbind_failed dev i t cb ud r d w1 Hdev Hb Ht1)
      as (w2 & R2 & Ht2 & Hrel & He & Hm2).
    exists d, NULL, NULL, i, w2, i. rewrite bool_decide_eq_true_2 by done. rewrite He, Hm2. by split_and!.
  - destruct Hres as (n & Hept & Hat & Hb & Ht1). set (x := (n, _)) in *.
    destruct (ns_unbind_ok dev (set_rl_endpoints n i) t cb ud r d x w1 Hok1 Hdev Hept Hl1 Hb Ht1)
      as (h' & w2 & R2 & Ht2 & Hrel & Hl2 & Hm2).
    exists d, ept, n, (set_rl_endpoints n i), w2, (set_rl_endpoints h' (set_rl_endpoints n i)).
    rewrite bool_decide_eq_false_2 by done. rewrite Hm2. cbv zeta. split; [|by split_and!].
    destruct Hb as [? ? ? [Ar Ad]]. constructor; try done.
    by destruct (table_objects_cons _ _ _ _ Ar), (table_objects_cons _ _ _ _ Ad).
Qed.

End theorems.

(** ** The theorems on a concrete state *)

(** The master of [c_tx], with the name of its endpoint at 24000 and its stack
    at 20000. *)
Definition c_name : Z := 24000.
Definition c_ns_mem : mem := store_bytes c_mem c_name [97; 98].
Definition c_ns : world (bm sim) := Build_world c_ns_mem c_tx_heap 30 [] 20000 sim_start [].

Lemma c_ns_frames : frames c_name (c_name + 2) c_mem c_ns_mem.
Proof. apply (store_bytes_frames c_mem c_name [97; 98]). Qed.

Lemma c_ns_ring : vring_end (vq_ring c_vq) ≤ c_name.
Proof. vm_compute. discriminate. Qed.

Lemma c_ns_sendable :
  @sendable flat_map master_vq_ops 0 c_vq 512 0 512 c_ns_mem ∧
  incoming master_vq_ops c_vq c_ns_mem = [(0, 512); (1, 512)] ∧
  buf_at (am := flat_map) (vq_ring c_vq) c_ns_mem 0 = buf_at (am := flat_map) (vq_ring c_vq) c_mem 0.
Proof.
  destruct (sendable_frames (am := flat_map) master_vq_ops 0 c_vq 512 0 512 c_mem c_ns_mem _ _ c_vq_wf c_ns_frames
    (or_intror c_ns_ring) c_tx_sendable) as (Hs & Hi & _ & Hb & _).
  split; [exact Hs|]. split; [rewrite Hi; exact c_tx_in|exact Hb].
Qed.

Lemma c_ns_apart : stack_apart (vq_ring c_vq) (buf_at (am := flat_map) (vq_ring c_vq) c_ns_mem 0) 20000.
Proof.
  rewrite (proj2 (proj2 c_ns_sendable)).
  assert (buf_at (am := flat_map) (vq_ring c_vq) c_mem 0 = c_buf 0) as -> by (vm_compute; done).
  split_and!; [right; vm_compute; discriminate|right; vm_compute; discriminate|discriminate].
Qed.

Lemma announcement_arrives_witness :
  ∃ w', @rpmsg_ns_announce _ c_env c_peer_silent c_app default_config flat_map 0 1 3 c_name 0 c_ns = Ok RL_SUCCESS w'.
Proof.
  destruct (@announcement_arrives _ c_env c_laws c_peer_silent c_app default_config flat_map 0 1 c_master
    master_vq_ops 0 c_vq c_rvq 512 0 512 [(1, 512)] 3 c_ept c_name 0 496 c_ns
    (c_tx_lite c_ns eq_refl) eq_refl) as (_ & _ & w' & q' & msg & Hrun & _).
  - discriminate.
  - reflexivity.
  - split; [discriminate|reflexivity].
  - split; [discriminate|reflexivity].
  - discriminate.
  - reflexivity.
  - discriminate.
  - discriminate.
  - apply c_ns_sendable.
  - apply c_ns_sendable.
  - apply c_ns_apart.
  - exists w'. exact Hrun.
Defined.

Lemma ns_bind_unbind_witness :
  ∃ r w1 w2, @rpmsg_ns_bind _ c_env default_config 1 77 0 None c_one = Ok r w1 ∧
    @rpmsg_ns_unbind _ c_env default_config 1 r w1 = Ok RL_SUCCESS w2 ∧ w_heap w2 !! r = None.
Proof.
  destruct (@ns_bind_unbind _ c_env c_laws default_config 1 c_inst1 [c_entry] 77 0 None c_one
    c_one_alloc ltac:(done) ltac:(done) I c_one_table ltac:(done) ltac:(done)) as (_ & r & w1 & R & _ & _ & Hres).
  exists r, w1. rewrite decide_False in Hres by (intros H; by apply not_elem_of_nil in H).
  destruct Hres as (d & ept & n & i1 & w2 & i2 & Hb & _ & _ & _ & Ru & _ & _ & _ & Hrel).
  rewrite bool_decide_eq_false_2 in Ru, Hrel.
  - exists w2. split; [exact R|]. split; [exact Ru|]. apply (Hrel r). left.
  - intros [[_ Hin]|[_ Hin]]; [|by apply not_elem_of_nil in Hin]. cbn in Hin.
    rewrite list_elem_of_singleton in Hin. discriminate Hin.
  - intros [[_ Hin]|[_ Hin]]; [|by apply not_elem_of_nil in Hin]. cbn in Hin.
    rewrite list_elem_of_singleton in Hin. discriminate Hin.
Defined.
