(* ===== verification/Services.v ===== *)
(** * The services together

    The receive callbacks an endpoint can have ([RxDispatch] of [RpmsgLite]):
    the queue of [RpmsgQueue], the name service of [RpmsgNs], and those of the
    application; and what the receive callback of the library does on an
    instance whose endpoints are queues. *)

From S2P Require Import Prelude Memory Config VirtioRing Virtqueue RingQueue VirtqueueSpec Concrete ChannelRefinement World Lpc55s69 FreeRTOS Llist Endpoint Transport RpmsgLite Sending Receiving RpmsgQueue RpmsgNs.

(** The call through [ept->rx_cb]. *)
#[global] Instance services {E} {el : EnvLayer E} {eq : EnvQueue E} {app : Application E} : RxDispatch E := {|
  call_rx_cb f payload len src priv :=
    match f with
    | rpmsg_queue_rx_cb_fc => rpmsg_queue_rx_cb payload len src priv
    | rpmsg_ns_rx_cb_fc => rpmsg_ns_rx_cb payload len src priv
    | application_rx_cb cb => app_rx_cb cb payload len src priv
    end
|}.

Section collect.
Context {E : Type} {el : EnvLayer E} {laws : EnvLaws E} {eq : EnvQueue E} {qv : QueueView E} {qlaws : QueueLaws E}.
Context {app : Application E} {cfg : Config} {am : AddrMap}.
Implicit Types w : world E.

(** The queue element of a call of a receive callback with private data [qh]. *)
Definition element (qh : Z) (e : event) : option rpmsg_queue_rx_cb_data_t :=
  match e with
  | EvRxCb _ p len src d => if decide (d = qh) then Some {| q_src := src; q_data := p; q_len := len |} else None
  | _ => None
  end.

(** The messages among the entries [xs] that are for queue [qh], in order. *)
Definition message_for (t : list entry) (vr : vring) (m : mem) (qh : Z) (x : Z * Z) : option rpmsg_queue_rx_cb_data_t :=
  let b := buf_at vr m x.1 in
  e ← addressee t (msg_dst (read_msg m b));
  if decide (rx_cb_data e.2.2 = qh)
  then Some {| q_src := msg_src (read_msg m b); q_data := a_msg_data b; q_len := msg_len (read_msg m b) |}
  else None.

Lemma elements_of_calls t vr m qh xs :
  reverse (omap (element qh) (mjoin (reverse (rx_call t vr m <$> xs)))) = omap (message_for t vr m qh) xs.
Proof.
  induction xs as [|x xs IH]; [done|]. rewrite fmap_cons, reverse_cons, join_app, omap_app, reverse_app, IH.
  cbn [mjoin list_join omap list_omap]. rewrite app_nil_r. unfold rx_call, message_for.
  destruct (addressee t (msg_dst (read_msg m (buf_at vr m x.1)))) as [e|]; [|done]. cbn.
  by destruct (decide (rx_cb_data e.2.2 = qh)).
Qed.

(** An instance whose endpoints are queues, of the given capacities and
    contents. *)
Record queues_hold (t : list entry) (cap : Z → nat) (l : Z → list rpmsg_queue_rx_cb_data_t) (w : world E) : Prop := {
  qh_view : ∀ x, x ∈ t → queue_view (w_env w) (rx_cb_data x.2.2) = Some (cap (rx_cb_data x.2.2), l (rx_cb_data x.2.2));
}.

Definition queue_endpoints (t : list entry) : Prop :=
  Forall (λ x, rx_cb x.2.2 = rpmsg_queue_rx_cb_fc ∧ rx_cb_data x.2.2 ≠ NULL) t.

Context (t : list entry) (cap : Z → nat) (old : Z → list rpmsg_queue_rx_cb_data_t) (base : list event).

(** The answer to a call, after the calls [before]: the message is kept exactly
    when its queue still has room. *)
Definition reply (before : list event) (d : Z) : Z :=
  if decide (length (old d ++ reverse (omap (element d) before)) < cap d)%nat then RL_HOLD else RL_RELEASE.
Fixpoint replies (calls : list event) : list Z :=
  match calls with
  | EvRxCb _ _ _ _ d :: before => replies before ++ [reply before d]
  | _ => []
  end.

(** What the callbacks maintain: each queue holds what it held and then the
    messages handed over since, up to its capacity, and they answered
    accordingly. *)
Definition collected (hs : list Z) (w : world E) : Prop :=
  ∃ calls, filter is_rx (w_trace w) = calls ++ base ∧ hs = replies calls ∧
    queues_hold t cap (λ qh, take (cap qh) (old qh ++ reverse (omap (element qh) calls))) w.

Lemma collected_stable dev i o bsz hs w w' : lib_step dev i o t bsz w w' → collected hs w → collected hs w'.
Proof.
  intros [Hq Ht _ _] (calls & Hc & Hhs & [Hv]). exists calls. split; [by rewrite Ht|]. split; [done|]. constructor.
  intros x Hx. rewrite (law_same _ _ _ Hq). by apply Hv.
Qed.

(** Adding one element to a bounded queue. *)
Lemma take_snoc {A} (n : nat) (l : list A) x :
  take n (l ++ [x]) = if decide (length (take n l) < n)%nat then take n l ++ [x] else take n l.
Proof.
  rewrite length_take. case_decide as Hd.
  - rewrite !take_ge; rewrite ?length_app; cbn; try lia. done.
  - rewrite take_app_le by lia. done.
Qed.

Lemma queue_callback_ok dev i bsz vr hs w x p len src :
  queue_endpoints t → x ∈ t → collected hs w →
  ∃ v w', call_rx_cb (rx_cb x.2.2) p len src (rx_cb_data x.2.2) (called x p len src w) = Ok v w' ∧
    (v = RL_HOLD ∨ v = RL_RELEASE) ∧ cb_keeps dev i t bsz vr (called x p len src w) w' ∧ collected (hs ++ [v]) w'.
Proof.
  intros Hep Hx (calls & Hc & -> & [Hv]). unfold queue_endpoints in Hep. rewrite Forall_forall in Hep.
  destruct (Hep x Hx) as [Hcb Hd]. rewrite Hcb. cbn [call_rx_cb services].
  set (w0 := called x p len src w). set (qh := rx_cb_data x.2.2) in *.
  set (old' := take (cap qh) (old qh ++ reverse (omap (element qh) calls))) in *.
  destruct (rpmsg_queue_rx_cb_ok p len src qh (cap qh) old' w0 Hd) as (e & R & St); [apply (Hv x Hx)|].
  exists (if decide (length old' < cap qh)%nat then RL_HOLD else RL_RELEASE), (set_env e w0).
  split; [exact R|]. split; [case_decide; auto|]. split.
  - constructor; cbn; try done; apply St.
  - exists (EvRxCb (e_addr x) p len src qh :: calls). split.
    + change (w_trace (set_env e w0)) with (EvRxCb (e_addr x) p len src qh :: w_trace w).
      rewrite filter_cons_True by exact I. by rewrite Hc.
    + split.
      { cbn [replies]. do 2 f_equal. unfold reply. fold qh.
        assert (length old' = cap qh `min` length (old qh ++ reverse (omap (element qh) calls)))%nat as -> by (unfold old'; apply length_take).
        repeat match goal with |- context [decide ?P] => destruct (decide P) end; done || lia. }
      constructor. intros y Hy. cbn [w_env set_env omap list_omap element].
      destruct (decide (qh = rx_cb_data y.2.2)) as [E0|E0].
      * rewrite <- E0, (qs_view _ _ _ _ St), reverse_cons, app_assoc, take_snoc. fold old'. by case_decide.
      * rewrite (qs_others _ _ _ _ St) by done. apply (Hv y Hy).
Qed.

(** The answer to the message [x], when the messages [before] have been handed
    over. *)
Definition answer_to (vr : vring) (m : mem) (before : list (Z * Z)) (x : Z * Z) : Z :=
  match addressee t (msg_dst (read_msg m (buf_at vr m x.1))) with
  | Some e =>
      let h := rx_cb_data e.2.2 in
      if decide (length (old h ++ omap (message_for t vr m h) before) < cap h)%nat then RL_HOLD else RL_RELEASE
  | None => RL_RELEASE
  end.

Lemma call_answers_snoc vr m xs x vs v :
  length xs = length vs →
  call_answers t vr m (xs ++ [x]) (vs ++ [v]) = call_answers t vr m xs vs ++ call_answer t vr m x v.
Proof. intros Hl. unfold call_answers. rewrite zip_with_app by done. rewrite join_app. cbn. by rewrite app_nil_r. Qed.

(** The answers of the callbacks, with [RL_RELEASE] for the messages for nobody,
    are those of all messages. *)
Lemma answers_of_replies vr m xs vs :
  Forall2 (λ x v, addressee t (msg_dst (read_msg m (buf_at vr m x.1))) = None → v = RL_RELEASE) xs vs →
  call_answers t vr m xs vs = replies (mjoin (reverse (rx_call t vr m <$> xs))) →
  ∀ before x after, xs = before ++ x :: after → vs !! length before = Some (answer_to vr m before x).
Proof.
  revert vs. induction xs as [|x xs IH] using rev_ind; intros vs HF Heq before y after Hxs.
  { by destruct before. }
  apply Forall2_app_inv_l in HF as (vs1 & vs2 & HF1 & HF2 & ->).
  apply Forall2_cons_inv_l in HF2 as (v & vs3 & Hv & HF3 & ->). apply Forall2_nil_inv_l in HF3 as ->.
  pose proof (Forall2_length _ _ _ HF1) as Hlen. rewrite call_answers_snoc in Heq by done.
  rewrite fmap_app, reverse_app, join_app in Heq. set (calls := mjoin (reverse (rx_call t vr m <$> xs))) in Heq.
  change (mjoin (reverse (rx_call t vr m <$> [x]))) with (rx_call t vr m x ++ []) in Heq. rewrite app_nil_r in Heq.
  assert (call_answers t vr m xs vs1 = replies calls ∧ v = answer_to vr m xs x)
    as [H1 H2].
  { unfold call_answer, rx_call, answer_to in Heq, Hv |- *. destruct (addressee _ _) as [e|].
    - cbn in Heq. apply app_inj_tail in Heq as [-> ->]. split; [done|]. unfold reply, calls. by rewrite elements_of_calls.
    - rewrite app_nil_r in Heq. cbn in Heq. split; [done|by apply Hv]. }
  destruct after as [|z after _] using rev_ind.
  - apply app_inj_tail in Hxs as [<- <-]. rewrite lookup_app_r, Hlen, Nat.sub_diag by lia. by rewrite H2.
  - rewrite app_comm_cons, app_assoc in Hxs. apply app_inj_tail in Hxs as [-> ->].
    rewrite lookup_app_l; [by apply (IH vs1 HF1 H1 before y after)|]. rewrite <- Hlen, length_app. cbn. lia.
Qed.

End collect.

Section theorems.
Context {E : Type} {el : EnvLayer E} {laws : EnvLaws E} {eq : EnvQueue E} {qv : QueueView E} {qlaws : QueueLaws E}.
Context {app : Application E} {cfg : Config} {am : AddrMap}.
Implicit Types w : world E.

(** C10.  On an instance whose endpoints are queues, [rpmsg_lite_rx_callback]
    moves everything that has arrived into the queues: each queue then holds
    what it held before followed by the messages sent to its endpoint, in order
    of arrival, as pointers into their buffers with length and source, as far
    as its capacity goes.  A message is answered with [RL_HOLD] exactly when it
    was put into a queue; one for which the queue had no room, and one for nobody,
    is answered with [RL_RELEASE].  What [received] says of every receive callback holds
    too: the receive queue is empty, buffers of messages that were kept still
    hold them, and the others were given back to the other side. *)
Theorem messages_are_queued fuel dev i o t bsz c cap old q xs w :
  queue_endpoints t → queues_hold t cap old w → (∀ h, (length (old h) ≤ cap h)%nat) →
  rx_inv dev i o t bsz q w → dev ≠ NULL → priv q = dev → lock_free (w_env w) (lock i) →
  incoming o q (w_mem w) = xs → rx_entries bsz q xs → (length xs ≤ fuel)%nat →
  Z.of_nat (length (outgoing o c q (w_mem w))) + Z.of_nat (length xs) ≤ num (vq_ring q) →
  ∃ vs w' q', rpmsg_lite_rx_callback fuel (rvq i) w = Ok tt w' ∧
    queues_hold t cap (λ h, take (cap h) (old h ++ omap (message_for t (vq_ring q) (w_mem w) h) xs)) w' ∧
    (∀ before x after, xs = before ++ x :: after →
       vs !! length before = Some (answer_to t cap old (vq_ring q) (w_mem w) before x)) ∧
    received dev i o t bsz c (λ _ v, v = RL_HOLD ∨ v = RL_RELEASE) q q' xs vs w w' ∧
    lock_free (w_env w') (lock i).
Proof.
  intros Hep Hq Hcap Hinv Hdev Hpriv Hlock Hin Hent Hfuel Hroom.
  set (base := filter is_rx (w_trace w)).
  assert (collected t cap old base [] w) as H0.
  { exists []. split; [done|]. split; [done|]. constructor. intros x Hx. cbn. rewrite app_nil_r, take_ge by apply Hcap. by apply Hq. }
  destruct (rx_callback_ok dev i o t bsz c (λ _ v, v = RL_HOLD ∨ v = RL_RELEASE) (collected t cap old base)
    (collected_stable t cap old base dev i o bsz)) with (hs := @nil Z) (fuel := fuel) (q := q) (xs := xs) (w := w)
    as (vs & w' & q' & Hrun & Hrec & Hf & (calls & Hc & Hhs & [Hv]) & _); try done.
  { intros hs q0 w0 x p len src _ Hx HP. by apply queue_callback_ok. }
  pose proof (rc_calls _ _ _ _ _ _ _ _ _ _ _ _ _ Hrec) as Hcalls. rewrite Hc in Hcalls.
  apply (app_inv_tail base) in Hcalls. exists vs, w', q'. split; [done|]. split; [|split; [|done]].
  2: { apply (answers_of_replies t cap old); [|by rewrite <- Hcalls].
    eapply Forall2_impl; [apply (rc_answers _ _ _ _ _ _ _ _ _ _ _ _ _ Hrec)|]. intros x v. cbv beta.
    by destruct (addressee _ _). }
  constructor. intros x Hx. by rewrite (Hv x Hx), Hcalls, elements_of_calls.
Qed.

End theorems.

(** ** The theorem on a concrete state *)

Definition fr_app : Application (rtos sim sim_kernel) :=
  {| app_rx_cb _ _ _ _ _ := mret RL_RELEASE; app_ns_cb _ _ _ _ _ := mret tt; platform_get_custom_shmem_config _ := None |}.

(** Two messages have arrived; the second is for an address without an
    endpoint. *)
Lemma messages_are_queued_witness :
  ∃ w', @rpmsg_lite_rx_callback _ (fr_env (cfg := default_config)) (services (el := fr_env (cfg := default_config)) (app := fr_app)) default_config flat_map 2 20 (c_q c_rx_mem []) = Ok tt w' ∧
    k_queues (objs (w_env w')) !! 40 = Some (4%nat, [c_q_msg]).
Proof.
  destruct (@messages_are_queued _ (fr_env (cfg := default_config)) fr_laws fr_queue fr_queue_view fr_queue_laws fr_app default_config flat_map 2 1 c_rx_inst
    master_vq_ops [c_q_entry] 512 0 (λ _, 4%nat) (λ _, []) c_rx_vq [(0, 512); (1, 512)] (c_q c_rx_mem []))
    as (vs & w' & q' & Hrun & [Hq] & _).
  - repeat constructor. discriminate.
  - constructor. intros x Hx. apply list_elem_of_singleton in Hx. subst x. reflexivity.
  - intros h. apply Nat.le_0_l.
  - apply c_q_inv; vm_compute; reflexivity.
  - discriminate.
  - reflexivity.
  - apply c_q_free.
  - exact c_rx_in.
  - exact c_rx_entries.
  - apply le_n.
  - change (w_mem (c_q c_rx_mem [])) with c_rx_mem. rewrite c_rx_out. vm_compute. discriminate.
  - exists w'. split; [exact Hrun|].
    etrans; [apply (Hq c_q_entry); apply list_elem_of_singleton; reflexivity|]. vm_compute. reflexivity.
Defined.
