(* ===== verification/Lane.v ===== *)
(** * One direction between the cores

    The two ends of one ring, the transmit queue of a core and the receive queue
    of the other, and the buffers that go round between them: free at the
    sender, on their way with a message, or held by the receiver.  [lane] says
    where every buffer is; the lemmas say how sending, receiving and releasing
    move them. *)

From S2P Require Import Prelude Memory Config VirtioRing Virtqueue RingQueue VirtqueueSpec Concrete ChannelRefinement World Lpc55s69 Llist Endpoint Transport RpmsgLite Sending Receiving.

Definition peer (o : virtqueue_ops) : virtqueue_ops :=
  match o with master_vq_ops => remote_vq_ops | remote_vq_ops => master_vq_ops end.

Lemma peer_peer o : peer (peer o) = o.
Proof. by destruct o. Qed.

Section lane.
Context {cfg : Config} {am : AddrMap}.

(** ** What one end puts is what the other finds *)

(** An entry as the other end reads it. *)
Definition wire (vr : vring) (m : mem) (x : Z * option Z) : Z * Z :=
  match x.2 with Some l => (u16 x.1, l) | None => (x.1, r_desc_len vr m x.1) end.

Lemma incoming_wire o qs qr m :
  vq_ring qr = vq_ring qs →
  incoming (peer o) qr m = wire (vq_ring qs) m <$> outgoing o (read_idx (peer o) qr) qs m.
Proof.
  intros Er. destruct o; cbn; rewrite Er, <- list_fmap_compose; by apply list_fmap_ext.
Qed.

Lemma wire_out o vr m k l :
  0 ≤ k < 65536 →
  wire vr m (out_entry o k l) = (k, match o with master_vq_ops => r_desc_len vr m k | remote_vq_ops => l end).
Proof. intros Hk. destruct o; cbn; unfold wire; cbn; [done|by rewrite u16_small]. Qed.

Lemma wire_ext vr m m' xs :
  vring_ok vr → same_desc vr m m' → Forall (λ x, 0 ≤ x.1 < num vr) (wire vr m <$> xs) →
  wire vr m' <$> xs = wire vr m <$> xs.
Proof.
  intros ok Hd Hf. induction xs as [|[k [l|]] xs IH]; [done| |]; apply Forall_cons in Hf as [Hk Hf];
    rewrite !fmap_cons, IH by done; [done|]. f_equal. unfold wire in *. cbn in *. f_equal.
  by apply (r_desc_ext vr ok).
Qed.

Lemma incoming_grows o qs qs' qr m m' es :
  vq_ring qr = vq_ring qs → vq_ring qs' = vq_ring qs → vring_ok (vq_ring qs) → same_desc (vq_ring qs) m m' →
  Forall (λ x, 0 ≤ x.1 < num (vq_ring qs)) (incoming (peer o) qr m) →
  outgoing o (read_idx (peer o) qr) qs' m' = outgoing o (read_idx (peer o) qr) qs m ++ es →
  incoming (peer o) qr m' = incoming (peer o) qr m ++ (wire (vq_ring qs) m' <$> es).
Proof.
  intros Er Es ok Hd Hf Ho. rewrite (incoming_wire o qs' qr m') by congruence.
  rewrite Ho, Es, fmap_app. f_equal. rewrite (incoming_wire o qs qr m) in * by done. by apply wire_ext.
Qed.

(** ** The invariant *)

(** [fl]: the messages on their way, oldest first, each with its buffer; [hd]:
    those the receiver holds.  Every buffer of the ring is free at the sender,
    on its way, or held. *)
Record lane (o : virtqueue_ops) (bsz : Z) (qs qr : virtqueue) (m : mem) (fl hd : list (Z * rpmsg_std_msg)) : Prop := {
  ln_ring : vq_ring qr = vq_ring qs;
  ln_swf : vq_wf qs;
  ln_rwf : vq_wf qr;
  ln_size : 16 ≤ bsz < 4294967296;
  ln_bufs : buffers_ok (vq_ring qs) bsz m;
  ln_desc : ∀ k, 0 ≤ k < num (vq_ring qs) → r_desc_len (vq_ring qs) m k ≤ bsz ∧
    a_msg_data (buf_at (vq_ring qs) m k) ≠ NULL ∧
    (RL_DEBUG_CHECK_BUFFERS = true → r_desc_addr (vq_ring qs) m k = buf_at (vq_ring qs) m k);
  ln_where : (incoming o qs m).*1 ++ fl.*1 ++ hd.*1 ≡ₚ seqZ 0 (num (vq_ring qs));
  ln_flying : (incoming (peer o) qr m).*1 = fl.*1;
  ln_lens : Forall (λ x, x.2 ≤ bsz) (incoming o qs m) ∧ Forall (λ x, x.2 ≤ bsz) (incoming (peer o) qr m);
  ln_msgs : Forall (λ x, read_msg m (buf_at (vq_ring qs) m x.1) = x.2 ∧ 16 + msg_len x.2 ≤ bsz) (fl ++ hd);
  ln_held : Forall (λ x, load 2 m (a_hdr_idx (buf_at (vq_ring qs) m x.1)) = x.1) hd;
}.

Section facts.
Context (o : virtqueue_ops) (bsz : Z) (qs qr : virtqueue) (m : mem) (fl hd : list (Z * rpmsg_std_msg)).
Hypothesis L : lane o bsz qs qr m fl hd.

Lemma lane_ok : vring_ok (vq_ring qs).
Proof using L. apply L. Qed.

Lemma lane_nodup : NoDup ((incoming o qs m).*1 ++ fl.*1 ++ hd.*1).
Proof using L. rewrite (ln_where _ _ _ _ _ _ _ L). apply NoDup_seqZ. Qed.

Lemma lane_range k : k ∈ (incoming o qs m).*1 ++ fl.*1 ++ hd.*1 → 0 ≤ k < num (vq_ring qs).
Proof using L. rewrite (ln_where _ _ _ _ _ _ _ L), elem_of_seqZ. lia. Qed.

Lemma lane_count : Z.of_nat (length (incoming o qs m) + length fl + length hd) = num (vq_ring qs).
Proof using L.
  pose proof (Permutation_length (ln_where _ _ _ _ _ _ _ L)) as Hl.
  rewrite !length_app, !length_fmap, length_seqZ in Hl. pose proof (vring_ok_num_pos _ lane_ok). lia.
Qed.

Lemma lane_in_range : Forall (λ x, 0 ≤ x.1 < num (vq_ring qs)) (incoming o qs m) ∧
  Forall (λ x, 0 ≤ x.1 < num (vq_ring qs)) (incoming (peer o) qr m).
Proof using L.
  split; apply Forall_forall; intros x Hx; apply lane_range; apply elem_of_app; [left|right];
    [by apply list_elem_of_fmap_2|].
  apply elem_of_app. left. rewrite <- (ln_flying _ _ _ _ _ _ _ L). by apply list_elem_of_fmap_2.
Qed.

Lemma lane_flying_length : length (outgoing o (read_idx (peer o) qr) qs m) = length fl.
Proof using L.
  rewrite <- (length_fmap fst fl), <- (ln_flying _ _ _ _ _ _ _ L), length_fmap.
  rewrite (incoming_wire o qs qr m) by apply L. by rewrite length_fmap.
Qed.

Lemma lane_back_length : length (outgoing (peer o) (read_idx o qs) qr m) = length (incoming o qs m).
Proof using L.
  pose proof (incoming_wire (peer o) qr qs m) as Hw. rewrite peer_peer in Hw.
  rewrite Hw by (symmetry; apply L). by rewrite length_fmap.
Qed.

End facts.

(** A message in a buffer, and the number in its header, in another memory with
    the same buffer. *)
Lemma in_buf_ext vr bsz m m' k :
  vring_ok vr → same_desc vr m m' → 0 ≤ k < num vr → 16 ≤ bsz →
  agree_on (buf_at vr m k) (buf_at vr m k + bsz) m' m →
  16 + msg_len (read_msg m (buf_at vr m k)) ≤ bsz →
  read_msg m' (buf_at vr m' k) = read_msg m (buf_at vr m k) ∧
  load 2 m' (a_hdr_idx (buf_at vr m' k)) = load 2 m (a_hdr_idx (buf_at vr m k)).
Proof.
  intros ok Hd Hk Hb Hag Hl. rewrite (buf_at_ext vr m m') by done. split.
  - apply (read_msg_ext _ _ _ (bsz - 16)); [|lia]. eapply agree_on_sub; [exact Hag|lia..].
  - apply load_ext. eapply agree_on_sub; [exact Hag|unfold a_hdr_idx; lia..].
Qed.

(** Writing the header's reserved field does not change the message. *)
Lemma read_msg_idx p m m' n :
  (∀ a, p ≤ a < p + n → a < a_hdr_idx p ∨ a_hdr_idx p + 2 ≤ a → byte_at m' a = byte_at m a) →
  16 + msg_len (read_msg m p) ≤ n → read_msg m' p = read_msg m p.
Proof.
  intros Hag Hn. cbn in Hn. pose proof (load_range 2 m (a_hdr_len p)) as Hr.
  assert (∀ k a, p ≤ a → a + Z.of_nat k ≤ p + 16 → a + Z.of_nat k ≤ a_hdr_idx p ∨ a_hdr_idx p + 2 ≤ a →
    load k m' a = load k m a) as Hld.
  { intros k a H1 H2 H3. apply load_ext. intros x Hx. apply Hag; lia. }
  unfold read_msg. rewrite !Hld by (unfold a_hdr_src, a_hdr_dst, a_hdr_len, a_hdr_flags, a_hdr_idx; lia).
  f_equal. apply load_bytes_ext. intros x Hx. unfold a_msg_data, sizeof_rpmsg_std_hdr, a_hdr_idx in *. apply Hag; lia.
Qed.

(** Messages in buffers that did not change. *)
Lemma kept_msgs vr bsz m m' (l : list (Z * rpmsg_std_msg)) :
  vring_ok vr → same_desc vr m m' → 16 ≤ bsz → Forall (λ k, 0 ≤ k < num vr) l.*1 →
  (∀ k, k ∈ l.*1 → agree_on (buf_at vr m k) (buf_at vr m k + bsz) m' m) →
  Forall (λ x, read_msg m (buf_at vr m x.1) = x.2 ∧ 16 + msg_len x.2 ≤ bsz) l →
  Forall (λ x, read_msg m' (buf_at vr m' x.1) = x.2 ∧ 16 + msg_len x.2 ≤ bsz) l ∧
  Forall (λ x, load 2 m' (a_hdr_idx (buf_at vr m' x.1)) = load 2 m (a_hdr_idx (buf_at vr m x.1))) l.
Proof.
  intros ok Hd Hb Hr Hag Hl. rewrite !Forall_forall in *.
  assert (∀ x, x ∈ l → read_msg m' (buf_at vr m' x.1) = read_msg m (buf_at vr m x.1) ∧
    load 2 m' (a_hdr_idx (buf_at vr m' x.1)) = load 2 m (a_hdr_idx (buf_at vr m x.1))) as He.
  { intros x Hx. pose proof (list_elem_of_fmap_2 fst _ _ Hx) as Hk. destruct (Hl x Hx) as [<- Hlen].
    apply (in_buf_ext vr bsz); auto. }
  split; intros x Hx; [|by apply He]. destruct (Hl x Hx) as [Hm Hlen]. by rewrite (proj1 (He x Hx)).
Qed.

Lemma held_ext m m' vr (hd : list (Z * rpmsg_std_msg)) :
  Forall (λ x, load 2 m (a_hdr_idx (buf_at vr m x.1)) = x.1) hd →
  Forall (λ x, load 2 m' (a_hdr_idx (buf_at vr m' x.1)) = load 2 m (a_hdr_idx (buf_at vr m x.1))) hd →
  Forall (λ x, load 2 m' (a_hdr_idx (buf_at vr m' x.1)) = x.1) hd.
Proof. rewrite !Forall_forall. intros H1 H2 x Hx. by rewrite (H2 x Hx), (H1 x Hx). Qed.

(** ** How the buffers move *)

(** What a step leaves of a lane: the descriptors. *)
Lemma lane_desc o bsz qs qr m m' fl hd :
  lane o bsz qs qr m fl hd → same_desc (vq_ring qs) m m' →
  buffers_ok (vq_ring qs) bsz m' ∧
  ∀ k, 0 ≤ k < num (vq_ring qs) → r_desc_len (vq_ring qs) m' k ≤ bsz ∧
    a_msg_data (buf_at (vq_ring qs) m' k) ≠ NULL ∧
    (RL_DEBUG_CHECK_BUFFERS = true → r_desc_addr (vq_ring qs) m' k = buf_at (vq_ring qs) m' k).
Proof.
  intros L Hd. pose proof (lane_ok _ _ _ _ _ _ _ L) as ok. split.
  - by eapply buffers_ok_ext; [|exact Hd|apply L].
  - intros k Hk. rewrite (buf_at_ext _ m m') by done.
    destruct (r_desc_ext _ ok m m' k Hd Hk) as [-> ->]. by apply L.
Qed.

(** Nothing changes when nothing of the ring and the buffers changes. *)
Lemma lane_ext o bsz qs qr m m' fl hd :
  lane o bsz qs qr m fl hd → (∀ a, shared (vq_ring qs) bsz m a → byte_at m' a = byte_at m a) →
  lane o bsz qs qr m' fl hd.
Proof.
  intros L Hag. pose proof (lane_ok _ _ _ _ _ _ _ L) as ok.
  assert (agree_on (desc (vq_ring qs)) (vring_end (vq_ring qs)) m' m) as Hring.
  { intros a Ha. apply Hag. by left. }
  destruct (agree_outgoing o 0 qs m m' (ln_swf _ _ _ _ _ _ _ L) Hring) as [Hso _].
  destruct (agree_outgoing (peer o) 0 qr m m' (ln_rwf _ _ _ _ _ _ _ L)) as [Hsp _];
    [by rewrite (ln_ring _ _ _ _ _ _ _ L)|].
  pose proof (proj1 Hso) as Hd. destruct (lane_desc _ _ _ _ _ _ _ _ L Hd) as [Hb Hds].
  destruct (lane_in_range _ _ _ _ _ _ _ L) as [Rs Rp]. rewrite Forall_forall in Rs, Rp.
  assert (incoming o qs m' = incoming o qs m) as Ei.
  { apply incoming_ext; [apply L|done|]. intros i l Hi. apply (Rs (i, l) Hi). }
  assert (incoming (peer o) qr m' = incoming (peer o) qr m) as Ep.
  { apply incoming_ext; [apply L|done|]. intros i l Hi. rewrite (ln_ring _ _ _ _ _ _ _ L). apply (Rp (i, l) Hi). }
  destruct (kept_msgs (vq_ring qs) bsz m m' (fl ++ hd) ok Hd) as [Hm Hh];
    [apply L| | |apply L|].
  - apply Forall_forall. intros k Hk. rewrite fmap_app in Hk. eapply lane_range; [exact L|]. apply elem_of_app. by right.
  - intros k Hk a Ha. apply Hag. right. exists k. split; [|done]. rewrite fmap_app in Hk.
    eapply lane_range; [exact L|]. apply elem_of_app. by right.
  - constructor; rewrite ?Ei, ?Ep; try done; try apply L.
    eapply held_ext; [apply L|]. by apply Forall_app in Hh as [_ Hh].
Qed.

(** A message is sent in the first free buffer. *)
Lemma lane_send o bsz qs qs' qr m m' fl hd k l rest msg :
  lane o bsz qs qr m fl hd → incoming o qs m = (k, l) :: rest → vq_ring qs' = vq_ring qs → vq_wf qs' →
  incoming o qs' m' = rest →
  outgoing o (read_idx (peer o) qr) qs' m' = outgoing o (read_idx (peer o) qr) qs m ++ [out_entry o k l] →
  same_desc (vq_ring qs) m m' → read_msg m' (buf_at (vq_ring qs) m k) = msg → 16 + msg_len msg ≤ bsz →
  (∀ j, 0 ≤ j < num (vq_ring qs) → j ≠ k →
     agree_on (buf_at (vq_ring qs) m j) (buf_at (vq_ring qs) m j + bsz) m' m) →
  lane o bsz qs' qr m' (fl ++ [(k, msg)]) hd.
Proof.
  intros L Hin Er Hwf Hin' Hout Hd Hmsg Hlen Hag. pose proof (lane_ok _ _ _ _ _ _ _ L) as ok.
  destruct (lane_desc _ _ _ _ _ _ _ _ L Hd) as [Hb Hds]. destruct (lane_in_range _ _ _ _ _ _ _ L) as [Rs Rp].
  pose proof (incoming_grows o qs qs' qr m m' _ (ln_ring _ _ _ _ _ _ _ L) Er ok Hd Rp Hout) as Hgrow.
  pose proof (lane_nodup _ _ _ _ _ _ _ L) as Hnd. rewrite Hin in Hnd, Rs. cbn [fmap list_fmap app fst] in Hnd.
  apply NoDup_cons in Hnd as [Hk _]. apply Forall_cons in Rs as [Rk _]. cbn [fst] in Rk.
  pose proof (ok_max _ ok). cbn [fmap list_fmap] in Hgrow. rewrite wire_out in Hgrow by lia.
  rewrite !elem_of_app in Hk.
  destruct (kept_msgs (vq_ring qs) bsz m m' (fl ++ hd) ok Hd) as [Hm Hh]; [apply L| | |apply L|].
  { apply Forall_forall. intros j Hj. rewrite fmap_app in Hj. eapply lane_range; [exact L|]. apply elem_of_app. by right. }
  { intros j Hj. rewrite fmap_app in Hj. apply Hag.
    - eapply lane_range; [exact L|]. apply elem_of_app. by right.
    - intros ->. apply Hk. right. by apply elem_of_app in Hj. }
  destruct (ln_lens _ _ _ _ _ _ _ L) as [Ls Lp]. rewrite Hin in Ls. apply Forall_cons in Ls as [Lk Ls]. cbn [snd] in Lk.
  constructor; rewrite ?Er, ?Hin', ?Hgrow; try done; try apply L.
  - rewrite <- (ln_where _ _ _ _ _ _ _ L), Hin, fmap_app. cbn [fmap list_fmap fst app].
    rewrite <- app_assoc. cbn [app]. rewrite !app_assoc. symmetry. apply Permutation_middle.
  - by rewrite !fmap_app, (ln_flying _ _ _ _ _ _ _ L).
  - split; [done|]. apply Forall_app_2; [done|]. apply Forall_singleton. destruct o; cbn; [by apply Hds|done].
  - apply Forall_app in Hm as [Hf Hh']. rewrite <- app_assoc. apply Forall_app_2; [done|]. apply Forall_cons_2; [|done].
    cbn [fst snd]. by rewrite (buf_at_ext _ m m').
  - eapply held_ext; [apply L|]. by apply Forall_app in Hh as [_ Hh].
Qed.

(** The messages of [fl] whose callbacks answered [RL_HOLD]. *)
Definition kept (fl : list (Z * rpmsg_std_msg)) (vs : list Z) : list (Z * rpmsg_std_msg) :=
  (filter (λ x, x.2 = RL_HOLD) (zip fl vs)).*1.

Lemma kept_cons x fl v vs : kept (x :: fl) (v :: vs) = (if v =? RL_HOLD then [x] else []) ++ kept fl vs.
Proof. unfold kept. cbn [zip zip_with]. rewrite filter_cons. destruct (Z.eqb_spec v RL_HOLD); by case_decide. Qed.

(** Every message received is kept or its buffer given back. *)
Lemma kept_released p vr m xs fl vs :
  xs.*1 = fl.*1 → length vs = length xs → Forall (λ x, 0 ≤ x.1 < 65536) xs →
  (wire vr m <$> released p xs vs).*1 ++ (kept fl vs).*1 ≡ₚ fl.*1.
Proof.
  revert fl vs. induction xs as [|[k l] xs IH]; intros [|y fl] [|v vs] Hk Hl Hr; try done.
  injection Hk as Hk1 Hk2. cbn in Hk1. injection Hl as Hl. apply Forall_cons in Hr as [Rk Hr]. cbn [fst] in Rk.
  specialize (IH fl vs Hk2 Hl Hr). rewrite released_cons, kept_cons. destruct (v =? RL_HOLD); cbn [app fmap list_fmap fst].
  - rewrite <- Hk1, <- IH. symmetry. apply Permutation_middle.
  - rewrite wire_out by done. cbn [fst]. by rewrite IH, Hk1.
Qed.

Lemma kept_in fl vs k msg :
  (k, msg) ∈ kept fl vs → (k, msg) ∈ fl.
Proof.
  unfold kept. intros ([x v] & Hx & Hin)%list_elem_of_fmap. cbn in Hx. subst x.
  apply list_elem_of_filter in Hin as [_ Hin]. by eapply elem_of_zip_l.
Qed.

Lemma kept_zip (xs : list (Z * Z)) fl vs k msg :
  xs.*1 = fl.*1 → (k, msg) ∈ kept fl vs → ∃ l, ((k, l), RL_HOLD) ∈ zip xs vs.
Proof.
  revert fl vs. induction xs as [|[k0 l0] xs IH]; intros [|[k1 m1] fl] [|v vs] Hk Hin; try done.
  1-3: by apply not_elem_of_nil in Hin.
  injection Hk as -> Hk. rewrite kept_cons in Hin.
  cbn [zip zip_with]. destruct (Z.eqb_spec v RL_HOLD) as [->|Hv]; cbn [app] in Hin.
  - apply elem_of_cons in Hin as [[= -> ->]|Hin]; [exists l0; by left|].
    destruct (IH fl vs Hk Hin) as [l Hl]. exists l. by right.
  - destruct (IH fl vs Hk Hin) as [l Hl]. exists l. by right.
Qed.

(** Everything on its way is received: kept, or given back to the sender. *)
Lemma lane_receive o bsz qs qr qr' m m' fl hd vs :
  lane o bsz qs qr m fl hd → vq_ring qr' = vq_ring qr → vq_wf qr' → incoming (peer o) qr' m' = [] →
  length vs = length (incoming (peer o) qr m) →
  outgoing (peer o) (read_idx o qs) qr' m' =
    outgoing (peer o) (read_idx o qs) qr m ++ released (peer o) (incoming (peer o) qr m) vs →
  same_desc (vq_ring qs) m m' →
  (∀ k l, ((k, l), RL_HOLD) ∈ zip (incoming (peer o) qr m) vs →
    let b := buf_at (vq_ring qs) m k in load 2 m' (a_hdr_idx b) = k ∧
    ∀ a, b ≤ a < b + bsz → a < a_hdr_idx b ∨ a_hdr_idx b + 2 ≤ a → byte_at m' a = byte_at m a) →
  (∀ j, 0 ≤ j < num (vq_ring qs) → j ∉ (incoming (peer o) qr m).*1 →
    agree_on (buf_at (vq_ring qs) m j) (buf_at (vq_ring qs) m j + bsz) m' m) →
  lane o bsz qs qr' m' [] (hd ++ kept fl vs).
Proof.
  intros L Er Hwf Hin' Hvs Hout Hd Hheld Hoth. pose proof (lane_ok _ _ _ _ _ _ _ L) as ok. pose proof (ok_max _ ok).
  destruct (lane_desc _ _ _ _ _ _ _ _ L Hd) as [Hb Hds]. destruct (lane_in_range _ _ _ _ _ _ _ L) as [Rs Rp].
  pose proof (ln_ring _ _ _ _ _ _ _ L) as Hring. pose proof (ln_flying _ _ _ _ _ _ _ L) as Hfl.
  set (xs := incoming (peer o) qr m) in *.
  pose proof (incoming_grows (peer o) qr qr' qs m m') as Hgrow. rewrite peer_peer, Hring in Hgrow.
  specialize (Hgrow _ eq_refl ltac:(congruence) ok Hd Rs Hout).
  assert (Forall (λ x, 0 ≤ x.1 < 65536) xs) as R16 by (eapply Forall_impl; [exact Rp|]; cbv beta; lia).
  pose proof (kept_released (peer o) (vq_ring qs) m' xs fl vs Hfl Hvs R16) as Hperm.
  pose proof (lane_nodup _ _ _ _ _ _ _ L) as Hnd. rewrite app_assoc in Hnd. apply NoDup_app in Hnd as (_ & Hnd & _).
  destruct (kept_msgs (vq_ring qs) bsz m m' hd ok Hd) as [Hm Hh]; [apply L| | | |].
  { apply Forall_forall. intros k Hk. eapply lane_range; [exact L|]. rewrite !elem_of_app. tauto. }
  { intros k Hk. apply Hoth; [eapply lane_range; [exact L|]; rewrite !elem_of_app; tauto|].
    rewrite Hfl. intros Hk'. apply (Hnd k); [|done]. apply elem_of_app. by right. }
  { pose proof (ln_msgs _ _ _ _ _ _ _ L) as Hf. by apply Forall_app in Hf as [_ Hf]. }
  assert (Forall (λ x, (read_msg m' (buf_at (vq_ring qs) m' x.1) = x.2 ∧ 16 + msg_len x.2 ≤ bsz) ∧
    load 2 m' (a_hdr_idx (buf_at (vq_ring qs) m' x.1)) = x.1) (kept fl vs)) as Hkept.
  { apply Forall_forall. intros [k msg] Hk. cbn [fst snd]. destruct (kept_zip xs fl vs k msg Hfl Hk) as [l Hz].
    destruct (Hheld k l Hz) as [Hidx Hbytes]. pose proof (kept_in _ _ _ _ Hk) as Hkf.
    assert (0 ≤ k < num (vq_ring qs)) as Rk.
    { eapply lane_range; [exact L|]. rewrite !elem_of_app. right. left. by apply (list_elem_of_fmap_2 fst _ _ Hkf). }
    rewrite (buf_at_ext _ m m') by done. pose proof (ln_msgs _ _ _ _ _ _ _ L) as Hf.
    apply Forall_app in Hf as [Hf _]. rewrite Forall_forall in Hf. destruct (Hf _ Hkf) as [Hmsg Hlen]. cbn [fst snd] in Hmsg, Hlen.
    split; [|done]. split; [|done]. rewrite <- Hmsg. apply (read_msg_idx _ _ _ bsz); [done|]. by rewrite Hmsg. }
  apply Forall_and in Hkept as [Hk1 Hk2].
  constructor; rewrite ?Er, ?Hin', ?Hgrow; try done; try apply L.
  - rewrite <- (ln_where _ _ _ _ _ _ _ L), !fmap_app, <- Hperm. cbn [fmap list_fmap app].
    rewrite <- !app_assoc. apply Permutation_app_head. apply Permutation_app_head. apply Permutation_app_comm.
  - destruct (ln_lens _ _ _ _ _ _ _ L) as [Ls Lp]. split; [|done]. apply Forall_app_2; [done|].
    apply Forall_fmap, Forall_forall. intros [k ol] Hx. unfold released in Hx.
    apply list_elem_of_fmap in Hx as ([[k' l'] v] & Hx & [_ Hz]%list_elem_of_filter). cbn [fst snd] in Hx.
    apply elem_of_zip_l in Hz. rewrite Forall_forall in Rp, Lp. pose proof (Rp _ Hz) as Rk. cbn [fst] in Rk.
    change ((wire (vq_ring qs) m' (k, ol)).2 ≤ bsz). rewrite Hx, wire_out by lia. cbn [snd]. destruct o; cbn [peer]; [exact (Lp _ Hz)|by apply Hds].
  - cbn [app]. by apply Forall_app_2.
  - apply Forall_app_2; [|done]. eapply held_ext; [apply L|done].
Qed.

(** A held buffer is given back. *)
Lemma lane_release o bsz qs qr qr' m m' fl hd1 k msg hd2 :
  lane o bsz qs qr m fl (hd1 ++ (k, msg) :: hd2) → vq_ring qr' = vq_ring qr → vq_wf qr' →
  incoming (peer o) qr' m' = incoming (peer o) qr m →
  outgoing (peer o) (read_idx o qs) qr' m' =
    outgoing (peer o) (read_idx o qs) qr m ++ [out_entry (peer o) k (r_desc_len (vq_ring qs) m k)] →
  same_desc (vq_ring qs) m m' →
  (∀ j, 0 ≤ j < num (vq_ring qs) → j ≠ k →
    agree_on (buf_at (vq_ring qs) m j) (buf_at (vq_ring qs) m j + bsz) m' m) →
  lane o bsz qs qr' m' fl (hd1 ++ hd2).
Proof.
  intros L Er Hwf Hin' Hout Hd Hoth. pose proof (lane_ok _ _ _ _ _ _ _ L) as ok. pose proof (ok_max _ ok).
  destruct (lane_desc _ _ _ _ _ _ _ _ L Hd) as [Hb Hds]. destruct (lane_in_range _ _ _ _ _ _ _ L) as [Rs Rp].
  pose proof (ln_ring _ _ _ _ _ _ _ L) as Hring.
  pose proof (incoming_grows (peer o) qr qr' qs m m') as Hgrow. rewrite peer_peer, Hring in Hgrow.
  specialize (Hgrow _ eq_refl ltac:(congruence) ok Hd Rs Hout).
  assert (0 ≤ k < num (vq_ring qs)) as Rk.
  { eapply lane_range; [exact L|]. rewrite !fmap_app, !fmap_cons, !elem_of_app, elem_of_cons. cbn [fst]. tauto. }
  cbn [fmap list_fmap] in Hgrow. rewrite wire_out in Hgrow by lia.
  assert ((incoming o qs m).*1 ++ fl.*1 ++ (hd1 ++ (k, msg) :: hd2).*1 ≡ₚ k :: (incoming o qs m).*1 ++ fl.*1 ++ (hd1 ++ hd2).*1) as Hp.
  { rewrite !fmap_app, fmap_cons. cbn [fst]. rewrite !app_assoc. symmetry. apply Permutation_middle. }
  pose proof (lane_nodup _ _ _ _ _ _ _ L) as Hnd. rewrite Hp in Hnd. apply NoDup_cons in Hnd as [Hk _].
  assert (∀ j, j ∈ (fl ++ hd1 ++ hd2).*1 → 0 ≤ j < num (vq_ring qs) ∧ j ≠ k) as Hj.
  { intros j Hj. rewrite fmap_app in Hj. split.
    - eapply lane_range; [exact L|]. rewrite Hp. right. apply elem_of_app. by right.
    - intros ->. apply Hk. apply elem_of_app. by right. }
  pose proof (ln_msgs _ _ _ _ _ _ _ L) as Hf. pose proof (ln_held _ _ _ _ _ _ _ L) as Hh.
  rewrite !Forall_app, !Forall_cons in Hf. rewrite !Forall_app, !Forall_cons in Hh.
  destruct (kept_msgs (vq_ring qs) bsz m m' (fl ++ hd1 ++ hd2) ok Hd) as [Hm Hi]; [apply L| | | |].
  { apply Forall_forall. intros j Hx. by apply Hj. }
  { intros j Hx. by apply Hoth; apply Hj. }
  { rewrite !Forall_app. tauto. }
  constructor; rewrite ?Er, ?Hin', ?Hgrow; try done; try apply L.
  - rewrite <- (ln_where _ _ _ _ _ _ _ L), Hp, fmap_app. cbn [fmap list_fmap fst].
    rewrite <- app_assoc. symmetry. apply Permutation_middle.
  - destruct (ln_lens _ _ _ _ _ _ _ L) as [Ls Lp]. split; [|done]. apply Forall_app_2; [done|].
    apply Forall_singleton. cbn [snd]. destruct o; cbn [peer]; [|by apply Hds]. apply (ln_desc _ _ _ _ _ _ _ L _ Rk).
  - eapply held_ext; [|by apply Forall_app in Hi as [_ Hi]]. apply Forall_app. tauto.
Qed.

End lane.
