(* ===== verification/Side.v ===== *)
(** * One core's calls

    The calls an application makes on a live instance, sending, receiving and
    releasing, and what each does to the two lanes ([Lane]) of the instance:
    the one it sends on and the one it receives on. *)

From S2P Require Import Prelude Memory Config VirtioRing Virtqueue RingQueue VirtqueueSpec Concrete ChannelRefinement World Lpc55s69 Llist Endpoint Transport RpmsgLite Sending Receiving Lane.

(** A call: [ApiSend] fills the application's own buffer at [data] with
    [payload] and sends it from the endpoint [x] with timeout 0; [ApiReceive] is
    the receive interrupt; [ApiRelease] gives a kept payload back. *)
Inductive api : Type :=
| ApiSend (x : entry) (dst data : Z) (payload : list Z)
| ApiReceive
| ApiRelease (p : Z).

(** The message a send puts on its way. *)
Definition message (x : entry) (dst : Z) (payload : list Z) : rpmsg_std_msg :=
  {| msg_src := e_addr x; msg_dst := dst; msg_len := Z.of_nat (length payload); msg_flags := 0; msg_payload := payload |}.

Section calls.
Context {E : Type} {el : EnvLayer E} {rxd : RxDispatch E} {out : Outside E} {app : Application E}.
Context {cfg : Config} {am : AddrMap}.

Definition do_api (fuel : nat) (dev : Z) (i : rpmsg_lite_instance) (c : api) : W E Z :=
  match c with
  | ApiSend x dst data payload =>
      modify (set_mem (λ m, store_bytes m data payload));;
      rpmsg_lite_send fuel dev (e_ptr x) dst data (Z.of_nat (length payload)) 0
  | ApiReceive => rpmsg_lite_rx_callback fuel (rvq i);; mret RL_SUCCESS
  | ApiRelease p => rpmsg_lite_release_rx_buffer dev p
  end.

End calls.

(** The calls that handing over the messages of [l] makes, in the order of the
    trace (newest first). *)
Definition call_of {am : AddrMap} (t : list entry) (vr : vring) (m : mem) (x : Z * rpmsg_std_msg) : list event :=
  match addressee t (msg_dst x.2) with
  | Some e => [EvRxCb (e_addr e) (a_msg_data (buf_at vr m x.1)) (msg_len x.2) (msg_src x.2) (rx_cb_data e.2.2)]
  | None => []
  end.
Definition calls_of {am : AddrMap} (t : list entry) (vr : vring) (m : mem) (l : list (Z * rpmsg_std_msg)) : list event :=
  mjoin (reverse (call_of t vr m <$> l)).

Section side.
Context {E : Type} {el : EnvLayer E} {laws : EnvLaws E} {rxd : RxDispatch E} {out : Outside E} {app : Application E}.
Context {cfg : Config} {am : AddrMap}.
Implicit Types w : world E.

(** The instance, its endpoints, the size of its buffers and of the largest
    payload, the shared memory, and what the callbacks rely on. *)
Context (dev : Z) (i : rpmsg_lite_instance) (t : list entry) (bsz lim : Z).
Context (region : Z → Prop) (K : world E → Prop) (fuel : nat).

(** The instance between two calls, in role [o], with its two queues. *)
Record side (o : virtqueue_ops) (qt qr : virtqueue) (w : world E) : Prop := {
  sd_lite : lite_ok dev i o qt qr w;
  sd_table : ept_table (w_heap w) dev i t;
  sd_epts : Forall (λ x, e_ptr x ≠ NULL ∧ 0 ≤ e_addr x < 4294967296) t;
  sd_link : link_state i = RL_TRUE;
  sd_lim : payload_max i = Some lim;
  sd_priv : priv qr = dev;
  sd_cb : K w;
}.

(** What the callbacks of the endpoints may do: anything with objects and memory
    of the application's own, and answer as they like. *)
Record leaves_alone (w w' : world E) : Prop := {
  la_objs : ∀ x, x ∈ dev :: tvq i :: rvq i :: (e_node <$> t) ++ (e_ptr <$> t) → w_heap w' !! x = w_heap w !! x;
  la_mem : ∀ a, region a → byte_at (w_mem w') a = byte_at (w_mem w) a;
  la_free : lock_free (w_env w) (lock i) → lock_free (w_env w') (lock i);
  la_mine : lock_mine (w_env w) (lock i) → lock_mine (w_env w') (lock i);
  la_trace : filter is_rx (w_trace w') = filter is_rx (w_trace w);
}.
Record well_behaved : Prop := {
  wb_stable : ∀ w w', same_queues (w_env w) (w_env w') → K w → K w';
  wb_call : ∀ w x p len src, x ∈ t → K w →
    ∃ v w', call_rx_cb (rx_cb x.2.2) p len src (rx_cb_data x.2.2) w = Ok v w' ∧ K w' ∧ leaves_alone w w';
}.
Hypothesis wb : well_behaved.

(** The arguments of a send: an endpoint of the table, an address, and a payload
    that fits, in memory of the application's own. *)
Record send_args (x : entry) (dst data : Z) (payload : list Z) : Prop := {
  sg_ept : x ∈ t;
  sg_dst : 0 ≤ dst < 4294967296;
  sg_data : data ≠ NULL;
  sg_bytes : Forall (λ b, 0 ≤ b < 256) payload;
  sg_lim : Z.of_nat (length payload) ≤ lim;
  sg_size : Z.of_nat (length payload) < 65536 ∧ 16 + Z.of_nat (length payload) ≤ bsz;
  sg_own : ∀ a, data ≤ a < data + Z.max 1 (Z.of_nat (length payload)) → ¬ region a;
}.

Lemma same_queues_refl e : same_queues e e.
Proof using laws. reflexivity. Qed.

Lemma filter_quiet tr : Forall quiet tr → filter is_rx tr = [].
Proof.
  induction 1 as [|e tr He Htr IH]; [done|]. rewrite filter_cons_False; [done|].
  destruct He as [He|He]; destruct e; cbn in *; tauto.
Qed.

(** The side after an operation on its transmit queue. *)
Lemma side_tvq o qt qt' qr w w' :
  side o qt qr w → lite_ok dev i o qt' qr w' → only_queue (tvq i) qt' w w' → side o qt' qr w'.
Proof using wb.
  intros [Hlo Ht He Hl Hm Hp HK] Hlo' [Hh _ _ Hq]. constructor; try done.
  - rewrite Hh. eapply ept_table_insert_vq; [exact Ht|apply Hlo].
  - by apply (wb_stable wb w).
Qed.

(** ** Sending *)

Lemma side_send o qt qr pr w fl hd x dst data payload :
  side o qt qr w → send_args x dst data payload → lane o bsz qt pr (w_mem w) fl hd →
  (∀ a, shared (vq_ring qt) bsz (w_mem w) a → region a) →
  ∃ r w' qt', do_api fuel dev i (ApiSend x dst data payload) w = Ok r w' ∧ side o qt' qr w' ∧
    vq_ring qt' = vq_ring qt ∧ same_desc (vq_ring qt) (w_mem w) (w_mem w') ∧
    (r = RL_SUCCESS ∧ (∃ k, lane o bsz qt' pr (w_mem w') (fl ++ [(k, message x dst payload)]) hd) ∨
     r = RL_ERR_NO_MEM ∧ incoming o qt (w_mem w) = [] ∧ lane o bsz qt' pr (w_mem w') fl hd) ∧
    (∀ a, region a → ¬ shared (vq_ring qt) bsz (w_mem w) a → byte_at (w_mem w') a = byte_at (w_mem w) a) ∧
    filter is_rx (w_trace w') = filter is_rx (w_trace w).
Proof using wb.
  intros Hs [Hx Hdst Hdata Hbytes Hlim [Hsz Hbsz] Hown] L Hreg. pose proof (lane_ok _ _ _ _ _ _ _ L) as ok.
  set (n := Z.of_nat (length payload)) in *. set (m0 := store_bytes (w_mem w) data payload).
  set (w0 := set_mem (λ m, store_bytes m data payload) w).
  pose proof (store_bytes_frames (w_mem w) data payload) as Hf. fold n m0 in Hf.
  assert (∀ a, region a → byte_at m0 a = byte_at (w_mem w) a) as Hm0.
  { intros a Ha. apply Hf. destruct (decide (data ≤ a < data + n)); [|lia]. exfalso. apply (Hown a); [lia|done]. }
  assert (lane o bsz qt pr m0 fl hd) as L0 by (eapply lane_ext; [exact L|auto]).
  assert (same_desc (vq_ring qt) (w_mem w) m0) as Hd0.
  { intros a Ha. apply Hm0, Hreg. left. pose proof (ok_avail _ ok). pose proof (ok_used _ ok).
    pose proof (vring_ok_num_pos _ ok). unfold vring_end in *. lia. }
  assert (lite_ok dev i o qt qr w0) as Hlo by (destruct (sd_lite _ _ _ _ Hs); by constructor).
  pose proof (sd_epts _ _ _ _ Hs) as Hep. rewrite Forall_forall in Hep. destruct (Hep x Hx) as [Hp Hsrc].
  assert (w_heap w0 !! e_ptr x = Some (OEpt x.2.2)) as Hept.
  { pose proof (tab_epts _ _ _ _ (sd_table _ _ _ _ Hs)) as Hall. rewrite Forall_forall in Hall. by apply Hall. }
  assert (side o qt qr w0) as Hs0.
  { destruct Hs. constructor; try done. by apply (wb_stable wb w); [apply same_queues_refl|]. }
  assert (do_api fuel dev i (ApiSend x dst data payload) w = rpmsg_lite_send fuel dev (e_ptr x) dst data n 0 w0) as ->
    by reflexivity.
  destruct (incoming o qt m0) as [|[k l] rest] eqn:Hin.
  - destruct (send_full_ok fuel dev i o qt qr (e_ptr x) x.2.2 dst data n 0 lim w0)
      as (w' & R & Hoq & Hm & Hlo' & tr & Htr & Hquiet); try done; [apply Hs|apply Hs|].
    exists RL_ERR_NO_MEM, w', qt. rewrite Hm. change (w_mem w0) with m0. split_and!; try done.
    + by apply (side_tvq o qt qt qr w0).
    + right. split_and!; try done. rewrite <- Hin. apply incoming_ext; [apply L|split|].
      * intros a Ha. symmetry. by apply Hd0.
      * destruct (agree_outgoing o 0 qt (w_mem w) m0) as [[_ Hio] _]; [apply L| |].
        { intros a Ha. apply Hm0, Hreg. by left. }
        destruct o; intros a Ha; symmetry; by apply Hio.
      * rewrite Hin. by intros ?? ?%not_elem_of_nil.
    + intros a Ha _. by apply Hm0.
    + rewrite Htr, filter_app, (filter_quiet tr Hquiet). done.
  - set (b := buf_at (vq_ring qt) m0 k).
    destruct (lane_in_range _ _ _ _ _ _ _ L0) as [Rs _]. rewrite Hin in Rs. apply Forall_cons in Rs as [Rk Rs].
    cbn [fst] in Rk.
    assert (sendable o (read_idx (peer o) pr) qt bsz k l m0) as Hsa.
    { constructor; [apply L0|done| | |].
      - apply (incoming_range o qt m0 k l). rewrite Hin. by left.
      - intros j len Hj. rewrite Hin in Hj. apply elem_of_cons in Hj as [[= -> ->]|Hj]; [lia|].
        rewrite Forall_forall in Rs. by apply (Rs (j, len)).
      - rewrite (lane_flying_length _ _ _ _ _ _ _ L0). pose proof (lane_count _ _ _ _ _ _ _ L0) as Hc.
        rewrite Hin in Hc. cbn [length] in Hc. lia. }
    assert (∀ a, b ≤ a < b + bsz → shared (vq_ring qt) bsz (w_mem w) a) as Hbs.
    { intros a Ha. right. exists k. split; [done|]. unfold b in Ha. by rewrite (buf_at_ext _ (w_mem w) m0) in Ha. }
    assert (data + n ≤ b ∨ b + 16 + n ≤ data) as Hap.
    { destruct (decide (data + n ≤ b)); [by left|]. destruct (decide (b + 16 + n ≤ data)); [by right|]. exfalso.
      apply (Hown (Z.max data b)); [lia|]. apply Hreg, Hbs. lia. }
    destruct (format_message_ok fuel dev i o (read_idx (peer o) pr) qt qr bsz k l rest (e_addr x) dst data n
      RL_NO_FLAGS (u32 0) w0) as (w' & qt' & R & Hrest & Hsent); try done;
      [apply Hs|lia|].
    change (w_mem w0) with m0 in Hsent. fold b in Hsent. destruct Hsent as [Smsg Sout Sin Sdesc Smem Sq Sring Swf Slock (tr & Str & Sq')].
    assert (vq_ring qt' = vq_ring qt) as Er by (destruct Sring as (-> & _); by destruct o).
    change (vq_ring (taken o qt)) with (vq_ring qt) in * || (assert (vq_ring (taken o qt) = vq_ring qt) as Et by (by destruct o); rewrite Et in Sdesc, Smem).
    assert (lite_ok dev i o qt' qr w') as Hlo' by (by eapply lite_ok_tvq).
    exists RL_SUCCESS, w', qt'. split_and!.
    + rewrite (send_formats fuel dev i o qt qr (e_ptr x) x.2.2 dst data n 0 lim w0); try done. apply Hs.
    + by apply (side_tvq o qt qt' qr w0).
    + done.
    + by eapply same_desc_trans.
    + left. split; [done|]. exists k.
      assert (message x dst payload = {| msg_src := e_addr x; msg_dst := dst; msg_len := n; msg_flags := RL_NO_FLAGS;
        msg_payload := load_bytes m0 data (Z.to_nat n) |}) as ->.
      { unfold message. fold n. f_equal. unfold m0, n. rewrite Nat2Z.id. symmetry. by apply load_store_bytes. }
      eapply (lane_send o bsz qt qt' pr m0 (w_mem w') fl hd k l rest); try done; [|].
      * rewrite Sout. f_equal. by apply outgoing_ring; destruct o.
      * intros j Hj Hjk a Ha. apply Smem.
        -- pose proof (bo_ring _ _ _ (ln_bufs _ _ _ _ _ _ _ L0) j Hj). lia.
        -- pose proof (bo_disjoint _ _ _ (ln_bufs _ _ _ _ _ _ _ L0) j k Hj Rk Hjk) as Hdis. fold b in Hdis. lia.
    + intros a Ha Hna. rewrite Smem; [by apply Hm0| |].
      * destruct (decide (desc (vq_ring qt) ≤ a < vring_end (vq_ring qt))); [|lia]. destruct Hna. by left.
      * destruct (decide (b ≤ a < b + bsz)); [|lia]. destruct Hna. by apply Hbs.
    + rewrite Str. cbn [Datatypes.app]. rewrite filter_cons_False by tauto. rewrite !filter_app, (filter_quiet tr Sq').
      unfold notified. destruct (negb _); [done|]. by destruct (notify_fc _).
Qed.

(** ** Receiving *)

(** The side after an operation that changed the receive queue. *)
Lemma side_rvq o qt qr qr' w w' :
  side o qt qr w → rx_inv dev i o t bsz qr' w' → same_ring qr qr' → w_heap w' !! tvq i = Some (OVq qt) →
  lock_free (w_env w') (lock i) → K w' → side o qt qr' w'.
Proof.
  intros [[Hd Hi Ho Ht Hr Hne Hwt Hwr Hl] Htab He Hup Hlim Hp HK] Hinv Hring Ht' Hl' HK'.
  constructor; try done; [|apply Hinv|].
  - constructor; try done; try apply Hinv.
  - destruct Hring as (_ & _ & _ & _ & _ & _ & _ & E0). by rewrite E0.
Qed.

Lemma side_rx_inv s qs qt qr w fl hd :
  side (peer s) qt qr w → lane s bsz qs qr (w_mem w) fl hd → rx_inv dev i (peer s) t bsz qr w.
Proof.
  intros [Hlo Ht _ _ _ _ _] L. constructor; try done; try apply Hlo; [|apply L].
  rewrite (ln_ring _ _ _ _ _ _ _ L). apply L.
Qed.

Lemma calls_of_rx s qs qr m fl hd xs :
  lane s bsz qs qr m fl hd → incoming (peer s) qr m = xs →
  rx_call t (vq_ring qr) m <$> xs = call_of t (vq_ring qr) m <$> fl.
Proof.
  intros L <-. pose proof (ln_flying _ _ _ _ _ _ _ L) as Hk. pose proof (ln_msgs _ _ _ _ _ _ _ L) as Hm.
  rewrite <- (ln_ring _ _ _ _ _ _ _ L) in Hm. apply Forall_app in Hm as [Hm _]. revert Hm Hk.
  clear L. generalize (incoming (peer s) qr m). induction fl as [|[k msg] fl IH]; intros [|[k' l] xs] Hm Hk; try done.
  injection Hk as -> Hk. apply Forall_cons in Hm as [[Hmsg _] Hm]. cbn [fst snd] in Hmsg.
  rewrite !fmap_cons, (IH _ Hm Hk). f_equal. unfold rx_call, call_of. cbn [fst snd]. by rewrite Hmsg.
Qed.

(** What stays while the messages are handed over. *)
Definition keeping (qt qr : virtqueue) (w w1 : world E) : Prop :=
  K w1 ∧ w_heap w1 !! tvq i = Some (OVq qt) ∧
  (∀ q, w_heap w1 !! rvq i = Some (OVq q) → vq_ring q = vq_ring qr) ∧ same_desc (vq_ring qr) (w_mem w) (w_mem w1) ∧
  ∀ a, region a → ¬ shared (vq_ring qr) bsz (w_mem w) a → byte_at (w_mem w1) a = byte_at (w_mem w) a.

Lemma keeping_lib o qt qr w w1 w2 :
  vring_ok (vq_ring qr) → tvq i ≠ rvq i → lib_step dev i o t bsz w1 w2 → keeping qt qr w w1 → keeping qt qr w w2.
Proof using wb.
  intros ok Hne [Hq _ Hh (q & q' & I1 & I2 & Er & Hd & Hm)] (HK & Ht & Hr & Hdk & Hreg).
  pose proof (Hr q (ri_rvq _ _ _ _ _ _ _ I1)) as Eq. rewrite Eq in *. split_and!.
  - by apply (wb_stable wb w1).
  - by rewrite Hh.
  - intros q0 Hq0. rewrite (ri_rvq _ _ _ _ _ _ _ I2) in Hq0. injection Hq0 as <-. by rewrite Er.
  - by eapply same_desc_trans.
  - intros a Ha Hna. rewrite Hm; [by apply Hreg|]. intros Hs. apply Hna. by apply (shared_ext bsz _ _ (w_mem w1)).
Qed.

Lemma side_receive s qs qt qr w fl hd :
  side (peer s) qt qr w → lane s bsz qs qr (w_mem w) fl hd →
  (∀ a, shared (vq_ring qr) bsz (w_mem w) a → region a) → num (vq_ring qr) ≤ Z.of_nat fuel →
  ∃ vs w' qr', do_api fuel dev i ApiReceive w = Ok RL_SUCCESS w' ∧ side (peer s) qt qr' w' ∧
    vq_ring qr' = vq_ring qr ∧ same_desc (vq_ring qr) (w_mem w) (w_mem w') ∧
    lane s bsz qs qr' (w_mem w') [] (hd ++ kept fl vs) ∧
    (∀ a, region a → ¬ shared (vq_ring qr) bsz (w_mem w) a → byte_at (w_mem w') a = byte_at (w_mem w) a) ∧
    filter is_rx (w_trace w') = calls_of t (vq_ring qr) (w_mem w) fl ++ filter is_rx (w_trace w).
Proof using wb.
  intros Hs L Hreg Hfuel. pose proof (side_rx_inv _ _ _ _ _ _ _ Hs L) as Hinv.
  pose proof (ln_ring _ _ _ _ _ _ _ L) as Hring. pose proof (lane_ok _ _ _ _ _ _ _ L) as ok. rewrite <- Hring in ok.
  pose proof (sd_lite _ _ _ _ Hs) as Hlo. pose proof (lo_two _ _ _ _ _ _ Hlo) as Hne.
  destruct (lane_in_range _ _ _ _ _ _ _ L) as [_ Rp]. destruct (ln_lens _ _ _ _ _ _ _ L) as [_ Lp].
  rewrite <- Hring in Rp.
  set (xs := incoming (peer s) qr (w_mem w)) in *.
  assert (length xs = length fl) as Exs.
  { rewrite <- (length_fmap fst xs), <- (length_fmap fst fl). by rewrite <- (ln_flying _ _ _ _ _ _ _ L). }
  pose proof (lane_count _ _ _ _ _ _ _ L) as Hcount. rewrite <- Hring in Hcount.
  assert (rx_entries bsz qr xs) as Hent.
  { split.
    - unfold xs. rewrite (ln_flying _ _ _ _ _ _ _ L). pose proof (lane_nodup _ _ _ _ _ _ _ L) as Hnd.
      apply NoDup_app in Hnd as (_ & _ & Hnd). by apply NoDup_app in Hnd as (Hnd & _).
    - rewrite !Forall_forall in *. intros [k l] Hx. destruct (incoming_range (peer s) qr (w_mem w) k l Hx) as [_ ?].
      pose proof (Rp _ Hx). pose proof (Lp _ Hx). cbn in *. lia. }
  destruct (rx_callback_ok dev i (peer s) t bsz (read_idx s qs) (λ _ _, True) (λ _, keeping qt qr w)
    (λ _ w1 w2, keeping_lib (peer s) qt qr w w1 w2 ok Hne)) with (hs := @nil Z) (fuel := fuel) (q := qr) (xs := xs) (w := w)
    as (vs & w' & qr' & Hrun & Hrec & Hlock & (HK & Ht & _ & Hd & Hrest) & _); try done; try apply Hs; try apply Hlo.
  - intros _ q1 w1 x p len src Hinv1 Hx (HK & Ht & Hr & Hd & Hm). set (w2 := called x p len src w1).
    destruct (wb_call wb w2 x p len src Hx) as (v & w' & Hrun & HK' & [Lo Lm Lf Lk Lt]);
      [by apply (wb_stable wb w1); [apply same_queues_refl|]|].
    exists v, w'. pose proof (Hr q1 (ri_rvq _ _ _ _ _ _ _ Hinv1)) as Eq.
    assert (∀ a, shared (vq_ring q1) bsz (w_mem w1) a → region a) as Hreg1.
    { intros a Ha. apply Hreg. rewrite Eq in Ha. by apply (shared_ext bsz _ _ (w_mem w1)). }
    split_and!; [exact Hrun|exact I|constructor|split_and!]; try done.
    + intros y Hy. apply Lo. set_solver.
    + intros a Ha. apply Lm, Hreg1. by left.
    + intros k Hk a Ha. apply Lm, Hreg1. right. by exists k.
    + rewrite Lo by set_solver. exact Ht.
    + intros q Hq. apply Hr. rewrite Lo in Hq by set_solver. exact Hq.
    + intros a Ha. rewrite Lm; [by apply Hd|]. apply Hreg. left.
      pose proof (ok_avail _ ok). pose proof (ok_used _ ok). pose proof (vring_ok_num_pos _ ok). unfold vring_end in *. lia.
    + intros a Ha Hna. rewrite Lm by done. by apply Hm.
  - unfold keeping. split_and!; try done; [apply Hs|apply Hlo|]. intros q Hq. rewrite (lo_rvq _ _ _ _ _ _ Hlo) in Hq. by injection Hq as <-.
  - lia.
  - rewrite (lane_back_length _ _ _ _ _ _ _ L), Exs. lia.
  - destruct Hrec as [Rinv Rring Rin Rout Rans Rcalls Rheld Roth Rdesc].
    pose proof (Forall2_length _ _ _ Rans) as Hlen.
    exists vs, w', qr'. split_and!.
    + unfold do_api. by rewrite (bind_ok _ _ _ _ _ Hrun).
    + by apply (side_rvq _ qt qr qr' w).
    + apply Rring.
    + exact Hd.
    + rewrite Hring in *. eapply (lane_receive s bsz qs qr qr'); try done; [apply Rring|apply Rinv].
    + exact Hrest.
    + rewrite Rcalls. unfold calls_of. by rewrite (calls_of_rx s qs qr (w_mem w) fl hd xs L eq_refl).
Qed.

(** ** Releasing *)

Lemma side_release s qs qt qr w fl hd1 k msg hd2 :
  side (peer s) qt qr w → lane s bsz qs qr (w_mem w) fl (hd1 ++ (k, msg) :: hd2) →
  (∀ a, shared (vq_ring qr) bsz (w_mem w) a → region a) →
  ∃ w' qr', do_api fuel dev i (ApiRelease (a_msg_data (buf_at (vq_ring qr) (w_mem w) k))) w = Ok RL_SUCCESS w' ∧
    side (peer s) qt qr' w' ∧ vq_ring qr' = vq_ring qr ∧ same_desc (vq_ring qr) (w_mem w) (w_mem w') ∧
    lane s bsz qs qr' (w_mem w') fl (hd1 ++ hd2) ∧
    (∀ a, region a → ¬ shared (vq_ring qr) bsz (w_mem w) a → byte_at (w_mem w') a = byte_at (w_mem w) a) ∧
    filter is_rx (w_trace w') = filter is_rx (w_trace w).
Proof using wb.
  intros Hs L Hreg. pose proof (side_rx_inv _ _ _ _ _ _ _ Hs L) as Hinv. pose proof (sd_lite _ _ _ _ Hs) as Hlo.
  pose proof (ln_ring _ _ _ _ _ _ _ L) as Hring. pose proof (lane_ok _ _ _ _ _ _ _ L) as ok. rewrite <- Hring in ok.
  assert (0 ≤ k < num (vq_ring qr)) as Rk.
  { rewrite Hring. eapply lane_range; [exact L|]. rewrite !fmap_app, fmap_cons, !elem_of_app, elem_of_cons. cbn [fst]. tauto. }
  destruct (lane_in_range _ _ _ _ _ _ _ L) as [_ Rp]. pose proof (lane_count _ _ _ _ _ _ _ L) as Hcount.
  pose proof (ln_held _ _ _ _ _ _ _ L) as Hh. rewrite !Forall_app, !Forall_cons in Hh. destruct Hh as (_ & Hidx & _).
  pose proof (ln_desc _ _ _ _ _ _ _ L) as Hdesc. rewrite <- Hring in *. cbn [fst] in Hidx.
  destruct (Hdesc k Rk) as (Hlen & Hnull & Hdbg).
  pose proof (load_range 4 (w_mem w) (a_desc_len (vq_ring qr) k)) as Hlr.
  change (load 4 (w_mem w) (a_desc_len (vq_ring qr) k)) with (r_desc_len (vq_ring qr) (w_mem w) k) in Hlr.
  destruct (release_rx_buffer_ok dev i (peer s) t bsz (read_idx s qs) qr k w Hinv) as
    (w' & qr' & R & Hinv' & Hr & Hlock & Hout & Hin & Hoth & _ & Hst); try done; try apply Hlo; try lia.
  - eapply Forall_impl; [exact Rp|]. cbv beta. lia.
  - rewrite (lane_back_length _ _ _ _ _ _ _ L). rewrite length_app in Hcount. cbn [length] in Hcount. lia.
  - destruct (lib_step_mem _ _ _ _ _ _ _ _ Hinv Hst) as [Hd Hm]. exists w', qr'. split_and!; try done.
    + apply (side_rvq _ qt qr qr' w); try done.
      * rewrite (ls_heap _ _ _ _ _ _ _ Hst) by apply Hlo. apply Hlo.
      * apply (wb_stable wb w); [apply Hst|apply Hs].
    + apply Hr.
    + rewrite Hring in *. eapply (lane_release s bsz qs qr qr'); try done; [apply Hr|apply Hinv'].
    + intros a _ Ha. by apply Hm.
    + apply Hst.
Qed.

End side.
