(* ===== verification/Conversation.v ===== *)
(** * Two cores talking

    A master and a remote on one shared memory, each on an environment of its
    own, calling the library in any order: everything sent in one direction
    arrives there, once, in order and unaltered, and every call returns. *)

From S2P Require Import Prelude Memory Config VirtioRing Virtqueue RingQueue VirtqueueSpec Concrete ChannelRefinement World Lpc55s69 Llist Endpoint Transport RpmsgLite Sending Receiving Lane Side.

(** ** What can be seen of an instance *)

(** An instance, with its endpoints, the largest payload, and what its callbacks
    rely on. *)
Record core (E : Type) : Type := {
  c_dev : Z;
  c_instance : rpmsg_lite_instance;
  c_epts : list entry;
  c_lim : Z;
  c_cb : world E → Prop;
}.
Arguments c_dev {E}. Arguments c_instance {E}. Arguments c_epts {E}. Arguments c_lim {E}. Arguments c_cb {E}.

(** The messages on their way to an instance of role [o], in its receive queue,
    and the buffers it can send in. *)
Definition waiting {E} {am : AddrMap} (o : virtqueue_ops) (C : core E) (w : world E) : list (Z * rpmsg_std_msg) :=
  match w_heap w !! rvq (c_instance C) with
  | Some (OVq q) =>
      (λ x, (x.1, read_msg (w_mem w) (buf_at (vq_ring q) (w_mem w) x.1))) <$> incoming o q (w_mem w)
  | _ => []
  end.
Definition free_buffers {E} (o : virtqueue_ops) (C : core E) (w : world E) : list Z :=
  match w_heap w !! tvq (c_instance C) with Some (OVq q) => (incoming o q (w_mem w)).*1 | _ => [] end.

(** What an application has sent, and what was handed to its endpoints or, with
    no endpoint of that address, dropped; each with its buffer. *)
Record log : Type := { sent_log : list rpmsg_std_msg; got_log : list (Z * rpmsg_std_msg) }.
Definition no_log : log := {| sent_log := []; got_log := [] |}.

(** The log of a call that answered [r] in the state [w]. *)
Definition logged {E} {am : AddrMap} (o : virtqueue_ops) (C : core E) (c : api) (r : Z) (w : world E) (l : log) : log :=
  match c with
  | ApiSend x dst _ payload =>
      if r =? RL_SUCCESS then {| sent_log := sent_log l ++ [message x dst payload]; got_log := got_log l |} else l
  | ApiReceive => {| sent_log := sent_log l; got_log := got_log l ++ waiting o C w |}
  | ApiRelease _ => l
  end.

(** The calls an application may make: sends with proper arguments, receiving,
    and giving back a payload it holds ([pf]: the buffers free at the peer). *)
Definition permitted {E} {am : AddrMap} (bsz : Z) (region : Z → Prop) (o : virtqueue_ops) (C : core E) (pf : list Z)
    (w : world E) (c : api) : Prop :=
  match c with
  | ApiSend x dst data payload => send_args (c_epts C) bsz (c_lim C) region x dst data payload
  | ApiReceive => True
  | ApiRelease p => ∃ q k, w_heap w !! rvq (c_instance C) = Some (OVq q) ∧ 0 ≤ k < num (vq_ring q) ∧
      k ∉ pf ∧ k ∉ (waiting o C w).*1 ∧ p = a_msg_data (buf_at (vq_ring q) (w_mem w) k)
  end.

(** ** Both sides *)

Section session.
Context {E : Type} {el : EnvLayer E} {laws : EnvLaws E} {rxd : RxDispatch E} {out : Outside E} {app : Application E}.
Context {E' : Type} {el' : EnvLayer E'} {laws' : EnvLaws E'} {rxd' : RxDispatch E'} {app' : Application E'}.
Context {cfg : Config} {am : AddrMap}.
Context (bsz : Z) (region : Z → Prop) (fuel : nat).

(** An instance of role [o] ([C], in the state [w]) and its peer ([C'], [w']):
    [fo], [ho] are the messages on their way to the peer and held by it, [fi],
    [hi] those the other way. *)
Record session (o : virtqueue_ops) (C : core E) (C' : core E') (w : world E) (w' : world E')
    (qt qr qt' qr' : virtqueue) (fo ho fi hi : list (Z * rpmsg_std_msg)) : Prop := {
  ss_own : side (c_dev C) (c_instance C) (c_epts C) (c_lim C) (c_cb C) o qt qr w;
  ss_peer : side (c_dev C') (c_instance C') (c_epts C') (c_lim C') (c_cb C') (peer o) qt' qr' w';
  ss_mem : w_mem w' = w_mem w;
  ss_out : lane o bsz qt qr' (w_mem w) fo ho;
  ss_in : lane (peer o) bsz qt' qr (w_mem w) fi hi;
  ss_region : ∀ a, shared (vq_ring qt) bsz (w_mem w) a ∨ shared (vq_ring qr) bsz (w_mem w) a → region a;
  ss_apart : ∀ a, shared (vq_ring qt) bsz (w_mem w) a → shared (vq_ring qr) bsz (w_mem w) a → False;
  ss_fuel : num (vq_ring qt) ≤ Z.of_nat fuel ∧ num (vq_ring qr) ≤ Z.of_nat fuel;
}.

Lemma waiting_ok s (C : core E) w qs qr fl hd :
  lane s bsz qs qr (w_mem w) fl hd → w_heap w !! rvq (c_instance C) = Some (OVq qr) → waiting (peer s) C w = fl.
Proof.
  intros L Hq. unfold waiting. rewrite Hq. pose proof (ln_flying _ _ _ _ _ _ _ L) as Hk.
  pose proof (ln_msgs _ _ _ _ _ _ _ L) as Hm. rewrite <- (ln_ring _ _ _ _ _ _ _ L) in Hm.
  apply Forall_app in Hm as [Hm _]. clear L. revert Hk.
  generalize (incoming (peer s) qr (w_mem w)). induction fl as [|[k msg] fl IH]; intros [|[k' l] xs] Hk; try done.
  injection Hk as -> Hk. apply Forall_cons in Hm as [[Hmsg _] Hm]. cbn [fst snd] in Hmsg.
  rewrite fmap_cons, (IH Hm xs Hk). cbn [fst]. by rewrite Hmsg.
Qed.

(** A side does not depend on the memory. *)
Lemma side_set_mem (C' : core E') o qt qr f (w' : world E') :
  well_behaved (c_dev C') (c_instance C') (c_epts C') region (c_cb C') →
  side (c_dev C') (c_instance C') (c_epts C') (c_lim C') (c_cb C') o qt qr w' →
  side (c_dev C') (c_instance C') (c_epts C') (c_lim C') (c_cb C') o qt qr (set_mem f w').
Proof.
  intros Hwb [Hlo Ht He Hup Hlim Hp HK]. constructor; try done.
  - destruct Hlo. by constructor.
  - apply (wb_stable _ _ _ _ _ Hwb w'); [apply same_queues_refl|done].
Qed.

(** What a call does to the messages and to the trace. *)
Definition moves (o : virtqueue_ops) (C : core E) (c : api) (r : Z) (qt qr : virtqueue) (w w1 : world E)
    (fo ho fi hi fo1 ho1 fi1 hi1 : list (Z * rpmsg_std_msg)) : Prop :=
  match c with
  | ApiSend x dst _ payload =>
      fi1 = fi ∧ hi1 = hi ∧ filter is_rx (w_trace w1) = filter is_rx (w_trace w) ∧
      (r = RL_SUCCESS ∧ (∃ k, fo1 = fo ++ [(k, message x dst payload)]) ∨
       r = RL_ERR_NO_MEM ∧ fo1 = fo ∧ free_buffers o C w = [])
  | ApiReceive =>
      r = RL_SUCCESS ∧ fo1 = fo ∧ fi1 = [] ∧ (∃ vs, hi1 = hi ++ kept fi vs) ∧
      filter is_rx (w_trace w1) = calls_of (c_epts C) (vq_ring qr) (w_mem w) fi ++ filter is_rx (w_trace w)
  | ApiRelease _ =>
      r = RL_SUCCESS ∧ fo1 = fo ∧ fi1 = fi ∧ hi1 ⊆ hi ∧
      filter is_rx (w_trace w1) = filter is_rx (w_trace w)
  end ∧ ho1 = ho.

(** The parts of a session that a call on one lane leaves, with the peer looking
    at the new memory. *)
Lemma session_after o C C' w w' qt qr qt' qr' fo ho fi hi w1 qt1 qr1 fo1 fi1 hi1 :
  well_behaved (c_dev C') (c_instance C') (c_epts C') region (c_cb C') →
  session o C C' w w' qt qr qt' qr' fo ho fi hi →
  side (c_dev C) (c_instance C) (c_epts C) (c_lim C) (c_cb C) o qt1 qr1 w1 →
  vq_ring qt1 = vq_ring qt → vq_ring qr1 = vq_ring qr →
  same_desc (vq_ring qt) (w_mem w) (w_mem w1) → same_desc (vq_ring qr) (w_mem w) (w_mem w1) →
  lane o bsz qt1 qr' (w_mem w1) fo1 ho → lane (peer o) bsz qt' qr1 (w_mem w1) fi1 hi1 →
  session o C C' w1 (set_mem (λ _, w_mem w1) w') qt1 qr1 qt' qr' fo1 ho fi1 hi1.
Proof.
  intros Hwb [Hs Hp Hm Lo Li Hr Ha Hf] Hs1 Et Er Dt Dr Lo1 Li1.
  pose proof (lane_ok _ _ _ _ _ _ _ Lo) as okt. pose proof (lane_ok _ _ _ _ _ _ _ Li) as okr.
  rewrite <- (ln_ring _ _ _ _ _ _ _ Li) in okr.
  constructor; try done; rewrite ?Et, ?Er; try done.
  - by apply side_set_mem.
  - intros a [Hx|Hx]; apply Hr; [left; by apply (shared_ext bsz _ _ (w_mem w1))|right; by apply (shared_ext bsz _ _ (w_mem w1))].
  - intros a H1 H2. apply (Ha a); by apply (shared_ext bsz _ _ (w_mem w1)).
Qed.

(** A lane this call did not use. *)
Lemma other_lane s qs qr vr m m' fl hd :
  lane s bsz qs qr m fl hd → (∀ a, shared (vq_ring qs) bsz m a → region a) →
  (∀ a, shared vr bsz m a → shared (vq_ring qs) bsz m a → False) →
  (∀ a, region a → ¬ shared vr bsz m a → byte_at m' a = byte_at m a) →
  lane s bsz qs qr m' fl hd ∧ same_desc (vq_ring qs) m m'.
Proof.
  intros L Hr Ha Hb. pose proof (lane_ok _ _ _ _ _ _ _ L) as ok.
  assert (∀ a, shared (vq_ring qs) bsz m a → byte_at m' a = byte_at m a) as Hs.
  { intros a Hx. apply Hb; [by apply Hr|]. intros Hv. by apply (Ha a). }
  split; [by eapply lane_ext|]. intros a Hx. apply Hs. left.
  pose proof (ok_avail _ ok). pose proof (ok_used _ ok). pose proof (vring_ok_num_pos _ ok). unfold vring_end in *. lia.
Qed.

(** Every permitted call returns, and the session goes on. *)
Lemma session_step o C C' w w' qt qr qt' qr' fo ho fi hi c :
  well_behaved (c_dev C) (c_instance C) (c_epts C) region (c_cb C) →
  well_behaved (c_dev C') (c_instance C') (c_epts C') region (c_cb C') →
  session o C C' w w' qt qr qt' qr' fo ho fi hi →
  permitted bsz region o C (free_buffers (peer o) C' w') w c →
  ∃ r w1 qt1 qr1 fo1 fi1 hi1, do_api fuel (c_dev C) (c_instance C) c w = Ok r w1 ∧
    session o C C' w1 (set_mem (λ _, w_mem w1) w') qt1 qr1 qt' qr' fo1 ho fi1 hi1 ∧
    vq_ring qr1 = vq_ring qr ∧ same_desc (vq_ring qr) (w_mem w) (w_mem w1) ∧
    same_desc (vq_ring qt) (w_mem w) (w_mem w1) ∧
    moves o C c r qt qr w w1 fo ho fi hi fo1 ho fi1 hi1.
Proof.
  intros Wb Wb' S Hperm. pose proof S as [Hs Hp Hm Lo Li Hr Ha [Hf1 Hf2]].
  pose proof (ln_ring _ _ _ _ _ _ _ Li) as Ering.
  destruct c as [x dst data payload| |p]; cbn [permitted moves] in *.
  - destruct (side_send _ _ _ bsz _ region _ fuel Wb o qt qr qr' w fo ho x dst data payload Hs Hperm Lo)
      as (r & w1 & qt1 & R & Hs1 & Et & Dt & Hres & Hb & Htr); [auto|].
    destruct (other_lane (peer o) qt' qr (vq_ring qt) (w_mem w) (w_mem w1) fi hi Li) as [Li1 Dr];
      [rewrite <- Ering; auto|rewrite <- Ering; auto|done|]. rewrite <- Ering in Dr.
    assert (∀ fo1, lane o bsz qt1 qr' (w_mem w1) fo1 ho → session o C C' w1 (set_mem (λ _, w_mem w1) w') qt1 qr qt' qr' fo1 ho fi hi) as Hgo.
    { intros fo1 L1. by eapply session_after. }
    destruct Hres as [(-> & k & L1)|(-> & Hnil & L1)].
    + exists RL_SUCCESS, w1, qt1, qr, (fo ++ [(k, message x dst payload)]), fi, hi. split_and!; try done; [by apply Hgo|].
      split; [|done]. split_and!; try done. left. split; [done|]. by exists k.
    + exists RL_ERR_NO_MEM, w1, qt1, qr, fo, fi, hi. split_and!; try done; [by apply Hgo|].
      split; [|done]. split_and!; try done. right. split_and!; try done.
      unfold free_buffers. by rewrite (lo_tvq _ _ _ _ _ _ (sd_lite _ _ _ _ _ _ _ _ _ Hs)), Hnil.
  - destruct (side_receive (c_dev C) (c_instance C) (c_epts C) bsz (c_lim C) region (c_cb C) fuel Wb (peer o) qt' qt qr w fi hi) as
      (vs & w1 & qr1 & R & Hs1 & Er & Dr & L1 & Hb & Htr); rewrite ?peer_peer in *; try done; [auto|].
    destruct (other_lane o qt qr' (vq_ring qr) (w_mem w) (w_mem w1) fo ho Lo) as [Lo1 Dt]; [auto|by intros a H1 H2; apply (Ha a)|done|].
    exists RL_SUCCESS, w1, qt, qr1, fo, [], (hi ++ kept fi vs). split_and!; try done; [by eapply session_after|].
    split; [|done]. split_and!; try done. by exists vs.
  - destruct Hperm as (q & k & Hq & Hk & Hpf & Hwt & ->).
    pose proof (lo_rvq _ _ _ _ _ _ (sd_lite _ _ _ _ _ _ _ _ _ Hs)) as Hq'. rewrite Hq in Hq'. injection Hq' as ->.
    assert (k ∈ hi.*1) as Hin.
    { assert (k ∈ (incoming (peer o) qt' (w_mem w)).*1 ++ fi.*1 ++ hi.*1) as Hall.
      { rewrite (ln_where _ _ _ _ _ _ _ Li), elem_of_seqZ, <- Ering. lia. }
      unfold free_buffers in Hpf. rewrite (lo_tvq _ _ _ _ _ _ (sd_lite _ _ _ _ _ _ _ _ _ Hp)), Hm in Hpf.
      pose proof (waiting_ok (peer o) C w qt' qr fi hi Li Hq) as Hw. rewrite peer_peer in Hw. rewrite Hw in Hwt.
      rewrite !elem_of_app in Hall. tauto. }
    apply list_elem_of_fmap in Hin as ([k0 msg] & -> & Hin). apply list_elem_of_split in Hin as (hd1 & hd2 & ->).
    destruct (side_release (c_dev C) (c_instance C) (c_epts C) bsz (c_lim C) region (c_cb C) fuel Wb (peer o) qt' qt qr w fi hd1 k0 msg hd2) as
      (w1 & qr1 & R & Hs1 & Er & Dr & L1 & Hb & Htr); rewrite ?peer_peer in *; try done; [auto|].
    destruct (other_lane o qt qr' (vq_ring qr) (w_mem w) (w_mem w1) fo ho Lo) as [Lo1 Dt]; [auto|by intros a H1 H2; apply (Ha a)|done|].
    exists RL_SUCCESS, w1, qt, qr1, fo, fi, (hd1 ++ hd2). split_and!; try done; [by eapply session_after|].
    split; [|done]. split_and!; try done. set_solver.
Qed.

End session.

(** ** Bookkeeping *)

Section tracked.
Context {am : AddrMap}.

(** One lane: what was sent is what was got and what is on its way; the calls
    made are those for what was got; what is held was got. *)
Record tracked (t : list entry) (vr : vring) (m : mem) (fl hd : list (Z * rpmsg_std_msg))
    (sent : list rpmsg_std_msg) (got : list (Z * rpmsg_std_msg)) (tr0 tr : list event) : Prop := {
  tk_order : sent = got.*2 ++ fl.*2;
  tk_calls : filter is_rx tr = calls_of t vr m got ++ filter is_rx tr0;
  tk_range : Forall (λ x, 0 ≤ x.1 < num vr) (got ++ fl);
  tk_held : hd ⊆ got;
}.

Lemma calls_of_app t vr m l1 l2 : calls_of t vr m (l1 ++ l2) = calls_of t vr m l2 ++ calls_of t vr m l1.
Proof. unfold calls_of. by rewrite fmap_app, reverse_app, join_app. Qed.

Lemma calls_of_ext t vr m m' l :
  vring_ok vr → same_desc vr m m' → Forall (λ x, 0 ≤ x.1 < num vr) l → calls_of t vr m' l = calls_of t vr m l.
Proof.
  intros ok Hd Hl. unfold calls_of. do 2 f_equal. apply list_fmap_ext. intros n x Hx%list_elem_of_lookup_2.
  rewrite Forall_forall in Hl. unfold call_of. by rewrite (buf_at_ext vr m m') by auto.
Qed.

Lemma kept_subseteq fl vs : kept fl vs ⊆ fl.
Proof. intros [k msg] Hx. by eapply kept_in. Qed.

Lemma tracked_mem t vr m m' fl hd sent got tr0 tr :
  vring_ok vr → same_desc vr m m' → tracked t vr m fl hd sent got tr0 tr → tracked t vr m' fl hd sent got tr0 tr.
Proof.
  intros ok Hd [T1 T2 T3 T4]. constructor; try done. rewrite (calls_of_ext t vr m m') by (try done; by apply Forall_app in T3 as [? _]). done.
Qed.

Context {E : Type}.

(** The lane a call sends on. *)
Lemma moves_out o (C : core E) c r qt qr w w1 fo ho fi hi fo1 ho1 fi1 hi1 t l got tr0 tr vr :
  moves o C c r qt qr w w1 fo ho fi hi fo1 ho1 fi1 hi1 → Forall (λ x, 0 ≤ x.1 < num vr) fo1 →
  tracked t vr (w_mem w) fo ho (sent_log l) got tr0 tr →
  tracked t vr (w_mem w) fo1 ho1 (sent_log (logged o C c r w l)) got tr0 tr.
Proof.
  intros [Hmv ->] Hr [T1 T2 T3 T4]. apply Forall_app in T3 as [T3 _].
  destruct c as [x dst data payload| |p]; cbn [logged] in *.
  - destruct Hmv as (_ & _ & _ & [(-> & k & ->)|(-> & -> & _)]); constructor; try done; try by apply Forall_app_2.
    cbn. by rewrite T1, fmap_app, app_assoc.
  - destruct Hmv as (_ & -> & _). constructor; try done; by apply Forall_app_2.
  - destruct Hmv as (_ & -> & _). constructor; try done; by apply Forall_app_2.
Qed.

(** The lane a call receives on. *)
Lemma moves_in o (C : core E) c r qt qr w w1 fo ho fi hi fo1 ho1 fi1 hi1 sent l tr0 :
  moves o C c r qt qr w w1 fo ho fi hi fo1 ho1 fi1 hi1 → waiting o C w = fi →
  tracked (c_epts C) (vq_ring qr) (w_mem w) fi hi sent (got_log l) tr0 (w_trace w) →
  tracked (c_epts C) (vq_ring qr) (w_mem w) fi1 hi1 sent (got_log (logged o C c r w l)) tr0 (w_trace w1).
Proof.
  intros [Hmv _] Hw [T1 T2 T3 T4]. destruct c as [x dst data payload| |p]; cbn [logged] in *.
  - destruct Hmv as (-> & -> & Htr & _). destruct (r =? RL_SUCCESS); constructor; try done; by rewrite Htr.
  - destruct Hmv as (_ & _ & -> & (vs & ->) & Htr). constructor; cbn [got_log]; rewrite ?Hw.
    + by rewrite T1, fmap_app, app_nil_r.
    + by rewrite Htr, T2, calls_of_app, app_assoc.
    + by rewrite app_nil_r.
    + pose proof (kept_subseteq fi vs). set_solver.
  - destruct Hmv as (_ & _ & -> & Hsub & Htr). constructor; try done; [by rewrite Htr|set_solver].
Qed.

End tracked.

(** Seen from the other side. *)
Lemma session_swap {E E'} {el : EnvLayer E} {laws : EnvLaws E} {app : Application E}
    {el' : EnvLayer E'} {laws' : EnvLaws E'} {app' : Application E'} {cfg : Config} {am : AddrMap}
    bsz region fuel o (C : core E) (C' : core E') w w' qt qr qt' qr' fo ho fi hi :
  session bsz region fuel o C C' w w' qt qr qt' qr' fo ho fi hi →
  session bsz region fuel (peer o) C' C w' w qt' qr' qt qr fi hi fo ho.
Proof.
  intros [Hs Hp Hm Lo Li Hr Ha [F1 F2]].
  pose proof (ln_ring _ _ _ _ _ _ _ Lo) as E1. pose proof (ln_ring _ _ _ _ _ _ _ Li) as E2.
  constructor; rewrite ?peer_peer, ?Hm, ?E1, <- ?E2; try done.
  - intros a [Hx|Hx]; apply Hr; auto.
  - intros a H1 H2. by apply (Ha a).
Qed.

Lemma lane_fl_range {cfg : Config} {am : AddrMap} o bsz qs qr m fl hd :
  lane o bsz qs qr m fl hd → Forall (λ x, 0 ≤ x.1 < num (vq_ring qs)) fl.
Proof.
  intros L. apply Forall_forall. intros x Hx. eapply lane_range; [exact L|]. rewrite !elem_of_app.
  right. left. by apply list_elem_of_fmap_2.
Qed.

(** ** The two cores *)

Record system (E1 E2 : Type) : Type := { s_master : world E1; s_remote : world E2 }.
Arguments s_master {E1 E2}. Arguments s_remote {E1 E2}.

Section conversation.
Context {E1 : Type} {el1 : EnvLayer E1} {laws1 : EnvLaws E1} {rxd1 : RxDispatch E1} {out1 : Outside E1} {app1 : Application E1}.
Context {E2 : Type} {el2 : EnvLayer E2} {laws2 : EnvLaws E2} {rxd2 : RxDispatch E2} {out2 : Outside E2} {app2 : Application E2}.
Context {cfg : Config} {am : AddrMap}.
Context (M : core E1) (R : core E2) (bsz : Z) (region : Z → Prop) (fuel : nat).

(** The calls of both applications, in any order.  Each sees the memory as the
    other left it. *)
Inductive reach (y0 : system E1 E2) : system E1 E2 → log → log → Prop :=
| reach_start : reach y0 y0 no_log no_log
| reach_master y lm lr c r w :
    reach y0 y lm lr →
    permitted bsz region master_vq_ops M (free_buffers remote_vq_ops R (s_remote y)) (s_master y) c →
    do_api fuel (c_dev M) (c_instance M) c (s_master y) = Ok r w →
    reach y0 {| s_master := w; s_remote := set_mem (λ _, w_mem w) (s_remote y) |}
      (logged master_vq_ops M c r (s_master y) lm) lr
| reach_remote y lm lr c r w :
    reach y0 y lm lr →
    permitted bsz region remote_vq_ops R (free_buffers master_vq_ops M (s_master y)) (s_remote y) c →
    do_api fuel (c_dev R) (c_instance R) c (s_remote y) = Ok r w →
    reach y0 {| s_master := set_mem (λ _, w_mem w) (s_master y); s_remote := w |}
      lm (logged remote_vq_ops R c r (s_remote y) lr).

(** A start: both instances live and nothing on its way. *)
Definition started (y : system E1 E2) : Prop :=
  ∃ qt qr qt' qr', session bsz region fuel master_vq_ops M R (s_master y) (s_remote y) qt qr qt' qr' [] [] [] [].

(** What is true of one direction, seen from the receiving instance: everything
    the peer has sent was handed over, or is still in the receive queue, in the
    order of sending and unaltered; the calls of the endpoints are those for the
    messages handed over, in order; what is held is intact; and every buffer is
    free at the peer ([pf]), on its way or held. *)
Record in_order {E : Type} (o : virtqueue_ops) (C : core E) (pf : list Z) (sent : list rpmsg_std_msg)
    (got : list (Z * rpmsg_std_msg)) (w0 w : world E) : Prop := {
  io_order : sent = got.*2 ++ (waiting o C w).*2;
  io_queue : ∃ q hd, w_heap w !! rvq (c_instance C) = Some (OVq q) ∧
    filter is_rx (w_trace w) = calls_of (c_epts C) (vq_ring q) (w_mem w) got ++ filter is_rx (w_trace w0) ∧
    Forall (λ x, x ∈ got ∧ read_msg (w_mem w) (buf_at (vq_ring q) (w_mem w) x.1) = x.2) hd ∧
    pf ++ (waiting o C w).*1 ++ hd.*1 ≡ₚ seqZ 0 (num (vq_ring q));
}.

Hypothesis wbM : well_behaved (c_dev M) (c_instance M) (c_epts M) region (c_cb M).
Hypothesis wbR : well_behaved (c_dev R) (c_instance R) (c_epts R) region (c_cb R).

(** The invariant. *)
Definition talking (y0 y : system E1 E2) (lm lr : log) : Prop :=
  ∃ qt qr qt' qr' fr hr fm hm,
    session bsz region fuel master_vq_ops M R (s_master y) (s_remote y) qt qr qt' qr' fr hr fm hm ∧
    tracked (c_epts R) (vq_ring qr') (w_mem (s_master y)) fr hr (sent_log lm) (got_log lr)
      (w_trace (s_remote y0)) (w_trace (s_remote y)) ∧
    tracked (c_epts M) (vq_ring qr) (w_mem (s_master y)) fm hm (sent_log lr) (got_log lm)
      (w_trace (s_master y0)) (w_trace (s_master y)).

Lemma session_waiting {E E' : Type} {el : EnvLayer E} {laws : EnvLaws E} {app : Application E}
    {el' : EnvLayer E'} {laws' : EnvLaws E'} {app' : Application E'}
    o (C : core E) (C' : core E') w w' qt qr qt' qr' fo ho fi hi :
  session bsz region fuel o C C' w w' qt qr qt' qr' fo ho fi hi → waiting o C w = fi.
Proof.
  intros [Hs _ _ _ Li _ _ _]. rewrite <- (peer_peer o).
  apply (waiting_ok bsz (peer o) C w qt' qr fi hi Li). apply (sd_lite _ _ _ _ _ _ _ _ _ Hs).
Qed.

Lemma talking_start y : started y → talking y y no_log no_log.
Proof.
  intros (qt & qr & qt' & qr' & S). exists qt, qr, qt', qr', [], [], [], []. split; [done|].
  split; constructor; done.
Qed.

Lemma talking_reach y0 y lm lr : started y0 → reach y0 y lm lr → talking y0 y lm lr.
Proof using wbM wbR.
  intros H0. induction 1 as [|y lm lr c r w Hy IH Hp Hrun|y lm lr c r w Hy IH Hp Hrun]; [by apply talking_start| |].
  - destruct IH as (qt & qr & qt' & qr' & fr & hr & fm & hm & S & Tr & Tm).
    destruct (session_step bsz region fuel master_vq_ops M R _ _ _ _ _ _ _ _ _ _ c wbM wbR S Hp)
      as (r' & w1 & qt1 & qr1 & fr1 & fm1 & hm1 & Hrun' & S1 & Er & Dr & Dt & Hmv).
    rewrite Hrun in Hrun'. injection Hrun' as <- <-.
    exists qt1, qr1, qt', qr', fr1, hr, fm1, hm1. cbn [s_master s_remote]. split; [done|].
    pose proof (ln_ring _ _ _ _ _ _ _ (ss_out _ _ _ _ _ _ _ _ _ _ _ _ _ _ _ _ S)) as Eo.
    pose proof (ln_ring _ _ _ _ _ _ _ (ss_out _ _ _ _ _ _ _ _ _ _ _ _ _ _ _ _ S1)) as Eo1.
    split.
    + apply (tracked_mem _ _ (w_mem (s_master y))); [rewrite Eo; apply (lane_ok _ _ _ _ _ _ _ (ss_out _ _ _ _ _ _ _ _ _ _ _ _ _ _ _ _ S))|by rewrite Eo|].
      cbn [w_trace set_mem]. eapply moves_out; [exact Hmv| |exact Tr].
      rewrite Eo1. eapply lane_fl_range, (ss_out _ _ _ _ _ _ _ _ _ _ _ _ _ _ _ _ S1).
    + rewrite Er. apply (tracked_mem _ _ (w_mem (s_master y))); [|done|].
      * rewrite (ln_ring _ _ _ _ _ _ _ (ss_in _ _ _ _ _ _ _ _ _ _ _ _ _ _ _ _ S)).
        apply (lane_ok _ _ _ _ _ _ _ (ss_in _ _ _ _ _ _ _ _ _ _ _ _ _ _ _ _ S)).
      * eapply moves_in; [exact Hmv|by eapply session_waiting|exact Tm].
  - destruct IH as (qt & qr & qt' & qr' & fr & hr & fm & hm & S & Tr & Tm). apply session_swap in S. cbn [peer] in S.
    pose proof (ss_mem _ _ _ _ _ _ _ _ _ _ _ _ _ _ _ _ S) as Em. rewrite Em in Tr, Tm.
    destruct (session_step bsz region fuel remote_vq_ops R M _ _ _ _ _ _ _ _ _ _ c wbR wbM S Hp)
      as (r' & w1 & qt1 & qr1 & fm1 & fr1 & hr1 & Hrun' & S1 & Er & Dr & Dt & Hmv).
    rewrite Hrun in Hrun'. injection Hrun' as <- <-.
    pose proof (ln_ring _ _ _ _ _ _ _ (ss_out _ _ _ _ _ _ _ _ _ _ _ _ _ _ _ _ S)) as Eo.
    pose proof (ln_ring _ _ _ _ _ _ _ (ss_out _ _ _ _ _ _ _ _ _ _ _ _ _ _ _ _ S1)) as Eo1.
    exists qt, qr, qt1, qr1, fr1, hr1, fm1, hm. cbn [s_master s_remote].
    split; [by apply session_swap in S1|]. cbn [w_mem set_mem w_trace]. split.
    + rewrite Er. apply (tracked_mem _ _ (w_mem (s_remote y))); [|done|].
      * rewrite (ln_ring _ _ _ _ _ _ _ (ss_in _ _ _ _ _ _ _ _ _ _ _ _ _ _ _ _ S)).
        apply (lane_ok _ _ _ _ _ _ _ (ss_in _ _ _ _ _ _ _ _ _ _ _ _ _ _ _ _ S)).
      * eapply moves_in; [exact Hmv|exact (session_waiting _ R M _ _ _ _ _ _ _ _ _ _ S)|exact Tr].
    + apply (tracked_mem _ _ (w_mem (s_remote y))); [rewrite Eo; apply (lane_ok _ _ _ _ _ _ _ (ss_out _ _ _ _ _ _ _ _ _ _ _ _ _ _ _ _ S))|by rewrite Eo|].
      eapply moves_out; [exact Hmv| |exact Tm].
      rewrite Eo1. eapply lane_fl_range, (ss_out _ _ _ _ _ _ _ _ _ _ _ _ _ _ _ _ S1).
Qed.

(** What the invariant says of one direction. *)
Lemma talking_in_order {E E' : Type} {el : EnvLayer E} {laws : EnvLaws E} {app : Application E}
    {el' : EnvLayer E'} {laws' : EnvLaws E'} {app' : Application E'}
    o (C : core E) (C' : core E') w0 w w' qt qr qt' qr' fo ho fi hi sent got :
  session bsz region fuel o C C' w w' qt qr qt' qr' fo ho fi hi →
  tracked (c_epts C) (vq_ring qr) (w_mem w) fi hi sent got (w_trace w0) (w_trace w) →
  in_order o C (free_buffers (peer o) C' w') sent got w0 w.
Proof.
  intros S [T1 T2 T3 T4]. pose proof (session_waiting _ _ _ _ _ _ _ _ _ _ _ _ _ S) as Hw.
  destruct S as [Hs Hp Hm _ Li _ _ _]. constructor; [by rewrite Hw|]. exists qr, hi.
  pose proof (ln_ring _ _ _ _ _ _ _ Li) as Er. split_and!.
  - apply (sd_lite _ _ _ _ _ _ _ _ _ Hs).
  - done.
  - apply Forall_forall. intros x Hx. split; [by apply T4|]. pose proof (ln_msgs _ _ _ _ _ _ _ Li) as Hmsg.
    apply Forall_app in Hmsg as [_ Hmsg]. rewrite Forall_forall in Hmsg. rewrite Er. by apply Hmsg.
  - rewrite Hw, Er, <- (ln_where _ _ _ _ _ _ _ Li). unfold free_buffers.
    by rewrite (lo_tvq _ _ _ _ _ _ (sd_lite _ _ _ _ _ _ _ _ _ Hp)), Hm.
Qed.

(** A call of an application: it returns, and says [RL_ERR_NO_MEM] only when
    every buffer is on its way or held by the peer. *)
Definition returns {E : Type} {el : EnvLayer E} {rxd : RxDispatch E} {out : Outside E} {app : Application E}
    (o : virtqueue_ops) (C : core E) (w : world E) (c : api) : Prop :=
  ∃ r w', do_api fuel (c_dev C) (c_instance C) c w = Ok r w' ∧
    (r = RL_SUCCESS ∨ r = RL_ERR_NO_MEM ∧ free_buffers o C w = []).

Lemma moves_returns {E : Type} {el : EnvLayer E} {rxd : RxDispatch E} {out : Outside E} {app : Application E}
    o (C : core E) c r qt qr w w1 fo ho fi hi fo1 ho1 fi1 hi1 :
  moves o C c r qt qr w w1 fo ho fi hi fo1 ho1 fi1 hi1 → do_api fuel (c_dev C) (c_instance C) c w = Ok r w1 →
  returns o C w c.
Proof.
  intros [Hmv _] Hrun. exists r, w1. split; [done|]. destruct c; cbn in Hmv.
  - destruct Hmv as (_ & _ & _ & [(-> & _)|(-> & _ & ?)]); [by left|by right].
  - left. apply Hmv.
  - left. apply Hmv.
Qed.

(** C3.  Two cores talk through the library without losing anything.  After any
    sequence of calls by either application, sends with timeout 0, receive
    interrupts and releases of kept payloads, and for callbacks that answer as
    they like: in both directions, what was sent successfully is what was handed
    over followed by what is still in the receive queue, once each, in order
    and byte for byte; the calls of the endpoints are those for the messages
    handed over; a payload that is kept stays as it was; every buffer is free
    at the sender, on its way, or kept.  And every further call returns: a
    receive and a release with [RL_SUCCESS], a send too unless every buffer is
    on its way or kept, when it returns [RL_ERR_NO_MEM]. *)
Theorem conversation y0 y lm lr :
  started y0 → reach y0 y lm lr →
  in_order remote_vq_ops R (free_buffers master_vq_ops M (s_master y)) (sent_log lm) (got_log lr)
    (s_remote y0) (s_remote y) ∧
  in_order master_vq_ops M (free_buffers remote_vq_ops R (s_remote y)) (sent_log lr) (got_log lm)
    (s_master y0) (s_master y) ∧
  (∀ c, permitted bsz region master_vq_ops M (free_buffers remote_vq_ops R (s_remote y)) (s_master y) c →
     returns master_vq_ops M (s_master y) c) ∧
  (∀ c, permitted bsz region remote_vq_ops R (free_buffers master_vq_ops M (s_master y)) (s_remote y) c →
     returns remote_vq_ops R (s_remote y) c).
Proof using wbM wbR.
  intros H0 Hr. destruct (talking_reach y0 y lm lr H0 Hr) as (qt & qr & qt' & qr' & fr & hr & fm & hm & S & Tr & Tm).
  pose proof (session_swap _ _ _ _ _ _ _ _ _ _ _ _ _ _ _ _ S) as S'. cbn [peer] in S'. split_and!.
  - rewrite <- (ss_mem _ _ _ _ _ _ _ _ _ _ _ _ _ _ _ _ S) in Tr.
    exact (talking_in_order remote_vq_ops R M _ _ _ _ _ _ _ _ _ _ _ _ _ S' Tr).
  - exact (talking_in_order master_vq_ops M R _ _ _ _ _ _ _ _ _ _ _ _ _ S Tm).
  - intros c Hc. destruct (session_step bsz region fuel master_vq_ops M R _ _ _ _ _ _ _ _ _ _ c wbM wbR S Hc)
      as (r & w1 & ? & ? & ? & ? & ? & Hrun & _ & _ & _ & _ & Hmv). exact (moves_returns _ _ _ _ _ _ _ _ _ _ _ _ _ _ _ _ Hmv Hrun).
  - intros c Hc. destruct (session_step bsz region fuel remote_vq_ops R M _ _ _ _ _ _ _ _ _ _ c wbR wbM S' Hc)
      as (r & w1 & ? & ? & ? & ? & ? & Hrun & _ & _ & _ & _ & Hmv). exact (moves_returns _ _ _ _ _ _ _ _ _ _ _ _ _ _ _ _ Hmv Hrun).
Qed.

End conversation.
