(* ===== verification/RingInit.v ===== *)
(** * Preparing the rings

    What the master does to the shared memory when it initialises: a ring is
    zeroed, its descriptors are chained and the driver's interrupt flag is set
    ([clean_ring]); then one buffer after the other is cleared, described and
    put on the available or on the used ring ([filled]).  The control block
    [virtqueue_setup] makes is well-formed and reads a clean ring as empty. *)

From S2P Require Import Prelude Memory Config VirtioRing Virtqueue RingQueue VirtqueueSpec ChannelRefinement.

(** The chain [vq_ring_init] builds: [i + 1] behind every descriptor, and the
    end marker behind the last. *)
Record chained (vr : vring) (m : mem) : Prop := {
  ch_next : ∀ i, 0 ≤ i < num vr - 1 → load 2 m (a_desc_next vr i) = i + 1;
  ch_end : load 2 m (a_desc_next vr (num vr - 1)) = VQ_RING_DESC_CHAIN_END;
}.

(** A ring nothing was put on yet, with the driver's interrupts suppressed. *)
Record clean_ring (vr : vring) (m : mem) : Prop := {
  cl_chain : chained vr m;
  cl_avail : r_avail_idx vr m = 0;
  cl_used : r_used_idx vr m = 0;
  cl_quiet : load 2 m (a_used_flags vr) = 0;
  cl_nointr : load 2 m (a_avail_flags vr) = VRING_AVAIL_F_NO_INTERRUPT;
}.

(** The memory after the first [k] turns of the chaining loop. *)
Fixpoint chain_mem (vr : vring) (k : nat) (i : Z) (m : mem) : mem :=
  match k with
  | O => m
  | S k' => chain_mem vr k' (i + 1) (store 2 m (a_desc_next vr i) (u16 (i + 1)))
  end.

(** Which ring a buffer goes on: the receive queue's available ring, or the
    transmit queue's used ring. *)
Inductive fill_side : Type := FillAvail | FillUsed.

(** The memory after buffer [b] was cleared, described by descriptor [h] and
    put on the ring. *)
Definition fill_mem {am : AddrMap} (side : fill_side) (vr : vring) (h b bsz : Z) (m : mem) : mem :=
  let m1 := fill_desc vr h (env_map_vatopa b) bsz (mem_set m b 0 bsz) in
  match side with FillAvail => push_avail vr h m1 | FillUsed => push_used vr h bsz m1 end.

(** [k] buffers of [bsz] bytes, from [b0] on, were put on the ring [vr] that was
    clean in [m0]. *)
Record filled {am : AddrMap} (side : fill_side) (vr : vring) (b0 bsz k : Z) (m0 m : mem) : Prop := {
  fi_avail : avail_queue 0 vr m = match side with FillAvail => seqZ 0 k | FillUsed => [] end;
  fi_used : used_queue 0 vr m =
    match side with FillAvail => [] | FillUsed => (λ j, (j, bsz)) <$> seqZ 0 k end;
  fi_desc : ∀ j, 0 ≤ j < k →
    r_desc_addr vr m j = u64 (env_map_vatopa (b0 + bsz * j)) ∧ r_desc_len vr m j = bsz;
  fi_flags : load 2 m (a_used_flags vr) = load 2 m0 (a_used_flags vr) ∧
    load 2 m (a_avail_flags vr) = load 2 m0 (a_avail_flags vr);
  fi_frame : ∀ a, (a < desc vr ∨ vring_end vr ≤ a) → (a < b0 ∨ b0 + bsz * k ≤ a) →
    byte_at m a = byte_at m0 a;
}.

Section rings.
Context {cfg : Config} {am : AddrMap} {cok : ConfigOk cfg}.

(** ** The chain *)

Lemma chain_mem_frames vr k : ∀ i m,
  0 ≤ i → frames (desc vr + 16 * i) (desc vr + 16 * (i + Z.of_nat k)) m (chain_mem vr k i m).
Proof.
  induction k as [|k IH]; intros i m Hi; [apply frames_refl|].
  cbn [chain_mem]. eapply frames_trans; [|eapply frames_weaken; [apply IH; lia|lia|lia]].
  eapply frames_weaken; [apply store_frames|unfold a_desc_next, a_desc; lia..].
Qed.

Lemma chain_mem_next vr k : ∀ i j m,
  0 ≤ i → i + Z.of_nat k ≤ 65535 → i ≤ j < i + Z.of_nat k →
  load 2 (chain_mem vr k i m) (a_desc_next vr j) = j + 1.
Proof.
  induction k as [|k IH]; intros i j m Hi Hk Hj; [lia|]. cbn [chain_mem].
  destruct (decide (j = i)) as [->|Hne]; [|apply IH; lia].
  erewrite load_frames; [|apply chain_mem_frames; lia|unfold a_desc_next, a_desc; lia].
  rewrite load_store_same. change (256 ^ Z.of_nat 2) with 65536. fold (u16 (u16 (i + 1))).
  rewrite u16_u16. apply u16_small. lia.
Qed.

Definition chain_events (vr : vring) (n : Z) : list event :=
  (λ i, EvStore 2 (a_desc_next vr i) (u16 (i + 1))) <$> seqZ 0 n.

Lemma vq_ring_init_loop_eq vr k : ∀ i s,
  vq_ring_init_loop vr k i s = Ok (i + Z.of_nat k) {| v_vq := v_vq s; v_mem := chain_mem vr k i (v_mem s);
    v_trace := rev ((λ j, EvStore 2 (a_desc_next vr j) (u16 (j + 1))) <$> seqZ i (Z.of_nat k)) ++ v_trace s |}.
Proof.
  induction k as [|k IH]; intros i s.
  - cbn. rewrite Z.add_0_r. by destruct s.
  - cbn [vq_ring_init_loop]. cbv [mbind M_bind stv modify v_vq v_mem v_trace]. rewrite IH. cbn [v_vq v_mem v_trace chain_mem].
    f_equal; [lia|]. f_equal. rewrite (seqZ_cons i (Z.of_nat (S k))) by lia.
    rewrite fmap_cons. cbn [rev]. rewrite <- app_assoc. cbn [app].
    by replace (Z.pred (Z.of_nat (S k))) with (Z.of_nat k) by lia.
Qed.

(** What [vq_ring_init] leaves in memory. *)
Definition init_chain (vr : vring) (m : mem) : mem :=
  store 2 (chain_mem vr (Z.to_nat (num vr - 1)) 0 m) (a_desc_next vr (num vr - 1)) (u16 VQ_RING_DESC_CHAIN_END).

Lemma vq_ring_init_eq s :
  vq_core (v_vq s) →
  let vr := vq_ring (v_vq s) in
  vq_ring_init s = Ok tt {| v_vq := v_vq s; v_mem := init_chain vr (v_mem s);
    v_trace := EvStore 2 (a_desc_next vr (num vr - 1)) (u16 VQ_RING_DESC_CHAIN_END) ::
      rev (chain_events vr (num vr - 1)) ++ v_trace s |}.
Proof.
  intros [ok Hn] vr. fold vr in ok, Hn.
  assert (0 < num vr ≤ 32768) as Hr by (split; [by apply vring_ok_num_pos|apply ok]).
  unfold vq_ring_init. cbv [mbind M_bind getvq]. rewrite Hn. fold vr.
  rewrite vq_ring_init_loop_eq, u32_small by lia. cbv [stv modify v_vq v_mem v_trace].
  rewrite Z2Nat.id by lia. by destruct s.
Qed.

Lemma init_chain_frames vr m :
  vring_ok vr → frames (desc vr) (avail vr) m (init_chain vr m).
Proof.
  intros ok. pose proof (vring_ok_num_pos _ ok). pose proof (ok_avail _ ok).
  eapply frames_trans; [|eapply frames_weaken; [apply store_frames|unfold a_desc_next, a_desc; lia..]].
  eapply frames_weaken; [apply chain_mem_frames; lia|lia|lia].
Qed.

Lemma init_chain_chained vr m : vring_ok vr → chained vr (init_chain vr m).
Proof.
  intros ok. pose proof (vring_ok_num_pos _ ok). pose proof (ok_max _ ok). constructor.
  - intros i Hi. unfold init_chain.
    rewrite load_store_ne by (unfold a_desc_next, a_desc; lia). apply chain_mem_next; lia.
  - unfold init_chain. by rewrite load_store_same.
Qed.

Lemma chained_ext vr m m' : vring_ok vr → same_desc vr m m' → chained vr m → chained vr m'.
Proof.
  intros ok Hs [Hn He]. pose proof (vring_ok_num_pos _ ok). pose proof (ok_avail _ ok).
  assert (∀ i, 0 ≤ i < num vr → load 2 m' (a_desc_next vr i) = load 2 m (a_desc_next vr i)) as Hld.
  { intros i Hi. apply load_ext. eapply agree_on_sub; [apply Hs|unfold a_desc_next, a_desc; lia..]. }
  constructor; [intros i Hi; rewrite Hld by lia; by apply Hn|by rewrite Hld by lia].
Qed.

(** ** A clean ring *)

Lemma clean_ring_made vr m size :
  vring_ok vr → vring_end vr ≤ desc vr + size →
  let m1 := init_chain vr (mem_set m (desc vr) 0 size) in
  let m2 := avail_flags_store vr (Z.lor (load 2 m1 (a_avail_flags vr)) VRING_AVAIL_F_NO_INTERRUPT) m1 in
  clean_ring vr m2 ∧ frames (desc vr) (desc vr + size) m m2.
Proof.
  intros ok Hend m1 m2. pose proof (vring_ok_num_pos _ ok). pose proof (ok_avail _ ok).
  pose proof (ok_used _ ok). unfold vring_end in Hend.
  pose proof (init_chain_frames vr (mem_set m (desc vr) 0 size) ok) as Hf1. fold m1 in Hf1.
  assert (∀ k a, avail vr ≤ a → a + Z.of_nat k ≤ desc vr + size → load k m1 a = 0) as Hz.
  { intros k a ? ?. erewrite load_frames; [|exact Hf1|lia]. apply load_mem_set_zero; lia. }
  assert (load 2 m1 (a_avail_flags vr) = 0) as Hfl by (apply Hz; unfold a_avail_flags; lia).
  assert (frames (avail vr) (avail vr + 2) m1 m2) as Hf2 by apply (store_frames 2).
  split.
  - constructor.
    + eapply chained_ext; [done| |by apply init_chain_chained].
      eapply frames_agree; [exact Hf2|lia].
    + unfold r_avail_idx. erewrite load_frames; [|exact Hf2|unfold a_avail_idx; lia].
      apply Hz; unfold a_avail_idx; lia.
    + unfold r_used_idx. erewrite load_frames; [|exact Hf2|unfold a_used_idx; lia].
      apply Hz; unfold a_used_idx; lia.
    + erewrite load_frames; [|exact Hf2|unfold a_used_flags; lia]. apply Hz; unfold a_used_flags; lia.
    + unfold m2, avail_flags_store. rewrite load_store_same, Hfl. done.
  - eapply frames_trans; [apply mem_set_frames; lia|].
    eapply frames_trans; eapply frames_weaken; [exact Hf1|lia|lia|exact Hf2|lia|lia].
Qed.

(** A clean ring read by a control block whose indices are 0. *)
Lemma clean_empty vr m :
  vring_ok vr → clean_ring vr m → avail_queue 0 vr m = [] ∧ used_queue 0 vr m = [].
Proof.
  intros ok [_ Ha Hu _ _]. unfold avail_queue, used_queue. rewrite Ha, Hu.
  by split; apply ring_queue_nil.
Qed.

(** A clean ring stays clean when only other memory changes. *)
Lemma clean_ring_ext vr m m' :
  vring_ok vr → agree_on (desc vr) (vring_end vr) m' m → clean_ring vr m → clean_ring vr m'.
Proof.
  intros ok Hag [Hc Ha Hu Hq Hi]. pose proof (vring_ok_num_pos _ ok). pose proof (ok_avail _ ok).
  pose proof (ok_used _ ok). unfold vring_end in Hag.
  assert (∀ k a, desc vr ≤ a → a + Z.of_nat k ≤ used vr + 4 + 8 * num vr → load k m' a = load k m a) as Hld.
  { intros k a ? ?. apply load_ext. eapply agree_on_sub; [exact Hag|lia|lia]. }
  constructor.
  - eapply chained_ext; [done| |done]. eapply agree_on_sub; [exact Hag|lia|lia].
  - rewrite <- Ha. apply Hld; unfold a_avail_idx; lia.
  - rewrite <- Hu. apply Hld; unfold a_used_idx; lia.
  - rewrite <- Hq. apply Hld; unfold a_used_flags; lia.
  - rewrite <- Hi. apply Hld; unfold a_avail_flags; lia.
Qed.

(** ** Filling *)

Lemma filled_start side vr b0 bsz m :
  vring_ok vr → clean_ring vr m → filled side vr b0 bsz 0 m m.
Proof.
  intros ok Hc. destruct (clean_empty vr m ok Hc) as [Ha Hu].
  constructor; try done; [rewrite Ha|rewrite Hu|intros; lia]; by destruct side.
Qed.

(** The descriptors and the ring it is put on, before the push. *)
Lemma fill_desc_filled side vr b0 bsz k m0 m :
  vring_ok vr → filled side vr b0 bsz k m0 m → 0 ≤ k < num vr → 0 < bsz < 4294967296 →
  b0 + bsz * num vr ≤ desc vr ∨ vring_end vr ≤ b0 →
  let m1 := fill_desc vr k (env_map_vatopa (b0 + bsz * k)) bsz (mem_set m (b0 + bsz * k) 0 bsz) in
  avail_queue 0 vr m1 = avail_queue 0 vr m ∧ used_queue 0 vr m1 = used_queue 0 vr m ∧
  (∀ j, 0 ≤ j < k + 1 →
    r_desc_addr vr m1 j = u64 (env_map_vatopa (b0 + bsz * j)) ∧ r_desc_len vr m1 j = bsz) ∧
  (∀ a, avail vr ≤ a → a + 2 ≤ vring_end vr → load 2 m1 a = load 2 m a) ∧
  (∀ a, (a < desc vr ∨ vring_end vr ≤ a) → (a < b0 ∨ b0 + bsz * (k + 1) ≤ a) → byte_at m1 a = byte_at m a).
Proof.
  intros ok Hfi Hk Hb Hout m1. set (b := b0 + bsz * k) in *.
  set (mc := mem_set m b 0 bsz) in *.
  assert (frames b (b + bsz) m mc) as Hf0 by (apply mem_set_frames; lia).
  assert (b + bsz ≤ desc vr ∨ vring_end vr ≤ b) as Hob by (unfold b; nia).
  destruct (frames_outside vr ok _ _ _ _ Hf0 Hob) as (Hd0 & Ha0 & Hu0).
  destruct (fill_desc_same vr ok k (env_map_vatopa b) bsz mc Hk) as [Ha1 Hu1].
  pose proof (fill_desc_frames vr k (env_map_vatopa b) bsz mc) as Hf1. fold m1 in Ha1, Hu1, Hf1.
  pose proof (ok_avail _ ok). pose proof (ok_used _ ok).
  split_and!.
  - by rewrite (avail_queue_ext _ ok _ _ _ Ha1), (avail_queue_ext _ ok _ _ _ Ha0).
  - by rewrite (used_queue_ext _ ok _ _ _ Hu1), (used_queue_ext _ ok _ _ _ Hu0).
  - intros j Hj. destruct (decide (j = k)) as [->|Hne].
    + destruct (fill_desc_reads vr k (env_map_vatopa b) bsz mc) as [Ea El]; [lia|].
      fold m1 in Ea, El. split; [exact Ea|]. rewrite El. apply u32_small. lia.
    + destruct (fill_desc_reads_ne vr k j (env_map_vatopa b) bsz mc) as [Ea El]; [lia..|].
      fold m1 in Ea, El. rewrite Ea, El.
      destruct (r_desc_ext vr ok m mc j Hd0) as [-> ->]; [lia|].
      apply (fi_desc _ _ _ _ _ _ _ Hfi). lia.
  - intros a ? ?. erewrite load_frames; [|exact Hf1|lia].
    erewrite load_frames; [done|exact Hf0|lia].
  - intros a Ha1' Ha2'. unfold vring_end in Ha1'. rewrite Hf1 by lia. apply Hf0. unfold b. nia.
Qed.

(** One more buffer. *)
Lemma filled_step side vr b0 bsz k m0 m :
  vring_ok vr → filled side vr b0 bsz k m0 m → 0 ≤ k < num vr → 0 < bsz < 4294967296 →
  b0 + bsz * num vr ≤ desc vr ∨ vring_end vr ≤ b0 →
  filled side vr b0 bsz (k + 1) m0 (fill_mem side vr k (b0 + bsz * k) bsz m).
Proof.
  intros ok Hfi Hk Hb Hout. pose proof (ok_max _ ok). pose proof (ok_avail _ ok). pose proof (ok_used _ ok).
  pose proof (vring_ok_num_pos _ ok).
  destruct (fill_desc_filled side vr b0 bsz k m0 m ok Hfi Hk Hb Hout) as (Ea & Eu & Ed & El & Ef).
  unfold fill_mem. set (m1 := fill_desc _ _ _ _ _) in *. cbv zeta.
  destruct Hfi as [Fa Fu _ [Fq Fi] Ff]. rewrite Fa in Ea. rewrite Fu in Eu. destruct side.
  - pose proof (push_avail_frames vr ok k m1) as Hp. destruct (push_avail_same vr ok k m1) as [Hd Hu].
    constructor.
    + rewrite avail_queue_push; [rewrite Ea, seqZ_snoc by lia; by rewrite u16_small by lia|done|].
      rewrite Ea, length_seqZ. lia.
    + by rewrite (used_queue_ext _ ok _ _ _ Hu).
    + intros j Hj. destruct (r_desc_ext vr ok _ _ j Hd) as [-> ->]; [lia|]. by apply Ed.
    + split; (erewrite load_frames; [|exact Hp|unfold a_used_flags, a_avail_flags; lia]).
      * rewrite El; [done|unfold a_used_flags; lia|unfold a_used_flags, vring_end; lia].
      * rewrite El; [done|unfold a_avail_flags; lia|unfold a_avail_flags, vring_end; lia].
    + intros a Ha1 Ha2. rewrite Hp by (unfold vring_end in Ha1; lia). rewrite Ef by done.
      apply Ff; [done|nia].
  - pose proof (push_used_frames vr ok k bsz m1) as Hp. destruct (push_used_same vr ok k bsz m1) as [Hd Ha].
    constructor.
    + by rewrite (avail_queue_ext _ ok _ _ _ Ha).
    + rewrite used_queue_push; [|done|rewrite Eu, length_fmap, length_seqZ; lia].
      rewrite Eu, seqZ_snoc, fmap_app by lia. by rewrite !u32_small by lia.
    + intros j Hj. destruct (r_desc_ext vr ok _ _ j Hd) as [-> ->]; [lia|]. by apply Ed.
    + split; (erewrite load_frames; [|exact Hp|unfold a_used_flags, a_avail_flags; lia]).
      * rewrite El; [done|unfold a_used_flags; lia|unfold a_used_flags, vring_end; lia].
      * rewrite El; [done|unfold a_avail_flags; lia|unfold a_avail_flags, vring_end; lia].
    + intros a Ha1 Ha2. rewrite Hp by lia. rewrite Ef by done. apply Ff; [done|nia].
Qed.


End rings.
