(* ===== verification/Init.v ===== *)
(** * Initialisation and release of an instance: [rpmsg_lite.c]

    [rpmsg_lite_master_init], [rpmsg_lite_remote_init] and
    [rpmsg_lite_deinit], with [virtqueue_create], [virtqueue_create_static]
    and [virtqueue_free] on the heap of one core.  The three ways a failing
    initialisation is undone are part of the definitions. *)

From S2P Require Import Prelude Memory Config VirtioRing Virtqueue World Lpc55s69 Endpoint Transport.

(** The per-link sizes: from the configuration macros, or from the platform
    with [RL_ALLOW_CUSTOM_SHMEM_CONFIG]. *)
Record ring_config : Type := {
  rc_vring_size : Z; rc_align : Z; rc_count : Z; rc_overhead : Z; rc_buf_size : Z;
}.

(** "rx_vq" and "tx_vq". *)
Definition name_rx_vq : list Z := [114; 120; 95; 118; 113; 0].
Definition name_tx_vq : list Z := [116; 120; 95; 118; 113; 0].

(** The zeroed instance. *)
Definition zero_instance : rpmsg_lite_instance :=
  {| rvq := NULL; tvq := NULL; rl_endpoints := NULL; lock := NULL; link_state := 0; sh_mem_base := NULL;
     sh_mem_remaining := 0; sh_mem_total := 0; vq_ops := None; link_id := 0 |}.

Section init.
Context {E : Type} {el : EnvLayer E} {app : Application E} {cfg : Config} {am : AddrMap}.

(** ** Creation and release of a virtqueue *)

(** The status, and the value of [*v_queue] (NULL when it is not assigned). *)
Definition virtqueue_create (id : Z) (name : list Z) (ring : vring_alloc_info)
    (cb : option vq_callback) (nf : option vq_notify) : W E (Z * Z) :=
  match virtqueue_create_status (Some ring) with
  | None => undef
  | Some status =>
      if status =? VQUEUE_SUCCESS then
        vq ← env_allocate_memory;
        if vq =? NULL then mret (ERROR_NO_MEM, NULL)
        else
          let q := virtqueue_setup id name ring cb nf in
          put_obj vq (OVq q);;
          with_vq vq (virtqueue_create_flush q);;
          mret (status, vq)
      else mret (status, NULL)
  end.

(** The static variant: the block is [&vq_ctxt->vq]. *)
Definition virtqueue_create_static (id : Z) (name : list Z) (ring : vring_alloc_info)
    (cb : option vq_callback) (nf : option vq_notify) (vq_ctxt : Z) : W E (Z * Z) :=
  if vq_ctxt =? NULL then
    (if VQUEUE_DEBUG then mret (ERROR_VQUEUE_INVLD_PARAM, NULL) else undef)
  else
    match virtqueue_create_status (Some ring) with
    | None => undef
    | Some status =>
        if status =? VQUEUE_SUCCESS then
          let q := virtqueue_setup id name ring cb nf in
          put_obj vq_ctxt (OVq q);;
          with_vq vq_ctxt (virtqueue_create_flush q);;
          mret (status, vq_ctxt)
        else mret (status, NULL)
    end.

Definition virtqueue_free (vq : Z) : W E unit :=
  if vq =? NULL then mret tt
  else with_vq vq virtqueue_free_static;; env_free_memory vq.

(** ** Parameters *)

(** The checks of [rpmsg_lite_master_init] on the shared-memory configuration
    ([None]: a check failed, the call returns NULL). *)
Definition master_config (link_id shmem_length : Z) : W E (option ring_config) :=
  if RL_ALLOW_CUSTOM_SHMEM_CONFIG then
    match platform_get_custom_shmem_config link_id with
    | None => mret None
    | Some c =>
        if RL_MAX_BUFFER_COUNT <? buffer_count c then mret None
        else
          let al := if RL_MAX_VRING_ALIGN <? vring_align_cfg c then RL_MAX_VRING_ALIGN
                    else vring_align_cfg c in
          if negb (Z.land (buffer_count c) (u32 (buffer_count c - 1)) =? 0) then mret None
          else if buffer_payload_size c <=? 0 then mret None
          else
            let overhead := u32 (2 * vring_size_cfg c) in
            let bsz := u32 (RL_WORD_ALIGN_UP (uptr (buffer_payload_size c + 16))) in
            match RL_CALCULATE_BUFFER_COUNT_DOWN_SAFE shmem_length overhead bsz with
            | None => undef
            | Some n =>
                if n <? u32 (2 * buffer_count c) then mret None
                else mret (Some {| rc_vring_size := vring_size_cfg c; rc_align := al;
                                   rc_count := buffer_count c; rc_overhead := overhead; rc_buf_size := bsz |})
            end
    end
  else
    match RL_CALCULATE_BUFFER_COUNT_DOWN_SAFE shmem_length (u32 RL_VRING_OVERHEAD) (u32 RL_BUFFER_SIZE) with
    | None => undef
    | Some n =>
        if n <? u32 (2 * RL_BUFFER_COUNT) then mret None
        else mret (Some {| rc_vring_size := VRING_SIZE; rc_align := VRING_ALIGN; rc_count := RL_BUFFER_COUNT;
                           rc_overhead := u32 RL_VRING_OVERHEAD; rc_buf_size := u32 RL_BUFFER_SIZE |})
    end.

(** The checks of [rpmsg_lite_remote_init], which does not bound the count,
    cap the alignment or know the length of the shared memory. *)
Definition remote_config (link_id : Z) : option ring_config :=
  if RL_ALLOW_CUSTOM_SHMEM_CONFIG then
    match platform_get_custom_shmem_config link_id with
    | None => None
    | Some c =>
        if negb (Z.land (buffer_count c) (u32 (buffer_count c - 1)) =? 0) then None
        else if buffer_payload_size c <=? 0 then None
        else Some {| rc_vring_size := vring_size_cfg c; rc_align := vring_align_cfg c;
                     rc_count := buffer_count c; rc_overhead := u32 (2 * vring_size_cfg c);
                     rc_buf_size := u32 (RL_WORD_ALIGN_UP (uptr (buffer_payload_size c + 16))) |}
    end
  else Some {| rc_vring_size := VRING_SIZE; rc_align := VRING_ALIGN; rc_count := RL_BUFFER_COUNT;
               rc_overhead := u32 RL_VRING_OVERHEAD; rc_buf_size := u32 RL_BUFFER_SIZE |}.

(** The memory of the instance and of its two static queue contexts:
    [static_context] with the static API, a fresh block otherwise. *)
Definition instance_storage (static_context : option (Z * Z * Z)) : W E (option (Z * (Z * Z))) :=
  if RL_USE_STATIC_API then
    match static_context with
    | None => mret None
    | Some (dev, c0, c1) => mret (Some (dev, (c0, c1)))
    end
  else
    dev ← env_allocate_memory;
    if dev =? NULL then mret None else mret (Some (dev, (NULL, NULL))).

(** Where ring [idx] lies. *)
Definition ring_address (shmem_addr : Z) (rc : ring_config) (idx : Z) : Z :=
  uptr (RL_WORD_ALIGN_UP shmem_addr + u32 (if idx =? 0 then 0 else rc_vring_size rc)).

(** ** The common parts of the two initialisations *)

(** Undoing: the queues created so far and the instance are released (nothing
    is with the static API). *)
Definition release_all (dev : Z) (vqs : list Z) : W E unit :=
  if RL_USE_STATIC_API then mret tt
  else foldr (λ vq m, (if vq =? NULL then mret tt else virtqueue_free vq);; m) (env_free_memory dev) vqs.

(** One turn of the loop that creates the queues: the status and the queue. *)
Definition create_queue (o : virtqueue_ops) (dev link_id shmem_addr : Z) (rc : ring_config)
    (ctxt idx : Z) : W E (Z * Z) :=
  let ring := {| phy_addr := ring_address shmem_addr rc idx; align := rc_align rc;
                 num_descs := u16 (rc_count rc) |} in
  let rx := match o with master_vq_ops => idx =? 0 | remote_vq_ops => negb (idx =? 0) end in
  let name := if rx then name_rx_vq else name_tx_vq in
  let cb := if rx then rpmsg_lite_rx_callback_fc else rpmsg_lite_tx_callback_fc in
  let id := u16 (RL_GET_VQ_ID link_id idx) in
  (match o with
   | master_vq_ops => env_memset (phy_addr ring) 0 (u32 (vring_size (num_descs ring) (align ring)))
   | remote_vq_ops => mret tt
   end);;
  r ← (if RL_USE_STATIC_API then virtqueue_create_static id name ring (Some cb) (Some virtqueue_notify_fc) ctxt
       else virtqueue_create id name ring (Some cb) (Some virtqueue_notify_fc));
  if r.1 =? RL_SUCCESS then
    (match o with
     | master_vq_ops => with_vq r.2 vq_ring_init;; with_vq r.2 virtqueue_disable_cb
     | remote_vq_ops => mret tt
     end);;
    upd_vq r.2 (λ q, set_priv q dev);;
    mret r
  else mret r.

(** Both queues; [None]: one failed, and everything was released. *)
Definition create_queues (o : virtqueue_ops) (dev link_id shmem_addr : Z) (rc : ring_config)
    (ctxts : Z * Z) : W E (option (Z * Z)) :=
  r0 ← create_queue o dev link_id shmem_addr rc ctxts.1 0;
  if negb (r0.1 =? RL_SUCCESS) then release_all dev [r0.2; NULL];; mret None
  else
    r1 ← create_queue o dev link_id shmem_addr rc ctxts.2 1;
    if negb (r1.1 =? RL_SUCCESS) then release_all dev [r0.2; r1.2];; mret None
    else mret (Some (r0.2, r1.2)).

(** The instance, its environment and its queues; [None]: the call returns
    NULL. *)
Definition init_common (o : virtqueue_ops) (shmem_addr link_id : Z) (rc : ring_config) (total : option Z)
    (static_context : option (Z * Z * Z)) : W E (option (Z * (Z * Z))) :=
  s ← instance_storage static_context;
  match s with
  | None => mret None
  | Some (dev, ctxts) =>
      put_obj dev (OInst zero_instance);;
      status ← with_env el_init;
      if negb (status =? RL_SUCCESS) then
        (if RL_USE_STATIC_API then mret tt else env_free_memory dev);; mret None
      else
        let base := RL_WORD_ALIGN_UP (uptr (shmem_addr + rc_overhead rc)) in
        upd_inst dev (λ i, set_vq_ops (Some o) (set_sh_mem base (default 0 total) (default 0 total)
                             (set_link_id link_id i)));;
        vqs ← create_queues o dev link_id shmem_addr rc ctxts;
        match vqs with
        | None => mret None
        | Some (v0, v1) =>
            (* the address of the member [lock] stands for the instance's *)
            l ← with_env (el_create_mutex dev 1);
            if negb (l.1 =? RL_SUCCESS) then release_all dev [v0; v1];; mret None
            else
              upd_inst dev (set_lock l.2);;
              mret (Some (dev, (v0, v1)))
        end
  end.

(** Installing the interrupt handler of a queue, and masking it. *)
Definition install_isr (vq : Z) : W E unit :=
  q ← get_vq vq;
  with_env (el_init_interrupt (vq_queue_index q) vq);; temit (EvInitIrq (vq_queue_index q) vq).
Definition irq_disable (vq : Z) : W E unit :=
  q ← get_vq vq;
  with_env (el_disable_interrupt (vq_queue_index q));; temit (EvIrqDisable (vq_queue_index q)).
Definition irq_enable (vq : Z) : W E unit :=
  q ← get_vq vq;
  with_env (el_enable_interrupt (vq_queue_index q));; temit (EvIrqEnable (vq_queue_index q)).
Definition irq_deinit (vq : Z) : W E unit :=
  q ← get_vq vq;
  with_env (el_deinit_interrupt (vq_queue_index q));; temit (EvDeinitIrq (vq_queue_index q)).

(** ** The master *)

(** The loop that hands the buffers of the pool to one queue, from index [idx]
    and for at most [k] more; [false]: a call failed. *)
Fixpoint fill_loop (k : nat) (dev vq bsz idx : Z) : W E bool :=
  match k with
  | O => mret true
  | S k' =>
      i ← get_inst dev;
      if negb (idx <? sh_mem_total i) then mret true
      else
        let remaining := sh_mem_remaining i in
        let buffer := if 0 <? remaining
                      then uptr (sh_mem_base i + u32 (bsz * u32 (sh_mem_total i - remaining))) else NULL in
        (if 0 <? remaining then
           upd_inst dev (λ i, set_sh_mem (sh_mem_base i) (u32 (remaining - 1)) (sh_mem_total i) i)
         else mret tt);;
        RL_ASSERT (negb (buffer =? NULL));;
        env_memset buffer 0 bsz;;
        env_cache_flush buffer bsz;;
        status ← (if vq =? rvq i then with_vq vq (virtqueue_fill_avail_buffers buffer bsz)
                  else if vq =? tvq i then with_vq vq (virtqueue_fill_used_buffers buffer bsz)
                  else mret RL_SUCCESS);
        if negb (status =? RL_SUCCESS) then mret false
        else fill_loop k' dev vq bsz (idx + 1)
  end.

(** Both queues, the receive queue first. *)
Definition fill_queues (dev v0 v1 bsz : Z) : W E bool :=
  q0 ← get_vq v0;
  b0 ← fill_loop (Z.to_nat (vq_nentries q0)) dev v0 bsz 0;
  if negb b0 then mret false
  else
    q1 ← get_vq v1;
    fill_loop (Z.to_nat (vq_nentries q1)) dev v1 bsz 0.

Definition rpmsg_lite_master_init (shmem_addr shmem_length link_id init_flags : Z)
    (static_context : option (Z * Z * Z)) : W E Z :=
  if RL_PLATFORM_HIGHEST_LINK_ID <? link_id then mret NULL
  else if shmem_addr =? NULL then mret NULL
  else
    rc ← master_config link_id shmem_length;
    match rc with
    | None => mret NULL
    | Some rc =>
        r ← init_common master_vq_ops shmem_addr link_id rc
              (u32 <$> RL_CALCULATE_BUFFER_COUNT_DOWN_SAFE shmem_length (rc_overhead rc) (rc_buf_size rc))
              static_context;
        match r with
        | None => mret NULL
        | Some (dev, (v0, v1)) =>
            upd_inst dev (λ i, set_rvq v0 (set_tvq v1 i));;
            ok ← fill_queues dev v0 v1 (rc_buf_size rc);
            if negb ok then
              i ← get_inst dev;
              with_env (el_delete_mutex (lock i));;
              release_all dev [v0; v1];;
              mret NULL
            else
              install_isr v0;; install_isr v1;;
              irq_disable v0;; irq_disable v1;;
              upd_inst dev (set_link_state 1);;
              irq_enable v0;; irq_enable v1;;
              with_vq v0 virtqueue_kick;;
              mret dev
        end
    end.

(** ** The remote *)

Definition rpmsg_lite_remote_init (shmem_addr link_id init_flags : Z)
    (static_context : option (Z * Z * Z)) : W E Z :=
  if RL_PLATFORM_HIGHEST_LINK_ID <? link_id then mret NULL
  else if shmem_addr =? NULL then mret NULL
  else
    match remote_config link_id with
    | None => mret NULL
    | Some rc =>
        r ← init_common remote_vq_ops shmem_addr link_id rc None static_context;
        match r with
        | None => mret NULL
        | Some (dev, (v0, v1)) =>
            upd_inst dev (λ i, set_link_state 0 (set_rvq v1 (set_tvq v0 i)));;
            install_isr v0;; install_isr v1;;
            irq_disable v1;; irq_disable v0;;
            irq_enable v1;; irq_enable v0;;
            mret dev
        end
    end.

(** ** Release *)

Definition rpmsg_lite_deinit (dev : Z) : W E Z :=
  if dev =? NULL then mret RL_ERR_PARAM
  else
    i ← get_inst dev;
    let complete := negb (rvq i =? NULL) && negb (tvq i =? NULL) && negb (lock i =? NULL) in
    if negb complete then RL_ASSERT complete;; mret RL_ERR_PARAM
    else
      irq_deinit (rvq i);; irq_deinit (tvq i);;
      upd_inst dev (set_link_state 0);;
      (if RL_USE_STATIC_API then
         with_vq (rvq i) virtqueue_free_static;; with_vq (tvq i) virtqueue_free_static
       else virtqueue_free (rvq i);; virtqueue_free (tvq i));;
      upd_inst dev (λ i, set_rvq NULL (set_tvq NULL i));;
      with_env (el_delete_mutex (lock i));;
      _ ← with_env el_deinit;
      (if RL_USE_STATIC_API then mret tt else env_free_memory dev);;
      mret RL_SUCCESS.

End init.
