(* ===== verification/Startup.v ===== *)
(** * Initialisation is correct

    [rpmsg_lite_master_init], [rpmsg_lite_remote_init] and
    [rpmsg_lite_deinit] of [Init]: what the initialisations leave in the
    shared memory and on the heap is what the theorems on sending and
    receiving ask for; a failing one gives everything back; the release
    undoes a successful one.  The life-cycle services of the environment layer
    are used through the interface [LifeLaws], which the bare-metal port
    implements. *)

From S2P Require Import Prelude Memory Config VirtioRing Virtqueue RingQueue VirtqueueSpec Concrete ChannelRefinement Layout World Lpc55s69 BareMetal Llist Endpoint Transport RpmsgLite Sending RingInit Init.

(** ** What the initialisation asks of the environment layer *)

(** [env_idle]: [env_init] may be called; [env_up]: it was, successfully;
    [masked]: how many interrupt disables are open; [installed]: how many
    handlers are installed; [can_stop]: [env_deinit] may be called. *)
Class Life (E : Type) : Type := {
  env_idle : E → Prop;
  env_up : E → Prop;
  masked : E → Z;
  installed : E → Z;
  can_stop : E → Prop;
  vector_ok : Z → Prop;
}.

(** A service call on an initialised environment that opens [k] masks and
    installs [j] handlers. *)
Record env_step {E} {el : EnvLayer E} {laws : EnvLaws E} {life : Life E} (k j : Z) (e e' : E) : Prop := {
  es_up : env_up e';
  es_masked : masked e' = masked e + k;
  es_installed : installed e' = installed e + j;
  es_locks : ∀ l, lock_free e l → lock_free e' l;
  es_stop : can_stop e → can_stop e';
}.

Class LifeLaws (E : Type) {el : EnvLayer E} {laws : EnvLaws E} {life : Life E} : Type := {
  law_init e : env_idle e → ∃ s e', el_init e = Ok s e' ∧
    (s = RL_SUCCESS → env_up e' ∧ masked e' = masked e ∧ installed e' = installed e);
  law_deinit e : env_up e → can_stop e → ∃ s e', el_deinit e = Ok s e';
  law_create_mutex e p c : env_up e → p ≠ NULL → 0 < c → ∃ s l e', el_create_mutex p c e = Ok (s, l) e' ∧
    (s = RL_SUCCESS → l ≠ NULL ∧ env_step 0 0 e e' ∧ lock_free e' l);
  law_delete_mutex e l : env_up e → lock_free e l → ∃ e', el_delete_mutex l e = Ok tt e' ∧
    env_up e' ∧ (can_stop e → can_stop e');
  law_init_irq e v d : env_up e → vector_ok v →
    ∃ e', el_init_interrupt v d e = Ok tt e' ∧ env_step 0 1 e e';
  law_deinit_irq e v : env_up e → vector_ok v → 0 < installed e →
    ∃ e', el_deinit_interrupt v e = Ok tt e' ∧ env_step 0 (-1) e e';
  law_mask e v : env_up e → vector_ok v → ∃ e', el_disable_interrupt v e = Ok tt e' ∧ env_step 1 0 e e';
  law_unmask e v : env_up e → vector_ok v → 0 < masked e →
    ∃ e', el_enable_interrupt v e = Ok tt e' ∧ env_step (-1) 0 e e';
  law_masked e : env_up e → 0 ≤ masked e;
}.

Section startup.
Context {E : Type} {el : EnvLayer E} {laws : EnvLaws E} {life : Life E} {llaws : LifeLaws E}.
Context {app : Application E} {cfg : Config} {am : AddrMap} {cok : ConfigOk cfg}.
Implicit Types w : world E.

(** ** One queue *)

Definition ring_info (shmem_addr : Z) (rc : ring_config) (idx : Z) : vring_alloc_info :=
  {| phy_addr := ring_address shmem_addr rc idx; align := rc_align rc; num_descs := u16 (rc_count rc) |}.

(** The control block of queue [idx]. *)
Definition new_vq (o : virtqueue_ops) (dev link_id shmem_addr : Z) (rc : ring_config) (idx : Z) : virtqueue :=
  let rx := match o with master_vq_ops => idx =? 0 | remote_vq_ops => negb (idx =? 0) end in
  set_priv (virtqueue_setup (u16 (RL_GET_VQ_ID link_id idx)) (if rx then name_rx_vq else name_tx_vq)
    (ring_info shmem_addr rc idx)
    (Some (if rx then rpmsg_lite_rx_callback_fc else rpmsg_lite_tx_callback_fc))
    (Some virtqueue_notify_fc)) dev.

(** Where the control block goes, and whether there is no memory for it. *)
Definition block (ctxt : Z) (w : world E) : Z := if RL_USE_STATIC_API then ctxt else w_next w.
Definition no_block (w : world E) : bool := negb RL_USE_STATIC_API && default false (head (w_oom w)).
Definition static_ok (ctxt : Z) (w : world E) : Prop :=
  RL_USE_STATIC_API = true → 0 < ctxt < w_next w.

(** The state after a call that obtained a block and wrote to it: [o] is what
    it holds, or nothing when there was no memory. *)
Record block_made (ctxt : Z) (x : option obj) (w w' : world E) : Prop := {
  bk_alloc : alloc_ok w';
  bk_next : w_next w ≤ w_next w';
  bk_heap : w_heap w' = match x with Some ob => <[block ctxt w := ob]> (w_heap w) | None => w_heap w end;
  bk_oom : w_oom w' = if RL_USE_STATIC_API then w_oom w else tl (w_oom w);
  bk_fresh : x ≠ None → 0 < block ctxt w < w_next w' ∧ (RL_USE_STATIC_API = false → block ctxt w = w_next w);
  bk_env : w_env w' = w_env w;
}.

(** Obtaining the block, in both APIs. *)
Lemma obtain_block ctxt ob w :
  alloc_ok w → static_ok ctxt w →
  ∃ w', (if RL_USE_STATIC_API then w' = set_heap <[block ctxt w := ob]> w
         else if no_block w then env_allocate_memory w = Ok NULL w'
         else ∃ w1, env_allocate_memory w = Ok (block ctxt w) w1 ∧ w' = set_heap <[block ctxt w := ob]> w1 ∧
           w_mem w1 = w_mem w ∧ w_trace w1 = w_trace w) ∧
    block_made ctxt (if no_block w then None else Some ob) w w' ∧
    w_mem w' = w_mem w ∧ w_trace w' = w_trace w.
Proof.
  intros Hal Hst. unfold no_block, block, static_ok in *. destruct RL_USE_STATIC_API eqn:HS; cbn [negb andb].
  - specialize (Hst eq_refl). destruct Hal as [Hp Hf Hn]. eexists. split; [reflexivity|].
    split; [|done]. constructor; rewrite ?HS; unfold block; rewrite ?HS; cbn; try done.
    + constructor; cbn; [done|..].
      * intros x Hx. rewrite lookup_insert_ne by lia. by apply Hf.
      * unfold NULL in *. by rewrite lookup_insert_ne by lia.
  - destruct (env_allocate_memory_ok w Hal) as (w1 & Hal1 & Hm & He & Ht & _ & Ho & Hrun).
    destruct (default false (head (w_oom w))) eqn:Hoom.
    + destruct Hrun as (Hrun & Hh & Hn). exists w1. split; [done|]. split; [|done].
      constructor; rewrite ?HS; try done. by rewrite Hn.
    + destruct Hrun as (Hrun & Hh & Hn). destruct Hal as [Hp Hf Hnl].
      exists (set_heap <[w_next w := ob]> w1). split; [by exists w1|]. split; [|done].
      constructor; rewrite ?HS; unfold block; rewrite ?HS; cbn; try done.
      * destruct Hal1 as [Hp1 Hf1 Hn1]. constructor; cbn; [done|..].
        -- intros x Hx. rewrite lookup_insert_ne by lia. by apply Hf1.
        -- unfold NULL in *. by rewrite lookup_insert_ne by lia.
      * lia.
      * by rewrite Hh, insert_insert_eq.
      * intros _. split; [lia|done].
Qed.

(** What the creation of a queue leaves in the memory of its ring. *)
Definition ring_effect (o : virtqueue_ops) (vr : vring) (size : Z) (m m' : mem) : Prop :=
  match o with
  | master_vq_ops => clean_ring vr m' ∧ frames (desc vr) (desc vr + size) m m'
  | remote_vq_ops => m' = m
  end.

(** The last part: the descriptors are chained, callbacks disabled, and the
    queue refers to the instance. *)
Definition configure (o : virtqueue_ops) (dev p : Z) : W E (Z * Z) :=
  (match o with
   | master_vq_ops => with_vq p vq_ring_init;; with_vq p virtqueue_disable_cb
   | remote_vq_ops => mret tt
   end);;
  upd_vq p (λ q, set_priv q dev);;
  mret (RL_SUCCESS, p).

Lemma upd_vq_ok p f q w :
  w_heap w !! p = Some (OVq q) → upd_vq p f w = Ok tt (set_heap <[p := OVq (f q)]> w).
Proof. intros Hq. unfold upd_vq. by rewrite (bind_ok _ _ _ _ _ (get_vq_ok p q w Hq)). Qed.

Lemma internal_chain vr n : Forall internal (chain_events vr n).
Proof. unfold chain_events. apply Forall_fmap, Forall_true. done. Qed.

Lemma configure_ok o dev p q w size m0 :
  w_heap w !! p = Some (OVq q) → vq_wf q → vring_end (vq_ring q) ≤ desc (vq_ring q) + size →
  w_mem w = match o with master_vq_ops => mem_set m0 (desc (vq_ring q)) 0 size | remote_vq_ops => m0 end →
  ∃ w' tr, configure o dev p w = Ok (RL_SUCCESS, p) w' ∧
    w_heap w' = <[p := OVq (set_priv q dev)]> (w_heap w) ∧ w_next w' = w_next w ∧
    w_oom w' = w_oom w ∧ w_env w' = w_env w ∧ w_trace w' = tr ++ w_trace w ∧ Forall internal tr ∧
    ring_effect o (vq_ring q) size m0 (w_mem w').
Proof.
  intros Hp Hwf Hend Em. pose proof (wf_core _ Hwf) as Hc. pose proof (wf_ring _ Hc) as ok.
  unfold configure. destruct o.
  - pose proof (vq_ring_init_eq {| v_vq := q; v_mem := w_mem w; v_trace := w_trace w |} Hc) as H1.
    cbn zeta in H1. cbn [v_vq v_mem v_trace] in H1. set (vr := vq_ring q) in *.
    set (m1 := init_chain vr (w_mem w)) in *.
    set (tr1 := EvStore 2 (a_desc_next vr (num vr - 1)) (u16 VQ_RING_DESC_CHAIN_END) ::
      rev (chain_events vr (num vr - 1))).
    set (w1 := after_vq p q m1 tr1 w).
    assert (with_vq p vq_ring_init w = Ok tt w1) as R1.
    { erewrite with_vq_ok; [reflexivity|exact Hp|exact H1]. }
    pose proof (virtqueue_disable_cb_eq {| v_vq := q; v_mem := w_mem w1; v_trace := w_trace w1 |} Hwf) as H2.
    cbn zeta in H2. cbn [v_vq v_mem v_trace] in H2. fold vr in H2. change (w_mem w1) with m1 in H2.
    set (m2 := avail_flags_store _ _ _) in H2. set (tr2 := rev (_ :: flush_evs _ _)) in H2.
    set (w2 := after_vq p q m2 tr2 w1).
    assert (with_vq p virtqueue_disable_cb w1 = Ok tt w2) as R2.
    { erewrite with_vq_ok; [reflexivity|apply after_vq_heap|exact H2]. }
    eexists. exists (tr2 ++ tr1). split.
    { rewrite (bind_ok (with_vq p vq_ring_init;; with_vq p virtqueue_disable_cb) _ w tt w2)
        by (by rewrite (bind_ok _ _ _ _ _ R1)).
      by rewrite (bind_ok _ _ _ _ _ (upd_vq_ok p _ q w2 (after_vq_heap _ _ _ _ _))). }
    split_and!; try done.
    + cbn. by rewrite !insert_insert_eq.
    + change (tr2 ++ tr1 ++ w_trace w = (tr2 ++ tr1) ++ w_trace w). by rewrite app_assoc.
    + apply Forall_app_2.
      * apply internal_rev, Forall_cons_2; [done|apply internal_flush].
      * apply Forall_cons_2; [done|]. apply internal_rev, internal_chain.
    + pose proof (clean_ring_made vr m0 size ok Hend) as Hcm.
      cbn zeta in Hcm. rewrite <- Em in Hcm. exact Hcm.
  - eexists. exists []. split.
    { rewrite (bind_ok _ _ _ _ _ (eq_refl : (mret tt : W E unit) w = Ok tt w)).
      by rewrite (bind_ok _ _ _ _ _ (upd_vq_ok p _ q w Hp)). }
    split_and!; done.
Qed.

(** The constructor, in either API. *)
Definition construct (id : Z) (name : list Z) (ring : vring_alloc_info) (cb : vq_callback) (ctxt : Z) : W E (Z * Z) :=
  if RL_USE_STATIC_API then virtqueue_create_static id name ring (Some cb) (Some virtqueue_notify_fc) ctxt
  else virtqueue_create id name ring (Some cb) (Some virtqueue_notify_fc).

Lemma create_flush_ok p q w :
  w_heap w !! p = Some (OVq q) → ∃ tr, Forall internal tr ∧
    with_vq p (virtqueue_create_flush q) w = Ok tt (after_vq p q (w_mem w) tr w).
Proof.
  intros Hp. exists (flush_evs (used (vq_ring q)) sizeof_vring_used ++ flush_evs (avail (vq_ring q)) sizeof_vring_avail).
  split; [apply Forall_app_2; apply internal_flush|].
  erewrite with_vq_ok; [reflexivity|exact Hp|].
  unfold virtqueue_create_flush, VQUEUE_FLUSH. cbv [mbind M_bind modify v_vq v_mem v_trace].
  by rewrite !flush_ev_app, app_assoc.
Qed.

Lemma construct_ok id name ring cb ctxt n al size w :
  area_ok (phy_addr ring) n al size → num_descs ring = n → align ring = al →
  alloc_ok w → static_ok ctxt w →
  let q := virtqueue_setup id name ring (Some cb) (Some virtqueue_notify_fc) in
  ∃ w' tr, construct id name ring cb ctxt w =
      Ok (if no_block w then (ERROR_NO_MEM, NULL) else (RL_SUCCESS, block ctxt w)) w' ∧
    block_made ctxt (if no_block w then None else Some (OVq q)) w w' ∧
    w_mem w' = w_mem w ∧ w_trace w' = tr ++ w_trace w ∧ Forall internal tr.
Proof.
  intros Har En Ea Hal Hst q. pose proof (create_status_ok _ _ _ _ Har En Ea) as Hs.
  destruct (obtain_block ctxt (OVq q) w Hal Hst) as (w1 & Hrun & Hbm & Hm & Ht).
  assert (block_made ctxt (Some (OVq q)) w w1 → ∃ w' tr,
    (with_vq (block ctxt w) (virtqueue_create_flush q);; mret (VQUEUE_SUCCESS, block ctxt w)) w1 =
      Ok (RL_SUCCESS, block ctxt w) w' ∧ block_made ctxt (Some (OVq q)) w w' ∧
    w_mem w' = w_mem w ∧ w_trace w' = tr ++ w_trace w ∧ Forall internal tr) as Hfin.
  { intros Hb. assert (w_heap w1 !! block ctxt w = Some (OVq q)) as Hp.
    { rewrite (bk_heap _ _ _ _ Hb). apply lookup_insert_eq. }
    destruct (create_flush_ok _ _ _ Hp) as (tr & Htr & Hfl).
    exists (after_vq (block ctxt w) q (w_mem w1) tr w1), tr.
    split; [by rewrite (bind_ok _ _ _ _ _ Hfl)|]. split; [|by rewrite <- Ht].
    destruct Hb as [[Ha1 Ha2 Ha3] Hn Hh Ho Hf He].
    assert (<[block ctxt w := OVq q]> (w_heap w1) = w_heap w1) as Eid by (by apply insert_id).
    constructor; cbn; rewrite ?Eid; try done. constructor; cbn; by rewrite ?Eid. }
  unfold construct, virtqueue_create, virtqueue_create_static. rewrite Hs.
  change (VQUEUE_SUCCESS =? VQUEUE_SUCCESS) with true. cbv iota.
  unfold no_block, block, static_ok in *. destruct RL_USE_STATIC_API eqn:HS; cbn [negb andb] in *.
  - specialize (Hst eq_refl). rewrite (proj2 (Z.eqb_neq ctxt NULL)) by (unfold NULL; lia).
    fold q. rewrite Hrun in *.
    rewrite (bind_ok _ _ _ _ _ (eq_refl : put_obj ctxt (OVq q) w = Ok tt (set_heap <[ctxt := OVq q]> w))).
    by apply Hfin.
  - destruct (default false (head (w_oom w))).
    + rewrite (bind_ok _ _ _ _ _ Hrun). change (NULL =? NULL) with true. cbv iota.
      exists w1, []. by split_and!.
    + destruct Hrun as (w2 & Hrun & -> & Hm2 & Ht2). rewrite (bind_ok _ _ _ _ _ Hrun).
      destruct Hal as [Hpos _ _]. rewrite (proj2 (Z.eqb_neq (w_next w) NULL)) by (unfold NULL; lia).
      fold q.
      rewrite (bind_ok _ _ _ _ _ (eq_refl : put_obj (w_next w) (OVq q) w2 = Ok tt (set_heap <[w_next w := OVq q]> w2))).
      by apply Hfin.
Qed.

(** Queue [idx] of an instance, at its place in the shared memory. *)
Definition queue_area (shmem_addr : Z) (rc : ring_config) (idx : Z) : Prop :=
  area_ok (ring_address shmem_addr rc idx) (rc_count rc) (rc_align rc) (rc_vring_size rc).
Definition queue_ring (shmem_addr : Z) (rc : ring_config) (idx : Z) : vring :=
  ring_at (ring_address shmem_addr rc idx) (rc_count rc) (rc_align rc).

Lemma set_priv_wf q x : vq_wf q → vq_wf (set_priv q x).
Proof. destruct q. intros [[? ?] Hd ? ? ?]. by constructor. Qed.

Lemma new_vq_ok o dev link_id shmem_addr rc idx :
  queue_area shmem_addr rc idx →
  vq_ring (new_vq o dev link_id shmem_addr rc idx) = queue_ring shmem_addr rc idx ∧
  vq_wf (new_vq o dev link_id shmem_addr rc idx) ∧
  vring_end (queue_ring shmem_addr rc idx) ≤ ring_address shmem_addr rc idx + rc_vring_size rc.
Proof.
  intros Har. pose proof (pow2_pos _ (ar_n _ _ _ _ Har)). pose proof (ar_max _ _ _ _ Har).
  unfold new_vq.
  match goal with |- context [virtqueue_setup ?a ?b ?c ?d ?e] =>
    destruct (setup_ring a b c d e _ _ _ Har) as (Er & Hwf & Hend); [|done|]
  end.
  { cbn. apply u16_small. lia. }
  split_and!; [exact Er| |exact Hend].
  by apply set_priv_wf.
Qed.

Lemma create_queue_ok o dev link_id shmem_addr rc ctxt idx w :
  queue_area shmem_addr rc idx → alloc_ok w → static_ok ctxt w →
  let vr := queue_ring shmem_addr rc idx in
  ∃ w' tr, create_queue o dev link_id shmem_addr rc ctxt idx w =
      Ok (if no_block w then (ERROR_NO_MEM, NULL) else (RL_SUCCESS, block ctxt w)) w' ∧
    block_made ctxt (if no_block w then None else Some (OVq (new_vq o dev link_id shmem_addr rc idx))) w w' ∧
    (no_block w = false → ring_effect o vr (rc_vring_size rc) (w_mem w) (w_mem w')) ∧
    w_trace w' = tr ++ w_trace w ∧ Forall internal tr.
Proof.
  intros Har Hal Hst vr. unfold queue_area in Har. pose proof (pow2_pos _ (ar_n _ _ _ _ Har)). pose proof (ar_max _ _ _ _ Har).
  set (ring := ring_info shmem_addr rc idx).
  assert (num_descs ring = rc_count rc) as En by (apply u16_small; lia).
  destruct (vring_size_eq (rc_count rc) (rc_align rc) (ar_n _ _ _ _ Har) (ar_max _ _ _ _ Har)
    (ar_al _ _ _ _ Har) (ar_al_max _ _ _ _ Har)) as [_ Hsz].
  set (size := vring_size (rc_count rc) (rc_align rc)) in *.
  set (rx := match o with master_vq_ops => idx =? 0 | remote_vq_ops => negb (idx =? 0) end).
  set (m0 := match o with master_vq_ops => mem_set (w_mem w) (desc vr) 0 size | remote_vq_ops => w_mem w end).
  set (w0 := set_mem (λ _, m0) w).
  assert (∀ A (k : unit → W E A), ((match o with
      | master_vq_ops => env_memset (phy_addr ring) 0 (u32 (vring_size (num_descs ring) (align ring)))
      | remote_vq_ops => mret tt end) ≫= k) w = k tt w0) as R0.
  { intros A k. rewrite En. change (align ring) with (rc_align rc). fold size. rewrite u32_small by lia.
    unfold w0, m0. destruct o; [done|]. by destruct w. }
  destruct (construct_ok (u16 (RL_GET_VQ_ID link_id idx)) (if rx then name_rx_vq else name_tx_vq) ring
    (if rx then rpmsg_lite_rx_callback_fc else rpmsg_lite_tx_callback_fc) ctxt _ _ _ w0 Har En eq_refl)
    as (w1 & tr1 & Hrun & Hbm & Hm1 & Ht1 & Hi1).
  { by destruct Hal. } { done. }
  change (no_block w0) with (no_block w) in *. change (block ctxt w0) with (block ctxt w) in *.
  assert (create_queue o dev link_id shmem_addr rc ctxt idx w =
    if no_block w then Ok (ERROR_NO_MEM, NULL) w1 else configure o dev (block ctxt w) w1) as ->.
  { unfold create_queue. cbn zeta. fold ring rx.
    rewrite R0. unfold construct in Hrun. rewrite (bind_ok _ _ _ _ _ Hrun). by destruct (no_block w). }
  destruct (no_block w).
  - exists w1, tr1. split_and!; try done. by destruct Hbm.
  - set (q := virtqueue_setup _ _ _ _ _) in *.
    destruct (setup_ring (u16 (RL_GET_VQ_ID link_id idx)) (if rx then name_rx_vq else name_tx_vq) ring
      (Some (if rx then rpmsg_lite_rx_callback_fc else rpmsg_lite_tx_callback_fc))
      (Some virtqueue_notify_fc) _ _ _ Har En eq_refl) as (Er & Hwf & Hend). fold q in Er, Hwf.
    pose proof (ar_fits _ _ _ _ Har). pose proof (ar_size _ _ _ _ Har). pose proof (ar_pos _ _ _ _ Har).
    assert (0 ≤ ring_address shmem_addr rc idx) as Hge by lia.
    assert (ring_address shmem_addr rc idx + vring_size (rc_count rc) (rc_align rc) + rc_align rc
      ≤ 2 ^ uintptr_bits) as Hle by lia.
    destruct (vring_init_ok (rc_count rc) (ring_address shmem_addr rc idx) (rc_align rc)
      (ar_n _ _ _ _ Har) (ar_max _ _ _ _ Har) (ar_al _ _ _ _ Har) (ar_al_max _ _ _ _ Har)
      Hge (ar_mod _ _ _ _ Har) Hle) as [_ Hend'].
    assert (w_heap w1 !! block ctxt w = Some (OVq q)) as Hp.
    { rewrite (bk_heap _ _ _ _ Hbm). apply lookup_insert_eq. }
    destruct (configure_ok o dev (block ctxt w) q w1 size (w_mem w) Hp Hwf) as
      (w2 & tr2 & R2 & Hh2 & Hn2 & Ho2 & He2 & Ht2 & Hi2 & Hmem).
    { rewrite Er. exact Hend'. }
    { rewrite Hm1, Er. done. }
    exists w2, (tr2 ++ tr1). split_and!.
    + exact R2.
    + destruct Hbm as [[Ha1 Ha2 Ha3] Hn Hh Ho Hf He]. constructor; rewrite ?Hh2, ?Hn2; try done.
      * constructor; rewrite ?Hn2, ?Hh2; [done|..].
        -- intros x Hx. rewrite lookup_insert_ne; [by apply Ha2|].
           destruct (Hf ltac:(done)) as [? _]. change (block ctxt w0) with (block ctxt w) in *. lia.
        -- rewrite lookup_insert_ne; [done|]. destruct (Hf ltac:(done)) as [? _].
           change (block ctxt w0) with (block ctxt w) in *. unfold NULL. lia.
      * rewrite Hh. change (block ctxt w0) with (block ctxt w). by rewrite insert_insert_eq.
      * by rewrite Ho2.
      * intros _. by apply Hf.
      * by rewrite He2.
    + intros _. rewrite Er in Hmem. unfold ring_effect in *. destruct o; [|done].
      destruct Hmem as [Hcl Hfr]. split; [done|]. pose proof (ar_size _ _ _ _ Har).
      eapply frames_weaken; [exact Hfr|apply Z.le_refl|]. unfold size. apply Z.add_le_mono_l. lia.
    + rewrite Ht2, Ht1. by rewrite app_assoc.
    + by apply Forall_app_2.
Qed.

(** ** Giving back *)

Lemma virtqueue_free_ok p q w :
  p ≠ NULL → w_heap w !! p = Some (OVq q) →
  ∃ w', virtqueue_free p w = Ok tt w' ∧ w_heap w' = delete p (w_heap w) ∧ w_mem w' = w_mem w ∧
    w_env w' = w_env w ∧ w_trace w' = w_trace w ∧ w_next w' = w_next w.
Proof.
  intros Hp Hq. unfold virtqueue_free. rewrite (proj2 (Z.eqb_neq p NULL) Hp).
  set (s := {| v_vq := q; v_mem := w_mem w; v_trace := w_trace w |}).
  assert (∃ q', virtqueue_free_static s = Ok tt {| v_vq := q'; v_mem := w_mem w; v_trace := w_trace w |})
    as [q' Hs].
  { unfold virtqueue_free_static. cbv [mbind M_bind getvq s v_vq]. destruct (_ =? NULL); by eexists. }
  rewrite (bind_ok _ _ _ _ _ (with_vq_ok _ _ _ _ _ _ Hq Hs)).
  rewrite (env_free_memory_ok p (OVq q')); [|done|apply lookup_insert_eq].
  eexists. split; [done|]. split_and!; try done. cbn. apply delete_insert_eq.
Qed.

Lemma release_all_ok dev vqs : ∀ w,
  (RL_USE_STATIC_API = false → dev ≠ NULL ∧ w_heap w !! NULL = None ∧ (∃ ob, w_heap w !! dev = Some ob) ∧
     dev ∉ vqs ∧ NoDup (filter (λ v, v ≠ NULL) vqs) ∧ Forall (λ v, v = NULL ∨ ∃ q, w_heap w !! v = Some (OVq q)) vqs) →
  ∃ w', release_all dev vqs w = Ok tt w' ∧ w_env w' = w_env w ∧ w_trace w' = w_trace w ∧
    w_mem w' = w_mem w ∧
    (RL_USE_STATIC_API = false →
       ∀ x, w_heap w' !! x = if decide (x ∈ dev :: vqs) then None else w_heap w !! x).
Proof.
  unfold release_all. destruct RL_USE_STATIC_API eqn:HS.
  - intros w _. by exists w.
  - induction vqs as [|v vqs IH]; intros w Hpre;
      destruct (Hpre eq_refl) as (Hd & Hn & (ob & Hob) & Hdv & Hnd & Hall); cbn [foldr].
    + exists (set_heap (delete dev) w). split; [by apply (env_free_memory_ok dev ob)|].
      split_and!; try done. intros _ x. cbn. case_decide as Hx.
      * apply list_elem_of_singleton in Hx as ->. apply lookup_delete_eq.
      * rewrite lookup_delete_ne; [done|]. intros ->. by apply Hx; left.
    + apply Forall_cons in Hall as [Hv Hall]. apply not_elem_of_cons in Hdv as [Hdv Hd1].
      destruct (decide (v = NULL)) as [->|Hvn].
      * rewrite filter_cons_False in Hnd by tauto. change (NULL =? NULL) with true. cbv iota.
        rewrite (bind_ok _ _ _ _ _ (eq_refl : (mret tt : W E unit) w = Ok tt w)).
        destruct (IH w) as (w' & Hrun & He & Ht & Hm & Hh).
        { intros _. split_and!; eauto. }
        exists w'. split_and!; try done. intros _ x. rewrite Hh by done.
        destruct (decide (x = NULL)) as [->|Hxn]; [by repeat case_decide|].
        apply decide_ext. rewrite !elem_of_cons. naive_solver.
      * rewrite filter_cons_True in Hnd by done. apply NoDup_cons in Hnd as [Hv1 Hnd].
        assert (v ∉ vqs) as Hv2 by (intros Hin; by apply Hv1, list_elem_of_filter).
        destruct Hv as [?|[q Hq]]; [done|]. rewrite (proj2 (Z.eqb_neq v NULL) Hvn).
        destruct (virtqueue_free_ok v q w Hvn Hq) as (w1 & R1 & H1 & M1 & E1 & T1 & _).
        rewrite (bind_ok _ _ _ _ _ R1).
        destruct (IH w1) as (w' & Hrun & He & Ht & Hm & Hh).
        { intros _. rewrite H1. split_and!; try done.
          - by rewrite lookup_delete_ne.
          - exists ob. by rewrite lookup_delete_ne.
          - rewrite Forall_forall in Hall |- *. intros y Hy. destruct (Hall y Hy) as [?|[q' Hq']]; [by left|].
            right. exists q'. rewrite lookup_delete_ne; [done|]. by intros ->. }
        exists w'. split_and!; try congruence. intros _ x. rewrite Hh, H1 by done.
        destruct (decide (x = v)) as [->|Hxv].
        -- rewrite lookup_delete_eq. rewrite (decide_True (P := v ∈ dev :: v :: vqs)) by (right; left).
           by case_decide.
        -- rewrite lookup_delete_ne by done. apply decide_ext. rewrite !elem_of_cons. naive_solver.
Qed.

(** ** Both queues *)

(** One of the next [n] allocations fails. *)
Definition short (n : nat) (w : world E) : bool :=
  negb RL_USE_STATIC_API && existsb id (take n (w_oom w)).

Lemma short_S n w :
  short (S n) w = no_block w || negb RL_USE_STATIC_API && existsb id (take n (tl (w_oom w))).
Proof.
  unfold short, no_block. destruct RL_USE_STATIC_API; [done|]. cbn [negb andb].
  by destruct (w_oom w) as [|[] o]; [destruct n|..].
Qed.

Lemma existsb_tl n w w' ctxt x :
  block_made ctxt x w w' →
  negb RL_USE_STATIC_API && existsb id (take n (tl (w_oom w))) = short n w'.
Proof. intros Hb. unfold short. rewrite (bk_oom _ _ _ _ Hb). by destruct RL_USE_STATIC_API. Qed.

(** What both creations leave in the memory. *)
Definition rings_effect (o : virtqueue_ops) (shmem_addr : Z) (rc : ring_config) (m m' : mem) : Prop :=
  match o with
  | master_vq_ops =>
      clean_ring (queue_ring shmem_addr rc 0) m' ∧ clean_ring (queue_ring shmem_addr rc 1) m' ∧
      frames (ring_address shmem_addr rc 0) (ring_address shmem_addr rc 1 + rc_vring_size rc) m m'
  | remote_vq_ops => m' = m
  end.

(** The two areas follow each other. *)
Definition areas_ok (shmem_addr : Z) (rc : ring_config) : Prop :=
  queue_area shmem_addr rc 0 ∧ queue_area shmem_addr rc 1 ∧
  ring_address shmem_addr rc 1 = ring_address shmem_addr rc 0 + rc_vring_size rc.

Lemma queue_ring_desc shmem_addr rc idx : desc (queue_ring shmem_addr rc idx) = ring_address shmem_addr rc idx.
Proof. apply vring_init_desc. Qed.

Lemma vring_end_ge vr : vring_ok vr → desc vr ≤ vring_end vr.
Proof.
  intros ok. pose proof (vring_ok_num_pos _ ok). pose proof (ok_avail _ ok). pose proof (ok_used _ ok).
  unfold vring_end. lia.
Qed.

Lemma queue_ring_ok shmem_addr rc idx :
  queue_area shmem_addr rc idx →
  vring_ok (queue_ring shmem_addr rc idx) ∧
  vring_end (queue_ring shmem_addr rc idx) ≤ ring_address shmem_addr rc idx + rc_vring_size rc ∧
  0 ≤ rc_vring_size rc.
Proof.
  intros A0. destruct (new_vq_ok master_vq_ops 0 0 shmem_addr rc idx A0) as (Er & Hwf & He).
  pose proof (wf_ring _ (wf_core _ Hwf)) as ok. rewrite Er in ok.
  pose proof (vring_end_ge _ ok) as Hge. rewrite queue_ring_desc in Hge.
  split_and!; [done|done|lia].
Qed.

Lemma rings_effect_join o shmem_addr rc m m1 m2 :
  areas_ok shmem_addr rc →
  ring_effect o (queue_ring shmem_addr rc 0) (rc_vring_size rc) m m1 →
  ring_effect o (queue_ring shmem_addr rc 1) (rc_vring_size rc) m1 m2 →
  rings_effect o shmem_addr rc m m2.
Proof.
  intros (A0 & A1 & Hnext) H0 H1. unfold ring_effect, rings_effect in *. destruct o; [|congruence].
  destruct H0 as [C0 F0], H1 as [C1 F1]. rewrite queue_ring_desc in F0, F1.
  destruct (queue_ring_ok _ _ _ A0) as (ok & He & Hs).
  split_and!; [|exact C1|].
  - apply (clean_ring_ext _ m1); [exact ok| |exact C0].
    eapply frames_agree; [exact F1|]. lia.
  - eapply frames_trans; eapply frames_weaken; [exact F0|lia|lia|exact F1|lia|lia].
Qed.

(** A heap some of whose blocks were released, all fresh but one. *)
Lemma freed_lookup (heap : gmap Z obj) dev l x :
  (∀ y, y ∈ l → heap !! y = None) →
  (if decide (x ∈ dev :: l) then None else heap !! x) = delete dev heap !! x.
Proof.
  intros Hl. case_decide as Hx.
  - apply elem_of_cons in Hx as [->|Hx]; [by rewrite lookup_delete_eq|].
    destruct (decide (x = dev)) as [->|Hne]; [by rewrite lookup_delete_eq|].
    rewrite lookup_delete_ne by done. symmetry. by apply Hl.
  - rewrite lookup_delete_ne; [done|]. intros ->. apply Hx. left.
Qed.

(** The two static contexts, when they are used, are blocks of the instance. *)
Definition statics_ok (dev : Z) (ctxts : Z * Z) (w : world E) : Prop :=
  RL_USE_STATIC_API = true →
    0 < ctxts.1 < w_next w ∧ 0 < ctxts.2 < w_next w ∧ NoDup [dev; ctxts.1; ctxts.2].

Lemma create_queues_ok o dev link_id shmem_addr rc ctxts i w :
  areas_ok shmem_addr rc → alloc_ok w → statics_ok dev ctxts w → dev ≠ NULL →
  w_heap w !! dev = Some (OInst i) →
  ∃ w', w_env w' = w_env w ∧ (∃ tr, w_trace w' = tr ++ w_trace w ∧ Forall internal tr) ∧
    if short 2 w then
      create_queues o dev link_id shmem_addr rc ctxts w = Ok None w' ∧
      (RL_USE_STATIC_API = false → w_heap w' = delete dev (w_heap w))
    else ∃ v0 v1,
      create_queues o dev link_id shmem_addr rc ctxts w = Ok (Some (v0, v1)) w' ∧
      w_heap w' = <[v1 := OVq (new_vq o dev link_id shmem_addr rc 1)]>
        (<[v0 := OVq (new_vq o dev link_id shmem_addr rc 0)]> (w_heap w)) ∧
      NoDup [dev; v0; v1] ∧ v0 ≠ NULL ∧ v1 ≠ NULL ∧
      (RL_USE_STATIC_API = false → w_heap w !! v0 = None ∧ w_heap w !! v1 = None) ∧
      rings_effect o shmem_addr rc (w_mem w) (w_mem w').
Proof.
  intros (A0 & A1 & Hnext) Hal Hst Hd Hdev.
  assert (dev < w_next w) as Hdlt.
  { destruct (Z.lt_ge_cases dev (w_next w)) as [|Hge]; [done|].
    by rewrite (alloc_fresh _ Hal dev Hge) in Hdev. }
  assert (static_ok ctxts.1 w) as Hst1 by (intros HS; apply Hst, HS).
  destruct (create_queue_ok o dev link_id shmem_addr rc ctxts.1 0 w A0 Hal Hst1)
    as (w1 & tr1 & R1 & B1 & M1 & T1 & I1).
  unfold create_queues. rewrite (bind_ok _ _ _ _ _ R1). rewrite short_S.
  destruct (no_block w) eqn:Hb0; cbn [orb fst snd] in *.
  - (* nothing but the instance was allocated *)
    change (ERROR_NO_MEM =? RL_SUCCESS) with false. cbn [negb].
    destruct (release_all_ok dev [NULL; NULL] w1) as (w2 & R2 & E2 & T2 & _ & H2).
    { intros HS. rewrite (bk_heap _ _ _ _ B1). split_and!; [done|apply (alloc_null _ Hal)|by eexists| |constructor|].
      - rewrite !not_elem_of_cons. split_and!; [done..|apply not_elem_of_nil].
      - repeat constructor. }
    rewrite (bind_ok _ _ _ _ _ R2). exists w2. split; [by rewrite E2, (bk_env _ _ _ _ B1)|].
    split; [exists tr1; by rewrite T2|]. split; [done|]. intros HS. apply map_eq. intros x.
    rewrite H2, (bk_heap _ _ _ _ B1) by done. apply freed_lookup.
    intros y [->|[->|[]%not_elem_of_nil]%elem_of_cons]%elem_of_cons; apply (alloc_null _ Hal).
  - change (RL_SUCCESS =? RL_SUCCESS) with true. cbn [negb].
    destruct (bk_fresh _ _ _ _ B1 ltac:(done)) as [Hp0 Hp0w].
    set (p0 := block ctxts.1 w) in *. pose proof (bk_alloc _ _ _ _ B1) as Hal1.
    assert (static_ok ctxts.2 w1) as Hst2.
    { intros HS. destruct (Hst HS) as (_ & ? & _). pose proof (bk_next _ _ _ _ B1). lia. }
    destruct (create_queue_ok o dev link_id shmem_addr rc ctxts.2 1 w1 A1 Hal1 Hst2)
      as (w2 & tr2 & R2 & B2 & M2 & T2 & I2).
    assert (dev ≠ p0) as Hdp0.
    { unfold p0, block in *. destruct RL_USE_STATIC_API eqn:HS.
      - destruct (Hst HS) as (_ & _ & Hnd). intros ->. apply NoDup_cons in Hnd as [Hni _]. by apply Hni; left.
      - lia. }
    assert (RL_USE_STATIC_API = false → w_heap w !! p0 = None) as Hp0n.
    { intros HS. rewrite Hp0w by done. apply (alloc_fresh _ Hal). lia. }
    rewrite (bind_ok _ _ _ _ _ R2). rewrite (existsb_tl 1 w w1 _ _ B1), short_S.
    replace (take 0 (tl (w_oom w1))) with (@nil bool) by done. cbn [existsb]. rewrite andb_false_r, orb_false_r.
    destruct (no_block w1) eqn:Hb1; cbn [fst snd].
    + change (ERROR_NO_MEM =? RL_SUCCESS) with false. cbn [negb].
      destruct (release_all_ok dev [p0; NULL] w2) as (w3 & R3 & E3 & T3 & _ & H3).
      { intros HS. rewrite (bk_heap _ _ _ _ B2), (bk_heap _ _ _ _ B1). fold p0.
        split_and!; [done| | | | |].
        - rewrite lookup_insert_ne by (unfold NULL; lia). apply (alloc_null _ Hal).
        - exists (OInst i). by rewrite lookup_insert_ne.
        - rewrite !not_elem_of_cons. split_and!; [done..|apply not_elem_of_nil].
        - rewrite filter_cons_True by (unfold NULL; lia). rewrite filter_cons_False by tauto. apply NoDup_singleton.
        - apply Forall_cons_2; [|apply Forall_singleton; by left]. right. eexists. apply lookup_insert_eq. }
      rewrite (bind_ok _ _ _ _ _ R3). exists w3. split; [by rewrite E3, (bk_env _ _ _ _ B2), (bk_env _ _ _ _ B1)|].
      split; [exists (tr2 ++ tr1); rewrite T3, T2, T1; split; [by rewrite app_assoc|by apply Forall_app_2]|].
      split; [done|]. intros HS. apply map_eq. intros x.
      rewrite H3, (bk_heap _ _ _ _ B2), (bk_heap _ _ _ _ B1) by done. fold p0.
      rewrite <- (freed_lookup (w_heap w) dev [p0; NULL]) by (intros y [->|[->|[]%not_elem_of_nil]%elem_of_cons]%elem_of_cons; [by apply Hp0n|apply (alloc_null _ Hal)]).
      case_decide as Hx; [done|]. rewrite lookup_insert_ne; [done|]. intros <-. apply Hx. right; left.
    + change (RL_SUCCESS =? RL_SUCCESS) with true. cbn [negb].
      destruct (bk_fresh _ _ _ _ B2 ltac:(done)) as [Hp1 Hp1w].
      set (p1 := block ctxts.2 w1) in *.
      exists w2. split; [by rewrite (bk_env _ _ _ _ B2), (bk_env _ _ _ _ B1)|].
      split; [exists (tr2 ++ tr1); rewrite T2, T1; split; [by rewrite app_assoc|by apply Forall_app_2]|].
      exists p0, p1. split; [done|]. rewrite (bk_heap _ _ _ _ B2), (bk_heap _ _ _ _ B1). fold p0 p1.
      pose proof (bk_next _ _ _ _ B1).
      assert (NoDup [dev; p0; p1]) as Hnd.
      { unfold p0, p1, block in *. destruct RL_USE_STATIC_API eqn:HS; [by destruct (Hst HS) as (_ & _ & ?)|].
        repeat constructor; rewrite ?elem_of_cons, ?elem_of_nil; lia. }
      split_and!; try done; try (unfold NULL; lia).
      * intros HS. split; [by apply Hp0n|]. apply (alloc_fresh _ Hal). rewrite Hp1w by done. lia.
      * eapply rings_effect_join; [done|by apply M1|by apply M2].
Qed.

(** ** The common part *)

(** With the static API the caller provides the instance, which contains its two
    queue contexts. *)
Definition provided (sc : option (Z * Z * Z)) (w : world E) : Prop :=
  RL_USE_STATIC_API = true → ∃ dev c0 c1, sc = Some (dev, c0, c1) ∧
    0 < dev < w_next w ∧ 0 < c0 < w_next w ∧ 0 < c1 < w_next w ∧ NoDup [dev; c0; c1].

(** The services of the port that report a status report success. *)
Definition env_reliable : Prop :=
  (∀ (e : E) s e', el_init e = Ok s e' → s = RL_SUCCESS) ∧
  (∀ p c (e : E) r e', el_create_mutex p c e = Ok r e' → r.1 = RL_SUCCESS).

(** The instance the common part makes. *)
Definition new_inst (o : virtqueue_ops) (shmem_addr link_id : Z) (rc : ring_config) (total lk : Z) :
    rpmsg_lite_instance :=
  {| rvq := NULL; tvq := NULL; rl_endpoints := NULL; lock := lk; link_state := 0;
     sh_mem_base := RL_WORD_ALIGN_UP (uptr (shmem_addr + rc_overhead rc));
     sh_mem_remaining := total; sh_mem_total := total; vq_ops := Some o; link_id := link_id |}.

(** What it leaves when it succeeds. *)
Record inited (o : virtqueue_ops) (shmem_addr link_id : Z) (rc : ring_config) (total dev v0 v1 : Z)
    (w w' : world E) : Prop := {
  in_heap : ∃ lk, lk ≠ NULL ∧ lock_free (w_env w') lk ∧
    w_heap w' = <[v1 := OVq (new_vq o dev link_id shmem_addr rc 1)]>
      (<[v0 := OVq (new_vq o dev link_id shmem_addr rc 0)]>
        (<[dev := OInst (new_inst o shmem_addr link_id rc total lk)]> (w_heap w)));
  in_nodup : NoDup [dev; v0; v1];
  in_null : dev ≠ NULL ∧ v0 ≠ NULL ∧ v1 ≠ NULL;
  in_fresh : RL_USE_STATIC_API = false →
    w_heap w !! dev = None ∧ w_heap w !! v0 = None ∧ w_heap w !! v1 = None;
  in_mem : rings_effect o shmem_addr rc (w_mem w) (w_mem w');
  in_env : env_up (w_env w') ∧ masked (w_env w') = masked (w_env w) ∧
    installed (w_env w') = installed (w_env w);
  in_trace : ∃ tr, w_trace w' = tr ++ w_trace w ∧ Forall internal tr;
}.

Lemma with_env_ok {A} (op : M E A) w a e' :
  op (w_env w) = Ok a e' → with_env op w = Ok a (set_env e' w).
Proof. intros Hop. unfold with_env, zoom. by rewrite Hop. Qed.

(** A heap from which exactly the blocks added to it were released. *)
Lemma restored (heap h1 h2 : gmap Z obj) (l : list Z) :
  (∀ x, h2 !! x = if decide (x ∈ l) then None else h1 !! x) →
  (∀ x, x ∉ l → h1 !! x = heap !! x) → (∀ x, x ∈ l → heap !! x = None) → h2 = heap.
Proof.
  intros H2 H1 H0. apply map_eq. intros x. rewrite H2. case_decide as Hx; [|by apply H1].
  symmetry. by apply H0.
Qed.

Lemma obtain_instance sc w :
  alloc_ok w → provided sc w →
  ∃ w' dev ctxts, block_made dev (if no_block w then None else Some (OInst zero_instance)) w w' ∧
    w_mem w' = w_mem w ∧ w_trace w' = w_trace w ∧
    (if no_block w then instance_storage sc w = Ok None w'
     else dev = block dev w ∧
       (∃ w1, instance_storage sc w = Ok (Some (dev, ctxts)) w1 ∧
          w' = set_heap <[dev := OInst zero_instance]> w1) ∧
       (RL_USE_STATIC_API = true → 0 < ctxts.1 < w_next w ∧ 0 < ctxts.2 < w_next w ∧
          NoDup [dev; ctxts.1; ctxts.2])).
Proof.
  intros Hal Hpr. unfold instance_storage, no_block. destruct RL_USE_STATIC_API eqn:HS; cbn [negb andb].
  - destruct (Hpr HS) as (dev & c0 & c1 & -> & Hd & H0 & H1 & Hnd).
    destruct (obtain_block dev (OInst zero_instance) w Hal (λ _, Hd)) as (w' & Hrun & Hb & Hm & Ht).
    unfold no_block, block in *. rewrite HS in *. cbn [negb andb] in *.
    exists w', dev, (c0, c1). split_and!; try done. by exists w.
  - destruct (obtain_block (w_next w) (OInst zero_instance) w Hal) as (w' & Hrun & Hb & Hm & Ht).
    { intros HS'. by rewrite HS in HS'. }
    unfold no_block, block in *. rewrite HS in *. cbn [negb andb] in *.
    destruct (default false (head (w_oom w))).
    + exists w', (w_next w), (NULL, NULL). split_and!; try done.
      rewrite (bind_ok _ _ _ _ _ Hrun). done.
    + destruct Hrun as (w1 & R1 & -> & Hm1 & Ht1).
      exists (set_heap <[w_next w := OInst zero_instance]> w1), (w_next w), (NULL, NULL).
      split_and!; try done.
      exists w1. split; [|done]. destruct Hal as [Hpos _ _]. rewrite (bind_ok _ _ _ _ _ R1).
      by rewrite (proj2 (Z.eqb_neq (w_next w) NULL)) by (unfold NULL; lia).
Qed.

(** The blocks of a failed initialisation are given back. *)
Definition nothing_left (w w' : world E) : Prop :=
  RL_USE_STATIC_API = false → w_heap w' = w_heap w.

Lemma init_common_ok o shmem_addr link_id rc total sc w :
  areas_ok shmem_addr rc → alloc_ok w → provided sc w → env_idle (w_env w) →
  ∃ r w', init_common o shmem_addr link_id rc total sc w = Ok r w' ∧
    match r with
    | None => nothing_left w w' ∧ (env_reliable → short 3 w = true)
    | Some (dev, (v0, v1)) => inited o shmem_addr link_id rc (default 0 total) dev v0 v1 w w'
    end.
Proof.
  intros Hareas Hal Hpr Hidle. unfold init_common.
  destruct (obtain_instance sc w Hal Hpr) as (w2 & dev & ctxts & B & M2 & T2 & Hrun).
  rewrite short_S. destruct (no_block w) eqn:Hb0.
  { exists None, w2. rewrite (bind_ok _ _ _ _ _ Hrun). split; [done|]. split; [|done].
    intros HS. by rewrite (bk_heap _ _ _ _ B). }
  destruct Hrun as (Hdev & (w1 & Hst & Ew2) & Hctx). rewrite (bind_ok _ _ _ _ _ Hst).
  rewrite (bind_ok _ _ _ _ _ (eq_refl : put_obj dev (OInst zero_instance) w1 = Ok tt (set_heap <[dev := OInst zero_instance]> w1))), <- Ew2.
  clear w1 Hst Ew2. pose proof (bk_heap _ _ _ _ B) as Hh2. rewrite <- Hdev in Hh2.
  pose proof (bk_fresh _ _ _ _ B ltac:(done)) as [Hdpos Hdw]. rewrite <- Hdev in Hdpos, Hdw.
  assert (dev ≠ NULL) as Hdn by (unfold NULL; lia).
  assert (RL_USE_STATIC_API = false → w_heap w !! dev = None) as Hdfresh.
  { intros HS. rewrite Hdw by done. apply (alloc_fresh _ Hal). lia. }
  rewrite (existsb_tl 2 w w2 _ _ B).
  destruct (law_init (w_env w2)) as (s & e1 & Hinit & Hup); [by rewrite (bk_env _ _ _ _ B)|].
  rewrite (bind_ok _ _ _ _ _ (with_env_ok el_init w2 s e1 Hinit)). set (w3 := set_env e1 w2).
  destruct (Z.eqb_spec s RL_SUCCESS) as [->|Hs]; cbn [negb].
  2:{ exists None. destruct RL_USE_STATIC_API eqn:HS.
      - exists w3. split; [done|]. split; [by intros HS'; rewrite HS in HS'|].
        intros [Hrel _]. by destruct (Hs (Hrel _ _ _ Hinit)).
      - assert (w_heap w3 !! dev = Some (OInst zero_instance)) as Hd3.
        { change (w_heap w3) with (w_heap w2). rewrite Hh2. apply lookup_insert_eq. }
        exists (set_heap (delete dev) w3). rewrite (bind_ok _ _ _ _ _ (env_free_memory_ok dev _ w3 Hdn Hd3)).
        split; [done|]. split.
        + intros _. cbn. rewrite Hh2. rewrite delete_insert_id; [done|by apply Hdfresh].
        + intros [Hrel _]. by destruct (Hs (Hrel _ _ _ Hinit)). }
  destruct (Hup eq_refl) as (Hup1 & Hmask1 & Hinst1).
  assert (w_heap w3 !! dev = Some (OInst zero_instance)) as Hd3.
  { change (w_heap w3) with (w_heap w2). rewrite Hh2. apply lookup_insert_eq. }
  rewrite (bind_ok _ _ _ _ _ (upd_inst_ok dev _ _ w3 Hd3)).
  set (i0 := set_vq_ops _ _). set (w4 := set_heap <[dev := OInst i0]> w3).
  assert (w_heap w4 = <[dev := OInst i0]> (w_heap w)) as Hh4.
  { unfold w4. cbn [w_heap set_heap]. change (w_heap w3) with (w_heap w2). by rewrite Hh2, insert_insert_eq. }
  assert (alloc_ok w4) as Hal4.
  { destruct Hal as [Hp Hf Hn], B as [[Hp2 Hf2 Hn2] Hnx _ _ _ _]. constructor; [exact Hp2|..].
    - intros x Hx. change (w_next w4) with (w_next w2) in Hx. rewrite Hh4, lookup_insert_ne by lia. apply Hf. lia.
    - by rewrite Hh4, lookup_insert_ne. }
  assert (statics_ok dev ctxts w4) as Hst4.
  { intros HS. destruct (Hctx HS) as (? & ? & ?). pose proof (bk_next _ _ _ _ B).
    change (w_next w4) with (w_next w2). split_and!; try lia. done. }
  assert (w_heap w4 !! dev = Some (OInst i0)) as Hd4 by (rewrite Hh4; apply lookup_insert_eq).
  destruct (create_queues_ok o dev link_id shmem_addr rc ctxts i0 w4 Hareas Hal4 Hst4 Hdn Hd4)
    as (w5 & He5 & (tr5 & Ht5 & Hi5) & Hq).
  change (short 2 w4) with (short 2 w2) in Hq. destruct (short 2 w2) eqn:Hshort.
  { destruct Hq as [Hq Hh5]. exists None, w5. rewrite (bind_ok _ _ _ _ _ Hq). split; [done|]. split; [|done].
    intros HS. rewrite Hh5, Hh4 by done. rewrite delete_insert_id; [done|by apply Hdfresh]. }
  destruct Hq as (v0 & v1 & Hq & Hh5 & Hnd & Hv0 & Hv1 & Hfr & Hmem).
  rewrite (bind_ok _ _ _ _ _ Hq).
  assert (env_up (w_env w5)) as Hup5 by (by rewrite He5).
  destruct (law_create_mutex (w_env w5) dev 1 Hup5 Hdn Z.lt_0_1) as (s2 & lk & e6 & Hmx & Hok).
  rewrite (bind_ok _ _ _ _ _ (with_env_ok _ w5 (s2, lk) e6 Hmx)). set (w6 := set_env e6 w5). cbn [fst snd].
  assert (v0 ≠ dev ∧ v1 ≠ dev ∧ v0 ≠ v1) as (N0 & N1 & N2).
  { rewrite !NoDup_cons, !not_elem_of_cons in Hnd. naive_solver. }
  assert (RL_USE_STATIC_API = false → w_heap w !! v0 = None ∧ w_heap w !! v1 = None) as Hfr'.
  { intros HS. destruct (Hfr HS) as [F0 F1]. rewrite Hh4 in F0, F1. by rewrite !lookup_insert_ne in F0, F1. }
  destruct (Z.eqb_spec s2 RL_SUCCESS) as [->|Hs2]; cbn [negb].
  - destruct (Hok eq_refl) as (Hlk & [Hup6 Hmask6 Hinst6 _ _] & Hfree).
    assert (w_heap w6 !! dev = Some (OInst i0)) as Hd6.
    { change (w_heap w6) with (w_heap w5). by rewrite Hh5, !lookup_insert_ne. }
    rewrite (bind_ok _ _ _ _ _ (upd_inst_ok dev _ _ w6 Hd6)).
    eexists (Some (dev, (v0, v1))), _. split; [done|]. constructor.
    + exists lk. split_and!; [done..|]. cbn [w_heap set_heap]. change (w_heap w6) with (w_heap w5).
      rewrite Hh5, Hh4. rewrite !(insert_insert_ne _ dev) by done. by rewrite insert_insert_eq.
    + done.
    + done.
    + intros HS. destruct (Hfr' HS). split_and!; try done. by apply Hdfresh.
    + change (rings_effect o shmem_addr rc (w_mem w) (w_mem w5)). rewrite <- M2. exact Hmem.
    + cbn. rewrite Hmask6, Hinst6, He5, (eq_refl : w_env w4 = e1), Hmask1, Hinst1, (bk_env _ _ _ _ B).
      split_and!; [done|lia|lia].
    + exists tr5. split; [|done]. change (w_trace w5 = tr5 ++ w_trace w). by rewrite Ht5, <- T2.
  - destruct (release_all_ok dev [v0; v1] w6) as (w7 & R7 & _ & _ & _ & H7).
    { intros HS. change (w_heap w6) with (w_heap w5). rewrite Hh5. split_and!; [done| | | | |].
      - rewrite !lookup_insert_ne by done. apply (alloc_null _ Hal4).
      - exists (OInst i0). by rewrite !lookup_insert_ne.
      - rewrite !not_elem_of_cons. split_and!; [done..|apply not_elem_of_nil].
      - rewrite !filter_cons_True by done. rewrite filter_nil. apply NoDup_cons_2; [|apply NoDup_singleton].
        by rewrite list_elem_of_singleton.
      - apply Forall_cons_2; [right|apply Forall_singleton; right]; eexists.
        + rewrite lookup_insert_ne by done. apply lookup_insert_eq.
        + apply lookup_insert_eq. }
    rewrite (bind_ok _ _ _ _ _ R7). exists None, w7. split; [done|]. split.
    + intros HS. apply (restored _ (w_heap w6) _ [dev; v0; v1]).
      * by apply H7.
      * intros x Hx. rewrite !not_elem_of_cons in Hx. destruct Hx as (? & ? & ? & _).
        change (w_heap w6) with (w_heap w5). rewrite Hh5, Hh4. by rewrite !lookup_insert_ne.
      * intros x Hx. destruct (Hfr' HS). rewrite !elem_of_cons in Hx.
        destruct Hx as [->|[->|[->|[]%not_elem_of_nil]]]; try done. by apply Hdfresh.
    + intros [_ Hrel]. by destruct (Hs2 (Hrel _ _ _ _ _ Hmx)).
Qed.

End startup.
