(* ===== verification/MasterInit.v ===== *)
(** * What the initialisations establish

    The loop that hands out the buffers, and the theorems on
    [rpmsg_lite_master_init], [rpmsg_lite_remote_init] and
    [rpmsg_lite_deinit]: the state in which the first message can be sent or
    received, the failures that leave nothing behind, and the release. *)

From S2P Require Import Prelude Memory Config VirtioRing Virtqueue RingQueue VirtqueueSpec Concrete.
From S2P Require Import ChannelRefinement World Lpc55s69 BareMetal Llist Endpoint Transport RpmsgLite Sending.
From S2P Require Import RingInit Init Startup.

Section fill.
Context {E : Type} {el : EnvLayer E} {laws : EnvLaws E}.
Context {app : Application E} {cfg : Config} {am : AddrMap} {cok : ConfigOk cfg}.
Implicit Types w : world E.

(** The queue the loop fills: the first one the instance refers to as its
    receive queue gets available buffers, the other used ones. *)
Definition fills (side : fill_side) (i : rpmsg_lite_instance) (p : Z) : Prop :=
  match side with FillAvail => p = rvq i | FillUsed => p = tvq i ∧ p ≠ rvq i end.

(** A pool of [sh_mem_total] buffers that fits the address space, of which those
    from [start] on are for a ring that lies elsewhere. *)
Record pool_ok (i : rpmsg_lite_instance) (bsz start : Z) (vr : vring) : Prop := {
  po_base : 0 < sh_mem_base i;
  po_bsz : 0 < bsz;
  po_start : 0 ≤ start;
  po_total : start + num vr ≤ sh_mem_total i;
  po_size : bsz * sh_mem_total i < 4294967296;
  po_space : sh_mem_base i + bsz * sh_mem_total i < 2 ^ uintptr_bits;
  po_out : sh_mem_base i + bsz * start + bsz * num vr ≤ desc vr ∨
    vring_end vr ≤ sh_mem_base i + bsz * start;
}.

Definition after_fill (i : rpmsg_lite_instance) (n : Z) : rpmsg_lite_instance :=
  set_sh_mem (sh_mem_base i) (sh_mem_remaining i - n) (sh_mem_total i) i.

(** The address the loop computes is the next buffer of the pool. *)
Lemma next_buffer i bsz start vr idx :
  pool_ok i bsz start vr → 0 ≤ idx < num vr → sh_mem_remaining i = sh_mem_total i - start - idx →
  0 < sh_mem_remaining i ∧
  uptr (sh_mem_base i + u32 (bsz * u32 (sh_mem_total i - sh_mem_remaining i))) =
    sh_mem_base i + bsz * start + bsz * idx ∧
  sh_mem_base i + bsz * start + bsz * idx ≠ NULL ∧
  u32 (sh_mem_remaining i - 1) = sh_mem_remaining i - 1.
Proof.
  intros [Hb Hz Hs Ht Hsz Hsp _] Hi Hr.
  assert (sh_mem_total i ≤ bsz * sh_mem_total i) by nia.
  assert (bsz * (start + idx) ≤ bsz * sh_mem_total i) by nia.
  assert (0 ≤ bsz * (start + idx)) by nia.
  replace (sh_mem_total i - sh_mem_remaining i) with (start + idx) by lia.
  rewrite (u32_small (start + idx)) by lia. rewrite (u32_small (bsz * _)) by lia.
  rewrite uptr_small by lia. rewrite u32_small by lia. unfold NULL. split_and!; lia.
Qed.

(** The fill operation of the side, as a change of the world. *)
Lemma fill_op_ok side i p q b bsz w :
  fills side i p → w_heap w !! p = Some (OVq q) → vq_wf q → b ≠ NULL →
  0 ≤ vq_desc_head_idx q < num (vq_ring q) →
  let h := vq_desc_head_idx q in
  ∃ q' m' tr, (if p =? rvq i then with_vq p (virtqueue_fill_avail_buffers b bsz)
       else if p =? tvq i then with_vq p (virtqueue_fill_used_buffers b bsz)
       else mret RL_SUCCESS) w = Ok VQUEUE_SUCCESS (after_vq p q' m' tr w) ∧
    m' = match side with
         | FillAvail => push_avail (vq_ring q) h (fill_desc (vq_ring q) h (env_map_vatopa b) bsz (w_mem w))
         | FillUsed => push_used (vq_ring q) h bsz (fill_desc (vq_ring q) h (env_map_vatopa b) bsz (w_mem w))
         end ∧
    Forall internal tr ∧ same_ring q q' ∧ vq_wf q' ∧ vq_desc_head_idx q' = h + 1 ∧
    vq_used_cons_idx q' = vq_used_cons_idx q.
Proof.
  intros Hside Hp Hwf Hb Hh h. pose proof (ok_max _ (wf_ring _ (wf_core _ Hwf))).
  set (s := {| v_vq := q; v_mem := w_mem w; v_trace := w_trace w |}).
  assert (u16 (h + 1) = h + 1) as Eh by (apply u16_small; unfold h; lia).
  assert (∀ q' : virtqueue, same_ring q q' → vq_used_cons_idx q' = vq_used_cons_idx q →
    vq_available_idx q' = vq_available_idx q → vq_wf q') as Hwf'.
  { intros q' Hs Eu Ea. eapply vq_wf_same_ring; [exact Hwf|exact Hs|..]; rewrite ?Eu, ?Ea; apply Hwf. }
  destruct side; cbn in Hside.
  - rewrite (proj2 (Z.eqb_eq p (rvq i)) Hside).
    pose proof (virtqueue_fill_avail_buffers_eq b bsz s Hwf) as Heq. cbn zeta in Heq.
    eexists _, _, _. split; [erewrite with_vq_ok; [reflexivity|exact Hp|exact Heq]|].
    assert (same_ring q (set_vq_queued_cnt (set_vq_desc_head_idx q (u16 (h + 1))) (u16 (vq_queued_cnt q + 1)))) as Hs.
    { eapply same_ring_trans; [apply same_ring_desc_head|apply same_ring_queued]. }
    split_and!; try done; try (by apply Hwf').
    apply internal_rev, Forall_app_2; [|apply internal_update_avail].
    repeat apply Forall_cons_2; try done. apply internal_flush.
  - destruct Hside as [Ht Hr]. rewrite (proj2 (Z.eqb_neq p (rvq i)) Hr), (proj2 (Z.eqb_eq p (tvq i)) Ht).
    pose proof (virtqueue_fill_used_buffers_eq b bsz s Hwf Hb Hh) as Heq. cbn zeta in Heq.
    eexists _, _, _. split; [erewrite with_vq_ok; [reflexivity|exact Hp|exact Heq]|].
    split_and!; try done; try (by apply Hwf').
    apply internal_rev, Forall_app_2; [|apply internal_update_used].
    repeat apply Forall_cons_2; try done. apply internal_flush.
Qed.

(** The result of the loop on its queue [q] and the instance. *)
Record fill_done (side : fill_side) (dev p : Z) (i : rpmsg_lite_instance) (q : virtqueue)
    (bsz start n : Z) (m0 : mem) (w w' : world E) : Prop := {
  fd_heap : ∃ q', w_heap w' = <[p := OVq q']> (<[dev := OInst (after_fill i n)]> (w_heap w)) ∧
    same_ring q q' ∧ vq_wf q' ∧ vq_used_cons_idx q' = vq_used_cons_idx q;
  fd_mem : filled side (vq_ring q) (sh_mem_base i + bsz * start) bsz (num (vq_ring q)) m0 (w_mem w');
  fd_env : w_env w' = w_env w;
  fd_trace : ∃ tr, w_trace w' = tr ++ w_trace w ∧ Forall internal tr;
}.

Lemma fill_loop_ok side dev p bsz start m0 : ∀ k i q idx w,
  dev ≠ p → w_heap w !! dev = Some (OInst i) → w_heap w !! p = Some (OVq q) → vq_wf q →
  fills side i p → pool_ok i bsz start (vq_ring q) →
  vq_desc_head_idx q = idx → 0 ≤ idx → idx + Z.of_nat k = num (vq_ring q) →
  sh_mem_remaining i = sh_mem_total i - start - idx →
  filled side (vq_ring q) (sh_mem_base i + bsz * start) bsz idx m0 (w_mem w) →
  ∃ w', fill_loop k dev p bsz idx w = Ok true w' ∧
    fill_done side dev p i q bsz start (Z.of_nat k) m0 w w'.
Proof.
  induction k as [|k IH]; intros i q idx w Hne Hd Hp Hwf Hside Hpool Hh Hidx Hk Hrem Hfi.
  - exists w. split; [done|]. replace idx with (num (vq_ring q)) in Hfi by lia. constructor; try done.
    + exists q. split_and!; try done.
      assert (after_fill i (Z.of_nat 0) = i) as -> by (unfold after_fill; rewrite Z.sub_0_r; by destruct i).
      by rewrite !insert_id by (rewrite ?lookup_insert_ne; done).
    + by exists [].
  - cbn [fill_loop]. pose proof (wf_ring _ (wf_core _ Hwf)) as ok.
    assert (0 ≤ idx < num (vq_ring q)) as Hlt by lia.
    destruct (next_buffer i bsz start (vq_ring q) idx Hpool Hlt Hrem) as (Hr0 & Eb & Hbn & Er).
    rewrite (bind_ok _ _ _ _ _ (get_inst_ok dev i w Hd)).
    assert (idx < sh_mem_total i) by (destruct Hpool; lia).
    rewrite (proj2 (Z.ltb_lt idx _)), (proj2 (Z.ltb_lt 0 _)) by done. cbn [negb]. cbn zeta. rewrite Eb, Er.
    set (b := sh_mem_base i + bsz * start + bsz * idx) in *.
    rewrite (bind_ok _ _ _ _ _ (upd_inst_ok dev _ i w Hd)).
    set (i1 := set_sh_mem (sh_mem_base i) (sh_mem_remaining i - 1) (sh_mem_total i) i).
    set (w1 := set_heap <[dev := OInst i1]> w).
    rewrite (proj2 (Z.eqb_neq b NULL) Hbn). cbn [negb RL_ASSERT].
    rewrite (bind_ok _ _ _ _ _ (eq_refl : (mret tt : W E unit) w1 = Ok tt w1)).
    set (w2 := set_mem (λ m, mem_set m b 0 bsz) w1).
    rewrite (bind_ok _ _ _ _ _ (eq_refl : env_memset b 0 bsz w1 = Ok tt w2)).
    rewrite (bind_ok _ _ _ _ _ (env_cache_flush_ok b bsz w2)). set (w3 := set_trace _ w2).
    assert (w_heap w3 !! p = Some (OVq q)) as Hp3 by (change (w_heap w3) with (<[dev := OInst i1]> (w_heap w));
      by rewrite lookup_insert_ne).
    destruct (fill_op_ok side i p q b bsz w3 Hside Hp3 Hwf Hbn ltac:(by rewrite Hh))
      as (q4 & m4 & tr4 & R4 & Em4 & Hi4 & Hs4 & Hwf4 & Hh4 & Hu4).
    rewrite (bind_ok _ _ _ _ _ R4). set (w4 := after_vq p q4 m4 tr4 w3).
    change (VQUEUE_SUCCESS =? RL_SUCCESS) with true. cbn [negb].
    assert (vq_ring q4 = vq_ring q) as Ering by apply Hs4.
    assert (w_heap w4 = <[p := OVq q4]> (<[dev := OInst i1]> (w_heap w))) as Eh4 by done.
    pose proof (filled_step side (vq_ring q) _ bsz idx m0 (w_mem w) ok Hfi Hlt
      ltac:(destruct Hpool; nia) (po_out _ _ _ _ Hpool)) as Hfi4. fold b in Hfi4.
    assert (w_mem w4 = fill_mem side (vq_ring q) idx b bsz (w_mem w)) as Em.
    { change (w_mem w4) with m4. rewrite Em4, Hh. unfold fill_mem. by destruct side. }
    destruct (IH i1 q4 (idx + 1) w4) as (w' & Hrun & [(q' & Hh' & Hs' & Hwf' & Hu') Hm' He' (tr' & Ht' & Hi')]); try done.
    + rewrite Eh4, lookup_insert_ne by done. apply lookup_insert_eq.
    + rewrite Eh4. apply lookup_insert_eq.
    + rewrite Ering. by destruct Hpool.
    + by rewrite Hh4, Hh.
    + lia.
    + rewrite Ering. lia.
    + cbn. lia.
    + rewrite Ering, Em. exact Hfi4.
    + rewrite Ering in Hm'. exists w'. split; [exact Hrun|]. constructor.
      * exists q'. split_and!; [| |done|by rewrite Hu'].
        -- rewrite Hh', Eh4. rewrite (insert_insert_ne _ dev p) by done. rewrite !insert_insert_eq.
           assert (after_fill i1 (Z.of_nat k) = after_fill i (Z.of_nat (S k))) as -> by
             (unfold after_fill, i1, set_sh_mem; cbn; f_equal; lia).
           done.
        -- by eapply same_ring_trans.
      * exact Hm'.
      * by rewrite He'.
      * exists (tr' ++ tr4 ++ flush_evs b bsz). rewrite Ht'. split.
        -- change (w_trace w4) with (tr4 ++ flush_evs b bsz ++ w_trace w). by rewrite <- !app_assoc.
        -- apply Forall_app_2; [done|]. apply Forall_app_2; [done|apply internal_flush].
Qed.

End fill.

(** ** The layout of the shared memory *)

(** What the integrator's sizes must satisfy: the rings are aligned and as large
    as [vring_size] says, two of them are the overhead, and the buffers of both
    queues fit behind them. *)
Record layout_ok {cfg : Config} (shmem_addr shmem_length : Z) (rc : ring_config) : Prop := {
  la_count : pow2 (rc_count rc);
  la_count_max : rc_count rc ≤ 32768;
  la_align : pow2 (rc_align rc);
  la_align_max : rc_align rc ≤ 65536;
  la_word : rc_align rc mod 4 = 0;
  la_addr : 0 < shmem_addr;
  la_addr_align : shmem_addr mod rc_align rc = 0;
  la_ring : vring_size (rc_count rc) (rc_align rc) ≤ rc_vring_size rc;
  la_ring_align : rc_vring_size rc mod rc_align rc = 0;
  la_overhead : 2 * rc_vring_size rc ≤ rc_overhead rc;
  la_overhead_word : rc_overhead rc mod 4 = 0;
  la_buf : 16 ≤ rc_buf_size rc;
  la_length : 0 ≤ shmem_length < 4294967296;
  la_space : shmem_addr + shmem_length + 65536 ≤ 2 ^ uintptr_bits;
  la_fits : ∃ n, RL_CALCULATE_BUFFER_COUNT_DOWN_SAFE shmem_length (rc_overhead rc) (rc_buf_size rc) = Some n ∧
    2 * rc_count rc ≤ n;
}.

(** The first buffer, behind what is reserved for the two rings. *)
Definition pool_base (shmem_addr : Z) (rc : ring_config) : Z := shmem_addr + rc_overhead rc.

Section layout.
Context {cfg : Config} {cok : ConfigOk cfg}.
Context (shmem_addr shmem_length : Z) (rc : ring_config) (lok : layout_ok shmem_addr shmem_length rc).

Lemma mod4_of_align x : x mod rc_align rc = 0 → x mod 4 = 0.
Proof.
  pose proof (pow2_pos _ (la_align _ _ _ lok)). intros Hx.
  apply Z.mod_divide in Hx; [|lia]. apply Z.mod_divide; [lia|].
  eapply Z.divide_trans; [|exact Hx]. apply Z.mod_divide; [lia|apply lok].
Qed.

Lemma layout_numbers :
  0 < rc_vring_size rc ∧
  ∃ n, RL_CALCULATE_BUFFER_COUNT_DOWN_SAFE shmem_length (rc_overhead rc) (rc_buf_size rc) = Some n ∧
    2 * rc_count rc ≤ n ∧ 0 < n < 4294967296 ∧
    rc_overhead rc + rc_buf_size rc * n ≤ shmem_length.
Proof.
  pose proof (pow2_pos _ (la_count _ _ _ lok)).
  destruct (vring_size_eq (rc_count rc) (rc_align rc) (la_count _ _ _ lok) (la_count_max _ _ _ lok)
    (la_align _ _ _ lok) (la_align_max _ _ _ lok)) as [_ Hs].
  pose proof (la_ring _ _ _ lok). pose proof (la_buf _ _ _ lok). pose proof (la_length _ _ _ lok).
  destruct (la_fits _ _ _ lok) as (n & Hn & Hle). pose proof (la_overhead _ _ _ lok).
  pose proof (la_space _ _ _ lok). pose proof (la_addr _ _ _ lok).
  destruct (buffer_count_fits shmem_length (rc_overhead rc) (rc_buf_size rc) n) as [Hn0 Hfit]; [lia|lia|lia|done|].
  split; [lia|]. exists n. split_and!; try done; nia.
Qed.

Lemma layout_addresses :
  ring_address shmem_addr rc 0 = shmem_addr ∧
  ring_address shmem_addr rc 1 = shmem_addr + rc_vring_size rc ∧
  RL_WORD_ALIGN_UP (uptr (shmem_addr + rc_overhead rc)) = pool_base shmem_addr rc.
Proof.
  destruct layout_numbers as (Hv & n & _ & _ & Hn & Hfit).
  pose proof (la_addr _ _ _ lok). pose proof (la_space _ _ _ lok). pose proof (la_buf _ _ _ lok).
  pose proof (mod4_of_align _ (la_addr_align _ _ _ lok)) as Ha4.
  pose proof (mod4_of_align _ (la_ring_align _ _ _ lok)) as Hv4.
  pose proof (la_length _ _ _ lok). assert (0 ≤ rc_buf_size rc * n) by nia.
  pose proof (la_overhead _ _ _ lok). pose proof (la_overhead_word _ _ _ lok) as Ho4.
  unfold ring_address, pool_base.
  rewrite RL_WORD_ALIGN_UP_id by (try done; lia). cbn [Z.eqb].
  rewrite !(u32_small (rc_vring_size rc)), (u32_small 0) by lia.
  rewrite !uptr_small by lia. rewrite RL_WORD_ALIGN_UP_id; [split_and!; lia|lia|lia|].
  rewrite <- Z.add_mod_idemp_l, Ha4 by lia. by rewrite Z.add_0_l.
Qed.

Lemma layout_areas : areas_ok shmem_addr rc.
Proof.
  destruct layout_numbers as (Hv & n & _ & _ & Hn & Hfit).
  destruct layout_addresses as (E0 & E1 & _).
  pose proof (la_addr _ _ _ lok). pose proof (la_space _ _ _ lok). pose proof (la_buf _ _ _ lok).
  assert (0 ≤ rc_buf_size rc * n) by nia. pose proof (la_align_max _ _ _ lok). pose proof (la_overhead _ _ _ lok).
  pose proof (pow2_pos _ (la_align _ _ _ lok)).
  unfold areas_ok, queue_area. rewrite E0, E1.
  split_and!; [constructor; try apply lok; try lia..|done].
  rewrite <- Z.add_mod_idemp_l, (la_addr_align _ _ _ lok) by lia. apply lok.
Qed.

(** The two rings and the buffers behind them do not overlap. *)
Lemma layout_rings :
  let r0 := queue_ring shmem_addr rc 0 in let r1 := queue_ring shmem_addr rc 1 in
  vring_ok r0 ∧ vring_ok r1 ∧ desc r0 = shmem_addr ∧ vring_end r0 ≤ desc r1 ∧
  vring_end r1 ≤ pool_base shmem_addr rc ∧ num r0 = rc_count rc ∧ num r1 = rc_count rc.
Proof.
  destruct layout_areas as (A0 & A1 & _). destruct layout_addresses as (E0 & E1 & _).
  destruct (queue_ring_ok _ _ _ A0) as (ok0 & He0 & _), (queue_ring_ok _ _ _ A1) as (ok1 & He1 & _).
  rewrite E0 in He0. rewrite E1 in He1. pose proof (la_overhead _ _ _ lok). cbn zeta. rewrite !queue_ring_desc, E0, E1.
  unfold pool_base. split_and!; try done; lia.
Qed.

End layout.

(** ** The shared memory a master has prepared *)

(** Ring 0 offers all its buffers to the remote, ring 1 has returned all its
    buffers to the master; buffer [k] of ring 0 is block [k] of the pool, buffer
    [k] of ring 1 block [count + k]. *)
Record prepared {cfg : Config} {am : AddrMap} (shmem_addr shmem_length : Z) (rc : ring_config) (m : mem) : Prop := {
  pr_avail0 : avail_queue 0 (queue_ring shmem_addr rc 0) m = seqZ 0 (rc_count rc);
  pr_used0 : used_queue 0 (queue_ring shmem_addr rc 0) m = [];
  pr_avail1 : avail_queue 0 (queue_ring shmem_addr rc 1) m = [];
  pr_used1 : used_queue 0 (queue_ring shmem_addr rc 1) m =
    (λ k, (k, rc_buf_size rc)) <$> seqZ 0 (rc_count rc);
  pr_buf0 : ∀ k, 0 ≤ k < rc_count rc →
    buf_at (queue_ring shmem_addr rc 0) m k = pool_base shmem_addr rc + rc_buf_size rc * k ∧
    r_desc_len (queue_ring shmem_addr rc 0) m k = rc_buf_size rc;
  pr_buf1 : ∀ k, 0 ≤ k < rc_count rc →
    buf_at (queue_ring shmem_addr rc 1) m k =
      pool_base shmem_addr rc + rc_buf_size rc * (rc_count rc + k) ∧
    r_desc_len (queue_ring shmem_addr rc 1) m k = rc_buf_size rc;
  pr_notify : load 2 m (a_used_flags (queue_ring shmem_addr rc 0)) = 0 ∧
    load 2 m (a_used_flags (queue_ring shmem_addr rc 1)) = 0;
  pr_nointr : load 2 m (a_avail_flags (queue_ring shmem_addr rc 0)) = VRING_AVAIL_F_NO_INTERRUPT ∧
    load 2 m (a_avail_flags (queue_ring shmem_addr rc 1)) = VRING_AVAIL_F_NO_INTERRUPT;
  pr_inside : pool_base shmem_addr rc + rc_buf_size rc * (2 * rc_count rc) ≤ shmem_addr + shmem_length;
}.

(** The address translation round-trips on the pool. *)
Definition pool_mapped {cfg : Config} {am : AddrMap} (shmem_addr : Z) (rc : ring_config) : Prop :=
  ∀ k, 0 ≤ k < 2 * rc_count rc →
    let b := pool_base shmem_addr rc + rc_buf_size rc * k in
    env_map_patova (u32 (u64 (env_map_vatopa b))) = b.

Section prepare.
Context {cfg : Config} {cok : ConfigOk cfg} {am : AddrMap}.
Context (shmem_addr shmem_length : Z) (rc : ring_config) (lok : layout_ok shmem_addr shmem_length rc).
Context (mapped : pool_mapped shmem_addr rc).

(** Filling the second ring leaves the first alone. *)
Lemma filled_apart r0 r1 b0 bsz n m1 m2 :
  vring_ok r0 → vring_end r0 ≤ desc r1 → vring_end r1 ≤ b0 → 0 ≤ bsz * n → desc r1 ≤ vring_end r1 →
  filled FillUsed r1 (b0 + bsz * n) bsz n m1 m2 →
  same_desc r0 m1 m2 ∧ same_avail r0 m1 m2 ∧ same_used r0 m1 m2 ∧
  ∀ a, desc r0 ≤ a → a + 2 ≤ vring_end r0 → load 2 m2 a = load 2 m1 a.
Proof.
  intros ok0 H01 H1b Hn Hd F1.
  assert (agree_on (desc r0) (vring_end r0) m2 m1) as Hag.
  { intros a Ha. apply (fi_frame _ _ _ _ _ _ _ F1); [lia|]. left. lia. }
  pose proof (ok_avail _ ok0). pose proof (ok_used _ ok0). pose proof (vring_ok_num_pos _ ok0).
  unfold vring_end in *. split_and!; try (eapply agree_on_sub; [exact Hag|unfold vring_end; lia..]).
  intros a ? ?. apply load_ext. eapply agree_on_sub; [exact Hag|lia|lia].
Qed.

(** The buffers a filled ring describes. *)
Lemma filled_bufs side r b bsz n m0 m :
  filled side r b bsz n m0 m →
  (∀ k, 0 ≤ k < n → env_map_patova (u32 (u64 (env_map_vatopa (b + bsz * k)))) = b + bsz * k) →
  ∀ k, 0 ≤ k < n → buf_at r m k = b + bsz * k ∧ r_desc_len r m k = bsz.
Proof.
  intros F Hm k Hk. destruct (fi_desc _ _ _ _ _ _ _ F k Hk) as [Fa Fl]. split; [|done].
  unfold buf_at. rewrite Fa. by apply Hm.
Qed.

(** Both rings filled, one after the other, from clean ones. *)
Lemma filled_prepared m0 m1 m2 :
  clean_ring (queue_ring shmem_addr rc 0) m0 → clean_ring (queue_ring shmem_addr rc 1) m1 →
  filled FillAvail (queue_ring shmem_addr rc 0) (pool_base shmem_addr rc) (rc_buf_size rc) (rc_count rc) m0 m1 →
  filled FillUsed (queue_ring shmem_addr rc 1) (pool_base shmem_addr rc + rc_buf_size rc * rc_count rc)
    (rc_buf_size rc) (rc_count rc) m1 m2 →
  prepared shmem_addr shmem_length rc m2.
Proof.
  intros C0 C1 F0 F1.
  destruct (layout_rings _ _ _ lok) as (ok0 & ok1 & _ & H01 & H1b & N0 & _).
  destruct (layout_numbers _ _ _ lok) as (_ & t & _ & Ht & _ & Hfit).
  pose proof (la_buf _ _ _ lok) as Hb. pose proof (pow2_pos _ (la_count _ _ _ lok)) as Hc.
  pose proof (vring_end_ge _ ok1) as Hge. pose proof (ok_avail _ ok0). pose proof (ok_used _ ok0).
  pose proof (vring_ok_num_pos _ ok0).
  assert (0 ≤ rc_buf_size rc * rc_count rc) as Hpos by nia.
  destruct (filled_apart _ _ _ _ _ _ _ ok0 H01 H1b Hpos Hge F1) as (Hd & Ha & Hu & Hld).
  destruct (fi_flags _ _ _ _ _ _ _ F0) as [Q0 I0], (fi_flags _ _ _ _ _ _ _ F1) as [Q1 I1].
  constructor.
  - rewrite (avail_queue_ext _ ok0 _ _ _ Ha). exact (fi_avail _ _ _ _ _ _ _ F0).
  - rewrite (used_queue_ext _ ok0 _ _ _ Hu). exact (fi_used _ _ _ _ _ _ _ F0).
  - exact (fi_avail _ _ _ _ _ _ _ F1).
  - exact (fi_used _ _ _ _ _ _ _ F1).
  - intros k Hk. rewrite <- N0 in Hk. rewrite (buf_at_ext _ _ _ _ ok0 Hd Hk).
    destruct (r_desc_ext _ ok0 _ _ k Hd Hk) as [_ ->]. rewrite N0 in Hk.
    apply (filled_bufs _ _ _ _ _ _ _ F0); [|done]. intros j Hj. apply (mapped j). lia.
  - intros k Hk. rewrite Z.mul_add_distr_l, Z.add_assoc.
    apply (filled_bufs _ _ _ _ _ _ _ F1); [|done]. intros j Hj.
    rewrite <- Z.add_assoc, <- Z.mul_add_distr_l. apply mapped. lia.
  - rewrite (Hld (a_used_flags (queue_ring shmem_addr rc 0))) by (unfold a_used_flags, vring_end in *; lia). rewrite Q0, Q1.
    exact (conj (cl_quiet _ _ C0) (cl_quiet _ _ C1)).
  - rewrite (Hld (a_avail_flags (queue_ring shmem_addr rc 0))) by (unfold a_avail_flags, vring_end in *; lia). rewrite I0, I1.
    exact (conj (cl_nointr _ _ C0) (cl_nointr _ _ C1)).
  - unfold pool_base. nia.
Qed.

(** Its buffers are as the layers above want them. *)
Lemma prepared_buffers m :
  prepared shmem_addr shmem_length rc m →
  buffers_ok (queue_ring shmem_addr rc 0) (rc_buf_size rc) m ∧
  buffers_ok (queue_ring shmem_addr rc 1) (rc_buf_size rc) m.
Proof.
  intros Hp. destruct (layout_rings _ _ _ lok) as (ok0 & ok1 & Hd0 & H01 & H1b & N0 & N1).
  pose proof (la_buf _ _ _ lok). pose proof (pow2_pos _ (la_count _ _ _ lok)).
  pose proof (vring_end_ge _ ok0). pose proof (vring_end_ge _ ok1). pose proof (la_addr _ _ _ lok).
  assert (0 < pool_base shmem_addr rc) by lia.
  split; constructor; rewrite ?N0, ?N1; intros;
    repeat match goal with
    | Hk : 0 ≤ ?k < rc_count rc |- context [buf_at (queue_ring shmem_addr rc 0) m ?k] =>
        rewrite (proj1 (pr_buf0 _ _ _ _ Hp k Hk))
    | Hk : 0 ≤ ?k < rc_count rc |- context [buf_at (queue_ring shmem_addr rc 1) m ?k] =>
        rewrite (proj1 (pr_buf1 _ _ _ _ Hp k Hk))
    end; unfold NULL; first [nia | right; nia | destruct (Z.lt_total i j) as [|[|]]; [left; nia|lia|right; nia]].
Qed.

End prepare.

(** ** The master *)

Section boot.
Context {E : Type} {el : EnvLayer E} {laws : EnvLaws E} {life : Life E} {llaws : LifeLaws E}.
Context {app : Application E} {cfg : Config} {am : AddrMap} {cok : ConfigOk cfg}.
Implicit Types w : world E.

(** *** Installing and masking interrupts *)

Definition irq_event (e : event) : Prop :=
  match e with EvInitIrq _ _ | EvIrqEnable _ | EvIrqDisable _ => True | _ => False end.

(** Only the environment and the trace changed: [k] masks opened, [j] handlers
    installed. *)
Record irq_step (k j : Z) (w w' : world E) : Prop := {
  is_heap : w_heap w' = w_heap w;
  is_mem : w_mem w' = w_mem w;
  is_env : env_step k j (w_env w) (w_env w');
  is_trace : ∃ tr, w_trace w' = tr ++ w_trace w ∧ Forall irq_event tr;
}.

Lemma irq_step_trans k1 j1 k2 j2 w1 w2 w3 :
  irq_step k1 j1 w1 w2 → irq_step k2 j2 w2 w3 → irq_step (k1 + k2) (j1 + j2) w1 w3.
Proof.
  intros [H1 M1 [U1 K1 J1 L1 S1] (t1 & T1 & I1)] [H2 M2 [U2 K2 J2 L2 S2] (t2 & T2 & I2)]. constructor.
  - by rewrite H2.
  - by rewrite M2.
  - constructor; [done|lia|lia|auto|auto].
  - exists (t2 ++ t1). rewrite T2, T1, app_assoc. split; [done|by apply Forall_app_2].
Qed.

Lemma irq_call k j (op : Z → M E unit) (ev : Z → event) p q w e' :
  w_heap w !! p = Some (OVq q) → op (vq_queue_index q) (w_env w) = Ok tt e' → irq_event (ev (vq_queue_index q)) →
  env_step k j (w_env w) e' →
  ∃ w', (q ← get_vq p; with_env (op (vq_queue_index q));; temit (ev (vq_queue_index q))) w = Ok tt w' ∧
    irq_step k j w w'.
Proof.
  intros Hp Hop Hev Hes. rewrite (bind_ok _ _ _ _ _ (get_vq_ok p q w Hp)).
  rewrite (bind_ok _ _ _ _ _ (with_env_ok _ w tt e' Hop)). eexists. split; [done|].
  constructor; [done..|]. exists [ev (vq_queue_index q)]. split; [done|by apply Forall_singleton].
Qed.

Lemma install_isr_ok p q w :
  w_heap w !! p = Some (OVq q) → env_up (w_env w) → vector_ok (vq_queue_index q) →
  ∃ w', install_isr p w = Ok tt w' ∧ irq_step 0 1 w w'.
Proof.
  intros Hp Hup Hv. destruct (law_init_irq (w_env w) _ p Hup Hv) as (e' & Hop & Hes).
  by apply (irq_call 0 1 (λ v, el_init_interrupt v p) (λ v, EvInitIrq v p) p q w e').
Qed.
Lemma irq_disable_ok p q w :
  w_heap w !! p = Some (OVq q) → env_up (w_env w) → vector_ok (vq_queue_index q) →
  ∃ w', irq_disable p w = Ok tt w' ∧ irq_step 1 0 w w'.
Proof.
  intros Hp Hup Hv. destruct (law_mask (w_env w) _ Hup Hv) as (e' & Hop & Hes).
  by apply (irq_call 1 0 el_disable_interrupt EvIrqDisable p q w e').
Qed.
Lemma irq_enable_ok p q w :
  w_heap w !! p = Some (OVq q) → env_up (w_env w) → vector_ok (vq_queue_index q) → 0 < masked (w_env w) →
  ∃ w', irq_enable p w = Ok tt w' ∧ irq_step (-1) 0 w w'.
Proof.
  intros Hp Hup Hv Hm. destruct (law_unmask (w_env w) _ Hup Hv Hm) as (e' & Hop & Hes).
  by apply (irq_call (-1) 0 el_enable_interrupt EvIrqEnable p q w e').
Qed.

(** Two queues on the heap, with valid vectors. *)
Definition two_queues (p0 p1 : Z) (q0 q1 : virtqueue) (heap : gmap Z obj) : Prop :=
  heap !! p0 = Some (OVq q0) ∧ heap !! p1 = Some (OVq q1) ∧
  vector_ok (vq_queue_index q0) ∧ vector_ok (vq_queue_index q1).

(** Installing both handlers and masking both vectors, in the orders of the two
    initialisations ([d0], [d1]: the order of masking). *)
Lemma mask_both_ok p0 p1 q0 q1 d0 d1 w :
  two_queues p0 p1 q0 q1 (w_heap w) → (d0, d1) = (p0, p1) ∨ (d0, d1) = (p1, p0) → env_up (w_env w) →
  ∃ w', (∀ A (k : W E A), (install_isr p0;; install_isr p1;; irq_disable d0;; irq_disable d1;; k) w = k w') ∧
    irq_step 2 2 w w'.
Proof.
  intros (H0 & H1 & V0 & V1) Hd Hup.
  destruct (install_isr_ok p0 q0 w H0 Hup V0) as (w1 & R1 & S1).
  destruct (install_isr_ok p1 q1 w1 ltac:(by rewrite (is_heap _ _ _ _ S1)) (es_up _ _ _ _ (is_env _ _ _ _ S1)) V1)
    as (w2 & R2 & S2). pose proof (irq_step_trans _ _ _ _ _ _ _ S1 S2) as S12.
  assert (∃ q, w_heap w !! d0 = Some (OVq q) ∧ vector_ok (vq_queue_index q)) as (qa & Ha & Va).
  { destruct Hd as [[= -> ->]|[= -> ->]]; eauto. }
  assert (∃ q, w_heap w !! d1 = Some (OVq q) ∧ vector_ok (vq_queue_index q)) as (qb & Hb & Vb).
  { destruct Hd as [[= -> ->]|[= -> ->]]; eauto. }
  destruct (irq_disable_ok d0 qa w2 ltac:(by rewrite (is_heap _ _ _ _ S12)) (es_up _ _ _ _ (is_env _ _ _ _ S12)) Va)
    as (w3 & R3 & S3). pose proof (irq_step_trans _ _ _ _ _ _ _ S12 S3) as S13.
  destruct (irq_disable_ok d1 qb w3 ltac:(by rewrite (is_heap _ _ _ _ S13)) (es_up _ _ _ _ (is_env _ _ _ _ S13)) Vb)
    as (w4 & R4 & S4). pose proof (irq_step_trans _ _ _ _ _ _ _ S13 S4) as S14.
  exists w4. split; [|exact S14]. intros A k.
  by rewrite (bind_ok _ _ _ _ _ R1), (bind_ok _ _ _ _ _ R2), (bind_ok _ _ _ _ _ R3), (bind_ok _ _ _ _ _ R4).
Qed.

Lemma unmask_both_ok p0 p1 q0 q1 w :
  two_queues p0 p1 q0 q1 (w_heap w) → env_up (w_env w) → 2 ≤ masked (w_env w) →
  ∃ w', (∀ A (k : W E A), (irq_enable p0;; irq_enable p1;; k) w = k w') ∧ irq_step (-2) 0 w w'.
Proof.
  intros (H0 & H1 & V0 & V1) Hup Hm.
  destruct (irq_enable_ok p0 q0 w H0 Hup V0 ltac:(lia)) as (w1 & R1 & S1).
  pose proof (es_masked _ _ _ _ (is_env _ _ _ _ S1)).
  destruct (irq_enable_ok p1 q1 w1 ltac:(by rewrite (is_heap _ _ _ _ S1)) (es_up _ _ _ _ (is_env _ _ _ _ S1)) V1 ltac:(lia))
    as (w2 & R2 & S2). exists w2. split; [|exact (irq_step_trans _ _ _ _ _ _ _ S1 S2)].
  intros A k. by rewrite (bind_ok _ _ _ _ _ R1), (bind_ok _ _ _ _ _ R2).
Qed.

(** *** Filling both queues *)

(** The control blocks after the filling. *)
Definition filled_vq (q q' : virtqueue) : Prop :=
  same_ring q q' ∧ vq_wf q' ∧ vq_used_cons_idx q' = vq_used_cons_idx q.

Lemma fill_queues_ok shmem_addr shmem_length rc dev v0 v1 i link_id w :
  layout_ok shmem_addr shmem_length rc → pool_mapped shmem_addr rc →
  let q0 := new_vq master_vq_ops dev link_id shmem_addr rc 0 in
  let q1 := new_vq master_vq_ops dev link_id shmem_addr rc 1 in
  NoDup [dev; v0; v1] → w_heap w !! dev = Some (OInst i) →
  w_heap w !! v0 = Some (OVq q0) → w_heap w !! v1 = Some (OVq q1) →
  rvq i = v0 → tvq i = v1 → sh_mem_base i = pool_base shmem_addr rc →
  RL_CALCULATE_BUFFER_COUNT_DOWN_SAFE shmem_length (rc_overhead rc) (rc_buf_size rc) = Some (sh_mem_total i) →
  sh_mem_remaining i = sh_mem_total i →
  clean_ring (queue_ring shmem_addr rc 0) (w_mem w) → clean_ring (queue_ring shmem_addr rc 1) (w_mem w) →
  ∃ w' q0' q1', fill_queues dev v0 v1 (rc_buf_size rc) w = Ok true w' ∧
    w_heap w' = <[v1 := OVq q1']> (<[v0 := OVq q0']> (<[dev := OInst (after_fill i (2 * rc_count rc))]> (w_heap w))) ∧
    filled_vq q0 q0' ∧ filled_vq q1 q1' ∧
    prepared shmem_addr shmem_length rc (w_mem w') ∧ w_env w' = w_env w ∧
    ∃ tr, w_trace w' = tr ++ w_trace w ∧ Forall internal tr.
Proof.
  intros lok Hmap q0 q1 Hnd Hd H0 H1 Hrv Htv Hbase Htot Hrem C0 C1.
  destruct (layout_areas _ _ _ lok) as (A0 & A1 & _).
  destruct (new_vq_ok master_vq_ops dev link_id _ _ _ A0) as (Er0 & Hwf0 & _).
  destruct (new_vq_ok master_vq_ops dev link_id _ _ _ A1) as (Er1 & Hwf1 & _).
  fold q0 in Er0, Hwf0. fold q1 in Er1, Hwf1.
  destruct (layout_rings _ _ _ lok) as (ok0 & ok1 & _ & H01 & H1b & N0 & N1).
  destruct (layout_numbers _ _ _ lok) as (Hv & t & Ht & Hle & Htr & Hfit).
  rewrite Htot in Ht. injection Ht as <-.
  pose proof (la_buf _ _ _ lok) as Hb. pose proof (pow2_pos _ (la_count _ _ _ lok)) as Hc.
  pose proof (vring_end_ge _ ok1). pose proof (la_addr _ _ _ lok). pose proof (la_space _ _ _ lok).
  pose proof (la_length _ _ _ lok). pose proof (la_overhead _ _ _ lok).
  assert (v0 ≠ dev ∧ v1 ≠ dev ∧ v0 ≠ v1) as (Nd0 & Nd1 & N01).
  { rewrite !NoDup_cons, !not_elem_of_cons in Hnd. naive_solver. }
  unfold fill_queues. rewrite (bind_ok _ _ _ _ _ (get_vq_ok v0 q0 w H0)).
  assert (vq_nentries q0 = rc_count rc) as En0 by (rewrite (wf_n _ (wf_core _ Hwf0)), Er0; exact N0).
  assert (vq_nentries q1 = rc_count rc) as En1 by (rewrite (wf_n _ (wf_core _ Hwf1)), Er1; exact N1).
  assert (pool_base shmem_addr rc + rc_buf_size rc * sh_mem_total i < 2 ^ uintptr_bits) as Hsp
    by (unfold pool_base; lia).
  assert (0 < pool_base shmem_addr rc) as Hb0 by (unfold pool_base; lia).
  assert (pool_ok i (rc_buf_size rc) 0 (vq_ring q0)) as P0.
  { constructor; rewrite ?Er0, ?N0, ?Hbase; try lia. }
  destruct (fill_loop_ok FillAvail dev v0 (rc_buf_size rc) 0 (w_mem w) (Z.to_nat (rc_count rc)) i q0 0 w)
    as (w1 & R1 & [(q0' & Hh1 & F0a & F0b & F0c) F0 E1 (tr1 & T1 & I1)]); try done.
  { rewrite Er0, N0. lia. } { lia. }
  { rewrite Er0, Hbase, Z.mul_0_r, Z.add_0_r. by apply filled_start. }
  rewrite En0, (bind_ok _ _ _ _ _ R1). cbn [negb]. rewrite Z2Nat.id in Hh1 by lia.
  rewrite Er0, N0, Hbase, Z.mul_0_r, Z.add_0_r in F0.
  set (i1 := after_fill i (rc_count rc)) in *.
  assert (w_heap w1 !! v1 = Some (OVq q1)) as H1' by (rewrite Hh1, !lookup_insert_ne by done; exact H1).
  assert (w_heap w1 !! dev = Some (OInst i1)) as Hd1
    by (rewrite Hh1, lookup_insert_ne by done; apply lookup_insert_eq).
  rewrite (bind_ok _ _ _ _ _ (get_vq_ok v1 q1 w1 H1')), En1.
  assert (clean_ring (queue_ring shmem_addr rc 1) (w_mem w1)) as C1'.
  { eapply clean_ring_ext; [exact ok1| |exact C1]. intros a Ha. apply (fi_frame _ _ _ _ _ _ _ F0); lia. }
  assert (pool_ok i1 (rc_buf_size rc) (rc_count rc) (vq_ring q1)) as P1.
  { constructor; rewrite ?Er1, ?N1; change (sh_mem_base i1) with (sh_mem_base i);
      change (sh_mem_total i1) with (sh_mem_total i); rewrite ?Hbase; try lia; try nia. }
  destruct (fill_loop_ok FillUsed dev v1 (rc_buf_size rc) (rc_count rc) (w_mem w1) (Z.to_nat (rc_count rc)) i1 q1 0 w1)
    as (w2 & R2 & [(q1' & Hh2 & F1a & F1b & F1c) F1 E2 (tr2 & T2 & I2)]); try done.
  { split; [by rewrite <- Htv|]. change (rvq i1) with (rvq i). by rewrite Hrv. }
  { rewrite Er1, N1. lia. }
  { unfold i1, after_fill. cbn [set_sh_mem sh_mem_remaining sh_mem_total]. lia. }
  { rewrite Er1. apply filled_start; [exact ok1|exact C1']. }
  rewrite Z2Nat.id in Hh2 by lia. rewrite Er1, N1 in F1.
  change (sh_mem_base i1) with (sh_mem_base i) in F1. rewrite Hbase in F1.
  exists w2, q0', q1'. split; [exact R2|]. split_and!; try done.
  - rewrite Hh2, Hh1. rewrite (insert_insert_ne _ dev v0) by done. rewrite insert_insert_eq.
    assert (after_fill i1 (rc_count rc) = after_fill i (2 * rc_count rc)) as ->; [|done].
    unfold i1, after_fill, set_sh_mem. cbn. f_equal. lia.
  - exact (filled_prepared _ _ _ lok Hmap _ _ _ C0 C1' F0 F1).
  - by rewrite E2, E1.
  - exists (tr2 ++ tr1). rewrite T2, T1, app_assoc. split; [done|by apply Forall_app_2].
Qed.

(** *** The state after an initialisation *)

(** Which ring each role receives from and sends on. *)
Definition rx_ring (o : virtqueue_ops) : Z := match o with master_vq_ops => 0 | remote_vq_ops => 1 end.
Definition tx_ring (o : virtqueue_ops) : Z := match o with master_vq_ops => 1 | remote_vq_ops => 0 end.

(** A control block of role [o], of ring [idx], nothing read yet. *)
Record booted_vq (o : virtqueue_ops) (shmem_addr link_id : Z) (rc : ring_config) (dev idx : Z)
    (q : virtqueue) : Prop := {
  bq_ring : vq_ring q = queue_ring shmem_addr rc idx;
  bq_wf : vq_wf q;
  bq_read : read_idx o q = 0;
  bq_cb : callback_fc q = Some (if decide (idx = rx_ring o) then rpmsg_lite_rx_callback_fc
                                else rpmsg_lite_tx_callback_fc);
  bq_notify : notify_fc q = Some virtqueue_notify_fc;
  bq_vector : vq_queue_index q = u16 (RL_GET_VQ_ID link_id idx);
  bq_priv : priv q = dev;
}.

(** A live instance without endpoints, on its two rings, with its lock free. *)
Record booted (o : virtqueue_ops) (shmem_addr lnk : Z) (rc : ring_config) (dev : Z)
    (i : rpmsg_lite_instance) (qt qr : virtqueue) (w : world E) : Prop := {
  bt_lite : lite_ok dev i o qt qr w;
  bt_table : ept_table (w_heap w) dev i [];
  bt_link : link_state i = match o with master_vq_ops => 1 | remote_vq_ops => 0 end;
  bt_id : World.link_id i = lnk;
  bt_null : rvq i ≠ NULL ∧ tvq i ≠ NULL ∧ lock i ≠ NULL;
  bt_tx : booted_vq o shmem_addr lnk rc dev (tx_ring o) qt;
  bt_rx : booted_vq o shmem_addr lnk rc dev (rx_ring o) qr;
}.

Lemma new_vq_booted o dev lnk shmem_addr rc idx :
  queue_area shmem_addr rc idx → idx = 0 ∨ idx = 1 →
  booted_vq o shmem_addr lnk rc dev idx (new_vq o dev lnk shmem_addr rc idx).
Proof.
  intros Har Hidx. destruct (new_vq_ok o dev lnk shmem_addr rc idx Har) as (Er & Hwf & _).
  constructor; try done.
  - by destruct o.
  - unfold new_vq, rx_ring. cbn. f_equal. destruct Hidx as [-> | ->], o; reflexivity.
Qed.

Lemma booted_vq_same o shmem_addr lnk rc dev idx q q' :
  booted_vq o shmem_addr lnk rc dev idx q → same_ring q q' → vq_wf q' → read_idx o q' = read_idx o q →
  booted_vq o shmem_addr lnk rc dev idx q'.
Proof.
  intros [Hr Hw Hd Hc Hn Hv Hp] (E1 & _ & _ & _ & E5 & E6 & E7 & E8) Hwf Hread.
  constructor; rewrite ?E1, ?E5, ?E6, ?E7, ?E8; try done. by rewrite Hread.
Qed.

(** The table of an instance that has no endpoints. *)
Lemma empty_table (heap : gmap Z obj) dev i :
  heap !! dev = Some (OInst i) → rl_endpoints i = NULL → ept_table heap dev i [].
Proof.
  intros Hd He. constructor; [done| |constructor..]. rewrite He. repeat split; constructor.
Qed.

(** Events of an initialisation other than the notification. *)
Definition boot_event (e : event) : Prop := internal e ∨ irq_event e.

Lemma boot_internal l : Forall internal l → Forall boot_event l.
Proof. intros Hl. eapply Forall_impl; [exact Hl|]. by left. Qed.
Lemma boot_irq l : Forall irq_event l → Forall boot_event l.
Proof. intros Hl. eapply Forall_impl; [exact Hl|]. by right. Qed.

(** The heap of one instance with its two queues, over another heap. *)
Definition with_instance (dev v0 v1 : Z) (i : rpmsg_lite_instance) (q0 q1 : virtqueue)
    (heap : gmap Z obj) : gmap Z obj :=
  <[v1 := OVq q1]> (<[v0 := OVq q0]> (<[dev := OInst i]> heap)).

Lemma with_instance_lookup dev v0 v1 i q0 q1 heap :
  NoDup [dev; v0; v1] →
  with_instance dev v0 v1 i q0 q1 heap !! dev = Some (OInst i) ∧
  with_instance dev v0 v1 i q0 q1 heap !! v0 = Some (OVq q0) ∧
  with_instance dev v0 v1 i q0 q1 heap !! v1 = Some (OVq q1).
Proof.
  intros Hnd. rewrite !NoDup_cons, !not_elem_of_cons in Hnd. unfold with_instance.
  destruct Hnd as ((? & ? & _) & (? & _) & _).
  split_and!; rewrite ?lookup_insert_ne by done; apply lookup_insert_eq.
Qed.

(** Writing to one of the three objects. *)
Lemma with_instance_insert dev v0 v1 i q0 q1 heap i' q0' q1' :
  NoDup [dev; v0; v1] →
  <[dev := OInst i']> (with_instance dev v0 v1 i q0 q1 heap) = with_instance dev v0 v1 i' q0 q1 heap ∧
  <[v0 := OVq q0']> (with_instance dev v0 v1 i q0 q1 heap) = with_instance dev v0 v1 i q0' q1 heap ∧
  <[v1 := OVq q1']> (with_instance dev v0 v1 i q0 q1 heap) = with_instance dev v0 v1 i q0 q1' heap.
Proof.
  intros Hnd. rewrite !NoDup_cons, !not_elem_of_cons in Hnd. unfold with_instance.
  destruct Hnd as ((? & ? & _) & (? & _) & _). split_and!.
  - rewrite !(insert_insert_ne _ dev) by done. by rewrite insert_insert_eq.
  - rewrite !(insert_insert_ne _ v0) by done. by rewrite insert_insert_eq.
  - by rewrite insert_insert_eq.
Qed.

(** The heap differs from the one before by the instance and its two queues. *)
Definition returns_heap (r : Z) (w w' : world E) : Prop :=
  RL_USE_STATIC_API = false → ∀ i, w_heap w' !! r = Some (OInst i) →
    delete r (delete (tvq i) (delete (rvq i) (w_heap w'))) = w_heap w.

Lemma with_instance_returned dev v0 v1 i q0 q1 w w' :
  NoDup [dev; v0; v1] → w_heap w' = with_instance dev v0 v1 i q0 q1 (w_heap w) →
  (rvq i, tvq i) = (v0, v1) ∨ (rvq i, tvq i) = (v1, v0) →
  (RL_USE_STATIC_API = false →
     w_heap w !! dev = None ∧ w_heap w !! v0 = None ∧ w_heap w !! v1 = None) →
  returns_heap dev w w'.
Proof.
  intros Hnd Hh Hv Hfr HS i' Hi'. destruct (Hfr HS) as (Fd & F0 & F1).
  destruct (with_instance_lookup dev v0 v1 i q0 q1 (w_heap w) Hnd) as (Ld & _).
  rewrite Hh, Ld in Hi'. injection Hi' as <-. apply map_eq. intros x. rewrite Hh. unfold with_instance.
  destruct (decide (x ∈ [dev; v0; v1])) as [Hx|Hx].
  - assert (w_heap w !! x = None) as ->.
    { rewrite !elem_of_cons in Hx. by destruct Hx as [->|[->|[->|[]%not_elem_of_nil]]]. }
    rewrite !lookup_delete_None. rewrite !elem_of_cons in Hx.
    destruct Hv as [[= -> ->]|[= -> ->]]; destruct Hx as [->|[->|[->|[]%not_elem_of_nil]]]; auto.
  - rewrite !not_elem_of_cons in Hx. destruct Hx as (? & ? & ? & _).
    destruct Hv as [[= -> ->]|[= -> ->]]; by rewrite !lookup_delete_ne, !lookup_insert_ne.
Qed.

(** What the master's call leaves: its instance, the prepared memory, and the
    remote notified of it. *)
Record master_ready (shmem_addr shmem_length lnk : Z) (rc : ring_config) (r : Z) (w w' : world E) : Prop := {
  mr_booted : ∃ i qt qr, booted master_vq_ops shmem_addr lnk rc r i qt qr w';
  mr_heap : returns_heap r w w';
  mr_mem : prepared shmem_addr shmem_length rc (w_mem w');
  mr_env : env_up (w_env w') ∧ masked (w_env w') = masked (w_env w) ∧
    installed (w_env w') = installed (w_env w) + 2;
  mr_trace : ∃ tr, w_trace w' = EvNotify (u16 (RL_GET_VQ_ID lnk 0)) :: tr ++ w_trace w ∧ Forall boot_event tr;
}.

(** *** Going on line *)

(** The master's last part: handlers, link state, notification. *)
Definition master_online (dev v0 v1 : Z) : W E Z :=
  install_isr v0;; install_isr v1;; irq_disable v0;; irq_disable v1;;
  upd_inst dev (set_link_state 1);;
  irq_enable v0;; irq_enable v1;;
  with_vq v0 virtqueue_kick;;
  mret dev.

Lemma master_online_ok dev v0 v1 i q0 q1 heap w :
  NoDup [dev; v0; v1] → w_heap w = with_instance dev v0 v1 i q0 q1 heap →
  vector_ok (vq_queue_index q0) → vector_ok (vq_queue_index q1) → env_up (w_env w) → vq_wf q0 →
  ∃ w', master_online dev v0 v1 w = Ok dev w' ∧
    w_heap w' = with_instance dev v0 v1 (set_link_state 1 i) (set_vq_queued_cnt q0 0) q1 heap ∧
    w_mem w' = w_mem w ∧ env_step 0 2 (w_env w) (w_env w') ∧
    ∃ tr, w_trace w' = notified q0 (w_mem w) ++ tr ++ w_trace w ∧ Forall boot_event tr.
Proof.
  intros Hnd Hh V0 V1 Hup Wf0. pose proof (law_masked _ Hup) as Hm0.
  destruct (with_instance_lookup dev v0 v1 i q0 q1 heap Hnd) as (L & L0 & L1).
  assert (two_queues v0 v1 q0 q1 (w_heap w)) as Htwo by (by rewrite Hh).
  unfold master_online.
  destruct (mask_both_ok v0 v1 q0 q1 v0 v1 w Htwo ltac:(by left) Hup) as (w3 & R3 & [H3 M3 Es3 (tr3 & T3 & I3)]).
  rewrite R3. rewrite (bind_ok _ _ _ _ _ (upd_inst_ok dev _ i w3 ltac:(by rewrite H3, Hh))).
  set (w4 := set_heap _ w3).
  assert (w_heap w4 = with_instance dev v0 v1 (set_link_state 1 i) q0 q1 heap) as H4.
  { unfold w4. cbn [w_heap set_heap]. rewrite H3, Hh.
    by destruct (with_instance_insert dev v0 v1 i q0 q1 heap (set_link_state 1 i) q0 q1 Hnd) as (-> & _). }
  destruct (with_instance_lookup dev v0 v1 (set_link_state 1 i) q0 q1 heap Hnd) as (_ & L0' & L1').
  pose proof (es_masked _ _ _ _ Es3) as Km3.
  destruct (unmask_both_ok v0 v1 q0 q1 w4) as (w5 & R5 & [H5 M5 Es5 (tr5 & T5 & I5)]).
  { by rewrite H4. } { exact (es_up _ _ _ _ Es3). } { change (w_env w4) with (w_env w3). lia. }
  rewrite R5. assert (w_heap w5 !! v0 = Some (OVq q0)) as Hv5 by (by rewrite H5, H4).
  destruct (kick_ok v0 q0 w5 Hv5 Wf0) as (tr6 & I6 & R6). rewrite (bind_ok _ _ _ _ _ R6).
  assert (w_mem w5 = w_mem w) as Em5 by (rewrite M5; exact M3). rewrite Em5.
  eexists. split; [done|]. split_and!; try done.
  - cbn [w_heap after_vq vq_back v_vq]. rewrite H5, H4.
    by destruct (with_instance_insert dev v0 v1 (set_link_state 1 i) q0 q1 heap i (set_vq_queued_cnt q0 0) q1 Hnd) as (_ & -> & _).
  - pose proof (es_masked _ _ _ _ Es5). pose proof (es_installed _ _ _ _ Es5). pose proof (es_installed _ _ _ _ Es3).
    change (w_env w4) with (w_env w3) in *.
    constructor; cbn [w_env after_vq vq_back]; [apply Es5|lia|lia|..].
    + intros l Hl. by apply (es_locks _ _ _ _ Es5), (es_locks _ _ _ _ Es3).
    + intros Hs. by apply (es_stop _ _ _ _ Es5), (es_stop _ _ _ _ Es3).
  - exists (tr6 ++ tr5 ++ tr3). split.
    + cbn [w_trace after_vq vq_back v_trace]. rewrite T5. change (w_trace w4) with (w_trace w3). rewrite T3.
      by rewrite <- !app_assoc.
    + repeat apply Forall_app_2; auto using boot_internal, boot_irq.
Qed.

(** The part of the master's call behind the common one. *)
Definition master_tail (dev v0 v1 bsz : Z) : W E Z :=
  upd_inst dev (λ i, set_rvq v0 (set_tvq v1 i));;
  ok ← fill_queues dev v0 v1 bsz;
  if negb ok then
    i ← get_inst dev; with_env (el_delete_mutex (lock i));; release_all dev [v0; v1];; mret NULL
  else master_online dev v0 v1.

(** What [booted] says of an instance over another heap. *)
Lemma booted_intro o shmem_addr lnk rc dev v0 v1 i q0 q1 heap w :
  NoDup [dev; v0; v1] → dev ≠ NULL → w_heap w = with_instance dev v0 v1 i q0 q1 heap →
  (rvq i, tvq i) = (match o with master_vq_ops => (v0, v1) | remote_vq_ops => (v1, v0) end) →
  v0 ≠ NULL → v1 ≠ NULL → lock i ≠ NULL →
  vq_ops i = Some o → rl_endpoints i = NULL → World.link_id i = lnk →
  link_state i = (match o with master_vq_ops => 1 | remote_vq_ops => 0 end) →
  lock_free (w_env w) (lock i) →
  booted_vq o shmem_addr lnk rc dev 0 q0 → booted_vq o shmem_addr lnk rc dev 1 q1 →
  ∃ qt qr, booted o shmem_addr lnk rc dev i qt qr w.
Proof.
  intros Hnd Hdn Hh Hv Hn0 Hn1 Hnl Ho He Hid Hl Hf B0 B1.
  destruct (with_instance_lookup dev v0 v1 i q0 q1 heap Hnd) as (L & L0 & L1).
  assert (v0 ≠ v1) as N01 by (rewrite !NoDup_cons, !not_elem_of_cons in Hnd; naive_solver).
  rewrite <- Hh in L, L0, L1. pose proof (bq_wf _ _ _ _ _ _ _ B0). pose proof (bq_wf _ _ _ _ _ _ _ B1).
  destruct o; injection Hv as Hr Ht; [exists q1, q0|exists q0, q1];
    (constructor; [constructor; rewrite ?Hr, ?Ht; done|by apply empty_table|done|done|by rewrite Hr, Ht|done..]).
Qed.

Lemma master_tail_ok shmem_addr shmem_length lnk rc total dev v0 v1 w0 w :
  layout_ok shmem_addr shmem_length rc → pool_mapped shmem_addr rc →
  RL_CALCULATE_BUFFER_COUNT_DOWN_SAFE shmem_length (rc_overhead rc) (rc_buf_size rc) = Some total →
  vector_ok (u16 (RL_GET_VQ_ID lnk 0)) → vector_ok (u16 (RL_GET_VQ_ID lnk 1)) →
  inited master_vq_ops shmem_addr lnk rc total dev v0 v1 w0 w →
  ∃ w', master_tail dev v0 v1 (rc_buf_size rc) w = Ok dev w' ∧
    master_ready shmem_addr shmem_length lnk rc dev w0 w'.
Proof.
  intros lok Hmap Htot V0 V1 [(lk & Hlk & Hfree & Hh) Hnd (Hdn & Hn0 & Hn1) Hfr (C0 & C1 & _) (Hup & Hmask & Hinst) (tr0 & T0 & I0)].
  destruct (layout_areas _ _ _ lok) as (A0 & A1 & _). destruct (layout_addresses _ _ _ lok) as (_ & _ & Ebase).
  set (q0 := new_vq master_vq_ops dev lnk shmem_addr rc 0) in *.
  set (q1 := new_vq master_vq_ops dev lnk shmem_addr rc 1) in *.
  set (i0 := new_inst master_vq_ops shmem_addr lnk rc total lk) in *.
  fold (with_instance dev v0 v1 i0 q0 q1 (w_heap w0)) in Hh.
  set (i1 := set_rvq v0 (set_tvq v1 i0)).
  destruct (with_instance_lookup dev v0 v1 i0 q0 q1 (w_heap w0) Hnd) as (Hd & _).
  unfold master_tail. rewrite (bind_ok _ _ _ _ _ (upd_inst_ok dev _ i0 w ltac:(by rewrite Hh))).
  fold i1. set (w1 := set_heap <[dev := OInst i1]> w).
  assert (w_heap w1 = with_instance dev v0 v1 i1 q0 q1 (w_heap w0)) as Hh1.
  { unfold w1. cbn [w_heap set_heap]. rewrite Hh.
    by destruct (with_instance_insert dev v0 v1 i0 q0 q1 (w_heap w0) i1 q0 q1 Hnd) as (-> & _). }
  destruct (with_instance_lookup dev v0 v1 i1 q0 q1 (w_heap w0) Hnd) as (Ld1 & L01 & L11).
  rewrite <- Hh1 in Ld1, L01, L11.
  destruct (fill_queues_ok shmem_addr shmem_length rc dev v0 v1 i1 lnk w1 lok Hmap Hnd Ld1 L01 L11)
    as (w2 & q0' & q1' & R2 & Hh2 & (S0 & Wf0 & U0) & (S1 & Wf1 & U1) & Hprep & E2 & (tr2 & T2 & I2)); try done.
  rewrite (bind_ok _ _ _ _ _ R2). cbn [negb]. set (i2 := after_fill i1 (2 * rc_count rc)) in *.
  assert (w_heap w2 = with_instance dev v0 v1 i2 q0' q1' (w_heap w0)) as Hh2'.
  { rewrite Hh2, Hh1.
    destruct (with_instance_insert dev v0 v1 i1 q0 q1 (w_heap w0) i2 q0 q1 Hnd) as (-> & _).
    destruct (with_instance_insert dev v0 v1 i2 q0 q1 (w_heap w0) i2 q0' q1 Hnd) as (_ & -> & _).
    by destruct (with_instance_insert dev v0 v1 i2 q0' q1 (w_heap w0) i2 q0' q1' Hnd) as (_ & _ & ->). }
  pose proof (booted_vq_same _ _ _ _ _ _ _ _ (new_vq_booted master_vq_ops dev lnk _ _ _ A0 ltac:(by left)) S0 Wf0 U0) as B0.
  pose proof (booted_vq_same _ _ _ _ _ _ _ _ (new_vq_booted master_vq_ops dev lnk _ _ _ A1 ltac:(by right)) S1 Wf1 U1) as B1.
  assert (w_env w2 = w_env w) as Ew2 by exact E2.
  destruct (master_online_ok dev v0 v1 i2 q0' q1' (w_heap w0) w2 Hnd Hh2') as (w3 & R3 & H3 & M3 & Es3 & (tr3 & T3 & I3)).
  { by rewrite (bq_vector _ _ _ _ _ _ _ B0). } { by rewrite (bq_vector _ _ _ _ _ _ _ B1). }
  { by rewrite Ew2. } { done. }
  exists w3. split; [exact R3|].
  assert (booted_vq master_vq_ops shmem_addr lnk rc dev 0 (set_vq_queued_cnt q0' 0)) as B0'.
  { eapply booted_vq_same; [exact B0|apply same_ring_queued| |by destruct q0'].
    eapply vq_wf_same_ring; [exact Wf0|apply same_ring_queued|destruct q0'; apply Wf0..]. }
  constructor.
  - exists (set_link_state 1 i2). eapply booted_intro; try done.
    apply (es_locks _ _ _ _ Es3). by rewrite Ew2.
  - eapply with_instance_returned; [exact Hnd|exact H3|by left|exact Hfr].
  - by rewrite M3.
  - pose proof (es_masked _ _ _ _ Es3) as Km. pose proof (es_installed _ _ _ _ Es3) as Ki. rewrite Ew2 in Km, Ki.
    split_and!; [apply Es3|lia|lia].
  - exists (tr3 ++ tr2 ++ tr0). split.
    + rewrite T3, T2. change (w_trace w1) with (w_trace w). rewrite T0.
      unfold notified. rewrite (bq_ring _ _ _ _ _ _ _ B0), (proj1 (pr_notify _ _ _ _ Hprep)).
      rewrite (bq_notify _ _ _ _ _ _ _ B0), (bq_vector _ _ _ _ _ _ _ B0). cbn. by rewrite <- !app_assoc.
    + repeat apply Forall_app_2; auto using boot_internal, boot_irq.
Qed.

(** *** The queues of a booted instance *)

(** On prepared memory every buffer of the transmit queue can be taken, nothing
    has been received, and every buffer of the receive queue waits at the other
    side (which reads from index 0). *)
Record fresh_queues (o : virtqueue_ops) (rc : ring_config) (qt qr : virtqueue) (m : mem) : Prop := {
  fq_tx : incoming o qt m = (λ k, (k, rc_buf_size rc)) <$> seqZ 0 (rc_count rc);
  fq_rx : incoming o qr m = [];
  fq_sent : outgoing o 0 qt m = [];
  fq_given : o = master_vq_ops → outgoing o 0 qr m = (λ k, (k, None)) <$> seqZ 0 (rc_count rc);
  fq_tx_bufs : buffers_ok (vq_ring qt) (rc_buf_size rc) m;
  fq_rx_bufs : buffers_ok (vq_ring qr) (rc_buf_size rc) m;
  fq_num : num (vq_ring qt) = rc_count rc ∧ num (vq_ring qr) = rc_count rc;
}.

Lemma booted_fresh o shmem_addr shmem_length lnk rc dev i qt qr w :
  layout_ok shmem_addr shmem_length rc →
  booted o shmem_addr lnk rc dev i qt qr w → prepared shmem_addr shmem_length rc (w_mem w) →
  fresh_queues o rc qt qr (w_mem w).
Proof.
  intros lok [_ _ _ _ _ [Ert _ Edt _ _ _ _] [Err _ Edr _ _ _ _]] Hp.
  destruct (prepared_buffers _ _ _ lok _ Hp) as [B0 B1].
  destruct (layout_rings _ _ _ lok) as (_ & _ & _ & _ & _ & N0 & N1).
  pose proof (la_count_max _ _ _ lok).
  destruct o; cbn [rx_ring tx_ring read_idx] in *; constructor; rewrite ?Ert, ?Err; try done;
    unfold incoming, outgoing; rewrite ?Ert, ?Err, ?Edt, ?Edr.
  - rewrite (pr_used1 _ _ _ _ Hp), <- list_fmap_compose. apply list_fmap_ext. intros k x Hx.
    apply lookup_seqZ in Hx as [-> Hx]. cbn. by rewrite u16_small by lia.
  - by rewrite (pr_used0 _ _ _ _ Hp).
  - by rewrite (pr_avail1 _ _ _ _ Hp).
  - intros _. by rewrite (pr_avail0 _ _ _ _ Hp).
  - rewrite (pr_avail0 _ _ _ _ Hp). apply list_fmap_ext. intros k x Hx.
    apply lookup_seqZ in Hx as [-> Hx]. f_equal. apply (pr_buf0 _ _ _ _ Hp). lia.
  - by rewrite (pr_avail1 _ _ _ _ Hp).
  - by rewrite (pr_used0 _ _ _ _ Hp).
Qed.

(** *** The remote *)

Definition remote_tail (dev v0 v1 : Z) : W E Z :=
  upd_inst dev (λ i, set_link_state 0 (set_rvq v1 (set_tvq v0 i)));;
  install_isr v0;; install_isr v1;;
  irq_disable v1;; irq_disable v0;;
  irq_enable v1;; irq_enable v0;;
  mret dev.

(** What the remote's call leaves: its instance; the shared memory is as it
    found it and nobody is notified. *)
Record remote_ready (shmem_addr lnk : Z) (rc : ring_config) (r : Z) (w w' : world E) : Prop := {
  rr_booted : ∃ i qt qr, booted remote_vq_ops shmem_addr lnk rc r i qt qr w';
  rr_heap : returns_heap r w w';
  rr_mem : w_mem w' = w_mem w;
  rr_env : env_up (w_env w') ∧ masked (w_env w') = masked (w_env w) ∧
    installed (w_env w') = installed (w_env w) + 2;
  rr_trace : ∃ tr, w_trace w' = tr ++ w_trace w ∧ Forall boot_event tr;
}.

Lemma remote_tail_ok shmem_addr shmem_length lnk rc dev v0 v1 w0 w :
  layout_ok shmem_addr shmem_length rc →
  vector_ok (u16 (RL_GET_VQ_ID lnk 0)) → vector_ok (u16 (RL_GET_VQ_ID lnk 1)) →
  inited remote_vq_ops shmem_addr lnk rc 0 dev v0 v1 w0 w →
  ∃ w', remote_tail dev v0 v1 w = Ok dev w' ∧ remote_ready shmem_addr lnk rc dev w0 w'.
Proof.
  intros lok V0 V1 [(lk & Hlk & Hfree & Hh) Hnd (Hdn & Hn0 & Hn1) Hfr Hmem (Hup & Hmask & Hinst) (tr0 & T0 & I0)].
  cbn [rings_effect] in Hmem. destruct (layout_areas _ _ _ lok) as (A0 & A1 & _).
  set (q0 := new_vq remote_vq_ops dev lnk shmem_addr rc 0) in *.
  set (q1 := new_vq remote_vq_ops dev lnk shmem_addr rc 1) in *.
  set (i0 := new_inst remote_vq_ops shmem_addr lnk rc 0 lk) in *.
  fold (with_instance dev v0 v1 i0 q0 q1 (w_heap w0)) in Hh.
  set (i1 := set_link_state 0 (set_rvq v1 (set_tvq v0 i0))).
  destruct (with_instance_lookup dev v0 v1 i0 q0 q1 (w_heap w0) Hnd) as (Hd & _).
  unfold remote_tail. rewrite (bind_ok _ _ _ _ _ (upd_inst_ok dev _ i0 w ltac:(by rewrite Hh))).
  fold i1. set (w1 := set_heap <[dev := OInst i1]> w).
  assert (w_heap w1 = with_instance dev v0 v1 i1 q0 q1 (w_heap w0)) as Hh1.
  { unfold w1. cbn [w_heap set_heap]. rewrite Hh.
    by destruct (with_instance_insert dev v0 v1 i0 q0 q1 (w_heap w0) i1 q0 q1 Hnd) as (-> & _). }
  pose proof (new_vq_booted remote_vq_ops dev lnk _ _ _ A0 ltac:(by left)) as B0.
  pose proof (new_vq_booted remote_vq_ops dev lnk _ _ _ A1 ltac:(by right)) as B1. fold q0 in B0. fold q1 in B1.
  destruct (with_instance_lookup dev v0 v1 i1 q0 q1 (w_heap w0) Hnd) as (Ld1 & L01 & L11).
  rewrite <- Hh1 in Ld1, L01, L11. pose proof (law_masked _ Hup) as Hm0.
  assert (two_queues v0 v1 q0 q1 (w_heap w1)) as Htwo.
  { by split_and!. }
  destruct (mask_both_ok v0 v1 q0 q1 v1 v0 w1 Htwo ltac:(by right) Hup) as (w3 & R3 & S3).
  rewrite R3. pose proof (es_masked _ _ _ _ (is_env _ _ _ _ S3)) as Km3. change (w_env w1) with (w_env w) in Km3.
  assert (two_queues v1 v0 q1 q0 (w_heap w3)) as Htwo3.
  { rewrite (is_heap _ _ _ _ S3). destruct Htwo as (? & ? & ? & ?). by split_and!. }
  destruct (unmask_both_ok v1 v0 q1 q0 w3 Htwo3 (es_up _ _ _ _ (is_env _ _ _ _ S3)) ltac:(lia)) as (w5 & R5 & S5).
  rewrite R5. exists w5. split; [done|].
  destruct (irq_step_trans _ _ _ _ _ _ _ S3 S5) as [H5 M5 [U5 K5 J5 F5 _] (tr5 & T5 & I5)].
  constructor.
  - exists i1. eapply booted_intro; try done; [by rewrite H5|by apply F5].
  - eapply with_instance_returned; [exact Hnd|by rewrite H5|by right|exact Hfr].
  - rewrite M5. exact Hmem.
  - change (w_env w1) with (w_env w) in *. split_and!; [done|lia|lia].
  - exists (tr5 ++ tr0). rewrite T5. change (w_trace w1) with (w_trace w). rewrite T0, app_assoc.
    split; [done|]. apply Forall_app_2; auto using boot_internal, boot_irq.
Qed.

End boot.
