(* ===== verification/Boot.v ===== *)
(** * Starting and stopping an instance

    The theorems on [rpmsg_lite_master_init], [rpmsg_lite_remote_init] and
    [rpmsg_lite_deinit], on every branch, and the bare-metal port as an
    implementation of the life-cycle interface they are proved against. *)

From S2P Require Import Prelude Memory Config VirtioRing Virtqueue RingQueue VirtqueueSpec Concrete.
From S2P Require Import ChannelRefinement World Lpc55s69 BareMetal Llist Endpoint Transport RpmsgLite Sending.
From S2P Require Import RingInit Init Startup MasterInit.

Section boot.
Context {E : Type} {el : EnvLayer E} {laws : EnvLaws E} {life : Life E} {llaws : LifeLaws E}.
Context {app : Application E} {cfg : Config} {am : AddrMap} {cok : ConfigOk cfg}.
Implicit Types w : world E.

(** ** What the checks of the master guarantee *)

(** The fields of a per-link configuration have the widths of the platform's
    structure, and the header can be added to the payload size. *)
Definition shmem_config_range (c : rpmsg_platform_shmem_config) : Prop :=
  0 ≤ buffer_count c < 65536 ∧ 0 ≤ buffer_payload_size c < 4294967276 ∧
  0 ≤ vring_size_cfg c < 2147483648 ∧ 0 ≤ vring_align_cfg c < 4294967296.

(** The next multiple of 4. *)
Definition word_up (a : Z) : Z := 4 * ((a + 3) / 4).

(** The sizes a link asks for: the platform's, with the alignment capped, or
    those of the configuration macros. *)
Definition requested (lnk : Z) : option ring_config :=
  if RL_ALLOW_CUSTOM_SHMEM_CONFIG then
    c ← platform_get_custom_shmem_config lnk;
    Some {| rc_vring_size := vring_size_cfg c; rc_align := Z.min 65536 (vring_align_cfg c);
            rc_count := buffer_count c; rc_overhead := 2 * vring_size_cfg c;
            rc_buf_size := word_up (buffer_payload_size c + 16) |}
  else Some {| rc_vring_size := VRING_SIZE; rc_align := VRING_ALIGN; rc_count := RL_BUFFER_COUNT;
               rc_overhead := u32 RL_VRING_OVERHEAD; rc_buf_size := word_up (RL_BUFFER_PAYLOAD_SIZE + 16) |}.

(** What makes them acceptable for a shared memory of length [len]: a count that
    is a power of two of at most 32768 (or 0, which passes the test
    [n & (n - 1)]), a payload, and, unless there are no buffers, room for what is
    reserved for the rings and for the buffers of both queues. *)
Definition acceptable (len : Z) (rc : ring_config) : Prop :=
  (rc_count rc = 0 ∨ pow2 (rc_count rc)) ∧ rc_count rc ≤ 32768 ∧ 16 < rc_buf_size rc ∧
  (rc_count rc = 0 ∨ rc_overhead rc + 2 * rc_count rc * rc_buf_size rc ≤ len).

(** Both rings, at the distance [rc_vring_size], and behind them every buffer of
    both queues lie inside a memory of length [len]. *)
Definition all_inside (len : Z) (rc : ring_config) : Prop :=
  (∀ k, 0 ≤ k < 2 → 0 ≤ k * rc_vring_size rc ∧
     k * rc_vring_size rc + vring_size (rc_count rc) (rc_align rc) ≤ rc_overhead rc) ∧
  vring_size (rc_count rc) (rc_align rc) ≤ rc_vring_size rc ∧
  ∀ k, 0 ≤ k < 2 * rc_count rc →
    rc_overhead rc ≤ rc_overhead rc + k * rc_buf_size rc ∧
    rc_overhead rc + k * rc_buf_size rc + rc_buf_size rc ≤ len.

Lemma word_align_word_up a : 0 ≤ a → a + 3 < 2 ^ uintptr_bits → RL_WORD_ALIGN_UP a = word_up a.
Proof. intros Ha Hb. destruct (RL_WORD_ALIGN_UP_spec a Ha Hb). unfold word_up. zwrap. Qed.

(** The buffer size of a payload. *)
Lemma buf_size_word payload :
  0 ≤ payload < 4294967276 →
  u32 (RL_WORD_ALIGN_UP (uptr (payload + 16))) = word_up (payload + 16) ∧
  payload + 16 ≤ word_up (payload + 16) < payload + 20 ∧ word_up (payload + 16) mod 4 = 0.
Proof.
  intros Hp. pose proof uptr_bits_ge. rewrite uptr_small by lia.
  destruct (RL_WORD_ALIGN_UP_spec (payload + 16)) as [Hb Hm]; [lia|lia|].
  rewrite <- word_align_word_up by lia. rewrite u32_small by lia. split_and!; [done|lia|lia|done].
Qed.

(** The count computed from the length is enough exactly when there is room. *)
Lemma count_enough len overhead bsz n count :
  0 ≤ len < 2 ^ uintptr_bits → 0 ≤ overhead → 0 < bsz → bsz mod 4 = 0 → 0 ≤ count →
  RL_CALCULATE_BUFFER_COUNT_DOWN_SAFE len overhead bsz = Some n →
  2 * count ≤ n ↔ count = 0 ∨ overhead + 2 * count * bsz ≤ len.
Proof.
  intros Hl Ho Hb Hm Hc Hn. destruct (buffer_count_fits len overhead bsz n Hl Ho Hb Hn) as [Hn0 Hfit].
  split; [intros Hle; destruct Hfit; nia|]. intros [->|Hroom]; [lia|].
  unfold RL_CALCULATE_BUFFER_COUNT_DOWN_SAFE in Hn.
  rewrite (proj2 (Z.ltb_ge _ _)), (proj2 (Z.eqb_neq bsz 0)) in Hn by nia. injection Hn as <-.
  destruct (RL_WORD_ALIGN_DOWN_spec (len - overhead)) as (Hd & Hdm & _); [nia|].
  apply Z.div_le_lower_bound; [lia|].
  assert ((2 * count * bsz) mod 4 = 0) as Hm2 by (rewrite Z.mul_mod, Hm, Z.mul_0_r by lia; done).
  rewrite (Z.mul_comm bsz). set (m := 2 * count * bsz) in *. set (d := RL_WORD_ALIGN_DOWN _) in *. clearbody m d.
  clear Hn0 Hfit. zwrap.
Qed.

Lemma check_count count : 0 ≤ count < 65536 →
  if negb (Z.land count (u32 (count - 1)) =? 0) then ¬ (count = 0 ∨ pow2 count) else count = 0 ∨ pow2 count.
Proof. intros Hc. destruct (pow2_test count ltac:(lia)) as [[Ht Hp]|[Ht [Hp Hq]]]; rewrite Ht; cbn; intuition (lia || done). Qed.


(** ** Starting *)

(** What both initialisations need: a link of the platform, a layout of the
    shared memory, two valid interrupt vectors, a sane heap, the blocks the
    static API asks for, and a port at rest. *)
Record startable (shmem_addr shmem_length lnk : Z) (rc : ring_config) (sc : option (Z * Z * Z)) w : Prop := {
  sb_link : lnk ≤ RL_PLATFORM_HIGHEST_LINK_ID;
  sb_layout : layout_ok shmem_addr shmem_length rc;
  sb_vectors : vector_ok (u16 (RL_GET_VQ_ID lnk 0)) ∧ vector_ok (u16 (RL_GET_VQ_ID lnk 1));
  sb_alloc : alloc_ok w;
  sb_provided : provided sc w;
  sb_idle : env_idle (w_env w);
}.

(** A failed start: nothing is left behind, and the cause is the allocator or
    the port. *)
Definition not_started (r : Z) w w' : Prop :=
  r = NULL ∧ nothing_left w w' ∧ (env_reliable (E := E) → short 3 w = true).

Lemma master_init_ok shmem_addr shmem_length lnk flags sc rc w :
  startable shmem_addr shmem_length lnk rc sc w →
  master_config lnk shmem_length w = Ok (Some rc) w → pool_mapped shmem_addr rc →
  ∃ r w', rpmsg_lite_master_init shmem_addr shmem_length lnk flags sc w = Ok r w' ∧
    (not_started r w w' ∨ r ≠ NULL ∧ master_ready shmem_addr shmem_length lnk rc r w w').
Proof.
  intros [Hl lok [V0 V1] Hal Hpr Hidle] Hcfg Hmap. pose proof (la_addr _ _ _ lok).
  destruct (layout_numbers _ _ _ lok) as (_ & t & Ht & _ & Htr & _).
  destruct (init_common_ok master_vq_ops shmem_addr lnk rc (Some t) sc w (layout_areas _ _ _ lok) Hal Hpr Hidle)
    as (x & w1 & R1 & Hx).
  unfold rpmsg_lite_master_init.
  rewrite (proj2 (Z.ltb_ge _ _)), (proj2 (Z.eqb_neq shmem_addr NULL)) by (unfold NULL; lia).
  rewrite (bind_ok _ _ _ _ _ Hcfg), Ht. cbn [fmap option_fmap option_map]. rewrite u32_small by lia.
  rewrite (bind_ok _ _ _ _ _ R1). destruct x as [[dev [v0 v1]]|].
  - destruct (master_tail_ok shmem_addr shmem_length lnk rc t dev v0 v1 w w1 lok Hmap Ht V0 V1 Hx) as (w' & R2 & Hr).
    exists dev, w'. split; [exact R2|]. right. split; [apply Hx|done].
  - exists NULL, w1. split; [done|]. by left.
Qed.

Lemma remote_init_ok shmem_addr shmem_length lnk flags sc rc w :
  startable shmem_addr shmem_length lnk rc sc w → remote_config lnk = Some rc →
  ∃ r w', rpmsg_lite_remote_init shmem_addr lnk flags sc w = Ok r w' ∧
    (not_started r w w' ∨ r ≠ NULL ∧ remote_ready shmem_addr lnk rc r w w').
Proof.
  intros [Hl lok [V0 V1] Hal Hpr Hidle] Hcfg. pose proof (la_addr _ _ _ lok).
  destruct (init_common_ok remote_vq_ops shmem_addr lnk rc None sc w (layout_areas _ _ _ lok) Hal Hpr Hidle)
    as (x & w1 & R1 & Hx).
  unfold rpmsg_lite_remote_init.
  rewrite (proj2 (Z.ltb_ge _ _)), (proj2 (Z.eqb_neq shmem_addr NULL)) by (unfold NULL; lia).
  rewrite Hcfg, (bind_ok _ _ _ _ _ R1). destruct x as [[dev [v0 v1]]|].
  - destruct (remote_tail_ok shmem_addr shmem_length lnk rc dev v0 v1 w w1 lok V0 V1 Hx) as (w' & R2 & Hr).
    exists dev, w'. split; [exact R2|]. right. split; [apply Hx|done].
  - exists NULL, w1. split; [done|]. by left.
Qed.

(** C8.  [rpmsg_lite_master_init] with a shared memory it accepts always
    returns.  Either it returns NULL, and every block it had allocated has been
    released again (which happens only when one of its allocations or a service
    of the port failed); or it returns the instance, on which the first message
    can be sent: two well-formed queues on the two rings, no endpoint, link up,
    lock free, interrupts as enabled as before, and in the shared memory every
    buffer of the receive queue offered to the remote, every buffer of the
    transmit queue in the hands of the master, all of them disjoint, outside
    the rings and inside the memory given; and the remote was notified. *)
Theorem master_init_correct shmem_addr shmem_length lnk flags sc rc w :
  startable shmem_addr shmem_length lnk rc sc w →
  master_config lnk shmem_length w = Ok (Some rc) w → pool_mapped shmem_addr rc →
  ∃ r w', rpmsg_lite_master_init shmem_addr shmem_length lnk flags sc w = Ok r w' ∧
    (not_started r w w' ∨
     r ≠ NULL ∧ master_ready shmem_addr shmem_length lnk rc r w w' ∧
     ∃ i qt qr, booted master_vq_ops shmem_addr lnk rc r i qt qr w' ∧
       fresh_queues master_vq_ops rc qt qr (w_mem w')).
Proof.
  intros Hst Hcfg Hmap.
  destruct (master_init_ok _ _ _ flags _ _ _ Hst Hcfg Hmap) as (r & w' & Hrun & [Hr|[Hr Hm]]); exists r, w';
    (split; [exact Hrun|]); [by left|right; split; [done|split; [done|]]].
  destruct (mr_booted _ _ _ _ _ _ _ Hm) as (i & qt & qr & Hb). exists i, qt, qr. split; [done|].
  eapply booted_fresh; [apply Hst|done|apply Hm].
Qed.

(** C9.  [rpmsg_lite_remote_init] always returns: NULL with all its blocks
    released, or an instance whose link is down until the master notifies it.
    It writes nothing to the shared memory and notifies nobody; on a memory the
    master has prepared, all buffers of its transmit queue are its own and it
    has received nothing, whatever other index the master started from. *)
Theorem remote_init_correct shmem_addr shmem_length lnk flags sc rc w :
  startable shmem_addr shmem_length lnk rc sc w → remote_config lnk = Some rc →
  ∃ r w', rpmsg_lite_remote_init shmem_addr lnk flags sc w = Ok r w' ∧
    (not_started r w w' ∨
     r ≠ NULL ∧ remote_ready shmem_addr lnk rc r w w' ∧
     ∃ i qt qr, booted remote_vq_ops shmem_addr lnk rc r i qt qr w' ∧
       (prepared shmem_addr shmem_length rc (w_mem w) → fresh_queues remote_vq_ops rc qt qr (w_mem w'))).
Proof.
  intros Hst Hcfg.
  destruct (remote_init_ok _ _ _ flags _ _ _ Hst Hcfg) as (r & w' & Hrun & [Hr|[Hr Hm]]); exists r, w';
    (split; [exact Hrun|]); [by left|right; split; [done|split; [done|]]].
  destruct (rr_booted _ _ _ _ _ _ Hm) as (i & qt & qr & Hb). exists i, qt, qr. split; [done|].
  intros Hp. eapply booted_fresh; [apply Hst|done|]. by rewrite (rr_mem _ _ _ _ _ _ Hm).
Qed.

(** Parameters both initialisations refuse without any effect: a link id
    above the platform's highest, a NULL shared memory, one [master_config] or
    [remote_config] rejects, and with the static API a NULL context. *)
Theorem init_refuses shmem_addr shmem_length lnk flags sc w :
  (RL_PLATFORM_HIGHEST_LINK_ID < lnk ∨ shmem_addr = NULL ∨
     master_config lnk shmem_length w = Ok None w →
   rpmsg_lite_master_init shmem_addr shmem_length lnk flags sc w = Ok NULL w) ∧
  (RL_PLATFORM_HIGHEST_LINK_ID < lnk ∨ shmem_addr = NULL ∨ remote_config lnk = None →
   rpmsg_lite_remote_init shmem_addr lnk flags sc w = Ok NULL w) ∧
  (RL_USE_STATIC_API = true → sc = None →
   (∀ rc, master_config lnk shmem_length w = Ok rc w →
      rpmsg_lite_master_init shmem_addr shmem_length lnk flags sc w = Ok NULL w) ∧
   rpmsg_lite_remote_init shmem_addr lnk flags sc w = Ok NULL w).
Proof.
  unfold rpmsg_lite_master_init, rpmsg_lite_remote_init.
  destruct (Z.ltb_spec RL_PLATFORM_HIGHEST_LINK_ID lnk); [by split_and!|].
  destruct (Z.eqb_spec shmem_addr NULL) as [->|]; [by split_and!|]. split_and!.
  - intros [?|[?|Hc]]; [lia|done|]. by rewrite (bind_ok _ _ _ _ _ Hc).
  - intros [?|[?|Hc]]; [lia|done|]. by rewrite Hc.
  - intros HS ->. unfold init_common, instance_storage. rewrite HS. split.
    + intros [rc|] Hc; by rewrite (bind_ok _ _ _ _ _ Hc).
    + by destruct (remote_config lnk).
Qed.

(** ** Stopping *)

(** An instance that can be stopped: its queues have valid vectors with handlers
    installed, and the port can shut down. *)
Record stoppable (dev : Z) (i : rpmsg_lite_instance) (qt qr : virtqueue) (w : world E) : Prop := {
  st_null : rvq i ≠ NULL ∧ tvq i ≠ NULL ∧ lock i ≠ NULL;
  st_vec : vector_ok (vq_queue_index qr) ∧ vector_ok (vq_queue_index qt);
  st_inst : 2 ≤ installed (w_env w);
  st_up : env_up (w_env w) ∧ can_stop (w_env w);
}.

Lemma irq_deinit_ok p q w :
  w_heap w !! p = Some (OVq q) → env_up (w_env w) → vector_ok (vq_queue_index q) → 0 < installed (w_env w) →
  ∃ w', irq_deinit p w = Ok tt w' ∧ w_heap w' = w_heap w ∧ w_mem w' = w_mem w ∧
    env_step 0 (-1) (w_env w) (w_env w') ∧ w_trace w' = EvDeinitIrq (vq_queue_index q) :: w_trace w ∧
    el_deinit_interrupt (vq_queue_index q) (w_env w) = Ok tt (w_env w').
Proof.
  intros Hp Hup Hv Hi. destruct (law_deinit_irq (w_env w) _ Hup Hv Hi) as (e' & Hop & Hes).
  unfold irq_deinit. rewrite (bind_ok _ _ _ _ _ (get_vq_ok p q w Hp)).
  rewrite (bind_ok _ _ _ _ _ (with_env_ok _ w tt e' Hop)). by eexists.
Qed.

(** Releasing the control blocks: freed, or (with the static API) marked. *)
Lemma free_both_ok o dev i qt qr w :
  lite_ok dev i o qt qr w → rvq i ≠ NULL → tvq i ≠ NULL →
  ∃ w', (∀ A (k : W E A), ((if RL_USE_STATIC_API then
       with_vq (rvq i) virtqueue_free_static;; with_vq (tvq i) virtqueue_free_static
     else virtqueue_free (rvq i);; virtqueue_free (tvq i));; k) w = k w') ∧
    w_mem w' = w_mem w ∧ w_env w' = w_env w ∧ w_trace w' = w_trace w ∧
    w_heap w' !! dev = Some (OInst i) ∧
    if RL_USE_STATIC_API then
      (∀ x, x ≠ rvq i → x ≠ tvq i → w_heap w' !! x = w_heap w !! x) ∧
      ∀ p, p = rvq i ∨ p = tvq i → ∃ q, w_heap w' !! p = Some (OVq q) ∧ vq_ring_mem q = NULL
    else w_heap w' = delete (tvq i) (delete (rvq i) (w_heap w)).
Proof.
  intros [_ Hi _ Ht Hr Hne _ _ _] Hrn Htn.
  assert (dev ≠ rvq i ∧ dev ≠ tvq i) as [Ndr Ndt].
  { split; intros Ed; rewrite Ed in Hi; [rewrite Hr in Hi|rewrite Ht in Hi]; done. }
  destruct RL_USE_STATIC_API.
  - assert (∀ p q w0, w_heap w0 !! p = Some (OVq q) → ∃ q', vq_ring_mem q' = NULL ∧
      with_vq p virtqueue_free_static w0 = Ok tt (after_vq p q' (w_mem w0) [] w0)) as Hfree.
    { intros p q w0 Hp. exists (if vq_ring_mem q =? NULL then q else set_vq_ring_mem (set_vq_ring_size q 0) NULL).
      destruct (Z.eqb_spec (vq_ring_mem q) NULL) as [E0|E0]; (split; [done|]);
        (erewrite with_vq_ok; [reflexivity|exact Hp|]); unfold virtqueue_free_static;
        cbv [mbind M_bind getvq v_vq]; [by rewrite E0|by rewrite (proj2 (Z.eqb_neq _ NULL) E0)]. }
    destruct (Hfree _ _ _ Hr) as (qr' & Mr & R1). set (w1 := after_vq _ _ _ _ w) in R1.
    assert (w_heap w1 !! tvq i = Some (OVq qt)) as Ht1 by (unfold w1; cbn; by rewrite lookup_insert_ne).
    destruct (Hfree _ _ _ Ht1) as (qt' & Mt & R2).
    eexists. split.
    { intros A k. rewrite (bind_ok (with_vq (rvq i) virtqueue_free_static;; _) _ _ tt _) by
        (by rewrite (bind_ok _ _ _ _ _ R1)). reflexivity. }
    split_and!; try done.
    + cbn. by rewrite !lookup_insert_ne.
    + intros x Hx1 Hx2. cbn. by rewrite !lookup_insert_ne.
    + intros p [-> | ->]; [exists qr'|exists qt']; (split; [|done]); cbn.
      * rewrite lookup_insert_ne by done. apply lookup_insert_eq.
      * apply lookup_insert_eq.
  - destruct (virtqueue_free_ok _ _ w Hrn Hr) as (w1 & R1 & H1 & M1 & E1 & T1 & _).
    destruct (virtqueue_free_ok _ qt w1 Htn) as (w2 & R2 & H2 & M2 & E2 & T2 & _).
    { by rewrite H1, lookup_delete_ne. }
    exists w2. split.
    { intros A k. by rewrite (bind_ok (virtqueue_free (rvq i);; _) _ _ tt _) by (by rewrite (bind_ok _ _ _ _ _ R1)). }
    rewrite M2, M1, E2, E1, T2, T1, H2, H1. split_and!; try done. by rewrite !lookup_delete_ne.
Qed.

(** The instance with another link state. *)
Lemma lite_ok_link dev i o qt qr w w' :
  lite_ok dev i o qt qr w → w_heap w' = <[dev := OInst (set_link_state 0 i)]> (w_heap w) →
  lock_free (w_env w') (lock i) → lite_ok dev (set_link_state 0 i) o qt qr w'.
Proof.
  intros [? Hi ? Ht Hr Hne ? ? ?] Hh Hl.
  constructor; try done; rewrite Hh; try apply lookup_insert_eq; (rewrite lookup_insert_ne; [done|]).
  - intros E0. change (tvq (set_link_state 0 i)) with (tvq i) in E0. rewrite E0 in Hi. by rewrite Hi in Ht.
  - intros E0. change (rvq (set_link_state 0 i)) with (rvq i) in E0. rewrite E0 in Hi. by rewrite Hi in Hr.
Qed.

(** What a stopped instance leaves.  The port has been asked, in this order, to
    remove the handler of the receive queue and that of the transmit queue, to
    delete the lock, and to shut down. *)
Record stopped (dev : Z) (i : rpmsg_lite_instance) (qt qr : virtqueue) (w w' : world E) : Prop := {
  sp_mem : w_mem w' = w_mem w;
  sp_trace : w_trace w' = EvDeinitIrq (vq_queue_index qt) :: EvDeinitIrq (vq_queue_index qr) :: w_trace w;
  sp_env : ∃ e1 e2 e3 s, el_deinit_interrupt (vq_queue_index qr) (w_env w) = Ok tt e1 ∧
    el_deinit_interrupt (vq_queue_index qt) e1 = Ok tt e2 ∧
    el_delete_mutex (lock i) e2 = Ok tt e3 ∧ el_deinit e3 = Ok s (w_env w');
  sp_heap : if RL_USE_STATIC_API then
      (∃ i', w_heap w' !! dev = Some (OInst i') ∧ rvq i' = NULL ∧ tvq i' = NULL ∧ link_state i' = 0) ∧
      (∀ p, p = rvq i ∨ p = tvq i → ∃ q, w_heap w' !! p = Some (OVq q) ∧ vq_ring_mem q = NULL) ∧
      (∀ x, x ≠ dev → x ≠ rvq i → x ≠ tvq i → w_heap w' !! x = w_heap w !! x)
    else w_heap w' = delete dev (delete (tvq i) (delete (rvq i) (w_heap w)));
}.

Lemma deinit_ok dev i o qt qr w :
  lite_ok dev i o qt qr w → stoppable dev i qt qr w →
  ∃ w', rpmsg_lite_deinit dev w = Ok RL_SUCCESS w' ∧ stopped dev i qt qr w w'.
Proof.
  intros Hlo [(Hr & Ht & Hl) (Vr & Vt) Hin (Hup & Hstop)].
  unfold rpmsg_lite_deinit. pose proof (lo_dev _ _ _ _ _ _ Hlo) as Hdn. pose proof (lo_inst _ _ _ _ _ _ Hlo) as Hi.
  rewrite (proj2 (Z.eqb_neq dev NULL) Hdn), (bind_ok _ _ _ _ _ (get_inst_ok dev i w Hi)).
  rewrite (proj2 (Z.eqb_neq _ NULL) Hr), (proj2 (Z.eqb_neq _ NULL) Ht), (proj2 (Z.eqb_neq _ NULL) Hl).
  cbn zeta. cbn [negb andb].
  destruct (irq_deinit_ok _ qr w (lo_rvq _ _ _ _ _ _ Hlo) Hup Vr ltac:(lia)) as (w1 & R1 & H1 & M1 & [U1 K1 J1 F1 P1] & T1 & O1).
  rewrite (bind_ok _ _ _ _ _ R1).
  destruct (irq_deinit_ok (tvq i) qt w1) as (w2 & R2 & H2 & M2 & [U2 K2 J2 F2 P2] & T2 & O2); try done.
  { rewrite H1. apply (lo_tvq _ _ _ _ _ _ Hlo). } { lia. }
  rewrite (bind_ok _ _ _ _ _ R2).
  rewrite (bind_ok _ _ _ _ _ (upd_inst_ok dev _ i w2 ltac:(by rewrite H2, H1))).
  set (i1 := set_link_state 0 i). set (w3 := set_heap <[dev := OInst i1]> w2).
  assert (lite_ok dev i1 o qt qr w3) as Hlo3.
  { apply (lite_ok_link dev i o qt qr w); [done|cbn; by rewrite H2, H1|]. apply F2, F1. apply Hlo. }
  destruct (free_both_ok o dev i1 qt qr w3 Hlo3 Hr Ht) as (w4 & R4 & M4 & E4 & T4 & Hd4 & Hh4).
  change (rvq i1) with (rvq i) in *. change (tvq i1) with (tvq i) in *. rewrite R4.
  rewrite (bind_ok _ _ _ _ _ (upd_inst_ok dev _ i1 w4 Hd4)).
  set (i5 := set_rvq NULL (set_tvq NULL i1)). set (w5 := set_heap <[dev := OInst i5]> w4).
  assert (w_env w5 = w_env w2) as E5 by (change (w_env w5) with (w_env w4); rewrite E4; done).
  destruct (law_delete_mutex (w_env w5) (lock i)) as (e6 & Hmx & U6 & P6); rewrite ?E5; [done|apply F2, F1, Hlo|].
  rewrite (bind_ok _ _ _ _ _ (with_env_ok (el_delete_mutex (lock i)) w5 tt e6 Hmx)). set (w6 := set_env e6 w5).
  destruct (law_deinit (w_env w6) U6) as (s & e7 & Hde); [apply P6; rewrite E5; auto|].
  rewrite (bind_ok _ _ _ _ _ (with_env_ok el_deinit w6 s e7 Hde)). set (w7 := set_env e7 w6).
  assert (w_heap w7 = <[dev := OInst i5]> (w_heap w4)) as Hh7 by done.
  assert (dev ≠ rvq i ∧ dev ≠ tvq i) as [Ndr Ndt].
  { split; intros E0.
    - pose proof (lo_rvq _ _ _ _ _ _ Hlo) as Hq. rewrite <- E0, Hi in Hq. done.
    - pose proof (lo_tvq _ _ _ _ _ _ Hlo) as Hq. rewrite <- E0, Hi in Hq. done. }
  assert (w_mem w7 = w_mem w) as M7.
  { change (w_mem w7) with (w_mem w4). rewrite M4. change (w_mem w3) with (w_mem w2). by rewrite M2, M1. }
  assert (w_trace w7 = EvDeinitIrq (vq_queue_index qt) :: EvDeinitIrq (vq_queue_index qr) :: w_trace w) as T7.
  { change (w_trace w7) with (w_trace w4). rewrite T4. change (w_trace w3) with (w_trace w2). by rewrite T2, T1. }
  assert (∃ e1 e2 e3 s, el_deinit_interrupt (vq_queue_index qr) (w_env w) = Ok tt e1 ∧
    el_deinit_interrupt (vq_queue_index qt) e1 = Ok tt e2 ∧
    el_delete_mutex (lock i) e2 = Ok tt e3 ∧ el_deinit e3 = Ok s (w_env w7)) as Henv.
  { exists (w_env w1), (w_env w2), e6, s. split_and!; try done. by rewrite <- E5. }
  destruct RL_USE_STATIC_API eqn:HS.
  - exists w7. split; [done|]. constructor; [done|done|done|]. rewrite HS, Hh7. destruct Hh4 as [Hk Hq]. split_and!.
    + exists i5. split; [apply lookup_insert_eq|done].
    + intros p Hp. destruct (Hq p Hp) as (q & Hpq & Hm). exists q. split; [|done].
      rewrite lookup_insert_ne; [done|]. by destruct Hp as [-> | ->].
    + intros x Hx1 Hx2 Hx3. rewrite lookup_insert_ne, Hk by done. cbn. by rewrite lookup_insert_ne, H2, H1.
  - assert (w_heap w7 !! dev = Some (OInst i5)) as Hd7 by (rewrite Hh7; apply lookup_insert_eq).
    rewrite (bind_ok _ _ _ _ _ (env_free_memory_ok dev _ w7 Hdn Hd7)).
    eexists. split; [done|]. constructor; [done|done|done|]. rewrite HS. cbn [w_heap set_heap]. rewrite Hh7, Hh4.
    change (w_heap w3) with (<[dev := OInst i1]> (w_heap w2)). rewrite H2, H1, delete_insert_eq.
    apply map_eq. intros x. destruct (decide (x = dev)) as [->|Hx]; [by rewrite !lookup_delete_eq|].
    rewrite !(lookup_delete_ne _ dev) by done.
    destruct (decide (x = tvq i)) as [->|]; [by rewrite !lookup_delete_eq|]. rewrite !(lookup_delete_ne _ (tvq i)) by done.
    destruct (decide (x = rvq i)) as [->|]; [by rewrite !lookup_delete_eq|]. rewrite !(lookup_delete_ne _ (rvq i)) by done.
    by rewrite lookup_insert_ne.
Qed.

(** C20.  [rpmsg_lite_deinit], on every branch.  NULL is refused; an instance
    whose queues or lock are missing trips the assertion; a live one is stopped:
    the handlers of the receive and of the transmit queue are removed, then the
    lock is deleted and the environment shut down, each once and in this order;
    the shared memory is untouched, and the instance and its two queues are
    released (with the static API they are marked: the queues have no ring memory
    and the instance no queues; no other object changes). *)
Theorem deinit_correct dev i o qt qr w :
  rpmsg_lite_deinit NULL w = Ok RL_ERR_PARAM w ∧
  (dev ≠ NULL → w_heap w !! dev = Some (OInst i) → rvq i = NULL ∨ tvq i = NULL ∨ lock i = NULL →
   rpmsg_lite_deinit dev w = Hang w) ∧
  (lite_ok dev i o qt qr w → stoppable dev i qt qr w →
   ∃ w', rpmsg_lite_deinit dev w = Ok RL_SUCCESS w' ∧ stopped dev i qt qr w w').
Proof.
  split; [done|]. split; [|apply deinit_ok].
  intros Hd Hi Hn. unfold rpmsg_lite_deinit.
  rewrite (proj2 (Z.eqb_neq dev NULL) Hd), (bind_ok _ _ _ _ _ (get_inst_ok dev i w Hi)). cbn zeta.
  assert (negb (rvq i =? NULL) && negb (tvq i =? NULL) && negb (lock i =? NULL) = false) as ->; [|done].
  destruct Hn as [->|[->| ->]]; by rewrite ?andb_false_r.
Qed.

(** C18.  Starting and stopping with the dynamic API leaves nothing on the heap:
    whatever either initialisation returns, the heap is the one before it when
    the instance was not made, and again after [rpmsg_lite_deinit], which then
    succeeds, when it was. *)
Theorem init_deinit_roundtrip shmem_addr shmem_length lnk flags sc rc w r w' :
  RL_USE_STATIC_API = false → startable shmem_addr shmem_length lnk rc sc w → 0 ≤ installed (w_env w) →
  master_config lnk shmem_length w = Ok (Some rc) w ∧ pool_mapped shmem_addr rc ∧
    rpmsg_lite_master_init shmem_addr shmem_length lnk flags sc w = Ok r w' ∨
  remote_config lnk = Some rc ∧ rpmsg_lite_remote_init shmem_addr lnk flags sc w = Ok r w' →
  can_stop (w_env w') →
  if r =? NULL then w_heap w' = w_heap w
  else ∃ w'', rpmsg_lite_deinit r w' = Ok RL_SUCCESS w'' ∧ w_heap w'' = w_heap w ∧ w_mem w'' = w_mem w'.
Proof.
  intros HS Hst Hinst Hrun Hstop.
  assert (not_started r w w' ∨ r ≠ NULL ∧ ∃ o i qt qr, booted o shmem_addr lnk rc r i qt qr w' ∧
    env_up (w_env w') ∧ 2 ≤ installed (w_env w') ∧ returns_heap r w w') as Hout.
  { destruct Hrun as [(Hcfg & Hmap & Hrun)|(Hcfg & Hrun)].
    - destruct (master_init_ok _ _ _ flags _ _ _ Hst Hcfg Hmap) as (r1 & w1 & Hrun1 & Hout).
      rewrite Hrun1 in Hrun. injection Hrun as -> ->.
      destruct Hout as [?|(Hr & [(i & qt & qr & Hb) Hh _ (Hup & _ & Hi) _])]; [by left|right].
      split; [done|]. exists master_vq_ops, i, qt, qr. split_and!; try done; lia.
    - destruct (remote_init_ok _ _ _ flags _ _ _ Hst Hcfg) as (r1 & w1 & Hrun1 & Hout).
      rewrite Hrun1 in Hrun. injection Hrun as -> ->.
      destruct Hout as [?|(Hr & [(i & qt & qr & Hb) Hh _ (Hup & _ & Hi) _])]; [by left|right].
      split; [done|]. exists remote_vq_ops, i, qt, qr. split_and!; try done; lia. }
  destruct Hout as [(-> & Hnl & _)|(Hr & o & i & qt & qr & Hb & Hup & Hin & Hheap)].
  { cbn. by apply Hnl. }
  rewrite (proj2 (Z.eqb_neq r NULL) Hr).
  destruct (deinit_ok r i o qt qr w' (bt_lite _ _ _ _ _ _ _ _ _ Hb)) as (w'' & Hd & [Hm _ _ Hh]).
  { constructor; [apply Hb| |done|done]. destruct (sb_vectors _ _ _ _ _ _ Hst).
    rewrite (bq_vector _ _ _ _ _ _ _ (bt_rx _ _ _ _ _ _ _ _ _ Hb)), (bq_vector _ _ _ _ _ _ _ (bt_tx _ _ _ _ _ _ _ _ _ Hb)).
    by destruct o. }
  exists w''. split_and!; try done. rewrite HS in Hh. rewrite Hh.
  apply (Hheap HS). apply Hb.
Qed.

End boot.

(** ** The bare-metal port implements the interface *)

Section bare_metal.
Context {H : Type} {per : Peripherals H} {cfg : Config}.

Definition bm_ready (s : bm H) : Prop :=
  bm_inv s ∧ 0 ≤ disable_counter s ∧ 0 ≤ isr_counter s.

#[global] Instance bm_life : Life (bm H) := {|
  env_idle := bm_ready;
  env_up s := bm_ready s ∧ 0 < env_init_counter s;
  masked := disable_counter;
  installed := isr_counter;
  can_stop _ := ∀ h : H, mailbox_drained h = true;
  vector_ok v := v < RL_PLATFORM_MAX_ISR_COUNT;
|}.

Context (lock_addr : Z) (lock_addr_ok : lock_addr ≠ NULL).

(** A call that only moves the counters. *)
Lemma bm_step k j s s' :
  bm_ready s → 0 < env_init_counter s → env_init_counter s' = env_init_counter s →
  platform_lock s' = platform_lock s → disable_counter s' = disable_counter s + k →
  isr_counter s' = isr_counter s + j → 0 ≤ disable_counter s + k → 0 ≤ isr_counter s + j →
  @env_step (bm H) (bm_env lock_addr) (bm_laws lock_addr) bm_life k j s s'.
Proof.
  intros ([Hc Hl] & Hd & Hi) Hpos Ec El Ed Ei Hd' Hi'. constructor; cbn; try done.
  unfold bm_ready. rewrite Ec, Ed, Ei. split_and!; try lia. by constructor; rewrite ?Ec, ?El.
Qed.

#[global] Program Instance bm_life_laws : @LifeLaws (bm H) (bm_env lock_addr) (bm_laws lock_addr) bm_life.
Next Obligation.
  intros s (Hinv & Hd & Hi). destruct (env_init_ok lock_addr lock_addr_ok s Hinv) as (s' & Hrun & Hinv' & Ec & _ & Ed & Ei).
  exists 0, s'. split; [done|]. intros _. cbn. unfold bm_ready. rewrite Ec, Ed, Ei.
  destruct Hinv. split_and!; try done; lia.
Qed.
Next Obligation.
  intros s ((Hinv & _) & Hpos) Hdr. destruct (env_deinit_ok s Hinv Hpos (Hdr _)) as (s' & Hrun & _).
  by exists 0, s'.
Qed.
Next Obligation.
  intros s p c (Hr & Hpos) Hp _. exists 0, p, s. split; [done|]. intros _. split_and!; [done| |done].
  apply bm_step; try done; rewrite ?Z.add_0_r; try done; apply Hr.
Qed.
Next Obligation. intros s l Hup _. by exists s. Qed.
Next Obligation.
  intros s v d (Hr & Hpos) Hv. cbn in Hv. pose proof Hr as ([Hc Hl] & Hd & Hi).
  assert (platform_lock s ≠ NULL) as Hlk by (rewrite Hl; lia). destruct s as [c tab [ic dc pl h]]. cbn in *.
  unfold platform_init_interrupt, env_register_isr, bm_lock_mutex, bm_unlock_mutex, bm_assert. vrun_bm.
  rewrite (proj2 (Z.eqb_neq pl NULL) Hlk), (proj2 (Z.ltb_lt v _) Hv). cbn [negb]. vrun_bm.
  rewrite (proj2 (Z.leb_le 0 ic) Hi).
  destruct (ic =? 0); eexists; (split; [reflexivity|]); apply bm_step; cbn; rewrite ?Z.add_0_r; try done; lia.
Qed.
Next Obligation.
  intros s v (Hr & Hpos) Hv Hin. cbn in Hv, Hin. pose proof Hr as ([Hc Hl] & Hd & Hi).
  assert (platform_lock s ≠ NULL) as Hlk by (rewrite Hl; lia). destruct s as [c tab [ic dc pl h]]. cbn in *.
  unfold platform_deinit_interrupt, env_unregister_isr, bm_lock_mutex, bm_unlock_mutex, bm_assert. vrun_bm.
  rewrite (proj2 (Z.eqb_neq pl NULL) Hlk). cbn [negb]. vrun_bm. rewrite (proj2 (Z.ltb_lt 0 ic) Hin). vrun_bm.
  rewrite (proj2 (Z.ltb_lt v _) Hv).
  destruct (ic - 1 =? 0); eexists; (split; [reflexivity|]); apply bm_step; cbn; rewrite ?Z.add_0_r; try done; lia.
Qed.
Next Obligation.
  intros s v (Hr & Hpos) Hv. pose proof Hr as (_ & Hd & Hi). destruct s as [c tab [ic dc pl h]]. cbn in *.
  unfold env_disable_interrupt, platform_interrupt_disable, bm_assert. vrun_bm.
  rewrite (proj2 (Z.leb_le 0 dc) Hd).
  destruct (dc =? 0); eexists; (split; [reflexivity|]); apply bm_step; cbn; rewrite ?Z.add_0_r; try done; lia.
Qed.
Next Obligation.
  intros s v (Hr & Hpos) Hv Hm. cbn in Hm. pose proof Hr as (_ & Hd & Hi). destruct s as [c tab [ic dc pl h]]. cbn in *.
  unfold env_enable_interrupt, platform_interrupt_enable, bm_assert. vrun_bm.
  rewrite (proj2 (Z.ltb_lt 0 dc) Hm).
  destruct (dc - 1 =? 0); eexists; (split; [reflexivity|]); apply bm_step; cbn; rewrite ?Z.add_0_r; try done; lia.
Qed.
Next Obligation. intros s ((_ & Hd & _) & _). exact Hd. Qed.

End bare_metal.

(** ** The theorems on a concrete port *)

(** A cold start on the shared memory at 8192. *)
Definition c_cold : world (bm sim) := Build_world ∅ ∅ 10 [] 0 sim_start [].
Definition c_shared : Z := 8192.
Definition c_length : Z := 4096.
Definition c_rc : ring_config := {|
  rc_count := 2; rc_align := 16; rc_vring_size := platform_VRING_SIZE 2 16; rc_buf_size := 512;
  rc_overhead := 2 * platform_VRING_SIZE 2 16 |}.

Definition c_life : Life (bm sim) := @bm_life sim _ default_config.
Definition c_life_laws : @LifeLaws _ c_env c_laws c_life := @bm_life_laws sim _ default_config 4 ltac:(done).

Lemma c_no_custom lnk c :
  @platform_get_custom_shmem_config _ c_app lnk = Some c → shmem_config_range c.
Proof. done. Qed.

Lemma c_config : @master_config _ c_app default_config 0 c_length c_cold = Ok (Some c_rc) c_cold.
Proof. vm_compute. done. Qed.

Lemma c_remote_config : @remote_config _ c_app default_config 0 = Some c_rc.
Proof. vm_compute. done. Qed.

Lemma c_layout_ok : @layout_ok default_config c_shared c_length c_rc.
Proof.
  constructor; try (vm_compute; done); [by exists 1|by exists 4|].
  exists 7. vm_compute. done.
Qed.

Lemma c_mapped : @pool_mapped default_config flat_map c_shared c_rc.
Proof.
  intros k Hk. cbn in Hk. cbn -[u64].
  assert (pool_base c_shared c_rc = 8352) as -> by (vm_compute; done).
  rewrite (u32_small (8352 + 512 * k)) by lia. unfold u64. rewrite Z.mod_small by lia. by apply u32_small; lia.
Qed.

Lemma c_cold_alloc : alloc_ok c_cold.
Proof. by constructor. Qed.

Lemma c_cold_idle : @env_idle _ c_life (w_env c_cold).
Proof. by split_and!. Qed.

Lemma c_startable : @startable _ c_life default_config c_shared c_length 0 c_rc None c_cold.
Proof. constructor; [done|apply c_layout_ok|by split|apply c_cold_alloc|done|apply c_cold_idle]. Qed.


Lemma master_init_correct_witness :
  ∃ r w', @rpmsg_lite_master_init _ c_env c_app default_config flat_map c_shared c_length 0 0 None c_cold = Ok r w' ∧
    (r = NULL ∨ @master_ready _ c_env c_laws c_life default_config flat_map c_shared c_length 0 c_rc r c_cold w').
Proof.
  destruct (@master_init_correct _ c_env c_laws c_life c_life_laws c_app default_config flat_map default_ok
    c_shared c_length 0 0 None c_rc c_cold c_startable c_config c_mapped) as (r & w' & Hrun & Hr).
  exists r, w'. split; [exact Hrun|]. destruct Hr as [Hr|(_ & Hr & _)]; [left; apply Hr|right; exact Hr].
Defined.

Lemma remote_init_correct_witness :
  ∃ r w', @rpmsg_lite_remote_init _ c_env c_app default_config c_shared 0 0 None c_cold = Ok r w' ∧
    (r = NULL ∨ @remote_ready _ c_env c_laws c_life default_config c_shared 0 c_rc r c_cold w').
Proof.
  destruct (@remote_init_correct _ c_env c_laws c_life c_life_laws c_app default_config flat_map
    default_ok c_shared c_length 0 0 None c_rc c_cold c_startable c_remote_config) as (r & w' & Hrun & Hr).
  exists r, w'. split; [exact Hrun|]. destruct Hr as [Hr|(_ & Hr & _)]; [left; apply Hr|right; exact Hr].
Defined.

Lemma init_refuses_witness :
  @rpmsg_lite_master_init _ c_env c_app default_config flat_map NULL c_length 0 0 None c_cold = Ok NULL c_cold.
Proof.
  destruct (@init_refuses _ c_env c_app default_config flat_map NULL c_length 0 0 None c_cold) as [Hr _].
  apply Hr. right. left. reflexivity.
Defined.

(** A master that is up: the control blocks [c_vq] and [c_rvq], and the port as
    [env_init] and the installation of two handlers leave it. *)
Definition c_port_up : bm sim :=
  {| env_init_counter := 1; isr_table := {[ 0 := 20; 1 := 21 ]}; 
     bm_lpc := {| lpc_isr_counter := 2; lpc_disable_counter := 0; lpc_lock := 4;
                  lpc_hw := {| sim_irq := true; sim_bits := 0 |} |} |}.
Definition c_up : world (bm sim) := Build_world c_mem c_tx_heap 30 [] 0 c_port_up [].

Lemma c_up_stoppable : @stoppable _ c_life 1 c_master c_vq c_rvq c_up.
Proof.
  constructor; [done|done|done|]. split; [|done].
  split; [|done]. split_and!; [|done|done]. by constructor.
Qed.

Lemma deinit_correct_witness :
  ∃ w', @rpmsg_lite_deinit _ c_env default_config 1 c_up = Ok RL_SUCCESS w' ∧
    @stopped _ c_env default_config 1 c_master c_vq c_rvq c_up w'.
Proof.
  destruct (@deinit_correct _ c_env c_laws c_life c_life_laws default_config 1 c_master master_vq_ops c_vq c_rvq c_up)
    as (_ & _ & Hd).
  apply Hd; [by apply c_tx_lite|apply c_up_stoppable].
Defined.

Lemma c_remote_runs :
  ∃ r w', @rpmsg_lite_remote_init _ c_env c_app default_config c_shared 0 0 None c_cold = Ok r w' ∧ r ≠ NULL.
Proof. vm_compute. by eexists _, _. Qed.

Lemma init_deinit_roundtrip_witness :
  ∃ r w' w'', @rpmsg_lite_remote_init _ c_env c_app default_config c_shared 0 0 None c_cold = Ok r w' ∧ r ≠ NULL ∧
    @rpmsg_lite_deinit _ c_env default_config r w' = Ok RL_SUCCESS w'' ∧ w_heap w'' = w_heap c_cold.
Proof.
  destruct c_remote_runs as (r & w' & Hrun & Hr).
  assert (@can_stop _ c_life (w_env w')) as Hs by (intros h; reflexivity).
  pose proof (@init_deinit_roundtrip _ c_env c_laws c_life c_life_laws c_app default_config flat_map default_ok
    c_shared c_length 0 0 None c_rc c_cold r w' eq_refl c_startable (Z.le_refl 0)) as Hd.
  specialize (Hd (or_intror (conj c_remote_config Hrun)) Hs).
  rewrite (proj2 (Z.eqb_neq r NULL) Hr) in Hd. destruct Hd as (w'' & Hd & Hh & _).
  exists r, w', w''. exact (conj Hrun (conj Hr (conj Hd Hh))).
Defined.
