(* ===== verification/BootConversation.v ===== *)
(** * From power-up to conversation

    Two cores start the library on the same shared memory: the master with
    [rpmsg_lite_master_init], the remote with [rpmsg_lite_remote_init] on the
    memory the master left, and the remote is notified.  What they have then is
    the start of a [Conversation], and stays one while they create endpoints. *)

From S2P Require Import Prelude Memory Config VirtioRing Virtqueue RingQueue VirtqueueSpec Concrete ChannelRefinement World Lpc55s69 BareMetal Llist Endpoint Transport RpmsgLite Sending Receiving Lane Side Conversation RingInit Init Startup MasterInit Boot.

(** ** The lanes of a prepared memory *)

Section lanes.
Context {cfg : Config} {am : AddrMap} {cok : ConfigOk cfg}.
Context (shmem_addr shmem_length : Z) (rc : ring_config) (lok : layout_ok shmem_addr shmem_length rc).

(** The shared memory. *)
Definition shmem_region (a : Z) : Prop := shmem_addr ≤ a < shmem_addr + shmem_length.

(** What [RL_DEBUG_CHECK_BUFFERS] relies on: descriptors hold the addresses the
    cores use. *)
Definition debug_addresses (m : mem) : Prop :=
  RL_DEBUG_CHECK_BUFFERS = true → ∀ idx k, idx = 0 ∨ idx = 1 → 0 ≤ k < rc_count rc →
    r_desc_addr (queue_ring shmem_addr rc idx) m k = buf_at (queue_ring shmem_addr rc idx) m k.

(** Where the buffers of a ring begin in the pool. *)
Definition pool_offset (idx : Z) : Z := if decide (idx = 0) then 0 else rc_count rc.

Lemma prepared_desc m idx k :
  prepared shmem_addr shmem_length rc m → idx = 0 ∨ idx = 1 → 0 ≤ k < rc_count rc →
  buf_at (queue_ring shmem_addr rc idx) m k = pool_base shmem_addr rc + rc_buf_size rc * (pool_offset idx + k) ∧
  r_desc_len (queue_ring shmem_addr rc idx) m k = rc_buf_size rc.
Proof. intros Hp [-> | ->] Hk; [exact (pr_buf0 _ _ _ _ Hp k Hk)|exact (pr_buf1 _ _ _ _ Hp k Hk)]. Qed.

Lemma buf_size_max : 16 ≤ rc_buf_size rc < 4294967296.
Proof using cok lok.
  destruct (layout_numbers _ _ _ lok) as (Hv & n & _ & _ & Hn & Hfit). pose proof (la_length _ _ _ lok).
  pose proof (la_buf _ _ _ lok). pose proof (la_overhead _ _ _ lok). nia.
Qed.

(** The two lanes do not meet, and lie in the shared memory. *)
Lemma prepared_apart m a :
  prepared shmem_addr shmem_length rc m →
  (shared (queue_ring shmem_addr rc 0) (rc_buf_size rc) m a ∨ shared (queue_ring shmem_addr rc 1) (rc_buf_size rc) m a →
     shmem_region a) ∧
  (shared (queue_ring shmem_addr rc 1) (rc_buf_size rc) m a → shared (queue_ring shmem_addr rc 0) (rc_buf_size rc) m a → False).
Proof using cok lok.
  intros Hp. destruct (layout_rings _ _ _ lok) as (ok0 & ok1 & Hd0 & H01 & H1b & N0 & N1).
  pose proof (vring_end_ge _ ok0). pose proof (vring_end_ge _ ok1).
  pose proof (pr_inside _ _ _ _ Hp) as Hins. pose proof (pow2_pos _ (la_count _ _ _ lok)). pose proof buf_size_max.
  assert (∀ idx, idx = 0 ∨ idx = 1 → shared (queue_ring shmem_addr rc idx) (rc_buf_size rc) m a →
    desc (queue_ring shmem_addr rc idx) ≤ a < vring_end (queue_ring shmem_addr rc idx) ∨
    ∃ k, 0 ≤ k < rc_count rc ∧ pool_base shmem_addr rc + rc_buf_size rc * (pool_offset idx + k) ≤ a <
      pool_base shmem_addr rc + rc_buf_size rc * (pool_offset idx + k) + rc_buf_size rc) as Hsh.
  { intros idx Hidx [Hr|(k & Hk & Ha)]; [by left|right]. exists k.
    assert (0 ≤ k < rc_count rc) as Hk' by (destruct Hidx as [-> | ->]; [by rewrite N0 in Hk|by rewrite N1 in Hk]).
    split; [done|]. by rewrite (proj1 (prepared_desc m idx k Hp Hidx Hk')) in Ha. }
  assert (∀ x y, 0 ≤ x < y → 0 ≤ rc_buf_size rc * x ∧ rc_buf_size rc * x + rc_buf_size rc ≤ rc_buf_size rc * y) as Hmul
    by (intros; nia).
  unfold shmem_region. split.
  - destruct (Hmul 0 (2 * rc_count rc)); [lia|].
    intros [Hs|Hs]; [destruct (Hsh 0 ltac:(auto) Hs) as [Hr|(k & Hk & Ha)]|destruct (Hsh 1 ltac:(auto) Hs) as [Hr|(k & Hk & Ha)]];
      try lia; [destruct (Hmul (pool_offset 0 + k) (2 * rc_count rc))|destruct (Hmul (pool_offset 1 + k) (2 * rc_count rc))];
      try lia; unfold pool_offset; case_decide; lia.
  - intros S1 S0. destruct (Hsh 1 ltac:(auto) S1) as [Hr1|(k1 & Hk1 & Ha1)], (Hsh 0 ltac:(auto) S0) as [Hr0|(k0 & Hk0 & Ha0)].
    + lia.
    + destruct (Hmul (pool_offset 0 + k0) (2 * rc_count rc)); [unfold pool_offset; case_decide; lia|lia].
    + destruct (Hmul (pool_offset 1 + k1) (2 * rc_count rc)); [unfold pool_offset; case_decide; lia|lia].
    + destruct (Hmul (pool_offset 0 + k0) (pool_offset 1 + k1)); [unfold pool_offset; repeat case_decide; lia|lia].
Qed.

(** The lane on ring [idx], from the role [o] that sends on it. *)
Lemma prepared_lane o lnk lnk' dev dev' qs qr qs' qr' m :
  prepared shmem_addr shmem_length rc m → debug_addresses m →
  booted_vq o shmem_addr lnk rc dev (tx_ring o) qs → fresh_queues o rc qs qr' m →
  booted_vq (peer o) shmem_addr lnk' rc dev' (rx_ring (peer o)) qr → fresh_queues (peer o) rc qs' qr m →
  lane o (rc_buf_size rc) qs qr m [] [].
Proof using cok lok.
  intros Hp Hdbg Bs Fs Br Fr. pose proof buf_size_max.
  assert (rx_ring (peer o) = tx_ring o) as Er by (by destruct o).
  assert (tx_ring o = 0 ∨ tx_ring o = 1) as Hidx by (destruct o; auto).
  pose proof (bq_ring _ _ _ _ _ _ _ Bs) as Es. destruct (fq_num _ _ _ _ _ Fs) as [Hn _].
  pose proof (la_addr _ _ _ lok). destruct (layout_numbers _ _ _ lok) as (Hv & _). pose proof (la_overhead _ _ _ lok).
  constructor; rewrite ?(fq_tx _ _ _ _ _ Fs), ?(fq_rx _ _ _ _ _ Fr); try done; try apply Fs.
  - by rewrite (bq_ring _ _ _ _ _ _ _ Br), Es, Er.
  - apply Bs.
  - apply Br.
  - intros k Hk. rewrite Hn in Hk. rewrite Es. destruct (prepared_desc m _ k Hp Hidx Hk) as [Hb Hl]. split_and!.
    + by rewrite Hl.
    + rewrite Hb. unfold a_msg_data, sizeof_rpmsg_std_hdr, pool_base, NULL, pool_offset.
      pose proof (pow2_pos _ (la_count _ _ _ lok)). case_decide; nia.
    + intros HD. by apply Hdbg.
  - rewrite Hn, <- list_fmap_compose. cbn. rewrite app_nil_r. by rewrite list_fmap_id.
  - split; [|done]. apply Forall_fmap, Forall_forall. intros k _. cbn. lia.
Qed.

End lanes.

(** ** The remote is notified *)

Section link_up.
Context {E : Type} {el : EnvLayer E} {laws : EnvLaws E} {rxd : RxDispatch E} {out : Outside E} {app : Application E}.
Context {cfg : Config} {am : AddrMap}.
Implicit Types w : world E.

(** The state after [rpmsg_lite_tx_callback]. *)
Definition linked (dev : Z) (i : rpmsg_lite_instance) (e : E) (w : world E) : world E :=
  set_trace (cons (EvTxCallback (World.link_id i))) (set_env e (set_heap <[dev := OInst (set_link_state 1 i)]> w)).

Lemma booted_linked fuel shmem_addr lnk rc dev i qt qr e w :
  booted remote_vq_ops shmem_addr lnk rc dev i qt qr w → el_tx_callback (World.link_id i) (w_env w) = Ok tt e →
  lock_free e (lock i) →
  virtqueue_notification fuel (tvq i) w = Ok tt (linked dev i e w) ∧
  ∀ lim, payload_max i = Some lim → side dev (set_link_state 1 i) [] lim (λ _, True) remote_vq_ops qt qr (linked dev i e w).
Proof.
  intros [Hlo Ht _ _ (_ & Htn & _) Bt Br] He Hl. pose proof Hlo as [Hdev Hi Ho Htq Hrq Hne Wt Wr _]. split.
  - apply (tx_notification_ok fuel (tvq i) qt dev i e w); try done; apply Bt.
  - intros lim Hlim.
    assert (dev ≠ tvq i ∧ dev ≠ rvq i) as [N1 N2] by (split; intros E0; rewrite E0 in Hi; congruence).
    constructor; try done; [|constructor; try done|apply Br].
    + constructor; try done; cbn [w_heap set_trace set_env set_heap linked]; [apply lookup_insert_eq|..];
        cbn [tvq rvq set_link_state]; by rewrite lookup_insert_ne.
    + apply lookup_insert_eq.
    + destruct Ht as [_ Hlist _ _ _]. cbn in Hlist |- *. exact Hlist.
    + apply NoDup_nil_2.
    + apply NoDup_nil_2.
Qed.

End link_up.

(** ** The start *)

Section start.
Context {E1 : Type} {el1 : EnvLayer E1} {laws1 : EnvLaws E1} {life1 : Life E1} {llaws1 : LifeLaws E1}.
Context {rxd1 : RxDispatch E1} {out1 : Outside E1} {app1 : Application E1}.
Context {E2 : Type} {el2 : EnvLayer E2} {laws2 : EnvLaws E2} {life2 : Life E2} {llaws2 : LifeLaws E2}.
Context {rxd2 : RxDispatch E2} {out2 : Outside E2} {app2 : Application E2}.
Context {cfg : Config} {am : AddrMap} {cok : ConfigOk cfg}.

(** An instance without endpoints. *)
Definition bare_core {E} (dev : Z) (i : rpmsg_lite_instance) (lim : Z) : core E :=
  {| c_dev := dev; c_instance := i; c_epts := []; c_lim := lim; c_cb := λ _, True |}.

Lemma boot_started shmem_addr shmem_length rc lnk flags sc (w : world E1) dev wM lnk' flags' sc'
    (v : world E2) dev' vR fuel fuel' :
  startable shmem_addr shmem_length lnk rc sc w → master_config lnk shmem_length w = Ok (Some rc) w →
  pool_mapped shmem_addr rc →
  rpmsg_lite_master_init shmem_addr shmem_length lnk flags sc w = Ok dev wM → dev ≠ NULL →
  startable shmem_addr shmem_length lnk' rc sc' v → remote_config (app := app2) lnk' = Some rc → w_mem v = w_mem wM →
  rpmsg_lite_remote_init shmem_addr lnk' flags' sc' v = Ok dev' vR → dev' ≠ NULL →
  debug_addresses shmem_addr rc (w_mem wM) → rc_count rc ≤ Z.of_nat fuel' →
  ∃ i i', w_heap wM !! dev = Some (OInst i) ∧ w_heap vR !! dev' = Some (OInst i') ∧
    ∀ lim lim' e, payload_max (app := app1) i = Some lim → payload_max (app := app2) i' = Some lim' →
      el_tx_callback (World.link_id i') (w_env vR) = Ok tt e → lock_free e (lock i') →
      ∃ vR', virtqueue_notification fuel (tvq i') vR = Ok tt vR' ∧
        started (bare_core dev i lim) (bare_core dev' (set_link_state 1 i') lim') (rc_buf_size rc)
          (shmem_region shmem_addr shmem_length) fuel' {| s_master := wM; s_remote := vR' |}.
Proof.
  intros St Cfg Map Run Hdev St' Cfg' Em Run' Hdev' Hdbg Hfuel. pose proof (sb_layout _ _ _ _ _ _ St) as lok.
  destruct (master_init_ok _ _ _ flags _ _ _ St Cfg Map) as (r & w1 & R1 & H1). rewrite Run in R1. injection R1 as <- <-.
  destruct H1 as [(? & _)|(_ & Hm)]; [done|]. destruct (mr_booted _ _ _ _ _ _ _ Hm) as (i & qt & qr & B).
  pose proof (mr_mem _ _ _ _ _ _ _ Hm) as Hp.
  destruct (remote_init_ok shmem_addr shmem_length lnk' flags' sc' rc v St' Cfg') as (r & w1 & R1 & H1).
  rewrite Run' in R1. injection R1 as <- <-. destruct H1 as [(? & _)|(_ & Hr)]; [done|].
  destruct (rr_booted _ _ _ _ _ _ Hr) as (i' & qt' & qr' & B'). pose proof (rr_mem _ _ _ _ _ _ Hr) as Em'.
  rewrite Em in Em'. exists i, i'. split; [apply B|]. split; [apply B'|]. intros lim lim' e Hl Hl' He Hlf.
  destruct (booted_linked fuel shmem_addr lnk' rc dev' i' qt' qr' e vR B' He Hlf) as [Rn Hside].
  exists (linked dev' i' e vR). split; [exact Rn|]. exists qt, qr, qt', qr'.
  pose proof (booted_fresh _ _ _ _ _ _ _ _ _ _ lok B Hp) as F.
  pose proof (booted_fresh remote_vq_ops shmem_addr shmem_length lnk' rc dev' i' qt' qr' vR lok B' ltac:(by rewrite Em')) as F'.
  rewrite Em' in F'. cbn [s_master s_remote].
  pose proof (bt_tx _ _ _ _ _ _ _ _ _ B) as Bt. pose proof (bt_rx _ _ _ _ _ _ _ _ _ B) as Br.
  pose proof (bt_tx _ _ _ _ _ _ _ _ _ B') as Bt'. pose proof (bt_rx _ _ _ _ _ _ _ _ _ B') as Br'.
  constructor; cbn [c_dev c_instance c_epts c_lim c_cb bare_core].
  - constructor; try done; [apply B|apply B|exact (bt_link _ _ _ _ _ _ _ _ _ B)|apply Br].
  - by apply Hside.
  - exact Em'.
  - by eapply (prepared_lane shmem_addr shmem_length rc lok master_vq_ops _ _ _ _ qt qr' qt' qr).
  - by eapply (prepared_lane shmem_addr shmem_length rc lok remote_vq_ops _ _ _ _ qt' qr qt qr').
  - intros a. rewrite (bq_ring _ _ _ _ _ _ _ Bt), (bq_ring _ _ _ _ _ _ _ Br). cbn [tx_ring rx_ring].
    intros Ha. apply (prepared_apart shmem_addr shmem_length rc lok (w_mem wM) a Hp). tauto.
  - intros a. rewrite (bq_ring _ _ _ _ _ _ _ Bt), (bq_ring _ _ _ _ _ _ _ Br). cbn [tx_ring rx_ring].
    apply (prepared_apart shmem_addr shmem_length rc lok (w_mem wM) a Hp).
  - destruct (fq_num _ _ _ _ _ F) as [-> ->]. lia.
Qed.

(** C4.  Two cores that start the library are ready to talk.  When
    [rpmsg_lite_master_init] has returned an instance, [rpmsg_lite_remote_init]
    has returned one on the memory the master left, and the remote has been
    notified on its transmit queue, then the two are at the start of a
    conversation: both links are up, each end of each ring agrees with the
    other on where every buffer is, nothing is on its way, and the two
    directions share no byte. *)
Theorem boot_starts_conversation shmem_addr shmem_length rc lnk flags sc (w : world E1) dev wM lnk' flags' sc'
    (v : world E2) dev' vR fuel fuel' :
  startable shmem_addr shmem_length lnk rc sc w → master_config lnk shmem_length w = Ok (Some rc) w →
  pool_mapped shmem_addr rc →
  rpmsg_lite_master_init shmem_addr shmem_length lnk flags sc w = Ok dev wM → dev ≠ NULL →
  startable shmem_addr shmem_length lnk' rc sc' v → remote_config (app := app2) lnk' = Some rc → w_mem v = w_mem wM →
  rpmsg_lite_remote_init shmem_addr lnk' flags' sc' v = Ok dev' vR → dev' ≠ NULL →
  debug_addresses shmem_addr rc (w_mem wM) → rc_count rc ≤ Z.of_nat fuel' →
  ∃ i i', w_heap wM !! dev = Some (OInst i) ∧ w_heap vR !! dev' = Some (OInst i') ∧
    ∀ lim lim' e, payload_max (app := app1) i = Some lim → payload_max (app := app2) i' = Some lim' →
      el_tx_callback (World.link_id i') (w_env vR) = Ok tt e → lock_free e (lock i') →
      ∃ vR', virtqueue_notification fuel (tvq i') vR = Ok tt vR' ∧
        started (bare_core dev i lim) (bare_core dev' (set_link_state 1 i') lim') (rc_buf_size rc)
          (shmem_region shmem_addr shmem_length) fuel' {| s_master := wM; s_remote := vR' |}.
Proof. apply boot_started. Qed.

End start.

(** ** Endpoints *)

Section endpoints.
Context {cfg : Config} {am : AddrMap}.

(** An instance with one more endpoint, at [r], in the node [n]. *)
Definition with_endpoint {E} (C : core E) (n r : Z) (e : rpmsg_lite_endpoint) (K : world E → Prop) : core E :=
  {| c_dev := c_dev C; c_instance := set_rl_endpoints n (c_instance C); c_epts := (n, (r, e)) :: c_epts C;
     c_lim := c_lim C; c_cb := K |}.

(** An automatic address is at most one more than the number of endpoints. *)
Lemma lowest_free_bound l a : lowest_free l a → 0 ≤ a ≤ Z.of_nat (length l) + 1.
Proof.
  intros (Ha & _ & Hlow). assert (NoDup (seqZ 1 (a - 1))) as Hn by apply NoDup_seqZ.
  assert (seqZ 1 (a - 1) ⊆+ l) as Hs.
  { apply NoDup_submseteq; [done|]. intros b Hb. apply elem_of_seqZ in Hb. apply Hlow. lia. }
  apply submseteq_length in Hs. rewrite length_seqZ in Hs. lia.
Qed.

Lemma side_create {E} {el : EnvLayer E} {laws : EnvLaws E} {app : Application E}
    (C : core E) o qt qr addr cb d r w w' (K : world E → Prop) :
  RL_USE_STATIC_API = false → alloc_ok w → 0 ≤ addr < 4294967296 → Z.of_nat (length (c_epts C)) < 4294967294 →
  side (c_dev C) (c_instance C) (c_epts C) (c_lim C) (c_cb C) o qt qr w →
  rpmsg_lite_create_ept (c_dev C) addr cb d None w = Ok r w' → r ≠ NULL → K w' →
  w_mem w' = w_mem w ∧ alloc_ok w' ∧ ∃ n e, addr_chosen (c_epts C) addr (ept_addr e) ∧ rx_cb e = cb ∧ rx_cb_data e = d ∧
    let C' := with_endpoint C n r e K in
    side (c_dev C') (c_instance C') (c_epts C') (c_lim C') (c_cb C') o qt qr w'.
Proof.
  intros HS Hal Haddr Hlen [Hlo Ht He Hup Hlim Hp HK] Hrun Hr HK'.
  destruct (create_ept_dynamic_ok (c_dev C) (c_instance C) (c_epts C) addr cb d w HS Hal) as
    (r' & w1 & R & [Lf Lm _ _] & Hal' & Hres); try done; [apply Hlo|apply Hlo|].
  rewrite Hrun in R. injection R as <- <-. split; [done|]. split; [done|].
  case_decide; [by destruct Hres|]. destruct Hres as (n & a & Ha & _ & Ht' & _ & Hk).
  exists n, {| ept_addr := a; rx_cb := cb; rx_cb_data := d |}. split; [exact Ha|]. split; [reflexivity|]. split; [reflexivity|]. cbn zeta.
  pose proof Hlo as [Hdev Hi Ho Htq Hrq Hne Wt Wr _].
  assert (∀ p q, w_heap w !! p = Some (OVq q) → w_heap w' !! p = Some (OVq q)) as Hvq.
  { intros p q Hpq. rewrite (Hk p); [done|by eexists|]. rewrite not_elem_of_cons. split; [intros ->; congruence|].
    intros Hin. rewrite e_nodes in Hin. apply list_elem_of_fmap in Hin as (x & -> & Hx).
    destruct (seg_nodes (w_heap w) _ _ _ _ (e_node x) (proj1 (tab_list _ _ _ _ Ht))) as [nd Hnd].
    - rewrite e_nodes. by apply list_elem_of_fmap_2.
    - congruence. }
  constructor; cbn [c_dev c_instance c_epts c_lim c_cb with_endpoint]; try done.
  - constructor; try done; [apply Ht'|by apply Hvq|by apply Hvq].
  - constructor; [|done]. split; [exact Hr|]. destruct Ha as [_ Ha]. cbn. case_decide; [|lia].
    apply lowest_free_bound in Ha. rewrite length_fmap in Ha. lia.
Qed.

Context {E1 : Type} {el1 : EnvLayer E1} {laws1 : EnvLaws E1} {app1 : Application E1}.
Context {E2 : Type} {el2 : EnvLayer E2} {laws2 : EnvLaws E2} {app2 : Application E2}.
Context (M : core E1) (R : core E2) (bsz : Z) (region : Z → Prop) (fuel : nat).

Lemma master_joins y addr cb d r w K :
  started M R bsz region fuel y → RL_USE_STATIC_API = false → alloc_ok (s_master y) → 0 ≤ addr < 4294967296 →
  Z.of_nat (length (c_epts M)) < 4294967294 →
  rpmsg_lite_create_ept (c_dev M) addr cb d None (s_master y) = Ok r w → r ≠ NULL → K w →
  ∃ n e, addr_chosen (c_epts M) addr (ept_addr e) ∧ rx_cb e = cb ∧ rx_cb_data e = d ∧ alloc_ok w ∧
    started (with_endpoint M n r e K) R bsz region fuel {| s_master := w; s_remote := s_remote y |}.
Proof.
  intros (qt & qr & qt' & qr' & [Hs Hp Hm Lo Li Hr Ha Hf]) HS Hal Haddr Hlen Hrun Hr0 HK.
  destruct (side_create M _ _ _ addr cb d r _ w K HS Hal Haddr Hlen Hs Hrun Hr0 HK) as (Em & Hal' & n & e & H1 & H2 & H3 & Hs').
  exists n, e. split_and!; try done. exists qt, qr, qt', qr'. constructor; cbn [s_master s_remote]; rewrite ?Em; done.
Qed.

Lemma remote_joins y addr cb d r w K :
  started M R bsz region fuel y → RL_USE_STATIC_API = false → alloc_ok (s_remote y) → 0 ≤ addr < 4294967296 →
  Z.of_nat (length (c_epts R)) < 4294967294 →
  rpmsg_lite_create_ept (c_dev R) addr cb d None (s_remote y) = Ok r w → r ≠ NULL → K w →
  ∃ n e, addr_chosen (c_epts R) addr (ept_addr e) ∧ rx_cb e = cb ∧ rx_cb_data e = d ∧ alloc_ok w ∧
    started M (with_endpoint R n r e K) bsz region fuel {| s_master := s_master y; s_remote := w |}.
Proof.
  intros (qt & qr & qt' & qr' & [Hs Hp Hm Lo Li Hr Ha Hf]) HS Hal Haddr Hlen Hrun Hr0 HK.
  destruct (side_create R _ _ _ addr cb d r _ w K HS Hal Haddr Hlen Hp Hrun Hr0 HK) as (Em & Hal' & n & e & H1 & H2 & H3 & Hs').
  exists n, e. split_and!; try done. exists qt, qr, qt', qr'.
  constructor; cbn [s_master s_remote]; try done. by rewrite Em.
Qed.

End endpoints.

(** ** On a concrete port *)

(** The whole life of two cores, run: both start, the remote is notified, each
    creates an endpoint (30 and 40), the master sends two bytes to the remote,
    the remote's interrupt hands them over. *)
Definition c_hello : option (list event * list Z) :=
  match rpmsg_lite_master_init (el := c_env) (app := c_app) (cfg := default_config) (am := flat_map) c_shared c_length 0 0 None c_cold with
  | Ok m wM =>
    match rpmsg_lite_remote_init (el := c_env) (app := c_app) (cfg := default_config) c_shared 0 0 None (set_mem (λ _, w_mem wM) c_cold),
      rpmsg_lite_create_ept (el := c_env) (cfg := default_config) m 30 (application_rx_cb 0) 0 None wM with
    | Ok r wR, Ok em wM =>
      match rpmsg_lite_create_ept (el := c_env) (cfg := default_config) r 40 (application_rx_cb 0) 7 None wR, w_heap wR !! r, w_heap wM !! m with
      | Ok er wR, Some (OInst iR), Some (OInst iM) =>
        match virtqueue_notification (el := c_env) (rxd := c_dispatch) (cfg := default_config) (am := flat_map) 4 (tvq iR) wR,
          do_api (el := c_env) (rxd := c_dispatch) (out := c_peer_silent) (app := c_app) (cfg := default_config) (am := flat_map)
            4 m iM (ApiSend (0, (em, {| ept_addr := 30; rx_cb := application_rx_cb 0; rx_cb_data := 0 |})) 40 20000 [104; 105]) wM with
        | Ok _ wR, Ok _ wM =>
          match do_api (el := c_env) (rxd := c_dispatch) (out := c_peer_silent) (app := c_app) (cfg := default_config) (am := flat_map)
              4 r iR ApiReceive (set_mem (λ _, w_mem wM) wR) with
          | Ok _ wR => Some (filter is_rx (w_trace wR),
              mjoin ((λ e, match e with EvRxCb _ p l _ _ => load_bytes (w_mem wR) p (Z.to_nat l) | _ => [] end) <$> filter is_rx (w_trace wR)))
          | _ => None
          end
        | _, _ => None
        end
      | _, _, _ => None
      end
    | _, _ => None
    end
  | _ => None
  end.
Example hello : c_hello = Some ([EvRxCb 40 (8352 + 2 * 512 + 16) 2 30 7], [104; 105]).
Proof. vm_compute. reflexivity. Qed.

(** Only the result is computed, not the state. *)
Definition answer {S A} (d : A) (r : outcome S A) : A := match r with Ok a _ => a | _ => d end.
Definition state_or {S A} (s : S) (r : outcome S A) : S := match r with Ok _ s' => s' | _ => s end.
Lemma answer_ok {S A} (d a : A) (s : S) (r : outcome S A) : a ≠ d → answer d r = a → r = Ok a (state_or s r).
Proof. destruct r; cbn; congruence. Qed.

(** The two states after the initialisations. *)
Definition c_booted_m : world (bm sim) := state_or c_cold
  (rpmsg_lite_master_init (el := c_env) (app := c_app) (cfg := default_config) (am := flat_map) c_shared c_length 0 0 None c_cold).
Definition c_cold_r : world (bm sim) := set_mem (λ _, w_mem c_booted_m) c_cold.
Definition c_booted_r : world (bm sim) := state_or c_cold
  (rpmsg_lite_remote_init (el := c_env) (app := c_app) (cfg := default_config) c_shared 0 0 None c_cold_r).

Lemma c_master_boots :
  rpmsg_lite_master_init (el := c_env) (app := c_app) (cfg := default_config) (am := flat_map) c_shared c_length 0 0 None c_cold =
    Ok 10 c_booted_m.
Proof. apply (answer_ok 0); [discriminate|]. vm_compute. reflexivity. Qed.

Lemma c_remote_boots :
  rpmsg_lite_remote_init (el := c_env) (app := c_app) (cfg := default_config) c_shared 0 0 None c_cold_r = Ok 10 c_booted_r.
Proof. apply (answer_ok 0); [discriminate|]. vm_compute. reflexivity. Qed.

Lemma c_cold_r_mem : w_mem c_cold_r = w_mem c_booted_m.
Proof. unfold c_cold_r. generalize c_booted_m. reflexivity. Qed.

Lemma c_startable_r : startable (life := c_life) (cfg := default_config) c_shared c_length 0 c_rc None c_cold_r.
Proof.
  unfold c_cold_r. generalize (w_mem c_booted_m). intros m.
  constructor; [discriminate|apply c_layout_ok|by split| |done|apply c_cold_idle].
  constructor; [reflexivity| |reflexivity]. intros x _. reflexivity.
Qed.

Lemma c_reads_apart : debug_addresses (cfg := default_config) (am := flat_map) c_shared c_rc (w_mem c_booted_m).
Proof. discriminate. Qed.

Lemma c_tx_hook (i : rpmsg_lite_instance) (w : world (bm sim)) :
  el_tx_callback (EnvLayer := c_env) (World.link_id i) (w_env w) = Ok tt (w_env w).
Proof. reflexivity. Qed.

Lemma boot_starts_conversation_witness :
  ∃ i i' w', @virtqueue_notification _ c_env c_dispatch default_config flat_map 0 (tvq i') c_booted_r = Ok tt w' ∧
    @started _ c_env c_laws c_app _ c_env c_laws c_app default_config flat_map
      (bare_core 10 i 496) (bare_core 10 (set_link_state 1 i') 496) 512 (shmem_region c_shared c_length) 2
      {| s_master := c_booted_m; s_remote := w' |}.
Proof.
  destruct (@boot_starts_conversation _ c_env c_laws c_life c_life_laws c_app _ c_env c_laws c_life c_life_laws c_dispatch c_app
    default_config flat_map default_ok c_shared c_length c_rc 0 0 None c_cold 10 c_booted_m 0 0 None c_cold_r 10 c_booted_r 0 2
    c_startable c_config c_mapped c_master_boots ltac:(discriminate) c_startable_r c_remote_config c_cold_r_mem c_remote_boots
    ltac:(discriminate) c_reads_apart ltac:(discriminate)) as (i & i' & _ & _ & Hs).
  destruct (Hs 496 496 (w_env c_booted_r) eq_refl eq_refl (c_tx_hook i' c_booted_r) I) as (w' & R & S).
  exists i, i', w'. exact (conj R S).
Defined.

Lemma bare_well_behaved (region : Z → Prop) dev i lim :
  @well_behaved _ c_env c_laws c_dispatch dev i (c_epts (bare_core (E := bm sim) dev i lim)) region
    (c_cb (bare_core (E := bm sim) dev i lim)).
Proof. constructor; [done|]. intros w x p len src Hx. by apply not_elem_of_nil in Hx. Qed.

(** The two cores just booted: the remote takes its interrupt. *)
Lemma conversation_witness :
  ∃ (i i' : rpmsg_lite_instance) (w' : world (bm sim)),
    @returns default_config flat_map 2 _ c_env c_dispatch c_peer_silent c_app remote_vq_ops (bare_core 10 (set_link_state 1 i') 496) w' ApiReceive.
Proof.
  destruct (@boot_started _ c_env c_laws c_life c_life_laws c_app _ c_env c_laws c_life c_life_laws c_dispatch c_app
    default_config flat_map default_ok c_shared c_length c_rc 0 0 None c_cold 10 c_booted_m 0 0 None c_cold_r 10 c_booted_r 0 2
    c_startable c_config c_mapped c_master_boots ltac:(discriminate) c_startable_r c_remote_config c_cold_r_mem c_remote_boots
    ltac:(discriminate) c_reads_apart ltac:(discriminate)) as (i & i' & _ & _ & Hs).
  destruct (Hs 496 496 (w_env c_booted_r) eq_refl eq_refl (c_tx_hook i' c_booted_r) I) as (w' & _ & S).
  exists i, i', w'.
  destruct (@conversation _ c_env c_laws c_dispatch c_peer_silent c_app _ c_env c_laws c_dispatch c_peer_silent c_app
    default_config flat_map (bare_core 10 i 496) (bare_core 10 (set_link_state 1 i') 496) 512 (shmem_region c_shared c_length) 2
    (bare_well_behaved _ _ _ _) (bare_well_behaved _ _ _ _) _ _ _ _ S (reach_start _ _ _ _ _ _)) as (_ & _ & _ & Hr).
  exact (Hr ApiReceive I).
Defined.
