(* ===== verification/FreeRTOSBoot.v ===== *)
(** * Starting and stopping on FreeRTOS

    [env_init] and [env_deinit] of [rpmsg_env_freertos.c], the interrupt
    services of the platform under its mutex, and the port as an implementation
    of the life-cycle interface of [Startup], so that the theorems on the
    initialisation of an instance hold on it too; waiting for the link through
    the event group. *)

From S2P Require Import Prelude Memory Config VirtioRing Virtqueue Concrete World Lpc55s69 FreeRTOS Llist Endpoint Transport RpmsgLite Init Startup.

(** Execute a program of the port on a concrete state record, up to the next
    call of the kernel. *)
Ltac vrun_fr := cbv [getr mbind mret M_bind M_ret get_state modify set_init_counter set_env_sema set_event_group
  set_isr_table set_fr_lpc set_kernel env_init_counter env_sema event_group isr_table fr_lpc kernel fr_assert
  set_isr_counter set_disable_counter set_platform_lock set_hw
  env_register_isr env_unregister_isr get_lpc upd_lpc port_assert the_lpc put_lpc port_create_mutex
  port_delete_mutex port_lock_mutex port_unlock_mutex port_register_isr port_unregister_isr fr_port
  lpc_isr_counter lpc_disable_counter lpc_lock lpc_hw fst snd].

Section life.
Context {H K : Type} {per : Peripherals H} {fr : FreeRTOS K} {frl : FreeRTOSLaws K} {cfg : Config}.
Implicit Types s : rtos H K.

Definition plock (s : rtos H K) : Z := lpc_lock (fr_lpc s).
Definition masks (s : rtos H K) : Z := lpc_disable_counter (fr_lpc s).
Definition handlers (s : rtos H K) : Z := lpc_isr_counter (fr_lpc s).

(** The port while it is initialised: the semaphore of [env_init], the event
    group and the platform's mutex exist, and nobody holds the semaphores. *)
Record fr_up (s : rtos H K) : Prop := {
  up_counter : 0 < env_init_counter s;
  up_irq : 0 ≤ masks s ∧ 0 ≤ handlers s;
  up_task : k_isr (objs s) = false;
  up_sema : sem_free (env_sema s) (objs s);
  up_plock : sem_free (plock s) (objs s);
  up_differ : env_sema s ≠ plock s;
  up_null : plock s ≠ NULL;
  up_group : is_Some (k_groups (objs s) !! event_group s);
}.

(** Before the first [env_init] there must be room for the two objects whose
    handles it does not check. *)
Definition fr_idle (s : rtos H K) : Prop :=
  fr_up s ∨ env_init_counter s = 0 ∧ 0 ≤ masks s ∧ 0 ≤ handlers s ∧ k_isr (objs s) = false ∧
    (2 ≤ kroom (kernel s))%nat.

Lemma sem_lookup P l v : k_isr v = false → sem_at P l v → is_Some (k_sems v !! l).
Proof. intros Hi [?|(m & c & Hs & _)]; [congruence|by rewrite Hs; eexists]. Qed.

(** A call that changed at most the semaphore [l], the counters and the table
    of handlers keeps the port up. *)
Lemma fr_up_step l s s' :
  fr_up s → sem_step l (objs s) (objs s') →
  (l = env_sema s ∨ l = plock s → sem_free l (objs s')) →
  0 < env_init_counter s' → env_sema s' = env_sema s → plock s' = plock s →
  event_group s' = event_group s → 0 ≤ masks s' → 0 ≤ handlers s' → fr_up s'.
Proof.
  intros [Uc Ui Ut Us Up Ud Un Ug] Hst Hl Ec Es Ep Eg Hm Hh.
  assert (∀ l', (l' = env_sema s ∨ l' = plock s) → sem_free l' (objs s) → sem_free l' (objs s')) as Hkeep.
  { intros l' Hl' Hf. destruct (decide (l' = l)) as [->|Hne]; [by apply Hl|by eapply sem_step_at]. }
  constructor; rewrite ?Es, ?Ep, ?Eg, ?(ss_groups _ _ _ Hst), ?(ss_isr _ _ _ Hst); try done; apply Hkeep; auto.
Qed.

#[global] Instance fr_life : Life (rtos H K) := {|
  env_idle := fr_idle;
  env_up := fr_up;
  masked := masks;
  installed := handlers;
  can_stop _ := ∀ h : H, mailbox_drained h = true;
  vector_ok v := v < RL_PLATFORM_MAX_ISR_COUNT;
|}.

(** ** [env_init] *)

Lemma kcall_run {A} (m : M K A) c es eg tab (p : lpc H) k a k' :
  m k = Ok a k' → kcall m (Build_rtos c es eg tab p k) = Ok a (Build_rtos c es eg tab p k').
Proof. intros Hm. unfold kcall, zoom. cbn. by rewrite Hm. Qed.

(** A call that finds the counter positive only waits for the semaphore. *)
Lemma env_init_again_ok s :
  0 < env_init_counter s → k_isr (objs s) = false → sem_free (env_sema s) (objs s) →
  ∃ k', env_init s = Ok 0 (set_kernel k' (set_init_counter (env_init_counter s + 1) s)) ∧ kview k' = objs s.
Proof.
  intros Uc Ut Us. destruct s as [c es eg tab p k]. unfold objs in *. cbn in *.
  destruct (law_suspend k Ut) as (k1 & R1 & V1 & _).
  destruct (law_resume k1 ltac:(unfold task; by rewrite V1)) as (k2 & R2 & V2 & _).
  destruct Us as [?|(m & t & Hs & Ht)]; [congruence|].
  destruct (law_take k2 es m t portMAX_DELAY) as (k3 & R3 & V3); [unfold task; by rewrite V2, V1|by rewrite V2, V1|lia|].
  assert (k_sems (kview k3) !! es = Some (m, t - 1)) as Hs3 by (rewrite V3; apply lookup_insert_eq).
  destruct (law_give k3 es m (t - 1)) as (k4 & R4 & V4); [unfold task; by rewrite V3, V2, V1|done|lia|].
  exists k4. split.
  - unfold env_init. rewrite (bind_ok _ _ _ _ _ (kcall_run _ _ _ _ _ _ _ _ _ R1)). vrun_fr.
    rewrite (proj2 (Z.leb_le 0 c)), (proj2 (Z.ltb_ge c 0)), (proj2 (Z.eqb_neq (c + 1) 1)) by lia. vrun_fr.
    by rewrite (kcall_run _ _ _ _ _ _ _ _ _ R2), (kcall_run _ _ _ _ _ _ _ _ _ R3), (kcall_run _ _ _ _ _ _ _ _ _ R4).
  - rewrite V4, V3, V2, V1. destruct (kview k) as [ss gg qq i pp tr]. unfold set_sems. cbn in *. f_equal.
    rewrite insert_insert_eq. replace (t - 1 + 1) with t by lia. by apply insert_id.
Qed.

(** The objects of the port itself, and all the others. *)
Definition made (sema grp : Z) (v : kobjs) : kobjs :=
  Build_kobjs (<[sema := (1, 1)]> (k_sems v)) (<[grp := 0]> (k_groups v)) (k_queues v) (k_isr v) (k_pending v) (k_timer_room v).
Definition others (s : rtos H K) : kobjs :=
  set_groups (delete (event_group s)) (set_sems (delete (env_sema s) ∘ delete (plock s)) (objs s)).

(** The first call: its result is that of [platform_init], which fails when its
    mutex cannot be created. *)
Lemma env_init_first_run s :
  env_init_counter s = 0 → k_isr (objs s) = false → (2 ≤ kroom (kernel s))%nat →
  ∃ sema grp mtx k', env_init s = Ok (if mtx =? NULL then -1 else 0)
      (Build_rtos 1 sema grp ∅ (set_platform_lock mtx (set_hw MAILBOX_Init (fr_lpc s))) k') ∧
    k_sems (objs s) !! sema = None ∧ k_groups (objs s) !! grp = None ∧
    (mtx = NULL ∧ (kroom (kernel s) < 3)%nat ∧ kview k' = made sema grp (objs s) ∨
     mtx ≠ NULL ∧ mtx ≠ sema ∧ k_sems (objs s) !! mtx = None ∧
     kview k' = set_sems <[mtx := (RL_ENV_MAX_MUTEX_COUNT, 1)]> (made sema grp (objs s))).
Proof.
  intros Ec Ut Hroom. destruct s as [c es eg tab [ic dc pl h] k]. unfold objs in *. cbn in *. subst c.
  destruct (law_suspend k Ut) as (k1 & R1 & V1 & E1).
  destruct (law_binary k1 ltac:(unfold task; by rewrite V1)) as (sema & k2 & R2 & [(_ & _ & Z2)|(N2 & F2 & V2 & E2)]); [lia|].
  destruct (law_group k2 ltac:(unfold task; by rewrite V2, V1)) as (grp & k3 & R3 & [(_ & _ & Z3)|(N3 & F3 & V3 & E3)]); [lia|].
  destruct (law_clear k3 grp 0 16777215) as (k4 & R4 & V4 & E4);
    [unfold task; by rewrite V3, V2, V1|rewrite V3; apply lookup_insert_eq|].
  rewrite V3, V2, V1 in V4. rewrite V2, V1 in F3. rewrite V1 in F2. clear V1 V2 V3.
  destruct (law_resume k4 ltac:(unfold task; by rewrite V4)) as (k5 & R5 & V5 & E5). rewrite V4 in V5. clear V4.
  destruct (law_counting k5 RL_ENV_MAX_MUTEX_COUNT 1 ltac:(unfold task; by rewrite V5)) as (mtx & k6 & R6 & H6).
  rewrite V5 in H6. clear V5.
  assert (k_isr (kview k6) = false ∧ k_sems (kview k6) !! sema = Some (1, 0)) as (I6 & S6).
  { destruct H6 as [(_ & -> & _)|(_ & F6 & -> & _)]; cbn; (split; [done|]); [apply lookup_insert_eq|].
    cbn in F6. apply lookup_insert_None in F6 as [_ Hne]. rewrite lookup_insert_ne by done. apply lookup_insert_eq. }
  destruct (law_give k6 sema 1 0 I6 S6 ltac:(lia)) as (k7 & R7 & V7).
  exists sema, grp, mtx, k7. split; [|split; [done|split; [done|]]].
  - unfold env_init. rewrite (bind_ok _ _ _ _ _ (kcall_run _ _ _ _ _ _ _ _ _ R1)). vrun_fr.
    change (0 <=? 0) with true. change (0 <? 0) with false. change (0 + 1) with 1. change (1 =? 1) with true. vrun_fr.
    rewrite (kcall_run _ _ _ _ _ _ _ _ _ R2). vrun_fr. rewrite (kcall_run _ _ _ _ _ _ _ _ _ R3). vrun_fr.
    rewrite (kcall_run _ _ _ _ _ _ _ _ _ R4). vrun_fr. rewrite (kcall_run _ _ _ _ _ _ _ _ _ R5). vrun_fr.
    unfold platform_init, env_create_mutex. vrun_fr. change (RL_ENV_MAX_MUTEX_COUNT <? 1) with false. vrun_fr.
    rewrite (kcall_run _ _ _ _ _ _ _ _ _ R6). vrun_fr.
    destruct (mtx =? NULL); cbn [negb]; vrun_fr; cbn [Z.eqb negb]; by rewrite (kcall_run _ _ _ _ _ _ _ _ _ R7).
  - destruct H6 as [(-> & V6 & Z6)|(N6 & F6 & V6 & _)]; [left|right]; (split; [done|]).
    + split; [lia|]. rewrite V7, V6. unfold made, set_sems, set_groups. cbn. by rewrite !insert_insert_eq.
    + cbn in F6. apply lookup_insert_None in F6 as [F6 Hne]. split; [done|]. split; [done|].
      rewrite V7, V6. unfold made, set_sems, set_groups. cbn. rewrite insert_insert_ne by done.
      by rewrite !insert_insert_eq.
Qed.

Lemma env_init_first_ok s :
  env_init_counter s = 0 → 0 ≤ masks s → 0 ≤ handlers s → k_isr (objs s) = false → (2 ≤ kroom (kernel s))%nat →
  ∃ r s', env_init s = Ok r s' ∧ env_init_counter s' = 1 ∧ isr_table s' = ∅ ∧
    masks s' = masks s ∧ handlers s' = handlers s ∧ k_isr (objs s') = false ∧ sem_free (env_sema s') (objs s') ∧
    ((3 ≤ kroom (kernel s))%nat → r = 0) ∧
    (r = 0 ∧ fr_up s' ∧ others s' = objs s ∨ r = -1 ∧ plock s' = NULL).
Proof.
  intros Ec Hm Hh Ut Hroom. destruct (env_init_first_run s Ec Ut Hroom) as (sema & grp & mtx & k' & R & Fs & Fg & Hk).
  eexists _, _. split; [exact R|]. do 4 (split; [done|]).
  destruct Hk as [(-> & Hr & Vk)|(N & D & Fm & Vk)].
  - unfold objs, plock; cbn; rewrite Vk; cbn. split_and!; [done| |lia|by right].
    right. exists 1, 1. cbn. rewrite lookup_insert_eq. split; [done|lia].
  - rewrite (proj2 (Z.eqb_neq mtx NULL) N).
    assert (sem_free sema (kview k')) as Hse.
    { right. exists 1, 1. rewrite Vk. cbn. rewrite lookup_insert_ne, lookup_insert_eq by done. split; [done|lia]. }
    split; [unfold objs; cbn; by rewrite Vk|]. split; [done|]. split; [done|]. left. split; [done|]. split.
    + constructor; unfold plock, objs; cbn; try done; [by rewrite Vk| |].
      * right. exists RL_ENV_MAX_MUTEX_COUNT, 1. rewrite Vk. cbn. rewrite lookup_insert_eq.
        unfold RL_ENV_MAX_MUTEX_COUNT. split; [done|lia].
      * rewrite Vk. cbn. rewrite lookup_insert_eq. by eexists.
    + unfold others, plock, objs, set_sems, set_groups in *. cbn. rewrite Vk. cbn.
      destruct (kview (kernel s)) as [ss gg qq i pp tr]. cbn in *. f_equal; [|by rewrite delete_insert_eq, delete_id].
      rewrite delete_insert_eq. rewrite delete_insert_ne by done. rewrite delete_insert_eq, !delete_id; try done.
      by rewrite delete_id.
Qed.

Lemma env_init_fr s :
  fr_idle s →
  ∃ r s', env_init s = Ok r s' ∧ env_init_counter s' = env_init_counter s + 1 ∧
    (r = 0 → fr_up s' ∧ masks s' = masks s ∧ handlers s' = handlers s).
Proof.
  intros [Hup|(Ec & Hm & Hh & Ut & Hr)].
  - destruct (env_init_again_ok s (up_counter _ Hup) (up_task _ Hup) (up_sema _ Hup)) as (k' & R & V).
    eexists 0, _. split; [exact R|]. split; [done|]. intros _. split; [|done].
    assert (sem_step NULL (objs s) (kview k')) as Hst by (by rewrite V).
    destruct Hup. constructor; unfold objs in *; cbn; rewrite ?V; try done; lia.
  - destruct (env_init_first_ok s Ec Hm Hh Ut Hr) as (r & s' & R & Ec' & _ & Em & Eh & _ & _ & _ & Hres).
    exists r, s'. split; [done|]. split; [lia|]. intros ->. by destruct Hres as [(_ & ? & _)|[? _]].
Qed.

(** ** [env_deinit] *)

Lemma env_deinit_last_ok s :
  fr_up s → env_init_counter s = 1 → mailbox_drained (lpc_hw (fr_lpc s)) = true →
  ∃ s', env_deinit s = Ok 0 s' ∧ env_init_counter s' = 0 ∧ isr_table s' = ∅ ∧ objs s' = others s ∧
    plock s' = NULL ∧ env_sema s' = NULL ∧ event_group s' = NULL ∧ masks s' = masks s ∧ handlers s' = handlers s.
Proof.
  intros [_ _ Ut Us Up Ud Un Ug] Ec Hdr. apply sem_lookup in Us, Up; [|done|done].
  destruct s as [c es eg tab [ic dc pl h] k]. unfold objs, plock in *. cbn in *. subst c.
  destruct (law_suspend k Ut) as (k1 & R1 & V1 & _). rewrite <- V1 in Up.
  destruct (law_sem_delete k1 pl ltac:(unfold task; by rewrite V1) Up) as (k2 & R2 & V2). rewrite V1 in V2.
  destruct (law_group_delete k2 eg ltac:(unfold task; by rewrite V2) ltac:(by rewrite V2)) as (k3 & R3 & V3). rewrite V2 in V3.
  destruct (law_sem_delete k3 es ltac:(unfold task; by rewrite V3)) as (k4 & R4 & V4).
  { rewrite V3. cbn. by rewrite lookup_delete_ne. }
  rewrite V3 in V4. destruct (law_resume k4 ltac:(unfold task; by rewrite V4)) as (k5 & R5 & V5 & _). rewrite V4 in V5.
  eexists. split.
  - unfold env_deinit. rewrite (bind_ok _ _ _ _ _ (kcall_run _ _ _ _ _ _ _ _ _ R1)). vrun_fr.
    change (0 <? 1) with true. change (1 <=? 0) with false. change (1 - 1) with 0. change (0 <=? 0) with true. vrun_fr.
    unfold platform_deinit. vrun_fr. rewrite Hdr. cbn [negb]. unfold env_delete_mutex. vrun_fr.
    rewrite (kcall_run _ _ _ _ _ _ _ _ _ R2). vrun_fr. rewrite (kcall_run _ _ _ _ _ _ _ _ _ R3). vrun_fr.
    rewrite (kcall_run _ _ _ _ _ _ _ _ _ R4). vrun_fr. rewrite (kcall_run _ _ _ _ _ _ _ _ _ R5). vrun_fr. reflexivity.
  - by split_and!.
Qed.

Lemma env_deinit_inner_ok s :
  fr_up s → 1 < env_init_counter s →
  ∃ s', env_deinit s = Ok 0 s' ∧ env_init_counter s' = env_init_counter s - 1 ∧ fr_up s' ∧ others s' = others s.
Proof.
  intros Hup Hc. pose proof Hup as [_ _ Ut _ _ _ _ _]. destruct s as [c es eg tab p k]. unfold objs in *. cbn in *.
  destruct (law_suspend k Ut) as (k1 & R1 & V1 & _).
  destruct (law_resume k1 ltac:(unfold task; by rewrite V1)) as (k2 & R2 & V2 & _). rewrite V1 in V2.
  eexists. split; [|split; [|split]].
  - unfold env_deinit. rewrite (bind_ok _ _ _ _ _ (kcall_run _ _ _ _ _ _ _ _ _ R1)). vrun_fr.
    rewrite (proj2 (Z.ltb_lt 0 c)), (proj2 (Z.leb_gt c 0)), (proj2 (Z.leb_gt (c - 1) 0)) by lia. vrun_fr.
    rewrite (kcall_run _ _ _ _ _ _ _ _ _ R2). vrun_fr. reflexivity.
  - done.
  - destruct Hup. constructor; unfold objs in *; cbn; rewrite ?V2; try done; cbn; lia.
  - unfold others, objs, set_sems, set_groups, plock. cbn. by rewrite V2.
Qed.

(** ** Interrupts *)

(** A call under the platform's mutex that moves the counters. *)
Lemma fr_step k j s s' :
  fr_up s → sem_step (plock s) (objs s) (objs s') → sem_free (plock s) (objs s') →
  env_init_counter s' = env_init_counter s → env_sema s' = env_sema s → plock s' = plock s →
  event_group s' = event_group s → masks s' = masks s + k → handlers s' = handlers s + j →
  0 ≤ masks s + k → 0 ≤ handlers s + j → env_step k j s s'.
Proof.
  intros Hup Hst Hfr Ec Es Ep Eg Em Eh Hm Hh. constructor; try done.
  - destruct Hup. apply (fr_up_step (plock s) s); rewrite ?Ec, ?Em, ?Eh; try done; try lia.
  - intros l [[F1 F2] Hl]. split; [split; [by rewrite Es|by unfold plock in Ep; rewrite Ep]|].
    by eapply sem_step_at.
Qed.

(** The mutex around a change of the port's other variables. *)
Lemma with_plock_ok s :
  fr_up s →
  ∃ k1 k2, (∀ c es eg tab (p : lpc H), env_lock_mutex (plock s) (Build_rtos c es eg tab p (kernel s)) = Ok tt (Build_rtos c es eg tab p k1)) ∧
    (∀ c es eg tab (p : lpc H), env_unlock_mutex (plock s) (Build_rtos c es eg tab p k1) = Ok tt (Build_rtos c es eg tab p k2)) ∧
    sem_step (plock s) (objs s) (kview k2) ∧ sem_free (plock s) (kview k2).
Proof.
  intros Hup. destruct (lock_ok (H := H) (plock s) (kernel s) (up_plock s Hup)) as (k1 & R1 & S1 & M1).
  destruct (unlock_ok (H := H) (plock s) k1 M1) as (k2 & R2 & S2 & F2).
  exists k1, k2. split_and!; [intros; by rewrite R1|intros; by rewrite R2|by eapply sem_step_trans|done].
Qed.

Lemma init_interrupt_ok s v d :
  fr_up s → v < RL_PLATFORM_MAX_ISR_COUNT →
  ∃ s', platform_init_interrupt v d s = Ok 0 s' ∧ env_step 0 1 s s' ∧ isr_table s' = <[v := d]> (isr_table s).
Proof.
  intros Hup Hv. pose proof Hup as [_ [Um Uh] _ _ _ _ Un _].
  destruct (with_plock_ok s Hup) as (k1 & k2 & R1 & R2 & S2 & F2).
  destruct s as [c es eg tab [ic dc pl h] k]. unfold plock, masks, handlers in *. cbn in *.
  assert (∃ h', platform_init_interrupt v d (Build_rtos c es eg tab (Build_lpc ic dc pl h) k) =
    Ok 0 (Build_rtos c es eg (<[v := d]> tab) (Build_lpc (ic + 1) dc pl h') k2)) as [h' ->].
  { unfold platform_init_interrupt. vrun_fr.
    rewrite (proj2 (Z.eqb_neq pl NULL) Un), (proj2 (Z.ltb_lt v _) Hv). cbn [negb]. vrun_fr. rewrite R1.
    vrun_fr. rewrite (proj2 (Z.leb_le 0 ic) Uh). vrun_fr.
    destruct (ic =? 0); vrun_fr; rewrite R2; by eexists. }
  eexists. split; [done|]. split; [|done].
  apply fr_step; unfold plock, masks, handlers; cbn; rewrite ?Z.add_0_r; try done; lia.
Qed.

Lemma deinit_interrupt_ok s v :
  fr_up s → v < RL_PLATFORM_MAX_ISR_COUNT → 0 < handlers s →
  ∃ s', platform_deinit_interrupt v s = Ok 0 s' ∧ env_step 0 (-1) s s' ∧ isr_table s' = <[v := NULL]> (isr_table s).
Proof.
  intros Hup Hv Hpos. pose proof Hup as [_ [Um Uh] _ _ _ _ Un _].
  destruct (with_plock_ok s Hup) as (k1 & k2 & R1 & R2 & S2 & F2).
  destruct s as [c es eg tab [ic dc pl h] k]. unfold plock, masks, handlers in *. cbn in *.
  assert (∃ h', platform_deinit_interrupt v (Build_rtos c es eg tab (Build_lpc ic dc pl h) k) =
    Ok 0 (Build_rtos c es eg (<[v := NULL]> tab) (Build_lpc (ic - 1) dc pl h') k2)) as [h' ->].
  { unfold platform_deinit_interrupt. vrun_fr.
    rewrite (proj2 (Z.eqb_neq pl NULL) Un). cbn [negb]. vrun_fr. rewrite R1.
    vrun_fr. rewrite (proj2 (Z.ltb_lt 0 ic) Hpos). vrun_fr.
    destruct (ic - 1 =? 0); vrun_fr; rewrite (proj2 (Z.ltb_lt v _) Hv); vrun_fr; rewrite R2; by eexists. }
  eexists. split; [done|]. split; [|done].
  apply fr_step; unfold plock, masks, handlers; cbn; rewrite ?Z.add_0_r; try done; lia.
Qed.

(** Masking takes no lock. *)
Lemma fr_lpc_step k p s :
  fr_up s → lpc_lock p = plock s → lpc_disable_counter p = masks s + k → lpc_isr_counter p = handlers s →
  0 ≤ masks s + k → env_step k 0 s (set_fr_lpc p s).
Proof.
  intros Hup El Ed Ei Hm. destruct (up_irq s Hup). pose proof (up_plock s Hup).
  apply fr_step; rewrite ?Z.add_0_r; done.
Qed.

Lemma disable_ok s v : fr_up s → ∃ s', env_disable_interrupt v s = Ok tt s' ∧ env_step 1 0 s s'.
Proof.
  intros Hup. destruct (up_irq s Hup) as [Um Uh]. destruct s as [c es eg tab [ic dc pl h] k].
  unfold env_disable_interrupt, platform_interrupt_disable, masks, handlers in *. cbn in *. vrun_fr.
  rewrite (proj2 (Z.leb_le 0 dc) Um). vrun_fr.
  destruct (dc =? 0); eexists; (split; [reflexivity|]);
    apply (fr_lpc_step 1 (Build_lpc _ _ _ _) _ Hup); unfold masks; cbn; done || lia.
Qed.

Lemma enable_ok s v : fr_up s → 0 < masks s → ∃ s', env_enable_interrupt v s = Ok tt s' ∧ env_step (-1) 0 s s'.
Proof.
  intros Hup Hpos. destruct (up_irq s Hup) as [Um Uh]. destruct s as [c es eg tab [ic dc pl h] k].
  unfold env_enable_interrupt, platform_interrupt_enable, masks, handlers in *. cbn in *. vrun_fr.
  rewrite (proj2 (Z.ltb_lt 0 dc) Hpos). vrun_fr.
  destruct (dc - 1 =? 0); eexists; (split; [reflexivity|]);
    apply (fr_lpc_step (-1) (Build_lpc _ _ _ _) _ Hup); unfold masks; cbn; done || lia.
Qed.

(** ** The life-cycle interface *)

Lemma create_mutex_ok s c :
  fr_up s → 0 < c →
  ∃ st l s', env_create_mutex c s = Ok (st, l) s' ∧
    (st = RL_SUCCESS → l ≠ NULL ∧ env_step 0 0 s s' ∧ lock_free s' l).
Proof.
  intros Hup Hc. unfold env_create_mutex. destruct (Z.ltb_spec RL_ENV_MAX_MUTEX_COUNT c); [by eexists (-1), _, s|].
  pose proof Hup as [Uc [Um Uh] Ut Us Up Ud Un Ug].
  destruct (law_counting (kernel s) RL_ENV_MAX_MUTEX_COUNT c Ut) as (l & k' & R & Hl).
  rewrite (bind_ok _ _ _ _ _ (kcall_ok _ _ _ _ R)).
  destruct (Z.eqb_spec l NULL); cbn [negb]; [by eexists (-1), _, _|].
  destruct Hl as [[? _]|(_ & Fl & V & _)]; [done|].
  eexists 0, _, _. split; [done|]. intros _. split; [done|].
  assert (∀ P l', sem_at P l' (objs s) → sem_at P l' (kview k')) as Hkeep.
  { intros P l' Hs. pose proof (sem_lookup P l' _ Ut Hs) as [? Hx].
    destruct Hs as [?|(m & t & Hs & HP)]; [left; by rewrite V|right]. exists m, t. rewrite V. cbn.
    rewrite lookup_insert_ne; [done|]. intros ->. unfold objs in Hx. congruence. }
  split; [constructor; try done; cbn|].
  - constructor; unfold objs, plock in *; cbn; try done; [by rewrite V|by apply Hkeep|by apply Hkeep|by rewrite V].
  - unfold masks. cbn. lia.
  - unfold handlers. cbn. lia.
  - intros l' [Hf Hs]. split; [exact Hf|by apply Hkeep].
  - split.
    + apply sem_lookup in Us as [? Us], Up as [? Up]; [|done|done]. unfold objs, plock in *.
      split; cbn; intros ->; congruence.
    + right. exists RL_ENV_MAX_MUTEX_COUNT, c. unfold objs. cbn. rewrite V. cbn. by rewrite lookup_insert_eq.
Qed.

#[global] Program Instance fr_life_laws : LifeLaws (rtos H K).
Next Obligation.
  intros s Hidle. destruct (env_init_fr s Hidle) as (r & s' & R & _ & Hr). by exists r, s'.
Qed.
Next Obligation.
  intros s Hup Hdr. destruct (decide (env_init_counter s = 1)) as [E|E].
  - destruct (env_deinit_last_ok s Hup E (Hdr _)) as (s' & R & _). by exists 0, s'.
  - pose proof (up_counter s Hup). destruct (env_deinit_inner_ok s Hup) as (s' & R & _); [lia|]. by exists 0, s'.
Qed.
Next Obligation. intros s p c Hup _ Hc. by apply create_mutex_ok. Qed.
Next Obligation.
  intros s l Hup [[F1 F2] Hl]. pose proof Hup as [Uc [Um Uh] Ut Us Up Ud Un Ug].
  destruct (law_sem_delete (kernel s) l Ut (sem_lookup _ _ _ Ut Hl)) as (k' & R & V).
  eexists. split; [by apply kcall_ok|]. split; [|done].
  assert (∀ P l', l' ≠ l → sem_at P l' (objs s) → sem_at P l' (kview k')) as Hkeep.
  { intros P l' Hne [?|(m & t & Hs & HP)]; [left; by rewrite V|right]. exists m, t. rewrite V. cbn.
    by rewrite lookup_delete_ne. }
  constructor; unfold objs, plock in *; cbn; try done; [by rewrite V|by apply Hkeep|by apply Hkeep|by rewrite V].
Qed.
Next Obligation.
  intros s v d Hup Hv. destruct (init_interrupt_ok s v d Hup Hv) as (s' & R & St & _). cbn.
  rewrite (bind_ok _ _ _ _ _ R). by exists s'.
Qed.
Next Obligation.
  intros s v Hup Hv Hp. destruct (deinit_interrupt_ok s v Hup Hv Hp) as (s' & R & St & _). cbn.
  rewrite (bind_ok _ _ _ _ _ R). by exists s'.
Qed.
Next Obligation. intros s v Hup _. by apply disable_ok. Qed.
Next Obligation. intros s v Hup _ Hp. by apply enable_ok. Qed.
Next Obligation. intros s Hup. apply up_irq, Hup. Qed.

(** ** Histories of calls *)

Lemma others_same s s' :
  env_sema s' = env_sema s → plock s' = plock s → event_group s' = event_group s → objs s' = objs s →
  others s' = others s.
Proof. intros Es Ep Eg Eo. unfold others. by rewrite Es, Ep, Eg, Eo. Qed.

(** [d] deinitialisations short of the last one. *)
Lemma run_nested_ok cs : ∀ s d,
  fr_up s → (∀ h : H, mailbox_drained h = true) → call_depth (env_init_counter s - 1) cs = Some d →
  ∃ s', run_calls cs s = Ok (replicate (length cs) 0) s' ∧ fr_up s' ∧ env_init_counter s' = d + 1 ∧ others s' = others s.
Proof.
  induction cs as [|[] cs IH]; intros s d Hup Hdr Hd; cbn in Hd.
  - injection Hd as <-. exists s. split_and!; try done. lia.
  - destruct (env_init_again_ok s (up_counter _ Hup) (up_task _ Hup) (up_sema _ Hup)) as (k' & R & V).
    destruct (env_init_fr s (or_introl Hup)) as (r & s1 & R1 & Ec & Hr). rewrite R in R1. injection R1 as <- <-.
    destruct (Hr eq_refl) as [Hup1 _]. cbn [run_calls el_init fr_env]. rewrite (bind_ok _ _ _ _ _ R).
    destruct (IH _ d Hup1 Hdr) as (s' & R' & ? & ? & Ho); [by rewrite Ec, Z.add_simpl_r, <- (Z.sub_simpl_r (env_init_counter s) 1)|].
    rewrite (bind_ok _ _ _ _ _ R'). exists s'. split_and!; try done. rewrite Ho. by apply others_same.
  - destruct (Z.ltb_spec 0 (env_init_counter s - 1)); [|done].
    destruct (env_deinit_inner_ok s Hup) as (s1 & R & Ec & Hup1 & Ho1); [lia|].
    cbn [run_calls el_deinit fr_env]. rewrite (bind_ok _ _ _ _ _ R).
    destruct (IH _ d Hup1 Hdr) as (s' & R' & ? & ? & Ho); [by rewrite Ec|].
    rewrite (bind_ok _ _ _ _ _ R'). exists s'. split_and!; try done. by rewrite Ho.
Qed.

End life.

(** ** Waiting for the link *)

Section wait.
Context {H K : Type} {per : Peripherals H} {fr : FreeRTOS K} {frl : FreeRTOSLaws K} {cfg : Config}.
Implicit Types w : world (rtos H K).

(** The event group of the port, with its bits. *)
Definition link_bits (w : world (rtos H K)) : option Z := k_groups (objs (w_env w)) !! event_group (w_env w).
Definition in_a_task (w : world (rtos H K)) : Prop := k_isr (objs (w_env w)) = false.

Lemma clear_ok link b w :
  in_a_task w → link_bits w = Some b →
  ∃ e, with_env (clear_link_event link) w = Ok tt (set_env e w) ∧ in_a_task (set_env e w) ∧
    link_bits (set_env e w) = Some (Z.ldiff b (link_bit link)) ∧ event_group e = event_group (w_env w) ∧
    objs e = set_groups <[event_group (w_env w) := Z.ldiff b (link_bit link)]> (objs (w_env w)).
Proof.
  unfold in_a_task, link_bits. intros Ht Hb.
  destruct (law_clear (kernel (w_env w)) (event_group (w_env w)) b (link_bit link) Ht Hb) as (k' & R & V & _).
  exists (set_kernel k' (w_env w)). split_and!.
  - unfold with_env, zoom, clear_link_event. cbv [getr mbind M_bind get_state]. by rewrite (kcall_ok _ _ _ _ R).
  - unfold objs. cbn. by rewrite V.
  - unfold objs. cbn. rewrite V. apply lookup_insert_eq.
  - done.
  - exact V.
Qed.

Lemma wait_ok link t b w :
  in_a_task w → link_bits w = Some b → ticks t ≠ portMAX_DELAY ∨ Z.land b (link_bit link) = link_bit link →
  ∃ b' e, with_env (wait_for_link_event link t) w = Ok (Z_of_bool (b' =? link_bit link)) (set_env e w) ∧
    in_a_task (set_env e w) ∧ link_bits (set_env e w) = Some b' ∧ (Z.land b (link_bit link) = link_bit link → b' = b).
Proof.
  unfold in_a_task, link_bits. intros Ht Hb Hend.
  destruct (law_wait (kernel (w_env w)) (event_group (w_env w)) b (link_bit link) (ticks t) Ht Hb Hend)
    as (b' & k' & R & V & Vt & Hset).
  exists b', (set_kernel k' (w_env w)). split_and!.
  - unfold with_env, zoom, wait_for_link_event. cbv [getr mbind M_bind get_state]. rewrite (kcall_ok _ _ _ _ R).
    by destruct (b' =? link_bit link).
  - exact Vt.
  - exact V.
  - intros E. by apply Hset.
Qed.

Lemma set_bits_only b x : Z.lor (Z.ldiff b x) x =? x = (Z.ldiff b x =? 0).
Proof.
  destruct (Z.eqb_spec (Z.ldiff b x) 0) as [E|E]; [rewrite E; apply Z.eqb_refl|]. apply Z.eqb_neq. intros E'. apply E.
  assert (Z.ldiff (Z.lor (Z.ldiff b x) x) x = 0) as E2 by (rewrite E'; apply Z.ldiff_diag).
  transitivity (Z.ldiff (Z.lor (Z.ldiff b x) x) x); [|exact E2].
  apply Z.bits_inj'. intros n Hn. rewrite !Z.ldiff_spec, Z.lor_spec, Z.ldiff_spec.
  by destruct (Z.testbit b n), (Z.testbit x n).
Qed.

Lemma lor_land_self b x : Z.land (Z.lor b x) x = x.
Proof. apply Z.bits_inj'. intros n Hn. rewrite Z.land_spec, Z.lor_spec. by destruct (Z.testbit b n), (Z.testbit x n). Qed.

Lemma rpmsg_wait_eq dev timeout w :
  dev ≠ NULL → rpmsg_lite_wait_for_link_up dev timeout w = wait_during (λ _, mret tt) dev (u32 timeout) w.
Proof. intros Hd. unfold rpmsg_lite_wait_for_link_up. by rewrite (proj2 (Z.eqb_neq dev NULL) Hd). Qed.

Lemma skip {A} (k : W (rtos H K) A) w : (mret tt;; k) w = k w.
Proof. done. Qed.

(** [env_wait_for_link_up] on FreeRTOS.  An instance whose link is up is
    reported at once; otherwise the task waits on the link's bit, and the result
    says whether the event group held exactly that bit when the wait ended.
    Nothing of the library's state changes; a NULL instance is refused. *)
Theorem event_wait_result dev timeout i b w :
  w_heap w !! dev = Some (OInst i) → dev ≠ NULL → in_a_task w → link_bits w = Some b →
  link_state i = 1 ∨ ticks (u32 timeout) ≠ portMAX_DELAY →
  rpmsg_lite_wait_for_link_up NULL timeout w = Ok 0 w ∧
  ∃ b' e, rpmsg_lite_wait_for_link_up dev timeout w =
      Ok (Z_of_bool ((link_state i =? 1) || (b' =? link_bit (link_id i)))) (set_env e w) ∧
    link_bits (set_env e w) = Some b' ∧ (link_state i = 1 → b' = Z.ldiff b (link_bit (link_id i))).
Proof.
  intros Hi Hd Ht Hb Hend. split; [done|]. rewrite rpmsg_wait_eq by done. unfold wait_during.
  rewrite skip, (bind_ok _ _ _ _ _ (get_inst_ok dev i w Hi)).
  destruct (clear_ok (link_id i) b w Ht Hb) as (e & R & Ht' & Hb' & _). rewrite (bind_ok _ _ _ _ _ R), skip.
  rewrite (bind_ok _ _ _ _ _ (get_inst_ok dev i (set_env e w) Hi)), skip.
  destruct (Z.eqb_spec (link_state i) 1) as [E|E]; cbn [negb orb].
  - exists (Z.ldiff b (link_bit (link_id i))), e. by split_and!.
  - destruct (wait_ok (link_id i) (u32 timeout) _ _ Ht' Hb') as (b' & e' & R' & _ & Hb2 & _); [left; by destruct Hend|].
    exists b', e'. by split_and!.
Qed.

(** *** A notification meanwhile

    The interrupt of the other core: [virtqueue_notification] on the transmit
    queue [p], in interrupt context. *)
Section meanwhile.
Context {irqs : Interrupts K} {rxd : RxDispatch (rtos H K)} {am : AddrMap}.

Definition upd_kernel (f : K → K) : W (rtos H K) unit := with_env (modify (λ s, set_kernel (f (kernel s)) s)).
Definition notified (fuel : nat) (p : Z) : W (rtos H K) unit :=
  upd_kernel irq_enter;; virtqueue_notification fuel p;; upd_kernel irq_leave.

(** The timer task runs. *)
Definition delivered : W (rtos H K) unit := with_env (kcall timer_task).

(** The interrupt comes at [m]; the timer task runs at [d], or not before the task
    waits. *)
Definition meanwhile (m : moment) (d : option moment) (fuel : nat) (p : Z) (here : moment) : W (rtos H K) unit :=
  (if decide (m = here) then notified fuel p else mret tt);;
  (if decide (d = Some here) then delivered else mret tt).

Definition moment_nat (m : moment) : nat := match m with BeforeClear => 0 | BeforeCheck => 1 | BeforeWait => 2 end.
Definition not_before (m : moment) (d : option moment) : Prop :=
  if d is Some m' then (moment_nat m ≤ moment_nat m')%nat else True.

(** A state of the waiting core: the instance, the transmit queue, the bits; and
    what the timer task has been asked for. *)
Record waiting (p dev : Z) (i : rpmsg_lite_instance) (b : Z) (w : world (rtos H K)) : Prop := {
  wt_inst : w_heap w !! dev = Some (OInst i);
  wt_queue : ∃ q, w_heap w !! p = Some (OVq q) ∧ callback_fc q = Some rpmsg_lite_tx_callback_fc ∧ priv q = dev;
  wt_task : in_a_task w;
  wt_bits : link_bits w = Some b;
}.
Definition pends (l : list Z) (w : world (rtos H K)) : Prop :=
  k_pending (objs (w_env w)) = (λ x, (event_group (w_env w), x)) <$> l ∧
  (0 < k_timer_room (objs (w_env w)) + length l)%nat.

Lemma waiting_env p dev i b b' w e :
  waiting p dev i b w → in_a_task (set_env e w) → link_bits (set_env e w) = Some b' → waiting p dev i b' (set_env e w).
Proof. intros [Hi Hq _ _] Ht Hb. by split. Qed.

Lemma cleared p dev i b l w link :
  waiting p dev i b w → pends l w →
  ∃ w', with_env (clear_link_event link) w = Ok tt w' ∧ waiting p dev i (Z.ldiff b (link_bit link)) w' ∧ pends l w'.
Proof.
  intros Hw Hl. destruct (clear_ok link b w (wt_task _ _ _ _ _ Hw) (wt_bits _ _ _ _ _ Hw)) as (e & R & Ht & Hb & He & Hv).
  eexists. split; [exact R|]. split; [by eapply waiting_env|]. unfold pends. cbn. by rewrite Hv, He.
Qed.

Lemma foldl_set_pended g l gs b :
  gs !! g = Some b → foldl set_pended gs ((λ x, (g, x)) <$> l) !! g = Some (foldl Z.lor b l).
Proof.
  revert gs b. induction l as [|x l IH]; intros gs b Hg; [done|]. cbn. apply IH.
  unfold set_pended. cbn. by rewrite lookup_alter_eq, Hg.
Qed.

Lemma delivered_ok p dev i b l w :
  waiting p dev i b w → pends l w →
  ∃ w', delivered w = Ok tt w' ∧ waiting p dev i (foldl Z.lor b l) w' ∧ pends [] w'.
Proof.
  intros Hw [Hl Hroom]. pose proof Hw as [_ _ Ht Hb]. unfold in_a_task, link_bits in Ht, Hb.
  destruct (law_timer (kernel (w_env w)) Ht) as (k' & R & V).
  assert (objs (set_kernel k' (w_env w)) = run_pending (objs (w_env w))) as Ho by exact V.
  exists (set_env (set_kernel k' (w_env w)) w). split; [|split].
  - unfold delivered, with_env, zoom. by rewrite (kcall_ok _ _ _ _ R).
  - eapply waiting_env; [exact Hw|..]; unfold in_a_task, link_bits; cbn [w_env set_env]; rewrite Ho; cbn; [exact Ht|].
    rewrite Hl. by apply foldl_set_pended.
  - unfold pends. cbn [w_env set_env]. rewrite Ho. cbn. split; [done|]. rewrite Hl, length_fmap. lia.
Qed.

(** The interrupt brings the link up at once, leaves the bits alone and asks the
    timer task for the bit. *)
Lemma notified_ok fuel p dev i b w :
  waiting p dev i b w → pends [] w → p ≠ NULL → dev ≠ NULL →
  ∃ w', notified fuel p w = Ok tt w' ∧ waiting p dev (set_link_state 1 i) b w' ∧ pends [link_bit (link_id i)] w'.
Proof.
  intros [Hi (q & Hq & Hcb & Hpriv) Ht Hb] [Hl Hroom] Hp Hd. unfold in_a_task, link_bits, objs in Ht, Hb, Hl, Hroom.
  set (e1 := set_kernel (irq_enter (kernel (w_env w))) (w_env w)).
  assert (k_groups (kview (kernel e1)) !! event_group e1 = Some b) as Hb1 by (unfold e1; cbn; by rewrite law_enter).
  destruct (law_set_isr (kernel e1) (event_group e1) b (link_bit (link_id i)) Hb1) as (r & k2 & R & V).
  assert (el_tx_callback (link_id i) e1 = Ok tt (set_kernel k2 e1)) as He.
  { cbn. unfold FreeRTOS.env_tx_callback. cbv [getr mbind M_bind get_state]. rewrite (env_in_isr_ok e1).
    assert (k_isr (objs e1) = true) as -> by (unfold objs, e1; cbn; by rewrite law_enter).
    by rewrite (kcall_ok _ _ _ _ R). }
  assert (kview (irq_leave k2) = set_isr false (pend_bits (event_group (w_env w)) (link_bit (link_id i))
    (set_isr true (kview (kernel (w_env w)))))) as Hv by (rewrite law_leave, V; unfold e1; cbn; by rewrite law_enter).
  unfold pend_bits in Hv. cbn in Hv, Hroom. destruct (k_timer_room (kview (kernel (w_env w)))) as [|n]; [lia|].
  eexists. split.
  - unfold notified. rewrite (bind_ok _ _ _ _ (set_env e1 w)) by done.
    rewrite (bind_ok _ _ _ _ _ (tx_notification_ok fuel p q dev i _ (set_env e1 w) Hq Hp Hcb Hpriv Hd Hi He)). reflexivity.
  - assert (dev ≠ p) as Hne by (intros ->; congruence). split; [split|]; unfold pends, in_a_task, link_bits, objs; cbn; rewrite ?Hv; cbn.
    + apply lookup_insert_eq.
    + exists q. by rewrite lookup_insert_ne.
    + done.
    + exact Hb.
    + rewrite Hl. split; [done|lia].
Qed.

(** What the happenings of a gap do. *)
Lemma meanwhile_ok m d fuel p dev i b l w here :
  waiting p dev i b w → pends l w → (m = here → l = []) → p ≠ NULL → dev ≠ NULL →
  let l1 := if decide (m = here) then [link_bit (link_id i)] else l in
  ∃ w', meanwhile m d fuel p here w = Ok tt w' ∧
    waiting p dev (if decide (m = here) then set_link_state 1 i else i)
      (if decide (d = Some here) then foldl Z.lor b l1 else b) w' ∧
    pends (if decide (d = Some here) then [] else l1) w'.
Proof.
  intros Hw Hl Hm Hp Hd. unfold meanwhile. destruct (decide (m = here)) as [Heq|].
  - rewrite (Hm Heq) in Hl. destruct (notified_ok fuel p dev i b w Hw Hl Hp Hd) as (w1 & R & Hw1 & Hl1).
    rewrite (bind_ok _ _ _ _ _ R). destruct (decide (d = Some here)); [by apply delivered_ok|by exists w1].
  - rewrite skip. destruct (decide (d = Some here)); [by apply delivered_ok|by exists w].
Qed.

(** A call on an instance whose link is up answers 1 without waiting. *)
Lemma up_at_once p dev i b w timeout :
  waiting p dev (set_link_state 1 i) b w → dev ≠ NULL → ∃ w', rpmsg_lite_wait_for_link_up dev timeout w = Ok 1 w'.
Proof.
  intros [Hi _ Ht Hb] Hd.
  destruct (event_wait_result dev timeout _ b w Hi Hd Ht Hb) as (_ & b' & e & R & _); [by left|]. by eexists.
Qed.

(** C40.  A notification whose interrupt is handled between any two statements of
    [env_wait_for_link_up] on FreeRTOS is not lost.  The interrupt brings the
    link up at once, while the bit of the event group is only set when the timer
    task runs, which the interrupt has asked for it: in the same gap, in a later
    one, or after the task has begun to wait.  In every such order the call
    returns (with no limit on the wait, when the bit is set before it) and the
    link is up, so every later call answers 1 at once.  This call answers 1 when
    the interrupt came before the link state was read, whenever the bit is set.
    When it came after, the answer is 1 exactly if the event group holds the
    awaited bit and no other when the wait ends: with the bit set before the wait
    there is no waiting, and 0 is answered exactly if the bit of another link is
    set too.  The queue of the timer task has room and no other request in it. *)
Theorem link_event_not_lost m d dev timeout i b p fuel w :
  waiting p dev i b w → pends [] w → link_state i ≠ 1 → p ≠ NULL → dev ≠ NULL → not_before m d →
  (m = BeforeWait → d = None → ticks timeout ≠ portMAX_DELAY) →
  ∃ b' w', wait_during (meanwhile m d fuel p) dev timeout w =
      Ok (Z_of_bool (bool_decide (m ≠ BeforeWait) || (b' =? link_bit (link_id i)))) w' ∧
    waiting p dev (set_link_state 1 i) b' w' ∧
    (m = BeforeWait → d ≠ None →
       b' = Z.lor (Z.ldiff b (link_bit (link_id i))) (link_bit (link_id i)) ∧
       ((b' =? link_bit (link_id i)) = (Z.ldiff b (link_bit (link_id i)) =? 0))) ∧
    ∀ timeout', ∃ w'', rpmsg_lite_wait_for_link_up dev timeout' w' = Ok 1 w''.
Proof.
  intros Hw Hl Hdown Hp Hd Hord Hfin. unfold wait_during.
  set (i1 := if decide (m = BeforeClear) then set_link_state 1 i else i).
  set (i2 := if decide (m = BeforeCheck) then set_link_state 1 i1 else i1).
  set (i3 := if decide (m = BeforeWait) then set_link_state 1 i2 else i2).
  assert (link_id i1 = link_id i ∧ link_id i2 = link_id i) as [L1 L2] by (unfold i2, i1; by destruct m).
  assert (i3 = set_link_state 1 i ∧ negb (link_state i2 =? 1) = bool_decide (m = BeforeWait)) as [E3 E2].
  { unfold i3, i2, i1. apply Z.eqb_neq in Hdown. destruct m; (split; [done|]); [done|done|].
    change (negb (link_state i =? 1) = true). by rewrite Hdown. }
  destruct (meanwhile_ok m d fuel p dev i b _ w BeforeClear Hw Hl) as (w1 & R1 & Hw1 & Hl1); [done..|]. fold i1 in Hw1.
  rewrite (bind_ok _ _ _ _ _ R1), (bind_ok _ _ _ _ _ (get_inst_ok dev i1 w1 (wt_inst _ _ _ _ _ Hw1))), L1.
  destruct (cleared _ _ _ _ _ _ (link_id i) Hw1 Hl1) as (w2 & R2 & Hw2 & Hl2). rewrite (bind_ok _ _ _ _ _ R2).
  destruct (meanwhile_ok m d fuel p dev i1 _ _ w2 BeforeCheck Hw2 Hl2) as (w3 & R3 & Hw3 & Hl3);
    [intros ->; by destruct (decide (d = Some BeforeClear))|done..|]. fold i2 in Hw3.
  rewrite (bind_ok _ _ _ _ _ R3), (bind_ok _ _ _ _ _ (get_inst_ok dev i2 w3 (wt_inst _ _ _ _ _ Hw3))).
  destruct (meanwhile_ok m d fuel p dev i2 _ _ w3 BeforeWait Hw3 Hl3) as (w4 & R4 & Hw4 & _);
    [intros ->; cbn; by repeat case_decide|done..|]. fold i3 in Hw4.
  rewrite (bind_ok _ _ _ _ _ R4), E2, L2. rewrite E3 in Hw4.
  destruct (bool_decide_reflect (m = BeforeWait)) as [Hm|Hm]; cbn [negb orb].
  - assert (∃ b4, waiting p dev (set_link_state 1 i) b4 w4 ∧
      (d ≠ None → b4 = Z.lor (Z.ldiff b (link_bit (link_id i))) (link_bit (link_id i)))) as (b4 & Hw5 & Hb4).
    { eexists. split; [exact Hw4|]. intros Hsome. destruct d as [d|]; [|done]. rewrite Hm in Hord.
      destruct d; cbn in Hord; try lia. subst m. reflexivity. }
    destruct (wait_ok (link_id i) timeout _ w4 (wt_task _ _ _ _ _ Hw5) (wt_bits _ _ _ _ _ Hw5)) as (b' & e & R & Ht & Hb & Hset).
    { destruct d as [d|]; [right|by left; apply Hfin]. rewrite Hb4 by done. apply lor_land_self. }
    eexists b', (set_env e w4). rewrite (bool_decide_eq_false_2 (m ≠ BeforeWait)) by (intros H0; by apply H0).
    pose proof (waiting_env _ _ _ _ _ _ _ Hw5 Ht Hb) as Hw6.
    split_and!; [exact R|exact Hw6| |intros; by eapply up_at_once].
    intros _ Hsome. rewrite (Hb4 Hsome) in Hset. rewrite Hset by apply lor_land_self. split; [done|apply set_bits_only].
  - eexists _, w4. rewrite (bool_decide_eq_true_2 (m ≠ BeforeWait)) by done.
    split_and!; [reflexivity|exact Hw4|done|intros; by eapply up_at_once].
Qed.

End meanwhile.

End wait.

(** ** The theorems on initialisation *)

Section theorems.
Context {H K : Type} {per : Peripherals H} {fr : FreeRTOS K} {frl : FreeRTOSLaws K} {cfg : Config}.
Implicit Types s : rtos H K.

Lemma run_calls_app {E} {el : EnvLayer E} cs1 cs2 (s s1 s2 : E) l1 l2 :
  run_calls cs1 s = Ok l1 s1 → run_calls cs2 s1 = Ok l2 s2 → run_calls (cs1 ++ cs2) s = Ok (l1 ++ l2) s2.
Proof.
  revert s l1. induction cs1 as [|[] cs1 IH]; intros s l1; cbn [run_calls app]; cbv [mbind M_bind mret M_ret].
  - by intros [= <- <-].
  - destruct (el_init s) as [r s0| | |]; try done. destruct (run_calls cs1 s0) as [rs s3| | |] eqn:R; try done.
    intros [= <- <-] R2. by rewrite (IH s0 rs R R2).
  - destruct (el_deinit s) as [r s0| | |]; try done. destruct (run_calls cs1 s0) as [rs s3| | |] eqn:R; try done.
    intros [= <- <-] R2. by rewrite (IH s0 rs R R2).
Qed.

(** Initialising and releasing the environment nest.  From the first
    [env_init] to the [env_deinit] that matches it, with any balanced calls in
    between, every call returns 0; afterwards the kernel objects are exactly
    those from before (the semaphore, the event group and the mutex are
    deleted), the table of handlers is empty, and one more [env_deinit] hangs
    on its assertion. *)
Theorem env_init_deinit_restores s cs :
  env_init_counter s = 0 → 0 ≤ masks s → 0 ≤ handlers s → k_isr (objs s) = false → (3 ≤ kroom (kernel s))%nat →
  (∀ h : H, mailbox_drained h = true) → call_depth 0 cs = Some 0 →
  ∃ s', run_calls (CInit :: cs ++ [CDeinit]) s = Ok (replicate (length cs + 2) 0) s' ∧
    env_init_counter s' = 0 ∧ objs s' = objs s ∧ isr_table s' = ∅ ∧
    ∃ s'', env_deinit s' = Hang s''.
Proof.
  intros Ec Hm Hh Ut Hr Hdr Hcs.
  destruct (env_init_first_ok s Ec Hm Hh Ut ltac:(lia)) as (r & s1 & R1 & Ec1 & _ & _ & _ & _ & _ & Hok & Hres).
  rewrite (Hok Hr) in *. destruct Hres as [(_ & Hup & Ho)|[? _]]; [|done].
  destruct (run_nested_ok cs s1 0 Hup Hdr) as (s2 & R2 & Hup2 & Ec2 & Ho2); [by rewrite Ec1|].
  destruct (env_deinit_last_ok s2 Hup2 Ec2 (Hdr _)) as (s3 & R3 & Ec3 & Ei3 & Eo3 & _).
  assert (objs s3 = objs s) as Eo by (rewrite Eo3, Ho2; exact Ho).
  exists s3. split; [|split_and!; try done].
  - cbn [run_calls el_init fr_env]. rewrite (bind_ok _ _ _ _ _ R1).
    erewrite bind_ok; [|eapply (run_calls_app cs [CDeinit]); [exact R2|]; cbn [run_calls el_deinit fr_env];
      rewrite (bind_ok _ _ _ _ _ R3); reflexivity].
    cbv [mret M_ret]. f_equal. rewrite Nat.add_comm. cbn [replicate Nat.add]. f_equal.
    change [0] with (replicate 1 0). by rewrite <- replicate_add, Nat.add_comm.
  - assert (k_isr (objs s3) = false) as Ut3 by (by rewrite Eo).
    destruct (law_suspend (kernel s3) Ut3) as (k' & R & _). destruct s3. cbn in *. subst.
    unfold env_deinit. rewrite (bind_ok _ _ _ _ _ (kcall_run _ _ _ _ _ _ _ _ _ R)). by eexists.
Qed.

(** A first [env_init] that fails is forgotten.  It fails (-1) only when
    the platform cannot create its mutex; but the call was counted, so the next
    one returns 0 although nothing was repaired: there is still no platform
    mutex, and every installation of a handler fails without effect, an error
    that [env_init_interrupt] does not report. *)
Theorem failed_env_init_forgotten s r s1 :
  env_init_counter s = 0 → 0 ≤ masks s → 0 ≤ handlers s → k_isr (objs s) = false → (2 ≤ kroom (kernel s))%nat →
  env_init s = Ok r s1 →
  r = 0 ∧ fr_up s1 ∨
  r = -1 ∧ ∃ s2, env_init s1 = Ok 0 s2 ∧ plock s2 = NULL ∧
    ∀ v d, platform_init_interrupt v d s2 = Ok (-1) s2 ∧ el_init_interrupt v d s2 = Ok tt s2.
Proof.
  intros Ec Hm Hh Ut Hr R.
  destruct (env_init_first_ok s Ec Hm Hh Ut Hr) as (r' & s' & R1 & Ec1 & _ & _ & _ & Ut1 & Us1 & _ & Hres).
  rewrite R in R1. injection R1 as <- <-. destruct Hres as [(-> & Hup & _)|[-> Hp]]; [by left|right]. split; [done|].
  destruct (env_init_again_ok s1 ltac:(lia) Ut1 Us1) as (k' & R2 & V). eexists. split; [exact R2|].
  assert (plock (set_kernel k' (set_init_counter (env_init_counter s1 + 1) s1)) = NULL) as Hp2 by exact Hp.
  split; [exact Hp2|]. intros v d.
  assert (∀ s0 : rtos H K, plock s0 = NULL → platform_init_interrupt v d s0 = Ok (-1) s0) as Hno.
  { intros [c es eg tab p k]. unfold plock, platform_init_interrupt. cbn. vrun_fr. by intros ->. }
  cbn [el_init_interrupt fr_env]. rewrite (bind_ok _ _ _ _ _ (Hno _ Hp2)). by rewrite (Hno _ Hp2).
Qed.

End theorems.

(** ** The theorems on the simulated kernel *)

Definition no_objs : kobjs := {| k_sems := ∅; k_groups := ∅; k_queues := ∅; k_isr := false; k_pending := []; k_timer_room := 10 |}.
Definition fr_start (room : nat) : rtos sim sim_kernel :=
  {| env_init_counter := 0; env_sema := NULL; event_group := NULL; isr_table := ∅;
     fr_lpc := {| lpc_isr_counter := 0; lpc_disable_counter := 0; lpc_lock := NULL;
                  lpc_hw := {| sim_irq := true; sim_bits := 0 |} |};
     kernel := {| sk_objs := no_objs; sk_room := room; sk_coming := [] |} |}.

(** Link 1 is up already; link 0 comes up while the task waits for it. *)
Definition fr_link_inst : rpmsg_lite_instance :=
  {| rvq := 20; tvq := 21; rl_endpoints := 0; lock := 4; link_state := 0; sh_mem_base := 8192;
     sh_mem_remaining := 0; sh_mem_total := 4; vq_ops := Some remote_vq_ops; link_id := 0 |}.
Definition fr_tvq : virtqueue :=
  set_priv (virtqueue_setup (cfg := default_config) 0 [] c_alloc (Some rpmsg_lite_tx_callback_fc) (Some virtqueue_notify_fc)) 1.
Definition fr_waiting (bits : Z) (coming : list Z) : world (rtos sim sim_kernel) :=
  Build_world ∅ {[ 1 := OInst fr_link_inst; 21 := OVq fr_tvq ]} 30 [] 0
    {| env_init_counter := 1; env_sema := 5; event_group := 6; isr_table := ∅;
       fr_lpc := {| lpc_isr_counter := 2; lpc_disable_counter := 0; lpc_lock := 7;
                    lpc_hw := {| sim_irq := true; sim_bits := 0 |} |};
       kernel := {| sk_objs := {| k_sems := ∅; k_groups := {[ 6 := bits ]}; k_queues := ∅; k_isr := false; k_pending := []; k_timer_room := 10 |};
                    sk_room := 0; sk_coming := coming |} |} [].
Definition fr_dispatch : RxDispatch (rtos sim sim_kernel) := {| call_rx_cb _ _ _ _ _ := mret RL_RELEASE |}.

(** The call returns 0 in this state although the awaited bit was set. *)
Example fr_wait_other_link :
  match @rpmsg_lite_wait_for_link_up sim sim_kernel _ 1 100 (fr_waiting 2 [1]) with
  | Ok r w' => r = 0 ∧ link_bits w' = Some 3
  | _ => False
  end.
Proof. by vm_compute. Qed.

Lemma event_wait_result_witness :
  ∃ b' e, @rpmsg_lite_wait_for_link_up sim sim_kernel _ 1 100 (fr_waiting 0 [1]) =
    Ok (Z_of_bool (b' =? 1)) (set_env e (fr_waiting 0 [1])) ∧ link_bits (set_env e (fr_waiting 0 [1])) = Some b'.
Proof.
  destruct (@event_wait_result sim sim_kernel _ _ 1 100 fr_link_inst 0 (fr_waiting 0 [1]))
    as (_ & b' & e & Hrun & Hb & _); [reflexivity|discriminate|reflexivity|reflexivity|right; discriminate|].
  exists b', e. exact (conj Hrun Hb).
Defined.

Lemma fr_waiting_ok bits coming : waiting 21 1 fr_link_inst bits (fr_waiting bits coming).
Proof. split; [done|by exists fr_tvq|done|done]. Qed.
Lemma fr_waiting_pends bits coming : pends [] (fr_waiting bits coming).
Proof. split; [done|]. cbn. lia. Qed.

(** Link 1 is up too: 0 is returned although the bit was set before the wait. *)
Lemma link_event_not_lost_witness :
  ∃ w', @wait_during sim sim_kernel _
      (meanwhile (cfg := default_config) (rxd := fr_dispatch) (am := flat_map) BeforeWait (Some BeforeWait) 1 21)
      1 100 (fr_waiting 2 []) = Ok 0 w' ∧
    w_heap w' !! 1 = Some (OInst (set_link_state 1 fr_link_inst)).
Proof.
  destruct (@link_event_not_lost sim sim_kernel _ _ _ default_config _ fr_dispatch flat_map BeforeWait (Some BeforeWait)
    1 100 fr_link_inst 2 21 1 (fr_waiting 2 [])) as (b' & w' & R & Hw & Hb & _);
    [apply fr_waiting_ok|apply fr_waiting_pends|discriminate|discriminate|discriminate|apply le_n|discriminate|].
  destruct (Hb eq_refl ltac:(discriminate)) as [-> _]. exists w'. exact (conj R (wt_inst _ _ _ _ _ Hw)).
Defined.

(** The timer task does not run in time: 0 is returned although the interrupt
    came before the wait. *)
Example link_event_late :
  match @wait_during sim sim_kernel _
      (meanwhile (cfg := default_config) (rxd := fr_dispatch) (am := flat_map) BeforeWait None 1 21)
      1 0 (fr_waiting 0 []) with
  | Ok r w' => r = 0 ∧ link_bits w' = Some 0
  | _ => False
  end.
Proof. by vm_compute. Qed.

Lemma env_init_deinit_restores_witness :
  ∃ s', @run_calls _ (@fr_env sim sim_kernel _ _ default_config) [CInit; CInit; CDeinit; CDeinit] (fr_start 3) =
    Ok [0; 0; 0; 0] s' ∧ objs s' = no_objs.
Proof.
  destruct (@env_init_deinit_restores sim sim_kernel _ _ _ default_config (fr_start 3) [CInit; CDeinit])
    as (s' & Hrun & _ & Ho & _); [reflexivity|discriminate|discriminate|reflexivity|apply le_n|reflexivity|reflexivity|].
  exists s'. exact (conj Hrun Ho).
Defined.

Lemma fr_first_fails : ∃ s1, @env_init sim sim_kernel _ _ default_config (fr_start 2) = Ok (-1) s1.
Proof. eexists. vm_compute. reflexivity. Qed.

Lemma failed_env_init_forgotten_witness :
  ∃ s1 s2, @env_init sim sim_kernel _ _ default_config (fr_start 2) = Ok (-1) s1 ∧
    @env_init sim sim_kernel _ _ default_config s1 = Ok 0 s2 ∧ plock s2 = NULL.
Proof.
  destruct fr_first_fails as [s1 R]. exists s1.
  destruct (@failed_env_init_forgotten sim sim_kernel _ _ _ default_config (fr_start 2) (-1) s1)
    as [[? _]|(_ & s2 & R2 & Hp & _)];
    [reflexivity|discriminate|discriminate|reflexivity|apply le_n|exact R|discriminate|].
  exists s2. exact (conj R (conj R2 Hp)).
Defined.
