(* ===== verification/Platform.v ===== *)
(** * Platforms: vocabulary

    The platform layer ([porting/platform/*/rpmsg_platform.c]) connects the
    library to one chip: it installs and masks the interrupt of the peer, rings
    the peer, and calls [env_isr] when the peer rings.  What it calls itself (the
    environment layer above, the drivers of the chip below) answers through the
    parameter [Board] and is recorded in a log, newest first; what the calls
    mean for the chip is read off the log ([irq_on], [mu_sources]).  Peripherals
    and interrupt lines are named by the symbols of the source, and different
    symbols stand for different ones.  The routines here are the shapes that
    recur in the files of several platforms. *)

From S2P Require Import Prelude Config.
From stdpp Require Export strings functions.

#[global] Open Scope Z_scope.

(** ** Calls *)

Inductive action : Type :=
(* the environment layer *)
| ARegister (v d : Z) | AUnregister (v : Z) | AIsr (v : Z)
| ACreateMutex | ADeleteMutex (l : Z) | ALock (l : Z) | AUnlock (l : Z)
(* [cpsid i] and [cpsie i] *)
| AMask | AUnmask
(* the interrupt controller *)
| AIrqOn (irq : string) | AIrqOff (irq : string) | AIrqPriority (irq : string) (prio : Z)
(* the messaging unit ([fsl_mu.h]) *)
| AMuInit (mu : string) | AMuDeinit (mu : string) | AMuOn (mu : string) (m : Z) | AMuOff (mu : string) (m : Z)
| ARxOn (mu : string) (ch : Z) | ARxOff (mu : string) (ch : Z)
| AMuSend (mu : string) (ch msg : Z) | AMuTrigger (mu : string) (m : Z) | AMuClear (mu : string) (m : Z)
(* the mailbox ([fsl_mailbox.h]) *)
| AMailboxSet (cpu : string) (m : Z) | AMailboxClear (cpu : string) (m : Z)
(* the inter-processor mailbox of Zephyr ([ipm.h]) *)
| AIpmSend (id data : Z)
(* the multicore manager ([mcmgr.h]), and any other driver *)
| AEvent (core : string) (data : Z) | ACall (f : string) (args : list Z).

(** What the calls answer, given the log so far, and constants of the drivers.
    [cortex_m4_m7] is the condition of the preprocessor around the barrier that
    ends a handler; [MCMGR_RegisterEvent] tells whether the registration
    succeeds, [mailbox_drains] whether the peer empties a mailbox that is polled
    until it is empty, [ipm_polls] how long a loop that polls a busy device is
    followed, [vectactive] is [SCB->ICSR & SCB_ICSR_VECTACTIVE_Msk]. *)
Class Board : Type := {
  RL_USE_MCMGR_IPC_ISR_HANDLER : bool;
  cortex_m4_m7 : bool;
  env_create_mutex : list action → Z * Z;
  MCMGR_RegisterEvent : list action → bool;
  MU_GetStatusFlags : string → list action → Z;
  MU_ReceiveMsgNonBlocking : string → Z → list action → Z;
  MU_TryReceiveMsg : string → Z → list action → option Z;
  MAILBOX_GetValue : string → list action → Z;
  mailbox_drains : string → list action → bool;
  ipm_send : list action → Z;
  EBUSY : Z;
  ipm_polls : nat;
  device_get_binding : list action → Z;
  SystemCoreClock : list action → Z;
  vectactive : list action → Z;
  k_is_in_isr : list action → Z;
  xthal_get_interrupt : list action → Z;
  xthal_get_intenable : list action → Z;
  DEVICE_DT_GET : Z;
  kMU_Rx0FullFlag : Z;
  kMU_Rx0FullInterruptEnable : Z;
  kMU_GenInt0Flag : Z;
  kMU_GenInt1Flag : Z;
  MU_GI_INTR : Z → Z;
}.

(** The static variables of a platform file: the counters ([isr_counter] is
    [isr_counter 0], [isr_counter1] is [isr_counter 1], ...), the lock, the device
    of Zephyr, and the log. *)
Record platform_state : Type := {
  isr_counter : nat → Z;
  disable_counter : nat → Z;
  platform_lock : Z;
  ipm_handle : Z;
  log : list action;
}.
Abbreviation P := (M platform_state).

Definition boot_state : platform_state :=
  {| isr_counter := λ _, 0; disable_counter := λ _, 0; platform_lock := NULL; ipm_handle := NULL; log := [] |}.

Definition set_isr_counter (k : nat) (x : Z) (s : platform_state) : platform_state :=
  {| isr_counter := <[k := x]> (isr_counter s); disable_counter := disable_counter s;
     platform_lock := platform_lock s; ipm_handle := ipm_handle s; log := log s |}.
Definition set_disable_counter (k : nat) (x : Z) (s : platform_state) : platform_state :=
  {| isr_counter := isr_counter s; disable_counter := <[k := x]> (disable_counter s);
     platform_lock := platform_lock s; ipm_handle := ipm_handle s; log := log s |}.
Definition set_platform_lock (l : Z) (s : platform_state) : platform_state :=
  {| isr_counter := isr_counter s; disable_counter := disable_counter s; platform_lock := l; ipm_handle := ipm_handle s; log := log s |}.
Definition set_ipm_handle (h : Z) (s : platform_state) : platform_state :=
  {| isr_counter := isr_counter s; disable_counter := disable_counter s;
     platform_lock := platform_lock s; ipm_handle := h; log := log s |}.
Definition put_log (f : list action → list action) (s : platform_state) : platform_state :=
  {| isr_counter := isr_counter s; disable_counter := disable_counter s;
     platform_lock := platform_lock s; ipm_handle := ipm_handle s; log := f (log s) |}.

Definition act (a : action) : P unit := modify (put_log (cons a)).
Definition acts (l : list action) : P unit := modify (put_log (λ t, rev l ++ t)).
Definition RL_ASSERT (b : bool) : P unit := if b then mret tt else hang.

(** ** Vector ids *)

(** [RL_GET_COM_ID], [RL_GEN_LINK_ID] and [RL_GEN_MU_MSG] of the headers with
    several channels: three bits of a vector number the queues of one channel,
    and only these are sent. *)
Definition RL_GET_COM_ID (vq_id : Z) : Z := Z.shiftr vq_id 3.
Definition RL_GEN_LINK_ID (com_id vring_id : Z) : Z := Z.lor (Z.shiftl com_id 2) vring_id.
Definition RL_GEN_MU_MSG (vq_id : Z) : Z := u32 (Z.shiftl (Z.land vq_id 7) 16).
Definition RPMSG_MU_CHANNEL : Z := 1.

(** ** The shapes *)

Section shapes.
Context {b : Board}.

Definition lock_platform : P unit := s ← get_state; act (ALock (platform_lock s)).
Definition unlock_platform : P unit := s ← get_state; act (AUnlock (platform_lock s)).

(** The [switch] on the channel of a vector; no case, no effect. *)
Fixpoint com_case (vector_id : Z) (cases : list (Z * P unit)) : P unit :=
  match cases with
  | [] => mret tt
  | (com, m) :: cases' => if RL_GET_COM_ID vector_id =? com then m else com_case vector_id cases'
  end.

(** The last step of [platform_init]. *)
Definition create_platform_lock : P Z :=
  s ← get_state;
  act ACreateMutex;;
  let '(status, l) := env_create_mutex (log s) in
  modify (set_platform_lock l);;
  if negb (status =? 0) then mret (-1) else mret 0.
Definition delete_platform_lock : P Z :=
  s ← get_state;
  act (ADeleteMutex (platform_lock s));;
  modify (set_platform_lock NULL);;
  mret 0.

(** [platform_init_interrupt], [platform_deinit_interrupt] around the work on
    the counter of handlers; [when_locked]: the variant that first checks that
    the lock exists. *)
Definition when_locked (m : P Z) : P Z :=
  s ← get_state; if negb (platform_lock s =? NULL) then m else mret (-1).
Definition install (vector_id isr_data : Z) (work : P unit) : P Z :=
  act (ARegister vector_id isr_data);; lock_platform;; work;; unlock_platform;; mret 0.
Definition uninstall (vector_id : Z) (work : P unit) : P Z :=
  lock_platform;; work;; act (AUnregister vector_id);; unlock_platform;; mret 0.

(** Counting handlers: the source is switched on before the count goes up, and
    off after it has gone down, when the count passes the test. *)
Definition count_up (k : nat) (test : Z → bool) (on : P unit) : P unit :=
  s ← get_state;
  RL_ASSERT (0 <=? isr_counter s k);;
  (if test (isr_counter s k) then on else mret tt);;
  modify (set_isr_counter k (isr_counter s k + 1)).
Definition count_down (k : nat) (test : Z → bool) (off : P unit) : P unit :=
  s ← get_state;
  RL_ASSERT (0 <? isr_counter s k);;
  modify (set_isr_counter k (isr_counter s k - 1));;
  (if test (isr_counter s k - 1) then off else mret tt).
Definition first (c : Z) : bool := c =? 0.
Definition below_two (c : Z) : bool := c <? 2.

(** Masking: the interrupt line is switched off by the outermost call and on
    by the last one. *)
Definition unmask_count (k : nat) (on : P unit) : P unit :=
  s ← get_state;
  modify (set_disable_counter k (disable_counter s k - 1));;
  (if disable_counter s k - 1 =? 0 then on else mret tt).
Definition mask_count (k : nat) (off : P unit) : P unit :=
  s ← get_state;
  (if disable_counter s k =? 0 then off else mret tt);;
  modify (set_disable_counter k (disable_counter s k + 1)).
(** The variant of several files that counts before it tests. *)
Definition mask_count_late (k : nat) (off : P unit) : P unit :=
  s ← get_state;
  modify (set_disable_counter k (disable_counter s k + 1));;
  (if disable_counter s k + 1 =? 0 then off else mret tt).
Definition assert_masked (k : nat) : P unit := s ← get_state; RL_ASSERT (0 <? disable_counter s k).
Definition assert_mask_ok (k : nat) : P unit := s ← get_state; RL_ASSERT (0 <=? disable_counter s k).

(** With one line: the assertion comes before interrupts are off. *)
Definition enable_one (on : P unit) : P Z :=
  assert_masked 0;; act AMask;; unmask_count 0 on;; act AUnmask;; mret 0.
Definition disable_one (off : P unit) : P Z :=
  assert_mask_ok 0;; act AMask;; mask_count 0 off;; act AUnmask;; mret 0.

(** On the Xtensa cores: the line is switched at every call. *)
Definition enable_always (on : P unit) : P Z :=
  assert_masked 0;; on;;
  s ← get_state; modify (set_disable_counter 0 (disable_counter s 0 - 1));; mret 0.
Definition disable_always (off : P unit) : P Z :=
  assert_mask_ok 0;; off;;
  s ← get_state; modify (set_disable_counter 0 (disable_counter s 0 + 1));; mret 0.

(** With one line per channel: the counter of each channel, and its line if it
    has one on this core. *)
Definition switch (f : string → action) (irq : option string) : P unit :=
  match irq with Some i => act (f i) | None => mret tt end.
Definition enable_com (vector_id : Z) (lines : list (Z * nat * option string)) : P Z :=
  act AMask;;
  com_case vector_id ((λ '(com, k, irq), (com, assert_masked k;; unmask_count k (switch AIrqOn irq))) <$> lines);;
  act AUnmask;; mret 0.
Definition disable_com (vector_id : Z) (lines : list (Z * nat * option string)) : P Z :=
  act AMask;;
  com_case vector_id ((λ '(com, k, irq), (com, assert_mask_ok k;; mask_count k (switch AIrqOff irq))) <$> lines);;
  act AUnmask;; mret 0.
Definition disable_com_late (vector_id : Z) (lines : list (Z * nat * option string)) : P Z :=
  act AMask;;
  com_case vector_id ((λ '(com, k, irq), (com, assert_mask_ok k;; mask_count_late k (switch AIrqOff irq))) <$> lines);;
  act AUnmask;; mret 0.

(** [platform_notify]: one action under the lock. *)
Definition notify_locked (m : P unit) : P unit := lock_platform;; m;; unlock_platform.

(** A handler that decodes a message of the peer. *)
Definition on_message (mu : string) (full : Z) (decode : Z → Z) : P unit :=
  s ← get_state;
  if negb (Z.land full (MU_GetStatusFlags mu (log s)) =? 0) then
    act (AIsr (decode (MU_ReceiveMsgNonBlocking mu RPMSG_MU_CHANNEL (log s))))
  else mret tt.

(** A handler of the two general-purpose interrupts of a messaging unit, for
    the two vectors of a link. *)
Definition on_flags (mu : string) (v0 v1 : Z) : P unit :=
  s ← get_state;
  let flags := MU_GetStatusFlags mu (log s) in
  (if negb (Z.land kMU_GenInt0Flag flags =? 0) then act (AMuClear mu kMU_GenInt0Flag);; act (AIsr v0) else mret tt);;
  (if negb (Z.land kMU_GenInt1Flag flags =? 0) then act (AMuClear mu kMU_GenInt1Flag);; act (AIsr v1) else mret tt).

(** [mcmgr_event_handler]. *)
Definition on_event (vring_idx : Z) : P unit := act (AIsr (u32 vring_idx)).

(** Registration with the multicore manager, which fails the initialisation. *)
Definition register_event (m : P Z) : P Z :=
  act (ACall "MCMGR_RegisterEvent" []);;
  s ← get_state; if MCMGR_RegisterEvent (log s) then m else mret (-1).

(** The busy waits: for the mailbox to be empty, for the device to be free. *)
Definition await_mailbox (cpu : string) : P unit :=
  s ← get_state; if mailbox_drains cpu (log s) then mret tt else hang.
Fixpoint ipm_send_while_busy (fuel : nat) (id data : Z) : P unit :=
  match fuel with
  | O => hang
  | S fuel' =>
      s ← get_state;
      act (AIpmSend id data);;
      if ipm_send (log s) =? EBUSY then ipm_send_while_busy fuel' id data else mret tt
  end.

(** The handler of a mailbox: the value is read once. *)
Definition on_mailbox (cpu : string) : P unit :=
  s ← get_state;
  let value := MAILBOX_GetValue cpu (log s) in
  (if negb (Z.land value 1 =? 0) then act (AMailboxClear cpu 1);; act (AIsr 0) else mret tt);;
  (if negb (Z.land value 2 =? 0) then act (AMailboxClear cpu 2);; act (AIsr 1) else mret tt).

(** The barrier at the end of a handler on Cortex-M4 and Cortex-M7. *)
Definition dsb : P unit := if cortex_m4_m7 then act (ACall "__DSB" []) else mret tt.

End shapes.

(** ** What a log means *)

(** Whether an interrupt line is enabled, after [init]. *)
Fixpoint irq_on (init : bool) (irq : string) (t : list action) : bool :=
  match t with
  | [] => init
  | AIrqOn i :: t' => if String.eqb i irq then true else irq_on init irq t'
  | AIrqOff i :: t' => if String.eqb i irq then false else irq_on init irq t'
  | _ :: t' => irq_on init irq t'
  end.

(** The interrupt sources of a messaging unit that are enabled. *)
Fixpoint mu_sources (mu : string) (t : list action) : Z :=
  match t with
  | [] => 0
  | AMuOn u m :: t' => if String.eqb u mu then Z.lor (mu_sources mu t') m else mu_sources mu t'
  | AMuOff u m :: t' => if String.eqb u mu then Z.ldiff (mu_sources mu t') m else mu_sources mu t'
  | ARxOn u ch :: t' => if String.eqb u mu then Z.setbit (mu_sources mu t') ch else mu_sources mu t'
  | ARxOff u ch :: t' => if String.eqb u mu then Z.clearbit (mu_sources mu t') ch else mu_sources mu t'
  | _ :: t' => mu_sources mu t'
  end.

(** The vectors handed to the environment layer, oldest first. *)
Fixpoint isr_calls (t : list action) : list Z :=
  match t with
  | [] => []
  | AIsr v :: t' => isr_calls t' ++ [v]
  | _ :: t' => isr_calls t'
  end.

(** ** Arithmetic of vector ids *)

(** Fields side by side: [or] is addition. *)
Lemma lor_shiftl_add a k v : 0 ≤ k → 0 ≤ v < 2 ^ k → Z.lor (Z.shiftl a k) v = a * 2 ^ k + v.
Proof.
  intros Hk Hv. rewrite Z.shiftl_mul_pow2 by done.
  assert (Z.land (a * 2 ^ k) v = 0) as H0.
  { apply Z.bits_inj'. intros i Hi. rewrite Z.land_spec, Z.bits_0.
    destruct (Z.lt_ge_cases i k); [by rewrite Z.mul_pow2_bits_low by lia|].
    rewrite <- (Z.mod_small v (2 ^ k)), Z.mod_pow2_bits_high, andb_false_r by lia. done. }
  rewrite <- Z.lxor_lor, <- Z.add_nocarry_lxor; done.
Qed.

Lemma RL_GEN_LINK_ID_val com vring_id : 0 ≤ vring_id < 4 → RL_GEN_LINK_ID com vring_id = 4 * com + vring_id.
Proof. intros Hv. unfold RL_GEN_LINK_ID. rewrite lor_shiftl_add by lia. lia. Qed.

Lemma RL_GET_COM_ID_val v : RL_GET_COM_ID v = v / 8.
Proof. unfold RL_GET_COM_ID. by rewrite Z.shiftr_div_pow2. Qed.

(** ** A board on which everything answers

    Without the multicore manager; the messaging unit [mu] of this core has
    received what [board_in mu] says: the status flags and the message. *)
Definition c_board (board_in : string → Z * Z) : Board := {|
  RL_USE_MCMGR_IPC_ISR_HANDLER := false;
  cortex_m4_m7 := true;
  env_create_mutex := λ _, (0, 4);
  MCMGR_RegisterEvent := λ _, true;
  MU_GetStatusFlags := λ mu _, (board_in mu).1;
  MU_ReceiveMsgNonBlocking := λ mu _ _, (board_in mu).2;
  MU_TryReceiveMsg := λ mu _ _, Some (board_in mu).2;
  MAILBOX_GetValue := λ cpu _, (board_in cpu).1;
  mailbox_drains := λ _ _, true;
  ipm_send := λ _, 0;
  EBUSY := 16;
  ipm_polls := 1;
  device_get_binding := λ _, 64;
  DEVICE_DT_GET := 64;
  SystemCoreClock := λ _, 150000000;
  vectactive := λ _, 0;
  k_is_in_isr := λ _, 0;
  xthal_get_interrupt := λ _, 0;
  xthal_get_intenable := λ _, 0;
  kMU_Rx0FullFlag := 2 ^ 27;
  kMU_Rx0FullInterruptEnable := 2 ^ 27;
  kMU_GenInt0Flag := 2 ^ 31;
  kMU_GenInt1Flag := 2 ^ 30;
  MU_GI_INTR := λ m, m;
|}.
Definition quiet_board : Board := c_board (λ _, (0, 0)).
