(* ===== verification/MessagePlatforms.v ===== *)
(** * Platforms that send messages

    The platforms on which [platform_notify] sends the vector as a message of
    the messaging unit: one channel (i.MX 6, 7, 8M, 8QXP, 8DXL), or several that
    are told apart by the channel bits of a vector (i.MX 8QM, 8ULP, 93, 943, 95).
    On the two cores of i.MX 8QM the names of the peripherals differ ([core1]). *)

From S2P Require Import Prelude Config Platform.

Section message_platforms.
Context {b : Board}.

(** [(1UL << 27U) >> RPMSG_MU_CHANNEL]: the receive interrupt of the channel in
    the older messaging units. *)
Definition rx27 : Z := Z.shiftr (Z.shiftl 1 27) RPMSG_MU_CHANNEL.
(** [kMU_Rx0FullInterruptEnable << RPMSG_MU_CHANNEL], [kMU_Rx0FullFlag << RPMSG_MU_CHANNEL]. *)
Definition rx_full_interrupt : Z := Z.shiftl kMU_Rx0FullInterruptEnable RPMSG_MU_CHANNEL.
Definition rx_full_flag : Z := Z.shiftl kMU_Rx0FullFlag RPMSG_MU_CHANNEL.

(** The cases of the platforms with several channels: a channel, the index of
    its counters, and the messaging unit. *)
Definition install_com (vector_id isr_data : Z) (mask : Z) (mus : list (Z * nat * string)) : P Z :=
  install vector_id isr_data
    (com_case vector_id ((λ '(com, k, mu), (com, count_up k first (act (AMuOn mu mask)))) <$> mus)).
Definition uninstall_com (vector_id : Z) (mask : Z) (mus : list (Z * nat * string)) : P Z :=
  uninstall vector_id
    (com_case vector_id ((λ '(com, k, mu), (com, count_down k first (act (AMuOff mu mask)))) <$> mus)).
Definition notify_com (vector_id : Z) (mus : list (Z * nat * string)) : P unit :=
  notify_locked
    (com_case vector_id
      ((λ '(com, k, mu), (com, act (AMuSend mu RPMSG_MU_CHANNEL (RL_GEN_MU_MSG vector_id)))) <$> mus)).
(** The vector of a message: the bits sent, and the channel it came on. *)
Definition com_vector (com msg : Z) : Z := u32 (Z.lor (Z.shiftr msg 16) (Z.shiftl com 3)).
Definition init_mu (mu irq : string) : P unit := acts [AMuInit mu; AIrqPriority irq 3; AIrqOn irq].


(** ** [imx8mm_m4] *)

Definition imx8mm_m4_platform_init_interrupt (vector_id isr_data : Z) : P Z :=
  install vector_id isr_data (count_up 0 first (act (AMuOn "MUB" rx27))).
Definition imx8mm_m4_platform_deinit_interrupt (vector_id : Z) : P Z :=
  uninstall vector_id (count_down 0 first (act (AMuOff "MUB" rx27))).
Definition imx8mm_m4_platform_notify (vector_id : Z) : P unit :=
  notify_locked (act (AMuSend "MUB" RPMSG_MU_CHANNEL (u32 (Z.shiftl vector_id 16)))).
Definition imx8mm_m4_MU_M4_IRQHandler : P unit :=
  on_message "MUB" rx27 (λ channel, Z.shiftr channel 16);; dsb.
Definition imx8mm_m4_platform_interrupt_enable (vector_id : Z) : P Z :=
  enable_one (act (AIrqOn "MU_M4_IRQn")).
Definition imx8mm_m4_platform_interrupt_disable (vector_id : Z) : P Z :=
  disable_one (act (AIrqOff "MU_M4_IRQn")).
Definition imx8mm_m4_platform_init : P Z :=
  init_mu "MUB" "MU_M4_IRQn";; create_platform_lock.
Definition imx8mm_m4_platform_deinit : P Z :=
  delete_platform_lock.

(** ** [imx8mn_m7] *)

Definition imx8mn_m7_platform_init_interrupt (vector_id isr_data : Z) : P Z :=
  install vector_id isr_data (count_up 0 first (act (AMuOn "MUB" rx27))).
Definition imx8mn_m7_platform_deinit_interrupt (vector_id : Z) : P Z :=
  uninstall vector_id (count_down 0 first (act (AMuOff "MUB" rx27))).
Definition imx8mn_m7_platform_notify (vector_id : Z) : P unit :=
  notify_locked (act (AMuSend "MUB" RPMSG_MU_CHANNEL (u32 (Z.shiftl vector_id 16)))).
Definition imx8mn_m7_MU_M7_IRQHandler : P unit :=
  on_message "MUB" rx27 (λ channel, Z.shiftr channel 16);; dsb.
Definition imx8mn_m7_platform_interrupt_enable (vector_id : Z) : P Z :=
  enable_one (act (AIrqOn "MU_M7_IRQn")).
Definition imx8mn_m7_platform_interrupt_disable (vector_id : Z) : P Z :=
  disable_one (act (AIrqOff "MU_M7_IRQn")).
Definition imx8mn_m7_platform_init : P Z :=
  init_mu "MUB" "MU_M7_IRQn";; create_platform_lock.
Definition imx8mn_m7_platform_deinit : P Z :=
  delete_platform_lock.

(** ** [imx8mp_m7] *)

Definition imx8mp_m7_platform_init_interrupt (vector_id isr_data : Z) : P Z :=
  install vector_id isr_data (count_up 0 first (act (AMuOn "MUB" rx27))).
Definition imx8mp_m7_platform_deinit_interrupt (vector_id : Z) : P Z :=
  uninstall vector_id (count_down 0 first (act (AMuOff "MUB" rx27))).
Definition imx8mp_m7_platform_notify (vector_id : Z) : P unit :=
  notify_locked (act (AMuSend "MUB" RPMSG_MU_CHANNEL (u32 (Z.shiftl vector_id 16)))).
Definition imx8mp_m7_MU1_M7_IRQHandler : P unit :=
  on_message "MUB" rx27 (λ channel, Z.shiftr channel 16);; dsb.
Definition imx8mp_m7_platform_interrupt_enable (vector_id : Z) : P Z :=
  enable_one (act (AIrqOn "MU1_M7_IRQn")).
Definition imx8mp_m7_platform_interrupt_disable (vector_id : Z) : P Z :=
  disable_one (act (AIrqOff "MU1_M7_IRQn")).
Definition imx8mp_m7_platform_init : P Z :=
  init_mu "MUB" "MU1_M7_IRQn";; create_platform_lock.
Definition imx8mp_m7_platform_deinit : P Z :=
  delete_platform_lock.

(** ** [imx8mq_m4] *)

Definition imx8mq_m4_platform_init_interrupt (vector_id isr_data : Z) : P Z :=
  install vector_id isr_data (count_up 0 first (act (AMuOn "MUB" rx27))).
Definition imx8mq_m4_platform_deinit_interrupt (vector_id : Z) : P Z :=
  uninstall vector_id (count_down 0 first (act (AMuOff "MUB" rx27))).
Definition imx8mq_m4_platform_notify (vector_id : Z) : P unit :=
  notify_locked (act (AMuSend "MUB" RPMSG_MU_CHANNEL (u32 (Z.shiftl vector_id 16)))).
Definition imx8mq_m4_MU_M4_IRQHandler : P unit :=
  on_message "MUB" rx27 (λ channel, Z.shiftr channel 16);; dsb.
Definition imx8mq_m4_platform_interrupt_enable (vector_id : Z) : P Z :=
  enable_one (act (AIrqOn "MU_M4_IRQn")).
Definition imx8mq_m4_platform_interrupt_disable (vector_id : Z) : P Z :=
  disable_one (act (AIrqOff "MU_M4_IRQn")).
Definition imx8mq_m4_platform_init : P Z :=
  init_mu "MUB" "MU_M4_IRQn";; create_platform_lock.
Definition imx8mq_m4_platform_deinit : P Z :=
  delete_platform_lock.

(** ** [imx7ulp_m4] *)

Definition imx7ulp_m4_platform_init_interrupt (vector_id isr_data : Z) : P Z :=
  install vector_id isr_data (count_up 0 first (act (AMuOn "MUA" rx27))).
Definition imx7ulp_m4_platform_deinit_interrupt (vector_id : Z) : P Z :=
  uninstall vector_id (count_down 0 first (act (AMuOff "MUA" rx27))).
Definition imx7ulp_m4_platform_notify (vector_id : Z) : P unit :=
  notify_locked (act (AMuSend "MUA" RPMSG_MU_CHANNEL (u32 (Z.shiftl vector_id 16)))).
Definition imx7ulp_m4_MU_A_IRQHandler : P unit :=
  on_message "MUA" rx27 (λ channel, Z.shiftr channel 16);; dsb.
Definition imx7ulp_m4_platform_interrupt_enable (vector_id : Z) : P Z :=
  enable_one (act (AIrqOn "MU_A_IRQn")).
Definition imx7ulp_m4_platform_interrupt_disable (vector_id : Z) : P Z :=
  disable_one (act (AIrqOff "MU_A_IRQn")).
Definition imx7ulp_m4_platform_init : P Z :=
  init_mu "MUA" "MU_A_IRQn";; create_platform_lock.
Definition imx7ulp_m4_platform_deinit : P Z :=
  delete_platform_lock.

(** ** [imx8dxl_m4] *)

Definition imx8dxl_m4_platform_init_interrupt (vector_id isr_data : Z) : P Z :=
  install vector_id isr_data (count_up 0 first (act (AMuOn "APP_M4_MU" rx27))).
Definition imx8dxl_m4_platform_deinit_interrupt (vector_id : Z) : P Z :=
  uninstall vector_id (count_down 0 first (act (AMuOff "APP_M4_MU" rx27))).
Definition imx8dxl_m4_platform_notify (vector_id : Z) : P unit :=
  notify_locked (act (AMuSend "APP_M4_MU" RPMSG_MU_CHANNEL (u32 (Z.shiftl vector_id 16)))).
Definition imx8dxl_m4_LSIO_MU5_INT_B_IRQHandler : P unit :=
  on_message "APP_M4_MU" rx27 (λ channel, Z.shiftr channel 16);; dsb.
Definition imx8dxl_m4_platform_interrupt_enable (vector_id : Z) : P Z :=
  enable_one (act (AIrqOn "APP_M4_MU_NVIC_IRQn")).
Definition imx8dxl_m4_platform_interrupt_disable (vector_id : Z) : P Z :=
  disable_one (act (AIrqOff "APP_M4_MU_NVIC_IRQn")).
Definition imx8dxl_m4_platform_init : P Z :=
  acts [AMuInit "APP_M4_MU"; AIrqPriority "APP_M4_MU_NVIC_IRQn" 3;
    ACall "IRQSTEER_EnableInterrupt APP_M4_MU_IRQn" []];; create_platform_lock.
Definition imx8dxl_m4_platform_deinit : P Z :=
  acts [AMuDeinit "APP_M4_MU"; ACall "IRQSTEER_DisableInterrupt APP_M4_MU_IRQn" []];; delete_platform_lock.

(** ** [imx8qx_cm4] *)

Definition imx8qx_cm4_platform_init_interrupt (vector_id isr_data : Z) : P Z :=
  install vector_id isr_data (count_up 0 first (act (AMuOn "APP_M4_MU" rx27))).
Definition imx8qx_cm4_platform_deinit_interrupt (vector_id : Z) : P Z :=
  uninstall vector_id (count_down 0 first (act (AMuOff "APP_M4_MU" rx27))).
Definition imx8qx_cm4_platform_notify (vector_id : Z) : P unit :=
  notify_locked (act (AMuSend "APP_M4_MU" RPMSG_MU_CHANNEL (u32 (Z.shiftl vector_id 16)))).
Definition imx8qx_cm4_LSIO_MU5_INT_B_IRQHandler : P unit :=
  on_message "APP_M4_MU" rx27 (λ channel, Z.shiftr channel 16);; dsb.
Definition imx8qx_cm4_platform_interrupt_enable (vector_id : Z) : P Z :=
  enable_one (act (AIrqOn "APP_M4_MU_NVIC_IRQn")).
Definition imx8qx_cm4_platform_interrupt_disable (vector_id : Z) : P Z :=
  disable_one (act (AIrqOff "APP_M4_MU_NVIC_IRQn")).
Definition imx8qx_cm4_platform_init : P Z :=
  acts [AMuInit "APP_M4_MU"; AIrqPriority "APP_M4_MU_NVIC_IRQn" 3;
    ACall "IRQSTEER_EnableInterrupt APP_M4_MU_IRQn" []];; create_platform_lock.
Definition imx8qx_cm4_platform_deinit : P Z :=
  acts [AMuDeinit "APP_M4_MU"; ACall "IRQSTEER_DisableInterrupt APP_M4_MU_IRQn" []];; delete_platform_lock.

(** ** [imx6sx_m4] *)

Definition imx6sx_m4_platform_init_interrupt (vector_id isr_data : Z) : P Z :=
  install vector_id isr_data (count_up 0 first (act (ARxOn "MUB" RPMSG_MU_CHANNEL))).
Definition imx6sx_m4_platform_deinit_interrupt (vector_id : Z) : P Z :=
  uninstall vector_id (count_down 0 first (act (ARxOff "MUB" RPMSG_MU_CHANNEL))).
Definition imx6sx_m4_platform_notify (vector_id : Z) : P unit :=
  notify_locked (act (AMuSend "MUB" RPMSG_MU_CHANNEL (u32 (Z.shiftl (RL_GET_Q_ID vector_id) 16)))).
Definition imx6sx_m4_rpmsg_handler : P unit :=
  s ← get_state;
  match MU_TryReceiveMsg "MUB" RPMSG_MU_CHANNEL (log s) with
  | Some msg => act (AIsr (Z.shiftr msg 16))
  | None => mret tt
  end;;
  dsb.
Definition imx6sx_m4_platform_interrupt_enable (vector_id : Z) : P Z :=
  enable_one (act (AIrqOn "BOARD_MU_IRQ_NUM")).
Definition imx6sx_m4_platform_interrupt_disable (vector_id : Z) : P Z :=
  disable_one (act (AIrqOff "BOARD_MU_IRQ_NUM")).
Definition imx6sx_m4_platform_init : P Z :=
  init_mu "BOARD_MU_BASE_ADDR" "BOARD_MU_IRQ_NUM";; create_platform_lock.
Definition imx6sx_m4_platform_deinit : P Z :=
  delete_platform_lock.

(** ** [imx7d_m4] *)

Definition imx7d_m4_platform_init_interrupt (vector_id isr_data : Z) : P Z :=
  install vector_id isr_data (count_up 0 first (act (ARxOn "MUB" RPMSG_MU_CHANNEL))).
Definition imx7d_m4_platform_deinit_interrupt (vector_id : Z) : P Z :=
  uninstall vector_id (count_down 0 first (act (ARxOff "MUB" RPMSG_MU_CHANNEL))).
Definition imx7d_m4_platform_notify (vector_id : Z) : P unit :=
  notify_locked (act (AMuSend "MUB" RPMSG_MU_CHANNEL (u32 (Z.shiftl (RL_GET_Q_ID vector_id) 16)))).
Definition imx7d_m4_rpmsg_handler : P unit :=
  s ← get_state;
  match MU_TryReceiveMsg "MUB" RPMSG_MU_CHANNEL (log s) with
  | Some msg => act (AIsr (Z.shiftr msg 16))
  | None => mret tt
  end;;
  dsb.
Definition imx7d_m4_platform_interrupt_enable (vector_id : Z) : P Z :=
  enable_one (act (AIrqOn "BOARD_MU_IRQ_NUM")).
Definition imx7d_m4_platform_interrupt_disable (vector_id : Z) : P Z :=
  disable_one (act (AIrqOff "BOARD_MU_IRQ_NUM")).
Definition imx7d_m4_platform_init : P Z :=
  init_mu "BOARD_MU_BASE_ADDR" "BOARD_MU_IRQ_NUM";; create_platform_lock.
Definition imx7d_m4_platform_deinit : P Z :=
  delete_platform_lock.

(** ** [imx93_m33] *)

Definition imx93_m33_A55_COM_ID : Z := 0.
Definition imx93_m33_mus : list (Z * nat * string) :=
  [(imx93_m33_A55_COM_ID, 0%nat, "RPMSG_LITE_M33_A55_MU")].
Definition imx93_m33_lines : list (Z * nat * option string) :=
  [(imx93_m33_A55_COM_ID, 0%nat, Some "RPMSG_LITE_M33_A55_MU_IRQn")].
Definition imx93_m33_platform_init_interrupt (vector_id isr_data : Z) : P Z :=
  install_com vector_id isr_data rx_full_interrupt imx93_m33_mus.
Definition imx93_m33_platform_deinit_interrupt (vector_id : Z) : P Z :=
  uninstall_com vector_id rx_full_interrupt imx93_m33_mus.
Definition imx93_m33_platform_notify (vector_id : Z) : P unit :=
  notify_com vector_id imx93_m33_mus.
Definition imx93_m33_MU1_A_IRQHandler : P unit :=
  on_message "RPMSG_LITE_M33_A55_MU" rx_full_flag (com_vector imx93_m33_A55_COM_ID).
Definition imx93_m33_platform_interrupt_enable (vector_id : Z) : P Z :=
  enable_com vector_id imx93_m33_lines.
Definition imx93_m33_platform_interrupt_disable (vector_id : Z) : P Z :=
  disable_com_late vector_id imx93_m33_lines.
Definition imx93_m33_platform_init : P Z :=
  init_mu "RPMSG_LITE_M33_A55_MU" "RPMSG_LITE_M33_A55_MU_IRQn";;
  create_platform_lock.
Definition imx93_m33_platform_deinit : P Z :=
  acts [AMuDeinit "RPMSG_LITE_M33_A55_MU"];; delete_platform_lock.

(** ** [imx95_m33] *)

Definition imx95_m33_A55_COM_ID : Z := 0.
Definition imx95_m33_mus : list (Z * nat * string) :=
  [(imx95_m33_A55_COM_ID, 0%nat, "RPMSG_LITE_M33_A55_MU")].
Definition imx95_m33_lines : list (Z * nat * option string) :=
  [(imx95_m33_A55_COM_ID, 0%nat, Some "RPMSG_LITE_M33_A55_MU_IRQn")].
Definition imx95_m33_platform_init_interrupt (vector_id isr_data : Z) : P Z :=
  install_com vector_id isr_data rx_full_interrupt imx95_m33_mus.
Definition imx95_m33_platform_deinit_interrupt (vector_id : Z) : P Z :=
  uninstall_com vector_id rx_full_interrupt imx95_m33_mus.
Definition imx95_m33_platform_notify (vector_id : Z) : P unit :=
  notify_com vector_id imx95_m33_mus.
Definition imx95_m33_MU1_B_IRQHandler : P unit :=
  on_message "RPMSG_LITE_M33_A55_MU" rx_full_flag (com_vector imx95_m33_A55_COM_ID).
Definition imx95_m33_platform_interrupt_enable (vector_id : Z) : P Z :=
  enable_com vector_id imx95_m33_lines.
Definition imx95_m33_platform_interrupt_disable (vector_id : Z) : P Z :=
  disable_com_late vector_id imx95_m33_lines.
Definition imx95_m33_platform_init : P Z :=
  init_mu "RPMSG_LITE_M33_A55_MU" "RPMSG_LITE_M33_A55_MU_IRQn";;
  create_platform_lock.
Definition imx95_m33_platform_deinit : P Z :=
  acts [AMuDeinit "RPMSG_LITE_M33_A55_MU"];; delete_platform_lock.

(** ** [imx95_m7] *)

Definition imx95_m7_A55_COM_ID : Z := 0.
Definition imx95_m7_mus : list (Z * nat * string) :=
  [(imx95_m7_A55_COM_ID, 0%nat, "RPMSG_LITE_M7_A55_MU")].
Definition imx95_m7_lines : list (Z * nat * option string) :=
  [(imx95_m7_A55_COM_ID, 0%nat, Some "RPMSG_LITE_M7_A55_MU_IRQn")].
Definition imx95_m7_platform_init_interrupt (vector_id isr_data : Z) : P Z :=
  install_com vector_id isr_data rx_full_interrupt imx95_m7_mus.
Definition imx95_m7_platform_deinit_interrupt (vector_id : Z) : P Z :=
  uninstall_com vector_id rx_full_interrupt imx95_m7_mus.
Definition imx95_m7_platform_notify (vector_id : Z) : P unit :=
  notify_com vector_id imx95_m7_mus.
Definition imx95_m7_MU7_B_IRQHandler : P unit :=
  on_message "RPMSG_LITE_M7_A55_MU" rx_full_flag (com_vector imx95_m7_A55_COM_ID);; dsb.
Definition imx95_m7_platform_interrupt_enable (vector_id : Z) : P Z :=
  enable_com vector_id imx95_m7_lines.
Definition imx95_m7_platform_interrupt_disable (vector_id : Z) : P Z :=
  disable_com_late vector_id imx95_m7_lines.
Definition imx95_m7_platform_init : P Z :=
  init_mu "RPMSG_LITE_M7_A55_MU" "RPMSG_LITE_M7_A55_MU_IRQn";;
  create_platform_lock.
Definition imx95_m7_platform_deinit : P Z :=
  acts [AMuDeinit "RPMSG_LITE_M7_A55_MU"];; delete_platform_lock.

(** ** [imx952_m7] *)

Definition imx952_m7_A55_COM_ID : Z := 0.
Definition imx952_m7_mus : list (Z * nat * string) :=
  [(imx952_m7_A55_COM_ID, 0%nat, "RPMSG_LITE_M7_A55_MU")].
Definition imx952_m7_lines : list (Z * nat * option string) :=
  [(imx952_m7_A55_COM_ID, 0%nat, Some "RPMSG_LITE_M7_A55_MU_IRQn")].
Definition imx952_m7_platform_init_interrupt (vector_id isr_data : Z) : P Z :=
  install_com vector_id isr_data rx_full_interrupt imx952_m7_mus.
Definition imx952_m7_platform_deinit_interrupt (vector_id : Z) : P Z :=
  uninstall_com vector_id rx_full_interrupt imx952_m7_mus.
Definition imx952_m7_platform_notify (vector_id : Z) : P unit :=
  notify_com vector_id imx952_m7_mus.
Definition imx952_m7_MU7_B_IRQHandler : P unit :=
  on_message "RPMSG_LITE_M7_A55_MU" rx_full_flag (com_vector imx952_m7_A55_COM_ID);; dsb.
Definition imx952_m7_platform_interrupt_enable (vector_id : Z) : P Z :=
  enable_com vector_id imx952_m7_lines.
Definition imx952_m7_platform_interrupt_disable (vector_id : Z) : P Z :=
  disable_com_late vector_id imx952_m7_lines.
Definition imx952_m7_platform_init : P Z :=
  init_mu "RPMSG_LITE_M7_A55_MU" "RPMSG_LITE_M7_A55_MU_IRQn";;
  create_platform_lock.
Definition imx952_m7_platform_deinit : P Z :=
  acts [AMuDeinit "RPMSG_LITE_M7_A55_MU"];; delete_platform_lock.

(** ** [imx943_m33s] *)

Definition imx943_m33s_A55_COM_ID : Z := 0.
Definition imx943_m33s_M70_COM_ID : Z := 1.
Definition imx943_m33s_M71_COM_ID : Z := 2.
Definition imx943_m33s_mus : list (Z * nat * string) :=
  [(imx943_m33s_M71_COM_ID, 0%nat, "RPMSG_LITE_M33S_M71_MU"); (imx943_m33s_M70_COM_ID, 1%nat, "RPMSG_LITE_M33S_M70_MU"); (imx943_m33s_A55_COM_ID, 2%nat, "RPMSG_LITE_M33S_A55_MU")].
Definition imx943_m33s_lines : list (Z * nat * option string) :=
  [(imx943_m33s_M71_COM_ID, 0%nat, Some "RPMSG_LITE_M33S_M71_MU_IRQn"); (imx943_m33s_M70_COM_ID, 1%nat, Some "RPMSG_LITE_M33S_M70_MU_IRQn"); (imx943_m33s_A55_COM_ID, 2%nat, Some "RPMSG_LITE_M33S_A55_MU_IRQn")].
Definition imx943_m33s_platform_init_interrupt (vector_id isr_data : Z) : P Z :=
  install_com vector_id isr_data rx_full_interrupt imx943_m33s_mus.
Definition imx943_m33s_platform_deinit_interrupt (vector_id : Z) : P Z :=
  uninstall_com vector_id rx_full_interrupt imx943_m33s_mus.
Definition imx943_m33s_platform_notify (vector_id : Z) : P unit :=
  notify_com vector_id imx943_m33s_mus.
Definition imx943_m33s_MU_E1_B_IRQHandler : P unit :=
  on_message "RPMSG_LITE_M33S_M71_MU" rx_full_flag (com_vector imx943_m33s_M71_COM_ID).
Definition imx943_m33s_MU_E3_B_IRQHandler : P unit :=
  on_message "RPMSG_LITE_M33S_M70_MU" rx_full_flag (com_vector imx943_m33s_M70_COM_ID).
Definition imx943_m33s_MU15_A_IRQHandler : P unit :=
  on_message "RPMSG_LITE_M33S_A55_MU" rx_full_flag (com_vector imx943_m33s_A55_COM_ID).
Definition imx943_m33s_platform_interrupt_enable (vector_id : Z) : P Z :=
  enable_com vector_id imx943_m33s_lines.
Definition imx943_m33s_platform_interrupt_disable (vector_id : Z) : P Z :=
  disable_com_late vector_id imx943_m33s_lines.
Definition imx943_m33s_platform_init : P Z :=
  init_mu "RPMSG_LITE_M33S_M71_MU" "RPMSG_LITE_M33S_M71_MU_IRQn";;
  init_mu "RPMSG_LITE_M33S_M70_MU" "RPMSG_LITE_M33S_M70_MU_IRQn";;
  init_mu "RPMSG_LITE_M33S_A55_MU" "RPMSG_LITE_M33S_A55_MU_IRQn";;
  create_platform_lock.
Definition imx943_m33s_platform_deinit : P Z :=
  acts [AMuDeinit "RPMSG_LITE_M33S_M71_MU"; AMuDeinit "RPMSG_LITE_M33S_M70_MU"; AMuDeinit "RPMSG_LITE_M33S_A55_MU"];; delete_platform_lock.

(** ** [imx943_m70] *)

Definition imx943_m70_A55_COM_ID : Z := 0.
Definition imx943_m70_M33S_COM_ID : Z := 1.
Definition imx943_m70_M71_COM_ID : Z := 2.
Definition imx943_m70_mus : list (Z * nat * string) :=
  [(imx943_m70_M33S_COM_ID, 0%nat, "RPMSG_LITE_M70_M33S_MU"); (imx943_m70_M71_COM_ID, 1%nat, "RPMSG_LITE_M70_M71_MU"); (imx943_m70_A55_COM_ID, 2%nat, "RPMSG_LITE_M70_A55_MU")].
Definition imx943_m70_lines : list (Z * nat * option string) :=
  [(imx943_m70_M33S_COM_ID, 0%nat, Some "RPMSG_LITE_M70_M33S_MU_IRQn"); (imx943_m70_M71_COM_ID, 1%nat, Some "RPMSG_LITE_M70_M71_MU_IRQn"); (imx943_m70_A55_COM_ID, 2%nat, Some "RPMSG_LITE_M70_A55_MU_IRQn")].
Definition imx943_m70_platform_init_interrupt (vector_id isr_data : Z) : P Z :=
  install_com vector_id isr_data rx_full_interrupt imx943_m70_mus.
Definition imx943_m70_platform_deinit_interrupt (vector_id : Z) : P Z :=
  uninstall_com vector_id rx_full_interrupt imx943_m70_mus.
Definition imx943_m70_platform_notify (vector_id : Z) : P unit :=
  notify_com vector_id imx943_m70_mus.
Definition imx943_m70_MU_E3_A_IRQHandler : P unit :=
  on_message "RPMSG_LITE_M70_M33S_MU" rx_full_flag (com_vector imx943_m70_M33S_COM_ID);; dsb.
Definition imx943_m70_MU18_B_IRQHandler : P unit :=
  on_message "RPMSG_LITE_M70_M71_MU" rx_full_flag (com_vector imx943_m70_M71_COM_ID);; dsb.
Definition imx943_m70_MU11_B_IRQHandler : P unit :=
  on_message "RPMSG_LITE_M70_A55_MU" rx_full_flag (com_vector imx943_m70_A55_COM_ID);; dsb.
Definition imx943_m70_platform_interrupt_enable (vector_id : Z) : P Z :=
  enable_com vector_id imx943_m70_lines.
Definition imx943_m70_platform_interrupt_disable (vector_id : Z) : P Z :=
  disable_com_late vector_id imx943_m70_lines.
Definition imx943_m70_platform_init : P Z :=
  init_mu "RPMSG_LITE_M70_M33S_MU" "RPMSG_LITE_M70_M33S_MU_IRQn";;
  init_mu "RPMSG_LITE_M70_M71_MU" "RPMSG_LITE_M70_M71_MU_IRQn";;
  init_mu "RPMSG_LITE_M70_A55_MU" "RPMSG_LITE_M70_A55_MU_IRQn";;
  create_platform_lock.
Definition imx943_m70_platform_deinit : P Z :=
  acts [AMuDeinit "RPMSG_LITE_M70_M33S_MU"; AMuDeinit "RPMSG_LITE_M70_M71_MU"; AMuDeinit "RPMSG_LITE_M70_A55_MU"];; delete_platform_lock.

(** ** [imx943_m71] *)

Definition imx943_m71_A55_COM_ID : Z := 0.
Definition imx943_m71_M33S_COM_ID : Z := 1.
Definition imx943_m71_M70_COM_ID : Z := 2.
Definition imx943_m71_mus : list (Z * nat * string) :=
  [(imx943_m71_M33S_COM_ID, 0%nat, "RPMSG_LITE_M71_M33S_MU"); (imx943_m71_M70_COM_ID, 1%nat, "RPMSG_LITE_M71_M70_MU"); (imx943_m71_A55_COM_ID, 2%nat, "RPMSG_LITE_M71_A55_MU")].
Definition imx943_m71_lines : list (Z * nat * option string) :=
  [(imx943_m71_M33S_COM_ID, 0%nat, Some "RPMSG_LITE_M71_M33S_MU_IRQn"); (imx943_m71_M70_COM_ID, 1%nat, Some "RPMSG_LITE_M71_M70_MU_IRQn"); (imx943_m71_A55_COM_ID, 2%nat, Some "RPMSG_LITE_M71_A55_MU_IRQn")].
Definition imx943_m71_platform_init_interrupt (vector_id isr_data : Z) : P Z :=
  install_com vector_id isr_data rx_full_interrupt imx943_m71_mus.
Definition imx943_m71_platform_deinit_interrupt (vector_id : Z) : P Z :=
  uninstall_com vector_id rx_full_interrupt imx943_m71_mus.
Definition imx943_m71_platform_notify (vector_id : Z) : P unit :=
  notify_com vector_id imx943_m71_mus.
Definition imx943_m71_MU_E1_A_IRQHandler : P unit :=
  on_message "RPMSG_LITE_M71_M33S_MU" rx_full_flag (com_vector imx943_m71_M33S_COM_ID);; dsb.
Definition imx943_m71_MU18_A_IRQHandler : P unit :=
  on_message "RPMSG_LITE_M71_M70_MU" rx_full_flag (com_vector imx943_m71_M70_COM_ID);; dsb.
Definition imx943_m71_MU13_A_IRQHandler : P unit :=
  on_message "RPMSG_LITE_M71_A55_MU" rx_full_flag (com_vector imx943_m71_A55_COM_ID);; dsb.
Definition imx943_m71_platform_interrupt_enable (vector_id : Z) : P Z :=
  enable_com vector_id imx943_m71_lines.
Definition imx943_m71_platform_interrupt_disable (vector_id : Z) : P Z :=
  disable_com_late vector_id imx943_m71_lines.
Definition imx943_m71_platform_init : P Z :=
  init_mu "RPMSG_LITE_M71_M33S_MU" "RPMSG_LITE_M71_M33S_MU_IRQn";;
  init_mu "RPMSG_LITE_M71_M70_MU" "RPMSG_LITE_M71_M70_MU_IRQn";;
  init_mu "RPMSG_LITE_M71_A55_MU" "RPMSG_LITE_M71_A55_MU_IRQn";;
  create_platform_lock.
Definition imx943_m71_platform_deinit : P Z :=
  acts [AMuDeinit "RPMSG_LITE_M71_M33S_MU"; AMuDeinit "RPMSG_LITE_M71_M70_MU"; AMuDeinit "RPMSG_LITE_M71_A55_MU"];; delete_platform_lock.

(** ** [imx8ulp_m33] *)

Definition imx8ulp_m33_A35_COM_ID : Z := 0.
Definition imx8ulp_m33_FUSION_DSP_COM_ID : Z := 1.
Definition imx8ulp_m33_HIFI4_COM_ID : Z := 2.
Definition imx8ulp_m33_mus : list (Z * nat * string) :=
  [(imx8ulp_m33_A35_COM_ID, 0%nat, "MU0_MUA"); (imx8ulp_m33_FUSION_DSP_COM_ID, 1%nat, "MU1_MUA"); (imx8ulp_m33_HIFI4_COM_ID, 2%nat, "MU2_MUA")].
Definition imx8ulp_m33_lines : list (Z * nat * option string) :=
  [(imx8ulp_m33_A35_COM_ID, 0%nat, Some "MU0_A_IRQn"); (imx8ulp_m33_FUSION_DSP_COM_ID, 1%nat, Some "MU1_A_IRQn"); (imx8ulp_m33_HIFI4_COM_ID, 2%nat, Some "MU2_A_IRQn")].
Definition imx8ulp_m33_platform_init_interrupt (vector_id isr_data : Z) : P Z :=
  when_locked (install_com vector_id isr_data rx_full_interrupt imx8ulp_m33_mus).
Definition imx8ulp_m33_platform_deinit_interrupt (vector_id : Z) : P Z :=
  when_locked (uninstall_com vector_id rx_full_interrupt imx8ulp_m33_mus).
Definition imx8ulp_m33_platform_notify (vector_id : Z) : P unit :=
  notify_com vector_id imx8ulp_m33_mus.
Definition imx8ulp_m33_MU0_A_IRQHandler : P unit :=
  on_message "MU0_MUA" rx_full_flag (com_vector imx8ulp_m33_A35_COM_ID).
Definition imx8ulp_m33_MU1_A_IRQHandler : P unit :=
  on_message "MU1_MUA" rx_full_flag (com_vector imx8ulp_m33_FUSION_DSP_COM_ID).
Definition imx8ulp_m33_MU2_A_IRQHandler : P unit :=
  on_message "MU2_MUA" rx_full_flag (com_vector imx8ulp_m33_HIFI4_COM_ID).
Definition imx8ulp_m33_platform_interrupt_enable (vector_id : Z) : P Z :=
  enable_com vector_id imx8ulp_m33_lines.
Definition imx8ulp_m33_platform_interrupt_disable (vector_id : Z) : P Z :=
  disable_com_late vector_id imx8ulp_m33_lines.
Definition imx8ulp_m33_platform_init : P Z :=
  init_mu "MU0_MUA" "MU0_A_IRQn";;
  init_mu "MU1_MUA" "MU1_A_IRQn";;
  init_mu "MU2_MUA" "MU2_A_IRQn";;
  create_platform_lock.
Definition imx8ulp_m33_platform_deinit : P Z :=
  acts [AMuDeinit "MU0_MUA"; AMuDeinit "MU1_MUA"; AMuDeinit "MU2_MUA"];; delete_platform_lock.

(** ** [imx8qm_m4]: both channels share one line of the interrupt controller *)

Definition imx8qm_m4_A_COM_ID : Z := 0.
Definition imx8qm_m4_M4_COM_ID : Z := 1.
Definition imx8qm_m4_A_MU (core1 : bool) : string := if core1 then "LSIO__MU6_B" else "LSIO__MU5_B".
Definition imx8qm_m4_M4_MU (core1 : bool) : string := if core1 then "LSIO__MU7_B" else "LSIO__MU7_A".
Definition imx8qm_m4_mus (core1 : bool) : list (Z * nat * string) :=
  [(imx8qm_m4_A_COM_ID, 0%nat, imx8qm_m4_A_MU core1); (imx8qm_m4_M4_COM_ID, 1%nat, imx8qm_m4_M4_MU core1)].
Definition imx8qm_m4_lines : list (Z * nat * option string) :=
  [(imx8qm_m4_A_COM_ID, 0%nat, Some "IRQSTEER_3_IRQn"); (imx8qm_m4_M4_COM_ID, 1%nat, Some "IRQSTEER_3_IRQn")].
Definition imx8qm_m4_platform_init_interrupt (core1 : bool) (vector_id isr_data : Z) : P Z :=
  install_com vector_id isr_data rx27 (imx8qm_m4_mus core1).
Definition imx8qm_m4_platform_deinit_interrupt (core1 : bool) (vector_id : Z) : P Z :=
  uninstall_com vector_id rx27 (imx8qm_m4_mus core1).
Definition imx8qm_m4_platform_notify (core1 : bool) (vector_id : Z) : P unit :=
  notify_com vector_id (imx8qm_m4_mus core1).
Definition imx8qm_m4_LSIO_MU5_INT_B_IRQHandler : P unit :=
  on_message (imx8qm_m4_A_MU false) rx27 (com_vector imx8qm_m4_A_COM_ID);; dsb.
Definition imx8qm_m4_LSIO_MU6_INT_B_IRQHandler : P unit :=
  on_message (imx8qm_m4_A_MU true) rx27 (com_vector imx8qm_m4_A_COM_ID);; dsb.
Definition imx8qm_m4_LSIO_MU7_INT_A_IRQHandler : P unit :=
  on_message (imx8qm_m4_M4_MU false) rx27 (com_vector imx8qm_m4_M4_COM_ID);; dsb.
Definition imx8qm_m4_LSIO_MU7_INT_B_IRQHandler : P unit :=
  on_message (imx8qm_m4_M4_MU true) rx27 (com_vector imx8qm_m4_M4_COM_ID);; dsb.
Definition imx8qm_m4_platform_interrupt_enable (vector_id : Z) : P Z :=
  enable_com vector_id imx8qm_m4_lines.
Definition imx8qm_m4_platform_interrupt_disable (vector_id : Z) : P Z :=
  disable_com vector_id imx8qm_m4_lines.
Definition imx8qm_m4_platform_init (core1 : bool) : P Z :=
  init_mu (imx8qm_m4_A_MU core1) "IRQSTEER_3_IRQn";; act (ACall "IRQSTEER_EnableInterrupt APP_M4_A_MU_IRQn" []);;
  init_mu (imx8qm_m4_M4_MU core1) "IRQSTEER_3_IRQn";; act (ACall "IRQSTEER_EnableInterrupt APP_M4_M4_MU_IRQn" []);;
  create_platform_lock.
Definition imx8qm_m4_platform_deinit (core1 : bool) : P Z :=
  acts [AMuDeinit (imx8qm_m4_A_MU core1); ACall "IRQSTEER_DisableInterrupt APP_M4_A_MU_IRQn" [];
    AMuDeinit (imx8qm_m4_M4_MU core1); ACall "IRQSTEER_DisableInterrupt APP_M4_M4_MU_IRQn" []];;
  delete_platform_lock.

(** ** [imx8ulp_fusionf1]: an Xtensa core, whose masking does not count *)

Definition imx8ulp_fusionf1_FUSION_DSP_COM_ID : Z := 1.
Definition imx8ulp_fusionf1_platform_init_interrupt (vector_id isr_data : Z) : P Z :=
  when_locked (install vector_id isr_data (count_up 0 below_two (act (AMuOn "MU1_MUB" rx_full_interrupt)))).
Definition imx8ulp_fusionf1_platform_deinit_interrupt (vector_id : Z) : P Z :=
  when_locked (uninstall vector_id (count_down 0 below_two (act (AMuOff "MU1_MUB" rx_full_interrupt)))).
Definition imx8ulp_fusionf1_platform_notify (vector_id : Z) : P unit :=
  notify_locked (act (AMuSend "MU1_MUB" RPMSG_MU_CHANNEL (RL_GEN_MU_MSG vector_id))).
Definition imx8ulp_fusionf1_MU1_B_IRQHandler : P unit :=
  on_message "MU1_MUB" rx_full_flag (com_vector imx8ulp_fusionf1_FUSION_DSP_COM_ID).
Definition imx8ulp_fusionf1_platform_interrupt_enable (vector_id : Z) : P Z :=
  enable_always (act (AIrqOn "MU1_B_IRQn")).
Definition imx8ulp_fusionf1_platform_interrupt_disable (vector_id : Z) : P Z :=
  disable_always (act (AIrqOff "MU1_B_IRQn")).
Definition imx8ulp_fusionf1_platform_init : P Z :=
  act (AMuInit "MU1_MUB");;
  r ← create_platform_lock;
  if negb (r =? 0) then mret (-1) else act (ACall "set_interrupt_handler MU1_B_IRQn MU1_B_IRQHandler" []);; mret 0.
Definition imx8ulp_fusionf1_platform_deinit : P Z :=
  acts [AMuDeinit "MU1_MUB"; ACall "set_interrupt_handler MU1_B_IRQn NULL" []];; delete_platform_lock.

End message_platforms.
