(* ===== verification/FlagPlatforms.v ===== *)
(** * Platforms that raise flags

    The platforms on which [platform_notify] raises a general-purpose interrupt
    of the messaging unit, a bit of the mailbox, or an event of the multicore
    manager; what is sent is the queue of the vector alone, so that the two
    vectors of a link have a flag each.  The same file serves both cores of a
    chip: [side_a] is [FSL_FEATURE_MU_SIDE_A] (or [FSL_FEATURE_MAILBOX_SIDE_A]),
    [core1] tells the second core. *)

From S2P Require Import Prelude Config Platform.

Section flag_platforms.
Context {b : Board}.

(** [1UL << (31UL - vector_id)] and [1UL << (19UL - RL_GET_Q_ID(vector_id))]: the
    interrupt enable and the request of a flag in the older messaging units. *)
Definition gi_enable (vector_id : Z) : Z := Z.shiftl 1 (31 - vector_id).
Definition gi_request (vector_id : Z) : Z := Z.shiftl 1 (19 - RL_GET_Q_ID vector_id).

(** The common shapes: counters, notification with or without the multicore
    manager, the handler of the messaging unit. *)
Definition flag_install (vector_id isr_data : Z) (on : P unit) : P Z :=
  when_locked (install vector_id isr_data (count_up 0 below_two on)).
Definition flag_uninstall (vector_id : Z) (off : P unit) : P Z :=
  when_locked (uninstall vector_id (count_down 0 below_two off)).
Definition flag_notify (core : string) (vector_id : Z) (trigger : P unit) : P unit :=
  notify_locked (if RL_USE_MCMGR_IPC_ISR_HANDLER then act (AEvent core (RL_GET_Q_ID vector_id)) else trigger).
Definition peer (side_a : bool) : string := if side_a then "kMCMGR_Core1" else "kMCMGR_Core0".
Definition mcmgr_init : P Z :=
  if RL_USE_MCMGR_IPC_ISR_HANDLER then register_event create_platform_lock else create_platform_lock.


(** ** [imxrt1160] *)

Definition imxrt1160_MU (side_a : bool) : string := if side_a then "MUA" else "MUB".
Definition imxrt1160_IRQn (side_a : bool) : string := if side_a then "MUA_IRQn" else "MUB_IRQn".
Definition imxrt1160_mcmgr_event_handler (vring_idx : Z) : P unit :=
  on_event vring_idx.
Definition imxrt1160_mu_isr (base : string) : P unit :=
  on_flags base 0 1.
Definition imxrt1160_MUA_IRQHandler : P Z :=
  imxrt1160_mu_isr (imxrt1160_MU true);; dsb;; mret 0.
Definition imxrt1160_MUB_IRQHandler : P Z :=
  imxrt1160_mu_isr (imxrt1160_MU false);; dsb;; mret 0.
Definition imxrt1160_platform_init_interrupt (side_a : bool) (vector_id isr_data : Z) : P Z :=
  flag_install vector_id isr_data (act (AMuOn (imxrt1160_MU side_a) (gi_enable vector_id))).
Definition imxrt1160_platform_deinit_interrupt (side_a : bool) (vector_id : Z) : P Z :=
  flag_uninstall vector_id (act (AMuOff (imxrt1160_MU side_a) (gi_enable vector_id))).
Definition imxrt1160_platform_notify (side_a : bool) (vector_id : Z) : P unit :=
  flag_notify (peer side_a) vector_id (act (AMuTrigger (imxrt1160_MU side_a) (gi_request vector_id))).
Definition imxrt1160_platform_interrupt_enable (side_a : bool) (vector_id : Z) : P Z :=
  enable_one (act (AIrqOn (imxrt1160_IRQn side_a))).
Definition imxrt1160_platform_interrupt_disable (side_a : bool) (vector_id : Z) : P Z :=
  disable_one (act (AIrqOff (imxrt1160_IRQn side_a));; if side_a then act (AIrqPriority (imxrt1160_IRQn side_a) 2) else mret tt).
Definition imxrt1160_platform_init : P Z :=
  mcmgr_init.
Definition imxrt1160_platform_deinit : P Z :=
  delete_platform_lock.

(** ** [imxrt1170] *)

Definition imxrt1170_MU (side_a : bool) : string := if side_a then "MUA" else "MUB".
Definition imxrt1170_IRQn (side_a : bool) : string := if side_a then "MUA_IRQn" else "MUB_IRQn".
Definition imxrt1170_mcmgr_event_handler (vring_idx : Z) : P unit :=
  on_event vring_idx.
Definition imxrt1170_mu_isr (base : string) : P unit :=
  on_flags base 0 1.
Definition imxrt1170_MUA_IRQHandler : P Z :=
  imxrt1170_mu_isr (imxrt1170_MU true);; dsb;; mret 0.
Definition imxrt1170_MUB_IRQHandler : P Z :=
  imxrt1170_mu_isr (imxrt1170_MU false);; dsb;; mret 0.
Definition imxrt1170_platform_init_interrupt (side_a : bool) (vector_id isr_data : Z) : P Z :=
  flag_install vector_id isr_data (act (AMuOn (imxrt1170_MU side_a) (gi_enable vector_id))).
Definition imxrt1170_platform_deinit_interrupt (side_a : bool) (vector_id : Z) : P Z :=
  flag_uninstall vector_id (act (AMuOff (imxrt1170_MU side_a) (gi_enable vector_id))).
Definition imxrt1170_platform_notify (side_a : bool) (vector_id : Z) : P unit :=
  flag_notify (peer side_a) vector_id (act (AMuTrigger (imxrt1170_MU side_a) (gi_request vector_id))).
Definition imxrt1170_platform_interrupt_enable (side_a : bool) (vector_id : Z) : P Z :=
  enable_one (act (AIrqOn (imxrt1170_IRQn side_a))).
Definition imxrt1170_platform_interrupt_disable (side_a : bool) (vector_id : Z) : P Z :=
  disable_one (act (AIrqOff (imxrt1170_IRQn side_a));; if side_a then act (AIrqPriority (imxrt1170_IRQn side_a) 2) else mret tt).
Definition imxrt1170_platform_init : P Z :=
  mcmgr_init.
Definition imxrt1170_platform_deinit : P Z :=
  delete_platform_lock.

(** ** [k32l3a6] *)

Definition k32l3a6_MU (side_a : bool) : string := if side_a then "MUA" else "MUB".
Definition k32l3a6_IRQn (side_a : bool) : string := if side_a then "MUA_IRQn" else "MUB_IRQn".
Definition k32l3a6_mcmgr_event_handler (vring_idx : Z) : P unit :=
  on_event vring_idx.
Definition k32l3a6_mu_isr (base : string) : P unit :=
  on_flags base 0 1.
Definition k32l3a6_MUA_IRQHandler : P Z :=
  k32l3a6_mu_isr (k32l3a6_MU true);; dsb;; mret 0.
Definition k32l3a6_MUB_IRQHandler : P Z :=
  k32l3a6_mu_isr (k32l3a6_MU false);; dsb;; mret 0.
Definition k32l3a6_platform_init_interrupt (side_a : bool) (vector_id isr_data : Z) : P Z :=
  flag_install vector_id isr_data (act (AMuOn (k32l3a6_MU side_a) (gi_enable vector_id))).
Definition k32l3a6_platform_deinit_interrupt (side_a : bool) (vector_id : Z) : P Z :=
  flag_uninstall vector_id (act (AMuOff (k32l3a6_MU side_a) (gi_enable vector_id))).
Definition k32l3a6_platform_notify (side_a : bool) (vector_id : Z) : P unit :=
  flag_notify (peer side_a) vector_id (act (AMuTrigger (k32l3a6_MU side_a) (gi_request vector_id))).
Definition k32l3a6_platform_interrupt_enable (side_a : bool) (vector_id : Z) : P Z :=
  enable_one (act (AIrqOn (k32l3a6_IRQn side_a))).
Definition k32l3a6_platform_interrupt_disable (side_a : bool) (vector_id : Z) : P Z :=
  disable_one (act (AIrqOff (k32l3a6_IRQn side_a));; if side_a then act (AIrqPriority (k32l3a6_IRQn side_a) 2) else mret tt).
Definition k32l3a6_platform_init : P Z :=
  mcmgr_init.
Definition k32l3a6_platform_deinit : P Z :=
  delete_platform_lock.

(** ** [imxrt1180] *)

Definition imxrt1180_MU (side_a : bool) : string := if side_a then "MU1_MUA" else "MU1_MUB".
Definition imxrt1180_mcmgr_event_handler (vring_idx : Z) : P unit :=
  on_event vring_idx.
Definition imxrt1180_mu_isr (base : string) : P unit :=
  on_flags base 0 1.
Definition imxrt1180_MU1_IRQHandler (side_a : bool) : P Z :=
  imxrt1180_mu_isr (imxrt1180_MU side_a);; dsb;; mret 0.
Definition imxrt1180_platform_init_interrupt (side_a : bool) (vector_id isr_data : Z) : P Z :=
  flag_install vector_id isr_data (act (AMuOn (imxrt1180_MU side_a) (MU_GI_INTR (Z.shiftl 1 vector_id)))).
Definition imxrt1180_platform_deinit_interrupt (side_a : bool) (vector_id : Z) : P Z :=
  flag_uninstall vector_id (act (AMuOff (imxrt1180_MU side_a) (MU_GI_INTR (Z.shiftl 1 vector_id)))).
Definition imxrt1180_platform_notify (side_a : bool) (vector_id : Z) : P unit :=
  flag_notify (peer side_a) vector_id (act (AMuTrigger (imxrt1180_MU side_a) (MU_GI_INTR (Z.shiftl 1 (RL_GET_Q_ID vector_id))))).
Definition imxrt1180_platform_interrupt_enable (vector_id : Z) : P Z :=
  enable_one (act (AIrqOn "MU1_IRQn")).
Definition imxrt1180_platform_interrupt_disable (side_a : bool) (vector_id : Z) : P Z :=
  disable_one (act (AIrqOff "MU1_IRQn");; if side_a then act (AIrqPriority "MU1_IRQn" 2) else mret tt).
Definition imxrt1180_platform_init : P Z :=
  mcmgr_init.
Definition imxrt1180_platform_deinit : P Z :=
  delete_platform_lock.

(** ** [kw43b43] *)

Definition kw43b43_MU (side_a : bool) : string := if side_a then "MU0_MUA" else "MU0_MUB".
Definition kw43b43_mcmgr_event_handler (vring_idx : Z) : P unit :=
  on_event vring_idx.
Definition kw43b43_mu_isr (base : string) : P unit :=
  on_flags base 0 1.
Definition kw43b43_MU0_IRQHandler (side_a : bool) : P Z :=
  kw43b43_mu_isr (kw43b43_MU side_a);; mret 0.
Definition kw43b43_platform_init_interrupt (side_a : bool) (vector_id isr_data : Z) : P Z :=
  flag_install vector_id isr_data (act (AMuOn (kw43b43_MU side_a) (MU_GI_INTR (Z.shiftl 1 vector_id)))).
Definition kw43b43_platform_deinit_interrupt (side_a : bool) (vector_id : Z) : P Z :=
  flag_uninstall vector_id (act (AMuOff (kw43b43_MU side_a) (MU_GI_INTR (Z.shiftl 1 vector_id)))).
Definition kw43b43_platform_notify (side_a : bool) (vector_id : Z) : P unit :=
  flag_notify (peer side_a) vector_id (act (AMuTrigger (kw43b43_MU side_a) (MU_GI_INTR (Z.shiftl 1 (RL_GET_Q_ID vector_id))))).
Definition kw43b43_platform_interrupt_enable (vector_id : Z) : P Z :=
  enable_one (act (AIrqOn "MU0_IRQn")).
Definition kw43b43_platform_interrupt_disable (side_a : bool) (vector_id : Z) : P Z :=
  disable_one (act (AIrqOff "MU0_IRQn");; if side_a then act (AIrqPriority "MU0_IRQn" 2) else mret tt).
Definition kw43b43_platform_init : P Z :=
  mcmgr_init.
Definition kw43b43_platform_deinit : P Z :=
  delete_platform_lock.

(** ** [mcxw70] *)

Definition mcxw70_MU (side_a : bool) : string := if side_a then "MU0_MUA" else "MU0_MUB".
Definition mcxw70_mcmgr_event_handler (vring_idx : Z) : P unit :=
  on_event vring_idx.
Definition mcxw70_mu_isr (base : string) : P unit :=
  on_flags base 0 1.
Definition mcxw70_MU0_IRQHandler (side_a : bool) : P Z :=
  mcxw70_mu_isr (mcxw70_MU side_a);; mret 0.
Definition mcxw70_platform_init_interrupt (side_a : bool) (vector_id isr_data : Z) : P Z :=
  flag_install vector_id isr_data (act (AMuOn (mcxw70_MU side_a) (MU_GI_INTR (Z.shiftl 1 vector_id)))).
Definition mcxw70_platform_deinit_interrupt (side_a : bool) (vector_id : Z) : P Z :=
  flag_uninstall vector_id (act (AMuOff (mcxw70_MU side_a) (MU_GI_INTR (Z.shiftl 1 vector_id)))).
Definition mcxw70_platform_notify (side_a : bool) (vector_id : Z) : P unit :=
  flag_notify (peer side_a) vector_id (act (AMuTrigger (mcxw70_MU side_a) (MU_GI_INTR (Z.shiftl 1 (RL_GET_Q_ID vector_id))))).
Definition mcxw70_platform_interrupt_enable (vector_id : Z) : P Z :=
  enable_one (act (AIrqOn "MU0_IRQn")).
Definition mcxw70_platform_interrupt_disable (side_a : bool) (vector_id : Z) : P Z :=
  disable_one (act (AIrqOff "MU0_IRQn");; if side_a then act (AIrqPriority "MU0_IRQn" 2) else mret tt).
Definition mcxw70_platform_init : P Z :=
  mcmgr_init.
Definition mcxw70_platform_deinit : P Z :=
  delete_platform_lock.

(** ** [mcxl20] *)

Definition mcxl20_MU (side_a : bool) : string := if side_a then "MUA" else "MUB".
Definition mcxl20_IRQn (side_a : bool) : string := if side_a then "MU_A_INT_IRQn" else "MU_B_INT_IRQn".
Definition mcxl20_mcmgr_event_handler (vring_idx : Z) : P unit :=
  on_event vring_idx.
Definition mcxl20_mu_isr (base : string) : P unit :=
  on_flags base 0 1.
Definition mcxl20_MU_A_INT_IRQHandler : P Z :=
  mcxl20_mu_isr (mcxl20_MU true);; mret 0.
Definition mcxl20_MU_B_INT_IRQHandler : P Z :=
  mcxl20_mu_isr (mcxl20_MU false);; mret 0.
Definition mcxl20_platform_init_interrupt (side_a : bool) (vector_id isr_data : Z) : P Z :=
  flag_install vector_id isr_data (act (AMuOn (mcxl20_MU side_a) (MU_GI_INTR (Z.shiftl 1 vector_id)))).
Definition mcxl20_platform_deinit_interrupt (side_a : bool) (vector_id : Z) : P Z :=
  flag_uninstall vector_id (act (AMuOff (mcxl20_MU side_a) (MU_GI_INTR (Z.shiftl 1 vector_id)))).
Definition mcxl20_platform_notify (side_a : bool) (vector_id : Z) : P unit :=
  flag_notify (peer side_a) vector_id (act (AMuTrigger (mcxl20_MU side_a) (MU_GI_INTR (Z.shiftl 1 (RL_GET_Q_ID vector_id))))).
Definition mcxl20_platform_interrupt_enable (side_a : bool) (vector_id : Z) : P Z :=
  enable_one (act (AIrqOn (mcxl20_IRQn side_a))).
Definition mcxl20_platform_interrupt_disable (side_a : bool) (vector_id : Z) : P Z :=
  disable_one (act (AIrqOff (mcxl20_IRQn side_a));; if side_a then act (AIrqPriority (mcxl20_IRQn side_a) 2) else mret tt).
Definition mcxl20_platform_init : P Z :=
  mcmgr_init.
Definition mcxl20_platform_deinit : P Z :=
  delete_platform_lock.

(** ** [imxrt500_m33]: with the multicore manager, the lock is released twice *)

Definition imxrt500_m33_mcmgr_event_handler (vring_idx : Z) : P unit :=
  on_event vring_idx.
Definition imxrt500_m33_MU_A_IRQHandler : P unit :=
  on_flags "MUA" 0 1.
Definition imxrt500_m33_platform_init_interrupt (vector_id isr_data : Z) : P Z :=
  flag_install vector_id isr_data (act (AMuOn "MUA" (gi_enable vector_id))).
Definition imxrt500_m33_platform_deinit_interrupt (vector_id : Z) : P Z :=
  flag_uninstall vector_id (act (AMuOff "MUA" (gi_enable vector_id))).
Definition imxrt500_m33_platform_notify (vector_id : Z) : P unit :=
  lock_platform;;
  (if RL_USE_MCMGR_IPC_ISR_HANDLER
   then act (AEvent "kMCMGR_Core1" (RL_GET_Q_ID vector_id));; unlock_platform
   else act (AMuTrigger "MUA" (gi_request vector_id)));;
  unlock_platform.
Definition imxrt500_m33_platform_interrupt_enable (vector_id : Z) : P Z :=
  enable_one (act (AIrqOn "MU_A_IRQn")).
Definition imxrt500_m33_platform_interrupt_disable (vector_id : Z) : P Z :=
  disable_one (act (AIrqOff "MU_A_IRQn")).
Definition imxrt500_m33_platform_init : P Z :=
  if RL_USE_MCMGR_IPC_ISR_HANDLER then register_event create_platform_lock
  else acts [AMuInit "MUA"; AIrqPriority "MU_A_IRQn" 3; AIrqOn "MU_A_IRQn"];; create_platform_lock.
Definition imxrt500_m33_platform_deinit : P Z :=
  act (AMuDeinit "MUA");; delete_platform_lock.

(** ** [imxrt600_m33]: with the multicore manager, the lock is released twice *)

Definition imxrt600_m33_mcmgr_event_handler (vring_idx : Z) : P unit :=
  on_event vring_idx.
Definition imxrt600_m33_MU_A_IRQHandler : P unit :=
  on_flags "MUA" 0 1.
Definition imxrt600_m33_platform_init_interrupt (vector_id isr_data : Z) : P Z :=
  flag_install vector_id isr_data (act (AMuOn "MUA" (gi_enable vector_id))).
Definition imxrt600_m33_platform_deinit_interrupt (vector_id : Z) : P Z :=
  flag_uninstall vector_id (act (AMuOff "MUA" (gi_enable vector_id))).
Definition imxrt600_m33_platform_notify (vector_id : Z) : P unit :=
  lock_platform;;
  (if RL_USE_MCMGR_IPC_ISR_HANDLER
   then act (AEvent "kMCMGR_Core1" (RL_GET_Q_ID vector_id));; unlock_platform
   else act (AMuTrigger "MUA" (gi_request vector_id)));;
  unlock_platform.
Definition imxrt600_m33_platform_interrupt_enable (vector_id : Z) : P Z :=
  enable_one (act (AIrqOn "MU_A_IRQn")).
Definition imxrt600_m33_platform_interrupt_disable (vector_id : Z) : P Z :=
  disable_one (act (AIrqOff "MU_A_IRQn")).
Definition imxrt600_m33_platform_init : P Z :=
  if RL_USE_MCMGR_IPC_ISR_HANDLER then register_event create_platform_lock
  else acts [AMuInit "MUA"; AIrqPriority "MU_A_IRQn" 3; AIrqOn "MU_A_IRQn"];; create_platform_lock.
Definition imxrt600_m33_platform_deinit : P Z :=
  act (AMuDeinit "MUA");; delete_platform_lock.

(** ** [imxrt500_fusionf1]: an Xtensa core *)

Definition imxrt500_fusionf1_MU_B_IRQHandler : P unit :=
  on_flags "MUB" 0 1.
Definition imxrt500_fusionf1_platform_init_interrupt (vector_id isr_data : Z) : P Z :=
  flag_install vector_id isr_data (act (AMuOn "MUB" (gi_enable vector_id))).
Definition imxrt500_fusionf1_platform_deinit_interrupt (vector_id : Z) : P Z :=
  flag_uninstall vector_id (act (AMuOff "MUB" (gi_enable vector_id))).
Definition imxrt500_fusionf1_platform_notify (vector_id : Z) : P unit :=
  notify_locked (act (AMuTrigger "MUB" (gi_request vector_id))).
Definition imxrt500_fusionf1_platform_interrupt_enable (vector_id : Z) : P Z :=
  enable_always (act (AIrqOn "DSP_INT0_SEL1_IRQn")).
Definition imxrt500_fusionf1_platform_interrupt_disable (vector_id : Z) : P Z :=
  disable_always (act (AIrqOff "DSP_INT0_SEL1_IRQn")).
Definition imxrt500_fusionf1_platform_init : P Z :=
  r ← create_platform_lock;
  if negb (r =? 0) then mret (-1)
  else act (ACall "set_interrupt_handler DSP_INT0_SEL1_IRQn MU_B_IRQHandler" []);; mret 0.
Definition imxrt500_fusionf1_platform_deinit : P Z :=
  act (ACall "set_interrupt_handler DSP_INT0_SEL1_IRQn NULL" []);; delete_platform_lock.

(** ** [imxrt600_hifi4]: an Xtensa core *)

Definition imxrt600_hifi4_MU_B_IRQHandler : P unit :=
  on_flags "MUB" 0 1.
Definition imxrt600_hifi4_platform_init_interrupt (vector_id isr_data : Z) : P Z :=
  flag_install vector_id isr_data (act (AMuOn "MUB" (gi_enable vector_id))).
Definition imxrt600_hifi4_platform_deinit_interrupt (vector_id : Z) : P Z :=
  flag_uninstall vector_id (act (AMuOff "MUB" (gi_enable vector_id))).
Definition imxrt600_hifi4_platform_notify (vector_id : Z) : P unit :=
  notify_locked (act (AMuTrigger "MUB" (gi_request vector_id))).
Definition imxrt600_hifi4_platform_interrupt_enable (vector_id : Z) : P Z :=
  enable_always (act (AIrqOn "DSP_INT0_SEL1_IRQn")).
Definition imxrt600_hifi4_platform_interrupt_disable (vector_id : Z) : P Z :=
  disable_always (act (AIrqOff "DSP_INT0_SEL1_IRQn")).
Definition imxrt600_hifi4_platform_init : P Z :=
  r ← create_platform_lock;
  if negb (r =? 0) then mret (-1)
  else act (ACall "set_interrupt_handler DSP_INT0_SEL1_IRQn MU_B_IRQHandler" []);; mret 0.
Definition imxrt600_hifi4_platform_deinit : P Z :=
  act (ACall "set_interrupt_handler DSP_INT0_SEL1_IRQn NULL" []);; delete_platform_lock.

(** ** [imxrt700]: four cores, six channels *)

Definition imxrt700_m33_M33_0_M33_1_COM_ID : Z := 0.
Definition imxrt700_m33_M33_0_HIFI4_COM_ID : Z := 1.
Definition imxrt700_m33_M33_1_HIFI1_COM_ID : Z := 2.
Definition imxrt700_m33_M33_0_EZHV_COM_ID : Z := 3.
Definition imxrt700_m33_M33_0_HIFI1_COM_ID : Z := 4.
Definition imxrt700_m33_M33_1_HIFI4_COM_ID : Z := 5.

(** The two flags of a channel in its handler, the request and enable of a flag. *)
Definition com_flags (mu : string) (com : Z) : P unit := on_flags mu (Z.shiftl com 3) (Z.lor 1 (Z.shiftl com 3)).
Definition gi (vector_id : Z) : Z := MU_GI_INTR (Z.shiftl 1 (RL_GET_Q_ID vector_id)).
Definition com_install (vector_id isr_data : Z) (cases : list (Z * nat * P unit)) : P Z :=
  when_locked (install vector_id isr_data
    (com_case vector_id ((λ '(com, k, on), (com, count_up k below_two on)) <$> cases))).
Definition com_uninstall (vector_id : Z) (cases : list (Z * nat * P unit)) : P Z :=
  when_locked (uninstall vector_id
    (com_case vector_id ((λ '(com, k, off), (com, count_down k below_two off)) <$> cases))).
Definition com_notify (vector_id : Z) (events : list (Z * string)) (cases : list (Z * nat * P unit)) : P unit :=
  notify_locked
    (if RL_USE_MCMGR_IPC_ISR_HANDLER
     then com_case vector_id ((λ '(com, core), (com, act (AEvent core (Z.land vector_id 65535)))) <$> events)
     else com_case vector_id ((λ '(com, k, m), (com, m)) <$> cases)).

(** The channels of a Cortex-M33, with the unit each has on this core; the
    counters of the others count, too. *)
Definition imxrt700_m33_cases (core1 : bool) (mu : string → P unit) (ezhv : P unit) : list (Z * nat * P unit) :=
  [(imxrt700_m33_M33_0_M33_1_COM_ID, 0%nat, mu (if core1 then "MU1_MUB" else "MU1_MUA"));
   (imxrt700_m33_M33_0_HIFI4_COM_ID, 1%nat, if core1 then mret tt else mu "MU4_MUA");
   (imxrt700_m33_M33_1_HIFI1_COM_ID, 2%nat, if core1 then mu "MU3_MUA" else mret tt);
   (imxrt700_m33_M33_0_EZHV_COM_ID, 3%nat, if core1 then mret tt else ezhv);
   (imxrt700_m33_M33_0_HIFI1_COM_ID, 4%nat, if core1 then mret tt else mu "MU0_MUA");
   (imxrt700_m33_M33_1_HIFI4_COM_ID, 5%nat, if core1 then mu "MU2_MUB" else mret tt)].
Definition imxrt700_m33_lines (core1 : bool) : list (Z * nat * option string) :=
  [(imxrt700_m33_M33_0_M33_1_COM_ID, 0%nat, Some (if core1 then "MU1_B_IRQn" else "MU1_A_IRQn"));
   (imxrt700_m33_M33_0_HIFI4_COM_ID, 1%nat, if core1 then None else Some "MU4_A_IRQn");
   (imxrt700_m33_M33_1_HIFI1_COM_ID, 2%nat, if core1 then Some "MU3_A_IRQn" else None);
   (imxrt700_m33_M33_0_EZHV_COM_ID, 3%nat, if core1 then None else Some "EZHV_IRQn");
   (imxrt700_m33_M33_0_HIFI1_COM_ID, 4%nat, if core1 then None else Some "MU0_A_IRQn");
   (imxrt700_m33_M33_1_HIFI4_COM_ID, 5%nat, if core1 then Some "MU2_B_IRQn" else None)].
Definition imxrt700_m33_events (core1 : bool) : list (Z * string) :=
  if core1
  then [(imxrt700_m33_M33_0_M33_1_COM_ID, "kMCMGR_Core0"); (imxrt700_m33_M33_1_HIFI1_COM_ID, "kMCMGR_Core3");
        (imxrt700_m33_M33_1_HIFI4_COM_ID, "kMCMGR_Core2")]
  else [(imxrt700_m33_M33_0_M33_1_COM_ID, "kMCMGR_Core1"); (imxrt700_m33_M33_0_HIFI4_COM_ID, "kMCMGR_Core2");
        (imxrt700_m33_M33_0_HIFI1_COM_ID, "kMCMGR_Core3")].
Definition imxrt700_m33_mcmgr_event_handler (vring_idx : Z) : P unit :=
  on_event vring_idx.
Definition imxrt700_m33_MU0_A_IRQHandler : P unit :=
  com_flags "MU0_MUA" imxrt700_m33_M33_0_HIFI1_COM_ID.
Definition imxrt700_m33_MU1_A_IRQHandler : P unit :=
  com_flags "MU1_MUA" imxrt700_m33_M33_0_M33_1_COM_ID.
Definition imxrt700_m33_MU4_A_IRQHandler : P unit :=
  com_flags "MU4_MUA" imxrt700_m33_M33_0_HIFI4_COM_ID.
Definition imxrt700_m33_MU1_B_IRQHandler : P unit :=
  com_flags "MU1_MUB" imxrt700_m33_M33_0_M33_1_COM_ID.
Definition imxrt700_m33_MU2_B_IRQHandler : P unit :=
  com_flags "MU2_MUB" imxrt700_m33_M33_0_M33_1_COM_ID.
Definition imxrt700_m33_MU3_A_IRQHandler : P unit :=
  com_flags "MU3_MUA" imxrt700_m33_M33_1_HIFI1_COM_ID.
Definition imxrt700_m33_ezhv_callback0 : P unit :=
  act (AIsr (Z.shiftl imxrt700_m33_M33_0_EZHV_COM_ID 3)).
Definition imxrt700_m33_ezhv_callback1 : P unit :=
  act (AIsr (Z.lor 1 (Z.shiftl imxrt700_m33_M33_0_EZHV_COM_ID 3))).
Definition imxrt700_m33_platform_init_interrupt (core1 : bool) (vector_id isr_data : Z) : P Z :=
  com_install vector_id isr_data
    (imxrt700_m33_cases core1 (λ mu, act (AMuOn mu (gi vector_id)))
      (acts [ACall "EZHV_EnableEzhv2ArmIntChan" [0]; ACall "EZHV_EnableEzhv2ArmIntChan" [1]])).
Definition imxrt700_m33_platform_deinit_interrupt (core1 : bool) (vector_id : Z) : P Z :=
  com_uninstall vector_id
    (imxrt700_m33_cases core1 (λ mu, act (AMuOff mu (gi vector_id)))
      (acts [ACall "EZHV_DisableEzhv2ArmIntChan" [0]; ACall "EZHV_DisableEzhv2ArmIntChan" [1]])).
Definition imxrt700_m33_platform_notify (core1 : bool) (vector_id : Z) : P unit :=
  com_notify vector_id (imxrt700_m33_events core1)
    (imxrt700_m33_cases core1 (λ mu, act (AMuTrigger mu (gi vector_id)))
      (act (ACall (if negb (RL_GET_Q_ID vector_id =? 0) then "EZHV_EnableArm2EzhvInt kEZHV_ARM2EZHV_MEI"
                   else "EZHV_EnableArm2EzhvInt kEZHV_ARM2EZHV_MSI") []))).
Definition imxrt700_m33_platform_interrupt_enable (core1 : bool) (vector_id : Z) : P Z :=
  enable_com vector_id (imxrt700_m33_lines core1).
Definition imxrt700_m33_platform_interrupt_disable (core1 : bool) (vector_id : Z) : P Z :=
  disable_com vector_id (imxrt700_m33_lines core1).
Definition imxrt700_m33_platform_init (core1 : bool) : P Z :=
  if RL_USE_MCMGR_IPC_ISR_HANDLER then register_event create_platform_lock
  else
    acts (if core1
      then [AMuInit "MU1_MUB"; AIrqPriority "MU1_B_IRQn" 3; AIrqOn "MU1_B_IRQn";
            AMuInit "MU3_MUA"; AIrqPriority "MU3_A_IRQn" 3; AIrqOn "MU3_A_IRQn";
            AMuInit "MU2_MUB"; AIrqPriority "MU2_B_IRQn" 3; AIrqOn "MU2_B_IRQn"]
      else [AMuInit "MU1_MUA"; AIrqPriority "MU1_A_IRQn" 3; AIrqOn "MU1_A_IRQn";
            AMuInit "MU4_MUA"; AIrqPriority "MU4_A_IRQn" 3; AIrqOn "MU4_A_IRQn";
            AMuInit "MU0_MUA"; AIrqPriority "MU0_A_IRQn" 3; AIrqOn "MU0_A_IRQn";
            ACall "EZHV_SetCallback ezhv_callback0" [0]; ACall "EZHV_SetCallback ezhv_callback1" [1];
            AIrqPriority "EZHV_IRQn" 3; AIrqOn "EZHV_IRQn"]);;
    create_platform_lock.
Definition imxrt700_m33_platform_deinit (core1 : bool) : P Z :=
  (if RL_USE_MCMGR_IPC_ISR_HANDLER then mret tt
   else acts (if core1 then [AMuDeinit "MU1_MUB"; AMuDeinit "MU3_MUA"; AMuDeinit "MU2_MUB"]
              else [AMuDeinit "MU1_MUA"; AMuDeinit "MU4_MUA"; AMuDeinit "MU0_MUA"]));;
  delete_platform_lock.

(** ** [imxrt700_hifi1]: an Xtensa core *)

Definition imxrt700_hifi1_M33_0_HIFI1_COM_ID : Z := 4.
Definition imxrt700_hifi1_M33_1_HIFI1_COM_ID : Z := 2.
Definition imxrt700_hifi1_cases (mu : string → P unit) : list (Z * nat * P unit) :=
  [(imxrt700_hifi1_M33_0_HIFI1_COM_ID, 0%nat, mu "MU0_MUB"); (imxrt700_hifi1_M33_1_HIFI1_COM_ID, 1%nat, mu "MU3_MUB")].
Definition imxrt700_hifi1_mcmgr_event_handler (vring_idx : Z) : P unit :=
  on_event vring_idx.
Definition imxrt700_hifi1_MU0_B_IRQHandler : P unit :=
  com_flags "MU0_MUB" imxrt700_hifi1_M33_0_HIFI1_COM_ID.
Definition imxrt700_hifi1_MU3_B_IRQHandler : P unit :=
  com_flags "MU3_MUB" imxrt700_hifi1_M33_1_HIFI1_COM_ID.
Definition imxrt700_hifi1_platform_init_interrupt (vector_id isr_data : Z) : P Z :=
  com_install vector_id isr_data (imxrt700_hifi1_cases (λ mu, act (AMuOn mu (gi vector_id)))).
Definition imxrt700_hifi1_platform_deinit_interrupt (vector_id : Z) : P Z :=
  com_uninstall vector_id (imxrt700_hifi1_cases (λ mu, act (AMuOff mu (gi vector_id)))).
Definition imxrt700_hifi1_platform_notify (vector_id : Z) : P unit :=
  com_notify vector_id [(imxrt700_hifi1_M33_0_HIFI1_COM_ID, "kMCMGR_Core0"); (imxrt700_hifi1_M33_1_HIFI1_COM_ID, "kMCMGR_Core1")]
    (imxrt700_hifi1_cases (λ mu, act (AMuTrigger mu (gi vector_id)))).
Definition imxrt700_hifi1_platform_interrupt_enable (vector_id : Z) : P Z :=
  enable_always (acts [AIrqOn "DSP_INT0_SEL1_IRQn"; AIrqOn "DSP_INT0_SEL2_IRQn"]).
Definition imxrt700_hifi1_platform_interrupt_disable (vector_id : Z) : P Z :=
  disable_always (acts [AIrqOff "DSP_INT0_SEL1_IRQn"; AIrqOff "DSP_INT0_SEL2_IRQn"]).
Definition imxrt700_hifi1_platform_init : P Z :=
  r ← create_platform_lock;
  if negb (r =? 0) then mret (-1)
  else if RL_USE_MCMGR_IPC_ISR_HANDLER then register_event (mret 0)
  else
    acts [AMuInit "MU0_MUB"; AMuInit "MU3_MUB"; ACall "INPUTMUX_Init INPUTMUX1" [];
       ACall "INPUTMUX_AttachSignal INPUTMUX1 kINPUTMUX_Mu0BToDspInterrupt" [2];
       ACall "INPUTMUX_AttachSignal INPUTMUX1 kINPUTMUX_Mu3BToDspInterrupt" [1];
       ACall "set_interrupt_handler DSP_INT0_SEL1_IRQn MU3_B_IRQHandler" [];
       ACall "set_interrupt_handler DSP_INT0_SEL2_IRQn MU0_B_IRQHandler" []];;
    mret 0.
Definition imxrt700_hifi1_platform_deinit : P Z :=
  acts [AMuDeinit "MU0_MUB"; AMuDeinit "MU3_MUB"; ACall "set_interrupt_handler DSP_INT0_SEL1_IRQn NULL" [];
    ACall "set_interrupt_handler DSP_INT0_SEL2_IRQn NULL" []];;
  delete_platform_lock.

(** ** [imxrt700_hifi4]: an Xtensa core *)

Definition imxrt700_hifi4_M33_0_HIFI4_COM_ID : Z := 1.
Definition imxrt700_hifi4_M33_1_HIFI4_COM_ID : Z := 5.
Definition imxrt700_hifi4_cases (mu : string → P unit) : list (Z * nat * P unit) :=
  [(imxrt700_hifi4_M33_0_HIFI4_COM_ID, 0%nat, mu "MU4_MUB"); (imxrt700_hifi4_M33_1_HIFI4_COM_ID, 1%nat, mu "MU2_MUA")].
Definition imxrt700_hifi4_mcmgr_event_handler (vring_idx : Z) : P unit :=
  on_event vring_idx.
Definition imxrt700_hifi4_MU4_B_IRQHandler : P unit :=
  com_flags "MU4_MUB" imxrt700_hifi4_M33_0_HIFI4_COM_ID.
Definition imxrt700_hifi4_MU2_A_IRQHandler : P unit :=
  com_flags "MU2_MUA" imxrt700_hifi4_M33_1_HIFI4_COM_ID.
Definition imxrt700_hifi4_platform_init_interrupt (vector_id isr_data : Z) : P Z :=
  com_install vector_id isr_data (imxrt700_hifi4_cases (λ mu, act (AMuOn mu (gi vector_id)))).
Definition imxrt700_hifi4_platform_deinit_interrupt (vector_id : Z) : P Z :=
  com_uninstall vector_id (imxrt700_hifi4_cases (λ mu, act (AMuOff mu (gi vector_id)))).
Definition imxrt700_hifi4_platform_notify (vector_id : Z) : P unit :=
  com_notify vector_id [(imxrt700_hifi4_M33_0_HIFI4_COM_ID, "kMCMGR_Core0"); (imxrt700_hifi4_M33_1_HIFI4_COM_ID, "kMCMGR_Core1")]
    (imxrt700_hifi4_cases (λ mu, act (AMuTrigger mu (gi vector_id)))).
Definition imxrt700_hifi4_platform_interrupt_enable (vector_id : Z) : P Z :=
  enable_always (acts [AIrqOn "DSP_INT0_SEL1_IRQn"; AIrqOn "DSP_INT0_SEL2_IRQn"]).
Definition imxrt700_hifi4_platform_interrupt_disable (vector_id : Z) : P Z :=
  disable_always (acts [AIrqOff "DSP_INT0_SEL1_IRQn"; AIrqOff "DSP_INT0_SEL2_IRQn"]).
Definition imxrt700_hifi4_platform_init : P Z :=
  r ← create_platform_lock;
  if negb (r =? 0) then mret (-1)
  else if RL_USE_MCMGR_IPC_ISR_HANDLER then register_event (mret 0)
  else
    acts [AMuInit "MU2_MUA"; AMuInit "MU4_MUB"; ACall "INPUTMUX_Init INPUTMUX0" [];
       ACall "INPUTMUX_AttachSignal INPUTMUX0 kINPUTMUX_Mu4BToDspInterrupt" [1];
       ACall "INPUTMUX_AttachSignal INPUTMUX0 kINPUTMUX_Mu2AToDspInterrupt" [2];
       ACall "set_interrupt_handler DSP_INT0_SEL1_IRQn MU4_B_IRQHandler" [];
       ACall "set_interrupt_handler DSP_INT0_SEL2_IRQn MU2_A_IRQHandler" []];;
    mret 0.
Definition imxrt700_hifi4_platform_deinit : P Z :=
  acts [AMuDeinit "MU4_MUB"; ACall "set_interrupt_handler DSP_INT0_SEL1_IRQn NULL" [];
    ACall "set_interrupt_handler DSP_INT0_SEL2_IRQn NULL" []];;
  delete_platform_lock.

(** ** [imxrt700_ezhv]: a RISC-V core, whose only mask is the global one *)

Definition imxrt700_ezhv_M33_0_EZHV_COM_ID : Z := 3.
Definition imxrt700_ezhv_mcmgr_event_handler (vring_idx : Z) : P unit :=
  on_event vring_idx.
Definition imxrt700_ezhv_MachineSoftInt_Handler : P unit :=
  act (AIsr (Z.shiftl imxrt700_ezhv_M33_0_EZHV_COM_ID 3)).
Definition imxrt700_ezhv_MachineExtInt_Handler : P unit :=
  act (AIsr (Z.lor 1 (Z.shiftl imxrt700_ezhv_M33_0_EZHV_COM_ID 3))).
Definition imxrt700_ezhv_platform_init_interrupt (vector_id isr_data : Z) : P Z :=
  com_install vector_id isr_data [(imxrt700_ezhv_M33_0_EZHV_COM_ID, 0%nat,
    acts [ACall "EnableMachineModeInt kEZHV_Mie_Msie" []; ACall "EnableMachineModeInt kEZHV_Mie_Meie" []])].
Definition imxrt700_ezhv_platform_deinit_interrupt (vector_id : Z) : P Z :=
  when_locked (uninstall vector_id (com_case vector_id [(imxrt700_ezhv_M33_0_EZHV_COM_ID,
    count_up 0 below_two
      (acts [ACall "DisableMachineModeInt kEZHV_Mie_Msie" []; ACall "DisableMachineModeInt kEZHV_Mie_Meie" []]))])).
Definition imxrt700_ezhv_platform_notify (vector_id : Z) : P unit :=
  flag_notify "kMCMGR_RemoteRPMsgEvent" vector_id
    (com_case vector_id [(imxrt700_ezhv_M33_0_EZHV_COM_ID,
      act (ACall "XZMSG_IndIntChan" [Z.shiftl 1 (RL_GET_Q_ID vector_id)]))]).
Definition imxrt700_ezhv_platform_interrupt_enable (vector_id : Z) : P Z :=
  act AMask;;
  com_case vector_id [(imxrt700_ezhv_M33_0_EZHV_COM_ID, assert_masked 0;; unmask_count 0 (act AUnmask))];;
  act AUnmask;; mret 0.
Definition imxrt700_ezhv_platform_interrupt_disable (vector_id : Z) : P Z :=
  act AMask;;
  com_case vector_id [(imxrt700_ezhv_M33_0_EZHV_COM_ID, assert_mask_ok 0;; mask_count 0 (act AMask))];;
  act AUnmask;; mret 0.
Definition imxrt700_ezhv_platform_init : P Z :=
  if RL_USE_MCMGR_IPC_ISR_HANDLER then register_event create_platform_lock
  else act AUnmask;; create_platform_lock.
Definition imxrt700_ezhv_platform_deinit : P Z :=
  delete_platform_lock.

(** ** The platforms of the K32W1 family

    The cores share an inter-core messaging unit (IMU) with one interrupt; the
    peer is rung by the multicore manager, and not at all without it. *)

Definition IMU_IRQn (core1 : bool) : string := if core1 then "CPU2_MSG_RDY_INT_IRQn" else "RF_IMU0_IRQn".
Definition IMU_call (f g : string) (core1 : bool) : P unit := act (ACall (if core1 then g else f) []).


(** ** [k32w1] *)

Definition k32w1_mcmgr_event_handler (vring_idx : Z) : P unit :=
  on_event vring_idx.
Definition k32w1_imu_rx_isr (core1 : bool) : P unit :=
  act (AIsr 0);;
  IMU_call "IMU_ClearPendingInterrupts kIMU_LinkCpu1Cpu2" "IMU_ClearPendingInterrupts kIMU_LinkCpu2Cpu1" core1.
Definition k32w1_RF_IMU0_IRQHandler : P Z :=
  k32w1_imu_rx_isr false;; act (ACall "SDK_ISR_EXIT_BARRIER" []);; mret 0.
Definition k32w1_CPU2_MSG_RDY_INT_IRQHandler : P Z :=
  k32w1_imu_rx_isr true;; act (ACall "SDK_ISR_EXIT_BARRIER" []);; mret 0.
Definition k32w1_platform_init_interrupt (core1 : bool) (vector_id isr_data : Z) : P Z :=
  flag_install vector_id isr_data (act (AIrqOn (IMU_IRQn core1))).
Definition k32w1_platform_deinit_interrupt (core1 : bool) (vector_id : Z) : P Z :=
  flag_uninstall vector_id (act (AIrqOff (IMU_IRQn core1))).
Definition k32w1_platform_notify (core1 : bool) (vector_id : Z) : P unit :=
  flag_notify (peer (negb core1)) vector_id (mret tt).
Definition k32w1_platform_interrupt_enable (core1 : bool) (vector_id : Z) : P Z :=
  enable_one (act (AIrqOn (IMU_IRQn core1))).
Definition k32w1_platform_interrupt_disable (core1 : bool) (vector_id : Z) : P Z :=
  disable_one (act (AIrqOff (IMU_IRQn core1))).
Definition k32w1_platform_init (core1 : bool) : P Z :=
  if RL_USE_MCMGR_IPC_ISR_HANDLER then register_event create_platform_lock
  else
    IMU_call "IMU_Init kIMU_LinkCpu1Cpu2" "IMU_Init kIMU_LinkCpu2Cpu1" core1;;
    acts [AIrqPriority (IMU_IRQn core1) 3; AIrqOn (IMU_IRQn core1)];;
    create_platform_lock.
Definition k32w1_platform_deinit (core1 : bool) : P Z :=
  IMU_call "IMU_Deinit kIMU_LinkCpu1Cpu2" "IMU_Deinit kIMU_LinkCpu2Cpu1" core1;; delete_platform_lock.

(** ** [kw45b41] *)

Definition kw45b41_mcmgr_event_handler (vring_idx : Z) : P unit :=
  on_event vring_idx.
Definition kw45b41_imu_rx_isr (core1 : bool) : P unit :=
  act (AIsr 0);;
  IMU_call "IMU_ClearPendingInterrupts kIMU_LinkCpu1Cpu2" "IMU_ClearPendingInterrupts kIMU_LinkCpu2Cpu1" core1.
Definition kw45b41_RF_IMU0_IRQHandler : P Z :=
  kw45b41_imu_rx_isr false;; act (ACall "SDK_ISR_EXIT_BARRIER" []);; mret 0.
Definition kw45b41_CPU2_MSG_RDY_INT_IRQHandler : P Z :=
  kw45b41_imu_rx_isr true;; act (ACall "SDK_ISR_EXIT_BARRIER" []);; mret 0.
Definition kw45b41_platform_init_interrupt (core1 : bool) (vector_id isr_data : Z) : P Z :=
  flag_install vector_id isr_data (act (AIrqOn (IMU_IRQn core1))).
Definition kw45b41_platform_deinit_interrupt (core1 : bool) (vector_id : Z) : P Z :=
  flag_uninstall vector_id (act (AIrqOff (IMU_IRQn core1))).
Definition kw45b41_platform_notify (core1 : bool) (vector_id : Z) : P unit :=
  flag_notify (peer (negb core1)) vector_id (mret tt).
Definition kw45b41_platform_interrupt_enable (core1 : bool) (vector_id : Z) : P Z :=
  enable_one (act (AIrqOn (IMU_IRQn core1))).
Definition kw45b41_platform_interrupt_disable (core1 : bool) (vector_id : Z) : P Z :=
  disable_one (act (AIrqOff (IMU_IRQn core1))).
Definition kw45b41_platform_init (core1 : bool) : P Z :=
  if RL_USE_MCMGR_IPC_ISR_HANDLER then register_event create_platform_lock
  else
    IMU_call "IMU_Init kIMU_LinkCpu1Cpu2" "IMU_Init kIMU_LinkCpu2Cpu1" core1;;
    acts [AIrqPriority (IMU_IRQn core1) 3; AIrqOn (IMU_IRQn core1)];;
    create_platform_lock.
Definition kw45b41_platform_deinit (core1 : bool) : P Z :=
  IMU_call "IMU_Deinit kIMU_LinkCpu1Cpu2" "IMU_Deinit kIMU_LinkCpu2Cpu1" core1;; delete_platform_lock.

(** ** [kw47b42] *)

Definition kw47b42_mcmgr_event_handler (vring_idx : Z) : P unit :=
  on_event vring_idx.
Definition kw47b42_imu_rx_isr (core1 : bool) : P unit :=
  act (AIsr 0);;
  IMU_call "IMU_ClearPendingInterrupts kIMU_LinkCpu1Cpu2" "IMU_ClearPendingInterrupts kIMU_LinkCpu2Cpu1" core1.
Definition kw47b42_RF_IMU0_IRQHandler : P Z :=
  kw47b42_imu_rx_isr false;; act (ACall "SDK_ISR_EXIT_BARRIER" []);; mret 0.
Definition kw47b42_CPU2_MSG_RDY_INT_IRQHandler : P Z :=
  kw47b42_imu_rx_isr true;; act (ACall "SDK_ISR_EXIT_BARRIER" []);; mret 0.
Definition kw47b42_platform_init_interrupt (core1 : bool) (vector_id isr_data : Z) : P Z :=
  flag_install vector_id isr_data (act (AIrqOn (IMU_IRQn core1))).
Definition kw47b42_platform_deinit_interrupt (core1 : bool) (vector_id : Z) : P Z :=
  flag_uninstall vector_id (act (AIrqOff (IMU_IRQn core1))).
Definition kw47b42_platform_notify (core1 : bool) (vector_id : Z) : P unit :=
  flag_notify (peer (negb core1)) vector_id (mret tt).
Definition kw47b42_platform_interrupt_enable (core1 : bool) (vector_id : Z) : P Z :=
  enable_one (act (AIrqOn (IMU_IRQn core1))).
Definition kw47b42_platform_interrupt_disable (core1 : bool) (vector_id : Z) : P Z :=
  disable_one (act (AIrqOff (IMU_IRQn core1))).
Definition kw47b42_platform_init (core1 : bool) : P Z :=
  if RL_USE_MCMGR_IPC_ISR_HANDLER then register_event create_platform_lock
  else
    IMU_call "IMU_Init kIMU_LinkCpu1Cpu2" "IMU_Init kIMU_LinkCpu2Cpu1" core1;;
    acts [AIrqPriority (IMU_IRQn core1) 3; AIrqOn (IMU_IRQn core1)];;
    create_platform_lock.
Definition kw47b42_platform_deinit (core1 : bool) : P Z :=
  IMU_call "IMU_Deinit kIMU_LinkCpu1Cpu2" "IMU_Deinit kIMU_LinkCpu2Cpu1" core1;; delete_platform_lock.

(** ** [mcxw71x] *)

Definition mcxw71x_mcmgr_event_handler (vring_idx : Z) : P unit :=
  on_event vring_idx.
Definition mcxw71x_imu_rx_isr (core1 : bool) : P unit :=
  act (AIsr 0);;
  IMU_call "IMU_ClearPendingInterrupts kIMU_LinkCpu1Cpu2" "IMU_ClearPendingInterrupts kIMU_LinkCpu2Cpu1" core1.
Definition mcxw71x_RF_IMU0_IRQHandler : P Z :=
  mcxw71x_imu_rx_isr false;; act (ACall "SDK_ISR_EXIT_BARRIER" []);; mret 0.
Definition mcxw71x_CPU2_MSG_RDY_INT_IRQHandler : P Z :=
  mcxw71x_imu_rx_isr true;; act (ACall "SDK_ISR_EXIT_BARRIER" []);; mret 0.
Definition mcxw71x_platform_init_interrupt (core1 : bool) (vector_id isr_data : Z) : P Z :=
  flag_install vector_id isr_data (act (AIrqOn (IMU_IRQn core1))).
Definition mcxw71x_platform_deinit_interrupt (core1 : bool) (vector_id : Z) : P Z :=
  flag_uninstall vector_id (act (AIrqOff (IMU_IRQn core1))).
Definition mcxw71x_platform_notify (core1 : bool) (vector_id : Z) : P unit :=
  flag_notify (peer (negb core1)) vector_id (mret tt).
Definition mcxw71x_platform_interrupt_enable (core1 : bool) (vector_id : Z) : P Z :=
  enable_one (act (AIrqOn (IMU_IRQn core1))).
Definition mcxw71x_platform_interrupt_disable (core1 : bool) (vector_id : Z) : P Z :=
  disable_one (act (AIrqOff (IMU_IRQn core1))).
Definition mcxw71x_platform_init (core1 : bool) : P Z :=
  if RL_USE_MCMGR_IPC_ISR_HANDLER then register_event create_platform_lock
  else
    IMU_call "IMU_Init kIMU_LinkCpu1Cpu2" "IMU_Init kIMU_LinkCpu2Cpu1" core1;;
    acts [AIrqPriority (IMU_IRQn core1) 3; AIrqOn (IMU_IRQn core1)];;
    create_platform_lock.
Definition mcxw71x_platform_deinit (core1 : bool) : P Z :=
  IMU_call "IMU_Deinit kIMU_LinkCpu1Cpu2" "IMU_Deinit kIMU_LinkCpu2Cpu1" core1;; delete_platform_lock.

(** ** [mcxw72x] *)

Definition mcxw72x_mcmgr_event_handler (vring_idx : Z) : P unit :=
  on_event vring_idx.
Definition mcxw72x_imu_rx_isr (core1 : bool) : P unit :=
  act (AIsr 0);;
  IMU_call "IMU_ClearPendingInterrupts kIMU_LinkCpu1Cpu2" "IMU_ClearPendingInterrupts kIMU_LinkCpu2Cpu1" core1.
Definition mcxw72x_RF_IMU0_IRQHandler : P Z :=
  mcxw72x_imu_rx_isr false;; act (ACall "SDK_ISR_EXIT_BARRIER" []);; mret 0.
Definition mcxw72x_CPU2_MSG_RDY_INT_IRQHandler : P Z :=
  mcxw72x_imu_rx_isr true;; act (ACall "SDK_ISR_EXIT_BARRIER" []);; mret 0.
Definition mcxw72x_platform_init_interrupt (core1 : bool) (vector_id isr_data : Z) : P Z :=
  flag_install vector_id isr_data (act (AIrqOn (IMU_IRQn core1))).
Definition mcxw72x_platform_deinit_interrupt (core1 : bool) (vector_id : Z) : P Z :=
  flag_uninstall vector_id (act (AIrqOff (IMU_IRQn core1))).
Definition mcxw72x_platform_notify (core1 : bool) (vector_id : Z) : P unit :=
  flag_notify (peer (negb core1)) vector_id (mret tt).
Definition mcxw72x_platform_interrupt_enable (core1 : bool) (vector_id : Z) : P Z :=
  enable_one (act (AIrqOn (IMU_IRQn core1))).
Definition mcxw72x_platform_interrupt_disable (core1 : bool) (vector_id : Z) : P Z :=
  disable_one (act (AIrqOff (IMU_IRQn core1))).
Definition mcxw72x_platform_init (core1 : bool) : P Z :=
  if RL_USE_MCMGR_IPC_ISR_HANDLER then register_event create_platform_lock
  else
    IMU_call "IMU_Init kIMU_LinkCpu1Cpu2" "IMU_Init kIMU_LinkCpu2Cpu1" core1;;
    acts [AIrqPriority (IMU_IRQn core1) 3; AIrqOn (IMU_IRQn core1)];;
    create_platform_lock.
Definition mcxw72x_platform_deinit (core1 : bool) : P Z :=
  IMU_call "IMU_Deinit kIMU_LinkCpu1Cpu2" "IMU_Deinit kIMU_LinkCpu2Cpu1" core1;; delete_platform_lock.

(** ** [lpc5410x]: the mailbox *)

Definition lpc5410x_LINK_ID : Z := 0.
Definition lpc5410x_cpu (side_a : bool) : string := if side_a then "kMAILBOX_CM4" else "kMAILBOX_CM0Plus".
Definition lpc5410x_mcmgr_event_handler (vring_idx : Z) : P unit :=
  on_event vring_idx.
Definition lpc5410x_MAILBOX_IRQHandler (side_a : bool) : P unit :=
  on_mailbox (lpc5410x_cpu side_a);; dsb.
Definition lpc5410x_platform_init_interrupt (side_a : bool) (vector_id isr_data : Z) : P Z :=
  install vector_id isr_data (count_up 0 first (act (AIrqPriority "MAILBOX_IRQn" (if side_a then 5 else 2)))).
Definition lpc5410x_platform_deinit_interrupt (vector_id : Z) : P Z :=
  uninstall vector_id (count_down 0 first (act (AIrqOff "MAILBOX_IRQn"))).
Definition lpc5410x_platform_notify (side_a : bool) (vector_id : Z) : P unit :=
  if RL_USE_MCMGR_IPC_ISR_HANDLER
  then notify_locked (act (AEvent (peer side_a) (RL_GET_Q_ID vector_id)))
  else if RL_GET_LINK_ID vector_id =? lpc5410x_LINK_ID
  then notify_locked (act (AMailboxSet (lpc5410x_cpu (negb side_a)) (Z.shiftl 1 (RL_GET_Q_ID vector_id))))
  else mret tt.
Definition lpc5410x_platform_interrupt_enable (vector_id : Z) : P Z :=
  enable_one (act (AIrqOn "MAILBOX_IRQn")).
Definition lpc5410x_platform_interrupt_disable (vector_id : Z) : P Z :=
  disable_one (act (AIrqOff "MAILBOX_IRQn")).
Definition lpc5410x_platform_init : P Z :=
  if RL_USE_MCMGR_IPC_ISR_HANDLER then register_event create_platform_lock
  else act (ACall "MAILBOX_Init" []);; create_platform_lock.
Definition lpc5410x_platform_deinit (side_a : bool) : P Z :=
  await_mailbox (lpc5410x_cpu (negb side_a));; act (ACall "MAILBOX_Deinit" []);; delete_platform_lock.

(** ** [lpc5411x]: the mailbox *)

Definition lpc5411x_LINK_ID : Z := 0.
Definition lpc5411x_cpu (side_a : bool) : string := if side_a then "kMAILBOX_CM4" else "kMAILBOX_CM0Plus".
Definition lpc5411x_mcmgr_event_handler (vring_idx : Z) : P unit :=
  on_event vring_idx.
Definition lpc5411x_MAILBOX_IRQHandler (side_a : bool) : P unit :=
  on_mailbox (lpc5411x_cpu side_a);; dsb.
Definition lpc5411x_platform_init_interrupt (side_a : bool) (vector_id isr_data : Z) : P Z :=
  install vector_id isr_data (count_up 0 first (act (AIrqPriority "MAILBOX_IRQn" (if side_a then 5 else 2)))).
Definition lpc5411x_platform_deinit_interrupt (vector_id : Z) : P Z :=
  uninstall vector_id (count_down 0 first (act (AIrqOff "MAILBOX_IRQn"))).
Definition lpc5411x_platform_notify (side_a : bool) (vector_id : Z) : P unit :=
  if RL_USE_MCMGR_IPC_ISR_HANDLER
  then notify_locked (act (AEvent (peer side_a) (RL_GET_Q_ID vector_id)))
  else if RL_GET_LINK_ID vector_id =? lpc5411x_LINK_ID
  then notify_locked (act (AMailboxSet (lpc5411x_cpu (negb side_a)) (Z.shiftl 1 (RL_GET_Q_ID vector_id))))
  else mret tt.
Definition lpc5411x_platform_interrupt_enable (vector_id : Z) : P Z :=
  enable_one (act (AIrqOn "MAILBOX_IRQn")).
Definition lpc5411x_platform_interrupt_disable (vector_id : Z) : P Z :=
  disable_one (act (AIrqOff "MAILBOX_IRQn")).
Definition lpc5411x_platform_init : P Z :=
  if RL_USE_MCMGR_IPC_ISR_HANDLER then register_event create_platform_lock
  else act (ACall "MAILBOX_Init" []);; create_platform_lock.
Definition lpc5411x_platform_deinit (side_a : bool) : P Z :=
  await_mailbox (lpc5411x_cpu (negb side_a));; act (ACall "MAILBOX_Deinit" []);; delete_platform_lock.

(** ** [mcxnx4x]: the mailbox *)

Definition mcxnx4x_LINK_ID : Z := 0.
Definition mcxnx4x_cpu (side_a : bool) : string := if side_a then "kMAILBOX_CM33_Core0" else "kMAILBOX_CM33_Core1".
Definition mcxnx4x_mcmgr_event_handler (vring_idx : Z) : P unit :=
  on_event vring_idx.
Definition mcxnx4x_MAILBOX_IRQHandler (side_a : bool) : P unit :=
  on_mailbox (mcxnx4x_cpu side_a).
Definition mcxnx4x_platform_init_interrupt (vector_id isr_data : Z) : P Z :=
  when_locked (install vector_id isr_data (count_up 0 first (act (AIrqPriority "MAILBOX_IRQn" 5)))).
Definition mcxnx4x_platform_deinit_interrupt (vector_id : Z) : P Z :=
  when_locked (uninstall vector_id (count_down 0 first (act (AIrqOff "MAILBOX_IRQn")))).
Definition mcxnx4x_platform_notify (side_a : bool) (vector_id : Z) : P unit :=
  if RL_USE_MCMGR_IPC_ISR_HANDLER
  then notify_locked (act (AEvent (peer side_a) (RL_GET_Q_ID vector_id)))
  else if RL_GET_LINK_ID vector_id =? mcxnx4x_LINK_ID
  then notify_locked (act (AMailboxSet (mcxnx4x_cpu (negb side_a)) (Z.shiftl 1 (RL_GET_Q_ID vector_id))))
  else mret tt.
Definition mcxnx4x_platform_interrupt_enable (vector_id : Z) : P Z :=
  enable_one (act (AIrqOn "MAILBOX_IRQn")).
Definition mcxnx4x_platform_interrupt_disable (vector_id : Z) : P Z :=
  disable_one (act (AIrqOff "MAILBOX_IRQn")).
Definition mcxnx4x_platform_init : P Z :=
  if RL_USE_MCMGR_IPC_ISR_HANDLER then register_event create_platform_lock
  else act (ACall "MAILBOX_Init" []);; create_platform_lock.
Definition mcxnx4x_platform_deinit (side_a : bool) : P Z :=
  await_mailbox (mcxnx4x_cpu (negb side_a));; act (ACall "MAILBOX_Deinit" []);; delete_platform_lock.

End flag_platforms.
