(* ===== verification/ZephyrPlatforms.v ===== *)
(** * Platforms on Zephyr

    The variants of the platforms that ring the peer through Zephyr's
    inter-processor mailbox ([rpmsg_platform_zephyr_ipm.c]).  The interrupt is
    the device's, named ["ipm"]; on i.MX 6SX and 7D the device is looked up by
    [platform_init], elsewhere it is a constant of the build.  Around the
    counters the interrupts are off by [cpsid i] or by [irq_lock] alike. *)

From S2P Require Import Prelude Config Platform.

Section zephyr_platforms.
Context {b : Board}.

Definition ipm_set_enabled (handle : Z) (enabled : bool) : P unit :=
  if negb (handle =? NULL) then act (if enabled then AIrqOn "ipm" else AIrqOff "ipm") else mret tt.
Definition ipm_install (vector_id isr_data : Z) : P Z :=
  install vector_id isr_data (count_up 0 first (mret tt)).
Definition ipm_uninstall (handle vector_id : Z) : P Z :=
  uninstall vector_id (count_down 0 first (ipm_set_enabled handle false)).
Definition ipm_flags (data : Z) : P unit :=
  (if negb (Z.land data 1 =? 0) then act (AIsr 0) else mret tt);;
  (if negb (Z.land data 2 =? 0) then act (AIsr 1) else mret tt).
(** [ipm_send] of the flag of a vector, whose status is not looked at. *)
Definition ipm_flag (vector_id : Z) : P unit :=
  lock_platform;; RL_ASSERT (negb (DEVICE_DT_GET =? NULL));;
  act (AIpmSend 0 (Z.shiftl 1 (RL_GET_Q_ID vector_id)));; unlock_platform.
Definition ipm_init : P Z :=
  if DEVICE_DT_GET =? NULL then mret (-1)
  else act (ACall "ipm_register_callback" []);; create_platform_lock.


(** ** [imx6sx_m4] *)

Definition imx6sx_m4_ipm_LINK_ID : Z := 0.
Definition imx6sx_m4_ipm_platform_ipm_callback (id data : Z) : P unit :=
  if negb (id =? RPMSG_MU_CHANNEL) then mret tt
  else
    (if data =? 0 then act (AIsr 0) else mret tt);;
    (if data =? 65536 then act (AIsr 1) else mret tt).
Definition imx6sx_m4_ipm_platform_init_interrupt (vector_id isr_data : Z) : P Z :=
  ipm_install vector_id isr_data.
Definition imx6sx_m4_ipm_platform_deinit_interrupt (vector_id : Z) : P Z :=
  s ← get_state; ipm_uninstall (ipm_handle s) vector_id.
Definition imx6sx_m4_ipm_platform_notify (vector_id : Z) : P unit :=
  if RL_GET_LINK_ID vector_id =? imx6sx_m4_ipm_LINK_ID
  then
    lock_platform;;
    s ← get_state; RL_ASSERT (negb (ipm_handle s =? NULL));;
    ipm_send_while_busy ipm_polls RPMSG_MU_CHANNEL (u32 (Z.shiftl (RL_GET_Q_ID vector_id) 16));;
    unlock_platform
  else mret tt.
Definition imx6sx_m4_ipm_platform_interrupt_enable (vector_id : Z) : P Z :=
  s ← get_state; enable_one (ipm_set_enabled (ipm_handle s) true).
Definition imx6sx_m4_ipm_platform_interrupt_disable (vector_id : Z) : P Z :=
  s ← get_state; disable_one (ipm_set_enabled (ipm_handle s) false).
Definition imx6sx_m4_ipm_platform_init : P Z :=
  s ← get_state; act (ACall "device_get_binding" []);;
  let handle := device_get_binding (log s) in
  modify (set_ipm_handle handle);;
  if handle =? NULL then mret (-1)
  else act (ACall "ipm_register_callback" []);; create_platform_lock.
Definition imx6sx_m4_ipm_platform_deinit : P Z :=
  delete_platform_lock.

(** ** [imx7d_m4] *)

Definition imx7d_m4_ipm_LINK_ID : Z := 0.
Definition imx7d_m4_ipm_platform_ipm_callback (id data : Z) : P unit :=
  if negb (id =? RPMSG_MU_CHANNEL) then mret tt
  else
    (if data =? 0 then act (AIsr 0) else mret tt);;
    (if data =? 65536 then act (AIsr 1) else mret tt).
Definition imx7d_m4_ipm_platform_init_interrupt (vector_id isr_data : Z) : P Z :=
  ipm_install vector_id isr_data.
Definition imx7d_m4_ipm_platform_deinit_interrupt (vector_id : Z) : P Z :=
  s ← get_state; ipm_uninstall (ipm_handle s) vector_id.
Definition imx7d_m4_ipm_platform_notify (vector_id : Z) : P unit :=
  if RL_GET_LINK_ID vector_id =? imx7d_m4_ipm_LINK_ID
  then
    lock_platform;;
    s ← get_state; RL_ASSERT (negb (ipm_handle s =? NULL));;
    ipm_send_while_busy ipm_polls RPMSG_MU_CHANNEL (u32 (Z.shiftl (RL_GET_Q_ID vector_id) 16));;
    unlock_platform
  else mret tt.
Definition imx7d_m4_ipm_platform_interrupt_enable (vector_id : Z) : P Z :=
  s ← get_state; enable_one (ipm_set_enabled (ipm_handle s) true).
Definition imx7d_m4_ipm_platform_interrupt_disable (vector_id : Z) : P Z :=
  s ← get_state; disable_one (ipm_set_enabled (ipm_handle s) false).
Definition imx7d_m4_ipm_platform_init : P Z :=
  s ← get_state; act (ACall "device_get_binding" []);;
  let handle := device_get_binding (log s) in
  modify (set_ipm_handle handle);;
  if handle =? NULL then mret (-1)
  else act (ACall "ipm_register_callback" []);; create_platform_lock.
Definition imx7d_m4_ipm_platform_deinit : P Z :=
  delete_platform_lock.

(** ** [imxrt1160] *)

Definition imxrt1160_ipm_LINK_ID : Z := 0.
Definition imxrt1160_ipm_platform_ipm_callback (data : Z) : P unit :=
  ipm_flags data.
Definition imxrt1160_ipm_platform_init_interrupt (vector_id isr_data : Z) : P Z :=
  ipm_install vector_id isr_data.
Definition imxrt1160_ipm_platform_deinit_interrupt (vector_id : Z) : P Z :=
  ipm_uninstall DEVICE_DT_GET vector_id.
Definition imxrt1160_ipm_platform_notify (vector_id : Z) : P unit :=
  if RL_GET_LINK_ID vector_id =? imxrt1160_ipm_LINK_ID then ipm_flag vector_id else mret tt.
Definition imxrt1160_ipm_platform_interrupt_enable (vector_id : Z) : P Z :=
  enable_one (ipm_set_enabled DEVICE_DT_GET true).
Definition imxrt1160_ipm_platform_interrupt_disable (vector_id : Z) : P Z :=
  disable_one (ipm_set_enabled DEVICE_DT_GET false).
Definition imxrt1160_ipm_platform_init : P Z :=
  ipm_init.
Definition imxrt1160_ipm_platform_deinit : P Z :=
  delete_platform_lock.

(** ** [imxrt1170] *)

Definition imxrt1170_ipm_LINK_ID : Z := 0.
Definition imxrt1170_ipm_platform_ipm_callback (data : Z) : P unit :=
  ipm_flags data.
Definition imxrt1170_ipm_platform_init_interrupt (vector_id isr_data : Z) : P Z :=
  ipm_install vector_id isr_data.
Definition imxrt1170_ipm_platform_deinit_interrupt (vector_id : Z) : P Z :=
  ipm_uninstall DEVICE_DT_GET vector_id.
Definition imxrt1170_ipm_platform_notify (vector_id : Z) : P unit :=
  if RL_GET_LINK_ID vector_id =? imxrt1170_ipm_LINK_ID then ipm_flag vector_id else mret tt.
Definition imxrt1170_ipm_platform_interrupt_enable (vector_id : Z) : P Z :=
  enable_one (ipm_set_enabled DEVICE_DT_GET true).
Definition imxrt1170_ipm_platform_interrupt_disable (vector_id : Z) : P Z :=
  disable_one (ipm_set_enabled DEVICE_DT_GET false).
Definition imxrt1170_ipm_platform_init : P Z :=
  ipm_init.
Definition imxrt1170_ipm_platform_deinit : P Z :=
  delete_platform_lock.

(** ** [lpc55s69] *)

Definition lpc55s69_ipm_LINK_ID : Z := 0.
Definition lpc55s69_ipm_platform_ipm_callback (data : Z) : P unit :=
  ipm_flags data.
Definition lpc55s69_ipm_platform_init_interrupt (vector_id isr_data : Z) : P Z :=
  ipm_install vector_id isr_data.
Definition lpc55s69_ipm_platform_deinit_interrupt (vector_id : Z) : P Z :=
  ipm_uninstall DEVICE_DT_GET vector_id.
Definition lpc55s69_ipm_platform_notify (vector_id : Z) : P unit :=
  if RL_GET_LINK_ID vector_id =? lpc55s69_ipm_LINK_ID then ipm_flag vector_id else mret tt.
Definition lpc55s69_ipm_platform_interrupt_enable (vector_id : Z) : P Z :=
  enable_one (ipm_set_enabled DEVICE_DT_GET true).
Definition lpc55s69_ipm_platform_interrupt_disable (vector_id : Z) : P Z :=
  disable_one (ipm_set_enabled DEVICE_DT_GET false).
Definition lpc55s69_ipm_platform_init : P Z :=
  ipm_init.
Definition lpc55s69_ipm_platform_deinit : P Z :=
  delete_platform_lock.

(** ** [lpc5411x] *)

Definition lpc5411x_ipm_LINK_ID : Z := 0.
Definition lpc5411x_ipm_platform_ipm_callback (data : Z) : P unit :=
  ipm_flags data.
Definition lpc5411x_ipm_platform_init_interrupt (vector_id isr_data : Z) : P Z :=
  ipm_install vector_id isr_data.
Definition lpc5411x_ipm_platform_deinit_interrupt (vector_id : Z) : P Z :=
  ipm_uninstall DEVICE_DT_GET vector_id.
Definition lpc5411x_ipm_platform_notify (vector_id : Z) : P unit :=
  if RL_GET_LINK_ID vector_id =? lpc5411x_ipm_LINK_ID then ipm_flag vector_id else mret tt.
Definition lpc5411x_ipm_platform_interrupt_enable (vector_id : Z) : P Z :=
  enable_one (ipm_set_enabled DEVICE_DT_GET true).
Definition lpc5411x_ipm_platform_interrupt_disable (vector_id : Z) : P Z :=
  disable_one (ipm_set_enabled DEVICE_DT_GET false).
Definition lpc5411x_ipm_platform_init : P Z :=
  ipm_init.
Definition lpc5411x_ipm_platform_deinit : P Z :=
  delete_platform_lock.

(** ** [imxrt600_m33] *)

Definition imxrt600_m33_ipm_platform_ipm_callback (data : Z) : P unit :=
  ipm_flags data.
Definition imxrt600_m33_ipm_platform_init_interrupt (vector_id isr_data : Z) : P Z :=
  ipm_install vector_id isr_data.
Definition imxrt600_m33_ipm_platform_deinit_interrupt (vector_id : Z) : P Z :=
  ipm_uninstall DEVICE_DT_GET vector_id.
Definition imxrt600_m33_ipm_platform_notify (vector_id : Z) : P unit :=
  ipm_flag vector_id.
Definition imxrt600_m33_ipm_platform_interrupt_enable (vector_id : Z) : P Z :=
  enable_one (ipm_set_enabled DEVICE_DT_GET true).
Definition imxrt600_m33_ipm_platform_interrupt_disable (vector_id : Z) : P Z :=
  disable_one (ipm_set_enabled DEVICE_DT_GET false).
Definition imxrt600_m33_ipm_platform_init : P Z :=
  ipm_init.
Definition imxrt600_m33_ipm_platform_deinit : P Z :=
  delete_platform_lock.

(** ** [imxrt600_hifi4] *)

Definition imxrt600_hifi4_ipm_platform_ipm_callback (data : Z) : P unit :=
  ipm_flags data.
Definition imxrt600_hifi4_ipm_platform_init_interrupt (vector_id isr_data : Z) : P Z :=
  ipm_install vector_id isr_data.
Definition imxrt600_hifi4_ipm_platform_deinit_interrupt (vector_id : Z) : P Z :=
  ipm_uninstall DEVICE_DT_GET vector_id.
Definition imxrt600_hifi4_ipm_platform_notify (vector_id : Z) : P unit :=
  ipm_flag vector_id.
Definition imxrt600_hifi4_ipm_platform_interrupt_enable (vector_id : Z) : P Z :=
  enable_one (ipm_set_enabled DEVICE_DT_GET true).
Definition imxrt600_hifi4_ipm_platform_interrupt_disable (vector_id : Z) : P Z :=
  disable_one (ipm_set_enabled DEVICE_DT_GET false).
Definition imxrt600_hifi4_ipm_platform_init : P Z :=
  ipm_init.
Definition imxrt600_hifi4_ipm_platform_deinit : P Z :=
  delete_platform_lock.

(** ** [imxrt700_m33] *)

Definition imxrt700_m33_ipm_platform_ipm_callback (data : Z) : P unit :=
  ipm_flags data.
Definition imxrt700_m33_ipm_platform_init_interrupt (vector_id isr_data : Z) : P Z :=
  ipm_install vector_id isr_data.
Definition imxrt700_m33_ipm_platform_deinit_interrupt (vector_id : Z) : P Z :=
  ipm_uninstall DEVICE_DT_GET vector_id.
Definition imxrt700_m33_ipm_platform_notify (vector_id : Z) : P unit :=
  ipm_flag vector_id.
Definition imxrt700_m33_ipm_platform_interrupt_enable (vector_id : Z) : P Z :=
  enable_one (ipm_set_enabled DEVICE_DT_GET true).
Definition imxrt700_m33_ipm_platform_interrupt_disable (vector_id : Z) : P Z :=
  disable_one (ipm_set_enabled DEVICE_DT_GET false).
Definition imxrt700_m33_ipm_platform_init : P Z :=
  ipm_init.
Definition imxrt700_m33_ipm_platform_deinit : P Z :=
  delete_platform_lock.

(** ** [imxrt700_hifi4] *)

Definition imxrt700_hifi4_ipm_platform_ipm_callback (data : Z) : P unit :=
  ipm_flags data.
Definition imxrt700_hifi4_ipm_platform_init_interrupt (vector_id isr_data : Z) : P Z :=
  ipm_install vector_id isr_data.
Definition imxrt700_hifi4_ipm_platform_deinit_interrupt (vector_id : Z) : P Z :=
  ipm_uninstall DEVICE_DT_GET vector_id.
Definition imxrt700_hifi4_ipm_platform_notify (vector_id : Z) : P unit :=
  ipm_flag vector_id.
Definition imxrt700_hifi4_ipm_platform_interrupt_enable (vector_id : Z) : P Z :=
  enable_one (ipm_set_enabled DEVICE_DT_GET true).
Definition imxrt700_hifi4_ipm_platform_interrupt_disable (vector_id : Z) : P Z :=
  disable_one (ipm_set_enabled DEVICE_DT_GET false).
Definition imxrt700_hifi4_ipm_platform_init : P Z :=
  ipm_init.
Definition imxrt700_hifi4_ipm_platform_deinit : P Z :=
  delete_platform_lock.

End zephyr_platforms.
