(* ===== verification/PlatformMemory.v ===== *)
(** * Platforms: busy loops, interrupt context, caches, addresses

    What the platform files share apart from interrupts: the busy loop behind
    [platform_time_delay], the test for interrupt context, the cache operations
    of the platforms that have them, and the translation of addresses between
    the view of this core ("virtual") and the one that is put in a descriptor
    ("physical").  Addresses are 32-bit integers where the source computes with
    them; elsewhere the translation is the identity. *)

From S2P Require Import Prelude Config Platform.

Section platform_memory.
Context {b : Board}.

(** ** [platform_time_delay] *)

(** [while (loop > 0U) { __NOP(); loop--; }] *)
Fixpoint nop_loop (loop : nat) : P unit :=
  match loop with O => mret tt | S loop' => act (ACall "nop" []);; nop_loop loop' end.
(** [SystemCoreClock / d / 1000U * num_msec], [d] cycles for an iteration. *)
Definition delay_count (clock d num_msec : Z) : Z := u32 (clock / d / 1000 * num_msec).
Definition spin (d num_msec : Z) : P unit :=
  s ← get_state; nop_loop (Z.to_nat (delay_count (SystemCoreClock (log s)) d num_msec)).
Definition update_clock : P unit := act (ACall "SystemCoreClockUpdate" []).

Definition aarch64_platform_time_delay (num_msec : Z) : P unit :=
  update_clock;; spin 3 num_msec.
Definition imx6sx_m4_platform_time_delay (num_msec : Z) : P unit :=
  update_clock;; spin 3 num_msec.
Definition imx7d_m4_platform_time_delay (num_msec : Z) : P unit :=
  update_clock;; spin 3 num_msec.
Definition imx7ulp_m4_platform_time_delay (num_msec : Z) : P unit :=
  update_clock;; spin 3 num_msec.
Definition imx8dxl_m4_platform_time_delay (num_msec : Z) : P unit :=
  update_clock;; spin 3 num_msec.
Definition imx8mm_m4_platform_time_delay (num_msec : Z) : P unit :=
  update_clock;; spin 3 num_msec.
Definition imx8mn_m7_platform_time_delay (num_msec : Z) : P unit :=
  update_clock;; spin 3 num_msec.
Definition imx8mp_m7_platform_time_delay (num_msec : Z) : P unit :=
  update_clock;; spin 3 num_msec.
Definition imx8mq_m4_platform_time_delay (num_msec : Z) : P unit :=
  update_clock;; spin 3 num_msec.
Definition imx8qm_m4_platform_time_delay (num_msec : Z) : P unit :=
  update_clock;; spin 3 num_msec.
Definition imx8qx_cm4_platform_time_delay (num_msec : Z) : P unit :=
  update_clock;; spin 3 num_msec.
Definition imx8ulp_fusionf1_platform_time_delay (num_msec : Z) : P unit :=
  update_clock;; spin 6 num_msec.
Definition imx8ulp_m33_platform_time_delay (num_msec : Z) : P unit :=
  update_clock;; spin 3 num_msec.
Definition imx93_m33_platform_time_delay (num_msec : Z) : P unit :=
  update_clock;; spin 3 num_msec.
Definition imx943_m33s_platform_time_delay (num_msec : Z) : P unit :=
  update_clock;; spin 3 num_msec.
Definition imx943_m70_platform_time_delay (num_msec : Z) : P unit :=
  update_clock;; spin 3 num_msec.
Definition imx943_m71_platform_time_delay (num_msec : Z) : P unit :=
  update_clock;; spin 3 num_msec.
Definition imx952_m7_platform_time_delay (num_msec : Z) : P unit :=
  update_clock;; spin 3 num_msec.
Definition imx95_m33_platform_time_delay (num_msec : Z) : P unit :=
  update_clock;; spin 3 num_msec.
Definition imx95_m7_platform_time_delay (num_msec : Z) : P unit :=
  update_clock;; spin 3 num_msec.
Definition imxrt1160_platform_time_delay (num_msec : Z) : P unit :=
  spin 3 num_msec.
Definition imxrt1170_platform_time_delay (num_msec : Z) : P unit :=
  spin 3 num_msec.
Definition imxrt1180_platform_time_delay (num_msec : Z) : P unit :=
  spin 3 num_msec.
Definition imxrt500_fusionf1_platform_time_delay (num_msec : Z) : P unit :=
  update_clock;; spin 6 num_msec.
Definition imxrt500_m33_platform_time_delay (num_msec : Z) : P unit :=
  update_clock;; spin 3 num_msec.
Definition imxrt600_hifi4_platform_time_delay (num_msec : Z) : P unit :=
  update_clock;; spin 6 num_msec.
Definition imxrt600_m33_platform_time_delay (num_msec : Z) : P unit :=
  update_clock;; spin 3 num_msec.
Definition imxrt700_ezhv_platform_time_delay (num_msec : Z) : P unit :=
  spin 3 num_msec.
Definition imxrt700_hifi1_platform_time_delay (num_msec : Z) : P unit :=
  update_clock;; spin 6 num_msec.
Definition imxrt700_hifi4_platform_time_delay (num_msec : Z) : P unit :=
  update_clock;; spin 6 num_msec.
Definition imxrt700_m33_platform_time_delay (num_msec : Z) : P unit :=
  update_clock;; spin 3 num_msec.
Definition k32l3a6_platform_time_delay (num_msec : Z) : P unit :=
  update_clock;; spin 3 num_msec.
Definition k32w1_platform_time_delay (num_msec : Z) : P unit :=
  update_clock;; spin 3 num_msec.
Definition kw43b43_platform_time_delay (num_msec : Z) : P unit :=
  update_clock;; spin 3 num_msec.
Definition kw45b41_platform_time_delay (num_msec : Z) : P unit :=
  update_clock;; spin 3 num_msec.
Definition kw47b42_platform_time_delay (num_msec : Z) : P unit :=
  update_clock;; spin 3 num_msec.
Definition lpc5410x_platform_time_delay (num_msec : Z) : P unit :=
  update_clock;; spin 3 num_msec.
Definition lpc5411x_platform_time_delay (num_msec : Z) : P unit :=
  update_clock;; spin 3 num_msec.
Definition mcxl20_platform_time_delay (num_msec : Z) : P unit :=
  update_clock;; spin 3 num_msec.
Definition mcxnx4x_platform_time_delay (num_msec : Z) : P unit :=
  update_clock;; spin 3 num_msec.
Definition mcxw70_platform_time_delay (num_msec : Z) : P unit :=
  update_clock;; spin 3 num_msec.
Definition mcxw71x_platform_time_delay (num_msec : Z) : P unit :=
  update_clock;; spin 3 num_msec.
Definition mcxw72x_platform_time_delay (num_msec : Z) : P unit :=
  update_clock;; spin 3 num_msec.

(** ** [platform_in_isr] *)

Definition in_isr_cortex : P Z := s ← get_state; mret (if negb (vectactive (log s) =? 0) then 1 else 0).
Definition in_isr_zephyr : P Z := s ← get_state; mret (if negb (k_is_in_isr (log s) =? 0) then 1 else 0).
Definition in_isr_xtensa : P Z :=
  s ← get_state; mret (Z.land (xthal_get_interrupt (log s)) (xthal_get_intenable (log s))).

Definition imx6sx_m4_platform_in_isr : P Z :=
  in_isr_cortex.
Definition imx6sx_m4_ipm_platform_in_isr : P Z :=
  in_isr_zephyr.
Definition imx7d_m4_platform_in_isr : P Z :=
  in_isr_cortex.
Definition imx7d_m4_ipm_platform_in_isr : P Z :=
  in_isr_zephyr.
Definition imx7ulp_m4_platform_in_isr : P Z :=
  in_isr_cortex.
Definition imx8dxl_m4_platform_in_isr : P Z :=
  in_isr_cortex.
Definition imx8mm_m4_platform_in_isr : P Z :=
  in_isr_cortex.
Definition imx8mn_m7_platform_in_isr : P Z :=
  in_isr_cortex.
Definition imx8mp_m7_platform_in_isr : P Z :=
  in_isr_cortex.
Definition imx8mq_m4_platform_in_isr : P Z :=
  in_isr_cortex.
Definition imx8qm_m4_platform_in_isr : P Z :=
  in_isr_cortex.
Definition imx8qx_cm4_platform_in_isr : P Z :=
  in_isr_cortex.
Definition imx8ulp_fusionf1_platform_in_isr : P Z :=
  in_isr_xtensa.
Definition imx8ulp_m33_platform_in_isr : P Z :=
  in_isr_cortex.
Definition imx93_m33_platform_in_isr : P Z :=
  in_isr_cortex.
Definition imx943_m33s_platform_in_isr : P Z :=
  in_isr_cortex.
Definition imx943_m70_platform_in_isr : P Z :=
  in_isr_cortex.
Definition imx943_m71_platform_in_isr : P Z :=
  in_isr_cortex.
Definition imx952_m7_platform_in_isr : P Z :=
  in_isr_cortex.
Definition imx95_m33_platform_in_isr : P Z :=
  in_isr_cortex.
Definition imx95_m7_platform_in_isr : P Z :=
  in_isr_cortex.
Definition imxrt1160_platform_in_isr : P Z :=
  in_isr_cortex.
Definition imxrt1160_ipm_platform_in_isr : P Z :=
  in_isr_zephyr.
Definition imxrt1170_platform_in_isr : P Z :=
  in_isr_cortex.
Definition imxrt1170_ipm_platform_in_isr : P Z :=
  in_isr_zephyr.
Definition imxrt1180_platform_in_isr : P Z :=
  in_isr_cortex.
Definition imxrt500_fusionf1_platform_in_isr : P Z :=
  in_isr_xtensa.
Definition imxrt500_m33_platform_in_isr : P Z :=
  in_isr_cortex.
Definition imxrt600_hifi4_platform_in_isr : P Z :=
  in_isr_xtensa.
Definition imxrt600_hifi4_ipm_platform_in_isr : P Z :=
  in_isr_zephyr.
Definition imxrt600_m33_platform_in_isr : P Z :=
  in_isr_cortex.
Definition imxrt600_m33_ipm_platform_in_isr : P Z :=
  in_isr_zephyr.
Definition imxrt700_ezhv_platform_in_isr : P Z :=
  in_isr_cortex.
Definition imxrt700_hifi1_platform_in_isr : P Z :=
  in_isr_xtensa.
Definition imxrt700_hifi4_platform_in_isr : P Z :=
  in_isr_xtensa.
Definition imxrt700_hifi4_ipm_platform_in_isr : P Z :=
  in_isr_zephyr.
Definition imxrt700_m33_platform_in_isr : P Z :=
  in_isr_cortex.
Definition imxrt700_m33_ipm_platform_in_isr : P Z :=
  in_isr_zephyr.
Definition k32l3a6_platform_in_isr : P Z :=
  in_isr_cortex.
Definition k32w1_platform_in_isr : P Z :=
  in_isr_cortex.
Definition kw43b43_platform_in_isr : P Z :=
  in_isr_cortex.
Definition kw45b41_platform_in_isr : P Z :=
  in_isr_cortex.
Definition kw47b42_platform_in_isr : P Z :=
  in_isr_cortex.
Definition lpc5410x_platform_in_isr : P Z :=
  in_isr_cortex.
Definition lpc5411x_platform_in_isr : P Z :=
  in_isr_cortex.
Definition lpc5411x_ipm_platform_in_isr : P Z :=
  in_isr_zephyr.
Definition lpc55s69_platform_in_isr : P Z :=
  in_isr_cortex.
Definition lpc55s69_ipm_platform_in_isr : P Z :=
  in_isr_zephyr.
Definition mcxl20_platform_in_isr : P Z :=
  in_isr_cortex.
Definition mcxnx4x_platform_in_isr : P Z :=
  in_isr_cortex.
Definition mcxw70_platform_in_isr : P Z :=
  in_isr_cortex.
Definition mcxw71x_platform_in_isr : P Z :=
  in_isr_cortex.
Definition mcxw72x_platform_in_isr : P Z :=
  in_isr_cortex.

(** ** Caches *)

Definition imxrt500_fusionf1_platform_cache_flush (data len : Z) : P unit :=
  act (ACall "xthal_dcache_region_writeback" [data; len]).
Definition imxrt500_fusionf1_platform_cache_invalidate (data len : Z) : P unit :=
  act (ACall "xthal_dcache_region_invalidate" [data; len]).
Definition imxrt600_hifi4_platform_cache_flush (data len : Z) : P unit :=
  act (ACall "xthal_dcache_region_writeback" [data; len]).
Definition imxrt600_hifi4_platform_cache_invalidate (data len : Z) : P unit :=
  act (ACall "xthal_dcache_region_invalidate" [data; len]).
Definition imxrt700_hifi4_platform_cache_flush (data len : Z) : P unit :=
  act (ACall "xthal_dcache_region_writeback" [data; len]).
Definition imxrt700_hifi4_platform_cache_invalidate (data len : Z) : P unit :=
  act (ACall "xthal_dcache_region_invalidate" [data; len]).
Definition imxrt700_m33_platform_cache_flush (core1 : bool) (data len : Z) : P unit :=
  if (data =? NULL) || (len =? 0) then mret tt else if core1 then mret tt else act (ACall "XCACHE_CleanCacheByRange" [data; len]).
Definition imxrt700_m33_platform_cache_invalidate (core1 : bool) (data len : Z) : P unit :=
  if (data =? NULL) || (len =? 0) then mret tt else if core1 then mret tt else act (ACall "XCACHE_InvalidateCacheByRange" [data; len]).

End platform_memory.

(** ** Addresses *)

Definition aarch64_platform_vatopa (addr : Z) : Z :=
  addr.
Definition aarch64_platform_patova (addr : Z) : Z :=
  addr.
Definition imx6sx_m4_platform_vatopa (addr : Z) : Z :=
  addr.
Definition imx6sx_m4_platform_patova (addr : Z) : Z :=
  addr.
Definition imx6sx_m4_ipm_platform_vatopa (addr : Z) : Z :=
  addr.
Definition imx6sx_m4_ipm_platform_patova (addr : Z) : Z :=
  addr.
Definition imx7d_m4_platform_vatopa (addr : Z) : Z :=
  addr.
Definition imx7d_m4_platform_patova (addr : Z) : Z :=
  addr.
Definition imx7d_m4_ipm_platform_vatopa (addr : Z) : Z :=
  addr.
Definition imx7d_m4_ipm_platform_patova (addr : Z) : Z :=
  addr.
Definition imx7ulp_m4_platform_vatopa (addr : Z) : Z :=
  addr.
Definition imx7ulp_m4_platform_patova (addr : Z) : Z :=
  addr.
Definition imx8dxl_m4_platform_vatopa (addr : Z) : Z :=
  addr.
Definition imx8dxl_m4_platform_patova (addr : Z) : Z :=
  addr.
Definition imx8mm_m4_platform_vatopa (addr : Z) : Z :=
  addr.
Definition imx8mm_m4_platform_patova (addr : Z) : Z :=
  addr.
Definition imx8mn_m7_platform_vatopa (addr : Z) : Z :=
  addr.
Definition imx8mn_m7_platform_patova (addr : Z) : Z :=
  addr.
Definition imx8mp_m7_platform_vatopa (addr : Z) : Z :=
  addr.
Definition imx8mp_m7_platform_patova (addr : Z) : Z :=
  addr.
Definition imx8mq_m4_platform_vatopa (addr : Z) : Z :=
  addr.
Definition imx8mq_m4_platform_patova (addr : Z) : Z :=
  addr.
Definition imx8qm_m4_platform_vatopa (addr : Z) : Z :=
  addr.
Definition imx8qm_m4_platform_patova (addr : Z) : Z :=
  addr.
Definition imx8qx_cm4_platform_vatopa (addr : Z) : Z :=
  addr.
Definition imx8qx_cm4_platform_patova (addr : Z) : Z :=
  addr.
Definition imx8ulp_m33_platform_vatopa (addr : Z) : Z :=
  addr.
Definition imx8ulp_m33_platform_patova (addr : Z) : Z :=
  addr.
Definition imx93_m33_platform_vatopa (addr : Z) : Z :=
  addr.
Definition imx93_m33_platform_patova (addr : Z) : Z :=
  addr.
Definition imx943_m33s_platform_vatopa (addr : Z) : Z :=
  addr.
Definition imx943_m70_platform_vatopa (addr : Z) : Z :=
  addr.
Definition imx943_m71_platform_vatopa (addr : Z) : Z :=
  addr.
Definition imx952_m7_platform_vatopa (addr : Z) : Z :=
  addr.
Definition imx952_m7_platform_patova (addr : Z) : Z :=
  addr.
Definition imx95_m33_platform_vatopa (addr : Z) : Z :=
  addr.
Definition imx95_m33_platform_patova (addr : Z) : Z :=
  addr.
Definition imx95_m7_platform_vatopa (addr : Z) : Z :=
  addr.
Definition imx95_m7_platform_patova (addr : Z) : Z :=
  addr.
Definition imxrt1160_platform_vatopa (addr : Z) : Z :=
  addr.
Definition imxrt1160_platform_patova (addr : Z) : Z :=
  addr.
Definition imxrt1160_ipm_platform_vatopa (addr : Z) : Z :=
  addr.
Definition imxrt1160_ipm_platform_patova (addr : Z) : Z :=
  addr.
Definition imxrt1170_platform_vatopa (addr : Z) : Z :=
  addr.
Definition imxrt1170_platform_patova (addr : Z) : Z :=
  addr.
Definition imxrt1170_ipm_platform_vatopa (addr : Z) : Z :=
  addr.
Definition imxrt1170_ipm_platform_patova (addr : Z) : Z :=
  addr.
Definition imxrt1180_platform_vatopa (addr : Z) : Z :=
  addr.
Definition imxrt1180_platform_patova (addr : Z) : Z :=
  addr.
Definition imxrt500_fusionf1_platform_vatopa (addr : Z) : Z :=
  addr.
Definition imxrt500_fusionf1_platform_patova (addr : Z) : Z :=
  addr.
Definition imxrt600_hifi4_platform_vatopa (addr : Z) : Z :=
  addr.
Definition imxrt600_hifi4_platform_patova (addr : Z) : Z :=
  addr.
Definition imxrt600_hifi4_ipm_platform_vatopa (addr : Z) : Z :=
  addr.
Definition imxrt600_hifi4_ipm_platform_patova (addr : Z) : Z :=
  addr.
Definition imxrt600_m33_platform_vatopa (addr : Z) : Z :=
  addr.
Definition imxrt600_m33_platform_patova (addr : Z) : Z :=
  addr.
Definition imxrt600_m33_ipm_platform_vatopa (addr : Z) : Z :=
  addr.
Definition imxrt600_m33_ipm_platform_patova (addr : Z) : Z :=
  addr.
Definition imxrt700_ezhv_platform_vatopa (addr : Z) : Z :=
  addr.
Definition imxrt700_ezhv_platform_patova (addr : Z) : Z :=
  addr.
Definition imxrt700_hifi1_platform_vatopa (addr : Z) : Z :=
  addr.
Definition imxrt700_hifi1_platform_patova (addr : Z) : Z :=
  addr.
Definition imxrt700_hifi4_platform_vatopa (addr : Z) : Z :=
  addr.
Definition imxrt700_hifi4_platform_patova (addr : Z) : Z :=
  addr.
Definition imxrt700_hifi4_ipm_platform_vatopa (addr : Z) : Z :=
  addr.
Definition imxrt700_hifi4_ipm_platform_patova (addr : Z) : Z :=
  addr.
Definition imxrt700_m33_platform_vatopa (addr : Z) : Z :=
  addr.
Definition imxrt700_m33_platform_patova (addr : Z) : Z :=
  addr.
Definition imxrt700_m33_ipm_platform_vatopa (addr : Z) : Z :=
  addr.
Definition imxrt700_m33_ipm_platform_patova (addr : Z) : Z :=
  addr.
Definition k32l3a6_platform_vatopa (addr : Z) : Z :=
  addr.
Definition k32l3a6_platform_patova (addr : Z) : Z :=
  addr.
Definition kw43b43_platform_vatopa (addr : Z) : Z :=
  addr.
Definition kw43b43_platform_patova (addr : Z) : Z :=
  addr.
Definition lpc5410x_platform_vatopa (addr : Z) : Z :=
  addr.
Definition lpc5410x_platform_patova (addr : Z) : Z :=
  addr.
Definition lpc5411x_platform_vatopa (addr : Z) : Z :=
  addr.
Definition lpc5411x_platform_patova (addr : Z) : Z :=
  addr.
Definition lpc5411x_ipm_platform_vatopa (addr : Z) : Z :=
  addr.
Definition lpc5411x_ipm_platform_patova (addr : Z) : Z :=
  addr.
Definition lpc55s69_ipm_platform_vatopa (addr : Z) : Z :=
  addr.
Definition lpc55s69_ipm_platform_patova (addr : Z) : Z :=
  addr.
Definition mcxnx4x_platform_vatopa (addr : Z) : Z :=
  addr.
Definition mcxnx4x_platform_patova (addr : Z) : Z :=
  addr.
Definition mcxw70_platform_vatopa (addr : Z) : Z :=
  addr.
Definition mcxw70_platform_patova (addr : Z) : Z :=
  addr.
Definition mcxl20_cm33_platform_vatopa (addr : Z) : Z :=
  addr.
Definition mcxl20_cm0plus_platform_vatopa (addr : Z) : Z :=
  Z.land addr 16777215.
Definition mcxl20_cm33_platform_patova (addr : Z) : Z :=
  addr.
Definition mcxl20_cm0plus_platform_patova (addr : Z) : Z :=
  Z.land addr 16777215.
Definition imxrt500_m33_platform_vatopa (addr : Z) : Z :=
  u32 (Z.land addr 268435455 + 8388608).
Definition imxrt500_m33_platform_patova (addr : Z) : Z :=
  Z.lor (u32 (addr - 8388608)) 536870912.
Definition imx8ulp_fusionf1_platform_vatopa (addr : Z) : Z :=
  if addr <? 8912896 then u32 (Z.lor addr 536870912 - 800000)
  else if addr <? 9175040 then u32 (addr - 8388608 + 268173312)
  else addr.
Definition imx8ulp_fusionf1_platform_patova (addr : Z) : Z :=
  let addr := Z.land addr 4026531839 in
  if addr <? 268435456 then u32 (addr - 268173312 + 8912896)
  else if addr <? 537395200 then u32 (Z.land addr 268435455 + 8388608)
  else addr.
Definition k32w1_cpu1_platform_vatopa (addr : Z) : Z :=
  addr.
Definition k32w1_cpu2_platform_vatopa (addr : Z) : Z :=
  u32 (Z.land addr 65535 + 1218183168).
Definition k32w1_cpu1_platform_patova (addr : Z) : Z :=
  addr.
Definition k32w1_cpu2_platform_patova (addr : Z) : Z :=
  u32 (Z.land addr 65535 + 2952790016).
Definition kw45b41_cpu1_platform_vatopa (addr : Z) : Z :=
  addr.
Definition kw45b41_cpu2_platform_vatopa (addr : Z) : Z :=
  u32 (Z.land addr 65535 + 1218183168).
Definition kw45b41_cpu1_platform_patova (addr : Z) : Z :=
  addr.
Definition kw45b41_cpu2_platform_patova (addr : Z) : Z :=
  u32 (Z.land addr 65535 + 2952790016).
Definition kw47b42_cpu1_platform_vatopa (addr : Z) : Z :=
  addr.
Definition kw47b42_cpu2_platform_vatopa (addr : Z) : Z :=
  u32 (Z.land addr 65535 + 1218183168).
Definition kw47b42_cpu1_platform_patova (addr : Z) : Z :=
  addr.
Definition kw47b42_cpu2_platform_patova (addr : Z) : Z :=
  u32 (Z.land addr 65535 + 2952790016).
Definition mcxw71x_cpu1_platform_vatopa (addr : Z) : Z :=
  addr.
Definition mcxw71x_cpu2_platform_vatopa (addr : Z) : Z :=
  u32 (Z.land addr 65535 + 1218183168).
Definition mcxw71x_cpu1_platform_patova (addr : Z) : Z :=
  addr.
Definition mcxw71x_cpu2_platform_patova (addr : Z) : Z :=
  u32 (Z.land addr 65535 + 2952790016).
Definition mcxw72x_cpu1_platform_vatopa (addr : Z) : Z :=
  addr.
Definition mcxw72x_cpu2_platform_vatopa (addr : Z) : Z :=
  u32 (Z.land addr 65535 + 1218183168).
Definition mcxw72x_cpu1_platform_patova (addr : Z) : Z :=
  addr.
Definition mcxw72x_cpu2_platform_patova (addr : Z) : Z :=
  u32 (Z.land addr 65535 + 2952790016).

(** *** i.MX 943: the tightly coupled memories of three cores

    Each core sees the memories of the others at addresses of its own; the
    windows are the macros of the three headers, which agree.  [assert(false)]
    stops. *)

Definition RPMSG_M33S_SYS_TCM_BEGIN_FROM_M70_VIEW : Z := 547356672.
Definition RPMSG_M33S_SYS_TCM_END_FROM_M70_VIEW : Z := 547618815.
Definition RPMSG_M70_DTCM_BEGIN_FROM_M70_VIEW : Z := 536870912.
Definition RPMSG_M70_DTCM_END_FROM_M70_VIEW : Z := 537133055.
Definition RPMSG_M71_DTCM_BEGIN_FROM_M70_VIEW : Z := 540016640.
Definition RPMSG_M71_DTCM_END_FROM_M70_VIEW : Z := 540278783.
Definition RPMSG_M33S_SYS_TCM_BEGIN_FROM_M71_VIEW : Z := 547356672.
Definition RPMSG_M33S_SYS_TCM_END_FROM_M71_VIEW : Z := 547618815.
Definition RPMSG_M70_DTCM_BEGIN_FROM_M71_VIEW : Z := 541065216.
Definition RPMSG_M70_DTCM_END_FROM_M71_VIEW : Z := 541327359.
Definition RPMSG_M71_DTCM_BEGIN_FROM_M71_VIEW : Z := 536870912.
Definition RPMSG_M71_DTCM_END_FROM_M71_VIEW : Z := 537133055.
Definition RPMSG_M33S_SYS_TCM_BEGIN_FROM_M33S_VIEW : Z := 536870912.
Definition RPMSG_M33S_SYS_TCM_END_FROM_M33S_VIEW : Z := 537133055.
Definition RPMSG_M70_DTCM_BEGIN_FROM_M33S_VIEW : Z := 541065216.
Definition RPMSG_M70_DTCM_END_FROM_M33S_VIEW : Z := 541327359.
Definition RPMSG_M71_DTCM_BEGIN_FROM_M33S_VIEW : Z := 540016640.
Definition RPMSG_M71_DTCM_END_FROM_M33S_VIEW : Z := 540278783.
Definition RPMSG_SHMEM_M33S_M70_DTCM_BEGIN_FROM_M33S_VIEW : Z := 541304832.
Definition RPMSG_SHMEM_M33S_M70_DTCM_END_FROM_M33S_VIEW : Z := 541310975.
Definition RPMSG_SHMEM_M33S_M70_DTCM_BEGIN_FROM_M70_VIEW : Z := 537110528.
Definition RPMSG_SHMEM_M33S_M70_DTCM_END_FROM_M70_VIEW : Z := 537116671.
Definition RPMSG_SHMEM_M70_M33S_SYS_TCM_BEGIN_FROM_M33S_VIEW : Z := 537104384.
Definition RPMSG_SHMEM_M70_M33S_SYS_TCM_END_FROM_M33S_VIEW : Z := 537110527.
Definition RPMSG_SHMEM_M70_M33S_SYS_TCM_BEGIN_FROM_M70_VIEW : Z := 547590144.
Definition RPMSG_SHMEM_M70_M33S_SYS_TCM_END_FROM_M70_VIEW : Z := 547596287.
Definition RPMSG_SHMEM_M71_M33S_SYS_TCM_BEGIN_FROM_M33S_VIEW : Z := 537110528.
Definition RPMSG_SHMEM_M71_M33S_SYS_TCM_END_FROM_M33S_VIEW : Z := 537116671.
Definition RPMSG_SHMEM_M71_M33S_SYS_TCM_BEGIN_FROM_M71_VIEW : Z := 547596288.
Definition RPMSG_SHMEM_M71_M33S_SYS_TCM_END_FROM_M71_VIEW : Z := 547602431.
Definition RPMSG_SHMEM_M33S_M71_DTCM_BEGIN_FROM_M33S_VIEW : Z := 540256256.
Definition RPMSG_SHMEM_M33S_M71_DTCM_END_FROM_M33S_VIEW : Z := 540262399.
Definition RPMSG_SHMEM_M33S_M71_DTCM_BEGIN_FROM_M71_VIEW : Z := 537110528.
Definition RPMSG_SHMEM_M33S_M71_DTCM_END_FROM_M71_VIEW : Z := 537116671.
Definition RPMSG_SHMEM_M71_M70_DTCM_BEGIN_FROM_M70_VIEW : Z := 537104384.
Definition RPMSG_SHMEM_M71_M70_DTCM_END_FROM_M70_VIEW : Z := 537110527.
Definition RPMSG_SHMEM_M71_M70_DTCM_BEGIN_FROM_M71_VIEW : Z := 541298688.
Definition RPMSG_SHMEM_M71_M70_DTCM_END_FROM_M71_VIEW : Z := 541304831.
Definition RPMSG_SHMEM_M70_M71_DTCM_BEGIN_FROM_M70_VIEW : Z := 540250112.
Definition RPMSG_SHMEM_M70_M71_DTCM_END_FROM_M70_VIEW : Z := 540256255.
Definition RPMSG_SHMEM_M70_M71_DTCM_BEGIN_FROM_M71_VIEW : Z := 537104384.
Definition RPMSG_SHMEM_M70_M71_DTCM_END_FROM_M71_VIEW : Z := 537110527.

Definition within (addr lo hi : Z) : bool := (lo <=? addr) && (addr <=? hi).
Definition stop : option Z := None.

Definition imx943_m33s_platform_patova (addr : Z) : option Z :=
  if within addr RPMSG_M70_DTCM_BEGIN_FROM_M33S_VIEW RPMSG_M70_DTCM_END_FROM_M33S_VIEW
  then if within addr RPMSG_SHMEM_M33S_M70_DTCM_BEGIN_FROM_M33S_VIEW RPMSG_SHMEM_M33S_M70_DTCM_END_FROM_M33S_VIEW then Some addr else stop
  else if within addr RPMSG_M71_DTCM_BEGIN_FROM_M33S_VIEW RPMSG_M71_DTCM_END_FROM_M33S_VIEW
  then if within addr RPMSG_SHMEM_M33S_M71_DTCM_BEGIN_FROM_M33S_VIEW RPMSG_SHMEM_M33S_M71_DTCM_END_FROM_M33S_VIEW then Some addr else stop
  else if within addr RPMSG_M33S_SYS_TCM_BEGIN_FROM_M71_VIEW RPMSG_M33S_SYS_TCM_END_FROM_M71_VIEW
  then
    if within addr RPMSG_SHMEM_M71_M33S_SYS_TCM_BEGIN_FROM_M71_VIEW RPMSG_SHMEM_M71_M33S_SYS_TCM_END_FROM_M71_VIEW
    then Some (u32 (addr - u32 (RPMSG_M33S_SYS_TCM_BEGIN_FROM_M71_VIEW - RPMSG_M33S_SYS_TCM_BEGIN_FROM_M33S_VIEW)))
    else if within addr RPMSG_SHMEM_M70_M33S_SYS_TCM_BEGIN_FROM_M70_VIEW RPMSG_SHMEM_M70_M33S_SYS_TCM_END_FROM_M70_VIEW
    then Some (u32 (addr - u32 (RPMSG_M33S_SYS_TCM_BEGIN_FROM_M70_VIEW - RPMSG_M33S_SYS_TCM_BEGIN_FROM_M33S_VIEW)))
    else stop
  else Some addr.
Definition imx943_m70_platform_patova (addr : Z) : option Z :=
  if within addr RPMSG_M71_DTCM_BEGIN_FROM_M70_VIEW RPMSG_M70_DTCM_END_FROM_M70_VIEW
  then if within addr RPMSG_SHMEM_M70_M71_DTCM_BEGIN_FROM_M70_VIEW RPMSG_SHMEM_M70_M71_DTCM_END_FROM_M70_VIEW then Some addr else stop
  else if within addr RPMSG_M70_DTCM_BEGIN_FROM_M33S_VIEW RPMSG_M70_DTCM_END_FROM_M33S_VIEW
  then
    if within addr RPMSG_SHMEM_M33S_M70_DTCM_BEGIN_FROM_M33S_VIEW RPMSG_SHMEM_M33S_M70_DTCM_END_FROM_M33S_VIEW
    then Some (u32 (addr - u32 (RPMSG_M70_DTCM_BEGIN_FROM_M33S_VIEW - RPMSG_M70_DTCM_BEGIN_FROM_M70_VIEW)))
    else if within addr RPMSG_SHMEM_M71_M70_DTCM_BEGIN_FROM_M71_VIEW RPMSG_SHMEM_M71_M70_DTCM_END_FROM_M71_VIEW
    then Some (u32 (addr - u32 (RPMSG_M70_DTCM_BEGIN_FROM_M71_VIEW - RPMSG_M70_DTCM_BEGIN_FROM_M70_VIEW)))
    else stop
  else if within addr RPMSG_M33S_SYS_TCM_BEGIN_FROM_M70_VIEW RPMSG_M33S_SYS_TCM_END_FROM_M70_VIEW
  then if within addr RPMSG_SHMEM_M70_M33S_SYS_TCM_BEGIN_FROM_M70_VIEW RPMSG_SHMEM_M70_M33S_SYS_TCM_END_FROM_M70_VIEW then Some addr else stop
  else Some addr.
Definition imx943_m71_platform_patova (addr : Z) : option Z :=
  if within addr RPMSG_M70_DTCM_BEGIN_FROM_M71_VIEW RPMSG_M70_DTCM_END_FROM_M71_VIEW
  then if within addr RPMSG_SHMEM_M71_M70_DTCM_BEGIN_FROM_M71_VIEW RPMSG_SHMEM_M71_M70_DTCM_END_FROM_M71_VIEW then Some addr else stop
  else if within addr RPMSG_M71_DTCM_BEGIN_FROM_M70_VIEW RPMSG_M71_DTCM_END_FROM_M70_VIEW
  then
    if within addr RPMSG_SHMEM_M70_M71_DTCM_BEGIN_FROM_M70_VIEW RPMSG_SHMEM_M70_M71_DTCM_END_FROM_M70_VIEW
    then Some (u32 (addr - u32 (RPMSG_M71_DTCM_BEGIN_FROM_M70_VIEW - RPMSG_M71_DTCM_BEGIN_FROM_M71_VIEW)))
    else if within addr RPMSG_SHMEM_M33S_M71_DTCM_BEGIN_FROM_M33S_VIEW RPMSG_SHMEM_M33S_M71_DTCM_END_FROM_M33S_VIEW
    then Some (u32 (addr - u32 (RPMSG_M71_DTCM_BEGIN_FROM_M33S_VIEW - RPMSG_M71_DTCM_BEGIN_FROM_M71_VIEW)))
    else stop
  else if within addr RPMSG_M33S_SYS_TCM_BEGIN_FROM_M71_VIEW RPMSG_M33S_SYS_TCM_END_FROM_M71_VIEW
  then if within addr RPMSG_SHMEM_M71_M33S_SYS_TCM_BEGIN_FROM_M71_VIEW RPMSG_SHMEM_M71_M33S_SYS_TCM_END_FROM_M71_VIEW then Some addr else stop
  else Some addr.
