(* ===== verification/PlatformServices.v ===== *)
(** * Platforms: global masking, memory map and caches

    The remaining functions of the platform files: the two wrappers around the
    global interrupt mask ([AMask], [AUnmask] in the functions of the other files),
    and the services for the memory map and the caches, which are empty on all
    platforms but those of the Xtensa cores and i.MX RT700 ([PlatformMemory]):
    [RL_USE_DCACHE] has no effect there ([empty_services]). *)

From S2P Require Import Prelude Config Platform.

(** [aarch64]. *)
Definition aarch64_platform_global_isr_disable : P unit := act AMask.
Definition aarch64_platform_global_isr_enable : P unit := act AUnmask.
Definition aarch64_platform_map_mem_region (vrt_addr phy_addr size flags : Z) : P unit := mret tt.
Definition aarch64_platform_cache_all_flush_invalidate : P unit := mret tt.
Definition aarch64_platform_cache_disable : P unit := mret tt.
Definition aarch64_platform_cache_flush (data len : Z) : P unit := mret tt.
Definition aarch64_platform_cache_invalidate (data len : Z) : P unit := mret tt.

(** [imx6sx_m4]. *)
Definition imx6sx_m4_platform_global_isr_disable : P unit := act AMask.
Definition imx6sx_m4_platform_global_isr_enable : P unit := act AUnmask.
Definition imx6sx_m4_platform_map_mem_region (vrt_addr phy_addr size flags : Z) : P unit := mret tt.
Definition imx6sx_m4_platform_cache_all_flush_invalidate : P unit := mret tt.
Definition imx6sx_m4_platform_cache_disable : P unit := mret tt.
Definition imx6sx_m4_platform_cache_flush (data len : Z) : P unit := mret tt.
Definition imx6sx_m4_platform_cache_invalidate (data len : Z) : P unit := mret tt.

(** [imx6sx_m4: rpmsg_platform_zephyr_ipm.c]. *)
Definition imx6sx_m4_ipm_platform_global_isr_disable : P unit := act AMask.
Definition imx6sx_m4_ipm_platform_global_isr_enable : P unit := act AUnmask.
Definition imx6sx_m4_ipm_platform_map_mem_region (vrt_addr phy_addr size flags : Z) : P unit := mret tt.
Definition imx6sx_m4_ipm_platform_cache_all_flush_invalidate : P unit := mret tt.
Definition imx6sx_m4_ipm_platform_cache_disable : P unit := mret tt.
Definition imx6sx_m4_ipm_platform_cache_flush (data len : Z) : P unit := mret tt.
Definition imx6sx_m4_ipm_platform_cache_invalidate (data len : Z) : P unit := mret tt.

(** [imx7d_m4]. *)
Definition imx7d_m4_platform_global_isr_disable : P unit := act AMask.
Definition imx7d_m4_platform_global_isr_enable : P unit := act AUnmask.
Definition imx7d_m4_platform_map_mem_region (vrt_addr phy_addr size flags : Z) : P unit := mret tt.
Definition imx7d_m4_platform_cache_all_flush_invalidate : P unit := mret tt.
Definition imx7d_m4_platform_cache_disable : P unit := mret tt.
Definition imx7d_m4_platform_cache_flush (data len : Z) : P unit := mret tt.
Definition imx7d_m4_platform_cache_invalidate (data len : Z) : P unit := mret tt.

(** [imx7d_m4: rpmsg_platform_zephyr_ipm.c]. *)
Definition imx7d_m4_ipm_platform_global_isr_disable : P unit := act AMask.
Definition imx7d_m4_ipm_platform_global_isr_enable : P unit := act AUnmask.
Definition imx7d_m4_ipm_platform_map_mem_region (vrt_addr phy_addr size flags : Z) : P unit := mret tt.
Definition imx7d_m4_ipm_platform_cache_all_flush_invalidate : P unit := mret tt.
Definition imx7d_m4_ipm_platform_cache_disable : P unit := mret tt.
Definition imx7d_m4_ipm_platform_cache_flush (data len : Z) : P unit := mret tt.
Definition imx7d_m4_ipm_platform_cache_invalidate (data len : Z) : P unit := mret tt.

(** [imx7ulp_m4]. *)
Definition imx7ulp_m4_platform_global_isr_disable : P unit := act AMask.
Definition imx7ulp_m4_platform_global_isr_enable : P unit := act AUnmask.
Definition imx7ulp_m4_platform_map_mem_region (vrt_addr phy_addr size flags : Z) : P unit := mret tt.
Definition imx7ulp_m4_platform_cache_all_flush_invalidate : P unit := mret tt.
Definition imx7ulp_m4_platform_cache_disable : P unit := mret tt.
Definition imx7ulp_m4_platform_cache_flush (data len : Z) : P unit := mret tt.
Definition imx7ulp_m4_platform_cache_invalidate (data len : Z) : P unit := mret tt.

(** [imx8dxl_m4]. *)
Definition imx8dxl_m4_platform_global_isr_disable : P unit := act AMask.
Definition imx8dxl_m4_platform_global_isr_enable : P unit := act AUnmask.
Definition imx8dxl_m4_platform_map_mem_region (vrt_addr phy_addr size flags : Z) : P unit := mret tt.
Definition imx8dxl_m4_platform_cache_all_flush_invalidate : P unit := mret tt.
Definition imx8dxl_m4_platform_cache_disable : P unit := mret tt.
Definition imx8dxl_m4_platform_cache_flush (data len : Z) : P unit := mret tt.
Definition imx8dxl_m4_platform_cache_invalidate (data len : Z) : P unit := mret tt.

(** [imx8mm_m4]. *)
Definition imx8mm_m4_platform_global_isr_disable : P unit := act AMask.
Definition imx8mm_m4_platform_global_isr_enable : P unit := act AUnmask.
Definition imx8mm_m4_platform_map_mem_region (vrt_addr phy_addr size flags : Z) : P unit := mret tt.
Definition imx8mm_m4_platform_cache_all_flush_invalidate : P unit := mret tt.
Definition imx8mm_m4_platform_cache_disable : P unit := mret tt.
Definition imx8mm_m4_platform_cache_flush (data len : Z) : P unit := mret tt.
Definition imx8mm_m4_platform_cache_invalidate (data len : Z) : P unit := mret tt.

(** [imx8mn_m7]. *)
Definition imx8mn_m7_platform_global_isr_disable : P unit := act AMask.
Definition imx8mn_m7_platform_global_isr_enable : P unit := act AUnmask.
Definition imx8mn_m7_platform_map_mem_region (vrt_addr phy_addr size flags : Z) : P unit := mret tt.
Definition imx8mn_m7_platform_cache_all_flush_invalidate : P unit := mret tt.
Definition imx8mn_m7_platform_cache_disable : P unit := mret tt.
Definition imx8mn_m7_platform_cache_flush (data len : Z) : P unit := mret tt.
Definition imx8mn_m7_platform_cache_invalidate (data len : Z) : P unit := mret tt.

(** [imx8mp_m7]. *)
Definition imx8mp_m7_platform_global_isr_disable : P unit := act AMask.
Definition imx8mp_m7_platform_global_isr_enable : P unit := act AUnmask.
Definition imx8mp_m7_platform_map_mem_region (vrt_addr phy_addr size flags : Z) : P unit := mret tt.
Definition imx8mp_m7_platform_cache_all_flush_invalidate : P unit := mret tt.
Definition imx8mp_m7_platform_cache_disable : P unit := mret tt.
Definition imx8mp_m7_platform_cache_flush (data len : Z) : P unit := mret tt.
Definition imx8mp_m7_platform_cache_invalidate (data len : Z) : P unit := mret tt.

(** [imx8mq_m4]. *)
Definition imx8mq_m4_platform_global_isr_disable : P unit := act AMask.
Definition imx8mq_m4_platform_global_isr_enable : P unit := act AUnmask.
Definition imx8mq_m4_platform_map_mem_region (vrt_addr phy_addr size flags : Z) : P unit := mret tt.
Definition imx8mq_m4_platform_cache_all_flush_invalidate : P unit := mret tt.
Definition imx8mq_m4_platform_cache_disable : P unit := mret tt.
Definition imx8mq_m4_platform_cache_flush (data len : Z) : P unit := mret tt.
Definition imx8mq_m4_platform_cache_invalidate (data len : Z) : P unit := mret tt.

(** [imx8qm_m4]. *)
Definition imx8qm_m4_platform_global_isr_disable : P unit := act AMask.
Definition imx8qm_m4_platform_global_isr_enable : P unit := act AUnmask.
Definition imx8qm_m4_platform_map_mem_region (vrt_addr phy_addr size flags : Z) : P unit := mret tt.
Definition imx8qm_m4_platform_cache_all_flush_invalidate : P unit := mret tt.
Definition imx8qm_m4_platform_cache_disable : P unit := mret tt.
Definition imx8qm_m4_platform_cache_flush (data len : Z) : P unit := mret tt.
Definition imx8qm_m4_platform_cache_invalidate (data len : Z) : P unit := mret tt.

(** [imx8qx_cm4]. *)
Definition imx8qx_cm4_platform_global_isr_disable : P unit := act AMask.
Definition imx8qx_cm4_platform_global_isr_enable : P unit := act AUnmask.
Definition imx8qx_cm4_platform_map_mem_region (vrt_addr phy_addr size flags : Z) : P unit := mret tt.
Definition imx8qx_cm4_platform_cache_all_flush_invalidate : P unit := mret tt.
Definition imx8qx_cm4_platform_cache_disable : P unit := mret tt.
Definition imx8qx_cm4_platform_cache_flush (data len : Z) : P unit := mret tt.
Definition imx8qx_cm4_platform_cache_invalidate (data len : Z) : P unit := mret tt.

(** [imx8ulp_fusionf1]. *)
Definition imx8ulp_fusionf1_platform_map_mem_region (vrt_addr phy_addr size flags : Z) : P unit := mret tt.
Definition imx8ulp_fusionf1_platform_cache_all_flush_invalidate : P unit := mret tt.
Definition imx8ulp_fusionf1_platform_cache_disable : P unit := mret tt.
Definition imx8ulp_fusionf1_platform_cache_flush (data len : Z) : P unit := mret tt.
Definition imx8ulp_fusionf1_platform_cache_invalidate (data len : Z) : P unit := mret tt.

(** [imx8ulp_m33]. *)
Definition imx8ulp_m33_platform_global_isr_disable : P unit := act AMask.
Definition imx8ulp_m33_platform_global_isr_enable : P unit := act AUnmask.
Definition imx8ulp_m33_platform_map_mem_region (vrt_addr phy_addr size flags : Z) : P unit := mret tt.
Definition imx8ulp_m33_platform_cache_all_flush_invalidate : P unit := mret tt.
Definition imx8ulp_m33_platform_cache_disable : P unit := mret tt.
Definition imx8ulp_m33_platform_cache_flush (data len : Z) : P unit := mret tt.
Definition imx8ulp_m33_platform_cache_invalidate (data len : Z) : P unit := mret tt.

(** [imx93_m33]. *)
Definition imx93_m33_platform_global_isr_disable : P unit := act AMask.
Definition imx93_m33_platform_global_isr_enable : P unit := act AUnmask.
Definition imx93_m33_platform_map_mem_region (vrt_addr phy_addr size flags : Z) : P unit := mret tt.
Definition imx93_m33_platform_cache_all_flush_invalidate : P unit := mret tt.
Definition imx93_m33_platform_cache_disable : P unit := mret tt.
Definition imx93_m33_platform_cache_flush (data len : Z) : P unit := mret tt.
Definition imx93_m33_platform_cache_invalidate (data len : Z) : P unit := mret tt.

(** [imx943_m33s]. *)
Definition imx943_m33s_platform_global_isr_disable : P unit := act AMask.
Definition imx943_m33s_platform_global_isr_enable : P unit := act AUnmask.
Definition imx943_m33s_platform_map_mem_region (vrt_addr phy_addr size flags : Z) : P unit := mret tt.
Definition imx943_m33s_platform_cache_all_flush_invalidate : P unit := mret tt.
Definition imx943_m33s_platform_cache_disable : P unit := mret tt.

(** [imx943_m70]. *)
Definition imx943_m70_platform_global_isr_disable : P unit := act AMask.
Definition imx943_m70_platform_global_isr_enable : P unit := act AUnmask.
Definition imx943_m70_platform_map_mem_region (vrt_addr phy_addr size flags : Z) : P unit := mret tt.
Definition imx943_m70_platform_cache_all_flush_invalidate : P unit := mret tt.
Definition imx943_m70_platform_cache_disable : P unit := mret tt.

(** [imx943_m71]. *)
Definition imx943_m71_platform_global_isr_disable : P unit := act AMask.
Definition imx943_m71_platform_global_isr_enable : P unit := act AUnmask.
Definition imx943_m71_platform_map_mem_region (vrt_addr phy_addr size flags : Z) : P unit := mret tt.
Definition imx943_m71_platform_cache_all_flush_invalidate : P unit := mret tt.
Definition imx943_m71_platform_cache_disable : P unit := mret tt.

(** [imx952_m7]. *)
Definition imx952_m7_platform_global_isr_disable : P unit := act AMask.
Definition imx952_m7_platform_global_isr_enable : P unit := act AUnmask.
Definition imx952_m7_platform_map_mem_region (vrt_addr phy_addr size flags : Z) : P unit := mret tt.
Definition imx952_m7_platform_cache_all_flush_invalidate : P unit := mret tt.
Definition imx952_m7_platform_cache_disable : P unit := mret tt.
Definition imx952_m7_platform_cache_flush (data len : Z) : P unit := mret tt.
Definition imx952_m7_platform_cache_invalidate (data len : Z) : P unit := mret tt.

(** [imx95_m33]. *)
Definition imx95_m33_platform_global_isr_disable : P unit := act AMask.
Definition imx95_m33_platform_global_isr_enable : P unit := act AUnmask.
Definition imx95_m33_platform_map_mem_region (vrt_addr phy_addr size flags : Z) : P unit := mret tt.
Definition imx95_m33_platform_cache_all_flush_invalidate : P unit := mret tt.
Definition imx95_m33_platform_cache_disable : P unit := mret tt.
Definition imx95_m33_platform_cache_flush (data len : Z) : P unit := mret tt.
Definition imx95_m33_platform_cache_invalidate (data len : Z) : P unit := mret tt.

(** [imx95_m7]. *)
Definition imx95_m7_platform_global_isr_disable : P unit := act AMask.
Definition imx95_m7_platform_global_isr_enable : P unit := act AUnmask.
Definition imx95_m7_platform_map_mem_region (vrt_addr phy_addr size flags : Z) : P unit := mret tt.
Definition imx95_m7_platform_cache_all_flush_invalidate : P unit := mret tt.
Definition imx95_m7_platform_cache_disable : P unit := mret tt.
Definition imx95_m7_platform_cache_flush (data len : Z) : P unit := mret tt.
Definition imx95_m7_platform_cache_invalidate (data len : Z) : P unit := mret tt.

(** [imxrt1160]. *)
Definition imxrt1160_platform_global_isr_disable : P unit := act AMask.
Definition imxrt1160_platform_global_isr_enable : P unit := act AUnmask.
Definition imxrt1160_platform_map_mem_region (vrt_addr phy_addr size flags : Z) : P unit := mret tt.
Definition imxrt1160_platform_cache_all_flush_invalidate : P unit := mret tt.
Definition imxrt1160_platform_cache_disable : P unit := mret tt.
Definition imxrt1160_platform_cache_flush (data len : Z) : P unit := mret tt.
Definition imxrt1160_platform_cache_invalidate (data len : Z) : P unit := mret tt.

(** [imxrt1160: rpmsg_platform_zephyr_ipm.c]. *)
Definition imxrt1160_ipm_platform_global_isr_disable : P unit := act AMask.
Definition imxrt1160_ipm_platform_global_isr_enable : P unit := act AUnmask.
Definition imxrt1160_ipm_platform_map_mem_region (vrt_addr phy_addr size flags : Z) : P unit := mret tt.
Definition imxrt1160_ipm_platform_cache_all_flush_invalidate : P unit := mret tt.
Definition imxrt1160_ipm_platform_cache_disable : P unit := mret tt.
Definition imxrt1160_ipm_platform_cache_flush (data len : Z) : P unit := mret tt.
Definition imxrt1160_ipm_platform_cache_invalidate (data len : Z) : P unit := mret tt.

(** [imxrt1170]. *)
Definition imxrt1170_platform_global_isr_disable : P unit := act AMask.
Definition imxrt1170_platform_global_isr_enable : P unit := act AUnmask.
Definition imxrt1170_platform_map_mem_region (vrt_addr phy_addr size flags : Z) : P unit := mret tt.
Definition imxrt1170_platform_cache_all_flush_invalidate : P unit := mret tt.
Definition imxrt1170_platform_cache_disable : P unit := mret tt.
Definition imxrt1170_platform_cache_flush (data len : Z) : P unit := mret tt.
Definition imxrt1170_platform_cache_invalidate (data len : Z) : P unit := mret tt.

(** [imxrt1170: rpmsg_platform_zephyr_ipm.c]. *)
Definition imxrt1170_ipm_platform_global_isr_disable : P unit := act AMask.
Definition imxrt1170_ipm_platform_global_isr_enable : P unit := act AUnmask.
Definition imxrt1170_ipm_platform_map_mem_region (vrt_addr phy_addr size flags : Z) : P unit := mret tt.
Definition imxrt1170_ipm_platform_cache_all_flush_invalidate : P unit := mret tt.
Definition imxrt1170_ipm_platform_cache_disable : P unit := mret tt.
Definition imxrt1170_ipm_platform_cache_flush (data len : Z) : P unit := mret tt.
Definition imxrt1170_ipm_platform_cache_invalidate (data len : Z) : P unit := mret tt.

(** [imxrt1180]. *)
Definition imxrt1180_platform_global_isr_disable : P unit := act AMask.
Definition imxrt1180_platform_global_isr_enable : P unit := act AUnmask.
Definition imxrt1180_platform_map_mem_region (vrt_addr phy_addr size flags : Z) : P unit := mret tt.
Definition imxrt1180_platform_cache_all_flush_invalidate : P unit := mret tt.
Definition imxrt1180_platform_cache_disable : P unit := mret tt.
Definition imxrt1180_platform_cache_flush (data len : Z) : P unit := mret tt.
Definition imxrt1180_platform_cache_invalidate (data len : Z) : P unit := mret tt.

(** [imxrt500_fusionf1]. *)
Definition imxrt500_fusionf1_platform_map_mem_region (vrt_addr phy_addr size flags : Z) : P unit := mret tt.
Definition imxrt500_fusionf1_platform_cache_all_flush_invalidate : P unit := mret tt.
Definition imxrt500_fusionf1_platform_cache_disable : P unit := mret tt.

(** [imxrt500_m33]. *)
Definition imxrt500_m33_platform_global_isr_disable : P unit := act AMask.
Definition imxrt500_m33_platform_global_isr_enable : P unit := act AUnmask.
Definition imxrt500_m33_platform_map_mem_region (vrt_addr phy_addr size flags : Z) : P unit := mret tt.
Definition imxrt500_m33_platform_cache_all_flush_invalidate : P unit := mret tt.
Definition imxrt500_m33_platform_cache_disable : P unit := mret tt.
Definition imxrt500_m33_platform_cache_flush (data len : Z) : P unit := mret tt.
Definition imxrt500_m33_platform_cache_invalidate (data len : Z) : P unit := mret tt.

(** [imxrt600_hifi4]. *)
Definition imxrt600_hifi4_platform_map_mem_region (vrt_addr phy_addr size flags : Z) : P unit := mret tt.
Definition imxrt600_hifi4_platform_cache_all_flush_invalidate : P unit := mret tt.
Definition imxrt600_hifi4_platform_cache_disable : P unit := mret tt.

(** [imxrt600_hifi4: rpmsg_platform_zephyr_ipm.c]. *)
Definition imxrt600_hifi4_ipm_platform_global_isr_disable : P unit := act AMask.
Definition imxrt600_hifi4_ipm_platform_global_isr_enable : P unit := act AUnmask.
Definition imxrt600_hifi4_ipm_platform_map_mem_region (vrt_addr phy_addr size flags : Z) : P unit := mret tt.
Definition imxrt600_hifi4_ipm_platform_cache_all_flush_invalidate : P unit := mret tt.
Definition imxrt600_hifi4_ipm_platform_cache_disable : P unit := mret tt.
Definition imxrt600_hifi4_ipm_platform_cache_flush (data len : Z) : P unit := mret tt.
Definition imxrt600_hifi4_ipm_platform_cache_invalidate (data len : Z) : P unit := mret tt.

(** [imxrt600_m33]. *)
Definition imxrt600_m33_platform_global_isr_disable : P unit := act AMask.
Definition imxrt600_m33_platform_global_isr_enable : P unit := act AUnmask.
Definition imxrt600_m33_platform_map_mem_region (vrt_addr phy_addr size flags : Z) : P unit := mret tt.
Definition imxrt600_m33_platform_cache_all_flush_invalidate : P unit := mret tt.
Definition imxrt600_m33_platform_cache_disable : P unit := mret tt.
Definition imxrt600_m33_platform_cache_flush (data len : Z) : P unit := mret tt.
Definition imxrt600_m33_platform_cache_invalidate (data len : Z) : P unit := mret tt.

(** [imxrt600_m33: rpmsg_platform_zephyr_ipm.c]. *)
Definition imxrt600_m33_ipm_platform_global_isr_disable : P unit := act AMask.
Definition imxrt600_m33_ipm_platform_global_isr_enable : P unit := act AUnmask.
Definition imxrt600_m33_ipm_platform_map_mem_region (vrt_addr phy_addr size flags : Z) : P unit := mret tt.
Definition imxrt600_m33_ipm_platform_cache_all_flush_invalidate : P unit := mret tt.
Definition imxrt600_m33_ipm_platform_cache_disable : P unit := mret tt.
Definition imxrt600_m33_ipm_platform_cache_flush (data len : Z) : P unit := mret tt.
Definition imxrt600_m33_ipm_platform_cache_invalidate (data len : Z) : P unit := mret tt.

(** [imxrt700_ezhv]. *)
Definition imxrt700_ezhv_platform_global_isr_disable : P unit := act AMask.
Definition imxrt700_ezhv_platform_global_isr_enable : P unit := act AUnmask.
Definition imxrt700_ezhv_platform_map_mem_region (vrt_addr phy_addr size flags : Z) : P unit := mret tt.
Definition imxrt700_ezhv_platform_cache_all_flush_invalidate : P unit := mret tt.
Definition imxrt700_ezhv_platform_cache_disable : P unit := mret tt.
Definition imxrt700_ezhv_platform_cache_flush (data len : Z) : P unit := if (data =? NULL) || (len =? 0) then mret tt else mret tt.
Definition imxrt700_ezhv_platform_cache_invalidate (data len : Z) : P unit := if (data =? NULL) || (len =? 0) then mret tt else mret tt.

(** [imxrt700_hifi1]. *)
Definition imxrt700_hifi1_platform_map_mem_region (vrt_addr phy_addr size flags : Z) : P unit := mret tt.
Definition imxrt700_hifi1_platform_cache_all_flush_invalidate : P unit := mret tt.
Definition imxrt700_hifi1_platform_cache_disable : P unit := mret tt.
Definition imxrt700_hifi1_platform_cache_flush (data len : Z) : P unit := mret tt.
Definition imxrt700_hifi1_platform_cache_invalidate (data len : Z) : P unit := mret tt.

(** [imxrt700_hifi4]. *)
Definition imxrt700_hifi4_platform_map_mem_region (vrt_addr phy_addr size flags : Z) : P unit := mret tt.
Definition imxrt700_hifi4_platform_cache_all_flush_invalidate : P unit := mret tt.
Definition imxrt700_hifi4_platform_cache_disable : P unit := mret tt.

(** [imxrt700_hifi4: rpmsg_platform_zephyr_ipm.c]. *)
Definition imxrt700_hifi4_ipm_platform_global_isr_disable : P unit := act AMask.
Definition imxrt700_hifi4_ipm_platform_global_isr_enable : P unit := act AUnmask.
Definition imxrt700_hifi4_ipm_platform_map_mem_region (vrt_addr phy_addr size flags : Z) : P unit := mret tt.
Definition imxrt700_hifi4_ipm_platform_cache_all_flush_invalidate : P unit := mret tt.
Definition imxrt700_hifi4_ipm_platform_cache_disable : P unit := mret tt.
Definition imxrt700_hifi4_ipm_platform_cache_flush (data len : Z) : P unit := mret tt.
Definition imxrt700_hifi4_ipm_platform_cache_invalidate (data len : Z) : P unit := mret tt.

(** [imxrt700_m33]. *)
Definition imxrt700_m33_platform_global_isr_disable : P unit := act AMask.
Definition imxrt700_m33_platform_global_isr_enable : P unit := act AUnmask.
Definition imxrt700_m33_platform_map_mem_region (vrt_addr phy_addr size flags : Z) : P unit := mret tt.
Definition imxrt700_m33_platform_cache_all_flush_invalidate : P unit := mret tt.
Definition imxrt700_m33_platform_cache_disable : P unit := mret tt.

(** [imxrt700_m33: rpmsg_platform_zephyr_ipm.c]. *)
Definition imxrt700_m33_ipm_platform_global_isr_disable : P unit := act AMask.
Definition imxrt700_m33_ipm_platform_global_isr_enable : P unit := act AUnmask.
Definition imxrt700_m33_ipm_platform_map_mem_region (vrt_addr phy_addr size flags : Z) : P unit := mret tt.
Definition imxrt700_m33_ipm_platform_cache_all_flush_invalidate : P unit := mret tt.
Definition imxrt700_m33_ipm_platform_cache_disable : P unit := mret tt.
Definition imxrt700_m33_ipm_platform_cache_flush (data len : Z) : P unit := mret tt.
Definition imxrt700_m33_ipm_platform_cache_invalidate (data len : Z) : P unit := mret tt.

(** [k32l3a6]. *)
Definition k32l3a6_platform_global_isr_disable : P unit := act AMask.
Definition k32l3a6_platform_global_isr_enable : P unit := act AUnmask.
Definition k32l3a6_platform_map_mem_region (vrt_addr phy_addr size flags : Z) : P unit := mret tt.
Definition k32l3a6_platform_cache_all_flush_invalidate : P unit := mret tt.
Definition k32l3a6_platform_cache_disable : P unit := mret tt.
Definition k32l3a6_platform_cache_flush (data len : Z) : P unit := mret tt.
Definition k32l3a6_platform_cache_invalidate (data len : Z) : P unit := mret tt.

(** [k32w1]. *)
Definition k32w1_platform_global_isr_disable : P unit := act AMask.
Definition k32w1_platform_global_isr_enable : P unit := act AUnmask.
Definition k32w1_platform_map_mem_region (vrt_addr phy_addr size flags : Z) : P unit := mret tt.
Definition k32w1_platform_cache_all_flush_invalidate : P unit := mret tt.
Definition k32w1_platform_cache_disable : P unit := mret tt.
Definition k32w1_platform_cache_flush (data len : Z) : P unit := mret tt.
Definition k32w1_platform_cache_invalidate (data len : Z) : P unit := mret tt.

(** [k32w1]. *)


(** [kw43b43]. *)
Definition kw43b43_platform_global_isr_disable : P unit := act AMask.
Definition kw43b43_platform_global_isr_enable : P unit := act AUnmask.
Definition kw43b43_platform_map_mem_region (vrt_addr phy_addr size flags : Z) : P unit := mret tt.
Definition kw43b43_platform_cache_all_flush_invalidate : P unit := mret tt.
Definition kw43b43_platform_cache_disable : P unit := mret tt.
Definition kw43b43_platform_cache_flush (data len : Z) : P unit := mret tt.
Definition kw43b43_platform_cache_invalidate (data len : Z) : P unit := mret tt.

(** [kw45b41]. *)
Definition kw45b41_platform_global_isr_disable : P unit := act AMask.
Definition kw45b41_platform_global_isr_enable : P unit := act AUnmask.
Definition kw45b41_platform_map_mem_region (vrt_addr phy_addr size flags : Z) : P unit := mret tt.
Definition kw45b41_platform_cache_all_flush_invalidate : P unit := mret tt.
Definition kw45b41_platform_cache_disable : P unit := mret tt.
Definition kw45b41_platform_cache_flush (data len : Z) : P unit := mret tt.
Definition kw45b41_platform_cache_invalidate (data len : Z) : P unit := mret tt.

(** [kw45b41]. *)


(** [kw47b42]. *)
Definition kw47b42_platform_global_isr_disable : P unit := act AMask.
Definition kw47b42_platform_global_isr_enable : P unit := act AUnmask.
Definition kw47b42_platform_map_mem_region (vrt_addr phy_addr size flags : Z) : P unit := mret tt.
Definition kw47b42_platform_cache_all_flush_invalidate : P unit := mret tt.
Definition kw47b42_platform_cache_disable : P unit := mret tt.
Definition kw47b42_platform_cache_flush (data len : Z) : P unit := mret tt.
Definition kw47b42_platform_cache_invalidate (data len : Z) : P unit := mret tt.

(** [kw47b42]. *)


(** [lpc5410x]. *)
Definition lpc5410x_platform_global_isr_disable : P unit := act AMask.
Definition lpc5410x_platform_global_isr_enable : P unit := act AUnmask.
Definition lpc5410x_platform_map_mem_region (vrt_addr phy_addr size flags : Z) : P unit := mret tt.
Definition lpc5410x_platform_cache_all_flush_invalidate : P unit := mret tt.
Definition lpc5410x_platform_cache_disable : P unit := mret tt.
Definition lpc5410x_platform_cache_flush (data len : Z) : P unit := mret tt.
Definition lpc5410x_platform_cache_invalidate (data len : Z) : P unit := mret tt.

(** [lpc5411x]. *)
Definition lpc5411x_platform_global_isr_disable : P unit := act AMask.
Definition lpc5411x_platform_global_isr_enable : P unit := act AUnmask.
Definition lpc5411x_platform_map_mem_region (vrt_addr phy_addr size flags : Z) : P unit := mret tt.
Definition lpc5411x_platform_cache_all_flush_invalidate : P unit := mret tt.
Definition lpc5411x_platform_cache_disable : P unit := mret tt.
Definition lpc5411x_platform_cache_flush (data len : Z) : P unit := mret tt.
Definition lpc5411x_platform_cache_invalidate (data len : Z) : P unit := mret tt.

(** [lpc5411x: rpmsg_platform_zephyr_ipm.c]. *)
Definition lpc5411x_ipm_platform_global_isr_disable : P unit := act AMask.
Definition lpc5411x_ipm_platform_global_isr_enable : P unit := act AUnmask.
Definition lpc5411x_ipm_platform_map_mem_region (vrt_addr phy_addr size flags : Z) : P unit := mret tt.
Definition lpc5411x_ipm_platform_cache_all_flush_invalidate : P unit := mret tt.
Definition lpc5411x_ipm_platform_cache_disable : P unit := mret tt.
Definition lpc5411x_ipm_platform_cache_flush (data len : Z) : P unit := mret tt.
Definition lpc5411x_ipm_platform_cache_invalidate (data len : Z) : P unit := mret tt.

(** [lpc55s69]. *)
Definition lpc55s69_platform_global_isr_disable : P unit := act AMask.
Definition lpc55s69_platform_global_isr_enable : P unit := act AUnmask.
Definition lpc55s69_platform_map_mem_region (vrt_addr phy_addr size flags : Z) : P unit := mret tt.
Definition lpc55s69_platform_cache_all_flush_invalidate : P unit := mret tt.
Definition lpc55s69_platform_cache_disable : P unit := mret tt.
Definition lpc55s69_platform_cache_flush (data len : Z) : P unit := mret tt.
Definition lpc55s69_platform_cache_invalidate (data len : Z) : P unit := mret tt.

(** [lpc55s69: rpmsg_platform_zephyr_ipm.c]. *)
Definition lpc55s69_ipm_platform_global_isr_disable : P unit := act AMask.
Definition lpc55s69_ipm_platform_global_isr_enable : P unit := act AUnmask.
Definition lpc55s69_ipm_platform_map_mem_region (vrt_addr phy_addr size flags : Z) : P unit := mret tt.
Definition lpc55s69_ipm_platform_cache_all_flush_invalidate : P unit := mret tt.
Definition lpc55s69_ipm_platform_cache_disable : P unit := mret tt.
Definition lpc55s69_ipm_platform_cache_flush (data len : Z) : P unit := mret tt.
Definition lpc55s69_ipm_platform_cache_invalidate (data len : Z) : P unit := mret tt.

(** [mcxl20]. *)
Definition mcxl20_platform_global_isr_disable : P unit := act AMask.
Definition mcxl20_platform_global_isr_enable : P unit := act AUnmask.
Definition mcxl20_platform_map_mem_region (vrt_addr phy_addr size flags : Z) : P unit := mret tt.
Definition mcxl20_platform_cache_all_flush_invalidate : P unit := mret tt.
Definition mcxl20_platform_cache_disable : P unit := mret tt.
Definition mcxl20_platform_cache_flush (data len : Z) : P unit := mret tt.
Definition mcxl20_platform_cache_invalidate (data len : Z) : P unit := mret tt.

(** [mcxnx4x]. *)
Definition mcxnx4x_platform_global_isr_disable : P unit := act AMask.
Definition mcxnx4x_platform_global_isr_enable : P unit := act AUnmask.
Definition mcxnx4x_platform_map_mem_region (vrt_addr phy_addr size flags : Z) : P unit := mret tt.
Definition mcxnx4x_platform_cache_all_flush_invalidate : P unit := mret tt.
Definition mcxnx4x_platform_cache_disable : P unit := mret tt.
Definition mcxnx4x_platform_cache_flush (data len : Z) : P unit := mret tt.
Definition mcxnx4x_platform_cache_invalidate (data len : Z) : P unit := mret tt.

(** [mcxw70]. *)
Definition mcxw70_platform_global_isr_disable : P unit := act AMask.
Definition mcxw70_platform_global_isr_enable : P unit := act AUnmask.
Definition mcxw70_platform_map_mem_region (vrt_addr phy_addr size flags : Z) : P unit := mret tt.
Definition mcxw70_platform_cache_all_flush_invalidate : P unit := mret tt.
Definition mcxw70_platform_cache_disable : P unit := mret tt.
Definition mcxw70_platform_cache_flush (data len : Z) : P unit := mret tt.
Definition mcxw70_platform_cache_invalidate (data len : Z) : P unit := mret tt.

(** [mcxw71x]. *)
Definition mcxw71x_platform_global_isr_disable : P unit := act AMask.
Definition mcxw71x_platform_global_isr_enable : P unit := act AUnmask.
Definition mcxw71x_platform_map_mem_region (vrt_addr phy_addr size flags : Z) : P unit := mret tt.
Definition mcxw71x_platform_cache_all_flush_invalidate : P unit := mret tt.
Definition mcxw71x_platform_cache_disable : P unit := mret tt.

(** [mcxw71x]. *)


(** [mcxw72x]. *)
Definition mcxw72x_platform_global_isr_disable : P unit := act AMask.
Definition mcxw72x_platform_global_isr_enable : P unit := act AUnmask.
Definition mcxw72x_platform_map_mem_region (vrt_addr phy_addr size flags : Z) : P unit := mret tt.
Definition mcxw72x_platform_cache_all_flush_invalidate : P unit := mret tt.
Definition mcxw72x_platform_cache_disable : P unit := mret tt.
Definition mcxw72x_platform_cache_flush (data len : Z) : P unit := mret tt.
Definition mcxw72x_platform_cache_invalidate (data len : Z) : P unit := mret tt.

(** [mcxw72x]. *)


(** ** What they do *)

Definition map_services : list (Z → Z → Z → Z → P unit) :=
  [aarch64_platform_map_mem_region;
   imx6sx_m4_platform_map_mem_region;
   imx6sx_m4_ipm_platform_map_mem_region;
   imx7d_m4_platform_map_mem_region;
   imx7d_m4_ipm_platform_map_mem_region;
   imx7ulp_m4_platform_map_mem_region;
   imx8dxl_m4_platform_map_mem_region;
   imx8mm_m4_platform_map_mem_region;
   imx8mn_m7_platform_map_mem_region;
   imx8mp_m7_platform_map_mem_region;
   imx8mq_m4_platform_map_mem_region;
   imx8qm_m4_platform_map_mem_region;
   imx8qx_cm4_platform_map_mem_region;
   imx8ulp_fusionf1_platform_map_mem_region;
   imx8ulp_m33_platform_map_mem_region;
   imx93_m33_platform_map_mem_region;
   imx943_m33s_platform_map_mem_region;
   imx943_m70_platform_map_mem_region;
   imx943_m71_platform_map_mem_region;
   imx952_m7_platform_map_mem_region;
   imx95_m33_platform_map_mem_region;
   imx95_m7_platform_map_mem_region;
   imxrt1160_platform_map_mem_region;
   imxrt1160_ipm_platform_map_mem_region;
   imxrt1170_platform_map_mem_region;
   imxrt1170_ipm_platform_map_mem_region;
   imxrt1180_platform_map_mem_region;
   imxrt500_fusionf1_platform_map_mem_region;
   imxrt500_m33_platform_map_mem_region;
   imxrt600_hifi4_platform_map_mem_region;
   imxrt600_hifi4_ipm_platform_map_mem_region;
   imxrt600_m33_platform_map_mem_region;
   imxrt600_m33_ipm_platform_map_mem_region;
   imxrt700_ezhv_platform_map_mem_region;
   imxrt700_hifi1_platform_map_mem_region;
   imxrt700_hifi4_platform_map_mem_region;
   imxrt700_hifi4_ipm_platform_map_mem_region;
   imxrt700_m33_platform_map_mem_region;
   imxrt700_m33_ipm_platform_map_mem_region;
   k32l3a6_platform_map_mem_region;
   k32w1_platform_map_mem_region;
   kw43b43_platform_map_mem_region;
   kw45b41_platform_map_mem_region;
   kw47b42_platform_map_mem_region;
   lpc5410x_platform_map_mem_region;
   lpc5411x_platform_map_mem_region;
   lpc5411x_ipm_platform_map_mem_region;
   lpc55s69_platform_map_mem_region;
   lpc55s69_ipm_platform_map_mem_region;
   mcxl20_platform_map_mem_region;
   mcxnx4x_platform_map_mem_region;
   mcxw70_platform_map_mem_region;
   mcxw71x_platform_map_mem_region;
   mcxw72x_platform_map_mem_region].

Definition cache_services : list (P unit) :=
  [aarch64_platform_cache_all_flush_invalidate;
   imx6sx_m4_platform_cache_all_flush_invalidate;
   imx6sx_m4_ipm_platform_cache_all_flush_invalidate;
   imx7d_m4_platform_cache_all_flush_invalidate;
   imx7d_m4_ipm_platform_cache_all_flush_invalidate;
   imx7ulp_m4_platform_cache_all_flush_invalidate;
   imx8dxl_m4_platform_cache_all_flush_invalidate;
   imx8mm_m4_platform_cache_all_flush_invalidate;
   imx8mn_m7_platform_cache_all_flush_invalidate;
   imx8mp_m7_platform_cache_all_flush_invalidate;
   imx8mq_m4_platform_cache_all_flush_invalidate;
   imx8qm_m4_platform_cache_all_flush_invalidate;
   imx8qx_cm4_platform_cache_all_flush_invalidate;
   imx8ulp_fusionf1_platform_cache_all_flush_invalidate;
   imx8ulp_m33_platform_cache_all_flush_invalidate;
   imx93_m33_platform_cache_all_flush_invalidate;
   imx943_m33s_platform_cache_all_flush_invalidate;
   imx943_m70_platform_cache_all_flush_invalidate;
   imx943_m71_platform_cache_all_flush_invalidate;
   imx952_m7_platform_cache_all_flush_invalidate;
   imx95_m33_platform_cache_all_flush_invalidate;
   imx95_m7_platform_cache_all_flush_invalidate;
   imxrt1160_platform_cache_all_flush_invalidate;
   imxrt1160_ipm_platform_cache_all_flush_invalidate;
   imxrt1170_platform_cache_all_flush_invalidate;
   imxrt1170_ipm_platform_cache_all_flush_invalidate;
   imxrt1180_platform_cache_all_flush_invalidate;
   imxrt500_fusionf1_platform_cache_all_flush_invalidate;
   imxrt500_m33_platform_cache_all_flush_invalidate;
   imxrt600_hifi4_platform_cache_all_flush_invalidate;
   imxrt600_hifi4_ipm_platform_cache_all_flush_invalidate;
   imxrt600_m33_platform_cache_all_flush_invalidate;
   imxrt600_m33_ipm_platform_cache_all_flush_invalidate;
   imxrt700_ezhv_platform_cache_all_flush_invalidate;
   imxrt700_hifi1_platform_cache_all_flush_invalidate;
   imxrt700_hifi4_platform_cache_all_flush_invalidate;
   imxrt700_hifi4_ipm_platform_cache_all_flush_invalidate;
   imxrt700_m33_platform_cache_all_flush_invalidate;
   imxrt700_m33_ipm_platform_cache_all_flush_invalidate;
   k32l3a6_platform_cache_all_flush_invalidate;
   k32w1_platform_cache_all_flush_invalidate;
   kw43b43_platform_cache_all_flush_invalidate;
   kw45b41_platform_cache_all_flush_invalidate;
   kw47b42_platform_cache_all_flush_invalidate;
   lpc5410x_platform_cache_all_flush_invalidate;
   lpc5411x_platform_cache_all_flush_invalidate;
   lpc5411x_ipm_platform_cache_all_flush_invalidate;
   lpc55s69_platform_cache_all_flush_invalidate;
   lpc55s69_ipm_platform_cache_all_flush_invalidate;
   mcxl20_platform_cache_all_flush_invalidate;
   mcxnx4x_platform_cache_all_flush_invalidate;
   mcxw70_platform_cache_all_flush_invalidate;
   mcxw71x_platform_cache_all_flush_invalidate;
   mcxw72x_platform_cache_all_flush_invalidate;
   aarch64_platform_cache_disable;
   imx6sx_m4_platform_cache_disable;
   imx6sx_m4_ipm_platform_cache_disable;
   imx7d_m4_platform_cache_disable;
   imx7d_m4_ipm_platform_cache_disable;
   imx7ulp_m4_platform_cache_disable;
   imx8dxl_m4_platform_cache_disable;
   imx8mm_m4_platform_cache_disable;
   imx8mn_m7_platform_cache_disable;
   imx8mp_m7_platform_cache_disable;
   imx8mq_m4_platform_cache_disable;
   imx8qm_m4_platform_cache_disable;
   imx8qx_cm4_platform_cache_disable;
   imx8ulp_fusionf1_platform_cache_disable;
   imx8ulp_m33_platform_cache_disable;
   imx93_m33_platform_cache_disable;
   imx943_m33s_platform_cache_disable;
   imx943_m70_platform_cache_disable;
   imx943_m71_platform_cache_disable;
   imx952_m7_platform_cache_disable;
   imx95_m33_platform_cache_disable;
   imx95_m7_platform_cache_disable;
   imxrt1160_platform_cache_disable;
   imxrt1160_ipm_platform_cache_disable;
   imxrt1170_platform_cache_disable;
   imxrt1170_ipm_platform_cache_disable;
   imxrt1180_platform_cache_disable;
   imxrt500_fusionf1_platform_cache_disable;
   imxrt500_m33_platform_cache_disable;
   imxrt600_hifi4_platform_cache_disable;
   imxrt600_hifi4_ipm_platform_cache_disable;
   imxrt600_m33_platform_cache_disable;
   imxrt600_m33_ipm_platform_cache_disable;
   imxrt700_ezhv_platform_cache_disable;
   imxrt700_hifi1_platform_cache_disable;
   imxrt700_hifi4_platform_cache_disable;
   imxrt700_hifi4_ipm_platform_cache_disable;
   imxrt700_m33_platform_cache_disable;
   imxrt700_m33_ipm_platform_cache_disable;
   k32l3a6_platform_cache_disable;
   k32w1_platform_cache_disable;
   kw43b43_platform_cache_disable;
   kw45b41_platform_cache_disable;
   kw47b42_platform_cache_disable;
   lpc5410x_platform_cache_disable;
   lpc5411x_platform_cache_disable;
   lpc5411x_ipm_platform_cache_disable;
   lpc55s69_platform_cache_disable;
   lpc55s69_ipm_platform_cache_disable;
   mcxl20_platform_cache_disable;
   mcxnx4x_platform_cache_disable;
   mcxw70_platform_cache_disable;
   mcxw71x_platform_cache_disable;
   mcxw72x_platform_cache_disable].

Definition range_services : list (Z → Z → P unit) :=
  [aarch64_platform_cache_flush;
   imx6sx_m4_platform_cache_flush;
   imx6sx_m4_ipm_platform_cache_flush;
   imx7d_m4_platform_cache_flush;
   imx7d_m4_ipm_platform_cache_flush;
   imx7ulp_m4_platform_cache_flush;
   imx8dxl_m4_platform_cache_flush;
   imx8mm_m4_platform_cache_flush;
   imx8mn_m7_platform_cache_flush;
   imx8mp_m7_platform_cache_flush;
   imx8mq_m4_platform_cache_flush;
   imx8qm_m4_platform_cache_flush;
   imx8qx_cm4_platform_cache_flush;
   imx8ulp_fusionf1_platform_cache_flush;
   imx8ulp_m33_platform_cache_flush;
   imx93_m33_platform_cache_flush;
   imx952_m7_platform_cache_flush;
   imx95_m33_platform_cache_flush;
   imx95_m7_platform_cache_flush;
   imxrt1160_platform_cache_flush;
   imxrt1160_ipm_platform_cache_flush;
   imxrt1170_platform_cache_flush;
   imxrt1170_ipm_platform_cache_flush;
   imxrt1180_platform_cache_flush;
   imxrt500_m33_platform_cache_flush;
   imxrt600_hifi4_ipm_platform_cache_flush;
   imxrt600_m33_platform_cache_flush;
   imxrt600_m33_ipm_platform_cache_flush;
   imxrt700_ezhv_platform_cache_flush;
   imxrt700_hifi1_platform_cache_flush;
   imxrt700_hifi4_ipm_platform_cache_flush;
   imxrt700_m33_ipm_platform_cache_flush;
   k32l3a6_platform_cache_flush;
   k32w1_platform_cache_flush;
   kw43b43_platform_cache_flush;
   kw45b41_platform_cache_flush;
   kw47b42_platform_cache_flush;
   lpc5410x_platform_cache_flush;
   lpc5411x_platform_cache_flush;
   lpc5411x_ipm_platform_cache_flush;
   lpc55s69_platform_cache_flush;
   lpc55s69_ipm_platform_cache_flush;
   mcxl20_platform_cache_flush;
   mcxnx4x_platform_cache_flush;
   mcxw70_platform_cache_flush;
   mcxw72x_platform_cache_flush;
   aarch64_platform_cache_invalidate;
   imx6sx_m4_platform_cache_invalidate;
   imx6sx_m4_ipm_platform_cache_invalidate;
   imx7d_m4_platform_cache_invalidate;
   imx7d_m4_ipm_platform_cache_invalidate;
   imx7ulp_m4_platform_cache_invalidate;
   imx8dxl_m4_platform_cache_invalidate;
   imx8mm_m4_platform_cache_invalidate;
   imx8mn_m7_platform_cache_invalidate;
   imx8mp_m7_platform_cache_invalidate;
   imx8mq_m4_platform_cache_invalidate;
   imx8qm_m4_platform_cache_invalidate;
   imx8qx_cm4_platform_cache_invalidate;
   imx8ulp_fusionf1_platform_cache_invalidate;
   imx8ulp_m33_platform_cache_invalidate;
   imx93_m33_platform_cache_invalidate;
   imx952_m7_platform_cache_invalidate;
   imx95_m33_platform_cache_invalidate;
   imx95_m7_platform_cache_invalidate;
   imxrt1160_platform_cache_invalidate;
   imxrt1160_ipm_platform_cache_invalidate;
   imxrt1170_platform_cache_invalidate;
   imxrt1170_ipm_platform_cache_invalidate;
   imxrt1180_platform_cache_invalidate;
   imxrt500_m33_platform_cache_invalidate;
   imxrt600_hifi4_ipm_platform_cache_invalidate;
   imxrt600_m33_platform_cache_invalidate;
   imxrt600_m33_ipm_platform_cache_invalidate;
   imxrt700_ezhv_platform_cache_invalidate;
   imxrt700_hifi1_platform_cache_invalidate;
   imxrt700_hifi4_ipm_platform_cache_invalidate;
   imxrt700_m33_ipm_platform_cache_invalidate;
   k32l3a6_platform_cache_invalidate;
   k32w1_platform_cache_invalidate;
   kw43b43_platform_cache_invalidate;
   kw45b41_platform_cache_invalidate;
   kw47b42_platform_cache_invalidate;
   lpc5410x_platform_cache_invalidate;
   lpc5411x_platform_cache_invalidate;
   lpc5411x_ipm_platform_cache_invalidate;
   lpc55s69_platform_cache_invalidate;
   lpc55s69_ipm_platform_cache_invalidate;
   mcxl20_platform_cache_invalidate;
   mcxnx4x_platform_cache_invalidate;
   mcxw70_platform_cache_invalidate;
   mcxw72x_platform_cache_invalidate].

(** On these platforms the services do nothing: with a data cache the shared
    memory has to be mapped without caching. *)
Lemma empty_services s :
  Forall (λ m, ∀ va pa size flags, m va pa size flags s = Ok tt s) map_services ∧
  Forall (λ m, m s = Ok tt s) cache_services ∧
  Forall (λ m, ∀ data len, m data len s = Ok tt s) range_services.
Proof.
  split; [|split]; unfold map_services, cache_services, range_services; repeat constructor.
  all: intros data len; unfold imxrt700_ezhv_platform_cache_flush, imxrt700_ezhv_platform_cache_invalidate;
    by destruct ((data =? NULL) || (len =? 0)).
Qed.
