(* ===== verification/PlatformHeaders.v ===== *)
(** * The headers of the platforms

    What [lib/include/platform/*/rpmsg_platform.h] contributes to a build: the
    alignment and size of a ring, the overhead of an instance, the size of the
    interrupt table and the highest link.  The first three may be set by the
    application; these are the values it gets otherwise; most headers compute the
    size from the number of buffers ([platform_VRING_SIZE]).  [header_config] is the
    build that results; [tcm] is [CONFIG_USE_TCM_AS_RPMSG_SHMEM], [big] is
    [RL_BUFFER_8M].  [PlatformBounds] shows what all of them have in common. *)

From S2P Require Import Prelude Config VirtioRing Concrete Platform.

Record header : Type := {
  h_align : Z;
  h_size : Z → Z;
  h_overhead : Z → Z;
  h_isr_count : Z;
  h_highest : Z;
}.


Definition aarch64_VRING_ALIGN : Z := 4096.
Definition aarch64_VRING_SIZE : Z := 32768.
Definition aarch64_RL_VRING_OVERHEAD : Z := 2 * aarch64_VRING_SIZE.
Definition aarch64_MAX_ISR_COUNT : Z := 32.
Definition aarch64_HIGHEST_LINK_ID : Z := 15.
Definition aarch64_header : header :=
  {| h_align := aarch64_VRING_ALIGN; h_size := λ _, aarch64_VRING_SIZE;
     h_overhead := λ _, aarch64_RL_VRING_OVERHEAD;
     h_isr_count := aarch64_MAX_ISR_COUNT; h_highest := aarch64_HIGHEST_LINK_ID |}.

Definition imx6sx_m4_VRING_ALIGN : Z := 4096.
Definition imx6sx_m4_VRING_SIZE : Z := 32768.
Definition imx6sx_m4_RL_VRING_OVERHEAD : Z := 2 * imx6sx_m4_VRING_SIZE.
Definition imx6sx_m4_MAX_ISR_COUNT : Z := 32.
Definition imx6sx_m4_HIGHEST_LINK_ID : Z := 0.
Definition imx6sx_m4_header : header :=
  {| h_align := imx6sx_m4_VRING_ALIGN; h_size := λ _, imx6sx_m4_VRING_SIZE;
     h_overhead := λ _, imx6sx_m4_RL_VRING_OVERHEAD;
     h_isr_count := imx6sx_m4_MAX_ISR_COUNT; h_highest := imx6sx_m4_HIGHEST_LINK_ID |}.

Definition imx7d_m4_VRING_ALIGN : Z := 4096.
Definition imx7d_m4_VRING_SIZE : Z := 32768.
Definition imx7d_m4_RL_VRING_OVERHEAD : Z := 2 * imx7d_m4_VRING_SIZE.
Definition imx7d_m4_MAX_ISR_COUNT : Z := 32.
Definition imx7d_m4_HIGHEST_LINK_ID : Z := 0.
Definition imx7d_m4_header : header :=
  {| h_align := imx7d_m4_VRING_ALIGN; h_size := λ _, imx7d_m4_VRING_SIZE;
     h_overhead := λ _, imx7d_m4_RL_VRING_OVERHEAD;
     h_isr_count := imx7d_m4_MAX_ISR_COUNT; h_highest := imx7d_m4_HIGHEST_LINK_ID |}.

Definition imx7ulp_m4_VRING_ALIGN : Z := 4096.
Definition imx7ulp_m4_VRING_SIZE : Z := 32768.
Definition imx7ulp_m4_RL_VRING_OVERHEAD : Z := 2 * imx7ulp_m4_VRING_SIZE.
Definition imx7ulp_m4_MAX_ISR_COUNT : Z := 32.
Definition imx7ulp_m4_HIGHEST_LINK_ID : Z := 1.
Definition imx7ulp_m4_header : header :=
  {| h_align := imx7ulp_m4_VRING_ALIGN; h_size := λ _, imx7ulp_m4_VRING_SIZE;
     h_overhead := λ _, imx7ulp_m4_RL_VRING_OVERHEAD;
     h_isr_count := imx7ulp_m4_MAX_ISR_COUNT; h_highest := imx7ulp_m4_HIGHEST_LINK_ID |}.

Definition imx8dxl_m4_VRING_ALIGN : Z := 4096.
Definition imx8dxl_m4_VRING_SIZE : Z := 32768.
Definition imx8dxl_m4_RL_VRING_OVERHEAD : Z := 2 * imx8dxl_m4_VRING_SIZE.
Definition imx8dxl_m4_MAX_ISR_COUNT : Z := 32.
Definition imx8dxl_m4_HIGHEST_LINK_ID : Z := 15.
Definition imx8dxl_m4_header : header :=
  {| h_align := imx8dxl_m4_VRING_ALIGN; h_size := λ _, imx8dxl_m4_VRING_SIZE;
     h_overhead := λ _, imx8dxl_m4_RL_VRING_OVERHEAD;
     h_isr_count := imx8dxl_m4_MAX_ISR_COUNT; h_highest := imx8dxl_m4_HIGHEST_LINK_ID |}.

Definition imx8mm_m4_VRING_ALIGN : Z := 4096.
Definition imx8mm_m4_VRING_SIZE (big : bool) : Z := if big then 1048576 else 32768.
Definition imx8mm_m4_RL_VRING_OVERHEAD (big : bool) : Z := 2 * imx8mm_m4_VRING_SIZE big.
Definition imx8mm_m4_MAX_ISR_COUNT : Z := 32.
Definition imx8mm_m4_HIGHEST_LINK_ID : Z := 15.
Definition imx8mm_m4_header (big : bool) : header :=
  {| h_align := imx8mm_m4_VRING_ALIGN; h_size := λ _, imx8mm_m4_VRING_SIZE big;
     h_overhead := λ _, imx8mm_m4_RL_VRING_OVERHEAD big;
     h_isr_count := imx8mm_m4_MAX_ISR_COUNT; h_highest := imx8mm_m4_HIGHEST_LINK_ID |}.

Definition imx8mn_m7_VRING_ALIGN : Z := 4096.
Definition imx8mn_m7_VRING_SIZE : Z := 32768.
Definition imx8mn_m7_RL_VRING_OVERHEAD : Z := 2 * imx8mn_m7_VRING_SIZE.
Definition imx8mn_m7_MAX_ISR_COUNT : Z := 32.
Definition imx8mn_m7_HIGHEST_LINK_ID : Z := 15.
Definition imx8mn_m7_header : header :=
  {| h_align := imx8mn_m7_VRING_ALIGN; h_size := λ _, imx8mn_m7_VRING_SIZE;
     h_overhead := λ _, imx8mn_m7_RL_VRING_OVERHEAD;
     h_isr_count := imx8mn_m7_MAX_ISR_COUNT; h_highest := imx8mn_m7_HIGHEST_LINK_ID |}.

Definition imx8mp_m7_VRING_ALIGN : Z := 4096.
Definition imx8mp_m7_VRING_SIZE : Z := 32768.
Definition imx8mp_m7_RL_VRING_OVERHEAD : Z := 2 * imx8mp_m7_VRING_SIZE.
Definition imx8mp_m7_MAX_ISR_COUNT : Z := 32.
Definition imx8mp_m7_HIGHEST_LINK_ID : Z := 15.
Definition imx8mp_m7_header : header :=
  {| h_align := imx8mp_m7_VRING_ALIGN; h_size := λ _, imx8mp_m7_VRING_SIZE;
     h_overhead := λ _, imx8mp_m7_RL_VRING_OVERHEAD;
     h_isr_count := imx8mp_m7_MAX_ISR_COUNT; h_highest := imx8mp_m7_HIGHEST_LINK_ID |}.

Definition imx8mq_m4_VRING_ALIGN : Z := 4096.
Definition imx8mq_m4_VRING_SIZE : Z := 32768.
Definition imx8mq_m4_RL_VRING_OVERHEAD : Z := 2 * imx8mq_m4_VRING_SIZE.
Definition imx8mq_m4_MAX_ISR_COUNT : Z := 32.
Definition imx8mq_m4_HIGHEST_LINK_ID : Z := 15.
Definition imx8mq_m4_header : header :=
  {| h_align := imx8mq_m4_VRING_ALIGN; h_size := λ _, imx8mq_m4_VRING_SIZE;
     h_overhead := λ _, imx8mq_m4_RL_VRING_OVERHEAD;
     h_isr_count := imx8mq_m4_MAX_ISR_COUNT; h_highest := imx8mq_m4_HIGHEST_LINK_ID |}.

Definition imx8qm_m4_VRING_ALIGN : Z := 4096.
Definition imx8qm_m4_VRING_SIZE : Z := 32768.
Definition imx8qm_m4_RL_VRING_OVERHEAD : Z := 2 * imx8qm_m4_VRING_SIZE.
Definition imx8qm_m4_MAX_ISR_COUNT : Z := 32.
Definition imx8qm_m4_HIGHEST_LINK_ID : Z := RL_GEN_LINK_ID 1 1.
Definition imx8qm_m4_header : header :=
  {| h_align := imx8qm_m4_VRING_ALIGN; h_size := λ _, imx8qm_m4_VRING_SIZE;
     h_overhead := λ _, imx8qm_m4_RL_VRING_OVERHEAD;
     h_isr_count := imx8qm_m4_MAX_ISR_COUNT; h_highest := imx8qm_m4_HIGHEST_LINK_ID |}.

Definition imx8qx_cm4_VRING_ALIGN : Z := 4096.
Definition imx8qx_cm4_VRING_SIZE : Z := 32768.
Definition imx8qx_cm4_RL_VRING_OVERHEAD : Z := 2 * imx8qx_cm4_VRING_SIZE.
Definition imx8qx_cm4_MAX_ISR_COUNT : Z := 32.
Definition imx8qx_cm4_HIGHEST_LINK_ID : Z := 15.
Definition imx8qx_cm4_header : header :=
  {| h_align := imx8qx_cm4_VRING_ALIGN; h_size := λ _, imx8qx_cm4_VRING_SIZE;
     h_overhead := λ _, imx8qx_cm4_RL_VRING_OVERHEAD;
     h_isr_count := imx8qx_cm4_MAX_ISR_COUNT; h_highest := imx8qx_cm4_HIGHEST_LINK_ID |}.

Definition imx8ulp_fusionf1_VRING_ALIGN : Z := 16.
Definition imx8ulp_fusionf1_VRING_SIZE (RL_BUFFER_COUNT : Z) : Z :=
  platform_VRING_SIZE RL_BUFFER_COUNT imx8ulp_fusionf1_VRING_ALIGN.
Definition imx8ulp_fusionf1_RL_VRING_OVERHEAD (RL_BUFFER_COUNT : Z) : Z :=
  2 * imx8ulp_fusionf1_VRING_SIZE RL_BUFFER_COUNT.
Definition imx8ulp_fusionf1_MAX_ISR_COUNT : Z := 32.
Definition imx8ulp_fusionf1_HIGHEST_LINK_ID : Z := RL_GEN_LINK_ID 1 1.
Definition imx8ulp_fusionf1_header : header :=
  {| h_align := imx8ulp_fusionf1_VRING_ALIGN; h_size := imx8ulp_fusionf1_VRING_SIZE;
     h_overhead := imx8ulp_fusionf1_RL_VRING_OVERHEAD;
     h_isr_count := imx8ulp_fusionf1_MAX_ISR_COUNT; h_highest := imx8ulp_fusionf1_HIGHEST_LINK_ID |}.

Definition imx8ulp_m33_VRING_ALIGN : Z := 4096.
Definition imx8ulp_m33_VRING_SIZE : Z := 32768.
Definition imx8ulp_m33_RL_VRING_OVERHEAD : Z := 2 * imx8ulp_m33_VRING_SIZE.
Definition imx8ulp_m33_MAX_ISR_COUNT : Z := 32.
Definition imx8ulp_m33_HIGHEST_LINK_ID : Z := RL_GEN_LINK_ID 2 1.
Definition imx8ulp_m33_header : header :=
  {| h_align := imx8ulp_m33_VRING_ALIGN; h_size := λ _, imx8ulp_m33_VRING_SIZE;
     h_overhead := λ _, imx8ulp_m33_RL_VRING_OVERHEAD;
     h_isr_count := imx8ulp_m33_MAX_ISR_COUNT; h_highest := imx8ulp_m33_HIGHEST_LINK_ID |}.

Definition imx93_m33_VRING_ALIGN : Z := 4096.
Definition imx93_m33_VRING_SIZE : Z := 32768.
Definition imx93_m33_RL_VRING_OVERHEAD : Z := 2 * imx93_m33_VRING_SIZE.
Definition imx93_m33_MAX_ISR_COUNT : Z := 32.
Definition imx93_m33_HIGHEST_LINK_ID : Z := RL_GEN_LINK_ID 0 1.
Definition imx93_m33_header : header :=
  {| h_align := imx93_m33_VRING_ALIGN; h_size := λ _, imx93_m33_VRING_SIZE;
     h_overhead := λ _, imx93_m33_RL_VRING_OVERHEAD;
     h_isr_count := imx93_m33_MAX_ISR_COUNT; h_highest := imx93_m33_HIGHEST_LINK_ID |}.

Definition imx943_m33s_VRING_ALIGN (tcm : bool) : Z := if tcm then 16 else 4096.
Definition imx943_m33s_VRING_SIZE (tcm : bool) : Z := if tcm then 128 else 32768.
Definition imx943_m33s_RL_VRING_OVERHEAD (tcm : bool) : Z :=
  if tcm then Z.ldiff (2 * imx943_m33s_VRING_SIZE tcm + 2047) 2047 else 2 * imx943_m33s_VRING_SIZE tcm.
Definition imx943_m33s_MAX_ISR_COUNT : Z := 32.
Definition imx943_m33s_HIGHEST_LINK_ID : Z := RL_GEN_LINK_ID 2 1.
Definition imx943_m33s_header (tcm : bool) : header :=
  {| h_align := imx943_m33s_VRING_ALIGN tcm; h_size := λ _, imx943_m33s_VRING_SIZE tcm;
     h_overhead := λ _, imx943_m33s_RL_VRING_OVERHEAD tcm;
     h_isr_count := imx943_m33s_MAX_ISR_COUNT; h_highest := imx943_m33s_HIGHEST_LINK_ID |}.

Definition imx943_m70_VRING_ALIGN (tcm : bool) : Z := if tcm then 16 else 4096.
Definition imx943_m70_VRING_SIZE (tcm : bool) : Z := if tcm then 128 else 32768.
Definition imx943_m70_RL_VRING_OVERHEAD (tcm : bool) : Z :=
  if tcm then Z.ldiff (2 * imx943_m70_VRING_SIZE tcm + 2047) 2047 else 2 * imx943_m70_VRING_SIZE tcm.
Definition imx943_m70_MAX_ISR_COUNT : Z := 32.
Definition imx943_m70_HIGHEST_LINK_ID : Z := RL_GEN_LINK_ID 2 1.
Definition imx943_m70_header (tcm : bool) : header :=
  {| h_align := imx943_m70_VRING_ALIGN tcm; h_size := λ _, imx943_m70_VRING_SIZE tcm;
     h_overhead := λ _, imx943_m70_RL_VRING_OVERHEAD tcm;
     h_isr_count := imx943_m70_MAX_ISR_COUNT; h_highest := imx943_m70_HIGHEST_LINK_ID |}.

Definition imx943_m71_VRING_ALIGN (tcm : bool) : Z := if tcm then 16 else 4096.
Definition imx943_m71_VRING_SIZE (tcm : bool) : Z := if tcm then 128 else 32768.
Definition imx943_m71_RL_VRING_OVERHEAD (tcm : bool) : Z :=
  if tcm then Z.ldiff (2 * imx943_m71_VRING_SIZE tcm + 2047) 2047 else 2 * imx943_m71_VRING_SIZE tcm.
Definition imx943_m71_MAX_ISR_COUNT : Z := 32.
Definition imx943_m71_HIGHEST_LINK_ID : Z := RL_GEN_LINK_ID 2 1.
Definition imx943_m71_header (tcm : bool) : header :=
  {| h_align := imx943_m71_VRING_ALIGN tcm; h_size := λ _, imx943_m71_VRING_SIZE tcm;
     h_overhead := λ _, imx943_m71_RL_VRING_OVERHEAD tcm;
     h_isr_count := imx943_m71_MAX_ISR_COUNT; h_highest := imx943_m71_HIGHEST_LINK_ID |}.

Definition imx952_m7_VRING_ALIGN : Z := 4096.
Definition imx952_m7_VRING_SIZE : Z := 32768.
Definition imx952_m7_RL_VRING_OVERHEAD : Z := 2 * imx952_m7_VRING_SIZE.
Definition imx952_m7_MAX_ISR_COUNT : Z := 32.
Definition imx952_m7_HIGHEST_LINK_ID : Z := RL_GEN_LINK_ID 0 1.
Definition imx952_m7_header : header :=
  {| h_align := imx952_m7_VRING_ALIGN; h_size := λ _, imx952_m7_VRING_SIZE;
     h_overhead := λ _, imx952_m7_RL_VRING_OVERHEAD;
     h_isr_count := imx952_m7_MAX_ISR_COUNT; h_highest := imx952_m7_HIGHEST_LINK_ID |}.

Definition imx95_m33_VRING_ALIGN : Z := 4096.
Definition imx95_m33_VRING_SIZE : Z := 32768.
Definition imx95_m33_RL_VRING_OVERHEAD : Z := 2 * imx95_m33_VRING_SIZE.
Definition imx95_m33_MAX_ISR_COUNT : Z := 32.
Definition imx95_m33_HIGHEST_LINK_ID : Z := RL_GEN_LINK_ID 0 1.
Definition imx95_m33_header : header :=
  {| h_align := imx95_m33_VRING_ALIGN; h_size := λ _, imx95_m33_VRING_SIZE;
     h_overhead := λ _, imx95_m33_RL_VRING_OVERHEAD;
     h_isr_count := imx95_m33_MAX_ISR_COUNT; h_highest := imx95_m33_HIGHEST_LINK_ID |}.

Definition imx95_m7_VRING_ALIGN : Z := 4096.
Definition imx95_m7_VRING_SIZE : Z := 32768.
Definition imx95_m7_RL_VRING_OVERHEAD : Z := 2 * imx95_m7_VRING_SIZE.
Definition imx95_m7_MAX_ISR_COUNT : Z := 32.
Definition imx95_m7_HIGHEST_LINK_ID : Z := RL_GEN_LINK_ID 0 1.
Definition imx95_m7_header : header :=
  {| h_align := imx95_m7_VRING_ALIGN; h_size := λ _, imx95_m7_VRING_SIZE;
     h_overhead := λ _, imx95_m7_RL_VRING_OVERHEAD;
     h_isr_count := imx95_m7_MAX_ISR_COUNT; h_highest := imx95_m7_HIGHEST_LINK_ID |}.

Definition imxrt1160_VRING_ALIGN : Z := 16.
Definition imxrt1160_VRING_SIZE (RL_BUFFER_COUNT : Z) : Z :=
  platform_VRING_SIZE RL_BUFFER_COUNT imxrt1160_VRING_ALIGN.
Definition imxrt1160_RL_VRING_OVERHEAD (RL_BUFFER_COUNT : Z) : Z :=
  2 * imxrt1160_VRING_SIZE RL_BUFFER_COUNT.
Definition imxrt1160_MAX_ISR_COUNT : Z := 32.
Definition imxrt1160_HIGHEST_LINK_ID : Z := 0.
Definition imxrt1160_header : header :=
  {| h_align := imxrt1160_VRING_ALIGN; h_size := imxrt1160_VRING_SIZE;
     h_overhead := imxrt1160_RL_VRING_OVERHEAD;
     h_isr_count := imxrt1160_MAX_ISR_COUNT; h_highest := imxrt1160_HIGHEST_LINK_ID |}.

Definition imxrt1170_VRING_ALIGN : Z := 16.
Definition imxrt1170_VRING_SIZE (RL_BUFFER_COUNT : Z) : Z :=
  platform_VRING_SIZE RL_BUFFER_COUNT imxrt1170_VRING_ALIGN.
Definition imxrt1170_RL_VRING_OVERHEAD (RL_BUFFER_COUNT : Z) : Z :=
  2 * imxrt1170_VRING_SIZE RL_BUFFER_COUNT.
Definition imxrt1170_MAX_ISR_COUNT : Z := 32.
Definition imxrt1170_HIGHEST_LINK_ID : Z := 0.
Definition imxrt1170_header : header :=
  {| h_align := imxrt1170_VRING_ALIGN; h_size := imxrt1170_VRING_SIZE;
     h_overhead := imxrt1170_RL_VRING_OVERHEAD;
     h_isr_count := imxrt1170_MAX_ISR_COUNT; h_highest := imxrt1170_HIGHEST_LINK_ID |}.

Definition imxrt1180_VRING_ALIGN : Z := 16.
Definition imxrt1180_VRING_SIZE (RL_BUFFER_COUNT : Z) : Z :=
  platform_VRING_SIZE RL_BUFFER_COUNT imxrt1180_VRING_ALIGN.
Definition imxrt1180_RL_VRING_OVERHEAD (RL_BUFFER_COUNT : Z) : Z :=
  2 * imxrt1180_VRING_SIZE RL_BUFFER_COUNT.
Definition imxrt1180_MAX_ISR_COUNT : Z := 32.
Definition imxrt1180_HIGHEST_LINK_ID : Z := 0.
Definition imxrt1180_header : header :=
  {| h_align := imxrt1180_VRING_ALIGN; h_size := imxrt1180_VRING_SIZE;
     h_overhead := imxrt1180_RL_VRING_OVERHEAD;
     h_isr_count := imxrt1180_MAX_ISR_COUNT; h_highest := imxrt1180_HIGHEST_LINK_ID |}.

Definition imxrt500_fusionf1_VRING_ALIGN : Z := 16.
Definition imxrt500_fusionf1_VRING_SIZE (RL_BUFFER_COUNT : Z) : Z :=
  platform_VRING_SIZE RL_BUFFER_COUNT imxrt500_fusionf1_VRING_ALIGN.
Definition imxrt500_fusionf1_RL_VRING_OVERHEAD (RL_BUFFER_COUNT : Z) : Z :=
  2 * imxrt500_fusionf1_VRING_SIZE RL_BUFFER_COUNT.
Definition imxrt500_fusionf1_MAX_ISR_COUNT : Z := 32.
Definition imxrt500_fusionf1_HIGHEST_LINK_ID : Z := 1.
Definition imxrt500_fusionf1_header : header :=
  {| h_align := imxrt500_fusionf1_VRING_ALIGN; h_size := imxrt500_fusionf1_VRING_SIZE;
     h_overhead := imxrt500_fusionf1_RL_VRING_OVERHEAD;
     h_isr_count := imxrt500_fusionf1_MAX_ISR_COUNT; h_highest := imxrt500_fusionf1_HIGHEST_LINK_ID |}.

Definition imxrt500_m33_VRING_ALIGN : Z := 16.
Definition imxrt500_m33_VRING_SIZE (RL_BUFFER_COUNT : Z) : Z :=
  platform_VRING_SIZE RL_BUFFER_COUNT imxrt500_m33_VRING_ALIGN.
Definition imxrt500_m33_RL_VRING_OVERHEAD (RL_BUFFER_COUNT : Z) : Z :=
  2 * imxrt500_m33_VRING_SIZE RL_BUFFER_COUNT.
Definition imxrt500_m33_MAX_ISR_COUNT : Z := 32.
Definition imxrt500_m33_HIGHEST_LINK_ID : Z := 0.
Definition imxrt500_m33_header : header :=
  {| h_align := imxrt500_m33_VRING_ALIGN; h_size := imxrt500_m33_VRING_SIZE;
     h_overhead := imxrt500_m33_RL_VRING_OVERHEAD;
     h_isr_count := imxrt500_m33_MAX_ISR_COUNT; h_highest := imxrt500_m33_HIGHEST_LINK_ID |}.

Definition imxrt600_hifi4_VRING_ALIGN : Z := 16.
Definition imxrt600_hifi4_VRING_SIZE (RL_BUFFER_COUNT : Z) : Z :=
  platform_VRING_SIZE RL_BUFFER_COUNT imxrt600_hifi4_VRING_ALIGN.
Definition imxrt600_hifi4_RL_VRING_OVERHEAD (RL_BUFFER_COUNT : Z) : Z :=
  2 * imxrt600_hifi4_VRING_SIZE RL_BUFFER_COUNT.
Definition imxrt600_hifi4_MAX_ISR_COUNT : Z := 32.
Definition imxrt600_hifi4_HIGHEST_LINK_ID : Z := 0.
Definition imxrt600_hifi4_header : header :=
  {| h_align := imxrt600_hifi4_VRING_ALIGN; h_size := imxrt600_hifi4_VRING_SIZE;
     h_overhead := imxrt600_hifi4_RL_VRING_OVERHEAD;
     h_isr_count := imxrt600_hifi4_MAX_ISR_COUNT; h_highest := imxrt600_hifi4_HIGHEST_LINK_ID |}.

Definition imxrt600_m33_VRING_ALIGN : Z := 16.
Definition imxrt600_m33_VRING_SIZE (RL_BUFFER_COUNT : Z) : Z :=
  platform_VRING_SIZE RL_BUFFER_COUNT imxrt600_m33_VRING_ALIGN.
Definition imxrt600_m33_RL_VRING_OVERHEAD (RL_BUFFER_COUNT : Z) : Z :=
  2 * imxrt600_m33_VRING_SIZE RL_BUFFER_COUNT.
Definition imxrt600_m33_MAX_ISR_COUNT : Z := 32.
Definition imxrt600_m33_HIGHEST_LINK_ID : Z := 0.
Definition imxrt600_m33_header : header :=
  {| h_align := imxrt600_m33_VRING_ALIGN; h_size := imxrt600_m33_VRING_SIZE;
     h_overhead := imxrt600_m33_RL_VRING_OVERHEAD;
     h_isr_count := imxrt600_m33_MAX_ISR_COUNT; h_highest := imxrt600_m33_HIGHEST_LINK_ID |}.

Definition imxrt700_ezhv_VRING_ALIGN : Z := 16.
Definition imxrt700_ezhv_VRING_SIZE (RL_BUFFER_COUNT : Z) : Z :=
  platform_VRING_SIZE RL_BUFFER_COUNT imxrt700_ezhv_VRING_ALIGN.
Definition imxrt700_ezhv_RL_VRING_OVERHEAD (RL_BUFFER_COUNT : Z) : Z :=
  2 * imxrt700_ezhv_VRING_SIZE RL_BUFFER_COUNT.
Definition imxrt700_ezhv_MAX_ISR_COUNT : Z := 32.
Definition imxrt700_ezhv_HIGHEST_LINK_ID : Z := RL_GEN_LINK_ID 3 0.
Definition imxrt700_ezhv_header : header :=
  {| h_align := imxrt700_ezhv_VRING_ALIGN; h_size := imxrt700_ezhv_VRING_SIZE;
     h_overhead := imxrt700_ezhv_RL_VRING_OVERHEAD;
     h_isr_count := imxrt700_ezhv_MAX_ISR_COUNT; h_highest := imxrt700_ezhv_HIGHEST_LINK_ID |}.

Definition imxrt700_hifi1_VRING_ALIGN : Z := 16.
Definition imxrt700_hifi1_VRING_SIZE (RL_BUFFER_COUNT : Z) : Z :=
  platform_VRING_SIZE RL_BUFFER_COUNT imxrt700_hifi1_VRING_ALIGN.
Definition imxrt700_hifi1_RL_VRING_OVERHEAD (RL_BUFFER_COUNT : Z) : Z :=
  2 * imxrt700_hifi1_VRING_SIZE RL_BUFFER_COUNT.
Definition imxrt700_hifi1_MAX_ISR_COUNT : Z := 64.
Definition imxrt700_hifi1_HIGHEST_LINK_ID : Z := RL_GEN_LINK_ID 5 0.
Definition imxrt700_hifi1_header : header :=
  {| h_align := imxrt700_hifi1_VRING_ALIGN; h_size := imxrt700_hifi1_VRING_SIZE;
     h_overhead := imxrt700_hifi1_RL_VRING_OVERHEAD;
     h_isr_count := imxrt700_hifi1_MAX_ISR_COUNT; h_highest := imxrt700_hifi1_HIGHEST_LINK_ID |}.

Definition imxrt700_hifi4_VRING_ALIGN : Z := 16.
Definition imxrt700_hifi4_VRING_SIZE (RL_BUFFER_COUNT : Z) : Z :=
  platform_VRING_SIZE RL_BUFFER_COUNT imxrt700_hifi4_VRING_ALIGN.
Definition imxrt700_hifi4_RL_VRING_OVERHEAD (RL_BUFFER_COUNT : Z) : Z :=
  2 * imxrt700_hifi4_VRING_SIZE RL_BUFFER_COUNT.
Definition imxrt700_hifi4_MAX_ISR_COUNT : Z := 64.
Definition imxrt700_hifi4_HIGHEST_LINK_ID : Z := RL_GEN_LINK_ID 5 0.
Definition imxrt700_hifi4_header : header :=
  {| h_align := imxrt700_hifi4_VRING_ALIGN; h_size := imxrt700_hifi4_VRING_SIZE;
     h_overhead := imxrt700_hifi4_RL_VRING_OVERHEAD;
     h_isr_count := imxrt700_hifi4_MAX_ISR_COUNT; h_highest := imxrt700_hifi4_HIGHEST_LINK_ID |}.

Definition imxrt700_m33_VRING_ALIGN : Z := 16.
Definition imxrt700_m33_VRING_SIZE (RL_BUFFER_COUNT : Z) : Z :=
  platform_VRING_SIZE RL_BUFFER_COUNT imxrt700_m33_VRING_ALIGN.
Definition imxrt700_m33_RL_VRING_OVERHEAD (RL_BUFFER_COUNT : Z) : Z :=
  2 * imxrt700_m33_VRING_SIZE RL_BUFFER_COUNT.
Definition imxrt700_m33_MAX_ISR_COUNT : Z := 64.
Definition imxrt700_m33_HIGHEST_LINK_ID : Z := RL_GEN_LINK_ID 5 0.
Definition imxrt700_m33_header : header :=
  {| h_align := imxrt700_m33_VRING_ALIGN; h_size := imxrt700_m33_VRING_SIZE;
     h_overhead := imxrt700_m33_RL_VRING_OVERHEAD;
     h_isr_count := imxrt700_m33_MAX_ISR_COUNT; h_highest := imxrt700_m33_HIGHEST_LINK_ID |}.

Definition k32l3a6_VRING_ALIGN : Z := 16.
Definition k32l3a6_VRING_SIZE (RL_BUFFER_COUNT : Z) : Z :=
  platform_VRING_SIZE RL_BUFFER_COUNT k32l3a6_VRING_ALIGN.
Definition k32l3a6_RL_VRING_OVERHEAD (RL_BUFFER_COUNT : Z) : Z :=
  2 * k32l3a6_VRING_SIZE RL_BUFFER_COUNT.
Definition k32l3a6_MAX_ISR_COUNT : Z := 32.
Definition k32l3a6_HIGHEST_LINK_ID : Z := 0.
Definition k32l3a6_header : header :=
  {| h_align := k32l3a6_VRING_ALIGN; h_size := k32l3a6_VRING_SIZE;
     h_overhead := k32l3a6_RL_VRING_OVERHEAD;
     h_isr_count := k32l3a6_MAX_ISR_COUNT; h_highest := k32l3a6_HIGHEST_LINK_ID |}.

Definition k32w1_VRING_ALIGN : Z := 16.
Definition k32w1_VRING_SIZE (RL_BUFFER_COUNT : Z) : Z :=
  platform_VRING_SIZE RL_BUFFER_COUNT k32w1_VRING_ALIGN.
Definition k32w1_RL_VRING_OVERHEAD (RL_BUFFER_COUNT : Z) : Z :=
  2 * k32w1_VRING_SIZE RL_BUFFER_COUNT.
Definition k32w1_MAX_ISR_COUNT : Z := 32.
Definition k32w1_HIGHEST_LINK_ID : Z := 0.
Definition k32w1_header : header :=
  {| h_align := k32w1_VRING_ALIGN; h_size := k32w1_VRING_SIZE;
     h_overhead := k32w1_RL_VRING_OVERHEAD;
     h_isr_count := k32w1_MAX_ISR_COUNT; h_highest := k32w1_HIGHEST_LINK_ID |}.

Definition kw43b43_VRING_ALIGN : Z := 16.
Definition kw43b43_VRING_SIZE (RL_BUFFER_COUNT : Z) : Z :=
  platform_VRING_SIZE RL_BUFFER_COUNT kw43b43_VRING_ALIGN.
Definition kw43b43_RL_VRING_OVERHEAD (RL_BUFFER_COUNT : Z) : Z :=
  2 * kw43b43_VRING_SIZE RL_BUFFER_COUNT.
Definition kw43b43_MAX_ISR_COUNT : Z := 32.
Definition kw43b43_HIGHEST_LINK_ID : Z := 0.
Definition kw43b43_header : header :=
  {| h_align := kw43b43_VRING_ALIGN; h_size := kw43b43_VRING_SIZE;
     h_overhead := kw43b43_RL_VRING_OVERHEAD;
     h_isr_count := kw43b43_MAX_ISR_COUNT; h_highest := kw43b43_HIGHEST_LINK_ID |}.

Definition kw45b41_VRING_ALIGN : Z := 16.
Definition kw45b41_VRING_SIZE (RL_BUFFER_COUNT : Z) : Z :=
  platform_VRING_SIZE RL_BUFFER_COUNT kw45b41_VRING_ALIGN.
Definition kw45b41_RL_VRING_OVERHEAD (RL_BUFFER_COUNT : Z) : Z :=
  2 * kw45b41_VRING_SIZE RL_BUFFER_COUNT.
Definition kw45b41_MAX_ISR_COUNT : Z := 32.
Definition kw45b41_HIGHEST_LINK_ID : Z := 0.
Definition kw45b41_header : header :=
  {| h_align := kw45b41_VRING_ALIGN; h_size := kw45b41_VRING_SIZE;
     h_overhead := kw45b41_RL_VRING_OVERHEAD;
     h_isr_count := kw45b41_MAX_ISR_COUNT; h_highest := kw45b41_HIGHEST_LINK_ID |}.

Definition kw47b42_VRING_ALIGN : Z := 16.
Definition kw47b42_VRING_SIZE (RL_BUFFER_COUNT : Z) : Z :=
  platform_VRING_SIZE RL_BUFFER_COUNT kw47b42_VRING_ALIGN.
Definition kw47b42_RL_VRING_OVERHEAD (RL_BUFFER_COUNT : Z) : Z :=
  2 * kw47b42_VRING_SIZE RL_BUFFER_COUNT.
Definition kw47b42_MAX_ISR_COUNT : Z := 32.
Definition kw47b42_HIGHEST_LINK_ID : Z := 0.
Definition kw47b42_header : header :=
  {| h_align := kw47b42_VRING_ALIGN; h_size := kw47b42_VRING_SIZE;
     h_overhead := kw47b42_RL_VRING_OVERHEAD;
     h_isr_count := kw47b42_MAX_ISR_COUNT; h_highest := kw47b42_HIGHEST_LINK_ID |}.

Definition lpc5410x_VRING_ALIGN : Z := 16.
Definition lpc5410x_VRING_SIZE (RL_BUFFER_COUNT : Z) : Z :=
  platform_VRING_SIZE RL_BUFFER_COUNT lpc5410x_VRING_ALIGN.
Definition lpc5410x_RL_VRING_OVERHEAD (RL_BUFFER_COUNT : Z) : Z :=
  2 * lpc5410x_VRING_SIZE RL_BUFFER_COUNT.
Definition lpc5410x_MAX_ISR_COUNT : Z := 32.
Definition lpc5410x_HIGHEST_LINK_ID : Z := 0.
Definition lpc5410x_header : header :=
  {| h_align := lpc5410x_VRING_ALIGN; h_size := lpc5410x_VRING_SIZE;
     h_overhead := lpc5410x_RL_VRING_OVERHEAD;
     h_isr_count := lpc5410x_MAX_ISR_COUNT; h_highest := lpc5410x_HIGHEST_LINK_ID |}.

Definition lpc5411x_VRING_ALIGN : Z := 16.
Definition lpc5411x_VRING_SIZE (RL_BUFFER_COUNT : Z) : Z :=
  platform_VRING_SIZE RL_BUFFER_COUNT lpc5411x_VRING_ALIGN.
Definition lpc5411x_RL_VRING_OVERHEAD (RL_BUFFER_COUNT : Z) : Z :=
  2 * lpc5411x_VRING_SIZE RL_BUFFER_COUNT.
Definition lpc5411x_MAX_ISR_COUNT : Z := 32.
Definition lpc5411x_HIGHEST_LINK_ID : Z := 0.
Definition lpc5411x_header : header :=
  {| h_align := lpc5411x_VRING_ALIGN; h_size := lpc5411x_VRING_SIZE;
     h_overhead := lpc5411x_RL_VRING_OVERHEAD;
     h_isr_count := lpc5411x_MAX_ISR_COUNT; h_highest := lpc5411x_HIGHEST_LINK_ID |}.

Definition lpc55s69_VRING_ALIGN : Z := 16.
Definition lpc55s69_VRING_SIZE (RL_BUFFER_COUNT : Z) : Z :=
  platform_VRING_SIZE RL_BUFFER_COUNT lpc55s69_VRING_ALIGN.
Definition lpc55s69_RL_VRING_OVERHEAD (RL_BUFFER_COUNT : Z) : Z :=
  2 * lpc55s69_VRING_SIZE RL_BUFFER_COUNT.
Definition lpc55s69_MAX_ISR_COUNT : Z := 32.
Definition lpc55s69_HIGHEST_LINK_ID : Z := 0.
Definition lpc55s69_header : header :=
  {| h_align := lpc55s69_VRING_ALIGN; h_size := lpc55s69_VRING_SIZE;
     h_overhead := lpc55s69_RL_VRING_OVERHEAD;
     h_isr_count := lpc55s69_MAX_ISR_COUNT; h_highest := lpc55s69_HIGHEST_LINK_ID |}.

Definition mcxl20_VRING_ALIGN : Z := 16.
Definition mcxl20_VRING_SIZE (RL_BUFFER_COUNT : Z) : Z :=
  platform_VRING_SIZE RL_BUFFER_COUNT mcxl20_VRING_ALIGN.
Definition mcxl20_RL_VRING_OVERHEAD (RL_BUFFER_COUNT : Z) : Z :=
  2 * mcxl20_VRING_SIZE RL_BUFFER_COUNT.
Definition mcxl20_MAX_ISR_COUNT : Z := 32.
Definition mcxl20_HIGHEST_LINK_ID : Z := 0.
Definition mcxl20_header : header :=
  {| h_align := mcxl20_VRING_ALIGN; h_size := mcxl20_VRING_SIZE;
     h_overhead := mcxl20_RL_VRING_OVERHEAD;
     h_isr_count := mcxl20_MAX_ISR_COUNT; h_highest := mcxl20_HIGHEST_LINK_ID |}.

Definition mcxnx4x_VRING_ALIGN : Z := 16.
Definition mcxnx4x_VRING_SIZE (RL_BUFFER_COUNT : Z) : Z :=
  platform_VRING_SIZE RL_BUFFER_COUNT mcxnx4x_VRING_ALIGN.
Definition mcxnx4x_RL_VRING_OVERHEAD (RL_BUFFER_COUNT : Z) : Z :=
  2 * mcxnx4x_VRING_SIZE RL_BUFFER_COUNT.
Definition mcxnx4x_MAX_ISR_COUNT : Z := 32.
Definition mcxnx4x_HIGHEST_LINK_ID : Z := 0.
Definition mcxnx4x_header : header :=
  {| h_align := mcxnx4x_VRING_ALIGN; h_size := mcxnx4x_VRING_SIZE;
     h_overhead := mcxnx4x_RL_VRING_OVERHEAD;
     h_isr_count := mcxnx4x_MAX_ISR_COUNT; h_highest := mcxnx4x_HIGHEST_LINK_ID |}.

Definition mcxw70_VRING_ALIGN : Z := 16.
Definition mcxw70_VRING_SIZE (RL_BUFFER_COUNT : Z) : Z :=
  platform_VRING_SIZE RL_BUFFER_COUNT mcxw70_VRING_ALIGN.
Definition mcxw70_RL_VRING_OVERHEAD (RL_BUFFER_COUNT : Z) : Z :=
  2 * mcxw70_VRING_SIZE RL_BUFFER_COUNT.
Definition mcxw70_MAX_ISR_COUNT : Z := 32.
Definition mcxw70_HIGHEST_LINK_ID : Z := 0.
Definition mcxw70_header : header :=
  {| h_align := mcxw70_VRING_ALIGN; h_size := mcxw70_VRING_SIZE;
     h_overhead := mcxw70_RL_VRING_OVERHEAD;
     h_isr_count := mcxw70_MAX_ISR_COUNT; h_highest := mcxw70_HIGHEST_LINK_ID |}.

Definition mcxw71x_VRING_ALIGN : Z := 16.
Definition mcxw71x_VRING_SIZE (RL_BUFFER_COUNT : Z) : Z :=
  platform_VRING_SIZE RL_BUFFER_COUNT mcxw71x_VRING_ALIGN.
Definition mcxw71x_RL_VRING_OVERHEAD (RL_BUFFER_COUNT : Z) : Z :=
  2 * mcxw71x_VRING_SIZE RL_BUFFER_COUNT.
Definition mcxw71x_MAX_ISR_COUNT : Z := 32.
Definition mcxw71x_HIGHEST_LINK_ID : Z := 0.
Definition mcxw71x_header : header :=
  {| h_align := mcxw71x_VRING_ALIGN; h_size := mcxw71x_VRING_SIZE;
     h_overhead := mcxw71x_RL_VRING_OVERHEAD;
     h_isr_count := mcxw71x_MAX_ISR_COUNT; h_highest := mcxw71x_HIGHEST_LINK_ID |}.

Definition mcxw72x_VRING_ALIGN : Z := 16.
Definition mcxw72x_VRING_SIZE (RL_BUFFER_COUNT : Z) : Z :=
  platform_VRING_SIZE RL_BUFFER_COUNT mcxw72x_VRING_ALIGN.
Definition mcxw72x_RL_VRING_OVERHEAD (RL_BUFFER_COUNT : Z) : Z :=
  2 * mcxw72x_VRING_SIZE RL_BUFFER_COUNT.
Definition mcxw72x_MAX_ISR_COUNT : Z := 32.
Definition mcxw72x_HIGHEST_LINK_ID : Z := 0.
Definition mcxw72x_header : header :=
  {| h_align := mcxw72x_VRING_ALIGN; h_size := mcxw72x_VRING_SIZE;
     h_overhead := mcxw72x_RL_VRING_OVERHEAD;
     h_isr_count := mcxw72x_MAX_ISR_COUNT; h_highest := mcxw72x_HIGHEST_LINK_ID |}.

Definition zephyr_ipc_service_VRING_ALIGN : Z := 4096.
Definition zephyr_ipc_service_VRING_SIZE (RL_BUFFER_COUNT : Z) : Z :=
  platform_VRING_SIZE RL_BUFFER_COUNT zephyr_ipc_service_VRING_ALIGN.
Definition zephyr_ipc_service_RL_VRING_OVERHEAD (RL_BUFFER_COUNT : Z) : Z :=
  2 * zephyr_ipc_service_VRING_SIZE RL_BUFFER_COUNT.
Definition zephyr_ipc_service_MAX_ISR_COUNT : Z := 32.
Definition zephyr_ipc_service_HIGHEST_LINK_ID : Z := 32.
Definition zephyr_ipc_service_header : header :=
  {| h_align := zephyr_ipc_service_VRING_ALIGN; h_size := zephyr_ipc_service_VRING_SIZE;
     h_overhead := zephyr_ipc_service_RL_VRING_OVERHEAD;
     h_isr_count := zephyr_ipc_service_MAX_ISR_COUNT; h_highest := zephyr_ipc_service_HIGHEST_LINK_ID |}.

(** The header of i.MX 8 under QNX does not define the highest link; the
    application's configuration has to. *)
Definition imx8_aarch64_VRING_ALIGN : Z := 4096.
Definition imx8_aarch64_VRING_SIZE : Z := 32768.
Definition imx8_aarch64_RL_VRING_OVERHEAD : Z := 2 * imx8_aarch64_VRING_SIZE.
Definition imx8_aarch64_MAX_ISR_COUNT : Z := 32.
Definition imx8_aarch64_header (highest : Z) : header :=
  {| h_align := imx8_aarch64_VRING_ALIGN; h_size := λ _, imx8_aarch64_VRING_SIZE;
     h_overhead := λ _, imx8_aarch64_RL_VRING_OVERHEAD;
     h_isr_count := imx8_aarch64_MAX_ISR_COUNT; h_highest := highest |}.

(** The headers that put the rings into the tightly coupled memory. *)
Definition tcm_headers : list header :=
  [imx943_m33s_header true; imx943_m70_header true; imx943_m71_header true].

Definition headers (tcm big : bool) : list header :=
  [aarch64_header;
   imx6sx_m4_header;
   imx7d_m4_header;
   imx7ulp_m4_header;
   imx8dxl_m4_header;
   imx8mm_m4_header big;
   imx8mn_m7_header;
   imx8mp_m7_header;
   imx8mq_m4_header;
   imx8qm_m4_header;
   imx8qx_cm4_header;
   imx8ulp_fusionf1_header;
   imx8ulp_m33_header;
   imx93_m33_header;
   imx943_m33s_header tcm;
   imx943_m70_header tcm;
   imx943_m71_header tcm;
   imx952_m7_header;
   imx95_m33_header;
   imx95_m7_header;
   imxrt1160_header;
   imxrt1170_header;
   imxrt1180_header;
   imxrt500_fusionf1_header;
   imxrt500_m33_header;
   imxrt600_hifi4_header;
   imxrt600_m33_header;
   imxrt700_ezhv_header;
   imxrt700_hifi1_header;
   imxrt700_hifi4_header;
   imxrt700_m33_header;
   k32l3a6_header;
   k32w1_header;
   kw43b43_header;
   kw45b41_header;
   kw47b42_header;
   lpc5410x_header;
   lpc5411x_header;
   lpc55s69_header;
   mcxl20_header;
   mcxnx4x_header;
   mcxw70_header;
   mcxw71x_header;
   mcxw72x_header;
   zephyr_ipc_service_header].

(** A build on a platform: the header and the remaining options ([o]). *)
Definition header_config (h : header) (o : Config) : Config :=
  {| RL_MS_PER_INTERVAL := RL_MS_PER_INTERVAL;
     RL_ALLOW_CUSTOM_SHMEM_CONFIG := RL_ALLOW_CUSTOM_SHMEM_CONFIG;
     RL_BUFFER_PAYLOAD_SIZE := RL_BUFFER_PAYLOAD_SIZE;
     RL_BUFFER_COUNT := RL_BUFFER_COUNT;
     RL_USE_STATIC_API := RL_USE_STATIC_API;
     RL_CLEAR_USED_BUFFERS := RL_CLEAR_USED_BUFFERS;
     RL_USE_DCACHE := RL_USE_DCACHE;
     RL_USE_ENVIRONMENT_CONTEXT := RL_USE_ENVIRONMENT_CONTEXT;
     RL_DEBUG_CHECK_BUFFERS := RL_DEBUG_CHECK_BUFFERS;
     RL_ALLOW_CONSUMED_BUFFERS_NOTIFICATION := RL_ALLOW_CONSUMED_BUFFERS_NOTIFICATION;
     VQUEUE_DEBUG := VQUEUE_DEBUG;
     VRING_SIZE := h_size h RL_BUFFER_COUNT;
     VRING_ALIGN := h_align h;
     RL_VRING_OVERHEAD := h_overhead h RL_BUFFER_COUNT;
     RL_PLATFORM_HIGHEST_LINK_ID := h_highest h;
     RL_PLATFORM_MAX_ISR_COUNT := h_isr_count h;
     uintptr_bits := uintptr_bits |}.

(** ** Custom configurations ([platform_get_custom_shmem_config])

    Of the i.MX 8ULP; [cfg] is what the caller's structure held. *)

Definition imx8ulp_RL_PLATFORM_BUFFER_PAYLOAD_SIZE_COMMON : Z := 496.
Definition imx8ulp_RL_PLATFORM_BUFFER_COUNT_COMMON (link_id : Z) : Z :=
  if (link_id =? 0) || (link_id =? 1) then 256 else 2.
Definition set_vring (size align : Z) (c : rpmsg_platform_shmem_config) : rpmsg_platform_shmem_config :=
  {| buffer_payload_size := buffer_payload_size c; buffer_count := buffer_count c;
     vring_size_cfg := size; vring_align_cfg := align |}.

Definition imx8ulp_m33_platform_get_custom_shmem_config (link_id : Z) (cfg : rpmsg_platform_shmem_config) : Z * rpmsg_platform_shmem_config :=
  let cfg := {| buffer_payload_size := imx8ulp_RL_PLATFORM_BUFFER_PAYLOAD_SIZE_COMMON;
                buffer_count := imx8ulp_RL_PLATFORM_BUFFER_COUNT_COMMON link_id;
                vring_size_cfg := vring_size_cfg cfg; vring_align_cfg := vring_align_cfg cfg |} in
  if (link_id =? RL_GEN_LINK_ID 0 0) || (link_id =? RL_GEN_LINK_ID 0 1) then (0, set_vring 32768 4096 cfg)
  else if (link_id =? RL_GEN_LINK_ID 1 0) || (link_id =? RL_GEN_LINK_ID 1 1) then (0, set_vring 1024 16 cfg)
  else if (link_id =? RL_GEN_LINK_ID 2 0) || (link_id =? RL_GEN_LINK_ID 2 1) then (0, set_vring 1024 16 cfg)
  else (0, cfg).
Definition imx8ulp_fusionf1_platform_get_custom_shmem_config (link_id : Z) (cfg : rpmsg_platform_shmem_config) : Z * rpmsg_platform_shmem_config :=
  let cfg := {| buffer_payload_size := imx8ulp_RL_PLATFORM_BUFFER_PAYLOAD_SIZE_COMMON;
                buffer_count := imx8ulp_RL_PLATFORM_BUFFER_COUNT_COMMON link_id;
                vring_size_cfg := vring_size_cfg cfg; vring_align_cfg := vring_align_cfg cfg |} in
  if (link_id =? RL_GEN_LINK_ID 1 0) || (link_id =? RL_GEN_LINK_ID 1 1) then (0, set_vring 1024 16 cfg)
  else (0, cfg).
