(* ===== verification/PlatformBounds.v ===== *)
(** * What all platform headers have in common

    Every header of [lib/include/platform/] makes a build the theorems of the
    development cover ([header_config_ok]), reserves rings that are large enough
    and keep their alignment, so that whatever [rpmsg_lite_master_init] accepts
    on a platform satisfies the hypotheses of the theorems on initialisation
    ([platform_layout]), and, with one exception, gives every vector of every
    link it admits an entry of the interrupt table ([platform_vectors]). *)

From S2P Require Import Prelude Memory Config VirtioRing Virtqueue World Endpoint Transport Concrete Layout Init MasterInit Lpc55s69 BareMetal RpmsgLite Sending Boot Platform MessagePlatforms PlatformHeaders.

(** ** Rings *)

(** The header reserves enough for a ring of [n] entries, keeps the next ring
    and the buffers aligned, and counts both rings in the overhead. *)
Definition reserves {cfg : Config} (h : header) (n : Z) : Prop :=
  vring_size n (h_align h) ≤ h_size h n < 2147483648 ∧ h_size h n mod h_align h = 0 ∧
  2 * h_size h n ≤ h_overhead h n < 4294967296 ∧ h_overhead h n mod 4 = 0.

(** The alignments in use. *)
Definition usual_align (al : Z) : Prop := al = 16 ∨ al = 4096.

Lemma usual_align_pow2 al : usual_align al → pow2 al ∧ 0 < al ≤ 65536 ∧ al mod 4 = 0.
Proof. intros [-> | ->]; split_and!; try done; [by exists 4|by exists 12]. Qed.

Section rings.
Context {cfg : Config} {cok : ConfigOk cfg}.

Lemma reserves_computed al isr hi n :
  usual_align al → pow2 n → n ≤ 32768 →
  reserves {| h_align := al; h_size := λ n, platform_VRING_SIZE n al;
              h_overhead := λ n, 2 * platform_VRING_SIZE n al; h_isr_count := isr; h_highest := hi |} n.
Proof.
  intros Hal Hn Hmax. destruct (usual_align_pow2 al Hal) as (Hp & Hr & _).
  destruct (platform_vring_size_covers n al) as (Hc & Hm & Hlt); [done|done|done|lia|].
  assert (platform_VRING_SIZE n al mod 4 = 0) as Hm4.
  { apply Z.mod_divide in Hm; [|lia]. apply Z.mod_divide; [lia|]. eapply Z.divide_trans; [|exact Hm].
    apply Z.mod_divide; [lia|]. by destruct Hal as [-> | ->]. }
  unfold reserves; cbn. split_and!; try lia. by rewrite <- Z.mul_mod_idemp_r, Hm4 by lia.
Qed.

Lemma reserves_fixed size isr hi n :
  pow2 n → n ≤ 1024 → size = 32768 ∨ size = 1048576 →
  reserves {| h_align := 4096; h_size := λ _, size; h_overhead := λ _, 2 * size;
              h_isr_count := isr; h_highest := hi |} n.
Proof.
  intros Hn Hmax Hsize. pose proof (pow2_pos n Hn). pose proof uptr_bits_ge.
  assert (pow2 4096) by by exists 12.
  destruct (vring_size_eq n 4096) as [Heq _]; [done|lia|done|done|].
  destruct (align_up_bounds (18 * n + 8) 4096) as [Hb _]; [done|done|lia|lia|].
  unfold reserves; cbn. rewrite Heq. destruct Hsize as [-> | ->]; (split_and!; lia || done).
Qed.

(** In the tightly coupled memories there is room for four buffers a ring. *)
Lemma tcm_ring_size n : pow2 n → n ≤ 4 → vring_size n 16 ≤ 128.
Proof.
  intros Hn Hmax. pose proof (pow2_pos n Hn). pose proof uptr_bits_ge.
  assert (pow2 16) by by exists 4.
  destruct (vring_size_eq n 16) as [-> _]; [done|lia|done|done|].
  rewrite align_up_eq by (done || lia).
  destruct (pow2_bound n Hn ltac:(lia)) as (k & Hk & ->).
  assert (k = 0 ∨ k = 1 ∨ k = 2 ∨ 3 ≤ k) as [->|[->|[->|Hk3]]] by lia; [done..|].
  pose proof (Z.pow_le_mono_r 2 3 k). lia.
Qed.

Lemma reserves_tcm isr hi n :
  pow2 n → n ≤ 4 →
  reserves {| h_align := 16; h_size := λ _, 128; h_overhead := λ _, Z.ldiff (2 * 128 + 2047) 2047;
              h_isr_count := isr; h_highest := hi |} n.
Proof. intros Hn Hmax. pose proof (tcm_ring_size n Hn Hmax). unfold reserves; cbn. split_and!; lia || done. Qed.

End rings.

Lemma forall_in {A} (Q : A → Prop) l x : Forall Q l → x ∈ l → Q x.
Proof. rewrite List.Forall_forall. intros Hall Hin. by apply Hall, list_elem_of_In. Qed.

Create HintDb headers.
#[export] Hint Unfold usual_align : headers.

(** The header of a platform: of the table, or of i.MX 8 under QNX with a highest
    link from the configuration. *)
Definition platform_header (tcm big : bool) (h : header) : Prop :=
  h ∈ headers tcm big ∨ ∃ highest, 0 ≤ highest ≤ 32767 ∧ h = imx8_aarch64_header highest.

Lemma headers_reserve {cfg : Config} {cok : ConfigOk cfg} tcm big h n :
  platform_header tcm big h → pow2 n → n ≤ 1024 → (h ∈ tcm_headers → n ≤ 4) → reserves h n.
Proof.
  intros [Hin|(hi & _ & ->)] Hn Hmax Htcm; [|apply reserves_fixed; auto]. assert (n ≤ 32768) by lia.
  assert (Forall (λ h, (h ∈ tcm_headers → n ≤ 4) → reserves h n) (headers tcm big)) as Hall.
  { unfold headers. repeat (apply List.Forall_cons; [|]); [..|apply List.Forall_nil]; intros Ht;
      (apply reserves_computed || apply reserves_fixed || (destruct tcm; [apply reserves_tcm|apply reserves_fixed]));
      auto with headers; try (destruct big; auto); apply Ht; unfold tcm_headers; set_solver. }
  exact (forall_in _ _ _ Hall Hin Htcm).
Qed.

(** ** Links and vectors *)

(** Every vector of the header has an entry of the interrupt table. *)
Definition in_table (h : header) : Prop :=
  0 ≤ h_highest h ≤ 32767 ∧ 2 * h_highest h + 1 < h_isr_count h < 4294967296.

Lemma headers_in_table tcm big h :
  h ∈ headers tcm big → h = zephyr_ipc_service_header ∨ in_table h.
Proof.
  intros Hin.
  assert (Forall (λ h, h = zephyr_ipc_service_header ∨ in_table h) (headers tcm big)) as Hall.
  { unfold headers. repeat (apply List.Forall_cons; [|]); [..|apply List.Forall_nil];
      first [by left | right; unfold in_table; vm_compute; intuition congruence]. }
  exact (forall_in _ _ _ Hall Hin).
Qed.

(** On every platform but one, every link the initialisation admits has
    both its vectors inside the interrupt table, and the vectors of different
    queues differ.  The header of the Zephyr IPC service admits links up to 32
    with a table of 32 entries: from link 16 on the vectors are outside. *)
Theorem platform_vectors {cfg : Config} tcm big h :
  h ∈ headers tcm big →
  (h ≠ zephyr_ipc_service_header →
   ∀ link q, 0 ≤ link ≤ h_highest h → 0 ≤ q < 2 →
     0 ≤ RL_GET_VQ_ID link q < h_isr_count h ∧
     ∀ link' q', 0 ≤ link' ≤ h_highest h → 0 ≤ q' < 2 →
       RL_GET_VQ_ID link q = RL_GET_VQ_ID link' q' → link = link' ∧ q = q') ∧
  ∀ link q, 16 ≤ link ≤ h_highest zephyr_ipc_service_header → 0 ≤ q < 2 →
    h_isr_count zephyr_ipc_service_header ≤ RL_GET_VQ_ID link q.
Proof.
  intros Hin. split.
  - intros Hne link q Hl Hq. destruct (headers_in_table tcm big h Hin) as [?|(Hh & Ht)]; [done|].
    rewrite RL_GET_VQ_ID_eq by lia. split; [lia|]. intros link' q' Hl' Hq'. rewrite RL_GET_VQ_ID_eq by lia. lia.
  - intros link q Hl Hq. change (h_highest _) with 32 in Hl. change (h_isr_count _) with 32.
    rewrite RL_GET_VQ_ID_eq by lia. lia.
Qed.

Lemma platform_vectors_witness :
  lpc55s69_header ∈ headers false false ∧
  0 ≤ @RL_GET_VQ_ID 0 1 < h_isr_count lpc55s69_header.
Proof.
  assert (lpc55s69_header ∈ headers false false) as Hin by (unfold headers; set_solver).
  split; [exact Hin|].
  destruct (@platform_vectors default_config false false lpc55s69_header Hin) as [H _].
  assert (lpc55s69_header ≠ zephyr_ipc_service_header) as Hne.
  { intros Heq. apply (f_equal h_highest) in Heq. vm_compute in Heq. discriminate. }
  apply (H Hne 0 1); vm_compute; intuition congruence.
Defined.

(** ** Builds *)

(** The header's part of [ConfigOk]. *)
Lemma headers_limits tcm big h :
  h ∈ headers tcm big →
  usual_align (h_align h) ∧ 0 ≤ h_highest h ≤ 32767 ∧ 0 ≤ h_isr_count h < 4294967296.
Proof.
  intros Hin.
  assert (Forall (λ h, usual_align (h_align h) ∧ 0 ≤ h_highest h ≤ 32767 ∧ 0 ≤ h_isr_count h < 4294967296)
    (headers tcm big)) as Hall.
  { unfold headers. repeat (apply List.Forall_cons; [|]); [..|apply List.Forall_nil];
      unfold usual_align; destruct tcm; vm_compute; intuition congruence. }
  exact (forall_in _ _ _ Hall Hin).
Qed.

(** A build on any platform is one the theorems are about. *)
#[export] Instance header_config_ok tcm big h (o : Config) :
  h ∈ headers tcm big → ConfigOk o → ConfigOk (header_config h o).
Proof.
  intros Hin Ho. destruct (headers_limits tcm big h Hin) as (Hal & Hh & Hi).
  destruct (usual_align_pow2 _ Hal) as (_ & Hr & _). destruct Ho.
  by constructor.
Qed.

Lemma platform_header_limits tcm big h (o : Config) :
  platform_header tcm big h → ConfigOk o → ConfigOk (header_config h o) ∧ usual_align (h_align h).
Proof.
  intros [Hin|(hi & Hhi & ->)] Ho.
  - split; [by apply (header_config_ok tcm big)|]. by apply (headers_limits tcm big h Hin).
  - split; [|by right]. destruct Ho. constructor; cbn; unfold imx8_aarch64_VRING_ALIGN, imx8_aarch64_MAX_ISR_COUNT; lia || done.
Qed.

Section layout.
Context {E : Type} {el : EnvLayer E} {app : Application E} {am : AddrMap}.

(** C31.  On every platform, [CONFIG_USE_TCM_AS_RPMSG_SHMEM] and the bigger rings
    of i.MX 8M Mini included, without per-link configurations and with up to 1024
    buffers a queue (4 in the tightly coupled memory), whatever shared memory
    [rpmsg_lite_master_init] accepts satisfies the requirements of the theorems
    on initialisation, provided that its address is a multiple of the alignment
    of the rings and that it lies in the address space: the rings reserved by the
    header are large enough and aligned, and the buffers of both queues fit
    behind what it reserves. *)
Theorem platform_layout tcm big h (o : Config) link_id shmem_addr shmem_length rc (w : world E) :
  let _ := header_config h o in
  platform_header tcm big h → ConfigOk o → @RL_ALLOW_CUSTOM_SHMEM_CONFIG o = false →
  @RL_BUFFER_COUNT o ≤ 1024 → (h ∈ tcm_headers → @RL_BUFFER_COUNT o ≤ 4) →
  0 < shmem_addr → shmem_addr mod h_align h = 0 → 0 ≤ shmem_length < 4294967296 →
  shmem_addr + shmem_length + 65536 ≤ 2 ^ @uintptr_bits o →
  master_config link_id shmem_length w = Ok (Some rc) w →
  layout_ok shmem_addr shmem_length rc.
Proof.
  intros c Hin Ho Hcust Hmax Htcm Ha Ham Hl Hs Hm.
  destruct (platform_header_limits tcm big h o Hin Ho) as [Hc Hal]. fold c in Hc.
  destruct (usual_align_pow2 _ Hal) as (Hp & Hr & Hw).
  destruct (@headers_reserve c Hc tcm big h (@RL_BUFFER_COUNT o) Hin (@cfg_count_pow2 _ Ho) Hmax Htcm)
    as ((Hv & Hv2) & Hmod & Hov & Hov4).
  destruct (@RL_BUFFER_SIZE_bounds c Hc) as (Hb1 & Hb2 & Hb3). pose proof (@cfg_payload _ Hc) as Hpay.
  pose proof (@cfg_count_max _ Ho). pose proof (pow2_pos _ (@cfg_count_pow2 _ Ho)).
  destruct (@vring_size_eq c Hc _ _ (@cfg_count_pow2 _ Ho) ltac:(lia) Hp ltac:(lia)) as [_ Hvr].
  unfold master_config in Hm. change (@RL_ALLOW_CUSTOM_SHMEM_CONFIG c) with (@RL_ALLOW_CUSTOM_SHMEM_CONFIG o) in Hm.
  rewrite Hcust in Hm.
  change (@RL_VRING_OVERHEAD c) with (h_overhead h (@RL_BUFFER_COUNT o)) in Hm.
  rewrite !u32_small in Hm by lia.
  change (@RL_BUFFER_COUNT c) with (@RL_BUFFER_COUNT o) in Hm.
  destruct (RL_CALCULATE_BUFFER_COUNT_DOWN_SAFE _ _ _) as [n|] eqn:Hn; [|done].
  rewrite (u32_small (2 * @RL_BUFFER_COUNT o)) in Hm by lia.
  destruct (Z.ltb_spec n (2 * @RL_BUFFER_COUNT o)); [done|]. injection Hm as <-.
  split; cbn; try done; try lia; [apply Ho|]. by exists n.
Qed.

End layout.

(** On i.MX 8M Mini, in 128 KiB at 8192. *)
Definition imx8mm_rc : ring_config := {|
  rc_count := 2; rc_align := 4096; rc_vring_size := 32768; rc_buf_size := 512; rc_overhead := 65536 |}.

Lemma imx8mm_config :
  @master_config _ c_app (header_config (imx8mm_m4_header false) default_config) 0 131072 c_cold
    = Ok (Some imx8mm_rc) c_cold.
Proof. vm_compute. reflexivity. Qed.

(** On the Cortex-M70 of i.MX 943, with its rings in the tightly coupled memory. *)
Definition imx943_rc : ring_config := {|
  rc_count := 2; rc_align := 16; rc_vring_size := 128; rc_buf_size := 512; rc_overhead := 2048 |}.

Lemma imx943_config :
  @master_config _ c_app (header_config (imx943_m70_header true) default_config) 0 6144 c_cold
    = Ok (Some imx943_rc) c_cold.
Proof. vm_compute. reflexivity. Qed.

Lemma platform_layout_witness :
  @layout_ok (header_config (imx8mm_m4_header false) default_config) 8192 131072 imx8mm_rc ∧
  @layout_ok (header_config (imx943_m70_header true) default_config) 8192 6144 imx943_rc.
Proof.
  assert (platform_header false false (imx8mm_m4_header false)) as Hin by (left; unfold headers; set_solver).
  assert (platform_header true false (imx943_m70_header true)) as Hin2 by (left; unfold headers; set_solver).
  split.
  - apply (@platform_layout _ c_app false false _ default_config 0 8192 131072 imx8mm_rc c_cold Hin default_ok);
      [reflexivity|cbn; lia|cbn; lia|lia|reflexivity|lia|cbn; lia|exact imx8mm_config].
  - apply (@platform_layout _ c_app true false _ default_config 0 8192 6144 imx943_rc c_cold Hin2 default_ok);
      [reflexivity|cbn; lia|cbn; lia|lia|reflexivity|lia|cbn; lia|exact imx943_config].
Defined.

(** ** Custom configurations *)

(** The reserved ring holds the buffers and keeps the alignment. *)
Definition custom_fits {cfg : Config} (x : rpmsg_platform_shmem_config) : Prop :=
  pow2 (buffer_count x) ∧ vring_size (buffer_count x) (vring_align_cfg x) ≤ vring_size_cfg x ∧
  vring_size_cfg x mod vring_align_cfg x = 0.

Lemma custom_fits_large {cfg : Config} {cok : ConfigOk cfg} p :
  custom_fits {| buffer_payload_size := p; buffer_count := 256; vring_size_cfg := 32768; vring_align_cfg := 4096 |}.
Proof.
  assert (pow2 256) as H by by exists 8.
  destruct (reserves_fixed 32768 0 0 256 H) as ((Hv & _) & _); [lia|by left|]. by split.
Qed.

Lemma custom_fits_small {cfg : Config} {cok : ConfigOk cfg} p :
  custom_fits {| buffer_payload_size := p; buffer_count := 2; vring_size_cfg := 1024; vring_align_cfg := 16 |}.
Proof.
  assert (pow2 2) as H by by exists 1. pose proof (tcm_ring_size 2 H ltac:(lia)). split_and!; [done| |done]. cbn. lia.
Qed.

(** The custom configurations of the i.MX 8ULP, on either core: each of
    the two links of a channel gets a configuration whose reserved ring holds
    its buffers and keeps the alignment, the same on both cores where both have
    the channel; for any other link the size and alignment in the structure that
    was passed stay as they were, and the call returns 0 all the same. *)
Theorem imx8ulp_custom_config {cfg : Config} {cok : ConfigOk cfg} com vring_id c :
  0 ≤ com → 0 ≤ vring_id < 4 →
  let link_id := RL_GEN_LINK_ID com vring_id in
  let m33 := imx8ulp_m33_platform_get_custom_shmem_config link_id c in
  let dsp := imx8ulp_fusionf1_platform_get_custom_shmem_config link_id c in
  let kept x := vring_size_cfg x = vring_size_cfg c ∧ vring_align_cfg x = vring_align_cfg c in
  m33.1 = 0 ∧ dsp.1 = 0 ∧
  (if (com <=? 2) && (vring_id <=? 1) then custom_fits m33.2 else kept m33.2) ∧
  (if (com =? imx8ulp_fusionf1_FUSION_DSP_COM_ID) && (vring_id <=? 1) then dsp.2 = m33.2 else kept dsp.2).
Proof.
  intros Hc Hv link_id m33 dsp kept.
  assert (link_id = 4 * com + vring_id) as Hl by by apply RL_GEN_LINK_ID_val.
  unfold m33, dsp, imx8ulp_m33_platform_get_custom_shmem_config, imx8ulp_fusionf1_platform_get_custom_shmem_config.
  rewrite !RL_GEN_LINK_ID_val by lia. rewrite Hl. clear m33 dsp link_id Hl.
  unfold imx8ulp_RL_PLATFORM_BUFFER_COUNT_COMMON, imx8ulp_fusionf1_FUSION_DSP_COM_ID.
  assert (vring_id = 0 ∨ vring_id = 1 ∨ 2 ≤ vring_id) as [->|[->|H2]] by lia;
    (destruct (Z.leb_spec com 2); [assert (com = 0 ∨ com = 1 ∨ com = 2) as [->|[->| ->]] by lia|]);
    try (cbn; split_and!; (done || apply custom_fits_large || apply custom_fits_small));
    repeat match goal with |- context [?x =? ?y] => destruct (Z.eqb_spec x y); [lia|] end;
    repeat match goal with |- context [?x <=? ?y] => destruct (Z.leb_spec x y); [lia|] end;
    by rewrite ?andb_false_r.
Qed.

Lemma imx8ulp_custom_config_witness :
  @custom_fits default_config
    (imx8ulp_m33_platform_get_custom_shmem_config (RL_GEN_LINK_ID 0 1) (Build_rpmsg_platform_shmem_config 0 0 0 0)).2.
Proof.
  destruct (@imx8ulp_custom_config default_config default_ok 0 1 (Build_rpmsg_platform_shmem_config 0 0 0 0))
    as (_ & _ & H & _); [lia|lia|exact H].
Defined.
