(* ===== verification/PlatformMasking.v ===== *)
(** * Masking the interrupt of the peer, on every platform

    [platform_interrupt_disable] and [platform_interrupt_enable] count: the
    environments call them in pairs around critical sections, which nest.
    [Nests] is the interface a platform offers: after any well-bracketed calls
    the line of a channel is enabled exactly if every disable of that channel
    has been undone.  The platforms of [nesting_platforms] implement it; the
    others do not ([masking_defects]). *)

From S2P Require Import Prelude Config Platform MessagePlatforms FlagPlatforms ZephyrPlatforms.

(** One statement of a program whose result is known. *)
Ltac run H := erewrite bind_ok by (by eapply H); cbv beta.

Section masking.
Context {b : Board}.

(** ** The interface *)

(** The channels of a platform, their counters and interrupt lines; a platform
    with one line has one channel for all vectors. *)
Abbreviation lines := (list (Z * nat * option string)).

(** Every line of [l] is masked [d com] times: the counter says so, and the
    interrupt controller agrees. *)
Definition depths (l : lines) (d : Z → Z) (s : platform_state) : Prop :=
  Forall (λ '(com, k, irq),
    0 ≤ d com ∧ disable_counter s k = d com ∧
    match irq with Some i => irq_on true i (log s) = (d com =? 0) | None => True end) l.

Definition bump (c x : Z) (d : Z → Z) : Z → Z := λ c', if decide (c = c') then d c' + x else d c'.

Class Nests (l : lines) (chan : Z → Z) (enable disable : Z → P Z) : Prop := {
  nests_disable d v s : depths l d s →
    ∃ s', disable v s = Ok 0 s' ∧ depths l (bump (chan v) 1 d) s';
  nests_enable d v s : depths l d s → 0 < d (chan v) →
    ∃ s', enable v s = Ok 0 s' ∧ depths l (bump (chan v) (-1) d) s';
}.

(** A history of calls, the latest last, and how deep it leaves a channel. *)
Inductive call : Type := Disable (v : Z) | Enable (v : Z).
Fixpoint calls (enable disable : Z → P Z) (h : list call) : P unit :=
  match h with
  | [] => mret tt
  | Disable v :: h' => disable v;; calls enable disable h'
  | Enable v :: h' => enable v;; calls enable disable h'
  end.
Fixpoint depth (chan : Z → Z) (h : list call) (d : Z → Z) : Z → Z :=
  match h with
  | [] => d
  | Disable v :: h' => depth chan h' (bump (chan v) 1 d)
  | Enable v :: h' => depth chan h' (bump (chan v) (-1) d)
  end.
Fixpoint bracketed (chan : Z → Z) (h : list call) (d : Z → Z) : Prop :=
  match h with
  | [] => True
  | Disable v :: h' => bracketed chan h' (bump (chan v) 1 d)
  | Enable v :: h' => 0 < d (chan v) ∧ bracketed chan h' (bump (chan v) (-1) d)
  end.

Lemma nests_calls l chan enable disable `{!Nests l chan enable disable} h d s :
  depths l d s → bracketed chan h d →
  ∃ s', calls enable disable h s = Ok tt s' ∧ depths l (depth chan h d) s'.
Proof.
  revert d s. induction h as [|[v|v] h IH]; intros d s Hd; cbn [calls depth bracketed].
  - intros _. by exists s.
  - intros Hb. destruct (nests_disable d v s Hd) as (s1 & H1 & Hd1). rewrite (bind_ok _ _ _ _ _ H1). by apply IH.
  - intros (H0 & Hb). destruct (nests_enable d v s Hd H0) as (s1 & H1 & Hd1).
    rewrite (bind_ok _ _ _ _ _ H1). by apply IH.
Qed.

(** ** One line *)

(** A program that does nothing but append to the log. *)
Definition logs (m : P unit) (t : list action) : Prop := ∀ s, m s = Ok tt (put_log (app t) s).

Lemma logs_act a : logs (act a) [a].
Proof. by intros s. Qed.

Lemma logs_bind m1 m2 t1 t2 : logs m1 t1 → logs m2 t2 → logs (m1;; m2) (t2 ++ t1).
Proof.
  intros H1 H2 s. rewrite (bind_ok _ _ _ _ _ (H1 s)), H2. unfold put_log; cbn. by rewrite <- app_assoc.
Qed.

Lemma logs_ret : logs (mret tt) [].
Proof. by intros []. Qed.

Definition turns_on (irq : string) (t : list action) : Prop := ∀ t', irq_on true irq (t ++ t') = true.
Definition turns_off (irq : string) (t : list action) : Prop := ∀ t', irq_on true irq (t ++ t') = false.

(** The counting of one call. *)
Lemma assert_mask_ok_run k s : 0 ≤ disable_counter s k → assert_mask_ok k s = Ok tt s.
Proof. intros H0. unfold assert_mask_ok, mbind, M_bind, get_state, RL_ASSERT. cbn. by rewrite (proj2 (Z.leb_le _ _) H0). Qed.

Lemma assert_masked_run k s : 0 < disable_counter s k → assert_masked k s = Ok tt s.
Proof. intros H0. unfold assert_masked, mbind, M_bind, get_state, RL_ASSERT. cbn. by rewrite (proj2 (Z.ltb_lt _ _) H0). Qed.

Lemma mask_run k off toff s :
  logs off toff →
  mask_count k off s = Ok tt (set_disable_counter k (disable_counter s k + 1)
    (put_log (app (if disable_counter s k =? 0 then toff else [])) s)).
Proof.
  intros Hoff. unfold mask_count, mbind, M_bind, get_state, modify. cbn.
  destruct (disable_counter s k =? 0); [by rewrite Hoff|]. by destruct s.
Qed.

Lemma unmask_run k on ton s :
  logs on ton →
  unmask_count k on s = Ok tt (set_disable_counter k (disable_counter s k - 1)
    (put_log (app (if disable_counter s k - 1 =? 0 then ton else [])) s)).
Proof.
  intros Hon. unfold unmask_count, mbind, M_bind, get_state, modify. cbn.
  destruct (disable_counter s k - 1 =? 0); [by rewrite Hon|]. by destruct s.
Qed.

Lemma mask_call_run k off toff s :
  logs off toff → 0 ≤ disable_counter s k →
  (assert_mask_ok k;; mask_count k off) s = Ok tt (set_disable_counter k (disable_counter s k + 1)
    (put_log (app (if disable_counter s k =? 0 then toff else [])) s)).
Proof. intros Hoff H0. erewrite bind_ok by (by apply assert_mask_ok_run). by apply mask_run. Qed.

Lemma unmask_call_run k on ton s :
  logs on ton → 0 < disable_counter s k →
  (assert_masked k;; unmask_count k on) s = Ok tt (set_disable_counter k (disable_counter s k - 1)
    (put_log (app (if disable_counter s k - 1 =? 0 then ton else [])) s)).
Proof. intros Hon H0. erewrite bind_ok by (by apply assert_masked_run). by apply unmask_run. Qed.

(** What it does to the line. *)
Lemma mask_line irq toff c t :
  turns_off irq toff → 0 ≤ c → irq_on true irq t = (c =? 0) →
  irq_on true irq ((if c =? 0 then toff else []) ++ t) = (c + 1 =? 0).
Proof.
  intros Hoff Hc Ht. rewrite (proj2 (Z.eqb_neq (c + 1) 0)) by lia.
  destruct (c =? 0); [apply Hoff|exact Ht].
Qed.

Lemma unmask_line irq ton c t :
  turns_on irq ton → 0 < c → irq_on true irq t = (c =? 0) →
  irq_on true irq ((if c - 1 =? 0 then ton else []) ++ t) = (c - 1 =? 0).
Proof.
  intros Hon Hc Ht. destruct (c - 1 =? 0); [apply Hon|]. cbn. rewrite Ht. by apply Z.eqb_neq; lia.
Qed.

Lemma bump_same c x d : bump c x d c = d c + x.
Proof. unfold bump. by rewrite decide_True. Qed.
Lemma bump_ne c c' x d : c ≠ c' → bump c x d c' = d c'.
Proof. intros. unfold bump. by rewrite decide_False. Qed.

Lemma nests_one irq on off ton toff :
  logs on ton → turns_on irq ton → logs off toff → turns_off irq toff →
  Nests [(0, 0%nat, Some irq)] (λ _, 0) (λ _, enable_one on) (λ _, disable_one off).
Proof.
  intros Hon Hton Hoff Htoff.
  assert (∀ d s, depths [(0, 0%nat, Some irq)] d s ↔
    0 ≤ d 0 ∧ disable_counter s 0%nat = d 0 ∧ irq_on true irq (log s) = (d 0 =? 0)) as Hone.
  { intros. unfold depths. by rewrite Forall_singleton. }
  split; intros d v s Hd; [|intros Hpos]; apply Hone in Hd as (Hd0 & Hc & Hi).
  - unfold disable_one. run (assert_mask_ok_run 0 s ltac:(lia)). eexists. split.
    + run logs_act. run mask_run. run logs_act. reflexivity.
    + apply Hone. rewrite bump_same. cbn. rewrite fn_lookup_insert, Hc. split_and!; [lia|done|].
      by apply mask_line.
  - unfold enable_one. run (assert_masked_run 0 s ltac:(lia)). eexists. split.
    + run logs_act. run unmask_run. run logs_act. reflexivity.
    + apply Hone. rewrite bump_same. cbn. rewrite fn_lookup_insert, Hc. split_and!; [lia|done|].
      by apply unmask_line.
Qed.

(** ** A line for each channel *)

(** One entry for a channel; counters and lines of different channels differ. *)
Definition compatible (e e' : Z * nat * option string) : bool :=
  let '(c, k, i) := e in let '(c', k', i') := e' in
  if c =? c' then Nat.eqb k k' && bool_decide (i = i')
  else negb (Nat.eqb k k') && (if i is Some x then negb (bool_decide (i' = Some x)) else true).
Definition apart_lines (l : lines) : bool := forallb (λ e, forallb (compatible e) l) l.

Lemma apart_lines_elim l c k i c' k' i' :
  apart_lines l = true → (c, k, i) ∈ l → (c', k', i') ∈ l →
  (c = c' → k = k' ∧ i = i') ∧ (c ≠ c' → k ≠ k' ∧ ∀ x, i = Some x → i' ≠ Some x).
Proof.
  unfold apart_lines. rewrite forallb_forall. intros Hall Hin Hin'.
  specialize (Hall _ (proj1 (list_elem_of_In _ _) Hin)). rewrite forallb_forall in Hall.
  specialize (Hall _ (proj1 (list_elem_of_In _ _) Hin')). cbn in Hall.
  destruct (Z.eqb_spec c c') as [Hc|Hc]; apply andb_prop in Hall as [Hk Hi].
  - apply Nat.eqb_eq in Hk. apply bool_decide_eq_true in Hi. done.
  - apply negb_true_iff, Nat.eqb_neq in Hk. split; [done|]. intros _. split; [done|].
    intros x ->. apply negb_true_iff, bool_decide_eq_false in Hi. done.
Qed.

(** The [switch] runs the case of the channel, if there is one. *)
Lemma com_case_lines (f : nat → option string → P unit) v (l : lines) :
  let m := com_case v ((λ '(com, k, irq), (com, f k irq)) <$> l) in
  (m = mret tt ∧ ∀ k irq, (RL_GET_COM_ID v, k, irq) ∉ l) ∨
  ∃ k irq, (RL_GET_COM_ID v, k, irq) ∈ l ∧ m = f k irq.
Proof.
  cbv zeta. induction l as [|[[com k] irq] l IH].
  - left. split; [done|]. intros k irq. apply not_elem_of_nil.
  - rewrite fmap_cons. cbn [com_case]. destruct (Z.eqb_spec (RL_GET_COM_ID v) com) as [<-|Hne].
    + right. exists k, irq. split; [left|done].
    + destruct IH as [[-> Hout]|(k' & irq' & Hin & ->)].
      * left. split; [done|]. intros k' irq' [?|Hin]%elem_of_cons; [congruence|]. by apply (Hout k' irq').
      * right. exists k', irq'. split; [by right|done].
Qed.

(** What one call does to the counter and the log of its channel. *)
Lemma depths_step l v k irq x d s t :
  apart_lines l = true → depths l d s → (RL_GET_COM_ID v, k, irq) ∈ l →
  0 ≤ d (RL_GET_COM_ID v) + x →
  (∀ i t', irq = Some i → irq_on true i t' = (d (RL_GET_COM_ID v) =? 0) →
    irq_on true i (t ++ t') = (d (RL_GET_COM_ID v) + x =? 0)) →
  (∀ i t', irq ≠ Some i → irq_on true i (t ++ t') = irq_on true i t') →
  depths l (bump (RL_GET_COM_ID v) x d)
    (put_log (cons AUnmask) (set_disable_counter k (d (RL_GET_COM_ID v) + x) (put_log (app t) (put_log (cons AMask) s)))).
Proof.
  intros Hap Hd Hin Hn0 Hsame Hother. unfold depths in *. rewrite Forall_forall in Hd |- *.
  intros [[com k'] irq'] Hin'. specialize (Hd _ Hin') as Hd'. apply list_elem_of_In in Hin'.
  specialize (Hd _ (proj1 (list_elem_of_In _ _) Hin)). cbn in Hd, Hd'.
  destruct (apart_lines_elim l _ _ _ _ _ _ Hap Hin Hin') as [Heq Hne].
  cbn [disable_counter log set_disable_counter put_log irq_on].
  destruct (decide (RL_GET_COM_ID v = com)) as [<-|Hc].
  - destruct (Heq eq_refl) as [-> ->]. rewrite fn_lookup_insert, bump_same. split_and!; [lia|done|].
    destruct irq' as [i|]; [|done]. apply Hsame; [done|apply Hd].
  - destruct (Hne Hc) as [Hk Hi]. rewrite fn_lookup_insert_ne, bump_ne by done. destruct Hd' as (? & ? & Hirq).
    split_and!; [done..|]. destruct irq' as [i|]; [|done].
    rewrite Hother; [exact Hirq|]. intros ->. by apply (Hi i).
Qed.

Lemma depths_stay l v x d s :
  depths l d s → (∀ k irq, (RL_GET_COM_ID v, k, irq) ∉ l) →
  depths l (bump (RL_GET_COM_ID v) x d) (put_log (cons AUnmask) (put_log (cons AMask) s)).
Proof.
  intros Hd Hout. unfold depths in *. rewrite Forall_forall in Hd |- *. intros [[com k] irq] Hin.
  specialize (Hd _ Hin). apply list_elem_of_In in Hin.
  destruct (decide (RL_GET_COM_ID v = com)) as [Heq|Hc].
  - subst com. exfalso. by apply (Hout k irq).
  - by rewrite bump_ne.
Qed.

Lemma depths_elim l d s com k irq :
  depths l d s → (com, k, irq) ∈ l →
  0 ≤ d com ∧ disable_counter s k = d com ∧ ∀ i, irq = Some i → irq_on true i (log s) = (d com =? 0).
Proof.
  unfold depths. rewrite Forall_forall. intros Hd Hin.
  destruct (Hd _ (proj1 (list_elem_of_In _ _) Hin)) as (? & ? & Hi). split_and!; [done..|]. by intros i ->.
Qed.

Lemma switch_logs f irq : logs (switch f irq) (if irq is Some i then [f i] else []).
Proof. destruct irq; [apply logs_act|apply logs_ret]. Qed.

Lemma switch_other (f : string → action) irq (x : bool) i t' :
  (∀ j u, i ≠ j → irq_on true i (f j :: u) = irq_on true i u) → irq ≠ Some i →
  irq_on true i ((if x then (if irq is Some j then [f j] else []) else []) ++ t') = irq_on true i t'.
Proof. intros Hf Hne. destruct x, irq as [j|]; try done. apply Hf. congruence. Qed.

Lemma irq_on_on i j t : i ≠ j → irq_on true i (AIrqOn j :: t) = irq_on true i t.
Proof. intros Hne. cbn. by destruct (String.eqb_spec j i) as [->|]. Qed.
Lemma irq_on_off i j t : i ≠ j → irq_on true i (AIrqOff j :: t) = irq_on true i t.
Proof. intros Hne. cbn. by destruct (String.eqb_spec j i) as [->|]. Qed.

Lemma turns_on_act i : turns_on i [AIrqOn i].
Proof. intros t. cbn. by rewrite String.eqb_refl. Qed.
Lemma turns_off_act i : turns_off i [AIrqOff i].
Proof. intros t. cbn. by rewrite String.eqb_refl. Qed.

Lemma nests_com l :
  apart_lines l = true → Nests l RL_GET_COM_ID (λ v, enable_com v l) (λ v, disable_com v l).
Proof.
  intros Hap. split.
  - intros d v s Hd. unfold disable_com.
    destruct (com_case_lines (λ k irq, assert_mask_ok k;; mask_count k (switch AIrqOff irq)) v l)
      as [[-> Hout]|(k & irq & Hin & ->)].
    { eexists. split; [reflexivity|]. by apply depths_stay. }
    destruct (depths_elim l d s _ _ _ Hd Hin) as (Hd0 & Hc & _). eexists. split.
    + run logs_act. run (mask_call_run k _ _ (put_log (app [AMask]) s) (switch_logs AIrqOff irq) ltac:(cbn; lia)).
      run logs_act. reflexivity.
    + cbn [disable_counter put_log]. rewrite Hc. apply depths_step with irq; try done; [lia| |].
      * intros i t' -> Ht. apply mask_line; [apply turns_off_act|done|done].
      * intros i t' Hne. apply switch_other; [apply irq_on_off|done].
  - intros d v s Hd Hpos. unfold enable_com.
    destruct (com_case_lines (λ k irq, assert_masked k;; unmask_count k (switch AIrqOn irq)) v l)
      as [[-> Hout]|(k & irq & Hin & ->)].
    { eexists. split; [reflexivity|]. by apply depths_stay. }
    destruct (depths_elim l d s _ _ _ Hd Hin) as (Hd0 & Hc & _). eexists. split.
    + run logs_act. run (unmask_call_run k _ _ (put_log (app [AMask]) s) (switch_logs AIrqOn irq) ltac:(cbn; lia)).
      run logs_act. reflexivity.
    + cbn [disable_counter put_log]. rewrite Hc. apply (depths_step l v k irq (-1)); try done; [lia| |].
      * intros i t' -> Ht. apply unmask_line; [apply turns_on_act|done|done].
      * intros i t' Hne. apply switch_other; [apply irq_on_on|done].
Qed.

(** ** The platforms *)

Record mask_port : Type := {
  mp_lines : lines;
  mp_chan : Z → Z;
  mp_enable : Z → P Z;
  mp_disable : Z → P Z;
}.
Definition one_line (irq : string) (enable disable : Z → P Z) : mask_port :=
  {| mp_lines := [(0, 0%nat, Some irq)]; mp_chan := λ _, 0; mp_enable := enable; mp_disable := disable |}.

Definition nesting_platforms (side_a core1 : bool) : list mask_port :=
  [one_line "MU_M4_IRQn"
     imx8mm_m4_platform_interrupt_enable imx8mm_m4_platform_interrupt_disable;
   one_line "MU_M7_IRQn"
     imx8mn_m7_platform_interrupt_enable imx8mn_m7_platform_interrupt_disable;
   one_line "MU1_M7_IRQn"
     imx8mp_m7_platform_interrupt_enable imx8mp_m7_platform_interrupt_disable;
   one_line "MU_M4_IRQn"
     imx8mq_m4_platform_interrupt_enable imx8mq_m4_platform_interrupt_disable;
   one_line "MU_A_IRQn"
     imx7ulp_m4_platform_interrupt_enable imx7ulp_m4_platform_interrupt_disable;
   one_line "APP_M4_MU_NVIC_IRQn"
     imx8dxl_m4_platform_interrupt_enable imx8dxl_m4_platform_interrupt_disable;
   one_line "APP_M4_MU_NVIC_IRQn"
     imx8qx_cm4_platform_interrupt_enable imx8qx_cm4_platform_interrupt_disable;
   one_line "BOARD_MU_IRQ_NUM"
     imx6sx_m4_platform_interrupt_enable imx6sx_m4_platform_interrupt_disable;
   one_line "BOARD_MU_IRQ_NUM"
     imx7d_m4_platform_interrupt_enable imx7d_m4_platform_interrupt_disable;
   one_line "MU_A_IRQn"
     imxrt500_m33_platform_interrupt_enable imxrt500_m33_platform_interrupt_disable;
   one_line "MU_A_IRQn"
     imxrt600_m33_platform_interrupt_enable imxrt600_m33_platform_interrupt_disable;
   one_line "MAILBOX_IRQn"
     lpc5410x_platform_interrupt_enable lpc5410x_platform_interrupt_disable;
   one_line "MAILBOX_IRQn"
     lpc5411x_platform_interrupt_enable lpc5411x_platform_interrupt_disable;
   one_line "MAILBOX_IRQn"
     mcxnx4x_platform_interrupt_enable mcxnx4x_platform_interrupt_disable;
   one_line (imxrt1160_IRQn side_a)
     (imxrt1160_platform_interrupt_enable side_a) (imxrt1160_platform_interrupt_disable side_a);
   one_line (imxrt1170_IRQn side_a)
     (imxrt1170_platform_interrupt_enable side_a) (imxrt1170_platform_interrupt_disable side_a);
   one_line (k32l3a6_IRQn side_a)
     (k32l3a6_platform_interrupt_enable side_a) (k32l3a6_platform_interrupt_disable side_a);
   one_line (mcxl20_IRQn side_a)
     (mcxl20_platform_interrupt_enable side_a) (mcxl20_platform_interrupt_disable side_a);
   one_line "MU1_IRQn"
     imxrt1180_platform_interrupt_enable (imxrt1180_platform_interrupt_disable side_a);
   one_line "MU0_IRQn"
     kw43b43_platform_interrupt_enable (kw43b43_platform_interrupt_disable side_a);
   one_line "MU0_IRQn"
     mcxw70_platform_interrupt_enable (mcxw70_platform_interrupt_disable side_a);
   one_line (IMU_IRQn core1)
     (k32w1_platform_interrupt_enable core1) (k32w1_platform_interrupt_disable core1);
   one_line (IMU_IRQn core1)
     (kw45b41_platform_interrupt_enable core1) (kw45b41_platform_interrupt_disable core1);
   one_line (IMU_IRQn core1)
     (kw47b42_platform_interrupt_enable core1) (kw47b42_platform_interrupt_disable core1);
   one_line (IMU_IRQn core1)
     (mcxw71x_platform_interrupt_enable core1) (mcxw71x_platform_interrupt_disable core1);
   one_line (IMU_IRQn core1)
     (mcxw72x_platform_interrupt_enable core1) (mcxw72x_platform_interrupt_disable core1);
   one_line "ipm"
     imxrt1160_ipm_platform_interrupt_enable imxrt1160_ipm_platform_interrupt_disable;
   one_line "ipm"
     imxrt1170_ipm_platform_interrupt_enable imxrt1170_ipm_platform_interrupt_disable;
   one_line "ipm"
     lpc55s69_ipm_platform_interrupt_enable lpc55s69_ipm_platform_interrupt_disable;
   one_line "ipm"
     lpc5411x_ipm_platform_interrupt_enable lpc5411x_ipm_platform_interrupt_disable;
   one_line "ipm"
     imxrt600_m33_ipm_platform_interrupt_enable imxrt600_m33_ipm_platform_interrupt_disable;
   one_line "ipm"
     imxrt600_hifi4_ipm_platform_interrupt_enable imxrt600_hifi4_ipm_platform_interrupt_disable;
   one_line "ipm"
     imxrt700_m33_ipm_platform_interrupt_enable imxrt700_m33_ipm_platform_interrupt_disable;
   one_line "ipm"
     imxrt700_hifi4_ipm_platform_interrupt_enable imxrt700_hifi4_ipm_platform_interrupt_disable;
   {| mp_lines := imxrt700_m33_lines core1; mp_chan := RL_GET_COM_ID;
      mp_enable := imxrt700_m33_platform_interrupt_enable core1;
      mp_disable := imxrt700_m33_platform_interrupt_disable core1 |}].

Lemma logs_off_priority irq (x : bool) :
  logs (act (AIrqOff irq);; if x then act (AIrqPriority irq 2) else mret tt)
    ((if x then [AIrqPriority irq 2] else []) ++ [AIrqOff irq]).
Proof. apply logs_bind; [apply logs_act|]. destruct x; [apply logs_act|apply logs_ret]. Qed.

Lemma turns_off_priority irq (x : bool) : turns_off irq ((if x then [AIrqPriority irq 2] else []) ++ [AIrqOff irq]).
Proof. intros t. destruct x; cbn; by rewrite String.eqb_refl. Qed.

Lemma ipm_logs x : DEVICE_DT_GET ≠ NULL →
  logs (ipm_set_enabled DEVICE_DT_GET x) [if x then AIrqOn "ipm" else AIrqOff "ipm"].
Proof. intros Hne. unfold ipm_set_enabled. destruct (Z.eqb_spec DEVICE_DT_GET NULL); [done|]. apply logs_act. Qed.

#[local] Hint Resolve logs_act turns_on_act turns_off_act logs_off_priority turns_off_priority : masking.

Lemma nesting_platforms_nest side_a core1 :
  DEVICE_DT_GET ≠ NULL →
  Forall (λ p, Nests (mp_lines p) (mp_chan p) (mp_enable p) (mp_disable p)) (nesting_platforms side_a core1).
Proof.
  intros Hne. unfold nesting_platforms.
  repeat (apply List.Forall_cons; [|]); [..|apply List.Forall_nil];
    first [eapply nests_one; solve [eauto with masking]
          |eapply nests_one; [by apply (ipm_logs true)|apply turns_on_act|by apply (ipm_logs false)|apply turns_off_act]
          |by destruct core1; apply nests_com].
Qed.

(** C30.  On the platforms of [nesting_platforms], well-bracketed calls of
    [platform_interrupt_disable] and [platform_interrupt_enable], on any vectors
    and nested in any way, all return, and after them the interrupt line of each
    channel is enabled exactly if every disable of the channel has been undone:
    whatever the calls for the other channels did. *)
Theorem masking_nests side_a core1 p h s :
  DEVICE_DT_GET ≠ NULL → p ∈ nesting_platforms side_a core1 →
  depths (mp_lines p) (λ _, 0) s → bracketed (mp_chan p) h (λ _, 0) →
  ∃ s', calls (mp_enable p) (mp_disable p) h s = Ok tt s' ∧
    ∀ com k irq, (com, k, Some irq) ∈ mp_lines p →
      disable_counter s' k = depth (mp_chan p) h (λ _, 0) com ∧
      irq_on true irq (log s') = (depth (mp_chan p) h (λ _, 0) com =? 0).
Proof.
  intros Hne Hin Hd Hb. pose proof (nesting_platforms_nest side_a core1 Hne) as Hall.
  rewrite List.Forall_forall in Hall. specialize (Hall p (proj1 (list_elem_of_In _ _) Hin)).
  destruct (nests_calls _ _ _ _ h _ s Hd Hb) as (s' & Hrun & Hd'). exists s'. split; [exact Hrun|].
  intros com k irq Hl. destruct (depths_elim _ _ _ _ _ _ Hd' Hl) as (_ & Hc & Hi). split; [exact Hc|by apply Hi].
Qed.

(** ** The platforms that do not nest *)

(** Calls that leave every enabled line enabled. *)
Definition keeps_on (m : P Z) : Prop := ∀ s r s' irq,
  m s = Ok r s' → irq_on true irq (log s) = true → irq_on true irq (log s') = true.

Lemma keeps_on_calls enable disable h s s' irq :
  (∀ v, keeps_on (enable v)) → (∀ v, keeps_on (disable v)) →
  calls enable disable h s = Ok tt s' → irq_on true irq (log s) = true → irq_on true irq (log s') = true.
Proof.
  intros He Hd. revert s. induction h as [|[v|v] h IH]; intros s; cbn [calls]; [by intros [= <-]|..];
    (unfold mbind, M_bind; destruct (_ v s) as [r s1| | |] eqn:Hrun; try done; intros Hrest Hon; apply (IH s1 Hrest)).
  - by apply (Hd v s r).
  - by apply (He v s r).
Qed.

Lemma enable_com_keeps v l : keeps_on (enable_com v l).
Proof.
  intros s r s' irq. unfold enable_com.
  destruct (com_case_lines (λ k irq, assert_masked k;; unmask_count k (switch AIrqOn irq)) v l)
    as [[-> _]|(k & i & _ & ->)].
  - intros [= <- <-] Hon. exact Hon.
  - unfold assert_masked, unmask_count, RL_ASSERT, mbind, M_bind, get_state, modify, act. cbn.
    destruct (0 <? _); [|done]. cbn. intros Hrun Hon. destruct (_ =? 0); [destruct i as [i|]|];
      injection Hrun as <- <-; cbn; rewrite ?Hon; try done. by destruct (String.eqb i irq).
Qed.

(** The counter is tested after it has been raised: it is never 0 then. *)
Lemma disable_com_late_keeps v l : keeps_on (disable_com_late v l).
Proof.
  intros s r s' irq. unfold disable_com_late.
  destruct (com_case_lines (λ k irq, assert_mask_ok k;; mask_count_late k (switch AIrqOff irq)) v l)
    as [[-> _]|(k & i & _ & ->)].
  - intros [= <- <-] Hon. exact Hon.
  - unfold assert_mask_ok, mask_count_late, RL_ASSERT, mbind, M_bind, get_state, modify, act. cbn.
    destruct (Z.leb_spec 0 (disable_counter s k)); [|done]. cbn.
    rewrite (proj2 (Z.eqb_neq (disable_counter s k + 1) 0)) by lia. by intros [= <- <-].
Qed.

Definition late_platforms : list ((Z → P Z) * (Z → P Z)) :=
  [(imx8ulp_m33_platform_interrupt_enable, imx8ulp_m33_platform_interrupt_disable);
   (imx93_m33_platform_interrupt_enable, imx93_m33_platform_interrupt_disable);
   (imx95_m33_platform_interrupt_enable, imx95_m33_platform_interrupt_disable);
   (imx95_m7_platform_interrupt_enable, imx95_m7_platform_interrupt_disable);
   (imx952_m7_platform_interrupt_enable, imx952_m7_platform_interrupt_disable);
   (imx943_m33s_platform_interrupt_enable, imx943_m33s_platform_interrupt_disable);
   (imx943_m70_platform_interrupt_enable, imx943_m70_platform_interrupt_disable);
   (imx943_m71_platform_interrupt_enable, imx943_m71_platform_interrupt_disable)].

(** On the Xtensa cores, with the line of each. *)
Definition xtensa_platforms : list (string * (Z → P Z) * (Z → P Z)) :=
  [("MU1_B_IRQn", imx8ulp_fusionf1_platform_interrupt_enable, imx8ulp_fusionf1_platform_interrupt_disable);
   ("DSP_INT0_SEL1_IRQn", imxrt500_fusionf1_platform_interrupt_enable, imxrt500_fusionf1_platform_interrupt_disable);
   ("DSP_INT0_SEL1_IRQn", imxrt600_hifi4_platform_interrupt_enable, imxrt600_hifi4_platform_interrupt_disable);
   ("DSP_INT0_SEL1_IRQn", imxrt700_hifi1_platform_interrupt_enable, imxrt700_hifi1_platform_interrupt_disable);
   ("DSP_INT0_SEL1_IRQn", imxrt700_hifi4_platform_interrupt_enable, imxrt700_hifi4_platform_interrupt_disable)].

(** Whether the core takes interrupts at all. *)
Fixpoint global_on (t : list action) : bool :=
  match t with
  | [] => true
  | AMask :: _ => false
  | AUnmask :: _ => true
  | _ :: t' => global_on t'
  end.

(** C37.  The other platforms.  Where the counter is tested after it has been
    raised, no sequence of calls ever switches an interrupt line off.  On the
    i.MX 8QM the two channels share a line, which the enable of one channel
    switches on while the other is masked.  On the Xtensa cores the first enable
    switches the line on, however many disables came before it.  On the EZH-V
    core every disable ends with interrupts enabled. *)
Theorem masking_defects :
  (∀ enable disable h s s' irq, (enable, disable) ∈ late_platforms →
     calls enable disable h s = Ok tt s' → irq_on true irq (log s) = true → irq_on true irq (log s') = true) ∧
  (∃ s', calls imx8qm_m4_platform_interrupt_enable imx8qm_m4_platform_interrupt_disable
           [Disable 0; Disable 8; Enable 0] boot_state = Ok tt s' ∧
     disable_counter s' 1%nat = 1 ∧ irq_on true "IRQSTEER_3_IRQn" (log s') = true) ∧
  (∀ irq enable disable v, (irq, enable, disable) ∈ xtensa_platforms →
     ∃ s', calls enable disable [Disable v; Disable v; Enable v] boot_state = Ok tt s' ∧
       disable_counter s' 0%nat = 1 ∧ irq_on true irq (log s') = true) ∧
  (∀ v s r s', imxrt700_ezhv_platform_interrupt_disable v s = Ok r s' → global_on (log s') = true).
Proof.
  split_and!.
  - intros enable disable h s s' irq Hin. apply keeps_on_calls; intros v.
    + assert (Forall (λ p, keeps_on (p.1 v)) late_platforms) as Hall
        by (repeat constructor; apply enable_com_keeps).
      rewrite List.Forall_forall in Hall. by apply (Hall (enable, disable)), list_elem_of_In.
    + assert (Forall (λ p, keeps_on (p.2 v)) late_platforms) as Hall
        by (repeat constructor; apply disable_com_late_keeps).
      rewrite List.Forall_forall in Hall. by apply (Hall (enable, disable)), list_elem_of_In.
  - eexists. split; [reflexivity|done].
  - intros irq enable disable v Hin. unfold xtensa_platforms in Hin.
    repeat (apply elem_of_cons in Hin as [[= -> -> ->]|Hin]; [eexists; split; [reflexivity|done]|]).
    by apply elem_of_nil in Hin.
  - intros v s r s'. unfold imxrt700_ezhv_platform_interrupt_disable, mbind, M_bind, act, modify.
    destruct (com_case v _ _) as [u s1| | |]; [|done..]. by intros [= <- <-].
Qed.

End masking.

(** On the i.MX RT1170, side A: two disables and one enable, and one more. *)
Lemma masking_nests_witness :
  ∃ s', @calls (imxrt1170_platform_interrupt_enable true) (imxrt1170_platform_interrupt_disable true)
      [Disable 0; Disable 1; Enable 1; Enable 0] boot_state = Ok tt s' ∧
    irq_on true "MUA_IRQn" (log s') = true.
Proof.
  destruct (@masking_nests quiet_board true false
    (one_line "MUA_IRQn" (imxrt1170_platform_interrupt_enable true) (imxrt1170_platform_interrupt_disable true))
    [Disable 0; Disable 1; Enable 1; Enable 0] boot_state) as (s' & Hrun & Hl).
  - vm_compute. discriminate.
  - unfold nesting_platforms. do 15 right. left.
  - constructor; [by split_and!|constructor].
  - vm_compute. intuition congruence.
  - exists s'. split; [exact Hrun|]. destruct (Hl 0 0%nat "MUA_IRQn") as [_ Hi]; [left|]. rewrite Hi. reflexivity.
Defined.

Lemma masking_defects_witness :
  ∃ s', @calls imx8qm_m4_platform_interrupt_enable imx8qm_m4_platform_interrupt_disable
      [Disable 0; Disable 8; Enable 0] boot_state = Ok tt s' ∧
    disable_counter s' 1%nat = 1 ∧ irq_on true "IRQSTEER_3_IRQn" (log s') = true.
Proof. destruct (@masking_defects) as (_ & H & _). exact H. Defined.
