(* ===== verification/PlatformNotify.v ===== *)
(** * Notifying the peer, on every platform

    [platform_notify] on one core and the interrupt handler of the other: what
    is sent for a vector, and which vector arrives.  A message carries the
    vector, or its queue, and the receiver adds the number of the channel it came
    on ([message_notification]); a flag stands for the queue
    ([flag_notification]).  The two sides use the same table entry only through
    the hardware: what a receiver finds in its registers is an assumption on
    them ([received], [fc_pending]). *)

From S2P Require Import Prelude Config Platform MessagePlatforms FlagPlatforms ZephyrPlatforms PlatformMasking.

Section notify.
Context {b : Board}.

(** The whole of [platform_notify]: one action, under the lock. *)
Definition notified (a : action) (s s' : platform_state) : Prop :=
  s' = put_log (λ t, AUnlock (platform_lock s) :: a :: ALock (platform_lock s) :: t) s.

Lemma notify_locked_run m a s : logs m [a] → ∃ s', notify_locked m s = Ok tt s' ∧ notified a s s'.
Proof.
  intros Hm. unfold notify_locked, lock_platform, unlock_platform, act, mbind, M_bind, get_state, modify. cbn.
  rewrite Hm. eexists. split; [reflexivity|]. by destruct s.
Qed.

(** ** Messages *)

(** A messaging unit of this core: the vectors that [platform_notify] sends
    through it, the message of a vector, the vectors of the peer whose messages
    are understood, the vector they stand for here, the handler. *)
Record channel : Type := {
  ch_serves : Z → Prop;
  ch_range : Z → Prop;
  ch_mu : string;
  ch_msg : Z → Z;
  ch_vector : Z → Z;
  ch_full : Z;
  ch_handler : P unit;
}.
Record message_port : Type := {
  mp_notify : Z → P unit;
  mp_channels : list channel;
}.

(** A unit for all vectors, which carries the vector or only its queue; one of
    several, told apart by the channel bits. *)
Definition whole_vector (mu : string) (handler : P unit) : channel := {|
  ch_serves := λ _, True; ch_range := λ w, 0 ≤ w < 65536; ch_mu := mu; ch_msg := λ v, u32 (Z.shiftl v 16); ch_vector := λ w, w;
  ch_full := rx27; ch_handler := handler |}.
Definition queue_only (mu : string) (handler : P unit) : channel := {|
  ch_serves := λ _, True; ch_range := λ w, 0 ≤ w; ch_mu := mu; ch_msg := λ v, u32 (Z.shiftl (RL_GET_Q_ID v) 16);
  ch_vector := RL_GET_Q_ID; ch_full := rx27; ch_handler := handler |}.
Definition one_of (com full : Z) (mu : string) (handler : P unit) : channel := {|
  ch_serves := λ v, RL_GET_COM_ID v = com; ch_range := λ w, 0 ≤ w; ch_mu := mu; ch_msg := RL_GEN_MU_MSG;
  ch_vector := λ w, 8 * com + w mod 8; ch_full := full; ch_handler := handler |}.

Definition message_platforms_table (core1 : bool) : list message_port :=
  [{| mp_notify := imx8mm_m4_platform_notify;
      mp_channels := [whole_vector "MUB" imx8mm_m4_MU_M4_IRQHandler] |};
   {| mp_notify := imx8mn_m7_platform_notify;
      mp_channels := [whole_vector "MUB" imx8mn_m7_MU_M7_IRQHandler] |};
   {| mp_notify := imx8mp_m7_platform_notify;
      mp_channels := [whole_vector "MUB" imx8mp_m7_MU1_M7_IRQHandler] |};
   {| mp_notify := imx8mq_m4_platform_notify;
      mp_channels := [whole_vector "MUB" imx8mq_m4_MU_M4_IRQHandler] |};
   {| mp_notify := imx7ulp_m4_platform_notify;
      mp_channels := [whole_vector "MUA" imx7ulp_m4_MU_A_IRQHandler] |};
   {| mp_notify := imx8dxl_m4_platform_notify;
      mp_channels := [whole_vector "APP_M4_MU" imx8dxl_m4_LSIO_MU5_INT_B_IRQHandler] |};
   {| mp_notify := imx8qx_cm4_platform_notify;
      mp_channels := [whole_vector "APP_M4_MU" imx8qx_cm4_LSIO_MU5_INT_B_IRQHandler] |};
   {| mp_notify := imx6sx_m4_platform_notify;
      mp_channels := [queue_only "MUB" imx6sx_m4_rpmsg_handler] |};
   {| mp_notify := imx7d_m4_platform_notify;
      mp_channels := [queue_only "MUB" imx7d_m4_rpmsg_handler] |};
   {| mp_notify := imx93_m33_platform_notify;
      mp_channels := [one_of imx93_m33_A55_COM_ID rx_full_flag "RPMSG_LITE_M33_A55_MU" imx93_m33_MU1_A_IRQHandler] |};
   {| mp_notify := imx95_m33_platform_notify;
      mp_channels := [one_of imx95_m33_A55_COM_ID rx_full_flag "RPMSG_LITE_M33_A55_MU" imx95_m33_MU1_B_IRQHandler] |};
   {| mp_notify := imx95_m7_platform_notify;
      mp_channels := [one_of imx95_m7_A55_COM_ID rx_full_flag "RPMSG_LITE_M7_A55_MU" imx95_m7_MU7_B_IRQHandler] |};
   {| mp_notify := imx952_m7_platform_notify;
      mp_channels := [one_of imx952_m7_A55_COM_ID rx_full_flag "RPMSG_LITE_M7_A55_MU" imx952_m7_MU7_B_IRQHandler] |};
   {| mp_notify := imx943_m33s_platform_notify;
      mp_channels := [one_of imx943_m33s_M71_COM_ID rx_full_flag "RPMSG_LITE_M33S_M71_MU" imx943_m33s_MU_E1_B_IRQHandler;
        one_of imx943_m33s_M70_COM_ID rx_full_flag "RPMSG_LITE_M33S_M70_MU" imx943_m33s_MU_E3_B_IRQHandler;
        one_of imx943_m33s_A55_COM_ID rx_full_flag "RPMSG_LITE_M33S_A55_MU" imx943_m33s_MU15_A_IRQHandler] |};
   {| mp_notify := imx943_m70_platform_notify;
      mp_channels := [one_of imx943_m70_M33S_COM_ID rx_full_flag "RPMSG_LITE_M70_M33S_MU" imx943_m70_MU_E3_A_IRQHandler;
        one_of imx943_m70_M71_COM_ID rx_full_flag "RPMSG_LITE_M70_M71_MU" imx943_m70_MU18_B_IRQHandler;
        one_of imx943_m70_A55_COM_ID rx_full_flag "RPMSG_LITE_M70_A55_MU" imx943_m70_MU11_B_IRQHandler] |};
   {| mp_notify := imx943_m71_platform_notify;
      mp_channels := [one_of imx943_m71_M33S_COM_ID rx_full_flag "RPMSG_LITE_M71_M33S_MU" imx943_m71_MU_E1_A_IRQHandler;
        one_of imx943_m71_M70_COM_ID rx_full_flag "RPMSG_LITE_M71_M70_MU" imx943_m71_MU18_A_IRQHandler;
        one_of imx943_m71_A55_COM_ID rx_full_flag "RPMSG_LITE_M71_A55_MU" imx943_m71_MU13_A_IRQHandler] |};
   {| mp_notify := imx8ulp_m33_platform_notify;
      mp_channels := [one_of imx8ulp_m33_A35_COM_ID rx_full_flag "MU0_MUA" imx8ulp_m33_MU0_A_IRQHandler;
        one_of imx8ulp_m33_FUSION_DSP_COM_ID rx_full_flag "MU1_MUA" imx8ulp_m33_MU1_A_IRQHandler;
        one_of imx8ulp_m33_HIFI4_COM_ID rx_full_flag "MU2_MUA" imx8ulp_m33_MU2_A_IRQHandler] |};
   {| mp_notify := imx8ulp_fusionf1_platform_notify;
      mp_channels := [one_of imx8ulp_fusionf1_FUSION_DSP_COM_ID rx_full_flag "MU1_MUB" imx8ulp_fusionf1_MU1_B_IRQHandler] |};
   {| mp_notify := imx8qm_m4_platform_notify core1;
      mp_channels := [one_of imx8qm_m4_A_COM_ID rx27 (imx8qm_m4_A_MU core1) (if core1 then imx8qm_m4_LSIO_MU6_INT_B_IRQHandler else imx8qm_m4_LSIO_MU5_INT_B_IRQHandler);
        one_of imx8qm_m4_M4_COM_ID rx27 (imx8qm_m4_M4_MU core1) (if core1 then imx8qm_m4_LSIO_MU7_INT_B_IRQHandler else imx8qm_m4_LSIO_MU7_INT_A_IRQHandler)] |}].

(** The unit has received [msg]. *)
Definition received (c : channel) (msg : Z) (s : platform_state) : Prop :=
  Z.land (ch_full c) (MU_GetStatusFlags (ch_mu c) (log s)) ≠ 0 ∧
  MU_ReceiveMsgNonBlocking (ch_mu c) RPMSG_MU_CHANNEL (log s) = msg ∧
  MU_TryReceiveMsg (ch_mu c) RPMSG_MU_CHANNEL (log s) = Some msg.

(** What an entry of the table promises: the message sent for a vector, and the
    vector reported for a message. *)
Definition carries (notify : Z → P unit) (c : channel) : Prop :=
  (∀ v s, ch_serves c v →
     ∃ s', notify v s = Ok tt s' ∧ notified (AMuSend (ch_mu c) RPMSG_MU_CHANNEL (ch_msg c v)) s s') ∧
  (∀ w s, ch_range c w → received c (ch_msg c w) s →
     ∃ s', ch_handler c s = Ok tt s' ∧ isr_calls (log s') = isr_calls (log s) ++ [ch_vector c w]).

Lemma dsb_logs : logs dsb (if cortex_m4_m7 then [ACall "__DSB" []] else []).
Proof. unfold dsb. destruct cortex_m4_m7; [apply logs_act|apply logs_ret]. Qed.

(** The receiving half: a handler reports the decoded message, whatever barrier
    follows. *)
Lemma on_message_run mu full decode msg s :
  Z.land full (MU_GetStatusFlags mu (log s)) ≠ 0 →
  MU_ReceiveMsgNonBlocking mu RPMSG_MU_CHANNEL (log s) = msg →
  on_message mu full decode s = Ok tt (put_log (cons (AIsr (decode msg))) s).
Proof.
  intros Hf <-. unfold on_message, mbind, M_bind, get_state. cbn.
  by destruct (Z.eqb_spec (Z.land full (MU_GetStatusFlags mu (log s))) 0).
Qed.

Lemma handler_reports mu full decode msg m s v :
  Z.land full (MU_GetStatusFlags mu (log s)) ≠ 0 →
  MU_ReceiveMsgNonBlocking mu RPMSG_MU_CHANNEL (log s) = msg → decode msg = v →
  m = on_message mu full decode ∨ m = (on_message mu full decode;; dsb) →
  ∃ s', m s = Ok tt s' ∧ isr_calls (log s') = isr_calls (log s) ++ [v].
Proof.
  intros Hf Hm <- [-> | ->]; [eexists; split; [by eapply on_message_run|done]|].
  eexists. split; [erewrite bind_ok by (by eapply on_message_run); apply dsb_logs|].
  cbn. by destruct cortex_m4_m7.
Qed.

(** The vector survives the crossing. *)
Lemma shift_msg v : 0 ≤ v < 65536 → Z.shiftr (u32 (Z.shiftl v 16)) 16 = v.
Proof.
  intros Hv. rewrite Z.shiftl_mul_pow2, Z.shiftr_div_pow2 by lia. change (2 ^ 16) with 65536.
  rewrite u32_small by lia. by apply Z.div_mul.
Qed.

Lemma com_vector_msg com v : 0 ≤ com < 65536 → 0 ≤ v → com_vector com (RL_GEN_MU_MSG v) = 8 * com + v mod 8.
Proof.
  intros Hc Hv. unfold com_vector, RL_GEN_MU_MSG.
  assert (Z.land v 7 = v mod 8) as -> by (change 7 with (Z.ones 3); by rewrite Z.land_ones).
  pose proof (Z.mod_pos_bound v 8 ltac:(lia)). rewrite shift_msg by lia.
  rewrite Z.lor_comm, lor_shiftl_add by lia. change (2 ^ 3) with 8. rewrite u32_small by lia. lia.
Qed.

Lemma RL_GET_Q_ID_val v : RL_GET_Q_ID v = v mod 2.
Proof. unfold RL_GET_Q_ID. change 1 with (Z.ones 1). by rewrite Z.land_ones. Qed.

Lemma carries_whole mu :
  carries (λ v, notify_locked (act (AMuSend mu RPMSG_MU_CHANNEL (u32 (Z.shiftl v 16)))))
    (whole_vector mu (on_message mu rx27 (λ channel, Z.shiftr channel 16);; dsb)).
Proof.
  split; [intros; apply notify_locked_run, logs_act|]. intros w s Hw (Hf & Hm & _). cbn in *.
  eapply (handler_reports _ rx27 (λ channel, Z.shiftr channel 16)); [exact Hf|exact Hm|by apply shift_msg|by right].
Qed.

(** The handler of i.MX 6SX and 7D asks the driver whether there is a message. *)
Lemma carries_queue mu :
  carries (λ v, notify_locked (act (AMuSend mu RPMSG_MU_CHANNEL (u32 (Z.shiftl (RL_GET_Q_ID v) 16)))))
    (queue_only mu
       (s ← get_state;
        match MU_TryReceiveMsg mu RPMSG_MU_CHANNEL (log s) with
        | Some msg => act (AIsr (Z.shiftr msg 16))
        | None => mret tt
        end;;
        dsb)).
Proof.
  split; [intros; apply notify_locked_run, logs_act|]. intros w s Hw (_ & _ & Hm). cbn in Hm |- *.
  pose proof (Z.mod_pos_bound w 2 ltac:(lia)) as Hq. rewrite <- RL_GET_Q_ID_val in Hq. eexists. split.
  - erewrite bind_ok by reflexivity. rewrite Hm, shift_msg by lia. run logs_act. apply dsb_logs.
  - cbn. by destruct cortex_m4_m7.
Qed.

Lemma carries_one notify com full mu handler :
  0 ≤ com < 65536 →
  (∀ v, RL_GET_COM_ID v = com → notify v = notify_locked (act (AMuSend mu RPMSG_MU_CHANNEL (RL_GEN_MU_MSG v)))) →
  handler = on_message mu full (com_vector com) ∨ handler = (on_message mu full (com_vector com);; dsb) →
  carries notify (one_of com full mu handler).
Proof.
  intros Hc Hn Hh. split.
  - intros v s Hv. cbn in *. rewrite Hn by done. apply notify_locked_run, logs_act.
  - intros w s Hw (Hf & Hm & _). cbn in *.
    eapply (handler_reports _ full (com_vector com)); [exact Hf|exact Hm|by apply com_vector_msg|done].
Qed.

(** The [switch] of [platform_notify] picks the unit of the channel. *)
Fixpoint unit_of (com : Z) (mus : list (Z * nat * string)) : option string :=
  match mus with
  | [] => None
  | (com', _, mu) :: mus' => if com =? com' then Some mu else unit_of com mus'
  end.

Lemma carries_com mus com full mu handler :
  bool_decide (0 ≤ com < 65536) = true → unit_of com mus = Some mu →
  handler = on_message mu full (com_vector com) ∨ handler = (on_message mu full (com_vector com);; dsb) →
  carries (λ v, notify_com v mus) (one_of com full mu handler).
Proof.
  intros Hc%bool_decide_eq_true Hu Hh. apply carries_one; [done| |done].
  intros v Hv. unfold notify_com. f_equal. induction mus as [|[[com' k] mu'] mus IH]; [done|].
  cbn in Hu |- *. rewrite Hv. destruct (com =? com'); [by injection Hu as ->|by apply IH].
Qed.

Lemma carries_fusionf1 :
  carries imx8ulp_fusionf1_platform_notify
    (one_of imx8ulp_fusionf1_FUSION_DSP_COM_ID rx_full_flag "MU1_MUB" imx8ulp_fusionf1_MU1_B_IRQHandler).
Proof. apply carries_one; [done|done|by left]. Qed.

(** The cases of a property of all entries of a table. *)
Ltac split_table :=
  repeat match goal with
    | |- Forall _ [] => apply List.Forall_nil
    | |- Forall _ (_ :: _) => apply List.Forall_cons; cbn [mp_notify mp_channels]
    end.

(** C28.  On every platform that rings by messages, [platform_notify] sends one
    message under the lock, through the unit of the vector's channel; and when a
    unit has received the message a peer sends for a vector, its handler reports
    one vector to the environment: the same vector where the unit serves all of
    them, the queue where only the queue is sent, and with several channels the
    same queue of the channel the message came on, whatever number the peer has
    for that channel. *)
Theorem message_notification core1 p c :
  p ∈ message_platforms_table core1 → c ∈ mp_channels p → carries (mp_notify p) c.
Proof.
  intros Hp Hc.
  assert (Forall (λ p, Forall (carries (mp_notify p)) (mp_channels p)) (message_platforms_table core1)) as Hall.
  { unfold message_platforms_table. destruct core1; split_table;
    lazymatch goal with
    | |- carries _ (whole_vector _ _) => apply carries_whole
    | |- carries _ (queue_only _ _) => apply carries_queue
    | |- carries imx8ulp_fusionf1_platform_notify _ => apply carries_fusionf1
    | |- carries _ (one_of ?com _ _ _) =>
        eapply (carries_com _ com); [reflexivity|reflexivity|first [left; reflexivity|right; reflexivity]]
    end. }
  rewrite List.Forall_forall in Hall. specialize (Hall p (proj1 (list_elem_of_In _ _) Hp)).
  rewrite List.Forall_forall in Hall. by apply Hall, list_elem_of_In.
Qed.

(** ** Flags *)

(** A side of a link: the vectors [platform_notify] rings for and how, the two
    flags its handler finds raised, and the first of the two vectors they stand
    for. *)
Record flag_port : Type := {
  fp_serves : Z → Prop;
  fp_ring : Z → action;
  fp_notify : Z → P unit;
  fp_raised : list action → bool * bool;
  fp_base : Z;
  fp_handler : P unit;
}.

Definition raised (mask0 mask1 value : Z) : bool * bool :=
  (negb (Z.land mask0 value =? 0), negb (Z.land mask1 value =? 0)).
(** With the multicore manager the peer is sent an event, the vector's queue. *)
Definition ring_core (side_a : bool) (v : Z) (a : action) : action :=
  if RL_USE_MCMGR_IPC_ISR_HANDLER then AEvent (peer side_a) (RL_GET_Q_ID v) else a.
Definition mu_port (mu : string) (ring : Z → action) (notify : Z → P unit) (handler : P unit) : flag_port := {|
  fp_serves := λ _, True; fp_ring := ring; fp_notify := notify;
  fp_raised := λ t, raised kMU_GenInt0Flag kMU_GenInt1Flag (MU_GetStatusFlags mu t);
  fp_base := 0; fp_handler := handler |}.
Definition mailbox_port (cpu : string) (ring : Z → action) (notify : Z → P unit) (handler : P unit) : flag_port := {|
  fp_serves := λ v, RL_GET_LINK_ID v = 0; fp_ring := ring; fp_notify := notify;
  fp_raised := λ t, raised 1 2 (MAILBOX_GetValue cpu t); fp_base := 0; fp_handler := handler |}.
(** Zephyr hands the flags to the callback. *)
Definition ipm_port (serves : Z → Prop) (data : Z) (notify : Z → P unit) (handler : P unit) : flag_port := {|
  fp_serves := serves; fp_ring := λ v, AIpmSend 0 (Z.shiftl 1 (RL_GET_Q_ID v)); fp_notify := notify;
  fp_raised := λ _, raised 1 2 data; fp_base := 0; fp_handler := handler |}.
(** A channel of i.MX RT700. *)
Definition com_port (com : Z) (mu core : string) (notify : Z → P unit) (handler : P unit) : flag_port := {|
  fp_serves := λ v, RL_GET_COM_ID v = com;
  fp_ring := λ v, if RL_USE_MCMGR_IPC_ISR_HANDLER then AEvent core (Z.land v 65535) else AMuTrigger mu (gi v);
  fp_notify := notify;
  fp_raised := λ t, raised kMU_GenInt0Flag kMU_GenInt1Flag (MU_GetStatusFlags mu t);
  fp_base := 8 * com; fp_handler := handler |}.

(** The Cortex-M33 of i.MX RT500 and RT600; with the multicore manager their
    [platform_notify] is an exception below. *)
Definition m33_port (notify : Z → P unit) (handler : P unit) : flag_port := {|
  fp_serves := λ _, RL_USE_MCMGR_IPC_ISR_HANDLER = false; fp_ring := λ v, AMuTrigger "MUA" (gi_request v);
  fp_notify := notify; fp_raised := λ t, raised kMU_GenInt0Flag kMU_GenInt1Flag (MU_GetStatusFlags "MUA" t);
  fp_base := 0; fp_handler := handler |}.

Definition two_core_ports (side_a : bool) : list flag_port :=
  [mu_port (imxrt1160_MU side_a) (λ v, ring_core side_a v (AMuTrigger (imxrt1160_MU side_a) (gi_request v)))
     (imxrt1160_platform_notify side_a) ((if side_a then imxrt1160_MUA_IRQHandler else imxrt1160_MUB_IRQHandler);; mret tt);
   mu_port (imxrt1170_MU side_a) (λ v, ring_core side_a v (AMuTrigger (imxrt1170_MU side_a) (gi_request v)))
     (imxrt1170_platform_notify side_a) ((if side_a then imxrt1170_MUA_IRQHandler else imxrt1170_MUB_IRQHandler);; mret tt);
   mu_port (k32l3a6_MU side_a) (λ v, ring_core side_a v (AMuTrigger (k32l3a6_MU side_a) (gi_request v)))
     (k32l3a6_platform_notify side_a) ((if side_a then k32l3a6_MUA_IRQHandler else k32l3a6_MUB_IRQHandler);; mret tt);
   mu_port (mcxl20_MU side_a) (λ v, ring_core side_a v (AMuTrigger (mcxl20_MU side_a) (MU_GI_INTR (Z.shiftl 1 (RL_GET_Q_ID v)))))
     (mcxl20_platform_notify side_a) ((if side_a then mcxl20_MU_A_INT_IRQHandler else mcxl20_MU_B_INT_IRQHandler);; mret tt);
   mu_port (imxrt1180_MU side_a) (λ v, ring_core side_a v (AMuTrigger (imxrt1180_MU side_a) (MU_GI_INTR (Z.shiftl 1 (RL_GET_Q_ID v)))))
     (imxrt1180_platform_notify side_a) (imxrt1180_MU1_IRQHandler side_a;; mret tt);
   mu_port (kw43b43_MU side_a) (λ v, ring_core side_a v (AMuTrigger (kw43b43_MU side_a) (MU_GI_INTR (Z.shiftl 1 (RL_GET_Q_ID v)))))
     (kw43b43_platform_notify side_a) (kw43b43_MU0_IRQHandler side_a;; mret tt);
   mu_port (mcxw70_MU side_a) (λ v, ring_core side_a v (AMuTrigger (mcxw70_MU side_a) (MU_GI_INTR (Z.shiftl 1 (RL_GET_Q_ID v)))))
     (mcxw70_platform_notify side_a) (mcxw70_MU0_IRQHandler side_a;; mret tt);
   m33_port imxrt500_m33_platform_notify imxrt500_m33_MU_A_IRQHandler;
   m33_port imxrt600_m33_platform_notify imxrt600_m33_MU_A_IRQHandler;
   mu_port "MUB" (λ v, AMuTrigger "MUB" (gi_request v))
     imxrt500_fusionf1_platform_notify imxrt500_fusionf1_MU_B_IRQHandler;
   mu_port "MUB" (λ v, AMuTrigger "MUB" (gi_request v))
     imxrt600_hifi4_platform_notify imxrt600_hifi4_MU_B_IRQHandler;
   mailbox_port (lpc5410x_cpu side_a) (λ v, ring_core side_a v (AMailboxSet (lpc5410x_cpu (negb side_a)) (Z.shiftl 1 (RL_GET_Q_ID v))))
     (lpc5410x_platform_notify side_a) (lpc5410x_MAILBOX_IRQHandler side_a);
   mailbox_port (lpc5411x_cpu side_a) (λ v, ring_core side_a v (AMailboxSet (lpc5411x_cpu (negb side_a)) (Z.shiftl 1 (RL_GET_Q_ID v))))
     (lpc5411x_platform_notify side_a) (lpc5411x_MAILBOX_IRQHandler side_a);
   mailbox_port (mcxnx4x_cpu side_a) (λ v, ring_core side_a v (AMailboxSet (mcxnx4x_cpu (negb side_a)) (Z.shiftl 1 (RL_GET_Q_ID v))))
     (mcxnx4x_platform_notify side_a) (mcxnx4x_MAILBOX_IRQHandler side_a)].
Definition zephyr_ports (data : Z) : list flag_port :=
  [ipm_port (λ v, RL_GET_LINK_ID v = 0) data imxrt1160_ipm_platform_notify (imxrt1160_ipm_platform_ipm_callback data);
   ipm_port (λ v, RL_GET_LINK_ID v = 0) data imxrt1170_ipm_platform_notify (imxrt1170_ipm_platform_ipm_callback data);
   ipm_port (λ v, RL_GET_LINK_ID v = 0) data lpc55s69_ipm_platform_notify (lpc55s69_ipm_platform_ipm_callback data);
   ipm_port (λ v, RL_GET_LINK_ID v = 0) data lpc5411x_ipm_platform_notify (lpc5411x_ipm_platform_ipm_callback data);
   ipm_port (λ _, True) data imxrt600_m33_ipm_platform_notify (imxrt600_m33_ipm_platform_ipm_callback data);
   ipm_port (λ _, True) data imxrt600_hifi4_ipm_platform_notify (imxrt600_hifi4_ipm_platform_ipm_callback data);
   ipm_port (λ _, True) data imxrt700_m33_ipm_platform_notify (imxrt700_m33_ipm_platform_ipm_callback data);
   ipm_port (λ _, True) data imxrt700_hifi4_ipm_platform_notify (imxrt700_hifi4_ipm_platform_ipm_callback data)].
Definition imxrt700_ports : list flag_port :=
  [com_port imxrt700_m33_M33_0_HIFI1_COM_ID "MU0_MUA" "kMCMGR_Core3"
     (imxrt700_m33_platform_notify false) imxrt700_m33_MU0_A_IRQHandler;
   com_port imxrt700_m33_M33_0_M33_1_COM_ID "MU1_MUA" "kMCMGR_Core1"
     (imxrt700_m33_platform_notify false) imxrt700_m33_MU1_A_IRQHandler;
   com_port imxrt700_m33_M33_0_HIFI4_COM_ID "MU4_MUA" "kMCMGR_Core2"
     (imxrt700_m33_platform_notify false) imxrt700_m33_MU4_A_IRQHandler;
   com_port imxrt700_m33_M33_0_M33_1_COM_ID "MU1_MUB" "kMCMGR_Core0"
     (imxrt700_m33_platform_notify true) imxrt700_m33_MU1_B_IRQHandler;
   com_port imxrt700_m33_M33_1_HIFI1_COM_ID "MU3_MUA" "kMCMGR_Core3"
     (imxrt700_m33_platform_notify true) imxrt700_m33_MU3_A_IRQHandler;
   com_port imxrt700_hifi1_M33_0_HIFI1_COM_ID "MU0_MUB" "kMCMGR_Core0"
     imxrt700_hifi1_platform_notify imxrt700_hifi1_MU0_B_IRQHandler;
   com_port imxrt700_hifi1_M33_1_HIFI1_COM_ID "MU3_MUB" "kMCMGR_Core1"
     imxrt700_hifi1_platform_notify imxrt700_hifi1_MU3_B_IRQHandler;
   com_port imxrt700_hifi4_M33_0_HIFI4_COM_ID "MU4_MUB" "kMCMGR_Core0"
     imxrt700_hifi4_platform_notify imxrt700_hifi4_MU4_B_IRQHandler;
   com_port imxrt700_hifi4_M33_1_HIFI4_COM_ID "MU2_MUA" "kMCMGR_Core1"
     imxrt700_hifi4_platform_notify imxrt700_hifi4_MU2_A_IRQHandler].

(** What an entry promises: one ring for a vector, and for each flag raised its
    vector, in order. *)
Definition rings (p : flag_port) : Prop :=
  (∀ v s, fp_serves p v → ∃ s', fp_notify p v s = Ok tt s' ∧ notified (fp_ring p v) s s') ∧
  (∀ s, ∃ s', fp_handler p s = Ok tt s' ∧
     isr_calls (log s') = isr_calls (log s) ++
       (if (fp_raised p (log s)).1 then [fp_base p] else []) ++
       (if (fp_raised p (log s)).2 then [fp_base p + 1] else [])).

(** The receiving half. *)
Lemma isr_calls_app t t' : isr_calls (t ++ t') = isr_calls t' ++ isr_calls t.
Proof. induction t as [|[] t IH]; cbn; rewrite ?IH; try done; [by rewrite app_nil_r|by rewrite app_assoc]. Qed.

(** A program that reports the vectors of the flags it finds. *)
Definition reports (m : P unit) (flags : list action → bool * bool) (base : Z) : Prop := ∀ s, ∃ t,
  m s = Ok tt (put_log (app t) s) ∧
  isr_calls t = (if (flags (log s)).1 then [base] else []) ++ (if (flags (log s)).2 then [base + 1] else []).

Lemma on_flags_reports mu base v1 :
  v1 = base + 1 →
  reports (on_flags mu base v1) (λ t, raised kMU_GenInt0Flag kMU_GenInt1Flag (MU_GetStatusFlags mu t)) base.
Proof.
  intros -> s. unfold on_flags, raised, mbind, M_bind, get_state. cbn.
  do 2 destruct (Z.land _ (MU_GetStatusFlags mu (log s)) =? 0); cbn.
  - exists []. by destruct s.
  - by exists [AIsr (base + 1); AMuClear mu kMU_GenInt1Flag].
  - by exists [AIsr base; AMuClear mu kMU_GenInt0Flag].
  - by exists [AIsr (base + 1); AMuClear mu kMU_GenInt1Flag; AIsr base; AMuClear mu kMU_GenInt0Flag].
Qed.

Lemma on_mailbox_reports cpu : reports (on_mailbox cpu) (λ t, raised 1 2 (MAILBOX_GetValue cpu t)) 0.
Proof.
  intros s. unfold on_mailbox, raised, mbind, M_bind, get_state. cbn.
  rewrite (Z.land_comm 1), (Z.land_comm 2). do 2 destruct (Z.land (MAILBOX_GetValue cpu (log s)) _ =? 0); cbn.
  - exists []. by destruct s.
  - by exists [AIsr 1; AMailboxClear cpu 2].
  - by exists [AIsr 0; AMailboxClear cpu 1].
  - by exists [AIsr 1; AMailboxClear cpu 2; AIsr 0; AMailboxClear cpu 1].
Qed.

Lemma ipm_flags_reports data : reports (ipm_flags data) (λ _, raised 1 2 data) 0.
Proof.
  intros s. unfold ipm_flags, raised. rewrite (Z.land_comm 1), (Z.land_comm 2).
  do 2 destruct (Z.land data _ =? 0); cbn.
  - exists []. by destruct s.
  - by exists [AIsr 0].
  - by exists [AIsr 1].
  - by exists [AIsr 1; AIsr 0].
Qed.

(** Whatever barrier follows. *)
Lemma reports_then m flags base k t' :
  reports m flags base → logs k t' → isr_calls t' = [] → reports (m;; k) flags base.
Proof.
  intros Hm Hk Ht s. destruct (Hm s) as (t & Hrun & Hcalls). exists (t' ++ t). split.
  - rewrite (bind_ok _ _ _ _ _ Hrun), Hk. unfold put_log; cbn. by rewrite app_assoc.
  - by rewrite isr_calls_app, Ht, app_nil_r.
Qed.

Lemma reports_ret m flags base : reports m flags base → reports ((m;; mret 0);; mret tt) flags base.
Proof.
  intros Hm s. destruct (Hm s) as (t & Hrun & Hcalls). exists t. split; [|exact Hcalls].
  unfold mbind, M_bind. by rewrite Hrun.
Qed.

Lemma dsb_quiet : isr_calls (if cortex_m4_m7 then [ACall "__DSB" []] else []) = [].
Proof. by destruct cortex_m4_m7. Qed.

Lemma rings_intro serves ring notify flags base handler :
  (∀ v, serves v → ∃ m, notify v = notify_locked m ∧ logs m [ring v]) → reports handler flags base →
  rings {| fp_serves := serves; fp_ring := ring; fp_notify := notify; fp_raised := flags;
           fp_base := base; fp_handler := handler |}.
Proof.
  intros Hn Hh. split; cbn.
  - intros v s Hv. destruct (Hn v Hv) as (m & -> & Hm). by apply notify_locked_run.
  - intros s. destruct (Hh s) as (t & -> & Ht). eexists. split; [reflexivity|]. cbn. by rewrite isr_calls_app, Ht.
Qed.

(** The sending half. *)
Lemma flag_notify_logs side_a v a :
  ∃ m, flag_notify (peer side_a) v (act a) = notify_locked m ∧ logs m [ring_core side_a v a].
Proof. eexists. split; [reflexivity|]. unfold ring_core. destruct RL_USE_MCMGR_IPC_ISR_HANDLER; apply logs_act. Qed.

Lemma mailbox_notify_logs side_a v a :
  RL_GET_LINK_ID v = 0 →
  ∃ m, (if RL_USE_MCMGR_IPC_ISR_HANDLER then notify_locked (act (AEvent (peer side_a) (RL_GET_Q_ID v)))
        else if RL_GET_LINK_ID v =? 0 then notify_locked (act a) else mret tt) = notify_locked m ∧
       logs m [ring_core side_a v a].
Proof.
  intros Hl. rewrite Hl. unfold ring_core.
  destruct RL_USE_MCMGR_IPC_ISR_HANDLER; (eexists; split; [reflexivity|apply logs_act]).
Qed.

Lemma m33_notify_logs (a a' : action) :
  RL_USE_MCMGR_IPC_ISR_HANDLER = false →
  ∃ m, (lock_platform;; (if RL_USE_MCMGR_IPC_ISR_HANDLER then act a';; unlock_platform
        else act a);; unlock_platform) = notify_locked m ∧ logs m [a].
Proof. intros ->. exists (act a). split; [reflexivity|apply logs_act]. Qed.

Lemma ipm_flag_logs v :
  DEVICE_DT_GET ≠ NULL → ∃ m, ipm_flag v = notify_locked m ∧ logs m [AIpmSend 0 (Z.shiftl 1 (RL_GET_Q_ID v))].
Proof.
  intros Hne. exists (RL_ASSERT true;; act (AIpmSend 0 (Z.shiftl 1 (RL_GET_Q_ID v)))). split; [|apply (logs_bind _ _ [] _ logs_ret (logs_act _))].
  unfold ipm_flag. by rewrite (proj2 (Z.eqb_neq _ _) Hne).
Qed.

(** The forms of the handlers. *)
Lemma mu_handler_dsb mu :
  reports ((on_flags mu 0 1;; dsb;; mret 0);; mret tt)
    (λ t, raised kMU_GenInt0Flag kMU_GenInt1Flag (MU_GetStatusFlags mu t)) 0.
Proof.
  intros s. destruct (reports_then _ _ _ _ _ (on_flags_reports mu 0 1 eq_refl) dsb_logs dsb_quiet s) as (t & Hrun & Ht).
  exists t. split; [|exact Ht]. revert Hrun. unfold mbind, M_bind.
  destruct (on_flags mu 0 1 s) as [[] s1| | |]; try done. by intros ->.
Qed.

Lemma mu_handler mu :
  reports ((on_flags mu 0 1;; mret 0);; mret tt)
    (λ t, raised kMU_GenInt0Flag kMU_GenInt1Flag (MU_GetStatusFlags mu t)) 0.
Proof. by apply reports_ret, on_flags_reports. Qed.

Lemma mailbox_handler_dsb cpu :
  reports (on_mailbox cpu;; dsb) (λ t, raised 1 2 (MAILBOX_GetValue cpu t)) 0.
Proof. eapply reports_then; [apply on_mailbox_reports|apply dsb_logs|apply dsb_quiet]. Qed.

Ltac sends := intros v Hv; first
  [apply flag_notify_logs|by apply m33_notify_logs|by apply mailbox_notify_logs|eexists; split; [reflexivity|apply logs_act]].
Ltac handles := first
  [apply mu_handler_dsb|apply mu_handler|by apply on_flags_reports|apply mailbox_handler_dsb|apply on_mailbox_reports
  |apply ipm_flags_reports].

Lemma two_core_rings side_a : Forall rings (two_core_ports side_a).
Proof. unfold two_core_ports; split_table; (apply rings_intro; [sends|destruct side_a; handles]). Qed.

Lemma ipm_link_logs v link :
  DEVICE_DT_GET ≠ NULL → RL_GET_LINK_ID v = link →
  ∃ m, (if RL_GET_LINK_ID v =? link then ipm_flag v else mret tt) = notify_locked m ∧
       logs m [AIpmSend 0 (Z.shiftl 1 (RL_GET_Q_ID v))].
Proof. intros Hne ->. rewrite Z.eqb_refl. by apply ipm_flag_logs. Qed.

Lemma zephyr_rings data : DEVICE_DT_GET ≠ NULL → Forall rings (zephyr_ports data).
Proof.
  intros Hne. unfold zephyr_ports; split_table;
    (apply rings_intro; [intros v Hv; first [by apply ipm_flag_logs|by apply ipm_link_logs]|apply ipm_flags_reports]).
Qed.

Fixpoint case_of (com : Z) (cases : list (Z * P unit)) : option (P unit) :=
  match cases with
  | [] => None
  | (com', m) :: cases' => if com =? com' then Some m else case_of com cases'
  end.

Lemma com_case_of v cases m : case_of (RL_GET_COM_ID v) cases = Some m → com_case v cases = m.
Proof.
  induction cases as [|[com m'] cases IH]; [done|]. cbn.
  destruct (RL_GET_COM_ID v =? com); [by intros [= ->]|by apply IH].
Qed.

Lemma com_notify_logs v com core a events cases :
  RL_GET_COM_ID v = com →
  case_of com ((λ '(com, core), (com, act (AEvent core (Z.land v 65535)))) <$> events) =
    Some (act (AEvent core (Z.land v 65535))) →
  case_of com ((λ '(com, k, m), (com, m)) <$> cases) = Some (act a) →
  ∃ m, com_notify v events cases = notify_locked m ∧
       logs m [if RL_USE_MCMGR_IPC_ISR_HANDLER then AEvent core (Z.land v 65535) else a].
Proof.
  intros <- He Hc. eexists. split; [reflexivity|].
  destruct RL_USE_MCMGR_IPC_ISR_HANDLER; [rewrite (com_case_of _ _ _ He)|rewrite (com_case_of _ _ _ Hc)]; apply logs_act.
Qed.

Lemma imxrt700_rings : Forall rings imxrt700_ports.
Proof.
  unfold imxrt700_ports; split_table; (apply rings_intro;
    [intros v Hv; eapply com_notify_logs; [exact Hv|reflexivity|reflexivity]|by apply on_flags_reports]).
Qed.

(** Zephyr on i.MX 6SX and i.MX 7D: [ipm_send] is repeated while the device is
    busy, for [k] turns within the bound of the driver; the message carries the
    queue, and the callback of the peer reports that queue. *)
Definition pending_sends (k : nat) (id data : Z) (t : list action) : list action := replicate k (AIpmSend id data) ++ t.

Lemma ipm_send_retries k : ∀ fuel id data s,
  (k < fuel)%nat → (∀ j, (j < k)%nat → ipm_send (pending_sends j id data (log s)) = EBUSY) →
  ipm_send (pending_sends k id data (log s)) ≠ EBUSY →
  ipm_send_while_busy fuel id data s = Ok tt (put_log (pending_sends (S k) id data) s).
Proof.
  induction k as [|k IH]; intros [|fuel] id data s Hk Hbusy Hfree; [lia| |lia|]; cbn [ipm_send_while_busy];
    unfold mbind, M_bind, get_state, act, modify.
  - assert (ipm_send (log s) ≠ EBUSY) as Hf by exact Hfree. by rewrite (proj2 (Z.eqb_neq _ _) Hf).
  - assert (ipm_send (log s) = EBUSY) as -> by exact (Hbusy 0%nat ltac:(lia)). rewrite Z.eqb_refl.
    assert (∀ j, pending_sends j id data (log (put_log (cons (AIpmSend id data)) s)) = pending_sends (S j) id data (log s)) as Hs.
    { intros j. unfold pending_sends. rewrite replicate_S_end, <- app_assoc. done. }
    rewrite IH; [|lia|intros j Hj; rewrite Hs; apply Hbusy; lia|by rewrite Hs].
    f_equal. destruct s. unfold put_log; cbn. f_equal. apply (Hs (S k)).
Qed.

Lemma zephyr_message_notification k v w s :
  ipm_handle s ≠ NULL → RL_GET_LINK_ID v = 0 → 0 ≤ w → (k < ipm_polls)%nat →
  let msg := u32 (Z.shiftl (RL_GET_Q_ID v) 16) in
  let t := ALock (platform_lock s) :: log s in
  (∀ j, (j < k)%nat → ipm_send (pending_sends j RPMSG_MU_CHANNEL msg t) = EBUSY) →
  ipm_send (pending_sends k RPMSG_MU_CHANNEL msg t) ≠ EBUSY →
  Forall (λ '(notify, callback),
    notify v s = Ok tt (put_log (λ _, AUnlock (platform_lock s) :: pending_sends (S k) RPMSG_MU_CHANNEL msg t) s) ∧
    callback RPMSG_MU_CHANNEL (u32 (Z.shiftl (RL_GET_Q_ID w) 16)) s = Ok tt (put_log (cons (AIsr (RL_GET_Q_ID w))) s))
    [(imx6sx_m4_ipm_platform_notify, imx6sx_m4_ipm_platform_ipm_callback);
     (imx7d_m4_ipm_platform_notify, imx7d_m4_ipm_platform_ipm_callback)].
Proof.
  intros Hh Hl Hw Hk msg t Hbusy Hfree.
  pose proof (ipm_send_retries k ipm_polls RPMSG_MU_CHANNEL msg (put_log (cons (ALock (platform_lock s))) s) Hk Hbusy Hfree) as Hrun.
  assert (RL_GET_Q_ID w = 0 ∨ RL_GET_Q_ID w = 1) as Hq.
  { rewrite RL_GET_Q_ID_val. pose proof (Z.mod_pos_bound w 2 ltac:(lia)). lia. }
  repeat constructor.
  1,3: unfold imx6sx_m4_ipm_platform_notify, imx7d_m4_ipm_platform_notify, imx6sx_m4_ipm_LINK_ID, imx7d_m4_ipm_LINK_ID;
    rewrite Hl, Z.eqb_refl; unfold lock_platform, unlock_platform, mbind, M_bind, get_state, act, modify;
    cbn [ipm_handle put_log]; rewrite (proj2 (Z.eqb_neq _ _) Hh); cbn [negb RL_ASSERT]; fold msg; unfold mret, M_ret;
    rewrite Hrun; by destruct s.
  all: unfold imx6sx_m4_ipm_platform_ipm_callback, imx7d_m4_ipm_platform_ipm_callback; by destruct Hq as [-> | ->].
Qed.


End notify.

(** Channel 1 of the Cortex-M33 of i.MX 8ULP has received the message for
    queue 1: vector 9. *)
Lemma message_notification_witness :
  ∃ s', @imx8ulp_m33_MU1_A_IRQHandler (c_board (λ _, (2 ^ 28, 65536))) boot_state = Ok tt s' ∧ isr_calls (log s') = [9].
Proof.
  set (bd := c_board (λ _, (2 ^ 28, 65536))).
  set (c := @one_of imx8ulp_m33_FUSION_DSP_COM_ID (@rx_full_flag bd) "MU1_MUA" (@imx8ulp_m33_MU1_A_IRQHandler bd)).
  destruct (@message_notification bd false
    {| mp_notify := @imx8ulp_m33_platform_notify;
       mp_channels := [@one_of imx8ulp_m33_A35_COM_ID (@rx_full_flag bd) "MU0_MUA" (@imx8ulp_m33_MU0_A_IRQHandler bd); c;
         @one_of imx8ulp_m33_HIFI4_COM_ID (@rx_full_flag bd) "MU2_MUA" (@imx8ulp_m33_MU2_A_IRQHandler bd)] |} c)
    as [_ Hrecv].
  - unfold message_platforms_table. do 16 right. left.
  - right. left.
  - destruct (Hrecv 1 boot_state) as (s' & Hrun & Hcalls).
    + cbn. lia.
    + split_and!; [vm_compute; discriminate|reflexivity|reflexivity].
    + exists s'. split; [exact Hrun|exact Hcalls].
Defined.

