(* ===== verification/ShmemConfig.v ===== *)
(** * The protected configuration of the K32W1 and MCXW families

    The application core writes its shared-memory configuration at the start of
    the shared memory, behind an identification word and followed by a CRC
    ([platform_set_static_shmem_config]); the radio core, whose firmware is
    fixed, takes its configuration from there when word and CRC are right, and a
    default otherwise ([platform_get_custom_shmem_config]).  The seven platform
    files have the same text (k32w1, kw43b43, kw45b41, kw47b42, mcxw70, mcxw71x,
    mcxw72x).  The structure has 32 bytes: word at 0, configuration at 12 (payload
    size at 12, count at 16, two bytes of padding, ring size at 20, alignment at
    24), CRC at 28, two bytes of padding; [st] is the address of the local copy,
    whose padding is whatever the stack held. *)

From S2P Require Import Prelude Memory Config Concrete.

#[local] Open Scope Z_scope.

(** ["SMEM_CONFIG:"] *)
Definition ShmemConfigIdentifier : list Z := [83; 77; 69; 77; 95; 67; 79; 78; 70; 73; 71; 58].
Definition POLGEN : Z := 4129.

(** The static variables. *)
Record shmem_static : Type := {
  first_time : bool;
  shmem_config : rpmsg_platform_shmem_config;
}.
Definition zero_shmem_config : rpmsg_platform_shmem_config := Build_rpmsg_platform_shmem_config 0 0 0 0.
Definition shmem_start : shmem_static := {| first_time := true; shmem_config := zero_shmem_config |}.
Definition default_shmem_config : rpmsg_platform_shmem_config :=
  {| buffer_payload_size := 496; buffer_count := 4; vring_size_cfg := 128; vring_align_cfg := 16 |}.

(** One turn of the inner loop, one of the outer one, and the outer loop. *)
Definition crc_bit (c : Z) : Z :=
  if negb (Z.land c 32768 =? 0) then Z.lxor (u16 (Z.shiftl c 1)) POLGEN else u16 (Z.shiftl c 1).
Definition crc_byte (c byte : Z) : Z := Nat.iter 8 crc_bit (Z.lxor c (Z.shiftl byte 8)).
Fixpoint crc_loop (len : nat) (m : mem) (ptr computedCRC : Z) : Z :=
  match len with
  | O => computedCRC
  | S len' => crc_loop len' m (ptr + 1) (crc_byte computedCRC (byte_at m ptr))
  end.

(** Over the configuration of the structure at [st]. *)
Definition platform_compute_crc_over_shmem_struct (m : mem) (st : Z) : Z := crc_loop 16 m (st + 12) 0.

Section shmem.
Context {cfg : Config}.

Definition platform_set_static_shmem_config (rpmsg_sh_mem_start st : Z) (m : mem) : mem :=
  let m := store_bytes m st ShmemConfigIdentifier in
  let m := store 4 m (st + 12) RL_BUFFER_PAYLOAD_SIZE in
  let m := store 2 m (st + 16) RL_BUFFER_COUNT in
  let m := store 4 m (st + 20) VRING_SIZE in
  let m := store 4 m (st + 24) VRING_ALIGN in
  let m := store 2 m (st + 28) (platform_compute_crc_over_shmem_struct m st) in
  mem_cpy m rpmsg_sh_mem_start st 32.

(** The status, the configuration, the static variables and the memory. *)
Definition platform_get_custom_shmem_config (rpmsg_sh_mem_start st link_id : Z) (s : shmem_static) (m : mem)
    : Z * rpmsg_platform_shmem_config * shmem_static * mem :=
  let m := mem_set m st 0 32 in
  let '(s, m) :=
    if negb (first_time s) then (s, m)
    else
      let m := mem_cpy m st rpmsg_sh_mem_start 32 in
      let s := {| first_time := false; shmem_config := default_shmem_config |} in
      if negb (bool_decide (load_bytes m st 12 = ShmemConfigIdentifier)) then (s, m)
      else if negb (platform_compute_crc_over_shmem_struct m st =? load 2 m (st + 28)) then (s, m)
      else
        ({| first_time := false;
            shmem_config := {| buffer_payload_size := load 4 m (st + 12); buffer_count := load 2 m (st + 16);
                               vring_size_cfg := load 4 m (st + 20); vring_align_cfg := load 4 m (st + 24) |} |}, m)
  in (0, shmem_config s, s, m).

End shmem.

(** The other six files. *)
Definition k32w1_platform_compute_crc_over_shmem_struct :=
  platform_compute_crc_over_shmem_struct.
Definition k32w1_platform_set_static_shmem_config :=
  @platform_set_static_shmem_config.
Definition k32w1_platform_get_custom_shmem_config :=
  platform_get_custom_shmem_config.
Definition kw43b43_platform_compute_crc_over_shmem_struct :=
  platform_compute_crc_over_shmem_struct.
Definition kw43b43_platform_set_static_shmem_config :=
  @platform_set_static_shmem_config.
Definition kw43b43_platform_get_custom_shmem_config :=
  platform_get_custom_shmem_config.
Definition kw47b42_platform_compute_crc_over_shmem_struct :=
  platform_compute_crc_over_shmem_struct.
Definition kw47b42_platform_set_static_shmem_config :=
  @platform_set_static_shmem_config.
Definition kw47b42_platform_get_custom_shmem_config :=
  platform_get_custom_shmem_config.
Definition mcxw70_platform_compute_crc_over_shmem_struct :=
  platform_compute_crc_over_shmem_struct.
Definition mcxw70_platform_set_static_shmem_config :=
  @platform_set_static_shmem_config.
Definition mcxw70_platform_get_custom_shmem_config :=
  platform_get_custom_shmem_config.
Definition mcxw71x_platform_compute_crc_over_shmem_struct :=
  platform_compute_crc_over_shmem_struct.
Definition mcxw71x_platform_set_static_shmem_config :=
  @platform_set_static_shmem_config.
Definition mcxw71x_platform_get_custom_shmem_config :=
  platform_get_custom_shmem_config.
Definition mcxw72x_platform_compute_crc_over_shmem_struct :=
  platform_compute_crc_over_shmem_struct.
Definition mcxw72x_platform_set_static_shmem_config :=
  @platform_set_static_shmem_config.
Definition mcxw72x_platform_get_custom_shmem_config :=
  platform_get_custom_shmem_config.

(** ** The code is linear and loses nothing *)

Definition half (c : Z) : Prop := 0 ≤ c < 65536.

Lemma crc_bit_eq c : half c → crc_bit c = Z.lxor (u16 (2 * c)) (if Z.testbit c 15 then POLGEN else 0).
Proof.
  intros Hc. unfold crc_bit. rewrite Z.shiftl_mul_pow2, Z.mul_comm by lia.
  change 32768 with (2 ^ 15).
  destruct (Z.eqb_spec (Z.land c (2 ^ 15)) 0) as [H0|H0]; cbn [negb].
  - apply (f_equal (λ z, Z.testbit z 15)) in H0.
    rewrite Z.land_spec, Z.pow2_bits_true, andb_true_r, Z.bits_0 in H0 by lia. by rewrite H0, Z.lxor_0_r.
  - destruct (Z.testbit c 15) eqn:Hb; [done|]. exfalso. apply H0.
    apply Z.bits_inj'. intros i Hi. rewrite Z.land_spec, Z.bits_0.
    destruct (decide (i = 15)) as [->|]; [by rewrite Hb|]. by rewrite Z.pow2_bits_false, andb_false_r by lia.
Qed.

Lemma u16_lxor a b : u16 (Z.lxor a b) = Z.lxor (u16 a) (u16 b).
Proof.
  unfold u16. change 65536 with (2 ^ 16). apply Z.bits_inj'. intros i Hi.
  rewrite Z.lxor_spec. destruct (Z.lt_ge_cases i 16).
  - by rewrite !Z.mod_pow2_bits_low, Z.lxor_spec by lia.
  - by rewrite !Z.mod_pow2_bits_high by lia.
Qed.

Lemma half_u16 z : half (u16 z).
Proof. apply Z.mod_pos_bound. lia. Qed.

Lemma half_small z : half z ↔ u16 z = z.
Proof. split; [apply Z.mod_small|intros <-; apply half_u16]. Qed.

Lemma half_lxor a b : half a → half b → half (Z.lxor a b).
Proof. rewrite !half_small. intros Ha Hb. by rewrite u16_lxor, Ha, Hb. Qed.

Lemma crc_bit_half c : half c → half (crc_bit c).
Proof. intros Hc. rewrite crc_bit_eq by done. apply half_lxor; [apply half_u16|]. by destruct (Z.testbit c 15). Qed.

Lemma crc_bit_lxor a b : half a → half b → crc_bit (Z.lxor a b) = Z.lxor (crc_bit a) (crc_bit b).
Proof.
  intros Ha Hb. rewrite !crc_bit_eq by auto using half_lxor.
  assert (2 * Z.lxor a b = Z.lxor (2 * a) (2 * b)) as ->.
  { rewrite !(Z.mul_comm 2). change 2 with (2 ^ 1). rewrite <- !Z.shiftl_mul_pow2 by lia. apply Z.shiftl_lxor. }
  rewrite u16_lxor, Z.lxor_spec.
  destruct (Z.testbit a 15), (Z.testbit b 15); cbn [xorb]; rewrite ?Z.lxor_0_r.
  - rewrite <- !Z.lxor_assoc, (Z.lxor_assoc (u16 (2 * a)) POLGEN), (Z.lxor_comm POLGEN (u16 (2 * b))).
    by rewrite <- Z.lxor_assoc, (Z.lxor_assoc _ POLGEN), Z.lxor_nilpotent, Z.lxor_0_r.
  - by rewrite !Z.lxor_assoc, (Z.lxor_comm (u16 (2 * b))).
  - by rewrite Z.lxor_assoc.
  - done.
Qed.

Lemma crc_bit_zero c : half c → crc_bit c = 0 → c = 0.
Proof.
  intros Hc. rewrite crc_bit_eq by done. intros H.
  destruct (Z.testbit c 15) eqn:Hb.
  - apply (f_equal (λ z, Z.testbit z 0)) in H. rewrite Z.lxor_spec in H. unfold u16 in H.
    change 65536 with (2 ^ 16) in H. rewrite Z.mod_pow2_bits_low, Z.testbit_even_0 in H by lia. done.
  - rewrite Z.lxor_0_r in H.
    assert (c < 32768); [|unfold half in Hc; rewrite (proj1 (half_small (2 * c))) in H by (unfold half; lia); lia].
    destruct (Z.lt_ge_cases c 32768) as [?|Hge]; [done|]. exfalso.
    assert (Z.testbit c 15 = true); [|congruence]. apply Z.testbit_true; [lia|].
    change (2 ^ 15) with 32768. unfold half in Hc.
    assert (c / 32768 = 1) as -> by (symmetry; apply Z.div_unique with (c - 32768); lia). done.
Qed.

(** Eight turns: linear, injective, and a shift on a byte. *)
Lemma crc_bits_half n c : half c → half (Nat.iter n crc_bit c).
Proof. intros Hc. induction n; simpl; auto using crc_bit_half. Qed.

Lemma crc_bits_lxor n a b :
  half a → half b → Nat.iter n crc_bit (Z.lxor a b) = Z.lxor (Nat.iter n crc_bit a) (Nat.iter n crc_bit b).
Proof. intros Ha Hb. induction n as [|n IH]; simpl; [done|]. by rewrite IH, crc_bit_lxor by auto using crc_bits_half. Qed.

Lemma crc_bits_zero n c : half c → Nat.iter n crc_bit c = 0 → c = 0.
Proof.
  intros Hc. induction n as [|n IH]; simpl; [done|]. intros H. apply IH, crc_bit_zero; auto using crc_bits_half.
Qed.

Lemma crc_bits_inj n a b : half a → half b → Nat.iter n crc_bit a = Nat.iter n crc_bit b → a = b.
Proof.
  intros Ha Hb H. apply Z.lxor_eq, (crc_bits_zero n); [auto using half_lxor|].
  by rewrite crc_bits_lxor, H, Z.lxor_nilpotent.
Qed.

Lemma crc_bits_byte n b : 0 ≤ b < 256 → (n ≤ 8)%nat → Nat.iter n crc_bit b = Z.shiftl b (Z.of_nat n).
Proof.
  intros Hb. induction n as [|n IH]; intros Hn; [by rewrite Z.shiftl_0_r|]. simpl. rewrite IH by lia.
  rewrite !Z.shiftl_mul_pow2 by lia. rewrite Nat2Z.inj_succ, Z.pow_succ_r by lia.
  pose proof (Z.pow_le_mono_r 2 (Z.of_nat n) 7 ltac:(lia) ltac:(lia)). pose proof (Z.pow_pos_nonneg 2 (Z.of_nat n)).
  assert (0 ≤ b * 2 ^ Z.of_nat n < 32768) by nia.
  rewrite crc_bit_eq by (unfold half; lia). rewrite (Z.bits_above_log2 _ 15); [|lia|].
  - rewrite Z.lxor_0_r, (proj1 (half_small _)) by (unfold half; lia). lia.
  - destruct (decide (b * 2 ^ Z.of_nat n = 0)) as [->|]; [done|]. apply Z.log2_lt_pow2; lia.
Qed.

Lemma half_byte b : 0 ≤ b < 256 → half (Z.shiftl b 8).
Proof. unfold half. rewrite Z.shiftl_mul_pow2 by lia. lia. Qed.

(** A byte moves the code; two bytes together are taken in as one 16-bit word. *)
Lemma crc_byte_inj c c' b : half c → half c' → 0 ≤ b < 256 → crc_byte c b = crc_byte c' b → c = c'.
Proof.
  intros Hc Hc' Hb H. apply crc_bits_inj in H; [|by auto using half_lxor, half_byte..].
  apply (f_equal (λ z, Z.lxor z (Z.shiftl b 8))) in H.
  by rewrite !Z.lxor_assoc, Z.lxor_nilpotent, !Z.lxor_0_r in H.
Qed.

Lemma crc_byte_half c b : half c → 0 ≤ b < 256 → half (crc_byte c b).
Proof. intros. apply crc_bits_half. auto using half_lxor, half_byte. Qed.

Lemma crc_two_bytes c x y :
  half c → 0 ≤ x < 256 → 0 ≤ y < 256 →
  crc_byte (crc_byte c x) y = Nat.iter 16 crc_bit (Z.lxor c (Z.lxor (Z.shiftl x 8) y)).
Proof.
  intros Hc Hx Hy. unfold crc_byte at 1. change (Z.shiftl y 8) with (Z.shiftl y (Z.of_nat 8)).
  rewrite <- (crc_bits_byte 8 y) by lia. unfold crc_byte.
  assert (half y) by (unfold half; lia).
  rewrite <- crc_bits_lxor by auto using half_lxor, half_byte.
  by rewrite <- Nat.iter_add, !Z.lxor_assoc.
Qed.

Lemma crc_two_bytes_inj c x y x' y' :
  half c → 0 ≤ x < 256 → 0 ≤ y < 256 → 0 ≤ x' < 256 → 0 ≤ y' < 256 →
  crc_byte (crc_byte c x) y = crc_byte (crc_byte c x') y' → x = x' ∧ y = y'.
Proof.
  intros Hc Hx Hy Hx' Hy'. rewrite !crc_two_bytes by done. intros H.
  assert (half y ∧ half y') as [? ?] by (unfold half; lia).
  apply crc_bits_inj in H; [|by auto 6 using half_lxor, half_byte..].
  apply (f_equal (Z.lxor c)) in H. rewrite <- !Z.lxor_assoc, !Z.lxor_nilpotent, !Z.lxor_0_l in H.
  assert (∀ u v, 0 ≤ v < 256 → Z.lxor (Z.shiftl u 8) v = 256 * u + v) as Hsum.
  { intros u v Hv. rewrite Z.shiftl_mul_pow2 by lia. rewrite <- Z.add_nocarry_lxor; [lia|].
    apply Z.bits_inj'. intros i Hi. rewrite Z.land_spec, Z.bits_0.
    destruct (Z.lt_ge_cases i 8); [by rewrite Z.mul_pow2_bits_low by lia|].
    rewrite <- (Z.mod_small v (2 ^ 8)), Z.mod_pow2_bits_high, andb_false_r by lia. done. }
  rewrite !Hsum in H by done. lia.
Qed.

(** ** The loop *)

Lemma crc_loop_app a n m p c :
  crc_loop (a + n) m p c = crc_loop n m (p + Z.of_nat a) (crc_loop a m p c).
Proof.
  revert p c. induction a as [|a IH]; intros p c; [by rewrite Z.add_0_r|]. cbn -[Z.add Z.of_nat]. rewrite IH.
  f_equal. lia.
Qed.

Lemma crc_loop_shift n m m' p q c :
  (∀ j, 0 ≤ j < Z.of_nat n → byte_at m (p + j) = byte_at m' (q + j)) → crc_loop n m p c = crc_loop n m' q c.
Proof.
  revert p q c. induction n as [|n IH]; intros p q c Hj; [done|]. cbn -[Z.add Z.of_nat].
  pose proof (Hj 0 ltac:(lia)) as H0. rewrite !Z.add_0_r in H0. rewrite H0.
  apply IH. intros j Hr. rewrite <- !Z.add_assoc. apply Hj. lia.
Qed.

Lemma crc_loop_half n m p c : half c → half (crc_loop n m p c).
Proof. revert p c. induction n as [|n IH]; intros p c Hc; [done|]. apply IH, crc_byte_half; auto using byte_at_range. Qed.

Lemma crc_loop_inj n m p c c' : half c → half c' → crc_loop n m p c = crc_loop n m p c' → c = c'.
Proof.
  revert p c c'. induction n as [|n IH]; intros p c c' Hc Hc' H; [done|].
  pose proof (byte_at_range m p). apply IH, crc_byte_inj in H; auto using crc_byte_half.
Qed.

(** A change confined to two adjacent bytes changes the code. *)
Lemma crc_loop_detects n m m' p q :
  p ≤ q → q + 1 < p + Z.of_nat n →
  (∀ a, p ≤ a < p + Z.of_nat n → a ≠ q → a ≠ q + 1 → byte_at m a = byte_at m' a) →
  crc_loop n m p 0 = crc_loop n m' p 0 → byte_at m q = byte_at m' q ∧ byte_at m (q + 1) = byte_at m' (q + 1).
Proof.
  intros Hpq Hqn Hag. set (k := Z.to_nat (q - p)).
  replace n with (k + (2 + (n - k - 2)))%nat by lia.
  rewrite !(crc_loop_app k), !(crc_loop_app 2). replace (p + Z.of_nat k) with q by lia.
  rewrite (crc_loop_shift k m m' p p) by (intros; apply Hag; lia).
  rewrite (crc_loop_shift (n - k - 2) m m' (q + Z.of_nat 2) (q + Z.of_nat 2)) by (intros; apply Hag; lia).
  assert (half (crc_loop k m' p 0)) as Hc by (apply crc_loop_half; unfold half; lia). cbn [crc_loop].
  pose proof (byte_at_range m q). pose proof (byte_at_range m (q + 1)).
  pose proof (byte_at_range m' q). pose proof (byte_at_range m' (q + 1)). intros Hcrc.
  apply crc_loop_inj in Hcrc; [|by auto using crc_byte_half..].
  by apply crc_two_bytes_inj in Hcrc.
Qed.

(** ** What is in the area *)

(** The configuration, if word and code are right. *)
Definition area_config (m : mem) (sh : Z) : option rpmsg_platform_shmem_config :=
  if bool_decide (load_bytes m sh 12 = ShmemConfigIdentifier) && (crc_loop 16 m (sh + 12) 0 =? load 2 m (sh + 28))
  then Some {| buffer_payload_size := load 4 m (sh + 12); buffer_count := load 2 m (sh + 16);
               vring_size_cfg := load 4 m (sh + 20); vring_align_cfg := load 4 m (sh + 24) |}
  else None.

Definition apart (st sh : Z) : Prop := st + 32 ≤ sh ∨ sh + 32 ≤ st.

Lemma area_config_shift m m' p q :
  (∀ j, 0 ≤ j < 32 → byte_at m (p + j) = byte_at m' (q + j)) → area_config m p = area_config m' q.
Proof.
  intros Hj. unfold area_config.
  assert (∀ n k, 0 ≤ k → k + Z.of_nat n ≤ 32 → load n m (p + k) = load n m' (q + k)) as Hl.
  { intros n k Hk Hn. apply load_shift. intros j Hr. rewrite <- !Z.add_assoc. apply Hj. lia. }
  rewrite !Hl by lia.
  rewrite (crc_loop_shift 16 m m' (p + 12) (q + 12)) by (intros; rewrite <- !Z.add_assoc; apply Hj; lia).
  assert (load_bytes m p 12 = load_bytes m' q 12) as -> by (apply load_bytes_shift; intros; apply Hj; lia). done.
Qed.

Lemma byte_at_mem_cpy m dst src n j :
  0 ≤ j < n → byte_at (mem_cpy m dst src n) (dst + j) = byte_at m (src + j).
Proof.
  intros Hj. pose proof (load_bytes_mem_cpy m dst src n) as H. rewrite load_bytes_shift in H. apply H. lia.
Qed.

Section correct.
Context {cfg : Config}.

(** The first call decides by the area, whatever happened before. *)
Lemma get_first sh st lnk s m :
  first_time s = true → apart st sh →
  ∃ m', platform_get_custom_shmem_config sh st lnk s m =
    (0, default default_shmem_config (area_config m sh),
     {| first_time := false; shmem_config := default default_shmem_config (area_config m sh) |}, m') ∧
    frames st (st + 32) m m'.
Proof.
  intros Hf Hap. unfold platform_get_custom_shmem_config. rewrite Hf. cbn [negb].
  set (m1 := mem_set m st 0 32). set (m2 := mem_cpy m1 st sh 32).
  assert (frames st (st + 32) m m2) as Hfr.
  { eapply frames_trans; [apply mem_set_frames; lia|]. by apply mem_cpy_frames. }
  assert (∀ j, 0 ≤ j < 32 → byte_at m2 (st + j) = byte_at m (sh + j)) as Hj.
  { intros j Hr. unfold m2. rewrite byte_at_mem_cpy by done. unfold m1.
    rewrite byte_at_mem_set, decide_False by (destruct Hap; lia). done. }
  assert (area_config m sh = area_config m2 st) as -> by (symmetry; by apply area_config_shift).
  unfold area_config, platform_compute_crc_over_shmem_struct.
  destruct (bool_decide (load_bytes m2 st 12 = _)); cbn [negb andb]; [|by exists m2].
  destruct (_ =? _); cbn [negb]; by exists m2.
Qed.

(** Later calls repeat the answer. *)
Lemma get_later sh st lnk s m :
  first_time s = false →
  platform_get_custom_shmem_config sh st lnk s m = (0, shmem_config s, s, mem_set m st 0 32).
Proof. intros Hf. unfold platform_get_custom_shmem_config. by rewrite Hf. Qed.

Context {cok : ConfigOk cfg}.

(** What the application core publishes. *)
Definition own_config : rpmsg_platform_shmem_config :=
  {| buffer_payload_size := RL_BUFFER_PAYLOAD_SIZE; buffer_count := RL_BUFFER_COUNT;
     vring_size_cfg := VRING_SIZE; vring_align_cfg := VRING_ALIGN |}.

Lemma set_area sh st m :
  0 ≤ VRING_SIZE < 4294967296 →
  area_config (platform_set_static_shmem_config sh st m) sh = Some own_config.
Proof.
  intros Hs. unfold platform_set_static_shmem_config.
  set (m1 := store_bytes m st ShmemConfigIdentifier). set (m2 := store 4 m1 (st + 12) RL_BUFFER_PAYLOAD_SIZE).
  set (m3 := store 2 m2 (st + 16) RL_BUFFER_COUNT). set (m4 := store 4 m3 (st + 20) VRING_SIZE).
  set (m5 := store 4 m4 (st + 24) VRING_ALIGN). set (c := platform_compute_crc_over_shmem_struct m5 st).
  set (m6 := store 2 m5 (st + 28) c).
  rewrite (area_config_shift _ m6 sh st) by (intros; by apply byte_at_mem_cpy).
  assert (frames (st + 12) (st + 30) m1 m6) as Hfr.
  { eapply (frames_trans _ _ _ m5); [|eapply frames_weaken; [apply store_frames|lia|lia]].
    eapply (frames_trans _ _ _ m4); [|eapply frames_weaken; [apply store_frames|lia|lia]].
    eapply (frames_trans _ _ _ m3); [|eapply frames_weaken; [apply store_frames|lia|lia]].
    eapply (frames_trans _ _ _ m2); eapply frames_weaken; [apply store_frames|lia|lia|apply store_frames|lia|lia]. }
  unfold area_config.
  assert (load_bytes m6 st 12 = ShmemConfigIdentifier) as ->.
  { rewrite (load_bytes_frames 12 _ _ _ _ _ Hfr) by lia. apply (load_store_bytes m st ShmemConfigIdentifier).
    repeat constructor; lia. }
  assert (half c) as Hc by (apply crc_loop_half; unfold half; lia).
  assert (load 2 m6 (st + 28) = c) as -> by (unfold m6; rewrite load_store_same; by apply Z.mod_small).
  assert (crc_loop 16 m6 (st + 12) 0 = c) as ->.
  { apply crc_loop_shift. intros j Hj. apply (store_frames 2 m5 (st + 28) c). lia. }
  rewrite bool_decide_eq_true_2, Z.eqb_refl by done. cbn [andb]. do 2 f_equal.
  - unfold m6, m5, m4, m3, m2. rewrite !load_store_ne, load_store_same by lia.
    pose proof cfg_payload. by apply Z.mod_small; lia.
  - unfold m6, m5, m4, m3. rewrite !load_store_ne, load_store_same by lia.
    pose proof cfg_count_max. pose proof (pow2_pos _ cfg_count_pow2). by apply Z.mod_small; lia.
  - unfold m6, m5, m4. rewrite !load_store_ne, load_store_same by lia. by apply Z.mod_small; lia.
  - unfold m6, m5. rewrite !load_store_ne, load_store_same by lia.
    pose proof cfg_align_max. by apply Z.mod_small; lia.
Qed.

End correct.

(** ** Properties *)

(** C35.  What the application core publishes is what the radio core uses, for
    every configuration of the former: on the first call, as long as the area is
    as it was written, and on every later one, whatever has become of the area;
    the calls write nothing but their local copy. *)
Theorem shmem_config_roundtrip {cfg : Config} {cok : ConfigOk cfg} sh st_app st lnk m m1 s :
  0 ≤ VRING_SIZE < 4294967296 → apart st sh → first_time s = true →
  agree_on sh (sh + 32) m1 (platform_set_static_shmem_config sh st_app m) →
  ∃ s' m2, platform_get_custom_shmem_config sh st lnk s m1 = (0, own_config, s', m2) ∧
    frames st (st + 32) m1 m2 ∧
    ∀ lnk' st' m3, ∃ m4, platform_get_custom_shmem_config sh st' lnk' s' m3 = (0, own_config, s', m4).
Proof.
  intros Hs Hap Hf Hag. destruct (get_first sh st lnk s m1 Hf Hap) as (m2 & Hget & Hfr).
  rewrite (area_config_shift m1 (platform_set_static_shmem_config sh st_app m) sh sh), set_area in Hget
    by (done || intros; apply Hag; lia).
  eexists _, m2. split; [exact Hget|]. split; [done|].
  intros lnk' st' m3. eexists. by apply get_later.
Qed.

Lemma load2_bytes m m' sh j : load 2 m (sh + 28) = load 2 m' (sh + 28) → j = 28 ∨ j = 28 + 1 → byte_at m' (sh + j) = byte_at m (sh + j).
Proof.
  intros H2 Hj. rewrite !load_S in H2. unfold load in H2. replace (sh + 28 + 1) with (sh + 29) in H2 by lia.
  pose proof (byte_at_range m (sh + 28)). pose proof (byte_at_range m' (sh + 28)).
  pose proof (byte_at_range m (sh + 29)). pose proof (byte_at_range m' (sh + 29)).
  change (28 + 1) with 29 in Hj. destruct Hj; subst j; lia.
Qed.

(** A change in the identification word. *)
Lemma area_word m0 m1 sh c :
  area_config m0 sh = Some c → (∃ j, 0 ≤ j < 12 ∧ byte_at m1 (sh + j) ≠ byte_at m0 (sh + j)) → area_config m1 sh = None.
Proof.
  intros H0 (j & Hj & Hne). unfold area_config in *.
  destruct (bool_decide_reflect (load_bytes m0 sh 12 = ShmemConfigIdentifier)) as [Hid|]; [|done].
  destruct (bool_decide_reflect (load_bytes m1 sh 12 = ShmemConfigIdentifier)) as [Hid1|]; [|done]. exfalso.
  rewrite <- Hid in Hid1. apply Hne. apply (proj1 (load_bytes_shift _ _ _ _ _) Hid1). lia.
Qed.

(** An area that differs from an accepted one in one or two adjacent bytes of
    one of its three parts is not accepted. *)
Lemma area_damaged m0 m1 sh q c :
  area_config m0 sh = Some c →
  0 ≤ q < 11 ∨ 12 ≤ q < 27 ∨ q = 28 →
  (∀ j, 0 ≤ j < 30 → j ≠ q → j ≠ q + 1 → byte_at m1 (sh + j) = byte_at m0 (sh + j)) →
  (∃ j, (j = q ∨ j = q + 1) ∧ byte_at m1 (sh + j) ≠ byte_at m0 (sh + j)) →
  area_config m1 sh = None.
Proof.
  intros H0 Hq Hag (j & Hj & Hne). unfold area_config in *.
  destruct (bool_decide_reflect (load_bytes m0 sh 12 = ShmemConfigIdentifier)) as [Hid|]; [|done].
  destruct (Z.eqb_spec (crc_loop 16 m0 (sh + 12) 0) (load 2 m0 (sh + 28))) as [Hcrc|]; [|done]. clear H0.
  destruct (bool_decide_reflect (load_bytes m1 sh 12 = ShmemConfigIdentifier)) as [Hid1|]; [|done].
  destruct (Z.eqb_spec (crc_loop 16 m1 (sh + 12) 0) (load 2 m1 (sh + 28))) as [Hcrc1|]; [|done]. exfalso.
  destruct Hq as [Hq|[Hq| ->]].
  - rewrite <- Hid in Hid1. apply Hne. apply (proj1 (load_bytes_shift _ _ _ _ _) Hid1). lia.
  - assert (load 2 m1 (sh + 28) = load 2 m0 (sh + 28)) as Hl.
    { apply load_shift. intros i Hi. rewrite <- !Z.add_assoc. apply Hag; lia. }
    destruct (crc_loop_detects 16 m1 m0 (sh + 12) (sh + q)) as [Ha Hb]; [lia|lia| |congruence|].
    + intros a Ha ??. replace a with (sh + (a - sh)) by lia. apply Hag; lia.
    + replace (sh + q + 1) with (sh + (q + 1)) in Hb by lia. destruct Hj; subst j; congruence.
  - assert (crc_loop 16 m1 (sh + 12) 0 = crc_loop 16 m0 (sh + 12) 0) as Hl.
    { apply crc_loop_shift. intros i Hi. rewrite <- !Z.add_assoc. apply Hag; lia. }
    rewrite Hl, Hcrc in Hcrc1. apply Hne, load2_bytes; [done|lia].
Qed.

(** Damage within two adjacent bytes, wherever it is, except in the last byte of
    the configuration and the first one of the code together. *)
Lemma area_damaged_anywhere m0 m1 sh q c :
  area_config m0 sh = Some c → 0 ≤ q →
  (∀ j, 0 ≤ j < 30 → j ≠ q → j ≠ q + 1 → byte_at m1 (sh + j) = byte_at m0 (sh + j)) →
  (∃ j, j < 30 ∧ (j = q ∨ j = q + 1) ∧ byte_at m1 (sh + j) ≠ byte_at m0 (sh + j)) →
  (q = 27 → byte_at m1 (sh + 27) = byte_at m0 (sh + 27) ∨ byte_at m1 (sh + 28) = byte_at m0 (sh + 28)) →
  area_config m1 sh = None.
Proof.
  intros H0 Hq Hag (j & Hj & Hjq & Hne) H27.
  (* Seen from another pair. *)
  assert (∀ q', 0 ≤ q' < 11 ∨ 12 ≤ q' < 27 ∨ q' = 28 → (j = q' ∨ j = q' + 1) →
    (∀ k, (k = q ∨ k = q + 1) → k < 30 → k ≠ q' → k ≠ q' + 1 → byte_at m1 (sh + k) = byte_at m0 (sh + k)) →
    area_config m1 sh = None) as Hvia.
  { intros q' Hr Hjq' Hk. apply (area_damaged m0 m1 sh q' c H0 Hr); [|by exists j].
    intros k Hkr ??. destruct (decide (k = q)), (decide (k = q + 1)); try (apply Hk; lia). by apply Hag. }
  destruct (decide (q = 11)) as [->|]; [|destruct (decide (q = 27)) as [->|]].
  - destruct (decide (byte_at m1 (sh + 11) = byte_at m0 (sh + 11))) as [He|He].
    + apply (Hvia 12); [lia|destruct Hjq as [->|]; [done|lia]|]. intros k [->| ->] ???; [done|lia].
    + apply (area_word m0 m1 sh c H0). exists 11. by split; [lia|].
  - destruct (H27 eq_refl) as [He|He].
    + apply (Hvia 28); [lia|destruct Hjq as [->|]; [done|lia]|]. intros k [->| ->] ???; [done|lia].
    + apply (Hvia 26); [lia|destruct Hjq as [| ->]; [lia|done]|]. intros k [->| ->] ???; [lia|done].
  - destruct (decide (q = 29)) as [->|]; [apply (Hvia 28); lia|]. apply (Hvia q); lia.
Qed.

(** ** Damage that is not noticed *)

Lemma land_low x k : 0 ≤ x < 256 → Z.land x (256 * k) = 0.
Proof.
  intros Hx. replace (256 * k) with (Z.shiftl k 8) by (rewrite Z.shiftl_mul_pow2; lia).
  apply Z.bits_inj'. intros i Hi. rewrite Z.land_spec, Z.bits_0. destruct (Z.lt_ge_cases i 8).
  - rewrite (Z.shiftl_spec_low k 8 i) by done. apply andb_false_r.
  - rewrite <- (Z.mod_small x (2 ^ 8)), Z.mod_pow2_bits_high by lia. done.
Qed.

Lemma lxor_byte x y : 0 ≤ x < 256 → 0 ≤ y < 256 → 0 ≤ Z.lxor x y < 256.
Proof.
  intros Hx Hy. assert (0 ≤ Z.lxor x y) by (apply Z.lxor_nonneg; lia). split; [done|].
  rewrite <- (Z.mod_small x (2 ^ 8)), <- (Z.mod_small y (2 ^ 8)) by lia.
  assert (Z.lxor (x mod 2 ^ 8) (y mod 2 ^ 8) = Z.lxor x y mod 2 ^ 8) as ->.
  { apply Z.bits_inj'. intros i Hi. rewrite Z.lxor_spec. destruct (Z.lt_ge_cases i 8).
    - by rewrite !Z.mod_pow2_bits_low, Z.lxor_spec by lia.
    - by rewrite !Z.mod_pow2_bits_high by lia. }
  by apply Z.mod_pos_bound.
Qed.

Lemma lxor_low x y k : 0 ≤ x < 256 → 0 ≤ y < 256 → Z.lxor (x + 256 * k) y = Z.lxor x y + 256 * k.
Proof.
  intros Hx Hy. rewrite (Z.add_nocarry_lxor x) by (by apply land_low).
  rewrite (Z.add_nocarry_lxor (Z.lxor x y)) by (apply land_low; by apply lxor_byte).
  by rewrite !Z.lxor_assoc, (Z.lxor_comm (256 * k)).
Qed.

(** The pattern [0x89] in the last byte of the configuration changes the code by
    [0xA1], which fits into its first byte. *)
Lemma crc_byte_last c b : half c → 0 ≤ b < 256 → crc_byte c (Z.lxor b 137) = Z.lxor (crc_byte c b) 161.
Proof.
  intros Hc Hb. unfold crc_byte. rewrite Z.shiftl_lxor, <- Z.lxor_assoc, crc_bits_lxor; [|apply half_lxor; [done|by apply half_byte]|by apply half_byte].
  by f_equal.
Qed.

Lemma area_unnoticed m0 m1 sh c :
  area_config m0 sh = Some c →
  (∀ j, 0 ≤ j < 30 → j ≠ 27 → j ≠ 28 → byte_at m1 (sh + j) = byte_at m0 (sh + j)) →
  byte_at m1 (sh + 27) = Z.lxor (byte_at m0 (sh + 27)) 137 →
  byte_at m1 (sh + 28) = Z.lxor (byte_at m0 (sh + 28)) 161 →
  ∃ a, a ≠ vring_align_cfg c ∧
    area_config m1 sh = Some {| buffer_payload_size := buffer_payload_size c; buffer_count := buffer_count c;
                                vring_size_cfg := vring_size_cfg c; vring_align_cfg := a |}.
Proof.
  intros H0 Hag H27 H28. unfold area_config in *.
  destruct (bool_decide_reflect (load_bytes m0 sh 12 = ShmemConfigIdentifier)) as [Hid|]; [|done].
  destruct (Z.eqb_spec (crc_loop 16 m0 (sh + 12) 0) (load 2 m0 (sh + 28))) as [Hcrc|]; [|done].
  cbn in H0. injection H0 as <-. cbn [buffer_payload_size buffer_count vring_size_cfg vring_align_cfg].
  assert (∀ n k, 0 ≤ k → k + Z.of_nat n ≤ 27 → load n m1 (sh + k) = load n m0 (sh + k)) as Hl.
  { intros n k Hk Hn. apply load_shift. intros j Hr. rewrite <- !Z.add_assoc. apply Hag; lia. }
  assert (load_bytes m1 sh 12 = load_bytes m0 sh 12) as -> by (apply load_bytes_shift; intros; apply Hag; lia).
  assert (load 2 m1 (sh + 28) = Z.lxor (load 2 m0 (sh + 28)) 161) as ->.
  { rewrite !load_S. unfold load. rewrite H28, lxor_low by (apply byte_at_range || lia).
    replace (sh + 28 + 1) with (sh + 29) by lia. rewrite (Hag 29) by lia. done. }
  assert (crc_loop 16 m1 (sh + 12) 0 = Z.lxor (crc_loop 16 m0 (sh + 12) 0) 161) as ->.
  { rewrite !(crc_loop_app 15 1). rewrite (crc_loop_shift 15 m1 m0 (sh + 12) (sh + 12)) by (intros; rewrite <- !Z.add_assoc; apply Hag; lia).
    assert (half (crc_loop 15 m0 (sh + 12) 0)) as Hc by (apply crc_loop_half; unfold half; lia).
    revert Hc. generalize (crc_loop 15 m0 (sh + 12) 0). intros c15 Hc. cbn [crc_loop].
    replace (sh + 12 + Z.of_nat 15) with (sh + 27) by lia. rewrite H27. apply crc_byte_last; [done|apply byte_at_range]. }
  rewrite Hcrc, Z.eqb_refl, bool_decide_eq_true_2 by done. cbn [andb]. rewrite !Hl by lia.
  eexists. split; [|reflexivity]. rewrite !load_S. unfold load.
  replace (sh + 24 + 1 + 1 + 1) with (sh + 27) by lia. rewrite H27.
  replace (sh + 24 + 1) with (sh + 25) by lia. replace (sh + 25 + 1) with (sh + 26) by lia. rewrite !Hag by lia.
  intros Heq. assert (Z.lxor (byte_at m0 (sh + 27)) 137 = byte_at m0 (sh + 27)) as Hx by lia.
  apply (f_equal (Z.lxor (byte_at m0 (sh + 27)))) in Hx. rewrite <- Z.lxor_assoc, Z.lxor_nilpotent in Hx. done.
Qed.

(** C36.  A published configuration in which one byte or two adjacent bytes have
    changed is never used and the radio core takes the default, with one
    exception: the last byte of the alignment and the first byte of the code,
    which come one behind the other, both changed.  There the code does not
    protect: the patterns [0x89] and [0xA1] go unnoticed on every configuration,
    and a wrong alignment is used. *)
Theorem damaged_config_rejected {cfg : Config} {cok : ConfigOk cfg} sh st_app st lnk m m1 s q :
  0 ≤ VRING_SIZE < 4294967296 → apart st sh → first_time s = true → 0 ≤ q →
  let m0 := platform_set_static_shmem_config sh st_app m in
  (∀ j, 0 ≤ j < 30 → j ≠ q → j ≠ q + 1 → byte_at m1 (sh + j) = byte_at m0 (sh + j)) →
  ((∃ j, j < 30 ∧ (j = q ∨ j = q + 1) ∧ byte_at m1 (sh + j) ≠ byte_at m0 (sh + j)) →
   (q = 27 → byte_at m1 (sh + 27) = byte_at m0 (sh + 27) ∨ byte_at m1 (sh + 28) = byte_at m0 (sh + 28)) →
   ∃ m2, platform_get_custom_shmem_config sh st lnk s m1 =
     (0, default_shmem_config, {| first_time := false; shmem_config := default_shmem_config |}, m2)) ∧
  (q = 27 → byte_at m1 (sh + 27) = Z.lxor (byte_at m0 (sh + 27)) 137 →
   byte_at m1 (sh + 28) = Z.lxor (byte_at m0 (sh + 28)) 161 →
   ∃ a m2, a ≠ VRING_ALIGN ∧ platform_get_custom_shmem_config sh st lnk s m1 =
     (0, {| buffer_payload_size := RL_BUFFER_PAYLOAD_SIZE; buffer_count := RL_BUFFER_COUNT;
            vring_size_cfg := VRING_SIZE; vring_align_cfg := a |},
      {| first_time := false; shmem_config :=
           {| buffer_payload_size := RL_BUFFER_PAYLOAD_SIZE; buffer_count := RL_BUFFER_COUNT;
              vring_size_cfg := VRING_SIZE; vring_align_cfg := a |} |}, m2)).
Proof.
  intros Hs Hap Hf Hq m0 Hag. destruct (get_first sh st lnk s m1 Hf Hap) as (m2 & Hget & _).
  pose proof (set_area sh st_app m Hs : area_config m0 sh = _) as Hset. split.
  - intros Hne H27. rewrite (area_damaged_anywhere m0 m1 sh q _ Hset Hq Hag Hne H27) in Hget. by exists m2.
  - intros -> H27 H28. destruct (area_unnoticed m0 m1 sh _ Hset Hag H27 H28) as (a & Ha & Hc).
    rewrite Hc in Hget. by exists a, m2.
Qed.

(** ** On a concrete memory *)

Lemma c_shmem_apart : apart 100 200.
Proof. left. lia. Qed.

Lemma shmem_config_roundtrip_witness :
  ∃ s' m2, platform_get_custom_shmem_config 200 100 0 shmem_start
    (@platform_set_static_shmem_config default_config 200 300 ∅) = (0, @own_config default_config, s', m2).
Proof.
  destruct (@shmem_config_roundtrip default_config default_ok 200 300 100 0 ∅
    (@platform_set_static_shmem_config default_config 200 300 ∅) shmem_start) as (s' & m2 & H & _);
    [by vm_compute; intuition congruence|apply c_shmem_apart|done|done|]. by exists s', m2.
Defined.

(** One bit of the payload size is flipped; the undetected pattern. *)
Definition c_published : mem := @platform_set_static_shmem_config default_config 200 300 ∅.
Definition c_damaged : mem := put_byte c_published 212 241.
Definition c_unnoticed : mem := put_byte (put_byte c_published 227 137) 228 (Z.lxor (byte_at c_published 228) 161).

Lemma damaged_config_rejected_witness :
  (∃ m2, platform_get_custom_shmem_config 200 100 0 shmem_start c_damaged =
    (0, default_shmem_config, {| first_time := false; shmem_config := default_shmem_config |}, m2)) ∧
  ∃ a m2 c s, a ≠ @VRING_ALIGN default_config ∧ vring_align_cfg c = a ∧
    platform_get_custom_shmem_config 200 100 0 shmem_start c_unnoticed = (0, c, s, m2).
Proof.
  split.
  - destruct (@damaged_config_rejected default_config default_ok 200 300 100 0 ∅ c_damaged shmem_start 12) as [H _];
      [by vm_compute; intuition congruence|apply c_shmem_apart|done|lia| |].
    + intros j Hj ??. unfold c_damaged. rewrite byte_at_put. by rewrite decide_False by lia.
    + apply H; [|done]. exists 12. split; [lia|]. split; [lia|]. vm_compute. discriminate.
  - destruct (@damaged_config_rejected default_config default_ok 200 300 100 0 ∅ c_unnoticed shmem_start 27) as [_ H];
      [by vm_compute; intuition congruence|apply c_shmem_apart|done|lia| |].
    + intros j Hj ??. unfold c_unnoticed. rewrite !byte_at_put. by rewrite !decide_False by lia.
    + destruct H as (a & m2 & Ha & Hget); [done|by vm_compute|by vm_compute|]. eexists a, m2, _, _.
      split; [exact Ha|]. split; [|exact Hget]. done.
Defined.
