(* ===== verification/Kernel.v ===== *)
(** * Environments: vocabulary

    The ports of the environment layer to ThreadX, XOS, Zephyr and QNX
    ([porting/environment/rpmsg_env_*.c]) are thin layers above a kernel that is
    not in the repository.  A call of the kernel, of the platform or of the C
    library is recorded with its arguments and its answer; the answers are a
    parameter ([Os]), which may depend on all calls so far, so that the theorems
    hold whatever the kernel does.  What the calls mean is read off the record:
    which blocks are allocated, which objects exist ([balance]), whether
    scheduling is blocked, the count of a semaphore ([sem_count]). *)

From S2P Require Import Prelude Config.
From stdpp Require Export strings gmap.

#[global] Open Scope Z_scope.

Record call : Type := Call { fn : string; args : list Z; ret : Z }.

(** The answers; addresses of static objects; constants and sizes of the
    kernels; what a callee stores through a pointer it is given. *)
Class Os : Type := {
  answer : string → list Z → list call → Z;
  addr_of : string → Z;
  TX_SUCCESS : Z;
  TX_AND : Z;
  TX_OR : Z;
  TX_WAIT_FOREVER : Z;
  TX_TIMER_TICKS_PER_SECOND : Z;
  XOS_OK : Z;
  XOS_SEM_WAIT_PRIORITY : Z;
  XOS_MSGQ_WAIT_PRIORITY : Z;
  XOS_EVENT_AUTO_CLEAR : Z;
  XOS_MSGQ_SIZE : Z → Z → Z;
  K_FOREVER : Z;
  K_MSEC : Z → Z;
  EOK : Z;
  size_of : string → Z;
  stored : string → list call → Z;
}.

(** The static variables of a port: the counter, the table of handlers, and the
    record of calls, newest first. *)
Record env_state : Type := {
  env_init_counter : Z;
  isr_table : gmap Z Z;
  calls_made : list call;
}.
Abbreviation K := (M env_state).

Definition set_counter (x : Z) (s : env_state) : env_state :=
  {| env_init_counter := x; isr_table := isr_table s; calls_made := calls_made s |}.
Definition set_table (f : gmap Z Z → gmap Z Z) (s : env_state) : env_state :=
  {| env_init_counter := env_init_counter s; isr_table := f (isr_table s); calls_made := calls_made s |}.
Definition made (l : list call) (s : env_state) : env_state :=
  {| env_init_counter := env_init_counter s; isr_table := isr_table s; calls_made := l ++ calls_made s |}.
Definition start : env_state := {| env_init_counter := 0; isr_table := ∅; calls_made := [] |}.

Section kernel.
Context {os : Os}.

Definition call_os (f : string) (xs : list Z) : K Z := λ s,
  let r := answer f xs (calls_made s) in Ok r (made [Call f xs r] s).
Definition do_os (f : string) (xs : list Z) : K unit := _ ← call_os f xs; mret tt.

Definition k_assert (b : bool) : K unit := if b then mret tt else hang.

(** [(void)memset(isr_table, 0, sizeof(isr_table))]. *)
Definition clear_table : K unit := modify (set_table (λ _, ∅)).

(** The functions on the table of handlers are the same in all ports but QNX. *)
Definition register_isr (isr_count vector_id data : Z) : K unit :=
  (if vector_id <? isr_count then modify (set_table <[vector_id := data]>) else mret tt);;
  k_assert (vector_id <? isr_count).
Definition unregister_isr (isr_count vector_id : Z) : K unit :=
  (if vector_id <? isr_count then modify (set_table <[vector_id := NULL]>) else mret tt);;
  k_assert (vector_id <? isr_count).
Definition deliver_isr (isr_count vector : Z) : K unit :=
  (if vector <? isr_count
   then s ← get_state; do_os "virtqueue_notification" [default NULL (isr_table s !! vector)]
   else mret tt);;
  k_assert (vector <? isr_count).

(** [value] cut to a byte. *)
Definition memset_value (value : Z) : Z := Z.land (u32 value) 255.

End kernel.

(** ** What a record means *)

(** How many objects with handle [h] exist: created by a call of [new] that
    answered [h], or that was given [h] first and answered [ok]; deleted by a
    call of [del] with [h] first. *)
Definition creates (new : string) (ok : option Z) (h : Z) (c : call) : bool :=
  String.eqb (fn c) new &&
  match ok with
  | None => (ret c =? h) && negb (h =? NULL)
  | Some r => (ret c =? r) && match args c with x :: _ => x =? h | [] => false end
  end.
Definition deletes (del : string) (h : Z) (c : call) : bool :=
  String.eqb (fn c) del && match args c with x :: _ => x =? h | [] => false end.
Fixpoint balance (new del : string) (ok : option Z) (h : Z) (l : list call) : Z :=
  match l with
  | [] => 0
  | c :: l' =>
      balance new del ok h l' + (if creates new ok h c then 1 else 0) - (if deletes del h c then 1 else 0)
  end.

(** How deep the critical sections are. *)
Fixpoint sections (enter leave : string) (l : list call) : Z :=
  match l with
  | [] => 0
  | c :: l' =>
      sections enter leave l' + (if String.eqb (fn c) enter then 1 else 0) - (if String.eqb (fn c) leave then 1 else 0)
  end.

(** Whether the platform is initialised. *)
Fixpoint platform_up (l : list call) : bool :=
  match l with
  | [] => false
  | c :: l' =>
      if String.eqb (fn c) "platform_init" then true
      else if String.eqb (fn c) "platform_deinit" then false else platform_up l'
  end.

(** The count of the semaphore at [h], by the names of the three calls; [count]
    reads the initial count off the arguments. *)
Fixpoint sem_count (new take give : string) (count : list Z → Z) (ok h : Z) (l : list call) : Z :=
  match l with
  | [] => 0
  | c :: l' =>
      if deletes new h c then count (args c)
      else sem_count new take give count ok h l' +
        (if deletes give h c then 1 else 0) - (if deletes take h c && (ret c =? ok) then 1 else 0)
  end.

(** ** Proofs about programs of calls *)

Section proofs.
Context {os : Os}.

Lemma wp_call f xs (Q : Z → env_state → Prop) s :
  (∀ r, r = answer f xs (calls_made s) → Q r (made [Call f xs r] s)) → wp (call_os f xs) Q s.
Proof. intros HQ. unfold wp, call_os. by apply HQ. Qed.

Lemma wp_do f xs (Q : unit → env_state → Prop) s :
  (∀ r, r = answer f xs (calls_made s) → Q tt (made [Call f xs r] s)) → wp (do_os f xs) Q s.
Proof. intros HQ. unfold do_os. rewrite wp_bind. by apply wp_call. Qed.

Lemma wp_assert b (Q : unit → env_state → Prop) s : b = true → Q tt s → wp (k_assert b) Q s.
Proof. by intros ->. Qed.

Lemma wp_exists {A} (m : K A) Q s : wp m Q s → ∃ r s', m s = Ok r s' ∧ Q r s'.
Proof. unfold wp. destruct (m s) as [r s'| | |]; [|done..]. by exists r, s'. Qed.

Lemma wp_clear_table (Q : unit → env_state → Prop) s : wp clear_table Q s = Q tt (set_table (λ _, ∅) s).
Proof. done. Qed.

End proofs.

(** Run a program: the answer of each call is a fresh variable. *)
Ltac call_step :=
  first
    [rewrite wp_bind | rewrite wp_ret | rewrite wp_get_state | rewrite wp_modify | rewrite wp_clear_table
    |apply wp_call; let r := fresh "r" in intros r _ | apply wp_do; let r := fresh "r" in intros r _];
  cbn beta.
Ltac call_steps := repeat call_step.

(** Read off a record that ends in a known one. *)
Ltac tally :=
  repeat (progress (cbn -[Z.add Z.sub Z.eqb]; rewrite ?Z.eqb_refl;
    repeat match goal with H : (?a =? ?b) = _ |- context [?a =? ?b] => rewrite H end)).

(** A test on an answer. *)
Ltac ask := match goal with
  | |- wp (if ?b then _ else _) _ _ => let E := fresh in destruct b eqn:E
  end; call_steps.

(** ** On a kernel that grants everything

    Blocks are handed out one after the other; every other call answers 0. *)
Definition granting_os : Os := {|
  answer f xs l :=
    if String.eqb f "MEM_BufferAlloc" || String.eqb f "malloc" || String.eqb f "k_malloc"
    then 4096 + 64 * Z.of_nat (length l) else 0;
  addr_of x := if String.eqb x "env_sema" then 64 else 128;
  TX_SUCCESS := 0; TX_AND := 2; TX_OR := 0; TX_WAIT_FOREVER := 4294967295; TX_TIMER_TICKS_PER_SECOND := 100;
  XOS_OK := 0; XOS_SEM_WAIT_PRIORITY := 0; XOS_MSGQ_WAIT_PRIORITY := 0; XOS_EVENT_AUTO_CLEAR := 1;
  XOS_MSGQ_SIZE := λ n size, 64 + n * size;
  K_FOREVER := -1; K_MSEC := λ ms, ms; EOK := 0; size_of := λ _, 64; stored := λ _ _, 0;
|}.
