(* ===== verification/FreeRTOSCalls.v ===== *)
(** * FreeRTOS: calls of the C library, the kernel's heap and the platform

    The functions of [rpmsg_env_freertos.c] that only pass their arguments on,
    with the vocabulary of [Kernel].  The rest of the file is [FreeRTOS]; the
    library's own use of memory and caches is modelled in [World]. *)

From S2P Require Import Prelude Config Kernel.

Section freertos_calls.
Context {os : Os} {cfg : Config}.
Context (portTICK_PERIOD_MS : Z).

Definition env_allocate_memory (size : Z) : K Z := call_os "pvPortMalloc" [size].
Definition env_free_memory (ptr : Z) : K unit :=
  if negb (ptr =? NULL) then do_os "vPortFree" [ptr] else mret tt.
Definition env_memset (ptr value size : Z) : K unit := do_os "memset" [ptr; memset_value value; size].
Definition env_memcpy (dst src len : Z) : K unit := do_os "memcpy" [dst; src; len].
Definition env_strcmp (dst src : Z) : K Z := call_os "strcmp" [dst; src].
Definition env_strncpy (dest src len : Z) : K unit := do_os "strncpy" [dest; src; len].
Definition env_strncmp (dest src len : Z) : K Z := call_os "strncmp" [dest; src; len].
Definition env_mb : K unit := do_os "MEM_BARRIER" [].
Definition env_rmb : K unit := do_os "MEM_BARRIER" [].
Definition env_wmb : K unit := do_os "MEM_BARRIER" [].
Definition env_map_vatopa (address : Z) : K Z := call_os "platform_vatopa" [address].
Definition env_map_patova (address : Z) : K Z := call_os "platform_patova" [address].
Definition env_sleep_msec (num_msec : Z) : K unit := do_os "vTaskDelay" [num_msec / portTICK_PERIOD_MS].
Definition env_map_memory (pa va size flags : Z) : K unit := do_os "platform_map_mem_region" [va; pa; size; flags].
Definition env_disable_cache : K unit :=
  do_os "platform_cache_all_flush_invalidate" [];; do_os "platform_cache_disable" [].
Definition env_cache_flush (data len : Z) : K unit :=
  if RL_USE_DCACHE then do_os "platform_cache_flush" [data; len] else mret tt.
Definition env_cache_invalidate (data len : Z) : K unit :=
  if RL_USE_DCACHE then do_os "platform_cache_invalidate" [data; len] else mret tt.

End freertos_calls.

(** [os_in_isr] of the AArch64 port of the kernel. *)
Definition os_in_isr (ullPortInterruptNesting : Z) : bool := 0 <? ullPortInterruptNesting.

(** The heap: a block is given back once, and NULL never. *)
Lemma freertos_heap {os : Os} size s :
  ∃ p s', env_allocate_memory size s = Ok p s' ∧
    ∃ s'', env_free_memory p s' = Ok tt s'' ∧
      ∀ h, balance "pvPortMalloc" "vPortFree" None h (calls_made s'') = balance "pvPortMalloc" "vPortFree" None h (calls_made s).
Proof.
  eexists _, _. split; [reflexivity|]. unfold env_free_memory. set (p := answer _ _ _).
  destruct (Z.eqb_spec p NULL) as [Hp|Hp]; cbn [negb]; eexists; (split; [reflexivity|]); intros h;
    cbn -[Z.eqb Z.add Z.sub]; unfold creates, deletes; cbn -[Z.eqb Z.add Z.sub]; fold p;
    destruct (Z.eqb_spec p h) as [<-|]; cbn -[Z.eqb Z.add Z.sub]; try lia.
  - rewrite Hp. cbn. lia.
  - rewrite (proj2 (Z.eqb_neq _ _) Hp). cbn. lia.
Qed.

(** A sleep is never longer than asked, and at most one tick shorter. *)
Lemma freertos_sleep {os : Os} portTICK_PERIOD_MS num_msec s :
  0 < portTICK_PERIOD_MS → 0 ≤ num_msec →
  ∃ t s', env_sleep_msec portTICK_PERIOD_MS num_msec s = Ok tt s' ∧ (fn <$> head (calls_made s')) = Some "vTaskDelay" ∧
    (args <$> head (calls_made s')) = Some [t] ∧ num_msec - portTICK_PERIOD_MS < t * portTICK_PERIOD_MS ≤ num_msec.
Proof.
  intros Hp Hn. exists (num_msec / portTICK_PERIOD_MS). eexists. split; [reflexivity|]. split; [done|]. split; [done|].
  pose proof (Z.div_mod num_msec portTICK_PERIOD_MS). pose proof (Z.mod_pos_bound num_msec portTICK_PERIOD_MS). nia.
Qed.
