(* ===== verification/BareMetalCalls.v ===== *)
(** * Bare metal: calls of the C library and the platform

    The functions of [rpmsg_env_bm.c] that only pass their arguments on, with the
    vocabulary of [Kernel].  The rest of the file is [BareMetal]. *)

From S2P Require Import Prelude Config Kernel.

Section bare_metal_calls.
Context {os : Os}.

Definition env_strcmp (dst src : Z) : K Z := call_os "strcmp" [dst; src].
Definition env_strncmp (dest src len : Z) : K Z := call_os "strncmp" [dest; src; len].
Definition env_mb : K unit := do_os "MEM_BARRIER" [].
Definition env_rmb : K unit := do_os "MEM_BARRIER" [].
Definition env_wmb : K unit := do_os "MEM_BARRIER" [].
Definition env_map_memory (pa va size flags : Z) : K unit := do_os "platform_map_mem_region" [va; pa; size; flags].
Definition env_disable_cache : K unit :=
  do_os "platform_cache_all_flush_invalidate" [];; do_os "platform_cache_disable" [].

End bare_metal_calls.
