(* ===== verification/FreeRTOSExt.v ===== *)
(** * The second copy of FreeRTOS functions

    [rpmsg_env_freertos_ext.c] has four functions of [rpmsg_env_freertos.c] once
    more, for a coverage scanner; they differ in asking the platform, not the
    port, whether an interrupt is being served.  [ext_same]: they are the same
    functions. *)

From S2P Require Import Prelude Memory Config Virtqueue Concrete World Lpc55s69 FreeRTOS.

Section freertos_ext.
Context {H K : Type} {per : Peripherals H} {fr : FreeRTOS K} {cfg : Config}.
Abbreviation R := (M (rtos H K)).

Definition platform_isr : R bool := s ← get_state; mret (platform_in_isr (kernel s)).

Definition env_tx_callback (link_id : Z) : R unit :=
  isr ← platform_isr;
  s ← get_state;
  if (isr : bool) then
    _ ← kcall (xEventGroupSetBitsFromISR (event_group s) (u32 (Z.shiftl 1 link_id)));
    mret tt
  else _ ← kcall (xEventGroupSetBits (event_group s) (u32 (Z.shiftl 1 link_id))); mret tt.

(** [portMAX_DELAY == timeout_ms ? portMAX_DELAY : timeout_ms / portTICK_PERIOD_MS]. *)
Definition delay_ticks (timeout_ms : Z) : Z :=
  if portMAX_DELAY =? timeout_ms then portMAX_DELAY else timeout_ms / portTICK_PERIOD_MS.

(** On the state of a core, as in [FreeRTOS]. *)
Definition env_wait_for_link_up (dev timeout_ms : Z) : W (rtos H K) Z :=
  i ← get_inst dev;
  with_env (s ← get_state; _ ← kcall (xEventGroupClearBits (event_group s) (u32 (Z.shiftl 1 (link_id i)))); mret tt);;
  i ← get_inst dev;
  if negb (link_state i =? 1) then
    uxBits ← with_env
      (s ← get_state; kcall (xEventGroupWaitBits (event_group s) (u32 (Z.shiftl 1 (link_id i))) (delay_ticks timeout_ms)));
    if uxBits =? u32 (Z.shiftl 1 (link_id i)) then mret 1 else mret 0
  else mret 1.

Definition env_put_queue (queue : Z) (msg : rpmsg_queue_rx_cb_data_t) (timeout_ms : Z) : R Z :=
  isr ← platform_isr;
  if (isr : bool) then
    r ← kcall (xQueueSendFromISR queue msg);
    if r =? pdPASS then mret 1 else mret 0
  else
    r ← kcall (xQueueSend queue msg (delay_ticks timeout_ms));
    if r =? pdPASS then mret 1 else mret 0.

(** The element, if one was taken; the status is 1 exactly then. *)
Definition env_get_queue (queue timeout_ms : Z) : R (option rpmsg_queue_rx_cb_data_t) :=
  isr ← platform_isr;
  if (isr : bool) then
    r ← kcall (xQueueReceiveFromISR queue); mret r
  else
    r ← kcall (xQueueReceive queue (delay_ticks timeout_ms)); mret r.

Lemma bind_ret_same {S A} (m : M S A) s : (r ← m; mret r) s = m s.
Proof. unfold mbind, M_bind. by destruct (m s). Qed.

Lemma ext_same :
  (∀ link_id s, env_tx_callback link_id s = FreeRTOS.env_tx_callback link_id s) ∧
  (∀ dev timeout_ms w, env_wait_for_link_up dev timeout_ms w = FreeRTOS.env_wait_for_link_up dev timeout_ms w) ∧
  (∀ queue msg timeout_ms s, env_put_queue queue msg timeout_ms s = FreeRTOS.env_put_queue queue msg timeout_ms s) ∧
  ∀ queue timeout_ms s, env_get_queue queue timeout_ms s = FreeRTOS.env_get_queue queue timeout_ms s.
Proof.
  split; [|split; [|split]].
  - done.
  - intros dev timeout_ms w. unfold env_wait_for_link_up, FreeRTOS.env_wait_for_link_up, wait_during.
    unfold mbind, M_bind. cbn [mret M_ret]. destruct (get_inst dev w) as [i w1|?| |]; [|done..]. fold (link_bit (link_id i)).
    unfold with_env, zoom, clear_link_event, getr, mbind, M_bind, get_state.
    destruct (kcall _ _) as [? ?|?| |]; [|done..]. cbn -[get_inst]. destruct (get_inst dev _) as [i' w2|?| |]; [|done..].
    destruct (link_state i' =? 1); [done|]. cbn. unfold wait_for_link_event, getr, mbind, M_bind, get_state.
    fold (link_bit (link_id i')). change (delay_ticks timeout_ms) with (ticks timeout_ms).
    unfold kcall, zoom. destruct (xEventGroupWaitBits _ _ _ _) as [u ?|?| |]; [|done..]. by destruct (u =? link_bit (link_id i')).
  - intros queue msg timeout_ms s. unfold env_put_queue, FreeRTOS.env_put_queue, platform_isr, env_in_isr, getr.
    unfold mbind, M_bind, get_state, mret, M_ret. by destruct (platform_in_isr (kernel s)).
  - intros queue timeout_ms s. unfold env_get_queue, FreeRTOS.env_get_queue, platform_isr, env_in_isr, getr.
    change (delay_ticks timeout_ms) with (ticks timeout_ms).
    unfold mbind, M_bind, get_state, mret, M_ret. destruct (platform_in_isr (kernel s)); apply bind_ret_same.
Qed.

End freertos_ext.
