(* ===== verification/ThreadX.v ===== *)
(** * The ThreadX environment

    [rpmsg_env_threadx.c], with the vocabulary of [Kernel].  [ULONG] has
    the width of a pointer.  The control block of a queue, [queue_start], belongs
    to the kernel. *)

From S2P Require Import Prelude Config Kernel.

Section threadx.
Context {os : Os} {cfg : Config}.
Context (queue_start : Z → list call → Z).

Definition env_in_isr : K Z := call_os "platform_in_isr" [].
Definition env_sema : Z := addr_of "env_sema".
Definition event_group : Z := addr_of "event_group".

(** [(timeout_ms * TX_TIMER_TICKS_PER_SECOND) / 1000UL]. *)
Definition ticks (timeout_ms : Z) : Z := uptr (timeout_ms * TX_TIMER_TICKS_PER_SECOND) / 1000.
Definition link_bit (link_id : Z) : Z := uptr (Z.shiftl 1 link_id).

(** *** Waiting for the link; [link_state]: what the variable holds when it is
    read. *)

Definition env_wait_for_link_up (link_state : list call → Z) (link_id timeout_ms : Z) : K Z :=
  s ← get_state;
  if negb (link_state (calls_made s) =? 1) then
    r ← (if timeout_ms =? RL_BLOCK
         then call_os "tx_event_flags_get" [event_group; link_bit link_id; TX_AND; TX_WAIT_FOREVER]
         else call_os "tx_event_flags_get" [event_group; link_bit link_id; TX_AND; ticks timeout_ms]);
    if r =? TX_SUCCESS then mret 1 else mret 0
  else mret 1.
Definition env_tx_callback (link_id : Z) : K unit := do_os "tx_event_flags_set" [event_group; link_bit link_id; TX_OR].

(** *** Initialisation *)

Definition env_init : K Z :=
  regPrimask ← call_os "DisableGlobalIRQ" [];
  s ← get_state;
  k_assert (0 <=? env_init_counter s);;
  if env_init_counter s <? 0 then do_os "EnableGlobalIRQ" [regPrimask];; mret (-1)
  else
    modify (set_counter (env_init_counter s + 1));;
    if env_init_counter s + 1 =? 1 then
      r ← call_os "tx_semaphore_create" [env_sema; NULL; 0];
      if negb (r =? TX_SUCCESS) then do_os "EnableGlobalIRQ" [regPrimask];; mret (-1)
      else
        do_os "tx_event_flags_create" [event_group; NULL];;
        clear_table;;
        do_os "EnableGlobalIRQ" [regPrimask];;
        retval ← call_os "platform_init" [];
        do_os "tx_semaphore_put" [env_sema];;
        mret retval
    else
      do_os "EnableGlobalIRQ" [regPrimask];;
      r ← call_os "tx_semaphore_get" [env_sema; TX_WAIT_FOREVER];
      (if r =? TX_SUCCESS then do_os "tx_semaphore_put" [env_sema] else mret tt);;
      mret 0.

Definition env_deinit : K Z :=
  regPrimask ← call_os "DisableGlobalIRQ" [];
  s ← get_state;
  k_assert (0 <? env_init_counter s);;
  if env_init_counter s <=? 0 then do_os "EnableGlobalIRQ" [regPrimask];; mret (-1)
  else
    modify (set_counter (env_init_counter s - 1));;
    if env_init_counter s - 1 <=? 0 then
      clear_table;;
      retval ← call_os "platform_deinit" [];
      do_os "tx_event_flags_delete" [event_group];;
      do_os "memset" [event_group; 0; size_of "event_group"];;
      do_os "tx_semaphore_delete" [env_sema];;
      do_os "memset" [env_sema; 0; size_of "env_sema"];;
      do_os "EnableGlobalIRQ" [regPrimask];;
      mret retval
    else do_os "EnableGlobalIRQ" [regPrimask];; mret 0.

Definition env_allocate_memory (size : Z) : K Z := call_os "MEM_BufferAlloc" [size].
Definition env_free_memory (ptr : Z) : K unit :=
  if negb (ptr =? NULL) then do_os "MEM_BufferFree" [ptr] else mret tt.

(** *** Memory and strings *)

Definition env_memset (ptr value size : Z) : K unit := do_os "memset" [ptr; memset_value value; size].
Definition env_memcpy (dst src len : Z) : K unit := do_os "memcpy" [dst; src; len].
Definition env_strcmp (dst src : Z) : K Z := call_os "strcmp" [dst; src].
Definition env_strncpy (dest src len : Z) : K unit := do_os "strncpy" [dest; src; len].
Definition env_strncmp (dest src len : Z) : K Z := call_os "strncmp" [dest; src; len].
Definition env_mb : K unit := do_os "MEM_BARRIER" [].
Definition env_rmb : K unit := do_os "MEM_BARRIER" [].
Definition env_wmb : K unit := do_os "MEM_BARRIER" [].
Definition env_map_vatopa (address : Z) : K Z := call_os "platform_vatopa" [address].
Definition env_map_patova (address : Z) : K Z := call_os "platform_patova" [address].

(** *** Mutexes *)

Definition RL_ENV_MAX_MUTEX_COUNT : Z := 10.

(** The status, and what is stored in [*lock], if anything is. *)
Definition env_create_mutex (count context : Z) : K (Z * option Z) :=
  if RL_ENV_MAX_MUTEX_COUNT <? count then mret (-1, None)
  else
    semaphore_ptr ← (if RL_USE_STATIC_API then mret context else env_allocate_memory (size_of "TX_SEMAPHORE"));
    if semaphore_ptr =? NULL then mret (-1, None)
    else
      r ← call_os "tx_semaphore_create" [semaphore_ptr; NULL; uptr count];
      if r =? TX_SUCCESS then mret (0, Some semaphore_ptr)
      else (if RL_USE_STATIC_API then mret tt else env_free_memory semaphore_ptr);; mret (-1, None).
Definition env_delete_mutex (lock : Z) : K unit :=
  do_os "tx_semaphore_delete" [lock];;
  if RL_USE_STATIC_API then mret tt else env_free_memory lock.
Definition env_lock_mutex (lock : Z) : K unit :=
  isr ← env_in_isr;
  if isr =? 0 then do_os "tx_semaphore_get" [lock; TX_WAIT_FOREVER] else mret tt.
Definition env_unlock_mutex (lock : Z) : K unit :=
  isr ← env_in_isr;
  if isr =? 0 then do_os "tx_semaphore_put" [lock] else mret tt.

Definition env_create_sync_lock (state context : Z) : K (Z * option Z) := env_create_mutex state context.
Definition env_delete_sync_lock (lock : Z) : K unit :=
  if negb (lock =? NULL) then env_delete_mutex lock else mret tt.

(** Without the overflow of [ticks]. *)
Definition env_sleep_msec (num_msec : Z) : K unit :=
  do_os "tx_thread_sleep"
    [uptr (uptr (num_msec / 1000 * TX_TIMER_TICKS_PER_SECOND) +
           uptr (num_msec mod 1000 * TX_TIMER_TICKS_PER_SECOND) / 1000)].

(** *** Interrupts and caches *)

Definition env_register_isr (vector_id data : Z) : K unit := register_isr RL_PLATFORM_MAX_ISR_COUNT vector_id data.
Definition env_unregister_isr (vector_id : Z) : K unit := unregister_isr RL_PLATFORM_MAX_ISR_COUNT vector_id.
Definition env_enable_interrupt (vector_id : Z) : K unit := do_os "platform_interrupt_enable" [vector_id].
Definition env_disable_interrupt (vector_id : Z) : K unit := do_os "platform_interrupt_disable" [vector_id].
Definition env_map_memory (pa va size flags : Z) : K unit := do_os "platform_map_mem_region" [va; pa; size; flags].
Definition env_disable_cache : K unit :=
  do_os "platform_cache_all_flush_invalidate" [];; do_os "platform_cache_disable" [].
Definition env_cache_flush (data len : Z) : K unit :=
  if RL_USE_DCACHE then do_os "platform_cache_flush" [data; len] else mret tt.
Definition env_cache_invalidate (data len : Z) : K unit :=
  if RL_USE_DCACHE then do_os "platform_cache_invalidate" [data; len] else mret tt.
Definition env_get_timestamp : K Z := call_os "tx_time_get" [].

Definition env_isr (vector : Z) : K unit := deliver_isr RL_PLATFORM_MAX_ISR_COUNT vector.

(** *** Queues *)

Definition INT32_MAX : Z := 2147483647.

(** An element size of 0 divides by zero. *)
Definition env_create_queue (length element_size queue_static_storage queue_static_context : Z) : K (Z * option Z) :=
  if (length <? 0) || (element_size <? 0) then mret (-1, Some NULL)
  else if element_size =? 0 then undef
  else if INT32_MAX / element_size <? length then mret (-1, None)
  else
    queue_ptr ← (if RL_USE_STATIC_API then mret queue_static_context else env_allocate_memory (size_of "TX_QUEUE"));
    msgq_buffer_ptr ← (if RL_USE_STATIC_API then mret queue_static_storage
                       else env_allocate_memory (length * element_size));
    if (queue_ptr =? NULL) || (msgq_buffer_ptr =? NULL) then mret (-1, None)
    else
      r ← call_os "tx_queue_create"
        [queue_ptr; NULL; element_size / RL_WORD_SIZE; msgq_buffer_ptr; u32 (length * element_size)];
      if r =? TX_SUCCESS then mret (0, Some queue_ptr)
      else
        (if RL_USE_STATIC_API then mret tt else env_free_memory msgq_buffer_ptr;; env_free_memory queue_ptr);;
        mret (-1, None).

Definition env_delete_queue (queue : Z) : K unit :=
  do_os "tx_queue_delete" [queue];;
  if RL_USE_STATIC_API then mret tt
  else
    s ← get_state;
    env_free_memory (queue_start queue (calls_made s));;
    env_free_memory queue.

Definition env_put_queue (queue msg timeout_ms : Z) : K Z :=
  r ← (if timeout_ms =? RL_BLOCK then call_os "tx_queue_send" [queue; msg; TX_WAIT_FOREVER]
       else call_os "tx_queue_send" [queue; msg; ticks timeout_ms]);
  if r =? TX_SUCCESS then mret 1 else mret 0.

Definition env_get_queue (queue msg timeout_ms : Z) : K Z :=
  r ← (if timeout_ms =? RL_BLOCK then call_os "tx_queue_receive" [queue; msg; TX_WAIT_FOREVER]
       else call_os "tx_queue_receive" [queue; msg; ticks timeout_ms]);
  if r =? TX_SUCCESS then mret 1 else mret 0.

(** [enqueued]: what the kernel stores in the variable of that name. *)
Definition env_get_current_queue_size (enqueued : Z → list call → Z) (queue : Z) : K Z :=
  r ← call_os "tx_queue_info_get" [queue];
  s ← get_state;
  if r =? TX_SUCCESS then
    mret (if INT32_MAX <? enqueued queue (calls_made s) then INT32_MAX else enqueued queue (calls_made s))
  else mret (-1).

End threadx.
