(* ===== verification/Xos.v ===== *)
(** * The XOS environment

    [rpmsg_env_xos.c], with the vocabulary of [Kernel]. *)

From S2P Require Import Prelude Config Kernel.

Section xos.
Context {os : Os} {cfg : Config}.

Definition env_in_isr : K Z := call_os "platform_in_isr" [].
Definition env_sema : Z := addr_of "env_sema".
Definition env_event : Z := addr_of "env_event".

Definition link_bit (link_id : Z) : Z := uptr (Z.shiftl 1 link_id).

(** *** Waiting for the link; [link_state]: what the variable holds when it is
    read. *)

Definition env_wait_for_link_up (link_state : list call → Z) (link_id timeout_ms : Z) : K Z :=
  s ← get_state;
  if negb (link_state (calls_made s) =? 1) then
    r ← (if timeout_ms =? RL_BLOCK then call_os "xos_event_wait_all" [env_event; link_bit link_id]
         else
           cycles ← call_os "xos_msecs_to_cycles" [timeout_ms];
           call_os "xos_event_wait_all_timeout" [env_event; link_bit link_id; cycles]);
    if r =? XOS_OK then mret 1 else mret 0
  else mret 1.
Definition env_tx_callback (link_id : Z) : K unit := do_os "xos_event_set" [env_event; link_bit link_id].

(** *** Initialisation *)

Definition env_init : K Z :=
  regPrimask ← call_os "xos_disable_interrupts" [];
  s ← get_state;
  k_assert (0 <=? env_init_counter s);;
  if env_init_counter s <? 0 then do_os "xos_restore_interrupts" [regPrimask];; mret (-1)
  else
    modify (set_counter (env_init_counter s + 1));;
    if env_init_counter s + 1 =? 1 then
      do_os "xos_sem_create" [env_sema; XOS_SEM_WAIT_PRIORITY; 1];;
      do_os "xos_event_create" [env_event; 4294967295; XOS_EVENT_AUTO_CLEAR];;
      clear_table;;
      do_os "xos_restore_interrupts" [regPrimask];;
      retval ← call_os "platform_init" [];
      do_os "xos_sem_put" [env_sema];;
      mret retval
    else
      do_os "xos_restore_interrupts" [regPrimask];;
      r ← call_os "xos_sem_get" [env_sema];
      (if r =? XOS_OK then do_os "xos_sem_put" [env_sema] else mret tt);;
      mret 0.

Definition env_deinit : K Z :=
  regPrimask ← call_os "xos_disable_interrupts" [];
  s ← get_state;
  k_assert (0 <? env_init_counter s);;
  if env_init_counter s <=? 0 then do_os "xos_restore_interrupts" [regPrimask];; mret (-1)
  else
    modify (set_counter (env_init_counter s - 1));;
    if env_init_counter s - 1 <=? 0 then
      clear_table;;
      retval ← call_os "platform_deinit" [];
      do_os "xos_event_delete" [env_event];;
      do_os "xos_sem_delete" [env_sema];;
      do_os "xos_restore_interrupts" [regPrimask];;
      mret retval
    else do_os "xos_restore_interrupts" [regPrimask];; mret 0.

Definition env_allocate_memory (size : Z) : K Z := call_os "malloc" [size].
Definition env_free_memory (ptr : Z) : K unit :=
  if negb (ptr =? NULL) then do_os "free" [ptr] else mret tt.

(** *** Memory and strings *)

Definition env_memset (ptr value size : Z) : K unit := do_os "memset" [ptr; memset_value value; size].
Definition env_memcpy (dst src len : Z) : K unit := do_os "memcpy" [dst; src; len].
Definition env_strcmp (dst src : Z) : K Z := call_os "strcmp" [dst; src].
Definition env_strncpy (dest src len : Z) : K unit := do_os "strncpy" [dest; src; len].
Definition env_strncmp (dest src len : Z) : K Z := call_os "strncmp" [dest; src; len].
Definition env_mb : K unit := do_os "MEM_BARRIER" [].
Definition env_rmb : K unit := do_os "MEM_BARRIER" [].
Definition env_wmb : K unit := do_os "MEM_BARRIER" [].
Definition env_map_vatopa (address : Z) : K Z := call_os "platform_vatopa" [address].
Definition env_map_patova (address : Z) : K Z := call_os "platform_patova" [address].

(** *** Mutexes *)

Definition RL_ENV_MAX_MUTEX_COUNT : Z := 10.

(** The status, and what is stored in [*lock], if anything is. *)
Definition env_create_mutex (count context : Z) : K (Z * option Z) :=
  if RL_ENV_MAX_MUTEX_COUNT <? count then mret (-1, None)
  else
    semaphore_ptr ← (if RL_USE_STATIC_API then mret context else env_allocate_memory (size_of "XosSem"));
    if semaphore_ptr =? NULL then mret (-1, None)
    else
      r ← call_os "xos_sem_create" [semaphore_ptr; XOS_SEM_WAIT_PRIORITY; count];
      if r =? XOS_OK then mret (0, Some semaphore_ptr)
      else (if RL_USE_STATIC_API then mret tt else env_free_memory semaphore_ptr);; mret (-1, None).
Definition env_delete_mutex (lock : Z) : K unit :=
  do_os "xos_sem_delete" [lock];;
  if RL_USE_STATIC_API then mret tt else env_free_memory lock.
Definition env_lock_mutex (lock : Z) : K unit :=
  isr ← env_in_isr;
  if isr =? 0 then do_os "xos_sem_get" [lock] else mret tt.
Definition env_unlock_mutex (lock : Z) : K unit :=
  isr ← env_in_isr;
  if isr =? 0 then do_os "xos_sem_put" [lock] else mret tt.

Definition env_create_sync_lock (state context : Z) : K (Z * option Z) := env_create_mutex state context.
Definition env_delete_sync_lock (lock : Z) : K unit :=
  if negb (lock =? NULL) then env_delete_mutex lock else mret tt.

Definition env_sleep_msec (num_msec : Z) : K unit := do_os "xos_thread_sleep_msec" [num_msec].

(** *** Interrupts and caches *)

Definition env_register_isr (vector_id data : Z) : K unit := register_isr RL_PLATFORM_MAX_ISR_COUNT vector_id data.
Definition env_unregister_isr (vector_id : Z) : K unit := unregister_isr RL_PLATFORM_MAX_ISR_COUNT vector_id.
Definition env_enable_interrupt (vector_id : Z) : K unit := do_os "platform_interrupt_enable" [vector_id].
Definition env_disable_interrupt (vector_id : Z) : K unit := do_os "platform_interrupt_disable" [vector_id].
Definition env_map_memory (pa va size flags : Z) : K unit := do_os "platform_map_mem_region" [va; pa; size; flags].
Definition env_disable_cache : K unit :=
  do_os "platform_cache_all_flush_invalidate" [];; do_os "platform_cache_disable" [].
Definition env_cache_flush (data len : Z) : K unit :=
  if RL_USE_DCACHE then do_os "platform_cache_flush" [data; len] else mret tt.
Definition env_cache_invalidate (data len : Z) : K unit :=
  if RL_USE_DCACHE then do_os "platform_cache_invalidate" [data; len] else mret tt.
Definition env_get_timestamp : K Z := call_os "xos_get_system_cycles" [].

Definition env_isr (vector : Z) : K unit := deliver_isr RL_PLATFORM_MAX_ISR_COUNT vector.

(** *** Queues *)

(** The control block and the elements are one block, [queue_static_storage] in
    the static API. *)
Definition env_create_queue (length element_size queue_static_storage queue_static_context : Z) : K (Z * option Z) :=
  if (length <? 0) || (element_size <? 0) then mret (-1, None)
  else
    queue_ptr ← (if RL_USE_STATIC_API then mret queue_static_storage
                 else env_allocate_memory (XOS_MSGQ_SIZE length element_size));
    if negb (queue_ptr =? NULL) then
      r ← call_os "xos_msgq_create" [queue_ptr; u16 length; u32 element_size; XOS_MSGQ_WAIT_PRIORITY];
      if r =? XOS_OK then mret (0, Some queue_ptr)
      else (if RL_USE_STATIC_API then mret tt else env_free_memory queue_ptr);; mret (-1, None)
    else mret (-1, None).

Definition env_delete_queue (queue : Z) : K unit :=
  do_os "xos_msgq_delete" [queue];;
  if RL_USE_STATIC_API then mret tt else env_free_memory queue.

Definition env_put_queue (queue msg timeout_ms : Z) : K Z :=
  r ← (if timeout_ms =? RL_BLOCK then call_os "xos_msgq_put" [queue; msg]
       else
         cycles ← call_os "xos_msecs_to_cycles" [timeout_ms];
         call_os "xos_msgq_put_timeout" [queue; msg; cycles]);
  if r =? XOS_OK then mret 1 else mret 0.

Definition env_get_queue (queue msg timeout_ms : Z) : K Z :=
  r ← (if timeout_ms =? RL_BLOCK then call_os "xos_msgq_get" [queue; msg]
       else
         cycles ← call_os "xos_msecs_to_cycles" [timeout_ms];
         call_os "xos_msgq_get_timeout" [queue; msg; cycles]);
  if r =? XOS_OK then mret 1 else mret 0.

(** Whether the queue is empty, not how full it is. *)
Definition env_get_current_queue_size (queue : Z) : K Z := r ← call_os "xos_msgq_empty" [queue]; mret (i32 r).

End xos.
