(* ===== verification/Zephyr.v ===== *)
(** * The Zephyr environment

    [rpmsg_env_zephyr.c], with the vocabulary of [Kernel].  The timeouts
    are always finite ([K_MSEC]).  The field [buffer_start] of a queue belongs to
    the kernel. *)

From S2P Require Import Prelude Config Kernel.

Section zephyr.
Context {os : Os} {cfg : Config}.
Context (buffer_start : Z → list call → Z).

Definition env_in_isr : K Z := call_os "k_is_in_isr" [].
Definition env_sema : Z := addr_of "env_sema".
Definition env_event : Z := addr_of "env_event".
Definition link_bit (link_id : Z) : Z := uptr (Z.shiftl 1 link_id).

(** In an interrupt nothing waits. *)
Definition no_wait_in_isr (timeout_ms : Z) : K Z :=
  isr ← env_in_isr; if negb (isr =? 0) then mret 0 else mret timeout_ms.

(** *** Waiting for the link; [link_state]: what the variable holds when it is
    read. *)

Definition env_wait_for_link_up (link_state : list call → Z) (link_id timeout_ms : Z) : K Z :=
  s ← get_state;
  if negb (link_state (calls_made s) =? 1) then
    timeout_ms ← no_wait_in_isr timeout_ms;
    r ← call_os "k_event_wait_all" [env_event; link_bit link_id; 0; K_MSEC timeout_ms];
    if negb (r =? 0) then mret 1 else mret 0
  else mret 1.
Definition env_tx_callback (link_id : Z) : K unit := do_os "k_event_post" [env_event; link_bit link_id].

(** *** Initialisation *)

Definition env_init : K Z :=
  do_os "k_sched_lock" [];;
  s ← get_state;
  k_assert (0 <=? env_init_counter s);;
  if env_init_counter s <? 0 then do_os "k_sched_unlock" [];; mret (-1)
  else
    modify (set_counter (env_init_counter s + 1));;
    if env_init_counter s + 1 =? 1 then
      do_os "k_sem_init" [env_sema; 0; 1];;
      do_os "k_event_init" [env_event];;
      clear_table;;
      do_os "k_sched_unlock" [];;
      retval ← call_os "platform_init" [];
      do_os "k_sem_give" [env_sema];;
      mret retval
    else
      do_os "k_sched_unlock" [];;
      do_os "k_sem_take" [env_sema; K_FOREVER];;
      do_os "k_sem_give" [env_sema];;
      mret 0.

Definition env_deinit : K Z :=
  do_os "k_sched_lock" [];;
  s ← get_state;
  k_assert (0 <? env_init_counter s);;
  if env_init_counter s <=? 0 then do_os "k_sched_unlock" [];; mret (-1)
  else
    modify (set_counter (env_init_counter s - 1));;
    if env_init_counter s - 1 <=? 0 then
      clear_table;;
      retval ← call_os "platform_deinit" [];
      do_os "k_sem_reset" [env_sema];;
      do_os "k_sched_unlock" [];;
      mret retval
    else do_os "k_sched_unlock" [];; mret 0.

Definition env_allocate_memory (size : Z) : K Z := call_os "k_malloc" [size].
Definition env_free_memory (ptr : Z) : K unit :=
  if negb (ptr =? NULL) then do_os "k_free" [ptr] else mret tt.

(** *** Memory and strings *)

Definition env_memset (ptr value size : Z) : K unit := do_os "memset" [ptr; memset_value value; size].
Definition env_memcpy (dst src len : Z) : K unit := do_os "memcpy" [dst; src; len].
Definition env_strcmp (dst src : Z) : K Z := call_os "strcmp" [dst; src].
Definition env_strncpy (dest src len : Z) : K unit := do_os "strncpy" [dest; src; len].
Definition env_strncmp (dest src len : Z) : K Z := call_os "strncmp" [dest; src; len].
Definition env_mb : K unit := do_os "MEM_BARRIER" [].
Definition env_rmb : K unit := do_os "MEM_BARRIER" [].
Definition env_wmb : K unit := do_os "MEM_BARRIER" [].
Definition env_map_vatopa (address : Z) : K Z := call_os "platform_vatopa" [address].
Definition env_map_patova (address : Z) : K Z := call_os "platform_patova" [address].

(** *** Mutexes *)

Definition RL_ENV_MAX_MUTEX_COUNT : Z := 10.

(** The status, and what is stored in [*lock], if anything is. *)
Definition env_create_mutex (count context : Z) : K (Z * option Z) :=
  if RL_ENV_MAX_MUTEX_COUNT <? count then mret (-1, None)
  else
    semaphore_ptr ← (if RL_USE_STATIC_API then mret context else env_allocate_memory (size_of "k_sem"));
    if semaphore_ptr =? NULL then mret (-1, None)
    else
      do_os "k_sem_init" [semaphore_ptr; count; RL_ENV_MAX_MUTEX_COUNT];; mret (0, Some semaphore_ptr).
Definition env_delete_mutex (lock : Z) : K unit :=
  do_os "k_sem_reset" [lock];;
  if RL_USE_STATIC_API then mret tt else env_free_memory lock.
Definition env_lock_mutex (lock : Z) : K unit :=
  isr ← env_in_isr;
  if isr =? 0 then do_os "k_sem_take" [lock; K_FOREVER] else mret tt.
Definition env_unlock_mutex (lock : Z) : K unit :=
  isr ← env_in_isr;
  if isr =? 0 then do_os "k_sem_give" [lock] else mret tt.

Definition env_create_sync_lock (state context : Z) : K (Z * option Z) := env_create_mutex state context.
Definition env_delete_sync_lock (lock : Z) : K unit :=
  if negb (lock =? NULL) then env_delete_mutex lock else mret tt.

Definition env_sleep_msec (num_msec : Z) : K unit := do_os "k_sleep" [K_MSEC num_msec].

(** *** Interrupts and caches *)

Definition env_register_isr (vector_id data : Z) : K unit := register_isr RL_PLATFORM_MAX_ISR_COUNT vector_id data.
Definition env_unregister_isr (vector_id : Z) : K unit := unregister_isr RL_PLATFORM_MAX_ISR_COUNT vector_id.
Definition env_enable_interrupt (vector_id : Z) : K unit := do_os "platform_interrupt_enable" [vector_id].
Definition env_disable_interrupt (vector_id : Z) : K unit := do_os "platform_interrupt_disable" [vector_id].
Definition env_map_memory (pa va size flags : Z) : K unit := do_os "platform_map_mem_region" [va; pa; size; flags].
Definition env_disable_cache : K unit :=
  do_os "platform_cache_all_flush_invalidate" [];; do_os "platform_cache_disable" [].
Definition env_cache_flush (data len : Z) : K unit :=
  if RL_USE_DCACHE then do_os "sys_cache_data_flush_range" [data; len] else mret tt.
Definition env_cache_invalidate (data len : Z) : K unit :=
  if RL_USE_DCACHE then do_os "sys_cache_data_invd_range" [data; len] else mret tt.

Definition env_isr (vector : Z) : K unit := deliver_isr RL_PLATFORM_MAX_ISR_COUNT vector.

(** *** Queues *)

Definition INT32_MAX : Z := 2147483647.

(** An element size of 0 divides by zero. *)
Definition env_create_queue (length element_size queue_static_storage queue_static_context : Z) : K (Z * option Z) :=
  if (length <? 0) || (element_size <? 0) then mret (-1, None)
  else if element_size =? 0 then undef
  else if INT32_MAX / element_size <? length then mret (-1, None)
  else
    queue_ptr ← (if RL_USE_STATIC_API then mret queue_static_context else env_allocate_memory (size_of "k_msgq"));
    msgq_buffer_ptr ← (if RL_USE_STATIC_API then mret queue_static_storage
                       else env_allocate_memory (length * element_size));
    if (queue_ptr =? NULL) || (msgq_buffer_ptr =? NULL) then mret (-1, None)
    else do_os "k_msgq_init" [queue_ptr; msgq_buffer_ptr; element_size; length];; mret (0, Some queue_ptr).

Definition env_delete_queue (queue : Z) : K unit :=
  do_os "k_msgq_purge" [queue];;
  if RL_USE_STATIC_API then mret tt
  else
    s ← get_state;
    env_free_memory (buffer_start queue (calls_made s));;
    env_free_memory queue.

Definition env_put_queue (queue msg timeout_ms : Z) : K Z :=
  timeout_ms ← no_wait_in_isr timeout_ms;
  r ← call_os "k_msgq_put" [queue; msg; K_MSEC timeout_ms];
  if r =? 0 then mret 1 else mret 0.

Definition env_get_queue (queue msg timeout_ms : Z) : K Z :=
  timeout_ms ← no_wait_in_isr timeout_ms;
  r ← call_os "k_msgq_get" [queue; msg; K_MSEC timeout_ms];
  if r =? 0 then mret 1 else mret 0.

Definition env_get_current_queue_size (queue : Z) : K Z := r ← call_os "k_msgq_num_used_get" [queue]; mret (i32 r).

End zephyr.
