(* ===== verification/Qnx.v ===== *)
(** * The QNX environment

    [rpmsg_env_qnx.c], a process of the application cores.  There is no static
    state: each instance has a context on the heap, with the table of handlers;
    [malloc] does not clear it, so that its first contents are a parameter
    ([fresh_context]).  [RL_ENV_MAX_MUTEX_COUNT] comes from a header that is not
    in the repository. *)

From S2P Require Import Prelude Config Concrete Kernel.

(** [env_context_t], with the two fields of [struct isr_info] by vector; the
    queues ([env_queue_t]). *)
Record env_context_t : Type := {
  platform_context : Z;
  ctx_pa : Z;
  ctx_va : Z;
  isr_data : Z → Z;
  isr_enabled : Z → Z;
}.
Record env_queue_t : Type := { mqd : Z; msg_len : Z }.
Record qnx_state : Type := {
  base : env_state;
  contexts : gmap Z env_context_t;
  queues : gmap Z env_queue_t;
}.
Abbreviation Q := (M qnx_state).

(** [rpmsg_env_init_t]: [user_input], with its [platform_cfg] when it is not
    NULL, and the addresses. *)
Record rpmsg_env_init_t : Type := { user_input : option Z; init_pa : Z; init_va : Z }.

Section qnx.
Context {os : Os} {cfg : Config}.
Context (fresh_context : Z → list call → env_context_t) (RL_ENV_MAX_MUTEX_COUNT : Z).

Definition set_base (s : qnx_state) (k : env_state) : qnx_state :=
  {| base := k; contexts := contexts s; queues := queues s |}.
Definition upd_contexts (f : gmap Z env_context_t → gmap Z env_context_t) (s : qnx_state) : qnx_state :=
  {| base := base s; contexts := f (contexts s); queues := queues s |}.
Definition upd_queues (f : gmap Z env_queue_t → gmap Z env_queue_t) (s : qnx_state) : qnx_state :=
  {| base := base s; contexts := contexts s; queues := f (queues s) |}.

Definition kcall {A} (m : K A) : Q A := λ s,
  match m (base s) with
  | Ok a k => Ok a (set_base s k)
  | Hang k => Hang (set_base s k)
  | Undef => Undef
  | Fuel => Fuel
  end.
Definition call_q (f : string) (xs : list Z) : Q Z := kcall (call_os f xs).
Definition do_q (f : string) (xs : list Z) : Q unit := kcall (do_os f xs).
Definition q_assert (b : bool) : Q unit := if b then mret tt else hang.
Definition log_q : Q (list call) := s ← get_state; mret (calls_made (base s)).

(** [ctx->...]. *)
Definition the_context (env : Z) : Q env_context_t :=
  s ← get_state; match contexts s !! env with Some c => mret c | None => undef end.
Definition put_context (env : Z) (c : env_context_t) : Q unit := modify (upd_contexts <[env := c]>).
Definition the_queue (queue : Z) : Q env_queue_t :=
  s ← get_state; match queues s !! queue with Some q => mret q | None => undef end.

(** *** Memory and strings *)

Definition env_allocate_memory (size : Z) : Q Z := call_q "malloc" [size].
Definition env_free_memory (ptr : Z) : Q unit := do_q "free" [ptr].
Definition env_memset (ptr value size : Z) : Q unit := do_q "memset" [ptr; memset_value value; size].
Definition env_memcpy (dst src len : Z) : Q unit := do_q "memcpy" [dst; src; len].
Definition env_strcmp (dst src : Z) : Q Z := call_q "strcmp" [dst; src].
Definition env_strncpy (dest src len : Z) : Q unit := do_q "strncpy" [dest; src; len].
Definition env_strncmp (dest src len : Z) : Q Z := call_q "strncmp" [dest; src; len].
Definition env_mb : Q unit := do_q "dsb" [].
Definition env_rmb : Q unit := do_q "dsb" [].
Definition env_wmb : Q unit := do_q "dsb" [].
Definition env_map_vatopa (env address : Z) : Z := u32 address.
Definition env_map_patova (env address : Z) : Z := address.
Definition env_get_platform_context (env_context : Z) : Q Z := c ← the_context env_context; mret (platform_context c).

(** *** Initialisation *)

Definition fill_context (pa va : Z) (c : env_context_t) : env_context_t :=
  {| platform_context := platform_context c; ctx_pa := pa; ctx_va := va;
     isr_data := isr_data c; isr_enabled := isr_enabled c |}.
Definition set_platform_context (p : Z) (c : env_context_t) : env_context_t :=
  {| platform_context := p; ctx_pa := ctx_pa c; ctx_va := ctx_va c;
     isr_data := isr_data c; isr_enabled := isr_enabled c |}.

Definition env_init (init : option rpmsg_env_init_t) : Q (Z * option Z) :=
  match init with
  | Some init =>
      ctx ← env_allocate_memory (size_of "env_context_t");
      if ctx =? NULL then mret (-1, None)
      else
        l ← log_q;
        put_context ctx (fill_context (init_pa init) (init_va init) (fresh_context ctx l));;
        r ← call_q "platform_init" [ctx; default NULL (user_input init)];
        l ← log_q;
        c ← the_context ctx;
        put_context ctx (set_platform_context (stored "platform_context" l) c);;
        if negb (r =? 0) then
          env_free_memory ctx;; modify (upd_contexts (delete ctx));; mret (-1, None)
        else mret (0, Some ctx)
  | None => mret (-1, None)
  end.

Definition env_deinit (env_context : Z) : Q Z :=
  c ← the_context env_context;
  do_q "platform_deinit" [platform_context c];;
  env_free_memory env_context;; modify (upd_contexts (delete env_context));;
  mret 0.

(** *** Mutexes: here the handle is stored before it is known to be good. *)

Definition env_create_mutex (count context : Z) : Q (Z * option Z) :=
  if RL_ENV_MAX_MUTEX_COUNT <? count then mret (-1, None)
  else
    lock ← (if RL_USE_STATIC_API then mret context else env_allocate_memory (size_of "pthread_mutex_t"));
    if lock =? NULL then mret (-1, Some lock)
    else
      r ← call_q "pthread_mutex_init" [lock; NULL];
      if r =? EOK then mret (0, Some lock)
      else (if RL_USE_STATIC_API then mret tt else env_free_memory lock);; mret (-1, Some lock).
Definition env_delete_mutex (lock : Z) : Q unit :=
  do_q "pthread_mutex_destroy" [lock];;
  if RL_USE_STATIC_API then mret tt else env_free_memory lock.
Definition env_lock_mutex (lock : Z) : Q unit := do_q "pthread_mutex_lock" [lock].
Definition env_unlock_mutex (lock : Z) : Q unit := do_q "pthread_mutex_unlock" [lock].
Definition env_create_sync_lock (state context : Z) : Q (Z * option Z) := env_create_mutex state context.
Definition env_delete_sync_lock (lock : Z) : Q unit :=
  if negb (lock =? NULL) then env_delete_mutex lock else mret tt.

(** *** Time, and waiting for the link *)

Definition env_sleep_msec (num_msec : Z) : Q unit := do_q "delay" [num_msec].
Definition env_tx_callback (link_id : Z) : Q unit := mret tt.
Definition env_get_timestamp : Q Z := do_q "fprintf" [];; mret 0.

Fixpoint wait_loop (fuel : nat) (link_state : list call → Z) (tick_count timeout_ms : Z) : Q Z :=
  match fuel with
  | O => no_fuel
  | S fuel' =>
      l ← log_q;
      if link_state l =? 1 then mret 1
      else
        env_sleep_msec RL_MS_PER_INTERVAL;;
        if negb (timeout_ms =? RL_BLOCK) then
          let tick_temp := u32 (tick_count + u32 RL_MS_PER_INTERVAL) in
          if (tick_temp <? tick_count) || (timeout_ms <=? tick_temp) then mret 0
          else wait_loop fuel' link_state tick_temp timeout_ms
        else wait_loop fuel' link_state tick_count timeout_ms
  end.
Definition env_wait_for_link_up (fuel : nat) (link_state : list call → Z) (link_id timeout_ms : Z) : Q Z :=
  wait_loop fuel link_state 0 timeout_ms.

(** *** Interrupts and caches *)

Definition set_isr (vector_id : Z) (data enabled : Z) (c : env_context_t) : env_context_t :=
  {| platform_context := platform_context c; ctx_pa := ctx_pa c; ctx_va := ctx_va c;
     isr_data := λ v, if v =? vector_id then data else isr_data c v;
     isr_enabled := λ v, if v =? vector_id then enabled else isr_enabled c v |}.

Definition env_register_isr (env vector_id data : Z) : Q unit :=
  (if vector_id <? RL_PLATFORM_MAX_ISR_COUNT
   then c ← the_context env; put_context env (set_isr vector_id data (isr_enabled c vector_id) c) else mret tt);;
  q_assert (vector_id <? RL_PLATFORM_MAX_ISR_COUNT).
Definition env_unregister_isr (env vector_id : Z) : Q unit :=
  (if vector_id <? RL_PLATFORM_MAX_ISR_COUNT
   then c ← the_context env; put_context env (set_isr vector_id NULL 0 c) else mret tt);;
  q_assert (vector_id <? RL_PLATFORM_MAX_ISR_COUNT).
Definition enable (env vector_id enabled : Z) : Q unit :=
  q_assert (vector_id <? RL_PLATFORM_MAX_ISR_COUNT);;
  if vector_id <? RL_PLATFORM_MAX_ISR_COUNT
  then c ← the_context env; put_context env (set_isr vector_id (isr_data c vector_id) enabled c) else mret tt.
Definition env_enable_interrupt (env vector_id : Z) : Q unit := enable env vector_id 1.
Definition env_disable_interrupt (env vector_id : Z) : Q unit := enable env vector_id 0.
Definition env_isr (env vector : Z) : Q unit :=
  (if vector <? RL_PLATFORM_MAX_ISR_COUNT
   then
     c ← the_context env;
     if negb (isr_enabled c vector =? 0) then do_q "virtqueue_notification" [isr_data c vector] else mret tt
   else mret tt);;
  q_assert (vector <? RL_PLATFORM_MAX_ISR_COUNT).
Definition env_init_interrupt (env vq_id isr_data : Z) : Q Z := env_register_isr env vq_id isr_data;; mret 0.
Definition env_deinit_interrupt (env vq_id : Z) : Q Z := env_unregister_isr env vq_id;; mret 0.
Definition env_map_memory (pa va size flags : Z) : Q unit := do_q "platform_map_mem_region" [va; pa; size; flags].
Definition env_disable_cache : Q unit :=
  do_q "platform_cache_all_flush_invalidate" [];; do_q "platform_cache_disable" [].
Definition env_cache_flush (data len : Z) : Q unit :=
  if RL_USE_DCACHE then do_q "platform_cache_flush" [data; len] else mret tt.
Definition env_cache_invalidate (data len : Z) : Q unit :=
  if RL_USE_DCACHE then do_q "platform_cache_invalidate" [data; len] else mret tt.

(** *** Queues: message queues of the process manager, named after the process
    and the control block. *)

Definition env_create_queue (length element_size queue_static_storage queue_static_context : Z) : Q (Z * option Z) :=
  if (length <? 0) || (element_size <? 0) then mret (-1, Some NULL)
  else
    q ← (if RL_USE_STATIC_API then mret queue_static_context else env_allocate_memory (size_of "env_queue_t"));
    if q =? NULL then mret (-1, None)
    else
      pid ← call_q "getpid" [];
      m ← call_q "mq_open" [pid; q; length; element_size];
      modify (upd_queues <[q := {| mqd := m; msg_len := element_size |}]>);;
      if m =? -1 then
        (if RL_USE_STATIC_API then mret tt
         else env_free_memory q;; modify (upd_queues (delete q)));;
        do_q "fprintf" [];;
        mret (-1, None)
      else mret (0, Some q).
Definition env_delete_queue (queue : Z) : Q unit :=
  q ← the_queue queue;
  do_q "mq_close" [mqd q];;
  if RL_USE_STATIC_API then mret tt else env_free_memory queue;; modify (upd_queues (delete queue)).
Definition env_put_queue (queue msg timeout_ms : Z) : Q Z :=
  q ← the_queue queue;
  r ← call_q "mq_send" [mqd q; msg; msg_len q; 0];
  if negb (r =? 0) then do_q "fprintf" [];; mret 0 else mret 1.
Definition env_get_queue (queue msg timeout_ms : Z) : Q Z :=
  q ← the_queue queue;
  r ← call_q "mq_receive" [mqd q; msg; msg_len q; NULL];
  if r =? -1 then do_q "fprintf" [];; mret 0 else mret 1.
Definition env_get_current_queue_size (queue : Z) : Q Z :=
  q ← the_queue queue;
  r ← call_q "mq_getattr" [mqd q];
  l ← log_q;
  if negb (r =? -1) then mret (stored "mq_curmsgs" l) else mret 0.

(** ** Delivery of notifications

    What is on record for a vector: the handler's data and whether it is
    enabled. *)
Inductive handling : Type := Register (v d : Z) | Unregister (v : Z) | Enable (v : Z) | Disable (v : Z).
Definition vector_of (h : handling) : Z :=
  match h with Register v _ | Unregister v | Enable v | Disable v => v end.
Fixpoint handle (env : Z) (hs : list handling) : Q unit :=
  match hs with
  | [] => mret tt
  | h :: hs' =>
      (match h with
       | Register v d => _ ← env_init_interrupt env v d; mret tt
       | Unregister v => _ ← env_deinit_interrupt env v; mret tt
       | Enable v => env_enable_interrupt env v
       | Disable v => env_disable_interrupt env v
       end);;
      handle env hs'
  end.
Definition handled (h : handling) (v : Z) (x : Z * Z) : Z * Z :=
  if vector_of h =? v then
    match h with
    | Register _ d => (d, x.2) | Unregister _ => (NULL, 0) | Enable _ => (x.1, 1) | Disable _ => (x.1, 0)
    end
  else x.
Definition on_record (hs : list handling) (v : Z) (x : Z * Z) : Z * Z := fold_left (λ x h, handled h v x) hs x.

(** The rest of the state. *)
Definition same_but (env : Z) (s s' : qnx_state) : Prop :=
  base s' = base s ∧ queues s' = queues s ∧ ∀ env', env' ≠ env → contexts s' !! env' = contexts s !! env'.

Lemma the_context_run env c s : contexts s !! env = Some c → the_context env s = Ok c s.
Proof. intros Hc. unfold the_context, mbind, M_bind, get_state. by rewrite Hc. Qed.

Definition with_context (env : Z) (c : env_context_t) (s : qnx_state) : qnx_state := upd_contexts <[env := c]> s.

Lemma handle_step env h c s :
  contexts s !! env = Some c → vector_of h < RL_PLATFORM_MAX_ISR_COUNT →
  ∃ c', (match h with
         | Register v d => _ ← env_init_interrupt env v d; mret tt
         | Unregister v => _ ← env_deinit_interrupt env v; mret tt
         | Enable v => env_enable_interrupt env v
         | Disable v => env_disable_interrupt env v
         end) s = Ok tt (with_context env c' s) ∧
    ∀ v, (isr_data c' v, isr_enabled c' v) = handled h v (isr_data c v, isr_enabled c v).
Proof.
  intros Hc Hv%Z.ltb_lt. destruct h as [v d|v|v|v]; cbn [vector_of] in Hv; eexists;
    (split;
      [unfold env_init_interrupt, env_deinit_interrupt, env_register_isr, env_unregister_isr, env_enable_interrupt,
         env_disable_interrupt, enable, q_assert; rewrite Hv; unfold mbind, M_bind, mret, M_ret;
       rewrite (the_context_run env c s Hc); reflexivity|]);
    intros w; unfold handled, set_isr; cbn; rewrite (Z.eqb_sym w v); destruct (Z.eqb_spec v w) as [->|]; done.
Qed.

Lemma handle_run env hs c s :
  contexts s !! env = Some c → Forall (λ h, vector_of h < RL_PLATFORM_MAX_ISR_COUNT) hs →
  ∃ c' s', handle env hs s = Ok tt s' ∧ contexts s' !! env = Some c' ∧ same_but env s s' ∧
    ∀ v, (isr_data c' v, isr_enabled c' v) = on_record hs v (isr_data c v, isr_enabled c v).
Proof.
  revert c s. induction hs as [|h hs IH]; intros c s Hc Hhs; cbn [handle].
  - exists c, s. split_and!; try done.
  - inversion Hhs as [|? ? Hh Hhs']; subst. destruct (handle_step env h c s Hc Hh) as (c1 & Hrun & Hc1).
    destruct (IH c1 (with_context env c1 s)) as (c' & s' & Hrun' & Hc' & (Hb & Hq & Hother) & Hrec); [|done|].
    { unfold with_context; cbn. by rewrite lookup_insert_eq. }
    exists c', s'. rewrite (bind_ok _ _ _ _ _ Hrun), Hrun'. split; [done|]. split; [done|]. split.
    + split_and!; [done|done|]. intros env' Hne. rewrite Hother by done. cbn. by rewrite lookup_insert_ne.
    + intros v. rewrite Hrec. cbn. by rewrite Hc1.
Qed.

(** On QNX, after any calls that register, enable, disable and unregister
    handlers of an instance, [env_isr] notifies the virtqueue registered last if
    the vector was enabled since, once, and does nothing if it was disabled or
    unregistered; other instances are not affected.  Before its first
    registration a vector has whatever the allocator left in the context. *)
Theorem qnx_delivery env hs c s :
  contexts s !! env = Some c → Forall (λ h, vector_of h < RL_PLATFORM_MAX_ISR_COUNT) hs →
  ∃ s', handle env hs s = Ok tt s' ∧ same_but env s s' ∧
    ∀ v, v < RL_PLATFORM_MAX_ISR_COUNT →
      let x := on_record hs v (isr_data c v, isr_enabled c v) in
      ∃ r, env_isr env v s' =
        Ok tt (if x.2 =? 0 then s' else set_base s' (made [Call "virtqueue_notification" [x.1] r] (base s'))).
Proof.
  intros Hc Hhs. destruct (handle_run env hs c s Hc Hhs) as (c' & s' & Hrun & Hc' & Hsame & Hrec).
  exists s'. split; [done|]. split; [done|]. intros v Hv%Z.ltb_lt. cbv zeta. rewrite <- Hrec. cbn.
  eexists. unfold env_isr, q_assert. rewrite Hv. unfold mbind, M_bind. rewrite (the_context_run env c' s' Hc').
  destruct (isr_enabled c' v =? 0); cbn; reflexivity.
Qed.

(** Waiting for the link with a finite timeout returns, after at most as many
    polls as intervals begin within it. *)
Lemma qnx_wait_returns {cok : ConfigOk cfg} fuel link_state tick timeout_ms s :
  0 ≤ tick < 4294967296 → timeout_ms ≠ RL_BLOCK → timeout_ms ≤ tick + Z.of_nat fuel * RL_MS_PER_INTERVAL → (0 < fuel)%nat →
  ∃ r s', wait_loop fuel link_state tick timeout_ms s = Ok r s' ∧ (r = 0 ∨ r = 1 ∧ link_state (calls_made (base s')) = 1).
Proof.
  intros Ht Hb. pose proof cfg_interval as Hi. revert tick s Ht.
  induction fuel as [|fuel IH]; intros tick s Ht Hle Hf; [lia|]. cbn [wait_loop].
  unfold log_q, env_sleep_msec, do_q, do_os, call_os, kcall, mbind, M_bind, get_state, mret, M_ret. cbn -[Z.eqb Z.add Z.of_nat].
  destruct (Z.eqb_spec (link_state (calls_made (base s))) 1) as [Hup|_]; [by exists 1, s; auto|].
  rewrite (proj2 (Z.eqb_neq _ _) Hb). cbn -[Z.eqb Z.add Z.of_nat]. rewrite (u32_small RL_MS_PER_INTERVAL) by lia.
  destruct (Z.ltb_spec (u32 (tick + RL_MS_PER_INTERVAL)) tick) as [|Hge]; cbn -[Z.eqb Z.add Z.of_nat]; [by eexists _, _; eauto|].
  destruct (Z.leb_spec timeout_ms (u32 (tick + RL_MS_PER_INTERVAL))) as [|Hlt]; [by eexists _, _; eauto|].
  pose proof (u32_range (tick + RL_MS_PER_INTERVAL)).
  assert (u32 (tick + RL_MS_PER_INTERVAL) = tick + RL_MS_PER_INTERVAL) as Hu.
  { destruct (Z.lt_ge_cases (tick + RL_MS_PER_INTERVAL) 4294967296); [apply u32_small; lia|].
    revert Hge. unfold u32. rewrite <- (Z.mod_unique (tick + RL_MS_PER_INTERVAL) 4294967296 1 (tick + RL_MS_PER_INTERVAL - 4294967296)) by lia.
    lia. }
  rewrite Hu in *. apply IH; lia.
Qed.

(** What a fresh context delivers is arbitrary; a failing [env_init] gives the
    context back. *)
Lemma qnx_init_result init s :
  (∃ ctx c s', env_init (Some init) s = Ok (0, Some ctx) s' ∧ ctx ≠ NULL ∧ contexts s' !! ctx = Some c ∧
     ctx_pa c = init_pa init ∧ ctx_va c = init_va init ∧
     ∃ l, ∀ v, isr_data c v = isr_data (fresh_context ctx l) v ∧ isr_enabled c v = isr_enabled (fresh_context ctx l) v) ∨
  ∃ s', env_init (Some init) s = Ok (-1, None) s' ∧
    ((∀ ctx, contexts s !! ctx = None → contexts s' !! ctx = None) ∧
     ∀ h, balance "malloc" "free" None h (calls_made (base s')) = balance "malloc" "free" None h (calls_made (base s))).
Proof.
  unfold env_init, env_allocate_memory, env_free_memory, call_q, do_q, log_q, put_context, kcall, mbind, M_bind,
    get_state, modify, mret, M_ret. cbn -[Z.eqb Z.add Z.sub].
  set (ctx := answer "malloc" _ _). destruct (Z.eqb_spec ctx NULL) as [Hz|Hne].
  { right. eexists. split; [reflexivity|]. split; [done|]. intros h. cbn -[Z.eqb Z.add Z.sub]. rewrite Hz.
    destruct (Z.eqb_spec NULL h), (Z.eqb_spec h NULL); cbn; lia || congruence. }
  unfold the_context, mbind, M_bind, get_state. cbn -[Z.eqb Z.add Z.sub]. rewrite lookup_insert_eq. cbn -[Z.eqb Z.add Z.sub].
  destruct (answer "platform_init" _ _ =? 0); cbn -[Z.eqb Z.add Z.sub].
  - left. eexists _, _, _. split; [reflexivity|]. split; [done|]. cbn. rewrite lookup_insert_eq.
    split; [reflexivity|]. split; [done|]. split; [done|]. by eexists.
  - right. eexists. split; [reflexivity|]. split.
    + intros x Hx. cbn. destruct (decide (ctx = x)) as [->|]; [by rewrite lookup_delete_eq|].
      by rewrite lookup_delete_ne, !lookup_insert_ne.
    + intros h. cbn -[Z.eqb Z.add Z.sub]. destruct (Z.eqb_spec ctx h) as [->|], (Z.eqb_spec h NULL); cbn; lia || congruence.
Qed.

End qnx.

(** Vector 1 of an instance: registered, enabled; vector 0: registered only. *)
Definition some_context : env_context_t :=
  {| platform_context := 0; ctx_pa := 0; ctx_va := 0; isr_data := λ _, 0; isr_enabled := λ _, 0 |}.
Definition one_instance : qnx_state := {| base := start; contexts := {[ 8192 := some_context ]}; queues := ∅ |}.

Lemma qnx_delivery_witness :
  ∃ s' r, @handle default_config 8192 [Register 1 100; Register 0 200; Enable 1] one_instance = Ok tt s' ∧
    @env_isr granting_os default_config 8192 1 s' =
      Ok tt (set_base s' (made [Call "virtqueue_notification" [100] r] (base s'))).
Proof.
  destruct (@qnx_delivery granting_os default_config 8192 [Register 1 100; Register 0 200; Enable 1] some_context one_instance)
    as (s' & Hrun & _ & Hisr).
  - reflexivity.
  - repeat constructor.
  - destruct (Hisr 1 eq_refl) as (r & Hr). exists s', r. split; [exact Hrun|exact Hr].
Defined.
