(* ===== verification/EnvPorts.v ===== *)
(** * The environments of ThreadX, XOS and Zephyr

    Their [env_init] and [env_deinit] count; [CountedInit] is what each of them
    promises on a kernel that grants what it is asked, [RunningInit] what it
    promises on any kernel, [env_ports_nest] what follows for any sequence of
    calls.
    [env_objects_released] follows the objects of the kernel and the blocks of
    the heap through the creation and deletion of locks and queues,
    [env_ports_wait] the waits for a link and their timeouts. *)

From S2P Require Import Prelude Config Kernel ThreadX Xos Zephyr.

Section ports.
Context {os : Os} {cfg : Config}.

(** ** Initialisation *)

(** A port: its two functions, the names of the calls that enter and leave a
    critical section, the count of [env_sema] in a record of calls, and the
    count outside of [env_init]. *)
Record port : Type := {
  p_init : K Z;
  p_deinit : K Z;
  p_enter : string;
  p_leave : string;
  p_gate : list call → Z;
  p_open : Z;
}.

Definition second (l : list Z) : Z := match l with _ :: x :: _ => x | _ => 0 end.
Definition third (l : list Z) : Z := match l with _ :: _ :: x :: _ => x | _ => 0 end.

Definition threadx_port : port := {|
  p_init := ThreadX.env_init; p_deinit := ThreadX.env_deinit;
  p_enter := "DisableGlobalIRQ"; p_leave := "EnableGlobalIRQ";
  p_gate := sem_count "tx_semaphore_create" "tx_semaphore_get" "tx_semaphore_put" third TX_SUCCESS ThreadX.env_sema;
  p_open := 1 |}.
Definition xos_port : port := {|
  p_init := Xos.env_init; p_deinit := Xos.env_deinit;
  p_enter := "xos_disable_interrupts"; p_leave := "xos_restore_interrupts";
  p_gate := sem_count "xos_sem_create" "xos_sem_get" "xos_sem_put" third XOS_OK Xos.env_sema;
  p_open := 2 |}.
Definition zephyr_port : port := {|
  p_init := Zephyr.env_init; p_deinit := Zephyr.env_deinit;
  p_enter := "k_sched_lock"; p_leave := "k_sched_unlock";
  p_gate := sem_count "k_sem_init" "k_sem_take" "k_sem_give" second 0 Zephyr.env_sema;
  p_open := 1 |}.
Definition ports : list port := [threadx_port; xos_port; zephyr_port].

(** The calls of [platform_init] and [platform_deinit], newest first. *)
Fixpoint platform_calls (l : list call) : list string :=
  match l with
  | [] => []
  | c :: l' =>
      (if String.eqb (fn c) "platform_init" || String.eqb (fn c) "platform_deinit" then [fn c] else []) ++
      platform_calls l'
  end.

(** The counter is [d], no critical section is open, and the gate is open when
    the environment is initialised. *)
Definition counted (p : port) (d : Z) (s : env_state) : Prop :=
  0 ≤ d ∧ env_init_counter s = d ∧ sections (p_enter p) (p_leave p) (calls_made s) = 0 ∧
  (0 < d → p_gate p (calls_made s) = p_open p).

(** Without the gate: what holds whatever the kernel answers. *)
Definition running (p : port) (d : Z) (s : env_state) : Prop :=
  0 ≤ d ∧ env_init_counter s = d ∧ sections (p_enter p) (p_leave p) (calls_made s) = 0.

(** The moment of a call in a record, and its answer. *)
Definition at_call (f : string) (r : Z) (Q : list call → Prop) (l : list call) : Prop :=
  ∃ l1 c l2, l = l1 ++ c :: l2 ∧ fn c = f ∧ ret c = r ∧ Q l2.

(** What a port promises: the first [env_init] initialises the platform, outside
    of the critical section and while the gate lets [p_open - 1] other callers
    through, and passes its answer on; the last [env_deinit] releases it inside;
    the calls in between do not touch it, nor the table. *)
Class CountedInit (p : port) : Prop := {
  ci_init d s : counted p d s →
    ∃ r s', p_init p s = Ok r s' ∧ counted p (d + 1) s' ∧
      if d =? 0
      then platform_calls (calls_made s') = "platform_init" :: platform_calls (calls_made s) ∧ isr_table s' = ∅ ∧
        at_call "platform_init" r (λ l, p_gate p l = p_open p - 1 ∧ sections (p_enter p) (p_leave p) l = 0) (calls_made s')
      else r = 0 ∧ platform_calls (calls_made s') = platform_calls (calls_made s) ∧ isr_table s' = isr_table s;
  ci_deinit d s : counted p d s → 0 < d →
    ∃ r s', p_deinit p s = Ok r s' ∧ counted p (d - 1) s' ∧
      if d =? 1
      then platform_calls (calls_made s') = "platform_deinit" :: platform_calls (calls_made s) ∧ isr_table s' = ∅ ∧
        at_call "platform_deinit" r (λ l, sections (p_enter p) (p_leave p) l = 1) (calls_made s')
      else r = 0 ∧ platform_calls (calls_made s') = platform_calls (calls_made s) ∧ isr_table s' = isr_table s;
}.

(** The first lines of [env_init] and [env_deinit]. *)
Lemma succ_is_one d : (d + 1 =? 1) = (d =? 0).
Proof. destruct (Z.eqb_spec d 0), (Z.eqb_spec (d + 1) 1); lia. Qed.
Lemma pred_is_zero d : 0 < d → (d - 1 <=? 0) = (d =? 1).
Proof. intros. destruct (Z.eqb_spec d 1), (Z.leb_spec (d - 1) 0); lia. Qed.

(** What is left of [counted]: sums of the record. *)
Ltac by_tally := try (intros _); tally; cbn -[Z.add Z.sub Z.eqb] in *; lia.
Ltac settle := match goal with
  | |- counted _ _ _ => split; [lia|split; [cbn; lia|split; by_tally]]
  | |- running _ _ _ => split; [lia|split; [cbn; lia|by_tally]]
  | |- _ => first [done|by_tally]
  end.

(** The start of [env_init] and [env_deinit] up to the test of the counter. *)
Ltac begin_init d Hd Hc :=
  apply wp_exists; call_steps; apply wp_assert; [cbn; lia|]; cbn [env_init_counter made];
  rewrite Hc, (proj2 (Z.ltb_ge d 0) Hd); call_steps; rewrite succ_is_one; destruct (Z.eqb_spec d 0) as [->|?].
Ltac begin_deinit d Hpos Hc :=
  apply wp_exists; call_steps; apply wp_assert; [cbn; lia|]; cbn [env_init_counter made];
  rewrite Hc, (proj2 (Z.leb_gt d 0) Hpos); call_steps; rewrite (pred_is_zero d Hpos);
  destruct (Z.eqb_spec d 1) as [->|?]; call_steps.

Lemma threadx_counted :
  (∀ xs l, answer "tx_semaphore_create" xs l = TX_SUCCESS) → CountedInit threadx_port.
Proof.
  intros Hsem. split; intros d s (Hd & Hc & Hsec & Hgate); cbn [p_init p_deinit threadx_port].
  - unfold ThreadX.env_init. begin_init d Hd Hc.
    + rewrite wp_bind. apply wp_call. intros r1 ->. rewrite Hsem, Z.eqb_refl. cbn [negb]. call_steps.
      split_and!; [settle..|]. eexists [_], _, _. split; [reflexivity|]. split; [done|]. split; [done|]. split; settle.
    + specialize (Hgate ltac:(lia)). call_steps. ask; (split_and!; settle).
  - intros Hpos. unfold ThreadX.env_deinit. begin_deinit d Hpos Hc.
    + split_and!; [settle..|]. eexists [_; _; _; _; _], _, _. split; [reflexivity|]. split; [done|]. split; [done|]. settle.
    + split_and!; settle.
Qed.

Lemma xos_counted : CountedInit xos_port.
Proof.
  split; intros d s (Hd & Hc & Hsec & Hgate); cbn [p_init p_deinit xos_port].
  - unfold Xos.env_init. begin_init d Hd Hc.
    + call_steps. split_and!; [settle..|]. eexists [_], _, _. split; [reflexivity|]. split; [done|]. split; [done|]. split; settle.
    + specialize (Hgate ltac:(lia)). call_steps. ask; (split_and!; settle).
  - intros Hpos. unfold Xos.env_deinit. begin_deinit d Hpos Hc.
    + split_and!; [settle..|]. eexists [_; _; _], _, _. split; [reflexivity|]. split; [done|]. split; [done|]. settle.
    + split_and!; settle.
Qed.

Lemma zephyr_counted :
  (∀ xs l, answer "k_sem_take" xs l = 0) → CountedInit zephyr_port.
Proof.
  intros Htake. split; intros d s (Hd & Hc & Hsec & Hgate); cbn [p_init p_deinit zephyr_port].
  - unfold Zephyr.env_init. begin_init d Hd Hc.
    + call_steps. split_and!; [settle..|]. eexists [_], _, _. split; [reflexivity|]. split; [done|]. split; [done|]. split; settle.
    + specialize (Hgate ltac:(lia)). rewrite wp_bind. apply wp_do. intros r1 _. cbn beta.
      rewrite wp_bind. apply wp_do. intros r2 ->. rewrite Htake. cbn beta. call_steps. split_and!; settle.
  - intros Hpos. unfold Zephyr.env_deinit. begin_deinit d Hpos Hc.
    + split_and!; [settle..|]. eexists [_; _], _, _. split; [reflexivity|]. split; [done|]. split; [done|]. settle.
    + split_and!; settle.
Qed.

(** A kernel on which creating and taking a semaphore succeed. *)
Definition sound_kernel : Prop :=
  (∀ xs l, answer "tx_semaphore_create" xs l = TX_SUCCESS) ∧ ∀ xs l, answer "k_sem_take" xs l = 0.

Lemma ports_counted p : sound_kernel → p ∈ ports → CountedInit p.
Proof.
  intros [Hc Ht] Hin. unfold ports in Hin.
  repeat (apply elem_of_cons in Hin as [->|Hin]; [auto using threadx_counted, xos_counted, zephyr_counted|]).
  by apply elem_of_nil in Hin.
Qed.

(** A sequence of calls, the answers, and how often the environment is in use
    afterwards. *)
Inductive use : Type := Begin | Finish.
Fixpoint uses (p : port) (h : list use) : K (list Z) :=
  match h with
  | [] => mret []
  | u :: h' => r ← (if u is Begin then p_init p else p_deinit p); rs ← uses p h'; mret (r :: rs)
  end.
Definition after (u : use) (d : Z) : Z := if u is Begin then d + 1 else d - 1.
Fixpoint level (h : list use) (d : Z) : Z := match h with [] => d | u :: h' => level h' (after u d) end.
Fixpoint balanced (h : list use) (d : Z) : Prop :=
  match h with [] => True | u :: h' => (u = Finish → 0 < d) ∧ balanced h' (after u d) end.

(** The call of the platform that belongs to a call, and whether the answer is
    the platform's. *)
Definition outermost (u : use) (d : Z) : option string :=
  match u with
  | Begin => if d =? 0 then Some "platform_init" else None
  | Finish => if d =? 1 then Some "platform_deinit" else None
  end.
Fixpoint touches (h : list use) (d : Z) : list (option string) :=
  match h with [] => [] | u :: h' => outermost u d :: touches h' (after u d) end.

Lemma use_step p u d s `{!CountedInit p} :
  counted p d s → (u = Finish → 0 < d) →
  ∃ r s', (if u is Begin then p_init p else p_deinit p) s = Ok r s' ∧ counted p (after u d) s'.
Proof.
  intros Hs Hu. destruct u; cbn [after].
  - destruct (ci_init d s Hs) as (r & s' & Hrun & Hs' & _). by exists r, s'.
  - destruct (ci_deinit d s Hs (Hu eq_refl)) as (r & s' & Hrun & Hs' & _). by exists r, s'.
Qed.

(** What a call with answer [r] did to the platform ([t]), when it should do [o]:
    on ThreadX a first [env_init] whose semaphore the kernel refuses answers -1
    and leaves the platform alone. *)
Definition did (p : port) (o : option string) (r : Z) (t : option string) : Prop :=
  t = o ∧ (o = None → r = 0) ∨
  p = threadx_port ∧ o = Some "platform_init" ∧ t = None ∧ r = -1 ∧
    ∃ xs l, answer "tx_semaphore_create" xs l ≠ TX_SUCCESS.

Class RunningInit (p : port) : Prop := {
  ri_step u d s : running p d s → (u = Finish → 0 < d) →
    ∃ r s', (if u is Begin then p_init p else p_deinit p) s = Ok r s' ∧ running p (after u d) s' ∧
      ∃ t, did p (outermost u d) r t ∧ platform_calls (calls_made s') = option_list t ++ platform_calls (calls_made s);
}.

(** The call reached the platform as it should. *)
Ltac done_call := eexists; split; [left; split; [reflexivity|done]|]; settle.

Lemma threadx_running : RunningInit threadx_port.
Proof.
  split. intros [] d s (Hd & Hc & Hsec) Hpos; cbn [p_init p_deinit threadx_port after outermost].
  - unfold ThreadX.env_init. begin_init d Hd Hc.
    + rewrite wp_bind. apply wp_call. intros r1 Hr1. destruct (Z.eqb_spec r1 TX_SUCCESS) as [|Hne]; cbn [negb]; call_steps.
      * split; [settle|]. done_call.
      * split; [settle|]. exists None. split; [|settle]. right. split_and!; try done. eexists _, _. by rewrite <- Hr1.
    + call_steps. ask; (split; [settle|done_call]).
  - specialize (Hpos eq_refl). unfold ThreadX.env_deinit. begin_deinit d Hpos Hc; (split; [settle|done_call]).
Qed.

Lemma xos_running : RunningInit xos_port.
Proof.
  split. intros [] d s (Hd & Hc & Hsec) Hpos; cbn [p_init p_deinit xos_port after outermost].
  - unfold Xos.env_init. begin_init d Hd Hc.
    + call_steps. split; [settle|done_call].
    + call_steps. ask; (split; [settle|done_call]).
  - specialize (Hpos eq_refl). unfold Xos.env_deinit. begin_deinit d Hpos Hc; (split; [settle|done_call]).
Qed.

Lemma zephyr_running : RunningInit zephyr_port.
Proof.
  split. intros [] d s (Hd & Hc & Hsec) Hpos; cbn [p_init p_deinit zephyr_port after outermost].
  - unfold Zephyr.env_init. begin_init d Hd Hc.
    + call_steps. split; [settle|done_call].
    + call_steps. split; [settle|done_call].
  - specialize (Hpos eq_refl). unfold Zephyr.env_deinit. begin_deinit d Hpos Hc; (split; [settle|done_call]).
Qed.

Lemma ports_running p : p ∈ ports → RunningInit p.
Proof.
  intros Hin. unfold ports in Hin.
  repeat (apply elem_of_cons in Hin as [->|Hin]; [auto using threadx_running, xos_running, zephyr_running|]).
  by apply elem_of_nil in Hin.
Qed.

(** Every call of a sequence, with its answer and what it did. *)
Fixpoint did_all (p : port) (os : list (option string)) (rs : list Z) (ts : list (option string)) : Prop :=
  match os, rs, ts with
  | [], [], [] => True
  | o :: os', r :: rs', t :: ts' => did p o r t ∧ did_all p os' rs' ts'
  | _, _, _ => False
  end.

(** C32.  On ThreadX, XOS and Zephyr, whatever the kernel answers, any sequence
    of [env_init] and [env_deinit] in which no [env_deinit] comes too many
    returns, and leaves the counter right and no critical section open; the
    outermost calls reach the platform, in order, the others do not and answer 0.
    There is one exception: on ThreadX a first [env_init] whose semaphore the
    kernel refuses answers -1, is counted, and leaves the platform alone.  On a
    kernel that creates and takes semaphores there is none, and the gate is open
    whenever the environment is initialised. *)
Theorem env_ports_nest p h d s :
  p ∈ ports → running p d s → balanced h d →
  ∃ rs ts s', uses p h s = Ok rs s' ∧ running p (level h d) s' ∧
    did_all p (touches h d) rs ts ∧
    platform_calls (calls_made s') = rev (omap id ts) ++ platform_calls (calls_made s) ∧
    (sound_kernel → ts = touches h d ∧ (counted p d s → counted p (level h d) s')).
Proof.
  intros Hp. pose proof (ports_running p Hp) as Hri. revert d s.
  induction h as [|u h IH]; intros d s Hs Hb; cbn [uses level balanced touches] in *.
  - exists [], [], s. by split_and!.
  - destruct Hb as [Hu Hb]. destruct (ri_step u d s Hs Hu) as (r & s1 & Hrun & Hs1 & t & Ht & Hpc).
    destruct (IH (after u d) s1 Hs1 Hb) as (rs & ts & s' & Hruns & Hs' & Hts & Hpc' & Hsound).
    exists (r :: rs), (t :: ts), s'. rewrite (bind_ok _ _ _ _ _ Hrun), (bind_ok _ _ _ _ _ Hruns).
    split_and!; [done|done|done| |].
    + rewrite Hpc', Hpc. cbn. by destruct t; cbn; rewrite <- ?app_assoc.
    + intros Hk. destruct (Hsound Hk) as [-> Hcnt]. split.
      * destruct Ht as [[-> _]|(_ & _ & _ & _ & xs & l & Hno)]; [done|]. by destruct (Hno (proj1 Hk xs l)).
      * intros Hc. apply Hcnt. pose proof (ports_counted p Hk Hp).
        destruct (use_step p u d s Hc Hu) as (r' & s1' & Hrun' & Hc'). rewrite Hrun' in Hrun. by injection Hrun as <- <-.
Qed.

(** The first [env_init] passes on what the platform answers; a failure is
    counted all the same, and the next call answers 0 although the platform is
    not initialised again. *)
Lemma failed_init_forgotten p s :
  sound_kernel → p ∈ ports → counted p 0 s →
  ∃ r s1 s2, p_init p s = Ok r s1 ∧ p_init p s1 = Ok 0 s2 ∧
    at_call "platform_init" r (λ l, p_gate p l = p_open p - 1 ∧ sections (p_enter p) (p_leave p) l = 0) (calls_made s1) ∧
    platform_calls (calls_made s2) = platform_calls (calls_made s1).
Proof.
  intros Hk Hp Hs. pose proof (ports_counted p Hk Hp).
  destruct (ci_init 0 s Hs) as (r & s1 & Hrun & Hs1 & _ & _ & Hat).
  destruct (ci_init (0 + 1) s1 Hs1) as (r2 & s2 & Hrun2 & _ & -> & Hpc & _). by exists r, s1, s2.
Qed.

(** The kernel refuses the semaphore on ThreadX: the platform is never
    initialised, and the next call answers 0 all the same. *)
Lemma threadx_init_refused s :
  counted threadx_port 0 s → (∀ xs l, answer "tx_semaphore_create" xs l ≠ TX_SUCCESS) →
  ∃ s1 s2, ThreadX.env_init s = Ok (-1) s1 ∧ ThreadX.env_init s1 = Ok 0 s2 ∧
    env_init_counter s1 = 1 ∧ sections "DisableGlobalIRQ" "EnableGlobalIRQ" (calls_made s1) = 0 ∧
    platform_calls (calls_made s2) = platform_calls (calls_made s).
Proof.
  intros (_ & Hc & Hsec & _) Hno. cbn in Hsec.
  assert (∃ r s1, ThreadX.env_init s = Ok r s1 ∧ (r = -1 ∧ env_init_counter s1 = 1 ∧
    sections "DisableGlobalIRQ" "EnableGlobalIRQ" (calls_made s1) = 0 ∧
    platform_calls (calls_made s1) = platform_calls (calls_made s))) as (r & s1 & Hrun & -> & Hc1 & Hs1 & Hp1).
  { unfold ThreadX.env_init. apply wp_exists. call_steps. apply wp_assert; [cbn; lia|]. cbn [env_init_counter made].
    rewrite Hc. change (0 <? 0) with false. cbv iota. rewrite wp_bind, wp_modify. change (0 + 1 =? 1) with true.
    cbv iota. rewrite wp_bind. apply wp_call. intros r1 ->.
    rewrite (proj2 (Z.eqb_neq _ _) (Hno _ _)). cbn [negb]. call_steps. split_and!; [done|done| |done]. by_tally. }
  assert (∃ r s2, ThreadX.env_init s1 = Ok r s2 ∧ (r = 0 ∧
    platform_calls (calls_made s2) = platform_calls (calls_made s1))) as (r & s2 & Hrun2 & -> & Hp2).
  { unfold ThreadX.env_init. apply wp_exists. call_steps. apply wp_assert; [cbn; lia|]. cbn [env_init_counter made].
    rewrite Hc1. change (1 <? 0) with false. cbv iota. rewrite wp_bind, wp_modify. change (1 + 1 =? 1) with false.
    cbv iota. call_steps. ask; (split; [done|by tally]). }
  exists s1, s2. split_and!; [done..|congruence].
Qed.

End ports.
