(* ===== verification/EnvObjects.v ===== *)
(** * Objects of the kernels

    Locks and queues on ThreadX, XOS and Zephyr: what their creation takes from
    the kernel and the heap, their deletion gives back ([env_objects_released]);
    how the waits for a link and for queues turn their timeouts into ticks
    ([env_ports_wait]). *)

From S2P Require Import Prelude Config Concrete Kernel ThreadX Xos Zephyr EnvPorts.

Section objects.
Context {os : Os} {cfg : Config}.

(** ** Records that balance *)

Lemma balance_app new del ok h l l' : balance new del ok h (l ++ l') = balance new del ok h l + balance new del ok h l'.
Proof. induction l as [|c l IH]; cbn; lia. Qed.

(** The kinds of object a port creates: the names of the two calls, and the
    answer of a creation that succeeds ([None]: it answers the object). *)
Abbreviation kinds := (list (string * string * option Z)).
Definition cancels (ks : kinds) (l : list call) : Prop :=
  Forall (λ '(new, del, ok), ∀ h, balance new del ok h l = 0) ks.

(** Only the block at [b] is left. *)
Definition leaves (ks : kinds) (alloc : string) (b : Z) (l : list call) : Prop :=
  Forall (λ '(new, del, ok), ∀ h, balance new del ok h l = if String.eqb new alloc && (h =? b) then 1 else 0) ks.

(** ** Creating and deleting *)

(** A constructor with its destructor; [m_alloc]: when it may lose a block, the
    allocator. *)
Record maker : Type := {
  m_create : K (Z * option Z);
  m_delete : Z → K unit;
  m_kinds : kinds;
  m_new : string;
  m_alloc : option string;
}.

(** What a constructor takes it gives back when it fails, or its destructor
    does, whenever it is called before the object is made anew. *)
Definition releases (m : maker) : Prop := ∀ s, ∃ st lock t1,
  m_create m s = Ok (st, lock) (made t1 s) ∧
  (st = 0 ∧ (∃ h, lock = Some h ∧ h ≠ NULL ∧
     ∀ s2 l, calls_made s2 = l ++ t1 ++ calls_made s → Forall (λ c, deletes (m_new m) h c = false) l →
       ∃ t2, m_delete m h s2 = Ok tt (made t2 s2) ∧ cancels (m_kinds m) (t2 ++ t1)) ∨
   st = -1 ∧ (lock = None ∨ lock = Some NULL) ∧
     (cancels (m_kinds m) t1 ∨ ∃ alloc b, m_alloc m = Some alloc ∧ b ≠ NULL ∧ leaves (m_kinds m) alloc b t1)).

Definition threadx_kinds : kinds :=
  [("MEM_BufferAlloc", "MEM_BufferFree", None); ("tx_semaphore_create", "tx_semaphore_delete", Some TX_SUCCESS);
   ("tx_queue_create", "tx_queue_delete", Some TX_SUCCESS)].
Definition xos_kinds : kinds :=
  [("malloc", "free", None); ("xos_sem_create", "xos_sem_delete", Some XOS_OK);
   ("xos_msgq_create", "xos_msgq_delete", Some XOS_OK)].
Definition zephyr_kinds : kinds := [("k_malloc", "k_free", None)].

Definition threadx_mutex (count ctx : Z) : maker := {|
  m_create := ThreadX.env_create_mutex count ctx; m_delete := ThreadX.env_delete_mutex;
  m_kinds := threadx_kinds; m_new := "tx_semaphore_create"; m_alloc := None |}.
Definition xos_mutex (count ctx : Z) : maker := {|
  m_create := Xos.env_create_mutex count ctx; m_delete := Xos.env_delete_mutex;
  m_kinds := xos_kinds; m_new := "xos_sem_create"; m_alloc := None |}.
Definition zephyr_mutex (count ctx : Z) : maker := {|
  m_create := Zephyr.env_create_mutex count ctx; m_delete := Zephyr.env_delete_mutex;
  m_kinds := zephyr_kinds; m_new := "k_sem_init"; m_alloc := None |}.
Definition xos_queue (length size storage ctx : Z) : maker := {|
  m_create := Xos.env_create_queue length size storage ctx; m_delete := Xos.env_delete_queue;
  m_kinds := xos_kinds; m_new := "xos_msgq_create"; m_alloc := None |}.
Definition threadx_queue (queue_start : Z → list call → Z) (length size storage ctx : Z) : maker := {|
  m_create := ThreadX.env_create_queue length size storage ctx;
  m_delete := ThreadX.env_delete_queue queue_start;
  m_kinds := threadx_kinds; m_new := "tx_queue_create"; m_alloc := Some "MEM_BufferAlloc" |}.
Definition zephyr_queue (buffer_start : Z → list call → Z) (length size storage ctx : Z) : maker := {|
  m_create := Zephyr.env_create_queue length size storage ctx;
  m_delete := Zephyr.env_delete_queue buffer_start;
  m_kinds := zephyr_kinds; m_new := "k_msgq_init"; m_alloc := Some "k_malloc" |}.

(** The control block of a queue keeps the start of its buffer, the argument at
    [i] of the call that made it, until it is made anew. *)
Definition keeps_start (new : string) (i : nat) (ok : option Z) (start : Z → list call → Z) : Prop :=
  ∀ q l c l', deletes new q c = true → (if ok is Some r then ret c = r else True) →
    Forall (λ c, deletes new q c = false) l → start q (l ++ c :: l') = nth i (args c) 0.

(** The two outcomes of [releases], for a run that makes the calls [t1]. *)
Definition made_object (m : maker) (s : env_state) (t1 : list call) (h : Z) : Prop :=
  h ≠ NULL ∧
  ∀ s2 l, calls_made s2 = l ++ t1 ++ calls_made s → Forall (λ c, deletes (m_new m) h c = false) l →
    ∃ t2, m_delete m h s2 = Ok tt (made t2 s2) ∧ cancels (m_kinds m) (t2 ++ t1).
Definition made_nothing (m : maker) (t1 : list call) : Prop :=
  cancels (m_kinds m) t1 ∨ ∃ alloc b, m_alloc m = Some alloc ∧ b ≠ NULL ∧ leaves (m_kinds m) alloc b t1.
Definition outcome_of (m : maker) (s : env_state) (x : Z * option Z) (s1 : env_state) : Prop :=
  ∃ t1, s1 = made t1 s ∧
    ((∃ h, x = (0, Some h) ∧ made_object m s t1 h) ∨
     (x = (-1, None) ∨ x = (-1, Some NULL)) ∧ made_nothing m t1).

Lemma releases_wp m : (∀ s, wp (m_create m) (outcome_of m s) s) → releases m.
Proof.
  intros Hw s. destruct (wp_exists _ _ s (Hw s)) as (x & s1 & Hrun & t1 & -> & [(h & -> & Hne & Hd)|[Hx Hn]]).
  - exists 0, (Some h), t1. split; [done|]. left. split; [done|]. by exists h.
  - destruct Hx as [-> | ->]; eexists _, _, t1; (split; [exact Hrun|]); right; auto.
Qed.

Lemma no_object m s x : x = (-1, None) ∨ x = (-1, Some NULL) → outcome_of m s x s.
Proof.
  intros Hx. exists []. split; [by destruct s|]. right. split; [done|]. left.
  apply List.Forall_forall. by intros [[new del] ok] _ h.
Qed.

(** Sum up a record whose objects are known. *)
Ltac count_up :=
  unfold cancels, leaves; cbn [m_kinds threadx_mutex xos_mutex zephyr_mutex threadx_queue xos_queue zephyr_queue threadx_kinds xos_kinds zephyr_kinds];
  repeat (apply List.Forall_cons; [let h := fresh "h" in intros h|]); [..|apply List.Forall_nil];
  cbn -[Z.add Z.sub Z.eqb]; repeat match goal with
    | |- context [?a =? ?b] => destruct (Z.eqb_spec a b); subst; cbn -[Z.add Z.sub Z.eqb]
    end; try lia; try congruence.

(** The ends of the proofs: nothing is made, a block is lost, or an object is
    made and can be deleted. *)
Lemma made_made t t' s : made t (made t' s) = made (t ++ t') s.
Proof. unfold made. cbn. by rewrite app_assoc. Qed.

Lemma wp_made (m : K unit) (P : list call → Prop) s :
  wp m (λ _ s', ∃ t, s' = made t s ∧ P t) s → ∃ t, m s = Ok tt (made t s) ∧ P t.
Proof. intros Hw. destruct (wp_exists _ _ _ Hw) as ([] & s' & Hrun & t & -> & Ht). by exists t. Qed.

Ltac record := rewrite ?made_made; cbn [app]; eexists; split; [reflexivity|].
Ltac nothing := record; right; split; [by auto|]; left; count_up.
Ltac lost alloc b := record; right; split; [by auto|]; right; exists alloc, b; split; [done|]; split; [done|]; count_up.
Ltac object h := record; left; exists h; split; [done|]; split; [done|];
  intros s2 l Hl Hkeep; apply wp_made; cbn [m_delete threadx_mutex xos_mutex zephyr_mutex threadx_queue xos_queue zephyr_queue].
Ltac pointer := rewrite wp_if; match goal with
  | |- context [if ?p =? NULL then _ else _] => let H := fresh "Hp" in destruct (Z.eqb_spec p NULL) as [->|H]
  end; call_steps.
Ltac freeing := repeat match goal with H : ?p ≠ NULL |- context [?p =? NULL] => rewrite (proj2 (Z.eqb_neq p NULL) H) end;
  cbn [negb]; call_steps.

Lemma threadx_mutex_releases count ctx : releases (threadx_mutex count ctx).
Proof.
  apply releases_wp. intros s. cbn [m_create threadx_mutex]. unfold ThreadX.env_create_mutex, ThreadX.env_allocate_memory.
  rewrite wp_if. destruct (_ <? count); [by apply no_object; left|].
  destruct RL_USE_STATIC_API eqn:Hst; call_steps; pointer; [by apply no_object; left| |nothing|]; ask;
    unfold ThreadX.env_free_memory; freeing; try nothing.
  - apply Z.eqb_eq in H as ->. object ctx. unfold ThreadX.env_delete_mutex. rewrite Hst. call_steps. record. count_up.
  - apply Z.eqb_eq in H as ->. object r. unfold ThreadX.env_delete_mutex, ThreadX.env_free_memory. rewrite Hst. freeing.
    record. count_up.
Qed.

Lemma xos_mutex_releases count ctx : releases (xos_mutex count ctx).
Proof.
  apply releases_wp. intros s. cbn [m_create xos_mutex]. unfold Xos.env_create_mutex, Xos.env_allocate_memory.
  rewrite wp_if. destruct (_ <? count); [by apply no_object; left|].
  destruct RL_USE_STATIC_API eqn:Hst; call_steps; pointer; [by apply no_object; left| |nothing|]; ask;
    unfold Xos.env_free_memory; freeing; try nothing.
  - apply Z.eqb_eq in H as ->. object ctx. unfold Xos.env_delete_mutex. rewrite Hst. call_steps. record. count_up.
  - apply Z.eqb_eq in H as ->. object r. unfold Xos.env_delete_mutex, Xos.env_free_memory. rewrite Hst. freeing.
    record. count_up.
Qed.

Lemma zephyr_mutex_releases count ctx : releases (zephyr_mutex count ctx).
Proof.
  apply releases_wp. intros s. cbn [m_create zephyr_mutex]. unfold Zephyr.env_create_mutex, Zephyr.env_allocate_memory.
  rewrite wp_if. destruct (_ <? count); [by apply no_object; left|].
  destruct RL_USE_STATIC_API eqn:Hst; call_steps; pointer; [by apply no_object; left| |nothing|].
  - object ctx. unfold Zephyr.env_delete_mutex. rewrite Hst. call_steps. record. count_up.
  - object r. unfold Zephyr.env_delete_mutex, Zephyr.env_free_memory. rewrite Hst. freeing. record. count_up.
Qed.

Lemma xos_queue_releases length size storage ctx : releases (xos_queue length size storage ctx).
Proof.
  apply releases_wp. intros s. cbn [m_create xos_queue]. unfold Xos.env_create_queue, Xos.env_allocate_memory.
  rewrite wp_if. destruct (_ || _); [by apply no_object; left|].
  destruct RL_USE_STATIC_API eqn:Hst; call_steps.
  - destruct (Z.eqb_spec storage NULL) as [->|Hp]; cbn [negb]; [by apply no_object; left|]. call_steps. ask; try nothing.
    apply Z.eqb_eq in H as ->. object storage. unfold Xos.env_delete_queue. rewrite Hst. call_steps. record. count_up.
  - destruct (Z.eqb_spec r NULL) as [->|Hp]; cbn [negb]; call_steps; [nothing|]. ask; unfold Xos.env_free_memory; freeing; try nothing.
    apply Z.eqb_eq in H as ->. object r. unfold Xos.env_delete_queue, Xos.env_free_memory. rewrite Hst. freeing.
    record. count_up.
Qed.

(** The block that [env_delete_queue] reads off the control block. *)
Lemma start_kept new i ok start q t0 t1 l s2 s :
  keeps_start new i ok start → calls_made s2 = l ++ (t0 :: t1) ++ calls_made s →
  deletes new q t0 = true → (if ok is Some r then ret t0 = r else True) → Forall (λ c, deletes new q c = false) l →
  ∀ c, deletes new q c = false → start q (calls_made (made [c] s2)) = nth i (args t0) 0.
Proof.
  intros Hs Hl Hq Hok Hkeep c Hc. cbn. rewrite Hl. apply (Hs q (c :: l) t0 (t1 ++ calls_made s)); [done|done|].
  by constructor.
Qed.

Lemma threadx_queue_releases start length size storage ctx :
  size ≠ 0 → keeps_start "tx_queue_create" 3 (Some TX_SUCCESS) start →
  releases (threadx_queue start length size storage ctx).
Proof.
  intros Hsize Hstart. apply releases_wp. intros s. cbn [m_create threadx_queue].
  unfold ThreadX.env_create_queue, ThreadX.env_allocate_memory. rewrite (proj2 (Z.eqb_neq _ _) Hsize).
  rewrite wp_if. destruct (_ || _); [by apply no_object; right|].
  rewrite wp_if. destruct (_ <? length); [by apply no_object; left|].
  destruct RL_USE_STATIC_API eqn:Hst; call_steps.
  - destruct (Z.eqb_spec ctx NULL) as [->|Hp]; cbn [orb]; [by apply no_object; left|].
    destruct (Z.eqb_spec storage NULL) as [->|Hp']; cbn [orb]; [by apply no_object; left|].
    call_steps. ask; try nothing. apply Z.eqb_eq in H as ->. object ctx.
    unfold ThreadX.env_delete_queue. rewrite Hst. call_steps. record. count_up.
  - destruct (Z.eqb_spec r NULL) as [->|Hp], (Z.eqb_spec r0 NULL) as [->|Hp']; cbn [orb]; call_steps;
      [nothing|lost "MEM_BufferAlloc" r0|lost "MEM_BufferAlloc" r|].
    ask; unfold ThreadX.env_free_memory; freeing; try nothing. apply Z.eqb_eq in H as ->. object r.
    unfold ThreadX.env_delete_queue, ThreadX.env_free_memory. rewrite Hst. call_steps.
    rewrite (start_kept _ _ _ _ _ _ _ _ _ _ Hstart Hl) by (cbn; rewrite ?Z.eqb_refl; done). cbn [nth args]. freeing.
    record. count_up.
Qed.

Lemma zephyr_queue_releases start length size storage ctx :
  size ≠ 0 → keeps_start "k_msgq_init" 1 None start →
  releases (zephyr_queue start length size storage ctx).
Proof.
  intros Hsize Hstart. apply releases_wp. intros s. cbn [m_create zephyr_queue].
  unfold Zephyr.env_create_queue, Zephyr.env_allocate_memory. rewrite (proj2 (Z.eqb_neq _ _) Hsize).
  rewrite wp_if. destruct (_ || _); [by apply no_object; left|].
  rewrite wp_if. destruct (_ <? length); [by apply no_object; left|].
  destruct RL_USE_STATIC_API eqn:Hst; call_steps.
  - destruct (Z.eqb_spec ctx NULL) as [->|Hp]; cbn [orb]; [by apply no_object; left|].
    destruct (Z.eqb_spec storage NULL) as [->|Hp']; cbn [orb]; [by apply no_object; left|].
    call_steps. object ctx. unfold Zephyr.env_delete_queue. rewrite Hst. call_steps. record. count_up.
  - destruct (Z.eqb_spec r NULL) as [->|Hp], (Z.eqb_spec r0 NULL) as [->|Hp']; cbn [orb]; call_steps;
      [nothing|lost "k_malloc" r0|lost "k_malloc" r|].
    object r. unfold Zephyr.env_delete_queue, Zephyr.env_free_memory. rewrite Hst. call_steps.
    rewrite (start_kept _ _ _ _ _ _ _ _ _ _ Hstart Hl) by (cbn; rewrite ?Z.eqb_refl; done). cbn [nth args]. freeing.
    record. count_up.
Qed.

Definition makers (start start' : Z → list call → Z) (n size storage ctx : Z) : list maker :=
  [threadx_mutex n ctx; xos_mutex n ctx; zephyr_mutex n ctx; xos_queue n size storage ctx;
   threadx_queue start n size storage ctx; zephyr_queue start' n size storage ctx].

(** C33.  Locks and queues on ThreadX, XOS and Zephyr, in both APIs, whatever the
    kernel answers: a creation either answers 0 with a handle that is not NULL,
    and the deletion of it, at any later time before it is made anew, gives back
    every block and every object of the kernel the creation took; or it answers
    -1 and has given everything back itself.  The exception are the queues of
    ThreadX and Zephyr: they may lose the block they did get when the other of
    their two allocations fails. *)
Theorem env_objects_released start start' n size storage ctx m :
  size ≠ 0 → keeps_start "tx_queue_create" 3 (Some TX_SUCCESS) start → keeps_start "k_msgq_init" 1 None start' →
  m ∈ makers start start' n size storage ctx → releases m.
Proof.
  intros Hsize Hs Hs' Hin. unfold makers in Hin.
  repeat (apply elem_of_cons in Hin as [->|Hin];
    [auto using threadx_mutex_releases, xos_mutex_releases, zephyr_mutex_releases, xos_queue_releases,
      threadx_queue_releases, zephyr_queue_releases|]).
  by apply elem_of_nil in Hin.
Qed.

(** ** Waiting *)

(** On ThreadX milliseconds become ticks, rounded down, unless the product does
    not fit: with 100 ticks a second and 32 bits, a timeout of 12 hours becomes
    none.  [env_sleep_msec] computes the same number without overflow. *)
Lemma threadx_ticks t :
  0 ≤ t < 4294967296 → 0 < TX_TIMER_TICKS_PER_SECOND ≤ 1000 → 4294967296 ≤ 2 ^ uintptr_bits →
  (t * TX_TIMER_TICKS_PER_SECOND < 2 ^ uintptr_bits → ticks t = t * TX_TIMER_TICKS_PER_SECOND / 1000) ∧
  (uintptr_bits = 32 → TX_TIMER_TICKS_PER_SECOND = 100 → ticks 42949673 = 0) ∧
  ∀ s, ∃ r, ThreadX.env_sleep_msec t s =
    Ok tt (made [Call "tx_thread_sleep" [t * TX_TIMER_TICKS_PER_SECOND / 1000] r] s).
Proof.
  intros Ht Hk Hb. set (k := TX_TIMER_TICKS_PER_SECOND) in *.
  pose proof (Z.div_mod t 1000 ltac:(lia)) as Ediv. pose proof (Z.mod_pos_bound t 1000 ltac:(lia)) as Hmod.
  assert (t * k / 1000 = t / 1000 * k + t mod 1000 * k / 1000) as Hsum.
  { rewrite Ediv at 1. replace ((1000 * (t / 1000) + t mod 1000) * k) with (t / 1000 * k * 1000 + t mod 1000 * k) by lia.
    by rewrite Z.div_add_l. }
  assert (0 ≤ t / 1000) by (apply Z.div_pos; lia).
  assert (t / 1000 * k + t mod 1000 * k / 1000 ≤ t) as Hle.
  { rewrite <- Hsum. apply Z.div_le_upper_bound; nia. }
  assert (0 ≤ t mod 1000 * k < 1000000) by (split; [apply Z.mul_nonneg_nonneg; lia|];
    apply Z.le_lt_trans with (999 * 1000); [apply Z.mul_le_mono_nonneg; lia|lia]).
  assert (0 ≤ t mod 1000 * k / 1000) by (apply Z.div_pos; lia).
  assert (0 ≤ t / 1000 * k) by (apply Z.mul_nonneg_nonneg; lia).
  split_and!.
  - intros Hfit. unfold ticks. fold k. unfold uptr. rewrite Z.mod_small; [done|]. split; [apply Z.mul_nonneg_nonneg; lia|done].
  - intros H32 Hk100. unfold ticks, uptr. fold k. rewrite Hk100, H32. reflexivity.
  - intros s. eexists. unfold ThreadX.env_sleep_msec. fold k.
    rewrite Hsum. unfold uptr. rewrite (Z.mod_small (t mod 1000 * k)), (Z.mod_small (t / 1000 * k)), Z.mod_small by lia.
    reflexivity.
Qed.

Lemma yes_no (b : bool) (s : env_state) : (if b then mret 1 else mret 0 : K Z) s = @Ok env_state Z (Z_of_bool b) s.
Proof. by destruct b. Qed.

(** Waiting for a link on ThreadX, XOS and Zephyr: when the link is up the
    answer is 1 without a call of the kernel; otherwise there is one wait, for the
    bit of the link alone, and the answer is 1 exactly if the kernel reports
    success.  [RL_BLOCK] waits for ever on ThreadX and XOS; on Zephyr it is a
    finite timeout, and in an interrupt none. *)
Theorem env_ports_wait link_state link_id timeout_ms s :
  0 ≤ link_id < uintptr_bits →
  let bit := 2 ^ link_id in
  if link_state (calls_made s) =? 1
  then
    ThreadX.env_wait_for_link_up link_state link_id timeout_ms s = Ok 1 s ∧
    Xos.env_wait_for_link_up link_state link_id timeout_ms s = Ok 1 s ∧
    Zephyr.env_wait_for_link_up link_state link_id timeout_ms s = Ok 1 s
  else
    (∃ r, ThreadX.env_wait_for_link_up link_state link_id timeout_ms s =
       Ok (Z_of_bool (r =? TX_SUCCESS))
         (made [Call "tx_event_flags_get" [event_group; bit; TX_AND;
            if timeout_ms =? RL_BLOCK then TX_WAIT_FOREVER else ticks timeout_ms] r] s)) ∧
    (∃ cycles r, Xos.env_wait_for_link_up link_state link_id timeout_ms s =
       Ok (Z_of_bool (r =? XOS_OK))
         (made (if timeout_ms =? RL_BLOCK then [Call "xos_event_wait_all" [Xos.env_event; bit] r]
                else [Call "xos_event_wait_all_timeout" [Xos.env_event; bit; cycles] r;
                      Call "xos_msecs_to_cycles" [timeout_ms] cycles]) s)) ∧
    (∃ isr r, Zephyr.env_wait_for_link_up link_state link_id timeout_ms s =
       Ok (Z_of_bool (negb (r =? 0)))
         (made [Call "k_event_wait_all" [Zephyr.env_event; bit; 0; K_MSEC (if isr =? 0 then timeout_ms else 0)] r;
                Call "k_is_in_isr" [] isr] s)).
Proof.
  intros Hl bit. assert (uptr (Z.shiftl 1 link_id) = bit) as Hbit.
  { unfold uptr, bit. rewrite Z.shiftl_1_l, Z.mod_small; [done|]. split; [apply Z.pow_nonneg; lia|].
    apply Z.pow_lt_mono_r; lia. }
  unfold ThreadX.env_wait_for_link_up, Xos.env_wait_for_link_up, Zephyr.env_wait_for_link_up, ThreadX.link_bit,
    Xos.link_bit, Zephyr.link_bit, no_wait_in_isr, Zephyr.env_in_isr, mbind, M_bind, get_state, call_os. rewrite Hbit. cbn.
  destruct (link_state (calls_made s) =? 1); cbn; [done|]. split_and!.
  - destruct (timeout_ms =? RL_BLOCK); eexists; apply yes_no.
  - destruct (timeout_ms =? RL_BLOCK); [exists 0; eexists; apply yes_no|]. eexists _, _. apply yes_no.
  - exists (answer "k_is_in_isr" [] (calls_made s)).
    destruct (answer "k_is_in_isr" [] (calls_made s) =? 0); eexists; apply yes_no.
Qed.

End objects.

(** ** On a kernel that grants everything *)

(** The argument at [i] of the last call that made [q]. *)
Fixpoint last_made (new : string) (i : nat) (q : Z) (l : list call) : Z :=
  match l with
  | [] => 0
  | c :: l' => if deletes new q c then nth i (args c) 0 else last_made new i q l'
  end.

Lemma last_made_keeps new i ok : keeps_start new i ok (last_made new i).
Proof.
  intros q l c l' Hc _ Hl. induction Hl as [|c' l Hc' _ IH]; cbn; [by rewrite Hc|by rewrite Hc'].
Qed.

Lemma env_objects_released_witness :
  @releases (@threadx_queue granting_os default_config (last_made "tx_queue_create" 3) 2 16 0 0).
Proof.
  apply (@env_objects_released granting_os default_config (last_made "tx_queue_create" 3) (last_made "k_msgq_init" 1) 2 16 0 0).
  - lia.
  - apply last_made_keeps.
  - apply last_made_keeps.
  - do 4 right. left.
Defined.

(** Link 1 is down and nothing happens for a second. *)
Lemma env_ports_wait_witness :
  ∃ r, @ThreadX.env_wait_for_link_up granting_os default_config (λ _, 0) 1 1000 start =
    Ok (Z_of_bool (r =? 0)) (made [Call "tx_event_flags_get" [128; 2; 2; 100] r] start).
Proof.
  pose proof (@env_ports_wait granting_os default_config (λ _, 0) 1 1000 start ltac:(vm_compute; split; congruence)) as H.
  exact (proj1 H).
Defined.

(** The environment of ThreadX is used twice over. *)
Lemma env_ports_nest_witness :
  ∃ rs ts s', @uses (@threadx_port granting_os) [Begin; Begin; Finish; Finish] start = Ok rs s' ∧
    ts = [Some "platform_init"; None; None; Some "platform_deinit"] ∧
    platform_calls (calls_made s') = ["platform_deinit"; "platform_init"].
Proof.
  destruct (@env_ports_nest granting_os (@threadx_port granting_os) [Begin; Begin; Finish; Finish] 0 start)
    as (rs & ts & s' & Hrun & _ & _ & Hp & Hsound).
  - left.
  - split_and!; done || lia.
  - cbn. intuition (lia || discriminate).
  - destruct Hsound as [-> _]; [by split|]. exists rs, (touches [Begin; Begin; Finish; Finish] 0), s'.
    split_and!; [exact Hrun|done|exact Hp].
Defined.
