(* ===== verification/PortLife.v ===== *)
(** * The library on ThreadX, XOS and Zephyr

    The environment ports of [ThreadX], [Xos] and [Zephyr] as implementations of
    the interface [EnvLayer] that [rpmsg_lite.c] is built on, with the laws
    [EnvLaws] and [LifeLaws] that its theorems ask for, on a kernel that keeps two
    promises ([SoundKernel]).  With them the theorems of the library hold on these
    systems; [systems_start_conversation] is the start of two cores, each on any
    of the three. *)

From S2P Require Import Prelude Memory Config VirtioRing Virtqueue RingQueue VirtqueueSpec Concrete World Lpc55s69 BareMetal Llist Endpoint Transport RpmsgLite Sending Receiving Lane Side Conversation RingInit Init Startup MasterInit Boot BootConversation Kernel ThreadX Xos Zephyr EnvPorts.

(** ** The three systems *)

Inductive system : Type := OnThreadX | OnXos | OnZephyr.

(** The state of a core: that of [Kernel]; the type names the system. *)
Definition on (os : Os) (p : system) : Type := env_state.
#[global] Typeclasses Opaque on.

Section systems.
Context (os : Os) (p : system) {cfg : Config}.
Abbreviation E := (on os p).

Definition isr_call : string := match p with OnZephyr => "k_is_in_isr" | _ => "platform_in_isr" end.
Definition sem_new : string :=
  match p with OnThreadX => "tx_semaphore_create" | OnXos => "xos_sem_create" | OnZephyr => "k_sem_init" end.
Definition sem_take : string :=
  match p with OnThreadX => "tx_semaphore_get" | OnXos => "xos_sem_get" | OnZephyr => "k_sem_take" end.
Definition sem_give : string :=
  match p with OnThreadX => "tx_semaphore_put" | OnXos => "xos_sem_put" | OnZephyr => "k_sem_give" end.
Definition take_args (l : Z) : list Z :=
  match p with OnThreadX => [l; TX_WAIT_FOREVER] | OnXos => [l] | OnZephyr => [l; K_FOREVER] end.
Definition taken : Z := match p with OnThreadX => TX_SUCCESS | OnXos => XOS_OK | OnZephyr => 0 end.
Definition queue_prefix : string := match p with OnThreadX => "tx_queue" | OnXos => "xos_msgq" | OnZephyr => "k_msgq" end.

(** The count of a semaphore, read off a record of calls. *)
Definition tokens (l : Z) (r : list call) : Z :=
  sem_count sem_new sem_take sem_give (if p is OnZephyr then second else third) taken l r.

Definition sem_call (f : string) : bool :=
  String.eqb f sem_new || String.eqb f sem_take || String.eqb f sem_give.

(** A wait without end for a semaphore that has tokens succeeds; a kernel call
    does not change whether an interrupt is being served. *)
Class SoundKernel : Prop := {
  sk_take l r : 0 < tokens l r → Kernel.answer sem_take (take_args l) r = taken;
  sk_isr c r : Kernel.answer isr_call [] (c :: r) = Kernel.answer isr_call [] r;
}.

(** ** The interface

    [el_create_mutex m count]: [m] is the context of the static API.  Installing
    an interrupt is a call of the platform, which registers the handler (see
    [PlatformNotify]). *)
Definition handle (r : Z * option Z) : Z * Z := (r.1, default NULL r.2).

#[global] Instance el_on : EnvLayer E :=
  match p with
  | OnThreadX => {|
      el_lock := ThreadX.env_lock_mutex; el_unlock := ThreadX.env_unlock_mutex;
      el_create_mutex m count := r ← ThreadX.env_create_mutex count m; mret (handle r);
      el_delete_mutex := ThreadX.env_delete_mutex;
      el_init := ThreadX.env_init; el_deinit := ThreadX.env_deinit;
      el_init_interrupt v d := do_os "platform_init_interrupt" [v; d];; ThreadX.env_register_isr v d;
      el_deinit_interrupt v := do_os "platform_deinit_interrupt" [v];; ThreadX.env_unregister_isr v;
      el_enable_interrupt := ThreadX.env_enable_interrupt; el_disable_interrupt := ThreadX.env_disable_interrupt;
      el_tx_callback := ThreadX.env_tx_callback |}
  | OnXos => {|
      el_lock := Xos.env_lock_mutex; el_unlock := Xos.env_unlock_mutex;
      el_create_mutex m count := r ← Xos.env_create_mutex count m; mret (handle r);
      el_delete_mutex := Xos.env_delete_mutex;
      el_init := Xos.env_init; el_deinit := Xos.env_deinit;
      el_init_interrupt v d := do_os "platform_init_interrupt" [v; d];; Xos.env_register_isr v d;
      el_deinit_interrupt v := do_os "platform_deinit_interrupt" [v];; Xos.env_unregister_isr v;
      el_enable_interrupt := Xos.env_enable_interrupt; el_disable_interrupt := Xos.env_disable_interrupt;
      el_tx_callback := Xos.env_tx_callback |}
  | OnZephyr => {|
      el_lock := Zephyr.env_lock_mutex; el_unlock := Zephyr.env_unlock_mutex;
      el_create_mutex m count := r ← Zephyr.env_create_mutex count m; mret (handle r);
      el_delete_mutex := Zephyr.env_delete_mutex;
      el_init := Zephyr.env_init; el_deinit := Zephyr.env_deinit;
      el_init_interrupt v d := do_os "platform_init_interrupt" [v; d];; Zephyr.env_register_isr v d;
      el_deinit_interrupt v := do_os "platform_deinit_interrupt" [v];; Zephyr.env_unregister_isr v;
      el_enable_interrupt := Zephyr.env_enable_interrupt; el_disable_interrupt := Zephyr.env_disable_interrupt;
      el_tx_callback := Zephyr.env_tx_callback |}
  end.

(** ** Locks *)

Definition in_handler (s : env_state) : bool := negb (Kernel.answer isr_call [] (calls_made s) =? 0).
Definition queue_calls (r : list call) : list call := List.filter (λ c, String.prefix queue_prefix (fn c)) r.

(** A lock with tokens left, or with one taken; handlers do not use locks. *)
Definition free_lock (s : env_state) (l : Z) : Prop := in_handler s = true ∨ 0 < tokens l (calls_made s) ≤ 10.
Definition own_lock (s : env_state) (l : Z) : Prop := in_handler s = true ∨ 0 ≤ tokens l (calls_made s) < 10.

End systems.

Arguments tokens : simpl never.
Arguments queue_calls : simpl never.

(** ** What the calls do to the record *)

Section calls.
Context {os : Os} {cfg : Config} (p : system).
Implicit Types s : env_state.

(** The three ports lock and unlock in one way. *)
Lemma el_lock_is l : el_lock (E := on os p) l =
  (isr ← call_os (isr_call p) []; if isr =? 0 then do_os (sem_take p) (take_args os p l) else mret tt).
Proof. by destruct p. Qed.
Lemma el_unlock_is l : el_unlock (E := on os p) l =
  (isr ← call_os (isr_call p) []; if isr =? 0 then do_os (sem_give p) [l] else mret tt).
Proof. by destruct p. Qed.

Lemma tokens_other f xs r l rs : sem_call p f = false → tokens os p l (Call f xs r :: rs) = tokens os p l rs.
Proof.
  unfold sem_call, tokens. cbn -[Z.add Z.sub]. unfold deletes; cbn -[Z.add Z.sub]. intros H.
  apply orb_false_iff in H as [[H1 H2]%orb_false_iff H3]. rewrite H1, H2, H3. cbn. lia.
Qed.

Lemma tokens_take l rs : tokens os p l (Call (sem_take p) (take_args os p l) (taken os p) :: rs) = tokens os p l rs - 1.
Proof. unfold tokens. destruct p; cbn -[Z.add Z.sub Z.eqb]; rewrite !Z.eqb_refl; cbn -[Z.add Z.sub]; lia. Qed.

Lemma tokens_give l r rs : tokens os p l (Call (sem_give p) [l] r :: rs) = tokens os p l rs + 1.
Proof. unfold tokens. destruct p; cbn -[Z.add Z.sub Z.eqb]; rewrite !Z.eqb_refl; cbn -[Z.add Z.sub]; lia. Qed.

Lemma queue_calls_other f xs r rs : String.prefix (queue_prefix p) f = false → queue_calls p (Call f xs r :: rs) = queue_calls p rs.
Proof. unfold queue_calls. cbn. by intros ->. Qed.

Context {sk : SoundKernel os p}.

Lemma in_handler_made c s : in_handler os p (made [c] s) = in_handler os p s.
Proof. unfold in_handler. cbn. by rewrite sk_isr. Qed.

(** A call that is not on semaphores. *)
Lemma free_lock_other f xs r s l :
  sem_call p f = false → free_lock os p s l → free_lock os p (made [Call f xs r] s) l.
Proof. intros Hf. unfold free_lock. rewrite in_handler_made. cbn. by rewrite tokens_other. Qed.
Lemma own_lock_other f xs r s l :
  sem_call p f = false → own_lock os p s l → own_lock os p (made [Call f xs r] s) l.
Proof. intros Hf. unfold own_lock. rewrite in_handler_made. cbn. by rewrite tokens_other. Qed.

Lemma isr_is_no_sem : sem_call p (isr_call p) = false.
Proof. by destruct p. Qed.
Lemma no_queue_calls :
  String.prefix (queue_prefix p) (isr_call p) = false ∧ String.prefix (queue_prefix p) (sem_take p) = false ∧
  String.prefix (queue_prefix p) (sem_give p) = false.
Proof. by destruct p. Qed.

(** Whether a handler runs is what the first call answers. *)
Lemma ask_isr s (Q : Z → env_state → Prop) :
  (∀ r s', r =? 0 = negb (in_handler os p s) → in_handler os p s' = in_handler os p s →
     (∀ l, tokens os p l (calls_made s') = tokens os p l (calls_made s)) →
     queue_calls p (calls_made s') = queue_calls p (calls_made s) → Q r s') →
  wp (call_os (isr_call p) []) Q s.
Proof.
  intros HQ. apply wp_call. intros r ->. apply HQ.
  - unfold in_handler. by rewrite negb_involutive.
  - apply in_handler_made.
  - intros l. cbn. apply tokens_other, isr_is_no_sem.
  - cbn. apply queue_calls_other, no_queue_calls.
Qed.

Lemma lock_spec l s :
  free_lock os p s l →
  ∃ u s', el_lock (E := on os p) l s = Ok u s' ∧
    (own_lock os p s' l ∧ queue_calls p (calls_made s') = queue_calls p (calls_made s)).
Proof.
  intros Hf. rewrite el_lock_is. apply wp_exists. rewrite wp_bind. apply ask_isr. intros r s1 Hr Hi Ht Hq. rewrite Hr.
  destruct (in_handler os p s) eqn:Hh; cbn [negb].
  - rewrite wp_ret. split; [by left|exact Hq].
  - destruct Hf as [?|Hf]; [congruence|]. apply wp_do. intros r' ->. rewrite (sk_take os p l) by (rewrite Ht; lia).
    split; [right; cbn; rewrite tokens_take, Ht; lia|]. cbn. by rewrite queue_calls_other by apply no_queue_calls.
Qed.

Lemma unlock_spec l s :
  own_lock os p s l →
  ∃ u s', el_unlock (E := on os p) l s = Ok u s' ∧
    (free_lock os p s' l ∧ queue_calls p (calls_made s') = queue_calls p (calls_made s)).
Proof.
  intros Hf. rewrite el_unlock_is. apply wp_exists. rewrite wp_bind. apply ask_isr. intros r s1 Hr Hi Ht Hq. rewrite Hr.
  destruct (in_handler os p s) eqn:Hh; cbn [negb].
  - rewrite wp_ret. split; [by left|exact Hq].
  - destruct Hf as [?|Hf]; [congruence|]. apply wp_do. intros r' _.
    split; [right; cbn; rewrite tokens_give, Ht; lia|]. cbn. by rewrite queue_calls_other by apply no_queue_calls.
Qed.

#[global] Program Instance laws_on : EnvLaws (on os p) := {|
  lock_free := free_lock os p;
  lock_mine := own_lock os p;
  same_queues s s' := queue_calls p (calls_made s') = queue_calls p (calls_made s);
|}.
Next Obligation. split; [done|]. intros x y z Hxy Hyz. by rewrite Hyz. Qed.
Next Obligation. intros s l Hl. destruct (lock_spec l s Hl) as ([] & s' & R & H). by exists s'. Qed.
Next Obligation. intros s l Hl. destruct (unlock_spec l s Hl) as ([] & s' & R & H). by exists s'. Qed.

End calls.

(** ** Initialisation, mutexes and interrupts *)

Definition masks (s : env_state) : Z := sections "platform_interrupt_disable" "platform_interrupt_enable" (calls_made s).
Definition handlers (s : env_state) : Z := sections "platform_init_interrupt" "platform_deinit_interrupt" (calls_made s).

#[global] Instance life_on (os : Os) (p : system) {cfg : Config} : Life (on os p) := {|
  env_idle s := 0 ≤ env_init_counter s ∧ 0 ≤ masks s;
  env_up s := 0 < env_init_counter s ∧ 0 ≤ masks s;
  masked := masks;
  installed := handlers;
  can_stop _ := True;
  vector_ok v := v < RL_PLATFORM_MAX_ISR_COUNT;
|}.

(** The masks and handlers are counted by calls that starting and stopping does
    not make. *)
Definition same_irqs (s s' : env_state) : Prop := masks s' = masks s ∧ handlers s' = handlers s.

Section mutex.
Context (os : Os) (p : system) {cfg : Config}.

(** The arguments with which the ports create a semaphore. *)
Definition new_args (l c : Z) : list Z :=
  match p with
  | OnThreadX => [l; NULL; uptr c] | OnXos => [l; XOS_SEM_WAIT_PRIORITY; c] | OnZephyr => [l; c; Zephyr.RL_ENV_MAX_MUTEX_COUNT]
  end.

(** As far as the laws can tell, one state is as another. *)
Definition alike (s s' : env_state) : Prop :=
  env_init_counter s' = env_init_counter s ∧ same_irqs s s' ∧ in_handler os p s' = in_handler os p s ∧
  ∀ l, tokens os p l (calls_made s') = tokens os p l (calls_made s).

(** What a successful creation leaves. *)
Definition mutex_made (c : Z) (s : env_state) (r : Z * Z) (s' : env_state) : Prop :=
  r.1 = 0 → r.2 ≠ NULL ∧ 0 < c ≤ 10 ∧
    env_init_counter s' = env_init_counter s ∧ same_irqs s s' ∧ in_handler os p s' = in_handler os p s ∧
    ∀ l, tokens os p l (calls_made s') = if r.2 =? l then c else tokens os p l (calls_made s).

End mutex.

Section life.
Context {os : Os} {cfg : Config} {cok : ConfigOk cfg} (p : system).
Implicit Types s : env_state.

Ltac irqs_same := split; [reflexivity|unfold same_irqs, masks, handlers; split; tally; cbn -[Z.add Z.sub]; lia].
Ltac past_assert H := apply wp_assert; [cbn; lia|]; cbn [env_init_counter made]; rewrite H; call_steps.
Ltac port_branches := repeat first [ask | call_step].

Lemma init_spec s :
  0 ≤ env_init_counter s →
  ∃ r s', el_init (E := on os p) s = Ok r s' ∧ (env_init_counter s' = env_init_counter s + 1 ∧ same_irqs s s').
Proof.
  intros Hc. apply wp_exists. pose proof (proj2 (Z.ltb_ge _ 0) Hc) as Hl. destruct p; cbn [el_init el_on].
  - unfold ThreadX.env_init. call_steps. past_assert Hl. port_branches; irqs_same.
  - unfold Xos.env_init. call_steps. past_assert Hl. port_branches; irqs_same.
  - unfold Zephyr.env_init. call_steps. past_assert Hl. port_branches; irqs_same.
Qed.

Lemma deinit_spec s :
  0 < env_init_counter s →
  ∃ r s', el_deinit (E := on os p) s = Ok r s' ∧ (env_init_counter s' = env_init_counter s - 1 ∧ same_irqs s s').
Proof.
  intros Hc. apply wp_exists. pose proof (proj2 (Z.leb_gt _ 0) Hc) as Hl. destruct p; cbn [el_deinit el_on].
  - unfold ThreadX.env_deinit. call_steps. past_assert Hl. port_branches; irqs_same.
  - unfold Xos.env_deinit. call_steps. past_assert Hl. port_branches; irqs_same.
  - unfold Zephyr.env_deinit. call_steps. past_assert Hl. port_branches; irqs_same.
Qed.

Context {sk : SoundKernel os p}.

Lemma env_step_made k j f xs r s :
  0 < env_init_counter s → 0 ≤ masks s + k → sem_call p f = false →
  masks (made [Call f xs r] s) = masks s + k → handlers (made [Call f xs r] s) = handlers s + j →
  env_step (E := on os p) k j s (made [Call f xs r] s).
Proof.
  intros Hc Hm Hf Em Eh. constructor; cbn [env_up masked installed lock_free can_stop life_on laws_on]; try done.
  - by rewrite Em.
  - intros l Hl. by apply free_lock_other.
Qed.

(** A semaphore just created has the tokens it was created with; the others are
    as before. *)
Lemma tokens_new l l' c r rs :
  0 < c ≤ 10 → tokens os p l (Call (sem_new p) (new_args os p l' c) r :: rs) = if l' =? l then c else tokens os p l rs.
Proof.
  intros Hc. assert (uptr c = c) as Hu by (apply uptr_small32; lia).
  unfold new_args, tokens. destruct p; cbn -[Z.add Z.sub Z.eqb uptr]; unfold deletes; cbn -[Z.add Z.sub Z.eqb uptr];
    rewrite ?Hu; destruct (l' =? l); cbn -[Z.add Z.sub]; lia.
Qed.

Lemma alike_other f xs r s :
  sem_call p f = false → same_irqs s (made [Call f xs r] s) → alike os p s (made [Call f xs r] s).
Proof.
  intros Hf Hi. split; [done|]. split; [done|]. split; [by apply in_handler_made|]. intros l. cbn. by rewrite tokens_other.
Qed.

Lemma mutex_made_new c l r s s1 :
  0 < c ≤ 10 → (l =? NULL) = false → alike os p s s1 →
  mutex_made os p c s (0, l) (made [Call (sem_new p) (new_args os p l c) r] s1).
Proof.
  intros Hc Hl%Z.eqb_neq (Ec & [Em Eh] & Ei & Et) _. split; [exact Hl|]. split; [exact Hc|]. split; [exact Ec|]. split.
  - unfold same_irqs. rewrite <- Em, <- Eh. unfold masks, handlers. destruct p; split; tally; cbn -[Z.add Z.sub]; lia.
  - split; [by rewrite in_handler_made|]. intros l'. cbn. rewrite tokens_new by done. by rewrite Et.
Qed.

Lemma alike_refl s : alike os p s s.
Proof. by repeat split. Qed.

Ltac calls_alike := unfold same_irqs, masks, handlers; split; tally; cbn -[Z.add Z.sub]; lia.

Lemma create_spec m c s :
  0 < c → ∃ r s', el_create_mutex (E := on os p) m c s = Ok r s' ∧ mutex_made os p c s r s'.
Proof.
  intros Hc. apply wp_exists. pose proof (mutex_made_new c) as Hnew. pose proof alike_refl as Hrefl.
  pose proof (λ f xs r s, alike_other f xs r s) as Hoth.
  destruct p; cbn [el_create_mutex el_on]; rewrite wp_bind.
  - unfold ThreadX.env_create_mutex, ThreadX.env_allocate_memory.
    destruct (Z.ltb_spec ThreadX.RL_ENV_MAX_MUTEX_COUNT c) as [|Hle]; [by call_steps|]. rewrite wp_bind.
    destruct RL_USE_STATIC_API; call_steps; (ask; [done|]); (ask; [|unfold ThreadX.env_free_memory; try ask; done]).
    + apply (Hnew m r s s); [by split|done|apply Hrefl].
    + apply (Hnew r); [by split|done|]. apply Hoth; [done|calls_alike].
  - unfold Xos.env_create_mutex, Xos.env_allocate_memory.
    destruct (Z.ltb_spec Xos.RL_ENV_MAX_MUTEX_COUNT c) as [|Hle]; [by call_steps|]. rewrite wp_bind.
    destruct RL_USE_STATIC_API; call_steps; (ask; [done|]); (ask; [|unfold Xos.env_free_memory; try ask; done]).
    + apply (Hnew m r s s); [by split|done|apply Hrefl].
    + apply (Hnew r); [by split|done|]. apply Hoth; [done|calls_alike].
  - unfold Zephyr.env_create_mutex, Zephyr.env_allocate_memory.
    destruct (Z.ltb_spec Zephyr.RL_ENV_MAX_MUTEX_COUNT c) as [|Hle]; [by call_steps|]. rewrite wp_bind.
    destruct RL_USE_STATIC_API; call_steps; (ask; [done|]).
    + apply (Hnew m); [by split|done|apply Hrefl].
    + apply (Hnew r); [by split|done|]. apply Hoth; [done|calls_alike].
Qed.

Lemma delete_spec l s :
  ∃ u s', el_delete_mutex (E := on os p) l s = Ok u s' ∧ (env_init_counter s' = env_init_counter s ∧ same_irqs s s').
Proof.
  apply wp_exists. destruct p; cbn [el_delete_mutex el_on].
  - unfold ThreadX.env_delete_mutex, ThreadX.env_free_memory. call_steps. destruct RL_USE_STATIC_API; port_branches; irqs_same.
  - unfold Xos.env_delete_mutex, Xos.env_free_memory. call_steps. destruct RL_USE_STATIC_API; port_branches; irqs_same.
  - unfold Zephyr.env_delete_mutex, Zephyr.env_free_memory. call_steps. destruct RL_USE_STATIC_API; port_branches; irqs_same.
Qed.

(** ** The life-cycle interface *)

(** The four functions on interrupts are one in all ports. *)
Lemma el_irq_is :
  (∀ v d, el_init_interrupt (E := on os p) v d = (do_os "platform_init_interrupt" [v; d];; register_isr RL_PLATFORM_MAX_ISR_COUNT v d)) ∧
  (∀ v, el_deinit_interrupt (E := on os p) v = (do_os "platform_deinit_interrupt" [v];; unregister_isr RL_PLATFORM_MAX_ISR_COUNT v)) ∧
  (∀ v, el_enable_interrupt (E := on os p) v = do_os "platform_interrupt_enable" [v]) ∧
  (∀ v, el_disable_interrupt (E := on os p) v = do_os "platform_interrupt_disable" [v]).
Proof. by destruct p. Qed.

Lemma irq_is_no_sem :
  sem_call p "platform_init_interrupt" = false ∧ sem_call p "platform_deinit_interrupt" = false ∧
  sem_call p "platform_interrupt_enable" = false ∧ sem_call p "platform_interrupt_disable" = false.
Proof. by destruct p. Qed.

(** A change of the table of handlers does not matter to the laws. *)
Lemma env_step_table k j f s s' :
  env_step (E := on os p) k j s s' → env_step (E := on os p) k j s (set_table f s').
Proof. intros [? ? ? ? ?]. by constructor. Qed.

Lemma law_irq k j f v xs s :
  0 < env_init_counter s → 0 ≤ masks s + k → sem_call p f = false → v < RL_PLATFORM_MAX_ISR_COUNT →
  (∀ r, masks (made [Call f xs r] s) = masks s + k ∧ handlers (made [Call f xs r] s) = handlers s + j) →
  ∀ d, ∃ u s', (do_os f xs;; (if v <? RL_PLATFORM_MAX_ISR_COUNT then modify (set_table <[v := d]>) else mret tt);;
      k_assert (v <? RL_PLATFORM_MAX_ISR_COUNT)) s = Ok u s' ∧ env_step (E := on os p) k j s s'.
Proof.
  intros Hc Hm Hf Hv%Z.ltb_lt Hk d. apply wp_exists. rewrite wp_bind. apply wp_do. intros r _. rewrite Hv. call_steps.
  apply wp_assert; [done|]. apply env_step_table. by apply env_step_made; try apply Hk.
Qed.

Lemma law_mask_call k f v s :
  0 < env_init_counter s → 0 ≤ masks s + k → sem_call p f = false →
  (∀ r, masks (made [Call f [v] r] s) = masks s + k ∧ handlers (made [Call f [v] r] s) = handlers s) →
  ∃ u s', do_os f [v] s = Ok u s' ∧ env_step (E := on os p) k 0 s s'.
Proof.
  intros Hc Hm Hf Hk. apply wp_exists. apply wp_do. intros r _. apply env_step_made; try done; [apply Hk|].
  rewrite (proj2 (Hk r)). lia.
Qed.

Ltac count_calls := intros ?; unfold masks, handlers; cbn -[Z.add Z.sub]; lia.

#[global] Program Instance life_laws_on : LifeLaws (on os p).
Next Obligation.
  intros s [Hc Hm]. destruct (init_spec s Hc) as (r & s' & R & Ec & Em & Eh). exists r, s'. split; [done|]. intros _. cbn.
  rewrite Ec, Em. split_and!; [lia|done|done|done].
Qed.
Next Obligation. intros s [Hc Hm] _. destruct (deinit_spec s Hc) as (r & s' & R & _). by exists r, s'. Qed.
Next Obligation.
  intros s m c [Hc Hm] _ Hpos. destruct (create_spec m c s Hpos) as ([st l] & s' & R & Hmade). exists st, l, s'. split; [done|].
  intros Hs. destruct (Hmade Hs) as (Hl & Hb & Ec & [Em Eh] & Ei & Et). cbn in Hl, Et. split; [done|]. split.
  - constructor; cbn; rewrite ?Ec, ?Em, ?Eh, ?Z.add_0_r; try done. intros l' Hf. unfold free_lock in *. rewrite Ei, Et.
    destruct (l =? l'); [by right|done].
  - right. rewrite Et, Z.eqb_refl. done.
Qed.
Next Obligation.
  intros s l [Hc Hm] _. destruct (delete_spec l s) as ([] & s' & R & Ec & Em & _). exists s'. split; [done|]. cbn. by rewrite Ec, Em.
Qed.
Next Obligation.
  intros s v d [Hc Hm] Hv. destruct el_irq_is as (-> & _). cbn in Hv.
  destruct (law_irq 0 1 "platform_init_interrupt" v [v; d] s Hc ltac:(lia) (proj1 irq_is_no_sem) Hv ltac:(count_calls) d)
    as ([] & s' & R & H). by exists s'.
Qed.
Next Obligation.
  intros s v [Hc Hm] Hv _. destruct el_irq_is as (_ & -> & _). cbn in Hv.
  destruct (law_irq 0 (-1) "platform_deinit_interrupt" v [v] s Hc ltac:(lia) (proj1 (proj2 irq_is_no_sem)) Hv ltac:(count_calls) NULL)
    as ([] & s' & R & H). by exists s'.
Qed.
Next Obligation.
  intros s v [Hc Hm] _. destruct el_irq_is as (_ & _ & _ & ->).
  destruct (law_mask_call 1 "platform_interrupt_disable" v s Hc ltac:(lia) (proj2 (proj2 (proj2 irq_is_no_sem))) ltac:(count_calls))
    as ([] & s' & R & H). by exists s'.
Qed.
Next Obligation.
  intros s v [Hc Hm] _ Hp. cbn in Hp. destruct el_irq_is as (_ & _ & -> & _).
  destruct (law_mask_call (-1) "platform_interrupt_enable" v s Hc ltac:(lia) (proj1 (proj2 (proj2 irq_is_no_sem))) ltac:(count_calls))
    as ([] & s' & R & H). by exists s'.
Qed.
Next Obligation. intros s [_ Hm]. exact Hm. Qed.

End life.

(** ** Two cores *)

Section start.
Context {cfg : Config} {am : AddrMap} {cok : ConfigOk cfg}.
Context (os1 os2 : Os) (p1 p2 : system) {sk1 : SoundKernel os1 p1} {sk2 : SoundKernel os2 p2}.
Context {app1 : Application (on os1 p1)} {rxd2 : RxDispatch (on os2 p2)} {app2 : Application (on os2 p2)}.

(** Announcing the link is one call, which leaves the locks alone. *)
Lemma tx_callback_spec os p link_id s {sk : SoundKernel os p} :
  ∃ e, el_tx_callback (E := on os p) link_id s = Ok tt e ∧ ∀ l, free_lock os p s l → free_lock os p e l.
Proof.
  assert (∃ f xs, el_tx_callback (E := on os p) link_id = do_os f xs ∧ sem_call p f = false) as (f & xs & -> & Hf).
  { destruct p; by eexists _, _. }
  destruct (wp_exists (do_os f xs) (λ _ e, ∀ l, free_lock os p s l → free_lock os p e l) s) as ([] & e & R & H).
  - apply wp_do. intros r _ l. by apply free_lock_other.
  - by exists e.
Qed.

(** C5.  The library starts on ThreadX, XOS and Zephyr.  On kernels that grant a
    semaphore that has tokens left: when [rpmsg_lite_master_init] has returned an
    instance on one core, [rpmsg_lite_remote_init] one on the other core and the
    memory the master left, then the notification of the remote is handled and
    returns, and the two cores are at the start of a conversation, so that
    everything proved of conversations holds on these systems, with the locks of
    the port and in any combination of the three. *)
Theorem systems_start_conversation shmem_addr shmem_length rc lnk flags sc (w : world (on os1 p1)) dev wM lnk' flags' sc'
    (v : world (on os2 p2)) dev' vR fuel fuel' :
  startable shmem_addr shmem_length lnk rc sc w → master_config lnk shmem_length w = Ok (Some rc) w →
  pool_mapped shmem_addr rc →
  rpmsg_lite_master_init shmem_addr shmem_length lnk flags sc w = Ok dev wM → dev ≠ NULL →
  startable shmem_addr shmem_length lnk' rc sc' v → remote_config (app := app2) lnk' = Some rc → w_mem v = w_mem wM →
  rpmsg_lite_remote_init shmem_addr lnk' flags' sc' v = Ok dev' vR → dev' ≠ NULL →
  debug_addresses shmem_addr rc (w_mem wM) → rc_count rc ≤ Z.of_nat fuel' →
  ∃ i i', w_heap wM !! dev = Some (OInst i) ∧ w_heap vR !! dev' = Some (OInst i') ∧ free_lock os2 p2 (w_env vR) (lock i') ∧
    ∀ lim lim', payload_max (app := app1) i = Some lim → payload_max (app := app2) i' = Some lim' →
      ∃ vR', virtqueue_notification fuel (tvq i') vR = Ok tt vR' ∧
        started (bare_core dev i lim) (bare_core dev' (set_link_state 1 i') lim') (rc_buf_size rc)
          (shmem_region shmem_addr shmem_length) fuel' {| s_master := wM; s_remote := vR' |}.
Proof.
  intros St Cfg Map Run Hdev St' Cfg' Em Run' Hdev' Hdbg Hfuel.
  destruct (boot_started _ _ _ _ _ _ _ _ _ _ _ _ _ _ _ fuel fuel' St Cfg Map Run Hdev St' Cfg' Em Run' Hdev' Hdbg Hfuel)
    as (i & i' & Hi & Hi' & Hs).
  destruct (remote_init_ok shmem_addr shmem_length lnk' flags' sc' rc v St' Cfg') as (r & w1 & R1 & H1).
  rewrite Run' in R1. injection R1 as <- <-. destruct H1 as [(? & _)|(_ & Hr)]; [done|].
  destruct (rr_booted _ _ _ _ _ _ Hr) as (i2 & qt' & qr' & B'). pose proof (bt_lite _ _ _ _ _ _ _ _ _ B') as Hlo.
  pose proof (lo_inst _ _ _ _ _ _ Hlo) as Hi2. rewrite Hi' in Hi2. injection Hi2 as <-.
  pose proof (lo_lock _ _ _ _ _ _ Hlo) as Hfree. exists i, i'. split_and!; [done|done|exact Hfree|].
  intros lim lim' Hl Hl'. destruct (tx_callback_spec os2 p2 (World.link_id i') (w_env vR)) as (e & He & Hk).
  exact (Hs lim lim' e Hl Hl' He (Hk (lock i') Hfree)).
Qed.

End start.

(** ** ThreadX and Zephyr on one memory *)

#[local] Existing Instances default_config Concrete.flat_map default_ok.

#[global] Instance granting_sound p : SoundKernel granting_os p.
Proof. split; intros; by destruct p. Qed.

Definition no_app (p : system) : Application (on granting_os p) := {|
  app_rx_cb _ _ _ _ _ := mret RL_RELEASE; app_ns_cb _ _ _ _ _ := mret tt; platform_get_custom_shmem_config _ := None |}.
Definition no_dispatch (p : system) : RxDispatch (on granting_os p) := {| call_rx_cb _ _ _ _ _ := mret RL_RELEASE |}.

Definition cold (p : system) : world (on granting_os p) := Build_world ∅ ∅ 10 [] 0 start [].
Definition threadx_up : world (on granting_os OnThreadX) := state_or (cold OnThreadX)
  (rpmsg_lite_master_init (app := no_app _) c_shared c_length 0 0 None (cold OnThreadX)).
Definition zephyr_cold : world (on granting_os OnZephyr) := set_mem (λ _, w_mem threadx_up) (cold OnZephyr).
Definition zephyr_up : world (on granting_os OnZephyr) := state_or (cold OnZephyr)
  (rpmsg_lite_remote_init (app := no_app _) c_shared 0 0 None zephyr_cold).

Lemma threadx_boots :
  rpmsg_lite_master_init (app := no_app _) c_shared c_length 0 0 None (cold OnThreadX) =
    Ok 10 threadx_up.
Proof. apply (answer_ok 0); [discriminate|]. vm_compute. reflexivity. Qed.

Lemma zephyr_boots :
  rpmsg_lite_remote_init (app := no_app _) c_shared 0 0 None zephyr_cold = Ok 10 zephyr_up.
Proof. apply (answer_ok 0); [discriminate|]. vm_compute. reflexivity. Qed.

Lemma cold_startable p m :
  startable (E := on granting_os p) c_shared c_length 0 c_rc None (set_mem (λ _, m) (cold p)).
Proof.
  constructor; [discriminate|apply c_layout_ok|by split| |done|by split].
  constructor; [reflexivity| |reflexivity]. intros x _. reflexivity.
Qed.

Lemma zephyr_cold_mem : w_mem zephyr_cold = w_mem threadx_up.
Proof. unfold zephyr_cold. generalize threadx_up. reflexivity. Qed.

Lemma threadx_reads_apart : debug_addresses c_shared c_rc (w_mem threadx_up).
Proof. discriminate. Qed.

Lemma threadx_config :
  master_config (app := no_app OnThreadX) 0 c_length (cold OnThreadX) = Ok (Some c_rc) (cold OnThreadX).
Proof. vm_compute. done. Qed.

Lemma systems_start_conversation_witness :
  ∃ i i' v', virtqueue_notification (rxd := no_dispatch OnZephyr) 0 (tvq i') zephyr_up = Ok tt v' ∧
    started (app1 := no_app OnThreadX) (app2 := no_app OnZephyr)
      (bare_core 10 i 496) (bare_core 10 (set_link_state 1 i') 496) 512 (shmem_region c_shared c_length) 2
      {| s_master := threadx_up; s_remote := v' |}.
Proof.
  destruct (systems_start_conversation granting_os granting_os OnThreadX OnZephyr
    (app1 := no_app _) (rxd2 := no_dispatch _) (app2 := no_app _)
    c_shared c_length c_rc 0 0 None (cold OnThreadX) 10 threadx_up 0 0 None zephyr_cold 10 zephyr_up 0 2
    (cold_startable OnThreadX ∅) threadx_config c_mapped threadx_boots ltac:(discriminate) (cold_startable OnZephyr (w_mem threadx_up))
    eq_refl zephyr_cold_mem zephyr_boots ltac:(discriminate) threadx_reads_apart ltac:(discriminate))
    as (i & i' & _ & _ & _ & Hs).
  destruct (Hs 496 496 eq_refl eq_refl) as (v' & R & S). exists i, i', v'. exact (conj R S).
Defined.
