(* ===== verification/Aarch64.v ===== *)
(** * The aarch64 platform and its software mailbox

    [porting/platform/aarch64/rpmsg_platform.c]: cores of a partitioned chip ring
    each other through registers in memory and a software-generated interrupt.
    First the functions of one core, on the four registers of the channel
    [RPMSG_MBOX_CHANNEL]; then both cores, statement by statement, with the
    interrupts that are pending and the requests made by [env_isr]: messages are
    reported once and in order and nothing gets stuck ([mailbox_delivers]), unless
    the handler itself sends at the wrong moment, or a request is dropped because
    the same message is still in the register. *)

From S2P Require Import Prelude Config Platform PlatformMasking.

(** [struct gen_sw_mbox], one channel of it; [enum sw_mbox_channel_status]. *)
Record gen_sw_mbox : Type := { rx_status : Z; tx_status : Z; rx_ch : Z; tx_ch : Z }.
Definition S_READY : Z := 0.
Definition S_BUSY : Z := 1.
Definition S_DONE : Z := 2.

Record core_state : Type := { plat : platform_state; mbox : gen_sw_mbox }.
Abbreviation A := (M core_state).

Section aarch64.
Context {b : Board}.

Definition set_plat (p : platform_state) (s : core_state) : core_state := {| plat := p; mbox := mbox s |}.
Definition upd_mbox (f : gen_sw_mbox → gen_sw_mbox) (s : core_state) : core_state := {| plat := plat s; mbox := f (mbox s) |}.
Definition on_plat {X} (m : P X) : A X := zoom (λ s, Some (plat s)) set_plat m.

Definition set_rx_status (x : Z) (r : gen_sw_mbox) : gen_sw_mbox :=
  {| rx_status := x; tx_status := tx_status r; rx_ch := rx_ch r; tx_ch := tx_ch r |}.
Definition set_tx_status (x : Z) (r : gen_sw_mbox) : gen_sw_mbox :=
  {| rx_status := rx_status r; tx_status := x; rx_ch := rx_ch r; tx_ch := tx_ch r |}.
Definition set_tx_ch (x : Z) (r : gen_sw_mbox) : gen_sw_mbox :=
  {| rx_status := rx_status r; tx_status := tx_status r; rx_ch := rx_ch r; tx_ch := x |}.
Definition ring_peer : A unit :=
  on_plat (acts [ACall "__DSB" []; ACall "GIC_SetPendingIRQ RL_GEN_SW_MBOX_REMOTE_IRQ" []]).

(** ** The functions of one core *)

Definition gen_sw_mbox_handler : A unit :=
  s ← get_state;
  (if tx_status (mbox s) =? S_DONE then modify (upd_mbox (set_tx_status S_READY)) else mret tt);;
  s ← get_state;
  if negb (rx_status (mbox s) =? S_BUSY) then mret tt
  else
    let vector_id := rx_ch (mbox s) in
    modify (upd_mbox (set_rx_status S_DONE));;
    ring_peer;;
    on_plat (act (AIsr (Z.shiftr vector_id 16))).

Definition gen_sw_mailbox_init : A unit := modify (upd_mbox (λ r, set_tx_status 0 (set_rx_status 0 r))).

(** The loop on a busy channel; [meanwhile]: what the handler and the peer do to
    the registers between two turns. *)
Fixpoint gen_sw_mbox_sendmsg (fuel : nat) (meanwhile : gen_sw_mbox → gen_sw_mbox) (msg : Z) : A unit :=
  match fuel with
  | O => no_fuel
  | S fuel' =>
      s ← get_state;
      if negb (tx_status (mbox s) =? S_READY) then
        if msg =? tx_ch (mbox s) then mret tt
        else modify (upd_mbox meanwhile);; gen_sw_mbox_sendmsg fuel' meanwhile msg
      else
        modify (upd_mbox (set_tx_ch msg));;
        modify (upd_mbox (set_tx_status S_BUSY));;
        ring_peer
  end.

Definition aarch64_platform_init_interrupt (vector_id isr_data : Z) : A Z :=
  on_plat (lock_platform;; act (ARegister vector_id isr_data);; unlock_platform;; mret 0).
Definition aarch64_platform_deinit_interrupt (vector_id : Z) : A Z :=
  on_plat (lock_platform;; act (AUnregister vector_id);; unlock_platform;; mret 0).
Definition aarch64_platform_notify (fuel : nat) (meanwhile : gen_sw_mbox → gen_sw_mbox) (vector_id : Z) : A unit :=
  on_plat lock_platform;;
  gen_sw_mbox_sendmsg fuel meanwhile (u32 (Z.shiftl vector_id 16));;
  on_plat unlock_platform.
Definition aarch64_platform_interrupt_enable (vector_id : Z) : P Z :=
  enable_one (act (AIrqOn "RL_GEN_SW_MBOX_IRQ")).
Definition aarch64_platform_interrupt_disable (vector_id : Z) : P Z :=
  disable_one (act (AIrqOff "RL_GEN_SW_MBOX_IRQ")).
Definition aarch64_platform_init : A Z := gen_sw_mailbox_init;; on_plat create_platform_lock.
Definition aarch64_platform_deinit : A Z := on_plat delete_platform_lock.

(** Masking counts, as on the platforms of [PlatformMasking]. *)
#[global] Instance aarch64_nests :
  Nests [(0, 0%nat, Some "RL_GEN_SW_MBOX_IRQ")] (λ _, 0)
    aarch64_platform_interrupt_enable aarch64_platform_interrupt_disable.
Proof.
  exact (nests_one _ _ _ _ _ (logs_act _) (turns_on_act _) (logs_act _) (turns_off_act _)).
Qed.

End aarch64.

(** ** Two cores

    A core: the two registers it sends through (the peer's [rx_status] and
    [rx_ch]), its pending interrupt, where the sending task and the interrupt
    handler are, and, for the statements of the theorems, the messages it has put
    into the register, the requests it took as sent already, and the messages it
    has reported to [env_isr].  A place names the statement that comes next. *)
Inductive send_pc : Type :=
| Idle | Loop (msg : Z) | Full (msg : Z) | Ready (msg : Z) | Stored (msg : Z) | Raised.
Inductive isr_pc : Type :=
| Out | Entered | SawDone | Checked | Busy | Read (msg : Z) | Acked (msg : Z) | Rung (msg : Z) | InIsr (p : send_pc).
Record core : Type := {
  status : Z;
  ch : Z;
  irq : bool;
  task : send_pc;
  isr : isr_pc;
  sent : list Z;
  dropped : list Z;
  reported : list Z;
}.

Definition set_status (x : Z) (c : core) : core :=
  {| status := x; ch := ch c; irq := irq c; task := task c; isr := isr c;
     sent := sent c; dropped := dropped c; reported := reported c |}.
Definition set_ch (x : Z) (c : core) : core :=
  {| status := status c; ch := x; irq := irq c; task := task c; isr := isr c;
     sent := sent c; dropped := dropped c; reported := reported c |}.
Definition set_irq (x : bool) (c : core) : core :=
  {| status := status c; ch := ch c; irq := x; task := task c; isr := isr c;
     sent := sent c; dropped := dropped c; reported := reported c |}.
Definition set_task (p : send_pc) (c : core) : core :=
  {| status := status c; ch := ch c; irq := irq c; task := p; isr := isr c;
     sent := sent c; dropped := dropped c; reported := reported c |}.
Definition set_isr (p : isr_pc) (c : core) : core :=
  {| status := status c; ch := ch c; irq := irq c; task := task c; isr := p;
     sent := sent c; dropped := dropped c; reported := reported c |}.
Definition note_sent (x : Z) (c : core) : core :=
  {| status := status c; ch := ch c; irq := irq c; task := task c; isr := isr c;
     sent := sent c ++ [x]; dropped := dropped c; reported := reported c |}.
Definition note_dropped (x : Z) (c : core) : core :=
  {| status := status c; ch := ch c; irq := irq c; task := task c; isr := isr c;
     sent := sent c; dropped := dropped c ++ [x]; reported := reported c |}.
Definition note_reported (x : Z) (c : core) : core :=
  {| status := status c; ch := ch c; irq := irq c; task := task c; isr := isr c;
     sent := sent c; dropped := dropped c; reported := reported c ++ [x] |}.

Definition cores : Type := core * core.

(** A statement of [gen_sw_mbox_sendmsg] on the first of two cores: the place
    after it, and both cores. *)
Definition send_statement (p : send_pc) (me peer : core) : send_pc * cores :=
  match p with
  | Idle => (Idle, (me, peer))
  | Loop msg => (if negb (status me =? S_READY) then Full msg else Ready msg, (me, peer))
  | Full msg => if msg =? ch me then (Idle, (note_dropped msg me, peer)) else (Loop msg, (me, peer))
  | Ready msg => (Stored msg, (set_ch msg me, peer))
  | Stored msg => (Raised, (note_sent msg (set_status S_BUSY me), peer))
  | Raised => (Idle, (me, set_irq true peer))
  end.

(** A statement of [gen_sw_mbox_handler]; [env_isr] may call [platform_notify],
    and [InIsr] is the place in that call. *)
Definition handler_statement (me peer : core) : cores :=
  match isr me with
  | Out => (me, peer)
  | Entered => (set_isr (if status me =? S_DONE then SawDone else Checked) me, peer)
  | SawDone => (set_isr Checked (set_status S_READY me), peer)
  | Checked => (set_isr (if negb (status peer =? S_BUSY) then Out else Busy) me, peer)
  | Busy => (set_isr (Read (ch peer)) me, peer)
  | Read msg => (set_isr (Acked msg) me, set_status S_DONE peer)
  | Acked msg => (set_isr (Rung msg) me, set_irq true peer)
  | Rung msg => (set_isr (InIsr Idle) (note_reported msg me), peer)
  | InIsr Idle => (set_isr Out me, peer)
  | InIsr p => let '(p', (me', peer')) := send_statement p me peer in (set_isr (InIsr p') me', peer')
  end.

(** What happens on a core: the task or the handler executes a statement, an
    interrupt is taken; the task or [env_isr] calls [platform_notify]; another
    device on the line interrupts.  The task waits while the handler runs. *)
Inductive event : Type := Task | Handler | Interrupt | Request (msg : Z) | IsrRequest (msg : Z) | OtherIrq.
Definition exec (e : event) (me peer : core) : option cores :=
  match e, isr me with
  | Task, Out =>
      let '(p, (me', peer')) := send_statement (task me) me peer in Some (set_task p me', peer')
  | Interrupt, Out => if irq me then Some (set_isr Entered (set_irq false me), peer) else None
  | Request msg, Out => if task me is Idle then Some (set_task (Loop msg) me, peer) else None
  | Handler, Out => None
  | Handler, _ => Some (handler_statement me peer)
  | IsrRequest msg, InIsr Idle => Some (set_isr (InIsr (Loop msg)) me, peer)
  | OtherIrq, _ => Some (set_irq true me, peer)
  | _, _ => None
  end.
Definition statement (e : event) : bool := if e is (Task | Handler | Interrupt) then true else false.

Inductive on_event (E : event → bool) : cores → cores → Prop :=
| on_first e a b a' b' : E e = true → exec e a b = Some (a', b') → on_event E (a, b) (a', b')
| on_second e a b a' b' : E e = true → exec e b a = Some (b', a') → on_event E (a, b) (a', b').
Definition step : cores → cores → Prop := on_event (λ _, true).
(** Without new requests. *)
Definition quiet : cores → cores → Prop := on_event statement.

Definition core_reset : core :=
  {| status := S_READY; ch := 0; irq := false; task := Idle; isr := Out; sent := []; dropped := []; reported := [] |}.
Definition link_reset : cores := (core_reset, core_reset).

(** ** What is kept *)

(** The handler sends while the task it has interrupted is about to send. *)
Definition collision (c : core) : bool :=
  match task c, isr c with
  | _, InIsr Idle => false
  | (Ready _ | Stored _), InIsr _ => true
  | _, _ => false
  end.
Definition calm (s : cores) : Prop := collision (s.1) = false ∧ collision (s.2) = false.
Definition calm_step (s s' : cores) : Prop := step s s' ∧ calm s'.

(** A message that the receiver [r] has read and not yet reported, and one in
    the register of the sender [s]. *)
Definition taken (r : core) : list Z := match isr r with Acked msg | Rung msg => [msg] | _ => [] end.
Definition waiting (s : core) : list Z := if status s =? S_BUSY then [ch s] else [].

Definition raising (s : core) : Prop := task s = Raised ∨ isr s = InIsr Raised.
Definition will_look (r : core) : Prop :=
  match isr r with Entered | SawDone | Checked | Busy | Read _ => True | _ => False end.
Definition acked (r : core) : Prop := match isr r with Acked _ => True | _ => False end.
Definition will_clear (s : core) : Prop := isr s = Entered ∨ isr s = SawDone.
Definition place_ok (s : core) (p : send_pc) : Prop :=
  match p with
  | Ready _ => status s = S_READY
  | Stored msg => status s = S_READY ∧ ch s = msg
  | _ => True
  end.
Definition handler_ok (s : core) : Prop :=
  match isr s with SawDone => status s = S_DONE | InIsr p => place_ok s p | _ => True end.
Definition reader_ok (s r : core) : Prop :=
  match isr r with Busy => status s = S_BUSY | Read msg => status s = S_BUSY ∧ ch s = msg | _ => True end.

(** One direction, from [s] to [r]: a message in the register is announced or
    about to be, a receipt is acknowledged or about to be, a message in the
    register is not overwritten. *)
Record lane_ok (s r : core) : Prop := {
  lane_status : status s = S_READY ∨ status s = S_BUSY ∨ status s = S_DONE;
  lane_busy : status s = S_BUSY → irq r = true ∨ raising s ∨ will_look r;
  lane_done : status s = S_DONE → irq s = true ∨ acked r ∨ will_clear s;
  lane_task : place_ok s (task s);
  lane_handler : handler_ok s;
  lane_reader : reader_ok s r;
  lane_sent : sent s = reported r ++ taken r ++ waiting s;
}.
Definition link_ok (s : cores) : Prop := lane_ok (s.1) (s.2) ∧ lane_ok (s.2) (s.1).

(** Where an event leads, case by case. *)
Ltac run_event H :=
  cbn in H; unfold handler_statement, send_statement in H; cbn in H;
  repeat (match type of H with
    | context [match ?x with _ => _ end] => is_var x; destruct x
    | context [?x =? ?y] => destruct (Z.eqb_spec x y)
    | context [if ?x then _ else _] => destruct x eqn:?
    end; cbn in H);
  try discriminate H; injection H as <- <-; cbn in *.
Ltac lane_tac :=
  unfold raising, will_look, acked, will_clear, handler_ok, reader_ok, taken, waiting, place_ok, S_READY, S_BUSY, S_DONE in *;
  cbn in *; subst; cbn in *; rewrite ?app_nil_r, <- ?app_assoc in *; cbn in *;
  try solve [done | lia | intuition (congruence || discriminate || lia || auto)].

(** The place of the other part of the program, when it matters. *)
Ltac lane_cases :=
  lane_tac; destruct_and?; subst; cbn in *;
  do 2 (try match goal with |- context [match ?x with _ => _ end] => is_var x; destruct x end; lane_tac).

Lemma lane_ok_here e me peer me' peer' :
  exec e me peer = Some (me', peer') → collision me = false → lane_ok me peer → lane_ok me' peer'.
Proof.
  destruct me as [st c i tk h sn dr rp], peer as [st2 c2 i2 tk2 h2 sn2 dr2 rp2].
  intros He Hc [H1 H2 H3 H4 H5 H6 H7]. destruct e; run_event He; split; cbn; lane_cases.
Qed.

Lemma lane_ok_there e me peer me' peer' :
  exec e me peer = Some (me', peer') → lane_ok peer me → lane_ok peer' me'.
Proof.
  destruct me as [st c i tk h sn dr rp], peer as [st2 c2 i2 tk2 h2 sn2 dr2 rp2].
  intros He [H1 H2 H3 H4 H5 H6 H7]. destruct e; run_event He; split; cbn; lane_cases.
Qed.

Lemma link_ok_step E s s' : on_event E s s' → calm s → link_ok s → link_ok s'.
Proof.
  intros [] [Ha Hb] [Hab Hba]; split; cbn in *; eauto using lane_ok_here, lane_ok_there.
Qed.

Lemma link_ok_reachable s : star calm_step link_reset s → calm s ∧ link_ok s.
Proof.
  intros Hs. apply (star_invariant calm_step (λ s, calm s ∧ link_ok s) link_reset s); [|exact Hs|].
  - intros x y [Hc Hok] [Hstep Hc']. split; [done|]. by eapply link_ok_step.
  - split; [done|]. split; split; unfold handler_ok, reader_ok, place_ok, taken, waiting; cbn; auto; discriminate.
Qed.

(** ** Coming to rest *)

(** [env_isr] waits for a channel that only the handler it runs in makes ready. *)
Definition stuck (c : core) : bool :=
  if isr c is InIsr (Loop msg | Full msg) then negb (status c =? S_READY) && negb (msg =? ch c) else false.

Definition at_rest (c : core) : Prop := status c = S_READY ∧ task c = Idle ∧ isr c = Out ∧ irq c = false.
Definition settled (s : cores) : Prop :=
  at_rest (s.1) ∧ at_rest (s.2) ∧ sent (s.1) = reported (s.2) ∧ sent (s.2) = reported (s.1).

(** How many statements are left at most, when no request is made. *)
Definition send_weight (c : Z) (p : send_pc) : Z :=
  match p with
  | Idle => 0 | Raised => 9 | Stored _ => 19 | Ready _ => 23 | Loop _ => 25
  | Full msg => if msg =? c then 24 else 26
  end.
Definition handler_weight (c : Z) (h : isr_pc) : Z :=
  match h with
  | Out => 0 | InIsr p => 1 + send_weight c p | Rung _ => 2 | Acked _ => 11 | Read _ => 3
  | Busy => 4 | Checked => 5 | SawDone => 6 | Entered => 7
  end.
Definition weight (c : core) : Z :=
  send_weight (ch c) (task c) + handler_weight (ch c) (isr c) +
  (if irq c then 8 else 0) + (if status c =? S_BUSY then 9 else 0).
Definition weights (s : cores) : Z := weight (s.1) + weight (s.2).

Record good (s : cores) : Prop := {
  good_ok : link_ok s;
  good_calm : calm s;
  good_first : stuck (s.1) = false;
  good_second : stuck (s.2) = false;
}.

Ltac stuck_cases :=
  unfold stuck, collision, handler_ok, reader_ok, place_ok, S_READY, S_BUSY, S_DONE in *; cbn in *; subst; cbn in *;
  repeat match goal with
  | H : context [match ?x with _ => _ end] |- _ => is_var x; destruct x; cbn in *; try done
  end;
  destruct_and?; subst; cbn in *; try done; zcases; try done; try lia; auto.

(** Only a request of [env_isr] gets a core stuck, and it stays stuck for ever. *)
Lemma stuck_here e me peer me' peer' :
  exec e me peer = Some (me', peer') → stuck me = true → stuck me' = true ∧ sent me' = sent me ∧ reported me' = reported me.
Proof.
  destruct me as [st c i tk h sn dr rp], peer as [st2 c2 i2 tk2 h2 sn2 dr2 rp2].
  intros He Hs. destruct e; run_event He; stuck_cases.
Qed.

Lemma stuck_there e me peer me' peer' :
  exec e peer me = Some (peer', me') → stuck me = true → stuck me' = true ∧ sent me' = sent me ∧ reported me' = reported me.
Proof.
  destruct me as [st c i tk h sn dr rp], peer as [st2 c2 i2 tk2 h2 sn2 dr2 rp2].
  intros He Hs. destruct e; run_event He; stuck_cases.
Qed.

Lemma unstuck_here e me peer me' peer' :
  exec e me peer = Some (me', peer') → statement e = true → lane_ok me peer → collision me = false → stuck me = false →
  stuck me' = false ∧ collision me' = false.
Proof.
  destruct me as [st c i tk h sn dr rp], peer as [st2 c2 i2 tk2 h2 sn2 dr2 rp2].
  intros He Hq [_ _ _ _ Hh _ _] Hc Hs. destruct e; try discriminate Hq; run_event He; split; stuck_cases.
Qed.

Lemma unstuck_there e me peer me' peer' :
  exec e peer me = Some (peer', me') → statement e = true → lane_ok me peer → collision me = false → stuck me = false →
  stuck me' = false ∧ collision me' = false.
Proof.
  destruct me as [st c i tk h sn dr rp], peer as [st2 c2 i2 tk2 h2 sn2 dr2 rp2].
  intros He Hq [_ _ _ _ _ Hr _] Hc Hs. destruct e; try discriminate Hq; run_event He; split; stuck_cases.
Qed.

Lemma good_quiet s s' : quiet s s' → good s → good s'.
Proof.
  intros Hq [Hok Hc H1 H2]. pose proof (link_ok_step _ _ _ Hq Hc Hok) as Hok'.
  destruct Hq as [e a b a' b' He Hexec|e a b a' b' He Hexec], Hok as [Hab Hba], Hc as [Hca Hcb]; cbn in *.
  - destruct (unstuck_here _ _ _ _ _ Hexec He Hab Hca H1), (unstuck_there _ _ _ _ _ Hexec He Hba Hcb H2).
    by split.
  - destruct (unstuck_there _ _ _ _ _ Hexec He Hab Hca H1), (unstuck_here _ _ _ _ _ Hexec He Hba Hcb H2).
    by split.
Qed.

Definition advances (me peer : core) : Prop :=
  ∃ e me' peer', statement e = true ∧ exec e me peer = Some (me', peer') ∧ weight me' + weight peer' < weight me + weight peer.

(** The statement that comes next, and what it changes. *)
Ltac advance e :=
  exists e; cbn; unfold weight, S_BUSY, S_READY, S_DONE in *; cbn;
  repeat (match goal with |- context [?x =? ?y] => destruct (Z.eqb_spec x y); cbn in *; try congruence; try lia end);
  eexists _, _; (split; [reflexivity|split; [reflexivity|]]); cbn;
  repeat (match goal with |- context [?x =? ?y] => destruct (Z.eqb_spec x y); try congruence end); cbn in *; try lia.

Lemma send_weight_ch c c' p : send_weight c p ≤ send_weight c' p + 2.
Proof. destruct p; cbn; zcases; lia. Qed.

Lemma handler_advances me peer :
  lane_ok me peer → lane_ok peer me → stuck me = false → isr me ≠ Out → advances me peer.
Proof.
  destruct me as [st c i tk h sn dr rp], peer as [st2 c2 i2 tk2 h2 sn2 dr2 rp2].
  intros [_ _ _ _ Hh _ _] [_ _ _ _ _ Hr _] Hs Hout. unfold stuck, handler_ok, reader_ok, place_ok in *. cbn in *.
  unfold advances. destruct h as [| | | | | | | |p]; [done|..]; try destruct p; try destruct Hr as [Hr _]; try destruct Hh as [Hh _];
    subst; advance Handler; try (destruct i2; lia).
  all: match goal with |- context [send_weight ?a ?p + _ + _ + _] => pose proof (send_weight_ch a c p) end; try lia.
Qed.

Lemma interrupt_advances me peer : isr me = Out → irq me = true → advances me peer.
Proof.
  destruct me as [st c i tk h sn dr rp], peer as [st2 c2 i2 tk2 h2 sn2 dr2 rp2].
  cbn. intros -> ->. unfold advances. advance Interrupt.
Qed.

Lemma task_advances me peer :
  isr me = Out → place_ok me (task me) → task me = Raised ∨ task me ≠ Idle ∧ status me = S_READY → advances me peer.
Proof.
  destruct me as [st c i tk h sn dr rp], peer as [st2 c2 i2 tk2 h2 sn2 dr2 rp2]. cbn.
  intros -> Hp Hor. unfold advances, place_ok in *.
  destruct Hor as [->|[Hi ->]]; [|destruct tk; [done|..]]; advance Task; try (destruct i2; lia); by destruct Hp.
Qed.

Lemma advances_step s :
  advances (s.1) (s.2) ∨ advances (s.2) (s.1) → ∃ s', quiet s s' ∧ weights s' < weights s.
Proof.
  destruct s as [a b]. unfold weights. intros [(e & a' & b' & He & Hexec & Hw)|(e & b' & a' & He & Hexec & Hw)];
    exists (a', b'); (split; [|cbn in *; lia]); [by apply (on_first _ e)|by apply (on_second _ e)].
Qed.

(** With both handlers out and no interrupt pending, nothing is on its way
    except from a task that is about to ring. *)
Lemma lane_quiet s r :
  lane_ok s r → isr s = Out → isr r = Out → irq s = false → irq r = false →
  task s = Raised ∨ status s = S_READY ∧ sent s = reported r.
Proof.
  intros [Hst Hb Hd _ _ _ Hsent] Hs Hr Hi Hir.
  unfold raising, will_look, acked, will_clear, taken, waiting in *. rewrite Hs, Hr, Hi, Hir in *.
  destruct Hst as [Hst|[Hst|Hst]]; rewrite Hst in *; cbn in Hsent.
  - right. by rewrite app_nil_r in Hsent.
  - left. destruct (Hb eq_refl) as [|[[|]|[]]]; done.
  - destruct (Hd eq_refl) as [|[[]|[]]]; done.
Qed.

Lemma progress s : good s → settled s ∨ ∃ s', quiet s s' ∧ weights s' < weights s.
Proof.
  intros [[Hab Hba] _ Ha Hb].
  assert (∀ h, h = Out ∨ h ≠ Out) as Hdec by (intros []; [by left|by right..]).
  destruct (Hdec (isr (s.1))) as [Ho1|Ho1]; [|right; apply advances_step; left; by apply handler_advances].
  destruct (Hdec (isr (s.2))) as [Ho2|Ho2]; [|right; apply advances_step; right; by apply handler_advances].
  destruct (irq (s.1)) eqn:Hi1; [right; apply advances_step; left; by apply interrupt_advances|].
  destruct (irq (s.2)) eqn:Hi2; [right; apply advances_step; right; by apply interrupt_advances|].
  pose proof (lane_task _ _ Hab) as Ht1. pose proof (lane_task _ _ Hba) as Ht2.
  assert (∀ p, p = Idle ∨ p ≠ Idle) as Hidle by (intros []; [by left|by right..]).
  destruct (lane_quiet _ _ Hab) as [|[Hst1 Hrep1]]; [done..|right; apply advances_step; left; apply task_advances; auto|].
  destruct (lane_quiet _ _ Hba) as [|[Hst2 Hrep2]]; [done..|right; apply advances_step; right; apply task_advances; auto|].
  destruct (Hidle (task (s.1))); [|right; apply advances_step; left; apply task_advances; auto].
  destruct (Hidle (task (s.2))); [|right; apply advances_step; right; apply task_advances; auto].
  left. by split_and!.
Qed.

Lemma send_weight_pos c p : 0 ≤ send_weight c p.
Proof. destruct p; cbn; zcases; lia. Qed.
Lemma weight_pos c : 0 ≤ weight c.
Proof.
  unfold weight. pose proof (send_weight_pos (ch c) (task c)).
  assert (0 ≤ handler_weight (ch c) (isr c)) by (destruct (isr c) as [| | | | | | | |p]; cbn; try pose proof (send_weight_pos (ch c) p); lia).
  destruct (irq c), (status c =? S_BUSY); lia.
Qed.

(** Everything comes to rest, after at most [weights s] statements. *)
Lemma settle s : good s → ∃ s', star quiet s s' ∧ settled s'.
Proof.
  induction s as [s IH] using (induction_ltof1 _ (λ s, Z.to_nat (weights s))). unfold ltof in IH. intros Hs.
  destruct (progress s Hs) as [|(s1 & Hq & Hw)]; [by exists s; split; [constructor|]|].
  destruct (IH s1) as (s2 & Hq2 & Hs2).
  - unfold weights in *. pose proof (weight_pos (s1.1)). pose proof (weight_pos (s1.2)). lia.
  - by eapply good_quiet.
  - exists s2. split; [|done]. eapply star_trans; [by apply star_one|done].
Qed.

(** ** Where messages are lost *)

(** A history of calm states: whose event, and which; [calmly]: no collision is
    allowed. *)
Fixpoint history (calmly : bool) (es : list (bool * event)) (s : cores) : option cores :=
  match es with
  | [] => Some s
  | (first, e) :: es' =>
      s' ← (if first : bool then exec e (s.1) (s.2) else '(b, a) ← exec e (s.2) (s.1); Some (a, b));
      if calmly && (collision (s'.1) || collision (s'.2)) then None else history calmly es' s'
  end.

Lemma history_star calmly es s s' :
  history calmly es s = Some s' → star (if calmly then calm_step else step) s s'.
Proof.
  revert s. induction es as [|[first e] es IH]; intros [a b] H; cbn in H; [by injection H as <-; constructor|].
  assert (∃ s1, step (a, b) s1 ∧ (if calmly && (collision (s1.1) || collision (s1.2)) then None else history calmly es s1) = Some s')
    as ([a1 b1] & Hstep & H1).
  { destruct first, (exec e _ _) as [[x y]|] eqn:He; cbn in H; try done; [exists (x, y)|exists (y, x)]; (split; [|exact H]).
    - by apply (on_first _ e).
    - by apply (on_second _ e). }
  destruct (calmly && _) eqn:Hc; [done|]. eapply star_trans; [apply star_one|by apply IH].
  destruct calmly; [|done]. split; [done|]. by apply orb_false_iff in Hc.
Qed.

Definition times (n : nat) (side : bool) (e : event) : list (bool * event) := replicate n (side, e).

(** The first core sends [msg]; the peer reports it; a second request for [msg]
    finds the receipt not yet noticed. *)
Lemma mailbox_loses msg :
  ∃ s, star step link_reset s ∧ settled s ∧ dropped (s.1) = [msg] ∧ sent (s.1) = [msg] ∧ reported (s.2) = [msg].
Proof.
  pose (es1 := (true, Request msg) :: times 4 true Task ++
    (false, Interrupt) :: times 7 false Handler ++ (true, Request msg) :: times 1 true Task).
  pose (es2 := (true, Interrupt) :: times 3 true Handler).
  eassert (history false es1 link_reset = Some _) as H1 by (cbv; reflexivity).
  match type of H1 with _ = Some (?a, ?b) =>
    assert (exec Task a b = Some (set_task Idle (note_dropped msg a), b)) as He by (cbn; by rewrite Z.eqb_refl);
    eassert (history false es2 (set_task Idle (note_dropped msg a), b) = Some _) as H2 by (cbv; reflexivity)
  end.
  apply history_star in H1, H2. eexists. split.
  - eapply star_trans; [exact H1|]. eapply star_trans; [|exact H2]. apply star_one. by apply (on_first _ Task).
  - by split_and!.
Qed.

(** The task has stored [m1] and not yet marked the channel when an interrupt
    reports [m0], upon which [env_isr] sends [m2]. *)
Lemma mailbox_collides (m0 m1 m2 : Z) :
  ∃ s, star step link_reset s ∧ at_rest (s.1) ∧ at_rest (s.2) ∧ sent (s.1) = [m2; m1] ∧ reported (s.2) = [m2].
Proof.
  pose (es := (false, Request m0) :: times 4 false Task ++
    (true, Request m1) :: times 2 true Task ++
    (true, Interrupt) :: times 6 true Handler ++ (true, IsrRequest m2) :: times 5 true Handler ++
    times 2 true Task ++
    (false, Interrupt) :: times 8 false Handler ++
    (true, Interrupt) :: times 3 true Handler).
  assert (∃ s, history false es link_reset = Some s ∧ at_rest (s.1) ∧ at_rest (s.2) ∧ sent (s.1) = [m2; m1] ∧ reported (s.2) = [m2])
    as (s & Hs & HQ) by (eexists; split; [cbv; reflexivity|by split_and!]).
  exists s. split; [by apply (history_star false es)|done].
Qed.

Lemma stuck_star s s' :
  star step s s' → stuck (s.1) = true →
  stuck (s'.1) = true ∧ sent (s'.1) = sent (s.1) ∧ reported (s'.1) = reported (s.1).
Proof.
  induction 1 as [s|s s1 s2 _ IH Hstep]; intros Hs; [done|]. destruct (IH Hs) as (Hs1 & <- & <-).
  destruct Hstep; cbn in *; eauto using stuck_here, stuck_there.
Qed.

(** [m1] has been rung and an interrupt reports [m0], upon which [env_isr] sends
    [m2]. *)
Lemma mailbox_sticks (m0 m1 m2 : Z) :
  m2 ≠ m1 →
  ∃ s, star calm_step link_reset s ∧ stuck (s.1) = true ∧ sent (s.1) = [m1] ∧ ∀ s', star step s s' → sent (s'.1) = [m1].
Proof.
  intros Hm.
  pose (es := (false, Request m0) :: times 4 false Task ++ (true, Request m1) :: times 4 true Task ++
    (true, Interrupt) :: times 6 true Handler ++ [(true, IsrRequest m2)]).
  assert (∃ s, history true es link_reset = Some s ∧ stuck (s.1) = true ∧ sent (s.1) = [m1]) as (s & Hs & Hst & Hsent).
  { eexists. split; [cbv; reflexivity|]. unfold stuck. cbn. by rewrite (proj2 (Z.eqb_neq _ _) Hm). }
  exists s. split_and!; [by apply (history_star true es)|done..|]. intros s' Hs'.
  by destruct (stuck_star s s' Hs' Hst) as (_ & -> & _).
Qed.

(** ** The functions are these statements *)

(** The registers of the first core's channel, as it sees them. *)
Definition as_core (s : core_state) (me peer : core) : Prop :=
  tx_status (mbox s) = status me ∧ tx_ch (mbox s) = ch me ∧ rx_status (mbox s) = status peer ∧ rx_ch (mbox s) = ch peer.

(** The part of the program that runs is in [gen_sw_mbox_sendmsg]. *)
Definition sending (c : core) : option send_pc :=
  match isr c with Out => Some (task c) | InIsr p => Some p | _ => None end.

Lemma star_left {A} (R : A → A → Prop) a b c : R a b → star R b c → star R a c.
Proof. intros H. by apply star_trans, star_one. Qed.

(** The next statement of the first core. *)
Ltac one e :=
  eapply star_left; [apply (on_first _ e); [done|cbn; repeat match goal with H : (_ =? _) = _ |- _ => rewrite H end; reflexivity]|].

Lemma sendmsg_steps n meanwhile msg s me peer :
  as_core s me peer → sending me = Some (Loop msg) → status me = S_READY ∨ ch me = msg →
  ∃ s' me' peer', gen_sw_mbox_sendmsg (S n) meanwhile msg s = Ok tt s' ∧ star quiet (me, peer) (me', peer') ∧
    as_core s' me' peer' ∧ sending me' = Some Idle ∧
    if decide (status me = S_READY)
    then sent me' = sent me ++ [msg] ∧ dropped me' = dropped me ∧ irq peer' = true
    else sent me' = sent me ∧ dropped me' = dropped me ++ [msg] ∧ peer' = peer ∧ s' = s.
Proof.
  intros (Hst & Hch & Hrs & Hrc) Hs Hor. cbn [gen_sw_mbox_sendmsg]. unfold mbind, M_bind, get_state, modify. rewrite Hst, Hch.
  destruct me as [st c i tk h sn dr rp]. unfold as_core, sending in *. cbn in *.
  destruct (decide (st = S_READY)) as [->|Hn%Z.eqb_neq].
  - cbn. eexists _. destruct h; try discriminate Hs; injection Hs as ->; eexists _, _; (split; [reflexivity|]); split.
    1: one Task; one Task; one Task; one Task; constructor.
    2: one Handler; one Handler; one Handler; one Handler; constructor.
    all: by split_and!.
  - destruct Hor as [-> | ->]; [done|]. rewrite Hn. pose proof (Z.eqb_refl msg) as Hm. rewrite Hm. cbn.
    eexists _. destruct h; try discriminate Hs; injection Hs as ->; eexists _, _; (split; [reflexivity|]); split.
    1: one Task; one Task; constructor.
    2: one Handler; one Handler; constructor.
    all: by split_and!.
Qed.

(** On a channel that is busy with another message it looks again. *)
Lemma sendmsg_waits n meanwhile msg s :
  tx_status (mbox s) ≠ S_READY → tx_ch (mbox s) ≠ msg →
  gen_sw_mbox_sendmsg (S n) meanwhile msg s = gen_sw_mbox_sendmsg n meanwhile msg (upd_mbox meanwhile s).
Proof.
  intros Hst%Z.eqb_neq Hch. cbn [gen_sw_mbox_sendmsg]. unfold mbind, M_bind, get_state, modify. rewrite Hst.
  cbn [negb]. by rewrite (proj2 (Z.eqb_neq msg _)) by done.
Qed.

Lemma handler_steps s me peer :
  as_core s me peer → isr me = Entered →
  ∃ s' me' peer', gen_sw_mbox_handler s = Ok tt s' ∧ star quiet (me, peer) (me', peer') ∧ as_core s' me' peer' ∧
    isr me' = (if status peer =? S_BUSY then InIsr Idle else Out) ∧
    reported me' = reported me ++ waiting peer ∧
    status me' = (if status me =? S_DONE then S_READY else status me) ∧
    status peer' = (if status peer =? S_BUSY then S_DONE else status peer) ∧
    isr_calls (log (plat s')) = isr_calls (log (plat s)) ++ ((λ msg, Z.shiftr msg 16) <$> waiting peer).
Proof.
  destruct me as [st c i tk h sn dr rp], peer as [st2 c2 i2 tk2 h2 sn2 dr2 rp2].
  intros (Hst & Hch & Hrs & Hrc) Hh. unfold as_core, waiting, gen_sw_mbox_handler, mbind, M_bind, get_state, modify in *.
  cbn in *. subst h. rewrite Hst.
  destruct (st =? S_DONE) eqn:Hd, (st2 =? S_BUSY) eqn:Hb; cbn; rewrite Hrs, Hb; cbn; rewrite ?Hrc;
    eexists _, _, _; (split; [reflexivity|]); split.
  1: do 7 one Handler; constructor.
  2: do 3 one Handler; constructor.
  3: do 6 one Handler; constructor.
  4: do 2 one Handler; constructor.
  all: cbn; rewrite ?app_nil_r; by split_and!.
Qed.

(** ** Delivery *)

(** C34.  The software mailbox of aarch64, two cores that both send, from tasks
    and from the [env_isr] of the handler.  As long as no handler sends while the
    task it interrupted stands between its look at the channel and [S_BUSY], then
    in both directions the messages put into the register are those reported, in
    order, and those on their way; and unless an [env_isr] waits for a channel
    that is busy with another message, everything comes to rest without new
    requests, with all messages reported and both channels ready.
    [gen_sw_mbox_sendmsg] and [gen_sw_mbox_handler] perform these statements: a
    request, in a task or in [env_isr], puts its message into a ready channel and
    rings, finds the same message there and returns, or tries again; an interrupt
    clears a receipt and reports the message of a busy register.  Messages are
    lost in the other cases: when a handler sends at that moment the task's
    message can be lost; an [env_isr] that waits for a busy channel waits for ever,
    since the receipt is only noticed by the handler it runs in, and that core
    sends nothing any more; and a repeated request made after the peer has taken
    the message, and before the receipt is noticed, is dropped. *)
Theorem mailbox_delivers s (Hs : star calm_step link_reset s) :
  sent (s.1) = reported (s.2) ++ taken (s.2) ++ waiting (s.1) ∧ sent (s.2) = reported (s.1) ++ taken (s.1) ++ waiting (s.2) ∧
  (stuck (s.1) = true ∨ stuck (s.2) = true ∨ ∃ s', star quiet s s' ∧ settled s') ∧
  (∀ n meanwhile msg c me peer, as_core c me peer → sending me = Some (Loop msg) → status me = S_READY ∨ ch me = msg →
     ∃ c' me' peer', gen_sw_mbox_sendmsg (S n) meanwhile msg c = Ok tt c' ∧ star quiet (me, peer) (me', peer') ∧
       as_core c' me' peer' ∧ sending me' = Some Idle ∧
       if decide (status me = S_READY)
       then sent me' = sent me ++ [msg] ∧ dropped me' = dropped me ∧ irq peer' = true
       else sent me' = sent me ∧ dropped me' = dropped me ++ [msg] ∧ peer' = peer ∧ c' = c) ∧
  (∀ n meanwhile msg c, tx_status (mbox c) ≠ S_READY → tx_ch (mbox c) ≠ msg →
     gen_sw_mbox_sendmsg (S n) meanwhile msg c = gen_sw_mbox_sendmsg n meanwhile msg (upd_mbox meanwhile c)) ∧
  (∀ c me peer, as_core c me peer → isr me = Entered →
     ∃ c' me' peer', gen_sw_mbox_handler c = Ok tt c' ∧ star quiet (me, peer) (me', peer') ∧ as_core c' me' peer' ∧
       isr me' = (if status peer =? S_BUSY then InIsr Idle else Out) ∧
       reported me' = reported me ++ waiting peer ∧
       status me' = (if status me =? S_DONE then S_READY else status me) ∧
       status peer' = (if status peer =? S_BUSY then S_DONE else status peer) ∧
       isr_calls (log (plat c')) = isr_calls (log (plat c)) ++ ((λ msg, Z.shiftr msg 16) <$> waiting peer)) ∧
  (∀ m0 m1 m2 : Z, ∃ s, star step link_reset s ∧ at_rest (s.1) ∧ at_rest (s.2) ∧ sent (s.1) = [m2; m1] ∧ reported (s.2) = [m2]) ∧
  (∀ m0 m1 m2 : Z, m2 ≠ m1 →
     ∃ s, star calm_step link_reset s ∧ stuck (s.1) = true ∧ sent (s.1) = [m1] ∧ ∀ s', star step s s' → sent (s'.1) = [m1]) ∧
  (∀ msg, ∃ s, star step link_reset s ∧ settled s ∧ dropped (s.1) = [msg] ∧ sent (s.1) = [msg] ∧ reported (s.2) = [msg]).
Proof.
  apply link_ok_reachable in Hs as [Hc Hok]. pose proof Hok as [Hab Hba].
  split; [apply (lane_sent _ _ Hab)|]. split; [apply (lane_sent _ _ Hba)|]. split.
  { destruct (stuck (s.1)) eqn:H1; [by left|]. destruct (stuck (s.2)) eqn:H2; [by right; left|]. right; right. by apply settle. }
  split; [intros n meanwhile msg c me peer; apply sendmsg_steps|].
  split; [intros n meanwhile msg c; apply sendmsg_waits|].
  split; [intros c me peer; apply handler_steps|].
  split; [exact mailbox_collides|]. split; [exact mailbox_sticks|exact mailbox_loses].
Qed.

(** The first core rings vector 1, and the peer is about to handle it. *)
Definition rung : cores :=
  ({| status := S_BUSY; ch := 65536; irq := false; task := Idle; isr := Out; sent := [65536]; dropped := []; reported := [] |},
   {| status := S_READY; ch := 0; irq := false; task := Idle; isr := Entered; sent := []; dropped := []; reported := [] |}).
Definition core_of (me peer : core) : core_state :=
  {| plat := boot_state;
     mbox := {| rx_status := status peer; tx_status := status me; rx_ch := ch peer; tx_ch := ch me |} |}.

Lemma mailbox_delivers_witness :
  sent (rung.1) = reported (rung.2) ++ [65536] ∧
  (∃ s', star quiet rung s' ∧ settled s') ∧
  ∃ c' me' peer', gen_sw_mbox_handler (core_of (rung.2) (rung.1)) = Ok tt c' ∧ star quiet (rung.2, rung.1) (me', peer') ∧
    reported me' = [65536] ∧ isr_calls (log (plat c')) = [1].
Proof.
  assert (star calm_step link_reset rung) as Hs.
  { by apply (history_star true ((true, Request 65536) :: times 4 true Task ++ [(false, Interrupt)])). }
  destruct (mailbox_delivers rung Hs) as (Hsent & _ & Hl & _ & _ & Hh & _).
  split; [exact Hsent|]. split; [destruct Hl as [|[|Hl]]; [discriminate|discriminate|exact Hl]|].
  destruct (Hh (core_of (rung.2) (rung.1)) (rung.2) (rung.1)) as (c' & me' & peer' & Hrun & Hq & _ & _ & Hrep & _ & _ & Hisr);
    [by split_and!|done|].
  exists c', me', peer'. split_and!; [exact Hrun|exact Hq|exact Hrep|exact Hisr].
Defined.
