(* ===== verification/QnxPlatform.v ===== *)
(** * The QNX platform

    [porting/platform/qnx_aarch64/rpmsg_platform.c]: the messaging unit is read by
    a thread of the process, which [platform_init] starts and waits for.  First
    the functions, each thread on its own, above the calls of [Kernel]; then the
    handshake of the two threads, statement by statement, on the lock of the
    sleep-on interface ([handshake_completes]). *)

From S2P Require Import Prelude Config Kernel.

Definition RECV_THREAD_READY : Z := 1.
Definition RECV_THREAD_FAIL : Z := 2.

Record platform_context_t : Type := { mu_base : Z; mu_irq : Z; mu_handle : Z; thread : Z; ready : Z; env_ctx : Z }.
Record rpmsg_platform_init_data_t : Type := { init_mu_base : Z; init_mu_irq : Z }.
Record process : Type := { base : env_state; blocks : gmap Z platform_context_t }.
Abbreviation T := (M process).

Section qnx_platform.
Context {os : Os}.
(** [malloc] does not clear a block; two macros of [rpmsg_config.h]. *)
Context (fresh_block : Z → list call → platform_context_t) (RPMSG_MU_CHANNEL : Z) (RL_GEN_MU_MSG : Z → Z).

Definition on_base {A} (m : K A) : T A := zoom (λ s, Some (base s)) (λ k s, {| base := k; blocks := blocks s |}) m.
Definition upd_blocks (f : gmap Z platform_context_t → gmap Z platform_context_t) (s : process) : process :=
  {| base := base s; blocks := f (blocks s) |}.
Definition call_t (f : string) (xs : list Z) : T Z := on_base (call_os f xs).
Definition do_t (f : string) (xs : list Z) : T unit := on_base (do_os f xs).

(** [ctx->...]. *)
Definition the_block (ctx : Z) : T platform_context_t :=
  s ← get_state; match blocks s !! ctx with Some c => mret c | None => undef end.
Definition put_block (ctx : Z) (c : platform_context_t) : T unit := modify (upd_blocks <[ctx := c]>).
Definition set_mu_handle (h : Z) (c : platform_context_t) : platform_context_t :=
  {| mu_base := mu_base c; mu_irq := mu_irq c; mu_handle := h; thread := thread c; ready := ready c; env_ctx := env_ctx c |}.
Definition set_ready (r : Z) (c : platform_context_t) : platform_context_t :=
  {| mu_base := mu_base c; mu_irq := mu_irq c; mu_handle := mu_handle c; thread := thread c; ready := r; env_ctx := env_ctx c |}.
Definition set_thread (t : Z) (c : platform_context_t) : platform_context_t :=
  {| mu_base := mu_base c; mu_irq := mu_irq c; mu_handle := mu_handle c; thread := t; ready := ready c; env_ctx := env_ctx c |}.
Definition fill_block (b q e : Z) (c : platform_context_t) : platform_context_t :=
  {| mu_base := b; mu_irq := q; mu_handle := mu_handle c; thread := thread c; ready := 0; env_ctx := e |}.
Definition drop_block (ctx : Z) : T unit := do_t "free" [ctx];; modify (upd_blocks (delete ctx)).

(** ** The receive thread *)

Fixpoint report_status (fuel : nat) (ctx ready_flag : Z) : T unit :=
  match fuel with
  | O => no_fuel
  | S fuel' =>
      status ← call_t "pthread_sleepon_lock" [];
      if status =? EOK then
        c ← the_block ctx;
        put_block ctx (set_ready ready_flag c);;
        do_t "pthread_sleepon_signal" [ctx];;
        do_t "pthread_sleepon_unlock" []
      else report_status fuel' ctx ready_flag
  end.

Definition recv_thread_start (fuel : nat) (ctx : Z) : T Z :=
  r ← call_t "ThreadCtl" [];
  let ready_flag := if negb (r =? 0) then RECV_THREAD_FAIL else RECV_THREAD_READY in
  ready_flag ←
    (if negb (ctx =? NULL) && negb (ready_flag =? RECV_THREAD_FAIL) then
       c ← the_block ctx;
       h ← call_t "imx_mu_init" [mu_base c; mu_irq c];
       put_block ctx (set_mu_handle h c);;
       mret (if h =? NULL then RECV_THREAD_FAIL else ready_flag)
     else mret RECV_THREAD_FAIL);
  report_status fuel ctx ready_flag;;
  mret ready_flag.

(** One turn of the endless loop. *)
Definition recv_thread_turn (ctx : Z) : T unit :=
  c ← the_block ctx;
  r ← call_t "imx_mu_read" [mu_handle c; RPMSG_MU_CHANNEL; 0; 0];
  if r =? 0 then
    s ← get_state;
    do_t "env_isr" [env_ctx c; Z.shiftr (stored "read" (calls_made (base s))) 16]
  else mret tt.

Fixpoint recv_thread_turns (n : nat) (ctx : Z) : T unit :=
  match n with
  | O => mret tt
  | S n' => recv_thread_turn ctx;; recv_thread_turns n' ctx
  end.

(** The thread as far as its first [turns] turns. *)
Definition platform_recv_thread (fuel turns : nat) (ctx : Z) : T unit :=
  ready_flag ← recv_thread_start fuel ctx;
  if ready_flag =? RECV_THREAD_FAIL then mret tt else recv_thread_turns turns ctx.

(** ** The interface *)

Fixpoint notify_loop (fuel : nat) (h msg : Z) : T unit :=
  match fuel with
  | O => no_fuel
  | S fuel' =>
      r ← call_t "imx_mu_send" [h; RPMSG_MU_CHANNEL; msg; 1000];
      if negb (r =? 0) then do_t "delay" [1];; notify_loop fuel' h msg else mret tt
  end.
Definition platform_notify (fuel : nat) (ctx vector_id : Z) : T unit :=
  let msg := RL_GEN_MU_MSG vector_id in
  if negb (ctx =? NULL) then
    c ← the_block ctx;
    if negb (mu_handle c =? NULL) then notify_loop fuel (mu_handle c) msg else mret tt
  else mret tt.

Definition platform_in_isr : Z := 0.
Definition platform_interrupt_enable (vector_id : Z) : Z := 0.
Definition platform_interrupt_disable (vector_id : Z) : Z := 0.
Definition platform_map_mem_region (va pa size flags : Z) : T unit := do_t "fprintf" [].
Definition platform_cache_all_flush_invalidate : T unit := do_t "fprintf" [].
Definition platform_cache_disable : T unit := do_t "fprintf" [].
Definition platform_cache_flush (data len : Z) : T unit := mret tt.
Definition platform_cache_invalidate (data len : Z) : T unit := mret tt.

(** [while (!ctx->ready) pthread_sleepon_wait(&ctx->ready);], where other threads
    run ([meanwhile]) until the wait returns. *)
Fixpoint ready_loop (fuel : nat) (meanwhile : T unit) (ctx : Z) : T unit :=
  match fuel with
  | O => no_fuel
  | S fuel' =>
      c ← the_block ctx;
      if ready c =? 0 then do_t "pthread_sleepon_wait" [ctx];; meanwhile;; ready_loop fuel' meanwhile ctx
      else mret tt
  end.

Fixpoint wait_thread (fuel : nat) (meanwhile : T unit) (ctx : Z) : T unit :=
  match fuel with
  | O => no_fuel
  | S fuel' =>
      status ← call_t "pthread_sleepon_lock" [];
      if status =? EOK then ready_loop fuel meanwhile ctx;; do_t "pthread_sleepon_unlock" []
      else do_t "delay" [1];; wait_thread fuel' meanwhile ctx
  end.

Definition platform_init (fuel : nat) (meanwhile : Z → T unit) (env_context : Z) (init : option rpmsg_platform_init_data_t) :
  T (Z * option Z) :=
  ctx ← call_t "malloc" [size_of "platform_context_t"];
  (if ctx =? NULL then mret tt
   else s ← get_state; put_block ctx (fresh_block ctx (calls_made (base s))));;
  match init with
  | Some init =>
      if ctx =? NULL then mret (-1, None)
      else
        c ← the_block ctx;
        put_block ctx (fill_block (init_mu_base init) (init_mu_irq init) env_context c);;
        r ← call_t "pthread_create" [ctx];
        if negb (r =? 0) then drop_block ctx;; mret (-1, None)
        else
          s ← get_state;
          c ← the_block ctx;
          put_block ctx (set_thread (stored "thread" (calls_made (base s))) c);;
          wait_thread fuel (meanwhile ctx) ctx;;
          c ← the_block ctx;
          if negb (ready c =? RECV_THREAD_READY) then drop_block ctx;; mret (-1, None)
          else mret (0, Some ctx)
  | None => (if negb (ctx =? NULL) then drop_block ctx else mret tt);; mret (-1, None)
  end.

Definition platform_deinit (ctx : Z) : T Z :=
  c ← the_block ctx;
  do_t "pthread_cancel" [thread c];;
  do_t "imx_mu_deinit" [mu_handle c];;
  drop_block ctx;;
  mret 0.

(** ** What [platform_init] returns *)

Definition logged (l : list call) (s : process) : process := {| base := made l (base s); blocks := blocks s |}.

Lemma wp_call_t f xs (Q : Z → process → Prop) s :
  (∀ r, r = answer f xs (calls_made (base s)) → Q r (logged [Call f xs r] s)) → wp (call_t f xs) Q s.
Proof. intros HQ. unfold wp, call_t, on_base, zoom, call_os. by apply HQ. Qed.

Lemma wp_do_t f xs (Q : unit → process → Prop) s :
  (∀ r, Q tt (logged [Call f xs r] s)) → wp (do_t f xs) Q s.
Proof. intros HQ. unfold wp, do_t, on_base, zoom, do_os, call_os, mbind, M_bind. apply HQ. Qed.

Lemma wp_the_block ctx c (Q : platform_context_t → process → Prop) s :
  blocks s !! ctx = Some c → Q c s → wp (the_block ctx) Q s.
Proof. intros Hc HQ. unfold wp, the_block, mbind, M_bind, get_state. by rewrite Hc. Qed.

Lemma wp_put_block ctx c (Q : unit → process → Prop) s : wp (put_block ctx c) Q s = Q tt (upd_blocks <[ctx := c]> s).
Proof. done. Qed.

Ltac t_step :=
  first
    [rewrite wp_bind | rewrite wp_ret | rewrite wp_get_state | rewrite wp_modify | rewrite wp_put_block
    |apply wp_call_t; let r := fresh "r" in let E := fresh "E" in intros r E | apply wp_do_t; intros ?
    |eapply wp_the_block; [cbn; apply lookup_insert_eq|] ]; cbn beta.
Ltac t_steps := repeat t_step.

Lemma wp_exists_t {A} (m : T A) Q s : wp m Q s → ∃ r s', m s = Ok r s' ∧ Q r s'.
Proof. apply wp_unfold. Qed.

(** A block that is taken and given back. *)
Lemma drop_block_wp ctx (Q : unit → process → Prop) s :
  (∀ r, Q tt (upd_blocks (delete ctx) (logged [Call "free" [ctx] r] s))) → wp (drop_block ctx) Q s.
Proof. intros HQ. unfold drop_block. t_steps. apply HQ. Qed.

(** Between two states of the process: the calls in between neither take nor
    give memory, and only the block [ctx] changes. *)
Definition apart (ctx : Z) (s s' : process) : Prop :=
  (∃ l, base s' = made l (base s) ∧ Forall (λ x, fn x ≠ "malloc" ∧ fn x ≠ "free") l) ∧
  ∀ x, x ≠ ctx → blocks s' !! x = blocks s !! x.

Lemma apart_refl ctx s : apart ctx s s.
Proof. split; [|done]. exists []. split; [by destruct s as [[]]|constructor]. Qed.

Lemma apart_logged ctx s s' f xs r :
  apart ctx s s' → f ≠ "malloc" → f ≠ "free" → apart ctx s (logged [Call f xs r] s').
Proof.
  intros [(l & Hl & Hf) Hb] H1 H2. split; [|done]. exists (Call f xs r :: l). split; [cbn; by rewrite Hl|].
  constructor; [done|exact Hf].
Qed.

Lemma apart_put ctx s s' c : apart ctx s s' → apart ctx s (upd_blocks <[ctx := c]> s').
Proof. intros [Hl Hb]. split; [exact Hl|]. intros x Hx. cbn. rewrite lookup_insert_ne by done. by apply Hb. Qed.

Ltac apart_solve := repeat first [apply apart_put | apply apart_logged; [|done|done] | apply apart_refl | assumption].

Lemma report_status_wp fuel ctx c ready_flag (Q : unit → process → Prop) s0 s :
  (∀ l, answer "pthread_sleepon_lock" [] l = EOK) → blocks s !! ctx = Some c → apart ctx s0 s →
  (∀ s', apart ctx s0 s' → blocks s' !! ctx = Some (set_ready ready_flag c) → Q tt s') →
  wp (report_status (S fuel) ctx ready_flag) Q s.
Proof.
  intros Hlock Hc Ha HQ. cbn [report_status]. t_steps. rewrite E, Hlock, Z.eqb_refl. t_steps.
  eapply wp_the_block; [exact Hc|]. t_steps. apply HQ; [apart_solve|cbn; apply lookup_insert_eq].
Qed.

(** The thread reports what it found, and keeps the unit it opened. *)
Lemma recv_thread_start_wp fuel ctx c (Q : Z → process → Prop) s0 s :
  (∀ l, answer "pthread_sleepon_lock" [] l = EOK) → ctx ≠ NULL → blocks s !! ctx = Some c → apart ctx s0 s →
  (∀ ready_flag h s',
     ready_flag = RECV_THREAD_FAIL ∨ ready_flag = RECV_THREAD_READY ∧ h ≠ NULL → apart ctx s0 s' →
     blocks s' !! ctx = Some (set_ready ready_flag (set_mu_handle h c)) → Q ready_flag s') →
  wp (recv_thread_start (S fuel) ctx) Q s.
Proof.
  intros Hlock Hne Hc Ha HQ. unfold recv_thread_start. t_steps. rewrite (proj2 (Z.eqb_neq _ _) Hne). cbn [negb andb].
  destruct (r =? 0); cbn -[report_status]; t_steps.
  - eapply wp_the_block; [exact Hc|]. t_steps.
    eapply (report_status_wp _ _ _ _ _ s0); [exact Hlock|cbn; apply lookup_insert_eq|apart_solve|]. intros s' Ha' Hs'. t_steps.
    eapply HQ; [|exact Ha'|exact Hs']. destruct (Z.eqb_spec r0 NULL); auto.
  - eapply (report_status_wp _ _ _ _ _ s0); [exact Hlock|exact Hc|apart_solve|]. intros s' Ha' Hs'. t_steps.
    apply (HQ _ (mu_handle c)); [by left|done|]. rewrite Hs'. by destruct c.
Qed.

(** A block taken, used and given back leaves no trace. *)
Lemma given_back ctx s s' r :
  ctx ≠ NULL → apart ctx (logged [Call "malloc" [size_of "platform_context_t"] ctx] s) s' →
  let s2 := upd_blocks (delete ctx) (logged [Call "free" [ctx] r] s') in
  (∀ x, blocks s !! x = None → blocks s2 !! x = None) ∧
  ∀ h, balance "malloc" "free" None h (calls_made (base s2)) = balance "malloc" "free" None h (calls_made (base s)).
Proof.
  intros Hne [(l & Hl & Hf) Hb]. split.
  - intros x Hx. cbn. destruct (decide (x = ctx)) as [->|]; [apply lookup_delete_eq|].
    rewrite lookup_delete_ne by done. by rewrite Hb.
  - intros h. cbn -[Z.eqb Z.add Z.sub]. rewrite Hl. cbn -[Z.eqb Z.add Z.sub].
    assert (∀ l0, balance "malloc" "free" None h (l ++ l0) = balance "malloc" "free" None h l0) as ->.
    { clear -Hf. intros l0. induction Hf as [|x l [H1 H2] Hf IH]; [done|]. cbn -[Z.eqb Z.add Z.sub]. rewrite IH.
      unfold creates, deletes. rewrite (proj2 (String.eqb_neq _ _) H1), (proj2 (String.eqb_neq _ _) H2). cbn. lia. }
    cbn -[Z.eqb Z.add Z.sub]. unfold creates, deletes; cbn -[Z.eqb]. destruct (Z.eqb_spec ctx h) as [<-|]; [|cbn; lia].
    rewrite (proj2 (Z.eqb_neq ctx NULL) Hne). cbn. lia.
Qed.

Definition init_post (env : Z) (init : rpmsg_platform_init_data_t) (s : process) (r : Z * option Z) (s' : process) : Prop :=
  match r with
  | (z, Some ctx) =>
      z = 0 ∧ ctx ≠ NULL ∧ ∃ c, blocks s' !! ctx = Some c ∧ ready c = RECV_THREAD_READY ∧ mu_handle c ≠ NULL ∧
        env_ctx c = env ∧ mu_base c = init_mu_base init ∧ mu_irq c = init_mu_irq init
  | (z, None) =>
      z = -1 ∧ (∀ ctx, blocks s !! ctx = None → blocks s' !! ctx = None) ∧
      ∀ h, balance "malloc" "free" None h (calls_made (base s')) = balance "malloc" "free" None h (calls_made (base s))
  end.

Lemma abort_init env init ctx s s' :
  ctx ≠ NULL → apart ctx (logged [Call "malloc" [size_of "platform_context_t"] ctx] s) s' →
  wp (drop_block ctx;; mret (-1, None)) (init_post env init s) s'.
Proof.
  intros Hne Ha. rewrite wp_bind. apply drop_block_wp. intros r. rewrite wp_ret. split; [done|]. by apply given_back.
Qed.

(** Provided the lock is given, and the thread starts while its parent sleeps:
    either the unit is open and the thread running, with the data of the caller
    in the context, or every block is given back. *)
Theorem qnx_platform_init_result fuel env init s :
  (∀ l, answer "pthread_sleepon_lock" [] l = EOK) →
  let start_thread ctx := _ ← recv_thread_start (S fuel) ctx; mret tt in
  ∃ r s', platform_init (S (S fuel)) start_thread env (Some init) s = Ok r s' ∧ init_post env init s r s'.
Proof.
  intros Hlock start_thread. apply wp_exists_t. unfold platform_init. t_steps.
  destruct (Z.eqb_spec r NULL) as [->|Hne]; t_steps.
  { split; [done|]. split; [done|]. intros h. cbn -[Z.eqb Z.add Z.sub]. unfold creates, deletes; cbn -[Z.eqb].
    destruct (Z.eqb_spec NULL h) as [<-|]; cbn; lia. }
  clear E. set (s0 := logged _ s).
  destruct (r0 =? 0); cbn [negb]; [|apply abort_init; [done|apart_solve]].
  t_steps. cbn [wait_thread]. t_steps. rewrite E, Hlock, Z.eqb_refl. cbn [ready_loop]. t_steps.
  cbn [ready set_thread fill_block]. rewrite Z.eqb_refl. t_steps.
  unfold start_thread at 1. rewrite wp_bind. eapply (recv_thread_start_wp _ _ _ _ s0); [exact Hlock|exact Hne|cbn; apply lookup_insert_eq|apart_solve|].
  intros flag h s' Hflag Ha Hs'. t_steps. cbn [ready_loop]. t_steps. eapply wp_the_block; [exact Hs'|].
  assert (flag =? 0 = false) as Hz by (by destruct Hflag as [->|[-> _]]). cbn [ready set_ready]. rewrite Hz. t_steps.
  eapply wp_the_block; [exact Hs'|]. cbn [ready set_ready]. destruct Hflag as [->|[-> Hh]]; cbn [negb].
  - apply abort_init; [done|apart_solve].
  - t_steps. split; [done|]. split; [done|]. eexists. split; [exact Hs'|]. by split_and!.
Qed.

End qnx_platform.

(** ** The handshake

    The parent at [platform_init] after [pthread_create] and the thread at the
    end of its start: the lock of the sleep-on interface, [ctx->ready], and where
    each of them is.  A lock may fail instead of waiting, and a wait may end
    without a signal. *)
Inductive parent : Type := PLock | PTest | PSleep (woken : bool) | PUnlock | PDone.
Inductive child : Type := CStart | CLock | CStore | CSignal | CUnlock | CDone.
Inductive owner : Type := Nobody | Parent | Child.
Record handshake : Type := { par : parent; chi : child; lock : owner; ctx_ready : Z; found : Z }.
Definition created : handshake := {| par := PLock; chi := CStart; lock := Nobody; ctx_ready := 0; found := 0 |}.

Inductive hstep : handshake → handshake → Prop :=
| p_lock c r f : hstep {| par := PLock; chi := c; lock := Nobody; ctx_ready := r; found := f |}
                       {| par := PTest; chi := c; lock := Parent; ctx_ready := r; found := f |}
| p_lock_fails c o r f : hstep {| par := PLock; chi := c; lock := o; ctx_ready := r; found := f |}
                               {| par := PLock; chi := c; lock := o; ctx_ready := r; found := f |}
| p_ready c o r f : r ≠ 0 → hstep {| par := PTest; chi := c; lock := o; ctx_ready := r; found := f |}
                                  {| par := PUnlock; chi := c; lock := o; ctx_ready := r; found := f |}
| p_wait c o f : hstep {| par := PTest; chi := c; lock := o; ctx_ready := 0; found := f |}
                       {| par := PSleep false; chi := c; lock := Nobody; ctx_ready := 0; found := f |}
| p_spurious c o r f : hstep {| par := PSleep false; chi := c; lock := o; ctx_ready := r; found := f |}
                             {| par := PSleep true; chi := c; lock := o; ctx_ready := r; found := f |}
| p_wake c r f : hstep {| par := PSleep true; chi := c; lock := Nobody; ctx_ready := r; found := f |}
                       {| par := PTest; chi := c; lock := Parent; ctx_ready := r; found := f |}
| p_unlock c o r f : hstep {| par := PUnlock; chi := c; lock := o; ctx_ready := r; found := f |}
                           {| par := PDone; chi := c; lock := Nobody; ctx_ready := r; found := f |}
| c_start p o r f ready_flag : ready_flag = RECV_THREAD_READY ∨ ready_flag = RECV_THREAD_FAIL →
    hstep {| par := p; chi := CStart; lock := o; ctx_ready := r; found := f |}
          {| par := p; chi := CLock; lock := o; ctx_ready := r; found := ready_flag |}
| c_lock p r f : hstep {| par := p; chi := CLock; lock := Nobody; ctx_ready := r; found := f |}
                       {| par := p; chi := CStore; lock := Child; ctx_ready := r; found := f |}
| c_lock_fails p o r f : hstep {| par := p; chi := CLock; lock := o; ctx_ready := r; found := f |}
                               {| par := p; chi := CLock; lock := o; ctx_ready := r; found := f |}
| c_store p o r f : hstep {| par := p; chi := CStore; lock := o; ctx_ready := r; found := f |}
                          {| par := p; chi := CSignal; lock := o; ctx_ready := f; found := f |}
| c_signal p o r f : hstep {| par := p; chi := CSignal; lock := o; ctx_ready := r; found := f |}
    {| par := match p with PSleep _ => PSleep true | _ => p end; chi := CUnlock; lock := o; ctx_ready := r; found := f |}
| c_unlock p o r f : hstep {| par := p; chi := CUnlock; lock := o; ctx_ready := r; found := f |}
                           {| par := p; chi := CDone; lock := Nobody; ctx_ready := r; found := f |}.

(** The lock has the owner the positions say; [ready] is stored when the thread
    has come that far, and then no sleeper is left without its signal. *)
Definition holds_p (p : parent) : bool := match p with PTest | PUnlock => true | _ => false end.
Definition holds_c (c : child) : bool := match c with CStore | CSignal | CUnlock => true | _ => false end.
Definition told (c : child) : bool := match c with CSignal | CUnlock | CDone => true | _ => false end.
Definition handshake_ok (s : handshake) : Prop :=
  lock s = (if holds_p (par s) then Parent else if holds_c (chi s) then Child else Nobody) ∧
  holds_p (par s) && holds_c (chi s) = false ∧
  (chi s = CStart ∨ found s = RECV_THREAD_READY ∨ found s = RECV_THREAD_FAIL) ∧
  ctx_ready s = (if told (chi s) then found s else 0) ∧
  (par s = PSleep false → chi s ≠ CUnlock ∧ chi s ≠ CDone) ∧
  (par s = PUnlock ∨ par s = PDone → told (chi s) = true).

Lemma handshake_ok_step s s' : handshake_ok s → hstep s s' → handshake_ok s'.
Proof.
  unfold handshake_ok, RECV_THREAD_READY, RECV_THREAD_FAIL. intros (Hl & Hx & Hf & Hr & Hs & Hu) Hstep.
  destruct Hstep; cbn in *;
    repeat match goal with
    | p : parent |- _ => destruct p as [| |[]| |]; cbn in *
    | c : child |- _ => destruct c; cbn in *
    end; try done; split_and!; try done; try naive_solver lia.
Qed.

(** Steps left. *)
Definition remaining (s : handshake) : nat :=
  (match chi s with CStart => 60 | CLock => 50 | CStore => 40 | CSignal => 30 | CUnlock => 20 | CDone => 0 end +
   if told (chi s) then match par s with PLock => 4 | PSleep _ => 4 | PTest => 3 | PUnlock => 2 | PDone => 0 end
   else match par s with PTest => 1 | _ => 0 end)%nat.

Tactic Notation "hstep_by" uconstr(H) := right; eexists; split; [apply H|cbn; lia].

Lemma handshake_progress s :
  handshake_ok s → par s = PDone ∧ chi s = CDone ∨ ∃ s', hstep s s' ∧ (remaining s' < remaining s)%nat.
Proof.
  destruct s as [p c o r f]. unfold handshake_ok; cbn. intros (-> & Hx & Hf & -> & Hs & Hu).
  assert (told c = true → f ≠ 0) as Hf0.
  { intros Ht. destruct Hf as [->|[->| ->]]; done. }
  destruct c, p as [| |[]| |]; cbn in *; try (by left); try done;
    try (by destruct (Hs eq_refl)); try discriminate (Hu (or_introl eq_refl)); try discriminate (Hu (or_intror eq_refl));
    first
      [hstep_by (c_start _ _ _ _ RECV_THREAD_READY (or_introl eq_refl)) | hstep_by c_lock | hstep_by c_store | hstep_by c_signal
      |hstep_by c_unlock | hstep_by p_wait | hstep_by (p_ready _ _ _ _ (Hf0 eq_refl)) | hstep_by p_lock
      |hstep_by p_wake | hstep_by p_unlock].
Qed.

Lemma handshake_ok_reachable s : star hstep created s → handshake_ok s.
Proof.
  intros Hs. apply (star_invariant hstep handshake_ok created s handshake_ok_step Hs).
  unfold handshake_ok; cbn. split_and!; auto; naive_solver.
Qed.

(** From every state the two threads can reach, whatever the interleaving: never
    both inside the lock; [platform_init] goes on only after the thread has
    reported, with the status it found; and nothing is stuck: some way on, both
    come to their ends. *)
Theorem handshake_completes s :
  star hstep created s →
  holds_p (par s) && holds_c (chi s) = false ∧
  (par s = PUnlock ∨ par s = PDone → ctx_ready s = found s ∧ (found s = RECV_THREAD_READY ∨ found s = RECV_THREAD_FAIL)) ∧
  ∃ s', star hstep s s' ∧ par s' = PDone ∧ chi s' = CDone.
Proof.
  intros Hs%handshake_ok_reachable. pose proof Hs as (_ & Hx & Hf & Hr & _ & Hu). split; [done|]. split.
  - intros Hp%Hu. rewrite Hr, Hp. split; [done|]. destruct Hf as [Hc|]; [by rewrite Hc in Hp|done].
  - clear Hx Hf Hr Hu. revert Hs. induction s as [s IH] using (well_founded_induction (Wf_nat.well_founded_ltof _ remaining)).
    intros Hs. destruct (handshake_progress s Hs) as [Hend|(s1 & Hstep & Hlt)]; [exists s; by split; [constructor|]|].
    destruct (IH s1 Hlt (handshake_ok_step _ _ Hs Hstep)) as (s' & Hs' & Hend).
    exists s'. split; [|done]. eapply star_trans; [apply star_one, Hstep|exact Hs'].
Qed.
